(* ===== verification/_CoqProject ===== *)
-Q . S2P
Prelude.v
PyStr.v
PyNum.v
Json.v
Schemas.v
Requests.v
Regex.v
Evidence.v
EvidenceTheory.v
Packs.v
PackDump.v
Snapshot.v
Ledger.v
LedgerTheory.v
LedgerProgress.v
ContentCopy.v
ContentChecks.v
ContentPack.v
LifeChecks.v
ContentTheory.v
Catalog.v
Router.v
State.v
Ladder.v
Understand.v
Question.v
Respond.v
Gate.v
SpeakerText.v
SpeakerNumerals.v
SpeakerPlan.v
Reply.v
Speak.v
StableCopy.v
CopyCache.v
CopyResolver.v
Turn.v
LadderTheory.v
HomeContract.v
RequestTheory.v
UnderstandTheory.v
QuestionTheory.v
Samples.v
NoteTheory.v
TurnTheory.v
SpeakerTheory.v
SpeakerSafety.v
SpeakerTotal.v
SpeakerCoherence.v
TurnTotal.v
SessionTheory.v
Witnesses.v
SessionWitnesses.v
CopyTheory.v
Lease.v
LeaseTheory.v
Outbox.v
OutboxTheory.v
Profile.v
LadderAnalysis.v
LadderJobs.v
LadderJobsTheory.v
LadderHistory.v
QueueWitnesses.v
Conversation.v
ConversationTheory.v
ConversationCommit.v
ConversationSafety.v
SessionParent.v
SessionParentTheory.v
HomeConversation.v
ConversationWitnesses.v
LifeScenario.v
LifeEngine.v
LifeTheory.v
LifeSteps.v
LifeSessions.v
LifeProperties.v
LifeConversation.v
LifeWitnesses.v
