(* ===== verification/Prelude.v ===== *)
(** Mormi-AI: a model of the dialogue service and what makes it correct.

    * The program

    A child teaches "Mormi" the method of one task.  The service
    ([src/mormi_api]) keeps a conversation per lesson.  A response of the child
    passes a gate, is interpreted (free text by a language model under a literal
    evidence guard, choices and joint actions by the reviewed content), grows a
    reasoning ledger of verified facts and relations, moves two support ladders,
    and is answered by a turn that asks for something still open, until the task is
    complete and a star note may credit the child.  Around the engine: the
    conversation tables with their idempotent, concurrent commits and the retention
    of raw text, an outbox of integration events, and a queue of analyses that
    recommend a learner's level for a teacher to approve.

    * Conventions

    A function that may raise returns [res] ([Ok] or [Raise] of a [pyexn] below);
    statements are its monadic bind.  [str] is a [string] of UTF-8 bytes, or the
    code points [ustr] where the source indexes or measures text.  Python's [int]
    is [Z], [int | float] is [pynum], a [dict] is a [gmap] or, where its order
    matters, an association list; a mutated model object is passed as state and
    returned.  Database tables are lists of rows; a transaction of the source is one
    step, the retention purge, which takes no lock, two (a read and a write), and
    concurrent requests are interleavings of such steps.

    * Files

    Language and libraries of the source: [Prelude] (errors, the monad, list
    functions, automation), [PyStr] (text), [PyNum] (numbers and [Decimal]),
    [Json] ([json.dumps], SHA-256), [Regex] ([re.fullmatch]).

    Data ([schemas.py]): [Schemas], [Requests], [State].

    Reviewed content ([dialogue_v2_content.py], [dialogue_v2_life_content.py],
    [copy_quality.py]): [Packs] the records, [PackDump] their dumps and hashes,
    [ContentCopy], [ContentChecks], [ContentPack], [LifeChecks] every validator,
    [Catalog] the nine packs of the repository; theory in [ContentTheory] and
    [HomeContract].  [Router] ([dialogue_v2_router.py]): which engine a new
    conversation is pinned to.

    Evidence and ledger ([dialogue_v2_evidence.py], [dialogue_v2_ledger.py]):
    [Evidence], [Snapshot], [Ledger]; theory in [EvidenceTheory], [LedgerTheory],
    [LedgerProgress].

    Home turn engine ([dialogue_v2_runtime.py], [dialogue_v2_graph.py],
    [dialogue_v2_attempt_graph.py]; the gate of [service.py]): [Ladder],
    [Understand], [Question], [Respond], [Gate], [Reply], [Turn]; theory in
    [LadderTheory], [RequestTheory], [UnderstandTheory], [QuestionTheory],
    [NoteTheory], [TurnTheory], [TurnTotal], [SessionTheory].

    Speaker ([dialogue_v2_speaker.py] and the speech functions of
    [dialogue_v2_runtime.py]): [SpeakerText] what the firewall reads in a line,
    [SpeakerPlan] the plans of both models with their validators, [Speak] their
    compilation, the attempts and the line that is said; [SpeakerTheory] lines fit the
    turn contract, [SpeakerSafety] what plans and lines withhold, [SpeakerNumerals]
    amounts in words, [SpeakerTotal] and [SpeakerCoherence] when a turn has speech.

    Stable copies ([dialogue_v2_copy.py], [copy_cache.py], the stable-copy models of
    [dialogue_v2_speaker.py]): [StableCopy] the plans of a pack's copy slots and the
    set a conversation pins, [CopyCache] the leased artifacts, [CopyResolver] the
    resolution of one copy; [CopyTheory] what they promise.

    Life engine ([dialogue_v2_life_runtime.py], [dialogue_v2_scenario_snapshot.py]):
    [LifeScenario] the pinned scenario with its revalidation, [LifeEngine] the turn,
    the transition and the completion, over the home engine's understanding,
    ladders and speech; [LifeTheory] what a validated scenario promises and the
    invariant of a pinned one, [LifeSteps] the parts of a turn, [LifeSessions] the
    invariant of a session, [LifeProperties] what follows from it,
    [LifeConversation] the life engine behind the store.

    Conversations ([service.py], [repository.py], [db.py], [security.py]):
    [Conversation] the tables, transactions and the path of one response;
    [ConversationTheory] the invariant, [ConversationCommit] its preservation,
    [ConversationSafety] every reachable interleaving and the properties,
    [HomeConversation] the home engine behind the store.

    Session parent ([session_parent_*.py], [_respond_stream_scoped] of
    [service.py]): [SessionParent] the cursor table, the packet codec, the graph's
    nodes and the coordinator around the turn service; [SessionParentTheory] its
    simulation by the turn service, its availability and its cursors.

    Queues ([outbox.py], [ladder_analysis*.py], [ladder_model/policy.py], the
    profile functions of [engine.py]): [Lease] and [LeaseTheory] the leased table
    both queues share, [Outbox], [OutboxTheory], [Profile], [LadderAnalysis],
    [LadderJobs], [LadderJobsTheory], [LadderHistory].

    Concrete inputs: [Samples], [Witnesses], [SessionWitnesses], [QueueWitnesses],
    [ConversationWitnesses], [LifeWitnesses].

    * Interfaces

    [Snapshot.PackModel] is what the ledger asks of the content validators
    ([PackModelChecks], [PackModelLaws]; instances in the content files);
    [HomeContract.HomePackLaws] what a validated home pack promises the engine;
    [Turn.SpeechPort] the two speaker models, the Unicode tables and the stable copy,
    whose laws ([SpeechPortLaws]) promise that models answer with text and that a copy
    fits the turn contract; [CopyResolver.CopyCodec] the reading and writing of stored
    artifacts; [Lease.LeasedRow] a row of a leased
    table; [Conversation.TurnEngine] with its laws what the store asks of an
    engine, discharged for the home engine in [HomeConversation] and for the life
    engine in [LifeConversation]; [SessionParent.GraphLibrary] the operations of the
    graph library and its saver, whose only law is that decoding raises errors of
    decoding.  The
    understanding model, the HTTP client, the speech model, the legacy cipher and
    database collation are parameters, quantified over in every theorem.

    * What is shown

    Sessions: every reachable home session, from whatever level it starts, is
    consistent; an admitted response is interpreted, and answered exactly when the
    speech of the interpreted turn fits; a turn only grows what was verified, support never withdraws and
    always reaches joint work, a finished session reports every required fact, and
    a note is credited only to a child who earned it.  Findings: a session started at
    joint work counts as independent in the profile, a partial answer that asks for
    help with no card on screen fails, and so do two claims over one quotation.
    Speaker: a line a model says names no answer still open and only numbers just
    earned, the plans hide the child's words and the open answers, an open amount
    spelled in one word before won, with no numeral before it, is refused.  Finding: a
    spelling with spaces can pass.
    Stable copies: a ready artifact is never changed and a lease is exclusive, every
    copy resolves to text that passes the firewall, a compiled plan set can be pinned.
    Life scenarios: every validated scenario can be pinned and resolves to itself;
    in every reachable session it still does, finished tasks are complete and later
    ones untouched; the active task resolves exactly within the evidence bound; a turn stays in its task and opens the next one exactly when
    nothing is left open, in the variant the verified answers select; notes are
    shown once, and a reward means every task was taught without support.  Finding:
    a validated selector may leave out an accepted answer.
    Ledger: applying admitted claims refines a fold over two sets; reloading is
    exact within the persistence bounds (and fails beyond them, a finding).
    Evidence and understanding: admission partitions the claims exactly, every
    behaviour of the model yields a typed result, the repair attempt loses nothing.
    Content: the acyclicity search terminates and decides, the reviewed catalog
    validates and is ready for the engine.
    Conversations: under any interleaving in which purges write over rows as they
    read them, a stored conversation stays one a sequence of turns leads to, each answer is recorded once, one response has one
    answer, raw text is written only before its deadline; findings: a
    purge can overwrite a turn committed between its read and its write, a late turn
    cancels the purge, a concurrent duplicate is refused instead of replayed.
    Session parent: with any faults, packets and graph results, what runs under the
    parent is simulated by the turn service, and every request gets the service's
    answer; cursors name committed boundaries only and never go back.
    Queues: attempts are handed out and reported once, crashed deliveries are
    reclaimed, recommendations are exactly justified and approvable, and approval
    moves one step; findings: retry delays overflow, a profile save undoes an
    approval.

    * Bounds and fuel

    The acyclicity search takes one unit of fuel more than there are facts, which
    bounds a path without repetition, and is proved to decide; readers of authored
    copy take the length of the text, of which each round consumes some; the
    understanding graph makes at most two attempts; a dispatcher's cycle runs the
    rounds of its batch size.  Ledger evidence is bounded at 100 entries per item by
    validation only; both sides of the bound are proved.
    [2 ** attempts] of the retry delay overflows a double at 1024, as a theorem.

    * Not modelled

    The slot engine for conversations created before V2 ([engine.py] except
    profiles, [content.py]); prompts and model gateways ([llm.py]); HTTP routing and authentication ([main.py]); reports;
    dictionary cards and offline audits; authored scenario literals; training of
    the ladder model; settings, migrations and logging.  Within the modelled parts:
    the home engine takes its stable copy from [SpeechPort], not from [CopyResolver],
    whose writing of the copy into the state and prewarming are left out;
    the contextual wording of a star note, the claim and note-evidence rows of a
    commit (whether the database accepts them is an input), legacy envelopes of
    note evidence, the creation request before its insert, and the polling loops
    around the queue cycles. *)

From stdpp Require Export base tactics option list gmap strings.
From Stdlib Require Export ZArith Lia.

(** * Python exceptions and the error monad

    A Python function that may raise is a function into [res]; a [raise] is
    [Raise e], and a statement sequence is the monadic bind. *)

Inductive pyexn :=
  | ValueError (msg : string)
  | DialogueV2LedgerError (msg : string)
  | ValidationError (msg : string)      (* pydantic: a constructor's validator failed *)
  | KeyError (key : string)
  | TypeError
  | AttributeError
  | IndexError
  | StopIteration
  | AssertionError
  | RuntimeError (msg : string)
  | OverflowError
  | LadderAnalysisNotFoundError (analysis_id : string)
  | LadderAnalysisStaleError (msg : string)
  | LadderAnalysisNotApplicableError (msg : string)
  | IntegrityError
  | ConversationNotFoundError (conversation_id : string)
  | StaleConversationError (msg : string)
  | DuplicateResponseError (response_id : string)
  | PersistenceError (code : string)
  | DialogueV3ScenarioSnapshotError (msg : string)
  | StableCopyResolutionError (msg : string)
  | StableCopyOutputViolationError (msg : string)   (* a StableCopyResolutionError *)
  | StableCopyCacheKeyError (msg : string)          (* a ValueError *)
  | CopyCacheCorruptionError (msg : string)
  | UnderstandingEvidenceGuardError (violations : list (string * string)).

Inductive res (A : Type) :=
  | Ok (a : A)
  | Raise (e : pyexn).
Arguments Ok {A} a.
Arguments Raise {A} e.

#[export] Instance pyexn_eq_dec : EqDecision pyexn.
Proof. solve_decision. Defined.
#[export] Instance res_eq_dec {A} `{EqDecision A} : EqDecision (res A).
Proof. solve_decision. Defined.

#[export] Instance res_ret : MRet res := fun A a => Ok a.
#[export] Instance res_bind : MBind res := fun A B f m =>
  match m with Ok a => f a | Raise e => Raise e end.
#[export] Instance res_fmap : FMap res := fun A B f m =>
  match m with Ok a => Ok (f a) | Raise e => Raise e end.

(** [if cond: raise e] *)
Definition raise_if (cond : bool) (e : pyexn) : res unit :=
  if cond then Raise e else Ok tt.

(** [x if x is not None else raise e] *)
Definition or_raise {A} (o : option A) (e : pyexn) : res A :=
  match o with Some a => Ok a | None => Raise e end.

Lemma bind_raise_if_Ok {A} c e (k : res A) x :
  (_ ← raise_if c e; k) = Ok x <-> c = false /\ k = Ok x.
Proof. destruct c; simpl; naive_solver. Qed.

Lemma raise_if_Ok c e u : raise_if c e = Ok u <-> c = false.
Proof. destruct c, u; simpl; naive_solver. Qed.

Lemma bind_raise_ok {A} c e (k : res A) : c = false -> (_ ← raise_if c e; k) = k.
Proof. by intros ->. Qed.

Definition is_ok {A} (r : res A) : bool :=
  match r with Ok _ => true | Raise _ => false end.

Section foldM.
Context {A B : Type} (f : A -> B -> res A).

(** [for b in l: acc = f(acc, b)], stopping at the first exception. *)
Fixpoint foldM (a : A) (l : list B) : res A :=
  match l with
  | [] => Ok a
  | b :: l' => a' ← f a b; foldM a' l'
  end.

Lemma foldM_app a l1 l2 :
  foldM a (l1 ++ l2) = (a' ← foldM a l1; foldM a' l2).
Proof.
  revert a; induction l1 as [|b l1 IH]; intros a; [done|].
  simpl. destruct (f a b); simpl; [apply IH|done].
Qed.

(** An invariant of the loop body is an invariant of the loop. *)
Lemma foldM_inv (P : A -> Prop) l a a' :
  (forall x b x', b ∈ l -> P x -> f x b = Ok x' -> P x') ->
  P a -> foldM a l = Ok a' -> P a'.
Proof.
  revert a; induction l as [|b l IH]; intros a Hstep Ha Hrun; simpl in Hrun.
  - by injection Hrun as <-.
  - destruct (f a b) as [x|e] eqn:E; simpl in Hrun; [|done].
    apply (IH x); [|eapply Hstep; [apply list_elem_of_here|done..]|done].
    intros y c y' Hc. apply Hstep. by apply list_elem_of_further.
Qed.

(** If every step from an invariant state succeeds, so does the loop. *)
Lemma foldM_total (P : A -> Prop) l a :
  (forall x b, b ∈ l -> P x -> exists x', f x b = Ok x' /\ P x') ->
  P a -> exists a', foldM a l = Ok a' /\ P a'.
Proof.
  revert a; induction l as [|b l IH]; intros a Hstep Ha; simpl.
  - by exists a.
  - destruct (Hstep a b (list_elem_of_here _ _) Ha) as (x & -> & Hx). simpl.
    apply IH; [|done]. intros y c Hc. apply Hstep. by apply list_elem_of_further.
Qed.

(** A property established by the step for [b] and kept by every later step
    holds at the end for every [b] of the list. *)
Lemma foldM_establish (Q : B -> A -> Prop) l a a' :
  (forall x b x', b ∈ l -> f x b = Ok x' -> Q b x') ->
  (forall x b x' c, b ∈ l -> c ∈ l -> Q c x -> f x b = Ok x' -> Q c x') ->
  foldM a l = Ok a' -> forall b, b ∈ l -> Q b a'.
Proof.
  revert a; induction l as [|b l IH]; intros a Hest Hkeep Hrun c Hc; simpl in Hrun.
  - by apply not_elem_of_nil in Hc.
  - destruct (f a b) as [x|e] eqn:E; simpl in Hrun; [|done].
    apply elem_of_cons in Hc as [->|Hc].
    + eapply (foldM_inv (Q b) l x); [|by eapply Hest, E; left|done].
      intros y d y' Hd Hy Hs. eapply Hkeep; [right; exact Hd|left|exact Hy|exact Hs].
    + apply (IH x); auto.
      * intros y d y' Hd Hs. eapply Hest; [by right|exact Hs].
      * intros y d y' c' Hd Hc' Hq Hs.
        eapply Hkeep; [right; exact Hd|right; exact Hc'|exact Hq|exact Hs].
Qed.
End foldM.

(** [[f(x) for x in l]] where [f] may raise. *)
Fixpoint mapR {A B} (f : A -> res B) (l : list A) : res (list B) :=
  match l with
  | [] => Ok []
  | x :: l' => y ← f x; ys ← mapR f l'; Ok (y :: ys)
  end.

(** [for x in l: f(x)] *)
Definition each {A} (f : A -> res unit) (l : list A) : res unit := _ ← mapR f l; Ok tt.

Section mapR_facts.
Context {A B : Type} (f : A -> res B).

Lemma mapR_total l : (forall x, x ∈ l -> exists y, f x = Ok y) -> exists ys, mapR f l = Ok ys.
Proof.
  induction l as [|x l IH]; intros Hf; simpl; [eauto|].
  destruct (Hf x) as [y ->]; [left|]. destruct IH as [ys ->]; [|simpl; eauto].
  intros z Hz. apply Hf. by right.
Qed.

Lemma mapR_elem l ys x : mapR f l = Ok ys -> x ∈ l -> exists y, f x = Ok y.
Proof.
  revert ys. induction l as [|z l IH]; intros ys Hr Hx; [by apply not_elem_of_nil in Hx|].
  simpl in Hr. destruct (f z) as [y|] eqn:Ez; [|done]. simpl in Hr.
  destruct (mapR f l) as [zs|] eqn:El; [|done].
  apply elem_of_cons in Hx as [->|Hx]; [eauto|by eapply IH].
Qed.

Lemma mapR_raise l e : mapR f l = Raise e -> exists x, x ∈ l /\ f x = Raise e.
Proof.
  induction l as [|z l IH]; simpl; [done|].
  destruct (f z) as [y|e'] eqn:Ez; simpl.
  - destruct (mapR f l) as [zs|]; simpl; [done|]. intros Hr.
    destruct (IH Hr) as (x & Hx & Hf). exists x. split; [by right|done].
  - intros [= ->]. exists z. split; [left|done].
Qed.

(** What each element's result satisfies, the results satisfy. *)
Lemma mapR_Forall (P : B -> Prop) l ys :
  (forall x y, x ∈ l -> f x = Ok y -> P y) -> mapR f l = Ok ys -> Forall P ys.
Proof.
  revert ys. induction l as [|x l IH]; intros ys Hf Hm; simpl in Hm; [by injection Hm as <-|].
  destruct (f x) as [y|] eqn:Ex; [|done]. simpl in Hm. destruct (mapR f l) as [zs|]; [|done].
  injection Hm as <-. constructor; [eapply Hf; [left|done]|].
  apply IH; [|done]. intros z w Hz. apply Hf. by right.
Qed.

(** A projection of the results that the arguments determine. *)
Lemma mapR_proj {C} (h : B -> C) (g : A -> C) l ys :
  (forall x y, f x = Ok y -> h y = g x) -> mapR f l = Ok ys -> map h ys = map g l.
Proof.
  intros Hf. revert ys. induction l as [|x l IH]; intros ys Hm; simpl in Hm; [by injection Hm as <-|].
  destruct (f x) as [y|] eqn:Ex; [|done]. simpl in Hm. destruct (mapR f l) as [zs|]; [|done].
  injection Hm as <-. simpl. f_equal; [by apply Hf|by apply IH].
Qed.
End mapR_facts.

(** * Lists as Python uses them *)

(** [list(dict.fromkeys(l))]: duplicates dropped, first occurrence kept. *)
Fixpoint fromkeys {A} `{EqDecision A} (l : list A) : list A :=
  match l with
  | [] => []
  | x :: l' => x :: filter (fun y => y ≠ x) (fromkeys l')
  end.

(** [len(l) == len(set(l))] *)
Fixpoint uniqueb {A} `{EqDecision A} (l : list A) : bool :=
  match l with
  | [] => true
  | x :: l' => negb (bool_decide (x ∈ l')) && uniqueb l'
  end.

(** [set(l) <= set(k)] *)
Definition subsetb {A} `{EqDecision A} (l k : list A) : bool :=
  forallb (fun x => bool_decide (x ∈ k)) l.

(** [set(l) == set(k)] *)
Definition set_eqb {A} `{EqDecision A} (l k : list A) : bool := subsetb l k && subsetb k l.

(** A dict with one key set: in place, or at the end. *)
Fixpoint dict_set {K V} `{EqDecision K} (k : K) (v : V) (d : list (K * V)) : list (K * V) :=
  match d with
  | [] => [(k, v)]
  | kv :: d' => if decide (kv.1 = k) then (k, v) :: d' else kv :: dict_set k v d'
  end.

Definition memb {A} `{EqDecision A} (x : A) (l : list A) : bool := bool_decide (x ∈ l).

(** [next((x for x in l if p(x)), None)] *)
Definition find_first {A} (p : A -> bool) (l : list A) : option A := List.find p l.

(** Python truthiness of a list. *)
Definition truthy {A} (l : list A) : bool := match l with [] => false | _ => true end.

Section list_facts.
Context {A : Type} `{EqDecision A}.
Implicit Types l k : list A.

Lemma elem_of_fromkeys l x : x ∈ fromkeys l <-> x ∈ l.
Proof.
  induction l as [|y l IH]; [done|]. simpl.
  rewrite !elem_of_cons, list_elem_of_filter, IH. split; [naive_solver|].
  intros [->|Hx]; [by left|]. destruct (decide (x = y)); [by left|by right].
Qed.

Lemma NoDup_fromkeys l : NoDup (fromkeys l).
Proof.
  induction l as [|y l IH]; simpl; constructor.
  - rewrite list_elem_of_filter. naive_solver.
  - by apply NoDup_filter.
Qed.

Lemma fromkeys_id l : NoDup l -> fromkeys l = l.
Proof.
  induction 1 as [|y l Hy Hl IH]; [done|]. simpl. rewrite IH. f_equal.
  clear IH Hl. induction l as [|z l IH]; [done|].
  apply not_elem_of_cons in Hy as [Hne Hy].
  rewrite filter_cons_True by congruence. by rewrite IH.
Qed.

Lemma uniqueb_spec l : uniqueb l = true <-> NoDup l.
Proof.
  induction l as [|x l IH]; simpl.
  - split; [intros _; constructor|done].
  - rewrite andb_true_iff, negb_true_iff, bool_decide_eq_false, IH, NoDup_cons. done.
Qed.

Lemma memb_spec x l : memb x l = true <-> x ∈ l.
Proof. apply bool_decide_eq_true. Qed.

Lemma memb_false x l : memb x l = false <-> x ∉ l.
Proof. apply bool_decide_eq_false. Qed.

Lemma subsetb_spec l k : subsetb l k = true <-> (forall x, x ∈ l -> x ∈ k).
Proof.
  unfold subsetb. rewrite forallb_forall. setoid_rewrite <- list_elem_of_In.
  by setoid_rewrite bool_decide_eq_true.
Qed.

Lemma set_eqb_spec l k : set_eqb l k = true <-> (forall x, x ∈ l <-> x ∈ k).
Proof.
  unfold set_eqb. rewrite andb_true_iff, !subsetb_spec. naive_solver.
Qed.
End list_facts.

Lemma find_first_Some {A} (p : A -> bool) l x :
  find_first p l = Some x -> x ∈ l /\ p x = true.
Proof. intros H. apply find_some in H. by rewrite list_elem_of_In. Qed.

Lemma find_first_None {A} (p : A -> bool) l :
  find_first p l = None <-> (forall x, x ∈ l -> p x = false).
Proof.
  split.
  - intros H x Hx. eapply find_none; [exact H|]. by apply list_elem_of_In.
  - induction l as [|y l IH]; intros Hall; [done|]. simpl.
    rewrite (Hall y) by left. apply IH. intros x Hx. apply Hall. by right.
Qed.

Lemma find_first_is_Some {A} (p : A -> bool) l x :
  x ∈ l -> p x = true -> is_Some (find_first p l).
Proof.
  intros Hx Hp. destruct (find_first p l) eqn:E; [eauto|].
  pose proof (proj1 (find_first_None p l) E x Hx). congruence.
Qed.

Lemma NoDup_map_filter {A B} (f : A -> B) (q : A -> bool) (l : list A) :
  NoDup (map f l) -> NoDup (map f (List.filter q l)).
Proof.
  induction l as [|x l IH]; simpl; [done|]. intros [Hx Hl]%NoDup_cons.
  destruct (q x); simpl; [|by apply IH]. constructor; [|by apply IH].
  rewrite list_elem_of_fmap in *. intros (y & Hxy & Hy). apply Hx.
  apply list_elem_of_In, filter_In in Hy as [Hy _]. exists y. split; [done|]. by apply list_elem_of_In.
Qed.

(** * Automation *)

(** Turns every equation [... = Ok x] about a bind, a guard or a lookup with a
    default exception into the equations of its parts. *)
Ltac res_step :=
  match goal with
  | H : Ok _ = Ok _ |- _ => injection H as H; simplify_eq
  | H : Raise _ = Ok _ |- _ => discriminate H
  | H : Ok _ = Raise _ |- _ => discriminate H
  | H : (match ?m with Ok _ => _ | Raise _ => _ end) = Ok _ |- _ =>
      let E := fresh "E" in destruct m eqn:E; [|discriminate H]
  | H : mbind _ (raise_if ?c _) = Ok _ |- _ =>
      let E := fresh "E" in destruct c eqn:E; cbn [raise_if mbind res_bind] in H; [discriminate H|]
  | H : mbind _ (or_raise ?o _) = Ok _ |- _ =>
      let E := fresh "E" in destruct o eqn:E; cbn [or_raise mbind res_bind] in H; [|discriminate H]
  | H : mbind _ ?m = Ok _ |- _ =>
      let E := fresh "E" in destruct m eqn:E; cbn [mbind res_bind] in H; [|discriminate H]
  | H : raise_if ?c _ = Ok _ |- _ =>
      let E := fresh "E" in destruct c eqn:E; cbn [raise_if] in H; [discriminate H|clear H]
  | H : or_raise ?o _ = Ok _ |- _ =>
      let E := fresh "E" in destruct o eqn:E; cbn [or_raise] in H; [|discriminate H];
      injection H as H; simplify_eq
  end.
Ltac res_inv := repeat res_step.

(** Two results of the same computation are the same. *)
Ltac res_unify := repeat
  match goal with
  | H1 : ?x = Ok ?a, H2 : ?x = Ok ?b |- _ =>
      assert (a = b) by congruence; clear H2; subst
  end.

Create HintDb mormi.
#[export] Hint Resolve NoDup_fromkeys : mormi.
#[export] Hint Rewrite @elem_of_fromkeys @uniqueb_spec @memb_spec @memb_false @subsetb_spec
  @set_eqb_spec andb_true_iff orb_true_iff negb_true_iff negb_false_iff andb_false_iff
  orb_false_iff bool_decide_eq_true bool_decide_eq_false : mormi.

(** Boolean hypotheses and goals to propositions. *)
Ltac breflect := autorewrite with mormi in *.
