(* ===== verification/PyStr.v ===== *)
(** Python strings.

    Identifiers, reviewed copy and JSON text are Rocq [string]s holding the
    UTF-8 encoding (so literals read like the source); where the code indexes,
    slices or measures text (child utterances, evidence spans, labels) a string
    is its list of code points [ustr].  [utf8_decode] and [utf8_encode] go
    between the two; byte order of UTF-8 is code-point order, so comparing and
    sorting encoded strings agrees with Python. *)

From S2P Require Import Prelude.
From Stdlib Require Import Ascii.
Local Open Scope N_scope.

Abbreviation ustr := (list N).

Fixpoint bytes_of (s : string) : list N :=
  match s with
  | EmptyString => []
  | String c s' => N_of_ascii c :: bytes_of s'
  end.

Fixpoint string_of_bytes (l : list N) : string :=
  match l with
  | [] => EmptyString
  | b :: l' => String (ascii_of_N b) (string_of_bytes l')
  end.

(** One code point per lead byte; an ill-formed tail ends the decoding. *)
Fixpoint utf8_decode_bytes (l : list N) : ustr :=
  match l with
  | [] => []
  | b :: l' =>
      if b <? 128 then b :: utf8_decode_bytes l'
      else if b <? 224 then
        match l' with
        | c1 :: l2 => ((b - 192) * 64 + (c1 - 128)) :: utf8_decode_bytes l2
        | _ => []
        end
      else if b <? 240 then
        match l' with
        | c1 :: c2 :: l3 =>
            ((b - 224) * 4096 + (c1 - 128) * 64 + (c2 - 128)) :: utf8_decode_bytes l3
        | _ => []
        end
      else
        match l' with
        | c1 :: c2 :: c3 :: l4 =>
            ((b - 240) * 262144 + (c1 - 128) * 4096 + (c2 - 128) * 64 + (c3 - 128))
              :: utf8_decode_bytes l4
        | _ => []
        end
  end.

Definition utf8_encode_point (c : N) : list N :=
  if c <? 128 then [c]
  else if c <? 2048 then [192 + c / 64; 128 + c mod 64]
  else if c <? 65536 then [224 + c / 4096; 128 + (c / 64) mod 64; 128 + c mod 64]
  else [240 + c / 262144; 128 + (c / 4096) mod 64; 128 + (c / 64) mod 64; 128 + c mod 64].

Definition utf8_decode (s : string) : ustr := utf8_decode_bytes (bytes_of s).
Definition utf8_encode (u : ustr) : string :=
  string_of_bytes (concat (utf8_encode_point <$> u)).

(** [len(s)] *)
Definition py_len (s : string) : nat := length (utf8_decode s).

(** [s[start:stop]] for [0 <= start <= stop] *)
Definition uslice (u : ustr) (start stop : nat) : ustr := take (stop - start) (drop start u).

Fixpoint uprefix (p u : ustr) : bool :=
  match p, u with
  | [], _ => true
  | a :: p', b :: u' => (a =? b) && uprefix p' u'
  | _ :: _, [] => false
  end.

Fixpoint ufind_from (needle hay : ustr) (i : nat) : option nat :=
  if uprefix needle hay then Some i
  else match hay with
       | [] => None
       | _ :: hay' => ufind_from needle hay' (S i)
       end.

(** [hay.find(needle)], with [None] for Python's [-1]. *)
Definition ufind (needle hay : ustr) : option nat := ufind_from needle hay 0.

(** [needle in hay] *)
Definition ucontains (needle hay : ustr) : bool :=
  match ufind needle hay with Some _ => true | None => false end.

(** [str.isspace] on one code point. *)
Definition is_space (c : N) : bool :=
  ((9 <=? c) && (c <=? 13)) || ((28 <=? c) && (c <=? 32)) || (c =? 133) || (c =? 160)
  || (c =? 5760) || ((8192 <=? c) && (c <=? 8202)) || (c =? 8232) || (c =? 8233)
  || (c =? 8239) || (c =? 8287) || (c =? 12288).

Fixpoint ulstrip (u : ustr) : ustr :=
  match u with
  | [] => []
  | c :: u' => if is_space c then ulstrip u' else u
  end.
Definition urstrip (u : ustr) : ustr := rev (ulstrip (rev u)).
Definition ustrip (u : ustr) : ustr := ulstrip (urstrip u).

(** [str.splitlines]: its line boundaries and its lines. *)
Definition is_line_break (c : N) : bool :=
  ((10 <=? c) && (c <=? 13)) || ((28 <=? c) && (c <=? 30)) || (c =? 133) || (c =? 8232) || (c =? 8233).

Fixpoint splitlines_from (line u : ustr) : list ustr :=
  match u with
  | [] => match line with [] => [] | _ :: _ => [rev line] end
  | c :: u' =>
      if is_line_break c then
        rev line :: match u' with
                    | d :: u'' => if (c =? 13) && (d =? 10) then splitlines_from [] u''
                                  else splitlines_from [] u'
                    | [] => []
                    end
      else splitlines_from (c :: line) u'
  end.
Definition splitlines (s : string) : list ustr := splitlines_from [] (utf8_decode s).

(** [s.strip()] and [s.rstrip()] *)
Definition py_strip (s : string) : string := utf8_encode (ustrip (utf8_decode s)).
Definition py_rstrip (s : string) : string := utf8_encode (urstrip (utf8_decode s)).

(** [sep.join(l)] *)
Fixpoint py_join (sep : string) (l : list string) : string :=
  match l with
  | [] => ""
  | [x] => x
  | x :: l' => (x ++ sep ++ py_join sep l')%string
  end.

Local Close Scope N_scope.

(** Decimal rendering [str(n)]. *)
Fixpoint digits_of (fuel : nat) (n : N) (acc : string) : string :=
  match fuel with
  | O => acc
  | S f =>
      let acc' := String (ascii_of_N (48 + n mod 10)) acc in
      if decide (n / 10 = 0)%N then acc' else digits_of f (n / 10)%N acc'
  end.
Definition str_N (n : N) : string := digits_of (S (N.to_nat (N.log2 n))) n "".
Definition str_Z (z : Z) : string :=
  match z with
  | Z0 => "0"
  | Zpos p => str_N (Npos p)
  | Zneg p => "-" ++ str_N (Npos p)
  end.

(** * Facts *)

Lemma uprefix_spec p u : uprefix p u = true <-> take (length p) u = p.
Proof.
  revert u; induction p as [|a p IH]; intros [|b u]; simpl; try done.
  rewrite andb_true_iff, N.eqb_eq, IH. split; [intros [-> ->]|intros [= -> ->]]; done.
Qed.

Lemma ufind_from_Some needle hay i j :
  ufind_from needle hay i = Some j ->
  (i <= j)%nat /\ (j - i + length needle <= length hay)%nat /\
  take (length needle) (drop (j - i) hay) = needle.
Proof.
  revert i; induction hay as [|c hay IH]; intros i; simpl.
  - destruct (uprefix needle []) eqn:E; [intros [= ->]|done].
    apply uprefix_spec in E. rewrite take_nil in E. subst needle. simpl.
    rewrite Nat.sub_diag. repeat split; simpl; lia.
  - destruct (uprefix needle (c :: hay)) eqn:E.
    + intros [= ->]. apply uprefix_spec in E. rewrite Nat.sub_diag. simpl drop.
      repeat split; [lia| |done].
      apply (f_equal length) in E. rewrite length_take in E. simpl in *. lia.
    + intros H. apply IH in H as (Hle & Hlen & Htake).
      replace (j - i)%nat with (S (j - S i)) by lia. simpl. repeat split; lia || done.
Qed.

(** A hit is a real occurrence. *)
Lemma ufind_Some needle hay j :
  ufind needle hay = Some j ->
  (j + length needle <= length hay)%nat /\ uslice hay j (j + length needle) = needle.
Proof.
  intros H. apply ufind_from_Some in H as (_ & Hlen & Htake).
  rewrite Nat.sub_0_r in *. unfold uslice.
  replace (j + length needle - j)%nat with (length needle) by lia. split; [lia|done].
Qed.

Lemma ufind_from_None needle hay i k :
  ufind_from needle hay i = None -> (k <= length hay)%nat ->
  take (length needle) (drop k hay) <> needle.
Proof.
  revert i k; induction hay as [|c hay IH]; intros i k; simpl.
  - destruct (uprefix needle []) eqn:E; [done|]. intros _ Hk.
    assert (k = 0)%nat as -> by lia. simpl. intros Heq.
    assert (uprefix needle [] = true) by (by apply uprefix_spec). congruence.
  - destruct (uprefix needle (c :: hay)) eqn:E; [done|]. intros H Hk.
    destruct k as [|k].
    + simpl drop. intros Heq.
      assert (uprefix needle (c :: hay) = true) by (by apply uprefix_spec). congruence.
    + simpl drop. eapply IH; [exact H|lia].
Qed.

(** A miss means there is no occurrence. *)
Lemma ufind_None needle hay k :
  ufind needle hay = None -> (k <= length hay)%nat ->
  uslice hay k (k + length needle) <> needle.
Proof.
  intros H Hk. unfold uslice. replace (k + length needle - k)%nat with (length needle) by lia.
  by eapply ufind_from_None.
Qed.

Lemma length_uslice u s e : (s <= e <= length u)%nat -> length (uslice u s e) = (e - s)%nat.
Proof. intros H. unfold uslice. rewrite length_take, length_drop. lia. Qed.

(** ** Texts of one line *)

(** The bytes end with a whole code point, so that decoding commutes with
    concatenation. *)
Fixpoint whole_points (l : list N) : bool :=
  match l with
  | [] => true
  | b :: l' =>
      if (b <? 128)%N then whole_points l'
      else if (b <? 224)%N then match l' with _ :: l2 => whole_points l2 | _ => false end
      else if (b <? 240)%N then match l' with _ :: _ :: l3 => whole_points l3 | _ => false end
      else match l' with _ :: _ :: _ :: l4 => whole_points l4 | _ => false end
  end.

Lemma utf8_decode_bytes_app l1 l2 : whole_points l1 = true ->
  utf8_decode_bytes (l1 ++ l2) = utf8_decode_bytes l1 ++ utf8_decode_bytes l2
  /\ whole_points (l1 ++ l2) = whole_points l2.
Proof.
  remember (length l1) as n eqn:En. revert l1 En.
  induction (lt_wf n) as [n _ IH]. intros l1 -> Hw.
  destruct l1 as [|b l]; [done|]. simpl in *.
  destruct (b <? 128)%N.
  { by destruct (IH (length l) ltac:(simpl; lia) l eq_refl Hw) as [-> ->]. }
  destruct (b <? 224)%N.
  { destruct l as [|c1 l]; [done|]. simpl. by destruct (IH (length l) ltac:(simpl; lia) l eq_refl Hw) as [-> ->]. }
  destruct (b <? 240)%N.
  { destruct l as [|c1 [|c2 l]]; [done..|]. simpl.
    by destruct (IH (length l) ltac:(simpl; lia) l eq_refl Hw) as [-> ->]. }
  destruct l as [|c1 [|c2 [|c3 l]]]; [done..|]. simpl.
  by destruct (IH (length l) ltac:(simpl; lia) l eq_refl Hw) as [-> ->].
Qed.

Lemma bytes_of_app s1 s2 : bytes_of (s1 ++ s2) = bytes_of s1 ++ bytes_of s2.
Proof. induction s1 as [|c s1 IH]; simpl; [done|]. by rewrite IH. Qed.

(** [s] has no line boundary. *)
Definition single_line (s : string) : bool :=
  whole_points (bytes_of s) && forallb (fun c => negb (is_line_break c)) (utf8_decode s).

Lemma single_line_app s1 s2 :
  single_line s1 = true -> single_line s2 = true -> single_line (s1 ++ s2) = true.
Proof.
  unfold single_line, utf8_decode. rewrite !andb_true_iff, bytes_of_app. intros [H1 H2] [H3 H4].
  destruct (utf8_decode_bytes_app (bytes_of s1) (bytes_of s2) H1) as [-> ->].
  by rewrite forallb_app, H2, H4, H3.
Qed.

Lemma splitlines_single s : single_line s = true -> (length (splitlines s) <= 1)%nat.
Proof.
  unfold single_line, splitlines. rewrite andb_true_iff. intros [_ H].
  generalize ([] : ustr) as line. induction (utf8_decode s) as [|c u IH]; intros line; simpl in *.
  - destruct line; simpl; lia.
  - apply andb_true_iff in H as [Hc Hu]. apply negb_true_iff in Hc. rewrite Hc. by apply IH.
Qed.

Lemma py_len_app s1 s2 : single_line s1 = true -> py_len (s1 ++ s2) = (py_len s1 + py_len s2)%nat.
Proof.
  unfold single_line, py_len, utf8_decode. rewrite andb_true_iff, bytes_of_app. intros [H1 _].
  destruct (utf8_decode_bytes_app (bytes_of s1) (bytes_of s2) H1) as [-> _]. by rewrite length_app.
Qed.

Example splitlines_example :
  map utf8_encode (splitlines ("a" ++ String (ascii_of_N 13) (String (ascii_of_N 10) "나") ++ String (ascii_of_N 10) ""))
  = ["a"; "나"].
Proof. vm_compute. done. Qed.

Example utf8_korean :
  utf8_decode "모르미 3" = [47784; 47476; 48120; 32; 51]%N /\
  utf8_encode [47784; 47476; 48120; 32; 51]%N = "모르미 3" /\ py_len "모르미 3" = 5%nat.
Proof. vm_compute. done. Qed.

Example str_Z_examples : str_Z 10800 = "10800" /\ str_Z (-7) = "-7" /\ str_Z 0 = "0".
Proof. vm_compute. done. Qed.
