(* ===== verification/PyNum.v ===== *)
(** Python numbers as the content model uses them.

    [int | float] values are [pynum]: an unbounded integer, or a float given by
    its shortest round-trip decimal [m * 10^e] (what [repr] prints, hence what
    JSON and [Decimal(str(v))] see).  [int == float] is compared on that decimal,
    which is exact for every float below 2^53 in magnitude.  [decimal.Decimal]
    arithmetic uses the default context: 28 significant digits, half-even. *)

From S2P Require Import Prelude.
From S2P Require Import PyStr.
Local Open Scope Z_scope.

Record decimal := Dec { coef : Z; dexp : Z }.

Inductive pynum :=
  | PyInt (z : Z)
  | PyFloat (m e : Z).

#[export] Instance pynum_eq_dec : EqDecision pynum.
Proof. solve_decision. Defined.

(** [Decimal(str(v))] *)
Definition decimal_of (v : pynum) : decimal :=
  match v with PyInt z => Dec z 0 | PyFloat m e => Dec m e end.

(** Both coefficients over the smaller of the two exponents. *)
Definition aligned (a b : decimal) : Z * Z * Z :=
  let k := Z.min (dexp a) (dexp b) in
  (coef a * 10 ^ (dexp a - k), coef b * 10 ^ (dexp b - k), k).

Definition dec_compare (a b : decimal) : comparison :=
  let '(x, y, _) := aligned a b in x ?= y.
Definition dec_eqb (a b : decimal) : bool :=
  match dec_compare a b with Eq => true | _ => false end.
Definition dec_ltb (a b : decimal) : bool :=
  match dec_compare a b with Lt => true | _ => false end.

(** [a == b] on [int | float]. *)
Definition pynum_eqb (a b : pynum) : bool := dec_eqb (decimal_of a) (decimal_of b).

Fixpoint ndigits_fuel (fuel : nat) (z : Z) : Z :=
  match fuel with
  | O => 1
  | S f => if z <? 10 then 1 else 1 + ndigits_fuel f (z / 10)
  end.
Definition ndigits (z : Z) : Z := ndigits_fuel (S (Z.to_nat (Z.log2 (Z.abs z)))) (Z.abs z).

Definition dec_prec : Z := 28.

(** Rounding half to even at 28 significant digits. *)
Definition dec_round (a : decimal) : decimal :=
  let n := ndigits (coef a) in
  if n <=? dec_prec then a
  else
    let k := n - dec_prec in
    let p := 10 ^ k in
    let q := Z.abs (coef a) / p in
    let r := Z.abs (coef a) mod p in
    let q' := if (p <? 2 * r) || ((2 * r =? p) && Z.odd q) then q + 1 else q in
    Dec (Z.sgn (coef a) * q') (dexp a + k).

Definition dec_add (a b : decimal) : decimal :=
  let '(x, y, k) := aligned a b in dec_round (Dec (x + y) k).
Definition dec_sub (a b : decimal) : decimal :=
  let '(x, y, k) := aligned a b in dec_round (Dec (x - y) k).
Definition dec_mul (a b : decimal) : decimal :=
  dec_round (Dec (coef a * coef b) (dexp a + dexp b)).
(** The caller has excluded a zero divisor. *)
Definition dec_div (a b : decimal) : decimal :=
  let shift := ndigits (coef b) - ndigits (coef a) + dec_prec + 1 in
  let x := Z.abs (coef a) * 10 ^ Z.max 0 shift in
  let y := Z.abs (coef b) * 10 ^ Z.max 0 (- shift) in
  let q := x / y in
  let q' := if negb (x mod y =? 0) && (q mod 5 =? 0) then q + 1 else q in
  dec_round (Dec (Z.sgn (coef a) * Z.sgn (coef b) * q') (dexp a - dexp b - shift)).
Definition dec_sum (l : list decimal) : decimal := fold_left dec_add l (Dec 0 0).
Definition dec_is_zero (a : decimal) : bool := coef a =? 0.

Fixpoint zeros (n : nat) : string :=
  match n with O => "" | S k => "0" ++ zeros k end.

Fixpoint strip_zeros (fuel : nat) (m e : Z) : Z * Z :=
  match fuel with
  | O => (m, e)
  | S f => if (m mod 10 =? 0) && negb (m =? 0) then strip_zeros f (m / 10) (e + 1) else (m, e)
  end.

(** [repr(float)] from the shortest decimal. *)
Definition repr_float (m e : Z) : string :=
  let sign := if m <? 0 then "-"%string else ""%string in
  let '(c, x) := strip_zeros (S (Z.to_nat (Z.log2 (Z.abs m)))) (Z.abs m) e in
  if c =? 0 then "0.0"%string
  else
    let ds := str_Z c in
    let n := Z.of_nat (String.length ds) in
    let decpt := n + x in
    let ex := decpt - 1 in
    let frac := String.substring 1 (String.length ds) ds in
    let body :=
      if (decpt <? -3) || (16 <? decpt) then
        String.append (String.substring 0 1 ds)
          (String.append (if n =? 1 then "" else String.append "." frac)
             (String.append (if ex <? 0 then "e-" else "e+")
                (String.append (if Z.abs ex <? 10 then "0" else "") (str_Z (Z.abs ex)))))
      else if decpt <=? 0 then String.append "0." (String.append (zeros (Z.to_nat (- decpt))) ds)
      else if n <=? decpt then String.append ds (String.append (zeros (Z.to_nat (decpt - n))) ".0")
      else String.append (String.substring 0 (Z.to_nat decpt) ds)
             (String.append "." (String.substring (Z.to_nat decpt) (String.length ds) ds)) in
    String.append sign body.

(** [str(v)] and the JSON number. *)
Definition py_num_str (v : pynum) : string :=
  match v with PyInt z => str_Z z | PyFloat m e => repr_float m e end.

Example repr_float_examples :
  repr_float 75 (-1) = "7.5"%string /\ repr_float 5 0 = "5.0"%string
  /\ repr_float 1 22 = "1e+22"%string /\ repr_float 12 (-7) = "1.2e-06"%string
  /\ repr_float (-1) (-1) = "-0.1"%string.
Proof. vm_compute. done. Qed.

Example decimal_examples :
  dec_eqb (dec_div (Dec 10 0) (Dec 4 0)) (Dec 25 (-1)) = true
  /\ dec_div (Dec 1 0) (Dec 3 0) = Dec 3333333333333333333333333333 (-28)
  /\ dec_div (Dec 2 0) (Dec 3 0) = Dec 6666666666666666666666666667 (-28)
  /\ pynum_eqb (PyInt 5) (PyFloat 50 (-1)) = true.
Proof. vm_compute. done. Qed.

Lemma pynum_eqb_refl v : pynum_eqb v v = true.
Proof.
  unfold pynum_eqb, dec_eqb, dec_compare, aligned. simpl. by rewrite Z.compare_refl.
Qed.
