(* ===== verification/Json.v ===== *)
(** [json.dumps(value, ensure_ascii=False, sort_keys=True, separators=(",", ":"))]
    and SHA-256, the two ingredients of every content hash and evidence id
    ([hashlib.sha256(json.encode("utf-8")).hexdigest()]). *)

From S2P Require Import Prelude.
From S2P Require Import PyStr.
From S2P Require Import PyNum.
From Stdlib Require Import Ascii.

Inductive json :=
  | JNull
  | JBool (b : bool)
  | JNum (v : pynum)
  | JStr (s : string)
  | JArr (l : list json)
  | JObj (kvs : list (string * json)).

Definition hex_digit (n : N) : ascii :=
  ascii_of_N (if decide (n < 10)%N then 48 + n else 87 + n)%N.

(** The escapes of [json.dumps] with [ensure_ascii=False]. *)
Definition json_escape_byte (c : ascii) : string :=
  let n := N_of_ascii c in
  if (n =? 34)%N then "\" ++ String (ascii_of_N 34) ""
  else if (n =? 92)%N then "\\"
  else if (n =? 8)%N then "\b"
  else if (n =? 9)%N then "\t"
  else if (n =? 10)%N then "\n"
  else if (n =? 12)%N then "\f"
  else if (n =? 13)%N then "\r"
  else if (n <? 32)%N then
    "\u00" ++ String (hex_digit (n / 16)) (String (hex_digit (n mod 16)) "")
  else String c "".

Fixpoint json_escape (s : string) : string :=
  match s with
  | EmptyString => ""
  | String c s' => json_escape_byte c ++ json_escape s'
  end.

Definition json_quote (s : string) : string :=
  String (ascii_of_N 34) (json_escape s ++ String (ascii_of_N 34) "").

Fixpoint insert_by_key {A} (kv : string * A) (l : list (string * A)) : list (string * A) :=
  match l with
  | [] => [kv]
  | kv' :: l' => if String.leb kv.1 kv'.1 then kv :: l else kv' :: insert_by_key kv l'
  end.
Definition sort_by_key {A} (l : list (string * A)) : list (string * A) :=
  foldr insert_by_key [] l.

Fixpoint dumps (j : json) : string :=
  match j with
  | JNull => "null"
  | JBool true => "true"
  | JBool false => "false"
  | JNum v => py_num_str v
  | JStr s => json_quote s
  | JArr l => "[" ++ py_join "," (map dumps l) ++ "]"
  | JObj kvs =>
      "{" ++ py_join "," (map (fun kv => (json_quote kv.1 ++ ":" ++ kv.2)%string)
              (sort_by_key (map (fun kv => (kv.1, dumps kv.2)) kvs))) ++ "}"
  end.

(** [json.dumps(value, ensure_ascii=False)]: insertion order, spaced separators. *)
Fixpoint dumps_default (j : json) : string :=
  match j with
  | JArr l => "[" ++ py_join ", " (map dumps_default l) ++ "]"
  | JObj kvs =>
      "{" ++ py_join ", " (map (fun kv => (json_quote kv.1 ++ ": " ++ dumps_default kv.2)%string) kvs)
      ++ "}"
  | _ => dumps j
  end.

(** [d.get(k)] on a JSON object. *)
Definition jget (k : string) (kvs : list (string * json)) : option json :=
  match List.find (fun kv => bool_decide (kv.1 = k)) kvs with Some kv => Some kv.2 | None => None end.

(** The digest is an interface: the ledger's theorems hold for every function
    from text to text, and [sha256_digest] below is the one the code uses. *)
Class Digest := hexdigest : string -> string.

(** * SHA-256 on 32-bit words kept in [N] *)

Module Sha256.
Local Open Scope N_scope.

Definition wmask : N := 4294967295.
Definition wadd (x y : N) : N := N.land (x + y) wmask.
Definition rotr (n x : N) : N :=
  N.lor (N.shiftr x n) (N.land (N.shiftl x (32 - n)) wmask).
Definition wnot (x : N) : N := wmask - x.

Definition ch e f g := N.lxor (N.land e f) (N.land (wnot e) g).
Definition maj a b c := N.lxor (N.land a b) (N.lxor (N.land a c) (N.land b c)).
Definition big0 x := N.lxor (rotr 2 x) (N.lxor (rotr 13 x) (rotr 22 x)).
Definition big1 x := N.lxor (rotr 6 x) (N.lxor (rotr 11 x) (rotr 25 x)).
Definition small0 x := N.lxor (rotr 7 x) (N.lxor (rotr 18 x) (N.shiftr x 3)).
Definition small1 x := N.lxor (rotr 17 x) (N.lxor (rotr 19 x) (N.shiftr x 10)).

(** The constants from their definition: fractional bits of the square and
    cube roots of the first primes. *)
Definition is_prime (n : N) : bool :=
  forallb (fun d => negb (n mod d =? 0)) (map N.of_nat (seq 2 (N.to_nat (N.sqrt n) - 1))).
Definition primes : list N :=
  Eval vm_compute in List.filter is_prime (map N.of_nat (seq 2 310)).
Fixpoint icbrt_bits (bits : nat) (root target : N) : N :=
  match bits with
  | O => root
  | S b =>
      let r := root + 2 ^ N.of_nat b in
      icbrt_bits b (if r * r * r <=? target then r else root) target
  end.
Definition round_constants : list N :=
  Eval vm_compute in
    map (fun p => N.land (icbrt_bits 36 0 (p * 2 ^ 96)) wmask) primes.
Definition initial_hash : list N :=
  Eval vm_compute in
    map (fun p => N.land (N.sqrt (p * 2 ^ 64)) wmask) (firstn 8 primes).

Definition be_word (a b c d : N) : N := ((a * 256 + b) * 256 + c) * 256 + d.
Fixpoint words (l : list N) : list N :=
  match l with
  | a :: b :: c :: d :: l' => be_word a b c d :: words l'
  | _ => []
  end.

Fixpoint be_bytes (n : nat) (x : N) (acc : list N) : list N :=
  match n with
  | O => acc
  | S k => be_bytes k (x / 256) (x mod 256 :: acc)
  end.

Definition pad (msg : list N) : list N :=
  let len := length msg in
  let k := ((119 - len mod 64) mod 64)%nat in
  msg ++ 128 :: replicate k 0 ++ be_bytes 8 (8 * N.of_nat len) [].

(** The schedule, kept newest first. *)
Fixpoint extend (n : nat) (rev_w : list N) : list N :=
  match n with
  | O => rev_w
  | S k =>
      let at_ i := nth i rev_w 0 in
      let w := wadd (wadd (small1 (at_ 1%nat)) (at_ 6%nat))
                    (wadd (small0 (at_ 14%nat)) (at_ 15%nat)) in
      extend k (w :: rev_w)
  end.

Definition round (s : list N) (kw : N * N) : list N :=
  match s with
  | [a; b; c; d; e; f; g; h] =>
      let t1 := wadd (wadd h (big1 e)) (wadd (ch e f g) (wadd kw.1 kw.2)) in
      let t2 := wadd (big0 a) (maj a b c) in
      [wadd t1 t2; a; b; c; wadd d t1; e; f; g]
  | _ => s
  end.

Definition compress (h block : list N) : list N :=
  let ws := rev (extend 48 (rev block)) in
  zip_with wadd h (fold_left round (zip round_constants ws) h).

Fixpoint blocks (fuel : nat) (h ws : list N) : list N :=
  match fuel with
  | O => h
  | S f => match ws with
           | [] => h
           | _ => blocks f (compress h (take 16 ws)) (drop 16 ws)
           end
  end.

Definition digest_words (msg : list N) : list N :=
  let ws := words (pad msg) in blocks (length ws) initial_hash ws.

Definition hex_byte (b : N) : string :=
  String (hex_digit (b / 16)) (String (hex_digit (b mod 16)) "").
Definition hex (l : list N) : string :=
  foldr (fun w s => String.append (foldr (fun b t => String.append (hex_byte b) t) ""
                                     (be_bytes 4 w [])) s) ""%string l.
End Sha256.

(** [hashlib.sha256(s.encode("utf-8")).hexdigest()] *)
#[export] Instance sha256_digest : Digest :=
  fun s => Sha256.hex (Sha256.digest_words (bytes_of s)).

Example sha256_abc :
  sha256_digest "abc" = "ba7816bf8f01cfea414140de5dae2223b00361a396177a9cb410ff61f20015ad"
  /\ sha256_digest "" = "e3b0c44298fc1c149afbf4c8996fb92427ae41e4649b934ca495991b7852b855".
Proof. vm_compute. done. Qed.

Example dumps_example :
  dumps (JObj [("b", JNum (PyInt 2)); ("a", JArr [JNull; JBool true; JStr "모르미"])])
  = String.append "{" (String.append (json_quote "a") (String.append ":[null,true,"
      (String.append (json_quote "모르미") (String.append "]," (String.append (json_quote "b") ":2}"))))).
Proof. vm_compute. done. Qed.

(** * The digest's format *)

Definition is_lower_hex (c : ascii) : bool :=
  let n := N_of_ascii c in ((48 <=? n) && (n <=? 57) || (97 <=? n) && (n <=? 102))%N.

Fixpoint string_forallb (p : ascii -> bool) (s : string) : bool :=
  match s with
  | EmptyString => true
  | String c s' => p c && string_forallb p s'
  end.

(** [_SHA256_PATTERN]: [^[a-f0-9]{64}$] *)
Definition sha256_pattern (s : string) : bool :=
  bool_decide (String.length s = 64) && string_forallb is_lower_hex s.

(** What the ledger relies on: a digest has the format its fields demand. *)
Class DigestFormat `{Digest} := hexdigest_format : forall s, sha256_pattern (hexdigest s) = true.

Lemma string_forallb_app p s t :
  string_forallb p (String.append s t) = string_forallb p s && string_forallb p t.
Proof. induction s as [|c s IH]; simpl; [done|]. by rewrite IH, andb_assoc. Qed.

Lemma string_length_append s t : String.length (String.append s t) = String.length s + String.length t.
Proof. induction s as [|c s IH]; simpl; [done|]. by rewrite IH. Qed.

Lemma hex_digit_lower n : (n < 16)%N -> is_lower_hex (hex_digit n) = true.
Proof.
  intros Hn. destruct n as [|q]; [done|].
  do 4 (destruct q as [q|q|]; try done); exfalso; lia.
Qed.

Lemma hex_byte_lower b :
  (b < 256)%N -> string_forallb is_lower_hex (Sha256.hex_byte b) = true.
Proof.
  intros Hb. unfold Sha256.hex_byte. simpl.
  rewrite !hex_digit_lower; [done|..].
  - apply N.mod_lt. lia.
  - apply N.Div0.div_lt_upper_bound. lia.
Qed.

Lemma hex_cons w l : exists s,
  Sha256.hex (w :: l) = String.append s (Sha256.hex l) /\ String.length s = 8
  /\ string_forallb is_lower_hex s = true.
Proof.
  eexists. split; [reflexivity|]. cbn [Sha256.be_bytes foldr]. split; [done|].
  rewrite !string_forallb_app, !hex_byte_lower by (apply N.mod_lt; lia). done.
Qed.

Lemma hex_format l :
  String.length (Sha256.hex l) = length l * 8 /\ string_forallb is_lower_hex (Sha256.hex l) = true.
Proof.
  induction l as [|w l [IH1 IH2]]; [done|]. destruct (hex_cons w l) as (s & -> & Hs & Hl).
  rewrite string_length_append, string_forallb_app, IH1, IH2, Hs, Hl. split; [|done].
  simpl. lia.
Qed.

Lemma rounds_length l s : length s = 8 -> length (fold_left Sha256.round l s) = 8.
Proof.
  revert s. induction l as [|kw l IH]; intros s Hs; [done|]. simpl. apply IH.
  do 8 (destruct s as [|? s]; [done|]). by destruct s.
Qed.

Lemma blocks_length fuel h ws : length h = 8 -> length (Sha256.blocks fuel h ws) = 8.
Proof.
  revert h ws. induction fuel as [|f IH]; intros h ws Hh; [done|].
  cbn -[take drop]. destruct ws as [|w ws]; [done|]. apply IH.
  unfold Sha256.compress. rewrite length_zip_with, rounds_length by done. lia.
Qed.

#[export] Instance sha256_format : DigestFormat.
Proof.
  intros s. unfold sha256_pattern, hexdigest, sha256_digest.
  destruct (hex_format (Sha256.digest_words (bytes_of s))) as [-> ->].
  unfold Sha256.digest_words. by rewrite blocks_length.
Qed.
