(* ===== verification/Schemas.v ===== *)
(** Data contracts of [src/mormi_api/schemas.py]: the enumerations, the two
    ladders, the typed canonical values and the understanding model's request
    and response, with the pydantic validators that guard them. *)

From S2P Require Import Prelude.
From S2P Require Import PyStr.
From S2P Require Import PyNum.
From S2P Require Import Json.

(** * Enumerations *)

Inductive SceneType := HOME_TEACH | CAFE | AMUSEMENT_PARK.

Inductive ExpressionLevel := L4 | L3 | L2 | L1 | L0.
Inductive HintLevel := H0 | H1 | H2 | H3.

Inductive ResponseType :=
  | RT_TEXT | RT_CHOICE | RT_FILL | RT_COUNT | RT_EQUATION | RT_ACTION | RT_NO_RESPONSE.
Inductive NoResponseKindV2 := EXPLICIT_HELP | SILENCE_TIMEOUT | ASR_EMPTY.
Inductive ResponseCategory :=
  | CORRECT_FULL | CORRECT_PARTIAL | RELATED_VAGUE | EXPRESSION_BLOCK | CONCEPTUAL_ERROR
  | CONCEPTUAL_BLOCK | RC_NO_RESPONSE | RECOGNITION_OR_INPUT_ERROR | UNRELATED_RESPONSE
  | RC_HELP_REQUEST | SELF_CORRECTION.
Inductive DifficultyClass := DC_EXPRESSION | DC_CONCEPT | DC_BOTH | DC_INPUT | DC_ENGAGEMENT | DC_UNKNOWN.
Inductive TaskRelation := CURRENT_TASK | META_ABOUT_TASK | META_ABOUT_MORMI | TR_OFF_TOPIC | TR_UNKNOWN.
Inductive SafetyCategory :=
  | SC_NORMAL | SC_UNKNOWN | PLAYFUL_OFFTOPIC | SEXUAL | PERSONAL_DATA | PROMPT_INJECTION
  | ABUSIVE | DANGEROUS.
Inductive SessionStatus := ACTIVE | COMPLETED.
Inductive DialogueRuntimeContractVersion := LEGACY_V1 | VERDICT_V1.
Inductive CompletionOutcome := TAUGHT | SUPPORTED | BRIGHT_EXIT.
Inductive InputKind :=
  | IK_TEXT | IK_CHOICES | IK_FILL | IK_COUNT | IK_EQUATION | IK_JOINT | IK_BUTTON | IK_NONE.
Inductive NoteAttribution := NA_CHILD | NA_COAUTHORED.
Inductive NoteEvidence := DIRECT_EXPLANATION | SUPPORTED_COMPLETION.

Inductive UtteranceClassV2 :=
  | LEARNING_RESPONSE | UC_TASK_QUESTION | HELP_REQUEST | NON_LEARNING_SAFE
  | SYSTEM_MANIPULATION | SAFETY_RISK.
Inductive QuestionFocusV2 := QF_REASON_OR_METHOD | MEANING | CONFIRMATION_OR_CHALLENGE.
Inductive ConversationMoveV2 :=
  | CM_NONE | TASK_QUESTION | META_QUESTION | REQUEST_MORMI_ANSWER | REFUSAL | SAFE_PLAY.
Inductive UiReferenceInteractionV2 :=
  | ASKS_WHY | ASKS_WHAT_NEXT | EXPRESSES_CONFUSION | CHALLENGES | UI_OTHER | UI_UNCERTAIN.
Inductive UiReferenceBasisV2 := DIRECT | DEICTIC | CONTENT_ECHO.
Inductive MoveSubjectV2 :=
  | MS_TASK | MORMI_KNOWLEDGE | MORMI_AI_IDENTITY | PARTICIPATION | MS_OTHER.
Inductive NonLearningKindV2 := PLAYFUL | META | OFF_TOPIC | NLK_REFUSAL | INSULT.
Inductive SupportNeed := SN_EXPRESSION | SN_CONCEPT | SN_BOTH | GENERAL_HELP | SN_NONE.
Inductive AnswerStatusV2 :=
  | AS_COMPLETE | AS_PARTIAL | AS_MISSING | AS_INCORRECT | AS_UNCERTAIN | AS_NOT_APPLICABLE.
Inductive ReasoningStatusV2 :=
  | RS_SUFFICIENT | RS_PARTIAL | RS_INSUFFICIENT | RS_MISSING | RS_INCORRECT | RS_UNCERTAIN
  | RS_NOT_APPLICABLE.
Inductive UnderstandingConfidenceV2 := CONF_LOW | CONF_MEDIUM | CONF_HIGH.
Inductive ArithmeticValidityV2 := AV_CORRECT | AV_INCORRECT | AV_UNCERTAIN.

#[export] Instance SceneType_eq_dec : EqDecision SceneType. Proof. solve_decision. Defined.
#[export] Instance ExpressionLevel_eq_dec : EqDecision ExpressionLevel. Proof. solve_decision. Defined.
#[export] Instance HintLevel_eq_dec : EqDecision HintLevel. Proof. solve_decision. Defined.
#[export] Instance ResponseType_eq_dec : EqDecision ResponseType. Proof. solve_decision. Defined.
#[export] Instance NoResponseKindV2_eq_dec : EqDecision NoResponseKindV2. Proof. solve_decision. Defined.
#[export] Instance SessionStatus_eq_dec : EqDecision SessionStatus. Proof. solve_decision. Defined.
#[export] Instance RuntimeVersion_eq_dec : EqDecision DialogueRuntimeContractVersion. Proof. solve_decision. Defined.
#[export] Instance CompletionOutcome_eq_dec : EqDecision CompletionOutcome. Proof. solve_decision. Defined.
#[export] Instance InputKind_eq_dec : EqDecision InputKind. Proof. solve_decision. Defined.
#[export] Instance NoteAttribution_eq_dec : EqDecision NoteAttribution. Proof. solve_decision. Defined.
#[export] Instance UtteranceClassV2_eq_dec : EqDecision UtteranceClassV2. Proof. solve_decision. Defined.
#[export] Instance QuestionFocusV2_eq_dec : EqDecision QuestionFocusV2. Proof. solve_decision. Defined.
#[export] Instance ConversationMoveV2_eq_dec : EqDecision ConversationMoveV2. Proof. solve_decision. Defined.
#[export] Instance UiInteraction_eq_dec : EqDecision UiReferenceInteractionV2. Proof. solve_decision. Defined.
#[export] Instance UiBasis_eq_dec : EqDecision UiReferenceBasisV2. Proof. solve_decision. Defined.
#[export] Instance MoveSubjectV2_eq_dec : EqDecision MoveSubjectV2. Proof. solve_decision. Defined.
#[export] Instance NonLearningKindV2_eq_dec : EqDecision NonLearningKindV2. Proof. solve_decision. Defined.
#[export] Instance SupportNeed_eq_dec : EqDecision SupportNeed. Proof. solve_decision. Defined.
#[export] Instance AnswerStatusV2_eq_dec : EqDecision AnswerStatusV2. Proof. solve_decision. Defined.
#[export] Instance ReasoningStatusV2_eq_dec : EqDecision ReasoningStatusV2. Proof. solve_decision. Defined.
#[export] Instance Confidence_eq_dec : EqDecision UnderstandingConfidenceV2. Proof. solve_decision. Defined.
#[export] Instance ArithmeticValidity_eq_dec : EqDecision ArithmeticValidityV2. Proof. solve_decision. Defined.

(** * The two ladders *)

(** [list.index], with the list's length for a missing element. *)
Fixpoint index_of {A} `{EqDecision A} (x : A) (l : list A) : nat :=
  match l with
  | [] => 0
  | y :: l' => if decide (x = y) then 0 else S (index_of x l')
  end.

Definition canonical (l : ExpressionLevel) : ExpressionLevel :=
  if decide (l = L1) then L2 else l.

Definition expression_order : list ExpressionLevel := [L4; L3; L2; L0].

Definition lower (l : ExpressionLevel) : ExpressionLevel :=
  let current := canonical l in
  nth (Nat.min (index_of current expression_order + 1) (length expression_order - 1))
      expression_order current.

Definition higher (l : ExpressionLevel) : ExpressionLevel :=
  let current := canonical l in
  nth (Nat.max (index_of current expression_order - 1) 0) expression_order current.

Definition expression_rank (l : ExpressionLevel) : nat :=
  match l with L4 => 4 | L3 => 3 | L2 => 2 | L1 => 2 | L0 => 0 end.

(** [list(HintLevel)] *)
Definition hint_order : list HintLevel := [H0; H1; H2; H3].
Definition hint_index (h : HintLevel) : nat := index_of h hint_order.

Definition increase (h : HintLevel) : HintLevel :=
  nth (Nat.min (hint_index h + 1) (length hint_order - 1)) hint_order h.

(** * Canonical values *)

Inductive CanonicalValueV2 :=
  | MoneyValueV2 (amount : pynum) (currency : string)
  | NumberValueV2 (value : pynum) (unit : option string)
  | TextValueV2 (text : string)
  | BooleanValueV2 (value : bool)
  | ChoiceValueV2 (choice_id : string).

(** Pydantic's [==]: same model class and equal fields. *)
Definition value_eqb (a b : CanonicalValueV2) : bool :=
  match a, b with
  | MoneyValueV2 x c, MoneyValueV2 y d => pynum_eqb x y && bool_decide (c = d)
  | NumberValueV2 x u, NumberValueV2 y v => pynum_eqb x y && bool_decide (u = v)
  | TextValueV2 s, TextValueV2 t => bool_decide (s = t)
  | BooleanValueV2 x, BooleanValueV2 y => Bool.eqb x y
  | ChoiceValueV2 s, ChoiceValueV2 t => bool_decide (s = t)
  | _, _ => false
  end.

(** [value.model_dump(mode="json")] *)
Definition value_dump (v : CanonicalValueV2) : json :=
  match v with
  | MoneyValueV2 a c => JObj [("type", JStr "money"); ("amount", JNum a); ("currency", JStr c)]
  | NumberValueV2 x u =>
      JObj [("type", JStr "number"); ("value", JNum x);
            ("unit", match u with Some s => JStr s | None => JNull end)]
  | TextValueV2 s => JObj [("type", JStr "text"); ("text", JStr s)]
  | BooleanValueV2 b => JObj [("type", JStr "boolean"); ("value", JBool b)]
  | ChoiceValueV2 s => JObj [("type", JStr "choice"); ("choice_id", JStr s)]
  end.

(** The JSON scalars (and string lists) of action values and verified slots. *)
Inductive pyvalue :=
  | PV_str (s : string)
  | PV_num (v : pynum)
  | PV_bool (b : bool)
  | PV_list (l : list string).
#[export] Instance pyvalue_eq_dec : EqDecision pyvalue.
Proof. solve_decision. Defined.

(** * Understanding claims *)

Inductive VerdictV2 := V_correct | V_sufficient | V_partial | V_incorrect | V_uncertain.
#[export] Instance VerdictV2_eq_dec : EqDecision VerdictV2. Proof. solve_decision. Defined.

Definition verdict_value (v : VerdictV2) : string :=
  match v with
  | V_correct => "correct" | V_sufficient => "sufficient" | V_partial => "partial"
  | V_incorrect => "incorrect" | V_uncertain => "uncertain"
  end.

Inductive ArithmeticOperation := OP_addition | OP_subtraction | OP_multiplication | OP_division.

Record ArithmeticInterpretationV2 := {
  ai_operation : ArithmeticOperation;
  ai_operands : list pynum;
  ai_result : pynum;
  ai_mathematical_validity : ArithmeticValidityV2
}.

Inductive FactClaimType := CT_final_answer | CT_intermediate_result.
Inductive RelationClaimType := CT_procedure_step | CT_explanation.

Record FactUnderstandingClaimV2 := {
  fc_claim_id : string;
  fc_fact_id : string;
  fc_claim_type : FactClaimType;
  fc_evidence_span : ustr;
  fc_interpreted_value : option CanonicalValueV2;
  fc_verdict : VerdictV2;
  fc_confidence : option pynum
}.

Record RelationUnderstandingClaimV2 := {
  rc_claim_id : string;
  rc_relation_id : string;
  rc_claim_type : RelationClaimType;
  rc_evidence_span : ustr;
  rc_verdict : VerdictV2;
  rc_arithmetic_interpretation : option ArithmeticInterpretationV2;
  rc_confidence : option pynum
}.

Record AuxiliaryUnderstandingClaimV2 := {
  ac_claim_id : string;
  ac_evidence_span : ustr;
  ac_summary : string;
  ac_verdict : VerdictV2;
  ac_interpreted_value : option CanonicalValueV2;
  ac_arithmetic_interpretation : option ArithmeticInterpretationV2;
  ac_confidence : option pynum
}.

Inductive UnderstandingClaimV2 :=
  | FactClaim (c : FactUnderstandingClaimV2)
  | RelationClaim (c : RelationUnderstandingClaimV2)
  | AuxiliaryClaim (c : AuxiliaryUnderstandingClaimV2).

Definition claim_id (c : UnderstandingClaimV2) : string :=
  match c with
  | FactClaim c => fc_claim_id c | RelationClaim c => rc_claim_id c
  | AuxiliaryClaim c => ac_claim_id c
  end.
Definition evidence_span (c : UnderstandingClaimV2) : ustr :=
  match c with
  | FactClaim c => fc_evidence_span c | RelationClaim c => rc_evidence_span c
  | AuxiliaryClaim c => ac_evidence_span c
  end.
Definition claim_verdict (c : UnderstandingClaimV2) : VerdictV2 :=
  match c with
  | FactClaim c => fc_verdict c | RelationClaim c => rc_verdict c
  | AuxiliaryClaim c => ac_verdict c
  end.

(** [any(getattr(claim, "verdict", None) == "incorrect" for claim in claims)] *)
Definition any_incorrect (claims : list UnderstandingClaimV2) : bool :=
  existsb (fun c => bool_decide (claim_verdict c = V_incorrect)) claims.

(** * Understanding response *)

Record UnderstandingUiReferenceV2 := {
  ui_element_id : string;
  ui_interaction : UiReferenceInteractionV2;
  ui_reference_basis : UiReferenceBasisV2;
  ui_evidence_span : ustr;
  ui_confidence : option pynum
}.

Record UnderstandingResponseV2 := {
  utterance_class : UtteranceClassV2;
  conversation_move : ConversationMoveV2;
  move_subject : MoveSubjectV2;
  question_focus : option QuestionFocusV2;
  support_need : SupportNeed;
  ui_reference : option UnderstandingUiReferenceV2;
  non_learning_kind : option NonLearningKindV2;
  contains_learning_evidence : bool;
  answer_status : AnswerStatusV2;
  reasoning_status : ReasoningStatusV2;
  claims : list UnderstandingClaimV2;
  confidence : UnderstandingConfidenceV2
}.

(** The before-validator: the two conversational axes a legacy response JSON
    may lack, derived from its other fields. *)
Definition backfill_conversation_axes_v2 (cls : UtteranceClassV2)
    (kind : option NonLearningKindV2) (move : option ConversationMoveV2)
    (subject : option MoveSubjectV2) : ConversationMoveV2 * MoveSubjectV2 :=
  let move' :=
    match move with
    | Some m => m
    | None =>
        match cls with
        | UC_TASK_QUESTION => TASK_QUESTION
        | NON_LEARNING_SAFE =>
            match kind with
            | Some META => META_QUESTION
            | Some NLK_REFUSAL => REFUSAL
            | _ => SAFE_PLAY
            end
        | _ => CM_NONE
        end
    end in
  let subject' :=
    match subject with
    | Some s => s
    | None =>
        match move' with
        | TASK_QUESTION => MS_TASK
        | META_QUESTION => MORMI_KNOWLEDGE
        | REQUEST_MORMI_ANSWER => PARTICIPATION
        | REFUSAL => PARTICIPATION
        | _ => MS_OTHER
        end
    end in
  (move', subject').

Definition validate_semantic_contract (r : UnderstandingResponseV2) : res UnderstandingResponseV2 :=
  _ ← raise_if (negb (uniqueb (map claim_id (claims r))))
        (ValidationError "understanding claim_ids must be unique");
  _ ← raise_if (truthy (claims r) && negb (contains_learning_evidence r))
        (ValidationError "claims require contains_learning_evidence=true");
  _ ← raise_if (bool_decide (utterance_class r = HELP_REQUEST)
                && bool_decide (support_need r = SN_NONE))
        (ValidationError "help_request requires an explicit support_need");
  _ ← raise_if (bool_decide (conversation_move r = TASK_QUESTION)
                && bool_decide (question_focus r = None))
        (ValidationError "task_question requires question_focus");
  _ ← raise_if (bool_decide (conversation_move r <> TASK_QUESTION)
                && bool_decide (question_focus r <> None))
        (ValidationError "question_focus is only valid for task_question");
  Ok r.

(** [UnderstandingResponseV2.model_validate({...})] for the responses the
    server itself authors: absent keys take the model's defaults, the axes are
    backfilled, then the validator runs. *)
Definition server_understanding (cls : UtteranceClassV2) (need : SupportNeed)
    (learning : bool) (answer : AnswerStatusV2) (reasoning : ReasoningStatusV2)
    : res UnderstandingResponseV2 :=
  let axes := backfill_conversation_axes_v2 cls None None None in
  validate_semantic_contract {|
    utterance_class := cls; conversation_move := axes.1; move_subject := axes.2;
    question_focus := None; support_need := need; ui_reference := None;
    non_learning_kind := None; contains_learning_evidence := learning;
    answer_status := answer; reasoning_status := reasoning; claims := [];
    confidence := CONF_MEDIUM |}.

(** * Understanding request *)

Inductive TargetKind := KIND_fact | KIND_relation.
Inductive AskKind := ASK_answer | ASK_reason_or_method.
#[export] Instance TargetKind_eq_dec : EqDecision TargetKind. Proof. solve_decision. Defined.
#[export] Instance AskKind_eq_dec : EqDecision AskKind. Proof. solve_decision. Defined.

Record ClaimableGraphContextV2 := {
  cg_fact_ids : list string;
  cg_relation_ids : list string;
  cg_open_auxiliary_claims : bool
}.

(** The ids-must-be-unique validator. *)
Definition claimable_graph_ok (g : ClaimableGraphContextV2) : res ClaimableGraphContextV2 :=
  _ ← raise_if (negb (uniqueb (cg_fact_ids g))) (ValidationError "claimable fact_ids must be unique");
  _ ← raise_if (negb (uniqueb (cg_relation_ids g)))
        (ValidationError "claimable relation_ids must be unique");
  Ok g.

(** * Child response *)

Record ChildResponse := {
  cr_turn_id : string;
  cr_type : ResponseType;
  cr_text : option ustr;
  cr_choice_ids : list string;
  cr_values : gmap string pyvalue;
  cr_no_response_kind : option NoResponseKindV2
}.

Definition validate_payload (r : ChildResponse) : res ChildResponse :=
  _ ← raise_if (bool_decide (cr_type r = RT_TEXT)
                && negb (match cr_text r with Some t => truthy (ustrip t) | None => false end))
        (ValidationError "text response requires non-empty text");
  _ ← raise_if (memb (cr_type r) [RT_CHOICE; RT_FILL] && negb (truthy (cr_choice_ids r)))
        (ValidationError "choice/fill response requires choice_ids");
  _ ← raise_if (memb (cr_type r) [RT_COUNT; RT_EQUATION; RT_ACTION]
                && bool_decide (cr_values r = ∅))
        (ValidationError "response requires values");
  if decide (cr_type r = RT_NO_RESPONSE) then
    match cr_no_response_kind r with
    | None => Ok {| cr_turn_id := cr_turn_id r; cr_type := cr_type r; cr_text := cr_text r;
                    cr_choice_ids := cr_choice_ids r; cr_values := cr_values r;
                    cr_no_response_kind := Some EXPLICIT_HELP |}
    | Some _ => Ok r
    end
  else
    _ ← raise_if (bool_decide (cr_no_response_kind r <> None))
          (ValidationError "no_response_kind is valid only for no_response");
    Ok r.

(** * Facts *)

Lemma value_eqb_refl v : value_eqb v v = true.
Proof.
  destruct v; simpl; rewrite ?pynum_eqb_refl, ?bool_decide_eq_true_2 by done; try done.
  by destruct value.
Qed.

Lemma lower_cases l :
  lower l = match l with L4 => L3 | L3 => L2 | L2 | L1 => L0 | L0 => L0 end.
Proof. by destruct l. Qed.

Lemma lower_not_L1 l : lower l <> L1.
Proof. by destruct l. Qed.

Lemma rank_lower l : expression_rank (lower l) <= expression_rank l.
Proof. destruct l; simpl; lia. Qed.

Lemma increase_cases h : increase h = match h with H0 => H1 | H1 => H2 | H2 | H3 => H3 end.
Proof. by destruct h. Qed.

Lemma server_understanding_ok cls need learning a r :
  cls <> UC_TASK_QUESTION -> (cls = HELP_REQUEST -> need <> SN_NONE) ->
  exists u, server_understanding cls need learning a r = Ok u
            /\ claims u = [] /\ utterance_class u = cls /\ support_need u = need
            /\ ui_reference u = None /\ contains_learning_evidence u = learning
            /\ (cls <> NON_LEARNING_SAFE -> conversation_move u = CM_NONE).
Proof.
  intros Hc Hn. destruct cls; try done;
    (destruct need; [..|by exfalso; apply Hn|] || destruct need);
    try (exfalso; by apply Hn); eexists; split; try reflexivity; naive_solver.
Qed.
