(* ===== verification/Requests.v ===== *)
(** The understanding model's request ([UnderstandingRequestV2]) and its
    cross-field validator. *)

From S2P Require Import Prelude.
From S2P Require Import PyStr.
From S2P Require Import PyNum.
From S2P Require Import Json.
From S2P Require Import Schemas.

Inductive RelationOperation :=
  | R_counting | R_comparison | R_addition | R_subtraction | R_multiplication | R_division
  | R_selection.
#[export] Instance RelationOperation_eq_dec : EqDecision RelationOperation.
Proof. solve_decision. Defined.

Inductive MethodPolicy := canonical_relation | open_equivalent.

Record UnderstandingRelationContractV2 := {
  urc_relation_id : string;
  urc_speaker_label : string;
  urc_operation : RelationOperation;
  urc_input_fact_ids : list string;
  urc_output_fact_id : string;
  urc_method_policy : MethodPolicy;
  urc_numeric_expression_required : bool;
  urc_answer_required_in_same_utterance : bool
}.

(** [Field(min_length=lo, max_length=hi)] on a string and on a list. *)
Definition bounded_text (lo hi : nat) (s : string) : bool := bool_decide (lo <= py_len s <= hi).
Definition bounded_list {A} (lo hi : nat) (l : list A) : bool := bool_decide (lo <= length l <= hi).

Definition relation_contract_fields (c : UnderstandingRelationContractV2) : bool :=
  bounded_text 1 160 (urc_relation_id c) && bounded_text 1 160 (urc_speaker_label c)
  && bounded_list 1 20 (urc_input_fact_ids c) && bounded_text 1 160 (urc_output_fact_id c).

(** [fact_references_must_be_distinct] *)
Definition fact_references_must_be_distinct (c : UnderstandingRelationContractV2)
    : res UnderstandingRelationContractV2 :=
  _ ← raise_if (negb (relation_contract_fields c)) (ValidationError "relation contract fields");
  _ ← raise_if (negb (uniqueb (urc_input_fact_ids c)))
        (ValidationError "relation semantic contract inputs must be unique");
  _ ← raise_if (memb (urc_output_fact_id c) (urc_input_fact_ids c))
        (ValidationError "relation output cannot also be an input");
  Ok c.

Record UnderstandingTargetV2 := {
  ut_target_kind : TargetKind;
  ut_target_id : string;
  ut_ask_kind : AskKind;
  ut_rubric : list (string * string);
  ut_expected_truth : option CanonicalValueV2;
  ut_semantic_contract : option UnderstandingRelationContractV2
}.

(** [semantic_contract_belongs_only_to_relations] *)
Definition semantic_contract_belongs_only_to_relations (t : UnderstandingTargetV2)
    : res UnderstandingTargetV2 :=
  _ ← raise_if (negb (bounded_text 1 160 (ut_target_id t))) (ValidationError "target_id");
  match ut_target_kind t, ut_semantic_contract t with
  | KIND_fact, Some _ =>
      Raise (ValidationError "fact target cannot declare a relation semantic contract")
  | KIND_fact, None => Ok t
  | KIND_relation, None => Raise (ValidationError "relation target needs a semantic contract")
  | KIND_relation, Some c =>
      _ ← raise_if (negb (bool_decide (urc_relation_id c = ut_target_id t)))
            (ValidationError "semantic contract relation_id must match target_id");
      Ok t
  end.

Record UnderstandingFactContextV2 := {
  ufc_fact_id : string;
  ufc_speaker_label : string;
  ufc_semantic_aliases : list string;
  ufc_visible : bool
}.

(** [aliases_must_be_unique] *)
Definition aliases_must_be_unique (c : UnderstandingFactContextV2)
    : res UnderstandingFactContextV2 :=
  _ ← raise_if (negb (bounded_text 1 160 (ufc_fact_id c) && bounded_text 1 100 (ufc_speaker_label c)
                      && bounded_list 0 12 (ufc_semantic_aliases c)))
        (ValidationError "fact context fields");
  _ ← raise_if (negb (uniqueb (ufc_semantic_aliases c)))
        (ValidationError "fact semantic aliases must be unique");
  Ok c.

Record UnderstandingTurnContextV2 := {
  utc_mormi_question : string;
  utc_asks : list AskKind;
  utc_expression_level : ExpressionLevel;
  utc_hint_level : HintLevel;
  utc_help_scaffolded_relation_ids : list string
}.

(** [validate_help_scaffold_scope] *)
Definition validate_help_scaffold_scope (c : UnderstandingTurnContextV2)
    : res UnderstandingTurnContextV2 :=
  _ ← raise_if (negb (bool_decide (1 <= py_len (utc_mormi_question c))
                      && bounded_list 1 2 (utc_asks c)
                      && bounded_list 0 20 (utc_help_scaffolded_relation_ids c)))
        (ValidationError "current_turn fields");
  _ ← raise_if (negb (uniqueb (utc_help_scaffolded_relation_ids c)))
        (ValidationError "help scaffold relation ids must be unique");
  _ ← raise_if (truthy (utc_help_scaffolded_relation_ids c)
                && negb (memb (utc_hint_level c) [H2; H3]))
        (ValidationError "help scaffold relations require an H2 or H3 card");
  Ok c.

Record UnderstandingVisibleUiElementV2 := {
  uve_element_id : string;
  uve_text : string;
  uve_hint_level : option HintLevel
}.

(** [help_card_requires_hint_level]; [HELP_CARD] is the only element kind. *)
Definition help_card_requires_hint_level (e : UnderstandingVisibleUiElementV2)
    : res UnderstandingVisibleUiElementV2 :=
  _ ← raise_if (negb (bounded_text 1 300 (uve_text e))) (ValidationError "text");
  _ ← raise_if (negb (match uve_hint_level e with
                      | Some h => memb h [H1; H2; H3] | None => false end))
        (ValidationError "a visible help card requires an H1-H3 hint level");
  Ok e.

Record DialogueHistoryTurn := {
  dh_turn_id : string;
  dh_mormi : string;
  dh_child : option ustr
}.

Record UnderstandingRequestV2 := {
  ur_task_id : string;
  ur_visible_facts : list (string * pyvalue);
  ur_fact_contexts : list UnderstandingFactContextV2;
  ur_targets : list UnderstandingTargetV2;
  ur_claimable_graph : ClaimableGraphContextV2;
  ur_current_turn : UnderstandingTurnContextV2;
  ur_visible_ui_elements : list UnderstandingVisibleUiElementV2;
  ur_recent_history : list DialogueHistoryTurn;
  ur_child_utterance : ustr;
  ur_guard_feedback_codes : list string
}.

Definition request_target_key (t : UnderstandingTargetV2) : TargetKind * string :=
  (ut_target_kind t, ut_target_id t).

(** The body of the loop over the targets. *)
Definition request_target_ok (fact_ids relation_ids : list string) (t : UnderstandingTargetV2)
    : res unit :=
  match ut_target_kind t with
  | KIND_fact =>
      raise_if (negb (memb (ut_target_id t) fact_ids))
        (ValidationError "fact target must exist in claimable_graph.fact_ids")
  | KIND_relation =>
      _ ← raise_if (negb (memb (ut_target_id t) relation_ids))
            (ValidationError "relation target must exist in claimable_graph.relation_ids");
      _ ← raise_if (match ut_expected_truth t with Some _ => true | None => false end)
            (ValidationError "relation target cannot declare expected_truth");
      match ut_semantic_contract t with
      | None => Raise AssertionError
      | Some c =>
          _ ← raise_if (negb (subsetb (urc_input_fact_ids c) fact_ids))
                (ValidationError "semantic contract inputs must be claimable facts");
          raise_if (negb (memb (urc_output_fact_id c) fact_ids))
            (ValidationError "semantic contract output must be a claimable fact")
      end
  end.

Definition targets_must_reference_the_claimable_graph (r : UnderstandingRequestV2)
    : res UnderstandingRequestV2 :=
  let fact_ids := cg_fact_ids (ur_claimable_graph r) in
  let relation_ids := cg_relation_ids (ur_claimable_graph r) in
  let context_ids := map ufc_fact_id (ur_fact_contexts r) in
  let visible_ids := map fst (ur_visible_facts r) in
  _ ← raise_if (negb (uniqueb (map request_target_key (ur_targets r))))
        (ValidationError "understanding targets must be unique");
  _ ← raise_if (negb (uniqueb context_ids))
        (ValidationError "understanding fact contexts must be unique");
  _ ← raise_if (negb (set_eqb context_ids fact_ids))
        (ValidationError "understanding fact contexts must cover claimable facts");
  _ ← raise_if (negb (subsetb visible_ids fact_ids))
        (ValidationError "visible facts must reference claimable facts");
  _ ← raise_if (negb (set_eqb (map ufc_fact_id (List.filter ufc_visible (ur_fact_contexts r)))
                              visible_ids))
        (ValidationError "visible fact contexts must match visible_facts");
  _ ← raise_if (negb (uniqueb (map uve_element_id (ur_visible_ui_elements r))))
        (ValidationError "visible UI element ids must be unique");
  _ ← mapR (request_target_ok fact_ids relation_ids) (ur_targets r);
  _ ← raise_if (negb (set_eqb (utc_asks (ur_current_turn r)) (map ut_ask_kind (ur_targets r))))
        (ValidationError "current_turn asks must match target ask kinds");
  _ ← raise_if (negb (subsetb (utc_help_scaffolded_relation_ids (ur_current_turn r))
                        (map ut_target_id
                          (List.filter (fun t => bool_decide (ut_target_kind t = KIND_relation))
                             (ur_targets r)))))
        (ValidationError "help scaffold relations must be unresolved relation targets");
  Ok r.

(** [UnderstandingRequestV2.model_validate]: the nested models' validators run
    first, then the length bounds, then the cross-field validator. *)
Definition request_validate (r : UnderstandingRequestV2) : res UnderstandingRequestV2 :=
  _ ← mapR aliases_must_be_unique (ur_fact_contexts r);
  _ ← mapR (fun t => match ut_semantic_contract t with
                     | Some c => _ ← fact_references_must_be_distinct c; Ok tt
                     | None => Ok tt end) (ur_targets r);
  _ ← mapR semantic_contract_belongs_only_to_relations (ur_targets r);
  _ ← raise_if (negb (bounded_list 0 100 (cg_fact_ids (ur_claimable_graph r))
                      && bounded_list 0 100 (cg_relation_ids (ur_claimable_graph r))))
        (ValidationError "claimable_graph fields");
  _ ← claimable_graph_ok (ur_claimable_graph r);
  _ ← validate_help_scaffold_scope (ur_current_turn r);
  _ ← mapR help_card_requires_hint_level (ur_visible_ui_elements r);
  _ ← raise_if (negb (bounded_text 1 160 (ur_task_id r) && bounded_list 0 100 (ur_fact_contexts r)
                      && bounded_list 1 20 (ur_targets r) && bounded_list 0 8 (ur_visible_ui_elements r)
                      && bounded_list 0 6 (ur_recent_history r)
                      && bounded_list 1 300 (ur_child_utterance r)))
        (ValidationError "request fields");
  targets_must_reference_the_claimable_graph r.
