(* ===== verification/Regex.v ===== *)
(** Regular expressions of [re.fullmatch] over code points, matched by
    derivatives.  [matches] is executable and decides the language [lang]. *)

From S2P Require Import Prelude.
From S2P Require Import PyStr.
Local Open Scope N_scope.

Inductive regex :=
  | RNone
  | REps
  | RChr (p : N -> bool)
  | RCat (r s : regex)
  | RAlt (r s : regex)
  | RStar (r : regex).

Inductive lang : regex -> ustr -> Prop :=
  | lang_eps : lang REps []
  | lang_chr p c : p c = true -> lang (RChr p) [c]
  | lang_cat r s u v : lang r u -> lang s v -> lang (RCat r s) (u ++ v)
  | lang_alt_l r s u : lang r u -> lang (RAlt r s) u
  | lang_alt_r r s u : lang s u -> lang (RAlt r s) u
  | lang_star_nil r : lang (RStar r) []
  | lang_star_app r u v : lang r u -> lang (RStar r) v -> lang (RStar r) (u ++ v).

Fixpoint nullable (r : regex) : bool :=
  match r with
  | RNone | RChr _ => false
  | REps | RStar _ => true
  | RCat r s => nullable r && nullable s
  | RAlt r s => nullable r || nullable s
  end.

(** Products and sums that drop the dead branches, so that derivatives stay
    small. *)
Definition cat (r s : regex) : regex :=
  match r with RNone => RNone | REps => s | _ => RCat r s end.
Definition alt (r s : regex) : regex :=
  match r, s with RNone, _ => s | _, RNone => r | _, _ => RAlt r s end.

Fixpoint deriv (c : N) (r : regex) : regex :=
  match r with
  | RNone | REps => RNone
  | RChr p => if p c then REps else RNone
  | RCat r s => if nullable r then alt (cat (deriv c r) s) (deriv c s) else cat (deriv c r) s
  | RAlt r s => alt (deriv c r) (deriv c s)
  | RStar r => cat (deriv c r) (RStar r)
  end.

Definition matches (r : regex) (u : ustr) : bool :=
  nullable (fold_left (fun r c => deriv c r) u r).

(** * The operators the source's patterns use *)

Definition ropt (r : regex) : regex := RAlt REps r.
Definition rlit (s : string) : regex :=
  foldr (fun c r => RCat (RChr (N.eqb c)) r) REps (utf8_decode s).
Definition ralts (l : list string) : regex := foldr (fun s r => RAlt (rlit s) r) RNone l.
Definition rset (s : string) : regex := RChr (fun c => memb c (utf8_decode s)).
Definition rseq (l : list regex) : regex := foldr RCat REps l.
Definition rplus (r : regex) : regex := RCat r (RStar r).

(** First code points of the decimal-digit blocks of Unicode 15 (category Nd,
    each block holds ten digits). *)
Definition digit_blocks : list N :=
  [48; 1632; 1776; 1984; 2406; 2534; 2662; 2790; 2918; 3046; 3174; 3302; 3430; 3558; 3664;
   3792; 3872; 4160; 4240; 6112; 6160; 6470; 6608; 6784; 6800; 6992; 7088; 7232; 7248; 42528;
   43216; 43264; 43472; 43504; 43600; 44016; 65296; 66720; 68912; 69734; 69872; 69942; 70096;
   70384; 70736; 70864; 71248; 71360; 71472; 71904; 72016; 72784; 73040; 73120; 73552; 92768;
   92864; 93008; 120782; 120792; 120802; 120812; 120822; 123200; 123632; 124144; 125264;
   130032].

(** [\d] and [\s] on [str] patterns. *)
Definition is_digit (c : N) : bool :=
  existsb (fun b => (b <=? c) && (c <=? b + 9)) digit_blocks.
Definition rdigit : regex := RChr is_digit.
Definition rspaces : regex := RStar (RChr is_space).

(** * Correctness of the matcher *)

Lemma nullable_spec r : nullable r = true <-> lang r [].
Proof.
  induction r as [| |p|r IHr s IHs|r IHr s IHs|r IHr]; simpl.
  - split; [done|intros H; inversion H].
  - split; [intros _; constructor|done].
  - split; [done|intros H; inversion H].
  - rewrite andb_true_iff, IHr, IHs. split.
    + intros [Hr Hs]. by apply (lang_cat r s [] []).
    + intros H. inversion H as [| |? ? u v Hu Hv E Huv| | | |]; subst.
      by apply app_eq_nil in Huv as [-> ->].
  - rewrite orb_true_iff, IHr, IHs.
    split; [intros [H|H]; by constructor|intros H; inversion H; subst; auto].
  - split; [intros _; constructor|done].
Qed.

Lemma lang_cat_smart r s u : lang (cat r s) u <-> lang (RCat r s) u.
Proof.
  destruct r; simpl; try done; split.
  - intros H. inversion H.
  - intros H. inversion H as [| |? ? ? ? Hu| | | |]; subst. inversion Hu.
  - intros H. change u with ([] ++ u). constructor; [constructor|done].
  - intros H. inversion H as [| |? ? ? ? Hu Hv| | | |]; subst. inversion Hu; subst. done.
Qed.

Lemma lang_alt_smart r s u : lang (alt r s) u <-> lang r u \/ lang s u.
Proof.
  assert (lang (RAlt r s) u <-> lang r u \/ lang s u) as Halt.
  { split; [intros H; inversion H; subst; auto|intros [H|H]; by constructor]. }
  assert (forall t, (lang RNone u \/ lang t u) <-> lang t u) as Hnone.
  { intros t. split; [intros [H|H]; [inversion H|done]|by right]. }
  assert (forall t, (lang t u \/ lang RNone u) <-> lang t u) as Hnone'.
  { intros t. split; [intros [H|H]; [done|inversion H]|by left]. }
  unfold alt. destruct r, s; first [exact Halt | by rewrite Hnone | by rewrite Hnone'].
Qed.

Lemma lang_cat_cons r s c u :
  lang (RCat r s) (c :: u) <->
  (exists v w, u = v ++ w /\ lang r (c :: v) /\ lang s w) \/ (lang r [] /\ lang s (c :: u)).
Proof.
  split.
  - intros H. inversion H as [| |? ? v w Hv Hw E Ev| | | |]; subst.
    destruct v as [|d v]; simpl in *; [by right; subst|].
    injection Ev as -> <-. left. by exists v, w.
  - intros [(v & w & -> & Hv & Hw)|[Hr Hs]].
    + change (c :: v ++ w) with ((c :: v) ++ w). by constructor.
    + change (c :: u) with ([] ++ c :: u). by constructor.
Qed.

Lemma lang_star_cons r c u :
  lang (RStar r) (c :: u) <->
  exists v w, u = v ++ w /\ lang r (c :: v) /\ lang (RStar r) w.
Proof.
  split.
  - remember (RStar r) as rs eqn:Ers. remember (c :: u) as cu eqn:Ecu. intros H.
    revert c u Ecu. induction H as [| | | | | |r' v w Hv _ Hw IHw]; intros d x Ecu; try done.
    injection Ers as ->. destruct v as [|d' v]; simpl in Ecu.
    + apply IHw; [done|]. by rewrite <- Ecu.
    + injection Ecu as -> <-. by exists v, w.
  - intros (v & w & -> & Hv & Hw). change (c :: v ++ w) with ((c :: v) ++ w). by constructor.
Qed.

Lemma deriv_spec r c u : lang (deriv c r) u <-> lang r (c :: u).
Proof.
  revert u; induction r as [| |p|r IHr s IHs|r IHr s IHs|r IHr]; intros u; simpl.
  - split; intros H; inversion H.
  - split; intros H; inversion H.
  - destruct (p c) eqn:E; split; intros H; inversion H; subst; try congruence; by constructor.
  - rewrite lang_cat_cons. destruct (nullable r) eqn:E.
    + apply nullable_spec in E. rewrite lang_alt_smart, lang_cat_smart, IHs.
      split; (intros [H|H]; [left|right; naive_solver]).
      * inversion H as [| |? ? v w Hv Hw| | | |]; subst. exists v, w. by rewrite <- IHr.
      * destruct H as (v & w & -> & Hv & Hw). constructor; [by apply IHr|done].
    + assert (~ lang r []) as Hn by (rewrite <- nullable_spec; congruence).
      rewrite lang_cat_smart. split.
      * intros H. inversion H as [| |? ? v w Hv Hw| | | |]; subst.
        left. exists v, w. by rewrite <- IHr.
      * intros [(v & w & -> & Hv & Hw)|[? _]]; [|done]. constructor; [by apply IHr|done].
  - rewrite lang_alt_smart, IHr, IHs.
    split; [intros [H|H]; by constructor|intros H; inversion H; subst; auto].
  - rewrite lang_cat_smart, lang_star_cons. split.
    + intros H. inversion H as [| |? ? v w Hv Hw| | | |]; subst. exists v, w. by rewrite <- IHr.
    + intros (v & w & -> & Hv & Hw). constructor; [by apply IHr|done].
Qed.

Lemma matches_spec r u : matches r u = true <-> lang r u.
Proof.
  unfold matches. revert r; induction u as [|c u IH]; intros r; simpl.
  - apply nullable_spec.
  - rewrite IH. apply deriv_spec.
Qed.

(** * [re.search] with one character of context

    [rsearch before r after u]: somewhere in [u] a substring in the language of
    [r] is preceded and followed by characters (or the text's edges, [None])
    satisfying the look-around conditions. *)

Definition anyctx : option N -> bool := fun _ => true.

Fixpoint rmatch_prefix (after : option N -> bool) (r : regex) (u : ustr) : bool :=
  match r with
  | RNone => false
  | _ => (nullable r && after (head u))
         || match u with [] => false | c :: u' => rmatch_prefix after (deriv c r) u' end
  end.

Fixpoint rsearch_from (before after : option N -> bool) (prev : option N) (r : regex)
    (u : ustr) : bool :=
  (before prev && rmatch_prefix after r u)
  || match u with [] => false | c :: u' => rsearch_from before after (Some c) r u' end.

Definition rsearch (before : option N -> bool) (r : regex) (after : option N -> bool)
    (u : ustr) : bool := rsearch_from before after None r u.

(** [re.compile(r).search(text)] without look-around. *)
Definition rfind (r : regex) (text : string) : bool := rsearch anyctx r anyctx (utf8_decode text).

Lemma lang_none u : ~ lang RNone u.
Proof. inversion 1. Qed.

Lemma rmatch_prefix_spec after r u :
  rmatch_prefix after r u = true <->
  exists v w, u = v ++ w /\ lang r v /\ after (head w) = true.
Proof.
  revert r. induction u as [|c u IH]; intros r.
  - assert (rmatch_prefix after r [] = nullable r && after None) as ->
      by (destruct r; simpl; by rewrite ?orb_false_r).
    rewrite andb_true_iff, nullable_spec. split.
    + intros [Hn Ha]. by exists [], [].
    + intros ([|] & [|] & Hu & Hl & Ha); done.
  - assert (rmatch_prefix after r (c :: u)
            = (nullable r && after (Some c)) || rmatch_prefix after (deriv c r) u) as ->
      by (destruct r; simpl; try done; by destruct u).
    rewrite orb_true_iff, andb_true_iff, nullable_spec, IH. split.
    + intros [[Hn Ha]|(v & w & -> & Hl & Ha)].
      * by exists [], (c :: u).
      * exists (c :: v), w. split; [done|]. split; [by apply deriv_spec|done].
    + intros ([|d v] & w & Hu & Hl & Ha); simpl in Hu.
      * left. subst w. done.
      * injection Hu as <- ->. right. exists v, w. split; [done|]. split; [by apply deriv_spec|done].
Qed.

Lemma rsearch_from_spec before after prev r u :
  rsearch_from before after prev r u = true <->
  exists x v w, u = x ++ v ++ w /\ before (match last x with Some c => Some c | None => prev end) = true
    /\ lang r v /\ after (head w) = true.
Proof.
  revert prev. induction u as [|c u IH]; intros prev.
  - change (rsearch_from before after prev r [])
      with ((before prev && rmatch_prefix after r []) || false).
    rewrite orb_true_iff, andb_true_iff, rmatch_prefix_spec. split.
    + intros [[Hb (v & w & Hu & Hl & Ha)]|[=]]. exists [], v, w. done.
    + intros (x & v & w & Hu & Hb & Hl & Ha). left.
      destruct x; [|done]. split; [done|]. by exists v, w.
  - change (rsearch_from before after prev r (c :: u))
      with ((before prev && rmatch_prefix after r (c :: u)) || rsearch_from before after (Some c) r u).
    rewrite orb_true_iff, andb_true_iff, rmatch_prefix_spec, IH. split.
    + intros [[Hb (v & w & Hu & Hl & Ha)]|(x & v & w & -> & Hb & Hl & Ha)].
      * by exists [], v, w.
      * exists (c :: x), v, w. split; [done|]. split; [|done]. rewrite last_cons.
        by destruct (last x).
    + intros ([|d x] & v & w & Hu & Hb & Hl & Ha).
      * left. split; [done|]. by exists v, w.
      * injection Hu as <- ->. right. exists x, v, w. split; [done|]. split; [|done].
        rewrite last_cons in Hb. by destruct (last x).
Qed.

(** What a search decides. *)
Lemma rsearch_spec before r after u :
  rsearch before r after u = true <->
  exists x v w, u = x ++ v ++ w /\ before (last x) = true /\ lang r v /\ after (head w) = true.
Proof.
  unfold rsearch. rewrite rsearch_from_spec.
  split; intros (x & v & w & ? & ? & ? & ?); exists x, v, w; by destruct (last x).
Qed.
