(* ===== verification/Evidence.v ===== *)
(** The literal-evidence guard ([src/mormi_api/dialogue_v2_evidence.py]).

    Every claim of the understanding model must quote the child: the guard
    locates the quoted span in the utterance (exactly, or up to Unicode NFC) and
    checks that the claim names a reviewed graph id.  The strict guard rejects a
    whole response; the admission boundary keeps the independently valid claims
    and quarantines the others. *)

From S2P Require Import Prelude.
From S2P Require Import PyStr.
From S2P Require Import PyNum.
From S2P Require Import Json.
From S2P Require Import Schemas.
From S2P Require Import Requests.
From S2P Require Import Regex.

(** [unicodedata.normalize("NFC", s)], whose tables are not under src/. *)
Class Nfc := normalize_nfc : ustr -> ustr.

(** The algorithmic part of NFC, enough for Korean text: a leading and a vowel
    jamo compose, then a trailing jamo joins. *)
Fixpoint hangul_compose (u : ustr) : ustr :=
  match u with
  | [] => []
  | c :: u' =>
      match hangul_compose u' with
      | d :: v =>
          if ((4352 <=? c) && (c <=? 4370) && (4449 <=? d) && (d <=? 4469))%N then
            let lv := (44032 + ((c - 4352) * 21 + (d - 4449)) * 28)%N in
            match v with
            | t :: w => if ((4520 <=? t) && (t <=? 4546))%N then (lv + (t - 4519))%N :: w
                        else lv :: v
            | [] => [lv]
            end
          else c :: d :: v
      | [] => [c]
      end
  end.
#[export] Instance hangul_nfc : Nfc := hangul_compose.

Inductive EvidenceMatchKindV2 := EXACT | UNICODE_NFC.
#[export] Instance EvidenceMatchKindV2_eq_dec : EqDecision EvidenceMatchKindV2.
Proof. solve_decision. Defined.
Definition match_kind_value (k : EvidenceMatchKindV2) : string :=
  match k with EXACT => "exact" | UNICODE_NFC => "unicode_nfc" end.

Inductive EvidenceGuardViolationCodeV2 :=
  | UNKNOWN_FACT_ID | UNKNOWN_RELATION_ID | AUXILIARY_CLAIMS_DISABLED | EVIDENCE_NOT_LITERAL
  | RELATION_EVIDENCE_IS_BARE_RESULT.
#[export] Instance ViolationCode_eq_dec : EqDecision EvidenceGuardViolationCodeV2.
Proof. solve_decision. Defined.
Definition violation_code_value (c : EvidenceGuardViolationCodeV2) : string :=
  match c with
  | UNKNOWN_FACT_ID => "unknown_fact_id"
  | UNKNOWN_RELATION_ID => "unknown_relation_id"
  | AUXILIARY_CLAIMS_DISABLED => "auxiliary_claims_disabled"
  | EVIDENCE_NOT_LITERAL => "evidence_not_literal"
  | RELATION_EVIDENCE_IS_BARE_RESULT => "relation_evidence_is_bare_result"
  end.

(** [_BARE_NUMERIC_RESULT_V2] *)
Definition bare_numeric_result_regex : regex :=
  rseq [rspaces;
        ropt (rset "-+"); rdigit; RStar (RAlt rdigit (rset ","));
        ropt (rseq [rlit "."; rplus rdigit]);
        rspaces; ropt (ralts ["원"; "명"; "개"; "권"; "번"; "회"; "쪽"; "줄"; "잔"; "장"]);
        rspaces; ropt (ralts ["이야"; "야"; "이에요"; "예요"; "입니다"]);
        rspaces; RStar (rset ".!?~^"); rspaces].

Definition is_bare_numeric_result (evidence_span : ustr) : bool :=
  matches bare_numeric_result_regex evidence_span.

Record EvidenceMatchV2 := {
  em_claim_id : string;
  em_source_start : nat;
  em_source_end : nat;
  em_source_text : ustr;
  em_match_kind : EvidenceMatchKindV2
}.

(** The constructor: field bounds, then [validate_source_boundaries]. *)
Definition evidence_match (m : EvidenceMatchV2) : res EvidenceMatchV2 :=
  _ ← raise_if (negb (bool_decide (0 < em_source_end m))) (ValidationError "source_end: gt 0");
  _ ← raise_if (bool_decide (length (em_source_text m) = 0)
                || bool_decide (300 < length (em_source_text m)))
        (ValidationError "source_text: length 1..300");
  _ ← raise_if (bool_decide (em_source_end m <= em_source_start m))
        (ValidationError "evidence source_end must be after source_start");
  _ ← raise_if (negb (bool_decide (em_source_end m - em_source_start m
                                   = length (em_source_text m))))
        (ValidationError "evidence source boundaries must match source_text");
  Ok m.

Record EvidenceGuardViolationV2 := {
  gv_claim_id : string;
  gv_code : EvidenceGuardViolationCodeV2
}.

Record GuardedUnderstandingV2 := {
  gu_response : UnderstandingResponseV2;
  gu_evidence_matches : list EvidenceMatchV2
}.

Record UnderstandingAdmissionV2 := {
  ad_guarded : GuardedUnderstandingV2;
  ad_quarantined_claims : list EvidenceGuardViolationV2
}.

Definition needs_repair (a : UnderstandingAdmissionV2) : bool :=
  truthy (ad_quarantined_claims a).

(** [raise UnderstandingEvidenceGuardError(violations)] *)
Definition guard_error (vs : list EvidenceGuardViolationV2) : pyexn :=
  UnderstandingEvidenceGuardError
    (map (fun v => (gv_claim_id v, violation_code_value (gv_code v))) vs).

Section guard.
Context `{Nfc}.

(** All nonempty source slices, in the order the two loops visit them. *)
Definition slice_bounds (n : nat) : list (nat * nat) :=
  flat_map (fun s => map (fun e => (s, e)) (seq (s + 1) (n - s))) (seq 0 n).

Definition literal_evidence_match (child_utterance evidence_span : ustr)
    : option (nat * nat * EvidenceMatchKindV2) :=
  match ufind evidence_span child_utterance with
  | Some exact_start => Some (exact_start, exact_start + length evidence_span, EXACT)
  | None =>
      let normalized_evidence := normalize_nfc evidence_span in
      if negb (ucontains normalized_evidence (normalize_nfc child_utterance)) then None
      else
        match find_first (fun se => bool_decide
                (normalize_nfc (uslice child_utterance se.1 se.2) = normalized_evidence))
                (slice_bounds (length child_utterance)) with
        | Some (source_start, source_end) => Some (source_start, source_end, UNICODE_NFC)
        | None => None
        end
  end.

Definition admitted_ui_reference (request : UnderstandingRequestV2)
    (response : UnderstandingResponseV2) : option UnderstandingUiReferenceV2 :=
  match ui_reference response with
  | None => None
  | Some reference =>
      if negb (memb (ui_element_id reference)
                 (map uve_element_id (ur_visible_ui_elements request))) then None
      else match literal_evidence_match (ur_child_utterance request)
                   (ui_evidence_span reference) with
           | None => None
           | Some _ => Some reference
           end
  end.

(** The graph-membership branch shared by both boundaries. *)
Definition membership_violation (request : UnderstandingRequestV2) (c : UnderstandingClaimV2)
    : list EvidenceGuardViolationV2 :=
  let graph := ur_claimable_graph request in
  match c with
  | FactClaim f =>
      if memb (fc_fact_id f) (cg_fact_ids graph) then []
      else [{| gv_claim_id := fc_claim_id f; gv_code := UNKNOWN_FACT_ID |}]
  | RelationClaim r =>
      if memb (rc_relation_id r) (cg_relation_ids graph) then []
      else [{| gv_claim_id := rc_claim_id r; gv_code := UNKNOWN_RELATION_ID |}]
  | AuxiliaryClaim a =>
      if cg_open_auxiliary_claims graph then []
      else [{| gv_claim_id := ac_claim_id a; gv_code := AUXILIARY_CLAIMS_DISABLED |}]
  end.

Definition bare_relation_result (c : UnderstandingClaimV2) : bool :=
  match c with
  | RelationClaim r =>
      memb (rc_verdict r) [V_correct; V_sufficient] && is_bare_numeric_result (rc_evidence_span r)
  | _ => false
  end.

Definition match_of (request : UnderstandingRequestV2) (c : UnderstandingClaimV2)
    (m : nat * nat * EvidenceMatchKindV2) : res EvidenceMatchV2 :=
  let '(source_start, source_end, kind) := m in
  evidence_match {|
    em_claim_id := claim_id c; em_source_start := source_start; em_source_end := source_end;
    em_source_text := uslice (ur_child_utterance request) source_start source_end;
    em_match_kind := kind |}.

(** Response fields the two boundaries overwrite with [model_copy]. *)
Definition copy_response (r : UnderstandingResponseV2) (ui : option UnderstandingUiReferenceV2)
    (cs : list UnderstandingClaimV2) (learning : bool) : UnderstandingResponseV2 := {|
  utterance_class := utterance_class r; conversation_move := conversation_move r;
  move_subject := move_subject r; question_focus := question_focus r;
  support_need := support_need r; ui_reference := ui;
  non_learning_kind := non_learning_kind r; contains_learning_evidence := learning;
  answer_status := answer_status r; reasoning_status := reasoning_status r;
  claims := cs; confidence := confidence r |}.

(** One iteration of the strict guard's loop over [(violations, matches)]. *)
Definition guard_step (request : UnderstandingRequestV2)
    (acc : list EvidenceGuardViolationV2 * list EvidenceMatchV2) (c : UnderstandingClaimV2)
    : res (list EvidenceGuardViolationV2 * list EvidenceMatchV2) :=
  let violations := acc.1 ++ membership_violation request c in
  match literal_evidence_match (ur_child_utterance request) (evidence_span c) with
  | None =>
      Ok (violations ++ [{| gv_claim_id := claim_id c; gv_code := EVIDENCE_NOT_LITERAL |}],
          acc.2)
  | Some m =>
      if bare_relation_result c then
        Ok (violations ++ [{| gv_claim_id := claim_id c;
                              gv_code := RELATION_EVIDENCE_IS_BARE_RESULT |}], acc.2)
      else em ← match_of request c m; Ok (violations, acc.2 ++ [em])
  end.

Definition guard_understanding_response_v2 (request : UnderstandingRequestV2)
    (response : UnderstandingResponseV2) : res GuardedUnderstandingV2 :=
  acc ← foldM (guard_step request) ([], []) (claims response);
  _ ← raise_if (truthy acc.1) (guard_error acc.1);
  Ok {| gu_response := copy_response response (admitted_ui_reference request response)
                         (claims response) (contains_learning_evidence response);
        gu_evidence_matches := acc.2 |}.

(** [claim_violations] of the admission loop. *)
Definition claim_violations (request : UnderstandingRequestV2) (c : UnderstandingClaimV2)
    : list EvidenceGuardViolationV2 :=
  membership_violation request c ++
  match literal_evidence_match (ur_child_utterance request) (evidence_span c) with
  | None => [{| gv_claim_id := claim_id c; gv_code := EVIDENCE_NOT_LITERAL |}]
  | Some _ =>
      if bare_relation_result c then
        [{| gv_claim_id := claim_id c; gv_code := RELATION_EVIDENCE_IS_BARE_RESULT |}]
      else []
  end.

Record admit_acc := {
  aa_accepted : list UnderstandingClaimV2;
  aa_matches : list EvidenceMatchV2;
  aa_quarantined : list EvidenceGuardViolationV2
}.

Definition admit_step (request : UnderstandingRequestV2) (acc : admit_acc)
    (c : UnderstandingClaimV2) : res admit_acc :=
  let vs := claim_violations request c in
  if truthy vs then
    Ok {| aa_accepted := aa_accepted acc; aa_matches := aa_matches acc;
          aa_quarantined := aa_quarantined acc ++ vs |}
  else
    m ← or_raise (literal_evidence_match (ur_child_utterance request) (evidence_span c))
          AssertionError;
    em ← match_of request c m;
    Ok {| aa_accepted := aa_accepted acc ++ [c]; aa_matches := aa_matches acc ++ [em];
          aa_quarantined := aa_quarantined acc |}.

Definition admit_understanding_response_v2 (request : UnderstandingRequestV2)
    (response : UnderstandingResponseV2) : res UnderstandingAdmissionV2 :=
  acc ← foldM (admit_step request) {| aa_accepted := []; aa_matches := []; aa_quarantined := [] |}
          (claims response);
  Ok {| ad_guarded := {|
          gu_response := copy_response response (admitted_ui_reference request response)
                           (aa_accepted acc) (truthy (aa_accepted acc));
          gu_evidence_matches := aa_matches acc |};
        ad_quarantined_claims := aa_quarantined acc |}.
End guard.
