(* ===== verification/EvidenceTheory.v ===== *)
(** Correctness of the evidence guard: literal matches are real quotations, the
    admission boundary is total and keeps exactly the violation-free claims, and
    the strict guard accepts exactly the responses with nothing to quarantine. *)

From S2P Require Import Prelude.
From S2P Require Import PyStr.
From S2P Require Import PyNum.
From S2P Require Import Json.
From S2P Require Import Schemas.
From S2P Require Import Requests.
From S2P Require Import Regex.
From S2P Require Import Evidence.

Section evidence.
Context `{Nfc}.
Implicit Types (req : UnderstandingRequestV2) (c : UnderstandingClaimV2).

Lemma elem_of_slice_bounds n s e : (s, e) ∈ slice_bounds n <-> s < e <= n.
Proof.
  unfold slice_bounds. rewrite list_elem_of_In, in_flat_map. split.
  - intros (x & Hx%in_seq & (y & [= -> ->] & Hy%in_seq)%in_map_iff). lia.
  - intros Hse. exists s. split; [apply in_seq; lia|].
    apply in_map_iff. exists e. split; [done|]. apply in_seq. lia.
Qed.

(** What a returned match means. *)
Definition quotes (u span : ustr) (m : nat * nat * EvidenceMatchKindV2) : Prop :=
  let '(s, e, k) := m in
  s <= e <= length u /\
  match k with
  | EXACT => uslice u s e = span /\ e = s + length span
  | UNICODE_NFC => s < e /\ normalize_nfc (uslice u s e) = normalize_nfc span
                   /\ ufind span u = None
  end.

Lemma literal_match_quotes u span m :
  literal_evidence_match u span = Some m -> quotes u span m.
Proof.
  unfold literal_evidence_match. destruct (ufind span u) as [i|] eqn:Ef.
  - intros [= <-]. apply ufind_Some in Ef as [Hlen Hsl]. simpl. repeat split; [lia|lia|done].
  - destruct (negb _); [done|].
    destruct (find_first _ _) as [[s e]|] eqn:Eff; [|done]. intros [= <-].
    apply find_first_Some in Eff as [Hin Heq]. apply elem_of_slice_bounds in Hin.
    apply bool_decide_eq_true in Heq. simpl in *. repeat split; (lia || done).
Qed.

Lemma literal_match_bounds u span s e k :
  span <> [] -> literal_evidence_match u span = Some (s, e, k) -> s < e <= length u.
Proof.
  intros Hne Hm. apply literal_match_quotes in Hm as [Hle Hk].
  destruct k; [|lia]. destruct Hk as [_ ->]. destruct span; [done|]. simpl. simpl in *. lia.
Qed.

Lemma literal_match_None u span :
  literal_evidence_match u span = None <->
  ufind span u = None /\
  (ucontains (normalize_nfc span) (normalize_nfc u) = false \/
   forall s e, s < e <= length u -> normalize_nfc (uslice u s e) <> normalize_nfc span).
Proof.
  unfold literal_evidence_match. destruct (ufind span u) as [i|].
  { split; [done|intros [? _]; done]. }
  destruct (ucontains _ _); simpl; [|naive_solver].
  destruct (find_first _ _) as [[s e]|] eqn:Eff.
  - split; [done|]. intros [_ [?|Hall]]; [done|].
    apply find_first_Some in Eff as [Hin Heq%bool_decide_eq_true].
    apply elem_of_slice_bounds in Hin. by apply Hall in Heq.
  - split; [|done]. intros _. split; [done|right]. intros s e Hse Heq.
    rewrite find_first_None in Eff.
    specialize (Eff (s, e) (proj2 (elem_of_slice_bounds _ _ _) Hse)).
    apply bool_decide_eq_false in Eff. done.
Qed.

(** The match record the loops build for a claim that is quoted. *)
Definition em_of req c : option EvidenceMatchV2 :=
  m ← literal_evidence_match (ur_child_utterance req) (evidence_span c);
  Some {| em_claim_id := claim_id c; em_source_start := m.1.1; em_source_end := m.1.2;
          em_source_text := uslice (ur_child_utterance req) m.1.1 m.1.2;
          em_match_kind := m.2 |}.

(** The bounds pydantic has already enforced on the request and the claims. *)
Definition bounded_quote req c : Prop :=
  length (ur_child_utterance req) <= 300 /\ evidence_span c <> [].

Lemma match_of_ok req c m :
  bounded_quote req c ->
  literal_evidence_match (ur_child_utterance req) (evidence_span c) = Some m ->
  exists em, match_of req c m = Ok em /\ em_of req c = Some em.
Proof.
  intros [Hlen Hne] Hm. destruct m as [[s e] k].
  pose proof (literal_match_bounds _ _ _ _ _ Hne Hm) as Hb.
  eexists. unfold match_of, em_of, evidence_match. rewrite Hm. simpl.
  rewrite length_uslice by lia.
  rewrite (bool_decide_eq_false_2 (e - s = 0)) by lia.
  rewrite (bool_decide_eq_false_2 (300 < e - s)) by lia.
  rewrite (bool_decide_eq_true_2 (0 < e)) by lia.
  rewrite (bool_decide_eq_false_2 (e <= s)) by lia.
  rewrite bool_decide_eq_true_2 by done. done.
Qed.

Definition admissible req c : bool := negb (truthy (claim_violations req c)).

Lemma admissible_quoted req c :
  admissible req c = true ->
  is_Some (literal_evidence_match (ur_child_utterance req) (evidence_span c)).
Proof.
  unfold admissible, claim_violations. destruct (literal_evidence_match _ _); [done|].
  destruct (membership_violation req c); done.
Qed.

Lemma admit_step_eq req acc c :
  bounded_quote req c ->
  admit_step req acc c = Ok {|
    aa_accepted := aa_accepted acc ++ (if admissible req c then [c] else []);
    aa_matches := aa_matches acc
                  ++ (if admissible req c then option_list (em_of req c) else []);
    aa_quarantined := aa_quarantined acc ++ claim_violations req c |}.
Proof.
  intros Hc. unfold admit_step. destruct (truthy (claim_violations req c)) eqn:Et.
  - assert (admissible req c = false) as -> by (unfold admissible; by rewrite Et).
    by rewrite !app_nil_r.
  - assert (admissible req c = true) as Ha by (unfold admissible; by rewrite Et).
    rewrite Ha. destruct (admissible_quoted _ _ Ha) as [m Hm]. rewrite Hm. simpl.
    destruct (match_of_ok _ _ _ Hc Hm) as (em & -> & ->). simpl.
    destruct (claim_violations req c); [|done]. by rewrite app_nil_r.
Qed.

Lemma admit_loop req cs acc :
  Forall (bounded_quote req) cs ->
  foldM (admit_step req) acc cs = Ok {|
    aa_accepted := aa_accepted acc ++ List.filter (admissible req) cs;
    aa_matches := aa_matches acc ++ flat_map (fun c => option_list (em_of req c)) (List.filter (admissible req) cs);
    aa_quarantined := aa_quarantined acc ++ flat_map (claim_violations req) cs |}.
Proof.
  intros Hcs. revert acc. induction Hcs as [|c cs Hc Hcs IH]; intros acc; simpl.
  { rewrite !app_nil_r. by destruct acc. }
  rewrite admit_step_eq by done. simpl. rewrite IH. simpl. rewrite <- ?app_assoc.
  destruct (admissible req c); simpl; by rewrite ?app_nil_r, <- ?app_assoc.
Qed.

Lemma guard_step_eq req acc c :
  bounded_quote req c ->
  guard_step req acc c = Ok
    (acc.1 ++ claim_violations req c,
     acc.2 ++ if bare_relation_result c then [] else option_list (em_of req c)).
Proof.
  intros Hc. unfold guard_step, claim_violations.
  destruct (literal_evidence_match _ _) as [m|] eqn:Hm.
  - destruct (bare_relation_result c); [by rewrite <- !app_assoc, app_nil_r|].
    destruct (match_of_ok _ _ _ Hc Hm) as (em & -> & ->). simpl.
    by rewrite app_nil_r.
  - unfold em_of. rewrite Hm, <- app_assoc. simpl.
    by destruct (bare_relation_result c); rewrite app_nil_r.
Qed.

Lemma guard_loop req cs acc :
  Forall (bounded_quote req) cs ->
  foldM (guard_step req) acc cs = Ok
    (acc.1 ++ flat_map (claim_violations req) cs,
     acc.2 ++ flat_map (fun c => if bare_relation_result c then [] else option_list (em_of req c)) cs).
Proof.
  intros Hcs. revert acc. induction Hcs as [|c cs Hc Hcs IH]; intros [vs ms]; simpl.
  { by rewrite !app_nil_r. }
  rewrite guard_step_eq by done. simpl. rewrite IH. simpl. by rewrite <- !app_assoc.
Qed.

Lemma all_admissible req cs :
  flat_map (claim_violations req) cs = [] -> List.filter (admissible req) cs = cs.
Proof.
  induction cs as [|c cs IH]; simpl; [done|]. intros [Hc Hcs]%app_eq_nil.
  unfold admissible at 1. rewrite Hc. simpl. by rewrite IH.
Qed.

Lemma admissible_not_bare req c :
  claim_violations req c = [] -> bare_relation_result c = false.
Proof.
  unfold claim_violations. destruct (literal_evidence_match _ _); [|by intros []%app_eq_nil].
  destruct (bare_relation_result c); [by intros []%app_eq_nil|done].
Qed.

Lemma no_violation_matches req cs :
  flat_map (claim_violations req) cs = [] ->
  flat_map (fun c => if bare_relation_result c then [] else option_list (em_of req c)) cs
  = flat_map (fun c => option_list (em_of req c)) cs.
Proof.
  induction cs as [|c cs IH]; simpl; [done|]. intros [Hc Hcs]%app_eq_nil.
  rewrite (admissible_not_bare _ _ Hc), IH by done. done.
Qed.

(** Matches line up with the accepted claims, one each and in order. *)
Lemma em_of_claims req cs :
  Forall (fun c => is_Some (em_of req c)) cs ->
  map em_claim_id (flat_map (fun c => option_list (em_of req c)) cs) = map claim_id cs.
Proof.
  induction 1 as [|c cs [em Hem] Hcs IH]; simpl; [done|]. rewrite Hem. simpl. f_equal; [|done].
  unfold em_of in Hem. destruct (literal_evidence_match _ _); [|done]. by injection Hem as <-.
Qed.

Lemma admissible_em req c : admissible req c = true -> is_Some (em_of req c).
Proof.
  intros Ha. unfold em_of. destruct (admissible_quoted _ _ Ha) as [m ->]. by eexists.
Qed.

Lemma Forall_admissible_em req cs :
  Forall (fun c => is_Some (em_of req c)) (List.filter (admissible req) cs).
Proof.
  apply List.Forall_forall. intros c [_ Ha]%filter_In. by apply admissible_em.
Qed.

Lemma admit_closed_form req resp :
  Forall (bounded_quote req) (claims resp) ->
  let accepted := List.filter (admissible req) (claims resp) in
  admit_understanding_response_v2 req resp = Ok {|
    ad_guarded := {|
      gu_response := copy_response resp (admitted_ui_reference req resp) accepted
                       (truthy accepted);
      gu_evidence_matches := flat_map (fun c => option_list (em_of req c)) accepted |};
    ad_quarantined_claims := flat_map (claim_violations req) (claims resp) |}.
Proof.
  intros Hb. unfold admit_understanding_response_v2. by rewrite admit_loop.
Qed.

(** ** The properties *)

(** A literal match is a real quotation: the returned bounds lie inside
    the utterance, an [exact] slice is the evidence span itself (its leftmost
    occurrence), and an NFC match is a nonempty slice equal to the span up to
    normalization, tried only when the exact text does not occur. *)
Theorem literal_evidence_match_sound u span s e k :
  literal_evidence_match u span = Some (s, e, k) ->
  s <= e <= length u /\
  match k with
  | EXACT => uslice u s e = span /\ e = s + length span
  | UNICODE_NFC => s < e /\ normalize_nfc (uslice u s e) = normalize_nfc span
                   /\ forall i, i <= length u -> uslice u i (i + length span) <> span
  end.
Proof.
  intros Hm. apply literal_match_quotes in Hm as [Hle Hk]. split; [done|].
  destruct k; [done|]. destruct Hk as (? & ? & Hnone). repeat split; [done|done|].
  intros i Hi. by apply ufind_None.
Qed.

(** (C24) Admission is total and claim-wise: whatever the model returned, no
    exception escapes, the admitted claims are exactly those without a
    violation and in their order, every admitted claim gets exactly one
    evidence match (same id, literal slice of the utterance), and the
    quarantine lists the violations of all the others. *)
Theorem admit_understanding_response_partition req resp :
  Forall (bounded_quote req) (claims resp) ->
  exists a, admit_understanding_response_v2 req resp = Ok a /\
    claims (gu_response (ad_guarded a)) = List.filter (admissible req) (claims resp) /\
    map em_claim_id (gu_evidence_matches (ad_guarded a))
      = map claim_id (claims (gu_response (ad_guarded a))) /\
    Forall (fun em => em_source_text em
              = uslice (ur_child_utterance req) (em_source_start em) (em_source_end em)
              /\ em_source_start em < em_source_end em <= length (ur_child_utterance req))
      (gu_evidence_matches (ad_guarded a)) /\
    ad_quarantined_claims a = flat_map (claim_violations req) (claims resp) /\
    (needs_repair a = false <->
       claims (gu_response (ad_guarded a)) = claims resp).
Proof.
  intros Hb. rewrite admit_closed_form by done. eexists. split; [done|]. simpl.
  split; [done|]. split; [apply em_of_claims, Forall_admissible_em|]. split.
  { apply List.Forall_forall. intros em Hem%list_elem_of_In.
    apply list_elem_of_In, in_flat_map in Hem as (c & [Hc _]%filter_In & Hem).
    eapply List.Forall_forall in Hb as [_ Hne]; [|exact Hc].
    unfold em_of in Hem. destruct (literal_evidence_match _ _) as [[[s e] k]|] eqn:Hm; [|done].
    destruct Hem as [<-|[]]. simpl. split; [done|]. by eapply literal_match_bounds. }
  split; [done|]. unfold needs_repair. simpl. split.
  - intros Ht. apply all_admissible. by destruct (flat_map (claim_violations req) (claims resp)).
  - intros Heq. destruct (flat_map (claim_violations req) (claims resp)) as [|v vs] eqn:Ev; [done|]. exfalso.
    assert (exists c, c ∈ claims resp /\ admissible req c = false) as (c & Hc & Ha).
    { assert (v ∈ flat_map (claim_violations req) (claims resp)) as Hv
        by (rewrite Ev; left).
      apply list_elem_of_In, in_flat_map in Hv as (c & Hc & Hv).
      exists c. split; [by apply list_elem_of_In|]. unfold admissible.
      by destruct (claim_violations req c). }
    rewrite <- Heq in Hc. apply list_elem_of_In, filter_In in Hc as [_ Hc]. congruence.
Qed.

(** (C34) The strict guard and the claim-wise admission boundary agree: the
    guard accepts a response exactly when admission quarantines nothing, with
    the same claims and matches; otherwise it raises the guard error that
    lists exactly the quarantined violations. *)
Theorem guard_agrees_with_admission req resp :
  Forall (bounded_quote req) (claims resp) ->
  exists a, admit_understanding_response_v2 req resp = Ok a /\
    match guard_understanding_response_v2 req resp with
    | Ok g => ad_quarantined_claims a = [] /\
              claims (gu_response g) = claims (gu_response (ad_guarded a)) /\
              gu_evidence_matches g = gu_evidence_matches (ad_guarded a) /\
              ui_reference (gu_response g) = ui_reference (gu_response (ad_guarded a))
    | Raise e => ad_quarantined_claims a <> [] /\ e = guard_error (ad_quarantined_claims a)
    end.
Proof.
  intros Hb. rewrite admit_closed_form by done. eexists. split; [done|].
  unfold guard_understanding_response_v2. rewrite guard_loop by done. simpl.
  destruct (flat_map (claim_violations req) (claims resp)) as [|v vs] eqn:Ev; simpl; [|done].
  rewrite all_admissible, no_violation_matches by done. done.
Qed.
End evidence.
