(* ===== verification/Packs.v ===== *)
(** Reviewed teaching content: the home packs of
    [src/mormi_api/dialogue_v2_content.py] and the life tasks and scenarios of
    [src/mormi_api/dialogue_v2_life_content.py], as data.  [TaskPack] is the
    union the ledger and the engine work on; its projections are the attributes
    both classes share. *)

From S2P Require Import Prelude.
From S2P Require Import PyStr.
From S2P Require Import PyNum.
From S2P Require Import Json.
From S2P Require Import Schemas.
From S2P Require Import Requests.

(** * Shared vocabulary *)

Inductive FactRole :=
  | visible_condition | visible_value | intermediate_result | final_answer | selection.
Inductive RelationRole := procedure_step | explanation | selection_rule.
Inductive EvaluationMode := exact_semantic | open_semantic_support.
Inductive ComparisonGoal := goal_maximum | goal_minimum.
Inductive CopyPurpose := initial_help | l2_question | l0_intro | l0_action.
Inductive ChoiceVerdict := choice_correct | choice_incorrect.
Inductive SupportType := attention | guided_action | joint_model.
Inductive AnswerPolicy := hidden | partial | revealed.
Inductive Exposure := explicit_given | perceptual_target.
Inductive JourneyRole := cafe_required | amusement_preparation.
Inductive NotePolicy := note_none | verified_child_or_coauthored.

#[export] Instance FactRole_eq_dec : EqDecision FactRole. Proof. solve_decision. Defined.
#[export] Instance RelationRole_eq_dec : EqDecision RelationRole. Proof. solve_decision. Defined.
#[export] Instance EvaluationMode_eq_dec : EqDecision EvaluationMode. Proof. solve_decision. Defined.
#[export] Instance ComparisonGoal_eq_dec : EqDecision ComparisonGoal. Proof. solve_decision. Defined.
#[export] Instance CopyPurpose_eq_dec : EqDecision CopyPurpose. Proof. solve_decision. Defined.
#[export] Instance ChoiceVerdict_eq_dec : EqDecision ChoiceVerdict. Proof. solve_decision. Defined.
#[export] Instance SupportType_eq_dec : EqDecision SupportType. Proof. solve_decision. Defined.
#[export] Instance AnswerPolicy_eq_dec : EqDecision AnswerPolicy. Proof. solve_decision. Defined.
#[export] Instance Exposure_eq_dec : EqDecision Exposure. Proof. solve_decision. Defined.
#[export] Instance JourneyRole_eq_dec : EqDecision JourneyRole. Proof. solve_decision. Defined.
#[export] Instance NotePolicy_eq_dec : EqDecision NotePolicy. Proof. solve_decision. Defined.

Record TargetRefV2 := {
  target_kind : TargetKind;
  target_id : string;
  ask_kind : AskKind
}.
#[export] Instance TargetRefV2_eq_dec : EqDecision TargetRefV2. Proof. solve_decision. Defined.

(** The pair [(target.target_kind, target.target_id)]. *)
Definition target_pair (t : TargetRefV2) : TargetKind * string := (target_kind t, target_id t).

Record QuestionPlanV2 := {
  qp_plan_id : string;
  qp_targets : list TargetRefV2;
  qp_reviewed_fallback : string
}.

Record CopySlotV2 := {
  cs_copy_slot : string;
  cs_purpose : CopyPurpose;
  cs_targets : list TargetRefV2;
  cs_generation_brief : string;
  cs_reviewed_fallback : string
}.

Record RelationRubricV2 := {
  rr_sufficient : list string;
  rr_partial : list string;
  rr_incorrect : list string
}.

Inductive JointCompletionV2 :=
  | JointFactCompletionV2 (id : string) (value : CanonicalValueV2)
  | JointRelationCompletionV2 (id : string).

Definition joint_pair (c : JointCompletionV2) : TargetKind * string :=
  match c with
  | JointFactCompletionV2 i _ => (KIND_fact, i)
  | JointRelationCompletionV2 i => (KIND_relation, i)
  end.

(** * Home packs *)

Record RenderedFactBindingV2 := {
  rb_fact_id : string;
  rb_exposure : Exposure;
  rb_source_path : string;
  rb_label_path : option string;
  rb_rendered_label : option string
}.

Record SourceProblemV2 := {
  sp_prompt : string;
  sp_answers : list string;
  sp_correct : string;
  sp_visual : list (string * json);
  sp_rendered_facts : list RenderedFactBindingV2
}.

Record ContentFactV2 := {
  cf_fact_id : string;
  cf_role : FactRole;
  cf_value : CanonicalValueV2;
  cf_speaker_label : string;
  cf_initially_visible : bool;
  cf_required_for_completion : bool;
  cf_accepted_surface_forms : list string
}.

Record ContentRelationV2 := {
  cr_relation_id : string;
  cr_role : RelationRole;
  cr_operation : RelationOperation;
  cr_input_fact_ids : list string;
  cr_output_fact_id : string;
  cr_evaluation_mode : EvaluationMode;
  cr_speaker_label : string;
  cr_rubric : RelationRubricV2;
  cr_required_for_completion : bool
}.

Record CompletionContractV2 := {
  required_fact_ids : list string;
  required_relation_ids : list string
}.

Record ReasoningGraphV2 := {
  rg_facts : list ContentFactV2;
  rg_relations : list ContentRelationV2;
  rg_completion : CompletionContractV2;
  rg_open_auxiliary_claims : bool
}.

Record ChoiceEffectV2 := {
  ce_verdict : ChoiceVerdict;
  ce_target_kind : TargetKind;
  ce_target_id : string;
  ce_interpreted_value : option CanonicalValueV2;
  ce_misconception_code : option string
}.

Record L2ChoiceV2 := {
  lc_choice_id : string;
  lc_label : string;
  lc_effect : ChoiceEffectV2
}.

Record L2ChoicePlanV2 := {
  l2_plan_id : string;
  l2_target : TargetRefV2;
  l2_copy_slot : string;
  l2_choices : list L2ChoiceV2
}.

Record L0JointPlanV2 := {
  jp_action_id : string;
  jp_intro_copy_slot : string;
  jp_action_copy_slot : string;
  jp_completion_values : list JointCompletionV2;
  jp_button_label : string
}.

Record HelpCardV2 := {
  hc_level : HintLevel;
  hc_support_type : SupportType;
  hc_answer_policy : AnswerPolicy;
  hc_body : string;
  hc_action : option string;
  hc_revealed_fact_ids : list string;
  hc_revealed_relation_ids : list string
}.

Record HelpPlanV2 := { hp_H1 : HelpCardV2; hp_H2 : HelpCardV2; hp_H3 : HelpCardV2 }.

Record JourneyLinkV2 := {
  jl_role : JourneyRole;
  jl_direct_transfer_scenario_ids : list string
}.

(** The remaining policy fields are single-value literals. *)
Record ContentPoliciesV2 := {
  po_note_relation_ids : list string;
  po_dictionary_card_id : string
}.

Record RequiredHomeTeachingPackV2 := {
  hp_pack_id : string;
  hp_content_version : Z;
  hp_migration_source_content_version : Z;
  hp_curriculum_session_id : string;
  hp_title : string;
  hp_journey : JourneyLinkV2;
  hp_source_problem : SourceProblemV2;
  hp_reasoning_graph : ReasoningGraphV2;
  hp_initial_question : QuestionPlanV2;
  hp_l3_plans : list QuestionPlanV2;
  hp_copy_slots : list CopySlotV2;
  hp_l2_plans : list L2ChoicePlanV2;
  hp_l0_joint_plan : L0JointPlanV2;
  hp_help_plan : HelpPlanV2;
  hp_policies : ContentPoliciesV2
}.

(** * Life tasks and scenarios *)

Record LifeFactV2 := {
  lf_fact_id : string;
  lf_role : FactRole;
  lf_value : CanonicalValueV2;
  lf_accepted_values : list CanonicalValueV2;
  lf_speaker_label : string;
  lf_initially_visible : bool;
  lf_required_for_completion : bool;
  lf_accepted_surface_forms : list string
}.

(** [_value_key]: the canonical JSON of a value. *)
Definition value_key (v : CanonicalValueV2) : string := dumps (value_dump v).

Definition accepts_value (f : LifeFactV2) (v : CanonicalValueV2) : bool :=
  memb (value_key v) (map value_key (lf_value f :: lf_accepted_values f)).

Record LifeRelationV2 := {
  lr_relation_id : string;
  lr_role : RelationRole;
  lr_operation : RelationOperation;
  lr_comparison_goal : option ComparisonGoal;
  lr_input_fact_ids : list string;
  lr_output_fact_id : string;
  lr_evaluation_mode : EvaluationMode;
  lr_speaker_label : string;
  lr_rubric : RelationRubricV2;
  lr_required_for_completion : bool
}.

Record LifeReasoningGraphV2 := {
  lg_facts : list LifeFactV2;
  lg_relations : list LifeRelationV2;
  lg_completion : CompletionContractV2;
  lg_open_auxiliary_claims : bool
}.

Record LifeFactUpdateV2 := { lu_fact_id : string; lu_value : CanonicalValueV2 }.

Record LifeChoiceEffectV2 := {
  le_verdict : ChoiceVerdict;
  le_fact_updates : list LifeFactUpdateV2;
  le_relation_ids : list string;
  le_misconception_code : option string;
  le_visual_patch : list (string * json)
}.

Record LifeChoiceV2 := {
  lch_choice_id : string;
  lch_label : string;
  lch_image_url : option string;
  lch_disabled : bool;
  lch_effect : LifeChoiceEffectV2
}.

Record LifeL2ChoicePlanV2 := {
  ll2_plan_id : string;
  ll2_target : TargetRefV2;
  ll2_copy_slot : string;
  ll2_choices : list LifeChoiceV2;
  ll2_input_config : list (string * json);
  ll2_submit_label : string
}.

Record LifeL0JointPlanV2 := {
  ljp_action_id : string;
  ljp_intro_copy_slot : string;
  ljp_action_copy_slot : string;
  ljp_completion_values : list JointCompletionV2;
  ljp_button_label : string;
  ljp_input_config : list (string * json)
}.

Record LifeHelpCardV2 := {
  lhc_level : HintLevel;
  lhc_support_type : SupportType;
  lhc_answer_policy : AnswerPolicy;
  lhc_body : string;
  lhc_action : option string;
  lhc_visual_type : option string;
  lhc_visual_data : list (string * json);
  lhc_revealed_fact_ids : list string;
  lhc_revealed_relation_ids : list string
}.

Record LifeHelpPlanV2 := { lhp_H1 : LifeHelpCardV2; lhp_H2 : LifeHelpCardV2; lhp_H3 : LifeHelpCardV2 }.

Record LifeTaskPoliciesV2 := {
  lp_entry_expression_level : ExpressionLevel;
  lp_note_policy : NotePolicy;
  lp_note_relation_ids : list string;
  lp_note_skill_id : option string;
  lp_note_context : option string;
  lp_reviewed_direct_fallback : option string;
  lp_reviewed_coauthored_note : option string;
  lp_transition_text : option string
}.

Record VisualContract := { vc_type : string; vc_data : list (string * json) }.

Inductive LifePhase := ph_single | ph_selection | ph_calculation | ph_primary | ph_transfer.

Record LifeTaskPackV2 := {
  lt_pack_id : string;
  lt_content_version : Z;
  lt_scene : SceneType;
  lt_scenario_id : string;
  lt_task_id : string;
  lt_stage_id : string;
  lt_phase : LifePhase;
  lt_skill_id : string;
  lt_title : string;
  lt_dictionary_card_id : string;
  lt_source_prompt : string;
  lt_base_visual : VisualContract;
  lt_reasoning_graph : LifeReasoningGraphV2;
  lt_initial_question : QuestionPlanV2;
  lt_l3_plans : list QuestionPlanV2;
  lt_copy_slots : list CopySlotV2;
  lt_l2_plans : list LifeL2ChoicePlanV2;
  lt_l0_joint_plan : LifeL0JointPlanV2;
  lt_help_plan : LifeHelpPlanV2;
  lt_policies : LifeTaskPoliciesV2
}.

(** * The union the engine is written against *)

Inductive TaskPackV2 :=
  | HomePack (p : RequiredHomeTeachingPackV2)
  | LifePack (p : LifeTaskPackV2).

Inductive GraphFact := HomeFact (f : ContentFactV2) | LifeFact (f : LifeFactV2).

Definition fact_id (f : GraphFact) : string :=
  match f with HomeFact f => cf_fact_id f | LifeFact f => lf_fact_id f end.
Definition fact_role (f : GraphFact) : FactRole :=
  match f with HomeFact f => cf_role f | LifeFact f => lf_role f end.
Definition fact_value (f : GraphFact) : CanonicalValueV2 :=
  match f with HomeFact f => cf_value f | LifeFact f => lf_value f end.
Definition fact_speaker_label (f : GraphFact) : string :=
  match f with HomeFact f => cf_speaker_label f | LifeFact f => lf_speaker_label f end.
Definition fact_initially_visible (f : GraphFact) : bool :=
  match f with HomeFact f => cf_initially_visible f | LifeFact f => lf_initially_visible f end.
Definition fact_surface_forms (f : GraphFact) : list string :=
  match f with
  | HomeFact f => cf_accepted_surface_forms f | LifeFact f => lf_accepted_surface_forms f
  end.

(** [fact.accepts_value(v) if isinstance(fact, LifeFactV2) else v == fact.value] *)
Definition value_matches (f : GraphFact) (v : CanonicalValueV2) : bool :=
  match f with HomeFact f => value_eqb v (cf_value f) | LifeFact f => accepts_value f v end.

Record GraphRelation := {
  relation_id : string;
  relation_operation : RelationOperation;
  relation_inputs : list string;
  relation_output : string;
  relation_evaluation_mode : EvaluationMode;
  relation_label : string;
  relation_rubric : RelationRubricV2
}.

Definition home_relation (r : ContentRelationV2) : GraphRelation := {|
  relation_id := cr_relation_id r; relation_operation := cr_operation r;
  relation_inputs := cr_input_fact_ids r; relation_output := cr_output_fact_id r;
  relation_evaluation_mode := cr_evaluation_mode r; relation_label := cr_speaker_label r;
  relation_rubric := cr_rubric r |}.
Definition life_relation (r : LifeRelationV2) : GraphRelation := {|
  relation_id := lr_relation_id r; relation_operation := lr_operation r;
  relation_inputs := lr_input_fact_ids r; relation_output := lr_output_fact_id r;
  relation_evaluation_mode := lr_evaluation_mode r; relation_label := lr_speaker_label r;
  relation_rubric := lr_rubric r |}.

Definition pack_id (p : TaskPackV2) : string :=
  match p with HomePack p => hp_pack_id p | LifePack p => lt_pack_id p end.
Definition content_version (p : TaskPackV2) : Z :=
  match p with HomePack p => hp_content_version p | LifePack p => lt_content_version p end.
Definition pack_task_id (p : TaskPackV2) : string :=
  match p with HomePack _ => "home_teaching" | LifePack p => lt_task_id p end.
Definition pack_facts (p : TaskPackV2) : list GraphFact :=
  match p with
  | HomePack p => map HomeFact (rg_facts (hp_reasoning_graph p))
  | LifePack p => map LifeFact (lg_facts (lt_reasoning_graph p))
  end.
Definition pack_relations (p : TaskPackV2) : list GraphRelation :=
  match p with
  | HomePack p => map home_relation (rg_relations (hp_reasoning_graph p))
  | LifePack p => map life_relation (lg_relations (lt_reasoning_graph p))
  end.
Definition pack_completion (p : TaskPackV2) : CompletionContractV2 :=
  match p with
  | HomePack p => rg_completion (hp_reasoning_graph p)
  | LifePack p => lg_completion (lt_reasoning_graph p)
  end.
Definition pack_open_auxiliary (p : TaskPackV2) : bool :=
  match p with
  | HomePack p => rg_open_auxiliary_claims (hp_reasoning_graph p)
  | LifePack p => lg_open_auxiliary_claims (lt_reasoning_graph p)
  end.
Definition pack_initial_question (p : TaskPackV2) : QuestionPlanV2 :=
  match p with HomePack p => hp_initial_question p | LifePack p => lt_initial_question p end.
Definition pack_l3_plans (p : TaskPackV2) : list QuestionPlanV2 :=
  match p with HomePack p => hp_l3_plans p | LifePack p => lt_l3_plans p end.
Definition pack_copy_slots (p : TaskPackV2) : list CopySlotV2 :=
  match p with HomePack p => hp_copy_slots p | LifePack p => lt_copy_slots p end.
Definition pack_joint_completions (p : TaskPackV2) : list JointCompletionV2 :=
  match p with
  | HomePack p => jp_completion_values (hp_l0_joint_plan p)
  | LifePack p => ljp_completion_values (lt_l0_joint_plan p)
  end.
Definition pack_note_relation_ids (p : TaskPackV2) : list string :=
  match p with
  | HomePack p => po_note_relation_ids (hp_policies p)
  | LifePack p => lp_note_relation_ids (lt_policies p)
  end.
Definition pack_h3_relation_ids (p : TaskPackV2) : list string :=
  match p with
  | HomePack p => hc_revealed_relation_ids (hp_H3 (hp_help_plan p))
  | LifePack p => lhc_revealed_relation_ids (lhp_H3 (lt_help_plan p))
  end.

Definition pack_fact_ids (p : TaskPackV2) : list string := map fact_id (pack_facts p).
Definition pack_relation_ids (p : TaskPackV2) : list string := map relation_id (pack_relations p).

(** [{fact.fact_id: fact for fact in facts}[i]]: a later duplicate wins. *)
Definition facts_by_id (p : TaskPackV2) (i : string) : option GraphFact :=
  find_first (fun f => bool_decide (fact_id f = i)) (rev (pack_facts p)).
Definition relations_by_id (p : TaskPackV2) (i : string) : option GraphRelation :=
  find_first (fun r => bool_decide (relation_id r = i)) (rev (pack_relations p)).

(** The completion targets as (kind, id) pairs, facts first. *)
Definition required_targets (p : TaskPackV2) : list (TargetKind * string) :=
  map (pair KIND_fact) (required_fact_ids (pack_completion p))
  ++ map (pair KIND_relation) (required_relation_ids (pack_completion p)).

(** * Facts about the lookups *)

Lemma facts_by_id_Some p i f : facts_by_id p i = Some f -> f ∈ pack_facts p /\ fact_id f = i.
Proof.
  intros [Hin Hid]%find_first_Some. apply bool_decide_eq_true in Hid.
  split; [|done]. by apply list_elem_of_In, in_rev, list_elem_of_In.
Qed.

Lemma facts_by_id_is_Some p i : i ∈ pack_fact_ids p <-> is_Some (facts_by_id p i).
Proof.
  unfold pack_fact_ids. split.
  - intros (f & -> & Hf)%list_elem_of_fmap. eapply find_first_is_Some.
    + apply list_elem_of_In, in_rev. rewrite rev_involutive. by apply list_elem_of_In.
    + by apply bool_decide_eq_true.
  - intros [f [Hin <-]%facts_by_id_Some]. by apply list_elem_of_fmap_2.
Qed.

Lemma relations_by_id_Some p i r :
  relations_by_id p i = Some r -> r ∈ pack_relations p /\ relation_id r = i.
Proof.
  intros [Hin Hid]%find_first_Some. apply bool_decide_eq_true in Hid.
  split; [|done]. by apply list_elem_of_In, in_rev, list_elem_of_In.
Qed.

Lemma relations_by_id_is_Some p i : i ∈ pack_relation_ids p <-> is_Some (relations_by_id p i).
Proof.
  unfold pack_relation_ids. split.
  - intros (f & -> & Hf)%list_elem_of_fmap. eapply find_first_is_Some.
    + apply list_elem_of_In, in_rev. rewrite rev_involutive. by apply list_elem_of_In.
    + by apply bool_decide_eq_true.
  - intros [f [Hin <-]%relations_by_id_Some]. by apply list_elem_of_fmap_2.
Qed.

Lemma accepts_value_canonical f : accepts_value f (lf_value f) = true.
Proof. unfold accepts_value. apply memb_spec. left. Qed.

Lemma value_matches_canonical f : value_matches f (fact_value f) = true.
Proof. destruct f; simpl; [apply value_eqb_refl|apply accepts_value_canonical]. Qed.
