(* ===== verification/PackDump.v ===== *)
(** [model_dump(mode="json")] of the content packs and the canonical hashes that
    bind a conversation to one content revision
    ([canonical_content_pack_json_v2], [content_pack_hash_v2] and the life-task
    versions of [src/mormi_api/dialogue_v2_ledger.py]). *)

From S2P Require Import Prelude.
From S2P Require Import PyStr.
From S2P Require Import PyNum.
From S2P Require Import Json.
From S2P Require Import Schemas.
From S2P Require Import Requests.
From S2P Require Import Packs.

Definition j_strs (l : list string) : json := JArr (map JStr l).
Definition j_opt (o : option string) : json := match o with Some s => JStr s | None => JNull end.
Definition j_int (z : Z) : json := JNum (PyInt z).

Definition target_kind_value (k : TargetKind) : string :=
  match k with KIND_fact => "fact" | KIND_relation => "relation" end.
Definition ask_kind_value (k : AskKind) : string :=
  match k with ASK_answer => "answer" | ASK_reason_or_method => "reason_or_method" end.
Definition fact_role_value (r : FactRole) : string :=
  match r with
  | visible_condition => "visible_condition" | visible_value => "visible_value"
  | intermediate_result => "intermediate_result" | final_answer => "final_answer"
  | selection => "selection"
  end.
Definition relation_role_value (r : RelationRole) : string :=
  match r with
  | procedure_step => "procedure_step" | explanation => "explanation"
  | selection_rule => "selection_rule"
  end.
Definition operation_value (o : RelationOperation) : string :=
  match o with
  | R_counting => "counting" | R_comparison => "comparison" | R_addition => "addition"
  | R_subtraction => "subtraction" | R_multiplication => "multiplication"
  | R_division => "division" | R_selection => "selection"
  end.
Definition evaluation_mode_value (m : EvaluationMode) : string :=
  match m with
  | exact_semantic => "exact_semantic" | open_semantic_support => "open_semantic_support"
  end.
Definition purpose_value (p : CopyPurpose) : string :=
  match p with
  | initial_help => "initial_help" | l2_question => "l2_question" | l0_intro => "l0_intro"
  | l0_action => "l0_action"
  end.
Definition hint_value (h : HintLevel) : string :=
  match h with H0 => "H0" | H1 => "H1" | H2 => "H2" | H3 => "H3" end.
Definition expression_value (l : ExpressionLevel) : string :=
  match l with L4 => "L4" | L3 => "L3" | L2 => "L2" | L1 => "L1" | L0 => "L0" end.
Definition scene_value (s : SceneType) : string :=
  match s with HOME_TEACH => "home_teach" | CAFE => "cafe" | AMUSEMENT_PARK => "amusement_park" end.
Definition verdict_str (v : ChoiceVerdict) : string :=
  match v with choice_correct => "correct" | choice_incorrect => "incorrect" end.
Definition support_type_value (s : SupportType) : string :=
  match s with
  | attention => "attention" | guided_action => "guided_action" | joint_model => "joint_model"
  end.
Definition answer_policy_value (a : AnswerPolicy) : string :=
  match a with hidden => "hidden" | partial => "partial" | revealed => "revealed" end.

Definition target_dump (t : TargetRefV2) : json :=
  JObj [("target_kind", JStr (target_kind_value (target_kind t)));
        ("target_id", JStr (target_id t)); ("ask_kind", JStr (ask_kind_value (ask_kind t)))].
Definition question_dump (q : QuestionPlanV2) : json :=
  JObj [("plan_id", JStr (qp_plan_id q)); ("targets", JArr (map target_dump (qp_targets q)));
        ("reviewed_fallback", JStr (qp_reviewed_fallback q))].
Definition copy_slot_dump (s : CopySlotV2) : json :=
  JObj [("copy_slot", JStr (cs_copy_slot s)); ("purpose", JStr (purpose_value (cs_purpose s)));
        ("targets", JArr (map target_dump (cs_targets s)));
        ("generation_brief", JStr (cs_generation_brief s));
        ("reviewed_fallback", JStr (cs_reviewed_fallback s))].
Definition rubric_dump (r : RelationRubricV2) : json :=
  JObj [("sufficient", j_strs (rr_sufficient r)); ("partial", j_strs (rr_partial r));
        ("incorrect", j_strs (rr_incorrect r))].
Definition completion_dump (c : CompletionContractV2) : json :=
  JObj [("required_fact_ids", j_strs (required_fact_ids c));
        ("required_relation_ids", j_strs (required_relation_ids c))].
Definition joint_dump (c : JointCompletionV2) : json :=
  match c with
  | JointFactCompletionV2 i v =>
      JObj [("target_kind", JStr "fact"); ("target_id", JStr i); ("value", value_dump v)]
  | JointRelationCompletionV2 i =>
      JObj [("target_kind", JStr "relation"); ("target_id", JStr i); ("satisfied", JBool true)]
  end.

Definition binding_dump (b : RenderedFactBindingV2) : json :=
  JObj [("fact_id", JStr (rb_fact_id b));
        ("exposure", JStr (match rb_exposure b with explicit_given => "explicit_given"
                           | perceptual_target => "perceptual_target" end));
        ("source_path", JStr (rb_source_path b)); ("label_path", j_opt (rb_label_path b));
        ("rendered_label", j_opt (rb_rendered_label b))].
Definition fact_dump (f : ContentFactV2) : json :=
  JObj [("fact_id", JStr (cf_fact_id f)); ("role", JStr (fact_role_value (cf_role f)));
        ("value", value_dump (cf_value f)); ("speaker_label", JStr (cf_speaker_label f));
        ("initially_visible", JBool (cf_initially_visible f));
        ("required_for_completion", JBool (cf_required_for_completion f));
        ("accepted_surface_forms", j_strs (cf_accepted_surface_forms f))].
Definition relation_dump (r : ContentRelationV2) : json :=
  JObj [("relation_id", JStr (cr_relation_id r)); ("role", JStr (relation_role_value (cr_role r)));
        ("operation", JStr (operation_value (cr_operation r)));
        ("input_fact_ids", j_strs (cr_input_fact_ids r));
        ("output_fact_id", JStr (cr_output_fact_id r));
        ("evaluation_mode", JStr (evaluation_mode_value (cr_evaluation_mode r)));
        ("speaker_label", JStr (cr_speaker_label r)); ("rubric", rubric_dump (cr_rubric r));
        ("required_for_completion", JBool (cr_required_for_completion r))].
Definition effect_dump (e : ChoiceEffectV2) : json :=
  JObj [("verdict", JStr (verdict_str (ce_verdict e)));
        ("target_kind", JStr (target_kind_value (ce_target_kind e)));
        ("target_id", JStr (ce_target_id e));
        ("interpreted_value", match ce_interpreted_value e with
                              | Some v => value_dump v | None => JNull end);
        ("misconception_code", j_opt (ce_misconception_code e))].
Definition l2_plan_dump (p : L2ChoicePlanV2) : json :=
  JObj [("plan_id", JStr (l2_plan_id p)); ("target", target_dump (l2_target p));
        ("copy_slot", JStr (l2_copy_slot p));
        ("choices", JArr (map (fun c => JObj [("choice_id", JStr (lc_choice_id c));
            ("label", JStr (lc_label c)); ("effect", effect_dump (lc_effect c))]) (l2_choices p)))].
Definition help_card_dump (c : HelpCardV2) : json :=
  JObj [("level", JStr (hint_value (hc_level c)));
        ("support_type", JStr (support_type_value (hc_support_type c)));
        ("answer_policy", JStr (answer_policy_value (hc_answer_policy c)));
        ("body", JStr (hc_body c)); ("action", j_opt (hc_action c));
        ("revealed_fact_ids", j_strs (hc_revealed_fact_ids c));
        ("revealed_relation_ids", j_strs (hc_revealed_relation_ids c))].

Definition home_pack_dump (p : RequiredHomeTeachingPackV2) : json :=
  let g := hp_reasoning_graph p in
  let sp := hp_source_problem p in
  let jp := hp_l0_joint_plan p in
  JObj [("schema_version", JStr "content-pack-v2"); ("pack_id", JStr (hp_pack_id p));
        ("content_version", j_int (hp_content_version p));
        ("migration_source_content_version", j_int (hp_migration_source_content_version p));
        ("curriculum_session_id", JStr (hp_curriculum_session_id p));
        ("task_id", JStr "home_teaching"); ("stage_id", JStr "home_teach");
        ("title", JStr (hp_title p));
        ("journey", JObj [("role", JStr (match jl_role (hp_journey p) with
                              | cafe_required => "cafe_required"
                              | amusement_preparation => "amusement_preparation" end));
                          ("direct_transfer_scenario_ids",
                           j_strs (jl_direct_transfer_scenario_ids (hp_journey p)))]);
        ("source_problem", JObj [("prompt", JStr (sp_prompt sp)); ("answers", j_strs (sp_answers sp));
                                 ("correct", JStr (sp_correct sp)); ("visual", JObj (sp_visual sp));
                                 ("rendered_facts", JArr (map binding_dump (sp_rendered_facts sp)))]);
        ("reasoning_graph", JObj [("facts", JArr (map fact_dump (rg_facts g)));
                                  ("relations", JArr (map relation_dump (rg_relations g)));
                                  ("completion", completion_dump (rg_completion g));
                                  ("open_auxiliary_claims", JBool (rg_open_auxiliary_claims g))]);
        ("initial_question", question_dump (hp_initial_question p));
        ("l3_plans", JArr (map question_dump (hp_l3_plans p)));
        ("copy_slots", JArr (map copy_slot_dump (hp_copy_slots p)));
        ("l2_plans", JArr (map l2_plan_dump (hp_l2_plans p)));
        ("l0_joint_plan", JObj [("action_id", JStr (jp_action_id jp));
                                ("intro_copy_slot", JStr (jp_intro_copy_slot jp));
                                ("action_copy_slot", JStr (jp_action_copy_slot jp));
                                ("completion_values", JArr (map joint_dump (jp_completion_values jp)));
                                ("button_label", JStr (jp_button_label jp))]);
        ("help_plan", JObj [("H1", help_card_dump (hp_H1 (hp_help_plan p)));
                            ("H2", help_card_dump (hp_H2 (hp_help_plan p)));
                            ("H3", help_card_dump (hp_H3 (hp_help_plan p)))]);
        ("policies", JObj [("ladder_policy_version", JStr "existing");
                           ("entry_expression_level", JStr "L4"); ("entry_hint_level", JStr "H0");
                           ("completion_policy", JStr "all_required_graph_targets");
                           ("note_policy", JStr "verified_child_or_coauthored");
                           ("note_relation_ids", j_strs (po_note_relation_ids (hp_policies p)));
                           ("dictionary_card_id", JStr (po_dictionary_card_id (hp_policies p)));
                           ("taught_reward_requires_independent_evidence", JBool true);
                           ("l0_completion_outcome", JStr "supported")])].

Definition life_fact_dump (f : LifeFactV2) : json :=
  JObj [("fact_id", JStr (lf_fact_id f)); ("role", JStr (fact_role_value (lf_role f)));
        ("value", value_dump (lf_value f));
        ("accepted_values", JArr (map value_dump (lf_accepted_values f)));
        ("speaker_label", JStr (lf_speaker_label f));
        ("initially_visible", JBool (lf_initially_visible f));
        ("required_for_completion", JBool (lf_required_for_completion f));
        ("accepted_surface_forms", j_strs (lf_accepted_surface_forms f))].
Definition life_relation_dump (r : LifeRelationV2) : json :=
  JObj [("relation_id", JStr (lr_relation_id r)); ("role", JStr (relation_role_value (lr_role r)));
        ("operation", JStr (operation_value (lr_operation r)));
        ("comparison_goal", match lr_comparison_goal r with
                            | Some goal_maximum => JStr "maximum"
                            | Some goal_minimum => JStr "minimum" | None => JNull end);
        ("input_fact_ids", j_strs (lr_input_fact_ids r));
        ("output_fact_id", JStr (lr_output_fact_id r));
        ("evaluation_mode", JStr (evaluation_mode_value (lr_evaluation_mode r)));
        ("speaker_label", JStr (lr_speaker_label r)); ("rubric", rubric_dump (lr_rubric r));
        ("required_for_completion", JBool (lr_required_for_completion r))].
Definition life_effect_dump (e : LifeChoiceEffectV2) : json :=
  JObj [("verdict", JStr (verdict_str (le_verdict e)));
        ("fact_updates", JArr (map (fun u => JObj [("fact_id", JStr (lu_fact_id u));
                                                   ("value", value_dump (lu_value u))])
                                   (le_fact_updates e)));
        ("relation_ids", j_strs (le_relation_ids e));
        ("misconception_code", j_opt (le_misconception_code e));
        ("visual_patch", JObj (le_visual_patch e))].
Definition life_l2_plan_dump (p : LifeL2ChoicePlanV2) : json :=
  JObj [("plan_id", JStr (ll2_plan_id p)); ("target", target_dump (ll2_target p));
        ("copy_slot", JStr (ll2_copy_slot p));
        ("choices", JArr (map (fun c => JObj [("choice_id", JStr (lch_choice_id c));
            ("label", JStr (lch_label c)); ("image_url", j_opt (lch_image_url c));
            ("disabled", JBool (lch_disabled c));
            ("effect", life_effect_dump (lch_effect c))]) (ll2_choices p)));
        ("input_config", JObj (ll2_input_config p)); ("submit_label", JStr (ll2_submit_label p))].
Definition life_help_card_dump (c : LifeHelpCardV2) : json :=
  JObj [("level", JStr (hint_value (lhc_level c)));
        ("support_type", JStr (support_type_value (lhc_support_type c)));
        ("answer_policy", JStr (answer_policy_value (lhc_answer_policy c)));
        ("body", JStr (lhc_body c)); ("action", j_opt (lhc_action c));
        ("visual_type", j_opt (lhc_visual_type c)); ("visual_data", JObj (lhc_visual_data c));
        ("revealed_fact_ids", j_strs (lhc_revealed_fact_ids c));
        ("revealed_relation_ids", j_strs (lhc_revealed_relation_ids c))].
Definition phase_value (p : LifePhase) : string :=
  match p with
  | ph_single => "single" | ph_selection => "selection" | ph_calculation => "calculation"
  | ph_primary => "primary" | ph_transfer => "transfer"
  end.

Definition life_task_dump (p : LifeTaskPackV2) : json :=
  let g := lt_reasoning_graph p in
  let jp := lt_l0_joint_plan p in
  let po := lt_policies p in
  JObj [("schema_version", JStr "life-task-pack-v2"); ("pack_id", JStr (lt_pack_id p));
        ("content_version", j_int (lt_content_version p)); ("scene", JStr (scene_value (lt_scene p)));
        ("scenario_id", JStr (lt_scenario_id p)); ("task_id", JStr (lt_task_id p));
        ("stage_id", JStr (lt_stage_id p)); ("phase", JStr (phase_value (lt_phase p)));
        ("skill_id", JStr (lt_skill_id p)); ("title", JStr (lt_title p));
        ("dictionary_card_id", JStr (lt_dictionary_card_id p));
        ("source_prompt", JStr (lt_source_prompt p));
        ("base_visual", JObj [("type", JStr (vc_type (lt_base_visual p)));
                              ("data", JObj (vc_data (lt_base_visual p)))]);
        ("reasoning_graph", JObj [("facts", JArr (map life_fact_dump (lg_facts g)));
                                  ("relations", JArr (map life_relation_dump (lg_relations g)));
                                  ("completion", completion_dump (lg_completion g));
                                  ("open_auxiliary_claims", JBool (lg_open_auxiliary_claims g))]);
        ("initial_question", question_dump (lt_initial_question p));
        ("l3_plans", JArr (map question_dump (lt_l3_plans p)));
        ("copy_slots", JArr (map copy_slot_dump (lt_copy_slots p)));
        ("l2_plans", JArr (map life_l2_plan_dump (lt_l2_plans p)));
        ("l0_joint_plan", JObj [("action_id", JStr (ljp_action_id jp));
                                ("intro_copy_slot", JStr (ljp_intro_copy_slot jp));
                                ("action_copy_slot", JStr (ljp_action_copy_slot jp));
                                ("completion_values", JArr (map joint_dump (ljp_completion_values jp)));
                                ("button_label", JStr (ljp_button_label jp));
                                ("input_config", JObj (ljp_input_config jp))]);
        ("help_plan", JObj [("H1", life_help_card_dump (lhp_H1 (lt_help_plan p)));
                            ("H2", life_help_card_dump (lhp_H2 (lt_help_plan p)));
                            ("H3", life_help_card_dump (lhp_H3 (lt_help_plan p)))]);
        ("policies", JObj [("entry_expression_level",
                            JStr (expression_value (lp_entry_expression_level po)));
                           ("entry_hint_level", JStr "H0");
                           ("note_policy", JStr (match lp_note_policy po with
                              | note_none => "none"
                              | verified_child_or_coauthored => "verified_child_or_coauthored" end));
                           ("note_relation_ids", j_strs (lp_note_relation_ids po));
                           ("note_skill_id", j_opt (lp_note_skill_id po));
                           ("note_context", j_opt (lp_note_context po));
                           ("reviewed_direct_fallback", j_opt (lp_reviewed_direct_fallback po));
                           ("reviewed_coauthored_note", j_opt (lp_reviewed_coauthored_note po));
                           ("transition_text", j_opt (lp_transition_text po));
                           ("stable_copy_mode", JStr "reviewed_template_only")])].

Section hashes.
Context `{Digest}.

Definition content_pack_hash_v2 (p : RequiredHomeTeachingPackV2) : string :=
  hexdigest (dumps (home_pack_dump p)).
Definition life_task_pack_hash_v2 (p : LifeTaskPackV2) : string :=
  hexdigest (dumps (life_task_dump p)).
Definition pack_hash (p : TaskPackV2) : string :=
  match p with
  | HomePack p => content_pack_hash_v2 p
  | LifePack p => life_task_pack_hash_v2 p
  end.
End hashes.
