(* ===== verification/Snapshot.v ===== *)
(** Conversation snapshots of reviewed content: [PinnedContentSnapshotV2],
    [PinnedLifeTaskSnapshotV2] and the pin/resolve functions of
    [src/mormi_api/dialogue_v2_ledger.py].  A snapshot carries a whole pack; every
    resolution revalidates the pack and rechecks its identity and hash.

    The stored payload (a JSON dict) is kept as the record pydantic parses out of
    it; the models' validators are the interface [PackModel], implemented in the
    content files, so that the ledger's theorems are proved against the interface. *)

From Stdlib Require Import Ascii.
From S2P Require Import Prelude.
From S2P Require Import PyStr.
From S2P Require Import PyNum.
From S2P Require Import Json.
From S2P Require Import Schemas.
From S2P Require Import Requests.
From S2P Require Import Packs.
From S2P Require Import PackDump.

(** [RequiredHomeTeachingPackV2.model_validate] and [LifeTaskPackV2.model_validate]. *)
Class PackModel := {
  home_model_validate : RequiredHomeTeachingPackV2 -> res RequiredHomeTeachingPackV2;
  life_model_validate : LifeTaskPackV2 -> res LifeTaskPackV2
}.

(** A validator checks and returns its argument: it repairs nothing. *)
Class PackModelChecks `{PackModel} := {
  home_validate_id p q : home_model_validate p = Ok q -> q = p;
  life_validate_id p q : life_model_validate p = Ok q -> q = p
}.

(** * Identifier patterns *)

Definition is_id_start (c : ascii) : bool :=
  let n := N_of_ascii c in
  ((48 <=? n) && (n <=? 57) || (65 <=? n) && (n <=? 90) || (97 <=? n) && (n <=? 122))%N.
Definition is_id_char (c : ascii) : bool :=
  is_id_start c || memb c ["_"%char; "."%char; ":"%char; "-"%char].

(** [_ID_PATTERN] with a [max_length] *)
Definition id_field (max_length : nat) (s : string) : bool :=
  match s with
  | EmptyString => false
  | String c s' => is_id_start c && string_forallb is_id_char s'
                   && bool_decide (String.length s <= max_length)
  end.

(** * What a validated pack promises to the ledger and the engine *)

Definition target_in_graph (p : TaskPackV2) (t : TargetKind * string) : Prop :=
  match t.1 with KIND_fact => t.2 ∈ pack_fact_ids p | KIND_relation => t.2 ∈ pack_relation_ids p end.

(** The L2 plans' targets and L3 plans' targets as (kind, id) pairs. *)
Definition l3_pairs (p : TaskPackV2) : list (TargetKind * string) :=
  flat_map (fun q => map target_pair (qp_targets q)) (pack_l3_plans p).
Definition l2_pairs (p : TaskPackV2) : list (TargetKind * string) :=
  match p with
  | HomePack p => map (fun q => target_pair (l2_target q)) (hp_l2_plans p)
  | LifePack p => map (fun q => target_pair (ll2_target q)) (lt_l2_plans p)
  end.

(** [l] names every completion target, once. *)
Definition covers_required (p : TaskPackV2) (l : list (TargetKind * string)) : Prop :=
  NoDup l /\ forall t, t ∈ l <-> t ∈ required_targets p.

Record pack_contract (p : TaskPackV2) : Prop := {
  pk_facts_unique : NoDup (pack_fact_ids p);
  pk_relations_unique : NoDup (pack_relation_ids p);
  pk_fact_ids : Forall (fun i => id_field 160 i = true) (pack_fact_ids p);
  pk_relation_ids : Forall (fun i => id_field 160 i = true) (pack_relation_ids p);
  pk_fact_count : length (pack_fact_ids p) <= 100;
  pk_relation_count : length (pack_relation_ids p) <= 100;
  pk_required_graph : Forall (target_in_graph p) (required_targets p);
  pk_required_unique : NoDup (required_targets p);
  pk_required_some : required_targets p <> [];
  pk_initial : forall t, t ∈ map target_pair (qp_targets (pack_initial_question p))
                         <-> t ∈ required_targets p;
  pk_l3_single : Forall (fun q => length (qp_targets q) = 1) (pack_l3_plans p);
  pk_l3 : covers_required p (l3_pairs p);
  pk_l2 : covers_required p (l2_pairs p);
  pk_joint : covers_required p (map joint_pair (pack_joint_completions p));
  pk_joint_values : forall i v, JointFactCompletionV2 i v ∈ pack_joint_completions p ->
    exists f, facts_by_id p i = Some f /\ value_matches f v = true;
  pk_notes : Forall (fun i => i ∈ pack_relation_ids p) (pack_note_relation_ids p)
}.

Class PackModelLaws `{PackModel} := {
  home_contract p q : home_model_validate p = Ok q -> pack_contract (HomePack p);
  life_contract p q : life_model_validate p = Ok q -> pack_contract (LifePack p)
}.

Section snapshot.
Context `{Digest} `{PackModel}.

Record PinnedContentSnapshotV2 := {
  pc_pack_id : string;
  pc_content_version : Z;
  pc_curriculum_session_id : string;
  pc_content_hash : string;
  pc_pack_payload : RequiredHomeTeachingPackV2
}.

Record PinnedLifeTaskSnapshotV2 := {
  pl_pack_id : string;
  pl_content_version : Z;
  pl_task_id : string;
  pl_content_hash : string;
  pl_pack_payload : LifeTaskPackV2
}.

(** The constructors: field constraints, then [validate_pinned_pack]. *)
Definition pinned_content_snapshot (s : PinnedContentSnapshotV2) : res PinnedContentSnapshotV2 :=
  _ ← raise_if (negb (id_field 160 (pc_pack_id s) && (1 <=? pc_content_version s)%Z
                      && id_field 100 (pc_curriculum_session_id s)
                      && sha256_pattern (pc_content_hash s)))
        (ValidationError "pinned content fields");
  pack ← home_model_validate (pc_pack_payload s);
  _ ← raise_if (negb (bool_decide (hp_pack_id pack = pc_pack_id s)))
        (ValidationError "pinned content pack_id does not match its payload");
  _ ← raise_if (negb (hp_content_version pack =? pc_content_version s)%Z)
        (ValidationError "pinned content version does not match its payload");
  _ ← raise_if (negb (bool_decide (hp_curriculum_session_id pack = pc_curriculum_session_id s)))
        (ValidationError "pinned curriculum session does not match its payload");
  _ ← raise_if (negb (bool_decide (content_pack_hash_v2 pack = pc_content_hash s)))
        (ValidationError "pinned content hash does not match its payload");
  Ok s.

Definition pinned_life_snapshot (s : PinnedLifeTaskSnapshotV2) : res PinnedLifeTaskSnapshotV2 :=
  _ ← raise_if (negb (id_field 160 (pl_pack_id s) && (1 <=? pl_content_version s)%Z
                      && id_field 120 (pl_task_id s) && sha256_pattern (pl_content_hash s)))
        (ValidationError "pinned life task fields");
  pack ← life_model_validate (pl_pack_payload s);
  _ ← raise_if (negb (bool_decide (lt_pack_id pack = pl_pack_id s))
                || negb (lt_content_version pack =? pl_content_version s)%Z
                || negb (bool_decide (lt_task_id pack = pl_task_id s))
                || negb (bool_decide (life_task_pack_hash_v2 pack = pl_content_hash s)))
        (ValidationError "pinned life task identity does not match its payload");
  Ok s.

Definition pin_content_pack_v2 (pack : RequiredHomeTeachingPackV2)
    : res PinnedContentSnapshotV2 :=
  pinned_content_snapshot {|
    pc_pack_id := hp_pack_id pack; pc_content_version := hp_content_version pack;
    pc_curriculum_session_id := hp_curriculum_session_id pack;
    pc_content_hash := content_pack_hash_v2 pack; pc_pack_payload := pack |}.

Definition pin_life_task_pack_v2 (pack : LifeTaskPackV2) : res PinnedLifeTaskSnapshotV2 :=
  pinned_life_snapshot {|
    pl_pack_id := lt_pack_id pack; pl_content_version := lt_content_version pack;
    pl_task_id := lt_task_id pack; pl_content_hash := life_task_pack_hash_v2 pack;
    pl_pack_payload := pack |}.

Definition resolve_content_pack (s : PinnedContentSnapshotV2) : res RequiredHomeTeachingPackV2 :=
  pack ← home_model_validate (pc_pack_payload s);
  _ ← raise_if (negb (bool_decide (hp_pack_id pack = pc_pack_id s))
                || negb (hp_content_version pack =? pc_content_version s)%Z
                || negb (bool_decide (hp_curriculum_session_id pack = pc_curriculum_session_id s))
                || negb (bool_decide (content_pack_hash_v2 pack = pc_content_hash s)))
        (DialogueV2LedgerError "pinned content snapshot failed integrity validation");
  Ok pack.

Definition resolve_life_pack (s : PinnedLifeTaskSnapshotV2) : res LifeTaskPackV2 :=
  pack ← life_model_validate (pl_pack_payload s);
  _ ← raise_if (negb (bool_decide (lt_pack_id pack = pl_pack_id s))
                || negb (lt_content_version pack =? pl_content_version s)%Z
                || negb (bool_decide (lt_task_id pack = pl_task_id s))
                || negb (bool_decide (life_task_pack_hash_v2 pack = pl_content_hash s)))
        (DialogueV2LedgerError "pinned life task snapshot failed integrity validation");
  Ok pack.

(** [PinnedContentSnapshotV2 | PinnedLifeTaskSnapshotV2] *)
Inductive ContentSnapshotV2 :=
  | HomeSnapshot (s : PinnedContentSnapshotV2)
  | LifeSnapshot (s : PinnedLifeTaskSnapshotV2).

Definition snapshot_pack_id (s : ContentSnapshotV2) : string :=
  match s with HomeSnapshot s => pc_pack_id s | LifeSnapshot s => pl_pack_id s end.
Definition snapshot_content_version (s : ContentSnapshotV2) : Z :=
  match s with HomeSnapshot s => pc_content_version s | LifeSnapshot s => pl_content_version s end.
Definition snapshot_content_hash (s : ContentSnapshotV2) : string :=
  match s with HomeSnapshot s => pc_content_hash s | LifeSnapshot s => pl_content_hash s end.

(** [snapshot.resolve_pack()] *)
Definition resolve_pack (s : ContentSnapshotV2) : res TaskPackV2 :=
  match s with
  | HomeSnapshot s => HomePack <$> resolve_content_pack s
  | LifeSnapshot s => LifePack <$> resolve_life_pack s
  end.

(** The pack a snapshot holds, before any check. *)
Definition snapshot_payload (s : ContentSnapshotV2) : TaskPackV2 :=
  match s with
  | HomeSnapshot s => HomePack (pc_pack_payload s)
  | LifeSnapshot s => LifePack (pl_pack_payload s)
  end.

(** What every resolution of [s] finds: the pack it was pinned with. *)
Definition snapshot_intact (s : ContentSnapshotV2) : Prop :=
  resolve_pack s = Ok (snapshot_payload s).

Section laws.
Context `{!PackModelChecks}.

Lemma resolve_pack_Ok s p :
  resolve_pack s = Ok p ->
  p = snapshot_payload s /\ pack_id p = snapshot_pack_id s
  /\ content_version p = snapshot_content_version s /\ pack_hash p = snapshot_content_hash s.
Proof.
  destruct s as [s|s]; simpl; [unfold resolve_content_pack | unfold resolve_life_pack];
    intros Hr.
  all: destruct (home_model_validate _) eqn:E || destruct (life_model_validate _) eqn:E;
    [|done]; cbn in Hr.
  all: first [apply home_validate_id in E | apply life_validate_id in E]; subst.
  all: destruct (_ || _) eqn:Ec in Hr; [done|]; injection Hr as <-; breflect.
  all: rewrite Z.eqb_eq in Ec; naive_solver.
Qed.

Lemma resolve_pack_intact s p : resolve_pack s = Ok p -> snapshot_intact s.
Proof. intros Hr. destruct (resolve_pack_Ok s p Hr) as [-> _]. exact Hr. Qed.

Lemma resolve_pack_contract `{!PackModelLaws} s p : resolve_pack s = Ok p -> pack_contract p.
Proof.
  intros Hr. destruct (resolve_pack_Ok s p Hr) as [-> _]. destruct s as [s|s]; simpl in Hr.
  - unfold resolve_content_pack in Hr. destruct (home_model_validate _) eqn:E; [|done].
    by eapply home_contract.
  - unfold resolve_life_pack in Hr. destruct (life_model_validate _) eqn:E; [|done].
    by eapply life_contract.
Qed.

Lemma pinned_content_resolves s s' :
  pinned_content_snapshot s = Ok s' -> resolve_pack (HomeSnapshot s') = Ok (HomePack (pc_pack_payload s)).
Proof.
  unfold pinned_content_snapshot. intros Hp. res_inv. simpl. unfold resolve_content_pack.
  destruct (home_model_validate (pc_pack_payload s')) eqn:E'; [|done].
  apply home_validate_id in E' as ->. simplify_eq. simpl. breflect.
  rewrite !bool_decide_eq_true_2 by done.
  by match goal with He : (_ =? _)%Z = true |- _ => rewrite He end.
Qed.

Lemma pinned_life_resolves s s' :
  pinned_life_snapshot s = Ok s' -> resolve_pack (LifeSnapshot s') = Ok (LifePack (pl_pack_payload s)).
Proof.
  unfold pinned_life_snapshot. intros Hp. res_inv. simpl. unfold resolve_life_pack.
  destruct (life_model_validate (pl_pack_payload s')) eqn:E'; [|done].
  apply life_validate_id in E' as ->. simplify_eq. simpl.
  match goal with He : _ || _ = false |- _ => rewrite He end. done.
Qed.
End laws.
End snapshot.
