(* ===== verification/Ledger.v ===== *)
(** The reasoning ledger of [src/mormi_api/dialogue_v2_ledger.py]: verified facts
    and relations with their evidence, the completion contract, and the two
    operations that grow it ([apply_guarded_understanding_v2] for admitted model
    verdicts, [apply_structured_progress_v2] for resolved choices and joint
    actions).  Theorems are in [LedgerTheory]. *)

From Stdlib Require Import Ascii.
From S2P Require Import Prelude.
From S2P Require Import PyStr.
From S2P Require Import PyNum.
From S2P Require Import Json.
From S2P Require Import Schemas.
From S2P Require Import Requests.
From S2P Require Import Evidence.
From S2P Require Import Packs.
From S2P Require Import PackDump.
From S2P Require Import Snapshot.

(** * Entries *)

Record LedgerEvidencePointerV2 := {
  ep_evidence_id : string;
  ep_source_turn_id : string;
  ep_source_start : nat;
  ep_source_end : nat;
  ep_match_kind : EvidenceMatchKindV2
}.

(** The constructor's field constraints and [validate_source_range]. *)
Definition evidence_pointer (p : LedgerEvidencePointerV2) : res LedgerEvidencePointerV2 :=
  _ ← raise_if (negb (sha256_pattern (ep_evidence_id p)
                      && bool_decide (1 <= py_len (ep_source_turn_id p) <= 100)
                      && bool_decide (0 < ep_source_end p)))
        (ValidationError "ledger evidence fields");
  _ ← raise_if (bool_decide (ep_source_end p <= ep_source_start p))
        (ValidationError "ledger evidence end must follow its start");
  Ok p.

Inductive StructuredSource := SRC_choice | SRC_joint.
Definition source_kind_value (k : StructuredSource) : string :=
  match k with SRC_choice => "choice" | SRC_joint => "joint" end.

Record StructuredVerificationEvidenceV2 := {
  sv_evidence_id : string;
  sv_source_turn_id : string;
  sv_source_kind : StructuredSource;
  sv_target_kind : TargetKind;
  sv_target_id : string
}.

Definition structured_evidence (e : StructuredVerificationEvidenceV2)
    : res StructuredVerificationEvidenceV2 :=
  _ ← raise_if (negb (sha256_pattern (sv_evidence_id e)
                      && bool_decide (1 <= py_len (sv_source_turn_id e) <= 100)
                      && id_field 160 (sv_target_id e)))
        (ValidationError "structured evidence fields");
  Ok e.

(** [FactVerificationEvidenceV2 | StructuredVerificationEvidenceV2] *)
Inductive FactLedgerEvidenceV2 :=
  | FE_understanding (p : LedgerEvidencePointerV2)
  | FE_structured (e : StructuredVerificationEvidenceV2).
(** [RelationVerificationEvidenceV2 | StructuredVerificationEvidenceV2] *)
Inductive RelationLedgerEvidenceV2 :=
  | RE_understanding (p : LedgerEvidencePointerV2) (classifier_verdict : VerdictV2)
  | RE_structured (e : StructuredVerificationEvidenceV2).

Definition fe_id (e : FactLedgerEvidenceV2) : string :=
  match e with FE_understanding p => ep_evidence_id p | FE_structured e => sv_evidence_id e end.
Definition re_id (e : RelationLedgerEvidenceV2) : string :=
  match e with RE_understanding p _ => ep_evidence_id p | RE_structured e => sv_evidence_id e end.

#[export] Instance EvidencePointer_eq_dec : EqDecision LedgerEvidencePointerV2.
Proof. solve_decision. Defined.
#[export] Instance StructuredSource_eq_dec : EqDecision StructuredSource.
Proof. solve_decision. Defined.
#[export] Instance StructuredEvidence_eq_dec : EqDecision StructuredVerificationEvidenceV2.
Proof. solve_decision. Defined.
#[export] Instance FactEvidence_eq_dec : EqDecision FactLedgerEvidenceV2.
Proof. solve_decision. Defined.
#[export] Instance RelationEvidence_eq_dec : EqDecision RelationLedgerEvidenceV2.
Proof. solve_decision. Defined.

Record VerifiedFactLedgerEntryV2 := {
  vf_fact_id : string;
  vf_canonical_value : CanonicalValueV2;
  vf_evidence : list FactLedgerEvidenceV2
}.
Record VerifiedRelationLedgerEntryV2 := {
  vr_relation_id : string;
  vr_evidence : list RelationLedgerEvidenceV2
}.
Record PartialRelationLedgerEntryV2 := {
  pr_relation_id : string;
  pr_evidence : list LedgerEvidencePointerV2
}.
Record AcceptedAuxiliaryEvidenceV2 := {
  ax_pointer : LedgerEvidencePointerV2;
  ax_summary : string;
  ax_classifier_verdict : VerdictV2
}.

(** [Field(min_length=1, max_length=100)] on an evidence list. *)
Definition evidence_length_ok {A} (l : list A) : bool := bool_decide (1 <= length l <= 100).

(** [structured ... must reference its ledger fact/relation], for one item. *)
Definition structured_mismatch (kind : TargetKind) (i : string)
    (e : StructuredVerificationEvidenceV2) : bool :=
  bool_decide (sv_target_kind e <> kind) || bool_decide (sv_target_id e <> i).

Definition verified_fact_entry (e : VerifiedFactLedgerEntryV2) : res VerifiedFactLedgerEntryV2 :=
  _ ← raise_if (negb (id_field 160 (vf_fact_id e) && evidence_length_ok (vf_evidence e)))
        (ValidationError "fact ledger entry fields");
  _ ← raise_if (negb (uniqueb (map fe_id (vf_evidence e))))
        (ValidationError "fact ledger evidence ids must be unique");
  _ ← raise_if (existsb (fun x => match x with
                                  | FE_structured s => structured_mismatch KIND_fact (vf_fact_id e) s
                                  | FE_understanding _ => false end) (vf_evidence e))
        (ValidationError "structured fact evidence must reference its ledger fact");
  Ok e.

Definition verified_relation_entry (e : VerifiedRelationLedgerEntryV2)
    : res VerifiedRelationLedgerEntryV2 :=
  _ ← raise_if (negb (id_field 160 (vr_relation_id e) && evidence_length_ok (vr_evidence e)))
        (ValidationError "relation ledger entry fields");
  _ ← raise_if (negb (uniqueb (map re_id (vr_evidence e))))
        (ValidationError "relation ledger evidence ids must be unique");
  _ ← raise_if (existsb (fun x => match x with
                                  | RE_structured s =>
                                      structured_mismatch KIND_relation (vr_relation_id e) s
                                  | RE_understanding _ _ => false end) (vr_evidence e))
        (ValidationError "structured relation evidence must reference its ledger relation");
  Ok e.

Definition partial_relation_entry (e : PartialRelationLedgerEntryV2)
    : res PartialRelationLedgerEntryV2 :=
  _ ← raise_if (negb (id_field 160 (pr_relation_id e) && evidence_length_ok (pr_evidence e)))
        (ValidationError "partial relation entry fields");
  _ ← raise_if (negb (uniqueb (map ep_evidence_id (pr_evidence e))))
        (ValidationError "partial relation evidence ids must be unique");
  Ok e.

(** * The ledger *)

Record ReasoningLedgerV2 := {
  rl_pack_id : string;
  rl_content_version : Z;
  rl_content_hash : string;
  verified_facts : gmap string VerifiedFactLedgerEntryV2;
  verified_relations : gmap string VerifiedRelationLedgerEntryV2;
  partial_relations : gmap string PartialRelationLedgerEntryV2;
  accepted_auxiliary_evidence : gmap string AcceptedAuxiliaryEvidenceV2
}.

(** Some entry of [m] is filed under a key other than its id. *)
Definition key_mismatch {A} (idf : A -> string) (m : gmap string A) : bool :=
  existsb (fun kv => bool_decide (kv.1 <> idf kv.2)) (map_to_list m).

(** The constructor: field constraints and [map_keys_must_match_entries].
    Nested entries are already model instances, which pydantic does not
    revalidate. *)
Definition reasoning_ledger (l : ReasoningLedgerV2) : res ReasoningLedgerV2 :=
  _ ← raise_if (negb (id_field 160 (rl_pack_id l) && (1 <=? rl_content_version l)%Z
                      && sha256_pattern (rl_content_hash l)
                      && bool_decide (size (verified_facts l) <= 100)
                      && bool_decide (size (verified_relations l) <= 100)
                      && bool_decide (size (partial_relations l) <= 100)
                      && bool_decide (size (accepted_auxiliary_evidence l) <= 200)))
        (ValidationError "reasoning ledger fields");
  _ ← raise_if (key_mismatch vf_fact_id (verified_facts l))
        (ValidationError "verified fact map keys must match fact ids");
  _ ← raise_if (key_mismatch vr_relation_id (verified_relations l))
        (ValidationError "verified relation map keys must match relation ids");
  _ ← raise_if (key_mismatch pr_relation_id (partial_relations l))
        (ValidationError "partial relation map keys must match relation ids");
  _ ← raise_if (key_mismatch (fun a => ep_evidence_id (ax_pointer a)) (accepted_auxiliary_evidence l))
        (ValidationError "auxiliary evidence map keys must match evidence ids");
  Ok l.

Definition empty_reasoning_ledger_v2 (s : ContentSnapshotV2) : res ReasoningLedgerV2 :=
  reasoning_ledger {|
    rl_pack_id := snapshot_pack_id s; rl_content_version := snapshot_content_version s;
    rl_content_hash := snapshot_content_hash s;
    verified_facts := ∅; verified_relations := ∅; partial_relations := ∅;
    accepted_auxiliary_evidence := ∅ |}.

(** The evidence constructors, by kind; the [Literal] verdicts included. *)
Definition fact_evidence_validate (x : FactLedgerEvidenceV2) : res unit :=
  match x with
  | FE_understanding p => _ ← evidence_pointer p; Ok tt
  | FE_structured e => _ ← structured_evidence e; Ok tt
  end.
Definition relation_evidence_validate (x : RelationLedgerEvidenceV2) : res unit :=
  match x with
  | RE_understanding p v =>
      _ ← evidence_pointer p;
      raise_if (negb (memb v [V_correct; V_sufficient])) (ValidationError "classifier_verdict")
  | RE_structured e => _ ← structured_evidence e; Ok tt
  end.

(** [ReasoningLedgerV2.model_validate(json)]: a persisted ledger is read back
    with every nested model validated, evidence first. *)
Definition reload_fact_entry (e : VerifiedFactLedgerEntryV2) : res VerifiedFactLedgerEntryV2 :=
  _ ← mapR fact_evidence_validate (vf_evidence e); verified_fact_entry e.
Definition reload_relation_entry (e : VerifiedRelationLedgerEntryV2)
    : res VerifiedRelationLedgerEntryV2 :=
  _ ← mapR relation_evidence_validate (vr_evidence e); verified_relation_entry e.
Definition reload_partial_entry (e : PartialRelationLedgerEntryV2)
    : res PartialRelationLedgerEntryV2 :=
  _ ← mapR evidence_pointer (pr_evidence e); partial_relation_entry e.
Definition reload_auxiliary (a : AcceptedAuxiliaryEvidenceV2) : res AcceptedAuxiliaryEvidenceV2 :=
  _ ← evidence_pointer (ax_pointer a);
  _ ← raise_if (negb (bool_decide (1 <= py_len (ax_summary a) <= 160)
                      && memb (ax_classifier_verdict a) [V_correct; V_sufficient; V_partial]))
        (ValidationError "auxiliary evidence fields");
  Ok a.

Definition reload_ledger (l : ReasoningLedgerV2) : res ReasoningLedgerV2 :=
  _ ← mapR (fun kv => reload_fact_entry kv.2) (map_to_list (verified_facts l));
  _ ← mapR (fun kv => reload_relation_entry kv.2) (map_to_list (verified_relations l));
  _ ← mapR (fun kv => reload_partial_entry kv.2) (map_to_list (partial_relations l));
  _ ← mapR (fun kv => reload_auxiliary kv.2) (map_to_list (accepted_auxiliary_evidence l));
  reasoning_ledger l.

Record ReasoningCompletionV2 := {
  rc_required_fact_ids : list string;
  rc_required_relation_ids : list string;
  remaining_fact_ids : list string;
  remaining_relation_ids : list string;
  complete : bool
}.

Inductive TurnLearningProgressKindV2 :=
  | TLP_NONE | ANSWER_ONLY | METHOD_ONLY | ANSWER_AND_METHOD | METHOD_PARTIAL | MIXED.
#[export] Instance ProgressKind_eq_dec : EqDecision TurnLearningProgressKindV2.
Proof. solve_decision. Defined.

Record TurnLearningDeltaV2 := {
  td_new_fact_ids : list string;
  td_new_relation_ids : list string;
  td_partial_relation_ids : list string;
  td_progress_kind : TurnLearningProgressKindV2
}.

(** The result lists of one application, in the order they are appended to. *)
Record apply_log := {
  new_fact_ids : list string;
  new_relation_ids : list string;
  new_milestone_fact_ids : list string;
  new_fact_evidence_ids : list string;
  new_relation_evidence_ids : list string;
  new_partial_relation_ids : list string;
  new_partial_relation_evidence_ids : list string;
  new_auxiliary_evidence_ids : list string;
  claim_evidence_ids : gmap string string;
  ignored_claim_ids : list string
}.

Definition empty_log : apply_log := {|
  new_fact_ids := []; new_relation_ids := []; new_milestone_fact_ids := [];
  new_fact_evidence_ids := []; new_relation_evidence_ids := [];
  new_partial_relation_ids := []; new_partial_relation_evidence_ids := [];
  new_auxiliary_evidence_ids := []; claim_evidence_ids := ∅; ignored_claim_ids := [] |}.

(** Appends to the result lists; the dict of claim handles is updated. *)
Definition log_app (a b : apply_log) : apply_log := {|
  new_fact_ids := new_fact_ids a ++ new_fact_ids b;
  new_relation_ids := new_relation_ids a ++ new_relation_ids b;
  new_milestone_fact_ids := new_milestone_fact_ids a ++ new_milestone_fact_ids b;
  new_fact_evidence_ids := new_fact_evidence_ids a ++ new_fact_evidence_ids b;
  new_relation_evidence_ids := new_relation_evidence_ids a ++ new_relation_evidence_ids b;
  new_partial_relation_ids := new_partial_relation_ids a ++ new_partial_relation_ids b;
  new_partial_relation_evidence_ids :=
    new_partial_relation_evidence_ids a ++ new_partial_relation_evidence_ids b;
  new_auxiliary_evidence_ids := new_auxiliary_evidence_ids a ++ new_auxiliary_evidence_ids b;
  claim_evidence_ids := claim_evidence_ids b ∪ claim_evidence_ids a;
  ignored_claim_ids := ignored_claim_ids a ++ ignored_claim_ids b |}.

Definition log_ignored (i : string) : apply_log := {|
  new_fact_ids := []; new_relation_ids := []; new_milestone_fact_ids := [];
  new_fact_evidence_ids := []; new_relation_evidence_ids := [];
  new_partial_relation_ids := []; new_partial_relation_evidence_ids := [];
  new_auxiliary_evidence_ids := []; claim_evidence_ids := ∅; ignored_claim_ids := [i] |}.
Definition log_fact (facts milestones evidence : list string) (handles : gmap string string)
    : apply_log := {|
  new_fact_ids := facts; new_relation_ids := []; new_milestone_fact_ids := milestones;
  new_fact_evidence_ids := evidence; new_relation_evidence_ids := [];
  new_partial_relation_ids := []; new_partial_relation_evidence_ids := [];
  new_auxiliary_evidence_ids := []; claim_evidence_ids := handles; ignored_claim_ids := [] |}.
Definition log_relation (relations evidence : list string) (handles : gmap string string)
    : apply_log := {|
  new_fact_ids := []; new_relation_ids := relations; new_milestone_fact_ids := [];
  new_fact_evidence_ids := []; new_relation_evidence_ids := evidence;
  new_partial_relation_ids := []; new_partial_relation_evidence_ids := [];
  new_auxiliary_evidence_ids := []; claim_evidence_ids := handles; ignored_claim_ids := [] |}.
Definition log_partial (relations evidence : list string) (handles : gmap string string)
    : apply_log := {|
  new_fact_ids := []; new_relation_ids := []; new_milestone_fact_ids := [];
  new_fact_evidence_ids := []; new_relation_evidence_ids := [];
  new_partial_relation_ids := relations; new_partial_relation_evidence_ids := evidence;
  new_auxiliary_evidence_ids := []; claim_evidence_ids := handles; ignored_claim_ids := [] |}.
Definition log_auxiliary (evidence : list string) (handles : gmap string string) : apply_log := {|
  new_fact_ids := []; new_relation_ids := []; new_milestone_fact_ids := [];
  new_fact_evidence_ids := []; new_relation_evidence_ids := [];
  new_partial_relation_ids := []; new_partial_relation_evidence_ids := [];
  new_auxiliary_evidence_ids := evidence; claim_evidence_ids := handles; ignored_claim_ids := [] |}.

Record ReasoningLedgerApplyResultV2 := {
  ar_ledger : ReasoningLedgerV2;
  ar_log : apply_log;
  ar_completion : ReasoningCompletionV2;
  completion_became_true : bool
}.

Definition has_new_canonical_progress (r : ReasoningLedgerApplyResultV2) : bool :=
  truthy (new_fact_ids (ar_log r)) || truthy (new_relation_ids (ar_log r)).
Definition has_new_partial_progress (r : ReasoningLedgerApplyResultV2) : bool :=
  truthy (new_partial_relation_ids (ar_log r)).

Definition delta (r : ReasoningLedgerApplyResultV2) : TurnLearningDeltaV2 :=
  let has_facts := truthy (new_fact_ids (ar_log r)) in
  let has_relations := truthy (new_relation_ids (ar_log r)) in
  let has_partial := truthy (new_partial_relation_ids (ar_log r)) in
  {| td_new_fact_ids := new_fact_ids (ar_log r);
     td_new_relation_ids := new_relation_ids (ar_log r);
     td_partial_relation_ids := new_partial_relation_ids (ar_log r);
     td_progress_kind :=
       if has_partial && (has_facts || has_relations) then MIXED
       else if has_facts && has_relations then ANSWER_AND_METHOD
       else if has_facts then ANSWER_ONLY
       else if has_relations then METHOD_ONLY
       else if has_partial then METHOD_PARTIAL
       else TLP_NONE |}.

Section ledger.
Context `{Digest} `{PackModel}.

(** * Binding and completion *)

(** The keys of the three maps are graph ids and every canonical value is one
    the pack accepts. *)
Definition validate_ledger_binding (s : ContentSnapshotV2) (l : ReasoningLedgerV2)
    (pack : TaskPackV2) : res unit :=
  _ ← raise_if (negb (bool_decide (rl_pack_id l = snapshot_pack_id s)
                      && (rl_content_version l =? snapshot_content_version s)%Z
                      && bool_decide (rl_content_hash l = snapshot_content_hash s)))
        (DialogueV2LedgerError "reasoning ledger is not bound to the pinned content");
  _ ← raise_if (negb (subsetb (map fst (map_to_list (verified_facts l))) (pack_fact_ids pack)))
        (DialogueV2LedgerError "reasoning ledger contains an unknown fact");
  _ ← raise_if (negb (subsetb (map fst (map_to_list (verified_relations l)))
                        (pack_relation_ids pack)))
        (DialogueV2LedgerError "reasoning ledger contains an unknown relation");
  _ ← raise_if (negb (subsetb (map fst (map_to_list (partial_relations l)))
                        (pack_relation_ids pack)))
        (DialogueV2LedgerError "reasoning ledger contains an unknown partial relation");
  raise_if (existsb (fun kv => match facts_by_id pack kv.1 with
                               | Some fact => negb (value_matches fact (vf_canonical_value kv.2))
                               | None => false
                               end) (map_to_list (verified_facts l)))
    (DialogueV2LedgerError "reasoning ledger canonical fact differs from pinned content").

Definition reasoning_completion_v2 (s : ContentSnapshotV2) (l : ReasoningLedgerV2)
    : res ReasoningCompletionV2 :=
  pack ← resolve_pack s;
  _ ← validate_ledger_binding s l pack;
  let contract := pack_completion pack in
  let remaining_facts :=
    List.filter (fun i => bool_decide (verified_facts l !! i = None)) (required_fact_ids contract) in
  let remaining_relations :=
    List.filter (fun i => bool_decide (verified_relations l !! i = None))
      (required_relation_ids contract) in
  Ok {| rc_required_fact_ids := required_fact_ids contract;
        rc_required_relation_ids := required_relation_ids contract;
        remaining_fact_ids := remaining_facts;
        remaining_relation_ids := remaining_relations;
        complete := negb (truthy remaining_facts) && negb (truthy remaining_relations) |}.

(** * Admitted understanding *)

(** [{match.claim_id: match for match in guarded.evidence_matches}[i]] *)
Definition match_by_claim (ms : list EvidenceMatchV2) (i : string) : option EvidenceMatchV2 :=
  find_first (fun m => bool_decide (em_claim_id m = i)) (rev ms).

Definition evidence_matches_by_claim (g : GuardedUnderstandingV2)
    : res (string -> option EvidenceMatchV2) :=
  let ids := map claim_id (claims (gu_response g)) in
  let match_ids := map em_claim_id (gu_evidence_matches g) in
  _ ← raise_if (negb (uniqueb match_ids) || negb (set_eqb match_ids ids))
        (DialogueV2LedgerError
           "guarded understanding must contain exactly one evidence match per claim");
  Ok (match_by_claim (gu_evidence_matches g)).

Definition stable_evidence_id (source_turn_id : string) (m : EvidenceMatchV2)
    (claim_kind target_id : string) (semantic_payload : json) : string :=
  hexdigest (dumps (JObj [
    ("source_turn_id", JStr source_turn_id);
    ("source_start", j_int (Z.of_nat (em_source_start m)));
    ("source_end", j_int (Z.of_nat (em_source_end m)));
    ("match_kind", JStr (match_kind_value (em_match_kind m)));
    ("claim_kind", JStr claim_kind);
    ("target_id", JStr target_id);
    ("semantic_payload", semantic_payload)])).

Definition pointer_of (source_turn_id evidence_id : string) (m : EvidenceMatchV2)
    : res LedgerEvidencePointerV2 :=
  evidence_pointer {|
    ep_evidence_id := evidence_id; ep_source_turn_id := source_turn_id;
    ep_source_start := em_source_start m; ep_source_end := em_source_end m;
    ep_match_kind := em_match_kind m |}.

(** The mutable dicts of the loop. *)
Record ledger_maps := {
  lm_facts : gmap string VerifiedFactLedgerEntryV2;
  lm_relations : gmap string VerifiedRelationLedgerEntryV2;
  lm_partials : gmap string PartialRelationLedgerEntryV2;
  lm_auxiliary : gmap string AcceptedAuxiliaryEvidenceV2
}.

Definition with_facts (ms : ledger_maps) x : ledger_maps :=
  {| lm_facts := x; lm_relations := lm_relations ms; lm_partials := lm_partials ms;
     lm_auxiliary := lm_auxiliary ms |}.
Definition with_relations (ms : ledger_maps) x : ledger_maps :=
  {| lm_facts := lm_facts ms; lm_relations := x; lm_partials := lm_partials ms;
     lm_auxiliary := lm_auxiliary ms |}.
Definition with_partials (ms : ledger_maps) x : ledger_maps :=
  {| lm_facts := lm_facts ms; lm_relations := lm_relations ms; lm_partials := x;
     lm_auxiliary := lm_auxiliary ms |}.
Definition with_auxiliary (ms : ledger_maps) x : ledger_maps :=
  {| lm_facts := lm_facts ms; lm_relations := lm_relations ms; lm_partials := lm_partials ms;
     lm_auxiliary := x |}.

Definition fact_payload : json := JObj [("verdict", JStr "correct")].
Definition relation_payload (v : VerdictV2) : json := JObj [("verdict", JStr (verdict_value v))].
Definition auxiliary_summary_code_v2 : string := "task_related_auxiliary_evidence".
Definition auxiliary_payload (v : VerdictV2) : json :=
  JObj [("verdict", JStr (verdict_value v)); ("summary_code", JStr auxiliary_summary_code_v2)].

Definition fact_evidence_id turn m (c : FactUnderstandingClaimV2) : string :=
  stable_evidence_id turn m "fact" (fc_fact_id c) fact_payload.
Definition relation_evidence_id turn m (c : RelationUnderstandingClaimV2) : string :=
  stable_evidence_id turn m "relation" (rc_relation_id c) (relation_payload (rc_verdict c)).
Definition auxiliary_evidence_id turn m (c : AuxiliaryUnderstandingClaimV2) : string :=
  stable_evidence_id turn m "auxiliary" "open" (auxiliary_payload (ac_verdict c)).

(** The fact branch for a [correct] claim. *)
Definition apply_fact_claim (pack : TaskPackV2) (turn : string) (m : EvidenceMatchV2)
    (c : FactUnderstandingClaimV2) (ms : ledger_maps) : res (ledger_maps * apply_log) :=
  let evidence_id := fact_evidence_id turn m c in
  fact_evidence ← pointer_of turn evidence_id m;
  let handles := {[ fc_claim_id c := evidence_id ]} in
  match lm_facts ms !! fc_fact_id c with
  | None =>
      fact ← or_raise (facts_by_id pack (fc_fact_id c)) (KeyError (fc_fact_id c));
      entry ← verified_fact_entry {|
        vf_fact_id := fc_fact_id c; vf_canonical_value := fact_value fact;
        vf_evidence := [FE_understanding fact_evidence] |};
      Ok (with_facts ms (<[fc_fact_id c := entry]> (lm_facts ms)),
          log_fact [fc_fact_id c]
            (if decide (fact_role fact = intermediate_result) then [fc_fact_id c] else [])
            [evidence_id] handles)
  | Some existing =>
      if memb evidence_id (map fe_id (vf_evidence existing)) then
        Ok (ms, log_fact [] [] [] handles)
      else
        Ok (with_facts ms (<[fc_fact_id c := {|
              vf_fact_id := vf_fact_id existing;
              vf_canonical_value := vf_canonical_value existing;
              vf_evidence := vf_evidence existing ++ [FE_understanding fact_evidence] |}]>
              (lm_facts ms)),
            log_fact [] [] [evidence_id] handles)
  end.

(** The relation branch for a [partial] claim. *)
Definition apply_partial_claim (turn : string) (m : EvidenceMatchV2)
    (c : RelationUnderstandingClaimV2) (ms : ledger_maps) : res (ledger_maps * apply_log) :=
  if bool_decide (is_Some (lm_relations ms !! rc_relation_id c)) then
    Ok (ms, log_ignored (rc_claim_id c))
  else
    let evidence_id := relation_evidence_id turn m c in
    partial_evidence ← pointer_of turn evidence_id m;
    let handles := {[ rc_claim_id c := evidence_id ]} in
    match lm_partials ms !! rc_relation_id c with
    | None =>
        entry ← partial_relation_entry {|
          pr_relation_id := rc_relation_id c; pr_evidence := [partial_evidence] |};
        Ok (with_partials ms (<[rc_relation_id c := entry]> (lm_partials ms)),
            log_partial [rc_relation_id c] [evidence_id] handles)
    | Some existing =>
        if memb evidence_id (map ep_evidence_id (pr_evidence existing)) then
          Ok (ms, log_partial [] [] handles)
        else
          Ok (with_partials ms (<[rc_relation_id c := {|
                pr_relation_id := pr_relation_id existing;
                pr_evidence := pr_evidence existing ++ [partial_evidence] |}]>
                (lm_partials ms)),
              log_partial [] [evidence_id] handles)
    end.

(** The relation branch for a [correct] or [sufficient] claim. *)
Definition apply_relation_claim (turn : string) (m : EvidenceMatchV2)
    (c : RelationUnderstandingClaimV2) (ms : ledger_maps) : res (ledger_maps * apply_log) :=
  let evidence_id := relation_evidence_id turn m c in
  p ← pointer_of turn evidence_id m;
  let relation_evidence := RE_understanding p (rc_verdict c) in
  let handles := {[ rc_claim_id c := evidence_id ]} in
  match lm_relations ms !! rc_relation_id c with
  | None =>
      entry ← verified_relation_entry {|
        vr_relation_id := rc_relation_id c; vr_evidence := [relation_evidence] |};
      Ok (with_relations ms (<[rc_relation_id c := entry]> (lm_relations ms)),
          log_relation [rc_relation_id c] [evidence_id] handles)
  | Some existing =>
      if memb evidence_id (map re_id (vr_evidence existing)) then
        Ok (ms, log_relation [] [] handles)
      else
        Ok (with_relations ms (<[rc_relation_id c := {|
              vr_relation_id := vr_relation_id existing;
              vr_evidence := vr_evidence existing ++ [relation_evidence] |}]>
              (lm_relations ms)),
            log_relation [] [evidence_id] handles)
  end.

(** The auxiliary branch for an accepted verdict. *)
Definition apply_auxiliary_claim (turn : string) (m : EvidenceMatchV2)
    (c : AuxiliaryUnderstandingClaimV2) (ms : ledger_maps) : res (ledger_maps * apply_log) :=
  let evidence_id := auxiliary_evidence_id turn m c in
  let handles := {[ ac_claim_id c := evidence_id ]} in
  if bool_decide (is_Some (lm_auxiliary ms !! evidence_id)) then
    Ok (ms, log_auxiliary [] handles)
  else
    p ← pointer_of turn evidence_id m;
    Ok (with_auxiliary ms (<[evidence_id := {|
          ax_pointer := p; ax_summary := auxiliary_summary_code_v2;
          ax_classifier_verdict := ac_verdict c |}]> (lm_auxiliary ms)),
        log_auxiliary [evidence_id] handles).

(** One iteration of the claim loop. *)
Definition apply_claim (pack : TaskPackV2) (matches : string -> option EvidenceMatchV2)
    (turn : string) (ms : ledger_maps) (c : UnderstandingClaimV2)
    : res (ledger_maps * apply_log) :=
  m ← or_raise (matches (claim_id c)) (KeyError (claim_id c));
  match c with
  | FactClaim f =>
      if decide (fc_verdict f = V_correct) then apply_fact_claim pack turn m f ms
      else Ok (ms, log_ignored (fc_claim_id f))
  | RelationClaim r =>
      if decide (rc_verdict r = V_partial) then apply_partial_claim turn m r ms
      else if memb (rc_verdict r) [V_correct; V_sufficient] then apply_relation_claim turn m r ms
      else Ok (ms, log_ignored (rc_claim_id r))
  | AuxiliaryClaim a =>
      if memb (ac_verdict a) [V_correct; V_sufficient; V_partial]
      then apply_auxiliary_claim turn m a ms
      else Ok (ms, log_ignored (ac_claim_id a))
  end.

Definition claim_step pack matches turn (acc : ledger_maps * apply_log) (c : UnderstandingClaimV2)
    : res (ledger_maps * apply_log) :=
  out ← apply_claim pack matches turn acc.1 c;
  Ok (out.1, log_app acc.2 out.2).

Definition maps_of (l : ReasoningLedgerV2) : ledger_maps := {|
  lm_facts := verified_facts l; lm_relations := verified_relations l;
  lm_partials := partial_relations l; lm_auxiliary := accepted_auxiliary_evidence l |}.
Definition ledger_with (l : ReasoningLedgerV2) (ms : ledger_maps) : ReasoningLedgerV2 := {|
  rl_pack_id := rl_pack_id l; rl_content_version := rl_content_version l;
  rl_content_hash := rl_content_hash l;
  verified_facts := lm_facts ms; verified_relations := lm_relations ms;
  partial_relations := lm_partials ms; accepted_auxiliary_evidence := lm_auxiliary ms |}.

Definition turn_id_ok (turn : string) : bool := bool_decide (1 <= py_len turn <= 100).

Definition apply_guarded_understanding_v2 (s : ContentSnapshotV2) (l : ReasoningLedgerV2)
    (g : GuardedUnderstandingV2) (source_turn_id : string)
    : res ReasoningLedgerApplyResultV2 :=
  _ ← raise_if (negb (turn_id_ok source_turn_id))
        (DialogueV2LedgerError "source_turn_id must be a non-empty bounded id");
  pack ← resolve_pack s;
  _ ← validate_ledger_binding s l pack;
  matches ← evidence_matches_by_claim g;
  before_completion ← reasoning_completion_v2 s l;
  out ← foldM (claim_step pack matches source_turn_id) (maps_of l, empty_log)
          (claims (gu_response g));
  next_ledger ← reasoning_ledger (ledger_with l out.1);
  completion ← reasoning_completion_v2 s next_ledger;
  Ok {| ar_ledger := next_ledger; ar_log := out.2; ar_completion := completion;
        completion_became_true := complete completion && negb (complete before_completion) |}.

(** * Structured progress *)

Definition stable_structured_evidence_id (source_turn_id : string) (kind : StructuredSource)
    (tk : TargetKind) (target_id : string) (canonical_value : option CanonicalValueV2) : string :=
  hexdigest (dumps (JObj [
    ("source_turn_id", JStr source_turn_id);
    ("source_kind", JStr (source_kind_value kind));
    ("target_kind", JStr (target_kind_value tk));
    ("target_id", JStr target_id);
    ("canonical_value", match canonical_value with Some v => value_dump v | None => JNull end)])).

(** The check of one submitted fact value against the pinned content. *)
Definition check_fact_value (pack : TaskPackV2) (fv : string * CanonicalValueV2) : res unit :=
  fact ← or_raise (facts_by_id pack fv.1) (KeyError fv.1);
  raise_if (negb (value_matches fact fv.2))
    (DialogueV2LedgerError "structured fact value differs from pinned canonical content").

Definition structured_fact_step (pack : TaskPackV2) (turn : string) (kind : StructuredSource)
    (acc : ledger_maps * apply_log) (fv : string * CanonicalValueV2)
    : res (ledger_maps * apply_log) :=
  let '(fact_id, value) := fv in
  let ms := acc.1 in
  fact ← or_raise (facts_by_id pack fact_id) (KeyError fact_id);
  let evidence_id := stable_structured_evidence_id turn kind KIND_fact fact_id (Some value) in
  evidence ← structured_evidence {|
    sv_evidence_id := evidence_id; sv_source_turn_id := turn; sv_source_kind := kind;
    sv_target_kind := KIND_fact; sv_target_id := fact_id |};
  match lm_facts ms !! fact_id with
  | None =>
      entry ← verified_fact_entry {|
        vf_fact_id := fact_id; vf_canonical_value := value;
        vf_evidence := [FE_structured evidence] |};
      Ok (with_facts ms (<[fact_id := entry]> (lm_facts ms)),
          log_app acc.2 (log_fact [fact_id]
            (if decide (fact_role fact = intermediate_result) then [fact_id] else [])
            [evidence_id] ∅))
  | Some existing =>
      if memb evidence_id (map fe_id (vf_evidence existing)) then Ok acc
      else
        Ok (with_facts ms (<[fact_id := {|
              vf_fact_id := vf_fact_id existing;
              vf_canonical_value := vf_canonical_value existing;
              vf_evidence := vf_evidence existing ++ [FE_structured evidence] |}]> (lm_facts ms)),
            log_app acc.2 (log_fact [] [] [evidence_id] ∅))
  end.

Definition structured_relation_step (turn : string) (kind : StructuredSource)
    (acc : ledger_maps * apply_log) (relation_id : string) : res (ledger_maps * apply_log) :=
  let ms := acc.1 in
  let evidence_id := stable_structured_evidence_id turn kind KIND_relation relation_id None in
  evidence ← structured_evidence {|
    sv_evidence_id := evidence_id; sv_source_turn_id := turn; sv_source_kind := kind;
    sv_target_kind := KIND_relation; sv_target_id := relation_id |};
  match lm_relations ms !! relation_id with
  | None =>
      entry ← verified_relation_entry {|
        vr_relation_id := relation_id; vr_evidence := [RE_structured evidence] |};
      Ok (with_relations ms (<[relation_id := entry]> (lm_relations ms)),
          log_app acc.2 (log_relation [relation_id] [evidence_id] ∅))
  | Some existing =>
      if memb evidence_id (map re_id (vr_evidence existing)) then Ok acc
      else
        Ok (with_relations ms (<[relation_id := {|
              vr_relation_id := vr_relation_id existing;
              vr_evidence := vr_evidence existing ++ [RE_structured evidence] |}]>
              (lm_relations ms)),
            log_app acc.2 (log_relation [] [evidence_id] ∅))
  end.

(** [fact_values] is a dict: the keys of the list are distinct. *)
Definition apply_structured_progress_v2 (s : ContentSnapshotV2) (l : ReasoningLedgerV2)
    (fact_values : list (string * CanonicalValueV2)) (relation_ids : list string)
    (source_turn_id : string) (source_kind : StructuredSource)
    : res ReasoningLedgerApplyResultV2 :=
  _ ← raise_if (negb (turn_id_ok source_turn_id))
        (DialogueV2LedgerError "source_turn_id must be a non-empty bounded id");
  _ ← raise_if (negb (uniqueb relation_ids))
        (DialogueV2LedgerError "structured relation ids must be unique");
  pack ← resolve_pack s;
  _ ← validate_ledger_binding s l pack;
  _ ← raise_if (negb (subsetb (map fst fact_values) (pack_fact_ids pack)))
        (DialogueV2LedgerError "structured progress contains an unknown fact");
  _ ← raise_if (negb (subsetb relation_ids (pack_relation_ids pack)))
        (DialogueV2LedgerError "structured progress contains an unknown relation");
  _ ← mapR (check_fact_value pack) fact_values;
  before_completion ← reasoning_completion_v2 s l;
  out1 ← foldM (structured_fact_step pack source_turn_id source_kind) (maps_of l, empty_log)
           fact_values;
  out2 ← foldM (structured_relation_step source_turn_id source_kind) out1 relation_ids;
  next_ledger ← reasoning_ledger (ledger_with l out2.1);
  completion ← reasoning_completion_v2 s next_ledger;
  Ok {| ar_ledger := next_ledger; ar_log := out2.2; ar_completion := completion;
        completion_became_true := complete completion && negb (complete before_completion) |}.
End ledger.
