(* ===== verification/LedgerTheory.v ===== *)
(** Correctness of the reasoning ledger: what one admitted claim does to the
    verified maps, and from it monotonicity, the refinement to a pair of sets,
    idempotence, totality, the completion contract and persistence. *)

From S2P Require Import Prelude.
From S2P Require Import PyStr.
From S2P Require Import PyNum.
From S2P Require Import Json.
From S2P Require Import Schemas.
From S2P Require Import Requests.
From S2P Require Import Regex.
From S2P Require Import Evidence.
From S2P Require Import EvidenceTheory.
From S2P Require Import Packs.
From S2P Require Import PackDump.
From S2P Require Import Snapshot.
From S2P Require Import Ledger.

(** * Growth of keyed maps *)

Definition map_grows {A} (R : A -> A -> Prop) (m m' : gmap string A) : Prop :=
  forall k e, m !! k = Some e -> exists e', m' !! k = Some e' /\ R e e'.

Section map_grows.
Context {A : Type} (R : A -> A -> Prop) `{!Reflexive R}.
Implicit Types m : gmap string A.

#[export] Instance map_grows_refl : Reflexive (map_grows R).
Proof. intros m k e He. eauto. Qed.

#[export] Instance map_grows_trans `{!Transitive R} : Transitive (map_grows R).
Proof.
  intros m1 m2 m3 H12 H23 k e He. destruct (H12 k e He) as (e2 & He2 & HR).
  destruct (H23 k e2 He2) as (e3 & He3 & HR'). exists e3. split; [done|by etrans].
Qed.

Lemma map_grows_new m k e : m !! k = None -> map_grows R m (<[k:=e]> m).
Proof.
  intros Hk j d Hd. exists d. split; [|done]. rewrite lookup_insert_ne; [done|congruence].
Qed.

Lemma map_grows_update m k e e' : m !! k = Some e -> R e e' -> map_grows R m (<[k:=e']> m).
Proof.
  intros Hk HR j d Hd. destruct (decide (j = k)) as [->|Hne].
  - exists e'. rewrite lookup_insert_eq. split; [done|]. congruence.
  - exists d. by rewrite lookup_insert_ne.
Qed.

Lemma map_grows_dom m m' : map_grows R m m' -> dom m ⊆ dom m'.
Proof.
  intros Hg k [e He]%elem_of_dom. apply elem_of_dom.
  destruct (Hg k e He) as (e' & He' & _). eauto.
Qed.
End map_grows.

(** An entry keeps its id and value and only appends evidence. *)
Definition fact_grows (e e' : VerifiedFactLedgerEntryV2) : Prop :=
  vf_fact_id e' = vf_fact_id e /\ vf_canonical_value e' = vf_canonical_value e
  /\ vf_evidence e `prefix_of` vf_evidence e'.
Definition relation_grows (e e' : VerifiedRelationLedgerEntryV2) : Prop :=
  vr_relation_id e' = vr_relation_id e /\ vr_evidence e `prefix_of` vr_evidence e'.
Definition partial_grows (e e' : PartialRelationLedgerEntryV2) : Prop :=
  pr_relation_id e' = pr_relation_id e /\ pr_evidence e `prefix_of` pr_evidence e'.

#[export] Instance fact_grows_po : PreOrder fact_grows.
Proof.
  split; [by intros e; repeat split|].
  intros a b c (? & ? & ?) (? & ? & ?). split; [congruence|split; [congruence|by etrans]].
Qed.
#[export] Instance relation_grows_po : PreOrder relation_grows.
Proof.
  split; [by intros e; repeat split|].
  intros a b c (? & ?) (? & ?). split; [congruence|by etrans].
Qed.
#[export] Instance partial_grows_po : PreOrder partial_grows.
Proof.
  split; [by intros e; repeat split|].
  intros a b c (? & ?) (? & ?). split; [congruence|by etrans].
Qed.

Record maps_grow (a b : ledger_maps) : Prop := {
  mg_facts : map_grows fact_grows (lm_facts a) (lm_facts b);
  mg_relations : map_grows relation_grows (lm_relations a) (lm_relations b);
  mg_partials : map_grows partial_grows (lm_partials a) (lm_partials b);
  mg_auxiliary : map_grows eq (lm_auxiliary a) (lm_auxiliary b)
}.

#[export] Instance maps_grow_po : PreOrder maps_grow.
Proof.
  split.
  - intros a. by split.
  - intros a b c [] []. split; by etrans.
Qed.

(** * Well-formed entries *)

(** What the constructors check, evidence length apart. *)
Definition fact_entry_wf (k : string) (e : VerifiedFactLedgerEntryV2) : Prop :=
  vf_fact_id e = k /\ id_field 160 k = true /\ vf_evidence e <> [] /\
  NoDup (map fe_id (vf_evidence e)) /\
  Forall (fun x => match x with
                   | FE_structured s => structured_evidence s = Ok s /\ sv_target_kind s = KIND_fact
                                        /\ sv_target_id s = k
                   | FE_understanding q => evidence_pointer q = Ok q end) (vf_evidence e).
Definition relation_entry_wf (k : string) (e : VerifiedRelationLedgerEntryV2) : Prop :=
  vr_relation_id e = k /\ id_field 160 k = true /\ vr_evidence e <> [] /\
  NoDup (map re_id (vr_evidence e)) /\
  Forall (fun x => match x with
                   | RE_structured s => structured_evidence s = Ok s
                                        /\ sv_target_kind s = KIND_relation /\ sv_target_id s = k
                   | RE_understanding q v => evidence_pointer q = Ok q
                                             /\ v ∈ [V_correct; V_sufficient] end) (vr_evidence e).
Definition partial_entry_wf (k : string) (e : PartialRelationLedgerEntryV2) : Prop :=
  pr_relation_id e = k /\ id_field 160 k = true /\ pr_evidence e <> [] /\
  NoDup (map ep_evidence_id (pr_evidence e)) /\
  Forall (fun q => evidence_pointer q = Ok q) (pr_evidence e).
Definition auxiliary_wf (k : string) (a : AcceptedAuxiliaryEvidenceV2) : Prop :=
  ep_evidence_id (ax_pointer a) = k /\ ax_summary a = auxiliary_summary_code_v2
  /\ evidence_pointer (ax_pointer a) = Ok (ax_pointer a)
  /\ ax_classifier_verdict a ∈ [V_correct; V_sufficient; V_partial].

Record maps_wf (ms : ledger_maps) : Prop := {
  mw_facts : map_Forall fact_entry_wf (lm_facts ms);
  mw_relations : map_Forall relation_entry_wf (lm_relations ms);
  mw_partials : map_Forall partial_entry_wf (lm_partials ms);
  mw_auxiliary : map_Forall auxiliary_wf (lm_auxiliary ms)
}.

Lemma NoDup_append_new {A} (l : list A) x : NoDup l -> x ∉ l -> NoDup (l ++ [x]).
Proof. intros Hl Hx. apply NoDup_app. split; [done|]. split; [|apply NoDup_singleton]. set_solver. Qed.

Lemma verified_fact_entry_id e e' :
  verified_fact_entry e = Ok e' -> e' = e /\ id_field 160 (vf_fact_id e) = true.
Proof. unfold verified_fact_entry. intros Hr. res_inv. breflect. naive_solver. Qed.

Lemma verified_relation_entry_wf e e' :
  verified_relation_entry e = Ok e' ->
  e' = e /\ vr_relation_id e = vr_relation_id e' /\ id_field 160 (vr_relation_id e) = true.
Proof.
  unfold verified_relation_entry. intros Hr. res_inv. breflect. naive_solver.
Qed.

Lemma partial_relation_entry_wf e e' :
  partial_relation_entry e = Ok e' -> e' = e /\ id_field 160 (pr_relation_id e) = true.
Proof. unfold partial_relation_entry. intros Hr. res_inv. breflect. naive_solver. Qed.

Lemma verified_fact_entry_new i v p :
  id_field 160 i = true ->
  verified_fact_entry {| vf_fact_id := i; vf_canonical_value := v; vf_evidence := [FE_understanding p] |}
  = Ok {| vf_fact_id := i; vf_canonical_value := v; vf_evidence := [FE_understanding p] |}.
Proof. intros Hi. unfold verified_fact_entry. simpl. by rewrite Hi. Qed.

Lemma verified_relation_entry_new i p v :
  id_field 160 i = true ->
  verified_relation_entry {| vr_relation_id := i; vr_evidence := [RE_understanding p v] |}
  = Ok {| vr_relation_id := i; vr_evidence := [RE_understanding p v] |}.
Proof. intros Hi. unfold verified_relation_entry. simpl. by rewrite Hi. Qed.

Lemma partial_relation_entry_new i p :
  id_field 160 i = true ->
  partial_relation_entry {| pr_relation_id := i; pr_evidence := [p] |}
  = Ok {| pr_relation_id := i; pr_evidence := [p] |}.
Proof. intros Hi. unfold partial_relation_entry. simpl. by rewrite Hi. Qed.

(** * What a claim teaches *)

(** The abstract reading of a claim: the canonical ids its verdict verifies. *)
Definition learned_facts (c : UnderstandingClaimV2) : list string :=
  match c with
  | FactClaim f => if decide (fc_verdict f = V_correct) then [fc_fact_id f] else []
  | _ => []
  end.
Definition learned_relations (c : UnderstandingClaimV2) : list string :=
  match c with
  | RelationClaim r =>
      if memb (rc_verdict r) [V_correct; V_sufficient] then [rc_relation_id r] else []
  | _ => []
  end.
Definition partial_ids (c : UnderstandingClaimV2) : list string :=
  match c with
  | RelationClaim r => if decide (rc_verdict r = V_partial) then [rc_relation_id r] else []
  | _ => []
  end.
Definition auxiliary_count (c : UnderstandingClaimV2) : nat :=
  match c with
  | AuxiliaryClaim a => if memb (ac_verdict a) [V_correct; V_sufficient; V_partial] then 1 else 0
  | _ => 0
  end.

(** The claim names graph ids ([membership_violation] holds nothing against it). *)
Definition claim_in_graph (p : TaskPackV2) (c : UnderstandingClaimV2) : Prop :=
  match c with
  | FactClaim f => fc_fact_id f ∈ pack_fact_ids p
  | RelationClaim r => rc_relation_id r ∈ pack_relation_ids p
  | AuxiliaryClaim _ => True
  end.

(** Every verified fact is a graph fact with a value the pack accepts. *)
Definition values_ok (p : TaskPackV2) (m : gmap string VerifiedFactLedgerEntryV2) : Prop :=
  forall k e, m !! k = Some e ->
  exists f, facts_by_id p k = Some f /\ value_matches f (vf_canonical_value e) = true.

(** The claim's own evidence is already on record. *)
Definition claim_recorded `{Digest} (turn : string) (m : EvidenceMatchV2)
    (c : UnderstandingClaimV2) (ms : ledger_maps) : Prop :=
  match c with
  | FactClaim f =>
      fc_verdict f = V_correct -> exists e, lm_facts ms !! fc_fact_id f = Some e
        /\ fact_evidence_id turn m f ∈ map fe_id (vf_evidence e)
  | RelationClaim r =>
      if decide (rc_verdict r = V_partial) then
        is_Some (lm_relations ms !! rc_relation_id r) \/
        exists e, lm_partials ms !! rc_relation_id r = Some e
          /\ relation_evidence_id turn m r ∈ map ep_evidence_id (pr_evidence e)
      else rc_verdict r ∈ [V_correct; V_sufficient] ->
        exists e, lm_relations ms !! rc_relation_id r = Some e
          /\ relation_evidence_id turn m r ∈ map re_id (vr_evidence e)
  | AuxiliaryClaim a =>
      ac_verdict a ∈ [V_correct; V_sufficient; V_partial] ->
      is_Some (lm_auxiliary ms !! auxiliary_evidence_id turn m a)
  end.

Record claim_effect `{Digest} (p : TaskPackV2) turn m c (ms ms' : ledger_maps) : Prop := {
  ce_grow : maps_grow ms ms';
  ce_wf : maps_wf ms -> maps_wf ms';
  ce_facts : dom (lm_facts ms') = dom (lm_facts ms) ∪ list_to_set (learned_facts c);
  ce_relations : dom (lm_relations ms')
                 = dom (lm_relations ms) ∪ list_to_set (learned_relations c);
  ce_partials : dom (lm_partials ms') ⊆ dom (lm_partials ms) ∪ list_to_set (partial_ids c);
  ce_aux : size (lm_auxiliary ms') <= size (lm_auxiliary ms) + auxiliary_count c;
  ce_values : values_ok p (lm_facts ms) -> values_ok p (lm_facts ms');
  ce_recorded : claim_recorded turn m c ms'
}.

(** Closes the components of an effect that touch an unchanged map. *)
Ltac trivial_effect := try first [done | by auto with lia | set_solver].

Section claims.
Context `{!Digest} `{!DigestFormat} `{!PackModel}.
Implicit Types (p : TaskPackV2) (ms : ledger_maps).

Lemma pointer_of_ok turn eid m :
  turn_id_ok turn = true -> sha256_pattern eid = true ->
  em_source_start m < em_source_end m ->
  exists q, pointer_of turn eid m = Ok q /\ ep_evidence_id q = eid.
Proof.
  intros Ht He Hm. eexists. unfold pointer_of, evidence_pointer. simpl. unfold turn_id_ok in Ht.
  rewrite He, Ht, (bool_decide_eq_true_2 (0 < em_source_end m)) by lia.
  rewrite (bool_decide_eq_false_2 (em_source_end m <= em_source_start m)) by lia. done.
Qed.

Lemma pointer_of_Ok turn eid m q :
  pointer_of turn eid m = Ok q -> ep_evidence_id q = eid /\ evidence_pointer q = Ok q.
Proof.
  unfold pointer_of. intros Hp. split; [|]; unfold evidence_pointer in *; res_inv; [done|].
  by rewrite E, E0.
Qed.

(** Appending fresh evidence to an existing entry keeps it well formed. *)
Lemma fact_append_wf k e q :
  fact_entry_wf k e -> ep_evidence_id q ∉ map fe_id (vf_evidence e) ->
  evidence_pointer q = Ok q ->
  fact_entry_wf k {| vf_fact_id := vf_fact_id e; vf_canonical_value := vf_canonical_value e;
                     vf_evidence := vf_evidence e ++ [FE_understanding q] |}.
Proof.
  intros (Hk & Hid & Hne & Hnd & Hst) Hq Hok. repeat split; simpl; [done|done| | |].
  - by destruct (vf_evidence e).
  - rewrite map_app. by apply NoDup_append_new.
  - apply Forall_app. split; [done|]. by constructor.
Qed.

Lemma relation_append_wf k e x :
  relation_entry_wf k e -> re_id x ∉ map re_id (vr_evidence e) ->
  match x with
  | RE_structured s => structured_evidence s = Ok s /\ sv_target_kind s = KIND_relation
                       /\ sv_target_id s = k
  | RE_understanding q v => evidence_pointer q = Ok q /\ v ∈ [V_correct; V_sufficient] end ->
  relation_entry_wf k {| vr_relation_id := vr_relation_id e; vr_evidence := vr_evidence e ++ [x] |}.
Proof.
  intros (Hk & Hid & Hne & Hnd & Hst) Hx Hx'. repeat split; simpl; [done|done| | |].
  - by destruct (vr_evidence e).
  - rewrite map_app. by apply NoDup_append_new.
  - apply Forall_app. split; [done|]. by constructor.
Qed.

Lemma partial_append_wf k e q :
  partial_entry_wf k e -> ep_evidence_id q ∉ map ep_evidence_id (pr_evidence e) ->
  evidence_pointer q = Ok q ->
  partial_entry_wf k {| pr_relation_id := pr_relation_id e; pr_evidence := pr_evidence e ++ [q] |}.
Proof.
  intros (Hk & Hid & Hne & Hnd & Hst) Hq Hok. repeat split; simpl; [done|done| | |].
  - by destruct (pr_evidence e).
  - rewrite map_app. by apply NoDup_append_new.
  - apply Forall_app. split; [done|]. by constructor.
Qed.

Lemma fact_claim_effect p turn m f ms ms' lg :
  fc_verdict f = V_correct ->
  apply_fact_claim p turn m f ms = Ok (ms', lg) -> claim_effect p turn m (FactClaim f) ms ms'.
Proof.
  intros Hv. unfold apply_fact_claim. intros Hr.
  destruct (pointer_of _ _ _) as [q|] eqn:Hq; [|done]. apply pointer_of_Ok in Hq as [Hq Hok].
  cbn [mbind res_bind] in Hr.
  assert (learned_facts (FactClaim f) = [fc_fact_id f]) as Hl by (simpl; by case_decide).
  destruct (lm_facts ms !! fc_fact_id f) as [e|] eqn:He.
  - assert (fc_fact_id f ∈ dom (lm_facts ms)) as Hd by (by eapply elem_of_dom_2).
    destruct (memb _ _) eqn:Em; injection Hr as <- <-; breflect.
    + split; rewrite ?Hl; simpl; trivial_effect.
    + rewrite <- Hq in Em. split; rewrite ?Hl; simpl; trivial_effect.
      * split; try done. eapply map_grows_update; [apply _|done|]. repeat split. by apply prefix_app_r.
      * intros []. split; try done. simpl. apply map_Forall_insert_2; [|done].
        apply fact_append_wf; [|done..]. by eapply mw_facts0.
      * intros Hval k d [[<- <-]|[Hne Hk]]%lookup_insert_Some; [simpl|]; by eapply Hval.
      * intros _. eexists. rewrite lookup_insert_eq. split; [done|]. simpl.
        rewrite map_app, <- Hq. set_solver.
  - res_inv. apply verified_fact_entry_id in E0 as (-> & Hid). simpl in Hid.
    split; rewrite ?Hl; simpl; trivial_effect.
    + split; try done. apply map_grows_new; [apply _|done].
    + intros []. split; try done. simpl. apply map_Forall_insert_2; [|done].
      repeat split; [done|done|apply NoDup_singleton|]. by constructor.
    + intros Hval k d [[<- <-]|[Hne Hk]]%lookup_insert_Some; [|by eapply Hval].
      eexists. split; [done|]. apply value_matches_canonical.
    + intros _. eexists. rewrite lookup_insert_eq. split; [done|]. simpl. rewrite Hq. set_solver.
Qed.

Lemma partial_claim_effect p turn m r ms ms' lg :
  rc_verdict r = V_partial ->
  apply_partial_claim turn m r ms = Ok (ms', lg) ->
  claim_effect p turn m (RelationClaim r) ms ms'.
Proof.
  intros Hv. unfold apply_partial_claim. intros Hr.
  assert (learned_relations (RelationClaim r) = []) as Hl by (simpl; by rewrite Hv).
  assert (partial_ids (RelationClaim r) = [rc_relation_id r]) as Hp by (simpl; by case_decide).
  case_bool_decide as Hver.
  { injection Hr as <- <-. split; rewrite ?Hl, ?Hp; simpl; trivial_effect.
    rewrite decide_True by done. by left. }
  destruct (pointer_of _ _ _) as [q|] eqn:Hq; [|done]. apply pointer_of_Ok in Hq as [Hq Hok].
  cbn [mbind res_bind] in Hr. destruct (lm_partials ms !! rc_relation_id r) as [e|] eqn:He.
  - destruct (memb _ _) eqn:Em; injection Hr as <- <-; breflect.
    + split; rewrite ?Hl, ?Hp; simpl; trivial_effect. rewrite decide_True by done. eauto.
    + rewrite <- Hq in Em. split; rewrite ?Hl, ?Hp; simpl; trivial_effect.
      * split; try done. eapply map_grows_update; [apply _|done|]. split; [done|].
        by apply prefix_app_r.
      * intros []. split; try done. simpl. apply map_Forall_insert_2; [|done].
        apply partial_append_wf; [|done..]. by eapply mw_partials0.
      * rewrite decide_True by done. right. eexists. rewrite lookup_insert_eq. split; [done|].
        simpl. rewrite map_app, <- Hq. set_solver.
  - res_inv. apply partial_relation_entry_wf in E as (-> & Hid). simpl in Hid.
    split; rewrite ?Hl, ?Hp; simpl; trivial_effect.
    + split; try done. apply map_grows_new; [apply _|done].
    + intros []. split; try done. simpl. apply map_Forall_insert_2; [|done].
      repeat split; [done|done|apply NoDup_singleton|]. by constructor.
    + rewrite decide_True by done. right. eexists. rewrite lookup_insert_eq. split; [done|].
      simpl. rewrite Hq. set_solver.
Qed.

Lemma relation_claim_effect p turn m r ms ms' lg :
  rc_verdict r ∈ [V_correct; V_sufficient] ->
  apply_relation_claim turn m r ms = Ok (ms', lg) ->
  claim_effect p turn m (RelationClaim r) ms ms'.
Proof.
  intros Hv. unfold apply_relation_claim. intros Hr.
  assert (learned_relations (RelationClaim r) = [rc_relation_id r]) as Hl
    by (simpl; by rewrite (proj2 (memb_spec _ _) Hv)).
  assert (rc_verdict r <> V_partial) as Hnp
    by (intros Hx; rewrite Hx in Hv; by apply memb_spec in Hv).
  assert (partial_ids (RelationClaim r) = []) as Hp by (simpl; by case_decide).
  destruct (pointer_of _ _ _) as [q|] eqn:Hq; [|done]. apply pointer_of_Ok in Hq as [Hq Hok].
  cbn [mbind res_bind] in Hr. destruct (lm_relations ms !! rc_relation_id r) as [e|] eqn:He.
  - assert (rc_relation_id r ∈ dom (lm_relations ms)) as Hd by (by eapply elem_of_dom_2).
    destruct (memb (relation_evidence_id _ _ _) _) eqn:Em; injection Hr as <- <-; breflect.
    + split; rewrite ?Hl, ?Hp; simpl; trivial_effect. rewrite decide_False by done. eauto.
    + rewrite <- Hq in Em. split; rewrite ?Hl, ?Hp; simpl; trivial_effect.
      * split; try done. eapply map_grows_update; [apply _|done|]. split; [done|].
        by apply prefix_app_r.
      * intros []. split; try done. simpl. apply map_Forall_insert_2; [|done].
        apply relation_append_wf; [|done|done]. by eapply mw_relations0.
      * rewrite decide_False by done. intros _. eexists. rewrite lookup_insert_eq. split; [done|].
        simpl. rewrite map_app. simpl. rewrite <- Hq. set_solver.
  - res_inv. apply verified_relation_entry_wf in E as (-> & _ & Hid). simpl in Hid.
    split; rewrite ?Hl, ?Hp; simpl; trivial_effect.
    + split; try done. apply map_grows_new; [apply _|done].
    + intros []. split; try done. simpl. apply map_Forall_insert_2; [|done].
      repeat split; [done|done|apply NoDup_singleton|]. by constructor.
    + rewrite decide_False by done. intros _. eexists. rewrite lookup_insert_eq. split; [done|].
      simpl. rewrite Hq. set_solver.
Qed.

Lemma auxiliary_claim_effect p turn m a ms ms' lg :
  ac_verdict a ∈ [V_correct; V_sufficient; V_partial] ->
  apply_auxiliary_claim turn m a ms = Ok (ms', lg) ->
  claim_effect p turn m (AuxiliaryClaim a) ms ms'.
Proof.
  intros Hv. unfold apply_auxiliary_claim. intros Hr.
  assert (auxiliary_count (AuxiliaryClaim a) = 1) as Hc
    by (simpl; by rewrite (proj2 (memb_spec _ _) Hv)).
  case_bool_decide as Hver.
  { injection Hr as <- <-. split; rewrite ?Hc; simpl; trivial_effect. }
  destruct (pointer_of _ _ _) as [q|] eqn:Hq; [|done].
  apply pointer_of_Ok in Hq as [Hq Hok].
  cbn [mbind res_bind] in Hr. injection Hr as <- <-.
  apply eq_None_not_Some in Hver.
  split; rewrite ?Hc; simpl; trivial_effect.
  - split; try done. apply map_grows_new; [apply _|done].
  - intros []. split; try done. simpl. by apply map_Forall_insert_2.
  - rewrite map_size_insert_None by done. lia.
  - intros _. rewrite lookup_insert_eq. eauto.
Qed.

Lemma apply_claim_effect p matches turn ms c ms' lg m :
  apply_claim p matches turn ms c = Ok (ms', lg) -> matches (claim_id c) = Some m ->
  claim_effect p turn m c ms ms'.
Proof.
  unfold apply_claim. intros Hr Hm. rewrite Hm in Hr. cbn [or_raise mbind res_bind] in Hr.
  destruct c as [f|r|a].
  - case_decide; [by eapply fact_claim_effect|]. injection Hr as <- <-.
    split; simpl; rewrite ?decide_False by done; trivial_effect.
  - case_decide; [by eapply partial_claim_effect|].
    destruct (memb _ _) eqn:Ev; breflect; [by eapply relation_claim_effect|].
    injection Hr as <- <-. pose proof (proj2 (memb_false _ _) Ev) as Em.
    split; simpl; rewrite ?Em, ?decide_False by done; trivial_effect.
  - destruct (memb _ _) eqn:Ev; breflect; [by eapply auxiliary_claim_effect|].
    injection Hr as <- <-. split; simpl; trivial_effect.
Qed.

Lemma recorded_grows turn m c ms ms' :
  maps_grow ms ms' -> claim_recorded turn m c ms -> claim_recorded turn m c ms'.
Proof.
  intros [Hf Hr Hp Ha]. destruct c as [f|r|a]; simpl.
  - intros Hc Hv. destruct (Hc Hv) as (e & He & Hin).
    destruct (Hf _ _ He) as (e' & He' & _ & _ & [k Hk]). exists e'. split; [done|].
    rewrite Hk, map_app. set_solver.
  - case_decide.
    + intros [[e He]|(e & He & Hin)].
      * left. destruct (Hr _ _ He) as (e' & He' & _). eauto.
      * right. destruct (Hp _ _ He) as (e' & He' & _ & [k Hk]). exists e'. split; [done|].
        rewrite Hk, map_app. set_solver.
    + intros Hc Hv. destruct (Hc Hv) as (e & He & Hin).
      destruct (Hr _ _ He) as (e' & He' & _ & [k Hk]). exists e'. split; [done|].
      rewrite Hk, map_app. set_solver.
  - intros Hc Hv. destruct (Hc Hv) as [e He]. destruct (Ha _ _ He) as (e' & He' & _). eauto.
Qed.

(** An application that taught nothing new: only claim handles and ignored
    claims are reported. *)
Definition quiet (lg : apply_log) : Prop :=
  new_fact_ids lg = [] /\ new_relation_ids lg = [] /\ new_milestone_fact_ids lg = [] /\
  new_fact_evidence_ids lg = [] /\ new_relation_evidence_ids lg = [] /\
  new_partial_relation_ids lg = [] /\ new_partial_relation_evidence_ids lg = [] /\
  new_auxiliary_evidence_ids lg = [].

Lemma quiet_app a b : quiet a -> quiet b -> quiet (log_app a b).
Proof.
  intros (?&?&?&?&?&?&?&?) (?&?&?&?&?&?&?&?). unfold quiet, log_app. simpl.
  repeat match goal with E : _ = [] |- _ => rewrite E; clear E end. done.
Qed.

(** A claim whose evidence is on record is a no-op. *)
Lemma apply_claim_again p matches turn m ms0 out0 ms c :
  matches (claim_id c) = Some m -> apply_claim p matches turn ms0 c = Ok out0 ->
  maps_grow ms0 ms -> claim_recorded turn m c ms ->
  exists lg, apply_claim p matches turn ms c = Ok (ms, lg) /\ quiet lg.
Proof.
  unfold apply_claim. intros Hm Hrun [_ Hr _ _] Hrec. rewrite Hm in Hrun |- *.
  cbn [or_raise mbind res_bind] in *. destruct c as [f|r|a]; simpl in Hrec.
  - case_decide as Hv; [|by eexists]. destruct (Hrec Hv) as (e & He & Hin).
    unfold apply_fact_claim in *. destruct (pointer_of _ _ _) as [q|]; [|done].
    cbn [mbind res_bind]. rewrite He, (proj2 (memb_spec _ _) Hin). by eexists.
  - case_decide as Hp.
    + unfold apply_partial_claim in *.
      destruct (decide (is_Some (lm_relations ms !! rc_relation_id r))) as [Hver|Hver].
      { rewrite bool_decide_eq_true_2 by done. by eexists. }
      rewrite (bool_decide_eq_false_2 (is_Some (lm_relations ms !! _))) by done.
      destruct Hrec as [|(e & He & Hin)]; [done|].
      rewrite bool_decide_eq_false_2 in Hrun.
      2:{ intros [e0 He0]. apply Hver. destruct (Hr _ _ He0) as (e' & He' & _). eauto. }
      destruct (pointer_of _ _ _) as [q|]; [|done].
      cbn [mbind res_bind]. rewrite He, (proj2 (memb_spec _ _) Hin). by eexists.
    + destruct (memb (rc_verdict r) _) eqn:Ev; [|by eexists].
      apply memb_spec in Ev. destruct (Hrec Ev) as (e & He & Hin).
      unfold apply_relation_claim in *. destruct (pointer_of _ _ _) as [q|]; [|done].
      cbn [mbind res_bind]. rewrite He, (proj2 (memb_spec _ _) Hin). by eexists.
  - destruct (memb (ac_verdict a) _) eqn:Ev; [|by eexists].
    apply memb_spec in Ev. pose proof (Hrec Ev) as He.
    unfold apply_auxiliary_claim. rewrite bool_decide_eq_true_2 by done. by eexists.
Qed.

Lemma apply_claim_total p matches turn m ms c :
  turn_id_ok turn = true -> matches (claim_id c) = Some m ->
  em_source_start m < em_source_end m -> pack_contract p -> claim_in_graph p c ->
  exists out, apply_claim p matches turn ms c = Ok out.
Proof.
  intros Ht Hm Hse Hp Hc. unfold apply_claim. rewrite Hm. cbn [or_raise mbind res_bind].
  assert (forall x, exists q, pointer_of turn (hexdigest x) m = Ok q /\ ep_evidence_id q = hexdigest x)
    as Hq by (intros x; apply pointer_of_ok; [done|apply hexdigest_format|done]).
  destruct c as [f|r|a]; simpl in Hc.
  - case_decide; [|by eexists]. unfold apply_fact_claim, fact_evidence_id, stable_evidence_id.
    edestruct Hq as (q & -> & _).
    cbn [mbind res_bind]. destruct (lm_facts ms !! _); [by case_match; eexists|].
    apply facts_by_id_is_Some in Hc as Hf. destruct Hf as [x ->]. cbn [or_raise mbind res_bind].
    rewrite verified_fact_entry_new; [by eexists|].
    by eapply Forall_forall in Hc; [|apply pk_fact_ids].
  - case_decide.
    + unfold apply_partial_claim. case_match; [by eexists|].
      unfold relation_evidence_id, stable_evidence_id.
      edestruct Hq as (q & -> & _). cbn [mbind res_bind].
      destruct (lm_partials ms !! _); [by case_match; eexists|].
      rewrite partial_relation_entry_new; [by eexists|].
      by eapply Forall_forall in Hc; [|apply pk_relation_ids].
    + case_match; [|by eexists]. unfold apply_relation_claim, relation_evidence_id, stable_evidence_id.
      edestruct Hq as (q & -> & _). cbn [mbind res_bind].
      destruct (lm_relations ms !! _); [by case_match; eexists|].
      rewrite verified_relation_entry_new; [by eexists|].
      by eapply Forall_forall in Hc; [|apply pk_relation_ids].
  - case_match; [|by eexists]. unfold apply_auxiliary_claim. case_match; [by eexists|].
    unfold auxiliary_evidence_id, stable_evidence_id. edestruct Hq as (q & -> & _). by eexists.
Qed.

(** ** The loop over the claims *)

Lemma claim_step_ok p matches turn ms c ms' lg1 lg :
  apply_claim p matches turn ms c = Ok (ms', lg1) ->
  claim_step p matches turn (ms, lg) c = Ok (ms', log_app lg lg1).
Proof. unfold claim_step. simpl. by intros ->. Qed.

Record claims_effect p matches turn cs ms ms' : Prop := {
  cl_grow : maps_grow ms ms';
  cl_wf : maps_wf ms -> maps_wf ms';
  cl_facts : dom (lm_facts ms') = dom (lm_facts ms) ∪ list_to_set (flat_map learned_facts cs);
  cl_relations : dom (lm_relations ms')
                 = dom (lm_relations ms) ∪ list_to_set (flat_map learned_relations cs);
  cl_partials : dom (lm_partials ms')
                ⊆ dom (lm_partials ms) ∪ list_to_set (flat_map partial_ids cs);
  cl_aux : size (lm_auxiliary ms') <= size (lm_auxiliary ms) + sum_list (map auxiliary_count cs);
  cl_values : values_ok p (lm_facts ms) -> values_ok p (lm_facts ms');
  cl_recorded : forall c, c ∈ cs -> exists m, matches (claim_id c) = Some m
    /\ claim_recorded turn m c ms'
    /\ exists ms0 out0, maps_grow ms0 ms' /\ apply_claim p matches turn ms0 c = Ok out0
}.

Lemma claims_loop p matches turn cs acc acc' :
  (forall c, c ∈ cs -> is_Some (matches (claim_id c))) ->
  foldM (claim_step p matches turn) acc cs = Ok acc' ->
  claims_effect p matches turn cs acc.1 acc'.1.
Proof.
  revert acc. induction cs as [|c cs IH]; intros acc Hm Hrun; simpl in Hrun.
  { injection Hrun as <-. split; simpl; trivial_effect. }
  destruct (Hm c) as [m Hcm]; [left|].
  destruct (claim_step p matches turn acc c) as [acc1|] eqn:Estep; [|done].
  cbn [mbind res_bind] in Hrun. unfold claim_step in Estep.
  destruct (apply_claim p matches turn acc.1 c) as [[ms1 lg1]|] eqn:Ec; [|done].
  cbn [mbind res_bind] in Estep. injection Estep as <-.
  apply IH in Hrun as []; [|intros d Hd; apply Hm; by right]. simpl in *.
  destruct (apply_claim_effect _ _ _ _ _ _ _ _ Ec Hcm). split; simpl.
  - by etrans.
  - auto.
  - by rewrite cl_facts0, ce_facts0, list_to_set_app_L, (assoc_L (∪)).
  - by rewrite cl_relations0, ce_relations0, list_to_set_app_L, (assoc_L (∪)).
  - etrans; [exact cl_partials0|]. rewrite list_to_set_app_L, (assoc_L (∪)). by apply union_mono_r.
  - lia.
  - auto.
  - intros d [->|Hd]%elem_of_cons; [|by apply cl_recorded0].
    exists m. split; [done|]. split; [by eapply recorded_grows|].
    exists acc.1, (ms1, lg1). split; [by etrans|done].
Qed.

Lemma claims_loop_total p matches turn cs acc :
  turn_id_ok turn = true -> pack_contract p ->
  (forall c, c ∈ cs -> claim_in_graph p c /\ exists m, matches (claim_id c) = Some m
                      /\ em_source_start m < em_source_end m) ->
  exists acc', foldM (claim_step p matches turn) acc cs = Ok acc'.
Proof.
  intros Ht Hp Hc. destruct (foldM_total (claim_step p matches turn) (fun _ => True) cs acc)
    as (acc' & Hr & _); [|done|eauto].
  intros x c Hin _. destruct (Hc c Hin) as (Hg & m & Hm & Hse).
  destruct (apply_claim_total p matches turn m x.1 c) as [out Hout]; [done..|].
  unfold claim_step. rewrite Hout. cbn [mbind res_bind]. eauto.
Qed.

(** Replaying claims whose evidence is on record changes nothing. *)
Lemma claims_loop_again p matches turn cs ms lg :
  (forall c, c ∈ cs -> exists m, matches (claim_id c) = Some m /\ claim_recorded turn m c ms
    /\ exists ms0 out0, maps_grow ms0 ms /\ apply_claim p matches turn ms0 c = Ok out0) ->
  quiet lg ->
  exists lg', foldM (claim_step p matches turn) (ms, lg) cs = Ok (ms, lg') /\ quiet lg'.
Proof.
  intros Hcs Hq. revert lg Hq Hcs. induction cs as [|c cs IH]; intros lg Hq Hcs; [eauto|].
  destruct (Hcs c) as (m & Hm & Hrec & ms0 & out0 & Hg & Hrun); [left|].
  destruct (apply_claim_again _ _ _ _ _ _ _ _ Hm Hrun Hg Hrec) as (lg1 & Hl & Hq1).
  simpl. rewrite (claim_step_ok _ _ _ _ _ _ _ lg Hl). simpl.
  apply IH; [by apply quiet_app|]. intros d Hd. apply Hcs. by right.
Qed.

(** *** What the loop reports as new *)

(** The reported ids are the keys the map gained, each once. *)
Definition reports {A} (l : list string) (m m' : gmap string A) : Prop :=
  NoDup l /\ forall x, x ∈ l <-> x ∈ dom m' /\ x ∉ dom m.

Lemma reports_nil {A} (m : gmap string A) : reports [] m m.
Proof. split; [constructor|]. set_solver. Qed.

Lemma reports_update {A} (m : gmap string A) k e : is_Some (m !! k) -> reports [] m (<[k:=e]> m).
Proof.
  intros Hk%elem_of_dom. split; [constructor|]. intros x. rewrite dom_insert_L. set_solver.
Qed.

Lemma reports_new {A} (m : gmap string A) k e : m !! k = None -> reports [k] m (<[k:=e]> m).
Proof.
  intros Hk%not_elem_of_dom. split; [apply NoDup_singleton|]. intros x.
  rewrite dom_insert_L. set_solver.
Qed.

Lemma reports_app {A} (m1 m2 m3 : gmap string A) a b :
  dom m1 ⊆ dom m2 -> dom m2 ⊆ dom m3 ->
  reports a m1 m2 -> reports b m2 m3 -> reports (a ++ b) m1 m3.
Proof.
  intros H12 H23 [Ha Hra] [Hb Hrb]. split.
  - apply NoDup_app. split; [done|]. split; [|done]. intros x Hx Hx'.
    apply Hra in Hx as [Hx _]. by apply Hrb in Hx' as [_ Hx'].
  - intros x. rewrite elem_of_app, Hra, Hrb.
    destruct (decide (x ∈ dom m2)); set_solver.
Qed.

Record log_reports p (lg : apply_log) ms ms' : Prop := {
  lr_facts : reports (new_fact_ids lg) (lm_facts ms) (lm_facts ms');
  lr_relations : reports (new_relation_ids lg) (lm_relations ms) (lm_relations ms');
  lr_partials : reports (new_partial_relation_ids lg) (lm_partials ms) (lm_partials ms');
  lr_aux : reports (new_auxiliary_evidence_ids lg) (lm_auxiliary ms) (lm_auxiliary ms');
  lr_milestones : forall x, x ∈ new_milestone_fact_ids lg <-> x ∈ new_fact_ids lg /\
    exists f, facts_by_id p x = Some f /\ fact_role f = intermediate_result
}.

Lemma log_reports_none p ms lg : quiet lg -> log_reports p lg ms ms.
Proof.
  intros (H1 & H2 & H3 & H4' & H5' & H6 & H7 & H8).
  split; rewrite ?H1, ?H2, ?H3, ?H6, ?H8; try apply reports_nil. set_solver.
Qed.

Lemma milestones_none p (x : string) :
  x ∈ ([] : list string) <-> x ∈ ([] : list string) /\
    exists f, facts_by_id p x = Some f /\ fact_role f = intermediate_result.
Proof. split; [by intros ?%not_elem_of_nil|by intros [?%not_elem_of_nil _]]. Qed.

Lemma apply_claim_reports p matches turn ms c ms' lg :
  apply_claim p matches turn ms c = Ok (ms', lg) -> log_reports p lg ms ms'.
Proof.
  unfold apply_claim. intros Hr. destruct (matches (claim_id c)) as [m|]; [|done].
  cbn [or_raise mbind res_bind] in Hr. destruct c as [f|r|a].
  - case_decide; [|injection Hr as <- <-; by apply log_reports_none].
    unfold apply_fact_claim in Hr. destruct (pointer_of _ _ _) as [q|]; [|done].
    cbn [mbind res_bind] in Hr. destruct (lm_facts ms !! fc_fact_id f) as [e|] eqn:He.
    + destruct (memb _ _); injection Hr as <- <-; [by apply log_reports_none|].
      split; simpl; try apply reports_nil; [by apply reports_update|intros x; apply milestones_none].
    + res_inv. split; simpl; try apply reports_nil; [by apply reports_new|].
      intros x. case_decide as Hrole; rewrite ?list_elem_of_singleton.
      * split; [intros ->; eauto|by intros [-> _]].
      * split; [by intros ?%not_elem_of_nil|]. intros [-> (f' & Hf & Hr')]. congruence.
  - case_decide.
    + unfold apply_partial_claim in Hr.
      case_bool_decide; [injection Hr as <- <-; by apply log_reports_none|].
      destruct (pointer_of _ _ _) as [q|]; [|done].
      cbn [mbind res_bind] in Hr. destruct (lm_partials ms !! _) as [e|] eqn:He.
      * destruct (memb _ _); injection Hr as <- <-; [by apply log_reports_none|].
        split; simpl; try apply reports_nil; [by apply reports_update|intros x; apply milestones_none].
      * res_inv. split; simpl; try apply reports_nil; [by apply reports_new|intros x; apply milestones_none].
    + destruct (memb _ _); [|injection Hr as <- <-; by apply log_reports_none].
      unfold apply_relation_claim in Hr. destruct (pointer_of _ _ _) as [q|]; [|done].
      cbn [mbind res_bind] in Hr. destruct (lm_relations ms !! _) as [e|] eqn:He.
      * destruct (memb _ _); injection Hr as <- <-; [by apply log_reports_none|].
        split; simpl; try apply reports_nil; [by apply reports_update|intros x; apply milestones_none].
      * res_inv. split; simpl; try apply reports_nil; [by apply reports_new|intros x; apply milestones_none].
  - destruct (memb _ _); [|injection Hr as <- <-; by apply log_reports_none].
    unfold apply_auxiliary_claim in Hr.
    case_bool_decide as Hn; [injection Hr as <- <-; by apply log_reports_none|].
    destruct (pointer_of _ _ _) as [q|]; [|done].
    cbn [mbind res_bind] in Hr. injection Hr as <- <-. apply eq_None_not_Some in Hn.
    split; simpl; try apply reports_nil; [by apply reports_new|intros x; apply milestones_none].
Qed.

Lemma log_reports_app p la lb ms1 ms2 ms3 :
  maps_grow ms1 ms2 -> maps_grow ms2 ms3 ->
  log_reports p la ms1 ms2 -> log_reports p lb ms2 ms3 -> log_reports p (log_app la lb) ms1 ms3.
Proof.
  intros [G1 G2 G3 G4] [K1 K2 K3 K4] [] []. split; simpl.
  1-4: eapply reports_app; [by eapply map_grows_dom|by eapply map_grows_dom|done|done].
  intros x. rewrite !elem_of_app, lr_milestones0, lr_milestones1. tauto.
Qed.

Lemma claims_loop_reports p matches turn cs ms lg ms0 acc' :
  (forall c, c ∈ cs -> is_Some (matches (claim_id c))) ->
  maps_grow ms0 ms -> log_reports p lg ms0 ms ->
  foldM (claim_step p matches turn) (ms, lg) cs = Ok acc' -> log_reports p acc'.2 ms0 acc'.1.
Proof.
  revert ms lg. induction cs as [|c cs IH]; intros ms lg Hm Hg Hl Hrun; simpl in Hrun.
  { by injection Hrun as <-. }
  destruct (claim_step p matches turn (ms, lg) c) as [acc1|] eqn:Estep; [|done].
  cbn [mbind res_bind] in Hrun. unfold claim_step in Estep. simpl in Estep.
  destruct (apply_claim p matches turn ms c) as [[ms1 lg1]|] eqn:Ec; [|done].
  cbn [mbind res_bind] in Estep. injection Estep as <-.
  destruct (Hm c) as [m Hcm]; [left|].
  pose proof (ce_grow _ _ _ _ _ _ (apply_claim_effect _ _ _ _ _ _ _ _ Ec Hcm)).
  eapply IH; [|by etrans| |exact Hrun].
  - intros d Hd. apply Hm. by right.
  - eapply log_reports_app; [done|done|done|]. by eapply apply_claim_reports.
Qed.

(** ** Binding, matches and completion *)

Lemma binding_spec s l p :
  validate_ledger_binding s l p = Ok tt <->
  (rl_pack_id l, rl_content_version l, rl_content_hash l)
    = (snapshot_pack_id s, snapshot_content_version s, snapshot_content_hash s) /\
  (forall k, k ∈ dom (verified_facts l) -> k ∈ pack_fact_ids p) /\
  (forall k, k ∈ dom (verified_relations l) -> k ∈ pack_relation_ids p) /\
  (forall k, k ∈ dom (partial_relations l) -> k ∈ pack_relation_ids p) /\
  values_ok p (verified_facts l).
Proof.
  assert (Hkeys : forall A (m : gmap string A) ids,
    subsetb (map fst (map_to_list m)) ids = true <-> forall k, k ∈ dom m -> k ∈ ids).
  { intros A m ids. rewrite subsetb_spec. split; intros Hk k Hin; apply Hk.
    - apply elem_of_dom in Hin as [e He%elem_of_map_to_list].
      apply list_elem_of_fmap. by exists (k, e).
    - apply list_elem_of_fmap in Hin as ([k' e] & -> & He%elem_of_map_to_list).
      by eapply elem_of_dom_2. }
  unfold validate_ledger_binding.
  rewrite !bind_raise_if_Ok, raise_if_Ok, !negb_false_iff, !Hkeys, !andb_true_iff,
    !bool_decide_eq_true, Z.eqb_eq.
  split; [intros ([[-> ->] ->] & Hf & Hr & Hp & Hv)|intros ([= -> -> ->] & Hf & Hr & Hp & Hv)].
  - do 4 (split; [done|]). intros k e He.
    destruct (proj1 (facts_by_id_is_Some p k)) as [f Hfk]; [by eapply Hf, elem_of_dom_2|].
    exists f. split; [done|]. apply not_false_iff_true. intros Hn.
    apply not_true_iff_false in Hv. apply Hv, existsb_exists. exists (k, e).
    split; [by apply list_elem_of_In, elem_of_map_to_list|]. simpl. by rewrite Hfk, Hn.
  - do 4 (split; [done|]). apply not_true_iff_false.
    intros ([k e] & Hin%list_elem_of_In%elem_of_map_to_list & Hbad)%existsb_exists.
    simpl in Hbad. destruct (Hv k e Hin) as (f & Hf' & Hval). by rewrite Hf', Hval in Hbad.
Qed.

Lemma evidence_matches_Ok g f :
  evidence_matches_by_claim g = Ok f ->
  f = match_by_claim (gu_evidence_matches g) /\
  forall c, c ∈ claims (gu_response g) ->
    exists m, f (claim_id c) = Some m /\ m ∈ gu_evidence_matches g.
Proof.
  unfold evidence_matches_by_claim. intros [Hc [= <-]]%bind_raise_if_Ok.
  apply orb_false_iff in Hc as [_ Hset%negb_false_iff]. rewrite set_eqb_spec in Hset.
  split; [done|]. intros c Hc.
  assert (claim_id c ∈ map em_claim_id (gu_evidence_matches g)) as Hin
    by (apply Hset, list_elem_of_fmap; eauto).
  apply list_elem_of_fmap in Hin as (m0 & Hid & Hm0).
  destruct (find_first_is_Some (fun m => bool_decide (em_claim_id m = claim_id c))
              (rev (gu_evidence_matches g)) m0) as [m Hm].
  - by apply list_elem_of_In, in_rev; rewrite rev_involutive; apply list_elem_of_In.
  - by apply bool_decide_eq_true.
  - exists m. split; [exact Hm|]. apply find_first_Some in Hm as [Hin _].
    by apply list_elem_of_In, in_rev, list_elem_of_In.
Qed.

Lemma completion_Ok s l cp :
  reasoning_completion_v2 s l = Ok cp ->
  exists p, resolve_pack s = Ok p /\ validate_ledger_binding s l p = Ok tt /\
    (complete cp = true <->
       (forall i, i ∈ required_fact_ids (pack_completion p) -> i ∈ dom (verified_facts l)) /\
       (forall i, i ∈ required_relation_ids (pack_completion p) -> i ∈ dom (verified_relations l))) /\
    (forall i, i ∈ remaining_fact_ids cp <->
       i ∈ required_fact_ids (pack_completion p) /\ i ∉ dom (verified_facts l)) /\
    (forall i, i ∈ remaining_relation_ids cp <->
       i ∈ required_relation_ids (pack_completion p) /\ i ∉ dom (verified_relations l)).
Proof.
  unfold reasoning_completion_v2. destruct (resolve_pack s) as [p|] eqn:Hp; [|done].
  cbn [mbind res_bind]. destruct (validate_ledger_binding s l p) as [[]|] eqn:Hb; [|done].
  cbn [mbind res_bind]. intros [= <-]. exists p. split; [done|]. split; [done|]. simpl.
  assert (Hrem : forall A (m : gmap string A) ids i,
    i ∈ List.filter (fun i => bool_decide (m !! i = None)) ids <-> i ∈ ids /\ i ∉ dom m).
  { intros A m ids i. rewrite list_elem_of_In, filter_In, <- list_elem_of_In.
    by rewrite bool_decide_eq_true, not_elem_of_dom. }
  assert (Hnil : forall A (m : gmap string A) ids,
    negb (truthy (List.filter (fun i => bool_decide (m !! i = None)) ids)) = true
    <-> forall i, i ∈ ids -> i ∈ dom m).
  { intros A m ids. rewrite negb_true_iff. split.
    - intros Ht i Hi. destruct (decide (i ∈ dom m)) as [|Hn]; [done|].
      assert (i ∈ List.filter (fun i => bool_decide (m !! i = None)) ids) as Hin by (by apply Hrem).
      destruct (List.filter _ _); [by apply not_elem_of_nil in Hin|done].
    - intros Hall. destruct (List.filter _ _) as [|i l'] eqn:E; [done|].
      assert (i ∈ List.filter (fun i => bool_decide (m !! i = None)) ids) as Hin by (rewrite E; left).
      apply Hrem in Hin as [Hin Hn]. by apply Hall in Hin. }
  split; [by rewrite andb_true_iff, !Hnil|]. split; intros i; apply Hrem.
Qed.

(** ** The ledger constructor *)

Lemma key_mismatch_spec {A} (idf : A -> string) (m : gmap string A) :
  key_mismatch idf m = false <-> map_Forall (fun k e => idf e = k) m.
Proof.
  unfold key_mismatch. split.
  - intros Hm k e He. apply not_true_iff_false in Hm. apply dec_stable. intros Hne.
    apply Hm, existsb_exists. exists (k, e).
    split; [by apply list_elem_of_In, elem_of_map_to_list|]. simpl.
    apply bool_decide_eq_true. congruence.
  - intros Hm. apply not_true_iff_false.
    intros ([k e] & Hin%list_elem_of_In%elem_of_map_to_list & Hne)%existsb_exists.
    apply bool_decide_eq_true in Hne. apply Hne. simpl. by rewrite (Hm k e Hin).
Qed.

Definition ledger_identity_ok (l : ReasoningLedgerV2) : bool :=
  id_field 160 (rl_pack_id l) && (1 <=? rl_content_version l)%Z && sha256_pattern (rl_content_hash l).

Lemma reasoning_ledger_Ok l l' :
  reasoning_ledger l = Ok l' ->
  l' = l /\ ledger_identity_ok l = true /\ size (accepted_auxiliary_evidence l) <= 200.
Proof.
  unfold reasoning_ledger. rewrite !bind_raise_if_Ok, negb_false_iff, !andb_true_iff, !bool_decide_eq_true.
  intros ([[[[[[? ?] ?] _] _] _] ?] & _ & _ & _ & _ & [= <-]). unfold ledger_identity_ok.
  rewrite !andb_true_iff. naive_solver.
Qed.

Lemma size_le_ids {A} (m : gmap string A) (ids : list string) :
  NoDup ids -> (forall k, k ∈ dom m -> k ∈ ids) -> size m <= length ids.
Proof.
  intros Hnd Hk. rewrite <- size_dom, <- (size_list_to_set (C := gset string) ids) by done.
  apply subseteq_size. intros k Hin. apply elem_of_list_to_set. by apply Hk.
Qed.

Lemma reasoning_ledger_total l :
  ledger_identity_ok l = true -> maps_wf (maps_of l) ->
  size (verified_facts l) <= 100 -> size (verified_relations l) <= 100 ->
  size (partial_relations l) <= 100 -> size (accepted_auxiliary_evidence l) <= 200 ->
  reasoning_ledger l = Ok l.
Proof.
  unfold ledger_identity_ok. rewrite !andb_true_iff. intros [[H1 H2] H3] [] ? ? ? ?.
  unfold reasoning_ledger.
  rewrite !bind_raise_if_Ok, negb_false_iff, !andb_true_iff, !bool_decide_eq_true, !key_mismatch_spec.
  do 5 (split; [first [naive_solver|eapply map_Forall_impl; [eassumption|]; intros k e Hw; apply Hw]|]).
  done.
Qed.

(** ** One application *)

Record applied s l g turn r p : Prop := {
  ap_pack : resolve_pack s = Ok p;
  ap_turn : turn_id_ok turn = true;
  ap_bound : validate_ledger_binding s l p = Ok tt;
  ap_matches : evidence_matches_by_claim g = Ok (match_by_claim (gu_evidence_matches g));
  ap_effect : claims_effect p (match_by_claim (gu_evidence_matches g)) turn
                (claims (gu_response g)) (maps_of l) (maps_of (ar_ledger r));
  ap_reports : log_reports p (ar_log r) (maps_of l) (maps_of (ar_ledger r));
  ap_ledger : reasoning_ledger (ar_ledger r) = Ok (ar_ledger r);
  ap_identity : ar_ledger r = ledger_with l (maps_of (ar_ledger r));
  ap_completion : reasoning_completion_v2 s (ar_ledger r) = Ok (ar_completion r);
  ap_became : exists before, reasoning_completion_v2 s l = Ok before /\
    completion_became_true r = complete (ar_completion r) && negb (complete before)
}.

Lemma apply_guarded_applied s l g turn r :
  apply_guarded_understanding_v2 s l g turn = Ok r -> exists p, applied s l g turn r p.
Proof.
  unfold apply_guarded_understanding_v2. intros [Ht Hr]%bind_raise_if_Ok.
  destruct (resolve_pack s) as [p|] eqn:Hp; [|done]. cbn [mbind res_bind] in Hr.
  destruct (validate_ledger_binding s l p) as [[]|] eqn:Hb; [|done]. cbn [mbind res_bind] in Hr.
  destruct (evidence_matches_by_claim g) as [f|] eqn:Hm; [|done]. cbn [mbind res_bind] in Hr.
  destruct (reasoning_completion_v2 s l) as [before|] eqn:Hc0; [|done]. cbn [mbind res_bind] in Hr.
  pose proof (evidence_matches_Ok g f Hm) as [-> Hms].
  destruct (foldM _ _ _) as [out|] eqn:Hloop; [|done]. cbn [mbind res_bind] in Hr.
  destruct (reasoning_ledger (ledger_with l out.1)) as [l'|] eqn:Hl; [|done].
  pose proof (reasoning_ledger_Ok _ _ Hl) as [-> _]. cbn [mbind res_bind] in Hr.
  destruct (reasoning_completion_v2 s (ledger_with l out.1)) as [after|] eqn:Hc1; [|done].
  cbn [mbind res_bind] in Hr. injection Hr as <-. exists p.
  assert (Hsome : forall c, c ∈ claims (gu_response g) ->
    is_Some (match_by_claim (gu_evidence_matches g) (claim_id c))).
  { intros c Hc. destruct (Hms c Hc) as (m & -> & _). eauto. }
  assert (maps_of (ledger_with l out.1) = out.1) as Hmaps by (by destruct out as [[] ?]).
  split; simpl; rewrite ?Hmaps; try done.
  - by apply negb_false_iff in Ht.
  - eapply (claims_loop _ _ _ _ (maps_of l, empty_log)); done.
  - eapply (claims_loop_reports _ _ _ _ (maps_of l)); [done|done| |done]. by apply log_reports_none.
  - eauto.
Qed.

(** The ledger's data invariant: the constructor accepts it and every entry is
    filed under its id, with nonempty, duplicate-free, self-referencing evidence. *)
Definition ledger_valid (l : ReasoningLedgerV2) : Prop :=
  reasoning_ledger l = Ok l /\ maps_wf (maps_of l).

(** * The abstract specification

    What a ledger stands for is the pair of verified id sets; a claim adds to
    it and nothing else does. *)

Record progress := { pg_facts : gset string; pg_relations : gset string }.

Definition progress_of (l : ReasoningLedgerV2) : progress :=
  {| pg_facts := dom (verified_facts l); pg_relations := dom (verified_relations l) |}.

Definition learn (pg : progress) (c : UnderstandingClaimV2) : progress :=
  {| pg_facts := pg_facts pg ∪ list_to_set (learned_facts c);
     pg_relations := pg_relations pg ∪ list_to_set (learned_relations c) |}.

Definition progress_complete p (pg : progress) : Prop :=
  (forall i, i ∈ required_fact_ids (pack_completion p) -> i ∈ pg_facts pg) /\
  (forall i, i ∈ required_relation_ids (pack_completion p) -> i ∈ pg_relations pg).

Lemma learn_all cs pg :
  fold_left learn cs pg =
  {| pg_facts := pg_facts pg ∪ list_to_set (flat_map learned_facts cs);
     pg_relations := pg_relations pg ∪ list_to_set (flat_map learned_relations cs) |}.
Proof.
  revert pg. induction cs as [|c cs IH]; intros [F R]; simpl.
  - by rewrite !(right_id_L ∅ (∪)).
  - rewrite IH. simpl. by rewrite !list_to_set_app_L, !(assoc_L (∪)).
Qed.

(** (C23) Refinement: applying admitted understanding moves the ledger exactly
    as the abstract specification says.  The verified facts gained are those of
    [correct] fact claims, the relations gained those of [correct] or
    [sufficient] relation claims (partial, incorrect, uncertain and auxiliary
    claims gain nothing), the result lists name precisely the gained ids, each
    once, and completion is the coverage of the required ids, reported as new
    only when it was not complete before. *)
Theorem apply_guarded_refines_progress s l g turn r :
  apply_guarded_understanding_v2 s l g turn = Ok r ->
  exists p, resolve_pack s = Ok p /\
    progress_of (ar_ledger r) = fold_left learn (claims (gu_response g)) (progress_of l) /\
    (complete (ar_completion r) = true <-> progress_complete p (progress_of (ar_ledger r))) /\
    (completion_became_true r = true <->
       progress_complete p (progress_of (ar_ledger r)) /\ ~ progress_complete p (progress_of l)) /\
    NoDup (new_fact_ids (ar_log r)) /\ NoDup (new_relation_ids (ar_log r)) /\
    (forall i, i ∈ new_fact_ids (ar_log r) <->
       i ∈ pg_facts (progress_of (ar_ledger r)) /\ i ∉ pg_facts (progress_of l)) /\
    (forall i, i ∈ new_relation_ids (ar_log r) <->
       i ∈ pg_relations (progress_of (ar_ledger r)) /\ i ∉ pg_relations (progress_of l)).
Proof.
  intros (p & [Hp _ _ _ He Hrep _ _ Hc (b & Hb & Hbt)])%apply_guarded_applied.
  exists p. split; [done|].
  apply completion_Ok in Hc as (p1 & Hp1 & _ & Hc & _).
  apply completion_Ok in Hb as (p2 & Hp2 & _ & Hb & _). res_unify.
  split; [|split; [exact Hc|split]].
  - rewrite learn_all. destruct He. unfold progress_of. simpl in *. by f_equal.
  - rewrite Hbt, andb_true_iff, negb_true_iff, Hc. unfold progress_complete, progress_of; simpl.
    rewrite <- Hb. by rewrite not_true_iff_false.
  - destruct Hrep as [[] [] _ _ _]. done.
Qed.

(** Monotonicity and invariant: an application keeps the ledger bound to
    the same pinned content, valid and truthful; no verified fact, relation,
    partial attempt or auxiliary marker is ever lost, canonical values never
    change and evidence is only appended, so completion is never undone. *)
Theorem apply_guarded_monotone s l g turn r :
  apply_guarded_understanding_v2 s l g turn = Ok r -> ledger_valid l ->
  maps_grow (maps_of l) (maps_of (ar_ledger r)) /\
  ledger_valid (ar_ledger r) /\
  (rl_pack_id (ar_ledger r), rl_content_version (ar_ledger r), rl_content_hash (ar_ledger r))
    = (rl_pack_id l, rl_content_version l, rl_content_hash l) /\
  (exists p, resolve_pack s = Ok p /\ validate_ledger_binding s (ar_ledger r) p = Ok tt) /\
  (forall before, reasoning_completion_v2 s l = Ok before -> complete before = true ->
     complete (ar_completion r) = true).
Proof.
  intros (p & [Hp _ _ _ He _ Hl Hid Hc _])%apply_guarded_applied [_ Hwf].
  pose proof (cl_grow _ _ _ _ _ _ He) as Hg. split; [done|].
  split; [split; [done|by eapply cl_wf]|]. split; [by rewrite Hid|].
  pose proof Hc as Hc'. apply completion_Ok in Hc as (p1 & Hp1 & Hb1 & Hc & _). res_unify.
  split; [eauto|]. intros before Hb. apply completion_Ok in Hb as (p2 & Hp2 & _ & Hb & _).
  res_unify. rewrite Hb, Hc. intros [Hf Hr].
  split; intros i Hi; [eapply map_grows_dom; [apply Hg|by apply Hf]
                      |eapply map_grows_dom; [apply Hg|by apply Hr]].
Qed.

(** Idempotence: applying the same admitted understanding of the same turn
    to the resulting ledger (a retried or resumed turn) returns the identical
    ledger, reports nothing new and does not announce completion again. *)
Theorem apply_guarded_idempotent s l g turn r :
  apply_guarded_understanding_v2 s l g turn = Ok r ->
  exists r', apply_guarded_understanding_v2 s (ar_ledger r) g turn = Ok r' /\
    ar_ledger r' = ar_ledger r /\ quiet (ar_log r') /\ completion_became_true r' = false /\
    ar_completion r' = ar_completion r.
Proof.
  intros (p & [Hp Ht _ Hm He _ Hl Hid Hc _])%apply_guarded_applied.
  pose proof (completion_Ok _ _ _ Hc) as (p1 & Hp1 & Hb1 & _). res_unify.
  destruct (claims_loop_again p1 (match_by_claim (gu_evidence_matches g)) turn
    (claims (gu_response g)) (maps_of (ar_ledger r)) empty_log) as (lg & Hloop & Hq);
    [apply He|done|].
  unfold apply_guarded_understanding_v2.
  rewrite Ht, Hp, Hm, Hc. cbn [negb raise_if mbind res_bind]. rewrite Hb1.
  cbn [mbind res_bind]. rewrite Hloop. cbn [mbind res_bind].
  replace (ledger_with (ar_ledger r) (maps_of (ar_ledger r), lg).1) with (ar_ledger r)
    by (by destruct (ar_ledger r)).
  rewrite Hl. cbn [mbind res_bind]. rewrite Hc. cbn [mbind res_bind].
  eexists. split; [done|]. simpl. do 2 (split; [done|]). by destruct (complete _).
Qed.

(** ** Totality after admission *)

Lemma completion_total s l p :
  resolve_pack s = Ok p -> validate_ledger_binding s l p = Ok tt ->
  exists cp, reasoning_completion_v2 s l = Ok cp.
Proof. unfold reasoning_completion_v2. intros -> Hb. cbn [mbind res_bind]. rewrite Hb. eauto. Qed.

Lemma learned_in_graph p cs :
  Forall (claim_in_graph p) cs ->
  (forall i, i ∈ flat_map learned_facts cs -> i ∈ pack_fact_ids p) /\
  (forall i, i ∈ flat_map learned_relations cs -> i ∈ pack_relation_ids p) /\
  (forall i, i ∈ flat_map partial_ids cs -> i ∈ pack_relation_ids p).
Proof.
  rewrite Forall_forall. intros Hcs.
  repeat split; intros i (c & Hc%list_elem_of_In & Hi%list_elem_of_In)%list_elem_of_In%in_flat_map;
    specialize (Hcs c Hc); destruct c as [f|r|a]; simpl in *; try by apply not_elem_of_nil in Hi.
  all: repeat case_match; try case_decide; try by apply not_elem_of_nil in Hi.
  all: by apply list_elem_of_singleton in Hi as ->.
Qed.

(** The bounds of the next ledger, for graph ids. *)
Lemma next_ledger_ok s l p matches turn cs out :
  pack_contract p -> validate_ledger_binding s l p = Ok tt -> ledger_valid l ->
  Forall (claim_in_graph p) cs ->
  claims_effect p matches turn cs (maps_of l) out ->
  size (accepted_auxiliary_evidence l) + sum_list (map auxiliary_count cs) <= 200 ->
  reasoning_ledger (ledger_with l out) = Ok (ledger_with l out) /\
  validate_ledger_binding s (ledger_with l out) p = Ok tt.
Proof.
  intros Hp Hb [Hl Hwf] Hg [] Haux. apply binding_spec in Hb as (Hid & Hf & Hr & Hpt & Hv).
  apply learned_in_graph in Hg as (Hgf & Hgr & Hgp). simpl in *.
  assert (Hkf : forall k, k ∈ dom (lm_facts out) -> k ∈ pack_fact_ids p).
  { intros k. rewrite cl_facts0, elem_of_union, elem_of_list_to_set. intros [|]; auto. }
  assert (Hkr : forall k, k ∈ dom (lm_relations out) -> k ∈ pack_relation_ids p).
  { intros k. rewrite cl_relations0, elem_of_union, elem_of_list_to_set. intros [|]; auto. }
  assert (Hkp : forall k, k ∈ dom (lm_partials out) -> k ∈ pack_relation_ids p).
  { intros k Hk%cl_partials0. revert Hk. rewrite elem_of_union, elem_of_list_to_set.
    intros [|]; auto. }
  split.
  - apply reasoning_ledger_Ok in Hl as (_ & Hl & _). destruct Hp.
    apply reasoning_ledger_total; simpl; [done|by destruct out; apply cl_wf0| | | |lia].
    + etrans; [|exact pk_fact_count]. by apply size_le_ids.
    + etrans; [|exact pk_relation_count]. by apply size_le_ids.
    + etrans; [|exact pk_relation_count]. by apply size_le_ids.
  - apply binding_spec. simpl. do 4 (split; [done|]). by apply cl_values0.
Qed.

Lemma apply_guarded_total s l g turn p :
  resolve_pack s = Ok p -> pack_contract p -> validate_ledger_binding s l p = Ok tt ->
  ledger_valid l -> turn_id_ok turn = true ->
  map em_claim_id (gu_evidence_matches g) = map claim_id (claims (gu_response g)) ->
  NoDup (map claim_id (claims (gu_response g))) ->
  Forall (fun m => em_source_start m < em_source_end m) (gu_evidence_matches g) ->
  Forall (claim_in_graph p) (claims (gu_response g)) ->
  size (accepted_auxiliary_evidence l)
    + sum_list (map auxiliary_count (claims (gu_response g))) <= 200 ->
  exists r, apply_guarded_understanding_v2 s l g turn = Ok r.
Proof.
  intros Hp Hpk Hb Hl Ht Hms Hnd Hse Hg Haux. unfold apply_guarded_understanding_v2.
  rewrite Ht, Hp. cbn [negb raise_if mbind res_bind]. rewrite Hb. cbn [mbind res_bind].
  assert (Hm : evidence_matches_by_claim g = Ok (match_by_claim (gu_evidence_matches g))).
  { unfold evidence_matches_by_claim. apply bind_raise_if_Ok. split; [|done].
    rewrite Hms. apply orb_false_iff. rewrite !negb_false_iff, uniqueb_spec, set_eqb_spec. done. }
  rewrite Hm. cbn [mbind res_bind].
  destruct (completion_total s l p Hp Hb) as [b ->]. cbn [mbind res_bind].
  apply evidence_matches_Ok in Hm as [_ Hm].
  pose proof (proj1 (Forall_forall _ _) Hse) as Hse'. pose proof (proj1 (Forall_forall _ _) Hg) as Hg'.
  destruct (claims_loop_total p (match_by_claim (gu_evidence_matches g)) turn
    (claims (gu_response g)) (maps_of l, empty_log)) as [out Hout]; [done|done| |].
  { intros c Hc. split; [by apply Hg'|]. destruct (Hm c Hc) as (m & ? & Hin). eauto. }
  rewrite Hout. cbn [mbind res_bind]. apply claims_loop in Hout.
  2:{ intros c Hc. destruct (Hm c Hc) as (m & -> & _). eauto. }
  destruct (next_ledger_ok s l p _ turn _ _ Hpk Hb Hl Hg Hout Haux)
    as [-> Hb']. cbn [mbind res_bind].
  destruct (completion_total s _ p Hp Hb') as [c ->]. cbn [mbind res_bind]. eauto.
Qed.

Lemma admissible_in_graph `{Nfc} req p c :
  (forall i, i ∈ cg_fact_ids (ur_claimable_graph req) -> i ∈ pack_fact_ids p) ->
  (forall i, i ∈ cg_relation_ids (ur_claimable_graph req) -> i ∈ pack_relation_ids p) ->
  admissible req c = true -> claim_in_graph p c.
Proof.
  intros Hf Hr Ha. unfold admissible, claim_violations, membership_violation in Ha.
  destruct c as [f|r|a]; simpl in *; [| |done].
  - destruct (memb (fc_fact_id f) _) eqn:E; [apply Hf; by apply memb_spec|done].
  - destruct (memb (rc_relation_id r) _) eqn:E; [apply Hr; by apply memb_spec|done].
Qed.

Lemma admitted_spans `{Nfc} req resp :
  Forall (bounded_quote req) (claims resp) ->
  Forall (fun m => em_source_start m < em_source_end m)
    (flat_map (fun c => option_list (em_of req c)) (List.filter (admissible req) (claims resp))).
Proof.
  intros Hbq. apply Forall_forall. intros em Hem%list_elem_of_In.
  apply in_flat_map in Hem as (c & [Hc%list_elem_of_In _]%filter_In & Hem).
  pose proof (proj1 (Forall_forall _ _) Hbq c Hc) as [_ Hne].
  unfold em_of in Hem. destruct (literal_evidence_match _ _) as [[[st e] k]|] eqn:Hm; [|done].
  destruct Hem as [<-|[]]. simpl. by eapply literal_match_bounds.
Qed.

(** The guard is the ledger's precondition: whatever the understanding
    model returned for a request over the pinned graph, the claims admitted by
    the evidence boundary always apply.  No exception escapes while the ledger
    is valid and bound and there is room for the auxiliary markers (at most
    200 per conversation). *)
Theorem admitted_understanding_applies `{Nfc} s l p req resp turn :
  resolve_pack s = Ok p -> pack_contract p -> validate_ledger_binding s l p = Ok tt ->
  ledger_valid l -> turn_id_ok turn = true ->
  (forall i, i ∈ cg_fact_ids (ur_claimable_graph req) -> i ∈ pack_fact_ids p) ->
  (forall i, i ∈ cg_relation_ids (ur_claimable_graph req) -> i ∈ pack_relation_ids p) ->
  NoDup (map claim_id (claims resp)) -> Forall (bounded_quote req) (claims resp) ->
  size (accepted_auxiliary_evidence l) + length (claims resp) <= 200 ->
  exists a r, admit_understanding_response_v2 req resp = Ok a /\
    apply_guarded_understanding_v2 s l (ad_guarded a) turn = Ok r.
Proof.
  intros Hp Hpk Hb Hl Ht Hgf Hgr Hnd Hbq Haux. rewrite admit_closed_form by done.
  set (accepted := List.filter (admissible req) (claims resp)).
  assert (Hacc : forall c, c ∈ accepted -> c ∈ claims resp /\ admissible req c = true).
  { intros c Hc%list_elem_of_In. apply filter_In in Hc as [Hc Ha].
    split; [by apply list_elem_of_In|done]. }
  eexists. edestruct (apply_guarded_total s l) as [r Hr]; [done..| | | | | |by eexists]; simpl.
  - apply em_of_claims, Forall_admissible_em.
  - by apply NoDup_map_filter.
  - by apply admitted_spans.
  - apply Forall_forall. intros c [_ Ha]%Hacc. by eapply admissible_in_graph.
  - assert (sum_list (map auxiliary_count accepted) <= length accepted) as Hs.
    { clear. induction accepted as [|c cs IH]; simpl; [done|].
      assert (auxiliary_count c <= 1) by (destruct c; simpl; repeat case_match; lia). lia. }
    assert (length accepted <= length (claims resp)) by apply List.filter_length_le. lia.
Qed.

(** ** Structured progress *)

Lemma structured_evidence_ok turn kind tk i x :
  turn_id_ok turn = true -> id_field 160 i = true ->
  exists e, structured_evidence {| sv_evidence_id := hexdigest x; sv_source_turn_id := turn;
              sv_source_kind := kind; sv_target_kind := tk; sv_target_id := i |} = Ok e
            /\ structured_evidence e = Ok e /\ sv_evidence_id e = hexdigest x /\ sv_target_kind e = tk /\ sv_target_id e = i.
Proof.
  intros Ht Hi. unfold structured_evidence. simpl. unfold turn_id_ok in Ht.
  rewrite hexdigest_format, Ht, Hi. simpl. eexists. split; [done|]. simpl.
  by rewrite hexdigest_format, Ht, Hi.
Qed.

Lemma fact_append_structured_wf k e q :
  fact_entry_wf k e -> sv_evidence_id q ∉ map fe_id (vf_evidence e) ->
  structured_evidence q = Ok q -> sv_target_kind q = KIND_fact -> sv_target_id q = k ->
  fact_entry_wf k {| vf_fact_id := vf_fact_id e; vf_canonical_value := vf_canonical_value e;
                     vf_evidence := vf_evidence e ++ [FE_structured q] |}.
Proof.
  intros (Hk & Hid & Hne & Hnd & Hst) Hq Hq0 Hq1 Hq2. repeat split; simpl; [done|done| | |].
  - by destruct (vf_evidence e).
  - rewrite map_app. by apply NoDup_append_new.
  - apply Forall_app. split; [done|]. by constructor.
Qed.

(** One structured step: the map gains the id (with the submitted value when
    it is new) and nothing else moves. *)
Record structured_effect p (facts relations : list string) (ms ms' : ledger_maps) : Prop := {
  se_grow : maps_grow ms ms';
  se_wf : maps_wf ms -> maps_wf ms';
  se_facts : dom (lm_facts ms') = dom (lm_facts ms) ∪ list_to_set facts;
  se_relations : dom (lm_relations ms') = dom (lm_relations ms) ∪ list_to_set relations;
  se_partials : lm_partials ms' = lm_partials ms;
  se_aux : lm_auxiliary ms' = lm_auxiliary ms;
  se_values : values_ok p (lm_facts ms) -> values_ok p (lm_facts ms')
}.

Lemma structured_effect_trans p f1 r1 f2 r2 a b c :
  structured_effect p f1 r1 a b -> structured_effect p f2 r2 b c ->
  structured_effect p (f1 ++ f2) (r1 ++ r2) a c.
Proof.
  intros [] []. split; [by etrans|auto| | |congruence|congruence|auto].
  - by rewrite se_facts1, se_facts0, list_to_set_app_L, (assoc_L (∪)).
  - by rewrite se_relations1, se_relations0, list_to_set_app_L, (assoc_L (∪)).
Qed.

Lemma structured_fact_step_ok p turn kind acc i v f :
  turn_id_ok turn = true -> id_field 160 i = true ->
  facts_by_id p i = Some f -> value_matches f v = true ->
  exists acc', structured_fact_step p turn kind acc (i, v) = Ok acc' /\
    structured_effect p [i] [] acc.1 acc'.1.
Proof.
  intros Ht Hi Hf Hv. unfold structured_fact_step. rewrite Hf. cbn [or_raise mbind res_bind].
  unfold stable_structured_evidence_id.
  edestruct (structured_evidence_ok turn kind KIND_fact i) as (q & Hq & Hqok & Hqid & Hqk & Hqi); [done..|].
  rewrite Hq. cbn [mbind res_bind]. clear Hq. rewrite <- Hqid. clear Hqid.
  destruct (lm_facts acc.1 !! i) as [e|] eqn:He.
  - assert (i ∈ dom (lm_facts acc.1)) as Hd by (by eapply elem_of_dom_2).
    destruct (memb _ _) eqn:Em; eexists; (split; [done|]); breflect.
    + split; simpl; trivial_effect.
    + split; simpl; trivial_effect.
      * split; try done. eapply map_grows_update; [apply _|done|]. repeat split. by apply prefix_app_r.
      * intros []. split; try done. simpl. apply map_Forall_insert_2; [|done].
        apply fact_append_structured_wf; [|done..]. by eapply mw_facts0.
      * intros Hval k d [[<- <-]|[Hne Hk]]%lookup_insert_Some; [simpl|]; by eapply Hval.
  - assert (verified_fact_entry {| vf_fact_id := i; vf_canonical_value := v;
              vf_evidence := [FE_structured q] |}
            = Ok {| vf_fact_id := i; vf_canonical_value := v; vf_evidence := [FE_structured q] |}) as ->.
    { unfold verified_fact_entry, structured_mismatch. simpl. by rewrite Hi, Hqk, Hqi, !bool_decide_eq_false_2 by (intros Hx; by apply Hx). }
    cbn [mbind res_bind]. eexists. split; [done|]. split; simpl; trivial_effect.
    + split; try done. apply map_grows_new; [apply _|done].
    + intros []. split; try done. simpl. apply map_Forall_insert_2; [|done].
      repeat split; [done|done|apply NoDup_singleton|]. by constructor.
    + intros Hval k d [[<- <-]|[Hne Hk]]%lookup_insert_Some; [|by eapply Hval]. eauto.
Qed.

Lemma structured_relation_step_ok p turn kind acc i :
  turn_id_ok turn = true -> id_field 160 i = true ->
  exists acc', structured_relation_step turn kind acc i = Ok acc' /\
    structured_effect p [] [i] acc.1 acc'.1.
Proof.
  intros Ht Hi. unfold structured_relation_step, stable_structured_evidence_id.
  edestruct (structured_evidence_ok turn kind KIND_relation i) as (q & Hq & Hqok & Hqid & Hqk & Hqi); [done..|].
  rewrite Hq. cbn [mbind res_bind]. clear Hq. rewrite <- Hqid. clear Hqid.
  destruct (lm_relations acc.1 !! i) as [e|] eqn:He.
  - assert (i ∈ dom (lm_relations acc.1)) as Hd by (by eapply elem_of_dom_2).
    destruct (memb _ _) eqn:Em; eexists; (split; [done|]); breflect.
    + split; simpl; trivial_effect.
    + split; simpl; trivial_effect.
      * split; try done. eapply map_grows_update; [apply _|done|]. split; [done|]. by apply prefix_app_r.
      * intros []. split; try done. simpl. apply map_Forall_insert_2; [|done].
        apply relation_append_wf; [|done..]. by eapply mw_relations0.
  - assert (verified_relation_entry {| vr_relation_id := i; vr_evidence := [RE_structured q] |}
            = Ok {| vr_relation_id := i; vr_evidence := [RE_structured q] |}) as ->.
    { unfold verified_relation_entry, structured_mismatch. simpl. by rewrite Hi, Hqk, Hqi, !bool_decide_eq_false_2 by (intros Hx; by apply Hx). }
    cbn [mbind res_bind]. eexists. split; [done|]. split; simpl; trivial_effect.
    + split; try done. apply map_grows_new; [apply _|done].
    + intros []. split; try done. simpl. apply map_Forall_insert_2; [|done].
      repeat split; [done|done|apply NoDup_singleton|]. by constructor.
Qed.
End claims.
