(* ===== verification/LedgerProgress.v ===== *)
(** Structured progress and persistence of the reasoning ledger: choices and
    joint actions apply exactly the reviewed targets they were resolved to, and a
    ledger written to storage is read back unchanged while its evidence lists
    stay within the field bound the appends do not check. *)

From S2P Require Import Prelude.
From S2P Require Import PyStr.
From S2P Require Import PyNum.
From S2P Require Import Json.
From S2P Require Import Schemas.
From S2P Require Import Requests.
From S2P Require Import Regex.
From S2P Require Import Evidence.
From S2P Require Import EvidenceTheory.
From S2P Require Import Packs.
From S2P Require Import PackDump.
From S2P Require Import Snapshot.
From S2P Require Import Ledger.
From S2P Require Import LedgerTheory.

Section structured.
Context `{!Digest} `{!DigestFormat} `{!PackModel}.
Implicit Types p : TaskPackV2.

Lemma structured_facts_loop p turn kind fvs acc :
  turn_id_ok turn = true -> pack_contract p ->
  (forall i v, (i, v) ∈ fvs -> exists f, facts_by_id p i = Some f /\ value_matches f v = true) ->
  exists acc', foldM (structured_fact_step p turn kind) acc fvs = Ok acc' /\
    structured_effect p (map fst fvs) [] acc.1 acc'.1.
Proof.
  intros Ht Hp. revert acc. induction fvs as [|[i v] fvs IH]; intros acc Hv; cbn [foldM map fst].
  { exists acc. split; [done|]. by split; simpl; trivial_effect. }
  destruct (Hv i v) as (f & Hf & Hm); [left|].
  destruct (structured_fact_step_ok p turn kind acc i v f) as (acc1 & Hs & He1); [done| |done|done|].
  { pose proof (pk_fact_ids p Hp) as Hids. rewrite Forall_forall in Hids. apply Hids.
    apply facts_by_id_is_Some. eauto. }
  rewrite Hs. cbn [mbind res_bind].
  destruct (IH acc1) as (acc' & -> & He2); [intros j w Hj; apply Hv; by right|].
  exists acc'. split; [done|]. exact (structured_effect_trans p [i] [] _ [] _ _ _ He1 He2).
Qed.

Lemma structured_relations_loop p turn kind rids acc :
  turn_id_ok turn = true -> pack_contract p -> (forall i, i ∈ rids -> i ∈ pack_relation_ids p) ->
  exists acc', foldM (structured_relation_step turn kind) acc rids = Ok acc' /\
    structured_effect p [] rids acc.1 acc'.1.
Proof.
  intros Ht Hp. revert acc. induction rids as [|i rids IH]; intros acc Hr; cbn [foldM].
  { exists acc. split; [done|]. by split; simpl; trivial_effect. }
  destruct (structured_relation_step_ok p turn kind acc i) as (acc1 & Hs & He1); [done| |].
  { pose proof (pk_relation_ids p Hp) as Hids. rewrite Forall_forall in Hids. apply Hids, Hr. left. }
  rewrite Hs. cbn [mbind res_bind].
  destruct (IH acc1) as (acc' & -> & He2); [intros j Hj; apply Hr; by right|].
  exists acc'. split; [done|]. exact (structured_effect_trans p [] [i] [] _ _ _ _ He1 He2).
Qed.

Lemma structured_next_ledger s l p fs rs out :
  pack_contract p -> validate_ledger_binding s l p = Ok tt -> ledger_valid l ->
  (forall i, i ∈ fs -> i ∈ pack_fact_ids p) -> (forall i, i ∈ rs -> i ∈ pack_relation_ids p) ->
  structured_effect p fs rs (maps_of l) out ->
  reasoning_ledger (ledger_with l out) = Ok (ledger_with l out) /\
  validate_ledger_binding s (ledger_with l out) p = Ok tt.
Proof.
  intros Hp Hb [Hl Hwf] Hfs Hrs []. apply binding_spec in Hb as (Hid & Hf & Hr & Hpt & Hv).
  simpl in *.
  assert (Hkf : forall k, k ∈ dom (lm_facts out) -> k ∈ pack_fact_ids p).
  { intros k. rewrite se_facts, elem_of_union, elem_of_list_to_set. intros [|]; auto. }
  assert (Hkr : forall k, k ∈ dom (lm_relations out) -> k ∈ pack_relation_ids p).
  { intros k. rewrite se_relations, elem_of_union, elem_of_list_to_set. intros [|]; auto. }
  split.
  - apply reasoning_ledger_Ok in Hl as (_ & Hl & Haux). destruct Hp.
    apply reasoning_ledger_total; simpl; [done|by destruct out; apply se_wf| | | |by rewrite se_aux].
    + etrans; [|exact pk_fact_count]. by apply size_le_ids.
    + etrans; [|exact pk_relation_count]. by apply size_le_ids.
    + rewrite se_partials. etrans; [|exact pk_relation_count]. by apply size_le_ids.
  - apply binding_spec. simpl. rewrite se_partials. do 4 (split; [done|]). by apply se_values.
Qed.

(** What a successful application of [fvs] and [rids] yields. *)
Record structured_applied s l p (fvs : list (string * CanonicalValueV2)) rids r : Prop := {
  sa_facts : dom (verified_facts (ar_ledger r))
             = dom (verified_facts l) ∪ list_to_set (map fst fvs);
  sa_relations : dom (verified_relations (ar_ledger r))
                 = dom (verified_relations l) ∪ list_to_set rids;
  sa_partials : partial_relations (ar_ledger r) = partial_relations l;
  sa_aux : accepted_auxiliary_evidence (ar_ledger r) = accepted_auxiliary_evidence l;
  sa_grow : maps_grow (maps_of l) (maps_of (ar_ledger r));
  sa_valid : ledger_valid (ar_ledger r);
  sa_bound : validate_ledger_binding s (ar_ledger r) p = Ok tt;
  sa_completion : reasoning_completion_v2 s (ar_ledger r) = Ok (ar_completion r);
  sa_new : forall i, i ∈ new_relation_ids (ar_log r) ->
           is_Some (verified_relations (ar_ledger r) !! i);
  sa_identity : rl_pack_id (ar_ledger r) = rl_pack_id l
}.

(** The relations a structured loop reports are in its map. *)
Definition reported_in (acc : ledger_maps * apply_log) : Prop :=
  forall i, i ∈ new_relation_ids acc.2 -> is_Some (lm_relations acc.1 !! i).

Lemma structured_facts_reported p turn kind fvs acc acc' :
  foldM (structured_fact_step p turn kind) acc fvs = Ok acc' -> reported_in acc -> reported_in acc'.
Proof.
  intros Hf Ha. refine (foldM_inv _ reported_in _ _ _ _ Ha Hf).
  intros [ms lg] [i v] x _ Hx Hs. unfold structured_fact_step in Hs. res_inv.
  destruct (lm_facts _ !! i) as [e|] eqn:He; [case_match|res_inv]; simplify_eq;
    intros j Hj; apply Hx; simpl in *; by rewrite ?app_nil_r in Hj.
Qed.

Lemma structured_relations_reported turn kind rids acc acc' :
  foldM (structured_relation_step turn kind) acc rids = Ok acc' -> reported_in acc ->
  reported_in acc'.
Proof.
  intros Hf Ha. refine (foldM_inv _ reported_in _ _ _ _ Ha Hf).
  intros [ms lg] i x _ Hx Hs. unfold structured_relation_step in Hs. res_inv.
  destruct (lm_relations _ !! i) as [e|] eqn:He; [case_match|res_inv]; simplify_eq;
    intros j Hj; simpl in *; rewrite ?app_nil_r in Hj.
  - by apply Hx.
  - destruct (decide (i = j)) as [->|]; simplify_map_eq; [done|by apply Hx].
  - destruct (decide (i = j)) as [->|]; simplify_map_eq; [done|]. apply Hx.
    apply elem_of_app in Hj as [|Hj%list_elem_of_singleton]; [done|congruence].
Qed.

Lemma structured_progress_total s l p fvs rids turn kind :
  resolve_pack s = Ok p -> pack_contract p -> validate_ledger_binding s l p = Ok tt ->
  ledger_valid l -> turn_id_ok turn = true -> NoDup rids ->
  (forall i v, (i, v) ∈ fvs -> exists f, facts_by_id p i = Some f /\ value_matches f v = true) ->
  (forall i, i ∈ rids -> i ∈ pack_relation_ids p) ->
  exists r, apply_structured_progress_v2 s l fvs rids turn kind = Ok r /\
    structured_applied s l p fvs rids r.
Proof.
  intros Hp Hpk Hb Hl Ht Hnd Hval Hrs. unfold apply_structured_progress_v2.
  assert (Hfs : forall i, i ∈ map fst fvs -> i ∈ pack_fact_ids p).
  { intros i ([j v] & -> & Hv)%list_elem_of_fmap. destruct (Hval j v Hv) as (f & Hf & _).
    apply facts_by_id_is_Some. eauto. }
  rewrite Ht, (proj2 (uniqueb_spec rids) Hnd), Hp. cbn [negb raise_if mbind res_bind].
  rewrite Hb. cbn [mbind res_bind].
  rewrite (proj2 (subsetb_spec _ _) Hfs), (proj2 (subsetb_spec _ _) Hrs).
  cbn [negb raise_if mbind res_bind].
  destruct (mapR_total (check_fact_value p) fvs) as [us ->].
  { intros [i v] Hiv. destruct (Hval i v Hiv) as (f & Hf & Hm). exists tt.
    unfold check_fact_value. simpl. by rewrite Hf; simpl; rewrite Hm. }
  cbn [mbind res_bind]. destruct (completion_total s l p Hp Hb) as [b ->]. cbn [mbind res_bind].
  destruct (structured_facts_loop p turn kind fvs (maps_of l, empty_log)) as (o1 & Ho1 & He1);
    [done..|]. rewrite Ho1. cbn [mbind res_bind].
  destruct (structured_relations_loop p turn kind rids o1) as (o2 & Ho2 & He2); [done..|].
  rewrite Ho2. cbn [mbind res_bind].
  pose proof (structured_effect_trans p _ [] [] _ _ _ _ He1 He2) as He. rewrite app_nil_r in He.
  destruct (structured_next_ledger s l p _ _ _ Hpk Hb Hl Hfs Hrs He) as [Hled Hb'].
  rewrite Hled. cbn [mbind res_bind]. destruct (completion_total s _ p Hp Hb') as [c Hc].
  rewrite Hc. cbn [mbind res_bind]. eexists. split; [done|].
  apply structured_facts_reported in Ho1; [|by intros i Hi%not_elem_of_nil].
  apply structured_relations_reported in Ho2; [|done].
  destruct He, Hl as [_ Hwf]. destruct o2 as [[] lg]. by split; simpl; try (split; [|apply se_wf]).
Qed.

(** A call that returned had submitted graph ids and accepted values. *)
Lemma structured_progress_Ok s l p fvs rids turn kind r :
  apply_structured_progress_v2 s l fvs rids turn kind = Ok r ->
  resolve_pack s = Ok p -> pack_contract p -> ledger_valid l ->
  structured_applied s l p fvs rids r.
Proof.
  intros Hr Hp Hpk Hl. pose proof Hr as Hr0. unfold apply_structured_progress_v2 in Hr0.
  rewrite Hp in Hr0. res_inv. breflect.
  edestruct (structured_progress_total s l p fvs rids turn kind) as (r' & Hr' & Ha); try done.
  - by match goal with H : validate_ledger_binding _ _ _ = Ok ?u |- _ => destruct u end.
  - intros i v Hiv.
    match goal with H : mapR (check_fact_value p) _ = Ok _ |- _ =>
      destruct (mapR_elem _ _ _ _ H Hiv) as [[] Hc] end.
    unfold check_fact_value in Hc. simpl in Hc. destruct (facts_by_id p i) as [f|]; [|done].
    simpl in Hc. apply raise_if_Ok, negb_false_iff in Hc. eauto.
  - rewrite Hr in Hr'. by injection Hr' as <-.
Qed.

(** Structured progress (a resolved choice or joint action) is decided by
    the pinned content alone.  For graph ids it either applies every submitted
    target (the verified sets grow by exactly those ids, partial attempts and
    auxiliary markers untouched, the ledger still valid, bound and
    truth-consistent), or it raises the ledger error because some submitted
    value is not one the pinned fact accepts, and then nothing is applied. *)
Theorem structured_progress_decided s l p fvs rids turn kind :
  resolve_pack s = Ok p -> pack_contract p -> validate_ledger_binding s l p = Ok tt ->
  ledger_valid l -> turn_id_ok turn = true -> NoDup rids ->
  (forall i, i ∈ map fst fvs -> i ∈ pack_fact_ids p) ->
  (forall i, i ∈ rids -> i ∈ pack_relation_ids p) ->
  match apply_structured_progress_v2 s l fvs rids turn kind with
  | Ok r =>
      (forall i v, (i, v) ∈ fvs -> exists f, facts_by_id p i = Some f /\ value_matches f v = true) /\
      dom (verified_facts (ar_ledger r)) = dom (verified_facts l) ∪ list_to_set (map fst fvs) /\
      dom (verified_relations (ar_ledger r)) = dom (verified_relations l) ∪ list_to_set rids /\
      partial_relations (ar_ledger r) = partial_relations l /\
      accepted_auxiliary_evidence (ar_ledger r) = accepted_auxiliary_evidence l /\
      maps_grow (maps_of l) (maps_of (ar_ledger r)) /\ ledger_valid (ar_ledger r) /\
      validate_ledger_binding s (ar_ledger r) p = Ok tt
  | Raise e =>
      e = DialogueV2LedgerError "structured fact value differs from pinned canonical content" /\
      exists i v f, (i, v) ∈ fvs /\ facts_by_id p i = Some f /\ value_matches f v = false
  end.
Proof.
  intros Hp Hpk Hb Hl Ht Hnd Hfs Hrs.
  destruct (mapR (check_fact_value p) fvs) as [us|e] eqn:Hck.
  - assert (Hval : forall i v, (i, v) ∈ fvs ->
      exists f, facts_by_id p i = Some f /\ value_matches f v = true).
    { intros i v Hiv. destruct (mapR_elem _ _ _ _ Hck Hiv) as [[] Hc].
      unfold check_fact_value in Hc. simpl in Hc. destruct (facts_by_id p i) as [f|]; [|done].
      simpl in Hc. apply raise_if_Ok, negb_false_iff in Hc. eauto. }
    destruct (structured_progress_total s l p fvs rids turn kind) as (r & -> & []); done.
  - unfold apply_structured_progress_v2.
    rewrite Ht, (proj2 (uniqueb_spec rids) Hnd), Hp. cbn [negb raise_if mbind res_bind].
    rewrite Hb. cbn [mbind res_bind].
    rewrite (proj2 (subsetb_spec _ _) Hfs), (proj2 (subsetb_spec _ _) Hrs), Hck.
    cbn [negb raise_if mbind res_bind].
    apply mapR_raise in Hck as ([i v] & Hiv & Hck).
    assert (is_Some (facts_by_id p i)) as [f Hf].
    { apply facts_by_id_is_Some, Hfs, list_elem_of_fmap. by exists (i, v). }
    unfold check_fact_value in Hck. simpl in Hck. rewrite Hf in Hck. simpl in Hck.
    destruct (value_matches f v) eqn:Hv; [done|]. injection Hck as <-. eauto 10.
Qed.

(** ** Persistence *)

Definition evidence_bounded (l : ReasoningLedgerV2) : Prop :=
  map_Forall (fun _ e => length (vf_evidence e) <= 100) (verified_facts l) /\
  map_Forall (fun _ e => length (vr_evidence e) <= 100) (verified_relations l) /\
  map_Forall (fun _ e => length (pr_evidence e) <= 100) (partial_relations l).

#[export] Instance evidence_bounded_dec l : Decision (evidence_bounded l).
Proof. unfold evidence_bounded. apply _. Defined.

Lemma evidence_length_ok_spec {A} (ev : list A) :
  ev <> [] -> evidence_length_ok ev = true <-> length ev <= 100.
Proof.
  intros Hne. unfold evidence_length_ok. rewrite bool_decide_eq_true.
  destruct ev; [done|]. simpl. lia.
Qed.

Lemma reload_fact_spec k e :
  fact_entry_wf k e -> (exists e', reload_fact_entry e = Ok e') <-> length (vf_evidence e) <= 100.
Proof.
  intros (Hk & Hid & Hne & Hnd & Hst). unfold reload_fact_entry.
  destruct (mapR_total fact_evidence_validate (vf_evidence e)) as [us ->].
  { intros x Hx. rewrite Forall_forall in Hst. specialize (Hst x Hx). destruct x; simpl.
    - rewrite Hst. simpl. eauto.
    - destruct Hst as [-> _]. simpl. eauto. }
  cbn [mbind res_bind]. unfold verified_fact_entry.
  assert (existsb (fun x => match x with
            | FE_structured s => structured_mismatch KIND_fact (vf_fact_id e) s
            | FE_understanding _ => false end) (vf_evidence e) = false) as Hm.
  { apply not_true_iff_false. intros (x & Hx%list_elem_of_In & Hbad)%existsb_exists.
    rewrite Forall_forall in Hst. specialize (Hst x Hx). destruct x as [|sv]; [done|].
    destruct Hst as (_ & Hs1 & Hs2). unfold structured_mismatch in Hbad.
    by rewrite Hs1, Hs2, Hk, !bool_decide_eq_false_2 in Hbad by (intros Hn; by apply Hn). }
  rewrite Hm, (proj2 (uniqueb_spec _) Hnd), Hk, Hid. simpl.
  rewrite <- evidence_length_ok_spec by done. destruct (evidence_length_ok _); simpl; naive_solver.
Qed.

Lemma reload_relation_spec k e :
  relation_entry_wf k e ->
  (exists e', reload_relation_entry e = Ok e') <-> length (vr_evidence e) <= 100.
Proof.
  intros (Hk & Hid & Hne & Hnd & Hst). unfold reload_relation_entry.
  destruct (mapR_total relation_evidence_validate (vr_evidence e)) as [us ->].
  { intros x Hx. rewrite Forall_forall in Hst. specialize (Hst x Hx). destruct x as [q v|sv]; simpl.
    - destruct Hst as [-> Hv]. cbn [mbind res_bind]. rewrite (proj2 (memb_spec _ _) Hv). by exists tt.
    - destruct Hst as [-> _]. simpl. eauto. }
  cbn [mbind res_bind]. unfold verified_relation_entry.
  assert (existsb (fun x => match x with
            | RE_structured s => structured_mismatch KIND_relation (vr_relation_id e) s
            | RE_understanding _ _ => false end) (vr_evidence e) = false) as Hm.
  { apply not_true_iff_false. intros (x & Hx%list_elem_of_In & Hbad)%existsb_exists.
    rewrite Forall_forall in Hst. specialize (Hst x Hx). destruct x as [|sv]; [done|].
    destruct Hst as (_ & Hs1 & Hs2). unfold structured_mismatch in Hbad.
    by rewrite Hs1, Hs2, Hk, !bool_decide_eq_false_2 in Hbad by (intros Hn; by apply Hn). }
  rewrite Hm, (proj2 (uniqueb_spec _) Hnd), Hk, Hid. simpl.
  rewrite <- evidence_length_ok_spec by done. destruct (evidence_length_ok _); simpl; naive_solver.
Qed.

Lemma reload_partial_spec k e :
  partial_entry_wf k e ->
  (exists e', reload_partial_entry e = Ok e') <-> length (pr_evidence e) <= 100.
Proof.
  intros (Hk & Hid & Hne & Hnd & Hst). unfold reload_partial_entry.
  destruct (mapR_total evidence_pointer (pr_evidence e)) as [us ->].
  { intros x Hx. rewrite Forall_forall in Hst. rewrite (Hst x Hx). eauto. }
  cbn [mbind res_bind]. unfold partial_relation_entry.
  rewrite (proj2 (uniqueb_spec _) Hnd), Hk, Hid. simpl.
  rewrite <- evidence_length_ok_spec by done. destruct (evidence_length_ok _); simpl; naive_solver.
Qed.

Lemma reload_auxiliary_ok k a : auxiliary_wf k a -> reload_auxiliary a = Ok a.
Proof.
  intros (_ & Hs & Hp & Hv). unfold reload_auxiliary. rewrite Hp. cbn [mbind res_bind].
  by rewrite Hs, (proj2 (memb_spec _ _) Hv).
Qed.

(** Reading a map back succeeds when every entry's validator does. *)
Lemma reload_map {A} (f : A -> res A) (P : string -> A -> Prop) (m : gmap string A) :
  (forall k e, m !! k = Some e -> (exists e', f e = Ok e') <-> P k e) ->
  (exists ys, mapR (fun kv => f kv.2) (map_to_list m) = Ok ys) <-> map_Forall P m.
Proof.
  intros Hf. split.
  - intros [ys Hys] k e He. apply Hf; [done|].
    apply (mapR_elem _ _ _ (k, e) Hys). by apply elem_of_map_to_list.
  - intros Hm. apply mapR_total. intros [k e] He%elem_of_map_to_list. apply (Hf k e He). by apply Hm.
Qed.

(** Rereading a stored ledger succeeds exactly within the bounds of its evidence lists. *)
Lemma reload_decides l :
  ledger_valid l -> (reload_ledger l = Ok l <-> evidence_bounded l) /\
                    (~ evidence_bounded l -> exists e, reload_ledger l = Raise e).
Proof.
  intros [Hl []]. simpl in *. unfold reload_ledger, evidence_bounded.
  pose proof (reload_map reload_fact_entry (fun _ e => length (vf_evidence e) <= 100)
    (verified_facts l) (fun k e He => reload_fact_spec k e (mw_facts k e He))) as H1.
  pose proof (reload_map reload_relation_entry (fun _ e => length (vr_evidence e) <= 100)
    (verified_relations l) (fun k e He => reload_relation_spec k e (mw_relations k e He))) as H2.
  pose proof (reload_map reload_partial_entry (fun _ e => length (pr_evidence e) <= 100)
    (partial_relations l) (fun k e He => reload_partial_spec k e (mw_partials k e He))) as H3.
  destruct (mapR_total (fun kv : string * _ => reload_auxiliary kv.2)
    (map_to_list (accepted_auxiliary_evidence l))) as [ys4 E4].
  { intros [k a] Ha%elem_of_map_to_list. exists a. simpl. eapply reload_auxiliary_ok, mw_auxiliary, Ha. }
  destruct (mapR _ (map_to_list (verified_facts l))) as [ys1|e1]; cbn [mbind res_bind];
    [|split; [split; [done|]|eauto]; intros [Hx _]; apply H1 in Hx as [? ?]; done].
  destruct (mapR _ (map_to_list (verified_relations l))) as [ys2|e2]; cbn [mbind res_bind];
    [|split; [split; [done|]|eauto]; intros (_ & Hx & _); apply H2 in Hx as [? ?]; done].
  destruct (mapR _ (map_to_list (partial_relations l))) as [ys3|e3]; cbn [mbind res_bind];
    [|split; [split; [done|]|eauto]; intros (_ & _ & Hx); apply H3 in Hx as [? ?]; done].
  rewrite E4. cbn [mbind res_bind]. rewrite Hl.
  assert (evidence_bounded l) as Hb by (split; [|split]; [apply H1|apply H2|apply H3]; eauto).
  split; [done|]. by intros [].
Qed.

(** (C32) Round trip through storage: a valid ledger read back with full
    revalidation is the same ledger exactly when no evidence list is longer
    than the field bound of 100; otherwise reading it raises. *)
Theorem ledger_reload_iff l :
  ledger_valid l -> (reload_ledger l = Ok l <-> evidence_bounded l) /\
                    (~ evidence_bounded l -> exists e, reload_ledger l = Raise e).
Proof. exact (reload_decides l). Qed.

(** (C33) The appends do not enforce that bound: when a fact already carries 100
    pieces of evidence, one more admitted [correct] claim about it is accepted,
    and the ledger it returns can no longer be read back from storage. *)
Theorem evidence_append_exceeds_bound s l g turn r c e :
  apply_guarded_understanding_v2 s l g turn = Ok r -> ledger_valid l ->
  claims (gu_response g) = [FactClaim c] -> fc_verdict c = V_correct ->
  verified_facts l !! fc_fact_id c = Some e -> length (vf_evidence e) = 100 ->
  (forall m, m ∈ gu_evidence_matches g -> fact_evidence_id turn m c ∉ map fe_id (vf_evidence e)) ->
  exists err, reload_ledger (ar_ledger r) = Raise err.
Proof.
  intros Hr Hl Hc Hv He Hlen Hnew.
  pose proof Hr as (p & [_ _ _ Hm Heff _ Hled _ _ _])%apply_guarded_applied.
  assert (ledger_valid (ar_ledger r)) as Hl'.
  { split; [done|]. destruct Hl. by eapply cl_wf. }
  assert (exists e', verified_facts (ar_ledger r) !! fc_fact_id c = Some e' /\
                     100 < length (vf_evidence e')) as (e' & He' & Hlen').
  { destruct (mg_facts _ _ (cl_grow _ _ _ _ _ _ Heff) _ _ He) as (e' & He' & _ & _ & [k Hk]).
    exists e'. split; [done|].
    destruct (cl_recorded _ _ _ _ _ _ Heff (FactClaim c)) as (m & Hmc & Hrec & _);
      [rewrite Hc; left|].
    destruct (Hrec Hv) as (e2 & He2 & Hin). simpl in He2, He'. rewrite He' in He2.
    injection He2 as <-. rewrite Hk, map_app in Hin. apply elem_of_app in Hin as [Hin|Hin].
    - apply find_first_Some in Hmc as [Hmc _]. exfalso. eapply Hnew; [|exact Hin].
      by apply list_elem_of_In, in_rev, list_elem_of_In.
    - rewrite Hk, length_app. destruct k; [by apply not_elem_of_nil in Hin|]. simpl. lia. }
  destruct (reload_ledger (ar_ledger r)) as [l2|err] eqn:Hre; [|eauto]. exfalso.
  unfold reload_ledger in Hre. destruct (mapR _ (map_to_list (verified_facts _))) eqn:Em; [|done].
  destruct Hl' as [_ []]. simpl in *.
  destruct (mapR_elem _ _ _ (fc_fact_id c, e') Em) as [y Hy]; [by apply elem_of_map_to_list|].
  simpl in Hy. assert (length (vf_evidence e') <= 100); [|lia].
  eapply reload_fact_spec; [by apply mw_facts|eauto].
Qed.
End structured.
