(* ===== verification/ContentCopy.v ===== *)
(** Reading authored copy: the numbers and equations a line states, and the
    Korean wording checks ([_surface_numbers], [_validate_authored_equations] and
    the patterns of [src/mormi_api/dialogue_v2_content.py], and
    [src/mormi_api/copy_quality.py]). *)

From S2P Require Import Prelude.
From S2P Require Import PyStr.
From S2P Require Import PyNum.
From S2P Require Import Json.
From S2P Require Import Schemas.
From S2P Require Import Requests.
From S2P Require Import Regex.
From S2P Require Import Packs.
Local Open Scope Z_scope.

(** * Numbers in text *)

(** [int(c)] for a decimal digit. *)
Definition digit_value (c : N) : Z :=
  match find_first (fun b => (b <=? c)%N && (c <=? b + 9)%N) digit_blocks with
  | Some b => Z.of_N (c - b)
  | None => 0
  end.

Definition is_comma (c : N) : bool := (c =? 44)%N.

(** The longest prefix satisfying [p], and the rest. *)
Fixpoint span (p : N -> bool) (u : ustr) : ustr * ustr :=
  match u with
  | [] => ([], [])
  | c :: u' => if p c then let '(a, b) := span p u' in (c :: a, b) else ([], u)
  end.

Definition digits_value (u : ustr) : Z := fold_left (fun n c => 10 * n + digit_value c) u 0.

(** One greedy match of [\d[\d,]*(?:\.\d+)?] at the head of the text, with the
    [Decimal] of its text without commas. *)
Definition scan_number (u : ustr) : option (decimal * ustr) :=
  match u with
  | c :: _ =>
      if is_digit c then
        let '(whole, rest) := span (fun c => is_digit c || is_comma c) u in
        let whole_digits := List.filter is_digit whole in
        match rest with
        | dot :: rest' =>
            if (dot =? 46)%N then
              let '(frac, rest'') := span is_digit rest' in
              if truthy frac then
                Some (Dec (digits_value (whole_digits ++ frac)) (- Z.of_nat (length frac)), rest'')
              else Some (Dec (digits_value whole_digits) 0, rest)
            else Some (Dec (digits_value whole_digits) 0, rest)
        | [] => Some (Dec (digits_value whole_digits) 0, rest)
        end
      else None
  | [] => None
  end.

(** [finditer]: scanning resumes after a match, and one character on otherwise.
    Every round consumes text, so the length of the text is enough fuel. *)
Fixpoint scan_numbers (fuel : nat) (u : ustr) : list decimal :=
  match fuel with
  | O => []
  | S f =>
      match u with
      | [] => []
      | _ :: u' =>
          match scan_number u with
          | Some (d, rest) => d :: scan_numbers f rest
          | None => scan_numbers f u'
          end
      end
  end.

Definition text_numbers (s : string) : list decimal :=
  let u := utf8_decode s in scan_numbers (length u) u.

Fixpoint surface_numbers (v : json) : list decimal :=
  match v with
  | JNull | JBool _ => []
  | JNum n => [decimal_of n]
  | JStr s => text_numbers s
  | JArr l => flat_map surface_numbers l
  | JObj kvs => flat_map (fun kv => surface_numbers kv.2) kvs
  end.

Definition dec_in (d : decimal) (l : list decimal) : bool := existsb (dec_eqb d) l.
(** [set(a).issubset(b)] on decimals. *)
Definition dec_subset (a b : list decimal) : bool := forallb (fun d => dec_in d b) a.
(** [numbers == [expected]] *)
Definition dec_is_only (numbers : list decimal) (expected : decimal) : bool :=
  match numbers with [d] => dec_eqb d expected | _ => false end.

(** * Typed values *)

Definition is_numeric (v : CanonicalValueV2) : bool :=
  match v with MoneyValueV2 _ _ | NumberValueV2 _ _ => true | _ => false end.

Definition decimal_value (v : CanonicalValueV2) : res decimal :=
  match v with
  | MoneyValueV2 a _ => Ok (decimal_of a)
  | NumberValueV2 x _ => Ok (decimal_of x)
  | _ => Raise (ValidationError "arithmetic relation facts must use typed numeric values")
  end.

Inductive dimension := DIM_money (currency : string) | DIM_number (unit : option string).
#[export] Instance dimension_eq_dec : EqDecision dimension. Proof. solve_decision. Defined.

Definition numeric_dimension (v : CanonicalValueV2) : res dimension :=
  match v with
  | MoneyValueV2 _ c => Ok (DIM_money c)
  | NumberValueV2 _ u => Ok (DIM_number u)
  | _ => Raise (ValidationError "arithmetic relation facts must use typed numeric values")
  end.

(** [{_decimal_value(v) for v in values if isinstance(v, Money | Number)}] *)
Definition numeric_values (l : list CanonicalValueV2) : list decimal :=
  flat_map (fun v => match v with
                     | MoneyValueV2 a _ => [decimal_of a]
                     | NumberValueV2 x _ => [decimal_of x]
                     | _ => [] end) l.

(** * Authored equations *)

Definition is_operator (c : N) : bool := memb c (utf8_decode "+×÷-").
Definition skip_spaces (u : ustr) : ustr := (span is_space u).2.

(** The repetition [(?:number \s* op \s* )+ number], greedy: the operators, the
    operands and the rest.  Each round consumes an operand. *)
Fixpoint scan_expression (fuel : nat) (u : ustr) : option (list N * list decimal * ustr) :=
  match fuel with
  | O => None
  | S f =>
      match scan_number u with
      | None => None
      | Some (d, rest) =>
          match skip_spaces rest with
          | op :: rest' =>
              if is_operator op then
                match scan_expression f (skip_spaces rest') with
                | Some (ops, ds, rest'') => Some (op :: ops, d :: ds, rest'')
                | None => Some ([], [d], rest)
                end
              else Some ([], [d], rest)
          | [] => Some ([], [d], rest)
          end
      end
  end.

(** One match of [_ARITHMETIC_EQUATION] at the head of the text. *)
Definition scan_equation (u : ustr) : option (list N * list decimal * decimal * ustr) :=
  match scan_expression (S (length u)) u with
  | Some (op :: ops, ds, rest) =>
      match skip_spaces rest with
      | eq :: rest' =>
          if (eq =? 61)%N then
            match scan_number (skip_spaces rest') with
            | Some (d, rest'') => Some (op :: ops, ds, d, rest'')
            | None => None
            end
          else None
      | [] => None
      end
  | _ => None
  end.

Definition one_operator (ops : list N) : bool :=
  match ops with [] => false | op :: ops' => forallb (N.eqb op) ops' end.

Definition plus_sign : N := 43.
Definition times_sign : N := 215.
Definition minus_sign : N := 45.

(** The check of one equation. *)
Definition check_equation (ops : list N) (operands : list decimal) (result : decimal) : res unit :=
  _ ← raise_if (negb (one_operator ops))
        (ValidationError "authored equations must use one explicit operation");
  match ops with
  | [] => Raise IndexError
  | op :: _ =>
      expected ←
        (if (op =? plus_sign)%N then Ok (dec_sum operands)
         else if (op =? times_sign)%N then Ok (fold_left dec_mul operands (Dec 1 0))
         else match operands with
              | [a; b] =>
                  if (op =? minus_sign)%N then Ok (dec_sub a b)
                  else if dec_is_zero b then
                    Raise (ValidationError "authored equation cannot divide by zero")
                  else Ok (dec_div a b)
              | _ => Raise (ValidationError "subtraction and division equations must be binary")
              end);
      raise_if (negb (dec_eqb expected result))
        (ValidationError "child-facing authored equation is mathematically invalid")
  end.

Fixpoint check_equations (fuel : nat) (u : ustr) : res unit :=
  match fuel with
  | O => Ok tt
  | S f =>
      match u with
      | [] => Ok tt
      | _ :: u' =>
          match scan_equation u with
          | Some (ops, ds, d, rest) => _ ← check_equation ops ds d; check_equations f rest
          | None => check_equations f u'
          end
      end
  end.

Definition validate_authored_equations (text : string) : res unit :=
  let u := utf8_decode text in check_equations (length u) u.

(** * Wording *)

Definition teacher_or_evaluation_copy : regex :=
  RAlt (ralts ["맞아"; "틀렸"; "정답"; "오답"; "잘했"; "확인했어"; "기억했어"])
  (foldr RAlt RNone
    [rseq [rlit "다시"; rspaces; rlit "생각"];
     rseq [rlit "왜"; rspaces; rlit "그렇게"; rspaces; rlit "생각"];
     rseq [rlit "설명해"; rspaces; rlit "봐"];
     rseq [rlit "말해"; rspaces; rlit "봐"];
     rseq [rlit "네가"; rspaces; rlit "말한"; rspaces; rlit "데까지"]]).

(** [(?<!똑)같이|함께] *)
Definition joint_words (text : string) : bool :=
  let u := utf8_decode text in
  rsearch (fun prev => negb (bool_decide (prev = head (utf8_decode "똑")))) (rlit "같이") anyctx u
  || rsearch anyctx (rlit "함께") anyctx u.

Definition mormi_first_person (text : string) : bool :=
  rsearch (fun prev => match prev with
                       | None => true
                       | Some c => is_space c || memb c (utf8_decode ",(") end)
    (foldr RAlt RNone
      [RCat (rlit "나") (ropt (ralts ["는"; "랑"; "와"; "도"; "에게"; "한테"; "를"; "의"]));
       RCat (rlit "내") (ropt (ralts ["가"; "게"; "것"; "꺼"]));
       rlit "모르미"])
    (fun next => match next with
                 | None => true
                 | Some c => is_space c || memb c (utf8_decode ",.;!?~") end)
    (utf8_decode text).

Definition help_request_copy : regex :=
  foldr RAlt RNone [rlit "알려줄"; rlit "도와줄"; rseq [rlit "해"; rspaces; rlit "줄"]; rlit "?"].

Definition h0_operation_notation : regex :=
  rseq [rdigit; RStar (RAlt rdigit (rset ",")); ropt (ralts ["원"; "개"; "명"; "장"; "잔"; "권"]);
        rspaces; rset "+×÷-"; rspaces; rdigit].
Definition h0_operation_language : regex :=
  RAlt (ralts ["더하"; "더해"; "빼기"; "빼면"; "곱하"; "나누"])
       (rseq [rlit "차이를"; rspaces; rlit "찾"]).

(** [_NONSTANDARD_PLACE_VALUE] of copy_quality *)
Definition nonstandard_place_value (text : string) : bool :=
  rsearch (fun prev => match prev with None => true | Some c => negb (is_digit c || is_comma c) end)
    (rseq [rplus rdigit; rspaces; ralts ["십"; "백"; "천"]])
    (fun next => match next with None => true | Some c => negb (is_digit c) end)
    (utf8_decode text).

Definition multi_digit_place : regex :=
  rseq [ralts ["일"; "십"; "백"; "천"]; rlit "의"; rspaces; rlit "자리";
        ropt (rseq [rlit "의"; rspaces; rlit "수"]); rlit "를"; rspaces;
        rdigit; rplus rdigit; rspaces; rlit "로"].

Definition known_unnatural_math_copy : regex :=
  foldr RAlt RNone
    [rseq [rlit "본"; rspaces; rlit "점마다"];
     rseq [rlit "대상마다"; rspaces; rlit "수를"];
     rseq [rlit "찬"; rspaces; rlit "칸"];
     rseq [rlit "앞의"; rspaces; rlit "곱"];
     rseq [rlit "십"; rspaces; rlit "하나"];
     rseq [rlit "일이"; rspaces; rlit "모자라면"];
     rseq [rlit "두"; rspaces; rlit "무리"];
     rseq [rlit "십과"; rspaces; rlit "일의"; rspaces; rlit "자리"];
     rseq [rlit "이어"; rspaces; rlit "더"; ralts ["하"; "해"; "할"; "하는"]]].

Definition validate_copy_line (line : string) : res unit :=
  _ ← raise_if (nonstandard_place_value line)
        (ValidationError "child-facing copy must state place value without forms such as '3십'");
  _ ← raise_if (rfind multi_digit_place line)
        (ValidationError "child-facing copy must not describe one place as a multi-digit number");
  raise_if (rfind known_unnatural_math_copy line)
    (ValidationError "child-facing mathematics copy contains an opaque phrase").

Definition validate_child_facing_math_copy (lines : list string) : res unit :=
  _ ← mapR validate_copy_line lines; Ok tt.

Example text_numbers_example :
  text_numbers "사과 1,200원과 3.50개, 12." = [Dec 1200 0; Dec 350 (-2); Dec 12 0].
Proof. vm_compute. done. Qed.
Example equations_example :
  validate_authored_equations "1,000 + 500 = 1500이고 7 ÷ 2 = 3.5" = Ok tt
  /\ is_ok (validate_authored_equations "그래서 2 + 2 = 5") = false
  /\ is_ok (validate_authored_equations "2 + 2 - 1 = 3") = false.
Proof. vm_compute. done. Qed.
Example copy_example :
  is_ok (validate_copy_line "3십이야") = false /\ is_ok (validate_copy_line "30이야") = true
  /\ joint_words "똑같이 나눠" = false /\ joint_words "나랑 같이 하자" = true
  /\ mormi_first_person "나는 몰라" = true /\ mormi_first_person "나무를 세요" = false.
Proof. vm_compute. done. Qed.
