(* ===== verification/ContentChecks.v ===== *)
(** The validators of the home content packs
    ([src/mormi_api/dialogue_v2_content.py]): field constraints, facts, relation
    arithmetic, the reasoning graph and its acyclicity, choices, help cards and
    the pack contract.  A pydantic model's [raise ValueError] surfaces as
    [ValidationError]; nested models are validated before the model that holds
    them. *)

From Stdlib Require Import Ascii.
From S2P Require Import Prelude.
From S2P Require Import PyStr.
From S2P Require Import PyNum.
From S2P Require Import Json.
From S2P Require Import Schemas.
From S2P Require Import Requests.
From S2P Require Import Regex.
From S2P Require Import Packs.
From S2P Require Import PackDump.
From S2P Require Import Snapshot.
From S2P Require Import ContentCopy.

Definition invalid {A} (msg : string) : res A := Raise (ValidationError msg).
Definition check (ok : bool) (msg : string) : res unit := raise_if (negb ok) (ValidationError msg).

(** * Field constraints *)

Definition is_lower (c : ascii) : bool :=
  let n := N_of_ascii c in ((97 <=? n) && (n <=? 122))%N.
Definition is_content_char (c : ascii) : bool :=
  let n := N_of_ascii c in
  is_lower c || ((48 <=? n) && (n <=? 57))%N || memb c ["_"%char; "."%char; "-"%char].

(** [^[a-z][a-z0-9_.-]*$] with a [max_length] *)
Definition content_id (max_length : nat) (s : string) : bool :=
  match s with
  | EmptyString => false
  | String c s' => is_lower c && string_forallb is_content_char s'
                   && bool_decide (String.length s <= max_length)
  end.

(** [Field(min_length=lo, max_length=hi)] on text and on lists *)
Definition text_field (lo hi : nat) (s : string) : bool := bool_decide (lo <= py_len s <= hi).
Definition opt_text_field (lo hi : nat) (s : option string) : bool :=
  match s with Some s => text_field lo hi s | None => true end.
Definition list_field {A} (lo hi : nat) (l : list A) : bool := bool_decide (lo <= length l <= hi).

Definition value_fields (v : CanonicalValueV2) : bool :=
  match v with
  | MoneyValueV2 _ c => text_field 3 3 c
  | NumberValueV2 _ u => opt_text_field 0 30 u
  | TextValueV2 t => text_field 1 160 t
  | BooleanValueV2 _ => true
  | ChoiceValueV2 c => text_field 1 160 c
  end.

Definition target_fields (t : TargetRefV2) : bool := content_id 120 (target_id t).

Definition question_fields (q : QuestionPlanV2) : bool :=
  content_id 120 (qp_plan_id q) && list_field 1 4 (qp_targets q)
  && forallb target_fields (qp_targets q) && text_field 1 220 (qp_reviewed_fallback q).

Definition copy_slot_fields (s : CopySlotV2) : bool :=
  content_id 160 (cs_copy_slot s) && list_field 1 4 (cs_targets s)
  && forallb target_fields (cs_targets s) && text_field 1 240 (cs_generation_brief s)
  && text_field 1 220 (cs_reviewed_fallback s).

Definition rubric_fields (r : RelationRubricV2) : bool :=
  list_field 1 12 (rr_sufficient r) && list_field 1 12 (rr_partial r)
  && list_field 1 12 (rr_incorrect r).

(** * Source problem *)

(** [^visual(?:\.[A-Za-z][A-Za-z0-9_]*|\.\d+)+$] *)
Definition visual_path : regex :=
  let letter := RChr (fun c => (65 <=? c) && (c <=? 90) || (97 <=? c) && (c <=? 122))%N in
  let word := RAlt letter (RChr (fun c => (48 <=? c) && (c <=? 57) || (c =? 95))%N) in
  RCat (rlit "visual")
    (rplus (RCat (rlit ".") (RAlt (RCat letter (RStar word)) (rplus rdigit)))).
Definition visual_path_field (s : string) : bool :=
  matches visual_path (utf8_decode s) && bool_decide (py_len s <= 180).

(** [validate_label_binding] *)
Definition rendered_binding_validate (b : RenderedFactBindingV2) : res unit :=
  _ ← check (content_id 120 (rb_fact_id b) && visual_path_field (rb_source_path b)
             && match rb_label_path b with Some p => visual_path_field p | None => true end
             && opt_text_field 1 80 (rb_rendered_label b)) "rendered fact fields";
  check (Bool.eqb (bool_decide (rb_label_path b = None)) (bool_decide (rb_rendered_label b = None)))
    "rendered fact label_path and rendered_label must be paired".

Definition ends_with_question_mark (s : string) : bool :=
  bool_decide (last (urstrip (utf8_decode s)) = Some 63%N).

(** [SourceProblemV2.validate_problem] *)
Definition source_problem_validate (p : SourceProblemV2) : res unit :=
  _ ← each rendered_binding_validate (sp_rendered_facts p);
  _ ← check (text_field 1 220 (sp_prompt p) && list_field 2 8 (sp_answers p)
             && text_field 1 100 (sp_correct p) && list_field 1 20 (sp_rendered_facts p))
        "source problem fields";
  _ ← check (ends_with_question_mark (sp_prompt p)) "source problem prompt must be a complete question";
  _ ← check (uniqueb (sp_answers p)) "source problem answers must be unique";
  _ ← check (memb (sp_correct p) (sp_answers p)) "source problem correct must be one of answers";
  _ ← check (match jget "type" (sp_visual p) with Some (JStr _) => true | _ => false end)
        "source problem visual.type is required";
  _ ← check (uniqueb (map (fun b => (rb_fact_id b, rb_source_path b)) (sp_rendered_facts p)))
        "source problem rendered fact bindings must be unique";
  let visual_copy := dumps_default (JObj (sp_visual p)) in
  check (negb (rfind h0_operation_notation visual_copy)
         && negb (rfind h0_operation_language visual_copy))
    "H0 visual cannot reveal an operation or equation".

(** [source_path.split(".")[1:]] *)
Fixpoint split_dots (u cur : ustr) : list ustr :=
  match u with
  | [] => [rev cur]
  | c :: u' => if (c =? 46)%N then rev cur :: split_dots u' [] else split_dots u' (c :: cur)
  end.
Definition path_parts (s : string) : list ustr := tail (split_dots (utf8_decode s) []).

Definition path_error (source_path : string) : pyexn :=
  ValidationError ("rendered fact path does not exist: " ++ source_path).

(** One step of [_resolve_visual_path]. *)
Definition resolve_part (source_path : string) (current : json) (part : ustr) : res json :=
  match current with
  | JObj kvs => or_raise (jget (utf8_encode part) kvs) (path_error source_path)
  | JArr l =>
      if truthy part && forallb is_digit part then
        or_raise (l !! Z.to_nat (digits_value part)) (path_error source_path)
      else Raise (path_error source_path)
  | _ => Raise (path_error source_path)
  end.

Definition resolve_visual_path (visual : list (string * json)) (source_path : string) : res json :=
  foldM (resolve_part source_path) (JObj visual) (path_parts source_path).

(** * Facts *)

(** [validate_visibility_and_aliases] *)
Definition content_fact_validate (f : ContentFactV2) : res unit :=
  _ ← check (content_id 120 (cf_fact_id f) && negb (bool_decide (cf_role f = selection))
             && value_fields (cf_value f) && text_field 1 100 (cf_speaker_label f)
             && list_field 0 20 (cf_accepted_surface_forms f)) "fact fields";
  _ ← check (negb (memb (cf_role f) [intermediate_result; final_answer] && cf_initially_visible f))
        "derived facts cannot be initially visible";
  _ ← check (negb (cf_required_for_completion f && negb (truthy (cf_accepted_surface_forms f))))
        "required facts need accepted surface forms";
  _ ← check (uniqueb (cf_accepted_surface_forms f)) "fact surface forms must be unique";
  if is_numeric (cf_value f) then
    expected ← decimal_value (cf_value f);
    each (fun surface =>
            let numbers := text_numbers surface in
            check (negb (truthy numbers) || dec_is_only numbers expected)
              "numeric fact surface form must equal canonical truth")
      (cf_accepted_surface_forms f)
  else Ok tt.

(** [_validate_rendered_value] *)
Definition validate_rendered_value (f : ContentFactV2) (rendered : json) : res unit :=
  match cf_value f with
  | BooleanValueV2 b =>
      check (match rendered with JBool x => Bool.eqb x b | _ => false end)
        "rendered fact does not show its boolean value"
  | v =>
      if is_numeric v then
        expected ← decimal_value v;
        check (dec_in expected (surface_numbers rendered)) "rendered fact does not show its canonical value"
      else
        check (match rendered with JStr s => truthy (ustrip (utf8_decode s)) | _ => false end)
          "rendered fact needs a non-empty visual label"
  end.

(** * Relations *)

Definition content_relation_fields (r : ContentRelationV2) : bool :=
  content_id 120 (cr_relation_id r) && negb (bool_decide (cr_role r = selection_rule))
  && negb (bool_decide (cr_operation r = R_selection)) && list_field 1 16 (cr_input_fact_ids r)
  && content_id 120 (cr_output_fact_id r) && text_field 1 120 (cr_speaker_label r)
  && rubric_fields (cr_rubric r).

(** [{fact.fact_id: fact for fact in facts}[i]] *)
Definition home_fact (facts : list ContentFactV2) (i : string) : option ContentFactV2 :=
  find_first (fun f => bool_decide (cf_fact_id f = i)) (rev facts).

Definition is_money (d : dimension) : bool := match d with DIM_money _ => true | _ => false end.

(** The dimension rules of a product and of a quotient. *)
Definition product_dimension_ok (l r o : dimension) : bool :=
  if is_money l && negb (is_money r) then bool_decide (o = l)
  else negb (is_money l) && negb (is_money r) && negb (is_money o).
Definition quotient_dimension_ok (l r o : dimension) : bool :=
  if is_money l && negb (is_money r) then bool_decide (o = l)
  else if is_money l && is_money r then bool_decide (l = r) && negb (is_money o)
  else negb (is_money l) && negb (is_money r) && negb (is_money o).

(** [_validate_relation_math] on the values of the relation's facts. *)
Definition relation_math (op : RelationOperation) (inputs : list CanonicalValueV2)
    (output : CanonicalValueV2) : res unit :=
  match op with
  | R_counting =>
      check (match output with NumberValueV2 _ _ => true | _ => false end)
        "counting relation output must be a typed number"
  | R_selection => Raise (ValidationError "unsupported relation operation")
  | R_comparison =>
      numeric ← mapR decimal_value inputs;
      match inputs, numeric, output with
      | [i1; i2], [x; y], ChoiceValueV2 choice =>
          d1 ← numeric_dimension i1;
          d2 ← numeric_dimension i2;
          _ ← check (bool_decide (d1 = d2)) "comparison inputs must use the same numeric dimension";
          let expected := match dec_compare x y with Gt => "left" | Lt => "right" | Eq => "same" end in
          check (bool_decide (choice = expected)) "relation comparison result is invalid"
      | _, _, _ => invalid "comparison needs two numeric inputs and one choice output"
      end
  | R_addition | R_subtraction =>
      numeric ← mapR decimal_value inputs;
      out ← decimal_value output;
      _ ← check (negb (bool_decide (op = R_subtraction)) || bool_decide (length inputs = 2))
            "subtraction relation must have exactly two ordered inputs";
      dims ← mapR numeric_dimension (inputs ++ [output]);
      _ ← check (match dims with d :: ds => forallb (fun e => bool_decide (e = d)) ds | [] => true end)
            "inputs and output must share a dimension";
      let expected := match numeric with
                      | [x; y] => if decide (op = R_subtraction) then dec_sub x y else dec_sum numeric
                      | _ => dec_sum numeric
                      end in
      check (dec_eqb out expected) "relation arithmetic result is invalid"
  | R_multiplication | R_division =>
      numeric ← mapR decimal_value inputs;
      out ← decimal_value output;
      match inputs, numeric with
      | [i1; i2], [x; y] =>
          l ← numeric_dimension i1;
          r ← numeric_dimension i2;
          o ← numeric_dimension output;
          if decide (op = R_multiplication) then
            _ ← check (product_dimension_ok l r o) "unsupported multiplication dimensions";
            check (dec_eqb out (dec_mul x y)) "relation arithmetic result is invalid"
          else
            _ ← check (negb (dec_is_zero y)) "division relation cannot divide by zero";
            _ ← check (quotient_dimension_ok l r o) "unsupported division dimensions";
            check (dec_eqb (dec_mul out y) x) "relation arithmetic result is invalid"
      | _, _ => invalid "relation must have exactly two ordered inputs"
      end
  end.

Definition validate_relation_math (facts : list ContentFactV2) (r : ContentRelationV2) : res unit :=
  inputs ← mapR (fun i => or_raise (home_fact facts i) (KeyError i)) (cr_input_fact_ids r);
  output ← or_raise (home_fact facts (cr_output_fact_id r)) (KeyError (cr_output_fact_id r));
  _ ← check (uniqueb (cr_input_fact_ids r)) "relation inputs must be unique";
  relation_math (cr_operation r) (map cf_value inputs) (cf_value output).

(** [_validate_relation_rubric] *)
Definition validate_relation_rubric (facts : list ContentFactV2) (r : ContentRelationV2) : res unit :=
  used ← mapR (fun i => or_raise (home_fact facts i) (KeyError i))
           (cr_input_fact_ids r ++ [cr_output_fact_id r]);
  let allowed_numbers := numeric_values (map cf_value used) in
  each (fun line =>
          _ ← check (dec_subset (text_numbers line) allowed_numbers)
                "relation rubric contains an undeclared value";
          validate_authored_equations line)
    (rr_sufficient (cr_rubric r) ++ rr_partial (cr_rubric r) ++ rr_incorrect (cr_rubric r)).

(** * The reasoning graph *)

Definition validate_relation (facts : list ContentFactV2) (r : ContentRelationV2) : res unit :=
  let fact_ids := map cf_fact_id facts in
  _ ← check (subsetb (cr_input_fact_ids r) fact_ids) "relation inputs must reference graph facts";
  _ ← check (memb (cr_output_fact_id r) fact_ids) "relation output must reference a graph fact";
  _ ← check (negb (memb (cr_output_fact_id r) (cr_input_fact_ids r)))
        "relation cannot consume its own output";
  _ ← validate_relation_math facts r;
  validate_relation_rubric facts r.

(** [dependencies]: the inputs of the relations that produce a fact. *)
Definition dependencies (relations : list ContentRelationV2) (i : string) : list string :=
  flat_map cr_input_fact_ids
    (List.filter (fun r => bool_decide (cr_output_fact_id r = i)) relations).

(** The depth-first [visit]: [visiting] is the path, the result the new
    [visited] set.  [fuel] bounds the length of a path; the number of facts plus
    one is enough, since a repeated fact on the path is the cycle error. *)
Fixpoint visit (deps : string -> list string) (fuel : nat) (visiting visited : list string)
    (i : string) : res (list string) :=
  match fuel with
  | O => Raise (RuntimeError "RecursionError")
  | S f =>
      if memb i visiting then Raise (ValidationError "reasoning graph must be acyclic")
      else if memb i visited then Ok visited
      else
        visited' ← foldM (fun v d => visit deps f (i :: visiting) v d) visited (deps i);
        Ok (i :: visited')
  end.

Definition check_acyclic (fact_ids : list string) (deps : string -> list string) : res unit :=
  _ ← foldM (fun v i => visit deps (S (length fact_ids)) [] v i) [] fact_ids;
  Ok tt.

Definition completion_fields (lo : nat) (c : CompletionContractV2) : bool :=
  list_field 1 20 (required_fact_ids c) && list_field lo 20 (required_relation_ids c).

(** [ReasoningGraphV2.validate_graph], nested models first *)
Definition reasoning_graph_validate (g : ReasoningGraphV2) : res unit :=
  _ ← each content_fact_validate (rg_facts g);
  _ ← check (forallb content_relation_fields (rg_relations g)) "relation fields";
  _ ← check (completion_fields 1 (rg_completion g)) "completion fields";
  _ ← check (list_field 2 50 (rg_facts g) && list_field 1 50 (rg_relations g)) "graph fields";
  let fact_ids := map cf_fact_id (rg_facts g) in
  let relation_ids := map cr_relation_id (rg_relations g) in
  _ ← check (uniqueb fact_ids) "reasoning graph fact ids must be unique";
  _ ← check (uniqueb relation_ids) "reasoning graph relation ids must be unique";
  _ ← each (validate_relation (rg_facts g)) (rg_relations g);
  let required_facts := map cf_fact_id (List.filter cf_required_for_completion (rg_facts g)) in
  let required_relations :=
    map cr_relation_id (List.filter cr_required_for_completion (rg_relations g)) in
  _ ← check (set_eqb (required_fact_ids (rg_completion g)) required_facts)
        "completion fact ids must equal required graph facts";
  _ ← check (set_eqb (required_relation_ids (rg_completion g)) required_relations)
        "completion relation ids must equal required graph relations";
  _ ← check (uniqueb (required_fact_ids (rg_completion g))) "completion fact ids must be unique";
  _ ← check (uniqueb (required_relation_ids (rg_completion g)))
        "completion relation ids must be unique";
  check_acyclic fact_ids (dependencies (rg_relations g)).
