(* ===== verification/ContentPack.v ===== *)
(** The pack contract of a home teaching pack
    ([RequiredHomeTeachingPackV2.validate_pack_contract] and the helper
    validators it calls, in [src/mormi_api/dialogue_v2_content.py]), and the
    validators of the parts it holds. *)

From S2P Require Import Prelude.
From S2P Require Import PyStr.
From S2P Require Import PyNum.
From S2P Require Import Json.
From S2P Require Import Schemas.
From S2P Require Import Requests.
From S2P Require Import Regex.
From S2P Require Import Packs.
From S2P Require Import PackDump.
From S2P Require Import Snapshot.
From S2P Require Import ContentCopy.
From S2P Require Import ContentChecks.

(** * Choices, joint plan, help cards, policies *)

(** [ChoiceEffectV2.validate_effect] *)
Definition choice_effect_validate (e : ChoiceEffectV2) : res unit :=
  _ ← check (content_id 120 (ce_target_id e)
             && match ce_interpreted_value e with Some v => value_fields v | None => true end
             && match ce_misconception_code e with Some m => content_id 120 m | None => true end)
        "choice effect fields";
  match ce_verdict e with
  | choice_correct =>
      _ ← check (bool_decide (ce_misconception_code e = None))
            "correct choice cannot declare a misconception";
      match ce_target_kind e with
      | KIND_fact =>
          check (match ce_interpreted_value e with Some _ => true | None => false end)
            "correct fact choice needs interpreted_value"
      | KIND_relation =>
          check (match ce_interpreted_value e with Some _ => false | None => true end)
            "relation choice cannot declare interpreted_value"
      end
  | choice_incorrect =>
      _ ← check (match ce_interpreted_value e with Some _ => false | None => true end)
            "incorrect choice cannot verify a value";
      check (negb (bool_decide (ce_misconception_code e = None)))
        "incorrect choice needs misconception_code"
  end.

(** [L2ChoicePlanV2.validate_choices] *)
Definition l2_plan_validate (p : L2ChoicePlanV2) : res unit :=
  _ ← each (fun c => choice_effect_validate (lc_effect c)) (l2_choices p);
  _ ← check (content_id 120 (l2_plan_id p) && target_fields (l2_target p)
             && content_id 160 (l2_copy_slot p) && list_field 2 8 (l2_choices p)
             && forallb (fun c => content_id 100 (lc_choice_id c) && text_field 1 80 (lc_label c))
                  (l2_choices p)) "L2 plan fields";
  _ ← check (uniqueb (map lc_choice_id (l2_choices p))) "L2 choice ids must be unique";
  _ ← check (bool_decide (length (List.filter
               (fun c => bool_decide (ce_verdict (lc_effect c) = choice_correct)) (l2_choices p)) = 1))
        "L2 plan needs exactly one correct choice";
  each (fun c => check (bool_decide ((ce_target_kind (lc_effect c), ce_target_id (lc_effect c))
                                     = target_pair (l2_target p)))
                   "L2 effects must target the plan target") (l2_choices p).

Definition joint_completion_fields (c : JointCompletionV2) : bool :=
  match c with
  | JointFactCompletionV2 i v => content_id 120 i && value_fields v
  | JointRelationCompletionV2 i => content_id 120 i
  end.

Definition joint_plan_fields (p : L0JointPlanV2) : bool :=
  content_id 120 (jp_action_id p) && content_id 160 (jp_intro_copy_slot p)
  && content_id 160 (jp_action_copy_slot p) && list_field 2 20 (jp_completion_values p)
  && forallb joint_completion_fields (jp_completion_values p) && text_field 1 30 (jp_button_label p).

Definition help_card_fields (c : HelpCardV2) : bool :=
  text_field 1 240 (hc_body c) && opt_text_field 1 160 (hc_action c)
  && list_field 0 20 (hc_revealed_fact_ids c) && list_field 0 20 (hc_revealed_relation_ids c).

Definition help_profile_ok (c : HelpCardV2) (l : HintLevel) (s : SupportType) (a : AnswerPolicy)
    : res unit :=
  _ ← check (bool_decide (hc_level c = l)) "help card level does not match its key";
  check (bool_decide (hc_support_type c = s) && bool_decide (hc_answer_policy c = a))
    "help card support profile does not match its level".

(** [HelpPlanV2.validate_levels] *)
Definition help_plan_validate (h : HelpPlanV2) : res unit :=
  _ ← check (forallb help_card_fields [hp_H1 h; hp_H2 h; hp_H3 h]) "help card fields";
  _ ← help_profile_ok (hp_H1 h) H1 attention hidden;
  _ ← help_profile_ok (hp_H2 h) H2 guided_action partial;
  _ ← help_profile_ok (hp_H3 h) H3 joint_model revealed;
  check (negb (truthy (hc_revealed_fact_ids (hp_H1 h)))
         && negb (truthy (hc_revealed_relation_ids (hp_H1 h))))
    "H1 cannot reveal derived facts or relations".

(** [park_link_is_not_an_unlock_contract] *)
Definition journey_validate (j : JourneyLinkV2) : res unit :=
  _ ← check (list_field 0 4 (jl_direct_transfer_scenario_ids j)) "journey fields";
  check (negb (bool_decide (jl_role j = cafe_required)
               && truthy (jl_direct_transfer_scenario_ids j)))
    "cafe required home packs do not map to park scenarios".

(** * The pack contract *)

Section pack.
Variable p : RequiredHomeTeachingPackV2.
Let graph := hp_reasoning_graph p.
Let facts := rg_facts graph.
Let fact_ids := map cf_fact_id facts.
Let relation_ids := map cr_relation_id (rg_relations graph).
Let required := required_targets (HomePack p).
Let H1c := hp_H1 (hp_help_plan p).
Let H2c := hp_H2 (hp_help_plan p).
Let H3c := hp_H3 (hp_help_plan p).

(** The local [target_key]. *)
Definition target_key (t : TargetRefV2) : res (TargetKind * string) :=
  _ ← check (negb (bool_decide (target_kind t = KIND_fact) && negb (memb (target_id t) fact_ids)))
        "question target must reference a graph fact";
  _ ← check (negb (bool_decide (target_kind t = KIND_relation)
                   && negb (memb (target_id t) relation_ids)))
        "question target must reference a graph relation";
  Ok (target_pair t).

Definition covers (l : list (TargetKind * string)) : bool := uniqueb l && set_eqb l required.

Definition questions_ok : res unit :=
  initial ← mapR target_key (qp_targets (hp_initial_question p));
  _ ← check (uniqueb initial) "initial question targets must be unique";
  _ ← check (set_eqb initial required) "initial question must ask every completion target";
  _ ← check (uniqueb (qp_plan_id (hp_initial_question p)
                      :: map qp_plan_id (hp_l3_plans p) ++ map l2_plan_id (hp_l2_plans p)))
        "question plan ids must be unique";
  l3 ← mapR target_key (flat_map qp_targets (hp_l3_plans p));
  _ ← check (forallb (fun q => bool_decide (length (qp_targets q) = 1)) (hp_l3_plans p))
        "each L3 plan must ask one semantic target";
  check (covers l3) "L3 needs exactly one plan for every completion target".

Definition purpose_count (u : CopyPurpose) : nat :=
  length (List.filter (fun s => bool_decide (cs_purpose s = u)) (hp_copy_slots p)).

(** One copy slot of the loop. *)
Definition copy_slot_ok (s : CopySlotV2) : res unit :=
  keys ← mapR target_key (cs_targets s);
  _ ← check (uniqueb keys) "copy slot targets must be unique";
  match cs_purpose s with
  | l0_intro | l0_action =>
      check (set_eqb keys required) "L0 copy slot must cover every completion target"
  | initial_help =>
      match keys, cs_targets s with
      | [k], t :: _ =>
          check (memb k required && bool_decide (ask_kind t = ASK_answer))
            "initial help must narrow the first request to one answer target"
      | _, _ => invalid "initial help must narrow the first request to one answer target"
      end
  | l2_question =>
      match keys with
      | [k] => check (memb k required) "L2 copy slot must reference one completion target"
      | _ => invalid "L2 copy slot must reference one completion target"
      end
  end.

Definition l2_slots : list CopySlotV2 :=
  List.filter (fun s => bool_decide (cs_purpose s = l2_question)) (hp_copy_slots p).

Definition copy_slots_ok : res unit :=
  _ ← check (uniqueb (map cs_copy_slot (hp_copy_slots p))) "copy slots must be unique";
  _ ← check (bool_decide (purpose_count initial_help = 1))
        "pack needs exactly one initial_help copy slot";
  _ ← check (bool_decide (purpose_count l0_intro = 1)) "pack needs exactly one l0_intro copy slot";
  _ ← check (bool_decide (purpose_count l0_action = 1)) "pack needs exactly one l0_action copy slot";
  _ ← each copy_slot_ok (hp_copy_slots p);
  l2_keys ← mapR (fun s => or_raise (head (map target_pair (cs_targets s))) IndexError) l2_slots;
  check (covers l2_keys) "L2 needs exactly one copy slot for every completion target".

(** [copy_slots.get(name)] *)
Definition copy_slot (name : string) : option CopySlotV2 :=
  find_first (fun s => bool_decide (cs_copy_slot s = name)) (rev (hp_copy_slots p)).

Definition slot_has_purpose (name : string) (u : CopyPurpose) : bool :=
  match copy_slot name with Some s => bool_decide (cs_purpose s = u) | None => false end.

(** A correct fact choice carries the canonical value. *)
Definition choice_truth_ok (c : L2ChoiceV2) : res unit :=
  let e := lc_effect c in
  if bool_decide (ce_verdict e = choice_correct) && bool_decide (ce_target_kind e = KIND_fact) then
    v ← or_raise (ce_interpreted_value e) AssertionError;
    f ← or_raise (home_fact facts (ce_target_id e)) (KeyError (ce_target_id e));
    check (value_eqb v (cf_value f)) "correct L2 fact value must equal canonical graph truth"
  else Ok tt.

Definition l2_plan_ok (q : L2ChoicePlanV2) : res unit :=
  key ← target_key (l2_target q);
  _ ← check (slot_has_purpose (l2_copy_slot q) l2_question)
        "L2 plan must reference an l2_question copy slot";
  _ ← check (match copy_slot (l2_copy_slot q) with
             | Some s => bool_decide (map target_pair (cs_targets s) = [key])
             | None => false end) "L2 copy slot target must match its choice plan";
  each choice_truth_ok (l2_choices q).

Definition l2_plans_ok : res unit :=
  _ ← each l2_plan_ok (hp_l2_plans p);
  check (covers (map (fun q => target_pair (l2_target q)) (hp_l2_plans p)))
    "L2 needs exactly one plan for every completion target".

(** One completion of the joint plan, with the targets seen so far. *)
Definition joint_step (seen : list (TargetKind * string)) (c : JointCompletionV2)
    : res (list (TargetKind * string)) :=
  _ ← check (negb (memb (joint_pair c) seen)) "L0 completion targets must be unique";
  _ ← match c with
      | JointFactCompletionV2 i v =>
          f ← or_raise (home_fact facts i)
                (ValidationError "L0 fact completion must reference a graph fact");
          check (value_eqb v (cf_value f)) "L0 fact completion must use canonical graph truth"
      | JointRelationCompletionV2 i =>
          check (memb i relation_ids) "L0 relation completion must reference a graph relation"
      end;
  Ok (seen ++ [joint_pair c]).

Definition joint_plan_ok : res unit :=
  _ ← check (slot_has_purpose (jp_intro_copy_slot (hp_l0_joint_plan p)) l0_intro)
        "L0 plan must reference an l0_intro copy slot";
  _ ← check (slot_has_purpose (jp_action_copy_slot (hp_l0_joint_plan p)) l0_action)
        "L0 plan must reference an l0_action copy slot";
  joint ← foldM joint_step [] (jp_completion_values (hp_l0_joint_plan p));
  check (set_eqb joint required) "L0 completion must cover every required graph target".

Definition revealed_pairs (c : HelpCardV2) : list (TargetKind * string) :=
  map (pair KIND_fact) (hc_revealed_fact_ids c)
  ++ map (pair KIND_relation) (hc_revealed_relation_ids c).

Definition help_refs_ok : res unit :=
  _ ← each (fun c =>
        _ ← check (subsetb (hc_revealed_fact_ids c) fact_ids)
              "help card fact refs must reference graph facts";
        check (subsetb (hc_revealed_relation_ids c) relation_ids)
          "help card relation refs must reference graph relations") [H1c; H2c; H3c];
  _ ← check (subsetb required (revealed_pairs H3c)) "H3 must reveal every required graph target";
  _ ← check (negb (existsb (fun i => memb i (required_fact_ids (rg_completion graph)))
                     (hc_revealed_fact_ids H2c))) "H2 cannot reveal a required final fact";
  _ ← check (negb (existsb (fun i => memb i (required_relation_ids (rg_completion graph)))
                     (hc_revealed_relation_ids H2c))) "H2 cannot reveal a required relation";
  _ ← check (subsetb (po_note_relation_ids (hp_policies p)) relation_ids)
        "note relation ids must reference graph relations";
  check (subsetb (po_note_relation_ids (hp_policies p)) (hc_revealed_relation_ids H3c))
    "every note relation must be covered by the H3 joint model".

(** [facts.values()]: the facts in order. *)
Definition visible_facts : list ContentFactV2 := List.filter cf_initially_visible facts.
Definition visible_numbers : list decimal := numeric_values (map cf_value visible_facts).

(** [_validate_help_truth]: the relation markers. *)
Definition relation_marker (op : RelationOperation) : option regex :=
  match op with
  | R_counting => Some (RAlt (RCat (rlit "세") (ralts ["면"; "어"; "기"; "는"]))
                             (ralts ["가리키"; "표시"]))
  | R_comparison => Some (RAlt (ralts ["비교"; "짝지"]) (rseq [rlit "더"; rspaces; rlit "많"]))
  | R_addition => Some (ralts ["+"; "더하"; "더해"; "더하면"; "합치"])
  | R_subtraction => Some (ralts ["-"; "빼"; "차이"])
  | R_multiplication => Some (RAlt (ralts ["×"; "곱"]) (rseq [rlit "번"; rspaces; rlit "더"]))
  | R_division => Some (ralts ["÷"; "나누"; "씩"])
  | R_selection => None
  end.

Definition card_text (c : HelpCardV2) : string :=
  match hc_action c with Some a => hc_body c ++ " " ++ a | None => hc_body c end.

Definition contains_text (needle hay : string) : bool :=
  ucontains (utf8_decode needle) (utf8_decode hay).

Definition help_fact_shown (text : string) (mentioned : list decimal) (i : string) : res unit :=
  f ← or_raise (home_fact facts i) (KeyError i);
  match cf_value f with
  | ChoiceValueV2 _ =>
      check (existsb (fun alias => contains_text alias text) (cf_accepted_surface_forms f))
        "help copy omits a declared choice fact"
  | v => if is_numeric v then
           d ← decimal_value v;
           check (dec_in d mentioned) "help copy omits a declared revealed fact"
         else Ok tt
  end.

Definition help_relation_shown (text : string) (i : string) : res unit :=
  r ← or_raise (find_first (fun r => bool_decide (cr_relation_id r = i)) (rev (rg_relations graph)))
        (KeyError i);
  marker ← or_raise (relation_marker (cr_operation r)) (KeyError (operation_value (cr_operation r)));
  check (rfind marker text) "help copy omits its declared relation".

Definition help_card_truth (c : HelpCardV2) : res unit :=
  let text := card_text c in
  revealed ← mapR (fun i => or_raise (home_fact facts i) (KeyError i)) (hc_revealed_fact_ids c);
  let allowed_numbers := visible_numbers ++ numeric_values (map cf_value revealed) in
  let mentioned := text_numbers text in
  _ ← check (dec_subset mentioned allowed_numbers) "help copy contains an undeclared value";
  _ ← each (help_fact_shown text mentioned) (hc_revealed_fact_ids c);
  each (help_relation_shown text) (hc_revealed_relation_ids c).

Definition validate_help_truth : res unit := each help_card_truth [H1c; H2c; H3c].

(** [_validate_source_problem] *)
Definition rendered_fact_ok (b : RenderedFactBindingV2) : res unit :=
  let counting_outputs :=
    map cr_output_fact_id
      (List.filter (fun r => bool_decide (cr_operation r = R_counting)) (rg_relations graph)) in
  f ← or_raise (home_fact facts (rb_fact_id b))
        (ValidationError "source rendered fact must reference a graph fact");
  _ ← check (negb (bool_decide (rb_exposure b = perceptual_target)
                   && negb (memb (rb_fact_id b) counting_outputs)))
        "perceptual targets are reserved for values encoded by counting visuals";
  rendered ← resolve_visual_path (sp_visual (hp_source_problem p)) (rb_source_path b);
  _ ← validate_rendered_value f rendered;
  match rb_label_path b with
  | None => Ok tt
  | Some path =>
      label ← resolve_visual_path (sp_visual (hp_source_problem p)) path;
      check (match label, rb_rendered_label b with
             | JStr s, Some s' => bool_decide (s = s')
             | JNull, None => true
             | _, _ => false end) "rendered fact label does not match its role"
  end.

Definition validate_source_problem (final_fact : ContentFactV2) : res unit :=
  let sp := hp_source_problem p in
  let explicit := map rb_fact_id
    (List.filter (fun b => bool_decide (rb_exposure b = explicit_given)) (sp_rendered_facts sp)) in
  _ ← check (set_eqb explicit (map cf_fact_id visible_facts))
        "source explicit facts must equal every initially visible fact";
  _ ← check (dec_subset (text_numbers (sp_prompt sp)) visible_numbers)
        "source prompt can mention only initially visible numeric facts";
  _ ← each rendered_fact_ok (sp_rendered_facts sp);
  _ ← check (memb (sp_correct sp) (cf_accepted_surface_forms final_fact))
        "source correct label must be accepted by final answer fact";
  _ ← (if is_numeric (cf_value final_fact) then
         expected ← decimal_value (cf_value final_fact);
         _ ← check (dec_is_only (text_numbers (sp_correct sp)) expected)
               "source correct numeric value must equal canonical truth";
         _ ← each (fun surface =>
               let numbers := text_numbers surface in
               check (negb (truthy numbers) || dec_is_only numbers expected)
                 "numeric answer surface form must equal canonical truth")
               (cf_accepted_surface_forms final_fact);
         check (dec_in expected (text_numbers (hc_body H3c)))
           "H3 must state the canonical final numeric value"
       else
         check (existsb (fun surface => contains_text surface (hc_body H3c))
                  (cf_accepted_surface_forms final_fact))
           "H3 must state an accepted canonical final answer");
  validate_help_truth.

(** [_validate_answer_contract] *)
Definition validate_answer_contract (final_fact : ContentFactV2) : res unit :=
  answer_plan ← or_raise
    (find_first (fun q => bool_decide (target_pair (l2_target q)
                                       = (KIND_fact, cf_fact_id final_fact))) (hp_l2_plans p))
    (ValidationError "L2 needs a final-answer choice plan");
  _ ← check (bool_decide (map lc_label (l2_choices answer_plan) = sp_answers (hp_source_problem p)))
        "source answer options must equal the ordered L2 answer choices";
  match List.filter (fun c => bool_decide (ce_verdict (lc_effect c) = choice_correct))
          (l2_choices answer_plan) with
  | [c] => check (bool_decide (lc_label c = sp_correct (hp_source_problem p)))
             "source correct label must equal the correct L2 answer choice"
  | _ => invalid "source correct label must equal the correct L2 answer choice"
  end.

(** [_validate_static_question_copy] *)
Definition static_line_ok (line : string) : res unit :=
  _ ← check (dec_subset (text_numbers line) visible_numbers)
        "context-free question copy cannot reveal a hidden value";
  each (fun f =>
          if cf_initially_visible f then Ok tt
          else each (fun surface =>
                       check (truthy (text_numbers surface) || negb (contains_text surface line))
                         "context-free question copy cannot reveal a hidden value")
                 (cf_accepted_surface_forms f)) facts.

Definition validate_static_question_copy : res unit :=
  each static_line_ok
    (qp_reviewed_fallback (hp_initial_question p)
     :: map qp_reviewed_fallback (hp_l3_plans p)
     ++ map cs_reviewed_fallback
          (List.filter (fun s => memb (cs_purpose s) [initial_help; l2_question]) (hp_copy_slots p))).

Definition mormi_lines : list string :=
  qp_reviewed_fallback (hp_initial_question p)
  :: map qp_reviewed_fallback (hp_l3_plans p) ++ map cs_reviewed_fallback (hp_copy_slots p).
Definition help_lines : list string :=
  flat_map (fun c => hc_body c :: option_list (hc_action c)) [H1c; H2c; H3c].

Definition starts_with (prefix s : string) : bool := uprefix (utf8_decode prefix) (utf8_decode s).

(** [_validate_copy] *)
Definition validate_copy : res unit :=
  _ ← check (negb (existsb (rfind teacher_or_evaluation_copy) mormi_lines))
        "Mormi copy cannot evaluate or interrogate the child";
  _ ← check (starts_with "나 " (qp_reviewed_fallback (hp_initial_question p)))
        "initial question must expose Mormi's first-person confusion";
  _ ← check (ends_with_question_mark (qp_reviewed_fallback (hp_initial_question p)))
        "initial question must end as a help request";
  _ ← each (fun s =>
        match cs_purpose s with
        | l2_question =>
            _ ← check (contains_text "골라서 알려줄 수 있어?" (cs_reviewed_fallback s))
                  "L2 fallback must ask the child to choose and teach Mormi";
            check (negb (joint_words (cs_reviewed_fallback s)))
              "L2 is selection, not joint performance"
        | l0_intro | l0_action =>
            check (joint_words (cs_reviewed_fallback s))
              "L0 fallback must make joint performance explicit"
        | initial_help => Ok tt
        end) (hp_copy_slots p);
  _ ← check (negb (existsb mormi_first_person help_lines))
        "help cards are neutral system scaffolds, not Mormi speech";
  _ ← check (negb (existsb (rfind help_request_copy) help_lines))
        "help cards must give neutral actions instead of asking the child";
  _ ← validate_static_question_copy;
  _ ← each validate_authored_equations (mormi_lines ++ help_lines);
  validate_child_facing_math_copy
    (sp_prompt (hp_source_problem p) :: sp_answers (hp_source_problem p) ++ mormi_lines
     ++ help_lines ++ flat_map (fun q => map lc_label (l2_choices q)) (hp_l2_plans p)).

(** [validate_pack_contract] *)
Definition validate_pack_contract : res unit :=
  _ ← questions_ok;
  _ ← copy_slots_ok;
  _ ← l2_plans_ok;
  _ ← joint_plan_ok;
  _ ← help_refs_ok;
  match List.filter (fun f => bool_decide (cf_role f = final_answer)) facts with
  | [final_fact] =>
      _ ← validate_source_problem final_fact;
      _ ← validate_answer_contract final_fact;
      validate_copy
  | _ => invalid "required home pack needs exactly one final answer fact"
  end.
End pack.

(** [RequiredHomeTeachingPackV2.model_validate] *)
Definition required_home_pack_validate (p : RequiredHomeTeachingPackV2)
    : res RequiredHomeTeachingPackV2 :=
  _ ← journey_validate (hp_journey p);
  _ ← source_problem_validate (hp_source_problem p);
  _ ← reasoning_graph_validate (hp_reasoning_graph p);
  _ ← each l2_plan_validate (hp_l2_plans p);
  _ ← help_plan_validate (hp_help_plan p);
  _ ← check (content_id 160 (hp_pack_id p) && (1 <=? hp_content_version p)%Z
             && (1 <=? hp_migration_source_content_version p)%Z
             && content_id 80 (hp_curriculum_session_id p) && text_field 1 100 (hp_title p)
             && question_fields (hp_initial_question p)
             && list_field 2 4 (hp_l3_plans p) && forallb question_fields (hp_l3_plans p)
             && list_field 5 8 (hp_copy_slots p) && forallb copy_slot_fields (hp_copy_slots p)
             && list_field 2 4 (hp_l2_plans p) && joint_plan_fields (hp_l0_joint_plan p)
             && list_field 1 10 (po_note_relation_ids (hp_policies p))
             && content_id 160 (po_dictionary_card_id (hp_policies p))) "home pack fields";
  _ ← validate_pack_contract p;
  Ok p.
