(* ===== verification/LifeChecks.v ===== *)
(** The validators of the life tasks and scenarios
    ([src/mormi_api/dialogue_v2_life_content.py]): facts with alternative accepted
    values, relation arithmetic, the task contract, and the staged scenario with
    its variant selectors and completion projection. *)

From Stdlib Require Import Ascii.
From S2P Require Import Prelude.
From S2P Require Import PyStr.
From S2P Require Import PyNum.
From S2P Require Import Json.
From S2P Require Import Schemas.
From S2P Require Import Requests.
From S2P Require Import Regex.
From S2P Require Import Packs.
From S2P Require Import PackDump.
From S2P Require Import Snapshot.
From S2P Require Import ContentCopy.
From S2P Require Import ContentChecks.
From S2P Require Import ContentPack.

(** [_OPAQUE_ID_PATTERN]: [^[A-Za-z0-9][A-Za-z0-9_.-]*$] *)
Definition opaque_id (max_length : nat) (s : string) : bool :=
  id_field max_length s && string_forallb (fun c => negb (bool_decide (c = ":"%char))) s.

(** * Facts *)

(** [LifeFactV2.validate_fact] *)
Definition life_fact_validate (f : LifeFactV2) : res unit :=
  _ ← check (content_id 120 (lf_fact_id f) && value_fields (lf_value f)
             && forallb value_fields (lf_accepted_values f) && list_field 0 20 (lf_accepted_values f)
             && text_field 1 100 (lf_speaker_label f)
             && list_field 0 30 (lf_accepted_surface_forms f)) "life fact fields";
  _ ← check (negb (memb (lf_role f) [intermediate_result; final_answer; selection]
                   && lf_initially_visible f)) "derived life facts cannot be initially visible";
  _ ← check (uniqueb (map value_key (lf_value f :: lf_accepted_values f)))
        "life fact accepted values must be unique";
  _ ← check (uniqueb (lf_accepted_surface_forms f)) "life fact surface forms must be unique";
  check (negb (lf_required_for_completion f && negb (truthy (lf_accepted_surface_forms f))))
    "required life facts need reviewed surface forms".

(** * The reasoning graph *)

Definition life_relation_fields (r : LifeRelationV2) : bool :=
  content_id 120 (lr_relation_id r) && list_field 1 20 (lr_input_fact_ids r)
  && content_id 120 (lr_output_fact_id r) && text_field 1 160 (lr_speaker_label r)
  && rubric_fields (lr_rubric r).

Definition life_fact (facts : list LifeFactV2) (i : string) : option LifeFactV2 :=
  find_first (fun f => bool_decide (lf_fact_id f = i)) (rev facts).

(** [_validate_relation] on the values of the relation's facts. *)
Definition life_relation_math (op : RelationOperation) (goal : option ComparisonGoal)
    (inputs : list CanonicalValueV2) (output : CanonicalValueV2) : res unit :=
  match op with
  | R_counting | R_selection =>
      check (bool_decide (goal = None)) "comparison_goal belongs only to comparison relations"
  | R_comparison =>
      numeric ← mapR decimal_value inputs;
      match inputs, numeric, output with
      | [i1; i2], [x; y], ChoiceValueV2 choice =>
          d1 ← numeric_dimension i1;
          d2 ← numeric_dimension i2;
          _ ← check (bool_decide (d1 = d2)) "life comparison inputs must share a dimension";
          match goal with
          | None => invalid "life comparison must declare maximum or minimum"
          | Some g =>
              let expected :=
                match dec_compare x y, g with
                | Eq, _ => "same"
                | Gt, goal_maximum | Lt, goal_minimum => "left"
                | Lt, goal_maximum | Gt, goal_minimum => "right"
                end in
              check (bool_decide (choice = expected))
                "life comparison output contradicts reviewed facts"
          end
      | _, _, _ => invalid "life comparison needs two values and a choice output"
      end
  | R_addition | R_subtraction =>
      numeric ← mapR decimal_value inputs;
      out ← decimal_value output;
      _ ← check (negb (bool_decide (op = R_subtraction)) || bool_decide (length numeric = 2))
            "life subtraction must be binary";
      dims ← mapR numeric_dimension (inputs ++ [output]);
      _ ← check (match dims with d :: ds => forallb (fun e => bool_decide (e = d)) ds | [] => true end)
            "life addition/subtraction dimensions must match";
      let expected := match numeric with
                      | [x; y] => if decide (op = R_subtraction) then dec_sub x y else dec_sum numeric
                      | _ => dec_sum numeric
                      end in
      check (dec_eqb out expected) "life relation arithmetic contradicts reviewed facts"
  | R_multiplication =>
      numeric ← mapR decimal_value inputs;
      out ← decimal_value output;
      match numeric with
      | [x; y] => check (dec_eqb out (dec_mul x y)) "life relation arithmetic contradicts reviewed facts"
      | _ => invalid "life multiplication must be binary"
      end
  | R_division =>
      numeric ← mapR decimal_value inputs;
      out ← decimal_value output;
      match numeric with
      | [x; y] =>
          _ ← check (negb (dec_is_zero y)) "life division needs two values and a nonzero divisor";
          check (dec_eqb out (dec_div x y)) "life relation arithmetic contradicts reviewed facts"
      | _ => invalid "life division needs two values and a nonzero divisor"
      end
  end.

(** [len(inputs) != len(relation.input_fact_ids)] compares a list with the list
    it was built from: the check never fires. *)
Definition validate_life_relation (facts : list LifeFactV2) (r : LifeRelationV2) : res unit :=
  inputs ← mapR (fun i => or_raise (life_fact facts i) (KeyError i)) (lr_input_fact_ids r);
  output ← or_raise (life_fact facts (lr_output_fact_id r)) (KeyError (lr_output_fact_id r));
  _ ← check (bool_decide (length inputs = length (lr_input_fact_ids r)))
        "life relation inputs must be unique";
  life_relation_math (lr_operation r) (lr_comparison_goal r) (map lf_value inputs) (lf_value output).

Definition life_relation_refs (facts : list LifeFactV2) (r : LifeRelationV2) : res unit :=
  let fact_ids := map lf_fact_id facts in
  _ ← check (subsetb (lr_input_fact_ids r) fact_ids) "life relation inputs must reference graph facts";
  _ ← check (memb (lr_output_fact_id r) fact_ids) "life relation output must reference a graph fact";
  _ ← check (negb (memb (lr_output_fact_id r) (lr_input_fact_ids r)))
        "life relation cannot consume its own output";
  validate_life_relation facts r.

(** [LifeReasoningGraphV2.validate_graph] *)
Definition life_graph_validate (g : LifeReasoningGraphV2) : res unit :=
  _ ← each life_fact_validate (lg_facts g);
  _ ← check (forallb life_relation_fields (lg_relations g)) "life relation fields";
  _ ← check (completion_fields 0 (lg_completion g)) "life completion fields";
  _ ← check (list_field 1 60 (lg_facts g) && list_field 0 60 (lg_relations g)) "life graph fields";
  _ ← check (uniqueb (map lf_fact_id (lg_facts g)) && uniqueb (map lr_relation_id (lg_relations g)))
        "life graph IDs must be unique";
  _ ← check (set_eqb (required_fact_ids (lg_completion g))
               (map lf_fact_id (List.filter lf_required_for_completion (lg_facts g))))
        "life completion facts must match required facts";
  _ ← check (set_eqb (required_relation_ids (lg_completion g))
               (map lr_relation_id (List.filter lr_required_for_completion (lg_relations g))))
        "life completion relations must match required relations";
  _ ← check (uniqueb (required_fact_ids (lg_completion g))
             && uniqueb (required_relation_ids (lg_completion g)))
        "life completion targets must be unique";
  each (life_relation_refs (lg_facts g)) (lg_relations g).

(** * Choices, joint plan, help, policies *)

(** [LifeChoiceEffectV2.validate_effect] *)
Definition life_effect_validate (e : LifeChoiceEffectV2) : res unit :=
  _ ← check (list_field 0 8 (le_fact_updates e) && list_field 0 8 (le_relation_ids e)
             && forallb (fun u => content_id 120 (lu_fact_id u) && value_fields (lu_value u))
                  (le_fact_updates e)
             && match le_misconception_code e with Some m => content_id 120 m | None => true end)
        "life choice effect fields";
  _ ← match le_verdict e with
      | choice_correct =>
          _ ← check (truthy (le_fact_updates e) || truthy (le_relation_ids e))
                "correct life choice must apply reviewed progress";
          check (bool_decide (le_misconception_code e = None))
            "correct life choice cannot declare a misconception"
      | choice_incorrect =>
          check (negb (bool_decide (le_misconception_code e = None)))
            "incorrect life choice needs a misconception code"
      end;
  _ ← check (uniqueb (map lu_fact_id (le_fact_updates e))) "life choice fact updates must be unique";
  check (uniqueb (le_relation_ids e)) "life choice relations must be unique".

Definition life_choice_fields (c : LifeChoiceV2) : bool :=
  opaque_id 100 (lch_choice_id c) && text_field 1 100 (lch_label c)
  && opt_text_field 0 500 (lch_image_url c).

(** [LifeL2ChoicePlanV2.validate_choices] *)
Definition life_l2_plan_validate (p : LifeL2ChoicePlanV2) : res unit :=
  _ ← each (fun c => life_effect_validate (lch_effect c)) (ll2_choices p);
  _ ← check (content_id 120 (ll2_plan_id p) && target_fields (ll2_target p)
             && content_id 160 (ll2_copy_slot p) && list_field 2 20 (ll2_choices p)
             && forallb life_choice_fields (ll2_choices p) && text_field 1 30 (ll2_submit_label p))
        "life L2 plan fields";
  _ ← check (uniqueb (map lch_choice_id (ll2_choices p))) "life choice IDs must be unique";
  check (existsb (fun c => bool_decide (le_verdict (lch_effect c) = choice_correct)
                           && negb (lch_disabled c)) (ll2_choices p))
    "life L2 plan needs one enabled correct choice".

Definition life_joint_fields (p : LifeL0JointPlanV2) : bool :=
  content_id 120 (ljp_action_id p) && content_id 160 (ljp_intro_copy_slot p)
  && content_id 160 (ljp_action_copy_slot p) && list_field 1 20 (ljp_completion_values p)
  && forallb joint_completion_fields (ljp_completion_values p) && text_field 1 30 (ljp_button_label p).

Definition life_help_fields (c : LifeHelpCardV2) : bool :=
  text_field 1 240 (lhc_body c) && opt_text_field 1 160 (lhc_action c)
  && opt_text_field 1 100 (lhc_visual_type c)
  && list_field 0 20 (lhc_revealed_fact_ids c) && list_field 0 20 (lhc_revealed_relation_ids c).

(** [LifeHelpPlanV2.validate_help] *)
Definition life_help_validate (h : LifeHelpPlanV2) : res unit :=
  let profile c l s a :=
    bool_decide (lhc_level c = l) && bool_decide (lhc_support_type c = s)
    && bool_decide (lhc_answer_policy c = a) in
  _ ← check (forallb life_help_fields [lhp_H1 h; lhp_H2 h; lhp_H3 h]) "life help card fields";
  _ ← check (profile (lhp_H1 h) H1 attention hidden && profile (lhp_H2 h) H2 guided_action partial
             && profile (lhp_H3 h) H3 joint_model revealed)
        "life help card profile does not match its level";
  check (negb (truthy (lhc_revealed_fact_ids (lhp_H1 h)))
         && negb (truthy (lhc_revealed_relation_ids (lhp_H1 h)))) "life H1 cannot reveal derived truth".

(** [LifeTaskPoliciesV2.validate_note_policy] *)
Definition life_policies_validate (p : LifeTaskPoliciesV2) : res unit :=
  let is_some {A} (o : option A) := match o with Some _ => true | None => false end in
  _ ← check (memb (lp_entry_expression_level p) [L4; L2] && list_field 0 10 (lp_note_relation_ids p)
             && match lp_note_skill_id p with Some s => content_id 120 s | None => true end
             && opt_text_field 1 200 (lp_note_context p)
             && opt_text_field 1 240 (lp_reviewed_direct_fallback p)
             && opt_text_field 1 240 (lp_reviewed_coauthored_note p)
             && opt_text_field 1 220 (lp_transition_text p)) "life policy fields";
  match lp_note_policy p with
  | note_none =>
      check (negb (truthy (lp_note_relation_ids p) || is_some (lp_note_skill_id p)
                   || is_some (lp_note_context p) || is_some (lp_reviewed_direct_fallback p)
                   || is_some (lp_reviewed_coauthored_note p)))
        "note-disabled life task cannot carry note material"
  | verified_child_or_coauthored =>
      check (truthy (lp_note_relation_ids p) && is_some (lp_note_skill_id p)
             && is_some (lp_note_context p) && is_some (lp_reviewed_direct_fallback p)
             && is_some (lp_reviewed_coauthored_note p))
        "note-enabled life task needs relation, skill and reviewed copy"
  end.

(** * The task contract *)

Section task.
Variable p : LifeTaskPackV2.
Let graph := lt_reasoning_graph p.
Let facts := lg_facts graph.
Let fact_ids := map lf_fact_id facts.
Let relation_ids := map lr_relation_id (lg_relations graph).
Let required := required_targets (LifePack p).

(** The local [key]. *)
Definition life_key (t : TargetRefV2) : res (TargetKind * string) :=
  _ ← check (negb (bool_decide (target_kind t = KIND_fact) && negb (memb (target_id t) fact_ids)))
        "life question target must reference a fact";
  _ ← check (negb (bool_decide (target_kind t = KIND_relation)
                   && negb (memb (target_id t) relation_ids)))
        "life question target must reference a relation";
  Ok (target_pair t).

Definition life_questions_ok : res unit :=
  initial ← mapR life_key (qp_targets (lt_initial_question p));
  _ ← check (set_eqb initial required) "life initial question must cover required targets";
  l3 ← mapR (fun q => t ← or_raise (head (qp_targets q)) IndexError; life_key t) (lt_l3_plans p);
  check (forallb (fun q => bool_decide (length (qp_targets q) = 1)) (lt_l3_plans p)
         && uniqueb l3 && set_eqb l3 required) "life L3 needs one plan per required target".

Definition life_purpose_count (u : CopyPurpose) : nat :=
  length (List.filter (fun s => bool_decide (cs_purpose s = u)) (lt_copy_slots p)).

Definition life_slots_ok : res unit :=
  _ ← check (uniqueb (map cs_copy_slot (lt_copy_slots p))) "life copy slots must be unique";
  check (bool_decide (life_purpose_count initial_help = 1)
         && bool_decide (life_purpose_count l0_intro = 1)
         && bool_decide (life_purpose_count l0_action = 1))
    "life task needs one initial-help and two L0 copy slots".

Definition life_slot (name : string) : option CopySlotV2 :=
  find_first (fun s => bool_decide (cs_copy_slot s = name)) (rev (lt_copy_slots p)).

(** Reviewed truth of a fact update or of a joint completion. *)
Definition reviewed_value (i : string) (v : CanonicalValueV2) : bool :=
  match life_fact facts i with Some f => accepts_value f v | None => false end.

Definition life_choice_ok (key : TargetKind * string) (c : LifeChoiceV2) : res unit :=
  let e := lch_effect c in
  _ ← check (forallb (fun u => reviewed_value (lu_fact_id u) (lu_value u)) (le_fact_updates e))
        "life choice fact update is outside reviewed truth";
  _ ← check (subsetb (le_relation_ids e) relation_ids) "life choice relation update is unknown";
  match le_verdict e with
  | choice_incorrect => Ok tt
  | choice_correct =>
      _ ← check (negb (bool_decide (key.1 = KIND_fact))
                 || memb key.2 (map lu_fact_id (le_fact_updates e)))
            "correct life choice must update its fact target";
      check (negb (bool_decide (key.1 = KIND_relation)) || memb key.2 (le_relation_ids e))
        "correct life choice must update its relation target"
  end.

Definition life_l2_plan_ok (q : LifeL2ChoicePlanV2) : res unit :=
  key ← life_key (ll2_target q);
  slot ← or_raise (life_slot (ll2_copy_slot q))
           (ValidationError "life L2 plan and copy slot must share one target");
  _ ← check (bool_decide (cs_purpose slot = l2_question)
             && bool_decide (length (cs_targets slot) = 1))
        "life L2 plan and copy slot must share one target";
  slot_target ← or_raise (head (cs_targets slot)) IndexError;
  slot_key ← life_key slot_target;
  _ ← check (bool_decide (slot_key = key)) "life L2 plan and copy slot must share one target";
  each (life_choice_ok key) (ll2_choices q).

Definition life_l2_plans_ok : res unit :=
  _ ← each life_l2_plan_ok (lt_l2_plans p);
  let l2_targets := map (fun q => target_pair (ll2_target q)) (lt_l2_plans p) in
  check (uniqueb l2_targets && set_eqb l2_targets required)
    "life L2 needs one plan per required target".

Definition life_joint_ok (c : JointCompletionV2) : res unit :=
  match c with
  | JointFactCompletionV2 i v =>
      check (reviewed_value i v) "life L0 fact value is outside reviewed truth"
  | JointRelationCompletionV2 i =>
      check (memb i relation_ids) "life L0 relation target is unknown"
  end.

Definition life_joint_plan_ok : res unit :=
  let values := ljp_completion_values (lt_l0_joint_plan p) in
  let joint_targets := fromkeys (map joint_pair values) in
  _ ← each life_joint_ok values;
  check (set_eqb joint_targets required && bool_decide (length joint_targets = length values))
    "life L0 completion must cover required targets exactly".

Definition life_revealed_pairs (c : LifeHelpCardV2) : list (TargetKind * string) :=
  map (pair KIND_fact) (lhc_revealed_fact_ids c)
  ++ map (pair KIND_relation) (lhc_revealed_relation_ids c).

Definition life_help_refs_ok : res unit :=
  let h := lt_help_plan p in
  _ ← check (subsetb (lp_note_relation_ids (lt_policies p)) relation_ids)
        "life note relations must reference the task graph";
  _ ← each (fun c => check (subsetb (lhc_revealed_fact_ids c) fact_ids
                            && subsetb (lhc_revealed_relation_ids c) relation_ids)
                       "life help card contains an unknown graph reference")
        [lhp_H1 h; lhp_H2 h; lhp_H3 h];
  check (subsetb required (life_revealed_pairs (lhp_H3 h))) "life H3 must reveal all required targets".

(** [validate_task] *)
Definition validate_task : res unit :=
  _ ← life_questions_ok;
  _ ← life_slots_ok;
  _ ← life_l2_plans_ok;
  _ ← life_joint_plan_ok;
  life_help_refs_ok.
End task.

(** [LifeTaskPackV2.model_validate] *)
Definition life_task_validate (p : LifeTaskPackV2) : res LifeTaskPackV2 :=
  _ ← life_graph_validate (lt_reasoning_graph p);
  _ ← each life_l2_plan_validate (lt_l2_plans p);
  _ ← life_help_validate (lt_help_plan p);
  _ ← life_policies_validate (lt_policies p);
  _ ← check (content_id 160 (lt_pack_id p) && (1 <=? lt_content_version p)%Z
             && memb (lt_scene p) [CAFE; AMUSEMENT_PARK] && content_id 100 (lt_scenario_id p)
             && content_id 120 (lt_task_id p) && content_id 100 (lt_stage_id p)
             && content_id 120 (lt_skill_id p) && text_field 1 120 (lt_title p)
             && content_id 160 (lt_dictionary_card_id p) && text_field 1 240 (lt_source_prompt p)
             && question_fields (lt_initial_question p)
             && list_field 1 8 (lt_l3_plans p) && forallb question_fields (lt_l3_plans p)
             && list_field 4 12 (lt_copy_slots p) && forallb copy_slot_fields (lt_copy_slots p)
             && list_field 1 8 (lt_l2_plans p) && life_joint_fields (lt_l0_joint_plan p))
        "life task fields";
  _ ← validate_task p;
  Ok p.

(** The two validators the ledger's snapshots rely on. *)
#[export] Instance content_models : PackModel := {|
  home_model_validate := required_home_pack_validate;
  life_model_validate := life_task_validate
|}.

(** * Staged scenarios *)

Record LifePriorFactVariantSelectorV2 := {
  sel_source_task_id : string;
  sel_fact_id : string;
  sel_value_to_variant_id : list (string * string)
}.

Record LifeTaskStageV2 := {
  ts_task_id : string;
  ts_default_variant_id : string;
  ts_variants : list (string * LifeTaskPackV2);
  ts_selector : option LifePriorFactVariantSelectorV2
}.

Inductive ProjectionSource := PS_fact | PS_relation_constant.
#[export] Instance ProjectionSource_eq_dec : EqDecision ProjectionSource.
Proof. solve_decision. Defined.

Record LifeCompletionProjectionV2 := {
  lc_output_key : string;
  lc_source_task_id : string;
  lc_source_kind : ProjectionSource;
  lc_source_id : string;
  lc_relation_value : option pyvalue
}.

Record LifeScenarioPackV2 := {
  sc_pack_id : string;
  sc_content_version : Z;
  sc_scene : SceneType;
  sc_scenario_id : string;
  sc_task_stages : list LifeTaskStageV2;
  sc_completion_projection : list LifeCompletionProjectionV2
}.

Definition selector_fields (s : LifePriorFactVariantSelectorV2) : bool :=
  content_id 120 (sel_source_task_id s) && content_id 120 (sel_fact_id s)
  && list_field 1 20 (sel_value_to_variant_id s).

(** [LifeTaskStageV2.validate_variants] *)
Definition life_stage_validate (s : LifeTaskStageV2) : res unit :=
  _ ← each (fun kv => _ ← life_task_validate kv.2; Ok tt) (ts_variants s);
  _ ← check (content_id 120 (ts_task_id s) && opaque_id 100 (ts_default_variant_id s)
             && list_field 1 20 (ts_variants s)
             && match ts_selector s with Some sel => selector_fields sel | None => true end)
        "life stage fields";
  _ ← check (memb (ts_default_variant_id s) (map fst (ts_variants s)))
        "life task default variant is missing";
  _ ← check (forallb (fun kv => bool_decide (lt_task_id kv.2 = ts_task_id s)) (ts_variants s))
        "life task variants must share their task ID";
  check (match ts_selector s with
         | Some sel => subsetb (map snd (sel_value_to_variant_id sel)) (map fst (ts_variants s))
         | None => true end) "life task selector references an unknown variant".

(** [LifeCompletionProjectionV2.validate_projection] *)
Definition projection_validate (c : LifeCompletionProjectionV2) : res unit :=
  _ ← check (content_id 100 (lc_output_key c) && content_id 120 (lc_source_task_id c)
             && content_id 120 (lc_source_id c)) "projection fields";
  check (Bool.eqb (bool_decide (lc_source_kind c = PS_relation_constant))
                  (negb (bool_decide (lc_relation_value c = None))))
    "relation projection must declare its reviewed value".

(** [{stage.task_id: stage for stage in stages}.get(t)] *)
Definition find_stage (stages : list LifeTaskStageV2) (t : string) : option LifeTaskStageV2 :=
  find_first (fun s => bool_decide (ts_task_id s = t)) (rev stages).

Definition stage_fact_ids (kv : string * LifeTaskPackV2) : list string :=
  map lf_fact_id (lg_facts (lt_reasoning_graph kv.2)).
Definition stage_relation_ids (kv : string * LifeTaskPackV2) : list string :=
  map lr_relation_id (lg_relations (lt_reasoning_graph kv.2)).

(** The selector check of the stage at [index]. *)
Definition stage_selector_ok (stages : list LifeTaskStageV2) (index : nat) (s : LifeTaskStageV2)
    : res unit :=
  match ts_selector s with
  | None => Ok tt
  | Some sel =>
      _ ← check (memb (sel_source_task_id sel) (take index (map ts_task_id stages)))
            "life variant selector must use an earlier task";
      source ← or_raise (find_stage stages (sel_source_task_id sel)) (KeyError (sel_source_task_id sel));
      check (forallb (fun kv => memb (sel_fact_id sel) (stage_fact_ids kv)) (ts_variants source))
        "life selector source fact is missing"
  end.

Definition projection_ok (stages : list LifeTaskStageV2) (c : LifeCompletionProjectionV2) : res unit :=
  stage ← or_raise (find_stage stages (lc_source_task_id c))
            (ValidationError "life completion projection source task is missing");
  _ ← check (negb (bool_decide (lc_source_kind c = PS_fact))
             || forallb (fun kv => memb (lc_source_id c) (stage_fact_ids kv)) (ts_variants stage))
        "life completion projection fact is missing";
  check (negb (bool_decide (lc_source_kind c = PS_relation_constant))
         || forallb (fun kv => memb (lc_source_id c) (stage_relation_ids kv)) (ts_variants stage))
    "life completion projection relation is missing".

(** [LifeScenarioPackV2.validate_scenario] *)
Definition life_scenario_validate (s : LifeScenarioPackV2) : res LifeScenarioPackV2 :=
  let stages := sc_task_stages s in
  _ ← each life_stage_validate stages;
  _ ← each projection_validate (sc_completion_projection s);
  _ ← check (content_id 160 (sc_pack_id s) && (1 <=? sc_content_version s)%Z
             && memb (sc_scene s) [CAFE; AMUSEMENT_PARK] && content_id 100 (sc_scenario_id s)
             && list_field 1 4 stages && list_field 1 12 (sc_completion_projection s))
        "life scenario fields";
  _ ← check (uniqueb (map ts_task_id stages)) "life scenario task IDs must be unique";
  _ ← check (forallb (fun st => forallb (fun kv => bool_decide (lt_scene kv.2 = sc_scene s)
                                    && bool_decide (lt_scenario_id kv.2 = sc_scenario_id s))
                       (ts_variants st)) stages)
        "life task variants must match their scenario";
  _ ← each (fun ist => stage_selector_ok stages ist.1 ist.2) (zip (seq 0 (length stages)) stages);
  _ ← check (uniqueb (map lc_output_key (sc_completion_projection s)))
        "life completion projection keys must be unique";
  _ ← each (projection_ok stages) (sc_completion_projection s);
  Ok s.

(** [stage_by_task_id]: [next(...)] raises StopIteration when there is none. *)
Definition stage_by_task_id (s : LifeScenarioPackV2) (t : string) : res LifeTaskStageV2 :=
  or_raise (find_first (fun st => bool_decide (ts_task_id st = t)) (sc_task_stages s)) StopIteration.
