(* ===== verification/ContentTheory.v ===== *)
(** What the content validators guarantee: a validated pack satisfies the
    contract the ledger and the engine rely on, a validated graph is acyclic, and
    the authored arithmetic it carries is true. *)

From Stdlib Require Import Ascii.
From Stdlib Require Import Relations.
From S2P Require Import Prelude.
From S2P Require Import PyStr.
From S2P Require Import PyNum.
From S2P Require Import Json.
From S2P Require Import Schemas.
From S2P Require Import Requests.
From S2P Require Import Regex.
From S2P Require Import Packs.
From S2P Require Import PackDump.
From S2P Require Import Snapshot.
From S2P Require Import ContentCopy.
From S2P Require Import ContentChecks.
From S2P Require Import ContentPack.
From S2P Require Import LifeChecks.

(** * Reading successful validations *)

Lemma bind_Ok {A B} (m : res A) (k : A -> res B) r :
  (x ← m; k x) = Ok r <-> exists x, m = Ok x /\ k x = Ok r.
Proof. destruct m; simpl; naive_solver. Qed.

Lemma check_Ok ok msg u : check ok msg = Ok u <-> ok = true.
Proof. unfold check. by rewrite raise_if_Ok, negb_false_iff. Qed.

Lemma bind_check_Ok {A} ok msg (k : res A) r : (_ ← check ok msg; k) = Ok r <-> ok = true /\ k = Ok r.
Proof. destruct ok; simpl; naive_solver. Qed.

Lemma each_Ok {A} (f : A -> res unit) l u : each f l = Ok u -> forall x, x ∈ l -> f x = Ok tt.
Proof.
  unfold each. rewrite bind_Ok. intros (us & Hm & _) x Hx.
  by destruct (mapR_elem _ _ _ _ Hm Hx) as [[] ?].
Qed.

Lemma each_total {A} (f : A -> res unit) l : (forall x, x ∈ l -> f x = Ok tt) -> each f l = Ok tt.
Proof.
  intros Hf. unfold each. destruct (mapR_total f l) as [ys ->]; [|done]. intros x Hx. rewrite Hf by done. eauto.
Qed.

Lemma mapR_map {A B} (f : A -> res B) (g : A -> B) l ys :
  (forall x y, f x = Ok y -> y = g x) -> mapR f l = Ok ys -> ys = map g l.
Proof.
  intros Hg. revert ys. induction l as [|x l IH]; intros ys Hm; simpl in *; [by injection Hm|].
  destruct (f x) eqn:Ex; [|done]. simpl in Hm. destruct (mapR f l); [|done].
  injection Hm as <-. f_equal; [by apply Hg|by apply IH].
Qed.

Ltac ok_inv H :=
  repeat (rewrite ?bind_check_Ok, ?check_Ok in H; rewrite ?bind_Ok in H).

(** Takes a successful sequence of validations apart, recursively. *)
Ltac ok_split :=
  repeat match goal with
  | H : _ /\ _ |- _ => destruct H
  | H : exists _, _ |- _ => destruct H
  | H : (_ ← check _ _; _) = Ok _ |- _ => rewrite bind_check_Ok in H
  | H : check _ _ = Ok _ |- _ => rewrite check_Ok in H
  | H : mbind _ _ = Ok _ |- _ => rewrite bind_Ok in H
  | H : Ok _ = Ok _ |- _ => injection H as H; subst
  end.

(** * Identifiers *)

Lemma string_forallb_impl (p q : ascii -> bool) s :
  (forall c, p c = true -> q c = true) -> string_forallb p s = true -> string_forallb q s = true.
Proof.
  intros Hpq. induction s as [|c s IH]; simpl; [done|].
  rewrite !andb_true_iff. intros [Hc Hs]. auto.
Qed.

Lemma content_id_field n m s : n <= m -> content_id n s = true -> id_field m s = true.
Proof.
  intros Hnm. destruct s as [|c s]; simpl; [done|]. rewrite !andb_true_iff, !bool_decide_eq_true.
  intros [[Hc Hs] Hl].
  assert (Hlow : forall c, is_lower c = true -> is_id_start c = true).
  { intros d. unfold is_lower, is_id_start. rewrite !orb_true_iff, !andb_true_iff. auto. }
  split; [split|lia]; [by apply Hlow|].
  eapply string_forallb_impl; [|exact Hs]. intros d. unfold is_content_char, is_id_char.
  rewrite !orb_true_iff. intros [[Hd|Hd]|Hd].
  - left. by apply Hlow.
  - left. unfold is_id_start. by rewrite Hd.
  - right. apply memb_spec in Hd. apply memb_spec. set_solver.
Qed.

(** * Targets of a validated pack *)

Lemma target_key_Ok p t k :
  target_key p t = Ok k -> k = target_pair t /\ target_in_graph (HomePack p) (target_pair t).
Proof.
  unfold target_key. intros H. ok_inv H. destruct H as (H1 & H2 & [= <-]). split; [done|].
  unfold target_in_graph, target_pair, pack_fact_ids, pack_relation_ids. simpl.
  rewrite !map_map. apply negb_true_iff in H1, H2.
  destruct (target_kind t); simpl in *; apply negb_false_iff, memb_spec in H1 || apply negb_false_iff, memb_spec in H2; done.
Qed.

Lemma life_key_Ok p t k :
  life_key p t = Ok k -> k = target_pair t /\ target_in_graph (LifePack p) (target_pair t).
Proof.
  unfold life_key. intros H. ok_inv H. destruct H as (H1 & H2 & [= <-]). split; [done|].
  unfold target_in_graph, target_pair, pack_fact_ids, pack_relation_ids. simpl.
  rewrite !map_map. apply negb_true_iff in H1, H2.
  destruct (target_kind t); simpl in *; apply negb_false_iff, memb_spec in H1 || apply negb_false_iff, memb_spec in H2; done.
Qed.

Lemma set_eqb_NoDup_covers p l :
  uniqueb l = true -> set_eqb l (required_targets p) = true -> covers_required p l.
Proof. rewrite uniqueb_spec, set_eqb_spec. by split. Qed.

Lemma NoDup_required p :
  NoDup (required_fact_ids (pack_completion p)) -> NoDup (required_relation_ids (pack_completion p)) ->
  NoDup (required_targets p).
Proof.
  intros Hf Hr. unfold required_targets. apply NoDup_app. split; [|split].
  - apply NoDup_fmap_2; [|done]. by intros x y [= ->].
  - intros x H1 H2. apply list_elem_of_fmap in H1 as (? & -> & _).
    by apply list_elem_of_fmap in H2 as (? & ? & _).
  - apply NoDup_fmap_2; [|done]. by intros x y [= ->].
Qed.

Lemma home_fact_ids p : pack_fact_ids (HomePack p) = map cf_fact_id (rg_facts (hp_reasoning_graph p)).
Proof. unfold pack_fact_ids. simpl. by rewrite map_map. Qed.
Lemma home_relation_ids p :
  pack_relation_ids (HomePack p) = map cr_relation_id (rg_relations (hp_reasoning_graph p)).
Proof. unfold pack_relation_ids. simpl. by rewrite map_map. Qed.
Lemma life_fact_ids p : pack_fact_ids (LifePack p) = map lf_fact_id (lg_facts (lt_reasoning_graph p)).
Proof. unfold pack_fact_ids. simpl. by rewrite map_map. Qed.
Lemma life_relation_ids p :
  pack_relation_ids (LifePack p) = map lr_relation_id (lg_relations (lt_reasoning_graph p)).
Proof. unfold pack_relation_ids. simpl. by rewrite map_map. Qed.

Lemma find_first_map {A B} (g : A -> B) (q : B -> bool) l :
  find_first q (map g l) = g <$> find_first (fun x => q (g x)) l.
Proof.
  induction l as [|x l IH]; simpl; [done|]. unfold find_first in *. simpl.
  destruct (q (g x)); [done|apply IH].
Qed.

Lemma facts_by_id_home p i :
  facts_by_id (HomePack p) i = HomeFact <$> home_fact (rg_facts (hp_reasoning_graph p)) i.
Proof. unfold facts_by_id, home_fact. simpl. by rewrite <- map_rev, find_first_map. Qed.
Lemma facts_by_id_life p i :
  facts_by_id (LifePack p) i = LifeFact <$> life_fact (lg_facts (lt_reasoning_graph p)) i.
Proof. unfold facts_by_id, life_fact. simpl. by rewrite <- map_rev, find_first_map. Qed.

Lemma list_field_spec {A} lo hi (l : list A) : list_field lo hi l = true <-> lo <= length l <= hi.
Proof. apply bool_decide_eq_true. Qed.

#[export] Instance content_checks : PackModelChecks.
Proof.
  split.
  - intros p q H. simpl in H. unfold required_home_pack_validate in H. by ok_split.
  - intros p q H. simpl in H. unfold life_task_validate in H. by ok_split.
Qed.

(** * The contract of a validated pack *)

Lemma map_ids_ok {A} (f : A -> string) (q : A -> bool) l :
  forallb q l = true -> (forall x, q x = true -> content_id 120 (f x) = true) ->
  Forall (fun i => id_field 160 i = true) (map f l).
Proof.
  intros Hq Hf. apply Forall_forall. intros i (x & -> & Hx)%list_elem_of_fmap.
  rewrite forallb_forall in Hq. eapply (content_id_field 120); [lia|]. apply Hf, Hq.
  by apply list_elem_of_In.
Qed.

Lemma each_ids_ok {A} (f : A -> string) (q : A -> res unit) l u :
  each q l = Ok u -> (forall x, q x = Ok tt -> content_id 120 (f x) = true) ->
  Forall (fun i => id_field 160 i = true) (map f l).
Proof.
  intros Hq Hf. apply Forall_forall. intros i (x & -> & Hx)%list_elem_of_fmap.
  eapply (content_id_field 120); [lia|]. apply Hf. by eapply each_Ok.
Qed.

Lemma keys_in_graph {A} (p : TaskPackV2) (f : A -> res (TargetKind * string)) (g : A -> TargetKind * string) l ks :
  (forall x k, f x = Ok k -> k = g x /\ target_in_graph p (g x)) -> mapR f l = Ok ks ->
  ks = map g l /\ Forall (target_in_graph p) ks.
Proof.
  intros Hf Hm. assert (ks = map g l) as -> by (eapply mapR_map; [|exact Hm]; intros; by apply Hf).
  split; [done|]. apply Forall_forall. intros k (x & -> & Hx)%list_elem_of_fmap.
  destruct (mapR_elem _ _ _ _ Hm Hx) as [y Hy]. by destruct (Hf x y Hy).
Qed.

Lemma required_in_graph p l :
  Forall (target_in_graph p) l -> (forall t, t ∈ required_targets p -> t ∈ l) ->
  Forall (target_in_graph p) (required_targets p).
Proof. rewrite !Forall_forall. auto. Qed.

Lemma flat_map_singletons {A B} (f : A -> list B) (g : A -> B) l :
  (forall x, x ∈ l -> f x = [g x]) -> flat_map f l = map g l.
Proof.
  induction l as [|x l IH]; intros H; simpl; [done|]. rewrite H by left. simpl.
  rewrite IH; [done|]. intros y Hy. apply H. by right.
Qed.

Lemma flat_map_map {A B C} (f : A -> list B) (g : B -> C) l :
  map g (flat_map f l) = flat_map (fun x => map g (f x)) l.
Proof. induction l as [|x l IH]; simpl; [done|]. by rewrite map_app, IH. Qed.

(** The loop over the joint completions collects every pair, once. *)
Lemma joint_steps p l seen joint :
  foldM (joint_step p) seen l = Ok joint -> NoDup seen ->
  joint = seen ++ map joint_pair l /\ NoDup joint /\
  forall i v, JointFactCompletionV2 i v ∈ l ->
    exists f, home_fact (rg_facts (hp_reasoning_graph p)) i = Some f /\ value_eqb v (cf_value f) = true.
Proof.
  revert seen. induction l as [|c l IH]; intros seen Hrun Hnd; cbn [foldM map] in *.
  { injection Hrun as <-. rewrite app_nil_r. split; [done|]. split; [done|].
    intros i v Hv. by apply not_elem_of_nil in Hv. }
  destruct (joint_step p seen c) as [seen1|] eqn:Es; [|done]. cbn [mbind res_bind] in Hrun.
  unfold joint_step in Es. rewrite bind_check_Ok, bind_Ok in Es.
  destruct Es as (Hnew & u & Hc & [= <-]). apply negb_true_iff, memb_false in Hnew.
  destruct (IH _ Hrun) as (-> & Hnd' & Hv); [apply NoDup_app; split; [done|]; split; [set_solver|apply NoDup_singleton]|].
  split; [by rewrite <- app_assoc|]. split; [done|].
  intros i v [<-|Hin]%elem_of_cons; [|by apply Hv].
  rewrite bind_Ok in Hc. destruct Hc as (f & Hf & Hck). rewrite check_Ok in Hck.
  destruct (home_fact _ i) as [f'|] eqn:E; [|done]. injection Hf as ->. eauto.
Qed.

Lemma content_fact_id_ok f : content_fact_validate f = Ok tt -> content_id 120 (cf_fact_id f) = true.
Proof. unfold content_fact_validate. intros H. ok_split. by breflect; ok_split. Qed.
Lemma content_relation_id_ok r :
  content_relation_fields r = true -> content_id 120 (cr_relation_id r) = true.
Proof. unfold content_relation_fields. intros H. by breflect; ok_split. Qed.
Lemma life_fact_id_ok f : life_fact_validate f = Ok tt -> content_id 120 (lf_fact_id f) = true.
Proof. unfold life_fact_validate. intros H. ok_split. by breflect; ok_split. Qed.
Lemma life_relation_id_ok r :
  life_relation_fields r = true -> content_id 120 (lr_relation_id r) = true.
Proof. unfold life_relation_fields. intros H. by breflect; ok_split. Qed.

Lemma completion_nonempty lo c p :
  completion_fields lo c = true -> pack_completion p = c -> required_targets p <> [].
Proof.
  unfold completion_fields. rewrite andb_true_iff, list_field_spec. intros [Hf _] Hc.
  unfold required_targets. rewrite Hc. destruct (required_fact_ids c); simpl in *; [lia|done].
Qed.

Lemma single_targets (qs : list QuestionPlanV2) :
  forallb (fun q => bool_decide (length (qp_targets q) = 1)) qs = true ->
  Forall (fun q => length (qp_targets q) = 1) qs.
Proof.
  rewrite forallb_forall. intros H. apply Forall_forall. intros q Hq%list_elem_of_In.
  by apply H, bool_decide_eq_true in Hq.
Qed.

Lemma home_pack_contract p q : required_home_pack_validate p = Ok q -> pack_contract (HomePack p).
Proof.
  unfold required_home_pack_validate. intros H. ok_split.
  unfold reasoning_graph_validate in *. unfold validate_pack_contract, questions_ok, joint_plan_ok,
    l2_plans_ok, help_refs_ok, covers in *. ok_split. breflect. ok_split.
  match goal with H : list_field 2 50 _ = true |- _ => apply list_field_spec in H as [_ Hnf] end.
  match goal with H : list_field 1 50 _ = true |- _ => apply list_field_spec in H as [_ Hnr] end.
  match goal with H : foldM (joint_step _) _ _ = _ |- _ =>
    apply joint_steps in H as (-> & Hjn & Hjv); [|constructor] end.
  match goal with H : mapR _ (qp_targets _) = _ |- _ =>
    apply (keys_in_graph (HomePack q) _ target_pair) in H as [-> Hig]; [|apply target_key_Ok] end.
  match goal with H : mapR _ (flat_map _ _) = _ |- _ =>
    apply (keys_in_graph (HomePack q) _ target_pair) in H as [-> _]; [|apply target_key_Ok] end.
  split; rewrite ?home_fact_ids, ?home_relation_ids, ?length_map; simpl; try done; try lia.
  - eapply each_ids_ok; [eassumption|apply content_fact_id_ok].
  - eapply map_ids_ok; [eassumption|apply content_relation_id_ok].
  - eapply required_in_graph; [exact Hig|]. naive_solver.
  - by apply NoDup_required.
  - by eapply completion_nonempty.
  - by apply single_targets.
  - unfold l3_pairs. simpl. rewrite <- flat_map_map. by split.
  - intros i v Hv. destruct (Hjv i v Hv) as (f & Hf & He). exists (HomeFact f).
    by rewrite facts_by_id_home, Hf.
  - by apply Forall_forall.
Qed.

Lemma filter_le {A} (P : A -> Prop) `{forall x, Decision (P x)} l : length (filter P l) <= length l.
Proof. induction l as [|x l IH]; [done|]. rewrite filter_cons. case_decide; simpl; lia. Qed.

Lemma filter_full {A} (P : A -> Prop) `{forall x, Decision (P x)} l :
  length (filter P l) = length l -> filter P l = l.
Proof.
  induction l as [|x l IH]; [done|]. rewrite filter_cons. case_decide; simpl.
  - intros [= Hl]. by rewrite IH.
  - pose proof (filter_le P l). lia.
Qed.

Lemma fromkeys_length {A} `{EqDecision A} (l : list A) : length (fromkeys l) = length l -> NoDup l.
Proof.
  assert (Hle : forall k : list A, length (fromkeys k) <= length k).
  { induction k as [|x k IH]; simpl; [done|].
    pose proof (filter_le (fun y => y <> x) (fromkeys k)). lia. }
  assert (Hfl : forall k : list A, length (fromkeys k) = length k -> fromkeys k = k).
  { induction k as [|x k IH]; simpl; [done|]. intros [= Hl].
    pose proof (filter_le (fun y => y <> x) (fromkeys k)). pose proof (Hle k).
    assert (fromkeys k = k) as E by (apply IH; lia). rewrite E in Hl |- *.
    f_equal. by apply filter_full. }
  intros Hl. rewrite <- (Hfl l Hl). apply NoDup_fromkeys.
Qed.

Lemma heads_flat (qs : list QuestionPlanV2) (f : TargetRefV2 -> res (TargetKind * string)) ks p :
  (forall t k, f t = Ok k -> k = target_pair t /\ target_in_graph p (target_pair t)) ->
  mapR (fun q => t ← or_raise (head (qp_targets q)) IndexError; f t) qs = Ok ks ->
  Forall (fun q => length (qp_targets q) = 1) qs ->
  ks = flat_map (fun q => map target_pair (qp_targets q)) qs.
Proof.
  intros Hf. revert ks. induction qs as [|q qs IH]; intros ks Hm Hl; simpl in *; [by injection Hm|].
  apply Forall_cons in Hl as [Hq Hl]. destruct (qp_targets q) as [|t [|]]; [done| |done].
  simpl in *. destruct (f t) as [k|] eqn:Ek; [|done]. simpl in Hm.
  destruct (mapR _ qs) as [ks'|] eqn:Em; [|done]. injection Hm as <-.
  destruct (Hf t k Ek) as [-> _]. f_equal. by apply IH.
Qed.

Lemma life_task_contract p q : life_task_validate p = Ok q -> pack_contract (LifePack p).
Proof.
  unfold life_task_validate. intros H. ok_split.
  unfold life_graph_validate in *. unfold validate_task, life_questions_ok, life_joint_plan_ok,
    life_l2_plans_ok, life_help_refs_ok in *. ok_split. cbv zeta in *. ok_split. breflect. ok_split.
  match goal with H : list_field 1 60 _ = true |- _ => apply list_field_spec in H as [_ Hnf] end.
  match goal with H : list_field 0 60 _ = true |- _ => apply list_field_spec in H as [_ Hnr] end.
  match goal with H : mapR _ (qp_targets _) = _ |- _ =>
    apply (keys_in_graph (LifePack q) _ target_pair) in H as [-> Hig]; [|apply life_key_Ok] end.
  match goal with H : forallb _ (lt_l3_plans _) = true |- _ =>
    pose proof (single_targets _ H) as Hl3 end.
  match goal with H : mapR _ (lt_l3_plans _) = _ |- _ =>
    pose proof (heads_flat _ _ _ (LifePack q) (life_key_Ok q) H Hl3) as -> end.
  match goal with H : length (fromkeys _) = _ |- _ => rewrite <- (length_map joint_pair) in H;
    apply fromkeys_length in H end.
  split; rewrite ?life_fact_ids, ?life_relation_ids, ?length_map; simpl; try done; try lia.
  - eapply each_ids_ok; [eassumption|apply life_fact_id_ok].
  - eapply map_ids_ok; [eassumption|apply life_relation_id_ok].
  - eapply required_in_graph; [exact Hig|]. naive_solver.
  - by apply NoDup_required.
  - by eapply completion_nonempty.
  - split; [done|]. intros t. rewrite <- elem_of_fromkeys. naive_solver.
  - intros i v Hv.
    match goal with H : each (life_joint_ok q) _ = _ |- _ =>
      pose proof (each_Ok _ _ _ H _ Hv) as Hj end.
    simpl in Hj. rewrite check_Ok in Hj. unfold reviewed_value in Hj.
    destruct (life_fact _ i) as [f|] eqn:E; [|done]. exists (LifeFact f).
    by rewrite facts_by_id_life, E.
  - by apply Forall_forall.
Qed.

#[export] Instance content_laws : PackModelLaws.
Proof. split; [apply home_pack_contract|apply life_task_contract]. Qed.

(** * The depth-first search of the reasoning graph

    The depth-first acyclicity check of the reasoning graph decides acyclicity,
    and the arithmetic a validated relation states is true. *)

Section acyclic.
Variable deps : string -> list string.

(** [d] is a direct dependency of [i]. *)
Definition depends (d i : string) : Prop := d ∈ deps i.

Lemma foldM_Acc f visiting ds visited v' :
  (forall vs i v, (forall x, x ∈ vs -> Acc depends x) -> visit deps f visiting vs i = Ok v ->
     (forall x, x ∈ v -> Acc depends x) /\ i ∈ v /\ (forall x, x ∈ vs -> x ∈ v)) ->
  (forall x, x ∈ visited -> Acc depends x) ->
  foldM (fun v d => visit deps f visiting v d) visited ds = Ok v' ->
  (forall x, x ∈ v' -> Acc depends x) /\ (forall d, d ∈ ds -> d ∈ v') /\
  (forall x, x ∈ visited -> x ∈ v').
Proof.
  intros Hv. revert visited. induction ds as [|d ds IH]; intros visited Ha Hrun; cbn [foldM] in Hrun.
  { injection Hrun as <-. split; [done|]. split; [|done]. intros d Hd. by apply not_elem_of_nil in Hd. }
  destruct (visit deps f visiting visited d) as [v1|] eqn:E; [|done]. cbn [mbind res_bind] in Hrun.
  destruct (Hv _ _ _ Ha E) as (Ha1 & Hd1 & Hm1).
  destruct (IH v1 Ha1 Hrun) as (Ha' & Hd' & Hm'). split; [done|]. split; [|auto].
  intros e [->|He]%elem_of_cons; auto.
Qed.

(** Everything [visit] marks as visited is accessible. *)
Lemma visit_Acc f visiting visited i v :
  (forall x, x ∈ visited -> Acc depends x) -> visit deps f visiting visited i = Ok v ->
  (forall x, x ∈ v -> Acc depends x) /\ i ∈ v /\ (forall x, x ∈ visited -> x ∈ v).
Proof.
  revert visiting visited i v. induction f as [|f IH]; intros visiting visited i v Ha Hrun; [done|].
  cbn [visit] in Hrun. destruct (memb i visiting); [done|].
  destruct (memb i visited) eqn:Em.
  { injection Hrun as <-. apply memb_spec in Em. done. }
  destruct (foldM _ _ _) as [v1|] eqn:E; [|done]. cbn [mbind res_bind] in Hrun. injection Hrun as <-.
  destruct (foldM_Acc f (i :: visiting) (deps i) visited v1) as (Ha1 & Hd1 & Hm1); [|done|done|].
  { intros vs j w. apply IH. }
  split; [|split; [left|intros x Hx; right; auto]].
  intros x [->|Hx]%elem_of_cons; [|auto]. constructor. intros d Hd. apply Ha1, Hd1, Hd.
Qed.

(** A failed search has a cycle, provided the fuel exceeds what is left of the
    node set. *)
Definition cyclic : Prop := exists x, clos_trans _ depends x x.

Lemma foldM_Raise f visiting ds visited e :
  foldM (fun v d => visit deps f visiting v d) visited ds = Raise e ->
  exists d vs, d ∈ ds /\ visit deps f visiting vs d = Raise e.
Proof.
  revert visited. induction ds as [|d ds IH]; intros visited Hrun; cbn [foldM] in Hrun; [done|].
  destruct (visit deps f visiting visited d) as [v1|e'] eqn:E; cbn [mbind res_bind] in Hrun.
  - destruct (IH _ Hrun) as (d' & vs & Hd & Hr). exists d', vs. split; [by right|done].
  - injection Hrun as ->. exists d, visited. split; [left|done].
Qed.

Lemma visit_Raise ids f visiting visited i e :
  (forall x d, x ∈ ids -> d ∈ deps x -> d ∈ ids) ->
  NoDup visiting -> (forall x, x ∈ visiting -> x ∈ ids /\ clos_trans _ depends i x) ->
  i ∈ ids -> length ids < f + length visiting ->
  visit deps f visiting visited i = Raise e ->
  e = ValidationError "reasoning graph must be acyclic" /\ cyclic.
Proof.
  intros Hcl. revert visiting visited i. induction f as [|f IH]; intros visiting visited i Hnd Hpath Hi Hf Hrun.
  { exfalso. assert (length visiting <= length ids); [|simpl in *; lia].
    apply submseteq_length, NoDup_submseteq; [done|]. intros x Hx. by apply Hpath. }
  cbn [visit] in Hrun. destruct (memb i visiting) eqn:Ev.
  { injection Hrun as <-. split; [done|]. apply memb_spec in Ev. exists i. by apply Hpath. }
  destruct (memb i visited); [done|].
  destruct (foldM _ _ _) as [v1|e'] eqn:E; [done|]. cbn [mbind res_bind] in Hrun. injection Hrun as ->.
  apply foldM_Raise in E as (d & vs & Hd & Hr). apply memb_false in Ev.
  eapply (IH (i :: visiting) vs d); [by constructor| |by eapply Hcl|simpl; lia|exact Hr].
  intros x [->|Hx]%elem_of_cons.
  - split; [done|]. by apply t_step.
  - destruct (Hpath x Hx) as [Hx' Ht]. split; [done|]. eapply t_trans; [|exact Ht]. by apply t_step.
Qed.
End acyclic.

(** (C35) The graph check decides acyclicity.  For a set of facts closed under
    dependencies the search (with one more unit of fuel than there are facts)
    either succeeds, and then every fact's dependencies are well founded, or it
    raises the acyclicity error, and then some fact depends on itself through a
    chain of relations; it never runs out of recursion. *)
Theorem check_acyclic_decides ids deps :
  (forall x d, x ∈ ids -> d ∈ deps x -> d ∈ ids) ->
  match check_acyclic ids deps with
  | Ok _ => forall i, i ∈ ids -> Acc (depends deps) i
  | Raise e => e = ValidationError "reasoning graph must be acyclic" /\ cyclic deps
  end.
Proof.
  intros Hcl. unfold check_acyclic.
  destruct (foldM _ [] ids) as [v|e] eqn:E; cbn [mbind res_bind].
  - eapply (foldM_Acc deps (S (length ids)) [] ids []) in E as (Ha & Hd & _).
    + intros i Hi. apply Ha, Hd, Hi.
    + intros vs i w. apply visit_Acc.
    + intros x Hx. by apply not_elem_of_nil in Hx.
  - apply foldM_Raise in E as (d & vs & Hd & Hr).
    eapply (visit_Raise deps ids); [done|constructor| |exact Hd| |exact Hr].
    + intros x Hx. by apply not_elem_of_nil in Hx.
    + simpl. lia.
Qed.

(** * Arithmetic *)

Local Open Scope Z_scope.

Lemma ndigits_fuel_le f z k :
  0 <= z -> 0 < k -> z < 10 ^ k -> ndigits_fuel f z <= k.
Proof.
  revert z k. induction f as [|f IH]; intros z k Hz Hk Hlt; simpl; [lia|].
  destruct (Z.ltb_spec z 10); [lia|].
  assert (Hk1 : k <> 1) by (intros ->; lia).
  assert (ndigits_fuel f (z / 10) <= k - 1); [|lia].
  apply IH; [by apply Z.div_pos|lia|].
  apply Z.div_lt_upper_bound; [lia|]. replace k with (1 + (k - 1)) in Hlt by lia.
  by rewrite Z.pow_add_r in Hlt by lia.
Qed.

(** Coefficients below 10^28 are not rounded. *)
Lemma dec_round_small a : Z.abs (coef a) < 10 ^ 28 -> dec_round a = a.
Proof.
  intros Ha. unfold dec_round, ndigits.
  destruct (Z.leb_spec (ndigits_fuel (S (Z.to_nat (Z.log2 (Z.abs (Z.abs (coef a)))))) (Z.abs (Z.abs (coef a))))
             dec_prec) as [|Hn].
  - destruct (Z.leb_spec (ndigits_fuel (S (Z.to_nat (Z.log2 (Z.abs (coef a))))) (Z.abs (coef a)))
               dec_prec) as [|Hn']; [done|].
    exfalso. pose proof (ndigits_fuel_le (S (Z.to_nat (Z.log2 (Z.abs (coef a))))) (Z.abs (coef a)) 28).
    unfold dec_prec in *. lia.
  - destruct (Z.leb_spec (ndigits_fuel (S (Z.to_nat (Z.log2 (Z.abs (coef a))))) (Z.abs (coef a)))
               dec_prec) as [|Hn']; [done|].
    exfalso. pose proof (ndigits_fuel_le (S (Z.to_nat (Z.log2 (Z.abs (coef a))))) (Z.abs (coef a)) 28).
    unfold dec_prec in *. lia.
Qed.

Lemma dec_eqb_int x y : dec_eqb (Dec x 0) (Dec y 0) = true <-> x = y.
Proof.
  unfold dec_eqb, dec_compare, aligned. simpl. rewrite !Z.mul_1_r.
  destruct (Z.compare_spec x y); naive_solver lia.
Qed.

Lemma dec_add_int x y : Z.abs (x + y) < 10 ^ 28 -> dec_add (Dec x 0) (Dec y 0) = Dec (x + y) 0.
Proof.
  intros H. unfold dec_add, aligned. simpl. rewrite !Z.mul_1_r. by rewrite dec_round_small.
Qed.
Lemma dec_sub_int x y : Z.abs (x - y) < 10 ^ 28 -> dec_sub (Dec x 0) (Dec y 0) = Dec (x - y) 0.
Proof.
  intros H. unfold dec_sub, aligned. simpl. rewrite !Z.mul_1_r. by rewrite dec_round_small.
Qed.
Lemma dec_mul_int x y : Z.abs (x * y) < 10 ^ 28 -> dec_mul (Dec x 0) (Dec y 0) = Dec (x * y) 0.
Proof. intros H. unfold dec_mul. simpl. by rewrite dec_round_small. Qed.

Lemma dec_sum_ints zs acc :
  Forall (fun z => 0 <= z) zs -> 0 <= acc -> acc + foldr Z.add 0 zs < 10 ^ 28 ->
  fold_left dec_add (map (fun z => Dec z 0) zs) (Dec acc 0) = Dec (acc + foldr Z.add 0 zs) 0.
Proof.
  intros Hz. revert acc. induction Hz as [|z zs Hz Hzs IH]; intros acc Ha Hb; cbn [map fold_left foldr] in *.
  - by rewrite Z.add_0_r.
  - assert (0 <= foldr Z.add 0 zs) by (clear -Hzs; induction Hzs; simpl; lia).
    rewrite dec_add_int by lia. rewrite IH by lia. f_equal. lia.
Qed.

(** A reviewed whole amount: counts and money of the shipped content. *)
Definition whole (v : CanonicalValueV2) (z : Z) : Prop :=
  (exists c, v = MoneyValueV2 (PyInt z) c) \/ (exists u, v = NumberValueV2 (PyInt z) u).

Lemma decimal_value_whole v z : whole v z -> decimal_value v = Ok (Dec z 0).
Proof. by intros [[c ->]|[u ->]]. Qed.

Lemma mapR_whole vs zs :
  Forall2 whole vs zs -> mapR decimal_value vs = Ok (map (fun z => Dec z 0) zs).
Proof.
  induction 1 as [|v z vs zs Hv Hvs IH]; cbn [mapR map]; [done|].
  rewrite (decimal_value_whole v z) by done. cbn [mbind res_bind]. rewrite IH. done.
Qed.

(** Authored arithmetic is true: when a relation over whole amounts (with
    results inside the 28 digits of the decimal context) passes the reviewer's
    check, its output really is the sum, difference or product of its inputs, or
    the exact quotient by a nonzero divisor, and a comparison's choice names the
    larger side. *)
Theorem relation_math_sound op vs zs out z :
  Forall2 whole vs zs -> Forall (fun z => 0 <= z < 10 ^ 13) zs -> (length zs <= 20)%nat ->
  0 <= z < 10 ^ 13 ->
  relation_math op vs out = Ok tt ->
  match op with
  | R_addition => whole out z -> z = foldr Z.add 0 zs
  | R_subtraction => whole out z -> exists x y, zs = [x; y] /\ z = x - y
  | R_multiplication => whole out z -> exists x y, zs = [x; y] /\ z = x * y
  | R_division => whole out z -> exists x y, zs = [x; y] /\ y <> 0 /\ z * y = x
  | R_comparison => exists x y, zs = [x; y] /\
      out = ChoiceValueV2 (if x <? y then "right" else if y <? x then "left" else "same")
  | R_counting => exists n u, out = NumberValueV2 n u
  | R_selection => False
  end.
Proof.
  intros Hw Hz Hlen Hzb Hm. pose proof (mapR_whole _ _ Hw) as Hd.
  pose proof (Forall2_length _ _ _ Hw) as Hvz.
  assert (Hsum : 0 <= foldr Z.add 0 zs < 10 ^ 28).
  { assert (0 <= foldr Z.add 0 zs <= Z.of_nat (length zs) * 10 ^ 13); [|lia].
    clear -Hz. induction Hz as [|x xs Hx Hxs IH]; cbn [foldr length]; lia. }
  assert (Hpos : Forall (fun z => 0 <= z) zs) by (eapply Forall_impl; [exact Hz|]; simpl; lia).
  unfold relation_math in Hm. destruct op.
  - rewrite check_Ok in Hm. destruct out; naive_solver.
  - rewrite Hd in Hm. cbn [mbind res_bind] in Hm.
    destruct vs as [|v1 [|v2 [|]]]; try done. destruct zs as [|za [|zb [|]]]; try done.
    destruct out as [| | | |choice]; try done. cbn [map] in Hm. ok_split.
    exists za, zb. split; [done|]. breflect. unfold dec_compare, aligned in *. simpl in *.
    rewrite !Z.mul_1_r in *. subst choice.
    destruct (Z.compare_spec za zb); destruct (Z.ltb_spec za zb); destruct (Z.ltb_spec zb za); try lia; done.
  - intros Ho. rewrite Hd, (decimal_value_whole out z Ho) in Hm. cbn [mbind res_bind] in Hm.
    ok_split. assert (dec_eqb (Dec z 0) (dec_sum (map (fun z => Dec z 0) zs)) = true) as He.
    { by destruct zs as [|? [|? [|]]]. }
    unfold dec_sum in He. rewrite (dec_sum_ints zs 0) in He by (done || lia).
    by apply dec_eqb_int in He.
  - intros Ho. rewrite Hd, (decimal_value_whole out z Ho) in Hm. cbn [mbind res_bind] in Hm.
    ok_split. match goal with H : negb _ || _ = true |- _ => simpl in H; apply bool_decide_eq_true in H as Hl end.
    destruct vs as [|v1 [|v2 [|]]]; try done. destruct zs as [|za [|zb [|]]]; try done.
    exists za, zb. split; [done|]. inversion Hz as [|? ? Hx Hz']; subst. inversion Hz' as [|? ? Hy _]; subst.
    match goal with H : dec_eqb _ _ = true |- _ => cbn [map decide] in H;
      rewrite dec_sub_int in H by lia; by apply dec_eqb_int in H end.
  - intros Ho. rewrite Hd, (decimal_value_whole out z Ho) in Hm. cbn [mbind res_bind] in Hm.
    destruct vs as [|v1 [|v2 [|]]]; try done. destruct zs as [|za [|zb [|]]]; try done.
    cbn [map] in Hm. ok_split. exists za, zb. split; [done|].
    inversion Hz as [|? ? Hx Hz']; subst. inversion Hz' as [|? ? Hy _]; subst.
    rewrite decide_True in * by done. ok_split.
    match goal with H : dec_eqb _ _ = true |- _ =>
      rewrite dec_mul_int in H by nia; by apply dec_eqb_int in H end.
  - intros Ho. rewrite Hd, (decimal_value_whole out z Ho) in Hm. cbn [mbind res_bind] in Hm.
    destruct vs as [|v1 [|v2 [|]]]; try done. destruct zs as [|za [|zb [|]]]; try done.
    cbn [map] in Hm. ok_split. exists za, zb. split; [done|].
    inversion Hz as [|? ? Hx Hz']; subst. inversion Hz' as [|? ? Hy _]; subst.
    rewrite decide_False in * by done. ok_split.
    match goal with H : negb (dec_is_zero _) = true |- _ => apply negb_true_iff, Z.eqb_neq in H end.
    split; [done|].
    match goal with H : dec_eqb (dec_mul _ _) _ = true |- _ =>
      rewrite dec_mul_int in H by nia; by apply dec_eqb_int in H end.
  - done.
Qed.
