(* ===== verification/Catalog.v ===== *)
(** The nine required home packs of
    [src/mormi_api/dialogue_v2_required_home_catalog.json] as data, and the
    catalog model that loads them
    ([RequiredHomeContentCatalogV2] of [src/mormi_api/dialogue_v2_content.py]). *)

From S2P Require Import Prelude.
From S2P Require Import PyStr.
From S2P Require Import PyNum.
From S2P Require Import Json.
From S2P Require Import Schemas.
From S2P Require Import Requests.
From S2P Require Import Packs.
From S2P Require Import PackDump.
From S2P Require Import Snapshot.
From S2P Require Import ContentCopy.
From S2P Require Import ContentChecks.
From S2P Require Import ContentPack.

Definition pack_number_count : RequiredHomeTeachingPackV2 :=
  {| hp_pack_id := "home.number-count.v2"; hp_content_version := 1%Z;
  hp_migration_source_content_version := 8%Z; hp_curriculum_session_id := "number-count";
  hp_title := "수를 빠뜨리지 않고 세어요"; hp_journey := {| jl_role := cafe_required;
  jl_direct_transfer_scenario_ids := [] |}; hp_source_problem := {| sp_prompt := "지금 점이 몇 개야?";
  sp_answers := ["3"; "4"; "5"]; sp_correct := "3"; sp_visual := [("type", (JStr "ten-frame"));
  ("count", (JNum (PyInt 3)))]; sp_rendered_facts := [{| rb_fact_id := "dots_to_count";
  rb_exposure := explicit_given; rb_source_path := "visual.type"; rb_label_path := None;
  rb_rendered_label := None |}; {| rb_fact_id := "dot_count"; rb_exposure := perceptual_target;
  rb_source_path := "visual.count"; rb_label_path := None; rb_rendered_label := None |}] |};
  hp_reasoning_graph := {| rg_facts := [{| cf_fact_id := "dots_to_count"; cf_role :=
  visible_condition; cf_value := (TextValueV2 "십 칸 틀에 색칠된 점"); cf_speaker_label := "세어야 할 색칠된 점";
  cf_initially_visible := true; cf_required_for_completion := false; cf_accepted_surface_forms :=
  [] |}; {| cf_fact_id := "dot_count"; cf_role := final_answer; cf_value := (NumberValueV2 (PyInt
  3) (Some "개")); cf_speaker_label := "색칠된 점의 개수"; cf_initially_visible := false;
  cf_required_for_completion := true; cf_accepted_surface_forms := ["3"; "3개"; "세 개"] |}];
  rg_relations := [{| cr_relation_id := "count_each_once"; cr_role := explanation; cr_operation
  := R_counting; cr_input_fact_ids := ["dots_to_count"]; cr_output_fact_id := "dot_count";
  cr_evaluation_mode := open_semantic_support; cr_speaker_label := "점을 빠뜨리거나 두 번 세지 않는 방법";
  cr_rubric := {| rr_sufficient := ["각 점을 정확히 한 번씩 세는 구체 행동을 말한다";
  "한쪽부터 차례로 세기, 가리키기, 센 점과 남은 점을 구분하기처럼 중복과 누락을 막는 방법을 말한다"]; rr_partial :=
  ["센다고만 말하고 중복과 누락을 막는 행동은 말하지 않는다"]; rr_incorrect := ["같은 점을 다시 세거나 점을 건너뛰는 방법을 말한다"] |};
  cr_required_for_completion := true |}]; rg_completion := {| required_fact_ids := ["dot_count"];
  required_relation_ids := ["count_each_once"] |}; rg_open_auxiliary_claims := true |};
  hp_initial_question := {| qp_plan_id := "initial"; qp_targets := [{| target_kind := KIND_fact;
  target_id := "dot_count"; ask_kind := ASK_answer |}; {| target_kind := KIND_relation; target_id
  := "count_each_once"; ask_kind := ASK_reason_or_method |}]; qp_reviewed_fallback :=
  "나 점을 세다가 빠뜨릴까 봐 헷갈려... 점이 몇 개인지랑 빠뜨리지 않고 세는 방법을 알려줄 수 있어?" |}; hp_l3_plans := [{| qp_plan_id
  := "l3.answer"; qp_targets := [{| target_kind := KIND_fact; target_id := "dot_count"; ask_kind
  := ASK_answer |}]; qp_reviewed_fallback := "나 점이 몇 개인지 아직 헷갈려... 개수만 먼저 알려줄 수 있어?" |}; {|
  qp_plan_id := "l3.method"; qp_targets := [{| target_kind := KIND_relation; target_id :=
  "count_each_once"; ask_kind := ASK_reason_or_method |}]; qp_reviewed_fallback :=
  "나 점을 빠뜨리지 않고 세는 방법이 궁금해... 어떻게 세면 되는지 알려줄 수 있어?" |}]; hp_copy_slots := [{| cs_copy_slot :=
  "number-count.initial-help"; cs_purpose := initial_help; cs_targets := [{| target_kind :=
  KIND_fact; target_id := "dot_count"; ask_kind := ASK_answer |}]; cs_generation_brief :=
  "질문 부담을 모르미가 맡고 점의 개수부터 한 가지만 부탁한다"; cs_reviewed_fallback :=
  "내가 한꺼번에 물어봤네... 점이 몇 개인지만 먼저 알려줄 수 있어?" |}; {| cs_copy_slot := "number-count.l2.answer";
  cs_purpose := l2_question; cs_targets := [{| target_kind := KIND_fact; target_id :=
  "dot_count"; ask_kind := ASK_answer |}]; cs_generation_brief :=
  "점의 개수를 선택해서 모르미에게 알려 달라고 부탁한다"; cs_reviewed_fallback :=
  "나 점이 몇 개인지 아직 헷갈려... 여기에서 골라서 알려줄 수 있어?" |}; {| cs_copy_slot := "number-count.l2.method";
  cs_purpose := l2_question; cs_targets := [{| target_kind := KIND_relation; target_id :=
  "count_each_once"; ask_kind := ASK_reason_or_method |}]; cs_generation_brief :=
  "빠뜨리지 않는 세기 방법을 선택해서 알려 달라고 부탁한다"; cs_reviewed_fallback :=
  "나 점을 빠뜨리지 않고 세는 방법이 궁금해... 여기에서 골라서 알려줄 수 있어?" |}; {| cs_copy_slot := "number-count.l0.intro";
  cs_purpose := l0_intro; cs_targets := [{| target_kind := KIND_fact; target_id := "dot_count";
  ask_kind := ASK_answer |}; {| target_kind := KIND_relation; target_id := "count_each_once";
  ask_kind := ASK_reason_or_method |}]; cs_generation_brief := "도움 카드를 보며 공동 수행을 시작해 달라고 부탁한다";
  cs_reviewed_fallback := "아직 헷갈려서 그런데, 도움 카드를 보면서 나와 같이 해 줄 수 있어?" |}; {| cs_copy_slot :=
  "number-count.l0.action"; cs_purpose := l0_action; cs_targets := [{| target_kind := KIND_fact;
  target_id := "dot_count"; ask_kind := ASK_answer |}; {| target_kind := KIND_relation; target_id
  := "count_each_once"; ask_kind := ASK_reason_or_method |}]; cs_generation_brief :=
  "색칠된 점을 하나씩 세는 공동 행동을 짧게 부탁한다"; cs_reviewed_fallback := "색칠된 점을 한쪽부터 하나씩 같이 세어 줄 수 있어?" |}];
  hp_l2_plans := [{| l2_plan_id := "l2.answer"; l2_target := {| target_kind := KIND_fact;
  target_id := "dot_count"; ask_kind := ASK_answer |}; l2_copy_slot := "number-count.l2.answer";
  l2_choices := [{| lc_choice_id := "answer_0"; lc_label := "3"; lc_effect := {| ce_verdict :=
  choice_correct; ce_target_kind := KIND_fact; ce_target_id := "dot_count"; ce_interpreted_value
  := (Some (NumberValueV2 (PyInt 3) (Some "개"))); ce_misconception_code := None |} |}; {|
  lc_choice_id := "answer_1"; lc_label := "4"; lc_effect := {| ce_verdict := choice_incorrect;
  ce_target_kind := KIND_fact; ce_target_id := "dot_count"; ce_interpreted_value := None;
  ce_misconception_code := (Some "count_duplicate") |} |}; {| lc_choice_id := "answer_2";
  lc_label := "5"; lc_effect := {| ce_verdict := choice_incorrect; ce_target_kind := KIND_fact;
  ce_target_id := "dot_count"; ce_interpreted_value := None; ce_misconception_code := (Some
  "count_duplicate_more") |} |}] |}; {| l2_plan_id := "l2.method"; l2_target := {| target_kind :=
  KIND_relation; target_id := "count_each_once"; ask_kind := ASK_reason_or_method |};
  l2_copy_slot := "number-count.l2.method"; l2_choices := [{| lc_choice_id := "short_0"; lc_label
  := "점을 한쪽부터 하나씩 차례로 세기"; lc_effect := {| ce_verdict := choice_correct; ce_target_kind :=
  KIND_relation; ce_target_id := "count_each_once"; ce_interpreted_value := None;
  ce_misconception_code := None |} |}; {| lc_choice_id := "short_1"; lc_label := "같은 점을 두 번 세기";
  lc_effect := {| ce_verdict := choice_incorrect; ce_target_kind := KIND_relation; ce_target_id
  := "count_each_once"; ce_interpreted_value := None; ce_misconception_code := (Some
  "count_same_twice") |} |}; {| lc_choice_id := "short_2"; lc_label := "점을 건너뛰며 세기"; lc_effect :=
  {| ce_verdict := choice_incorrect; ce_target_kind := KIND_relation; ce_target_id :=
  "count_each_once"; ce_interpreted_value := None; ce_misconception_code := (Some "count_skip")
  |} |}] |}]; hp_l0_joint_plan := {| jp_action_id := "count_dots_together"; jp_intro_copy_slot :=
  "number-count.l0.intro"; jp_action_copy_slot := "number-count.l0.action"; jp_completion_values
  := [JointFactCompletionV2 "dot_count" (NumberValueV2 (PyInt 3) (Some "개"));
  JointRelationCompletionV2 "count_each_once"]; jp_button_label := "같이 세기" |}; hp_help_plan := {|
  hp_H1 := {| hc_level := H1; hc_support_type := attention; hc_answer_policy := hidden; hc_body
  := "색칠된 점을 한쪽부터 차례로 살펴보자."; hc_action := None; hc_revealed_fact_ids := [];
  hc_revealed_relation_ids := [] |}; hp_H2 := {| hc_level := H2; hc_support_type :=
  guided_action; hc_answer_policy := partial; hc_body := "센 점을 표시하며 한 점씩 차례로 세어 보자."; hc_action
  := (Some "한쪽부터 센 점을 표시하며 세기"); hc_revealed_fact_ids := []; hc_revealed_relation_ids := [] |};
  hp_H3 := {| hc_level := H3; hc_support_type := joint_model; hc_answer_policy := revealed;
  hc_body := "색칠된 점을 한쪽부터 하나씩 세면 모두 3개야."; hc_action := (Some "색칠된 점 3개를 함께 세기");
  hc_revealed_fact_ids := ["dot_count"]; hc_revealed_relation_ids := ["count_each_once"] |} |};
  hp_policies := {| po_note_relation_ids := ["count_each_once"]; po_dictionary_card_id :=
  "dictionary.home.number-count" |} |}.

Definition pack_number_compare : RequiredHomeTeachingPackV2 :=
  {| hp_pack_id := "home.number-compare.v2"; hp_content_version := 1%Z;
  hp_migration_source_content_version := 8%Z; hp_curriculum_session_id := "number-compare";
  hp_title := "수의 크기를 비교해요"; hp_journey := {| jl_role := cafe_required;
  jl_direct_transfer_scenario_ids := [] |}; hp_source_problem := {| sp_prompt := "어느 쪽이 더 많을까?";
  sp_answers := ["왼쪽"; "오른쪽"; "같아"]; sp_correct := "오른쪽"; sp_visual := [("type", (JStr
  "ten-frame")); ("count", (JNum (PyInt 3))); ("secondCount", (JNum (PyInt 5)))];
  sp_rendered_facts := [{| rb_fact_id := "left_count"; rb_exposure := explicit_given;
  rb_source_path := "visual.count"; rb_label_path := None; rb_rendered_label := None |}; {|
  rb_fact_id := "right_count"; rb_exposure := explicit_given; rb_source_path :=
  "visual.secondCount"; rb_label_path := None; rb_rendered_label := None |}] |};
  hp_reasoning_graph := {| rg_facts := [{| cf_fact_id := "left_count"; cf_role := visible_value;
  cf_value := (NumberValueV2 (PyInt 3) (Some "개")); cf_speaker_label := "왼쪽 점의 개수";
  cf_initially_visible := true; cf_required_for_completion := false; cf_accepted_surface_forms :=
  ["왼쪽 3개"] |}; {| cf_fact_id := "right_count"; cf_role := visible_value; cf_value :=
  (NumberValueV2 (PyInt 5) (Some "개")); cf_speaker_label := "오른쪽 점의 개수"; cf_initially_visible :=
  true; cf_required_for_completion := false; cf_accepted_surface_forms := ["오른쪽 5개"] |}; {|
  cf_fact_id := "more_side"; cf_role := final_answer; cf_value := (ChoiceValueV2 "right");
  cf_speaker_label := "점이 더 많은 쪽"; cf_initially_visible := false; cf_required_for_completion :=
  true; cf_accepted_surface_forms := ["오른쪽"; "오른쪽이 더 많아"] |}]; rg_relations := [{| cr_relation_id
  := "compare_quantities"; cr_role := explanation; cr_operation := R_comparison;
  cr_input_fact_ids := ["left_count"; "right_count"]; cr_output_fact_id := "more_side";
  cr_evaluation_mode := open_semantic_support; cr_speaker_label := "두 점의 개수를 비교하는 방법"; cr_rubric
  := {| rr_sufficient := ["3보다 5가 크다는 수 비교를 말한다"; "두 쪽을 하나씩 짝지었을 때 오른쪽 점이 남는다고 말한다"]; rr_partial
  := ["오른쪽 결론만 반복하고 비교 근거는 말하지 않는다"]; rr_incorrect := ["점의 간격이나 크기로 개수를 판단하거나 두 수의 크기를 반대로 말한다"]
  |}; cr_required_for_completion := true |}]; rg_completion := {| required_fact_ids :=
  ["more_side"]; required_relation_ids := ["compare_quantities"] |}; rg_open_auxiliary_claims :=
  true |}; hp_initial_question := {| qp_plan_id := "initial"; qp_targets := [{| target_kind :=
  KIND_fact; target_id := "more_side"; ask_kind := ASK_answer |}; {| target_kind :=
  KIND_relation; target_id := "compare_quantities"; ask_kind := ASK_reason_or_method |}];
  qp_reviewed_fallback := "나 두 쪽 중 점이 더 많은 곳을 고르려는데 헷갈려... 어느 쪽인지랑 비교한 방법을 알려줄 수 있어?" |};
  hp_l3_plans := [{| qp_plan_id := "l3.answer"; qp_targets := [{| target_kind := KIND_fact;
  target_id := "more_side"; ask_kind := ASK_answer |}]; qp_reviewed_fallback :=
  "나 어느 쪽에 점이 더 많은지 헷갈려... 더 많은 쪽만 먼저 알려줄 수 있어?" |}; {| qp_plan_id := "l3.method"; qp_targets :=
  [{| target_kind := KIND_relation; target_id := "compare_quantities"; ask_kind :=
  ASK_reason_or_method |}]; qp_reviewed_fallback :=
  "나 한쪽의 점 3개와 다른 쪽의 점 5개를 어떻게 비교하는지 궁금해... 비교한 방법을 알려줄 수 있어?" |}]; hp_copy_slots := [{|
  cs_copy_slot := "number-compare.initial-help"; cs_purpose := initial_help; cs_targets := [{|
  target_kind := KIND_fact; target_id := "more_side"; ask_kind := ASK_answer |}];
  cs_generation_brief := "질문 부담을 모르미가 맡고 더 많은 쪽부터 부탁한다"; cs_reviewed_fallback :=
  "내가 한꺼번에 물어봤네... 더 많은 쪽만 먼저 알려줄 수 있어?" |}; {| cs_copy_slot := "number-compare.l2.answer";
  cs_purpose := l2_question; cs_targets := [{| target_kind := KIND_fact; target_id :=
  "more_side"; ask_kind := ASK_answer |}]; cs_generation_brief := "점이 더 많은 쪽을 선택해서 알려 달라고 부탁한다";
  cs_reviewed_fallback := "나 점이 더 많은 쪽이 아직 헷갈려... 여기에서 골라서 알려줄 수 있어?" |}; {| cs_copy_slot :=
  "number-compare.l2.method"; cs_purpose := l2_question; cs_targets := [{| target_kind :=
  KIND_relation; target_id := "compare_quantities"; ask_kind := ASK_reason_or_method |}];
  cs_generation_brief := "두 점의 개수를 비교한 근거를 선택해서 알려 달라고 부탁한다"; cs_reviewed_fallback :=
  "나 두 쪽의 점을 어떻게 비교하는지 궁금해... 여기에서 골라서 알려줄 수 있어?" |}; {| cs_copy_slot :=
  "number-compare.l0.intro"; cs_purpose := l0_intro; cs_targets := [{| target_kind := KIND_fact;
  target_id := "more_side"; ask_kind := ASK_answer |}; {| target_kind := KIND_relation; target_id
  := "compare_quantities"; ask_kind := ASK_reason_or_method |}]; cs_generation_brief :=
  "도움 카드를 보며 두 쪽을 공동 비교해 달라고 부탁한다"; cs_reviewed_fallback :=
  "아직 헷갈려서 그런데, 도움 카드를 보면서 나와 같이 비교해 줄 수 있어?" |}; {| cs_copy_slot := "number-compare.l0.action";
  cs_purpose := l0_action; cs_targets := [{| target_kind := KIND_fact; target_id := "more_side";
  ask_kind := ASK_answer |}; {| target_kind := KIND_relation; target_id := "compare_quantities";
  ask_kind := ASK_reason_or_method |}]; cs_generation_brief := "두 쪽의 점을 짝지어 공동 비교하는 행동을 부탁한다";
  cs_reviewed_fallback := "왼쪽과 오른쪽의 점을 하나씩 짝지어 같이 비교해 줄 수 있어?" |}]; hp_l2_plans := [{| l2_plan_id
  := "l2.answer"; l2_target := {| target_kind := KIND_fact; target_id := "more_side"; ask_kind :=
  ASK_answer |}; l2_copy_slot := "number-compare.l2.answer"; l2_choices := [{| lc_choice_id :=
  "answer_0"; lc_label := "왼쪽"; lc_effect := {| ce_verdict := choice_incorrect; ce_target_kind :=
  KIND_fact; ce_target_id := "more_side"; ce_interpreted_value := None; ce_misconception_code :=
  (Some "compare_reversed") |} |}; {| lc_choice_id := "answer_1"; lc_label := "오른쪽"; lc_effect :=
  {| ce_verdict := choice_correct; ce_target_kind := KIND_fact; ce_target_id := "more_side";
  ce_interpreted_value := (Some (ChoiceValueV2 "right")); ce_misconception_code := None |} |}; {|
  lc_choice_id := "answer_2"; lc_label := "같아"; lc_effect := {| ce_verdict := choice_incorrect;
  ce_target_kind := KIND_fact; ce_target_id := "more_side"; ce_interpreted_value := None;
  ce_misconception_code := (Some "compare_equal") |} |}] |}; {| l2_plan_id := "l2.method";
  l2_target := {| target_kind := KIND_relation; target_id := "compare_quantities"; ask_kind :=
  ASK_reason_or_method |}; l2_copy_slot := "number-compare.l2.method"; l2_choices := [{|
  lc_choice_id := "short_0"; lc_label := "왼쪽은 3개, 오른쪽은 5개라서"; lc_effect := {| ce_verdict :=
  choice_correct; ce_target_kind := KIND_relation; ce_target_id := "compare_quantities";
  ce_interpreted_value := None; ce_misconception_code := None |} |}; {| lc_choice_id :=
  "short_1"; lc_label := "왼쪽은 5개, 오른쪽은 3개라서"; lc_effect := {| ce_verdict := choice_incorrect;
  ce_target_kind := KIND_relation; ce_target_id := "compare_quantities"; ce_interpreted_value :=
  None; ce_misconception_code := (Some "compare_counts_swapped") |} |}; {| lc_choice_id :=
  "short_2"; lc_label := "두 쪽 모두 5개라서"; lc_effect := {| ce_verdict := choice_incorrect;
  ce_target_kind := KIND_relation; ce_target_id := "compare_quantities"; ce_interpreted_value :=
  None; ce_misconception_code := (Some "compare_counts_equal") |} |}] |}]; hp_l0_joint_plan := {|
  jp_action_id := "compare_dots_together"; jp_intro_copy_slot := "number-compare.l0.intro";
  jp_action_copy_slot := "number-compare.l0.action"; jp_completion_values :=
  [JointFactCompletionV2 "more_side" (ChoiceValueV2 "right"); JointRelationCompletionV2
  "compare_quantities"]; jp_button_label := "같이 비교하기" |}; hp_help_plan := {| hp_H1 := {| hc_level
  := H1; hc_support_type := attention; hc_answer_policy := hidden; hc_body :=
  "왼쪽과 오른쪽의 점 개수를 각각 살펴보자."; hc_action := None; hc_revealed_fact_ids := [];
  hc_revealed_relation_ids := [] |}; hp_H2 := {| hc_level := H2; hc_support_type :=
  guided_action; hc_answer_policy := partial; hc_body := "왼쪽 3개와 오른쪽 5개를 하나씩 짝지어 남는 쪽을 찾아보자.";
  hc_action := (Some "두 쪽의 점을 하나씩 짝짓기"); hc_revealed_fact_ids := []; hc_revealed_relation_ids :=
  [] |}; hp_H3 := {| hc_level := H3; hc_support_type := joint_model; hc_answer_policy :=
  revealed; hc_body := "왼쪽은 3개, 오른쪽은 5개라서 오른쪽이 더 많아."; hc_action := (Some
  "두 점의 개수와 더 많은 쪽을 함께 확인하기"); hc_revealed_fact_ids := ["more_side"]; hc_revealed_relation_ids :=
  ["compare_quantities"] |} |}; hp_policies := {| po_note_relation_ids := ["compare_quantities"];
  po_dictionary_card_id := "dictionary.home.number-compare" |} |}.

Definition pack_money_count : RequiredHomeTeachingPackV2 :=
  {| hp_pack_id := "home.money-count.v2"; hp_content_version := 1%Z;
  hp_migration_source_content_version := 8%Z; hp_curriculum_session_id := "money-count"; hp_title
  := "돈을 세어요"; hp_journey := {| jl_role := cafe_required; jl_direct_transfer_scenario_ids := []
  |}; hp_source_problem := {| sp_prompt := "모두 얼마일까?"; sp_answers := ["600원"; "500원"; "700원"];
  sp_correct := "600원"; sp_visual := [("type", (JStr "money")); ("amounts", (JArr [(JNum (PyInt
  500)); (JNum (PyInt 100))]))]; sp_rendered_facts := [{| rb_fact_id := "money_500"; rb_exposure
  := explicit_given; rb_source_path := "visual.amounts.0"; rb_label_path := None;
  rb_rendered_label := None |}; {| rb_fact_id := "money_100"; rb_exposure := explicit_given;
  rb_source_path := "visual.amounts.1"; rb_label_path := None; rb_rendered_label := None |}] |};
  hp_reasoning_graph := {| rg_facts := [{| cf_fact_id := "money_500"; cf_role := visible_value;
  cf_value := (MoneyValueV2 (PyInt 500) "KRW"); cf_speaker_label := "500원짜리 돈";
  cf_initially_visible := true; cf_required_for_completion := false; cf_accepted_surface_forms :=
  ["500원"] |}; {| cf_fact_id := "money_100"; cf_role := visible_value; cf_value := (MoneyValueV2
  (PyInt 100) "KRW"); cf_speaker_label := "100원짜리 돈"; cf_initially_visible := true;
  cf_required_for_completion := false; cf_accepted_surface_forms := ["100원"] |}; {| cf_fact_id :=
  "total_amount"; cf_role := final_answer; cf_value := (MoneyValueV2 (PyInt 600) "KRW");
  cf_speaker_label := "두 돈의 전체 금액"; cf_initially_visible := false; cf_required_for_completion :=
  true; cf_accepted_surface_forms := ["600원"; "600"] |}]; rg_relations := [{| cr_relation_id :=
  "add_money_values"; cr_role := procedure_step; cr_operation := R_addition; cr_input_fact_ids :=
  ["money_500"; "money_100"]; cr_output_fact_id := "total_amount"; cr_evaluation_mode :=
  open_semantic_support; cr_speaker_label := "돈마다 적힌 금액을 더하는 방법"; cr_rubric := {| rr_sufficient
  := ["500원과 100원을 더한다고 말한다"; "500에서 100만큼 더 세어 600을 구하는 동치 방법을 말한다"]; rr_partial :=
  ["돈을 센다고만 말하고 금액을 합치는 행동은 말하지 않는다"]; rr_incorrect := ["돈의 개수만 세거나 한 금액만 전체 금액으로 말한다"] |};
  cr_required_for_completion := true |}]; rg_completion := {| required_fact_ids :=
  ["total_amount"]; required_relation_ids := ["add_money_values"] |}; rg_open_auxiliary_claims :=
  true |}; hp_initial_question := {| qp_plan_id := "initial"; qp_targets := [{| target_kind :=
  KIND_fact; target_id := "total_amount"; ask_kind := ASK_answer |}; {| target_kind :=
  KIND_relation; target_id := "add_money_values"; ask_kind := ASK_reason_or_method |}];
  qp_reviewed_fallback := "나 이 돈이 모두 얼마인지 헷갈려... 전체 금액이랑 세는 방법을 알려줄 수 있어?" |}; hp_l3_plans := [{|
  qp_plan_id := "l3.answer"; qp_targets := [{| target_kind := KIND_fact; target_id :=
  "total_amount"; ask_kind := ASK_answer |}]; qp_reviewed_fallback :=
  "나 이 돈이 모두 얼마인지 아직 헷갈려... 전체 금액만 먼저 알려줄 수 있어?" |}; {| qp_plan_id := "l3.method"; qp_targets :=
  [{| target_kind := KIND_relation; target_id := "add_money_values"; ask_kind :=
  ASK_reason_or_method |}]; qp_reviewed_fallback :=
  "나 500원과 100원을 어떻게 세는지 궁금해... 전체 금액을 구하는 방법을 알려줄 수 있어?" |}]; hp_copy_slots := [{| cs_copy_slot
  := "money-count.initial-help"; cs_purpose := initial_help; cs_targets := [{| target_kind :=
  KIND_fact; target_id := "total_amount"; ask_kind := ASK_answer |}]; cs_generation_brief :=
  "질문 부담을 모르미가 맡고 전체 금액부터 부탁한다"; cs_reviewed_fallback :=
  "내가 한꺼번에 물어봤네... 이 돈이 모두 얼마인지만 먼저 알려줄 수 있어?" |}; {| cs_copy_slot := "money-count.l2.answer";
  cs_purpose := l2_question; cs_targets := [{| target_kind := KIND_fact; target_id :=
  "total_amount"; ask_kind := ASK_answer |}]; cs_generation_brief := "전체 금액을 선택해서 알려 달라고 부탁한다";
  cs_reviewed_fallback := "나 이 돈이 모두 얼마인지 아직 헷갈려... 여기에서 골라서 알려줄 수 있어?" |}; {| cs_copy_slot :=
  "money-count.l2.method"; cs_purpose := l2_question; cs_targets := [{| target_kind :=
  KIND_relation; target_id := "add_money_values"; ask_kind := ASK_reason_or_method |}];
  cs_generation_brief := "돈을 세는 방법을 선택해서 알려 달라고 부탁한다"; cs_reviewed_fallback :=
  "나 돈에 적힌 금액을 어떻게 세는지 궁금해... 여기에서 골라서 알려줄 수 있어?" |}; {| cs_copy_slot := "money-count.l0.intro";
  cs_purpose := l0_intro; cs_targets := [{| target_kind := KIND_fact; target_id :=
  "total_amount"; ask_kind := ASK_answer |}; {| target_kind := KIND_relation; target_id :=
  "add_money_values"; ask_kind := ASK_reason_or_method |}]; cs_generation_brief :=
  "도움 카드를 보며 두 금액을 공동 계산해 달라고 부탁한다"; cs_reviewed_fallback :=
  "아직 헷갈려서 그런데, 도움 카드를 보면서 나와 같이 계산해 줄 수 있어?" |}; {| cs_copy_slot := "money-count.l0.action";
  cs_purpose := l0_action; cs_targets := [{| target_kind := KIND_fact; target_id :=
  "total_amount"; ask_kind := ASK_answer |}; {| target_kind := KIND_relation; target_id :=
  "add_money_values"; ask_kind := ASK_reason_or_method |}]; cs_generation_brief :=
  "500원과 100원을 더하는 공동 행동을 부탁한다"; cs_reviewed_fallback := "500원과 100원을 카드에 나온 식처럼 같이 더해 줄 수 있어?"
  |}]; hp_l2_plans := [{| l2_plan_id := "l2.answer"; l2_target := {| target_kind := KIND_fact;
  target_id := "total_amount"; ask_kind := ASK_answer |}; l2_copy_slot :=
  "money-count.l2.answer"; l2_choices := [{| lc_choice_id := "answer_0"; lc_label := "600원";
  lc_effect := {| ce_verdict := choice_correct; ce_target_kind := KIND_fact; ce_target_id :=
  "total_amount"; ce_interpreted_value := (Some (MoneyValueV2 (PyInt 600) "KRW"));
  ce_misconception_code := None |} |}; {| lc_choice_id := "answer_1"; lc_label := "500원";
  lc_effect := {| ce_verdict := choice_incorrect; ce_target_kind := KIND_fact; ce_target_id :=
  "total_amount"; ce_interpreted_value := None; ce_misconception_code := (Some
  "money_ignore_second") |} |}; {| lc_choice_id := "answer_2"; lc_label := "700원"; lc_effect :=
  {| ce_verdict := choice_incorrect; ce_target_kind := KIND_fact; ce_target_id := "total_amount";
  ce_interpreted_value := None; ce_misconception_code := (Some "money_overcount") |} |}] |}; {|
  l2_plan_id := "l2.method"; l2_target := {| target_kind := KIND_relation; target_id :=
  "add_money_values"; ask_kind := ASK_reason_or_method |}; l2_copy_slot :=
  "money-count.l2.method"; l2_choices := [{| lc_choice_id := "short_0"; lc_label :=
  "각 돈에 적힌 금액을 더하기"; lc_effect := {| ce_verdict := choice_correct; ce_target_kind :=
  KIND_relation; ce_target_id := "add_money_values"; ce_interpreted_value := None;
  ce_misconception_code := None |} |}; {| lc_choice_id := "short_1"; lc_label := "돈이 두 개라고만 세기";
  lc_effect := {| ce_verdict := choice_incorrect; ce_target_kind := KIND_relation; ce_target_id
  := "add_money_values"; ce_interpreted_value := None; ce_misconception_code := (Some
  "money_count_objects") |} |}; {| lc_choice_id := "short_2"; lc_label := "500원만 금액으로 세기";
  lc_effect := {| ce_verdict := choice_incorrect; ce_target_kind := KIND_relation; ce_target_id
  := "add_money_values"; ce_interpreted_value := None; ce_misconception_code := (Some
  "money_ignore_second") |} |}] |}]; hp_l0_joint_plan := {| jp_action_id := "add_money_together";
  jp_intro_copy_slot := "money-count.l0.intro"; jp_action_copy_slot := "money-count.l0.action";
  jp_completion_values := [JointFactCompletionV2 "total_amount" (MoneyValueV2 (PyInt 600) "KRW");
  JointRelationCompletionV2 "add_money_values"]; jp_button_label := "같이 더하기" |}; hp_help_plan :=
  {| hp_H1 := {| hc_level := H1; hc_support_type := attention; hc_answer_policy := hidden;
  hc_body := "돈마다 적힌 금액을 하나씩 살펴보자."; hc_action := None; hc_revealed_fact_ids := [];
  hc_revealed_relation_ids := [] |}; hp_H2 := {| hc_level := H2; hc_support_type :=
  guided_action; hc_answer_policy := partial; hc_body := "500+100=□ 식의 빈칸을 구해 보자."; hc_action :=
  (Some "500+100 식의 빈칸 구하기"); hc_revealed_fact_ids := []; hc_revealed_relation_ids := [] |};
  hp_H3 := {| hc_level := H3; hc_support_type := joint_model; hc_answer_policy := revealed;
  hc_body := "500원에 100원을 더하면 모두 600원이야."; hc_action := (Some "500+100=600을 함께 확인하기");
  hc_revealed_fact_ids := ["total_amount"]; hc_revealed_relation_ids := ["add_money_values"] |}
  |}; hp_policies := {| po_note_relation_ids := ["add_money_values"]; po_dictionary_card_id :=
  "dictionary.home.money-count" |} |}.

Definition pack_money_price : RequiredHomeTeachingPackV2 :=
  {| hp_pack_id := "home.money-price.v2"; hp_content_version := 1%Z;
  hp_migration_source_content_version := 8%Z; hp_curriculum_session_id := "money-price"; hp_title
  := "물건값을 더해요"; hp_journey := {| jl_role := cafe_required; jl_direct_transfer_scenario_ids := []
  |}; hp_source_problem := {| sp_prompt := "모두 얼마일까?"; sp_answers := ["1,200원"; "1,100원";
  "1,300원"]; sp_correct := "1,200원"; sp_visual := [("type", (JStr "money")); ("amounts", (JArr
  [(JNum (PyInt 700)); (JNum (PyInt 500))])); ("labels", (JArr [(JStr "주스"); (JStr "빵")]))];
  sp_rendered_facts := [{| rb_fact_id := "juice_price"; rb_exposure := explicit_given;
  rb_source_path := "visual.amounts.0"; rb_label_path := (Some "visual.labels.0");
  rb_rendered_label := (Some "주스") |}; {| rb_fact_id := "bread_price"; rb_exposure :=
  explicit_given; rb_source_path := "visual.amounts.1"; rb_label_path := (Some
  "visual.labels.1"); rb_rendered_label := (Some "빵") |}] |}; hp_reasoning_graph := {| rg_facts
  := [{| cf_fact_id := "juice_price"; cf_role := visible_value; cf_value := (MoneyValueV2 (PyInt
  700) "KRW"); cf_speaker_label := "주스 가격"; cf_initially_visible := true;
  cf_required_for_completion := false; cf_accepted_surface_forms := ["700원"] |}; {| cf_fact_id :=
  "bread_price"; cf_role := visible_value; cf_value := (MoneyValueV2 (PyInt 500) "KRW");
  cf_speaker_label := "빵 가격"; cf_initially_visible := true; cf_required_for_completion := false;
  cf_accepted_surface_forms := ["500원"] |}; {| cf_fact_id := "purchase_total"; cf_role :=
  final_answer; cf_value := (MoneyValueV2 (PyInt 1200) "KRW"); cf_speaker_label := "주스와 빵의 전체 값";
  cf_initially_visible := false; cf_required_for_completion := true; cf_accepted_surface_forms :=
  ["1,200원"; "1200원"; "1200"] |}]; rg_relations := [{| cr_relation_id := "add_item_prices";
  cr_role := procedure_step; cr_operation := R_addition; cr_input_fact_ids := ["juice_price";
  "bread_price"]; cr_output_fact_id := "purchase_total"; cr_evaluation_mode :=
  open_semantic_support; cr_speaker_label := "두 물건값을 더하는 방법"; cr_rubric := {| rr_sufficient :=
  ["700원과 500원을 더한다고 말한다"; "두 물건값을 합쳐 전체 값을 구한다는 동치 방법을 말한다"]; rr_partial :=
  ["두 값을 계산한다고만 말하고 더하는 관계는 말하지 않는다"]; rr_incorrect := ["두 값을 빼거나 한 물건값만 전체 값으로 말한다"] |};
  cr_required_for_completion := true |}]; rg_completion := {| required_fact_ids :=
  ["purchase_total"]; required_relation_ids := ["add_item_prices"] |}; rg_open_auxiliary_claims
  := true |}; hp_initial_question := {| qp_plan_id := "initial"; qp_targets := [{| target_kind :=
  KIND_fact; target_id := "purchase_total"; ask_kind := ASK_answer |}; {| target_kind :=
  KIND_relation; target_id := "add_item_prices"; ask_kind := ASK_reason_or_method |}];
  qp_reviewed_fallback := "나 주스랑 빵을 함께 사려는데 헷갈려... 낼 돈과 계산 방법을 알려줄 수 있어?" |}; hp_l3_plans := [{|
  qp_plan_id := "l3.answer"; qp_targets := [{| target_kind := KIND_fact; target_id :=
  "purchase_total"; ask_kind := ASK_answer |}]; qp_reviewed_fallback :=
  "나 주스랑 빵을 함께 사면 얼마인지 헷갈려... 낼 돈만 먼저 알려줄 수 있어?" |}; {| qp_plan_id := "l3.method"; qp_targets :=
  [{| target_kind := KIND_relation; target_id := "add_item_prices"; ask_kind :=
  ASK_reason_or_method |}]; qp_reviewed_fallback :=
  "나 700원짜리 주스와 500원짜리 빵을 어떻게 계산하는지 궁금해... 방법을 알려줄 수 있어?" |}]; hp_copy_slots := [{| cs_copy_slot
  := "money-price.initial-help"; cs_purpose := initial_help; cs_targets := [{| target_kind :=
  KIND_fact; target_id := "purchase_total"; ask_kind := ASK_answer |}]; cs_generation_brief :=
  "질문 부담을 모르미가 맡고 전체 물건값부터 부탁한다"; cs_reviewed_fallback :=
  "내가 한꺼번에 물어봤네... 주스와 빵이 모두 얼마인지만 먼저 알려줄 수 있어?" |}; {| cs_copy_slot := "money-price.l2.answer";
  cs_purpose := l2_question; cs_targets := [{| target_kind := KIND_fact; target_id :=
  "purchase_total"; ask_kind := ASK_answer |}]; cs_generation_brief :=
  "두 물건의 전체 값을 선택해서 알려 달라고 부탁한다"; cs_reviewed_fallback :=
  "나 주스와 빵이 모두 얼마인지 아직 헷갈려... 여기에서 골라서 알려줄 수 있어?" |}; {| cs_copy_slot := "money-price.l2.method";
  cs_purpose := l2_question; cs_targets := [{| target_kind := KIND_relation; target_id :=
  "add_item_prices"; ask_kind := ASK_reason_or_method |}]; cs_generation_brief :=
  "두 물건값 계산 방법을 선택해서 알려 달라고 부탁한다"; cs_reviewed_fallback :=
  "나 주스와 빵의 값을 어떻게 계산하는지 궁금해... 여기에서 골라서 알려줄 수 있어?" |}; {| cs_copy_slot :=
  "money-price.l0.intro"; cs_purpose := l0_intro; cs_targets := [{| target_kind := KIND_fact;
  target_id := "purchase_total"; ask_kind := ASK_answer |}; {| target_kind := KIND_relation;
  target_id := "add_item_prices"; ask_kind := ASK_reason_or_method |}]; cs_generation_brief :=
  "도움 카드를 보며 물건값을 공동 계산해 달라고 부탁한다"; cs_reviewed_fallback :=
  "아직 헷갈려서 그런데, 도움 카드를 보면서 나와 같이 계산해 줄 수 있어?" |}; {| cs_copy_slot := "money-price.l0.action";
  cs_purpose := l0_action; cs_targets := [{| target_kind := KIND_fact; target_id :=
  "purchase_total"; ask_kind := ASK_answer |}; {| target_kind := KIND_relation; target_id :=
  "add_item_prices"; ask_kind := ASK_reason_or_method |}]; cs_generation_brief :=
  "700원과 500원을 더하는 공동 행동을 부탁한다"; cs_reviewed_fallback := "700원과 500원을 카드에 나온 식처럼 같이 더해 줄 수 있어?"
  |}]; hp_l2_plans := [{| l2_plan_id := "l2.answer"; l2_target := {| target_kind := KIND_fact;
  target_id := "purchase_total"; ask_kind := ASK_answer |}; l2_copy_slot :=
  "money-price.l2.answer"; l2_choices := [{| lc_choice_id := "answer_0"; lc_label := "1,200원";
  lc_effect := {| ce_verdict := choice_correct; ce_target_kind := KIND_fact; ce_target_id :=
  "purchase_total"; ce_interpreted_value := (Some (MoneyValueV2 (PyInt 1200) "KRW"));
  ce_misconception_code := None |} |}; {| lc_choice_id := "answer_1"; lc_label := "1,100원";
  lc_effect := {| ce_verdict := choice_incorrect; ce_target_kind := KIND_fact; ce_target_id :=
  "purchase_total"; ce_interpreted_value := None; ce_misconception_code := (Some
  "price_under_add") |} |}; {| lc_choice_id := "answer_2"; lc_label := "1,300원"; lc_effect := {|
  ce_verdict := choice_incorrect; ce_target_kind := KIND_fact; ce_target_id := "purchase_total";
  ce_interpreted_value := None; ce_misconception_code := (Some "price_over_add") |} |}] |}; {|
  l2_plan_id := "l2.method"; l2_target := {| target_kind := KIND_relation; target_id :=
  "add_item_prices"; ask_kind := ASK_reason_or_method |}; l2_copy_slot :=
  "money-price.l2.method"; l2_choices := [{| lc_choice_id := "short_0"; lc_label :=
  "700원과 500원을 더하기"; lc_effect := {| ce_verdict := choice_correct; ce_target_kind :=
  KIND_relation; ce_target_id := "add_item_prices"; ce_interpreted_value := None;
  ce_misconception_code := None |} |}; {| lc_choice_id := "short_1"; lc_label :=
  "700원에서 500원을 빼기"; lc_effect := {| ce_verdict := choice_incorrect; ce_target_kind :=
  KIND_relation; ce_target_id := "add_item_prices"; ce_interpreted_value := None;
  ce_misconception_code := (Some "price_subtract") |} |}; {| lc_choice_id := "short_2"; lc_label
  := "700원만 계산하기"; lc_effect := {| ce_verdict := choice_incorrect; ce_target_kind :=
  KIND_relation; ce_target_id := "add_item_prices"; ce_interpreted_value := None;
  ce_misconception_code := (Some "price_ignore_item") |} |}] |}]; hp_l0_joint_plan := {|
  jp_action_id := "add_item_prices_together"; jp_intro_copy_slot := "money-price.l0.intro";
  jp_action_copy_slot := "money-price.l0.action"; jp_completion_values := [JointFactCompletionV2
  "purchase_total" (MoneyValueV2 (PyInt 1200) "KRW"); JointRelationCompletionV2
  "add_item_prices"]; jp_button_label := "같이 계산하기" |}; hp_help_plan := {| hp_H1 := {| hc_level :=
  H1; hc_support_type := attention; hc_answer_policy := hidden; hc_body :=
  "주스값 700원과 빵값 500원을 각각 살펴보자."; hc_action := None; hc_revealed_fact_ids := [];
  hc_revealed_relation_ids := [] |}; hp_H2 := {| hc_level := H2; hc_support_type :=
  guided_action; hc_answer_policy := partial; hc_body := "700+500=□ 식의 빈칸을 구해 보자."; hc_action :=
  (Some "700+500 식의 빈칸 구하기"); hc_revealed_fact_ids := []; hc_revealed_relation_ids := [] |};
  hp_H3 := {| hc_level := H3; hc_support_type := joint_model; hc_answer_policy := revealed;
  hc_body := "700원에 500원을 더하면 모두 1,200원이야."; hc_action := (Some "700+500=1,200을 함께 확인하기");
  hc_revealed_fact_ids := ["purchase_total"]; hc_revealed_relation_ids := ["add_item_prices"] |}
  |}; hp_policies := {| po_note_relation_ids := ["add_item_prices"]; po_dictionary_card_id :=
  "dictionary.home.money-price" |} |}.

Definition pack_money_budget : RequiredHomeTeachingPackV2 :=
  {| hp_pack_id := "home.money-budget.v2"; hp_content_version := 1%Z;
  hp_migration_source_content_version := 7%Z; hp_curriculum_session_id := "money-budget";
  hp_title := "내 돈으로 살 수 있어요"; hp_journey := {| jl_role := cafe_required;
  jl_direct_transfer_scenario_ids := [] |}; hp_source_problem := {| sp_prompt :=
  "2,000원을 냈어. 얼마를 돌려받을까?"; sp_answers := ["200원"; "100원"; "300원"]; sp_correct := "200원";
  sp_visual := [("type", (JStr "money")); ("amounts", (JArr [(JNum (PyInt 1800))])); ("paid",
  (JNum (PyInt 2000))); ("labels", (JArr [(JStr "간식")]))]; sp_rendered_facts := [{| rb_fact_id :=
  "paid_amount"; rb_exposure := explicit_given; rb_source_path := "visual.paid"; rb_label_path :=
  None; rb_rendered_label := None |}; {| rb_fact_id := "item_price"; rb_exposure :=
  explicit_given; rb_source_path := "visual.amounts.0"; rb_label_path := (Some
  "visual.labels.0"); rb_rendered_label := (Some "간식") |}] |}; hp_reasoning_graph := {| rg_facts
  := [{| cf_fact_id := "paid_amount"; cf_role := visible_value; cf_value := (MoneyValueV2 (PyInt
  2000) "KRW"); cf_speaker_label := "낸 돈"; cf_initially_visible := true;
  cf_required_for_completion := false; cf_accepted_surface_forms := ["2,000원"; "2000원"] |}; {|
  cf_fact_id := "item_price"; cf_role := visible_value; cf_value := (MoneyValueV2 (PyInt 1800)
  "KRW"); cf_speaker_label := "간식값"; cf_initially_visible := true; cf_required_for_completion :=
  false; cf_accepted_surface_forms := ["1,800원"; "1800원"] |}; {| cf_fact_id := "change_amount";
  cf_role := final_answer; cf_value := (MoneyValueV2 (PyInt 200) "KRW"); cf_speaker_label :=
  "돌려받는 돈"; cf_initially_visible := false; cf_required_for_completion := true;
  cf_accepted_surface_forms := ["200원"; "200"] |}]; rg_relations := [{| cr_relation_id :=
  "subtract_price_from_paid"; cr_role := procedure_step; cr_operation := R_subtraction;
  cr_input_fact_ids := ["paid_amount"; "item_price"]; cr_output_fact_id := "change_amount";
  cr_evaluation_mode := open_semantic_support; cr_speaker_label := "낸 돈에서 간식값을 빼는 방법"; cr_rubric
  := {| rr_sufficient := ["2,000원에서 1,800원을 뺀다고 말한다"; "낸 돈에서 물건값을 덜어 거스름돈을 구한다는 동치 방법을 말한다"];
  rr_partial := ["두 금액의 차이를 구한다고만 말하고 빼는 순서를 분명히 하지 않는다"]; rr_incorrect :=
  ["두 금액을 더하거나 1,800원에서 2,000원을 뺀다고 말한다"] |}; cr_required_for_completion := true |}];
  rg_completion := {| required_fact_ids := ["change_amount"]; required_relation_ids :=
  ["subtract_price_from_paid"] |}; rg_open_auxiliary_claims := true |}; hp_initial_question := {|
  qp_plan_id := "initial"; qp_targets := [{| target_kind := KIND_fact; target_id :=
  "change_amount"; ask_kind := ASK_answer |}; {| target_kind := KIND_relation; target_id :=
  "subtract_price_from_paid"; ask_kind := ASK_reason_or_method |}]; qp_reviewed_fallback :=
  "나 2,000원으로 간식을 사고 얼마를 돌려받는지 헷갈려... 돌려받는 돈과 계산 방법을 알려줄 수 있어?" |}; hp_l3_plans := [{| qp_plan_id
  := "l3.answer"; qp_targets := [{| target_kind := KIND_fact; target_id := "change_amount";
  ask_kind := ASK_answer |}]; qp_reviewed_fallback :=
  "나 간식을 사고 얼마를 돌려받는지 헷갈려... 돌려받는 돈만 먼저 알려줄 수 있어?" |}; {| qp_plan_id := "l3.method"; qp_targets
  := [{| target_kind := KIND_relation; target_id := "subtract_price_from_paid"; ask_kind :=
  ASK_reason_or_method |}]; qp_reviewed_fallback :=
  "나 2,000원으로 1,800원짜리 간식을 산 뒤 어떻게 계산하는지 궁금해... 방법을 알려줄 수 있어?" |}]; hp_copy_slots := [{|
  cs_copy_slot := "money-budget.initial-help"; cs_purpose := initial_help; cs_targets := [{|
  target_kind := KIND_fact; target_id := "change_amount"; ask_kind := ASK_answer |}];
  cs_generation_brief := "질문 부담을 모르미가 맡고 돌려받는 돈부터 부탁한다"; cs_reviewed_fallback :=
  "내가 한꺼번에 물어봤네... 얼마를 돌려받는지만 먼저 알려줄 수 있어?" |}; {| cs_copy_slot := "money-budget.l2.answer";
  cs_purpose := l2_question; cs_targets := [{| target_kind := KIND_fact; target_id :=
  "change_amount"; ask_kind := ASK_answer |}]; cs_generation_brief := "돌려받는 돈을 선택해서 알려 달라고 부탁한다";
  cs_reviewed_fallback := "나 얼마를 돌려받는지 아직 헷갈려... 여기에서 골라서 알려줄 수 있어?" |}; {| cs_copy_slot :=
  "money-budget.l2.method"; cs_purpose := l2_question; cs_targets := [{| target_kind :=
  KIND_relation; target_id := "subtract_price_from_paid"; ask_kind := ASK_reason_or_method |}];
  cs_generation_brief := "거스름돈 계산 방법을 선택해서 알려 달라고 부탁한다"; cs_reviewed_fallback :=
  "나 돌려받는 돈을 어떻게 계산하는지 궁금해... 여기에서 골라서 알려줄 수 있어?" |}; {| cs_copy_slot := "money-budget.l0.intro";
  cs_purpose := l0_intro; cs_targets := [{| target_kind := KIND_fact; target_id :=
  "change_amount"; ask_kind := ASK_answer |}; {| target_kind := KIND_relation; target_id :=
  "subtract_price_from_paid"; ask_kind := ASK_reason_or_method |}]; cs_generation_brief :=
  "도움 카드를 보며 거스름돈을 공동 계산해 달라고 부탁한다"; cs_reviewed_fallback :=
  "아직 헷갈려서 그런데, 도움 카드를 보면서 나와 같이 계산해 줄 수 있어?" |}; {| cs_copy_slot := "money-budget.l0.action";
  cs_purpose := l0_action; cs_targets := [{| target_kind := KIND_fact; target_id :=
  "change_amount"; ask_kind := ASK_answer |}; {| target_kind := KIND_relation; target_id :=
  "subtract_price_from_paid"; ask_kind := ASK_reason_or_method |}]; cs_generation_brief :=
  "2,000원에서 1,800원을 빼는 공동 행동을 부탁한다"; cs_reviewed_fallback :=
  "2,000원에서 1,800원을 카드에 나온 식처럼 같이 빼 줄 수 있어?" |}]; hp_l2_plans := [{| l2_plan_id := "l2.answer";
  l2_target := {| target_kind := KIND_fact; target_id := "change_amount"; ask_kind := ASK_answer
  |}; l2_copy_slot := "money-budget.l2.answer"; l2_choices := [{| lc_choice_id := "answer_0";
  lc_label := "200원"; lc_effect := {| ce_verdict := choice_correct; ce_target_kind := KIND_fact;
  ce_target_id := "change_amount"; ce_interpreted_value := (Some (MoneyValueV2 (PyInt 200)
  "KRW")); ce_misconception_code := None |} |}; {| lc_choice_id := "answer_1"; lc_label :=
  "100원"; lc_effect := {| ce_verdict := choice_incorrect; ce_target_kind := KIND_fact;
  ce_target_id := "change_amount"; ce_interpreted_value := None; ce_misconception_code := (Some
  "change_under_subtract") |} |}; {| lc_choice_id := "answer_2"; lc_label := "300원"; lc_effect :=
  {| ce_verdict := choice_incorrect; ce_target_kind := KIND_fact; ce_target_id :=
  "change_amount"; ce_interpreted_value := None; ce_misconception_code := (Some
  "change_over_subtract") |} |}] |}; {| l2_plan_id := "l2.method"; l2_target := {| target_kind :=
  KIND_relation; target_id := "subtract_price_from_paid"; ask_kind := ASK_reason_or_method |};
  l2_copy_slot := "money-budget.l2.method"; l2_choices := [{| lc_choice_id := "short_0"; lc_label
  := "2,000원에서 1,800원 빼기"; lc_effect := {| ce_verdict := choice_correct; ce_target_kind :=
  KIND_relation; ce_target_id := "subtract_price_from_paid"; ce_interpreted_value := None;
  ce_misconception_code := None |} |}; {| lc_choice_id := "short_1"; lc_label :=
  "2,000원과 1,800원 더하기"; lc_effect := {| ce_verdict := choice_incorrect; ce_target_kind :=
  KIND_relation; ce_target_id := "subtract_price_from_paid"; ce_interpreted_value := None;
  ce_misconception_code := (Some "change_add") |} |}; {| lc_choice_id := "short_2"; lc_label :=
  "1,800원에서 2,000원 빼기"; lc_effect := {| ce_verdict := choice_incorrect; ce_target_kind :=
  KIND_relation; ce_target_id := "subtract_price_from_paid"; ce_interpreted_value := None;
  ce_misconception_code := (Some "change_reverse_subtract") |} |}] |}]; hp_l0_joint_plan := {|
  jp_action_id := "calculate_change_together"; jp_intro_copy_slot := "money-budget.l0.intro";
  jp_action_copy_slot := "money-budget.l0.action"; jp_completion_values := [JointFactCompletionV2
  "change_amount" (MoneyValueV2 (PyInt 200) "KRW"); JointRelationCompletionV2
  "subtract_price_from_paid"]; jp_button_label := "같이 계산하기" |}; hp_help_plan := {| hp_H1 := {|
  hc_level := H1; hc_support_type := attention; hc_answer_policy := hidden; hc_body :=
  "낸 돈 2,000원과 간식값 1,800원을 살펴보자."; hc_action := None; hc_revealed_fact_ids := [];
  hc_revealed_relation_ids := [] |}; hp_H2 := {| hc_level := H2; hc_support_type :=
  guided_action; hc_answer_policy := partial; hc_body := "2,000-1,800=□ 식의 빈칸을 구해 보자."; hc_action
  := (Some "2,000-1,800 식의 빈칸 구하기"); hc_revealed_fact_ids := []; hc_revealed_relation_ids := []
  |}; hp_H3 := {| hc_level := H3; hc_support_type := joint_model; hc_answer_policy := revealed;
  hc_body := "2,000원에서 1,800원을 빼면 200원을 돌려받아."; hc_action := (Some "2,000-1,800=200을 함께 확인하기");
  hc_revealed_fact_ids := ["change_amount"]; hc_revealed_relation_ids :=
  ["subtract_price_from_paid"] |} |}; hp_policies := {| po_note_relation_ids :=
  ["subtract_price_from_paid"]; po_dictionary_card_id := "dictionary.home.money-budget" |} |}.

Definition pack_multiply_groups : RequiredHomeTeachingPackV2 :=
  {| hp_pack_id := "home.multiply-groups.v2"; hp_content_version := 1%Z;
  hp_migration_source_content_version := 8%Z; hp_curriculum_session_id := "multiply-groups";
  hp_title := "가격과 개수를 곱해요"; hp_journey := {| jl_role := amusement_preparation;
  jl_direct_transfer_scenario_ids := ["amusement_ticket_multiply"] |}; hp_source_problem := {|
  sp_prompt := "4,000원짜리 장난감 4개는 모두 얼마일까?"; sp_answers := ["16,000원"; "4,000원"; "4,004원";
  "12,000원"]; sp_correct := "16,000원"; sp_visual := [("type", (JStr "money-practice")); ("image",
  (JStr "/life-missions/products/toy.jpg")); ("imageAlt", (JStr "장난감 네 개")); ("badge", (JStr
  "선물 가게")); ("facts", (JArr [(JObj [("label", (JStr "한 개")); ("value", (JStr "4,000원"))]); (JObj
  [("label", (JStr "장난감")); ("value", (JStr "4개"))])])); ("items", (JArr [(JObj [("image", (JStr
  "/life-missions/products/toy.jpg")); ("label", (JStr "장난감")); ("count", (JNum (PyInt
  4)))])]))]; sp_rendered_facts := [{| rb_fact_id := "unit_price"; rb_exposure := explicit_given;
  rb_source_path := "visual.facts.0.value"; rb_label_path := (Some "visual.facts.0.label");
  rb_rendered_label := (Some "한 개") |}; {| rb_fact_id := "quantity"; rb_exposure :=
  explicit_given; rb_source_path := "visual.facts.1.value"; rb_label_path := (Some
  "visual.facts.1.label"); rb_rendered_label := (Some "장난감") |}; {| rb_fact_id := "quantity";
  rb_exposure := explicit_given; rb_source_path := "visual.items.0.count"; rb_label_path := (Some
  "visual.items.0.label"); rb_rendered_label := (Some "장난감") |}] |}; hp_reasoning_graph := {|
  rg_facts := [{| cf_fact_id := "unit_price"; cf_role := visible_value; cf_value := (MoneyValueV2
  (PyInt 4000) "KRW"); cf_speaker_label := "장난감 단가"; cf_initially_visible := true;
  cf_required_for_completion := false; cf_accepted_surface_forms := ["4,000원"; "4000원"] |}; {|
  cf_fact_id := "quantity"; cf_role := visible_value; cf_value := (NumberValueV2 (PyInt 4) (Some
  "개")); cf_speaker_label := "필요한 장난감 수"; cf_initially_visible := true;
  cf_required_for_completion := false; cf_accepted_surface_forms := ["4개"; "네 개"] |}; {|
  cf_fact_id := "total_price"; cf_role := final_answer; cf_value := (MoneyValueV2 (PyInt 16000)
  "KRW"); cf_speaker_label := "장난감 전체 값"; cf_initially_visible := false;
  cf_required_for_completion := true; cf_accepted_surface_forms := ["16,000원"; "16000원"; "16000"]
  |}]; rg_relations := [{| cr_relation_id := "scale_unit_price"; cr_role := procedure_step;
  cr_operation := R_multiplication; cr_input_fact_ids := ["unit_price"; "quantity"];
  cr_output_fact_id := "total_price"; cr_evaluation_mode := open_semantic_support;
  cr_speaker_label := "한 개 가격을 필요한 개수만큼 계산하는 방법"; cr_rubric := {| rr_sufficient :=
  ["4,000과 4를 곱한다고 말한다"; "4,000원을 네 번 더한다고 말한다"]; rr_partial :=
  ["한 개 가격을 여러 번 계산한다고만 말하고 횟수나 연산을 분명히 하지 않는다"]; rr_incorrect :=
  ["4,000과 4를 더하거나 한 개 가격만 전체 값으로 말한다"] |}; cr_required_for_completion := true |}]; rg_completion
  := {| required_fact_ids := ["total_price"]; required_relation_ids := ["scale_unit_price"] |};
  rg_open_auxiliary_claims := true |}; hp_initial_question := {| qp_plan_id := "initial";
  qp_targets := [{| target_kind := KIND_fact; target_id := "total_price"; ask_kind := ASK_answer
  |}; {| target_kind := KIND_relation; target_id := "scale_unit_price"; ask_kind :=
  ASK_reason_or_method |}]; qp_reviewed_fallback :=
  "나 4,000원짜리 장난감 4개를 사려는데 헷갈려... 전체 값과 구하는 방법을 알려줄 수 있어?" |}; hp_l3_plans := [{| qp_plan_id :=
  "l3.answer"; qp_targets := [{| target_kind := KIND_fact; target_id := "total_price"; ask_kind
  := ASK_answer |}]; qp_reviewed_fallback := "나 장난감 4개가 모두 얼마인지 헷갈려... 전체 값만 먼저 알려줄 수 있어?" |}; {|
  qp_plan_id := "l3.method"; qp_targets := [{| target_kind := KIND_relation; target_id :=
  "scale_unit_price"; ask_kind := ASK_reason_or_method |}]; qp_reviewed_fallback :=
  "나 4,000원짜리 장난감 4개의 값을 어떻게 구하는지 궁금해... 계산 방법을 알려줄 수 있어?" |}]; hp_copy_slots := [{| cs_copy_slot
  := "multiply-groups.initial-help"; cs_purpose := initial_help; cs_targets := [{| target_kind :=
  KIND_fact; target_id := "total_price"; ask_kind := ASK_answer |}]; cs_generation_brief :=
  "질문 부담을 모르미가 맡고 장난감 전체 값부터 부탁한다"; cs_reviewed_fallback :=
  "내가 한꺼번에 물어봤네... 장난감 4개가 모두 얼마인지만 먼저 알려줄 수 있어?" |}; {| cs_copy_slot :=
  "multiply-groups.l2.answer"; cs_purpose := l2_question; cs_targets := [{| target_kind :=
  KIND_fact; target_id := "total_price"; ask_kind := ASK_answer |}]; cs_generation_brief :=
  "장난감 네 개의 전체 값을 선택해서 알려 달라고 부탁한다"; cs_reviewed_fallback :=
  "나 장난감 4개의 전체 값이 아직 헷갈려... 여기에서 골라서 알려줄 수 있어?" |}; {| cs_copy_slot :=
  "multiply-groups.l2.method"; cs_purpose := l2_question; cs_targets := [{| target_kind :=
  KIND_relation; target_id := "scale_unit_price"; ask_kind := ASK_reason_or_method |}];
  cs_generation_brief := "한 개 가격과 개수를 계산하는 방법을 선택해서 알려 달라고 부탁한다"; cs_reviewed_fallback :=
  "나 4,000원짜리 장난감 4개의 값을 어떻게 구하는지 궁금해... 여기에서 골라서 알려줄 수 있어?" |}; {| cs_copy_slot :=
  "multiply-groups.l0.intro"; cs_purpose := l0_intro; cs_targets := [{| target_kind := KIND_fact;
  target_id := "total_price"; ask_kind := ASK_answer |}; {| target_kind := KIND_relation;
  target_id := "scale_unit_price"; ask_kind := ASK_reason_or_method |}]; cs_generation_brief :=
  "도움 카드를 보며 장난감 전체 값을 공동 계산해 달라고 부탁한다"; cs_reviewed_fallback :=
  "아직 헷갈려서 그런데, 도움 카드를 보면서 나와 같이 계산해 줄 수 있어?" |}; {| cs_copy_slot := "multiply-groups.l0.action";
  cs_purpose := l0_action; cs_targets := [{| target_kind := KIND_fact; target_id :=
  "total_price"; ask_kind := ASK_answer |}; {| target_kind := KIND_relation; target_id :=
  "scale_unit_price"; ask_kind := ASK_reason_or_method |}]; cs_generation_brief :=
  "4,000원과 4개를 곱하는 공동 행동을 부탁한다"; cs_reviewed_fallback :=
  "4,000원짜리 장난감 4개의 값을 카드에 나온 식처럼 같이 구해 줄 수 있어?" |}]; hp_l2_plans := [{| l2_plan_id :=
  "l2.answer"; l2_target := {| target_kind := KIND_fact; target_id := "total_price"; ask_kind :=
  ASK_answer |}; l2_copy_slot := "multiply-groups.l2.answer"; l2_choices := [{| lc_choice_id :=
  "answer_0"; lc_label := "16,000원"; lc_effect := {| ce_verdict := choice_correct; ce_target_kind
  := KIND_fact; ce_target_id := "total_price"; ce_interpreted_value := (Some (MoneyValueV2 (PyInt
  16000) "KRW")); ce_misconception_code := None |} |}; {| lc_choice_id := "answer_1"; lc_label :=
  "4,000원"; lc_effect := {| ce_verdict := choice_incorrect; ce_target_kind := KIND_fact;
  ce_target_id := "total_price"; ce_interpreted_value := None; ce_misconception_code := (Some
  "multiply_one_unit_only") |} |}; {| lc_choice_id := "answer_2"; lc_label := "4,004원"; lc_effect
  := {| ce_verdict := choice_incorrect; ce_target_kind := KIND_fact; ce_target_id :=
  "total_price"; ce_interpreted_value := None; ce_misconception_code := (Some
  "multiply_add_count") |} |}; {| lc_choice_id := "answer_3"; lc_label := "12,000원"; lc_effect :=
  {| ce_verdict := choice_incorrect; ce_target_kind := KIND_fact; ce_target_id := "total_price";
  ce_interpreted_value := None; ce_misconception_code := (Some "multiply_one_group_missing") |}
  |}] |}; {| l2_plan_id := "l2.method"; l2_target := {| target_kind := KIND_relation; target_id
  := "scale_unit_price"; ask_kind := ASK_reason_or_method |}; l2_copy_slot :=
  "multiply-groups.l2.method"; l2_choices := [{| lc_choice_id := "short_0"; lc_label :=
  "4,000×4로 구하기"; lc_effect := {| ce_verdict := choice_correct; ce_target_kind := KIND_relation;
  ce_target_id := "scale_unit_price"; ce_interpreted_value := None; ce_misconception_code := None
  |} |}; {| lc_choice_id := "short_1"; lc_label := "4,000+4로 구하기"; lc_effect := {| ce_verdict :=
  choice_incorrect; ce_target_kind := KIND_relation; ce_target_id := "scale_unit_price";
  ce_interpreted_value := None; ce_misconception_code := (Some "multiply_add_count") |} |}; {|
  lc_choice_id := "short_2"; lc_label := "4,000원만 계산하기"; lc_effect := {| ce_verdict :=
  choice_incorrect; ce_target_kind := KIND_relation; ce_target_id := "scale_unit_price";
  ce_interpreted_value := None; ce_misconception_code := (Some "multiply_one_unit_only") |} |}]
  |}]; hp_l0_joint_plan := {| jp_action_id := "multiply_price_together"; jp_intro_copy_slot :=
  "multiply-groups.l0.intro"; jp_action_copy_slot := "multiply-groups.l0.action";
  jp_completion_values := [JointFactCompletionV2 "total_price" (MoneyValueV2 (PyInt 16000)
  "KRW"); JointRelationCompletionV2 "scale_unit_price"]; jp_button_label := "같이 계산하기" |};
  hp_help_plan := {| hp_H1 := {| hc_level := H1; hc_support_type := attention; hc_answer_policy
  := hidden; hc_body := "장난감 한 개 값 4,000원과 필요한 장난감 4개를 살펴보자."; hc_action := None;
  hc_revealed_fact_ids := []; hc_revealed_relation_ids := [] |}; hp_H2 := {| hc_level := H2;
  hc_support_type := guided_action; hc_answer_policy := partial; hc_body :=
  "4,000×4=□ 식의 빈칸을 구해 보자."; hc_action := (Some "4,000×4 식의 빈칸 구하기"); hc_revealed_fact_ids := [];
  hc_revealed_relation_ids := [] |}; hp_H3 := {| hc_level := H3; hc_support_type := joint_model;
  hc_answer_policy := revealed; hc_body := "4,000×4=16,000이라서 장난감 4개는 모두 16,000원이야."; hc_action
  := (Some "4,000×4=16,000을 함께 확인하기"); hc_revealed_fact_ids := ["total_price"];
  hc_revealed_relation_ids := ["scale_unit_price"] |} |}; hp_policies := {| po_note_relation_ids
  := ["scale_unit_price"]; po_dictionary_card_id := "dictionary.home.multiply-groups" |} |}.

Definition pack_divide_share : RequiredHomeTeachingPackV2 :=
  {| hp_pack_id := "home.divide-share.v2"; hp_content_version := 1%Z;
  hp_migration_source_content_version := 8%Z; hp_curriculum_session_id := "divide-share";
  hp_title := "물건값을 똑같이 나눠요"; hp_journey := {| jl_role := amusement_preparation;
  jl_direct_transfer_scenario_ids := ["amusement_snack_divide"] |}; hp_source_problem := {|
  sp_prompt := "선물 세트 10,500원을 3명이 똑같이 내면 한 명당 얼마일까?"; sp_answers := ["3,500원"; "5,250원";
  "2,500원"]; sp_correct := "3,500원"; sp_visual := [("type", (JStr "money-practice")); ("image",
  (JStr "/life-missions/products/gift.jpg")); ("imageAlt", (JStr "친구에게 줄 선물 세트")); ("badge",
  (JStr "선물 가게")); ("facts", (JArr [(JObj [("label", (JStr "전체 값")); ("value", (JStr
  "10,500원"))]); (JObj [("label", (JStr "함께 낼 사람")); ("value", (JStr "3명"))])])); ("items", (JArr
  [(JObj [("image", (JStr "/life-missions/products/gift.jpg")); ("label", (JStr "선물 세트"));
  ("count", (JNum (PyInt 1)))])]))]; sp_rendered_facts := [{| rb_fact_id := "total_price";
  rb_exposure := explicit_given; rb_source_path := "visual.facts.0.value"; rb_label_path := (Some
  "visual.facts.0.label"); rb_rendered_label := (Some "전체 값") |}; {| rb_fact_id := "payer_count";
  rb_exposure := explicit_given; rb_source_path := "visual.facts.1.value"; rb_label_path := (Some
  "visual.facts.1.label"); rb_rendered_label := (Some "함께 낼 사람") |}] |}; hp_reasoning_graph := {|
  rg_facts := [{| cf_fact_id := "total_price"; cf_role := visible_value; cf_value :=
  (MoneyValueV2 (PyInt 10500) "KRW"); cf_speaker_label := "선물 세트 전체 값"; cf_initially_visible :=
  true; cf_required_for_completion := false; cf_accepted_surface_forms := ["10,500원"; "10500원"]
  |}; {| cf_fact_id := "payer_count"; cf_role := visible_value; cf_value := (NumberValueV2 (PyInt
  3) (Some "명")); cf_speaker_label := "함께 낼 사람 수"; cf_initially_visible := true;
  cf_required_for_completion := false; cf_accepted_surface_forms := ["3명"; "세 명"] |}; {|
  cf_fact_id := "per_person"; cf_role := final_answer; cf_value := (MoneyValueV2 (PyInt 3500)
  "KRW"); cf_speaker_label := "각자 낼 돈"; cf_initially_visible := false; cf_required_for_completion
  := true; cf_accepted_surface_forms := ["3,500원"; "3500원"; "3500"] |}]; rg_relations := [{|
  cr_relation_id := "equal_share_total"; cr_role := procedure_step; cr_operation := R_division;
  cr_input_fact_ids := ["total_price"; "payer_count"]; cr_output_fact_id := "per_person";
  cr_evaluation_mode := open_semantic_support; cr_speaker_label := "전체 값을 세 사람에게 똑같이 나누는 방법";
  cr_rubric := {| rr_sufficient := ["10,500원을 3으로 나눈다고 말한다";
  "세 사람이 같은 돈을 내도록 나누거나 3,500을 세 번 모아 10,500인지 확인하는 동치 방법을 말한다"]; rr_partial :=
  ["똑같이 나눈다고만 말하고 사람 수나 계산 관계는 말하지 않는다"]; rr_incorrect := ["두 사람으로 나누거나 전체 값을 한 사람이 내는 돈으로 말한다"]
  |}; cr_required_for_completion := true |}]; rg_completion := {| required_fact_ids :=
  ["per_person"]; required_relation_ids := ["equal_share_total"] |}; rg_open_auxiliary_claims :=
  true |}; hp_initial_question := {| qp_plan_id := "initial"; qp_targets := [{| target_kind :=
  KIND_fact; target_id := "per_person"; ask_kind := ASK_answer |}; {| target_kind :=
  KIND_relation; target_id := "equal_share_total"; ask_kind := ASK_reason_or_method |}];
  qp_reviewed_fallback := "나 10,500원짜리 선물 세트를 세 명이 똑같이 내려는데 헷갈려... 한 명이 낼 돈과 계산 방법을 알려줄 수 있어?"
  |}; hp_l3_plans := [{| qp_plan_id := "l3.answer"; qp_targets := [{| target_kind := KIND_fact;
  target_id := "per_person"; ask_kind := ASK_answer |}]; qp_reviewed_fallback :=
  "나 세 명이 똑같이 내면 한 명이 얼마를 내는지 헷갈려... 한 명이 낼 돈만 알려줄 수 있어?" |}; {| qp_plan_id := "l3.method";
  qp_targets := [{| target_kind := KIND_relation; target_id := "equal_share_total"; ask_kind :=
  ASK_reason_or_method |}]; qp_reviewed_fallback :=
  "나 10,500원을 세 명에게 똑같이 나누는 방법이 궁금해... 계산 방법을 알려줄 수 있어?" |}]; hp_copy_slots := [{| cs_copy_slot
  := "divide-share.initial-help"; cs_purpose := initial_help; cs_targets := [{| target_kind :=
  KIND_fact; target_id := "per_person"; ask_kind := ASK_answer |}]; cs_generation_brief :=
  "질문 부담을 모르미가 맡고 한 사람이 낼 돈부터 부탁한다"; cs_reviewed_fallback :=
  "내가 한꺼번에 물어봤네... 한 명이 얼마를 내는지만 먼저 알려줄 수 있어?" |}; {| cs_copy_slot := "divide-share.l2.answer";
  cs_purpose := l2_question; cs_targets := [{| target_kind := KIND_fact; target_id :=
  "per_person"; ask_kind := ASK_answer |}]; cs_generation_brief := "한 사람이 낼 돈을 선택해서 알려 달라고 부탁한다";
  cs_reviewed_fallback := "나 한 명이 얼마를 내는지 아직 헷갈려... 여기에서 골라서 알려줄 수 있어?" |}; {| cs_copy_slot :=
  "divide-share.l2.method"; cs_purpose := l2_question; cs_targets := [{| target_kind :=
  KIND_relation; target_id := "equal_share_total"; ask_kind := ASK_reason_or_method |}];
  cs_generation_brief := "세 명이 똑같이 나누는 방법을 선택해서 알려 달라고 부탁한다"; cs_reviewed_fallback :=
  "나 세 명이 똑같이 내는 방법이 궁금해... 여기에서 골라서 알려줄 수 있어?" |}; {| cs_copy_slot := "divide-share.l0.intro";
  cs_purpose := l0_intro; cs_targets := [{| target_kind := KIND_fact; target_id := "per_person";
  ask_kind := ASK_answer |}; {| target_kind := KIND_relation; target_id := "equal_share_total";
  ask_kind := ASK_reason_or_method |}]; cs_generation_brief :=
  "도움 카드를 보며 한 사람 몫을 공동 계산해 달라고 부탁한다"; cs_reviewed_fallback :=
  "아직 헷갈려서 그런데, 도움 카드를 보면서 나와 같이 계산해 줄 수 있어?" |}; {| cs_copy_slot := "divide-share.l0.action";
  cs_purpose := l0_action; cs_targets := [{| target_kind := KIND_fact; target_id := "per_person";
  ask_kind := ASK_answer |}; {| target_kind := KIND_relation; target_id := "equal_share_total";
  ask_kind := ASK_reason_or_method |}]; cs_generation_brief := "10,500원을 세 명에게 나누는 공동 행동을 부탁한다";
  cs_reviewed_fallback := "10,500원을 세 명에게 똑같이 나누는 식을 같이 구해 줄 수 있어?" |}]; hp_l2_plans := [{|
  l2_plan_id := "l2.answer"; l2_target := {| target_kind := KIND_fact; target_id := "per_person";
  ask_kind := ASK_answer |}; l2_copy_slot := "divide-share.l2.answer"; l2_choices := [{|
  lc_choice_id := "answer_0"; lc_label := "3,500원"; lc_effect := {| ce_verdict := choice_correct;
  ce_target_kind := KIND_fact; ce_target_id := "per_person"; ce_interpreted_value := (Some
  (MoneyValueV2 (PyInt 3500) "KRW")); ce_misconception_code := None |} |}; {| lc_choice_id :=
  "answer_1"; lc_label := "5,250원"; lc_effect := {| ce_verdict := choice_incorrect;
  ce_target_kind := KIND_fact; ce_target_id := "per_person"; ce_interpreted_value := None;
  ce_misconception_code := (Some "share_divide_by_two") |} |}; {| lc_choice_id := "answer_2";
  lc_label := "2,500원"; lc_effect := {| ce_verdict := choice_incorrect; ce_target_kind :=
  KIND_fact; ce_target_id := "per_person"; ce_interpreted_value := None; ce_misconception_code :=
  (Some "share_wrong_quotient") |} |}] |}; {| l2_plan_id := "l2.method"; l2_target := {|
  target_kind := KIND_relation; target_id := "equal_share_total"; ask_kind :=
  ASK_reason_or_method |}; l2_copy_slot := "divide-share.l2.method"; l2_choices := [{|
  lc_choice_id := "short_0"; lc_label := "10,500원을 3으로 나누기"; lc_effect := {| ce_verdict :=
  choice_correct; ce_target_kind := KIND_relation; ce_target_id := "equal_share_total";
  ce_interpreted_value := None; ce_misconception_code := None |} |}; {| lc_choice_id :=
  "short_1"; lc_label := "10,500원을 2로 나누기"; lc_effect := {| ce_verdict := choice_incorrect;
  ce_target_kind := KIND_relation; ce_target_id := "equal_share_total"; ce_interpreted_value :=
  None; ce_misconception_code := (Some "share_divide_by_two") |} |}; {| lc_choice_id :=
  "short_2"; lc_label := "10,500원을 나누지 않기"; lc_effect := {| ce_verdict := choice_incorrect;
  ce_target_kind := KIND_relation; ce_target_id := "equal_share_total"; ce_interpreted_value :=
  None; ce_misconception_code := (Some "share_no_division") |} |}] |}]; hp_l0_joint_plan := {|
  jp_action_id := "divide_total_together"; jp_intro_copy_slot := "divide-share.l0.intro";
  jp_action_copy_slot := "divide-share.l0.action"; jp_completion_values := [JointFactCompletionV2
  "per_person" (MoneyValueV2 (PyInt 3500) "KRW"); JointRelationCompletionV2 "equal_share_total"];
  jp_button_label := "같이 나누기" |}; hp_help_plan := {| hp_H1 := {| hc_level := H1; hc_support_type
  := attention; hc_answer_policy := hidden; hc_body := "전체 값 10,500원과 함께 낼 사람 3명을 살펴보자.";
  hc_action := None; hc_revealed_fact_ids := []; hc_revealed_relation_ids := [] |}; hp_H2 := {|
  hc_level := H2; hc_support_type := guided_action; hc_answer_policy := partial; hc_body :=
  "10,500÷3=□ 식의 빈칸을 구해 보자."; hc_action := (Some "10,500÷3 식의 빈칸 구하기"); hc_revealed_fact_ids :=
  []; hc_revealed_relation_ids := [] |}; hp_H3 := {| hc_level := H3; hc_support_type :=
  joint_model; hc_answer_policy := revealed; hc_body := "10,500÷3=3,500이라서 한 명은 3,500원씩 내면 돼.";
  hc_action := (Some "10,500÷3=3,500을 함께 확인하기"); hc_revealed_fact_ids := ["per_person"];
  hc_revealed_relation_ids := ["equal_share_total"] |} |}; hp_policies := {| po_note_relation_ids
  := ["equal_share_total"]; po_dictionary_card_id := "dictionary.home.divide-share" |} |}.

Definition pack_divide_group : RequiredHomeTeachingPackV2 :=
  {| hp_pack_id := "home.divide-group.v2"; hp_content_version := 1%Z;
  hp_migration_source_content_version := 9%Z; hp_curriculum_session_id := "divide-group";
  hp_title := "예산으로 살 수 있는 개수를 찾아요"; hp_journey := {| jl_role := amusement_preparation;
  jl_direct_transfer_scenario_ids := ["amusement_pass_compare"] |}; hp_source_problem := {|
  sp_prompt := "예산 14,000원으로 2,000원짜리 책을 몇 권 살 수 있을까?"; sp_answers := ["7권"; "2권"; "6권"; "14권"];
  sp_correct := "7권"; sp_visual := [("type", (JStr "money-practice")); ("image", (JStr
  "/life-missions/products/book.jpg")); ("imageAlt", (JStr "읽고 싶은 책")); ("badge", (JStr "서점"));
  ("facts", (JArr [(JObj [("label", (JStr "한 권 가격")); ("value", (JStr "2,000원"))]); (JObj
  [("label", (JStr "예산")); ("value", (JStr "14,000원"))])])); ("items", (JArr [(JObj [("image",
  (JStr "/life-missions/products/book.jpg")); ("label", (JStr "책")); ("count", (JNum (PyInt
  1)))])]))]; sp_rendered_facts := [{| rb_fact_id := "unit_price"; rb_exposure := explicit_given;
  rb_source_path := "visual.facts.0.value"; rb_label_path := (Some "visual.facts.0.label");
  rb_rendered_label := (Some "한 권 가격") |}; {| rb_fact_id := "budget"; rb_exposure :=
  explicit_given; rb_source_path := "visual.facts.1.value"; rb_label_path := (Some
  "visual.facts.1.label"); rb_rendered_label := (Some "예산") |}] |}; hp_reasoning_graph := {|
  rg_facts := [{| cf_fact_id := "budget"; cf_role := visible_condition; cf_value := (MoneyValueV2
  (PyInt 14000) "KRW"); cf_speaker_label := "책을 살 예산"; cf_initially_visible := true;
  cf_required_for_completion := false; cf_accepted_surface_forms := ["14,000원"; "14000원"] |}; {|
  cf_fact_id := "unit_price"; cf_role := visible_value; cf_value := (MoneyValueV2 (PyInt 2000)
  "KRW"); cf_speaker_label := "책 단가"; cf_initially_visible := true; cf_required_for_completion :=
  false; cf_accepted_surface_forms := ["2,000원"; "2000원"] |}; {| cf_fact_id :=
  "affordable_count"; cf_role := final_answer; cf_value := (NumberValueV2 (PyInt 7) (Some "권"));
  cf_speaker_label := "예산으로 살 수 있는 책 수"; cf_initially_visible := false;
  cf_required_for_completion := true; cf_accepted_surface_forms := ["7권"; "7"; "일곱 권"] |}];
  rg_relations := [{| cr_relation_id := "count_price_groups"; cr_role := procedure_step;
  cr_operation := R_division; cr_input_fact_ids := ["budget"; "unit_price"]; cr_output_fact_id :=
  "affordable_count"; cr_evaluation_mode := open_semantic_support; cr_speaker_label :=
  "예산 안에 한 권 가격이 몇 번 들어가는지 구하는 방법"; cr_rubric := {| rr_sufficient := ["14,000을 2,000으로 나눈다고 말한다";
  "2,000원을 일곱 번 모으거나 반복해서 빼는 동치 방법을 말한다"]; rr_partial :=
  ["2,000원씩 센다고만 말하고 예산과의 관계를 분명히 하지 않는다"]; rr_incorrect := ["예산과 가격을 더하거나 한 권 산 뒤 남은 돈만 답한다"]
  |}; cr_required_for_completion := true |}]; rg_completion := {| required_fact_ids :=
  ["affordable_count"]; required_relation_ids := ["count_price_groups"] |};
  rg_open_auxiliary_claims := true |}; hp_initial_question := {| qp_plan_id := "initial";
  qp_targets := [{| target_kind := KIND_fact; target_id := "affordable_count"; ask_kind :=
  ASK_answer |}; {| target_kind := KIND_relation; target_id := "count_price_groups"; ask_kind :=
  ASK_reason_or_method |}]; qp_reviewed_fallback :=
  "나 14,000원으로 2,000원짜리 책을 사려는데 헷갈려... 몇 권 살 수 있는지랑 구하는 방법을 알려줄 수 있어?" |}; hp_l3_plans := [{|
  qp_plan_id := "l3.answer"; qp_targets := [{| target_kind := KIND_fact; target_id :=
  "affordable_count"; ask_kind := ASK_answer |}]; qp_reviewed_fallback :=
  "나 14,000원으로 책을 몇 권 살 수 있는지 헷갈려... 책 수만 먼저 알려줄 수 있어?" |}; {| qp_plan_id := "l3.method";
  qp_targets := [{| target_kind := KIND_relation; target_id := "count_price_groups"; ask_kind :=
  ASK_reason_or_method |}]; qp_reviewed_fallback :=
  "나 14,000원으로 2,000원짜리 책을 몇 권 사는지 어떻게 구하는지 궁금해... 방법을 알려줄 수 있어?" |}]; hp_copy_slots := [{|
  cs_copy_slot := "divide-group.initial-help"; cs_purpose := initial_help; cs_targets := [{|
  target_kind := KIND_fact; target_id := "affordable_count"; ask_kind := ASK_answer |}];
  cs_generation_brief := "질문 부담을 모르미가 맡고 살 수 있는 책 수부터 부탁한다"; cs_reviewed_fallback :=
  "내가 한꺼번에 물어봤네... 책을 몇 권 살 수 있는지만 먼저 알려줄 수 있어?" |}; {| cs_copy_slot := "divide-group.l2.answer";
  cs_purpose := l2_question; cs_targets := [{| target_kind := KIND_fact; target_id :=
  "affordable_count"; ask_kind := ASK_answer |}]; cs_generation_brief :=
  "살 수 있는 책 수를 선택해서 알려 달라고 부탁한다"; cs_reviewed_fallback :=
  "나 책을 몇 권 살 수 있는지 아직 헷갈려... 여기에서 골라서 알려줄 수 있어?" |}; {| cs_copy_slot :=
  "divide-group.l2.method"; cs_purpose := l2_question; cs_targets := [{| target_kind :=
  KIND_relation; target_id := "count_price_groups"; ask_kind := ASK_reason_or_method |}];
  cs_generation_brief := "예산으로 살 수 있는 개수를 구하는 방법을 선택해서 알려 달라고 부탁한다"; cs_reviewed_fallback :=
  "나 예산으로 살 수 있는 책 수를 어떻게 구하는지 궁금해... 여기에서 골라서 알려줄 수 있어?" |}; {| cs_copy_slot :=
  "divide-group.l0.intro"; cs_purpose := l0_intro; cs_targets := [{| target_kind := KIND_fact;
  target_id := "affordable_count"; ask_kind := ASK_answer |}; {| target_kind := KIND_relation;
  target_id := "count_price_groups"; ask_kind := ASK_reason_or_method |}]; cs_generation_brief :=
  "도움 카드를 보며 살 수 있는 책 수를 공동 계산해 달라고 부탁한다"; cs_reviewed_fallback :=
  "아직 헷갈려서 그런데, 도움 카드를 보면서 나와 같이 계산해 줄 수 있어?" |}; {| cs_copy_slot := "divide-group.l0.action";
  cs_purpose := l0_action; cs_targets := [{| target_kind := KIND_fact; target_id :=
  "affordable_count"; ask_kind := ASK_answer |}; {| target_kind := KIND_relation; target_id :=
  "count_price_groups"; ask_kind := ASK_reason_or_method |}]; cs_generation_brief :=
  "14,000원 안의 2,000원 묶음 수를 공동 계산해 달라고 부탁한다"; cs_reviewed_fallback :=
  "14,000원 안에 2,000원이 몇 번 들어가는지 같이 구해 줄 수 있어?" |}]; hp_l2_plans := [{| l2_plan_id := "l2.answer";
  l2_target := {| target_kind := KIND_fact; target_id := "affordable_count"; ask_kind :=
  ASK_answer |}; l2_copy_slot := "divide-group.l2.answer"; l2_choices := [{| lc_choice_id :=
  "answer_0"; lc_label := "7권"; lc_effect := {| ce_verdict := choice_correct; ce_target_kind :=
  KIND_fact; ce_target_id := "affordable_count"; ce_interpreted_value := (Some (NumberValueV2
  (PyInt 7) (Some "권"))); ce_misconception_code := None |} |}; {| lc_choice_id := "answer_1";
  lc_label := "2권"; lc_effect := {| ce_verdict := choice_incorrect; ce_target_kind := KIND_fact;
  ce_target_id := "affordable_count"; ce_interpreted_value := None; ce_misconception_code :=
  (Some "group_use_price_as_count") |} |}; {| lc_choice_id := "answer_2"; lc_label := "6권";
  lc_effect := {| ce_verdict := choice_incorrect; ce_target_kind := KIND_fact; ce_target_id :=
  "affordable_count"; ce_interpreted_value := None; ce_misconception_code := (Some
  "group_one_short") |} |}; {| lc_choice_id := "answer_3"; lc_label := "14권"; lc_effect := {|
  ce_verdict := choice_incorrect; ce_target_kind := KIND_fact; ce_target_id :=
  "affordable_count"; ce_interpreted_value := None; ce_misconception_code := (Some
  "group_ignore_unit_price") |} |}] |}; {| l2_plan_id := "l2.method"; l2_target := {| target_kind
  := KIND_relation; target_id := "count_price_groups"; ask_kind := ASK_reason_or_method |};
  l2_copy_slot := "divide-group.l2.method"; l2_choices := [{| lc_choice_id := "short_0"; lc_label
  := "14,000÷2,000으로 구하기"; lc_effect := {| ce_verdict := choice_correct; ce_target_kind :=
  KIND_relation; ce_target_id := "count_price_groups"; ce_interpreted_value := None;
  ce_misconception_code := None |} |}; {| lc_choice_id := "short_1"; lc_label :=
  "14,000-2,000으로 한 번만 구하기"; lc_effect := {| ce_verdict := choice_incorrect; ce_target_kind :=
  KIND_relation; ce_target_id := "count_price_groups"; ce_interpreted_value := None;
  ce_misconception_code := (Some "group_subtract_once") |} |}; {| lc_choice_id := "short_2";
  lc_label := "14,000+2,000으로 구하기"; lc_effect := {| ce_verdict := choice_incorrect;
  ce_target_kind := KIND_relation; ce_target_id := "count_price_groups"; ce_interpreted_value :=
  None; ce_misconception_code := (Some "group_add_budget") |} |}] |}]; hp_l0_joint_plan := {|
  jp_action_id := "count_price_groups_together"; jp_intro_copy_slot := "divide-group.l0.intro";
  jp_action_copy_slot := "divide-group.l0.action"; jp_completion_values := [JointFactCompletionV2
  "affordable_count" (NumberValueV2 (PyInt 7) (Some "권")); JointRelationCompletionV2
  "count_price_groups"]; jp_button_label := "같이 계산하기" |}; hp_help_plan := {| hp_H1 := {| hc_level
  := H1; hc_support_type := attention; hc_answer_policy := hidden; hc_body :=
  "예산 14,000원과 책 한 권 값 2,000원을 살펴보자."; hc_action := None; hc_revealed_fact_ids := [];
  hc_revealed_relation_ids := [] |}; hp_H2 := {| hc_level := H2; hc_support_type :=
  guided_action; hc_answer_policy := partial; hc_body := "14,000÷2,000=□ 식의 빈칸을 구해 보자.";
  hc_action := (Some "14,000÷2,000 식의 빈칸 구하기"); hc_revealed_fact_ids := [];
  hc_revealed_relation_ids := [] |}; hp_H3 := {| hc_level := H3; hc_support_type := joint_model;
  hc_answer_policy := revealed; hc_body := "14,000÷2,000=7이라서 책은 7권 살 수 있어."; hc_action := (Some
  "14,000÷2,000=7을 함께 확인하기"); hc_revealed_fact_ids := ["affordable_count"];
  hc_revealed_relation_ids := ["count_price_groups"] |} |}; hp_policies := {|
  po_note_relation_ids := ["count_price_groups"]; po_dictionary_card_id :=
  "dictionary.home.divide-group" |} |}.

Definition pack_multiply_easy_tables : RequiredHomeTeachingPackV2 :=
  {| hp_pack_id := "home.multiply-easy-tables.v2"; hp_content_version := 1%Z;
  hp_migration_source_content_version := 9%Z; hp_curriculum_session_id := "multiply-easy-tables";
  hp_title := "여러 물건값과 예산을 비교해요"; hp_journey := {| jl_role := amusement_preparation;
  jl_direct_transfer_scenario_ids := [] |}; hp_source_problem := {| sp_prompt :=
  "예산 10,000원으로 표 2장, 주스 2잔, 스티커 1장을 사려면 얼마가 모자랄까?"; sp_answers := ["1,000원"; "2,000원";
  "3,000원"]; sp_correct := "1,000원"; sp_visual := [("type", (JStr "money-practice")); ("image",
  (JStr "/amusement-park/pass-elements-v2.png")); ("imageAlt", (JStr "표와 주스와 스티커")); ("badge",
  (JStr "예산 확인")); ("facts", (JArr [(JObj [("label", (JStr "표 한 장")); ("value", (JStr
  "2,500원"))]); (JObj [("label", (JStr "표")); ("value", (JStr "2장"))]); (JObj [("label", (JStr
  "주스 한 잔")); ("value", (JStr "1,500원"))]); (JObj [("label", (JStr "주스")); ("value", (JStr
  "2잔"))]); (JObj [("label", (JStr "스티커 한 장")); ("value", (JStr "3,000원"))]); (JObj [("label",
  (JStr "스티커")); ("value", (JStr "1장"))]); (JObj [("label", (JStr "예산")); ("value", (JStr
  "10,000원"))])])); ("items", (JArr [(JObj [("image", (JStr
  "/amusement-park/pass-elements-v2.png")); ("label", (JStr "표")); ("count", (JNum (PyInt 2)))]);
  (JObj [("image", (JStr "/life-missions/juice.webp")); ("label", (JStr "주스")); ("count", (JNum
  (PyInt 2)))]); (JObj [("image", (JStr "/life-missions/products/stickers.jpg")); ("label", (JStr
  "스티커")); ("count", (JNum (PyInt 1)))])]))]; sp_rendered_facts := [{| rb_fact_id :=
  "ticket_unit_price"; rb_exposure := explicit_given; rb_source_path := "visual.facts.0.value";
  rb_label_path := (Some "visual.facts.0.label"); rb_rendered_label := (Some "표 한 장") |}; {|
  rb_fact_id := "ticket_count"; rb_exposure := explicit_given; rb_source_path :=
  "visual.facts.1.value"; rb_label_path := (Some "visual.facts.1.label"); rb_rendered_label :=
  (Some "표") |}; {| rb_fact_id := "ticket_count"; rb_exposure := explicit_given; rb_source_path
  := "visual.items.0.count"; rb_label_path := (Some "visual.items.0.label"); rb_rendered_label :=
  (Some "표") |}; {| rb_fact_id := "drink_unit_price"; rb_exposure := explicit_given;
  rb_source_path := "visual.facts.2.value"; rb_label_path := (Some "visual.facts.2.label");
  rb_rendered_label := (Some "주스 한 잔") |}; {| rb_fact_id := "drink_count"; rb_exposure :=
  explicit_given; rb_source_path := "visual.facts.3.value"; rb_label_path := (Some
  "visual.facts.3.label"); rb_rendered_label := (Some "주스") |}; {| rb_fact_id := "drink_count";
  rb_exposure := explicit_given; rb_source_path := "visual.items.1.count"; rb_label_path := (Some
  "visual.items.1.label"); rb_rendered_label := (Some "주스") |}; {| rb_fact_id :=
  "sticker_unit_price"; rb_exposure := explicit_given; rb_source_path := "visual.facts.4.value";
  rb_label_path := (Some "visual.facts.4.label"); rb_rendered_label := (Some "스티커 한 장") |}; {|
  rb_fact_id := "sticker_count"; rb_exposure := explicit_given; rb_source_path :=
  "visual.facts.5.value"; rb_label_path := (Some "visual.facts.5.label"); rb_rendered_label :=
  (Some "스티커") |}; {| rb_fact_id := "sticker_count"; rb_exposure := explicit_given;
  rb_source_path := "visual.items.2.count"; rb_label_path := (Some "visual.items.2.label");
  rb_rendered_label := (Some "스티커") |}; {| rb_fact_id := "budget"; rb_exposure := explicit_given;
  rb_source_path := "visual.facts.6.value"; rb_label_path := (Some "visual.facts.6.label");
  rb_rendered_label := (Some "예산") |}] |}; hp_reasoning_graph := {| rg_facts := [{| cf_fact_id :=
  "ticket_unit_price"; cf_role := visible_value; cf_value := (MoneyValueV2 (PyInt 2500) "KRW");
  cf_speaker_label := "표 단가"; cf_initially_visible := true; cf_required_for_completion := false;
  cf_accepted_surface_forms := ["2,500원"; "2500원"] |}; {| cf_fact_id := "ticket_count"; cf_role
  := visible_value; cf_value := (NumberValueV2 (PyInt 2) (Some "장")); cf_speaker_label :=
  "살 표의 수"; cf_initially_visible := true; cf_required_for_completion := false;
  cf_accepted_surface_forms := ["2장"; "두 장"] |}; {| cf_fact_id := "drink_unit_price"; cf_role :=
  visible_value; cf_value := (MoneyValueV2 (PyInt 1500) "KRW"); cf_speaker_label := "주스 단가";
  cf_initially_visible := true; cf_required_for_completion := false; cf_accepted_surface_forms :=
  ["1,500원"; "1500원"] |}; {| cf_fact_id := "drink_count"; cf_role := visible_value; cf_value :=
  (NumberValueV2 (PyInt 2) (Some "잔")); cf_speaker_label := "살 주스의 수"; cf_initially_visible :=
  true; cf_required_for_completion := false; cf_accepted_surface_forms := ["2잔"; "두 잔"] |}; {|
  cf_fact_id := "sticker_unit_price"; cf_role := visible_value; cf_value := (MoneyValueV2 (PyInt
  3000) "KRW"); cf_speaker_label := "스티커 단가"; cf_initially_visible := true;
  cf_required_for_completion := false; cf_accepted_surface_forms := ["3,000원"; "3000원"] |}; {|
  cf_fact_id := "sticker_count"; cf_role := visible_value; cf_value := (NumberValueV2 (PyInt 1)
  (Some "장")); cf_speaker_label := "살 스티커의 수"; cf_initially_visible := true;
  cf_required_for_completion := false; cf_accepted_surface_forms := ["1장"; "한 장"] |}; {|
  cf_fact_id := "budget"; cf_role := visible_condition; cf_value := (MoneyValueV2 (PyInt 10000)
  "KRW"); cf_speaker_label := "가지고 있는 예산"; cf_initially_visible := true;
  cf_required_for_completion := false; cf_accepted_surface_forms := ["10,000원"; "10000원"] |}; {|
  cf_fact_id := "ticket_total"; cf_role := intermediate_result; cf_value := (MoneyValueV2 (PyInt
  5000) "KRW"); cf_speaker_label := "표 묶음 값"; cf_initially_visible := false;
  cf_required_for_completion := false; cf_accepted_surface_forms := ["5,000원"; "5000원"] |}; {|
  cf_fact_id := "drink_total"; cf_role := intermediate_result; cf_value := (MoneyValueV2 (PyInt
  3000) "KRW"); cf_speaker_label := "주스 묶음 값"; cf_initially_visible := false;
  cf_required_for_completion := false; cf_accepted_surface_forms := ["3,000원"; "3000원"] |}; {|
  cf_fact_id := "sticker_total"; cf_role := intermediate_result; cf_value := (MoneyValueV2 (PyInt
  3000) "KRW"); cf_speaker_label := "스티커 값"; cf_initially_visible := false;
  cf_required_for_completion := false; cf_accepted_surface_forms := ["3,000원"; "3000원"] |}; {|
  cf_fact_id := "purchase_total"; cf_role := intermediate_result; cf_value := (MoneyValueV2
  (PyInt 11000) "KRW"); cf_speaker_label := "표와 주스와 스티커의 전체 값"; cf_initially_visible := false;
  cf_required_for_completion := false; cf_accepted_surface_forms := ["11,000원"; "11000원";
  "11000"] |}; {| cf_fact_id := "shortage"; cf_role := final_answer; cf_value := (MoneyValueV2
  (PyInt 1000) "KRW"); cf_speaker_label := "모자란 돈"; cf_initially_visible := false;
  cf_required_for_completion := true; cf_accepted_surface_forms := ["1,000원"; "1000원"; "1000"]
  |}]; rg_relations := [{| cr_relation_id := "calculate_ticket_total"; cr_role := procedure_step;
  cr_operation := R_multiplication; cr_input_fact_ids := ["ticket_unit_price"; "ticket_count"];
  cr_output_fact_id := "ticket_total"; cr_evaluation_mode := open_semantic_support;
  cr_speaker_label := "표 두 장의 값을 구하는 단계"; cr_rubric := {| rr_sufficient :=
  ["2,500원과 2장을 곱하거나 2,500원을 두 번 더한다고 말한다"]; rr_partial := ["표값을 먼저 구한다고만 말한다"]; rr_incorrect :=
  ["표 한 장 값만 쓰거나 가격과 장 수를 더한다"] |}; cr_required_for_completion := false |}; {| cr_relation_id :=
  "calculate_drink_total"; cr_role := procedure_step; cr_operation := R_multiplication;
  cr_input_fact_ids := ["drink_unit_price"; "drink_count"]; cr_output_fact_id := "drink_total";
  cr_evaluation_mode := open_semantic_support; cr_speaker_label := "주스 두 잔의 값을 구하는 단계"; cr_rubric
  := {| rr_sufficient := ["1,500원과 2잔을 곱하거나 1,500원을 두 번 더한다고 말한다"]; rr_partial :=
  ["주스값을 먼저 구한다고만 말한다"]; rr_incorrect := ["주스 한 잔 값만 쓰거나 가격과 잔 수를 더한다"] |};
  cr_required_for_completion := false |}; {| cr_relation_id := "calculate_sticker_total"; cr_role
  := procedure_step; cr_operation := R_multiplication; cr_input_fact_ids :=
  ["sticker_unit_price"; "sticker_count"]; cr_output_fact_id := "sticker_total";
  cr_evaluation_mode := open_semantic_support; cr_speaker_label := "스티커 한 장의 값을 구하는 단계";
  cr_rubric := {| rr_sufficient := ["3,000원과 1장을 곱하거나 한 장 값 3,000원을 그대로 쓴다고 말한다"]; rr_partial :=
  ["스티커값을 구한다고만 말한다"]; rr_incorrect := ["스티커 가격 대신 물건 개수만 쓴다"] |}; cr_required_for_completion :=
  false |}; {| cr_relation_id := "sum_item_costs"; cr_role := procedure_step; cr_operation :=
  R_addition; cr_input_fact_ids := ["ticket_total"; "drink_total"; "sticker_total"];
  cr_output_fact_id := "purchase_total"; cr_evaluation_mode := open_semantic_support;
  cr_speaker_label := "표와 주스와 스티커 값을 모두 더하는 단계"; cr_rubric := {| rr_sufficient :=
  ["5,000원, 3,000원, 3,000원을 더해 11,000원을 구한다고 말한다"; "각 물건값을 모두 합친다는 동치 방법을 말한다"]; rr_partial :=
  ["물건값을 더한다고만 말하고 어떤 값을 합치는지 불분명하다"]; rr_incorrect := ["가장 비싼 값 하나만 보거나 물건 개수만 더한다"] |};
  cr_required_for_completion := false |}; {| cr_relation_id := "calculate_shortage"; cr_role :=
  procedure_step; cr_operation := R_subtraction; cr_input_fact_ids := ["purchase_total";
  "budget"]; cr_output_fact_id := "shortage"; cr_evaluation_mode := open_semantic_support;
  cr_speaker_label := "전체 물건값에서 예산을 빼 모자란 돈을 구하는 단계"; cr_rubric := {| rr_sufficient :=
  ["11,000원에서 10,000원을 뺀다고 말한다"; "전체 물건값과 예산의 차이가 모자란 돈이라는 동치 방법을 말한다"]; rr_partial :=
  ["11,000원과 10,000원을 비교한다고만 말하고 차이를 구하는 관계는 말하지 않는다"]; rr_incorrect :=
  ["예산에서 전체 물건값을 빼거나 11,000원을 최종 모자란 돈으로 말한다"] |}; cr_required_for_completion := true |}];
  rg_completion := {| required_fact_ids := ["shortage"]; required_relation_ids :=
  ["calculate_shortage"] |}; rg_open_auxiliary_claims := true |}; hp_initial_question := {|
  qp_plan_id := "initial"; qp_targets := [{| target_kind := KIND_fact; target_id := "shortage";
  ask_kind := ASK_answer |}; {| target_kind := KIND_relation; target_id := "calculate_shortage";
  ask_kind := ASK_reason_or_method |}]; qp_reviewed_fallback :=
  "나 표랑 주스랑 스티커를 다 사려는데 10,000원으로 되는지 헷갈려... 얼마가 모자라고 어떻게 구하는지 알려줄 수 있어?" |}; hp_l3_plans := [{|
  qp_plan_id := "l3.answer"; qp_targets := [{| target_kind := KIND_fact; target_id := "shortage";
  ask_kind := ASK_answer |}]; qp_reviewed_fallback :=
  "나 10,000원으로 다 사려면 얼마가 모자라는지 헷갈려... 모자란 돈만 먼저 알려줄 수 있어?" |}; {| qp_plan_id := "l3.method";
  qp_targets := [{| target_kind := KIND_relation; target_id := "calculate_shortage"; ask_kind :=
  ASK_reason_or_method |}]; qp_reviewed_fallback :=
  "나 표랑 주스랑 스티커 값을 모두 구한 뒤 10,000원과 어떻게 비교하는지 궁금해... 모자란 돈을 구하는 방법을 알려줄 수 있어?" |}]; hp_copy_slots
  := [{| cs_copy_slot := "multiply-easy-tables.initial-help"; cs_purpose := initial_help;
  cs_targets := [{| target_kind := KIND_fact; target_id := "shortage"; ask_kind := ASK_answer
  |}]; cs_generation_brief := "질문 부담을 모르미가 맡고 모자란 돈부터 부탁한다"; cs_reviewed_fallback :=
  "내가 한꺼번에 물어봤네... 10,000원에서 얼마가 모자라는지만 먼저 알려줄 수 있어?" |}; {| cs_copy_slot :=
  "multiply-easy-tables.l2.answer"; cs_purpose := l2_question; cs_targets := [{| target_kind :=
  KIND_fact; target_id := "shortage"; ask_kind := ASK_answer |}]; cs_generation_brief :=
  "모자란 돈을 선택해서 알려 달라고 부탁한다"; cs_reviewed_fallback :=
  "나 10,000원에서 얼마가 모자라는지 아직 헷갈려... 여기에서 골라서 알려줄 수 있어?" |}; {| cs_copy_slot :=
  "multiply-easy-tables.l2.method"; cs_purpose := l2_question; cs_targets := [{| target_kind :=
  KIND_relation; target_id := "calculate_shortage"; ask_kind := ASK_reason_or_method |}];
  cs_generation_brief := "전체 물건값과 예산으로 모자란 돈을 구하는 방법을 선택해서 알려 달라고 부탁한다"; cs_reviewed_fallback :=
  "나 전체 물건값과 10,000원을 어떻게 계산하는지 궁금해... 여기에서 골라서 알려줄 수 있어?" |}; {| cs_copy_slot :=
  "multiply-easy-tables.l0.intro"; cs_purpose := l0_intro; cs_targets := [{| target_kind :=
  KIND_fact; target_id := "shortage"; ask_kind := ASK_answer |}; {| target_kind := KIND_relation;
  target_id := "calculate_shortage"; ask_kind := ASK_reason_or_method |}]; cs_generation_brief :=
  "도움 카드를 보며 모자란 돈을 공동 계산해 달라고 부탁한다"; cs_reviewed_fallback :=
  "아직 헷갈려서 그런데, 도움 카드를 보면서 나와 같이 계산해 줄 수 있어?" |}; {| cs_copy_slot :=
  "multiply-easy-tables.l0.action"; cs_purpose := l0_action; cs_targets := [{| target_kind :=
  KIND_fact; target_id := "shortage"; ask_kind := ASK_answer |}; {| target_kind := KIND_relation;
  target_id := "calculate_shortage"; ask_kind := ASK_reason_or_method |}]; cs_generation_brief :=
  "11,000원과 10,000원의 차이를 공동 계산해 달라고 부탁한다"; cs_reviewed_fallback :=
  "11,000원과 10,000원의 차이를 카드에 나온 식처럼 같이 구해 줄 수 있어?" |}]; hp_l2_plans := [{| l2_plan_id :=
  "l2.answer"; l2_target := {| target_kind := KIND_fact; target_id := "shortage"; ask_kind :=
  ASK_answer |}; l2_copy_slot := "multiply-easy-tables.l2.answer"; l2_choices := [{| lc_choice_id
  := "answer_0"; lc_label := "1,000원"; lc_effect := {| ce_verdict := choice_correct;
  ce_target_kind := KIND_fact; ce_target_id := "shortage"; ce_interpreted_value := (Some
  (MoneyValueV2 (PyInt 1000) "KRW")); ce_misconception_code := None |} |}; {| lc_choice_id :=
  "answer_1"; lc_label := "2,000원"; lc_effect := {| ce_verdict := choice_incorrect;
  ce_target_kind := KIND_fact; ce_target_id := "shortage"; ce_interpreted_value := None;
  ce_misconception_code := (Some "budget_difference_over") |} |}; {| lc_choice_id := "answer_2";
  lc_label := "3,000원"; lc_effect := {| ce_verdict := choice_incorrect; ce_target_kind :=
  KIND_fact; ce_target_id := "shortage"; ce_interpreted_value := None; ce_misconception_code :=
  (Some "budget_use_sticker_only") |} |}] |}; {| l2_plan_id := "l2.method"; l2_target := {|
  target_kind := KIND_relation; target_id := "calculate_shortage"; ask_kind :=
  ASK_reason_or_method |}; l2_copy_slot := "multiply-easy-tables.l2.method"; l2_choices := [{|
  lc_choice_id := "short_0"; lc_label := "각 값을 더한 뒤 전체 값에서 10,000원 빼기"; lc_effect := {|
  ce_verdict := choice_correct; ce_target_kind := KIND_relation; ce_target_id :=
  "calculate_shortage"; ce_interpreted_value := None; ce_misconception_code := None |} |}; {|
  lc_choice_id := "short_1"; lc_label := "가장 비싼 값만 10,000원과 비교하기"; lc_effect := {| ce_verdict :=
  choice_incorrect; ce_target_kind := KIND_relation; ce_target_id := "calculate_shortage";
  ce_interpreted_value := None; ce_misconception_code := (Some "budget_compare_one_item") |} |};
  {| lc_choice_id := "short_2"; lc_label := "물건 개수만 더해 10,000원과 비교하기"; lc_effect := {| ce_verdict
  := choice_incorrect; ce_target_kind := KIND_relation; ce_target_id := "calculate_shortage";
  ce_interpreted_value := None; ce_misconception_code := (Some "budget_add_counts") |} |}] |}];
  hp_l0_joint_plan := {| jp_action_id := "calculate_shortage_together"; jp_intro_copy_slot :=
  "multiply-easy-tables.l0.intro"; jp_action_copy_slot := "multiply-easy-tables.l0.action";
  jp_completion_values := [JointFactCompletionV2 "shortage" (MoneyValueV2 (PyInt 1000) "KRW");
  JointRelationCompletionV2 "calculate_shortage"]; jp_button_label := "같이 계산하기" |}; hp_help_plan
  := {| hp_H1 := {| hc_level := H1; hc_support_type := attention; hc_answer_policy := hidden;
  hc_body := "각 물건의 가격과 개수, 예산 10,000원을 차례로 살펴보자."; hc_action := None; hc_revealed_fact_ids :=
  []; hc_revealed_relation_ids := [] |}; hp_H2 := {| hc_level := H2; hc_support_type :=
  guided_action; hc_answer_policy := partial; hc_body :=
  "5,000+3,000+3,000=□로 전체 값을 구한 뒤 10,000원과 비교해 보자."; hc_action := (Some "각 물건값을 더해 전체 값 구하기");
  hc_revealed_fact_ids := ["ticket_total"; "drink_total"; "sticker_total"];
  hc_revealed_relation_ids := [] |}; hp_H3 := {| hc_level := H3; hc_support_type := joint_model;
  hc_answer_policy := revealed; hc_body :=
  "2,500×2=5,000이고, 1,500×2=3,000이고, 3,000×1=3,000이야. 5,000+3,000+3,000=11,000이고, 11,000-10,000=1,000이라서 1,000원이 모자라.";
  hc_action := (Some "전체 값 11,000원과 예산 10,000원의 차이를 함께 확인하기"); hc_revealed_fact_ids :=
  ["ticket_total"; "drink_total"; "sticker_total"; "purchase_total"; "shortage"];
  hc_revealed_relation_ids := ["calculate_ticket_total"; "calculate_drink_total";
  "calculate_sticker_total"; "sum_item_costs"; "calculate_shortage"] |} |}; hp_policies := {|
  po_note_relation_ids := ["sum_item_costs"; "calculate_shortage"]; po_dictionary_card_id :=
  "dictionary.home.multiply-easy-tables" |} |}.

(** * The catalog model *)

Definition cafe_required_home_session_ids : list string :=
  ["number-count"; "number-compare"; "money-count"; "money-price"; "money-budget"].
Definition amusement_preparation_home_session_ids : list string :=
  ["multiply-groups"; "divide-share"; "divide-group"; "multiply-easy-tables"].
Definition required_home_session_ids : list string :=
  cafe_required_home_session_ids ++ amusement_preparation_home_session_ids.

Record RequiredHomeContentCatalogV2 := {
  cat_version : Z;
  cat_packs : list RequiredHomeTeachingPackV2
}.

(** [RequiredHomeContentCatalogV2.model_validate]: the packs, then
    [validate_catalog_scope]. *)
Definition catalog_validate (c : RequiredHomeContentCatalogV2) : res RequiredHomeContentCatalogV2 :=
  _ ← mapR required_home_pack_validate (cat_packs c);
  _ ← check ((1 <=? cat_version c)%Z && list_field 9 9 (cat_packs c)) "catalog fields";
  let session_ids := map hp_curriculum_session_id (cat_packs c) in
  _ ← check (uniqueb session_ids) "catalog curriculum session ids must be unique";
  _ ← check (uniqueb (map hp_pack_id (cat_packs c))) "catalog pack ids must be unique";
  _ ← check (set_eqb session_ids required_home_session_ids)
        "catalog must contain the nine required home sessions";
  _ ← check (forallb (fun p => bool_decide (jl_role (hp_journey p) =
               if memb (hp_curriculum_session_id p) cafe_required_home_session_ids
               then cafe_required else amusement_preparation)) (cat_packs c))
        "journey role does not match required session group";
  Ok c.

(** [by_session_id()[i]] and [required_home_content_pack_v2]. *)
Definition by_session_id (c : RequiredHomeContentCatalogV2) (i : string)
    : option RequiredHomeTeachingPackV2 :=
  find_first (fun p => bool_decide (hp_curriculum_session_id p = i)) (rev (cat_packs c)).

Definition required_home_catalog : RequiredHomeContentCatalogV2 := {|
  cat_version := 1%Z;
  cat_packs := [pack_number_count; pack_number_compare; pack_money_count; pack_money_price; pack_money_budget; pack_multiply_groups; pack_divide_share; pack_divide_group; pack_multiply_easy_tables] |}.

Definition required_home_content_pack_v2 (session_id : string) : res RequiredHomeTeachingPackV2 :=
  or_raise (by_session_id required_home_catalog session_id)
    (KeyError ("unknown required home V2 content pack: " ++ session_id)).
