(* ===== verification/Router.v ===== *)
(** Which engine a new conversation is pinned to: the native packs, the stable
    identity and the canary bucket of [src/mormi_api/dialogue_v2_router.py]. *)

From S2P Require Import Prelude.
From S2P Require Import PyStr.
From S2P Require Import Json.
From S2P Require Import Schemas.
From S2P Require Import Catalog.

Local Open Scope Z_scope.

(** * Native scenarios of the life journeys *)

Definition CAFE_NATIVE_V2_SCENARIO_IDS : list string :=
  ["cafe_queue"; "cafe_budget_menu"; "cafe_menu_total"; "cafe_change"]%string.
(** [frozenset(PARK_SCENARIO_IDS)] *)
Definition AMUSEMENT_NATIVE_V2_SCENARIO_IDS : list string :=
  ["amusement_ticket_multiply"; "amusement_snack_divide"; "amusement_pass_compare"]%string.

(** * The bucket *)

Definition hex_digit_value (c : Ascii.ascii) : Z :=
  let n := Z.of_N (Ascii.N_of_ascii c) in if n <? 58 then n - 48 else n - 87.
(** [int.from_bytes(digest[:8], "big")], on the hexadecimal digest. *)
Fixpoint hex_value_from (acc : Z) (s : string) : Z :=
  match s with EmptyString => acc | String c s => hex_value_from (acc * 16 + hex_digit_value c) s end.
Definition hex_value (s : string) : Z := hex_value_from 0 s.

Definition nul : string := String (Ascii.ascii_of_N 0) "".

Section router.
Context `{Digest}.

(** [_canary_bucket] *)
Definition canary_bucket (salt : string) (learner_id : Z) (learning_session_id : string) (conversation_round : Z) : Z :=
  let material := ("dialogue-v2-canary" ++ nul ++ salt ++ nul ++ str_Z learner_id ++ nul ++ learning_session_id
                   ++ nul ++ str_Z conversation_round)%string in
  hex_value (String.substring 0 16 (hexdigest material)) mod 100.

Record DialogueRuntimeSelection := {
  rs_version : DialogueRuntimeContractVersion;
  rs_reason : string;
  rs_bucket : option Z
}.

(** Why a native pack is selected, if there is one. *)
Definition native_reason (scene : SceneType) (scenario_id : string) (curriculum_session_id : option string)
    : string + string :=
  if bool_decide (scene = HOME_TEACH) && bool_decide (scenario_id = "home_teach"%string) then
    match curriculum_session_id with
    | Some i => if memb i required_home_session_ids then inl "native_pack_canary_selected"%string
                else inr "native_pack_unavailable"%string
    | None => inr "native_pack_unavailable"%string
    end
  else if bool_decide (scene = CAFE) && memb scenario_id CAFE_NATIVE_V2_SCENARIO_IDS
          || bool_decide (scene = AMUSEMENT_PARK) && memb scenario_id AMUSEMENT_NATIVE_V2_SCENARIO_IDS
  then inl "native_life_pack_canary_selected"%string
  else inr "scene_not_v2_eligible"%string.

(** [select_dialogue_runtime] *)
Definition select_dialogue_runtime (configured_version : DialogueRuntimeContractVersion) (canary_percent : Z)
    (canary_salt : string) (scene : SceneType) (scenario_id : string) (curriculum_session_id : option string)
    (learner_id : Z) (learning_session_id : option string) (conversation_round : Z) : res DialogueRuntimeSelection :=
  let legacy reason bucket := Ok {| rs_version := LEGACY_V1; rs_reason := reason; rs_bucket := bucket |} in
  _ ← raise_if (negb ((0 <=? canary_percent) && (canary_percent <=? 100)))
        (ValueError "dialogue V2 canary percent must be between 0 and 100");
  if decide (configured_version = LEGACY_V1) then legacy "runtime_disabled"%string None
  else
    match native_reason scene scenario_id curriculum_session_id with
    | inr reason => legacy reason None
    | inl reason =>
        match learning_session_id with
        | Some i =>
            if bool_decide (py_strip i = ""%string) then legacy "stable_identity_unavailable"%string None
            else
              let bucket := canary_bucket canary_salt learner_id i conversation_round in
              if canary_percent <=? bucket then legacy "canary_not_selected"%string (Some bucket)
              else Ok {| rs_version := VERDICT_V1; rs_reason := reason; rs_bucket := Some bucket |}
        | None => legacy "stable_identity_unavailable"%string None
        end
    end.

(** * Properties *)

Lemma bucket_range salt learner session round : 0 <= canary_bucket salt learner session round < 100.
Proof. apply Z.mod_pos_bound. lia. Qed.

(** A conversation that may run on V2: enabled, native content, a stable identity. *)
Definition eligible (configured : DialogueRuntimeContractVersion) (scene : SceneType) (scenario : string)
    (curriculum : option string) (session : option string) : Prop :=
  configured = VERDICT_V1 /\ (exists reason, native_reason scene scenario curriculum = inl reason)
  /\ exists i, session = Some i /\ py_strip i <> ""%string.

(** The selection is a monotone canary: for a percentage in range a runtime is
    always selected; V2 is selected exactly for an eligible conversation whose bucket
    lies below the percentage, so zero percent selects none, a hundred percent every
    eligible one, and raising the percentage never takes V2 away.  Outside the range
    the selection raises. *)
Theorem canary_selection configured percent salt scene scenario curriculum learner session round :
  match select_dialogue_runtime configured percent salt scene scenario curriculum learner session round with
  | Ok s =>
      0 <= percent <= 100 /\
      (rs_version s = VERDICT_V1 <->
         eligible configured scene scenario curriculum session
         /\ canary_bucket salt learner (default ""%string session) round < percent) /\
      (percent = 0 -> rs_version s = LEGACY_V1) /\
      (percent = 100 -> eligible configured scene scenario curriculum session -> rs_version s = VERDICT_V1) /\
      forall percent', percent <= percent' <= 100 -> rs_version s = VERDICT_V1 ->
        exists s', select_dialogue_runtime configured percent' salt scene scenario curriculum learner session round = Ok s'
          /\ rs_version s' = VERDICT_V1
  | Raise e => (percent < 0 \/ 100 < percent)
      /\ e = ValueError "dialogue V2 canary percent must be between 0 and 100"
  end.
Proof.
  set (bucket := canary_bucket salt learner (default ""%string session) round).
  pose proof (bucket_range salt learner (default ""%string session) round) as Hb. fold bucket in Hb.
  assert (Hsel : forall n, 0 <= n <= 100 ->
    exists s, select_dialogue_runtime configured n salt scene scenario curriculum learner session round = Ok s
      /\ (rs_version s = VERDICT_V1 <-> eligible configured scene scenario curriculum session /\ bucket < n)).
  { intros n Hn. unfold select_dialogue_runtime, eligible.
    assert (Hr : negb ((0 <=? n) && (n <=? 100)) = false) by (apply negb_false_iff, andb_true_iff; lia).
    rewrite Hr. cbn [raise_if mbind res_bind]. case_decide as Hc; [eexists; split; [reflexivity|]; subst; naive_solver|].
    destruct (native_reason _ _ _) as [reason|reason] eqn:En; [|eexists; split; [reflexivity|]; naive_solver].
    destruct session as [i|]; [|eexists; split; [reflexivity|]; naive_solver].
    case_bool_decide as Hi; [eexists; split; [reflexivity|]; naive_solver|]. change (canary_bucket salt learner i round) with bucket.
    destruct (n <=? bucket) eqn:E; eexists; (split; [reflexivity|]); simpl.
    - split; [done|]. intros [_ ?]. lia.
    - split; [|done]. intros _. split; [|lia]. split; [by destruct configured|]. eauto. }
  destruct (decide (0 <= percent <= 100)) as [Hp|Hp].
  - destruct (Hsel percent Hp) as (s & -> & Hs). split; [done|]. split; [done|]. split; [|split].
    + intros ->. destruct (rs_version s) eqn:E; [done|]. apply proj1 in Hs. specialize (Hs eq_refl). lia.
    + intros -> He. apply Hs. split; [done|lia].
    + intros n Hn Hv. destruct (Hsel n) as (s' & Hs' & Hv'); [lia|]. exists s'. split; [done|]. apply Hv'.
      apply Hs in Hv as [? ?]. split; [done|lia].
  - unfold select_dialogue_runtime. assert (Hr : negb ((0 <=? percent) && (percent <=? 100)) = true).
    { apply negb_true_iff, andb_false_iff. lia. }
    rewrite Hr. simpl. split; [lia|done].
Qed.
End router.

(** With SHA-256 itself: one conversation, its bucket, and the two sides of it. *)
Definition sample_selection (percent : Z) : option DialogueRuntimeContractVersion :=
  match select_dialogue_runtime VERDICT_V1 percent "salt" HOME_TEACH "home_teach" (Some "money-price"%string) 7
          (Some "session-1"%string) 1 with Ok s => Some (rs_version s) | Raise _ => None end.
Definition sample_bucket : Z := canary_bucket "salt" 7 "session-1" 1.
Example canary_boundary :
  (sample_selection sample_bucket, sample_selection (sample_bucket + 1)) = (Some LEGACY_V1, Some VERDICT_V1).
Proof. vm_compute. reflexivity. Qed.
