(* ===== verification/State.v ===== *)
(** The conversation state a V2 turn reads and writes ([SessionState] of
    [src/mormi_api/schemas.py], the fields of the V2 engine) and the typed result
    of interpreting a turn ([_TurnSemantics] of
    [src/mormi_api/dialogue_v2_runtime.py]).  The state is grouped by the concern
    that owns the fields: ladders, note provenance, completion. *)

From S2P Require Import Prelude.
From S2P Require Import PyStr.
From S2P Require Import PyNum.
From S2P Require Import Json.
From S2P Require Import Schemas.
From S2P Require Import Requests.
From S2P Require Import Evidence.
From S2P Require Import Packs.
From S2P Require Import PackDump.
From S2P Require Import Snapshot.
From S2P Require Import Ledger.

(** * Session state *)

Record ladder_state := {
  expression_level : ExpressionLevel;
  hint_level : HintLevel;
  task_max_hint : HintLevel;
  expression_failures : nat;
  concept_failures : nat;
  vague_clarifications : nat;
  unrelated_count : nat
}.

Record note_state := {
  child_note_evidence : gmap string string;
  supported_note_slots : list string
}.

Record outcome_state := {
  ss_status : SessionStatus;
  completion_outcome : option CompletionOutcome;
  teach_reward_eligible : bool;
  all_tasks_direct : bool;
  joint_performance_used : bool;
  verified_slots : gmap string pyvalue;
  completed_task_slots : gmap string (gmap string pyvalue)
}.

(** [PinnedDialogueRuntimeV2]: the snapshot fields and the stored ledger; the
    stable-copy plan set is the copy cache's. *)
Record PinnedDialogueRuntimeV2 := {
  pd_pack_id : string;
  pd_content_version : Z;
  pd_source_hash : string;
  pd_pack_snapshot : RequiredHomeTeachingPackV2;
  pd_reasoning_ledger : ReasoningLedgerV2
}.

Record SessionState := {
  runtime_contract_version : DialogueRuntimeContractVersion;
  pinned_dialogue_v2 : option PinnedDialogueRuntimeV2;
  task_ids : list string;
  task_index : nat;
  subgoal_id : string;
  state_version : Z;
  current_turn_id : option string;
  ladder : ladder_state;
  notes : note_state;
  outcome : outcome_state
}.

(** Field updates. *)
Definition with_expression (l : ladder_state) (e : ExpressionLevel) : ladder_state := {|
  expression_level := e; hint_level := hint_level l; task_max_hint := task_max_hint l;
  expression_failures := expression_failures l; concept_failures := concept_failures l;
  vague_clarifications := vague_clarifications l; unrelated_count := unrelated_count l |}.
Definition with_hint (l : ladder_state) (h : HintLevel) : ladder_state := {|
  expression_level := expression_level l; hint_level := h; task_max_hint := task_max_hint l;
  expression_failures := expression_failures l; concept_failures := concept_failures l;
  vague_clarifications := vague_clarifications l; unrelated_count := unrelated_count l |}.
Definition with_max_hint (l : ladder_state) (h : HintLevel) : ladder_state := {|
  expression_level := expression_level l; hint_level := hint_level l; task_max_hint := h;
  expression_failures := expression_failures l; concept_failures := concept_failures l;
  vague_clarifications := vague_clarifications l; unrelated_count := unrelated_count l |}.
Definition with_counters (l : ladder_state) (e c v u : nat) : ladder_state := {|
  expression_level := expression_level l; hint_level := hint_level l;
  task_max_hint := task_max_hint l; expression_failures := e; concept_failures := c;
  vague_clarifications := v; unrelated_count := u |}.

Definition with_ladder (s : SessionState) (l : ladder_state) : SessionState := {|
  runtime_contract_version := runtime_contract_version s; pinned_dialogue_v2 := pinned_dialogue_v2 s;
  task_ids := task_ids s; task_index := task_index s; subgoal_id := subgoal_id s;
  state_version := state_version s; current_turn_id := current_turn_id s;
  ladder := l; notes := notes s; outcome := outcome s |}.
Definition with_notes (s : SessionState) (n : note_state) : SessionState := {|
  runtime_contract_version := runtime_contract_version s; pinned_dialogue_v2 := pinned_dialogue_v2 s;
  task_ids := task_ids s; task_index := task_index s; subgoal_id := subgoal_id s;
  state_version := state_version s; current_turn_id := current_turn_id s;
  ladder := ladder s; notes := n; outcome := outcome s |}.
Definition with_outcome (s : SessionState) (o : outcome_state) : SessionState := {|
  runtime_contract_version := runtime_contract_version s; pinned_dialogue_v2 := pinned_dialogue_v2 s;
  task_ids := task_ids s; task_index := task_index s; subgoal_id := subgoal_id s;
  state_version := state_version s; current_turn_id := current_turn_id s;
  ladder := ladder s; notes := notes s; outcome := o |}.
Definition with_subgoal (s : SessionState) (i : string) : SessionState := {|
  runtime_contract_version := runtime_contract_version s; pinned_dialogue_v2 := pinned_dialogue_v2 s;
  task_ids := task_ids s; task_index := task_index s; subgoal_id := i;
  state_version := state_version s; current_turn_id := current_turn_id s;
  ladder := ladder s; notes := notes s; outcome := outcome s |}.
Definition with_pinned (s : SessionState) (p : PinnedDialogueRuntimeV2) : SessionState := {|
  runtime_contract_version := runtime_contract_version s; pinned_dialogue_v2 := Some p;
  task_ids := task_ids s; task_index := task_index s; subgoal_id := subgoal_id s;
  state_version := state_version s; current_turn_id := current_turn_id s;
  ladder := ladder s; notes := notes s; outcome := outcome s |}.
Definition with_turn (s : SessionState) (version : Z) (turn : option string) : SessionState := {|
  runtime_contract_version := runtime_contract_version s; pinned_dialogue_v2 := pinned_dialogue_v2 s;
  task_ids := task_ids s; task_index := task_index s; subgoal_id := subgoal_id s;
  state_version := version; current_turn_id := turn;
  ladder := ladder s; notes := notes s; outcome := outcome s |}.

Definition with_verified_slots (o : outcome_state) (v : gmap string pyvalue) : outcome_state := {|
  ss_status := ss_status o; completion_outcome := completion_outcome o;
  teach_reward_eligible := teach_reward_eligible o; all_tasks_direct := all_tasks_direct o;
  joint_performance_used := joint_performance_used o; verified_slots := v;
  completed_task_slots := completed_task_slots o |}.

(** [self.task_ids[self.task_index]] *)
Definition current_task_id (s : SessionState) : res string :=
  or_raise (task_ids s !! task_index s) IndexError.

(** * Turn semantics *)

Inductive TurnRoute := RO_main | RO_bridge | RO_safety | RO_stable | RO_understanding_fallback.
Inductive UnderstandingSource :=
  | US_sonnet_low | US_deterministic_fallback | US_structured_choice | US_structured_joint
  | US_explicit_no_response | US_silence_timeout | US_asr_empty.
Inductive GuardStatus := GS_not_applicable | GS_passed | GS_retry_passed | GS_failed.
Inductive UnderstandingFailure :=
  | understanding_timeout | understanding_model_unavailable
  | understanding_model_output_invalid | understanding_evidence_guard_failed.

#[export] Instance TurnRoute_eq_dec : EqDecision TurnRoute. Proof. solve_decision. Defined.
#[export] Instance UnderstandingSource_eq_dec : EqDecision UnderstandingSource.
Proof. solve_decision. Defined.
#[export] Instance GuardStatus_eq_dec : EqDecision GuardStatus. Proof. solve_decision. Defined.
#[export] Instance UnderstandingFailure_eq_dec : EqDecision UnderstandingFailure.
Proof. solve_decision. Defined.

(** Latency is not modelled. *)
Record TurnSemantics := {
  ts_response : UnderstandingResponseV2;
  ts_apply_result : ReasoningLedgerApplyResultV2;
  ts_guarded : option GuardedUnderstandingV2;
  ts_route : TurnRoute;
  ts_understanding_source : UnderstandingSource;
  ts_attempts : nat;
  ts_guard_status : GuardStatus;
  ts_structured_correct : option bool;
  ts_initial_help : bool;
  ts_failure_reason : option UnderstandingFailure;
  ts_visual_patch : option (list (string * json))
}.
