(* ===== verification/Ladder.v ===== *)
(** The support ladders: how one interpreted turn moves the expression ladder
    (L4 free explanation down to L0 joint action) and the hint ladder (H0 to H3),
    and which speaker a turn is routed to ([_apply_ladder_policy],
    [_raise_hint], [_lower_expression] and [_route_for_understanding] of
    [src/mormi_api/dialogue_v2_runtime.py]). *)

From S2P Require Import Prelude.
From S2P Require Import PyStr.
From S2P Require Import PyNum.
From S2P Require Import Json.
From S2P Require Import Schemas.
From S2P Require Import Requests.
From S2P Require Import Evidence.
From S2P Require Import Packs.
From S2P Require Import PackDump.
From S2P Require Import Snapshot.
From S2P Require Import Ledger.
From S2P Require Import State.

(** [max(a, b, key=list(HintLevel).index)] *)
Definition max_hint (a b : HintLevel) : HintLevel :=
  if hint_index a <? hint_index b then b else a.

Definition raise_hint (l : ladder_state) : ladder_state :=
  let l1 :=
    match hint_level l with
    | H0 => with_hint l H1
    | H1 => with_hint l H2
    | H2 => with_expression (with_hint l H3) L0
    | H3 => l
    end in
  let l2 := if decide (expression_level l1 = L0) then with_hint l1 H3 else l1 in
  with_max_hint l2 (max_hint (task_max_hint l2) (hint_level l2)).

Definition lower_expression (l : ladder_state) : ladder_state :=
  let l1 := with_expression
              (with_counters l (S (expression_failures l)) (concept_failures l)
                 (vague_clarifications l) (unrelated_count l))
              (lower (expression_level l)) in
  if decide (expression_level l1 = L0) then with_max_hint (with_hint l1 H3) H3 else l1.

(** [semantics.response.ui_reference] asks for support. *)
Definition ui_reference_needs_support (r : UnderstandingResponseV2) : bool :=
  match ui_reference r with
  | Some u => memb (ui_interaction u) [ASKS_WHY; ASKS_WHAT_NEXT; EXPRESSES_CONFUSION; CHALLENGES]
  | None => false
  end.

Definition asks_for_scaffold (r : UnderstandingResponseV2) : bool :=
  memb (conversation_move r) [TASK_QUESTION; REQUEST_MORMI_ANSWER] || ui_reference_needs_support r.

Definition has_incorrect (t : TurnSemantics) : bool :=
  bool_decide (ts_structured_correct t = Some false) || any_incorrect (claims (ts_response t)).

(** [state] is the ladder part of the session state. *)
Definition apply_ladder_policy (state : ladder_state) (t : TurnSemantics) : ladder_state :=
  let response := ts_response t in
  if decide (ts_understanding_source t = US_deterministic_fallback) then state
  else if has_new_canonical_progress (ts_apply_result t) then
    let state1 := with_counters state 0 0 0 0 in
    if asks_for_scaffold response then raise_hint state1 else state1
  else if has_new_partial_progress (ts_apply_result t) then
    let state1 := with_counters state (expression_failures state) (concept_failures state) 0 0 in
    if decide (expression_level state1 = L4) then with_expression state1 L3 else state1
  else if asks_for_scaffold response then
    raise_hint (with_counters state (expression_failures state) (concept_failures state) 0
                  (unrelated_count state))
  else if memb (conversation_move response) [META_QUESTION; REFUSAL; SAFE_PLAY]
          || memb (ts_route t) [RO_bridge; RO_safety] then
    with_counters state (expression_failures state) (concept_failures state)
      (vague_clarifications state) (S (unrelated_count state))
  else if decide (ts_understanding_source t = US_asr_empty) then state
  else if decide (ts_understanding_source t = US_silence_timeout) then lower_expression state
  else if decide (support_need response = SN_EXPRESSION) then lower_expression state
  else if decide (support_need response = GENERAL_HELP) then raise_hint (lower_expression state)
  else if memb (support_need response) [SN_CONCEPT; SN_BOTH] || has_incorrect t then
    raise_hint (with_counters state (expression_failures state) (S (concept_failures state))
                  (vague_clarifications state) (unrelated_count state))
  else if vague_clarifications state =? 0 then
    with_counters state (expression_failures state) (concept_failures state) 1 (unrelated_count state)
  else
    lower_expression (with_counters state (expression_failures state) (concept_failures state) 0
                        (unrelated_count state)).

Definition route_for_understanding (r : UnderstandingResponseV2) : TurnRoute :=
  if memb (utterance_class r) [SYSTEM_MANIPULATION; SAFETY_RISK] then RO_safety
  else match ui_reference r with
       | Some _ => RO_main
       | None =>
           if decide (utterance_class r = NON_LEARNING_SAFE) then RO_bridge
           else if memb (conversation_move r) [META_QUESTION; REFUSAL; SAFE_PLAY]
                   && negb (contains_learning_evidence r) then RO_bridge
           else RO_main
       end.

(** [_uses_reviewed_expression_support] *)
Definition uses_reviewed_expression_support (t : TurnSemantics) : bool :=
  bool_decide (ts_route t = RO_main)
  && bool_decide (ts_understanding_source t = US_sonnet_low)
  && bool_decide (support_need (ts_response t) = SN_EXPRESSION)
  && bool_decide (conversation_move (ts_response t) = CM_NONE)
  && negb (contains_learning_evidence (ts_response t))
  && negb (has_new_canonical_progress (ts_apply_result t))
  && negb (has_new_partial_progress (ts_apply_result t)).
