(* ===== verification/Understand.v ===== *)
(** Interpreting a free-text turn
    ([_understand_text], [_understand_attempt], [_merge_admitted_understanding]
    and their helpers in [src/mormi_api/dialogue_v2_runtime.py], with the
    two-attempt graph of [src/mormi_api/dialogue_v2_attempt_graph.py]): the
    request built from the pinned pack, at most two calls of the understanding
    model, claim-wise admission with monotone merging, and a typed no-progress
    result for every failure.

    The gateway is a function of the request and the attempt: the model's answer,
    or the exception class it raised. *)

From Stdlib Require Import Ascii.
From S2P Require Import Prelude.
From S2P Require Import PyStr.
From S2P Require Import PyNum.
From S2P Require Import Json.
From S2P Require Import Schemas.
From S2P Require Import Requests.
From S2P Require Import Regex.
From S2P Require Import Evidence.
From S2P Require Import Packs.
From S2P Require Import PackDump.
From S2P Require Import Snapshot.
From S2P Require Import Ledger.
From S2P Require Import State.
From S2P Require Import Ladder.

Definition primitive (v : CanonicalValueV2) : pyvalue :=
  match v with
  | MoneyValueV2 a _ => PV_num a
  | NumberValueV2 x _ => PV_num x
  | TextValueV2 t => PV_str t
  | BooleanValueV2 b => PV_bool b
  | ChoiceValueV2 c => PV_str c
  end.

(** [next(fact for fact in facts if fact.fact_id == i)] and the relation one. *)
Definition first_fact (p : TaskPackV2) (i : string) : res GraphFact :=
  or_raise (find_first (fun f => bool_decide (fact_id f = i)) (pack_facts p)) StopIteration.
Definition first_relation (p : TaskPackV2) (i : string) : res GraphRelation :=
  or_raise (find_first (fun r => bool_decide (relation_id r = i)) (pack_relations p)) StopIteration.

(** * The understanding request *)

Definition target_truth (p : TaskPackV2) (t : TargetRefV2) : res (option CanonicalValueV2) :=
  match target_kind t with
  | KIND_relation => Ok None
  | KIND_fact => f ← first_fact p (target_id t); Ok (Some (fact_value f))
  end.

Definition target_rubric (p : TaskPackV2) (t : TargetRefV2) : res (list (string * string)) :=
  match target_kind t with
  | KIND_fact =>
      f ← first_fact p (target_id t);
      Ok [("correct", (fact_speaker_label f ++ "에 대한 수학적으로 맞는 주장")%string);
          ("partial", "역할은 맞지만 표현이 불완전한 주장")]
  | KIND_relation =>
      r ← first_relation p (target_id t);
      Ok [("sufficient", py_join " | " (rr_sufficient (relation_rubric r)));
          ("partial", py_join " | " (rr_partial (relation_rubric r)));
          ("incorrect", py_join " | " (rr_incorrect (relation_rubric r)))]
  end.

(** [s.replace(" ", "")] *)
Fixpoint drop_blanks (s : string) : string :=
  match s with
  | EmptyString => ""
  | String c s' => if bool_decide (c = " "%char) then drop_blanks s' else String c (drop_blanks s')
  end.

Definition fact_semantic_aliases (p : TaskPackV2) (i : string) : res (list string) :=
  fact ← first_fact p i;
  let compact := drop_blanks (fact_speaker_label fact) in
  let aliases := if bool_decide (compact = fact_speaker_label fact) then [] else [compact] in
  let rendered :=
    match p with
    | HomePack h =>
        flat_map (fun b => if bool_decide (rb_fact_id b = i) then option_list (rb_rendered_label b) else [])
          (sp_rendered_facts (hp_source_problem h))
    | LifePack _ => []
    end in
  Ok (fromkeys (aliases ++ rendered)).

Definition target_semantic_contract (p : TaskPackV2) (t : TargetRefV2)
    : res (option UnderstandingRelationContractV2) :=
  match target_kind t with
  | KIND_fact => Ok None
  | KIND_relation =>
      r ← first_relation p (target_id t);
      Ok (Some {|
        urc_relation_id := relation_id r; urc_speaker_label := relation_label r;
        urc_operation := relation_operation r; urc_input_fact_ids := relation_inputs r;
        urc_output_fact_id := relation_output r;
        urc_method_policy := if decide (relation_evaluation_mode r = open_semantic_support)
                             then open_equivalent else canonical_relation;
        urc_numeric_expression_required := false;
        urc_answer_required_in_same_utterance := false |})
  end.

(** [pack.help_plan.H<n>.body] *)
Definition help_body (p : TaskPackV2) (h : HintLevel) : option string :=
  match p, h with
  | _, H0 => None
  | HomePack p, H1 => Some (hc_body (hp_H1 (hp_help_plan p)))
  | HomePack p, H2 => Some (hc_body (hp_H2 (hp_help_plan p)))
  | HomePack p, H3 => Some (hc_body (hp_H3 (hp_help_plan p)))
  | LifePack p, H1 => Some (lhc_body (lhp_H1 (lt_help_plan p)))
  | LifePack p, H2 => Some (lhc_body (lhp_H2 (lt_help_plan p)))
  | LifePack p, H3 => Some (lhc_body (lhp_H3 (lt_help_plan p)))
  end.

Definition help_element_id (h : HintLevel) : string :=
  match h with
  | H0 => "help_card.h0" | H1 => "help_card.h1" | H2 => "help_card.h2" | H3 => "help_card.h3"
  end.

Definition visible_ui_elements (p : TaskPackV2) (h : HintLevel)
    : list UnderstandingVisibleUiElementV2 :=
  match help_body p h with
  | None => []
  | Some body => [{| uve_element_id := help_element_id h; uve_text := body; uve_hint_level := Some h |}]
  end.

Definition request_target (p : TaskPackV2) (t : TargetRefV2) : res UnderstandingTargetV2 :=
  rubric ← target_rubric p t;
  truth ← target_truth p t;
  contract ← target_semantic_contract p t;
  Ok {| ut_target_kind := target_kind t; ut_target_id := target_id t; ut_ask_kind := ask_kind t;
        ut_rubric := rubric; ut_expected_truth := truth; ut_semantic_contract := contract |}.

Definition fact_context (p : TaskPackV2) (f : GraphFact) : res UnderstandingFactContextV2 :=
  aliases ← fact_semantic_aliases p (fact_id f);
  Ok {| ufc_fact_id := fact_id f; ufc_speaker_label := fact_speaker_label f;
        ufc_semantic_aliases := aliases; ufc_visible := fact_initially_visible f |}.

(** [l[-n:]] *)
Definition last_n {A} (n : nat) (l : list A) : list A := drop (length l - n) l.

Definition help_scaffolded (h : HintLevel) (targets : list TargetRefV2) : list string :=
  if memb h [H2; H3] then
    map target_id (List.filter (fun t => bool_decide (target_kind t = KIND_relation)) targets)
  else [].

(** The request of [_understand_text] for the given targets. *)
Definition understanding_request (p : TaskPackV2) (l : ladder_state) (targets : list TargetRefV2)
    (previous_question : string) (recent : list DialogueHistoryTurn) (text : ustr)
    : res UnderstandingRequestV2 :=
  contexts ← mapR (fact_context p) (pack_facts p);
  request_targets ← mapR (request_target p) targets;
  let request := {|
    ur_task_id := pack_task_id p;
    ur_visible_facts := map (fun f => (fact_id f, primitive (fact_value f)))
                          (List.filter fact_initially_visible (pack_facts p));
    ur_fact_contexts := contexts;
    ur_targets := request_targets;
    ur_claimable_graph := {|
      cg_fact_ids := pack_fact_ids p; cg_relation_ids := pack_relation_ids p;
      cg_open_auxiliary_claims := pack_open_auxiliary p |};
    ur_current_turn := {|
      utc_mormi_question := previous_question;
      utc_asks := fromkeys (map ask_kind targets);
      utc_expression_level := expression_level l;
      utc_hint_level := hint_level l;
      utc_help_scaffolded_relation_ids := help_scaffolded (hint_level l) targets |};
    ur_visible_ui_elements := visible_ui_elements p (hint_level l);
    ur_recent_history := last_n 6 recent;
    ur_child_utterance := text;
    ur_guard_feedback_codes := [] |} in
  request_validate request.

(** [request.model_copy(update={"guard_feedback_codes": codes})] *)
Definition with_feedback (r : UnderstandingRequestV2) (codes : list string)
    : UnderstandingRequestV2 := {|
  ur_task_id := ur_task_id r; ur_visible_facts := ur_visible_facts r;
  ur_fact_contexts := ur_fact_contexts r; ur_targets := ur_targets r;
  ur_claimable_graph := ur_claimable_graph r; ur_current_turn := ur_current_turn r;
  ur_visible_ui_elements := ur_visible_ui_elements r; ur_recent_history := ur_recent_history r;
  ur_child_utterance := ur_child_utterance r; ur_guard_feedback_codes := codes |}.

(** * Merging admitted claims *)

#[export] Instance FactClaimType_eq_dec : EqDecision FactClaimType. Proof. solve_decision. Defined.
#[export] Instance RelationClaimType_eq_dec : EqDecision RelationClaimType.
Proof. solve_decision. Defined.

(** [{item.claim_id: item for item in items}]: the first position of a key, its
    last value. *)
Definition dict_by {A} (key : A -> string) (items : list A) : list A :=
  flat_map (fun k => option_list (find_first (fun x => bool_decide (key x = k)) (rev items)))
    (fromkeys (map key items)).

(** [d.setdefault(key(x), x)] *)
Definition set_default {A} (key : A -> string) (d : list A) (x : A) : list A :=
  if memb (key x) (map key d) then d else d ++ [x].

Definition merge_admitted_understanding (existing : option GuardedUnderstandingV2)
    (current : GuardedUnderstandingV2) : res GuardedUnderstandingV2 :=
  match existing with
  | None => Ok current
  | Some old =>
      let base := gu_response old in
      let merged_claims :=
        fold_left (set_default claim_id) (claims (gu_response current))
          (dict_by claim_id (claims base)) in
      let matches_by_id :=
        fold_left (set_default em_claim_id) (gu_evidence_matches current)
          (dict_by em_claim_id (gu_evidence_matches old)) in
      merged_matches ← mapR (fun c => or_raise
          (find_first (fun m => bool_decide (em_claim_id m = claim_id c)) matches_by_id)
          (KeyError (claim_id c))) merged_claims;
      Ok {| gu_response := copy_response base
              (match ui_reference base with
               | Some u => Some u | None => ui_reference (gu_response current) end)
              merged_claims (truthy merged_claims);
            gu_evidence_matches := merged_matches |}
  end.

(** * Attempts *)

Inductive GatewayOutcome :=
  | GW_response (r : UnderstandingResponseV2)
  | GW_TimeoutError | GW_ModelUnavailableError | GW_ModelOutputError.

Section attempts.
Context `{Digest} `{PackModel} `{Nfc}.

(** [_unchanged_result] *)
Definition unchanged_result (s : ContentSnapshotV2) (l : ReasoningLedgerV2)
    : res ReasoningLedgerApplyResultV2 :=
  completion ← reasoning_completion_v2 s l;
  Ok {| ar_ledger := l; ar_log := empty_log; ar_completion := completion;
        completion_became_true := false |}.

Record attempt_context := {
  cx_ladder : ladder_state;
  cx_snapshot : ContentSnapshotV2;
  cx_ledger : ReasoningLedgerV2;
  cx_turn_id : string;
  cx_request : UnderstandingRequestV2;
  cx_admitted : option GuardedUnderstandingV2
}.

Definition cx_with (c : attempt_context) (r : UnderstandingRequestV2)
    (a : option GuardedUnderstandingV2) : attempt_context := {|
  cx_ladder := cx_ladder c; cx_snapshot := cx_snapshot c; cx_ledger := cx_ledger c;
  cx_turn_id := cx_turn_id c; cx_request := r; cx_admitted := a |}.

Definition understanding_failure_semantics (s : ContentSnapshotV2) (l : ReasoningLedgerV2)
    (attempts : nat) (reason : UnderstandingFailure) : res TurnSemantics :=
  response ← server_understanding LEARNING_RESPONSE SN_NONE false AS_NOT_APPLICABLE
               RS_NOT_APPLICABLE;
  result ← unchanged_result s l;
  Ok {| ts_response := response; ts_apply_result := result; ts_guarded := None;
        ts_route := RO_understanding_fallback;
        ts_understanding_source := US_deterministic_fallback; ts_attempts := attempts;
        ts_guard_status := GS_failed; ts_structured_correct := None; ts_initial_help := false;
        ts_failure_reason := Some reason; ts_visual_patch := None |}.

Definition admitted_understanding_semantics (c : attempt_context) (attempt : nat)
    : res TurnSemantics :=
  guarded ← or_raise (cx_admitted c) AssertionError;
  result ← apply_guarded_understanding_v2 (cx_snapshot c) (cx_ledger c) guarded (cx_turn_id c);
  let response := gu_response guarded in
  let initial_help :=
    bool_decide (expression_level (cx_ladder c) = L4)
    && bool_decide (hint_level (cx_ladder c) = H0)
    && bool_decide (support_need response = GENERAL_HELP)
    && bool_decide (conversation_move response = CM_NONE) in
  let route := route_for_understanding response in
  let route := if memb route [RO_bridge; RO_safety] && truthy (claims response)
               then RO_main else route in
  Ok {| ts_response := response; ts_apply_result := result; ts_guarded := Some guarded;
        ts_route := if initial_help then RO_stable else route;
        ts_understanding_source := US_sonnet_low; ts_attempts := attempt;
        ts_guard_status := if decide (attempt = 1) then GS_passed else GS_retry_passed;
        ts_structured_correct := None; ts_initial_help := initial_help;
        ts_failure_reason := None; ts_visual_patch := None |}.

Definition gateway_failure (c : attempt_context) (attempt : nat) (reason : UnderstandingFailure)
    : res TurnSemantics :=
  match cx_admitted c with
  | Some _ => admitted_understanding_semantics c attempt
  | None => understanding_failure_semantics (cx_snapshot c) (cx_ledger c) attempt reason
  end.

(** [None] asks for the repair attempt. *)
Definition understand_attempt (gateway : UnderstandingRequestV2 -> GatewayOutcome)
    (c : attempt_context) (attempt : nat) : res (option TurnSemantics * attempt_context) :=
  match gateway (cx_request c) with
  | GW_TimeoutError => t ← gateway_failure c attempt understanding_timeout; Ok (Some t, c)
  | GW_ModelUnavailableError =>
      t ← gateway_failure c attempt understanding_model_unavailable; Ok (Some t, c)
  | GW_ModelOutputError =>
      t ← gateway_failure c attempt understanding_model_output_invalid; Ok (Some t, c)
  | GW_response candidate =>
      let route := route_for_understanding candidate in
      if memb route [RO_bridge; RO_safety] && bool_decide (~ is_Some (cx_admitted c)) then
        result ← unchanged_result (cx_snapshot c) (cx_ledger c);
        Ok (Some {|
          ts_response := candidate; ts_apply_result := result; ts_guarded := None;
          ts_route := route; ts_understanding_source := US_sonnet_low; ts_attempts := attempt;
          ts_guard_status := GS_not_applicable; ts_structured_correct := None;
          ts_initial_help := false; ts_failure_reason := None; ts_visual_patch := None |}, c)
      else
        admission ← admit_understanding_response_v2 (cx_request c) candidate;
        guarded ← merge_admitted_understanding (cx_admitted c) (ad_guarded admission);
        if needs_repair admission && bool_decide (attempt = 1) then
          Ok (None, cx_with c
            (with_feedback (cx_request c)
               (map (fun v => violation_code_value (gv_code v)) (ad_quarantined_claims admission)))
            (if truthy (claims (gu_response guarded)) then Some guarded else None))
        else if negb (truthy (claims (gu_response guarded))) && needs_repair admission then
          t ← understanding_failure_semantics (cx_snapshot c) (cx_ledger c) attempt
                understanding_evidence_guard_failed;
          Ok (Some t, c)
        else
          let c' := cx_with c (cx_request c) (Some guarded) in
          t ← admitted_understanding_semantics c' attempt;
          Ok (Some t, c')
  end.

Definition understanding_exhausted (c : attempt_context) : res TurnSemantics :=
  match cx_admitted c with
  | Some _ => admitted_understanding_semantics c 2
  | None => understanding_failure_semantics (cx_snapshot c) (cx_ledger c) 2
              understanding_evidence_guard_failed
  end.

(** The two-attempt graph: attempt, route, attempt, exhausted. *)
Definition run_attempt_graph (gateway : nat -> UnderstandingRequestV2 -> GatewayOutcome)
    (c : attempt_context) : res TurnSemantics :=
  out1 ← understand_attempt (gateway 1) c 1;
  match out1.1 with
  | Some t => Ok t
  | None =>
      out2 ← understand_attempt (gateway 2) out1.2 2;
      match out2.1 with
      | Some t => Ok t
      | None => understanding_exhausted out2.2
      end
  end.

(** [_understand_text] for the targets of the active question. *)
Definition understand_text (gateway : nat -> UnderstandingRequestV2 -> GatewayOutcome)
    (l : ladder_state) (p : TaskPackV2) (s : ContentSnapshotV2) (lg : ReasoningLedgerV2)
    (targets : list TargetRefV2) (response : ChildResponse) (previous_question : string)
    (recent : list DialogueHistoryTurn) : res TurnSemantics :=
  text ← or_raise (cr_text response) AssertionError;
  request ← understanding_request p l targets previous_question recent text;
  run_attempt_graph gateway {|
    cx_ladder := l; cx_snapshot := s; cx_ledger := lg; cx_turn_id := cr_turn_id response;
    cx_request := request; cx_admitted := None |}.
End attempts.
