(* ===== verification/Question.v ===== *)
(** The question a turn asks: the targets still open in the pinned pack, and the
    typed input the child is shown at each expression level
    ([_targets_from_active_state], [_active_l2_plan], [_l2_plan_for_targets],
    [_question_contract] and [_initial_help_question_contract] of
    [src/mormi_api/dialogue_v2_runtime.py]), for the home engine. *)

From S2P Require Import Prelude.
From S2P Require Import PyStr.
From S2P Require Import PyNum.
From S2P Require Import Json.
From S2P Require Import Schemas.
From S2P Require Import Requests.
From S2P Require Import Evidence.
From S2P Require Import Packs.
From S2P Require Import PackDump.
From S2P Require Import Snapshot.
From S2P Require Import Ledger.
From S2P Require Import State.
From S2P Require Import Ladder.
From S2P Require Import Understand.

(** * Input contract *)

Record ChoiceOption := {
  co_id : string;
  co_label : string;
  co_image_url : option string;
  co_disabled : option bool
}.

(** The [config] dict of an input: empty, [{"plan_id": ..., **extra}], or
    [{**base, "text": ..., "action_id": ..., "completion_values": {...}}]. *)
Inductive InputConfig :=
  | CFG_empty
  | CFG_plan (plan_id : string) (extra : list (string * json))
  | CFG_joint (base : list (string * json)) (text action_id : string)
      (completion_values : gmap string pyvalue).

Record InputContract := {
  ic_kind : InputKind;
  ic_placeholder : option string;
  ic_choices : list ChoiceOption;
  ic_target_slots : list string;
  ic_submit_label : option string;
  ic_config : InputConfig
}.

Definition no_input : InputContract := {|
  ic_kind := IK_NONE; ic_placeholder := None; ic_choices := []; ic_target_slots := [];
  ic_submit_label := None; ic_config := CFG_empty |}.
Definition text_input (slots : list string) (placeholder : string) : InputContract := {|
  ic_kind := IK_TEXT; ic_placeholder := Some placeholder; ic_choices := [];
  ic_target_slots := slots; ic_submit_label := Some "알려주기"; ic_config := CFG_empty |}.

(** [_QuestionContract] *)
Record QuestionContract := {
  qc_targets : list TargetRefV2;
  qc_fallback : string;
  qc_input : InputContract;
  qc_copy_slot : option CopySlotV2
}.

(** [f"{target.target_kind}:{target.target_id}"] *)
Definition pair_key (k : TargetKind) (i : string) : string := (target_kind_value k ++ ":" ++ i)%string.
Definition target_key (t : TargetRefV2) : string := pair_key (target_kind t) (target_id t).

(** The dict a joint action submits: each fact's primitive, [true] for a relation. *)
Definition joint_value (c : JointCompletionV2) : pyvalue :=
  match c with JointFactCompletionV2 _ v => primitive v | JointRelationCompletionV2 _ => PV_bool true end.
Definition joint_completion_values (l : list JointCompletionV2) : gmap string pyvalue :=
  fold_left (fun d c => <[pair_key (joint_pair c).1 (joint_pair c).2 := joint_value c]> d) l ∅.

(** * Open targets *)

(** The initial question's targets that are still open, in its order. *)
Definition remaining_targets (initial : list TargetRefV2) (c : ReasoningCompletionV2)
    : list TargetRefV2 :=
  let remaining := map (pair KIND_fact) (remaining_fact_ids c)
                   ++ map (pair KIND_relation) (remaining_relation_ids c) in
  List.filter (fun t => memb (target_pair t) remaining) initial.

(** A relation with partial evidence only. *)
Definition is_partial_target (l : ReasoningLedgerV2) (t : TargetRefV2) : bool :=
  bool_decide (target_kind t = KIND_relation)
  && bool_decide (is_Some (partial_relations l !! target_id t))
  && negb (bool_decide (is_Some (verified_relations l !! target_id t))).

(** [plan.targets[0]] *)
Definition plan_target (q : QuestionPlanV2) : res TargetRefV2 := or_raise (head (qp_targets q)) IndexError.

(** [next(t for t in candidates if t in ordered)] *)
Definition first_open (ordered candidates : list TargetRefV2) : option TargetRefV2 :=
  find_first (fun t => memb t ordered) candidates.

Section question.
Context `{Digest} `{PackModel}.

Definition targets_from_active_state (level : ExpressionLevel) (pack : RequiredHomeTeachingPackV2)
    (ledger : ReasoningLedgerV2) : res (list TargetRefV2) :=
  snapshot ← pin_content_pack_v2 pack;
  completion ← reasoning_completion_v2 (HomeSnapshot snapshot) ledger;
  let ordered := remaining_targets (qp_targets (hp_initial_question pack)) completion in
  match ordered with
  | [] => Ok []
  | first :: _ =>
      if memb level [L4; L0] then Ok ordered
      else
        match find_first (is_partial_target ledger) ordered with
        | Some t => Ok [t]
        | None =>
            l3_targets ← (if decide (level = L3) then mapR plan_target (hp_l3_plans pack) else Ok []);
            match first_open ordered l3_targets with
            | Some t => Ok [t]
            | None =>
                match first_open ordered (map l2_target (hp_l2_plans pack)) with
                | Some t => Ok [t]
                | None => Ok [first]
                end
            end
        end
  end.

Definition l2_plan_for_targets (pack : RequiredHomeTeachingPackV2) (targets : list TargetRefV2)
    : res L2ChoicePlanV2 :=
  or_raise (find_first (fun q => memb (target_pair (l2_target q)) (map target_pair targets))
              (hp_l2_plans pack))
    (ValueError "V2 pack has no L2 plan for the remaining target").

Definition active_l2_plan (level : ExpressionLevel) (subgoal : string)
    (pack : RequiredHomeTeachingPackV2) (ledger : ReasoningLedgerV2) : res L2ChoicePlanV2 :=
  match find_first (fun q => bool_decide (l2_plan_id q = subgoal)) (hp_l2_plans pack) with
  | Some plan => Ok plan
  | None =>
      targets ← targets_from_active_state level pack ledger;
      l2_plan_for_targets pack targets
  end.

(** * The question contract; the state's subgoal and, at L0, its hint level
    are updated. *)

Definition first_slot (pack : RequiredHomeTeachingPackV2) (p : CopySlotV2 -> bool) : res CopySlotV2 :=
  or_raise (find_first p (hp_copy_slots pack)) StopIteration.
Definition slot_for_purpose (pack : RequiredHomeTeachingPackV2) (u : CopyPurpose) : res CopySlotV2 :=
  first_slot pack (fun s => bool_decide (cs_purpose s = u)).

Definition joint_question (pack : RequiredHomeTeachingPackV2) (targets : list TargetRefV2)
    (intro action : CopySlotV2) : QuestionContract :=
  let plan := hp_l0_joint_plan pack in {|
  qc_targets := targets; qc_fallback := cs_reviewed_fallback intro;
  qc_input := {|
    ic_kind := IK_JOINT; ic_placeholder := None; ic_choices := [];
    ic_target_slots := map target_key targets; ic_submit_label := Some (jp_button_label plan);
    ic_config := CFG_joint [] (cs_reviewed_fallback action) (jp_action_id plan)
                   (joint_completion_values (jp_completion_values plan)) |};
  qc_copy_slot := Some intro |}.

Definition l2_question_contract (plan : L2ChoicePlanV2) (slot : CopySlotV2) : QuestionContract := {|
  qc_targets := [l2_target plan]; qc_fallback := cs_reviewed_fallback slot;
  qc_input := {|
    ic_kind := IK_CHOICES; ic_placeholder := None;
    ic_choices := map (fun c => {| co_id := lc_choice_id c; co_label := lc_label c;
                                   co_image_url := None; co_disabled := None |}) (l2_choices plan);
    ic_target_slots := [target_key (l2_target plan)]; ic_submit_label := Some "알려주기";
    ic_config := CFG_plan (l2_plan_id plan) [] |};
  qc_copy_slot := Some slot |}.

(** [next(plan for plan in l3_plans if plan.targets[0] == target)] *)
Fixpoint l3_plan_exact (target : TargetRefV2) (plans : list QuestionPlanV2) : res QuestionPlanV2 :=
  match plans with
  | [] => Raise StopIteration
  | plan :: rest =>
      t ← plan_target plan;
      if decide (t = target) then Ok plan else l3_plan_exact target rest
  end.
(** [next(plan for plan in l3_plans if _target_key(plan.targets[0]) in keys)] *)
Fixpoint l3_plan_by_key (keys : list string) (plans : list QuestionPlanV2) : res QuestionPlanV2 :=
  match plans with
  | [] => Raise StopIteration
  | plan :: rest =>
      t ← plan_target plan;
      if memb (target_key t) keys then Ok plan else l3_plan_by_key keys rest
  end.

(** The L4 question: the initial one while several targets are open, else the
    L3 plan of the last one. *)
Definition free_text_question (initial : QuestionPlanV2) (l3_plans : list QuestionPlanV2)
    (targets : list TargetRefV2) : res (string * QuestionContract) :=
  if bool_decide (1 < length targets) then
    Ok (qp_plan_id initial, {|
      qc_targets := targets; qc_fallback := qp_reviewed_fallback initial;
      qc_input := text_input (map target_key targets) "답과 방법을 네 말로 알려줘";
      qc_copy_slot := None |})
  else
    match l3_plans with
    | [] => Raise StopIteration
    | _ :: _ =>
        target ← or_raise (head targets) IndexError;
        plan ← l3_plan_exact target l3_plans;
        Ok (qp_plan_id plan, {|
          qc_targets := targets; qc_fallback := qp_reviewed_fallback plan;
          qc_input := text_input (map target_key targets) "짧게 알려줘"; qc_copy_slot := None |})
    end.

Definition l3_question (plan : QuestionPlanV2) : res QuestionContract :=
  t ← plan_target plan;
  Ok {| qc_targets := qp_targets plan; qc_fallback := qp_reviewed_fallback plan;
        qc_input := text_input [target_key t] "짧게 알려줘"; qc_copy_slot := None |}.

Definition question_contract (state : SessionState) (pack : RequiredHomeTeachingPackV2)
    (ledger : ReasoningLedgerV2) : res (SessionState * QuestionContract) :=
  if decide (ss_status (outcome state) = COMPLETED) then
    Ok (state, {| qc_targets := []; qc_fallback := ""; qc_input := no_input; qc_copy_slot := None |})
  else
    let level := expression_level (ladder state) in
    targets ← targets_from_active_state level pack ledger;
    match level with
    | L0 =>
        intro ← slot_for_purpose pack l0_intro;
        action ← slot_for_purpose pack l0_action;
        let state1 := with_ladder state (with_hint (ladder state) H3) in
        Ok (with_subgoal state1 "l0.joint", joint_question pack targets intro action)
    | L2 =>
        plan ← l2_plan_for_targets pack targets;
        slot ← first_slot pack (fun s => bool_decide (cs_copy_slot s = l2_copy_slot plan));
        Ok (with_subgoal state (l2_plan_id plan), l2_question_contract plan slot)
    | L3 =>
        plan ← l3_plan_by_key (map target_key targets) (hp_l3_plans pack);
        question ← l3_question plan;
        Ok (with_subgoal state (qp_plan_id plan), question)
    | L4 | L1 =>
        out ← free_text_question (hp_initial_question pack) (hp_l3_plans pack) targets;
        Ok (with_subgoal state out.1, out.2)
    end.

Definition initial_help_question_contract (pack : RequiredHomeTeachingPackV2)
    (question : QuestionContract) : res QuestionContract :=
  slot ← slot_for_purpose pack initial_help;
  Ok {| qc_targets := cs_targets slot; qc_fallback := cs_reviewed_fallback slot;
        qc_input := {|
          ic_kind := ic_kind (qc_input question); ic_placeholder := ic_placeholder (qc_input question);
          ic_choices := ic_choices (qc_input question);
          ic_target_slots := map target_key (cs_targets slot);
          ic_submit_label := ic_submit_label (qc_input question);
          ic_config := ic_config (qc_input question) |};
        qc_copy_slot := Some slot |}.
End question.
