(* ===== verification/Respond.v ===== *)
(** Interpreting the structured responses of a home turn and updating the state
    from the result ([_no_response_semantics], [_choice_semantics],
    [_joint_semantics], [_resolve_state], [_store_ledger],
    [_sync_legacy_slots], [_track_note_provenance] and [_complete_state] of
    [src/mormi_api/dialogue_v2_runtime.py]). *)

From S2P Require Import Prelude.
From S2P Require Import PyStr.
From S2P Require Import PyNum.
From S2P Require Import Json.
From S2P Require Import Schemas.
From S2P Require Import Requests.
From S2P Require Import Evidence.
From S2P Require Import Packs.
From S2P Require Import PackDump.
From S2P Require Import Snapshot.
From S2P Require Import Ledger.
From S2P Require Import State.
From S2P Require Import Ladder.
From S2P Require Import Understand.
From S2P Require Import Question.

(** [_same_json_value] on the values a response can carry: no bool/number and no
    int/float coercion. *)
Definition same_json_value (actual expected : pyvalue) : bool :=
  match actual, expected with
  | PV_str a, PV_str b => bool_decide (a = b)
  | PV_bool a, PV_bool b => Bool.eqb a b
  | PV_num (PyInt a), PV_num (PyInt b) => (a =? b)%Z
  | PV_num (PyFloat m e), PV_num (PyFloat n f) => pynum_eqb (PyFloat m e) (PyFloat n f)
  | PV_list a, PV_list b => bool_decide (a = b)
  | _, _ => false
  end.

(** The same on dicts: equal key sets, then value by value. *)
Definition same_json_dict (actual expected : gmap string pyvalue) : bool :=
  bool_decide (dom actual = dom expected)
  && forallb (fun kv => match expected !! kv.1 with
                        | Some v => same_json_value kv.2 v | None => false end)
       (map_to_list actual).

(** [sorted(set(l))] *)
Definition sorted_set (l : list string) : list string :=
  map fst (sort_by_key (map (fun s => (s, tt)) (fromkeys l))).

Definition no_response_need (k : NoResponseKindV2) : SupportNeed :=
  match k with
  | EXPLICIT_HELP => GENERAL_HELP | SILENCE_TIMEOUT => SN_EXPRESSION | ASR_EMPTY => SN_NONE
  end.
Definition no_response_source (k : NoResponseKindV2) : UnderstandingSource :=
  match k with
  | EXPLICIT_HELP => US_explicit_no_response | SILENCE_TIMEOUT => US_silence_timeout
  | ASR_EMPTY => US_asr_empty
  end.

(** [value for id, value in fact items if correct] as the dict the ledger takes. *)
Definition joint_fact_values (l : list JointCompletionV2) : list (string * CanonicalValueV2) :=
  dict_by fst (flat_map (fun c => match c with
                                  | JointFactCompletionV2 i v => [(i, v)]
                                  | JointRelationCompletionV2 _ => [] end) l).
Definition joint_relation_ids (l : list JointCompletionV2) : list string :=
  flat_map (fun c => match c with
                     | JointFactCompletionV2 _ _ => []
                     | JointRelationCompletionV2 i => [i] end) l.

(** The note relations the H3 card reveals, performed by a joint action. *)
Definition joint_relations (p : TaskPackV2) : list string :=
  fromkeys (joint_relation_ids (pack_joint_completions p)
            ++ sorted_set (List.filter (fun i => memb i (pack_h3_relation_ids p))
                             (pack_note_relation_ids p))).

Section respond.
Context `{Digest} `{PackModel}.

Definition no_response_semantics (l : ladder_state) (s : ContentSnapshotV2)
    (lg : ReasoningLedgerV2) (response : ChildResponse) : res TurnSemantics :=
  let kind := match cr_no_response_kind response with Some k => k | None => EXPLICIT_HELP end in
  let explicit := bool_decide (kind = EXPLICIT_HELP) in
  semantic ← server_understanding (if explicit then HELP_REQUEST else LEARNING_RESPONSE)
               (no_response_need kind) false AS_NOT_APPLICABLE RS_NOT_APPLICABLE;
  completion ← reasoning_completion_v2 s lg;
  Ok {| ts_response := semantic;
        ts_apply_result := {| ar_ledger := lg; ar_log := empty_log; ar_completion := completion;
                              completion_became_true := false |};
        ts_guarded := None;
        ts_route := if explicit then RO_stable else RO_main;
        ts_understanding_source := no_response_source kind;
        ts_attempts := 0; ts_guard_status := GS_not_applicable; ts_structured_correct := None;
        ts_initial_help := explicit && bool_decide (expression_level l = L4)
                           && bool_decide (hint_level l = H0);
        ts_failure_reason := None; ts_visual_patch := None |}.

(** The statuses of a structured choice's verdict on a fact or a relation. *)
Definition choice_understanding (correct is_fact : bool) : res UnderstandingResponseV2 :=
  server_understanding LEARNING_RESPONSE SN_NONE correct
    (if correct && is_fact then AS_COMPLETE
     else if negb correct && is_fact then AS_INCORRECT else AS_NOT_APPLICABLE)
    (if correct && negb is_fact then RS_SUFFICIENT
     else if negb correct && negb is_fact then RS_INCORRECT else RS_NOT_APPLICABLE).

Definition choice_result (semantic : UnderstandingResponseV2)
    (result : ReasoningLedgerApplyResultV2) (correct : bool)
    (patch : option (list (string * json))) : TurnSemantics := {|
  ts_response := semantic; ts_apply_result := result; ts_guarded := None; ts_route := RO_main;
  ts_understanding_source := US_structured_choice; ts_attempts := 0;
  ts_guard_status := GS_not_applicable; ts_structured_correct := Some correct;
  ts_initial_help := false; ts_failure_reason := None; ts_visual_patch := patch |}.

(** The relations a correct home choice performs. *)
Definition choice_relations (pack : RequiredHomeTeachingPackV2) (effect : ChoiceEffectV2)
    : list string :=
  match ce_target_kind effect with
  | KIND_relation => fromkeys (ce_target_id effect :: po_note_relation_ids (hp_policies pack))
  | KIND_fact => []
  end.
Definition choice_facts (effect : ChoiceEffectV2) : list (string * CanonicalValueV2) :=
  match ce_target_kind effect, ce_interpreted_value effect with
  | KIND_fact, Some v => [(ce_target_id effect, v)]
  | _, _ => []
  end.

Definition choice_semantics (level : ExpressionLevel) (subgoal : string)
    (pack : RequiredHomeTeachingPackV2) (s : ContentSnapshotV2) (lg : ReasoningLedgerV2)
    (response : ChildResponse) : res TurnSemantics :=
  _ ← raise_if (bool_decide (level <> L2)) (ValueError "choice response is not valid outside L2");
  plan ← active_l2_plan level subgoal pack lg;
  chosen ← match cr_choice_ids response with
           | [c] => Ok c
           | _ => Raise (ValueError "V2 L2 response requires exactly one choice")
           end;
  choice ← or_raise (find_first (fun c => bool_decide (lc_choice_id c = chosen)) (l2_choices plan))
             (ValueError "choice_id does not belong to the pinned V2 plan");
  let effect := lc_effect choice in
  let correct := bool_decide (ce_verdict effect = choice_correct) in
  result ← (if correct then
              apply_structured_progress_v2 s lg (choice_facts effect) (choice_relations pack effect)
                (cr_turn_id response) SRC_choice
            else unchanged_result s lg);
  semantic ← choice_understanding correct (bool_decide (ce_target_kind effect = KIND_fact));
  Ok (choice_result semantic result correct None).

(** Both engines: the plan's completion values, in the shape the child saw. *)
Definition joint_semantics (l : ladder_state) (p : TaskPackV2) (s : ContentSnapshotV2)
    (lg : ReasoningLedgerV2) (response : ChildResponse) : res TurnSemantics :=
  _ ← raise_if (bool_decide (expression_level l <> L0) || bool_decide (hint_level l <> H3))
        (ValueError "joint response requires L0-H3");
  _ ← raise_if (negb (same_json_dict (cr_values response)
                        (joint_completion_values (pack_joint_completions p))))
        (ValueError "action values do not match pinned joint completion values");
  result ← apply_structured_progress_v2 s lg (joint_fact_values (pack_joint_completions p))
             (joint_relations p) (cr_turn_id response) SRC_joint;
  semantic ← server_understanding LEARNING_RESPONSE SN_NONE true AS_COMPLETE RS_SUFFICIENT;
  Ok {| ts_response := semantic; ts_apply_result := result; ts_guarded := None;
        ts_route := RO_stable; ts_understanding_source := US_structured_joint; ts_attempts := 0;
        ts_guard_status := GS_not_applicable; ts_structured_correct := Some true;
        ts_initial_help := false; ts_failure_reason := None; ts_visual_patch := None |}.

(** * The pinned state *)

(** The stable-copy plan set, rechecked here too, is the copy cache's. *)
Definition resolve_state (state : SessionState)
    : res (RequiredHomeTeachingPackV2 * PinnedContentSnapshotV2 * ReasoningLedgerV2) :=
  _ ← raise_if (bool_decide (runtime_contract_version state <> VERDICT_V1))
        (ValueError "legacy conversation cannot enter V2 engine");
  pinned ← or_raise (pinned_dialogue_v2 state)
             (ValueError "verdict-v1 conversation has no pinned V2 state");
  pack ← home_model_validate (pd_pack_snapshot pinned);
  snapshot ← pinned_content_snapshot {|
    pc_pack_id := pd_pack_id pinned; pc_content_version := pd_content_version pinned;
    pc_curriculum_session_id := hp_curriculum_session_id pack;
    pc_content_hash := pd_source_hash pinned; pc_pack_payload := pd_pack_snapshot pinned |};
  ledger ← reload_ledger (pd_reasoning_ledger pinned);
  _ ← reasoning_completion_v2 (HomeSnapshot snapshot) ledger;
  Ok (pack, snapshot, ledger).

Definition store_ledger (state : SessionState) (ledger : ReasoningLedgerV2) : res SessionState :=
  pinned ← or_raise (pinned_dialogue_v2 state) (ValueError "missing V2 runtime state");
  Ok (with_pinned state {|
    pd_pack_id := pd_pack_id pinned; pd_content_version := pd_content_version pinned;
    pd_source_hash := pd_source_hash pinned; pd_pack_snapshot := pd_pack_snapshot pinned;
    pd_reasoning_ledger := ledger |}).
End respond.

(** * Legacy slots *)

Definition final_answer_fact (pack : RequiredHomeTeachingPackV2) : res ContentFactV2 :=
  or_raise (find_first (fun f => bool_decide (cf_role f = final_answer))
              (rg_facts (hp_reasoning_graph pack))) StopIteration.

Definition verified_required_relations (p : TaskPackV2) (lg : ReasoningLedgerV2) : list string :=
  List.filter (fun i => bool_decide (is_Some (verified_relations lg !! i)))
    (required_relation_ids (pack_completion p)).

Definition sync_legacy_slots (pack : RequiredHomeTeachingPackV2) (lg : ReasoningLedgerV2)
    : res (gmap string pyvalue) :=
  let p := HomePack pack in
  final ← final_answer_fact pack;
  answer ← (if bool_decide (is_Some (verified_facts lg !! cf_fact_id final)) then
              fact ← or_raise (facts_by_id p (cf_fact_id final)) (KeyError (cf_fact_id final));
              Ok {["answer" := primitive (fact_value fact)]}
            else Ok ∅);
  match verified_required_relations p lg with
  | [] => Ok answer
  | i :: _ =>
      r ← or_raise (relations_by_id p i) (KeyError i);
      Ok (<["rule" := PV_str (relation_label r)]> answer)
  end.

(** * Note provenance *)

Definition mark_direct (n : note_state) (i : string) : note_state := {|
  child_note_evidence := <[i := "verified_relation"]> (child_note_evidence n);
  supported_note_slots := supported_note_slots n |}.
Definition mark_supported (n : note_state) (ids : list string) : note_state := {|
  child_note_evidence := child_note_evidence n;
  supported_note_slots := fromkeys (supported_note_slots n ++ ids) |}.

(** The loop body for one new relation. *)
Definition note_step (note_relations : list string) (direct_turn : bool) (n : note_state)
    (i : string) : note_state :=
  if negb (memb i note_relations) then n
  else if direct_turn && negb (memb i (supported_note_slots n)) then mark_direct n i
  else if negb (bool_decide (is_Some (child_note_evidence n !! i))) then mark_supported n [i]
  else n.

(** [after_hint] is the hint level of the state being updated. *)
Definition track_note_provenance (n : note_state) (p : TaskPackV2) (t : TurnSemantics)
    (before_hint after_hint : HintLevel) : note_state :=
  let note_relations := pack_note_relation_ids p in
  let direct_turn := bool_decide (ts_understanding_source t = US_sonnet_low)
                     && memb before_hint [H0; H1] in
  let n1 := fold_left (note_step note_relations direct_turn)
              (new_relation_ids (ar_log (ts_apply_result t))) n in
  if memb before_hint [H2; H3] || memb after_hint [H2; H3] then
    mark_supported n1 (sorted_set (List.filter
      (fun i => negb (bool_decide (is_Some (verified_relations (ar_ledger (ts_apply_result t)) !! i))))
      note_relations))
  else n1.

(** * Completion *)

Definition complete_state (state : SessionState) (p : TaskPackV2) (t : TurnSemantics)
    : res SessionState :=
  let o := outcome state in
  let joint := joint_performance_used o
               || bool_decide (ts_understanding_source t = US_structured_joint) in
  let independent := forallb
    (fun i => bool_decide (is_Some (child_note_evidence (notes state) !! i)))
    (pack_note_relation_ids p) in
  let result := if independent && negb joint then TAUGHT else SUPPORTED in
  task_id ← current_task_id state;
  Ok (with_outcome state {|
    ss_status := COMPLETED; completion_outcome := Some result;
    teach_reward_eligible := bool_decide (result = TAUGHT); all_tasks_direct := independent;
    joint_performance_used := joint; verified_slots := verified_slots o;
    completed_task_slots := <[task_id := verified_slots o]> (completed_task_slots o) |}).
