(* ===== verification/Gate.v ===== *)
(** The service's admission gate for a child response
    ([response_matches_input] and [validate_response_payload] of
    [src/mormi_api/service.py]): a response reaches the engine only if it has the
    form of the input on screen and, for structured inputs, names one of its
    server-authored options or its exact joint values. *)

From S2P Require Import Prelude.
From S2P Require Import PyStr.
From S2P Require Import PyNum.
From S2P Require Import Json.
From S2P Require Import Schemas.
From S2P Require Import Requests.
From S2P Require Import Evidence.
From S2P Require Import Packs.
From S2P Require Import PackDump.
From S2P Require Import Snapshot.
From S2P Require Import Ledger.
From S2P Require Import State.
From S2P Require Import Understand.
From S2P Require Import Question.
From S2P Require Import Respond.

Definition response_matches_input (k : InputKind) (r : ResponseType) : bool :=
  match r with
  | RT_NO_RESPONSE => negb (bool_decide (k = IK_NONE))
  | _ =>
      match k with
      | IK_TEXT => bool_decide (r = RT_TEXT)
      | IK_CHOICES => bool_decide (r = RT_CHOICE)
      | IK_FILL => bool_decide (r = RT_FILL)
      | IK_COUNT => bool_decide (r = RT_COUNT)
      | IK_EQUATION => bool_decide (r = RT_EQUATION)
      | IK_JOINT | IK_BUTTON => bool_decide (r = RT_ACTION)
      | IK_NONE => false
      end
  end.

(** [choice.disabled] is falsy. *)
Definition choice_enabled (c : ChoiceOption) : bool :=
  match co_disabled c with Some true => false | _ => true end.

Definition validate_response_payload (input : InputContract) (r : ChildResponse) (exact_joint : bool)
    : res unit :=
  if exact_joint && bool_decide (ic_kind input = IK_JOINT) && bool_decide (cr_type r = RT_ACTION) then
    match ic_config input with
    | CFG_joint _ _ _ expected =>
        raise_if (negb (same_json_dict (cr_values r) expected))
          (ValueError "V2 joint response values must exactly match the active completion_values")
    | _ => Raise (ValueError "V2 joint input has no valid completion_values")
    end
  else if memb (cr_type r) [RT_CHOICE; RT_FILL] then
    match cr_choice_ids r with
    | [c] =>
        raise_if (negb (memb c (map co_id (List.filter choice_enabled (ic_choices input)))))
          (ValueError "choice_id does not belong to the active turn")
    | _ => Raise (ValueError "structured teaching response requires exactly one choice_id")
    end
  else Ok tt.

(** The gate of a verdict-v1 turn on screen. *)
Definition gate (input : InputContract) (turn_id : string) (r : ChildResponse) : res unit :=
  _ ← raise_if (negb (bool_decide (turn_id = cr_turn_id r)))
        (ValueError "turn_id is stale; use the latest turn");
  _ ← raise_if (negb (response_matches_input (ic_kind input) (cr_type r)))
        (ValueError "response type does not match input kind");
  validate_response_payload input r true.
