(* ===== verification/SpeakerText.v ===== *)
(** What the speaker's firewall reads in a line: the numbers it states in digits and
    in Korean words, the answer surfaces it contains, private or unsafe wording, and
    requests (the text functions of [src/mormi_api/dialogue_v2_speaker.py]). *)

From S2P Require Import Prelude.
From S2P Require Import PyStr.
From S2P Require Import PyNum.
From S2P Require Import Json.
From S2P Require Import Schemas.
From S2P Require Import Regex.
From S2P Require Import ContentCopy.
Local Open Scope Z_scope.

(** The tables of [unicodedata] and [str] that the source uses: [normalize("NFKC", s)],
    [s.casefold()], [\w] and [c.isdigit()]. *)
Class TextTables := {
  nfkc : ustr -> ustr;
  casefold : ustr -> ustr;
  is_word : N -> bool;
  is_digit_char : N -> bool
}.

Fixpoint uassoc {A} (k : ustr) (l : list (ustr * A)) : option A :=
  match l with
  | [] => None
  | (k', v) :: l => if bool_decide (k = k') then Some v else uassoc k l
  end.

(** * Numbers *)

(** [_normalized_number_v2]: [Decimal.normalize] rounds to the context precision;
    equal renderings are equal numbers. *)
Definition normalized_number (d : decimal) : decimal := dec_round d.
Definition int_number (z : Z) : decimal := normalized_number (Dec z 0).

Definition SINO_DIGITS : list (N * Z) :=
  combine (utf8_decode "영공일이삼사오육칠팔구"%string) [0; 0; 1; 2; 3; 4; 5; 6; 7; 8; 9].
Definition SINO_SMALL_UNITS : list (N * Z) := combine (utf8_decode "십백천"%string) [10; 100; 1000].
Definition man_char : N := 47564.

Fixpoint cassoc (c : N) (l : list (N * Z)) : option Z :=
  match l with [] => None | (k, v) :: l => if (c =? k)%N then Some v else cassoc c l end.

(** The loop of [_parse_sino_number_v2]: total, section, digit. *)
Fixpoint parse_sino_from (total section : Z) (digit : option Z) (word : ustr) : option Z :=
  match word with
  | [] => Some (total + section + default 0 digit)
  | c :: word =>
      match cassoc c SINO_DIGITS, cassoc c SINO_SMALL_UNITS with
      | Some d, _ => parse_sino_from total section (Some d) word
      | None, Some unit => parse_sino_from total (section + default 1 digit * unit) None word
      | None, None =>
          if (c =? man_char)%N then
            let section := section + default 0 digit in
            parse_sino_from (total + (if section =? 0 then 1 else section) * 10000) 0 None word
          else None
      end
  end.

Definition parse_sino_number (word : ustr) : option Z := parse_sino_from 0 0 None word.

Definition is_sino (c : N) : bool :=
  bool_decide (is_Some (cassoc c SINO_DIGITS)) || bool_decide (is_Some (cassoc c SINO_SMALL_UNITS)) || (c =? man_char)%N.

(** [_NUMBER_UNIT], its alternatives in order. *)
Definition NUMBER_UNIT : list ustr :=
  map utf8_decode ["원"; "개"; "명"; "분"; "시간"; "시"; "cm"; "mm"; "m"; "g"; "kg"; "칸"; "묶음"; "장"; "잔"; "권"]%string.

(** [\s*] and a unit at the head of the text: what follows. *)
Definition scan_unit (t : ustr) : option ustr :=
  let t := skip_spaces t in
  option_map (fun w => drop (length w) t) (find_first (fun w => uprefix w t) NUMBER_UNIT).

(** One match of [_SINO_NUMBER_WITH_UNIT] at the head: group 1, and what follows. *)
Definition scan_sino (t : ustr) : option (ustr * ustr) :=
  let '(word, rest) := span is_sino t in
  if truthy word then option_map (fun rest => (word, rest)) (scan_unit rest) else None.

(** ** Native numerals *)

Definition NATIVE_ONE_FORMS : list (Z * list string) :=
  [(1, ["한"; "하나"]); (2, ["두"; "둘"]); (3, ["세"; "셋"]); (4, ["네"; "넷"]); (5, ["다섯"]); (6, ["여섯"]);
   (7, ["일곱"]); (8, ["여덟"]); (9, ["아홉"])]%string.
Definition NATIVE_TENS_FORMS : list (Z * (string * string)) :=
  [(10, ("열", "열")); (20, ("스물", "스무")); (30, ("서른", "서른")); (40, ("마흔", "마흔")); (50, ("쉰", "쉰"));
   (60, ("예순", "예순")); (70, ("일흔", "일흔")); (80, ("여든", "여든")); (90, ("아흔", "아흔"))]%string.

Definition native_ones : list (ustr * Z) :=
  flat_map (fun vf => map (fun form => (utf8_decode form, vf.1)) vf.2) NATIVE_ONE_FORMS.

(** [_NATIVE_NUMBER_WORDS], as its loops fill it. *)
Definition NATIVE_NUMBER_WORDS : list (ustr * Z) :=
  native_ones ++
  flat_map (fun tf => (utf8_decode tf.2.2, tf.1) ::
                      map (fun wv => (utf8_decode tf.2.1 ++ wv.1, tf.1 + wv.2)) native_ones) NATIVE_TENS_FORMS.

(** [sorted(words, key=len, reverse=True)], which is stable. *)
Definition native_by_length : list ustr :=
  flat_map (fun n => List.filter (fun w => (length w =? n)%nat) (map fst NATIVE_NUMBER_WORDS)) [4; 3; 2; 1]%nat.

Definition is_hangul (c : N) : bool := ((44032 <=? c) && (c <=? 55203))%N.

(** One match of [_NATIVE_NUMBER_WITH_UNIT] at the head, after the character [before]. *)
Definition scan_native (before : option N) (t : ustr) : option (ustr * ustr) :=
  if match before with Some c => is_hangul c | None => false end then None
  else
    head (omap (fun w => if uprefix w t then option_map (fun rest => (w, rest)) (scan_unit (drop (length w) t)) else None)
            native_by_length).

(** [finditer] of a pattern with one group: the groups.  Every round consumes text, so
    its length is enough fuel. *)
Fixpoint groups_from (scan : option N -> ustr -> option (ustr * ustr)) (fuel : nat) (before : option N) (t : ustr)
    : list ustr :=
  match fuel, t with
  | S f, c :: t' =>
      match scan before t with
      | Some (g, rest) => g :: groups_from scan f (last (take (length t - length rest) t)) rest
      | None => groups_from scan f (Some c) t'
      end
  | _, _ => []
  end.
Definition groups (scan : option N -> ustr -> option (ustr * ustr)) (t : ustr) : list ustr :=
  groups_from scan (length t) None t.

(** ** Numerals without a unit *)

Definition KOREAN_NUMBER_ENDINGS : list ustr :=
  map utf8_decode ["이었어"; "이었다"; "이라고"; "이잖아"; "입니다"; "이에요"; "예요"; "이구나"; "이네"; "이야"; "야";
                   "이다"; "이지"]%string.

Definition usuffix (s t : ustr) : bool := uprefix (rev s) (rev t).

Definition strip_korean_number_ending (word : ustr) : ustr :=
  match find_first (fun e => usuffix e word && (length e <? length word)%nat) KOREAN_NUMBER_ENDINGS with
  | Some e => take (length word - length e) word
  | None => word
  end.

(** [re.search(r"(?:정답|답)(?:은|은요|이|이야)?\s*$", before)] *)
Definition answer_lead_in (before : ustr) : bool :=
  let t := rev (skip_spaces (rev before)) in
  existsb (fun a => existsb (fun p => usuffix (utf8_decode a ++ utf8_decode p) t) [""; "은"; "은요"; "이"; "이야"]%string)
    ["정답"; "답"]%string.

Definition answer_shaped (changed : bool) (before after : ustr) : bool :=
  let after := ulstrip after in
  changed || answer_lead_in (urstrip before) || negb (truthy after)
  || match after with c :: _ => memb c (utf8_decode ".!?,"%string) | [] => false end.

Definition not_unitless : list ustr := map utf8_decode ["한"; "두"; "세"; "네"; "스무"]%string.

(** The loop body for one Korean word, between [before] and [after]. *)
Definition word_number (before original after : ustr) : list decimal :=
  let word := strip_korean_number_ending original in
  if truthy word && negb (bool_decide (word = [man_char]))
     && existsb (fun c => bool_decide (is_Some (cassoc c SINO_SMALL_UNITS)) || (c =? man_char)%N) word
     && forallb is_sino word
  then match parse_sino_number word with Some v => [int_number v] | None => [] end
  else
    match word with
    | [c] =>
        match cassoc c SINO_DIGITS with
        | Some d => if answer_shaped (negb (bool_decide (word = original))) before after then [int_number d] else []
        | None => match uassoc word NATIVE_NUMBER_WORDS with
                  | Some n => if memb word not_unitless then [] else [int_number n]
                  | None => []
                  end
        end
    | _ => match uassoc word NATIVE_NUMBER_WORDS with
           | Some n => if memb word not_unitless then [] else [int_number n]
           | None => []
           end
    end.

(** [_unitless_korean_numbers_v2]; [before] is the text already passed, reversed. *)
Fixpoint unitless_from (fuel : nat) (before t : ustr) : list decimal :=
  match fuel, t with
  | S f, c :: t' =>
      if is_hangul c then
        let '(word, rest) := span is_hangul t in
        word_number (rev before) word rest ++ unitless_from f (rev word ++ before) rest
      else unitless_from f (c :: before) t'
  | _, _ => []
  end.
Definition unitless_korean_numbers (t : ustr) : list decimal := unitless_from (length t) [] t.

(** [_numeric_literals_v2] *)
Definition numeric_literals_of (t : ustr) : list decimal :=
  map normalized_number (scan_numbers (length t) t)
  ++ flat_map (fun w => match parse_sino_number w with Some v => [int_number v] | None => [] end)
       (groups (fun _ => scan_sino) t)
  ++ flat_map (fun w => match uassoc w NATIVE_NUMBER_WORDS with Some v => [int_number v] | None => [] end)
       (groups scan_native t)
  ++ unitless_korean_numbers t.
Definition numeric_literals (text : string) : list decimal := numeric_literals_of (utf8_decode text).

(** [_canonical_numbers_v2] *)
Definition canonical_numbers (values : list CanonicalValueV2) : list decimal :=
  map normalized_number (numeric_values values).

(** * Surfaces *)

(** [s.split()] *)
Fixpoint words_from (word t : ustr) : list ustr :=
  match t with
  | [] => match word with [] => [] | _ => [rev word] end
  | c :: t => if is_space c then match word with [] => words_from [] t | _ => rev word :: words_from [] t end
              else words_from (c :: word) t
  end.

Fixpoint ujoin (sep : ustr) (l : list ustr) : ustr :=
  match l with [] => [] | [x] => x | x :: l => x ++ sep ++ ujoin sep l end.

Definition is_ascii_alnum (c : N) : bool :=
  ((48 <=? c) && (c <=? 57) || (65 <=? c) && (c <=? 90) || (97 <=? c) && (c <=? 122))%N.
Definition is_ascii_lower_alnum (c : N) : bool := ((48 <=? c) && (c <=? 57) || (97 <=? c) && (c <=? 122))%N.

(** [re.search] of a literal between a lookbehind and a lookahead of one character. *)
Fixpoint occurs_between (not_before not_after : N -> bool) (needle : ustr) (before : option N) (t : ustr) : bool :=
  (uprefix needle t
   && negb (match before with Some c => not_before c | None => false end)
   && negb (match drop (length needle) t with c :: _ => not_after c | [] => false end))
  || match t with [] => false | c :: t => occurs_between not_before not_after needle (Some c) t end.

(** [re.search] of a pattern between such assertions: a shortest-first search for a match
    at every position. *)
Fixpoint matches_prefix (after : ustr -> bool) (r : regex) (t : ustr) : bool :=
  (nullable r && after t) || match t with [] => false | c :: t => matches_prefix after (deriv c r) t end.
Fixpoint search_between (not_before : N -> bool) (after : ustr -> bool) (r : regex) (before : option N) (t : ustr)
    : bool :=
  (negb (match before with Some c => not_before c | None => false end) && matches_prefix after r t)
  || match t with [] => false | c :: t => search_between not_before after r (Some c) t end.

Definition anywhere (t : ustr) : bool := true.
(** [$] *)
Definition at_end (t : ustr) : bool := match t with [] => true | [c] => (c =? 10)%N | _ => false end.
Definition not_followed_by (p : N -> bool) (t : ustr) : bool :=
  match t with c :: _ => negb (p c) | [] => true end.
Definition search (r : regex) (t : ustr) : bool := search_between (fun _ => false) anywhere r None t.

Fixpoint rtimes (n : nat) (r : regex) : regex := match n with O => REps | S n => RCat r (rtimes n r) end.
(** [r{n,n+k}] *)
Fixpoint rupto (k : nat) (r : regex) : regex := match k with O => REps | S k => ropt (RCat r (rupto k r)) end.
Definition rbetween (n m : nat) (r : regex) : regex := RCat (rtimes n r) (rupto (m - n) r).

Section tables.
Context `{TextTables}.

(** [_normalized_surface_v2] *)
Definition normalized_surface (t : ustr) : ustr := ujoin (utf8_decode " "%string) (words_from [] (casefold (nfkc t))).

(** [_contains_surface_v2] *)
Definition contains_surface (t surface : ustr) : bool :=
  let t := normalized_surface t in
  let s := normalized_surface surface in
  match s, last s with
  | [], _ | _, None => false
  | first :: _, Some final =>
      if forallb (fun c => (c <? 128)%N) s && forallb is_ascii_alnum s then
        occurs_between is_ascii_lower_alnum is_ascii_lower_alnum s None t
      else if existsb is_digit_char s then
        occurs_between (fun c => is_digit_char first && is_digit c) (fun c => is_digit_char final && is_digit c) s None t
      else ucontains s t
  end.

(** The aliases of a choice. *)
Definition choice_aliases (choice_id : string) : list ustr :=
  match find_first (fun kv => bool_decide (casefold (utf8_decode choice_id) = utf8_decode kv.1))
      [("right", ["오른쪽"; "오른 쪽"; "우측"; "오른편"; "오른 편"]); ("left", ["왼쪽"; "왼 쪽"; "좌측"; "왼편"; "왼 편"]);
       ("same", ["같아"; "똑같아"; "동일해"]); ("equal", ["같아"; "똑같아"; "동일해"])]%string with
  | Some (_, names) => map utf8_decode names
  | None => []
  end.

(** [_canonical_text_surfaces_v2] *)
Definition canonical_text_surfaces (values : list CanonicalValueV2) : list ustr :=
  flat_map (fun v => match v with
                     | TextValueV2 text => [utf8_decode text]
                     | ChoiceValueV2 c => utf8_decode c :: choice_aliases c
                     | _ => []
                     end) values.

(** [unresolved_answer_surface_violation_v2] *)
Definition unresolved_answer_surface_violation (t : ustr) (forbidden_values : list CanonicalValueV2)
    (forbidden_surfaces : list string) : option string :=
  if existsb (fun d => dec_in d (canonical_numbers forbidden_values)) (numeric_literals_of t) then
    Some "unresolved_number_surface"%string
  else if existsb (contains_surface t) (map utf8_decode forbidden_surfaces ++ canonical_text_surfaces forbidden_values)
  then Some "unresolved_answer_surface"%string
  else None.

(** * Privacy and safety *)

Definition rclass (p : N -> bool) : regex := RChr p.
Definition one_of (s : string) (c : N) : bool := memb c (utf8_decode s).
Definition is_word_or (s : string) (c : N) : bool := is_word c || one_of s c.
Definition rhangul (n m : nat) : regex := rbetween n m (RChr is_hangul).
Definition rdigits (n m : nat) : regex := rbetween n m rdigit.
Definition rsep : regex := ropt (RAlt (rset "-.") (RChr is_space)).

(** [_EMAIL] *)
Definition EMAIL (t : ustr) : bool :=
  search_between (is_word_or ".+-") anywhere
    (rseq [rplus (RChr (is_word_or ".+-")); rlit "@"; rplus (RChr (is_word_or "-"));
           rplus (RCat (rlit ".") (rplus (RChr (is_word_or "-"))))]) None t.
(** [_PHONE] *)
Definition PHONE (t : ustr) : bool :=
  search_between is_digit (not_followed_by is_digit)
    (rseq [ropt (rseq [ropt (rlit "+"); rlit "82"; rsep]);
           RAlt (RCat (ropt (rlit "0")) (rlit "10")) (RCat (rlit "0") (rdigits 1 2));
           rsep; rdigits 3 4; rsep; rdigits 4 4]) None t.
(** [_SENSITIVE_NUMBER] *)
Definition SENSITIVE_NUMBER (t : ustr) : bool :=
  search_between is_digit (not_followed_by is_digit)
    (rseq [rdigits 6 6; rsep; RChr (one_of "1234"); rdigits 6 6]) None t
  || search (RAlt (rseq [rlit "주민"; ropt (rlit "등록"); rlit "번호"]) (ralts ["계좌번호"; "카드번호"; "생년월일"])) t.
(** [_SELF_INTRODUCED_NAME] *)
Definition is_name_char (c : N) : bool :=
  ((65 <=? c) && (c <=? 90) || (97 <=? c) && (c <=? 122))%N || is_hangul c.
Definition SELF_INTRODUCED_NAME (t : ustr) : bool :=
  search (RAlt
    (rseq [ralts ["내"; "제"]; rspaces; rlit "이름"; ropt (ralts ["은"; "이"; "은요"; "이요"]); rspaces;
           ropt (RCat (rset ":은는이가") rspaces); rbetween 2 30 (RChr is_name_char)])
    (rseq [ralts ["나는"; "난"; "저는"; "전"]; rplus (RChr is_space); rbetween 2 12 (RChr is_name_char);
           RAlt (ralts ["이야"; "야"; "예요"; "이에요"; "입니다"]) (rseq [rlit "라고"; rspaces; rlit "해"])])) t.
(** [_ADDRESS_OR_SCHOOL] *)
Definition ADDRESS_OR_SCHOOL (t : ustr) : bool :=
  search (foldr RAlt RNone
    [ralts ["주소"; "거주지"]; rseq [rlit "사는"; rspaces; rlit "곳"]; rlit "우편번호";
     rseq [ralts ["내"; "우리"; "저희"]; rspaces; rlit "집"; ropt (ralts ["은"; "이"; "주소"])];
     rseq [rhangul 2 20; ralts ["로"; "길"]; rspaces; rdigits 1 5; ropt (RCat (rlit "-") (rdigits 1 5));
           ropt (ralts ["번지"; "호"])];
     ralts ["초등학교"; "중학교"; "고등학교"];
     rseq [rdigit; rlit "학년"; rspaces; rdigit; rlit "반"]]) t.
(** [_SYSTEM_MANIPULATION] *)
Definition SYSTEM_MANIPULATION_COPY (t : ustr) : bool :=
  search (foldr RAlt RNone
    [rseq [rlit "시스템"; rspaces; ralts ["프롬프트"; "지시"; "메시지"; "규칙"]];
     rseq [rlit "프롬프트"; rspaces; ropt (ralts ["해킹"; "인젝션"])];
     rseq [ralts ["지시"; "명령"; "규칙"]; ropt (rlit "를"); rspaces; rlit "무시"];
     rseq [rlit "역할"; ropt (rlit "을"); rspaces; rlit "바꾸"];
     rseq [rlit "개발자"; rspaces; rlit "메시지"];
     rseq [rlit "숨겨진"; rspaces; ralts ["지시"; "정답"]];
     rlit "jailbreak"; rseq [rlit "prompt"; rspaces; rlit "injection"]]) t.
(** [_UNSAFE_BRIDGE_CONTENT] *)
Definition UNSAFE_BRIDGE_CONTENT (t : ustr) : bool :=
  search (foldr RAlt RNone
    [ralts ["자살"; "자해"]; rseq [rlit "죽고"; rspaces; rlit "싶"]; ralts ["죽여"; "폭탄"; "성폭력"];
     rseq [rlit "아동"; rspaces; rlit "학대"]]) t.

(** [bridge_excerpt_violation_v2] *)
Definition bridge_excerpt_violation (t : ustr) : option string :=
  let t := nfkc t in
  if EMAIL t then Some "email"%string
  else if PHONE t then Some "phone"%string
  else if SENSITIVE_NUMBER t then Some "sensitive_number"%string
  else if SELF_INTRODUCED_NAME t then Some "self_introduced_name"%string
  else if ADDRESS_OR_SCHOOL t then Some "address_or_school"%string
  else if SYSTEM_MANIPULATION_COPY t then Some "system_manipulation"%string
  else if UNSAFE_BRIDGE_CONTENT t then Some "unsafe_content"%string
  else None.

(** * The line of a model *)

(** [_REACTION_REQUEST_ENDING] *)
Definition not_newline (c : N) : bool := negb (c =? 10)%N.
Definition REACTION_REQUEST_ENDING (t : ustr) : bool :=
  search_between (fun _ => false) at_end
    (rseq [foldr RAlt RNone [ralts ["알려"; "말해"; "골라"; "보여"; "도와"]; rseq [rlit "같이"; rspaces; rlit "해"];
                             rseq [rlit "해"; rspaces; rlit "줄"]; rseq [rlit "해"; rspaces; rlit "줘"]];
           rbetween 0 40 (RChr not_newline);
           foldr RAlt RNone [rlit "줄래"; rseq [rlit "줄"; rspaces; rlit "수"; rspaces; rlit "있어"];
                             rseq [rlit "주면"; rspaces; rlit "안"; rspaces; rlit "될까"]; ralts ["줘"; "할까"];
                             rseq [rlit "해"; rspaces; rlit "볼까"]];
           rspaces; RStar (rset ".!~…")]) None t.

Definition is_request (t : ustr) : bool :=
  let t := ustrip (nfkc t) in
  existsb (one_of "?？") t || REACTION_REQUEST_ENDING t.

Definition line_count (t : ustr) : nat := length (splitlines_from [] t).

(** [_dynamic_output_violation_v2] *)
Definition dynamic_output_violation (t : ustr) (allowed_numbers : list decimal)
    (forbidden_values : list CanonicalValueV2) (forbidden_surfaces : list string) : option string :=
  if negb (truthy (ustrip t)) then Some "empty_text"%string
  else if (2 <? line_count t)%nat then Some "too_many_lines"%string
  else match unresolved_answer_surface_violation t forbidden_values forbidden_surfaces with
       | Some v => Some v
       | None =>
           if negb (dec_subset (numeric_literals_of t) allowed_numbers) then Some "number_not_allowed"%string
           else if is_request t then Some "question_not_allowed"%string
           else None
       end.

(** [_numbers_from_reviewed_surfaces_v2] *)
Definition numbers_from_reviewed_surfaces (surfaces : list string) : list decimal :=
  flat_map numeric_literals (List.filter (fun s => negb (bool_decide (s = ""%string))) surfaces).
End tables.
