(* ===== verification/SpeakerNumerals.v ===== *)
(** Amounts written out in Sino-Korean words: how they are spelled in one word, that
    the firewall reads each of them back where no numeral character stands before it,
    and that an answer still open cannot be said in such a line. *)

From S2P Require Import Prelude.
From S2P Require Import PyStr.
From S2P Require Import PyNum.
From S2P Require Import Json.
From S2P Require Import Schemas.
From S2P Require Import ContentCopy.
From S2P Require Import SpeakerText.

Local Open Scope Z_scope.

(** * Spelling *)

Definition digit_char (d : Z) : ustr := take 1 (drop (Z.to_nat d) (utf8_decode "영일이삼사오육칠팔구"%string)).
(** A digit before a unit: [천] alone is one thousand. *)
Definition spell_unit (d : Z) (u : ustr) : ustr := if d =? 0 then [] else if d =? 1 then u else digit_char d ++ u.
Definition spell_ones (d : Z) : ustr := if d =? 0 then [] else digit_char d.
(** Up to 9999. *)
Definition spell_group (n : Z) : ustr :=
  spell_unit (n / 1000) (utf8_decode "천"%string) ++ spell_unit (n / 100 mod 10) (utf8_decode "백"%string)
  ++ spell_unit (n / 10 mod 10) (utf8_decode "십"%string) ++ spell_ones (n mod 10).
(** Up to 99,999,999; [만] alone is ten thousand. *)
Definition spell_sino (n : Z) : ustr :=
  (if n / 10000 =? 0 then [] else if n / 10000 =? 1 then [man_char] else spell_group (n / 10000) ++ [man_char])
  ++ spell_group (n mod 10000).

(** * Reading *)

Lemma digit_read (d : Z) : 0 <= d < 10 -> exists c, digit_char d = [c] /\ cassoc c SINO_DIGITS = Some d.
Proof.
  intros Hd. assert (d = 0 \/ d = 1 \/ d = 2 \/ d = 3 \/ d = 4 \/ d = 5 \/ d = 6 \/ d = 7 \/ d = 8 \/ d = 9) as Hc by lia.
  repeat (destruct Hc as [->|Hc]; [eexists; vm_compute; split; reflexivity|]). rewrite Hc. eexists. vm_compute. split; reflexivity.
Qed.

Definition small_units : list (ustr * Z) :=
  [(utf8_decode "천"%string, 1000); (utf8_decode "백"%string, 100); (utf8_decode "십"%string, 10)].
Lemma unit_read u k : (u, k) ∈ small_units ->
  exists c, u = [c] /\ cassoc c SINO_DIGITS = None /\ cassoc c SINO_SMALL_UNITS = Some k.
Proof.
  unfold small_units. intros Hu. repeat (apply elem_of_cons in Hu as [[= -> ->]|Hu]; [eexists; vm_compute; repeat split; reflexivity|]).
  by apply not_elem_of_nil in Hu.
Qed.

Lemma parse_digit total section d w : 0 <= d < 10 ->
  parse_sino_from total section None (digit_char d ++ w) = parse_sino_from total section (Some d) w.
Proof. intros (c & -> & Hc)%digit_read. cbn [app parse_sino_from]. by rewrite Hc. Qed.

Lemma parse_unit total section d u k w : 0 <= d < 10 -> (u, k) ∈ small_units ->
  parse_sino_from total section None (spell_unit d u ++ w) = parse_sino_from total (section + d * k) None w.
Proof.
  intros Hd (c & -> & Hn & Hk)%unit_read. unfold spell_unit.
  destruct (Z.eqb_spec d 0) as [->|H0]; [cbn [app]; f_equal; lia|].
  destruct (Z.eqb_spec d 1) as [->|H1]; [cbn [app parse_sino_from]; rewrite Hn, Hk; reflexivity|].
  rewrite <- app_assoc, parse_digit by done. cbn [app parse_sino_from]. by rewrite Hn, Hk.
Qed.

Lemma group_digits n : 0 <= n < 10000 ->
  n = n / 1000 * 1000 + n / 100 mod 10 * 100 + n / 10 mod 10 * 10 + n mod 10
  /\ 0 <= n / 1000 < 10 /\ 0 <= n / 100 mod 10 < 10 /\ 0 <= n / 10 mod 10 < 10 /\ 0 <= n mod 10 < 10.
Proof. intros Hn. Z.to_euclidean_division_equations. lia. Qed.

(** Reading the four places, up to the last digit. *)
Lemma parse_group total n w : 0 <= n < 10000 ->
  parse_sino_from total 0 None (spell_group n ++ w)
  = parse_sino_from total (n - n mod 10) None (spell_ones (n mod 10) ++ w).
Proof.
  intros Hn. destruct (group_digits n Hn) as (Heq & H1 & H2 & H3 & H4). unfold spell_group. rewrite <- !app_assoc.
  rewrite !(parse_unit _ _ _ (utf8_decode "천"%string) 1000), (parse_unit _ _ _ (utf8_decode "백"%string) 100),
    (parse_unit _ _ _ (utf8_decode "십"%string) 10) by (done || (unfold small_units; set_solver)). f_equal. lia.
Qed.

Lemma man_read : cassoc man_char SINO_DIGITS = None /\ cassoc man_char SINO_SMALL_UNITS = None.
Proof. vm_compute. split; reflexivity. Qed.

Lemma parse_man total section x w : section + default 0 x <> 0 ->
  parse_sino_from total section x (man_char :: w) = parse_sino_from (total + (section + default 0 x) * 10000) 0 None w.
Proof.
  intros Hne. cbn [parse_sino_from]. destruct man_read as [-> ->]. by rewrite N.eqb_refl, (proj2 (Z.eqb_neq _ 0)).
Qed.

Lemma parse_group_man total n w : 1 <= n < 10000 ->
  parse_sino_from total 0 None (spell_group n ++ man_char :: w) = parse_sino_from (total + n * 10000) 0 None w.
Proof.
  intros Hn. rewrite parse_group by lia. destruct (group_digits n ltac:(lia)) as (_ & _ & _ & _ & Hd).
  unfold spell_ones. destruct (Z.eqb_spec (n mod 10) 0) as [He|He].
  - rewrite He. cbn [app]. rewrite parse_man by (cbn [default]; lia). f_equal. cbn [default]. lia.
  - rewrite parse_digit by done. assert (n mod 10 <= n) by (apply Z.mod_le; lia).
    rewrite parse_man; change (default 0 (Some (n mod 10))) with (n mod 10); [f_equal; lia|lia].
Qed.

Lemma parse_group_end total n : 0 <= n < 10000 -> parse_sino_from total 0 None (spell_group n) = Some (total + n).
Proof.
  intros Hn. rewrite <- (app_nil_r (spell_group n)), parse_group by lia. destruct (group_digits n Hn) as (_ & _ & _ & _ & Hd).
  unfold spell_ones. destruct (Z.eqb_spec (n mod 10) 0) as [He|He].
  - rewrite He. cbn [app parse_sino_from default]. f_equal. lia.
  - rewrite parse_digit by done. cbn [parse_sino_from]. change (default 0 (Some (n mod 10))) with (n mod 10). f_equal. lia.
Qed.

(** Reading undoes spelling. *)
Lemma parse_spelled n : 1 <= n < 100000000 -> parse_sino_number (spell_sino n) = Some n.
Proof.
  intros Hn. unfold parse_sino_number, spell_sino.
  assert (Hhi : 0 <= n / 10000 < 10000) by (Z.to_euclidean_division_equations; lia).
  assert (Hlo : 0 <= n mod 10000 < 10000) by (apply Z.mod_pos_bound; lia). pose proof (Z.div_mod n 10000 ltac:(lia)) as Hdm.
  set (hi := n / 10000) in *. set (lo := n mod 10000) in *. clearbody hi lo.
  destruct (Z.eqb_spec hi 0) as [->|H0]; [cbn [app]; rewrite parse_group_end by done; f_equal; lia|].
  destruct (Z.eqb_spec hi 1) as [->|H1].
  - change ([man_char] ++ spell_group lo) with (man_char :: spell_group lo).
    change (parse_sino_from 0 0 None (man_char :: spell_group lo)) with (parse_sino_from 10000 0 None (spell_group lo)).
    rewrite parse_group_end by done. f_equal. lia.
  - rewrite <- app_assoc. cbn [app]. rewrite parse_group_man by lia. rewrite parse_group_end by done. f_equal. lia.
Qed.

(** * Detection *)

(** A character a spelled amount can contain is read as part of it. *)
Lemma spelled_sino n : 1 <= n < 100000000 -> forallb is_sino (spell_sino n) = true /\ spell_sino n <> [].
Proof.
  intros Hn. split.
  - assert (Hd : forall d, 0 <= d < 10 -> forallb is_sino (digit_char d) = true).
    { intros d (c & -> & Hc)%digit_read. simpl. unfold is_sino. rewrite Hc. done. }
    assert (Hu : forall d u, 0 <= d < 10 -> forallb is_sino u = true -> forallb is_sino (spell_unit d u) = true).
    { intros d u Hr Hu. unfold spell_unit. destruct (d =? 0), (d =? 1); try done. by rewrite forallb_app, Hd, Hu. }
    assert (Hg : forall m, 0 <= m < 10000 -> forallb is_sino (spell_group m) = true).
    { intros m Hm. destruct (group_digits m Hm) as (_ & H1 & H2 & H3 & H4). unfold spell_group.
      rewrite !forallb_app, !Hu by (done || (vm_compute; reflexivity)). cbn [andb].
      unfold spell_ones. destruct (_ =? 0); [done|]. by apply Hd. }
    unfold spell_sino. rewrite forallb_app, Hg by (apply Z.mod_pos_bound; lia). rewrite andb_true_r.
    destruct (_ =? 0); [done|]. destruct (_ =? 1); [vm_compute; reflexivity|]. rewrite forallb_app, Hg; [vm_compute; reflexivity|].
    Z.to_euclidean_division_equations. lia.
  - intros He. pose proof (parse_spelled n Hn) as Hp. rewrite He in Hp. cbn in Hp. injection Hp as Hp. lia.
Qed.

Lemma span_all p (w rest : ustr) : forallb p w = true -> match rest with c :: _ => p c = false | [] => True end ->
  span p (w ++ rest) = (w, rest).
Proof.
  intros Hw Hr. induction w as [|c w IH]; simpl in *.
  - destruct rest as [|c rest]; simpl; [done|]. by rewrite Hr.
  - apply andb_true_iff in Hw as [-> Hw]. by rewrite IH.
Qed.

Definition won : ustr := utf8_decode "원"%string.

Lemma scan_won suffix : scan_unit (won ++ suffix) = Some suffix.
Proof. vm_compute. reflexivity. Qed.

Lemma span_spelled n suffix : 1 <= n < 100000000 -> span is_sino (spell_sino n ++ won ++ suffix) = (spell_sino n, won ++ suffix).
Proof.
  intros Hn. apply span_all; [apply (proj1 (spelled_sino n Hn))|]. unfold won. vm_compute. reflexivity.
Qed.

Lemma scan_spelled n suffix : 1 <= n < 100000000 -> scan_sino (spell_sino n ++ won ++ suffix) = Some (spell_sino n, suffix).
Proof.
  intros Hn. unfold scan_sino. rewrite span_spelled by done. rewrite scan_won.
  assert (Ht : truthy (spell_sino n) = true).
  { pose proof (proj2 (spelled_sino n Hn)) as Hne. generalize dependent (spell_sino n). by intros [|c w]. }
  by rewrite Ht.
Qed.

Lemma groups_step scan f before c t : groups_from scan (S f) before (c :: t)
  = match scan before (c :: t) with
    | Some (g, rest) => g :: groups_from scan f (last (take (length (c :: t) - length rest) (c :: t))) rest
    | None => groups_from scan f (Some c) t end.
Proof. reflexivity. Qed.

Lemma scan_none c t : is_sino c = false -> scan_sino (c :: t) = None.
Proof.
  intros Hc. unfold scan_sino. assert (Hs : span is_sino (c :: t) = ([], c :: t)); [|rewrite Hs; reflexivity].
  cbn [span]. rewrite Hc. reflexivity.
Qed.

(** Text at which no match starts is passed over. *)
Lemma groups_skip scan (ok : N -> bool) fuel before prefix rest :
  (forall b c t, ok c = true -> scan b (c :: t) = None) -> forallb ok prefix = true ->
  exists before', groups_from scan (length prefix + fuel) before (prefix ++ rest) = groups_from scan fuel before' rest.
Proof.
  intros Hscan. revert before. induction prefix as [|c prefix IH]; intros before Hp; [by exists before|].
  cbn [forallb] in Hp. apply andb_true_iff in Hp as [Hc Hp]. destruct (IH (Some c) Hp) as [b' Hb]. exists b'.
  rewrite <- Hb. change (length (c :: prefix) + fuel)%nat with (S (length prefix + fuel)). change ((c :: prefix) ++ rest) with (c :: prefix ++ rest).
  by rewrite groups_step, Hscan.
Qed.

Lemma groups_first scan fuel before t g rest : t <> [] -> scan before t = Some (g, rest) -> (length t <= fuel)%nat ->
  g ∈ groups_from scan fuel before t.
Proof.
  intros Hne Hs Hf. destruct t as [|c t]; [done|]. destruct fuel as [|fuel]; [simpl in Hf; lia|].
  rewrite groups_step, Hs. by left.
Qed.

Lemma spelled_literal prefix n suffix : forallb (fun c => negb (is_sino c)) prefix = true -> 1 <= n < 100000000 ->
  int_number n ∈ numeric_literals_of (prefix ++ spell_sino n ++ won ++ suffix).
Proof.
  intros Hp Hn. unfold numeric_literals_of. apply elem_of_app. right. apply elem_of_app. left.
  apply list_elem_of_In, in_flat_map. exists (spell_sino n). split; [|rewrite parse_spelled by done; by left].
  unfold groups. destruct (spelled_sino n Hn) as [_ Hne].
  rewrite length_app. destruct (groups_skip (fun _ => scan_sino) (fun c => negb (is_sino c)) (length (spell_sino n ++ won ++ suffix)) None prefix
    (spell_sino n ++ won ++ suffix)) as [b ->]; [|exact Hp|].
  { intros _ c t Hc%negb_true_iff. by apply scan_none. }
  apply list_elem_of_In. eapply groups_first; [|by apply scan_spelled|done]. intros He%app_eq_nil. by destruct He.
Qed.

Lemma dec_eqb_refl d : dec_eqb d d = true.
Proof. unfold dec_eqb, dec_compare, aligned. by rewrite Z.compare_refl. Qed.

Section leak.
Context `{TextTables}.

(** (C30) An amount spelled in one word does not get through.  Take an amount of at least
    1 and below a hundred million won among the values still asked for, and a line in
    which its Sino-Korean spelling, written without spaces, stands directly before [원],
    with no character of the numeral alphabet anywhere before it, whatever follows: the
    firewall of both speakers refuses the line, since it reads the numeral back as
    exactly that amount.  (A spelling with spaces, or a numeral character earlier in the
    line, is outside the statement; the first can pass: [spaced_spelling_passes] of
    SessionWitnesses.) *)
Theorem spelled_answer_is_refused prefix n suffix currency numbers values surfaces :
  forallb (fun c => negb (is_sino c)) prefix = true -> 1 <= n < 100000000 ->
  MoneyValueV2 (PyInt n) currency ∈ values ->
  is_Some (dynamic_output_violation (prefix ++ spell_sino n ++ won ++ suffix) numbers values surfaces)
  /\ unresolved_answer_surface_violation (prefix ++ spell_sino n ++ won ++ suffix) values surfaces
     = Some "unresolved_number_surface"%string.
Proof.
  intros Hp Hn Hv. assert (Hu : unresolved_answer_surface_violation (prefix ++ spell_sino n ++ won ++ suffix) values surfaces
    = Some "unresolved_number_surface"%string).
  { unfold unresolved_answer_surface_violation.
    assert (He : existsb (fun d => dec_in d (canonical_numbers values)) (numeric_literals_of (prefix ++ spell_sino n ++ won ++ suffix)) = true); [|by rewrite He].
    apply existsb_exists. exists (int_number n). split; [by apply list_elem_of_In, spelled_literal|].
    unfold dec_in. apply existsb_exists. exists (int_number n). split; [|apply dec_eqb_refl].
    unfold canonical_numbers, numeric_values. apply in_map_iff. exists (Dec n 0). split; [done|]. apply in_flat_map.
    exists (MoneyValueV2 (PyInt n) currency). split; [by apply list_elem_of_In|]. left. reflexivity. }
  split; [|exact Hu]. unfold dynamic_output_violation. rewrite Hu. repeat case_match; eauto.
Qed.
End leak.
