(* ===== verification/SpeakerPlan.v ===== *)
(** What crosses the boundary to the speaker models: the plans of the main and the
    bridge speaker with their validators, the conversational move compiled before
    them, and the output checks ([src/mormi_api/dialogue_v2_speaker.py]). *)

From Stdlib Require Import Ascii.
From S2P Require Import Prelude.
From S2P Require Import PyStr.
From S2P Require Import PyNum.
From S2P Require Import Json.
From S2P Require Import Schemas.
From S2P Require Import Requests.
From S2P Require Import Regex.
From S2P Require Import Packs.
From S2P Require Import ContentCopy.
From S2P Require Import ContentChecks.
From S2P Require Import SpeakerText.

Inductive AskModeV2 := AM_answer | AM_reason_or_method | AM_answer_and_method | AM_none.
Inductive BridgeInteractionKindV2 := BI_playful | BI_meta | BI_off_topic | BI_refusal | BI_insult.
Inductive ConversationResponseModeV2 :=
  | RM_normal | RM_explain_mormi_limit | RM_explain_ai_role | RM_decline_answer_and_ask | RM_respond_refusal
  | RM_respond_safe_play | RM_redirect_to_help_card | RM_safety_redirect.
Inductive ConversationReaskModeV2 := RK_remaining_targets | RK_help_guided_targets | RK_joint_action.
Inductive HelpCardEventV2 := HC_none | HC_opened_or_strengthened.
Inductive SpeakerKnowledgeSourceV2 := KS_screen | KS_child_verified | KS_jointly_derived.
Inductive SpeakerResponseKindV2 :=
  | RKD_new_progress | RKD_task_question | RKD_incorrect_answer | RKD_incorrect_method
  | RKD_incorrect_answer_and_method | RKD_help_request | RKD_expression_block | RKD_related_vague
  | RKD_no_response | RKD_structured_response.

#[export] Instance AskModeV2_eq_dec : EqDecision AskModeV2. Proof. solve_decision. Defined.
#[export] Instance ConversationResponseModeV2_eq_dec : EqDecision ConversationResponseModeV2.
Proof. solve_decision. Defined.
#[export] Instance ConversationReaskModeV2_eq_dec : EqDecision ConversationReaskModeV2.
Proof. solve_decision. Defined.
#[export] Instance HelpCardEventV2_eq_dec : EqDecision HelpCardEventV2. Proof. solve_decision. Defined.
#[export] Instance SpeakerKnowledgeSourceV2_eq_dec : EqDecision SpeakerKnowledgeSourceV2.
Proof. solve_decision. Defined.
#[export] Instance SpeakerResponseKindV2_eq_dec : EqDecision SpeakerResponseKindV2.
Proof. solve_decision. Defined.

(** [_REFERENCE_PATTERN] with a [max_length] *)
Definition is_alnum_char (c : ascii) : bool :=
  let n := N_of_ascii c in
  ((48 <=? n) && (n <=? 57) || (65 <=? n) && (n <=? 90) || (97 <=? n) && (n <=? 122))%N.
Definition is_reference_char (c : ascii) : bool :=
  is_alnum_char c || memb c ["_"%char; "."%char; ":"%char; "-"%char].
Definition reference_id (max_length : nat) (s : string) : bool :=
  match s with
  | EmptyString => false
  | String c s' => is_alnum_char c && string_forallb is_reference_char s' && bool_decide (String.length s <= max_length)
  end.

(** * The parts of a plan *)

Record SpeakerEvidenceV2 := { se_evidence_id : string; se_verdict : VerdictV2 }.
Definition speaker_evidence (e : SpeakerEvidenceV2) : res SpeakerEvidenceV2 :=
  _ ← check (reference_id 100 (se_evidence_id e)) "speaker evidence fields"; Ok e.

Record SpeakerAllowedFactV2 := {
  af_fact_id : string;
  af_value : CanonicalValueV2;
  af_speaker_text : string;
  af_source : SpeakerKnowledgeSourceV2
}.
(** [copy_cannot_smuggle_an_unrelated_number] *)
Definition speaker_allowed_fact (f : SpeakerAllowedFactV2) : res SpeakerAllowedFactV2 :=
  _ ← check (content_id 120 (af_fact_id f) && text_field 1 160 (af_speaker_text f)) "speaker allowed fact fields";
  _ ← check (dec_subset (numeric_literals (af_speaker_text f)) (canonical_numbers [af_value f]))
        "speaker fact text contains an undeclared number";
  Ok f.
Definition with_fact_id (f : SpeakerAllowedFactV2) (i : string) : SpeakerAllowedFactV2 := {|
  af_fact_id := i; af_value := af_value f; af_speaker_text := af_speaker_text f; af_source := af_source f |}.

Record SpeakerAcceptedRelationV2 := {
  sr_relation_id : string;
  sr_speaker_label : string;
  sr_source : SpeakerKnowledgeSourceV2
}.
Definition speaker_accepted_relation (r : SpeakerAcceptedRelationV2) : res SpeakerAcceptedRelationV2 :=
  _ ← check (content_id 120 (sr_relation_id r) && text_field 1 160 (sr_speaker_label r))
        "speaker accepted relation fields";
  Ok r.

Record SpeakerTargetV2 := {
  st_fact_ids : list string;
  st_relation_ids : list string;
  st_ask_mode : AskModeV2;
  st_success_criteria_ids : list string
}.
(** [target_shape_matches_ask_mode] *)
Definition speaker_target (t : SpeakerTargetV2) : res SpeakerTargetV2 :=
  _ ← check (list_field 0 8 (st_fact_ids t) && list_field 0 8 (st_relation_ids t)
             && list_field 0 12 (st_success_criteria_ids t)) "speaker target fields";
  _ ← check (uniqueb (st_fact_ids t)) "speaker target fact ids must be unique";
  _ ← check (uniqueb (st_relation_ids t)) "speaker target relation ids must be unique";
  _ ← check (uniqueb (st_success_criteria_ids t)) "speaker success criteria ids must be unique";
  let has_target := truthy (st_fact_ids t) || truthy (st_relation_ids t) in
  let asks m := bool_decide (st_ask_mode t = m) in
  _ ← check (negb (asks AM_none && has_target)) "ask_mode=none cannot declare a target";
  _ ← check (negb (negb (asks AM_none) && negb has_target)) "an asking speaker plan needs a target";
  _ ← check (negb (asks AM_answer && truthy (st_relation_ids t))) "answer ask mode cannot target a relation";
  _ ← check (negb (asks AM_reason_or_method && truthy (st_fact_ids t)))
        "reason_or_method ask mode cannot target a fact";
  _ ← check (negb (asks AM_answer_and_method && negb (truthy (st_fact_ids t) && truthy (st_relation_ids t))))
        "answer_and_method needs both fact and relation targets";
  Ok t.

Record SpeakerSupportV2 := {
  su_expression_level : ExpressionLevel;
  su_hint_level : HintLevel;
  su_support_need : SupportNeed;
  su_question_style_guide : string;
  su_help_card_visible : bool
}.

Record SpeakerTargetFocusV2 := { tf_kind : TargetKind; tf_id : string; tf_speaker_label : string }.
Definition focus_key (f : SpeakerTargetFocusV2) : TargetKind * string := (tf_kind f, tf_id f).
Definition speaker_target_focus_entry (f : SpeakerTargetFocusV2) : res SpeakerTargetFocusV2 :=
  _ ← check (content_id 120 (tf_id f) && text_field 1 160 (tf_speaker_label f)) "speaker target focus fields"; Ok f.

(** * The conversational move *)

Record ConversationResponsePlanV2 := {
  crp_response_mode : ConversationResponseModeV2;
  crp_reask_mode : ConversationReaskModeV2;
  crp_reask_targets : list SpeakerTargetFocusV2;
  crp_card_visible : bool;
  crp_card_event : HelpCardEventV2;
  crp_hint_level : HintLevel
}.

Definition help_guided_response_modes : list ConversationResponseModeV2 :=
  [RM_redirect_to_help_card; RM_decline_answer_and_ask].

(** [validate_public_support_context] *)
Definition conversation_response_plan (p : ConversationResponsePlanV2) : res ConversationResponsePlanV2 :=
  let no_hint := bool_decide (crp_hint_level p = H0) in
  let helps := memb (crp_response_mode p) help_guided_response_modes in
  _ ← check (list_field 1 16 (crp_reask_targets p)) "conversation response plan fields";
  _ ← check (uniqueb (map focus_key (crp_reask_targets p))) "conversation reask targets must be unique";
  _ ← check (negb (crp_card_visible p && no_hint)) "a visible help card requires a non-H0 hint level";
  _ ← check (negb (negb (crp_card_visible p) && negb no_hint)) "a hidden help card cannot declare an active hint level";
  _ ← check (negb (negb (crp_card_visible p) && negb (bool_decide (crp_card_event p = HC_none))))
        "a hidden help card cannot declare a card event";
  _ ← (if bool_decide (crp_reask_mode p = RK_help_guided_targets) then
         _ ← check (crp_card_visible p) "help-guided reasking requires a visible help card";
         check helps "help-guided reasking requires a help-aware response mode"
       else check (negb (helps && negb (bool_decide (crp_reask_mode p = RK_joint_action))))
              "help-aware response mode requires help-guided targets or joint action");
  _ ← check (negb (bool_decide (crp_reask_mode p = RK_joint_action)
                   && (negb (crp_card_visible p) || negb (bool_decide (crp_hint_level p = H3)))))
        "joint action requires a visible H3 help card";
  Ok p.

(** * The main speaker *)

Record SpeakerUiReferenceSignalV2 := { us_interaction : UiReferenceInteractionV2; us_card_event : HelpCardEventV2 }.

Record SpeakerResponseSignalV2 := {
  rs_kind : SpeakerResponseKindV2;
  rs_question_focus : option QuestionFocusV2;
  rs_attempted_fact_ids : list string;
  rs_attempted_relation_ids : list string;
  rs_incorrect_fact_ids : list string;
  rs_incorrect_relation_ids : list string;
  rs_new_fact_ids : list string;
  rs_new_relation_ids : list string;
  rs_repeat_count : nat;
  rs_ui_reference : option SpeakerUiReferenceSignalV2
}.

Definition signal_groups (s : SpeakerResponseSignalV2) : list (list string) :=
  [rs_attempted_fact_ids s; rs_attempted_relation_ids s; rs_incorrect_fact_ids s; rs_incorrect_relation_ids s;
   rs_new_fact_ids s; rs_new_relation_ids s].

(** [ids_are_unique_and_incorrect_ids_were_attempted] *)
Definition speaker_response_signal_ok (s : SpeakerResponseSignalV2) : res SpeakerResponseSignalV2 :=
  let asks := bool_decide (rs_kind s = RKD_task_question) in
  _ ← check (forallb (list_field 0 8) (signal_groups s) && bool_decide (rs_repeat_count s <= 100))
        "speaker response signal fields";
  _ ← check (forallb uniqueb (signal_groups s)) "speaker response signal ids must be unique";
  _ ← check (subsetb (rs_incorrect_fact_ids s) (rs_attempted_fact_ids s)) "incorrect fact ids must have been attempted";
  _ ← check (subsetb (rs_incorrect_relation_ids s) (rs_attempted_relation_ids s))
        "incorrect relation ids must have been attempted";
  _ ← check (negb (asks && bool_decide (rs_question_focus s = None)))
        "task_question speaker signal requires question_focus";
  _ ← check (negb (negb asks && negb (bool_decide (rs_question_focus s = None))))
        "question_focus is only valid for task_question";
  Ok s.

Record SpeakerPlanV2 := {
  pl_act : string;
  pl_response_signal : SpeakerResponseSignalV2;
  pl_accepted_evidence : list SpeakerEvidenceV2;
  pl_accepted_relations : list SpeakerAcceptedRelationV2;
  pl_target : SpeakerTargetV2;
  pl_target_focus : list SpeakerTargetFocusV2;
  pl_response_plan : option ConversationResponsePlanV2;
  pl_support : SpeakerSupportV2;
  pl_allowed_facts : list SpeakerAllowedFactV2;
  pl_current_question : option string;
  pl_previous_mormi_text : option string;
  pl_fallback_copy_ref : string
}.

Definition target_keys (t : SpeakerTargetV2) : list (TargetKind * string) :=
  map (pair KIND_fact) (st_fact_ids t) ++ map (pair KIND_relation) (st_relation_ids t).

Definition disjointb {A} `{EqDecision A} (l k : list A) : bool := forallb (fun x => negb (memb x k)) l.

(** [validate_closed_world_plan] *)
Definition speaker_plan (p : SpeakerPlanV2) : res SpeakerPlanV2 :=
  _ ← check (content_id 100 (pl_act p) && list_field 0 20 (pl_accepted_evidence p)
             && list_field 0 20 (pl_accepted_relations p) && list_field 0 16 (pl_target_focus p)
             && list_field 0 30 (pl_allowed_facts p) && opt_text_field 0 240 (pl_current_question p)
             && opt_text_field 0 500 (pl_previous_mormi_text p) && reference_id 160 (pl_fallback_copy_ref p))
        "speaker plan fields";
  _ ← check (uniqueb (map se_evidence_id (pl_accepted_evidence p))) "speaker evidence ids must be unique";
  _ ← check (uniqueb (map af_fact_id (pl_allowed_facts p))) "speaker allowed fact ids must be unique";
  _ ← check (uniqueb (map sr_relation_id (pl_accepted_relations p))) "speaker accepted relations must be unique";
  _ ← check (disjointb (st_fact_ids (pl_target p)) (map af_fact_id (pl_allowed_facts p)))
        "an unresolved target fact cannot be an allowed fact";
  let focus := map focus_key (pl_target_focus p) in
  let keys := target_keys (pl_target p) in
  _ ← check (uniqueb focus) "speaker target focus entries must be unique";
  _ ← check (set_eqb focus keys) "speaker target focus must describe every unresolved target";
  _ ← match rs_ui_reference (pl_response_signal p) with
      | None => Ok tt
      | Some ui =>
          _ ← check (su_help_card_visible (pl_support p)) "a help-card UI reference requires a visible card";
          check (negb (bool_decide (us_card_event ui = HC_opened_or_strengthened)
                       && bool_decide (su_hint_level (pl_support p) = H0)))
            "a help-card event requires an active hint level"
      end;
  _ ← match pl_response_plan p with
      | None => Ok tt
      | Some r =>
          _ ← check (set_eqb (map focus_key (crp_reask_targets r)) keys)
                "conversation response plan must reask every unresolved target";
          check (Bool.eqb (crp_card_visible r) (su_help_card_visible (pl_support p))
                 && bool_decide (crp_hint_level r = su_hint_level (pl_support p)))
            "conversation response plan must match public support context"
      end;
  Ok p.

(** * The bridge speaker *)

Record BridgePlanV2 := {
  bp_interaction_kind : BridgeInteractionKindV2;
  bp_reaction_mode : ConversationResponseModeV2;
  bp_current_question : option string;
  bp_target : SpeakerTargetV2;
  bp_target_focus : list SpeakerTargetFocusV2;
  bp_response_plan : option ConversationResponsePlanV2;
  bp_allowed_facts : list SpeakerAllowedFactV2;
  bp_repeat_count : nat;
  bp_previous_mormi_text : option string;
  bp_fallback_copy_ref : string
}.

(** [validate_allowed_facts] *)
Definition bridge_plan (p : BridgePlanV2) : res BridgePlanV2 :=
  _ ← check (opt_text_field 0 240 (bp_current_question p) && list_field 0 16 (bp_target_focus p)
             && list_field 0 20 (bp_allowed_facts p) && bool_decide (bp_repeat_count p <= 100)
             && opt_text_field 0 500 (bp_previous_mormi_text p) && reference_id 160 (bp_fallback_copy_ref p))
        "bridge plan fields";
  let fact_ids := map af_fact_id (bp_allowed_facts p) in
  _ ← check (uniqueb fact_ids) "bridge allowed fact ids must be unique";
  _ ← check (forallb (fun f => bool_decide (af_source f = KS_screen)) (bp_allowed_facts p))
        "bridge facts must come only from the immutable screen";
  _ ← check (disjointb (st_fact_ids (bp_target p)) fact_ids) "an unresolved bridge target cannot be an allowed fact";
  _ ← check (set_eqb (map focus_key (bp_target_focus p)) (target_keys (bp_target p)))
        "bridge target focus must describe every unresolved target";
  _ ← match bp_response_plan p with
      | None => Ok tt
      | Some r => check (set_eqb (map focus_key (crp_reask_targets r)) (target_keys (bp_target p)))
                    "bridge response plan must reask every unresolved target"
      end;
  Ok p.

(** * Output *)

Inductive Mood := curious | listening | thinking | relieved | celebrating.

(** [SpeakerOutputV2]; its text as code points. *)
Record SpeakerOutputV2 := { so_text : ustr; so_mood : Mood }.

Definition opt_list {A} (o : option A) : list A := match o with Some a => [a] | None => [] end.

Section output.
Context `{TextTables}.

Definition speaker_allowed_numbers (p : SpeakerPlanV2) : list decimal :=
  canonical_numbers (map af_value (pl_allowed_facts p))
  ++ numbers_from_reviewed_surfaces
       (opt_list (pl_current_question p) ++ opt_list (pl_previous_mormi_text p)
        ++ map tf_speaker_label (pl_target_focus p) ++ map sr_speaker_label (pl_accepted_relations p)).

(** [speaker_output_violation_v2] *)
Definition speaker_output_violation (o : SpeakerOutputV2) (p : SpeakerPlanV2)
    (forbidden_values : list CanonicalValueV2) (forbidden_surfaces : list string) : option string :=
  match bridge_excerpt_violation (so_text o) with
  | Some v => Some ("private_or_unsafe_output:" ++ v)%string
  | None => dynamic_output_violation (so_text o) (speaker_allowed_numbers p) forbidden_values forbidden_surfaces
  end.

Definition bridge_allowed_numbers (p : BridgePlanV2) : list decimal :=
  canonical_numbers (map af_value (bp_allowed_facts p))
  ++ numbers_from_reviewed_surfaces
       (opt_list (bp_current_question p) ++ opt_list (bp_previous_mormi_text p)
        ++ map tf_speaker_label (bp_target_focus p)).

(** [bridge_output_violation_v2] *)
Definition bridge_output_violation (o : SpeakerOutputV2) (p : BridgePlanV2)
    (forbidden_values : list CanonicalValueV2) (forbidden_surfaces : list string) : option string :=
  match bridge_excerpt_violation (so_text o) with
  | Some v => Some ("private_or_unsafe_output:" ++ v)%string
  | None => dynamic_output_violation (so_text o) (bridge_allowed_numbers p) forbidden_values forbidden_surfaces
  end.

(** [validate_bridge_output_v2] *)
Definition validate_bridge_output (o : SpeakerOutputV2) (p : BridgePlanV2) (forbidden_values : list CanonicalValueV2)
    (forbidden_surfaces : list string) : option ustr :=
  match bridge_output_violation o p forbidden_values forbidden_surfaces with
  | None => Some (ustrip (so_text o)) | Some _ => None end.
End output.
