(* ===== verification/Reply.v ===== *)
(** What the child is told: the deterministic speech of a turn, its audit
    analysis, the help card, the star note and the completion record
    ([_conversational_fallback], [_dialogue_act], [_compatibility_analysis],
    [_note_update], [_help_card], [_completion_facts] of
    [src/mormi_api/dialogue_v2_runtime.py]).

    The model-driven speaker is in [Speak]. *)

From S2P Require Import Prelude.
From S2P Require Import PyStr.
From S2P Require Import PyNum.
From S2P Require Import Json.
From S2P Require Import Schemas.
From S2P Require Import Requests.
From S2P Require Import Evidence.
From S2P Require Import Packs.
From S2P Require Import PackDump.
From S2P Require Import Snapshot.
From S2P Require Import Ledger.
From S2P Require Import State.
From S2P Require Import Ladder.
From S2P Require Import Understand.
From S2P Require Import Question.
From S2P Require Import Respond.
From S2P Require Import SpeakerPlan.

(** * Reask text *)

(** [_with_and_particle] *)
Definition with_and_particle (label : string) : string :=
  match rev (utf8_decode (py_rstrip label)) with
  | [] => label
  | last :: _ =>
      let stripped := py_rstrip label in
      if ((44032 <=? last) && (last <=? 55203))%N then
        (stripped ++ (if ((last - 44032) mod 28 =? 0)%N then "랑" else "이랑"))%string
      else (stripped ++ "하고")%string
  end.

Definition join_reask_labels (labels : list string) : string :=
  match labels with
  | [] => "지금 궁금한 것"
  | [a] => a
  | [a; b] => (with_and_particle a ++ " " ++ b)%string
  | _ => (py_join ", " (removelast labels) ++ ", 그리고 " ++ List.last labels "")%string
  end.

(** The neutral label of an unresolved relation. *)
Definition relation_ask_label (o : RelationOperation) : string :=
  match o with
  | R_counting => "세는 방법" | R_comparison => "비교하는 방법" | R_selection => "고르는 방법"
  | _ => "계산 방법"
  end.

(** [_speaker_target_focus], its labels. *)
Definition target_focus_label (p : TaskPackV2) (t : TargetRefV2) : res string :=
  match target_kind t with
  | KIND_fact =>
      f ← or_raise (facts_by_id p (target_id t)) (KeyError (target_id t));
      Ok (fact_speaker_label f)
  | KIND_relation =>
      r ← or_raise (relations_by_id p (target_id t)) (KeyError (target_id t));
      Ok (relation_ask_label (relation_operation r))
  end.

Definition ui_opening (i : UiReferenceInteractionV2) : string :=
  match i with
  | ASKS_WHY => "그러게, 왜 그런지는 나도 아직 모르겠어..."
  | ASKS_WHAT_NEXT => "나도 그다음에 뭘 해야 하는지는 아직 모르겠어..."
  | EXPRESSES_CONFUSION => "그러게, 도움 카드를 봐도 나도 아직 어렵네..."
  | CHALLENGES => "그러게, 왜 그렇게 적혀 있는지는 나도 아직 궁금해..."
  | UI_OTHER | UI_UNCERTAIN => "나도 아직 잘 모르겠어..."
  end.

Definition reask_for (focus : string) (kind : InputKind) (help_card_visible : bool) : string :=
  if decide (kind = IK_JOINT) then
    ("도움 카드에 나온 순서대로 " ++ focus ++ ", 나와 같이 해 줄 수 있어?")%string
  else if help_card_visible then
    ("도움 카드를 보고 다시 " ++ focus ++ " 알려주면 안 될까?")%string
  else (focus ++ " 알려주면 안 될까?")%string.

Definition conversational_fallback (p : TaskPackV2) (t : TurnSemantics) (q : QuestionContract)
    (help_card_visible help_card_strengthened : bool) (repeat_count : nat) : res string :=
  labels ← mapR (target_focus_label p) (qc_targets q);
  let focus := join_reask_labels (fromkeys labels) in
  let kind := ic_kind (qc_input q) in
  let plain := (focus ++ " 알려주면 안 될까?")%string in
  let reask := reask_for focus kind help_card_visible in
  let r := ts_response t in
  Ok (match ui_reference r with
  | Some u =>
      let opening := ui_opening (ui_interaction u) in
      (opening ++ (if help_card_strengthened then " 어? 다른 도움 카드가 나왔어." else "")
       ++ " " ++ reask)%string
  | None =>
      match conversation_move r with
      | META_QUESTION =>
          if decide (move_subject r = MORMI_AI_IDENTITY)
          then ("나는 AI지만, 네가 가르쳐 주지 않은 건 잘 몰라... " ++ reask)%string
          else ("나는 네가 가르쳐 주지 않은 건 잘 몰라... " ++ reask)%string
      | REFUSAL =>
          ("나 꼭 알고 싶은데... " ++ (if decide (kind = IK_JOINT) then reask else plain))%string
      | SAFE_PLAY => ("나는 장난 말고 지금은 " ++ focus ++ "이 궁금해. " ++ reask)%string
      | REQUEST_MORMI_ANSWER => ("나는 어떻게 하는 건지 몰라... " ++ reask)%string
      | TASK_QUESTION =>
          if help_card_strengthened
          then ("나도 아직 잘 모르겠어... 어? 도움 카드가 나왔어. " ++ reask)%string
          else ("나도 아직 잘 모르겠어... " ++ reask)%string
      | CM_NONE =>
          if decide (ts_route t = RO_bridge)
          then ("오, 그런 이야기도 있구나. 그런데 나는 아직 궁금해... " ++ reask)%string
          else if has_incorrect t || memb (support_need r) [SN_CONCEPT; SN_BOTH] then
            ((if (repeat_count <=? 1)%nat then "어, 그런가? 나 아직 잘 모르겠어..."
              else "음, 내가 아직 헷갈리는 부분이 있나 봐...") ++ " " ++ reask)%string
          else ("음, 내가 아직 잘 못 알아들었어... " ++ reask)%string
      end
  end).

Definition unsafe_fallback (question : string) : string :=
  ("그 말은 따라 하지 않을게. " ++ question)%string.

(** * Dialogue act and audit analysis *)

Definition dialogue_act (t : TurnSemantics) : string :=
  if decide (ts_route t = RO_bridge) then "bridge_back"
  else if decide (ts_route t = RO_safety) then "safe_redirect"
  else if ts_initial_help t then "offer_initial_help"
  else if decide (ts_understanding_source t = US_structured_joint) then "complete_joint_work"
  else if memb (conversation_move (ts_response t)) [TASK_QUESTION; REQUEST_MORMI_ANSWER]
    then "redirect_to_reviewed_support"
  else if has_new_canonical_progress (ts_apply_result t) then "acknowledge_progress_then_ask"
  else if has_incorrect t then "reask_with_support"
  else if negb (bool_decide (support_need (ts_response t) = SN_NONE)) then "offer_support"
  else "clarify_then_reask".

Record UtteranceAnalysis := {
  ua_safety_category : SafetyCategory;
  ua_response_category : ResponseCategory;
  ua_difficulty_class : DifficultyClass;
  ua_task_relation : TaskRelation;
  ua_conversation_only : bool;
  ua_confidence : pynum
}.

(** The category and difficulty of a task turn. *)
Definition task_turn_category (t : TurnSemantics) : ResponseCategory * DifficultyClass :=
  let r := ts_response t in
  if decide (ts_understanding_source t = US_asr_empty) then (RECOGNITION_OR_INPUT_ERROR, DC_INPUT)
  else if decide (conversation_move r = TASK_QUESTION) then (RELATED_VAGUE, DC_UNKNOWN)
  else if decide (ts_understanding_source t = US_silence_timeout) then (RC_NO_RESPONSE, DC_EXPRESSION)
  else if decide (support_need r = GENERAL_HELP) then (RC_HELP_REQUEST, DC_EXPRESSION)
  else if decide (support_need r = SN_EXPRESSION) then (EXPRESSION_BLOCK, DC_EXPRESSION)
  else if decide (support_need r = SN_CONCEPT) then (CONCEPTUAL_BLOCK, DC_CONCEPT)
  else if decide (support_need r = SN_BOTH) then (CONCEPTUAL_BLOCK, DC_BOTH)
  else if complete (ar_completion (ts_apply_result t)) then (CORRECT_FULL, DC_UNKNOWN)
  else if has_new_canonical_progress (ts_apply_result t) then (CORRECT_PARTIAL, DC_UNKNOWN)
  else if has_incorrect t then (CONCEPTUAL_ERROR, DC_CONCEPT)
  else (RELATED_VAGUE, DC_EXPRESSION).

Definition compatibility_analysis (t : TurnSemantics) : UtteranceAnalysis :=
  let r := ts_response t in
  if decide (ts_understanding_source t = US_deterministic_fallback) then {|
    ua_safety_category := SC_NORMAL; ua_response_category := RECOGNITION_OR_INPUT_ERROR;
    ua_difficulty_class := DC_INPUT; ua_task_relation := CURRENT_TASK;
    ua_conversation_only := false; ua_confidence := PyInt 0 |}
  else if decide (ts_route t = RO_safety) then {|
    ua_safety_category := if decide (utterance_class r = SYSTEM_MANIPULATION)
                          then PROMPT_INJECTION else DANGEROUS;
    ua_response_category := UNRELATED_RESPONSE; ua_difficulty_class := DC_ENGAGEMENT;
    ua_task_relation := TR_OFF_TOPIC; ua_conversation_only := false; ua_confidence := PyInt 1 |}
  else if decide (ts_route t = RO_bridge) then {|
    ua_safety_category := SC_NORMAL; ua_response_category := UNRELATED_RESPONSE;
    ua_difficulty_class := DC_ENGAGEMENT; ua_task_relation := TR_OFF_TOPIC;
    ua_conversation_only := true; ua_confidence := PyInt 1 |}
  else {|
    ua_safety_category := SC_NORMAL; ua_response_category := (task_turn_category t).1;
    ua_difficulty_class := (task_turn_category t).2; ua_task_relation := CURRENT_TASK;
    ua_conversation_only := false;
    ua_confidence := match confidence r with
                     | CONF_LOW => PyFloat 35 (-2) | CONF_MEDIUM => PyFloat 7 (-1)
                     | CONF_HIGH => PyFloat 1 0 end |}.

(** * Turn contract *)



(** The [MormiContract] constructor and its [two_lines_maximum]. *)
Record MormiContract := { mc_text : string; mc_mood : Mood }.

Definition mormi_contract (text : string) (mood : Mood) : res MormiContract :=
  _ ← raise_if (bool_decide (py_len text < 1)) (ValidationError "mormi text");
  _ ← raise_if (bool_decide (2 < length (splitlines text)))
        (ValidationError "Mormi text must fit in at most two lines");
  Ok {| mc_text := text; mc_mood := mood |}.

Record HelpCardContract := {
  hcc_level : HintLevel;
  hcc_body : string;
  hcc_visual_type : option string;
  hcc_visual_data : list (string * json)
}.

(** [note_id] is a fresh identifier. *)
Record NoteUpdate := {
  nu_note_id : string;
  nu_skill_id : string;
  nu_text : string;
  nu_attribution : NoteAttribution;
  nu_evidence : NoteEvidence
}.

Record CompletionContract := {
  cc_outcome : CompletionOutcome;
  cc_teach_reward_eligible : bool;
  cc_stage_completion_eligible : bool;
  cc_verified_facts : gmap string pyvalue
}.

Record TaskAnchorContract := {
  ta_anchor_id : string;
  ta_prompt : string;
  ta_target_slots : list string
}.

(** The scene, pedagogy debug view and dictionary reference are pass-through. *)
Record TurnContract := {
  tc_turn_id : string;
  tc_task_id : string;
  tc_stage_id : string;
  tc_task_index : nat;
  tc_mormi : MormiContract;
  tc_input : InputContract;
  tc_visual : VisualContract;
  tc_help_card : option HelpCardContract;
  tc_note_update : option NoteUpdate;
  tc_status : SessionStatus;
  tc_state_version : Z;
  tc_completion : option CompletionContract;
  tc_task_anchor : option TaskAnchorContract
}.

Definition source_problem_view (pack : RequiredHomeTeachingPackV2) : list (string * json) :=
  let sp := hp_source_problem pack in
  [("prompt", JStr (sp_prompt sp)); ("answers", j_strs (sp_answers sp));
   ("visual", JObj (sp_visual sp))].

Definition base_visual (pack : RequiredHomeTeachingPackV2) : VisualContract := {|
  vc_type := "home_teaching";
  vc_data := [("curriculum_session_id", JStr (hp_curriculum_session_id pack));
              ("subject", JStr "math"); ("unit", JStr (hp_title pack));
              ("title", JStr (hp_title pack)); ("problem", JObj (source_problem_view pack))] |}.

Definition help_card (pack : RequiredHomeTeachingPackV2) (level : HintLevel)
    : option HelpCardContract :=
  match level with
  | H0 => None
  | H1 => Some {| hcc_level := H1; hcc_body := hc_body (hp_H1 (hp_help_plan pack));
                  hcc_visual_type := None; hcc_visual_data := [] |}
  | H2 => Some {| hcc_level := H2; hcc_body := hc_body (hp_H2 (hp_help_plan pack));
                  hcc_visual_type := Some "home_practice_problem";
                  hcc_visual_data := source_problem_view pack |}
  | H3 => Some {| hcc_level := H3; hcc_body := hc_body (hp_H3 (hp_help_plan pack));
                  hcc_visual_type := Some "joint_reading_card";
                  hcc_visual_data := [("text", JStr (hc_body (hp_H3 (hp_help_plan pack))))] |}
  end.

(** The [TaskAnchorContract] constructor. *)
Definition task_anchor_contract (a : TaskAnchorContract) : res TaskAnchorContract :=
  _ ← raise_if (bool_decide (py_len (ta_prompt a) < 1) || negb (truthy (ta_target_slots a)))
        (ValidationError "task anchor fields");
  Ok a.

(** [_task_anchor] *)
Definition task_anchor (pack : RequiredHomeTeachingPackV2) (input : InputContract)
    : res TaskAnchorContract :=
  task_anchor_contract {|
    ta_anchor_id := ("v2." ++ hp_pack_id pack)%string;
    ta_prompt := sp_prompt (hp_source_problem pack);
    ta_target_slots := ic_target_slots input |}.

(** All note relations are verified in the ledger. *)
Definition notes_verified (p : TaskPackV2) (lg : ReasoningLedgerV2) : bool :=
  forallb (fun i => bool_decide (is_Some (verified_relations lg !! i))) (pack_note_relation_ids p).

Definition note_update (state : SessionState) (pack : RequiredHomeTeachingPackV2)
    (lg : ReasoningLedgerV2) (note_id : string) : option NoteUpdate :=
  if negb (bool_decide (ss_status (outcome state) = COMPLETED)) then None
  else if negb (notes_verified (HomePack pack) lg) then None
  else
    let independent := forallb
      (fun i => bool_decide (is_Some (child_note_evidence (notes state) !! i)))
      (po_note_relation_ids (hp_policies pack)) in
    Some {| nu_note_id := note_id; nu_skill_id := hp_curriculum_session_id pack;
            nu_text := hc_body (hp_H3 (hp_help_plan pack));
            nu_attribution := if independent then NA_CHILD else NA_COAUTHORED;
            nu_evidence := if independent then DIRECT_EXPLANATION else SUPPORTED_COMPLETION |}.

(** The loop body for a required fact and for a required relation. *)
Definition completion_fact_step (p : TaskPackV2) (lg : ReasoningLedgerV2)
    (d : gmap string pyvalue) (i : string) : res (gmap string pyvalue) :=
  match verified_facts lg !! i with
  | None => Ok d
  | Some _ => f ← or_raise (facts_by_id p i) (KeyError i); Ok (<[i := primitive (fact_value f)]> d)
  end.
Definition completion_relation_step (p : TaskPackV2) (lg : ReasoningLedgerV2)
    (d : gmap string pyvalue) (i : string) : res (gmap string pyvalue) :=
  match verified_relations lg !! i with
  | None => Ok d
  | Some _ =>
      r ← or_raise (relations_by_id p i) (KeyError i); Ok (<[i := PV_str (relation_label r)]> d)
  end.

Definition completion_facts (pack : RequiredHomeTeachingPackV2) (lg : ReasoningLedgerV2)
    : res (gmap string pyvalue) :=
  let p := HomePack pack in
  let c := pack_completion p in
  facts ← foldM (completion_fact_step p lg) ∅ (required_fact_ids c);
  both ← foldM (completion_relation_step p lg) facts (required_relation_ids c);
  final ← final_answer_fact pack;
  let answered := match verified_facts lg !! cf_fact_id final with
                  | Some _ => <["answer" := primitive (cf_value final)]> both
                  | None => both end in
  match required_relation_ids c with
  | i :: _ =>
      match verified_relations lg !! i with
      | Some _ =>
          r ← or_raise (relations_by_id p i) (KeyError i);
          Ok (<["rule" := PV_str (relation_label r)]> answered)
      | None => Ok answered
      end
  | [] => Ok answered
  end.
