(* ===== verification/Speak.v ===== *)
(** The model-driven speaker of the V2 engine: the conversational move, the plans
    compiled for the two speaker models, the firewall material that never reaches
    them, the two attempts and the line that is said ([_speak], [_bridge] and their
    helpers in [src/mormi_api/dialogue_v2_runtime.py]). *)

From S2P Require Import Prelude.
From S2P Require Import PyStr.
From S2P Require Import PyNum.
From S2P Require Import Json.
From S2P Require Import Schemas.
From S2P Require Import Requests.
From S2P Require Import Evidence.
From S2P Require Import Packs.
From S2P Require Import PackDump.
From S2P Require Import Snapshot.
From S2P Require Import Ledger.
From S2P Require Import State.
From S2P Require Import Ladder.
From S2P Require Import Understand.
From S2P Require Import Question.
From S2P Require Import Respond.
From S2P Require Import Reply.
From S2P Require Import ContentCopy.
From S2P Require Import SpeakerText.
From S2P Require Import SpeakerPlan.

(** * Targets *)

Notation aliases := (list ((TargetKind * string) * string)).

(** [aliases.get((kind, i), i)] *)
Definition alias (a : aliases) (kind : TargetKind) (i : string) : string :=
  match find_first (fun kv => bool_decide (kv.1 = (kind, i))) a with Some kv => kv.2 | None => i end.

Definition numbered (prefix : string) (n : nat) : string := (prefix ++ str_N (N.of_nat n))%string.

(** [_private_target_aliases]: a later target of the same pair overwrites the alias. *)
Fixpoint private_target_aliases_from (facts relations : nat) (targets : list TargetRefV2) : aliases :=
  match targets with
  | [] => []
  | t :: rest =>
      match target_kind t with
      | KIND_fact =>
          private_target_aliases_from (S facts) relations rest
          ++ [((KIND_fact, target_id t), numbered "fact_" (S facts))]
      | KIND_relation =>
          private_target_aliases_from facts (S relations) rest
          ++ [((KIND_relation, target_id t), numbered "relation_" (S relations))]
      end
  end.
Definition private_target_aliases (targets : list TargetRefV2) : aliases := private_target_aliases_from 0 0 targets.

(** [_speaker_target_focus] *)
Definition speaker_target_focus (p : TaskPackV2) (targets : list TargetRefV2) (a : aliases)
    : res (list SpeakerTargetFocusV2) :=
  mapR (fun t => label ← target_focus_label p t;
                 speaker_target_focus_entry {|
                   tf_kind := target_kind t; tf_id := alias a (target_kind t) (target_id t);
                   tf_speaker_label := label |}) targets.

(** ** The firewall *)

Definition correct_labels (p : TaskPackV2) (pairs : list (TargetKind * string)) : list string :=
  match p with
  | HomePack p =>
      flat_map (fun plan => if memb (target_pair (l2_target plan)) pairs then
        map lc_label (List.filter (fun c => bool_decide (ce_verdict (lc_effect c) = choice_correct)) (l2_choices plan))
        else []) (hp_l2_plans p)
  | LifePack p =>
      flat_map (fun plan => if memb (target_pair (ll2_target plan)) pairs then
        map lch_label (List.filter (fun c => bool_decide (le_verdict (lch_effect c) = choice_correct)) (ll2_choices plan))
        else []) (lt_l2_plans p)
  end.

Record UnresolvedAnswerFirewall := { fw_values : list CanonicalValueV2; fw_surfaces : list string }.

(** [_unresolved_answer_firewall] without exclusions, as both speakers call it. *)
Definition unresolved_answer_firewall (p : TaskPackV2) (targets : list TargetRefV2) : UnresolvedAnswerFirewall :=
  let pairs := map target_pair targets in
  let facts := List.filter (fun f => memb (KIND_fact, fact_id f) pairs) (pack_facts p) in
  {| fw_values := map fact_value facts;
     fw_surfaces := fromkeys (flat_map fact_surface_forms facts ++ correct_labels p pairs) |}.

(** * The conversational move *)

Section plan.

(** [state] of the source is [l], the ladders after the turn. *)
Definition response_mode (l : ladder_state) (t : TurnSemantics) : ConversationResponseModeV2 :=
  let r := ts_response t in
  let card_visible := negb (bool_decide (hint_level l = H0)) in
  match conversation_move r with
  | META_QUESTION => if decide (move_subject r = MORMI_AI_IDENTITY) then RM_explain_ai_role else RM_explain_mormi_limit
  | REFUSAL => RM_respond_refusal
  | SAFE_PLAY => RM_respond_safe_play
  | REQUEST_MORMI_ANSWER => RM_decline_answer_and_ask
  | TASK_QUESTION => RM_redirect_to_help_card
  | CM_NONE =>
      if bool_decide (is_Some (ui_reference r))
         || card_visible && (has_incorrect t || memb (support_need r) [SN_CONCEPT; SN_BOTH; GENERAL_HELP])
      then RM_redirect_to_help_card
      else if decide (ts_route t = RO_safety) then RM_safety_redirect
      else RM_normal
  end.

Definition reask_mode (l : ladder_state) (mode : ConversationResponseModeV2) : ConversationReaskModeV2 :=
  if decide (expression_level l = L0) then RK_joint_action
  else if memb mode help_guided_response_modes then RK_help_guided_targets
  else RK_remaining_targets.

(** [_conversation_response_plan] *)
Definition conversation_plan (l : ladder_state) (p : TaskPackV2) (t : TurnSemantics) (q : QuestionContract)
    (before_hint : HintLevel) : res ConversationResponsePlanV2 :=
  let mode := response_mode l t in
  let card_visible := negb (bool_decide (hint_level l = H0)) in
  targets ← speaker_target_focus p (qc_targets q)
              (if decide (mode = RM_normal) then [] else private_target_aliases (qc_targets q));
  conversation_response_plan {|
    crp_response_mode := mode; crp_reask_mode := reask_mode l mode; crp_reask_targets := targets;
    crp_card_visible := card_visible;
    crp_card_event := if card_visible && negb (bool_decide (hint_level l = before_hint))
                      then HC_opened_or_strengthened else HC_none;
    crp_hint_level := hint_level l |}.

(** [_safe_reask_text] *)
Definition safe_reask_text (plan : ConversationResponsePlanV2) : string :=
  let target_text := join_reask_labels (fromkeys (map tf_speaker_label (crp_reask_targets plan))) in
  match crp_reask_mode plan with
  | RK_joint_action => ("도움 카드에 나온 순서대로 " ++ target_text ++ ", 나와 같이 해 줄 수 있어?")%string
  | RK_help_guided_targets =>
      if decide (crp_response_mode plan = RM_decline_answer_and_ask)
      then ("도움 카드를 보고 다시 " ++ target_text ++ " 알려주면 안 될까?")%string
      else ("도움 카드를 보고 다시 " ++ target_text ++ " 알려줄 수 있어?")%string
  | RK_remaining_targets =>
      if decide (crp_response_mode plan = RM_respond_refusal)
      then (target_text ++ " 알려주면 안 될까?")%string
      else (target_text ++ " 알려줄 수 있어?")%string
  end.

(** [_compose_reaction_and_reask] *)
Definition compose_reaction_and_reask (reaction reask : string) : string :=
  let reaction := py_strip reaction in
  if decide (reaction = ""%string) then reask else (reaction ++ " " ++ reask)%string.
End plan.

(** * The main speaker's plan *)

Definition fact_claims (l : list UnderstandingClaimV2) : list FactUnderstandingClaimV2 :=
  omap (fun c => match c with FactClaim f => Some f | _ => None end) l.
Definition relation_claims (l : list UnderstandingClaimV2) : list RelationUnderstandingClaimV2 :=
  omap (fun c => match c with RelationClaim r => Some r | _ => None end) l.

(** [enumerate(ids, 1)] *)
Definition enumerated (kind : TargetKind) (prefix : string) (ids : list string) : aliases :=
  imap (fun n i => ((kind, i), numbered prefix (S n))) ids.

(** [_speaker_progress_aliases] *)
Definition speaker_progress_aliases (t : TurnSemantics) : aliases :=
  let log := ar_log (ts_apply_result t) in
  let claims := claims (ts_response t) in
  enumerated KIND_fact "fact_" (fromkeys (new_fact_ids log ++ map fc_fact_id (fact_claims claims)))
  ++ enumerated KIND_relation "relation_" (fromkeys (new_relation_ids log ++ map rc_relation_id (relation_claims claims))).

(** ** Reviewed acknowledgements *)

(** Commas between groups of three digits, counted from the right. *)
Fixpoint grouped (n : nat) (digits : string) : string :=
  match digits with
  | EmptyString => ""
  | String c rest =>
      String c (if (n mod 3 =? 1)%nat && negb (bool_decide (rest = ""%string))
                then String.append "," (grouped (n - 1) rest) else grouped (n - 1) rest)
  end.
Fixpoint whole_part (s : string) : string * string :=
  match s with
  | EmptyString => (""%string, ""%string)
  | String c rest =>
      let n := Ascii.N_of_ascii c in
      if ((48 <=? n) && (n <=? 57))%N then let '(a, b) := whole_part rest in (String c a, b) else (""%string, s)
  end.
(** [f"{v:,}"] *)
Definition with_commas (v : pynum) : string :=
  let s := py_num_str v in
  let '(sign, body) := match s with
    | String c rest => if decide (c = Ascii.ascii_of_N 45) then ("-"%string, rest) else (""%string, s)
    | EmptyString => (""%string, s)
    end in
  let '(whole, rest) := whole_part body in
  (sign ++ grouped (String.length whole) whole ++ rest)%string.

(** [f"{v:g}"]: six significant digits, rounded from the shortest decimal. *)
Definition general_format (v : pynum) : string :=
  let d := decimal_of v in
  let m := Z.abs (coef d) in
  let n := ndigits m in
  let '(m, e) := if (n <=? 6)%Z then (m, dexp d) else
    let k := (n - 6)%Z in
    let half := (10 ^ k)%Z in
    let q := (m / half)%Z in
    let r := (m mod half)%Z in
    ((if (half <? 2 * r)%Z || (2 * r =? half)%Z && Z.odd q then (q + 1)%Z else q), (dexp d + k)%Z) in
  let '(c, x) := strip_zeros (S (Z.to_nat (Z.log2 m))) m e in
  if (c =? 0)%Z then "0"%string else
  let sign := if (coef d <? 0)%Z then "-"%string else ""%string in
  let ds := str_Z c in
  let digits := Z.of_nat (String.length ds) in
  let decpt := (digits + x)%Z in
  let ex := (decpt - 1)%Z in
  (sign ++
   if ((ex <? -4) || (6 <=? ex))%Z then
     String.substring 0 1 ds
     ++ (if (digits =? 1)%Z then "" else "." ++ String.substring 1 (String.length ds) ds)
     ++ (if (ex <? 0)%Z then "e-" else "e+") ++ (if (Z.abs ex <? 10)%Z then "0" else "") ++ str_Z (Z.abs ex)
   else if (decpt <=? 0)%Z then "0." ++ zeros (Z.to_nat (- decpt)) ++ ds
   else if (digits <=? decpt)%Z then ds ++ zeros (Z.to_nat (decpt - digits))
   else String.substring 0 (Z.to_nat decpt) ds ++ "." ++ String.substring (Z.to_nat decpt) (String.length ds) ds)%string.

Definition acknowledged_surface (f : GraphFact) : string :=
  match fact_surface_forms f with
  | s :: _ => s
  | [] =>
      match fact_value f with
      | MoneyValueV2 a _ => (with_commas a ++ "원")%string
      | NumberValueV2 v unit => (general_format v ++ default "" unit)%string
      | TextValueV2 s => s
      | BooleanValueV2 b => if b then "그렇다" else "아니다"
      | ChoiceValueV2 c => c
      end
  end.

(** [_reviewed_fact_acknowledgement] *)
Definition reviewed_fact_acknowledgement (p : TaskPackV2) (ids : list string) : res string :=
  surfaces ← mapR (fun i => f ← or_raise (facts_by_id p i) (KeyError i); Ok (acknowledged_surface f)) ids;
  Ok (match surfaces with
      | [s] => ("아, " ++ s ++ "이구나~")%string
      | _ => ("아, 알려 준 값은 " ++ py_join ", " surfaces ++ "이구나~")%string
      end).

(** ** Allowed facts and accepted relations *)

Definition all_structured_facts (l : list FactLedgerEvidenceV2) : bool :=
  truthy l && forallb (fun e => match e with FE_structured _ => true | _ => false end) l.
Definition all_structured_relations (l : list RelationLedgerEvidenceV2) : bool :=
  truthy l && forallb (fun e => match e with RE_structured _ => true | _ => false end) l.

(** The loop body of [_allowed_facts] for a fact that may be named. *)
Definition allowed_fact (lg : ReasoningLedgerV2) (include_screen : bool) (f : GraphFact) : res SpeakerAllowedFactV2 :=
  source ← (if include_screen && fact_initially_visible f then Ok KS_screen
            else entry ← or_raise (verified_facts lg !! fact_id f) (KeyError (fact_id f));
                 Ok (if all_structured_facts (vf_evidence entry) then KS_jointly_derived else KS_child_verified));
  speaker_allowed_fact {|
    af_fact_id := fact_id f; af_value := fact_value f; af_speaker_text := fact_speaker_label f; af_source := source |}.

(** [_allowed_facts] *)
Definition allowed_facts (p : TaskPackV2) (lg : ReasoningLedgerV2) (targets : list TargetRefV2)
    (visible_only include_screen : bool) : res (list SpeakerAllowedFactV2) :=
  let unresolved := map target_id (List.filter (fun t => bool_decide (target_kind t = KIND_fact)) targets) in
  mapR (allowed_fact lg include_screen)
    (List.filter (fun f => (include_screen && fact_initially_visible f
                            || negb visible_only && bool_decide (is_Some (verified_facts lg !! fact_id f)))
                           && negb (memb (fact_id f) unresolved)) (pack_facts p)).

(** [_speaker_accepted_relations]; [supported] is the union of the supported note
    slots of the state and, in a life task, of the task's note state. *)
Definition speaker_accepted_relations (supported : list string) (p : TaskPackV2) (t : TurnSemantics) (a : aliases)
    : res (list SpeakerAcceptedRelationV2) :=
  mapR (fun i =>
    r ← or_raise (relations_by_id p i) (KeyError i);
    source ← (if memb i supported then Ok KS_jointly_derived
              else entry ← or_raise (verified_relations (ar_ledger (ts_apply_result t)) !! i) (KeyError i);
                   Ok (if all_structured_relations (vr_evidence entry) then KS_jointly_derived
                       else KS_child_verified));
    speaker_accepted_relation {|
      sr_relation_id := alias a KIND_relation i; sr_speaker_label := relation_label r; sr_source := source |})
    (new_relation_ids (ar_log (ts_apply_result t))).

(** ** The response signal *)

Definition guarded_claims (t : TurnSemantics) : list UnderstandingClaimV2 :=
  match ts_guarded t with Some g => claims (gu_response g) | None => [] end.

Definition kind_ids (kind : TargetKind) (targets : list TargetRefV2) : list string :=
  map target_id (List.filter (fun t => bool_decide (target_kind t = kind)) targets).

(** Attempted and incorrect, facts and relations. *)
Definition attempts (t : TurnSemantics) (targets : list TargetRefV2)
    : (list string * list string) * (list string * list string) :=
  let facts := fact_claims (guarded_claims t) in
  let relations := relation_claims (guarded_claims t) in
  let attempted := (fromkeys (map fc_fact_id facts), fromkeys (map rc_relation_id relations)) in
  let incorrect :=
    (fromkeys (map fc_fact_id (List.filter (fun c => bool_decide (fc_verdict c = V_incorrect)) facts)),
     fromkeys (map rc_relation_id (List.filter (fun c => bool_decide (rc_verdict c = V_incorrect)) relations))) in
  if decide (ts_understanding_source t = US_structured_choice) then
    let attempted := (kind_ids KIND_fact targets, kind_ids KIND_relation targets) in
    (attempted, if decide (ts_structured_correct t = Some false) then attempted else incorrect)
  else (attempted, incorrect).

Definition signal_kind (t : TurnSemantics) (attempted incorrect : list string * list string) : SpeakerResponseKindV2 :=
  let r := ts_response t in
  let wrong := bool_decide (ts_structured_correct t = Some false) in
  if decide (conversation_move r = TASK_QUESTION) then RKD_task_question
  else if has_new_canonical_progress (ts_apply_result t) then RKD_new_progress
  else if truthy incorrect.1 && truthy incorrect.2 then RKD_incorrect_answer_and_method
  else if truthy incorrect.1 || wrong && truthy attempted.1 then RKD_incorrect_answer
  else if truthy incorrect.2 || wrong && truthy attempted.2 then RKD_incorrect_method
  else if decide (support_need r = GENERAL_HELP) then RKD_help_request
  else if decide (support_need r = SN_EXPRESSION) then RKD_expression_block
  else if memb (ts_understanding_source t) [US_silence_timeout; US_asr_empty] then RKD_no_response
  else if memb (ts_understanding_source t) [US_structured_choice; US_structured_joint] then RKD_structured_response
  else RKD_related_vague.

(** [_speaker_response_signal] *)
Definition speaker_response_signal (t : TurnSemantics) (targets : list TargetRefV2) (repeat_count : nat) (a : aliases)
    (card_event : HelpCardEventV2) : res SpeakerResponseSignalV2 :=
  let '(attempted, incorrect) := attempts t targets in
  let log := ar_log (ts_apply_result t) in
  speaker_response_signal_ok {|
    rs_kind := signal_kind t attempted incorrect;
    rs_question_focus := question_focus (ts_response t);
    rs_attempted_fact_ids := map (alias a KIND_fact) attempted.1;
    rs_attempted_relation_ids := map (alias a KIND_relation) attempted.2;
    rs_incorrect_fact_ids := map (alias a KIND_fact) incorrect.1;
    rs_incorrect_relation_ids := map (alias a KIND_relation) incorrect.2;
    rs_new_fact_ids := map (alias a KIND_fact) (new_fact_ids log);
    rs_new_relation_ids := map (alias a KIND_relation) (new_relation_ids log);
    rs_repeat_count := repeat_count;
    rs_ui_reference := option_map (fun u => {| us_interaction := ui_interaction u; us_card_event := card_event |})
                         (ui_reference (ts_response t)) |}.

(** [_speaker_evidence], the pairs it collects, and the list it builds. *)
Definition turn_evidence (t : TurnSemantics) : list SpeakerEvidenceV2 :=
  omap (fun c => if memb (claim_verdict c) [V_correct; V_sufficient; V_partial] then
                   option_map (fun i => {| se_evidence_id := i; se_verdict := claim_verdict c |})
                     (claim_evidence_ids (ar_log (ts_apply_result t)) !! claim_id c)
                 else None) (guarded_claims t).
Definition speaker_evidence_list (t : TurnSemantics) : res (list SpeakerEvidenceV2) :=
  mapR speaker_evidence (turn_evidence t).

(** [_reaction_dialogue_act] *)
Definition reaction_dialogue_act (t : TurnSemantics) : string :=
  if has_new_canonical_progress (ts_apply_result t) then "acknowledge_progress"
  else if has_incorrect t then "acknowledge_confusion"
  else if negb (bool_decide (support_need (ts_response t) = SN_NONE)) then "acknowledge_support_need"
  else "acknowledge_uncertainty".

(** * Speaking *)

(** What a speaker model returns: an output, or an exception of a named type (a
    timeout, a provider or a schema failure). *)
Inductive SpeakerOutcome := Spoken (o : SpeakerOutputV2) | SpeakerError (error : string).

(** [SpeechResultV2]: text, mood, source and fallback reason. *)
Record SpeechResultV2 := {
  spr_text : string;
  spr_mood : Mood;
  spr_source : string;
  spr_reason : option string
}.

(** [run_attempt_graph]: the operation alone decides whether there is a second attempt. *)
Definition two_attempts {C R} (operation : C -> nat -> C * option R) (exhausted : C -> R) (c : C) : R :=
  match operation c 1 with
  | (_, Some r) => r
  | (c, None) => match operation c 2 with (_, Some r) => r | (c, None) => exhausted c end
  end.

(** [_SpeakerAttemptContext] *)
Record SpeakerAttemptContext := {
  sc_plan : SpeakerPlanV2;
  sc_firewall : UnresolvedAnswerFirewall;
  sc_response_plan : ConversationResponsePlanV2;
  sc_fallback : string;
  sc_last_reason : string
}.
Definition with_reason (c : SpeakerAttemptContext) (reason : string) : SpeakerAttemptContext := {|
  sc_plan := sc_plan c; sc_firewall := sc_firewall c; sc_response_plan := sc_response_plan c;
  sc_fallback := sc_fallback c; sc_last_reason := reason |}.

Definition no_target : SpeakerTargetV2 :=
  {| st_fact_ids := []; st_relation_ids := []; st_ask_mode := AM_none; st_success_criteria_ids := [] |}.

(** The identifiers of the facts named to the model. *)
Definition renamed_facts (a : aliases) (new_ids : list string) (facts : list SpeakerAllowedFactV2)
    : list SpeakerAllowedFactV2 :=
  map (fun f => with_fact_id f
                  (match find_first (fun kv => bool_decide (kv.1 = (KIND_fact, af_fact_id f))) a with
                   | Some kv => kv.2 | None => "fact_0"%string end))
    (List.filter (fun f => memb (af_fact_id f) new_ids) facts).

Definition fallback_ref (subgoal : string) : string := ("fallback." ++ subgoal)%string.

(** The plan of [_speak]. *)
Definition reaction_plan (l : ladder_state) (subgoal : string) (supported : list string) (p : TaskPackV2)
    (t : TurnSemantics) (q : QuestionContract) (card_event : HelpCardEventV2) : res SpeakerPlanV2 :=
  let a := speaker_progress_aliases t in
  facts ← allowed_facts p (ar_ledger (ts_apply_result t)) (qc_targets q) false false;
  signal ← speaker_response_signal t (qc_targets q) (concept_failures l) a card_event;
  evidence ← speaker_evidence_list t;
  relations ← speaker_accepted_relations supported p t a;
  target ← speaker_target no_target;
  speaker_plan {|
    pl_act := reaction_dialogue_act t; pl_response_signal := signal; pl_accepted_evidence := evidence;
    pl_accepted_relations := relations; pl_target := target; pl_target_focus := []; pl_response_plan := None;
    pl_support := {|
      su_expression_level := expression_level l; su_hint_level := hint_level l;
      su_support_need := support_need (ts_response t);
      su_question_style_guide := "아이 말에 대한 짧은 반응 한 문장만 만든다.";
      su_help_card_visible := negb (bool_decide (hint_level l = H0)) |};
    pl_allowed_facts := renamed_facts a (new_fact_ids (ar_log (ts_apply_result t))) facts;
    pl_current_question := None; pl_previous_mormi_text := None; pl_fallback_copy_ref := fallback_ref subgoal |}.

Section speak.
Context `{TextTables}.

(** [_speak_attempt] *)
Definition speak_attempt (model : nat -> SpeakerPlanV2 -> SpeakerOutcome) (c : SpeakerAttemptContext) (attempt : nat)
    : SpeakerAttemptContext * option SpeechResultV2 :=
  match model attempt (sc_plan c) with
  | SpeakerError error => (with_reason c error, None)
  | Spoken o =>
      match speaker_output_violation o (sc_plan c) (fw_values (sc_firewall c)) (fw_surfaces (sc_firewall c)) with
      | None =>
          (c, Some {| spr_text := compose_reaction_and_reask (utf8_encode (ustrip (so_text o)))
                                    (safe_reask_text (sc_response_plan c));
                      spr_mood := so_mood o; spr_source := "llm"; spr_reason := None |})
      | Some violation => (with_reason c violation, None)
      end
  end.

(** [_speaker_exhausted] *)
Definition speaker_exhausted (c : SpeakerAttemptContext) : SpeechResultV2 := {|
  spr_text := sc_fallback c; spr_mood := thinking; spr_source := "generation_fallback";
  spr_reason := Some (sc_last_reason c) |}.

(** [_speak] *)
Definition speak (model : nat -> SpeakerPlanV2 -> SpeakerOutcome) (l : ladder_state) (subgoal : string)
    (supported : list string) (p : TaskPackV2) (t : TurnSemantics) (q : QuestionContract) (fallback : string)
    (before_hint : HintLevel) : res SpeechResultV2 :=
  response_plan ← conversation_plan l p t q before_hint;
  if bool_decide (td_progress_kind (delta (ts_apply_result t)) = ANSWER_ONLY)
     && bool_decide (conversation_move (ts_response t) = CM_NONE)
  then
    reaction ← reviewed_fact_acknowledgement p (new_fact_ids (ar_log (ts_apply_result t)));
    Ok {| spr_text := compose_reaction_and_reask reaction (safe_reask_text response_plan); spr_mood := curious;
          spr_source := "reviewed_fallback"; spr_reason := None |}
  else
    plan ← reaction_plan l subgoal supported p t q (crp_card_event response_plan);
    Ok (two_attempts (speak_attempt model) speaker_exhausted {|
          sc_plan := plan; sc_firewall := unresolved_answer_firewall p (qc_targets q);
          sc_response_plan := response_plan; sc_fallback := fallback;
          sc_last_reason := "speaker_contract_rejected" |}).

(** The interaction kind of [_bridge]. *)
Definition bridge_kind (r : UnderstandingResponseV2) : BridgeInteractionKindV2 :=
  match conversation_move r with
  | META_QUESTION => BI_meta
  | REFUSAL => BI_refusal
  | SAFE_PLAY =>
      match non_learning_kind r with
      | None => BI_playful
      | Some k => match k with PLAYFUL => BI_playful | META => BI_meta | OFF_TOPIC => BI_off_topic
                             | NLK_REFUSAL => BI_refusal | INSULT => BI_insult end
      end
  | _ => BI_off_topic
  end.

(** The plan of [_bridge]. *)
Definition social_plan (l : ladder_state) (subgoal : string) (t : TurnSemantics) (mode : ConversationResponseModeV2)
    : res BridgePlanV2 :=
  target ← speaker_target no_target;
  bridge_plan {|
    bp_interaction_kind := bridge_kind (ts_response t); bp_reaction_mode := mode; bp_current_question := None;
    bp_target := target; bp_target_focus := []; bp_response_plan := None; bp_allowed_facts := [];
    bp_repeat_count := unrelated_count l; bp_previous_mormi_text := None;
    bp_fallback_copy_ref := fallback_ref subgoal |}.

(** [_bridge] *)
Definition bridge (model : BridgePlanV2 -> SpeakerOutcome) (l : ladder_state) (subgoal : string) (p : TaskPackV2)
    (t : TurnSemantics) (q : QuestionContract) (fallback : string) (before_hint : HintLevel) : res SpeechResultV2 :=
  response_plan ← conversation_plan l p t q before_hint;
  plan ← social_plan l subgoal t (crp_response_mode response_plan);
  let firewall := unresolved_answer_firewall p (qc_targets q) in
  let fall_back reason := Ok {| spr_text := fallback; spr_mood := thinking; spr_source := "generation_fallback";
                                spr_reason := Some reason |} in
  match model plan with
  | SpeakerError error => fall_back error
  | Spoken o =>
      match validate_bridge_output o plan (fw_values firewall) (fw_surfaces firewall) with
      | Some text =>
          Ok {| spr_text := compose_reaction_and_reask (utf8_encode text) (safe_reask_text response_plan);
                spr_mood := so_mood o; spr_source := "bridge_llm"; spr_reason := None |}
      | None => fall_back "bridge_contract_rejected"%string
      end
  end.
End speak.
