(* ===== verification/StableCopy.v ===== *)
(** Reviewed wording that may be generated once and reused: the plan of a copy slot
    with its validators, the compiler from a pack to its five plans, the plan set a
    conversation pins, and the firewall of a copy ([src/mormi_api/dialogue_v2_copy.py]
    and the stable-copy models of [src/mormi_api/dialogue_v2_speaker.py]). *)

From S2P Require Import Prelude.
From S2P Require Import PyStr.
From S2P Require Import PyNum.
From S2P Require Import Json.
From S2P Require Import Schemas.
From S2P Require Import Requests.
From S2P Require Import Packs.
From S2P Require Import PackDump.
From S2P Require Import ContentCopy.
From S2P Require Import ContentChecks.
From S2P Require Import SpeakerText.
From S2P Require Import SpeakerPlan.
From S2P Require Import Speak.

Definition STABLE_COPY_JOINT_ACTION_V2 : string := "follow_visible_joint_ui".
Definition STABLE_COPY_L0_GENERATION_BRIEF_V2 : string :=
  "카드 내용을 되말하거나 이해했다고 하지 말고 공동 수행만 부탁한다".

(** * The plan *)

Record StableCopyTransitionV2 := {
  sct_from_expression_level : ExpressionLevel;
  sct_from_hint_level : HintLevel;
  sct_to_expression_level : ExpressionLevel;
  sct_to_hint_level : HintLevel
}.

Inductive RevealPolicy := RP_hidden | RP_partial | RP_revealed.

Record StableCopyPlanV2 := {
  scp_purpose : CopyPurpose;
  scp_pack_id : string;
  scp_copy_slot : string;
  scp_content_version : Z;
  scp_act : string;
  scp_target : SpeakerTargetV2;
  scp_transition : StableCopyTransitionV2;
  scp_visible_facts : list SpeakerAllowedFactV2;
  scp_choice_labels : list string;
  scp_joint_action : option string;
  scp_generation_brief : string;
  scp_reveal_policy : RevealPolicy
}.

#[export] Instance RevealPolicy_eq_dec : EqDecision RevealPolicy. Proof. solve_decision. Defined.

Definition is_l0 (u : CopyPurpose) : bool := memb u [l0_intro; l0_action].

(** [[f"{prefix}{index}" for index in range(1, n + 1)]] *)
Definition opaque_ids (prefix : string) (n : nat) : list string := map (fun i => numbered prefix (S i)) (seq 0 n).

(** [is_safe_l0_generation_plan] *)
Definition is_safe_l0_generation_plan (p : StableCopyPlanV2) : bool :=
  is_l0 (scp_purpose p)
  && bool_decide (scp_joint_action p = Some STABLE_COPY_JOINT_ACTION_V2)
  && negb (truthy (scp_visible_facts p))
  && bool_decide (scp_reveal_policy p = RP_hidden)
  && bool_decide (scp_generation_brief p = STABLE_COPY_L0_GENERATION_BRIEF_V2)
  && bool_decide (st_fact_ids (scp_target p) = opaque_ids "fact_" (length (st_fact_ids (scp_target p))))
  && bool_decide (st_relation_ids (scp_target p) = opaque_ids "relation_" (length (st_relation_ids (scp_target p)))).

(** [is_legacy_l0_pinned_plan] *)
Definition is_legacy_l0_pinned_plan (p : StableCopyPlanV2) : bool :=
  is_l0 (scp_purpose p)
  && negb (memb (scp_joint_action p) [None; Some STABLE_COPY_JOINT_ACTION_V2])
  && truthy (scp_visible_facts p)
  && bool_decide (scp_reveal_policy p = RP_revealed)
  && negb (bool_decide (scp_generation_brief p = STABLE_COPY_L0_GENERATION_BRIEF_V2))
  && negb (is_safe_l0_generation_plan p).

(** [validate_purpose_contract], after the fields. *)
Definition stable_copy_plan (p : StableCopyPlanV2) : res StableCopyPlanV2 :=
  _ ← check (content_id 160 (scp_pack_id p) && content_id 160 (scp_copy_slot p) && (1 <=? scp_content_version p)%Z
             && content_id 100 (scp_act p) && list_field 0 30 (scp_visible_facts p)
             && list_field 0 8 (scp_choice_labels p) && opt_text_field 1 240 (scp_joint_action p)
             && text_field 1 240 (scp_generation_brief p)) "stable-copy plan fields";
  let fact_ids := map af_fact_id (scp_visible_facts p) in
  let t := scp_transition p in
  _ ← check (uniqueb fact_ids) "stable-copy visible fact ids must be unique";
  _ ← check (forallb (fun f => bool_decide (af_source f = KS_screen)) (scp_visible_facts p))
        "stable-copy facts must come only from the immutable screen";
  _ ← check (uniqueb (scp_choice_labels p)) "stable-copy choice labels must be unique";
  _ ← (if bool_decide (scp_purpose p = l2_question) then
         _ ← check (2 <=? length (scp_choice_labels p)) "L2 stable copy needs the reviewed choice labels";
         _ ← check (bool_decide (scp_joint_action p = None)) "L2 stable copy cannot contain a joint action";
         check (bool_decide (sct_to_expression_level t = L2)) "L2 stable copy must lead to L2"
       else check (negb (truthy (scp_choice_labels p))) "only L2 stable copy may receive choice labels");
  _ ← (if is_l0 (scp_purpose p) then
         _ ← check (bool_decide (sct_to_expression_level t = L0) && bool_decide (sct_to_hint_level t = H3))
               "L0 stable copy must lead to L0-H3";
         check (is_safe_l0_generation_plan p || is_legacy_l0_pinned_plan p)
           "L0 stable copy must match the safe generation or legacy pinned shape"
       else check (bool_decide (scp_joint_action p = None)) "non-L0 stable copy cannot contain a joint action");
  _ ← check (negb (memb (scp_purpose p) [initial_help; l2_question]
                   && negb (disjointb (st_fact_ids (scp_target p)) fact_ids)))
        "hidden target truth cannot enter pre-answer stable copy";
  Ok p.

(** * The compiler *)

(** [_target_for_slot] *)
Definition target_for_slot (slot : CopySlotV2) (opaque : bool) : res SpeakerTargetV2 :=
  let ids kind prefix :=
    let ids := kind_ids kind (cs_targets slot) in if opaque then opaque_ids prefix (length ids) else ids in
  let fact_ids := ids KIND_fact "fact_"%string in
  let relation_ids := ids KIND_relation "relation_"%string in
  speaker_target {|
    st_fact_ids := fact_ids; st_relation_ids := relation_ids;
    st_ask_mode := if truthy fact_ids && truthy relation_ids then AM_answer_and_method
                   else if truthy fact_ids then AM_answer else AM_reason_or_method;
    st_success_criteria_ids := [] |}.

(** [_transition_for_purpose] *)
Definition transition_for_purpose (u : CopyPurpose) : StableCopyTransitionV2 :=
  match u with
  | initial_help => {| sct_from_expression_level := L4; sct_from_hint_level := H0;
                       sct_to_expression_level := L3; sct_to_hint_level := H1 |}
  | l2_question => {| sct_from_expression_level := L3; sct_from_hint_level := H1;
                      sct_to_expression_level := L2; sct_to_hint_level := H2 |}
  | l0_intro | l0_action => {| sct_from_expression_level := L2; sct_from_hint_level := H2;
                               sct_to_expression_level := L0; sct_to_hint_level := H3 |}
  end.

(** [_dialogue_act_for_purpose] *)
Definition dialogue_act_for_purpose (u : CopyPurpose) : string :=
  match u with
  | initial_help => "offer_initial_help" | l2_question => "present_l2_choices"
  | l0_intro => "start_joint_support" | l0_action => "guide_joint_action"
  end.

(** [_visible_facts_for_slot] *)
Definition visible_facts_for_slot (pack : RequiredHomeTeachingPackV2) (slot : CopySlotV2)
    : res (list SpeakerAllowedFactV2) :=
  if is_l0 (cs_purpose slot) then Ok []
  else
    facts ← mapR (fun f => speaker_allowed_fact {|
                     af_fact_id := cf_fact_id f; af_value := cf_value f;
                     af_speaker_text := "문제 화면에 주어진 정보"; af_source := KS_screen |})
              (List.filter cf_initially_visible (rg_facts (hp_reasoning_graph pack)));
    if ucontains (utf8_decode "한 명") (utf8_decode (cs_reviewed_fallback slot)) then
      one ← speaker_allowed_fact {|
        af_fact_id := "stable-context.one-person"; af_value := NumberValueV2 (PyInt 1) (Some "명"%string);
        af_speaker_text := "한 명 기준"; af_source := KS_screen |};
      Ok (facts ++ [one])
    else Ok facts.

Record StableCopyOutputFirewallV2 := {
  of_forbidden_values : list CanonicalValueV2;
  of_forbidden_surfaces : list string
}.

(** [build_stable_copy_output_firewall_v2] *)
Definition build_stable_copy_output_firewall (pack : RequiredHomeTeachingPackV2) (slot : CopySlotV2)
    : StableCopyOutputFirewallV2 :=
  let pairs := map target_pair (cs_targets slot) in
  let facts := List.filter (fun f => memb (KIND_fact, cf_fact_id f) pairs) (rg_facts (hp_reasoning_graph pack)) in
  {| of_forbidden_values := map cf_value facts;
     of_forbidden_surfaces :=
       fromkeys (flat_map cf_accepted_surface_forms facts
                 ++ flat_map (fun plan =>
                      if memb (target_pair (l2_target plan)) pairs then
                        map lc_label (List.filter (fun c => bool_decide (ce_verdict (lc_effect c) = choice_correct))
                                        (l2_choices plan))
                      else []) (hp_l2_plans pack)) |}.

Definition SAFE_L0_MORMI_FALLBACK_V2 : string := "도움 카드를 보면서 나와 같이 해 줄 수 있어?".

Record StableCopyWorkItemV2 := {
  wi_plan : StableCopyPlanV2;
  wi_reviewed_fallback : string;
  wi_pack_hash : string;
  wi_output_firewall : StableCopyOutputFirewallV2
}.

Section compiler.
Context `{Digest}.
Implicit Type pack : RequiredHomeTeachingPackV2.

(** [l2_plans[slot.copy_slot]]: the last plan of that slot. *)
Definition slot_choice_labels pack (slot : CopySlotV2) : res (list string) :=
  if decide (cs_purpose slot = l2_question) then
    plan ← or_raise (find_first (fun q => bool_decide (l2_copy_slot q = cs_copy_slot slot)) (rev (hp_l2_plans pack)))
             (KeyError (cs_copy_slot slot));
    Ok (map lc_label (l2_choices plan))
  else Ok [].

(** The plan of one slot. *)
Definition slot_plan pack (slot : CopySlotV2) : res StableCopyPlanV2 :=
  let u := cs_purpose slot in
  labels ← slot_choice_labels pack slot;
  target ← target_for_slot slot (is_l0 u);
  facts ← visible_facts_for_slot pack slot;
  stable_copy_plan {|
    scp_purpose := u; scp_pack_id := hp_pack_id pack; scp_copy_slot := cs_copy_slot slot;
    scp_content_version := hp_content_version pack; scp_act := dialogue_act_for_purpose u; scp_target := target;
    scp_transition := transition_for_purpose u; scp_visible_facts := facts; scp_choice_labels := labels;
    scp_joint_action := if is_l0 u then Some STABLE_COPY_JOINT_ACTION_V2 else None;
    scp_generation_brief := if is_l0 u then STABLE_COPY_L0_GENERATION_BRIEF_V2 else cs_generation_brief slot;
    scp_reveal_policy := RP_hidden |}.

(** One step of [build_stable_copy_work_items_v2]. *)
Definition slot_work_item pack (slot : CopySlotV2) : res StableCopyWorkItemV2 :=
  plan ← slot_plan pack slot;
  Ok {| wi_plan := plan;
        wi_reviewed_fallback := if is_l0 (cs_purpose slot) then SAFE_L0_MORMI_FALLBACK_V2
                                else cs_reviewed_fallback slot;
        wi_pack_hash := content_pack_hash_v2 pack;
        wi_output_firewall := build_stable_copy_output_firewall pack slot |}.
Definition build_stable_copy_work_items pack : res (list StableCopyWorkItemV2) :=
  mapR (slot_work_item pack) (hp_copy_slots pack).
End compiler.

(** * The plan set of a conversation *)

Definition ask_mode_value (m : AskModeV2) : string :=
  match m with
  | AM_answer => "answer" | AM_reason_or_method => "reason_or_method"
  | AM_answer_and_method => "answer_and_method" | AM_none => "none"
  end.
Definition reveal_policy_value (r : RevealPolicy) : string :=
  match r with RP_hidden => "hidden" | RP_partial => "partial" | RP_revealed => "revealed" end.
Definition knowledge_source_value (s : SpeakerKnowledgeSourceV2) : string :=
  match s with
  | KS_screen => "screen" | KS_child_verified => "child_verified" | KS_jointly_derived => "jointly_derived"
  end.

Definition allowed_fact_dump (f : SpeakerAllowedFactV2) : json :=
  JObj [("fact_id", JStr (af_fact_id f)); ("value", value_dump (af_value f));
        ("speaker_text", JStr (af_speaker_text f)); ("source", JStr (knowledge_source_value (af_source f)))].

(** [plan.model_dump(mode="json")] *)
Definition stable_plan_dump (p : StableCopyPlanV2) : json :=
  let t := scp_target p in
  let n := scp_transition p in
  JObj [("purpose", JStr (purpose_value (scp_purpose p))); ("pack_id", JStr (scp_pack_id p));
        ("copy_slot", JStr (scp_copy_slot p)); ("content_version", JNum (PyInt (scp_content_version p)));
        ("locale", JStr "ko-KR"); ("dialogue_act", JStr (scp_act p));
        ("target", JObj [("fact_ids", JArr (map JStr (st_fact_ids t)));
                         ("relation_ids", JArr (map JStr (st_relation_ids t)));
                         ("ask_mode", JStr (ask_mode_value (st_ask_mode t)));
                         ("success_criteria_ids", JArr (map JStr (st_success_criteria_ids t)))]);
        ("transition", JObj [("from_expression_level", JStr (expression_value (sct_from_expression_level n)));
                             ("from_hint_level", JStr (hint_value (sct_from_hint_level n)));
                             ("to_expression_level", JStr (expression_value (sct_to_expression_level n)));
                             ("to_hint_level", JStr (hint_value (sct_to_hint_level n)))]);
        ("visible_facts", JArr (map allowed_fact_dump (scp_visible_facts p)));
        ("choice_labels", JArr (map JStr (scp_choice_labels p)));
        ("joint_action", match scp_joint_action p with Some a => JStr a | None => JNull end);
        ("generation_brief", JStr (scp_generation_brief p));
        ("reveal_policy", JStr (reveal_policy_value (scp_reveal_policy p)))].

Definition STABLE_COPY_PLAN_SCHEMA_VERSION_V2 : string := "stable-copy-plan-set-v1".
Definition STABLE_COPY_PLAN_COMPILER_VERSION_V2 : string := "stable-copy-plan-compiler-v1".

(** A pinned plan set: payloads by copy slot, in the order of the dict. *)
Notation plan_set := (list (string * StableCopyPlanV2)).

Section plans.
Context `{Digest}.
Implicit Types (pack : RequiredHomeTeachingPackV2) (plans : plan_set).

(** [_plan_sha256] *)
Definition plan_sha256 (p : StableCopyPlanV2) : string := hexdigest (dumps (stable_plan_dump p)).

(** [StableCopyPlanV2.model_validate]: the models inside the plan first. *)
Definition stable_plan_validate (p : StableCopyPlanV2) : res StableCopyPlanV2 :=
  _ ← speaker_target (scp_target p);
  _ ← each (fun f => _ ← speaker_allowed_fact f; Ok tt) (scp_visible_facts p);
  stable_copy_plan p.

(** [_validated_plan_payloads_v2], on payloads that are plans. *)
Definition validated_plan_payloads plans : res plan_set :=
  _ ← raise_if (negb (length plans =? 5)%nat)
        (StableCopyResolutionError "pinned stable-copy plan set must contain exactly five plans");
  _ ← each (fun kp =>
        _ ← match stable_plan_validate kp.2 with
            | Ok _ => Ok tt
            | Raise _ => Raise (StableCopyResolutionError ("pinned stable-copy plan is invalid: " ++ kp.1))
            end;
        raise_if (negb (bool_decide (scp_copy_slot kp.2 = kp.1)))
          (StableCopyResolutionError "pinned stable-copy plan key does not match its copy slot")) plans;
  Ok plans.

(** [stable_copy_plan_set_hash_v2] *)
Definition stable_copy_plan_set_hash plans (pack_hash schema_version compiler_version : string) : res string :=
  _ ← raise_if (negb (sha256_pattern pack_hash))
        (StableCopyResolutionError "stable-copy plan set has an invalid pack hash");
  _ ← validated_plan_payloads plans;
  Ok (hexdigest (dumps (JObj [
    ("schema_version", JStr schema_version); ("compiler_version", JStr compiler_version);
    ("pack_hash", JStr pack_hash);
    ("plans", JObj (map (fun kp => (kp.1, stable_plan_dump kp.2)) (sort_by_key plans)))]))).

Record CompiledStableCopyPlanSetV2 := {
  cps_schema_version : string;
  cps_compiler_version : string;
  cps_plan_set_hash : string;
  cps_plans : plan_set
}.

(** [compile_stable_copy_plan_set_v2]; with unique slots the dict keeps their order. *)
Definition compile_stable_copy_plan_set pack : res CompiledStableCopyPlanSetV2 :=
  items ← build_stable_copy_work_items pack;
  _ ← raise_if (negb (length items =? 5)%nat)
        (StableCopyResolutionError "V2 conversation requires exactly five stable-copy plans");
  let plans := map (fun i => (scp_copy_slot (wi_plan i), wi_plan i)) items in
  _ ← raise_if (negb (uniqueb (map fst plans)))
        (StableCopyResolutionError "stable-copy compiler produced duplicate copy slots");
  hash ← stable_copy_plan_set_hash plans (content_pack_hash_v2 pack) STABLE_COPY_PLAN_SCHEMA_VERSION_V2
           STABLE_COPY_PLAN_COMPILER_VERSION_V2;
  Ok {| cps_schema_version := STABLE_COPY_PLAN_SCHEMA_VERSION_V2;
        cps_compiler_version := STABLE_COPY_PLAN_COMPILER_VERSION_V2; cps_plan_set_hash := hash; cps_plans := plans |}.

(** [expected_slots[copy_slot]]: the last slot of that name. *)
Definition expected_slot pack (name : string) : res CopySlotV2 :=
  or_raise (find_first (fun s => bool_decide (cs_copy_slot s = name)) (rev (hp_copy_slots pack))) (KeyError name).

Definition same_target (t t' : SpeakerTargetV2) : bool :=
  bool_decide (st_fact_ids t = st_fact_ids t') && bool_decide (st_relation_ids t = st_relation_ids t')
  && bool_decide (st_ask_mode t = st_ask_mode t').

(** The loop body of the check of a stored plan against its slot. *)
Definition pinned_plan_matches pack (kp : string * StableCopyPlanV2) : res unit :=
  slot ← expected_slot pack kp.1;
  let plan := kp.2 in
  _ ← raise_if (negb (bool_decide (scp_pack_id plan = hp_pack_id pack)
                      && (scp_content_version plan =? hp_content_version pack)%Z
                      && bool_decide (scp_purpose plan = cs_purpose slot)))
        (StableCopyResolutionError "pinned stable-copy plan does not match the pinned content slot");
  plain ← target_for_slot slot false;
  expected ← (if is_l0 (cs_purpose slot) then opaque ← target_for_slot slot true; Ok [plain; opaque] else Ok [plain]);
  raise_if (negb (existsb (same_target (scp_target plan)) expected))
    (StableCopyResolutionError "pinned stable-copy plan target does not match the pinned content slot").

(** [validate_pinned_stable_copy_plan_set_v2] *)
Definition validate_pinned_plan_set pack (pack_hash : string) (s : CompiledStableCopyPlanSetV2) : res plan_set :=
  _ ← raise_if (negb (bool_decide (cps_schema_version s = STABLE_COPY_PLAN_SCHEMA_VERSION_V2)))
        (StableCopyResolutionError ("unsupported pinned stable-copy plan schema: " ++ cps_schema_version s));
  _ ← raise_if (negb (bool_decide (cps_compiler_version s = STABLE_COPY_PLAN_COMPILER_VERSION_V2)))
        (StableCopyResolutionError ("unsupported pinned stable-copy plan compiler: " ++ cps_compiler_version s));
  plans ← validated_plan_payloads (cps_plans s);
  let slots := fromkeys (map cs_copy_slot (hp_copy_slots pack)) in
  _ ← raise_if (negb (length slots =? 5)%nat)
        (StableCopyResolutionError "pinned content pack must contain exactly five stable-copy slots");
  _ ← raise_if (negb (set_eqb (map fst plans) slots))
        (StableCopyResolutionError "pinned stable-copy plans do not cover the pinned content slots");
  expected ← stable_copy_plan_set_hash (cps_plans s) pack_hash (cps_schema_version s) (cps_compiler_version s);
  _ ← raise_if (negb (bool_decide (cps_plan_set_hash s = expected)))
        (StableCopyResolutionError "pinned stable-copy plan set hash mismatch");
  _ ← each (pinned_plan_matches pack) plans;
  Ok plans.
End plans.

(** * The output *)

(** [StableCopyOutputV2]; its text as code points. *)
Record StableCopyOutputV2 := {
  sco_text : ustr;
  sco_mood : Mood;
  sco_act : string;
  sco_asked_fact_ids : list string;
  sco_asked_relation_ids : list string
}.

Section output.
Context `{TextTables}.

(** [_stable_copy_output_violation_v2] *)
Definition copy_output_violation (o : StableCopyOutputV2) (act : string) (target : SpeakerTargetV2)
    (allowed_numbers : list decimal) (firewall : StableCopyOutputFirewallV2) : option string :=
  if negb (truthy (ustrip (sco_text o))) then Some "empty_text"%string
  else if (2 <? line_count (sco_text o))%nat then Some "too_many_lines"%string
  else if negb (bool_decide (sco_act o = act)) then Some "dialogue_act_mismatch"%string
  else if negb (uniqueb (sco_asked_fact_ids o)) then Some "duplicate_asked_fact_id"%string
  else if negb (uniqueb (sco_asked_relation_ids o)) then Some "duplicate_asked_relation_id"%string
  else if negb (set_eqb (sco_asked_fact_ids o) (st_fact_ids target)) then Some "asked_fact_ids_mismatch"%string
  else if negb (set_eqb (sco_asked_relation_ids o) (st_relation_ids target))
  then Some "asked_relation_ids_mismatch"%string
  else match unresolved_answer_surface_violation (sco_text o) (of_forbidden_values firewall)
               (of_forbidden_surfaces firewall) with
       | Some v => Some v
       | None => if negb (dec_subset (numeric_literals_of (sco_text o)) allowed_numbers)
                 then Some "number_not_allowed"%string else None
       end.

(** [stable_copy_output_violation_v2] *)
Definition stable_copy_output_violation (o : StableCopyOutputV2) (p : StableCopyPlanV2)
    (firewall : StableCopyOutputFirewallV2) : option string :=
  if bool_decide (scp_purpose p = l2_question)
     && existsb (fun label => contains_surface (sco_text o) (utf8_decode label)) (scp_choice_labels p)
  then Some "choice_label_repeated"%string
  else copy_output_violation o (scp_act p) (scp_target p)
         (canonical_numbers (map af_value (scp_visible_facts p))) firewall.
End output.
