(* ===== verification/CopyCache.v ===== *)
(** The cache of generated copy: the key over content-owned material and the
    get-or-generate coordination of one row per key
    ([src/mormi_api/copy_cache.py]). *)

From S2P Require Import Prelude.
From S2P Require Import PyStr.
From S2P Require Import PyNum.
From S2P Require Import Json.
From S2P Require Import Schemas.
From S2P Require Import Evidence.
From S2P Require Import SpeakerText.

Definition STABLE_COPY_CACHE_KEY_VERSION : string := "stable-copy-key-v1".

Definition FORBIDDEN_KEY_MATERIAL_FIELDS : list string :=
  ["address"; "birthdate"; "childid"; "childname"; "childresponse"; "childutterance"; "conversationid";
   "dialoguehistory"; "email"; "evidencespan"; "learnerid"; "learnername"; "learnerprofile"; "phonenumber";
   "rawtext"; "recenthistory"; "responseid"; "turnid"; "userid"].

(** * JSON values *)

Section json.
Context `{TextTables} `{Nfc}.

(** [c.isalnum()]: [\w] without the underscore. *)
Definition is_alnum (c : N) : bool := is_word c && negb (c =? 95)%N.

(** [_compact_field_name] *)
Definition compact_field_name (name : string) : ustr := List.filter is_alnum (casefold (utf8_decode name)).
Definition forbidden_field (name : string) : bool :=
  memb (compact_field_name name) (map utf8_decode FORBIDDEN_KEY_MATERIAL_FIELDS).

Definition nfc (s : string) : string := utf8_encode (normalize_nfc (utf8_decode s)).

(** [_json_value]; error messages without the path of the value. *)
Fixpoint json_value (normalize reject : bool) (j : json) : res json :=
  match j with
  | JNull | JBool _ | JNum _ => Ok j
  | JStr s => Ok (JStr (if normalize then nfc s else s))
  | JArr l =>
      l ← (fix items l := match l with
             | [] => Ok []
             | x :: l => y ← json_value normalize reject x; ys ← items l; Ok (y :: ys)
             end) l;
      Ok (JArr l)
  | JObj kvs =>
      kvs ← (fix items (seen : list string) kvs := match kvs with
               | [] => Ok []
               | (k, x) :: kvs =>
                   _ ← raise_if (reject && forbidden_field k)
                         (StableCopyCacheKeyError ("per-child field is forbidden in stable-copy key material: " ++ k));
                   let key := if normalize then nfc k else k in
                   _ ← raise_if (memb key seen) (ValueError "duplicate JSON key after normalization");
                   y ← json_value normalize reject x;
                   ys ← items (key :: seen) kvs; Ok ((key, y) :: ys)
               end) [] kvs;
      Ok (JObj kvs)
  end.

Definition artifact_value (j : json) : res json := json_value false false j.

(** [_key_component] *)
Definition key_component (value name : string) : res json :=
  let normalized := nfc value in
  _ ← raise_if (bool_decide (normalized = ""%string) || negb (bool_decide (normalized = py_strip normalized)))
        (StableCopyCacheKeyError (name ++ " must be non-empty without edge whitespace"));
  _ ← raise_if (bool_decide (200 < py_len normalized)) (StableCopyCacheKeyError (name ++ " exceeds 200 characters"));
  Ok (JStr normalized).

(** * The key *)

Record CopyKeyMaterial := {
  km_content_revision : string;
  km_content_hash : string;
  km_copy_slot_id : string;
  km_locale : string;
  km_prompt_version : string;
  km_schema_version : string;
  km_validator_version : string;
  km_model_id : string;
  km_generation_config : json;
  km_generation_plan : json
}.

(** [_validate_sha256_hex] *)
Definition validate_sha256_hex (value name : string) : res unit :=
  raise_if (negb (sha256_pattern value)) (ValueError (name ++ " must be a lowercase SHA-256 hex digest")).

Context `{Digest}.

(** [build_stable_copy_cache_key] *)
Definition build_stable_copy_cache_key (m : CopyKeyMaterial) : res string :=
  plan ← json_value true true (km_generation_plan m);
  config ← json_value true true (km_generation_config m);
  _ ← validate_sha256_hex (km_content_hash m) "content_hash";
  revision ← key_component (km_content_revision m) "content_revision";
  slot ← key_component (km_copy_slot_id m) "copy_slot_id";
  locale ← key_component (km_locale m) "locale";
  prompt ← key_component (km_prompt_version m) "prompt_version";
  schema ← key_component (km_schema_version m) "schema_version";
  validator ← key_component (km_validator_version m) "validator_version";
  model ← key_component (km_model_id m) "model_id";
  Ok (hexdigest (dumps (JObj [
    ("namespace", JStr "mormi-dialogue-stable-copy"); ("key_version", JStr STABLE_COPY_CACHE_KEY_VERSION);
    ("content_revision", revision); ("content_hash", JStr (km_content_hash m)); ("copy_slot_id", slot);
    ("locale", locale); ("prompt_version", prompt); ("schema_version", schema); ("validator_version", validator);
    ("model_id", model); ("generation_config", config); ("generation_plan", plan)]))).

(** [_artifact_digest] *)
Definition artifact_digest (j : json) : string := hexdigest (dumps j).
End json.

(** * Rows

    Times are in microseconds. *)

Record CopyCacheRow := {
  gc_key_version : string;
  gc_status : string;
  gc_attempts : nat;
  gc_available_at : Z;
  gc_lease_token : option string;
  gc_artifact_json : json;
  gc_artifact_sha256 : option string;
  gc_last_error_code : option string;
  gc_ready_at : option Z;
  gc_created_at : Z;
  gc_updated_at : Z
}.

Abbreviation copy_db := (gmap string CopyCacheRow).

Record CachedCopyArtifact := {
  ca_cache_key : string;
  ca_artifact : json;
  ca_artifact_sha256 : string;
  ca_ready_at : Z
}.

Record CopyGenerationLease := {
  gl_cache_key : string;
  gl_lease_token : string;
  gl_attempt : nat;
  gl_lease_expires_at : Z
}.

(** [CopyCacheAcquireResult] by its state. *)
Inductive CopyCacheAcquireResult :=
  | AcquireReady (a : CachedCopyArtifact)
  | AcquireLeased (l : CopyGenerationLease)
  | AcquireBusy (retry_at : Z)
  | AcquireBackoff (retry_at : Z).

Record CopyCacheSettings := { lease_seconds : Z; retry_base_seconds : Z; retry_max_seconds : Z }.

(** The checks of [GeneratedCopyCacheRepository.__init__]. *)
Definition copy_cache_settings (s : CopyCacheSettings) : res CopyCacheSettings :=
  _ ← raise_if (lease_seconds s <=? 0)%Z (ValueError "lease_seconds must be positive");
  _ ← raise_if (retry_base_seconds s <=? 0)%Z (ValueError "retry_base_seconds must be positive");
  _ ← raise_if (retry_max_seconds s <? retry_base_seconds s)%Z
        (ValueError "retry_max_seconds must be at least retry_base_seconds");
  Ok s.

Section repository.
Context `{TextTables} `{Nfc} `{Digest} (settings : CopyCacheSettings).

(** The loop of [_retry_delay]. *)
Fixpoint retry_loop (rounds : nat) (delay : Z) : Z :=
  match rounds with
  | O => delay
  | S rounds => if (retry_max_seconds settings <=? delay)%Z then retry_max_seconds settings
                else retry_loop rounds (Z.min (delay * 2) (retry_max_seconds settings))
  end.
Definition copy_retry_delay (attempt : nat) : Z := retry_loop (attempt - 1) (retry_base_seconds settings).

(** [_assert_key_version] *)
Definition assert_key_version (r : CopyCacheRow) : res unit :=
  raise_if (negb (bool_decide (gc_key_version r = STABLE_COPY_CACHE_KEY_VERSION)))
    (CopyCacheCorruptionError ("unsupported generated-copy cache key version: " ++ gc_key_version r)).

(** [_lease] *)
Definition lease_of (key : string) (r : CopyCacheRow) : res CopyGenerationLease :=
  _ ← assert_key_version r;
  token ← or_raise (gc_lease_token r) (CopyCacheCorruptionError "generating cache record has no lease token");
  Ok {| gl_cache_key := key; gl_lease_token := token; gl_attempt := gc_attempts r;
        gl_lease_expires_at := gc_available_at r |}.

(** [_ready_artifact] *)
Definition ready_artifact (key : string) (r : CopyCacheRow) : res CachedCopyArtifact :=
  _ ← assert_key_version r;
  match gc_artifact_sha256 r, gc_ready_at r with
  | Some sha, Some ready_at =>
      artifact ← artifact_value (gc_artifact_json r);
      _ ← raise_if (negb (bool_decide (artifact_digest artifact = sha)))
            (CopyCacheCorruptionError "ready cache artifact digest mismatch");
      Ok {| ca_cache_key := key; ca_artifact := artifact; ca_artifact_sha256 := sha; ca_ready_at := ready_at |}
  | _, _ => Raise (CopyCacheCorruptionError "ready cache record is missing artifact metadata")
  end.

(** [get_ready] *)
Definition get_ready (key : string) (db : copy_db) : res (option CachedCopyArtifact) :=
  _ ← validate_sha256_hex key "cache_key";
  match db !! key with
  | Some r => if bool_decide (gc_status r = "ready"%string) then a ← ready_artifact key r; Ok (Some a) else Ok None
  | None => Ok None
  end.

Definition new_row (token : string) (now : Z) : CopyCacheRow := {|
  gc_key_version := STABLE_COPY_CACHE_KEY_VERSION; gc_status := "generating"; gc_attempts := 1;
  gc_available_at := now + lease_seconds settings; gc_lease_token := Some token; gc_artifact_json := JNull;
  gc_artifact_sha256 := None; gc_last_error_code := None; gc_ready_at := None; gc_created_at := now;
  gc_updated_at := now |}.
Definition leased_row (r : CopyCacheRow) (token : string) (now : Z) : CopyCacheRow := {|
  gc_key_version := gc_key_version r; gc_status := "generating"; gc_attempts := S (gc_attempts r);
  gc_available_at := now + lease_seconds settings; gc_lease_token := Some token;
  gc_artifact_json := gc_artifact_json r; gc_artifact_sha256 := gc_artifact_sha256 r; gc_last_error_code := None;
  gc_ready_at := gc_ready_at r; gc_created_at := gc_created_at r; gc_updated_at := now |}.

(** [_acquire_existing] *)
Definition acquire_existing (key : string) (now : Z) (token : string) (db : copy_db)
    : res (CopyCacheAcquireResult * copy_db) :=
  match db !! key with
  | None => Ok (AcquireBusy now, db)
  | Some r =>
      _ ← assert_key_version r;
      if bool_decide (gc_status r = "ready"%string) then a ← ready_artifact key r; Ok (AcquireReady a, db)
      else
        _ ← raise_if (negb (memb (gc_status r) ["generating"; "retry"]%string))
              (CopyCacheCorruptionError ("unknown generated-copy cache status: " ++ gc_status r));
        if (now <? gc_available_at r)%Z then
          Ok (if bool_decide (gc_status r = "generating"%string) then AcquireBusy (gc_available_at r)
              else AcquireBackoff (gc_available_at r), db)
        else
          let r' := leased_row r token now in
          l ← lease_of key r';
          Ok (AcquireLeased l, <[key := r']> db)
  end.

(** [acquire] without a race: with one, the insert fails and the second transaction
    [acquire_existing] runs on what the winner left. *)
Definition acquire (key : string) (now : Z) (token : string) (db : copy_db)
    : res (CopyCacheAcquireResult * copy_db) :=
  _ ← validate_sha256_hex key "cache_key";
  match db !! key with
  | None =>
      let r := new_row token now in
      l ← lease_of key r;
      Ok (AcquireLeased l, <[key := r]> db)
  | Some _ => acquire_existing key now token db
  end.

(** The fence of [complete] and [fail]. *)
Definition holds_lease (l : CopyGenerationLease) (r : CopyCacheRow) : bool :=
  bool_decide (gc_status r = "generating"%string) && (gc_attempts r =? gl_attempt l)%nat
  && bool_decide (gc_lease_token r = Some (gl_lease_token l)).

Definition ready_row (r : CopyCacheRow) (artifact : json) (now : Z) : CopyCacheRow := {|
  gc_key_version := gc_key_version r; gc_status := "ready"; gc_attempts := gc_attempts r; gc_available_at := now;
  gc_lease_token := None; gc_artifact_json := artifact; gc_artifact_sha256 := Some (artifact_digest artifact);
  gc_last_error_code := None; gc_ready_at := Some now; gc_created_at := gc_created_at r; gc_updated_at := now |}.

(** [complete] *)
Definition complete_copy (l : CopyGenerationLease) (artifact : json) (now : Z) (db : copy_db)
    : res (option CachedCopyArtifact * copy_db) :=
  let key := gl_cache_key l in
  _ ← validate_sha256_hex key "cache_key";
  canonical ← artifact_value artifact;
  match db !! key with
  | Some r =>
      if holds_lease l r then
        _ ← assert_key_version r;
        let r' := ready_row r canonical now in
        a ← ready_artifact key r';
        Ok (Some a, <[key := r']> db)
      else Ok (None, db)
  | None => Ok (None, db)
  end.

(** [_validate_error_code] *)
Definition is_error_code_char (c : Ascii.ascii) : bool :=
  let n := Ascii.N_of_ascii c in ((65 <=? n) && (n <=? 90) || (48 <=? n) && (n <=? 57) || (n =? 95))%N.
Definition validate_error_code (code : string) : res unit :=
  raise_if (negb (bool_decide (1 <= String.length code <= 80) && string_forallb is_error_code_char code))
    (ValueError "error_code must contain only uppercase ASCII letters, digits, or underscore").

Definition retry_row (r : CopyCacheRow) (code : string) (retry_at now : Z) : CopyCacheRow := {|
  gc_key_version := gc_key_version r; gc_status := "retry"; gc_attempts := gc_attempts r;
  gc_available_at := retry_at; gc_lease_token := None; gc_artifact_json := gc_artifact_json r;
  gc_artifact_sha256 := gc_artifact_sha256 r; gc_last_error_code := Some code; gc_ready_at := gc_ready_at r;
  gc_created_at := gc_created_at r; gc_updated_at := now |}.

(** [fail] *)
Definition fail_copy (l : CopyGenerationLease) (code : string) (now : Z) (db : copy_db) : res (option Z * copy_db) :=
  let key := gl_cache_key l in
  _ ← validate_sha256_hex key "cache_key";
  _ ← validate_error_code code;
  match db !! key with
  | Some r =>
      if holds_lease l r then
        _ ← assert_key_version r;
        let retry_at := (now + copy_retry_delay (gc_attempts r))%Z in
        Ok (Some retry_at, <[key := retry_row r code retry_at now]> db)
      else Ok (None, db)
  | None => Ok (None, db)
  end.

(** A transaction of any process. *)
Inductive CopyOp :=
  | OpAcquire (key : string) (now : Z) (token : string)
  | OpAcquireExisting (key : string) (now : Z) (token : string)
  | OpComplete (l : CopyGenerationLease) (artifact : json) (now : Z)
  | OpFail (l : CopyGenerationLease) (code : string) (now : Z).

Definition after {A} (r : res (A * copy_db)) (db : copy_db) : copy_db :=
  match r with Ok (_, db') => db' | Raise _ => db end.
Definition copy_step (db : copy_db) (o : CopyOp) : copy_db :=
  match o with
  | OpAcquire key now token => after (acquire key now token db) db
  | OpAcquireExisting key now token => after (acquire_existing key now token db) db
  | OpComplete l artifact now => after (complete_copy l artifact now db) db
  | OpFail l code now => after (fail_copy l code now db) db
  end.
Definition copy_history (db : copy_db) (l : list CopyOp) : copy_db := foldl copy_step db l.
End repository.
