(* ===== verification/CopyResolver.v ===== *)
(** The resolution of one stable copy: a pinned text, a cached or freshly generated
    artifact, or the reviewed fallback, each behind the output firewall
    ([StableCopyResolverV2] of [src/mormi_api/dialogue_v2_copy.py]), and the copy a
    turn says ([_stable_fallback] of [src/mormi_api/dialogue_v2_runtime.py]). *)

From S2P Require Import Prelude.
From S2P Require Import PyStr.
From S2P Require Import PyNum.
From S2P Require Import Json.
From S2P Require Import Schemas.
From S2P Require Import Evidence.
From S2P Require Import Packs.
From S2P Require Import PackDump.
From S2P Require Import ContentChecks.
From S2P Require Import State.
From S2P Require Import Question.
From S2P Require Import SpeakerText.
From S2P Require Import SpeakerPlan.
From S2P Require Import StableCopy.
From S2P Require Import CopyCache.

(** * Artifacts *)

Inductive CopyOrigin := origin_generated | origin_reviewed_fallback.
#[export] Instance CopyOrigin_eq_dec : EqDecision CopyOrigin. Proof. solve_decision. Defined.

Record StableCopyArtifactMetadataV2 := {
  am_origin : CopyOrigin;
  am_pack_id : string;
  am_content_version : Z;
  am_pack_hash : string;
  am_copy_slot : string;
  am_plan_sha256 : string;
  am_prompt_version : string;
  am_output_schema_version : string;
  am_validator_version : string;
  am_model_id : string;
  am_effort : string;
  am_generation_config : list (string * string);
  am_generated_at : option Z
}.
#[export] Instance StableCopyArtifactMetadataV2_eq_dec : EqDecision StableCopyArtifactMetadataV2.
Proof. solve_decision. Defined.

Record StableCopyCacheArtifactV2 := { ce_output : StableCopyOutputV2; ce_metadata : StableCopyArtifactMetadataV2 }.

Inductive StableCopyResolutionStatusV2 :=
  | CS_pinned | CS_hit | CS_generated | CS_seeded_reviewed_fallback | CS_contended_fallback
  | CS_generation_fallback | CS_reviewed_fallback.
#[export] Instance StableCopyResolutionStatusV2_eq_dec : EqDecision StableCopyResolutionStatusV2.
Proof. solve_decision. Defined.

Record StableCopyResolutionV2 := {
  cr_output : StableCopyOutputV2;      (* text, mood, dialogue_act, asked ids *)
  cr_status : StableCopyResolutionStatusV2;
  cr_full_cache_key : string;
  cr_artifact_sha256 : option string;
  cr_artifact_metadata : StableCopyArtifactMetadataV2;
  cr_fallback_reason : option string
}.

(** The field checks of [StableCopyOutputV2.model_validate]. *)
Definition output_fields (o : StableCopyOutputV2) : bool :=
  content_id 100 (sco_act o) && list_field 0 8 (sco_asked_fact_ids o) && list_field 0 8 (sco_asked_relation_ids o).

(** The fields of [StableCopyResolutionV2] its constructor checks, besides ids and
    hashes built by the resolver itself. *)
Definition stable_copy_resolution (r : StableCopyResolutionV2) : res StableCopyResolutionV2 :=
  let o := cr_output r in
  _ ← check (truthy (sco_text o) && bool_decide (1 <= py_len (sco_act o) <= 100)
             && list_field 0 8 (sco_asked_fact_ids o) && list_field 0 8 (sco_asked_relation_ids o)
             && sha256_pattern (cr_full_cache_key r)) "stable-copy resolution fields";
  Ok r.

(** Pydantic's reading and writing of stored JSON. *)
Class CopyCodec := {
  artifact_validate : json -> res StableCopyCacheArtifactV2;
  artifact_dump : StableCopyCacheArtifactV2 -> json;
  resolution_validate : json -> res StableCopyResolutionV2
}.

(** The settings the resolver reads; the generation configuration as rendered. *)
Record CopySettings := {
  cf_prompt_version : string;
  cf_schema_version : string;
  cf_validator_version : string;
  cf_model : string;
  cf_effort : string;
  cf_generation_config : list (string * string);
  cf_generation_config_json : json
}.

Section resolver.
Context `{Digest} `{Nfc} `{TextTables} `{CopyCodec} (settings : CopySettings).
Implicit Types (p : StableCopyPlanV2) (fw : StableCopyOutputFirewallV2).

(** [_cache_key] *)
Definition copy_cache_key p (pack_hash : string) : res string :=
  build_stable_copy_cache_key {|
    km_content_revision := (scp_pack_id p ++ ":v" ++ str_Z (scp_content_version p))%string;
    km_content_hash := pack_hash; km_copy_slot_id := scp_copy_slot p; km_locale := "ko-KR";
    km_prompt_version := cf_prompt_version settings; km_schema_version := cf_schema_version settings;
    km_validator_version := cf_validator_version settings; km_model_id := cf_model settings;
    km_generation_config := cf_generation_config_json settings; km_generation_plan := stable_plan_dump p |}.

(** [_metadata]; the checks of its fields hold: those of the plan's by the plan, the
    versions' and the hash's by the key computed before it; the effort is taken within
    its bound of 30 characters. *)
Definition copy_metadata p (pack_hash : string) (origin : CopyOrigin) (generated_at : option Z)
    : StableCopyArtifactMetadataV2 := {|
  am_origin := origin; am_pack_id := scp_pack_id p; am_content_version := scp_content_version p;
  am_pack_hash := pack_hash; am_copy_slot := scp_copy_slot p; am_plan_sha256 := plan_sha256 p;
  am_prompt_version := cf_prompt_version settings; am_output_schema_version := cf_schema_version settings;
  am_validator_version := cf_validator_version settings; am_model_id := cf_model settings;
  am_effort := cf_effort settings; am_generation_config := cf_generation_config settings;
  am_generated_at := generated_at |}.

Definition fallback_mood (u : CopyPurpose) : Mood :=
  match u with initial_help | l2_question => curious | l0_intro => thinking | l0_action => listening end.

(** [_fallback_output] *)
Definition fallback_output p (reviewed_fallback : string) fw : res StableCopyOutputV2 :=
  let output := {|
    sco_text := ustrip (utf8_decode reviewed_fallback); sco_mood := fallback_mood (scp_purpose p);
    sco_act := scp_act p; sco_asked_fact_ids := st_fact_ids (scp_target p);
    sco_asked_relation_ids := st_relation_ids (scp_target p) |} in
  match stable_copy_output_violation output p fw with
  | Some v => Raise (StableCopyResolutionError ("reviewed stable-copy fallback violated its plan: " ++ v))
  | None => Ok output
  end.

(** [_result] *)
Definition copy_result (o : StableCopyOutputV2) (status : StableCopyResolutionStatusV2) (key : string)
    (metadata : StableCopyArtifactMetadataV2) (sha reason : option string) : res StableCopyResolutionV2 :=
  stable_copy_resolution {|
    cr_output := {| sco_text := ustrip (sco_text o); sco_mood := sco_mood o; sco_act := sco_act o;
                    sco_asked_fact_ids := sco_asked_fact_ids o;
                    sco_asked_relation_ids := sco_asked_relation_ids o |};
    cr_status := status; cr_full_cache_key := key; cr_artifact_sha256 := sha; cr_artifact_metadata := metadata;
    cr_fallback_reason := reason |}.

(** [_validated_output] *)
Definition validated_output (o : StableCopyOutputV2) p fw : res StableCopyOutputV2 :=
  match stable_copy_output_violation o p fw with
  | Some v => Raise (StableCopyOutputViolationError ("stable-copy output violated its plan: " ++ v))
  | None => Ok o
  end.

(** [_from_cached_artifact] *)
Definition from_cached_artifact (a : CachedCopyArtifact) p (pack_hash : string)
    (status : StableCopyResolutionStatusV2) fw : res StableCopyResolutionV2 :=
  envelope ← artifact_validate (ca_artifact a);
  let metadata := ce_metadata envelope in
  _ ← raise_if (negb (bool_decide (metadata = copy_metadata p pack_hash (am_origin metadata) (am_generated_at metadata))))
        (StableCopyResolutionError "stable-copy cache metadata mismatch");
  output ← validated_output (ce_output envelope) p fw;
  copy_result output status (ca_cache_key a) metadata (Some (ca_artifact_sha256 a)) None.

(** [_from_pinned_snapshot] *)
Definition from_pinned_snapshot (pinned : json) p (pack_hash : string) fw : res StableCopyResolutionV2 :=
  snapshot ← resolution_validate pinned;
  let m := cr_artifact_metadata snapshot in
  _ ← raise_if (negb (bool_decide (am_pack_id m = scp_pack_id p) && (am_content_version m =? scp_content_version p)%Z
                      && bool_decide (am_pack_hash m = pack_hash) && bool_decide (am_copy_slot m = scp_copy_slot p)
                      && bool_decide (am_plan_sha256 m = plan_sha256 p)))
        (StableCopyResolutionError "pinned stable-copy snapshot does not match plan");
  _ ← validated_output (cr_output snapshot) p fw;
  Ok {| cr_output := cr_output snapshot; cr_status := CS_pinned; cr_full_cache_key := cr_full_cache_key snapshot;
        cr_artifact_sha256 := cr_artifact_sha256 snapshot; cr_artifact_metadata := m;
        cr_fallback_reason := cr_fallback_reason snapshot |}.

(** [_fallback_result] *)
Definition fallback_result p (reviewed_fallback pack_hash key : string) fw (status : StableCopyResolutionStatusV2)
    (reason : string) : res StableCopyResolutionV2 :=
  output ← fallback_output p reviewed_fallback fw;
  copy_result output status key (copy_metadata p pack_hash origin_reviewed_fallback None) None (Some reason).

(** * [resolve]

    What the calls of one resolution return: the two reads, the acquisition and the
    completion of the cache, the generator, and the clock.  The failure recorded for a
    lease ([_mark_failure]) has no effect on the result: [CopyCache.fail_copy]. *)

Inductive GeneratorOutcome := Generated (o : StableCopyOutputV2) | GeneratorTimeout | GeneratorFailed.

Record CopyCalls := {
  cc_get_ready : res (option CachedCopyArtifact);
  cc_acquire : res CopyCacheAcquireResult;
  cc_generate : StableCopyPlanV2 -> GeneratorOutcome;
  cc_complete : json -> res (option CachedCopyArtifact);
  cc_get_ready_again : res (option CachedCopyArtifact);
  cc_now : Z
}.

(** [except (StableCopyResolutionError, ValueError)] *)
Definition copy_or_value_error (e : pyexn) : bool :=
  match e with
  | StableCopyResolutionError _ | StableCopyOutputViolationError _ | StableCopyCacheKeyError _
  | ValueError _ | ValidationError _ => true
  | _ => false
  end.
Definition or_else {A} (r : res A) (handles : pyexn -> bool) (otherwise : res A) : res A :=
  match r with Ok a => Ok a | Raise e => if handles e then otherwise else Raise e end.

(** [try: ... except Exception: x = None] *)
Definition or_none {A} (r : res (option A)) : option A := match r with Ok o => o | Raise _ => None end.

(** The cached copy, or the reviewed fallback with a reason. *)
Definition cached_or_fallback (a : CachedCopyArtifact) p (reviewed_fallback pack_hash key : string) fw
    : res StableCopyResolutionV2 :=
  or_else (from_cached_artifact a p pack_hash CS_hit fw) copy_or_value_error
    (fallback_result p reviewed_fallback pack_hash key fw CS_reviewed_fallback "CACHE_ARTIFACT_INVALID").

(** The end of [resolve], on a candidate of the model: it is stored, unless another
    process has stored one first. *)
Definition store_candidate (calls : CopyCalls) (o : StableCopyOutputV2) p (reviewed_fallback pack_hash key : string) fw
    : res StableCopyResolutionV2 :=
  let envelope := {| ce_output := o;
    ce_metadata := copy_metadata p pack_hash origin_generated (Some (cc_now calls)) |} in
  match or_none (cc_complete calls (artifact_dump envelope)) with
  | Some completed => from_cached_artifact completed p pack_hash CS_generated fw
  | None =>
      let lost := fallback_result p reviewed_fallback pack_hash key fw CS_contended_fallback "LEASE_LOST" in
      match or_none (cc_get_ready_again calls) with
      | Some winner => or_else (from_cached_artifact winner p pack_hash CS_hit fw) copy_or_value_error lost
      | None => lost
      end
  end.

(** A candidate the firewall rejects: an L0 plan seeds the reviewed fallback. *)
Definition reject_candidate (calls : CopyCalls) (fallback : StableCopyOutputV2) p
    (reviewed_fallback pack_hash key : string) fw : res StableCopyResolutionV2 :=
  let rejected := fallback_result p reviewed_fallback pack_hash key fw CS_generation_fallback "OUTPUT_GUARD_REJECTED" in
  if is_l0 (scp_purpose p) then
    let envelope := {| ce_output := fallback;
      ce_metadata := copy_metadata p pack_hash origin_reviewed_fallback (Some (cc_now calls)) |} in
    match or_none (cc_complete calls (artifact_dump envelope)) with
    | Some completed => from_cached_artifact completed p pack_hash CS_seeded_reviewed_fallback fw
    | None =>
        match or_none (cc_get_ready_again calls) with
        | Some winner => from_cached_artifact winner p pack_hash CS_hit fw
        | None => rejected
        end
    end
  else rejected.

(** The part of [resolve] that uses the cache. *)
Definition resolve_cached (calls : CopyCalls) p (reviewed_fallback pack_hash : string) fw : res StableCopyResolutionV2 :=
  key ← copy_cache_key p pack_hash;
  fallback ← fallback_output p reviewed_fallback fw;
  let fall_back status reason := fallback_result p reviewed_fallback pack_hash key fw status reason in
  match cc_get_ready calls with
  | Raise _ => fall_back CS_reviewed_fallback "CACHE_LOOKUP_FAILED"%string
  | Ok (Some ready) => cached_or_fallback ready p reviewed_fallback pack_hash key fw
  | Ok None =>
      match cc_acquire calls with
      | Raise _ => fall_back CS_reviewed_fallback "CACHE_ACQUIRE_FAILED"%string
      | Ok (AcquireReady a) => cached_or_fallback a p reviewed_fallback pack_hash key fw
      | Ok (AcquireBusy _) => fall_back CS_contended_fallback "CACHE_BUSY"%string
      | Ok (AcquireBackoff _) => fall_back CS_contended_fallback "CACHE_BACKOFF"%string
      | Ok (AcquireLeased _) =>
          match cc_generate calls p with
          | GeneratorTimeout => fall_back CS_generation_fallback "MODEL_TIMEOUT"%string
          | GeneratorFailed => fall_back CS_generation_fallback "GENERATION_FAILED"%string
          | Generated o =>
              if negb (output_fields o) then fall_back CS_generation_fallback "GENERATION_FAILED"%string
              else match stable_copy_output_violation o p fw with
              | Some _ => reject_candidate calls fallback p reviewed_fallback pack_hash key fw
              | None => store_candidate calls o p reviewed_fallback pack_hash key fw
              end
          end
      end
  end.

(** [resolve] *)
Definition resolve (calls : CopyCalls) p (reviewed_fallback pack_hash : string) fw (pinned : option json)
    : res StableCopyResolutionV2 :=
  if is_l0 (scp_purpose p) && negb (is_safe_l0_generation_plan p) then
    key ← copy_cache_key p pack_hash;
    fallback_result p SAFE_L0_MORMI_FALLBACK_V2 pack_hash key fw CS_reviewed_fallback "LEGACY_L0_MODEL_BYPASSED"
  else
    match pinned with
    | Some snapshot =>
        match from_pinned_snapshot snapshot p pack_hash fw with
        | Raise (StableCopyOutputViolationError _) =>
            key ← copy_cache_key p pack_hash;
            fallback_result p reviewed_fallback pack_hash key fw CS_reviewed_fallback "PINNED_OUTPUT_GUARD_REJECTED"
        | r => r
        end
    | None => resolve_cached calls p reviewed_fallback pack_hash fw
    end.

(** * The copy of a turn *)

(** [StableCopyResolution] of the runtime. *)
Record StableCopyResolution := {
  sr_text : ustr;
  sr_mood : Mood;
  sr_act : string;
  sr_status : StableCopyResolutionStatusV2;
  sr_resolution : option StableCopyResolutionV2      (* cache_key, artifact and the pinned copy *)
}.

(** The transition a copy was prewarmed for. *)
Definition transition_matches (n : StableCopyTransitionV2) (before after : ladder_state) : bool :=
  bool_decide (sct_from_expression_level n = expression_level before)
  && bool_decide (sct_from_hint_level n = hint_level before)
  && bool_decide (sct_to_expression_level n = expression_level after)
  && bool_decide (sct_to_hint_level n = hint_level after).

Definition normalized_status (r : StableCopyResolutionV2) : StableCopyResolutionStatusV2 :=
  if decide (cr_status r = CS_pinned) then
    if decide (am_origin (cr_artifact_metadata r) = origin_generated) then CS_hit else CS_reviewed_fallback
  else cr_status r.

(** [_stable_fallback]; without a resolver [calls] is [None], and [pinned] is the copy the conversation holds for
    the slot. *)
Definition stable_copy_of_turn (calls : option CopyCalls) (pack : RequiredHomeTeachingPackV2) (pack_hash : string)
    (plans : plan_set) (pinned : string -> option json) (before after : ladder_state) (q : QuestionContract)
    : res (option StableCopyResolution) :=
  match qc_copy_slot q with
  | None => Ok None
  | Some slot =>
      plan ← or_raise (snd <$> find_first (fun kp => bool_decide (kp.1 = cs_copy_slot slot)) plans)
               (ValueError "pinned stable-copy plan is missing for the copy slot");
      if negb (transition_matches (scp_transition plan) before after) then Ok None
      else
        let resolution := {| sr_text := utf8_decode (cs_reviewed_fallback slot); sr_mood := thinking;
                             sr_act := scp_act plan; sr_status := CS_reviewed_fallback; sr_resolution := None |} in
        match calls, is_l0 (cs_purpose slot) with
        | None, _ | _, true => Ok (Some resolution)
        | Some calls, false =>
          let fw := build_stable_copy_output_firewall pack slot in
          raw ← resolve calls plan (cs_reviewed_fallback slot) pack_hash fw (pinned (cs_copy_slot slot));
          match stable_copy_output_violation (cr_output raw) plan fw with
          | Some _ => Ok (Some resolution)
          | None => Ok (Some {| sr_text := sco_text (cr_output raw); sr_mood := sco_mood (cr_output raw);
                                sr_act := sco_act (cr_output raw); sr_status := normalized_status raw;
                                sr_resolution := Some raw |})
          end
        end
  end.
End resolver.
