(* ===== verification/Turn.v ===== *)
(** One turn of the home engine, whole: initialisation, the turn graph of
    [src/mormi_api/dialogue_v2_graph.py] (interpret, apply progress, complete or
    speak, compose) and its nodes, the [_*_execution] hooks of
    [src/mormi_api/dialogue_v2_runtime.py].  A turn maps a stored state and a
    child response to the next state and the contract shown to the child, or
    raises and leaves the stored state alone. *)

From S2P Require Import Prelude.
From S2P Require Import PyStr.
From S2P Require Import PyNum.
From S2P Require Import Json.
From S2P Require Import Schemas.
From S2P Require Import Requests.
From S2P Require Import Evidence.
From S2P Require Import Packs.
From S2P Require Import PackDump.
From S2P Require Import Snapshot.
From S2P Require Import Ledger.
From S2P Require Import State.
From S2P Require Import Ladder.
From S2P Require Import Understand.
From S2P Require Import Question.
From S2P Require Import Respond.
From S2P Require Import Reply.
From S2P Require Import SpeakerText.
From S2P Require Import SpeakerPlan.
From S2P Require Import Speak.

(** What the engine takes from outside: the Unicode tables, the two speaker models,
    which may answer differently at every state, and the stable-copy cache.
    [stable_fallback] is [None] when the question has no copy slot or the ladder made
    another transition than the slot's. *)
Class SpeechPort := {
  speech_tables :: TextTables;
  stable_fallback : SessionState -> TaskPackV2 -> QuestionContract -> ExpressionLevel -> HintLevel ->
    option (string * Mood * string);
  speaker_model : SessionState -> nat -> SpeakerPlanV2 -> SpeakerOutcome;
  bridge_model : SessionState -> BridgePlanV2 -> SpeakerOutcome
}.

(** [_TurnSpeech]: text, mood and the emitted dialogue act. *)
Record TurnSpeech := { sp_text : string; sp_mood : Mood; sp_dialogue_act : string }.

Inductive SpeechRoute := SR_main | SR_bridge | SR_stable | SR_safety | SR_understanding_fallback.

(** [_execution_speech_route] *)
Definition execution_speech_route (t : TurnSemantics) (has_stable : bool) : SpeechRoute :=
  if decide (ts_route t = RO_understanding_fallback) then SR_understanding_fallback
  else if has_stable && bool_decide (ts_route t = RO_stable) then SR_stable
  else if decide (ts_route t = RO_safety) then SR_safety
  else if decide (ts_route t = RO_bridge) then SR_bridge
  else SR_main.

(** The audit row of a turn ([SpeakerRuntimeAudit], its engine fields). *)
Record RuntimeAudit := {
  ra_dialogue_act : string;
  ra_understanding_source : UnderstandingSource;
  ra_understanding_attempts : nat;
  ra_evidence_guard_status : GuardStatus;
  ra_new_progress : bool;
  ra_newly_verified_fact_ids : list string;
  ra_newly_verified_relation_ids : list string
}.

Record EngineTurnResult := {
  tr_state : SessionState;
  tr_analysis : UtteranceAnalysis;
  tr_turn : TurnContract;
  tr_runtime : RuntimeAudit;
  tr_accepted_claims : gmap string pyvalue
}.

Definition runtime_audit (t : TurnSemantics) (s : TurnSpeech) : RuntimeAudit := {|
  ra_dialogue_act := sp_dialogue_act s; ra_understanding_source := ts_understanding_source t;
  ra_understanding_attempts := ts_attempts t; ra_evidence_guard_status := ts_guard_status t;
  ra_new_progress := has_new_canonical_progress (ts_apply_result t);
  ra_newly_verified_fact_ids := new_fact_ids (ar_log (ts_apply_result t));
  ra_newly_verified_relation_ids := new_relation_ids (ar_log (ts_apply_result t)) |}.

(** The finite message of a completed session. *)
Definition completion_speech (t : TurnSemantics) : TurnSpeech := {|
  sp_text := "고마워~ 네가 도와줘서 끝까지 이해할 수 있었어!"; sp_mood := celebrating;
  sp_dialogue_act := dialogue_act t |}.

Section speech.
Context `{SpeechPort}.

(** [_render_execution_speech]; [next] is the state after the turn, [before_hint] the
    hint level before it. *)
Definition render_speech (next : SessionState) (before_hint : HintLevel) (supported : list string) (p : TaskPackV2)
    (t : TurnSemantics) (q : QuestionContract) (stable : option (string * Mood * string)) (fallback : string)
    : res TurnSpeech :=
  let act := dialogue_act t in
  if decide (ts_route t = RO_understanding_fallback) then
    Ok {| sp_text := fallback; sp_mood := thinking; sp_dialogue_act := act |}
  else if uses_reviewed_expression_support t then
    Ok {| sp_text := qc_fallback q; sp_mood := thinking; sp_dialogue_act := act |}
  else
    match stable, bool_decide (ts_route t = RO_stable) with
    | Some (text, mood, stable_act), true =>
        Ok {| sp_text := text; sp_mood := mood; sp_dialogue_act := stable_act |}
    | _, _ =>
        if decide (ts_route t = RO_safety) then
          Ok {| sp_text := unsafe_fallback (qc_fallback q); sp_mood := thinking; sp_dialogue_act := act |}
        else
          out ← (if decide (ts_route t = RO_bridge)
                 then bridge (bridge_model next) (ladder next) (subgoal_id next) p t q fallback before_hint
                 else speak (speaker_model next) (ladder next) (subgoal_id next) supported p t q fallback before_hint);
          Ok {| sp_text := spr_text out; sp_mood := spr_mood out; sp_dialogue_act := act |}
    end.
End speech.

Section turn.
Context `{Digest} `{PackModel} `{Nfc} `{SpeechPort}.

(** The fresh identifiers of one turn. *)
Record FreshIds := { fresh_turn_id : string; fresh_note_id : string }.

(** [_build_turn]; the question contract updates the state once more. *)
Definition build_turn (ids : FreshIds) (state : SessionState) (pack : RequiredHomeTeachingPackV2)
    (lg : ReasoningLedgerV2) (text : string) (mood : Mood) : res (SessionState * TurnContract) :=
  out ← question_contract state pack lg;
  let state := out.1 in
  let question := out.2 in
  let o := outcome state in
  let done := bool_decide (ss_status o = COMPLETED) in
  completion ← match done, completion_outcome o with
               | true, Some result =>
                   facts ← completion_facts pack lg;
                   Ok (Some {| cc_outcome := result;
                               cc_teach_reward_eligible := teach_reward_eligible o;
                               cc_stage_completion_eligible := true;
                               cc_verified_facts := facts |})
               | _, _ => Ok None
               end;
  mormi ← mormi_contract text mood;
  anchor ← (if bool_decide (ss_status o = ACTIVE)
            then a ← task_anchor pack (qc_input question); Ok (Some a) else Ok None);
  Ok (state, {|
    tc_turn_id := fresh_turn_id ids; tc_task_id := "home_teaching"; tc_stage_id := "home_teach";
    tc_task_index := task_index state; tc_mormi := mormi;
    tc_input := qc_input question;
    tc_visual := if done then {| vc_type := "success"; vc_data := [("task", JStr "home_teaching")] |}
                 else base_visual pack;
    tc_help_card := help_card pack (hint_level (ladder state));
    tc_note_update := note_update state pack lg (fresh_note_id ids);
    tc_status := ss_status o; tc_state_version := state_version state;
    tc_completion := completion;
    tc_task_anchor := anchor |}).

(** [initialize_state] *)
Definition initialize_state (ids : FreshIds) (pack : RequiredHomeTeachingPackV2)
    (state : SessionState) : res (SessionState * TurnContract) :=
  _ ← raise_if (bool_decide (runtime_contract_version state <> VERDICT_V1))
        (ValueError "V2 state must be pinned to verdict-v1");
  snapshot ← pin_content_pack_v2 pack;
  ledger ← empty_reasoning_ledger_v2 (HomeSnapshot snapshot);
  let state := with_pinned state {|
    pd_pack_id := pc_pack_id snapshot; pd_content_version := pc_content_version snapshot;
    pd_source_hash := pc_content_hash snapshot; pd_pack_snapshot := pc_pack_payload snapshot;
    pd_reasoning_ledger := ledger |} in
  let l := with_hint (with_expression (ladder state) (canonical (expression_level (ladder state)))) H0 in
  let state := with_subgoal (with_ladder state l) (qp_plan_id (hp_initial_question pack)) in
  opening ← (if decide (expression_level l = L4)
             then Ok (state, qp_reviewed_fallback (hp_initial_question pack))
             else out ← question_contract state pack ledger; Ok (out.1, qc_fallback out.2));
  let state := with_outcome opening.1 (with_verified_slots (outcome opening.1) ∅) in
  out ← build_turn ids state pack ledger opening.2 curious;
  Ok (with_turn out.1 (state_version out.1) (Some (tc_turn_id out.2)), out.2).

(** [_interpret_execution] *)
Definition interpret_execution (gateway : nat -> UnderstandingRequestV2 -> GatewayOutcome)
    (state : SessionState) (pack : RequiredHomeTeachingPackV2) (snapshot : PinnedContentSnapshotV2)
    (lg : ReasoningLedgerV2) (response : ChildResponse) (previous_question : string)
    (recent : list DialogueHistoryTurn) : res TurnSemantics :=
  let s := HomeSnapshot snapshot in
  let l := ladder state in
  match cr_type response with
  | RT_TEXT =>
      targets ← targets_from_active_state (expression_level l) pack lg;
      understand_text gateway l (HomePack pack) s lg targets response previous_question recent
  | RT_NO_RESPONSE => no_response_semantics l s lg response
  | RT_CHOICE | RT_FILL =>
      choice_semantics (expression_level l) (subgoal_id state) pack s lg response
  | RT_ACTION => joint_semantics l (HomePack pack) s lg response
  | RT_COUNT | RT_EQUATION =>
      Raise (ValueError "V2 home teaching received an unsupported response type")
  end.

(** [_apply_execution]: [state] is the stored state, [next] the copy. *)
Definition apply_execution (state next : SessionState) (pack : RequiredHomeTeachingPackV2)
    (t : TurnSemantics) : res SessionState :=
  let next := with_ladder next (apply_ladder_policy (ladder next) t) in
  next ← store_ledger next (ar_ledger (ts_apply_result t));
  slots ← sync_legacy_slots pack (ar_ledger (ts_apply_result t));
  let next := with_outcome next (with_verified_slots (outcome next) slots) in
  Ok (with_notes next (track_note_provenance (notes next) (HomePack pack) t
        (hint_level (ladder state)) (hint_level (ladder next)))).

(** [_prepare_execution_speech] and [_render_execution_speech] *)
Definition speech_execution (state next : SessionState) (pack : RequiredHomeTeachingPackV2)
    (t : TurnSemantics) : res (SessionState * TurnSpeech) :=
  out ← question_contract next pack (ar_ledger (ts_apply_result t));
  let next := out.1 in
  question ← (if ts_initial_help t then initial_help_question_contract pack out.2 else Ok out.2);
  let p := HomePack pack in
  let stable := stable_fallback next p question (expression_level (ladder state))
                  (hint_level (ladder state)) in
  fallback ← conversational_fallback p t question
               (negb (bool_decide (hint_level (ladder next) = H0)))
               (negb (bool_decide (hint_level (ladder next) = hint_level (ladder state))))
               (concept_failures (ladder next));
  speech ← render_speech next (hint_level (ladder state)) (supported_note_slots (notes next)) p t question stable fallback;
  Ok (next, speech).

(** [_compose_execution] *)
Definition compose_execution (ids : FreshIds) (next : SessionState)
    (pack : RequiredHomeTeachingPackV2) (t : TurnSemantics) (speech : TurnSpeech)
    : res EngineTurnResult :=
  out ← build_turn ids next pack (ar_ledger (ts_apply_result t)) (sp_text speech) (sp_mood speech);
  let next := with_turn out.1 (state_version out.1) (Some (tc_turn_id out.2)) in
  Ok {| tr_state := next; tr_analysis := compatibility_analysis t; tr_turn := out.2;
        tr_runtime := runtime_audit t speech;
        tr_accepted_claims := verified_slots (outcome next) |}.

(** The turn graph on an interpreted turn. *)
Definition finish_turn (ids : FreshIds) (state : SessionState) (pack : RequiredHomeTeachingPackV2)
    (t : TurnSemantics) : res EngineTurnResult :=
  let next := with_turn state (state_version state + 1) None in
  next ← apply_execution state next pack t;
  spoken ← (if complete (ar_completion (ts_apply_result t)) then
              done ← complete_state next (HomePack pack) t; Ok (done, completion_speech t)
            else speech_execution state next pack t);
  compose_execution ids spoken.1 pack t spoken.2.

(** [run_turn_stream], its result; the note's contextual wording is not modelled. *)
Definition run_turn (gateway : nat -> UnderstandingRequestV2 -> GatewayOutcome) (ids : FreshIds)
    (state : SessionState) (response : ChildResponse) (previous_question : string)
    (recent : list DialogueHistoryTurn) : res EngineTurnResult :=
  resolved ← resolve_state state;
  let '(pack, snapshot, lg) := resolved in
  t ← interpret_execution gateway state pack snapshot lg response previous_question recent;
  finish_turn ids state pack t.
End turn.
