(* ===== verification/LadderTheory.v ===== *)
(** The support ladders move one way, never contradict each other, and always
    arrive: properties of [Ladder.apply_ladder_policy]. *)

From S2P Require Import Prelude.
From S2P Require Import PyStr.
From S2P Require Import PyNum.
From S2P Require Import Json.
From S2P Require Import Schemas.
From S2P Require Import Requests.
From S2P Require Import Evidence.
From S2P Require Import Packs.
From S2P Require Import PackDump.
From S2P Require Import Snapshot.
From S2P Require Import Ledger.
From S2P Require Import State.
From S2P Require Import Ladder.

(** * Invariant *)

(** No retired level, and the joint level exactly with the joint card. *)
Definition ladder_shape (l : ladder_state) : Prop :=
  expression_level l <> L1 /\ (expression_level l = L0 <-> hint_level l = H3).

(** The shape, and a recorded maximum that bounds the hint in force. *)
Definition ladder_ok (l : ladder_state) : Prop :=
  expression_level l <> L1
  /\ (expression_level l = L0 <-> hint_level l = H3)
  /\ hint_index (hint_level l) <= hint_index (task_max_hint l).

(** The ladders of a home session: a session that starts at joint work shows the H3
    card with a recorded maximum of H0 until it is asked for support again. *)
Definition home_ladder (l : ladder_state) : Prop :=
  ladder_shape l /\ (hint_index (hint_level l) <= hint_index (task_max_hint l)
                     \/ expression_level l = L0 /\ task_max_hint l = H0).

Lemma ladder_ok_shape l : ladder_ok l -> ladder_shape l.
Proof. unfold ladder_ok, ladder_shape. tauto. Qed.

Lemma ladder_ok_home l : ladder_ok l <-> home_ladder l /\ hint_index (hint_level l) <= hint_index (task_max_hint l).
Proof. unfold ladder_ok, home_ladder, ladder_shape. tauto. Qed.

(** [l'] offers at least as much support as [l]. *)
Definition supports_more (l l' : ladder_state) : Prop :=
  expression_rank (expression_level l') <= expression_rank (expression_level l)
  /\ hint_index (hint_level l) <= hint_index (hint_level l')
  /\ hint_index (task_max_hint l) <= hint_index (task_max_hint l').

#[export] Instance supports_more_preorder : PreOrder supports_more.
Proof. split; [intros l|intros l1 l2 l3]; unfold supports_more; lia. Qed.

(** Case analysis on the ladder's two positions. *)
Ltac ladder_cases l :=
  destruct l as [e h m ef cf vc uc]; unfold ladder_ok, ladder_shape, home_ladder, supports_more in *;
  destruct e, h, m; intros; vm_compute in *; intuition (congruence || lia).

Lemma raise_hint_ok l : ladder_ok l -> ladder_ok (raise_hint l).
Proof. ladder_cases l. Qed.

Lemma raise_hint_home l : home_ladder l -> home_ladder (raise_hint l).
Proof. ladder_cases l. Qed.

Lemma raise_hint_more l : ladder_shape l -> supports_more l (raise_hint l).
Proof. ladder_cases l. Qed.

Lemma lower_expression_ok l : ladder_ok l -> ladder_ok (lower_expression l).
Proof. ladder_cases l. Qed.

Lemma lower_expression_home l : home_ladder l -> home_ladder (lower_expression l).
Proof. ladder_cases l. Qed.

Lemma lower_expression_shape l : ladder_shape l -> ladder_shape (lower_expression l).
Proof. ladder_cases l. Qed.

Lemma lower_expression_more l : ladder_shape l -> supports_more l (lower_expression l).
Proof. ladder_cases l. Qed.

Lemma with_counters_ok l e c v u : ladder_ok (with_counters l e c v u) <-> ladder_ok l.
Proof. done. Qed.

Lemma with_counters_more l e c v u : supports_more l (with_counters l e c v u).
Proof. unfold supports_more. simpl. lia. Qed.

Lemma with_counters_more_l l e c v u l' :
  supports_more (with_counters l e c v u) l' -> supports_more l l'.
Proof. done. Qed.

Lemma partial_ok l : ladder_ok l -> expression_level l = L4 -> ladder_ok (with_expression l L3).
Proof. ladder_cases l. Qed.

Lemma partial_home l : home_ladder l -> expression_level l = L4 -> home_ladder (with_expression l L3).
Proof. ladder_cases l. Qed.

#[export] Hint Resolve raise_hint_ok lower_expression_ok partial_ok raise_hint_home lower_expression_home
  partial_home lower_expression_shape : ladder.
#[export] Hint Rewrite with_counters_ok : ladder.

(** The policy's branches, one goal per branch. *)
Ltac policy_cases :=
  unfold apply_ladder_policy; cbn zeta;
  repeat match goal with
         | |- _ (if ?c then _ else _) => destruct c eqn:?
         | |- _ (_ (if ?c then _ else _)) _ => destruct c eqn:?
         end.

Lemma policy_ok l t : ladder_ok l -> ladder_ok (apply_ladder_policy l t).
Proof. intros Hl. policy_cases; auto 6 with ladder. Qed.

Lemma policy_home l t : home_ladder l -> home_ladder (apply_ladder_policy l t).
Proof. intros Hl. policy_cases; auto 6 with ladder. Qed.

Lemma partial_more l : expression_level l = L4 -> supports_more l (with_expression l L3).
Proof. intros He. unfold supports_more. cbn. rewrite He. cbn. lia. Qed.

#[export] Hint Resolve raise_hint_more lower_expression_more partial_more with_counters_more
  with_counters_more_l : ladder.

Lemma policy_supports l t : ladder_shape l -> supports_more l (apply_ladder_policy l t).
Proof.
  intros Hl. policy_cases; first [reflexivity | solve [auto with ladder] | idtac].
  all: first [by eapply with_counters_more_l; auto with ladder
             | etrans; [by apply lower_expression_more|auto with ladder]].
Qed.

Lemma policy_more l t : ladder_ok l -> supports_more l (apply_ladder_policy l t).
Proof. intros Hl. by apply policy_supports, ladder_ok_shape. Qed.

(** * Progress of support *)

(** The turn taught nothing the ledger did not hold. *)
Definition unproductive (t : TurnSemantics) : Prop :=
  has_new_canonical_progress (ts_apply_result t) = false
  /\ has_new_partial_progress (ts_apply_result t) = false.

(** The child engaged with the task: no social detour, no lost input, no failed
    model call. *)
Definition engaged (t : TurnSemantics) : bool :=
  negb (memb (ts_understanding_source t) [US_deterministic_fallback; US_asr_empty])
  && (asks_for_scaffold (ts_response t)
      || negb (memb (conversation_move (ts_response t)) [META_QUESTION; REFUSAL; SAFE_PLAY]
               || memb (ts_route t) [RO_bridge; RO_safety])).

Definition expression_distance (e : ExpressionLevel) : nat :=
  match e with L4 => 3 | L3 => 2 | L2 | L1 => 1 | L0 => 0 end.

(** What separates a ladder from the joint action. *)
Definition support_distance (l : ladder_state) : nat :=
  2 * expression_distance (expression_level l) + 2 * (3 - hint_index (hint_level l))
  - Nat.min 1 (vague_clarifications l).

Definition at_joint (l : ladder_state) : Prop := expression_level l = L0 /\ hint_level l = H3.

Lemma distance_bound l : support_distance l <= 12.
Proof.
  unfold support_distance. destruct (expression_level l), (hint_level l); vm_compute hint_index;
    simpl; lia.
Qed.

Lemma distance_joint l : ladder_ok l -> support_distance l = 0 <-> at_joint l.
Proof.
  intros (H1 & H0 & _). unfold support_distance, at_joint.
  destruct (expression_level l), (hint_level l); vm_compute hint_index; simpl in *;
    destruct (vague_clarifications l); simpl; intuition (congruence || lia).
Qed.

Lemma raise_hint_distance l :
  ladder_ok l -> support_distance (raise_hint l) <= support_distance l - 2 /\
  vague_clarifications (raise_hint l) = vague_clarifications l.
Proof.
  destruct l as [e h m ef cf vc uc]. unfold ladder_ok, support_distance.
  destruct e, h, m, vc; intros; cbn in *; vm_compute; intuition (congruence || lia).
Qed.

Lemma lower_expression_distance l :
  ladder_ok l -> support_distance (lower_expression l) <= support_distance l - 2 /\
  vague_clarifications (lower_expression l) = vague_clarifications l.
Proof.
  destruct l as [e h m ef cf vc uc]. unfold ladder_ok, support_distance.
  destruct e, h, m, vc; intros; cbn in *; vm_compute; intuition (congruence || lia).
Qed.

Lemma counters_distance l e c v u :
  support_distance (with_counters l e c v u) <= support_distance l + Nat.min 1 (vague_clarifications l)
  - Nat.min 1 v.
Proof. unfold support_distance. simpl. lia. Qed.

Lemma raise_hint_closer l : ladder_ok l -> support_distance (raise_hint l) <= support_distance l - 1.
Proof. intros Hl. pose proof (raise_hint_distance l Hl). lia. Qed.

Lemma lower_expression_closer l :
  ladder_ok l -> support_distance (lower_expression l) <= support_distance l - 1.
Proof. intros Hl. pose proof (lower_expression_distance l Hl). lia. Qed.

(** Spending the pending clarification costs less than the step it pays for. *)
Lemma raise_reset_closer l e c u :
  ladder_ok l -> support_distance (raise_hint (with_counters l e c 0 u)) <= support_distance l - 1.
Proof.
  intros Hl. pose proof (raise_hint_distance (with_counters l e c 0 u) Hl).
  pose proof (counters_distance l e c 0 u). lia.
Qed.

Lemma lower_reset_closer l e c u :
  ladder_ok l ->
  support_distance (lower_expression (with_counters l e c 0 u)) <= support_distance l - 1.
Proof.
  intros Hl. pose proof (lower_expression_distance (with_counters l e c 0 u) Hl).
  pose proof (counters_distance l e c 0 u). lia.
Qed.

Lemma clarification_closer l e c u :
  vague_clarifications l = 0 -> support_distance (with_counters l e c 1 u) <= support_distance l - 1.
Proof. intros Hv. pose proof (counters_distance l e c 1 u). rewrite Hv in *. simpl in *. lia. Qed.

Lemma concept_closer l e c u :
  ladder_ok l ->
  support_distance (raise_hint (with_counters l e c (vague_clarifications l) u))
  <= support_distance l - 1.
Proof.
  intros Hl. pose proof (raise_hint_distance (with_counters l e c (vague_clarifications l) u) Hl).
  unfold support_distance in *. simpl in *. lia.
Qed.

Lemma general_help_closer l :
  ladder_ok l -> support_distance (raise_hint (lower_expression l)) <= support_distance l - 1.
Proof.
  intros Hl. pose proof (lower_expression_distance l Hl).
  pose proof (raise_hint_closer (lower_expression l) (lower_expression_ok l Hl)). lia.
Qed.

#[export] Hint Resolve raise_hint_closer lower_expression_closer raise_reset_closer
  lower_reset_closer concept_closer general_help_closer : ladder.

(** An engaged turn that teaches nothing brings the joint action closer. *)
Lemma engaged_closer l t :
  ladder_ok l -> unproductive t -> engaged t = true ->
  support_distance (apply_ladder_policy l t) <= support_distance l - 1.
Proof.
  intros Hl [Hc Hp] He. unfold engaged in He. apply andb_true_iff in He as [Hs He].
  apply negb_true_iff, memb_false in Hs. rewrite !not_elem_of_cons in Hs.
  policy_cases; auto with ladder.
  all: try (exfalso; naive_solver congruence).
  apply clarification_closer. by apply Nat.eqb_eq.
Qed.

(** Any other unproductive turn leaves it as close, except that a pending
    clarification is kept as it is. *)
Lemma unproductive_keeps l t :
  ladder_ok l -> unproductive t -> engaged t = false ->
  support_distance (apply_ladder_policy l t) <= support_distance l.
Proof.
  intros Hl [Hc Hp] He. policy_cases; try congruence.
  all: try done.
  all: apply (Nat.le_trans _ (support_distance l - 1)); [|lia]; auto with ladder.
  apply clarification_closer. by apply Nat.eqb_eq.
Qed.

Lemma policy_run_ok ts l : ladder_ok l -> ladder_ok (fold_left apply_ladder_policy ts l).
Proof. revert l. induction ts as [|t ts IH]; intros l Hl; [done|]. by apply IH, policy_ok. Qed.

Lemma policy_run_distance ts l :
  ladder_ok l -> Forall unproductive ts ->
  support_distance (fold_left apply_ladder_policy ts l)
  <= support_distance l - length (List.filter engaged ts).
Proof.
  revert l. induction ts as [|t ts IH]; intros l Hl Hts; simpl; [lia|].
  apply Forall_cons in Hts as [Ht Hts].
  specialize (IH (apply_ladder_policy l t) (policy_ok l t Hl) Hts).
  destruct (engaged t) eqn:He; simpl.
  - pose proof (engaged_closer l t Hl Ht He). lia.
  - pose proof (unproductive_keeps l t Hl Ht He). lia.
Qed.

(** * Properties *)

(** Support only grows within a task: every interpreted turn keeps the two
    ladders consistent (no retired L1, the L0 joint action exactly with the H3
    card, the recorded maximum at least the hint shown), never raises the
    expression level back and never withdraws a hint. *)
Theorem ladder_policy_monotone l t :
  ladder_ok l ->
  ladder_ok (apply_ladder_policy l t) /\ supports_more l (apply_ladder_policy l t).
Proof. split; [by apply policy_ok|by apply policy_more]. Qed.

(** (C26) No child is trapped: from any consistent ladder position, over any run of
    turns that teach nothing new, twelve turns in which the child engages with
    the task (social detours, lost input and failed model calls may come in
    between, in any number) bring the session to the L0 joint action with the H3
    card. *)
Theorem support_reaches_joint l ts :
  ladder_ok l -> Forall unproductive ts -> 12 <= length (List.filter engaged ts) ->
  at_joint (fold_left apply_ladder_policy ts l).
Proof.
  intros Hl Hts Hn. apply distance_joint; [by apply policy_run_ok|].
  pose proof (policy_run_distance ts l Hl Hts). pose proof (distance_bound l). lia.
Qed.

(** A related but vague answer with nothing admitted. *)
Definition vague_turn : TurnSemantics := {|
  ts_response := {|
    utterance_class := LEARNING_RESPONSE; conversation_move := CM_NONE; move_subject := MS_OTHER;
    question_focus := None; support_need := SN_NONE; ui_reference := None;
    non_learning_kind := None; contains_learning_evidence := false;
    answer_status := AS_UNCERTAIN; reasoning_status := RS_UNCERTAIN; claims := [];
    confidence := CONF_LOW |};
  ts_apply_result := {|
    ar_ledger := {|
      rl_pack_id := "home.sample"; rl_content_version := 1; rl_content_hash := "";
      verified_facts := ∅; verified_relations := ∅; partial_relations := ∅;
      accepted_auxiliary_evidence := ∅ |};
    ar_log := empty_log;
    ar_completion := {|
      rc_required_fact_ids := ["answer"]; rc_required_relation_ids := [];
      remaining_fact_ids := ["answer"]; remaining_relation_ids := []; complete := false |};
    completion_became_true := false |};
  ts_guarded := None; ts_route := RO_main; ts_understanding_source := US_sonnet_low;
  ts_attempts := 1; ts_guard_status := GS_passed; ts_structured_correct := None;
  ts_initial_help := false; ts_failure_reason := None; ts_visual_patch := None |}.

Definition opening_ladder : ladder_state := {|
  expression_level := L4; hint_level := H0; task_max_hint := H0; expression_failures := 0;
  concept_failures := 0; vague_clarifications := 0; unrelated_count := 0 |}.

Lemma opening_ladder_ok : ladder_ok opening_ladder.
Proof. unfold ladder_ok. vm_compute. intuition (congruence || lia). Qed.

Lemma ladder_policy_monotone_witness :
  ladder_ok (apply_ladder_policy opening_ladder vague_turn)
  /\ supports_more opening_ladder (apply_ladder_policy opening_ladder vague_turn).
Proof. exact (ladder_policy_monotone opening_ladder vague_turn opening_ladder_ok). Defined.

Lemma support_reaches_joint_witness :
  at_joint (fold_left apply_ladder_policy (replicate 12 vague_turn) opening_ladder).
Proof.
  apply (support_reaches_joint opening_ladder (replicate 12 vague_turn) opening_ladder_ok).
  - apply Forall_replicate. by split.
  - vm_compute. lia.
Defined.
