(* ===== verification/HomeContract.v ===== *)
(** What a validated home pack promises to the turn engine, beyond
    [Snapshot.pack_contract]: the copy slots its questions need, one final answer,
    and choice plans whose one correct choice teaches their target.  The promise is
    the class [HomePackLaws]; its instance is proved from
    [ContentPack.required_home_pack_validate]. *)

From S2P Require Import Prelude.
From S2P Require Import PyStr.
From S2P Require Import PyNum.
From S2P Require Import Json.
From S2P Require Import Schemas.
From S2P Require Import Requests.
From S2P Require Import Regex.
From S2P Require Import Packs.
From S2P Require Import PackDump.
From S2P Require Import Snapshot.
From S2P Require Import ContentCopy.
From S2P Require Import ContentChecks.
From S2P Require Import ContentPack.
From S2P Require Import LifeChecks.
From S2P Require Import ContentTheory.

(** A correct choice on [t] carries what the ledger must learn. *)
Definition teaches_target (p : TaskPackV2) (t : TargetRefV2) (e : ChoiceEffectV2) : Prop :=
  match target_kind t with
  | KIND_fact => exists v f, ce_interpreted_value e = Some v
                   /\ facts_by_id p (target_id t) = Some f /\ value_matches f v = true
  | KIND_relation => ce_interpreted_value e = None
  end.

(** A relation that can be sent to the understanding model. *)
Definition relation_ready (p : RequiredHomeTeachingPackV2) (r : ContentRelationV2) : Prop :=
  text_field 1 120 (cr_speaker_label r) = true /\ list_field 1 16 (cr_input_fact_ids r) = true
  /\ NoDup (cr_input_fact_ids r) /\ cr_output_fact_id r ∉ cr_input_fact_ids r
  /\ (forall i, i ∈ cr_output_fact_id r :: cr_input_fact_ids r -> i ∈ pack_fact_ids (HomePack p)).

Record engine_contract (p : RequiredHomeTeachingPackV2) : Prop := {
  hk_purpose u : u ∈ [initial_help; l0_intro; l0_action] ->
    exists s, find_first (fun s => bool_decide (cs_purpose s = u)) (hp_copy_slots p) = Some s;
  hk_slot_targets s t : s ∈ hp_copy_slots p -> t ∈ cs_targets s ->
    target_in_graph (HomePack p) (target_pair t);
  hk_l2_slot q : q ∈ hp_l2_plans p ->
    exists s, s ∈ hp_copy_slots p /\ cs_copy_slot s = l2_copy_slot q;
  hk_final : exists f, find_first (fun f => bool_decide (cf_role f = final_answer))
                         (rg_facts (hp_reasoning_graph p)) = Some f;
  hk_choice q c : q ∈ hp_l2_plans p -> c ∈ l2_choices q ->
    (ce_target_kind (lc_effect c), ce_target_id (lc_effect c)) = target_pair (l2_target q);
  hk_correct q c : q ∈ hp_l2_plans p -> c ∈ l2_choices q ->
    ce_verdict (lc_effect c) = choice_correct -> teaches_target (HomePack p) (l2_target q) (lc_effect c);
  hk_one_correct q : q ∈ hp_l2_plans p ->
    exists c, c ∈ l2_choices q /\ ce_verdict (lc_effect c) = choice_correct;
  hk_choice_ids q : q ∈ hp_l2_plans p -> NoDup (map lc_choice_id (l2_choices q));
  hk_plan_ids : NoDup (qp_plan_id (hp_initial_question p)
                       :: map qp_plan_id (hp_l3_plans p) ++ map l2_plan_id (hp_l2_plans p));
  hk_initial : NoDup (map target_pair (qp_targets (hp_initial_question p)))
               /\ list_field 1 4 (qp_targets (hp_initial_question p)) = true;
  hk_fact_labels f : f ∈ rg_facts (hp_reasoning_graph p) -> text_field 1 100 (cf_speaker_label f) = true;
  hk_relations r : r ∈ rg_relations (hp_reasoning_graph p) -> relation_ready p r;
  hk_help c : c ∈ [hp_H1 (hp_help_plan p); hp_H2 (hp_help_plan p); hp_H3 (hp_help_plan p)] ->
    text_field 1 240 (hc_body c) = true;
  hk_prompt : text_field 1 220 (sp_prompt (hp_source_problem p)) = true
}.

Class HomePackLaws `{PackModel} :=
  home_engine_contract : forall p q, home_model_validate p = Ok q -> engine_contract p.

Lemma find_first_filter {A} (p : A -> bool) l :
  1 <= length (List.filter p l) -> exists x, find_first p l = Some x.
Proof.
  induction l as [|x l IH]; simpl; [lia|]. destruct (p x); [eauto|exact IH].
Qed.

Lemma validated_choices p q : required_home_pack_validate p = Ok q ->
  forall l, l ∈ hp_l2_plans p -> l2_plan_validate l = Ok tt /\ l2_plan_ok p l = Ok tt.
Proof.
  unfold required_home_pack_validate, validate_pack_contract, l2_plans_ok. intros H l Hl. ok_split.
  split; by eapply each_Ok.
Qed.

Lemma choice_effect_fact e :
  choice_effect_validate e = Ok tt -> ce_verdict e = choice_correct ->
  match ce_target_kind e with
  | KIND_fact => exists v, ce_interpreted_value e = Some v
  | KIND_relation => ce_interpreted_value e = None
  end.
Proof.
  unfold choice_effect_validate. intros H He. ok_split. rewrite He in *. ok_split.
  destruct (ce_target_kind e); rewrite check_Ok in *; destruct (ce_interpreted_value e); naive_solver.
Qed.

(** Every [each] check, at one element. *)
Ltac each_at x :=
  match goal with
  | H : each _ ?l = Ok ?u, Hx : x ∈ ?l |- _ =>
      let E := fresh "E" in pose proof (each_Ok _ _ _ H x Hx) as E; cbn beta in E; clear H
  end.

Lemma validated_correct p l c :
  l2_plan_validate l = Ok tt -> l2_plan_ok p l = Ok tt -> c ∈ l2_choices l ->
  (ce_target_kind (lc_effect c), ce_target_id (lc_effect c)) = target_pair (l2_target l)
  /\ (ce_verdict (lc_effect c) = choice_correct ->
      teaches_target (HomePack p) (l2_target l) (lc_effect c)).
Proof.
  unfold l2_plan_validate, l2_plan_ok. intros Hv Ho Hc. ok_split.
  repeat each_at c.
  match goal with H : check _ _ = Ok _ |- _ => rewrite check_Ok in H; apply bool_decide_eq_true in H end.
  split; [done|]. intros Hv.
  match goal with H : choice_effect_validate _ = Ok _ |- _ =>
    apply choice_effect_fact in H; [|done] end.
  match goal with H : (_, _) = target_pair _ |- _ => injection H as Hk Hi end.
  match goal with H : choice_truth_ok _ _ = Ok _ |- _ =>
    unfold choice_truth_ok in H; rewrite Hv, bool_decide_eq_true_2 in H by done end.
  unfold teaches_target. rewrite <- Hk, <- Hi. destruct (ce_target_kind (lc_effect c)) eqn:Ek; [|done].
  simpl in *. destruct (ce_interpreted_value (lc_effect c)) as [v|] eqn:Ev; [|naive_solver].
  ok_split. destruct (home_fact _ _) as [f|] eqn:Ef; simplify_eq/=. ok_split.
  eexists _, (HomeFact _). by rewrite facts_by_id_home, Ef.
Qed.

Lemma slot_targets_in_graph p s t :
  copy_slot_ok p s = Ok tt -> t ∈ cs_targets s -> target_in_graph (HomePack p) (target_pair t).
Proof.
  unfold copy_slot_ok. rewrite bind_Ok. intros (ks & Hk & _) Ht.
  destruct (mapR_elem _ _ _ _ Hk Ht) as [k He]. by apply target_key_Ok in He as [_ ?].
Qed.

Lemma copy_slot_Some p n s : copy_slot p n = Some s -> s ∈ hp_copy_slots p /\ cs_copy_slot s = n.
Proof.
  unfold copy_slot. intros [Hin Hn]%find_first_Some. apply bool_decide_eq_true in Hn.
  split; [|done]. by apply list_elem_of_In, in_rev, list_elem_of_In.
Qed.

Lemma purpose_found p u :
  bool_decide (purpose_count p u = 1) = true ->
  exists s, find_first (fun s => bool_decide (cs_purpose s = u)) (hp_copy_slots p) = Some s.
Proof.
  intros Hn%bool_decide_eq_true. apply find_first_filter. unfold purpose_count in Hn. lia.
Qed.

Lemma one_filtered {A} (p : A -> bool) l n :
  1 <= n -> length (List.filter p l) = n -> exists x, x ∈ l /\ p x = true.
Proof.
  intros Hn Hl. destruct (find_first_filter p l) as [x Hx]; [lia|].
  exists x. by apply find_first_Some.
Qed.

Lemma validated_relation p r :
  content_relation_fields r = true -> validate_relation (rg_facts (hp_reasoning_graph p)) r = Ok tt ->
  relation_ready p r.
Proof.
  unfold content_relation_fields, validate_relation, validate_relation_math, relation_ready.
  intros Hf Hv. ok_split. breflect. ok_split. rewrite home_fact_ids.
  do 4 (split; [done|]). intros i [-> |]%elem_of_cons; auto.
Qed.

Lemma validated_graph p u : reasoning_graph_validate (hp_reasoning_graph p) = Ok u ->
  (forall f, f ∈ rg_facts (hp_reasoning_graph p) -> text_field 1 100 (cf_speaker_label f) = true) /\
  (forall r, r ∈ rg_relations (hp_reasoning_graph p) -> relation_ready p r).
Proof.
  unfold reasoning_graph_validate. intros H. ok_split. split.
  - intros f Hf. each_at f. unfold content_fact_validate in *. ok_split. by breflect; ok_split.
  - intros r Hr. each_at r. apply validated_relation; [|done].
    match goal with H : forallb content_relation_fields _ = true |- _ =>
      rewrite forallb_forall in H; by apply H, list_elem_of_In end.
Qed.

Lemma home_pack_engine_contract p q : required_home_pack_validate p = Ok q -> engine_contract p.
Proof.
  intros H. pose proof (validated_choices p q H) as Hc.
  unfold required_home_pack_validate, validate_pack_contract, copy_slots_ok, questions_ok in H.
  ok_split. split.
  - intros u Hu. apply purpose_found. set_unfold. naive_solver.
  - intros s t Hs Ht. repeat each_at s. by eapply slot_targets_in_graph.
  - intros l Hl. destruct (Hc l Hl) as [_ Ho]. unfold l2_plan_ok, slot_has_purpose in Ho. ok_split.
    destruct (copy_slot q (l2_copy_slot l)) as [s|] eqn:Es; [|done].
    exists s. by apply copy_slot_Some.
  - apply find_first_filter. destruct (List.filter _ _) as [|? []]; simpl; done || lia.
  - intros l c Hl Hin. destruct (Hc l Hl) as [Hv Ho]. by destruct (validated_correct q l c Hv Ho Hin).
  - intros l c Hl Hin. destruct (Hc l Hl) as [Hv Ho]. by destruct (validated_correct q l c Hv Ho Hin).
  - intros l Hl. destruct (Hc l Hl) as [Hv _]. unfold l2_plan_validate in Hv. ok_split.
    match goal with H : bool_decide (length _ = 1) = true |- _ => apply bool_decide_eq_true in H;
      apply one_filtered in H as (c & Hin & Hb); [|lia] end.
    exists c. by apply bool_decide_eq_true in Hb.
  - intros l Hl. destruct (Hc l Hl) as [Hv _]. unfold l2_plan_validate in Hv. ok_split.
    by apply uniqueb_spec.
  - by apply uniqueb_spec.
  - unfold question_fields in *. breflect. ok_split. split; [|done].
    match goal with H : mapR _ (qp_targets _) = _ |- _ =>
      apply (keys_in_graph (HomePack q) _ target_pair) in H as [-> _]; [|apply target_key_Ok] end.
    done.
  - by eapply validated_graph.
  - by eapply validated_graph.
  - unfold help_plan_validate in *. ok_split. intros c Hin.
    match goal with H : forallb help_card_fields _ = true |- _ => rewrite forallb_forall in H;
      specialize (H c (proj1 (list_elem_of_In _ _) Hin)); unfold help_card_fields in H end.
    by breflect; ok_split.
  - unfold source_problem_validate in *. ok_split. by breflect; ok_split.
Qed.

#[export] Instance home_laws : HomePackLaws.
Proof. exact home_pack_engine_contract. Qed.
