(* ===== verification/RequestTheory.v ===== *)
(** Building the understanding request never fails: for open targets of a validated
    home pack every cross-reference [UnderstandingRequestV2] checks is satisfied,
    and the request describes the pack's own graph and the child's own words. *)

From Stdlib Require Import Ascii.
From S2P Require Import Prelude.
From S2P Require Import PyStr.
From S2P Require Import PyNum.
From S2P Require Import Json.
From S2P Require Import Schemas.
From S2P Require Import Requests.
From S2P Require Import Regex.
From S2P Require Import Evidence.
From S2P Require Import Packs.
From S2P Require Import PackDump.
From S2P Require Import Snapshot.
From S2P Require Import Ledger.
From S2P Require Import ContentCopy.
From S2P Require Import ContentChecks.
From S2P Require Import ContentPack.
From S2P Require Import LifeChecks.
From S2P Require Import ContentTheory.
From S2P Require Import HomeContract.
From S2P Require Import State.
From S2P Require Import Ladder.
From S2P Require Import Understand.

(** Identifiers are ASCII: their length in characters is their length in bytes. *)
Lemma id_chars_len s : string_forallb is_id_char s = true -> py_len s = String.length s.
Proof.
  unfold py_len, utf8_decode. induction s as [|c s IH]; [done|].
  cbn [string_forallb bytes_of utf8_decode_bytes]. rewrite andb_true_iff. intros [Hc Hs].
  assert (N_of_ascii c < 128)%N as Hlt.
  { unfold is_id_char, is_id_start, memb in Hc.
    repeat (apply orb_true_iff in Hc as [Hc|Hc] || apply andb_true_iff in Hc as [? Hc]);
      rewrite ?N.leb_le in *; try lia.
    apply bool_decide_eq_true in Hc. set_unfold in Hc.
    destruct Hc as [-> | [-> | [-> | [-> | []]]]]; vm_compute; reflexivity. }
  rewrite (proj2 (N.ltb_lt _ _) Hlt). simpl. by rewrite IH.
Qed.

Lemma id_field_bounded n s : id_field n s = true -> bounded_text 1 n s = true.
Proof.
  unfold id_field, bounded_text. destruct s as [|c s]; [done|].
  rewrite !andb_true_iff, bool_decide_eq_true. intros [[Hc Hs] Hl].
  assert (string_forallb is_id_char (String c s) = true) as Hall.
  { simpl. rewrite Hs. unfold is_id_char. by rewrite Hc. }
  apply bool_decide_eq_true. rewrite (id_chars_len _ Hall). simpl in *. lia.
Qed.

Lemma bounded_text_weaken lo hi hi' s :
  hi <= hi' -> text_field lo hi s = true -> bounded_text lo hi' s = true.
Proof. unfold text_field, bounded_text. rewrite !bool_decide_eq_true. lia. Qed.

(** The screen vocabulary of every fact fits the request. *)
Definition aliases_fit (pack : RequiredHomeTeachingPackV2) : bool :=
  forallb (fun f => match fact_semantic_aliases (HomePack pack) (cf_fact_id f) with
                    | Ok l => length l <=? 12 | Raise _ => false end)
    (rg_facts (hp_reasoning_graph pack)).

Lemma aliases_fit_spec pack f l :
  aliases_fit pack = true -> f ∈ pack_facts (HomePack pack) ->
  fact_semantic_aliases (HomePack pack) (fact_id f) = Ok l -> length l <= 12.
Proof.
  unfold aliases_fit. rewrite forallb_forall. simpl.
  intros Ha (g & -> & Hg%list_elem_of_In)%list_elem_of_fmap Hl. specialize (Ha g Hg).
  simpl in Hl. rewrite Hl in Ha. by apply Nat.leb_le in Ha.
Qed.

Lemma map_filter_pair {A B} (f : A -> B) (q : A -> bool) l :
  map f (List.filter q l) = map fst (List.filter snd (map (fun x => (f x, q x)) l)).
Proof. induction l as [|x l IH]; simpl; [done|]. destruct (q x); simpl; by rewrite IH. Qed.

Section request.
Variable pack : RequiredHomeTeachingPackV2.
Notation p := (HomePack pack).
Hypotheses (Hpk : pack_contract p) (Hhk : engine_contract pack) (Hfit : aliases_fit pack = true).

Lemma first_fact_Ok i : i ∈ pack_fact_ids p ->
  exists f, first_fact p i = Ok f /\ f ∈ pack_facts p /\ fact_id f = i.
Proof.
  unfold pack_fact_ids. intros (f & -> & Hf)%list_elem_of_fmap. unfold first_fact.
  destruct (find_first_is_Some (fun g => bool_decide (fact_id g = fact_id f)) _ f Hf) as [g Hg];
    [by apply bool_decide_eq_true|].
  exists g. rewrite Hg. split; [done|]. apply find_first_Some in Hg as [? Hb].
  by apply bool_decide_eq_true in Hb.
Qed.

Lemma first_relation_Ok i : i ∈ pack_relation_ids p ->
  exists r, first_relation p i = Ok r /\ r ∈ pack_relations p /\ relation_id r = i.
Proof.
  unfold pack_relation_ids. intros (f & -> & Hf)%list_elem_of_fmap. unfold first_relation.
  destruct (find_first_is_Some (fun g => bool_decide (relation_id g = relation_id f)) _ f Hf) as [g Hg];
    [by apply bool_decide_eq_true|].
  exists g. rewrite Hg. split; [done|]. apply find_first_Some in Hg as [? Hb].
  by apply bool_decide_eq_true in Hb.
Qed.

Lemma relation_bounds r : r ∈ pack_relations p ->
  bounded_text 1 160 (relation_id r) = true /\ bounded_text 1 160 (relation_label r) = true
  /\ bounded_list 1 20 (relation_inputs r) = true /\ bounded_text 1 160 (relation_output r) = true
  /\ NoDup (relation_inputs r) /\ relation_output r ∉ relation_inputs r
  /\ (forall i, i ∈ relation_output r :: relation_inputs r -> i ∈ pack_fact_ids p).
Proof.
  simpl. intros (c & -> & Hc)%list_elem_of_fmap. simpl.
  destruct (hk_relations _ Hhk c Hc) as (Hl & Hin & Hnd & Hout & Hg).
  assert (Hid : forall i, i ∈ pack_fact_ids p -> bounded_text 1 160 i = true).
  { intros i Hi. by apply id_field_bounded, (proj1 (Forall_forall _ _) (pk_fact_ids _ Hpk)). }
  split.
  { apply id_field_bounded, (proj1 (Forall_forall _ _) (pk_relation_ids _ Hpk)).
    rewrite home_relation_ids. apply list_elem_of_fmap. eauto. }
  split; [eapply bounded_text_weaken; [|exact Hl]; lia|]. split.
  { unfold list_field, bounded_list in *. rewrite bool_decide_eq_true in *. lia. }
  split; [apply Hid, Hg; left|]. done.
Qed.

Lemma context_Ok f : f ∈ pack_facts p -> exists c, fact_context p f = Ok c /\
  aliases_must_be_unique c = Ok c.
Proof.
  intros Hf. assert (Hi : fact_id f ∈ pack_fact_ids p) by (apply list_elem_of_fmap; eauto).
  unfold fact_context. destruct (first_fact_Ok _ Hi) as (g & Hg & Hgin & Hgf).
  assert (exists l, fact_semantic_aliases p (fact_id f) = Ok l /\ NoDup l) as (l & Hl & Hnd).
  { unfold fact_semantic_aliases. rewrite Hg. cbn [mbind res_bind]. eexists. split; [done|].
    apply NoDup_fromkeys. }
  rewrite Hl. cbn [mbind res_bind]. eexists. split; [done|]. unfold aliases_must_be_unique. simpl.
  pose proof (aliases_fit_spec pack f l Hfit Hf Hl) as Hlen.
  rewrite !bind_raise_ok; [done| |]; apply negb_false_iff; [by apply uniqueb_spec|].
  rewrite !andb_true_iff. split; [split|].
  - by apply id_field_bounded, (proj1 (Forall_forall _ _) (pk_fact_ids _ Hpk)).
  - simpl in Hf. apply list_elem_of_fmap in Hf as (c & -> & Hc). simpl.
    eapply bounded_text_weaken; [|by apply (hk_fact_labels _ Hhk)]. lia.
  - apply bool_decide_eq_true. lia.
Qed.

Lemma context_pair f c : fact_context p f = Ok c ->
  (ufc_fact_id c, ufc_visible c) = (fact_id f, fact_initially_visible f).
Proof. unfold fact_context. intros Hc. by res_inv. Qed.

(** A request target that every validator accepts. *)
Record target_accepted (u : UnderstandingTargetV2) : Prop := {
  ta_contract c : ut_semantic_contract u = Some c -> fact_references_must_be_distinct c = Ok c;
  ta_kind : semantic_contract_belongs_only_to_relations u = Ok u;
  ta_graph : request_target_ok (pack_fact_ids p) (pack_relation_ids p) u = Ok tt
}.

Lemma target_Ok t : target_in_graph p (target_pair t) ->
  exists u, request_target p t = Ok u /\ target_accepted u.
Proof.
  unfold target_in_graph, target_pair, request_target, target_rubric, target_truth,
    target_semantic_contract. destruct t as [k i a]. simpl.
  destruct k; intros Hi; simpl.
  - destruct (first_fact_Ok i Hi) as (f & -> & Hf & Hid). cbn [mbind res_bind].
    eexists. split; [done|]. split; simpl; [done| |].
    + unfold semantic_contract_belongs_only_to_relations. simpl. rewrite bind_raise_ok; [done|].
      apply negb_false_iff, id_field_bounded. by apply (proj1 (Forall_forall _ _) (pk_fact_ids _ Hpk)).
    + unfold request_target_ok. simpl. by rewrite (proj2 (memb_spec _ _) Hi).
  - destruct (first_relation_Ok i Hi) as (r & -> & Hr & Hid). cbn [mbind res_bind].
    destruct (relation_bounds r Hr) as (B1 & B2 & B3 & B4 & Hnd & Hout & Hg).
    eexists. split; [done|]. split; simpl.
    + intros c [= <-]. unfold fact_references_must_be_distinct. simpl.
      rewrite !bind_raise_ok; [done| | |].
      * by apply memb_false.
      * by apply negb_false_iff, uniqueb_spec.
      * apply negb_false_iff. unfold relation_contract_fields. simpl. by rewrite B1, B2, B3, B4.
    + unfold semantic_contract_belongs_only_to_relations. simpl. rewrite !bind_raise_ok; [done| |].
      * by rewrite Hid, bool_decide_eq_true_2.
      * apply negb_false_iff. by rewrite <- Hid.
    + unfold request_target_ok. simpl. rewrite (proj2 (memb_spec _ _) Hi). cbn [negb raise_if mbind res_bind].
      rewrite bind_raise_ok; [|apply negb_false_iff, subsetb_spec; intros j Hj; apply Hg; by right].
      rewrite (proj2 (memb_spec _ _)); [done|]. apply Hg. left.
Qed.

Lemma target_fields_kept t u : request_target p t = Ok u ->
  (request_target_key u, ut_ask_kind u) = (target_pair t, ask_kind t).
Proof. unfold request_target. intros Hu. by res_inv. Qed.

Lemma contexts_Ok : exists cs, mapR (fact_context p) (pack_facts p) = Ok cs
  /\ mapR aliases_must_be_unique cs = Ok cs
  /\ map (fun c => (ufc_fact_id c, ufc_visible c)) cs
     = map (fun f => (fact_id f, fact_initially_visible f)) (pack_facts p).
Proof.
  destruct (mapR_total (fact_context p) (pack_facts p)) as [cs Hcs].
  { intros f Hf. destruct (context_Ok f Hf) as (c & Hc & _). eauto. }
  exists cs. split; [done|]. split; [|exact (mapR_proj _ _ _ _ _ context_pair Hcs)].
  assert (Forall (fun c => aliases_must_be_unique c = Ok c) cs) as Hall.
  { eapply mapR_Forall; [|exact Hcs]. intros f c Hf Hc. destruct (context_Ok f Hf) as (c' & Hc' & Ha).
    rewrite Hc in Hc'. by injection Hc' as ->. }
  clear Hcs. induction Hall as [|c cs Hc _ IH]; [done|]. cbn [mapR]. rewrite Hc, IH. done.
Qed.

Lemma targets_Ok ts : (forall t, t ∈ ts -> target_in_graph p (target_pair t)) ->
  exists us, mapR (request_target p) ts = Ok us /\ Forall target_accepted us
    /\ map (fun u => (request_target_key u, ut_ask_kind u)) us
       = map (fun t => (target_pair t, ask_kind t)) ts.
Proof.
  intros Hts. destruct (mapR_total (request_target p) ts) as [us Hus].
  { intros t Ht. destruct (target_Ok t (Hts t Ht)) as (u & Hu & _). eauto. }
  exists us. split; [done|]. split; [|exact (mapR_proj _ _ _ _ _ target_fields_kept Hus)].
  eapply mapR_Forall; [|exact Hus]. intros t u Ht Hu. destruct (target_Ok t (Hts t Ht)) as (u' & Hu' & Ha).
  rewrite Hu in Hu'. by injection Hu' as ->.
Qed.

Lemma ui_elements_Ok h : exists es, mapR help_card_requires_hint_level (visible_ui_elements p h) = Ok es
  /\ length (visible_ui_elements p h) <= 1.
Proof.
  assert (Hb : forall c, c ∈ [hp_H1 (hp_help_plan pack); hp_H2 (hp_help_plan pack); hp_H3 (hp_help_plan pack)] ->
    bounded_text 1 300 (hc_body c) = true).
  { intros c Hc. eapply bounded_text_weaken; [|by apply (hk_help _ Hhk)]. lia. }
  unfold visible_ui_elements, help_body, help_card_requires_hint_level.
  destruct h; simpl; [eauto| | |]; rewrite Hb by set_solver; simpl; eauto.
Qed.

Lemma last_n_length {A} n (l : list A) : length (last_n n l) <= n.
Proof. unfold last_n. rewrite length_drop. lia. Qed.

Lemma ask_kinds_few (ks : list AskKind) : length (fromkeys ks) <= 2.
Proof.
  pose proof (NoDup_fromkeys ks) as Hnd. assert (fromkeys ks ⊆ [ASK_answer; ASK_reason_or_method]) as Hs.
  { intros k _. destruct k; set_solver. }
  pose proof (submseteq_length _ _ (NoDup_submseteq _ _ Hnd Hs)). done.
Qed.

(** What the engine asks about: one to four distinct targets of the initial question. *)
Definition askable (ts : list TargetRefV2) : Prop :=
  1 <= length ts <= 4 /\ NoDup (map target_pair ts)
  /\ forall t, t ∈ ts -> target_in_graph p (target_pair t).

Lemma scaffold_Ok l ts pq : askable ts -> 1 <= py_len pq ->
  exists c, validate_help_scaffold_scope {|
    utc_mormi_question := pq; utc_asks := fromkeys (map ask_kind ts);
    utc_expression_level := expression_level l; utc_hint_level := hint_level l;
    utc_help_scaffolded_relation_ids := help_scaffolded (hint_level l) ts |} = Ok c.
Proof.
  intros (Hlen & Hnd & _) Hpq. unfold validate_help_scaffold_scope. simpl.
  assert (Hsub : help_scaffolded (hint_level l) ts = [] \/
    memb (hint_level l) [H2; H3] = true /\ help_scaffolded (hint_level l) ts
    = map target_id (List.filter (fun t => bool_decide (target_kind t = KIND_relation)) ts)).
  { unfold help_scaffolded. destruct (memb _ _); auto. }
  assert (Hids : NoDup (help_scaffolded (hint_level l) ts) /\ length (help_scaffolded (hint_level l) ts) <= 4).
  { destruct Hsub as [-> | [_ ->]]; [split; [constructor|simpl; lia]|]. rewrite length_map. split.
    - clear Hlen. induction ts as [|t ts IH]; simpl in *; [constructor|].
      apply NoDup_cons in Hnd as [Ht Hnd]. case_bool_decide as Hk; simpl; [|by apply IH].
      constructor; [|by apply IH]. intros (u & Heq & Hu)%list_elem_of_fmap. apply Ht.
      apply list_elem_of_In, filter_In in Hu as [Hu Hku]. apply bool_decide_eq_true in Hku.
      apply list_elem_of_fmap. exists u. split; [unfold target_pair; congruence|by apply list_elem_of_In].
    - etrans; [apply List.filter_length_le|]. lia. }
  destruct Hids as [Hn Hl].
  assert (1 <= length (fromkeys (map ask_kind ts))).
  { destruct ts; simpl in *; lia. }
  pose proof (ask_kinds_few (map ask_kind ts)).
  rewrite !bind_raise_ok; [eauto| | |].
  - destruct Hsub as [-> | [-> _]]; [done|]. by rewrite andb_false_r.
  - by apply negb_false_iff, uniqueb_spec.
  - apply negb_false_iff. unfold bounded_list. rewrite !andb_true_iff, !bool_decide_eq_true. lia.
Qed.

Lemma fromkeys_set {A} `{EqDecision A} (l : list A) : set_eqb (fromkeys l) l = true.
Proof. apply set_eqb_spec. intros x. apply elem_of_fromkeys. Qed.

Lemma scaffolded_targets l ts us :
  map (fun u => (request_target_key u, ut_ask_kind u)) us = map (fun t => (target_pair t, ask_kind t)) ts ->
  subsetb (help_scaffolded (hint_level l) ts)
    (map ut_target_id (List.filter (fun t => bool_decide (ut_target_kind t = KIND_relation)) us)) = true.
Proof.
  intros Heq. apply subsetb_spec. unfold help_scaffolded. destruct (memb _ _); [|by intros i ?%not_elem_of_nil].
  revert us Heq. induction ts as [|t ts IH]; intros [|u us] Heq; simpl in *; try done.
  injection Heq as Hk Hi _ Heq. rewrite Hk. specialize (IH us Heq). destruct (bool_decide _); simpl; [|done].
  intros i [-> | Hin]%elem_of_cons; [rewrite <- Hi; left|right; by apply IH].
Qed.

Lemma cross_references_Ok r ts :
  ur_claimable_graph r = {| cg_fact_ids := pack_fact_ids p; cg_relation_ids := pack_relation_ids p;
                            cg_open_auxiliary_claims := pack_open_auxiliary p |} ->
  map (fun c => (ufc_fact_id c, ufc_visible c)) (ur_fact_contexts r)
    = map (fun f => (fact_id f, fact_initially_visible f)) (pack_facts p) ->
  map fst (ur_visible_facts r) = map fact_id (List.filter fact_initially_visible (pack_facts p)) ->
  map (fun u => (request_target_key u, ut_ask_kind u)) (ur_targets r)
    = map (fun t => (target_pair t, ask_kind t)) ts ->
  Forall target_accepted (ur_targets r) -> NoDup (map target_pair ts) ->
  utc_asks (ur_current_turn r) = fromkeys (map ask_kind ts) ->
  (exists l, utc_help_scaffolded_relation_ids (ur_current_turn r) = help_scaffolded (hint_level l) ts) ->
  NoDup (map uve_element_id (ur_visible_ui_elements r)) ->
  targets_must_reference_the_claimable_graph r = Ok r.
Proof.
  intros Hg Hc Hv Ht Hta Hnd Hasks [l Hsc] Hui. unfold targets_must_reference_the_claimable_graph.
  rewrite Hg, Hv, Hasks, Hsc. cbn [cg_fact_ids cg_relation_ids].
  assert (Hids : map ufc_fact_id (ur_fact_contexts r) = pack_fact_ids p).
  { apply (f_equal (map fst)) in Hc. by rewrite !map_map in Hc. }
  assert (Hkeys : map request_target_key (ur_targets r) = map target_pair ts).
  { apply (f_equal (map fst)) in Ht. by rewrite !map_map in Ht. }
  assert (Hask : map ut_ask_kind (ur_targets r) = map ask_kind ts).
  { apply (f_equal (map snd)) in Ht. by rewrite !map_map in Ht. }
  rewrite Hids, Hkeys, Hask, (map_filter_pair ufc_fact_id), (map_filter_pair fact_id), Hc.
  destruct (mapR_total (request_target_ok (pack_fact_ids p) (pack_relation_ids p)) (ur_targets r))
    as [oks ->].
  { intros u Hu. exists tt. apply (proj1 (Forall_forall _ _) Hta u Hu). }
  rewrite !bind_raise_ok; cbn [mbind res_bind]; rewrite ?bind_raise_ok; try done.
  all: apply negb_false_iff.
  - by apply scaffolded_targets.
  - apply fromkeys_set.
  - by apply uniqueb_spec.
  - by apply set_eqb_spec.
  - apply subsetb_spec. rewrite <- (map_filter_pair fact_id). intros i (f & -> & Hf)%list_elem_of_fmap.
    apply list_elem_of_fmap. exists f. split; [done|].
    by apply list_elem_of_In, filter_In in Hf as [Hf%list_elem_of_In _].
  - by apply set_eqb_spec.
  - apply uniqueb_spec, (pk_facts_unique _ Hpk).
  - by apply uniqueb_spec.
Qed.

Lemma request_total l ts pq recent text :
  askable ts -> 1 <= py_len pq -> 1 <= length text <= 300 ->
  exists r, understanding_request p l ts pq recent text = Ok r
    /\ ur_claimable_graph r = {| cg_fact_ids := pack_fact_ids p; cg_relation_ids := pack_relation_ids p;
                                 cg_open_auxiliary_claims := pack_open_auxiliary p |}
    /\ ur_child_utterance r = text.
Proof.
  intros Hask Hpq Htext. pose proof Hask as ([H1 H4] & Hnd & Hgr). unfold understanding_request.
  destruct contexts_Ok as (cs & -> & Hcs & Hpairs). cbn [mbind res_bind].
  destruct (targets_Ok ts Hgr) as (us & -> & Hus & Hkeys). cbn [mbind res_bind].
  match goal with |- exists r, request_validate ?x = _ /\ _ => exists x end.
  split; [|by split]. unfold request_validate. cbn [ur_fact_contexts ur_targets
    ur_claimable_graph ur_current_turn ur_visible_ui_elements ur_task_id ur_recent_history ur_child_utterance].
  rewrite Hcs. cbn [mbind res_bind].
  destruct (mapR_total (fun t => match ut_semantic_contract t with
    | Some c => _ ← fact_references_must_be_distinct c; Ok tt | None => Ok tt end) us) as [u1 ->].
  { intros u Hu. pose proof (proj1 (Forall_forall _ _) Hus u Hu) as Hu'. exists tt.
    destruct (ut_semantic_contract u) as [c|] eqn:Ec; [|done]. by rewrite (ta_contract _ Hu' c Ec). }
  cbn [mbind res_bind].
  destruct (mapR_total semantic_contract_belongs_only_to_relations us) as [u2 ->].
  { intros u Hu. exists u. by apply (ta_kind _ (proj1 (Forall_forall _ _) Hus u Hu)). }
  cbn [mbind res_bind cg_fact_ids cg_relation_ids].
  assert (Hlu : length us = length ts).
  { apply (f_equal length) in Hkeys. by rewrite !length_map in Hkeys. }
  assert (Hlc : length cs = length (pack_fact_ids p)).
  { apply (f_equal length) in Hpairs. rewrite !length_map in Hpairs. unfold pack_fact_ids.
    by rewrite length_map. }
  pose proof (pk_fact_count _ Hpk). pose proof (pk_relation_count _ Hpk).
  rewrite bind_raise_ok.
  2:{ unfold bounded_list. rewrite !bool_decide_eq_true_2 by lia. done. }
  unfold claimable_graph_ok. cbn [cg_fact_ids cg_relation_ids].
  rewrite (proj2 (uniqueb_spec _) (pk_facts_unique _ Hpk)).
  rewrite (proj2 (uniqueb_spec _) (pk_relations_unique _ Hpk)). cbn [negb raise_if mbind res_bind].
  destruct (scaffold_Ok l ts pq Hask Hpq) as [c ->]. cbn [mbind res_bind].
  destruct (ui_elements_Ok (hint_level l)) as (es & -> & Hes). cbn [mbind res_bind].
  pose proof (last_n_length 6 recent).
  rewrite bind_raise_ok.
  2:{ unfold bounded_list. rewrite !bool_decide_eq_true_2 by lia. done. }
  apply (cross_references_Ok _ ts); try done; simpl.
  - rewrite map_map. done.
  - eauto.
  - unfold visible_ui_elements. destruct (help_body p _); simpl; [apply NoDup_singleton|constructor].
Qed.
End request.
