(* ===== verification/UnderstandTheory.v ===== *)
(** Every way a turn is interpreted yields a sound ledger result, and free-text
    understanding always ends in a typed one: the ledger only grows, stays valid and
    bound, failed model calls are neutral, the repair attempt keeps what the first
    attempt admitted, and structured answers verify exactly their target. *)

From S2P Require Import Prelude.
From S2P Require Import PyStr.
From S2P Require Import PyNum.
From S2P Require Import Json.
From S2P Require Import Schemas.
From S2P Require Import Requests.
From S2P Require Import Regex.
From S2P Require Import Evidence.
From S2P Require Import EvidenceTheory.
From S2P Require Import Packs.
From S2P Require Import PackDump.
From S2P Require Import Snapshot.
From S2P Require Import Ledger.
From S2P Require Import LedgerTheory.
From S2P Require Import LedgerProgress.
From S2P Require Import State.
From S2P Require Import Ladder.
From S2P Require Import Understand.
From S2P Require Import Question.
From S2P Require Import Respond.
From S2P Require Import LadderTheory.

(** The result of a turn over ledger [l] of the pack behind [s]. *)
Record sound_result `{Digest} `{PackModel} (s : ContentSnapshotV2) (l : ReasoningLedgerV2)
    (r : ReasoningLedgerApplyResultV2) : Prop := {
  so_grow : maps_grow (maps_of l) (maps_of (ar_ledger r));
  so_valid : ledger_valid (ar_ledger r);
  so_completion : reasoning_completion_v2 s (ar_ledger r) = Ok (ar_completion r);
  so_new i : i ∈ new_relation_ids (ar_log r) -> is_Some (verified_relations (ar_ledger r) !! i)
}.

Section semantics.
Context `{!Digest} `{!DigestFormat} `{!PackModel} `{!PackModelChecks} `{!PackModelLaws} `{!Nfc}.
Implicit Types p : TaskPackV2.

Lemma unchanged_sound s l r : ledger_valid l -> unchanged_result s l = Ok r ->
  sound_result s l r /\ ar_ledger r = l /\ ar_log r = empty_log.
Proof.
  intros Hl Hr. unfold unchanged_result in Hr. res_inv. split; [|done].
  split; simpl; [reflexivity|done|done|]. by intros i Hi%not_elem_of_nil.
Qed.

Lemma guarded_sound s l g turn r :
  ledger_valid l -> apply_guarded_understanding_v2 s l g turn = Ok r -> sound_result s l r.
Proof.
  intros [_ Hl] (p & [_ _ _ _ He Hrep Hled _ Hc _])%apply_guarded_applied.
  destruct He, Hrep as [_ [_ Hrel] _ _ _]. split; [done|split; auto|done|].
  intros i [Hi _]%Hrel. by apply elem_of_dom.
Qed.

Lemma structured_sound s l fvs rids turn kind r :
  ledger_valid l -> apply_structured_progress_v2 s l fvs rids turn kind = Ok r -> sound_result s l r.
Proof.
  intros Hl Hr. destruct (resolve_pack s) as [p|] eqn:Hp.
  - destruct (structured_progress_Ok s l p fvs rids turn kind r); try done.
    by eapply resolve_pack_contract.
  - unfold apply_structured_progress_v2 in Hr. rewrite Hp in Hr. by res_inv.
Qed.

(** * Free text *)

Lemma failure_sound s l n reason t :
  ledger_valid l -> understanding_failure_semantics s l n reason = Ok t ->
  sound_result s l (ts_apply_result t) /\ ar_ledger (ts_apply_result t) = l
  /\ ar_log (ts_apply_result t) = empty_log /\ ts_understanding_source t = US_deterministic_fallback
  /\ ts_route t = RO_understanding_fallback /\ ts_failure_reason t = Some reason
  /\ ts_attempts t = n.
Proof.
  intros Hl Ht. unfold understanding_failure_semantics in Ht. res_inv.
  match goal with H : unchanged_result _ _ = Ok _ |- _ =>
    destruct (unchanged_sound _ _ _ Hl H) as (? & ? & ?) end. done.
Qed.

Lemma admitted_sound c n t :
  ledger_valid (cx_ledger c) -> admitted_understanding_semantics c n = Ok t ->
  exists g, cx_admitted c = Some g /\ ts_guarded t = Some g /\ ts_understanding_source t = US_sonnet_low
    /\ ts_attempts t = n
    /\ apply_guarded_understanding_v2 (cx_snapshot c) (cx_ledger c) g (cx_turn_id c)
       = Ok (ts_apply_result t)
    /\ sound_result (cx_snapshot c) (cx_ledger c) (ts_apply_result t).
Proof.
  intros Hl Ht. unfold admitted_understanding_semantics in Ht. res_inv.
  eexists. do 5 (split; [done|]). by eapply guarded_sound.
Qed.

Lemma gateway_failure_sound c n reason t :
  ledger_valid (cx_ledger c) -> gateway_failure c n reason = Ok t ->
  sound_result (cx_snapshot c) (cx_ledger c) (ts_apply_result t).
Proof.
  intros Hl. unfold gateway_failure. destruct (cx_admitted c).
  - intros Ht. by destruct (admitted_sound c n t Hl Ht) as (? & ? & ? & ? & ? & ? & ?).
  - intros Ht. by destruct (failure_sound _ _ _ _ _ Hl Ht).
Qed.

(** An attempt keeps the ledger, the snapshot and the turn it works on. *)
Definition same_frame (c c' : attempt_context) : Prop :=
  cx_snapshot c' = cx_snapshot c /\ cx_ledger c' = cx_ledger c /\ cx_turn_id c' = cx_turn_id c
  /\ cx_ladder c' = cx_ladder c.

Lemma attempt_sound gw c n out c' :
  ledger_valid (cx_ledger c) -> understand_attempt gw c n = Ok (out, c') ->
  same_frame c c' /\
  (forall t, out = Some t -> sound_result (cx_snapshot c) (cx_ledger c) (ts_apply_result t)).
Proof.
  intros Hl Hr. unfold understand_attempt in Hr.
  destruct (gw (cx_request c)) as [cand| | |];
    try (res_inv; split; [done|]; intros ? [= <-]; by eapply gateway_failure_sound).
  destruct (_ && _) eqn:Ebr in Hr.
  { res_inv. split; [done|]. intros ? [= <-]. simpl. by eapply unchanged_sound. }
  res_inv. case_match; [by res_inv|]. case_match; res_inv; (split; [done|]); intros ? [= <-].
  - match goal with H : understanding_failure_semantics _ _ _ _ = Ok _ |- _ =>
      by destruct (failure_sound _ _ _ _ _ Hl H) end.
  - match goal with H : admitted_understanding_semantics ?c' _ = Ok _ |- _ =>
      by destruct (admitted_sound c' _ _ Hl H) as (? & ? & ? & ? & ? & ? & ?) end.
Qed.

Lemma exhausted_sound c t :
  ledger_valid (cx_ledger c) -> understanding_exhausted c = Ok t ->
  sound_result (cx_snapshot c) (cx_ledger c) (ts_apply_result t).
Proof. exact (gateway_failure_sound c 2 understanding_evidence_guard_failed t). Qed.

Lemma run_attempt_sound gw c t :
  ledger_valid (cx_ledger c) -> run_attempt_graph gw c = Ok t ->
  sound_result (cx_snapshot c) (cx_ledger c) (ts_apply_result t).
Proof.
  intros Hl Hr. unfold run_attempt_graph in Hr. res_inv.
  match goal with H : understand_attempt _ _ 1 = Ok ?a |- _ => destruct a as [o1 c1];
    destruct (attempt_sound _ _ _ _ _ Hl H) as ((Hs & Hg & _) & Ho1) end.
  simpl in *. destruct o1 as [t1|]; [simplify_eq; by apply Ho1|].
  rewrite <- Hs, <- Hg in *. res_inv.
  match goal with H : understand_attempt _ _ 2 = Ok ?a |- _ => destruct a as [o2 c2];
    destruct (attempt_sound _ _ _ _ _ Hl H) as ((Hs2 & Hg2 & _) & Ho2) end.
  simpl in *. destruct o2 as [t2|]; [simplify_eq; by apply Ho2|].
  rewrite <- Hs2, <- Hg2 in *. by apply exhausted_sound.
Qed.

Lemma understand_text_sound gw ld p s l targets resp pq recent t :
  ledger_valid l -> understand_text gw ld p s l targets resp pq recent = Ok t ->
  sound_result s l (ts_apply_result t).
Proof.
  intros Hl Hr. unfold understand_text in Hr. res_inv.
  match goal with H : run_attempt_graph _ ?c = Ok _ |- _ => exact (run_attempt_sound _ c _ Hl H) end.
Qed.

(** * Structured responses *)

Lemma no_response_sound ld s l resp t :
  ledger_valid l -> no_response_semantics ld s l resp = Ok t -> sound_result s l (ts_apply_result t).
Proof.
  intros Hl Ht. unfold no_response_semantics in Ht. res_inv.
  split; simpl; [reflexivity|done|done|]. by intros i Hi%not_elem_of_nil.
Qed.

Lemma choice_sound level sub pack s l resp t :
  ledger_valid l -> choice_semantics level sub pack s l resp = Ok t ->
  sound_result s l (ts_apply_result t).
Proof.
  intros Hl Ht. unfold choice_semantics in Ht. res_inv. simpl.
  case_match; [by eapply structured_sound|by eapply unchanged_sound].
Qed.

Lemma joint_sound ld p s l resp t :
  ledger_valid l -> joint_semantics ld p s l resp = Ok t -> sound_result s l (ts_apply_result t).
Proof. intros Hl Ht. unfold joint_semantics in Ht. res_inv. by eapply structured_sound. Qed.
End semantics.

(** * Understanding free text

    Free-text understanding always ends in a typed result: the merge of the two
    attempts keeps the first attempt's admitted claims, the attempt graph returns
    for every behaviour of the model, and progress needs admitted claims. *)

(** * Insertion-ordered dictionaries *)

Section dicts.
Context {A : Type} (key : A -> string).

Lemma find_first_key L x :
  NoDup (map key L) -> x ∈ L -> find_first (fun y => bool_decide (key y = key x)) L = Some x.
Proof.
  intros Hnd Hx. destruct (find_first_is_Some (fun y => bool_decide (key y = key x)) L x Hx) as [y Hy];
    [by apply bool_decide_eq_true|].
  rewrite Hy. apply find_first_Some in Hy as [Hin Hk]. apply bool_decide_eq_true in Hk. f_equal.
  apply list_elem_of_lookup in Hin as [i Hi]. apply list_elem_of_lookup in Hx as [j Hj].
  assert (i = j) as ->; [|congruence].
  eapply (NoDup_lookup (map key L)); [done| |]; rewrite list_lookup_fmap.
  - by rewrite Hi.
  - rewrite Hj. simpl. by f_equal.
Qed.

Lemma dict_by_id l : NoDup (map key l) -> dict_by key l = l.
Proof.
  intros Hnd. unfold dict_by. rewrite fromkeys_id by done.
  assert (Hall : forall k, k ⊆ l -> flat_map (fun i => option_list
    (find_first (fun x => bool_decide (key x = i)) (rev l))) (map key k) = k).
  { induction k as [|x k IH]; intros Hk; simpl; [done|].
    rewrite find_first_key.
    - simpl. f_equal. apply IH. set_solver.
    - rewrite map_rev. by rewrite <- Permutation_rev.
    - apply list_elem_of_In, in_rev. rewrite rev_involutive. apply list_elem_of_In. set_solver. }
  by apply Hall.
Qed.

(** [setdefault] over a list of items. *)
Lemma set_default_run l d :
  NoDup (map key d) ->
  let r := fold_left (set_default key) l d in
  d `prefix_of` r /\ NoDup (map key r) /\ (forall x, x ∈ r -> x ∈ d \/ x ∈ l)
  /\ length r <= length d + length l
  /\ map key r = fold_left (set_default id) (map key l) (map key d).
Proof.
  revert d. induction l as [|x l IH]; intros d Hd; simpl.
  { split; [done|]. split; [done|]. split; [auto|split; [lia|done]]. }
  assert (Hs : map key (set_default key d x) = set_default id (map key d) (key x)).
  { unfold set_default, id. rewrite map_id. case_match; [done|]. by rewrite map_app. }
  assert (Hp : d `prefix_of` set_default key d x /\ NoDup (map key (set_default key d x))
               /\ (forall y, y ∈ set_default key d x -> y ∈ d \/ y = x)
               /\ length (set_default key d x) <= S (length d)).
  { unfold set_default. destruct (memb _ _) eqn:E.
    { split; [done|]. split; [done|]. split; [auto|lia]. }
    apply memb_false in E. split; [by apply prefix_app_r|]. split.
    { rewrite map_app. by apply NoDup_append_new. }
    split; [set_solver|]. rewrite length_app. simpl. lia. }
  destruct Hp as (Hp & Hn & Hin & Hlen).
  destruct (IH _ Hn) as (Hp' & Hn' & Hin' & Hlen' & Hk).
  split; [by etrans|]. split; [done|]. split; [|split; [lia|by rewrite Hk, Hs]].
  intros y Hy. destruct (Hin' y Hy) as [Hy'|]; [|by right; right].
  destruct (Hin y Hy') as [Hd' | ->]; [by left|]. right. left.
Qed.
End dicts.

(** Looking every key up in a dictionary with the same keys gives its values. *)
Lemma lookup_all {A B} (f : A -> string) (g : B -> string) (L : list A) (cs : list B) e :
  NoDup (map f L) -> map f L = map g cs ->
  mapR (fun c => or_raise (find_first (fun m => bool_decide (f m = g c)) L) (e c)) cs = Ok L.
Proof.
  intros Hnd. assert (Hall : forall L', L' ⊆ L -> forall cs', map f L' = map g cs' ->
    mapR (fun c => or_raise (find_first (fun m => bool_decide (f m = g c)) L) (e c)) cs' = Ok L').
  { induction L' as [|m L' IH]; intros Hs [|c cs'] Heq; simplify_eq/=; [done|].
    match goal with H : f m = g c |- _ => rewrite <- H end.
    rewrite find_first_key by (done || set_solver). simpl. rewrite IH by (done || set_solver). done. }
  by apply Hall.
Qed.

(** * Merging *)

(** What admission gives: one well-formed quotation per claim, over graph ids. *)
Record guarded_ok (p : TaskPackV2) (g : GuardedUnderstandingV2) : Prop := {
  go_matches : map em_claim_id (gu_evidence_matches g) = map claim_id (claims (gu_response g));
  go_unique : NoDup (map claim_id (claims (gu_response g)));
  go_spans : Forall (fun m => em_source_start m < em_source_end m) (gu_evidence_matches g);
  go_graph : Forall (claim_in_graph p) (claims (gu_response g))
}.

(** [new] has every claim of [old], with the same quotation. *)
Definition keeps_claims (old new : GuardedUnderstandingV2) : Prop :=
  claims (gu_response old) `prefix_of` claims (gu_response new)
  /\ gu_evidence_matches old `prefix_of` gu_evidence_matches new.

Lemma merge_ok p old cur :
  guarded_ok p old -> guarded_ok p cur ->
  exists g, merge_admitted_understanding (Some old) cur = Ok g /\ guarded_ok p g
    /\ keeps_claims old g
    /\ length (claims (gu_response g)) <= length (claims (gu_response old))
                                          + length (claims (gu_response cur)).
Proof.
  intros [Hm1 Hu1 Hs1 Hg1] [Hm2 Hu2 Hs2 Hg2]. unfold merge_admitted_understanding.
  rewrite !dict_by_id by (by rewrite ?Hm1).
  destruct (set_default_run claim_id (claims (gu_response cur)) (claims (gu_response old)) Hu1)
    as (Hpc & Hnc & Hic & Hlc & Hkc).
  destruct (set_default_run em_claim_id (gu_evidence_matches cur) (gu_evidence_matches old))
    as (Hpm & Hnm & Him & Hlm & Hkm); [by rewrite Hm1|].
  assert (Hkeys : map em_claim_id (fold_left (set_default em_claim_id) (gu_evidence_matches cur)
                    (gu_evidence_matches old))
                  = map claim_id (fold_left (set_default claim_id) (claims (gu_response cur))
                    (claims (gu_response old)))) by (by rewrite Hkm, Hkc, Hm1, Hm2).
  rewrite (lookup_all em_claim_id claim_id _ _ (fun c => KeyError (claim_id c))) by done.
  cbn [mbind res_bind]. eexists. split; [done|]. simpl. split; [|done].
  split; simpl; [done|done| |]; apply Forall_forall.
  - intros m [Hm|Hm]%Him; [by apply (proj1 (Forall_forall _ _) Hs1)|by apply (proj1 (Forall_forall _ _) Hs2)].
  - intros c [Hc|Hc]%Hic; [by apply (proj1 (Forall_forall _ _) Hg1)|by apply (proj1 (Forall_forall _ _) Hg2)].
Qed.

(** * The attempt graph *)

Section attempts.
Context `{!Digest} `{!DigestFormat} `{!PackModel} `{!PackModelChecks} `{!PackModelLaws} `{!Nfc}.
Implicit Types p : TaskPackV2.

(** A task question and nothing else says what it asks about. *)
Definition focus_ok (r : UnderstandingResponseV2) : Prop :=
  question_focus r = None <-> conversation_move r <> TASK_QUESTION.

(** What pydantic has enforced on a model response: unique claim ids, nonempty
    quotations, at most thirty claims, the focus of a question. *)
Definition response_ok (r : UnderstandingResponseV2) : Prop :=
  NoDup (map claim_id (claims r)) /\ Forall (fun c => evidence_span c <> []) (claims r)
  /\ length (claims r) <= 30 /\ focus_ok r.

Definition gateway_ok (gw : UnderstandingRequestV2 -> GatewayOutcome) : Prop :=
  forall req r, gw req = GW_response r -> response_ok r.

(** The frame of an attempt over pack [p]: a valid bound ledger with room for the
    auxiliary markers of two responses, a request over the pack's graph, and at
    most [n] claims admitted so far. *)
Record frame_ok p (n : nat) (c : attempt_context) : Prop := {
  fr_pack : resolve_pack (cx_snapshot c) = Ok p;
  fr_bound : validate_ledger_binding (cx_snapshot c) (cx_ledger c) p = Ok tt;
  fr_valid : ledger_valid (cx_ledger c);
  fr_turn : turn_id_ok (cx_turn_id c) = true;
  fr_facts i : i ∈ cg_fact_ids (ur_claimable_graph (cx_request c)) -> i ∈ pack_fact_ids p;
  fr_relations i : i ∈ cg_relation_ids (ur_claimable_graph (cx_request c)) ->
                   i ∈ pack_relation_ids p;
  fr_text : length (ur_child_utterance (cx_request c)) <= 300;
  fr_room : size (accepted_auxiliary_evidence (cx_ledger c)) <= 140;
  fr_admitted g : cx_admitted c = Some g ->
                  guarded_ok p g /\ claims (gu_response g) <> []
                  /\ length (claims (gu_response g)) <= n
}.

Lemma admission_ok p n c r :
  frame_ok p n c -> response_ok r ->
  exists a, admit_understanding_response_v2 (cx_request c) r = Ok a /\ guarded_ok p (ad_guarded a)
    /\ length (claims (gu_response (ad_guarded a))) <= 30.
Proof.
  intros [] (Hnd & Hne & Hlen & _).
  assert (Hb : Forall (bounded_quote (cx_request c)) (claims r)).
  { eapply Forall_impl; [exact Hne|]. by split. }
  rewrite admit_closed_form by done. eexists. split; [done|]. simpl.
  split; [|etrans; [apply List.filter_length_le|done]]. split; simpl.
  - apply em_of_claims, Forall_admissible_em.
  - by apply NoDup_map_filter.
  - by apply admitted_spans.
  - apply Forall_forall. intros d [_ Ha]%list_elem_of_In%filter_In. by eapply admissible_in_graph.
Qed.

Lemma auxiliary_sum cs : sum_list (map auxiliary_count cs) <= length cs.
Proof.
  induction cs as [|c cs IH]; simpl; [done|].
  assert (auxiliary_count c <= 1) by (destruct c; simpl; repeat case_match; lia). lia.
Qed.

Lemma failure_total p n c k reason :
  frame_ok p n c -> exists t, understanding_failure_semantics (cx_snapshot c) (cx_ledger c) k reason = Ok t.
Proof.
  intros []. unfold understanding_failure_semantics, unchanged_result.
  destruct (completion_total (cx_snapshot c) (cx_ledger c) p) as [cp ->]; [done..|].
  vm_compute server_understanding. cbn [mbind res_bind]. eauto.
Qed.

Lemma apply_total p n c g :
  frame_ok p n c -> guarded_ok p g -> length (claims (gu_response g)) <= 60 ->
  exists r, apply_guarded_understanding_v2 (cx_snapshot c) (cx_ledger c) g (cx_turn_id c) = Ok r.
Proof.
  intros [] [] Hlen. pose proof (auxiliary_sum (claims (gu_response g))).
  apply (apply_guarded_total _ _ _ _ p); try done; [by eapply resolve_pack_contract|lia].
Qed.

Lemma admitted_total p c k :
  frame_ok p 60 c -> is_Some (cx_admitted c) ->
  exists t, admitted_understanding_semantics c k = Ok t.
Proof.
  intros Hf [g Hg]. destruct (fr_admitted _ _ _ Hf g Hg) as (Hok & _ & Hlen).
  unfold admitted_understanding_semantics. rewrite Hg. cbn [or_raise mbind res_bind].
  destruct (apply_total p 60 c g Hf Hok Hlen) as [r ->]. cbn [mbind res_bind]. eauto.
Qed.

Lemma frame_more p n m c : n <= m -> frame_ok p n c -> frame_ok p m c.
Proof.
  intros Hnm []. split; try done. intros g Hg.
  destruct (fr_admitted0 g Hg) as (? & ? & ?). auto with lia.
Qed.

(** What an attempt makes of a quotable answer. *)
Lemma merge_into p n c a :
  frame_ok p n c -> guarded_ok p (ad_guarded a) ->
  length (claims (gu_response (ad_guarded a))) <= 30 ->
  exists g, merge_admitted_understanding (cx_admitted c) (ad_guarded a) = Ok g /\ guarded_ok p g
    /\ length (claims (gu_response g)) <= n + 30
    /\ (forall g0, cx_admitted c = Some g0 -> keeps_claims g0 g).
Proof.
  intros [] Ha Hlen. destruct (cx_admitted c) as [g0|] eqn:Hc.
  - destruct (fr_admitted0 g0 eq_refl) as (Hg0 & _ & Hl0).
    destruct (merge_ok p g0 (ad_guarded a) Hg0 Ha) as (g & Hg & Hok & Hk & Hl).
    exists g. split; [done|]. split; [done|]. split; [lia|]. by intros ? [= <-].
  - exists (ad_guarded a). split; [done|]. split; [done|]. split; [lia|done].
Qed.

(** The typed outcomes of an attempt: a final result, with the admitted claims
    applied or nothing applied, or the request for one repair. *)
Definition final_result c (t : TurnSemantics) (k : nat) : Prop :=
  ts_attempts t = k /\
  match ts_guarded t with
  | Some g =>
      ts_understanding_source t = US_sonnet_low
      /\ apply_guarded_understanding_v2 (cx_snapshot c) (cx_ledger c) g (cx_turn_id c)
         = Ok (ts_apply_result t)
      /\ forall g0, cx_admitted c = Some g0 -> keeps_claims g0 g
  | None => cx_admitted c = None /\ ar_ledger (ts_apply_result t) = cx_ledger c
            /\ ar_log (ts_apply_result t) = empty_log
  end.

Lemma gateway_failure_total p c k reason :
  frame_ok p 60 c -> exists t, gateway_failure c k reason = Ok t /\ final_result c t k.
Proof.
  intros Hf. pose proof (fr_valid _ _ _ Hf) as Hl. unfold gateway_failure, final_result.
  destruct (cx_admitted c) as [g|] eqn:Hc.
  - destruct (admitted_total p c k Hf) as [t Ht]; [by rewrite Hc|]. exists t. split; [done|].
    apply admitted_sound in Ht as (g' & Hg' & -> & Hs & Hn & Ha & _); [|done].
    rewrite Hc in Hg'. injection Hg' as <-. split; [done|]. do 2 (split; [done|]).
    intros ? [= <-]. by split.
  - destruct (failure_total p 60 c k reason Hf) as [t Ht]. exists t. split; [done|].
    pose proof Ht as Ht0. apply failure_sound in Ht as (_ & ? & ? & _ & _ & _ & ?); [|done].
    unfold understanding_failure_semantics in Ht0. res_inv. done.
Qed.

(** One attempt with at most [30] claims admitted before it. *)
Lemma attempt_total p gw c k :
  frame_ok p 30 c -> gateway_ok gw -> (k = 1 -> cx_admitted c = None) ->
  exists out, understand_attempt gw c k = Ok out /\
    match out.1 with
    | Some t => final_result c t k
    | None => k = 1 /\ frame_ok p 30 out.2 /\ same_frame c out.2
    end.
Proof.
  intros Hf Hgw Hk. assert (Hf60 : frame_ok p 60 c) by (eapply frame_more; [|done]; lia).
  unfold understand_attempt.
  destruct (gw (cx_request c)) as [r| | |] eqn:Hr;
    try (edestruct (gateway_failure_total p c k) as (t & Ht & Hfin); [done|];
         rewrite Ht; cbn [mbind res_bind]; by eexists).
  destruct (_ && _) eqn:Ebr.
  { apply andb_true_iff in Ebr as [_ Hnone%bool_decide_eq_true].
    destruct Hf. destruct (completion_total (cx_snapshot c) (cx_ledger c) p) as [cp Hcp]; [done..|].
    unfold unchanged_result. rewrite Hcp. cbn [mbind res_bind]. eexists. split; [done|].
    split; [done|]. simpl. split; [|done]. by apply eq_None_not_Some. }
  destruct (admission_ok p 30 c r Hf (Hgw _ _ Hr)) as (a & -> & Ha & Hlen). cbn [mbind res_bind].
  destruct (merge_into p 30 c a Hf Ha Hlen) as (g & Hm & Hg & Hlg & Hkeep).
  rewrite Hm. cbn [mbind res_bind].
  destruct (needs_repair a && bool_decide (k = 1)) eqn:Erep.
  { apply andb_true_iff in Erep as [_ ->%bool_decide_eq_true]. eexists. split; [done|].
    cbn [fst snd]. split; [done|]. split; [|done].
    rewrite Hk in Hm by done. injection Hm as <-. destruct Hf. split; try done.
    simpl. intros g0. destruct (truthy _) eqn:Et; [|done]. intros [= <-].
    split; [done|]. split; [|done]. by intros Hn; rewrite Hn in Et. }
  destruct (negb _ && _) eqn:Eempty.
  { apply andb_true_iff in Eempty as [Hn%negb_true_iff _].
    destruct (failure_total p 60 c k understanding_evidence_guard_failed Hf60) as [t Ht].
    rewrite Ht. cbn [mbind res_bind]. eexists. split; [done|]. simpl.
    pose proof Ht as Ht0. apply failure_sound in Ht as (_ & ? & ? & _ & _ & _ & ?); [|by apply Hf].
    split; [done|]. unfold understanding_failure_semantics in Ht0. res_inv. split; [|done].
    destruct (cx_admitted c) as [g0|] eqn:Hc; [|done]. exfalso.
    destruct (fr_admitted _ _ _ Hf g0 Hc) as (_ & Hne & _). destruct (Hkeep g0 eq_refl) as [[rest Hp] _].
    rewrite Hp in Hn. by destruct (claims (gu_response g0)). }
  destruct (apply_total p 60 c g Hf60 Hg) as [r' Hr']; [lia|].
  unfold admitted_understanding_semantics. 
  cbn [cx_admitted cx_snapshot cx_ledger cx_turn_id cx_with or_raise mbind res_bind].
  rewrite Hr'. cbn [mbind res_bind].
  eexists. split; [done|]. split; [done|]. simpl. done.
Qed.

(** The second attempt always ends the turn. *)
Lemma second_attempt p gw c :
  frame_ok p 30 c -> gateway_ok gw ->
  exists t c', understand_attempt gw c 2 = Ok (Some t, c') /\ final_result c t 2.
Proof.
  intros Hf Hgw. destruct (attempt_total p gw c 2 Hf Hgw) as ([[t|] c'] & Ho & Ht); [done| |].
  - eauto.
  - by destruct Ht.
Qed.

Lemma attempts_answer p gw c ladder :
  frame_ok p 30 c -> cx_admitted c = None -> (forall k, gateway_ok (gw k)) ->
  exists t, run_attempt_graph gw c = Ok t /\ 1 <= ts_attempts t <= 2 /\
    match ts_guarded t with
    | Some g => apply_guarded_understanding_v2 (cx_snapshot c) (cx_ledger c) g (cx_turn_id c)
                = Ok (ts_apply_result t)
    | None => ar_ledger (ts_apply_result t) = cx_ledger c
              /\ ar_log (ts_apply_result t) = empty_log
    end /\
    (ts_understanding_source t = US_deterministic_fallback -> apply_ladder_policy ladder t = ladder).
Proof.
  intros Hf Hn Hgw. unfold run_attempt_graph.
  assert (Hpol : forall t, ts_understanding_source t = US_deterministic_fallback ->
    apply_ladder_policy ladder t = ladder).
  { intros t Ht. unfold apply_ladder_policy. by rewrite decide_True. }
  destruct (attempt_total p (gw 1) c 1 Hf (Hgw 1)) as ([[t|] c1] & -> & Ho); [done| |];
    cbn [fst snd mbind res_bind] in *.
  - destruct Ho as [Ha Ht]. exists t. split; [done|]. split; [lia|]. split; [|auto].
    destruct (ts_guarded t); by destruct Ht as (? & ? & ?).
  - destruct Ho as (_ & Hf1 & Hsame).
    destruct (second_attempt p (gw 2) c1 Hf1 (Hgw 2)) as (t & c2 & -> & Ha & Ht).
    cbn [fst snd mbind res_bind]. exists t. split; [done|]. split; [lia|]. split; [|auto].
    destruct Hsame as (<- & <- & <- & _). destruct (ts_guarded t); by destruct Ht as (? & ? & ?).
Qed.

(** (C28) Understanding always answers: for a valid, bound ledger and a request
    over the pinned graph, whatever the model does (timeouts, refusals, invalid
    output, wrong claims, quotations the child never said), the two-attempt
    graph returns a typed result after at most two calls.  Either it carries
    admitted claims and their ledger application, or the ledger and the result
    lists are untouched; and a result blamed on the model moves neither ladder. *)
Theorem understanding_always_answers p gw c ladder :
  frame_ok p 30 c -> cx_admitted c = None -> (forall k, gateway_ok (gw k)) ->
  exists t, run_attempt_graph gw c = Ok t /\ 1 <= ts_attempts t <= 2 /\
    match ts_guarded t with
    | Some g => apply_guarded_understanding_v2 (cx_snapshot c) (cx_ledger c) g (cx_turn_id c)
                = Ok (ts_apply_result t)
    | None => ar_ledger (ts_apply_result t) = cx_ledger c
              /\ ar_log (ts_apply_result t) = empty_log
    end /\
    (ts_understanding_source t = US_deterministic_fallback -> apply_ladder_policy ladder t = ladder).
Proof. exact (attempts_answer p gw c ladder). Qed.

(** Repair never loses evidence: when the first response admitted some claims
    and asked for a repair, every one of those claims, with its quotation, is
    among the claims the turn finally applies, in the same order and before any
    claim of the second response, whatever the second call does. *)
Theorem repair_keeps_first_admission p gw c c1 g1 :
  frame_ok p 30 c -> cx_admitted c = None -> (forall k, gateway_ok (gw k)) ->
  understand_attempt (gw 1) c 1 = Ok (None, c1) -> cx_admitted c1 = Some g1 ->
  exists t g, run_attempt_graph gw c = Ok t /\ ts_guarded t = Some g /\ keeps_claims g1 g /\
    apply_guarded_understanding_v2 (cx_snapshot c) (cx_ledger c) g (cx_turn_id c)
    = Ok (ts_apply_result t).
Proof.
  intros Hf Hn Hgw H1 Hg1. unfold run_attempt_graph. rewrite H1. cbn [fst snd mbind res_bind].
  destruct (attempt_total p (gw 1) c 1 Hf (Hgw 1)) as (o & Ho & Hout); [done|].
  rewrite H1 in Ho. injection Ho as <-. destruct Hout as (_ & Hf1 & Hsame). cbn [snd] in *.
  destruct (second_attempt p (gw 2) c1 Hf1 (Hgw 2)) as (t & c2 & -> & _ & Ht).
  cbn [fst snd mbind res_bind]. destruct Hsame as (<- & <- & <- & _).
  destruct (ts_guarded t) as [g|] eqn:Eg; [|by destruct Ht as [Ht _]; rewrite Ht in Hg1].
  destruct Ht as (_ & Ha & Hk). exists t, g. auto.
Qed.
End attempts.
