(* ===== verification/QuestionTheory.v ===== *)
(** Every question asks for something still open, in the form the expression
    level prescribes, and one always exists while the session is incomplete:
    properties of [Question.question_contract] over a validated home pack. *)

From S2P Require Import Prelude.
From S2P Require Import PyStr.
From S2P Require Import PyNum.
From S2P Require Import Json.
From S2P Require Import Schemas.
From S2P Require Import Requests.
From S2P Require Import Regex.
From S2P Require Import Evidence.
From S2P Require Import Packs.
From S2P Require Import PackDump.
From S2P Require Import Snapshot.
From S2P Require Import Ledger.
From S2P Require Import LedgerTheory.
From S2P Require Import ContentCopy.
From S2P Require Import ContentChecks.
From S2P Require Import ContentPack.
From S2P Require Import LifeChecks.
From S2P Require Import ContentTheory.
From S2P Require Import HomeContract.
From S2P Require Import State.
From S2P Require Import Ladder.
From S2P Require Import Understand.
From S2P Require Import Question.

(** * Open targets *)

(** The target is required and not verified in [lg]. *)
Definition unverified (lg : ReasoningLedgerV2) (t : TargetKind * string) : Prop :=
  match t.1 with
  | KIND_fact => t.2 ∉ dom (verified_facts lg)
  | KIND_relation => t.2 ∉ dom (verified_relations lg)
  end.
Definition open_target (p : TaskPackV2) (lg : ReasoningLedgerV2) (t : TargetKind * string) : Prop :=
  t ∈ required_targets p /\ unverified lg t.

(** A ledger of a pinned home pack, as every resolved state has it. *)
Record engine_frame `{Digest} `{PackModel} (pack : RequiredHomeTeachingPackV2)
    (snap : PinnedContentSnapshotV2) (lg : ReasoningLedgerV2) : Prop := {
  ef_pin : pin_content_pack_v2 pack = Ok snap;
  ef_bound : validate_ledger_binding (HomeSnapshot snap) lg (HomePack pack) = Ok tt;
  ef_valid : ledger_valid lg
}.

(** The initial question and the L3 plans agree on how each target is asked. *)
Definition plans_agree (pack : RequiredHomeTeachingPackV2) : bool :=
  forallb (fun q => forallb (fun t' => forallb (fun t =>
      negb (bool_decide (target_pair t = target_pair t')) || bool_decide (t = t'))
    (qp_targets (hp_initial_question pack))) (qp_targets q)) (hp_l3_plans pack).

Lemma plans_agree_spec pack : plans_agree pack = true -> forall q t t',
  q ∈ hp_l3_plans pack -> t' ∈ qp_targets q -> t ∈ qp_targets (hp_initial_question pack) ->
  target_pair t = target_pair t' -> t = t'.
Proof.
  unfold plans_agree. rewrite forallb_forall. intros Ha q t t' Hq%list_elem_of_In Ht' Ht Hp.
  specialize (Ha q Hq). rewrite forallb_forall in Ha. specialize (Ha t' (proj1 (list_elem_of_In _ _) Ht')).
  rewrite forallb_forall in Ha. specialize (Ha t (proj1 (list_elem_of_In _ _) Ht)).
  rewrite Hp, bool_decide_eq_true_2 in Ha by done. by apply bool_decide_eq_true in Ha.
Qed.

(** [f"{kind}:{id}"] identifies a target. *)
Lemma target_key_inj t t' : target_key t = target_key t' <-> target_pair t = target_pair t'.
Proof.
  unfold target_key, pair_key, target_pair. split.
  - destruct (target_kind t), (target_kind t'); simpl; intros [= Hi]; exact (f_equal (pair _) Hi).
  - by intros [= -> ->].
Qed.

Lemma memb_target_key t ts : memb (target_key t) (map target_key ts) = memb (target_pair t) (map target_pair ts).
Proof.
  unfold memb. apply bool_decide_ext. rewrite !list_elem_of_fmap.
  split; intros (t' & Heq & Ht'); exists t'; (split; [|done]); by apply target_key_inj.
Qed.

Lemma first_open_Some ordered cs t : first_open ordered cs = Some t -> t ∈ ordered /\ t ∈ cs.
Proof. intros [Hc Hm]%find_first_Some. by apply memb_spec in Hm. Qed.

(** The reported completion in terms of the open targets. *)
Lemma completion_open `{Digest} `{PackModel} s p lg c :
  resolve_pack s = Ok p -> reasoning_completion_v2 s lg = Ok c ->
  (complete c = true <-> forall t, ~ open_target p lg t) /\
  (forall t, t ∈ map (pair KIND_fact) (remaining_fact_ids c)
                 ++ map (pair KIND_relation) (remaining_relation_ids c) <-> open_target p lg t).
Proof.
  intros Hres Hc. apply completion_Ok in Hc as (p' & Hp & _ & Hcomp & Hf & Hr).
  rewrite Hres in Hp. injection Hp as <-.
  assert (Hopen : forall t, t ∈ map (pair KIND_fact) (remaining_fact_ids c)
    ++ map (pair KIND_relation) (remaining_relation_ids c) <-> open_target p lg t).
  { intros [k i]. unfold open_target, required_targets, unverified. simpl.
    rewrite !elem_of_app, !list_elem_of_fmap. destruct k; naive_solver. }
  split; [|done]. rewrite Hcomp. unfold open_target, required_targets, unverified. split.
  - intros [Hfs Hrs] [k i] [Hin Hun]. simpl in *.
    rewrite elem_of_app, !list_elem_of_fmap in Hin. destruct k; naive_solver.
  - intros Hno. split; intros i Hi.
    + destruct (decide (i ∈ dom (verified_facts lg))) as [|Hn]; [done|]. exfalso.
      apply (Hno (KIND_fact, i)). split; [|done]. simpl.
      rewrite elem_of_app, !list_elem_of_fmap. left. eauto.
    + destruct (decide (i ∈ dom (verified_relations lg))) as [|Hn]; [done|]. exfalso.
      apply (Hno (KIND_relation, i)). split; [|done]. simpl.
      rewrite elem_of_app, !list_elem_of_fmap. right. eauto.
Qed.

Lemma incomplete_open `{Digest} `{PackModel} s p lg c :
  resolve_pack s = Ok p -> reasoning_completion_v2 s lg = Ok c -> complete c = false ->
  exists t, open_target p lg t.
Proof.
  intros Hp Hc Hn. destruct (completion_open _ _ _ _ Hp Hc) as [Hcomp Hopen].
  destruct (map (pair KIND_fact) _ ++ _) as [|t ts].
  - exfalso. rewrite (proj2 Hcomp) in Hn; [done|]. intros t Ht%Hopen. by apply not_elem_of_nil in Ht.
  - exists t. apply Hopen. left.
Qed.

Section questions.
Context `{!Digest} `{!PackModel} `{!PackModelChecks} `{!PackModelLaws} `{!HomePackLaws}.
Variables (pack : RequiredHomeTeachingPackV2) (snap : PinnedContentSnapshotV2)
          (lg : ReasoningLedgerV2).
Hypothesis Hframe : engine_frame pack snap lg.
Notation p := (HomePack pack).

Lemma frame_validated : home_model_validate pack = Ok pack.
Proof.
  pose proof (ef_pin _ _ _ Hframe) as Hp. unfold pin_content_pack_v2, pinned_content_snapshot in Hp.
  res_inv. simpl in *. match goal with H : home_model_validate _ = Ok _ |- _ =>
    by pose proof (home_validate_id _ _ H) as -> end.
Qed.

Lemma frame_resolves : resolve_pack (HomeSnapshot snap) = Ok p.
Proof. exact (pinned_content_resolves _ _ (ef_pin _ _ _ Hframe)). Qed.

Lemma frame_contract : pack_contract p.
Proof. exact (home_contract _ _ frame_validated). Qed.
Lemma frame_home : engine_contract pack.
Proof. exact (home_engine_contract _ _ frame_validated). Qed.

Lemma frame_completion :
  exists c, reasoning_completion_v2 (HomeSnapshot snap) lg = Ok c /\
    (complete c = true <-> forall t, ~ open_target p lg t) /\
    (forall t, t ∈ map (pair KIND_fact) (remaining_fact_ids c)
                   ++ map (pair KIND_relation) (remaining_relation_ids c) <-> open_target p lg t).
Proof.
  destruct (completion_total _ lg p frame_resolves (ef_bound _ _ _ Hframe)) as [c Hc].
  exists c. split; [done|]. by eapply completion_open; [apply frame_resolves|].
Qed.

(** The targets of the active state: open, from the initial question, none only
    when nothing is open. *)
Lemma active_targets level :
  exists ts, targets_from_active_state level pack lg = Ok ts /\
    (forall t, t ∈ ts -> t ∈ qp_targets (hp_initial_question pack) /\ open_target p lg (target_pair t)) /\
    (ts = [] -> forall t, ~ open_target p lg t).
Proof.
  unfold targets_from_active_state. rewrite (ef_pin _ _ _ Hframe). cbn [mbind res_bind].
  destruct frame_completion as (c & -> & _ & Hopen). cbn [mbind res_bind].
  set (ordered := remaining_targets (qp_targets (hp_initial_question pack)) c).
  assert (Hord : forall t, t ∈ ordered <->
    t ∈ qp_targets (hp_initial_question pack) /\ open_target p lg (target_pair t)).
  { intros t. unfold ordered, remaining_targets.
    rewrite list_elem_of_In, filter_In, <- list_elem_of_In, memb_spec, Hopen. done. }
  assert (Hsome : ordered = [] -> forall t, ~ open_target p lg t).
  { intros Hnil [k i] Ho. pose proof (proj2 (pk_initial _ frame_contract (k, i)) (proj1 Ho)) as Hin.
    apply list_elem_of_fmap in Hin as (t & Heq & Ht). simpl in Ht.
    assert (t ∈ ordered) as Hto by (apply Hord; split; [done|by rewrite <- Heq]).
    rewrite Hnil in Hto. by apply not_elem_of_nil in Hto. }
  destruct ordered as [|first rest] eqn:Eord; [exists []; split; [done|]; set_solver|].
  assert (Hone : forall t, t ∈ first :: rest ->
    exists ts, Ok [t] = Ok ts /\ (forall u, u ∈ ts -> u ∈ qp_targets (hp_initial_question pack)
      /\ open_target p lg (target_pair u)) /\ (ts = [] -> forall u, ~ open_target p lg u)).
  { intros t Ht. exists [t]. split; [done|]. split; [|done].
    intros u ->%list_elem_of_singleton. by apply Hord. }
  destruct (memb level [L4; L0]).
  { exists (first :: rest). split; [done|]. split; [|done]. intros t. apply Hord. }
  destruct (find_first (is_partial_target lg) _) as [t|] eqn:Ep.
  { apply find_first_Some in Ep as [Ht _]. by apply Hone. }
  destruct (mapR_total plan_target (hp_l3_plans pack)) as [l3 Hl3].
  { intros q Hq. pose proof (proj1 (Forall_forall _ _) (pk_l3_single _ frame_contract) q Hq) as Hq1.
    cbn beta in Hq1. unfold plan_target. destruct (qp_targets q); [by simpl in Hq1|]. simpl. eauto. }
  rewrite Hl3. set (cand := if decide (level = L3) then Ok l3 else Ok []).
  assert (exists l, cand = Ok l) as [l ->] by (unfold cand; case_decide; eauto).
  cbn [mbind res_bind]. destruct (first_open _ l) as [t|] eqn:El.
  { apply first_open_Some in El as [Ht _]. by apply Hone. }
  destruct (first_open _ (map l2_target _)) as [t|] eqn:E2.
  { apply first_open_Some in E2 as [Ht _]. by apply Hone. }
  apply Hone. left.
Qed.

(** ** The plans behind each level *)

Lemma single_plan q : q ∈ hp_l3_plans pack -> exists t, qp_targets q = [t] /\ plan_target q = Ok t.
Proof.
  intros Hq. pose proof (proj1 (Forall_forall _ _) (pk_l3_single _ frame_contract) q Hq) as Hq1.
  cbn beta in Hq1. unfold plan_target. destruct (qp_targets q) as [|t [|]]; simpl in *; try lia.
  eauto.
Qed.

(** The L3 plan of a required target. *)
Lemma l3_plan_of t : t ∈ required_targets p ->
  exists q u, q ∈ hp_l3_plans pack /\ plan_target q = Ok u /\ u ∈ qp_targets q /\ target_pair u = t.
Proof.
  intros Ht. apply (proj2 (pk_l3 _ frame_contract)) in Ht. unfold l3_pairs in Ht. simpl in Ht.
  apply list_elem_of_In, in_flat_map in Ht as (q & Hq%list_elem_of_In & Hin%list_elem_of_In).
  apply list_elem_of_fmap in Hin as (u & -> & Hu). exists q, u.
  destruct (single_plan q Hq) as (u' & Hs & Hp). rewrite Hs in Hu.
  apply list_elem_of_singleton in Hu as ->. rewrite Hs. repeat split; [done|done|left].
Qed.

Lemma l3_by_key keys plans :
  (forall q, q ∈ plans -> q ∈ hp_l3_plans pack) ->
  (exists q u, q ∈ plans /\ plan_target q = Ok u /\ target_key u ∈ keys) ->
  exists q u, l3_plan_by_key keys plans = Ok q /\ qp_targets q = [u] /\ plan_target q = Ok u
              /\ target_key u ∈ keys.
Proof.
  induction plans as [|q plans IH]; intros Hsub (q0 & u0 & Hq0 & Hu0 & Hk0).
  { by apply not_elem_of_nil in Hq0. }
  simpl. destruct (single_plan q) as (u & Hs & Hp); [apply Hsub; left|]. rewrite Hp. cbn [mbind res_bind].
  destruct (memb (target_key u) keys) eqn:Em.
  - apply memb_spec in Em. exists q, u. auto.
  - apply IH; [intros; apply Hsub; by right|]. exists q0, u0. split; [|done].
    apply elem_of_cons in Hq0 as [->|]; [|done]. rewrite Hu0 in Hp. injection Hp as <-.
    by apply memb_false in Em.
Qed.

Lemma l3_exact t plans :
  (forall q, q ∈ plans -> q ∈ hp_l3_plans pack) ->
  (exists q, q ∈ plans /\ plan_target q = Ok t) ->
  exists q, l3_plan_exact t plans = Ok q.
Proof.
  induction plans as [|q plans IH]; intros Hsub (q0 & Hq0 & Hu0).
  { by apply not_elem_of_nil in Hq0. }
  simpl. destruct (single_plan q) as (u & Hs & Hp); [apply Hsub; left|]. rewrite Hp. cbn [mbind res_bind].
  case_decide; [eauto|]. apply IH; [intros; apply Hsub; by right|]. exists q0. split; [|done].
  apply elem_of_cons in Hq0 as [->|]; [congruence|done].
Qed.

Lemma l2_plan_total ts t :
  t ∈ ts -> target_pair t ∈ required_targets p ->
  exists plan, l2_plan_for_targets pack ts = Ok plan /\ plan ∈ hp_l2_plans pack
               /\ target_pair (l2_target plan) ∈ map target_pair ts.
Proof.
  intros Ht Hreq. apply (proj2 (pk_l2 _ frame_contract)) in Hreq. simpl in Hreq.
  apply list_elem_of_fmap in Hreq as (q & Heq & Hq). unfold l2_plan_for_targets.
  destruct (find_first_is_Some (fun q => memb (target_pair (l2_target q)) (map target_pair ts))
    (hp_l2_plans pack) q Hq) as [plan Hplan].
  { apply memb_spec. rewrite <- Heq. apply list_elem_of_fmap. eauto. }
  exists plan. rewrite Hplan. apply find_first_Some in Hplan as [Hin Hm%memb_spec]. done.
Qed.

(** What the question of a level looks like. *)
Definition level_input (level : ExpressionLevel) : InputKind :=
  match level with L0 => IK_JOINT | L2 => IK_CHOICES | _ => IK_TEXT end.

Definition question_state (state st' : SessionState) : Prop :=
  st' = with_subgoal (with_ladder state (if decide (expression_level (ladder state) = L0)
                                         then with_hint (ladder state) H3 else ladder state))
          (subgoal_id st').

Record good_question (level : ExpressionLevel) (q : QuestionContract) : Prop := {
  gq_some : qc_targets q <> [];
  gq_open t : t ∈ qc_targets q -> open_target p lg (target_pair t);
  gq_kind : ic_kind (qc_input q) = level_input level;
  gq_slots : ic_target_slots (qc_input q) = map target_key (qc_targets q)
}.

Lemma free_text_total ts :
  plans_agree pack = true -> ts <> [] ->
  (forall t, t ∈ ts -> t ∈ qp_targets (hp_initial_question pack)
                       /\ open_target p lg (target_pair t)) ->
  exists out, free_text_question (hp_initial_question pack) (hp_l3_plans pack) ts = Ok out
              /\ good_question L4 out.2.
Proof.
  intros Hagree Hne Hts. unfold free_text_question. case_bool_decide.
  { eexists. split; [done|]. split; simpl; try done. intros t Ht. by apply Hts. }
  destruct ts as [|t [|]]; simpl in *; [done| |lia].
  destruct (Hts t) as [Hin [Hreq Hun]]; [left|].
  destruct (l3_plan_of _ Hreq) as (q & u & Hq & Hp & Hu & Heq).
  assert (t = u) as -> by (by eapply plans_agree_spec).
  destruct (l3_exact u (hp_l3_plans pack)) as [plan Hplan]; [done|eauto|].
  destruct (hp_l3_plans pack) as [|q1 qs] eqn:Eqs; [by apply not_elem_of_nil in Hq|].
  cbn [or_raise mbind res_bind]. rewrite Hplan. cbn [mbind res_bind]. eexists. split; [done|].
  split; simpl; try done. intros v ->%list_elem_of_singleton. by apply Hts, list_elem_of_singleton.
Qed.

Lemma l3_total ts :
  ts <> [] -> (forall t, t ∈ ts -> open_target p lg (target_pair t)) ->
  exists plan q, l3_plan_by_key (map target_key ts) (hp_l3_plans pack) = Ok plan
                 /\ l3_question plan = Ok q /\ good_question L3 q.
Proof.
  intros Hne Hts. destruct ts as [|t ts]; [done|].
  destruct (l3_plan_of (target_pair t)) as (q0 & u0 & Hq0 & Hp0 & _ & Heq); [by apply Hts; left|].
  destruct (l3_by_key (map target_key (t :: ts)) (hp_l3_plans pack)) as (plan & u & Hplan & Hs & Hp & Hk);
    [done| |].
  { exists q0, u0. split; [done|]. split; [done|]. apply list_elem_of_fmap. exists t.
    split; [by apply target_key_inj|left]. }
  exists plan. unfold l3_question. rewrite Hplan, Hp. cbn [mbind res_bind]. eexists. split; [done|].
  split; [done|]. split; simpl; rewrite ?Hs; try done.
  intros v ->%list_elem_of_singleton. apply list_elem_of_fmap in Hk as (v & Hv & Hin).
  apply target_key_inj in Hv. rewrite Hv. by apply Hts.
Qed.

Lemma l2_total ts :
  ts <> [] -> (forall t, t ∈ ts -> open_target p lg (target_pair t)) ->
  exists plan slot, l2_plan_for_targets pack ts = Ok plan
    /\ first_slot pack (fun s => bool_decide (cs_copy_slot s = l2_copy_slot plan)) = Ok slot
    /\ good_question L2 (l2_question_contract plan slot).
Proof.
  intros Hne Hts. destruct ts as [|t ts]; [done|].
  destruct (l2_plan_total (t :: ts) t) as (plan & -> & Hin & Hpair); [left|by apply Hts; left|].
  destruct (hk_l2_slot _ frame_home plan Hin) as (s & Hs & Hn).
  destruct (find_first_is_Some (fun s => bool_decide (cs_copy_slot s = l2_copy_slot plan))
    (hp_copy_slots pack) s Hs) as [slot Hslot]; [by apply bool_decide_eq_true|].
  exists plan, slot. unfold first_slot. rewrite Hslot. split; [done|]. split; [done|].
  split; simpl; try done. intros v ->%list_elem_of_singleton.
  apply list_elem_of_fmap in Hpair as (v & -> & Hv). by apply Hts.
Qed.

Lemma slot_total u : u ∈ [initial_help; l0_intro; l0_action] ->
  exists s, slot_for_purpose pack u = Ok s /\ s ∈ hp_copy_slots pack.
Proof.
  intros Hu. destruct (hk_purpose _ frame_home u Hu) as [s Hs]. exists s.
  unfold slot_for_purpose, first_slot. rewrite Hs. split; [done|]. by apply find_first_Some in Hs as [? _].
Qed.

Lemma question_total state :
  ss_status (outcome state) <> COMPLETED -> (exists t, open_target p lg t) ->
  (memb (expression_level (ladder state)) [L4; L1] = true -> plans_agree pack = true) ->
  exists st' q, question_contract state pack lg = Ok (st', q) /\ question_state state st'
    /\ good_question (expression_level (ladder state)) q.
Proof.
  intros Hst [t0 Ho] Hagree. unfold question_contract, question_state. rewrite decide_False by done.
  destruct (active_targets (expression_level (ladder state))) as (ts & -> & Hts & Hnil).
  cbn [mbind res_bind]. assert (Hne : ts <> []) by (intros Hn; by eapply Hnil).
  assert (Hopen : forall t, t ∈ ts -> open_target p lg (target_pair t)) by (intros; by apply Hts).
  destruct (expression_level (ladder state)) eqn:El.
  - destruct (free_text_total ts) as (out & -> & Hg); [by apply Hagree|done..|].
    cbn [mbind res_bind]. eexists _, _. split; [done|]. split; [by destruct state|done].
  - destruct (l3_total ts Hne Hopen) as (plan & q & -> & Hq & Hg). cbn [mbind res_bind].
    rewrite Hq. cbn [mbind res_bind]. eexists _, _. split; [done|]. split; [by destruct state|done].
  - destruct (l2_total ts Hne Hopen) as (plan & slot & -> & Hs & Hg). cbn [mbind res_bind].
    rewrite Hs. cbn [mbind res_bind]. eexists _, _. split; [done|]. split; [by destruct state|done].
  - destruct (free_text_total ts) as (out & -> & Hg); [by apply Hagree|done..|].
    cbn [mbind res_bind]. eexists _, _. split; [done|]. split; [by destruct state|by destruct Hg].
  - destruct (slot_total l0_intro) as (intro & -> & _); [set_solver|]. cbn [mbind res_bind].
    destruct (slot_total l0_action) as (action & -> & _); [set_solver|]. cbn [mbind res_bind].
    eexists _, _. split; [done|]. split; [done|]. split; simpl; try done.
Qed.

(** The initial-help variant names a graph target and keeps the input's form. *)
Lemma initial_help_total q :
  exists q', initial_help_question_contract pack q = Ok q'
    /\ ic_kind (qc_input q') = ic_kind (qc_input q)
    /\ (forall t, t ∈ qc_targets q' -> target_in_graph p (target_pair t)).
Proof.
  unfold initial_help_question_contract. destruct (slot_total initial_help) as (s & -> & Hs); [set_solver|].
  cbn [mbind res_bind]. eexists. split; [done|]. split; [done|]. simpl.
  intros t Ht. by apply (hk_slot_targets _ frame_home s).
Qed.
End questions.

(** * Properties *)

(** (C31) The engine always has something to ask, and never asks for what is already
    known: while a required target of a validated home pack is open, the question
    contract exists at every expression level; its targets are all open, its
    input form is the one the level prescribes (text at L4 and L3, choices at L2,
    the joint action at L0) and names exactly those targets; and producing it
    changes only the subgoal, except that L0 shows the H3 card.  At L4 this needs
    the pack's L3 plans to ask each target the way the initial question does. *)
Theorem question_always_available `{!Digest} `{!PackModel} `{!PackModelChecks} `{!PackModelLaws}
    `{!HomePackLaws} pack snap lg state :
  engine_frame pack snap lg -> ss_status (outcome state) <> COMPLETED ->
  (exists t, open_target (HomePack pack) lg t) ->
  (memb (expression_level (ladder state)) [L4; L1] = true -> plans_agree pack = true) ->
  exists st' q, question_contract state pack lg = Ok (st', q) /\ question_state state st'
    /\ good_question pack lg (expression_level (ladder state)) q.
Proof. intros Hf. exact (question_total pack snap lg Hf state). Qed.
