(* ===== verification/Samples.v ===== *)
(** Concrete sessions over the reviewed money pack, for the witnesses of the
    development's properties and for the counterexample behind one finding. *)

From S2P Require Import Prelude.
From S2P Require Import PyStr.
From S2P Require Import PyNum.
From S2P Require Import Json.
From S2P Require Import Schemas.
From S2P Require Import Requests.
From S2P Require Import Regex.
From S2P Require Import Evidence.
From S2P Require Import EvidenceTheory.
From S2P Require Import Packs.
From S2P Require Import PackDump.
From S2P Require Import Snapshot.
From S2P Require Import Ledger.
From S2P Require Import LedgerTheory.
From S2P Require Import LedgerProgress.
From S2P Require Import ContentCopy.
From S2P Require Import ContentChecks.
From S2P Require Import ContentPack.
From S2P Require Import LifeChecks.
From S2P Require Import ContentTheory.
From S2P Require Import HomeContract.
From S2P Require Import Catalog.
From S2P Require Import State.
From S2P Require Import Ladder.
From S2P Require Import LadderTheory.
From S2P Require Import Understand.
From S2P Require Import Question.
From S2P Require Import Respond.
From S2P Require Import SpeakerText.
From S2P Require Import SpeakerPlan.
From S2P Require Import Reply.
From S2P Require Import Speak.
From S2P Require Import Turn.
From S2P Require Import QuestionTheory.

(** * A digest that need not be computed

    The theorems hold for every digest function whose results look like SHA-256
    hex digests.  At concrete inputs they are applied with a constant one, whose
    value does not depend on the serialized pack. *)

#[export] Instance short_digest : Digest := fun _ => String.concat "" (repeat "f" 64).
#[export] Instance short_digest_format : DigestFormat.
Proof. intros s. reflexivity. Qed.

(** * A pinned pack

    The reviewed money pack with its wording cut to the words the validators ask
    for: the same facts, relation, plans, choices and joint action. *)

Definition say_question (text : string) (q : QuestionPlanV2) : QuestionPlanV2 := {|
  qp_plan_id := qp_plan_id q; qp_targets := qp_targets q; qp_reviewed_fallback := text |}.

Definition say_slot (s : CopySlotV2) : CopySlotV2 := {|
  cs_copy_slot := cs_copy_slot s; cs_purpose := cs_purpose s; cs_targets := cs_targets s;
  cs_generation_brief := "-";
  cs_reviewed_fallback := match cs_purpose s with
                          | initial_help => "?"
                          | l2_question => "골라서 알려줄 수 있어?"
                          | l0_intro | l0_action => "함께"
                          end |}.

Definition say_card (body : string) (c : HelpCardV2) : HelpCardV2 := {|
  hc_level := hc_level c; hc_support_type := hc_support_type c;
  hc_answer_policy := hc_answer_policy c; hc_body := body; hc_action := None;
  hc_revealed_fact_ids := hc_revealed_fact_ids c;
  hc_revealed_relation_ids := hc_revealed_relation_ids c |}.

Definition pack_price : RequiredHomeTeachingPackV2 :=
  let p := pack_money_price in {|
  hp_pack_id := hp_pack_id p; hp_content_version := hp_content_version p;
  hp_migration_source_content_version := hp_migration_source_content_version p;
  hp_curriculum_session_id := hp_curriculum_session_id p; hp_title := hp_title p;
  hp_journey := hp_journey p; hp_source_problem := hp_source_problem p;
  hp_reasoning_graph := hp_reasoning_graph p;
  hp_initial_question := say_question "나 ?" (hp_initial_question p);
  hp_l3_plans := map (say_question "?") (hp_l3_plans p);
  hp_copy_slots := map say_slot (hp_copy_slots p); hp_l2_plans := hp_l2_plans p;
  hp_l0_joint_plan := hp_l0_joint_plan p;
  hp_help_plan := {| hp_H1 := say_card "-" (hp_H1 (hp_help_plan p));
                     hp_H2 := say_card "-" (hp_H2 (hp_help_plan p));
                     hp_H3 := say_card "+1200" (hp_H3 (hp_help_plan p)) |};
  hp_policies := hp_policies p |}.

Definition money_hash : string := hexdigest "".

Definition money_snap : PinnedContentSnapshotV2 := {|
  pc_pack_id := hp_pack_id pack_price;
  pc_content_version := hp_content_version pack_price;
  pc_curriculum_session_id := hp_curriculum_session_id pack_price;
  pc_content_hash := money_hash; pc_pack_payload := pack_price |}.

Definition ledger_of (s : PinnedContentSnapshotV2) : ReasoningLedgerV2 := {|
  rl_pack_id := pc_pack_id s; rl_content_version := pc_content_version s;
  rl_content_hash := pc_content_hash s;
  verified_facts := ∅; verified_relations := ∅; partial_relations := ∅;
  accepted_auxiliary_evidence := ∅ |}.

Definition money_ledger : ReasoningLedgerV2 := ledger_of money_snap.

Lemma money_pin : pin_content_pack_v2 pack_price = Ok money_snap.
Proof. vm_compute. reflexivity. Qed.

Lemma money_frame : engine_frame pack_price money_snap money_ledger.
Proof.
  split; [exact money_pin| |].
  - apply binding_spec. simpl. rewrite !dom_empty_L. split; [done|].
    do 3 (split; [by intros k ?%not_elem_of_empty|]). by intros k e He.
  - split; [vm_compute; reflexivity|]. split; apply map_Forall_empty.
Qed.

Definition money_state (level : ExpressionLevel) (hint : HintLevel) : SessionState := {|
  runtime_contract_version := VERDICT_V1;
  pinned_dialogue_v2 := Some {|
    pd_pack_id := pc_pack_id money_snap; pd_content_version := pc_content_version money_snap;
    pd_source_hash := money_hash; pd_pack_snapshot := pack_price;
    pd_reasoning_ledger := money_ledger |};
  task_ids := ["home_teaching"]; task_index := 0; subgoal_id := "initial"; state_version := 1;
  current_turn_id := None;
  ladder := {| expression_level := level; hint_level := hint; task_max_hint := hint;
               expression_failures := 0; concept_failures := 0; vague_clarifications := 0;
               unrelated_count := 0 |};
  notes := {| child_note_evidence := ∅; supported_note_slots := [] |};
  outcome := {| ss_status := ACTIVE; completion_outcome := None; teach_reward_eligible := false;
                all_tasks_direct := true; joint_performance_used := false; verified_slots := ∅;
                completed_task_slots := ∅ |} |}.

Lemma money_open : open_target (HomePack pack_price) money_ledger (KIND_fact, "purchase_total").
Proof. split; [by left|]. unfold unverified. simpl. rewrite dom_empty_L. apply not_elem_of_empty. Qed.

(** * A validated pack whose last question is missing

    The validators compare the L3 plans with the initial question by kind and id
    only; the engine looks the last L4 question up by the whole target. *)

Definition ask_as_answer (t : TargetRefV2) : TargetRefV2 :=
  {| target_kind := target_kind t; target_id := target_id t; ask_kind := ASK_answer |}.

Definition pack_ask_mismatch : RequiredHomeTeachingPackV2 :=
  let p := pack_money_price in {|
  hp_pack_id := hp_pack_id p; hp_content_version := hp_content_version p;
  hp_migration_source_content_version := hp_migration_source_content_version p;
  hp_curriculum_session_id := hp_curriculum_session_id p; hp_title := hp_title p;
  hp_journey := hp_journey p; hp_source_problem := hp_source_problem p;
  hp_reasoning_graph := hp_reasoning_graph p; hp_initial_question := hp_initial_question p;
  hp_l3_plans := map (fun q => {| qp_plan_id := qp_plan_id q;
                                  qp_targets := map ask_as_answer (qp_targets q);
                                  qp_reviewed_fallback := qp_reviewed_fallback q |}) (hp_l3_plans p);
  hp_copy_slots := hp_copy_slots p; hp_l2_plans := hp_l2_plans p;
  hp_l0_joint_plan := hp_l0_joint_plan p; hp_help_plan := hp_help_plan p;
  hp_policies := hp_policies p |}.

Lemma mismatch_validated : required_home_pack_validate pack_ask_mismatch = Ok pack_ask_mismatch.
Proof. vm_compute. reflexivity. Qed.

(** The counterexample holds for every digest. *)
Section mismatch.
Context `{!Digest} `{!DigestFormat}.

Definition mismatch_snap : PinnedContentSnapshotV2 := {|
  pc_pack_id := hp_pack_id pack_ask_mismatch;
  pc_content_version := hp_content_version pack_ask_mismatch;
  pc_curriculum_session_id := hp_curriculum_session_id pack_ask_mismatch;
  pc_content_hash := content_pack_hash_v2 pack_ask_mismatch; pc_pack_payload := pack_ask_mismatch |}.

(** The child has given the answer, in words. *)
Definition answered : ReasoningLedgerV2 := {|
  rl_pack_id := pc_pack_id mismatch_snap; rl_content_version := pc_content_version mismatch_snap;
  rl_content_hash := pc_content_hash mismatch_snap;
  verified_facts := {[ "purchase_total" := {|
    vf_fact_id := "purchase_total"; vf_canonical_value := MoneyValueV2 (PyInt 1200) "KRW";
    vf_evidence := [FE_understanding {|
      ep_evidence_id := hexdigest ""; ep_source_turn_id := "turn-1"; ep_source_start := 0;
      ep_source_end := 5; ep_match_kind := EXACT |}] |} ]};
  verified_relations := ∅; partial_relations := ∅; accepted_auxiliary_evidence := ∅ |}.

Lemma mismatch_pin : pin_content_pack_v2 pack_ask_mismatch = Ok mismatch_snap.
Proof.
  unfold pin_content_pack_v2, pinned_content_snapshot, content_pack_hash_v2.
  cbn [pc_content_hash pc_pack_payload pc_pack_id pc_content_version pc_curriculum_session_id].
  rewrite hexdigest_format. change home_model_validate with required_home_pack_validate.
  rewrite mismatch_validated. cbn [mbind res_bind]. by rewrite !bool_decide_eq_true_2.
Qed.

Lemma mismatch_frame : engine_frame pack_ask_mismatch mismatch_snap answered.
Proof.
  split; [exact mismatch_pin| |].
  - apply binding_spec. cbn [answered verified_facts verified_relations partial_relations].
    rewrite dom_singleton_L, !dom_empty_L. split; [reflexivity|].
    split; [intros k ->%elem_of_singleton; by right; right; left|].
    do 2 (split; [by intros k ?%not_elem_of_empty|]).
    intros k e [<- <-]%lookup_singleton_Some. eexists. split; reflexivity.
  - split; [|split; try apply map_Forall_empty].
    + unfold reasoning_ledger. cbn [answered rl_content_hash]. unfold content_pack_hash_v2.
      cbn [mismatch_snap pc_content_hash]. unfold content_pack_hash_v2. rewrite hexdigest_format.
      reflexivity.
    + apply map_Forall_singleton. repeat split; try done; [apply NoDup_singleton|].
      constructor; [|done]. unfold evidence_pointer. cbn [ep_evidence_id]. by rewrite hexdigest_format.
Qed.

Definition method_left : TargetRefV2 := {|
  target_kind := KIND_relation; target_id := "add_item_prices"; ask_kind := ASK_reason_or_method |}.

Lemma method_open : open_target (HomePack pack_ask_mismatch) answered (target_pair method_left).
Proof. split; [by right; left|]. unfold unverified. simpl. rewrite dom_empty_L. apply not_elem_of_empty. Qed.
Lemma answer_closed :
  ~ open_target (HomePack pack_ask_mismatch) answered (KIND_fact, "purchase_total").
Proof. intros [_ Hu]. apply Hu. simpl. rewrite dom_singleton_L. by apply elem_of_singleton. Qed.

Lemma mismatch_targets :
  targets_from_active_state L4 pack_ask_mismatch answered = Ok [method_left].
Proof.
  unfold targets_from_active_state. rewrite mismatch_pin. cbn [mbind res_bind].
  destruct (frame_completion _ _ _ mismatch_frame) as (c & -> & _ & Hopen). cbn [mbind res_bind].
  assert (remaining_targets (qp_targets (hp_initial_question pack_ask_mismatch)) c = [method_left]) as ->;
    [|reflexivity].
  unfold remaining_targets. set (remaining := map _ _ ++ _) in *.
  assert (memb (KIND_fact, "purchase_total") remaining = false) as Ha.
  { apply memb_false. rewrite Hopen. exact answer_closed. }
  assert (memb (target_pair method_left) remaining = true) as Hm.
  { apply memb_spec, Hopen. exact method_open. }
  clearbody remaining. unfold target_pair in *. simpl in *. by rewrite Ha, Hm.
Qed.
End mismatch.

(** The validators do not protect the last L4 question: there is a pack that
    validates and pins, differing from a reviewed pack only in its L3 ask kinds, for
    which the session stops.  Once the child has given the answer in the first
    L4 turn and only the method is open, no question can be built and the turn
    raises [StopIteration]. *)
Theorem ask_kind_mismatch_stops_session `{!Digest} `{!DigestFormat} :
  required_home_pack_validate pack_ask_mismatch = Ok pack_ask_mismatch /\
  engine_frame pack_ask_mismatch mismatch_snap answered /\
  open_target (HomePack pack_ask_mismatch) answered (KIND_relation, "add_item_prices") /\
  question_contract (money_state L4 H0) pack_ask_mismatch answered = Raise StopIteration.
Proof.
  split; [exact mismatch_validated|]. split; [exact mismatch_frame|]. split; [exact method_open|].
  unfold question_contract. rewrite decide_False by done. cbn [ladder money_state expression_level].
  rewrite mismatch_targets. reflexivity.
Qed.

Lemma ask_kind_mismatch_stops_session_witness :
  question_contract (H := sha256_digest) (money_state L4 H0) pack_ask_mismatch
    (answered (H := sha256_digest)) = Raise StopIteration.
Proof. exact (proj2 (proj2 (proj2 (ask_kind_mismatch_stops_session (H := sha256_digest))))). Defined.
