(* ===== verification/NoteTheory.v ===== *)
(** Who a star note is credited to: the provenance record of
    [Respond.track_note_provenance] keeps taught and supported relations apart,
    and a relation is credited to the child only for a turn in which the child
    verified it in free text before any strong hint. *)

From S2P Require Import Prelude.
From S2P Require Import PyStr.
From S2P Require Import PyNum.
From S2P Require Import Json.
From S2P Require Import Schemas.
From S2P Require Import Requests.
From S2P Require Import Evidence.
From S2P Require Import Packs.
From S2P Require Import PackDump.
From S2P Require Import Snapshot.
From S2P Require Import Ledger.
From S2P Require Import LedgerTheory.
From S2P Require Import State.
From S2P Require Import Ladder.
From S2P Require Import Understand.
From S2P Require Import Question.
From S2P Require Import Respond.

(** Credited relations are verified note relations and are never marked supported. *)
Record notes_ok (p : TaskPackV2) (lg : ReasoningLedgerV2) (n : note_state) : Prop := {
  nk_child i : is_Some (child_note_evidence n !! i) ->
    i ∈ pack_note_relation_ids p /\ is_Some (verified_relations lg !! i)
    /\ i ∉ supported_note_slots n;
  nk_supported i : i ∈ supported_note_slots n -> i ∈ pack_note_relation_ids p;
  nk_unique : NoDup (supported_note_slots n)
}.

Definition credited (n : note_state) (i : string) : Prop := is_Some (child_note_evidence n !! i).

(** The turn may credit the child. *)
Definition direct_turn (t : TurnSemantics) (before_hint : HintLevel) : Prop :=
  ts_understanding_source t = US_sonnet_low /\ before_hint ∈ [H0; H1].

Section notes.
Variables (p : TaskPackV2) (lg : ReasoningLedgerV2).

Lemma note_step_credits rels direct n i j :
  credited (note_step rels direct n i) j <->
  credited n j \/ (j = i /\ i ∈ rels /\ direct = true /\ i ∉ supported_note_slots n).
Proof.
  unfold note_step, credited. destruct (memb i rels) eqn:Ei; simpl; breflect; [|naive_solver].
  destruct direct; simpl.
  - destruct (memb i (supported_note_slots n)) eqn:Es; simpl; breflect.
    + destruct (bool_decide _); simpl; naive_solver.
    + rewrite lookup_insert_is_Some. destruct (decide (i = j)); naive_solver.
  - destruct (bool_decide _); simpl; naive_solver.
Qed.

Lemma note_step_supported rels direct n i j :
  j ∈ supported_note_slots n -> j ∈ supported_note_slots (note_step rels direct n i).
Proof.
  unfold note_step. repeat case_match; simpl; try done.
  intros Hj. rewrite elem_of_fromkeys, elem_of_app. by left.
Qed.

Lemma note_step_ok rels direct n i :
  rels = pack_note_relation_ids p -> is_Some (verified_relations lg !! i) ->
  notes_ok p lg n -> notes_ok p lg (note_step rels direct n i).
Proof.
  intros -> Hi [Hc Hs Hu]. unfold note_step. destruct (memb i _) eqn:Ei; simpl; [|done].
  breflect. destruct (direct && negb (memb i (supported_note_slots n))) eqn:Ed.
  - apply andb_true_iff in Ed as [_ Hn%negb_true_iff%memb_false]. split; simpl; [|done|done].
    intros j. rewrite lookup_insert_is_Some. intros [<-|[_ Hj]]; auto.
  - destruct (bool_decide _) eqn:Eb; simpl; [done|]. apply bool_decide_eq_false in Eb.
    split; simpl; [| |apply NoDup_fromkeys].
    + intros j Hj. destruct (Hc j Hj) as (? & ? & ?). split; [done|]. split; [done|].
      rewrite elem_of_fromkeys, elem_of_app, list_elem_of_singleton. intros [Hj' | ->]; done.
    + intros j. rewrite elem_of_fromkeys, elem_of_app, list_elem_of_singleton.
      intros [Hj' | ->]; auto.
Qed.

Lemma note_steps_ok direct ids n :
  (forall i, i ∈ ids -> is_Some (verified_relations lg !! i)) -> notes_ok p lg n ->
  notes_ok p lg (fold_left (note_step (pack_note_relation_ids p) direct) ids n).
Proof.
  revert n. induction ids as [|i ids IH]; intros n Hi Hn; simpl; [done|].
  apply IH; [intros; apply Hi; by right|]. apply note_step_ok; [done|apply Hi; left|done].
Qed.

Lemma sorted_set_perm (l : list string) : sorted_set l ≡ₚ fromkeys l.
Proof.
  unfold sorted_set, sort_by_key.
  assert (Hins : forall (kv : string * unit) l, map fst (insert_by_key kv l) ≡ₚ map fst (kv :: l)).
  { intros kv k. induction k as [|kv' k IH]; simpl; [done|]. case_match; [done|].
    simpl. rewrite IH. simpl. by constructor. }
  induction (fromkeys l) as [|y k IH]; simpl; [done|]. rewrite Hins. simpl. by constructor.
Qed.

Lemma sorted_set_elem (l : list string) x : x ∈ sorted_set l <-> x ∈ l.
Proof. by rewrite sorted_set_perm, elem_of_fromkeys. Qed.

Lemma sorted_set_NoDup (l : list string) : NoDup (sorted_set l).
Proof. rewrite sorted_set_perm. apply NoDup_fromkeys. Qed.

Lemma mark_supported_ok n ids :
  notes_ok p lg n -> (forall i, i ∈ ids -> i ∈ pack_note_relation_ids p) ->
  (forall i, i ∈ ids -> verified_relations lg !! i = None) -> notes_ok p lg (mark_supported n ids).
Proof.
  intros [Hc Hs Hu] Hin Hnone. split; simpl; [| |apply NoDup_fromkeys].
  - intros i Hi. destruct (Hc i Hi) as (? & [e He] & ?). split; [done|]. split; [eauto|].
    rewrite elem_of_fromkeys, elem_of_app. intros [|Hx%Hnone]; [done|congruence].
  - intros i. rewrite elem_of_fromkeys, elem_of_app. intros [|]; auto.
Qed.

Lemma notes_ok_grow n lg0 :
  (forall i, is_Some (verified_relations lg0 !! i) -> is_Some (verified_relations lg !! i)) ->
  notes_ok p lg0 n -> notes_ok p lg n.
Proof. intros Hg [Hc Hs Hu]. split; try done. intros i Hi. destruct (Hc i Hi) as (? & ? & ?). auto. Qed.
End notes.

Lemma track_notes_ok p n t before after :
  (forall i, i ∈ new_relation_ids (ar_log (ts_apply_result t)) ->
     is_Some (verified_relations (ar_ledger (ts_apply_result t)) !! i)) ->
  notes_ok p (ar_ledger (ts_apply_result t)) n ->
  notes_ok p (ar_ledger (ts_apply_result t)) (track_note_provenance n p t before after).
Proof.
  intros Hnew Hn. unfold track_note_provenance. cbn zeta.
  assert (Hn1 := note_steps_ok p _ (bool_decide (ts_understanding_source t = US_sonnet_low)
                   && memb before [H0; H1]) _ n Hnew Hn).
  destruct (_ || _); [|done]. apply mark_supported_ok; [done|..].
  all: intros i Hi; apply sorted_set_elem, list_elem_of_In, filter_In in Hi as [Hi Hf].
  - by apply list_elem_of_In.
  - apply negb_true_iff, bool_decide_eq_false in Hf. by apply eq_None_not_Some.
Qed.

Lemma note_fold_credits rels direct ids n j :
  credited (fold_left (note_step rels direct) ids n) j ->
  credited n j \/ (j ∈ ids /\ j ∈ rels /\ direct = true /\ j ∉ supported_note_slots n).
Proof.
  revert n. induction ids as [|i ids IH]; intros n; simpl; [by left|].
  intros [Hc|(Hj & Hr & Hd & Hs)]%IH.
  - apply note_step_credits in Hc as [|(-> & ? & ? & ?)]; [by left|]. right. by repeat split; [left|..].
  - right. repeat split; [by right|done|done|]. intros Hin. by apply Hs, note_step_supported.
Qed.

Lemma note_fold_keeps rels direct ids n j :
  credited n j -> credited (fold_left (note_step rels direct) ids n) j.
Proof.
  revert n. induction ids as [|i ids IH]; intros n Hc; simpl; [done|].
  apply IH, note_step_credits. by left.
Qed.

Lemma mark_supported_credits n ids j : credited (mark_supported n ids) j <-> credited n j.
Proof. done. Qed.

Lemma track_credits p n t before after j :
  credited (track_note_provenance n p t before after) j <->
  credited (fold_left (note_step (pack_note_relation_ids p)
    (bool_decide (ts_understanding_source t = US_sonnet_low) && memb before [H0; H1]))
    (new_relation_ids (ar_log (ts_apply_result t))) n) j.
Proof. unfold track_note_provenance. cbn zeta. by destruct (_ || _). Qed.

Lemma note_fold_supported rels direct ids n j :
  j ∈ supported_note_slots n -> j ∈ supported_note_slots (fold_left (note_step rels direct) ids n).
Proof.
  revert n. induction ids as [|i ids IH]; intros n Hj; simpl; [done|]. by apply IH, note_step_supported.
Qed.

Lemma track_supported p n t before after j :
  j ∈ supported_note_slots n -> j ∈ supported_note_slots (track_note_provenance n p t before after).
Proof.
  intros Hj. unfold track_note_provenance. cbn zeta. destruct (_ || _); [|by apply note_fold_supported].
  simpl. rewrite elem_of_fromkeys, elem_of_app. left. by apply note_fold_supported.
Qed.

(** * Property *)

(** (C25) A note relation is credited to the child only where the child earned it:
    the credited and the supported relations stay disjoint and among the pack's
    note relations, each credited relation is verified in the ledger, credit and
    support are never withdrawn, and a turn adds credit only for relations it
    newly verified from free text, with at most the H1 card shown before it and
    no support recorded earlier. *)
Theorem note_credit_is_earned p n t before after :
  (forall i, i ∈ new_relation_ids (ar_log (ts_apply_result t)) ->
     is_Some (verified_relations (ar_ledger (ts_apply_result t)) !! i)) ->
  notes_ok p (ar_ledger (ts_apply_result t)) n ->
  let n' := track_note_provenance n p t before after in
  notes_ok p (ar_ledger (ts_apply_result t)) n' /\
  (forall i, credited n i -> credited n' i) /\
  (forall i, i ∈ supported_note_slots n -> i ∈ supported_note_slots n') /\
  (forall i, credited n' i -> ~ credited n i ->
     i ∈ new_relation_ids (ar_log (ts_apply_result t)) /\ direct_turn t before
     /\ i ∉ supported_note_slots n).
Proof.
  intros Hnew Hn. split; [by apply track_notes_ok|]. split.
  { intros i Hi. by apply track_credits, note_fold_keeps. }
  split; [by intros i; apply track_supported|].
  intros i Hi Hni. apply track_credits, note_fold_credits in Hi as [|(Hin & _ & Hd & Hs)]; [done|].
  split; [done|]. split; [|done]. apply andb_true_iff in Hd as [Hd1 Hd2].
  split; [by apply bool_decide_eq_true in Hd1|by apply memb_spec].
Qed.
