(* ===== verification/TurnTheory.v ===== *)
(** Whole turns of the home engine: the invariant of every reachable session, what
    a turn may change, when a session completes and what its completion reports. *)

From S2P Require Import Prelude.
From S2P Require Import PyStr.
From S2P Require Import PyNum.
From S2P Require Import Json.
From S2P Require Import Schemas.
From S2P Require Import Requests.
From S2P Require Import Regex.
From S2P Require Import Evidence.
From S2P Require Import EvidenceTheory.
From S2P Require Import Packs.
From S2P Require Import PackDump.
From S2P Require Import Snapshot.
From S2P Require Import Ledger.
From S2P Require Import LedgerTheory.
From S2P Require Import LedgerProgress.
From S2P Require Import ContentCopy.
From S2P Require Import ContentChecks.
From S2P Require Import ContentPack.
From S2P Require Import LifeChecks.
From S2P Require Import ContentTheory.
From S2P Require Import HomeContract.
From S2P Require Import State.
From S2P Require Import Ladder.
From S2P Require Import LadderTheory.
From S2P Require Import Understand.
From S2P Require Import UnderstandTheory.
From S2P Require Import Question.
From S2P Require Import QuestionTheory.
From S2P Require Import Respond.
From S2P Require Import Gate.
From S2P Require Import NoteTheory.
From S2P Require Import SpeakerText.
From S2P Require Import SpeakerPlan.
From S2P Require Import Reply.
From S2P Require Import Speak.
From S2P Require Import Turn.

(** * What the question contract and the turn contract do to the state *)

(** The ladder once the question is on screen: L0 shows the H3 card. *)
Definition shown_ladder (s : SessionState) : ladder_state :=
  if decide (ss_status (outcome s) = COMPLETED) then ladder s
  else if decide (expression_level (ladder s) = L0) then with_hint (ladder s) H3 else ladder s.

Definition shown_state (s : SessionState) (subgoal : string) : SessionState :=
  with_subgoal (with_ladder s (shown_ladder s)) subgoal.

Lemma with_subgoal_id s : with_subgoal s (subgoal_id s) = s.
Proof. by destruct s. Qed.
Lemma with_ladder_id s : with_ladder s (ladder s) = s.
Proof. by destruct s. Qed.

Lemma shown_twice s i j : shown_state (shown_state s i) j = shown_state s j.
Proof. unfold shown_state, shown_ladder. simpl. repeat case_decide; done. Qed.

Section turns.
Context `{!Digest} `{!DigestFormat} `{!PackModel} `{!PackModelChecks} `{!PackModelLaws}
        `{!HomePackLaws} `{!Nfc} `{!SpeechPort}.

Lemma question_shows s pack lg s' q :
  question_contract s pack lg = Ok (s', q) -> exists i, s' = shown_state s i.
Proof.
  unfold question_contract, shown_state, shown_ladder. destruct (decide (_ = COMPLETED)).
  { intros [= <- <-]. exists (subgoal_id s). by rewrite with_ladder_id, with_subgoal_id. }
  intros Hq. res_inv. destruct (expression_level (ladder s)) eqn:El; res_inv;
    rewrite ?decide_False by congruence; rewrite ?decide_True by congruence;
    eexists; by rewrite ?with_ladder_id.
Qed.

Lemma build_turn_shows ids s pack lg text mood s' turn :
  build_turn ids s pack lg text mood = Ok (s', turn) ->
  (exists i, s' = shown_state s i) /\ tc_status turn = ss_status (outcome s)
  /\ tc_turn_id turn = fresh_turn_id ids /\ tc_state_version turn = state_version s
  /\ tc_help_card turn = help_card pack (hint_level (ladder s'))
  /\ tc_note_update turn = note_update s pack lg (fresh_note_id ids)
  /\ match ss_status (outcome s), completion_outcome (outcome s) with
     | COMPLETED, Some o => exists facts, completion_facts pack lg = Ok facts /\
         tc_completion turn = Some {| cc_outcome := o;
           cc_teach_reward_eligible := teach_reward_eligible (outcome s);
           cc_stage_completion_eligible := true; cc_verified_facts := facts |}
     | _, _ => tc_completion turn = None
     end.
Proof.
  unfold build_turn. intros Hb. destruct (question_contract s pack lg) as [[s1 q]|] eqn:Hq; [|done].
  cbn [mbind res_bind fst snd] in Hb. pose proof (question_shows _ _ _ _ _ Hq) as [i ->].
  res_inv. simpl in *. split; [by exists i|]. do 5 (split; [done|]).
  destruct (ss_status (outcome s)); simpl in *; [by res_inv|].
  destruct (completion_outcome (outcome s)); simpl in *; res_inv; [eauto|done].
Qed.

(** The question on screen is a fixed point: asking again changes nothing. *)
Lemma question_stable s pack lg s' q v i :
  question_contract s pack lg = Ok (s', q) ->
  question_contract (with_turn s' v i) pack lg = Ok (with_turn s' v i, q).
Proof.
  unfold question_contract. destruct (decide (_ = COMPLETED)) as [Hs|Hs].
  { intros [= <- <-]. simpl. by rewrite decide_True. }
  intros Hq. destruct (targets_from_active_state _ _ _) as [ts|] eqn:Ht; [|done].
  cbn [mbind res_bind] in Hq.
  destruct (expression_level (ladder s)) eqn:El; res_inv; simpl; rewrite decide_False by done;
    rewrite ?El, Ht; cbn [mbind res_bind];
    repeat match goal with H : _ = Ok _ |- _ => rewrite H; cbn [mbind res_bind]; clear H end; done.
Qed.

Lemma build_turn_question ids s pack lg text mood s' turn :
  build_turn ids s pack lg text mood = Ok (s', turn) ->
  exists q, question_contract s pack lg = Ok (s', q) /\ tc_input turn = qc_input q.
Proof.
  unfold build_turn. intros Hb. destruct (question_contract s pack lg) as [[s1 q]|]; [|done].
  cbn [mbind res_bind fst snd] in Hb. res_inv. eauto.
Qed.

(** * A finished turn *)

Definition next_ladder (s : SessionState) (t : TurnSemantics) : ladder_state :=
  apply_ladder_policy (ladder s) t.
Definition next_notes (s : SessionState) (pack : RequiredHomeTeachingPackV2) (t : TurnSemantics)
    : note_state :=
  track_note_provenance (notes s) (HomePack pack) t (hint_level (ladder s))
    (hint_level (next_ladder s t)).

(** The state after applying [t] to [s], before speech. *)
Record applied_state s pack t (next : SessionState) : Prop := {
  as_ladder : ladder next = next_ladder s t;
  as_notes : notes next = next_notes s pack t;
  as_pinned : exists pinned, pinned_dialogue_v2 s = Some pinned /\
    pinned_dialogue_v2 next = Some {|
      pd_pack_id := pd_pack_id pinned; pd_content_version := pd_content_version pinned;
      pd_source_hash := pd_source_hash pinned; pd_pack_snapshot := pd_pack_snapshot pinned;
      pd_reasoning_ledger := ar_ledger (ts_apply_result t) |};
  as_version : runtime_contract_version next = runtime_contract_version s;
  as_tasks : (task_ids next, task_index next) = (task_ids s, task_index s);
  as_number : state_version next = (state_version s + 1)%Z;
  as_outcome : exists v, outcome next = with_verified_slots (outcome s) v
}.

Lemma apply_execution_Ok s pack t next :
  apply_execution s (with_turn s (state_version s + 1) None) pack t = Ok next ->
  applied_state s pack t next.
Proof.
  unfold apply_execution, store_ledger. simpl. intros Ha. res_inv. simpl in *.
  split; try done; simpl; eauto.
Qed.

(** The outcome of a completed session. *)
Record completed_outcome pack t (n : note_state) (o o' : outcome_state) : Prop := {
  co_status : ss_status o' = COMPLETED;
  co_joint : joint_performance_used o'
             = joint_performance_used o || bool_decide (ts_understanding_source t = US_structured_joint);
  co_outcome : completion_outcome o' = Some TAUGHT \/ completion_outcome o' = Some SUPPORTED;
  co_taught : completion_outcome o' = Some TAUGHT <->
    (forall i, i ∈ po_note_relation_ids (hp_policies pack) -> credited n i)
    /\ joint_performance_used o' = false;
  co_reward : teach_reward_eligible o' = bool_decide (completion_outcome o' = Some TAUGHT)
}.

Lemma complete_state_Ok next pack t done_ :
  complete_state next (HomePack pack) t = Ok done_ ->
  completed_outcome pack t (notes next) (outcome next) (outcome done_)
  /\ ladder done_ = ladder next /\ notes done_ = notes next
  /\ pinned_dialogue_v2 done_ = pinned_dialogue_v2 next
  /\ runtime_contract_version done_ = runtime_contract_version next
  /\ state_version done_ = state_version next
  /\ (task_ids done_, task_index done_) = (task_ids next, task_index next).
Proof.
  unfold complete_state. intros Hc. res_inv. split; [|done]. simpl.
  set (joint := joint_performance_used _ || _). set (ind := forallb _ _).
  assert (Hind : ind = true <->
    forall i, i ∈ po_note_relation_ids (hp_policies pack) -> credited (notes next) i).
  { unfold ind, credited. rewrite forallb_forall. setoid_rewrite <- list_elem_of_In.
    by setoid_rewrite bool_decide_eq_true. }
  split; simpl; [done|done| | |].
  - destruct (ind && negb joint); auto.
  - rewrite <- Hind. destruct ind, joint; simpl; naive_solver.
  - by destruct (ind && negb joint).
Qed.

(** What a turn leaves behind. *)
Record finished ids s pack t r : Prop := {
  fi_ladder : ladder (tr_state r) = (if complete (ar_completion (ts_apply_result t))
              then next_ladder s t else shown_ladder (with_ladder s (next_ladder s t)));
  fi_notes : notes (tr_state r) = next_notes s pack t;
  fi_pinned : exists pinned, pinned_dialogue_v2 s = Some pinned /\
    pinned_dialogue_v2 (tr_state r) = Some {|
      pd_pack_id := pd_pack_id pinned; pd_content_version := pd_content_version pinned;
      pd_source_hash := pd_source_hash pinned; pd_pack_snapshot := pd_pack_snapshot pinned;
      pd_reasoning_ledger := ar_ledger (ts_apply_result t) |};
  fi_version : runtime_contract_version (tr_state r) = runtime_contract_version s;
  fi_number : state_version (tr_state r) = (state_version s + 1)%Z;
  fi_turn : current_turn_id (tr_state r) = Some (tc_turn_id (tr_turn r));
  fi_id : tc_turn_id (tr_turn r) = fresh_turn_id ids;
  fi_tasks : (task_ids (tr_state r), task_index (tr_state r)) = (task_ids s, task_index s);
  fi_status : tc_status (tr_turn r) = ss_status (outcome (tr_state r));
  fi_card : tc_help_card (tr_turn r) = help_card pack (hint_level (ladder (tr_state r)));
  fi_screen : exists q,
    question_contract (tr_state r) pack (ar_ledger (ts_apply_result t)) = Ok (tr_state r, q)
    /\ tc_input (tr_turn r) = qc_input q;
  fi_open : complete (ar_completion (ts_apply_result t)) = false ->
    exists v, outcome (tr_state r) = with_verified_slots (outcome s) v;
  fi_done : complete (ar_completion (ts_apply_result t)) = true ->
    completed_outcome pack t (notes (tr_state r)) (outcome s) (outcome (tr_state r))
    /\ exists o facts, completion_outcome (outcome (tr_state r)) = Some o
       /\ completion_facts pack (ar_ledger (ts_apply_result t)) = Ok facts
       /\ tc_completion (tr_turn r) = Some {| cc_outcome := o;
            cc_teach_reward_eligible := teach_reward_eligible (outcome (tr_state r));
            cc_stage_completion_eligible := true; cc_verified_facts := facts |}
       /\ exists id, tc_note_update (tr_turn r)
                     = note_update (tr_state r) pack (ar_ledger (ts_apply_result t)) id
}.

Lemma compose_Ok ids next pack t speech r :
  compose_execution ids next pack t speech = Ok r ->
  exists s' , build_turn ids next pack (ar_ledger (ts_apply_result t)) (sp_text speech)
                (sp_mood speech) = Ok (s', tr_turn r)
    /\ tr_state r = with_turn s' (state_version s') (Some (tc_turn_id (tr_turn r)))
    /\ tr_analysis r = compatibility_analysis t.
Proof.
  unfold compose_execution. intros Hc. res_inv.
  match goal with H : build_turn _ _ _ _ _ _ = Ok ?o |- _ => destruct o as [s' turn] end. eauto.
Qed.

(** The state handed to the turn contract. *)
Lemma spoken_Ok s next pack t spoken :
  (if complete (ar_completion (ts_apply_result t)) then
     done_ ← complete_state next (HomePack pack) t; Ok (done_, completion_speech t)
   else speech_execution s next pack t) = Ok spoken ->
  if complete (ar_completion (ts_apply_result t))
  then complete_state next (HomePack pack) t = Ok spoken.1
  else exists i, spoken.1 = shown_state next i.
Proof.
  destruct (complete _); intros Hs; [by res_inv|]. unfold speech_execution in Hs.
  destruct (question_contract _ _ _) as [[s1 q]|] eqn:Hq; [|done]. cbn [mbind res_bind fst snd] in Hs.
  apply question_shows in Hq as [i ->]. res_inv. by exists i.
Qed.

Lemma note_update_same s s' pack lg id :
  outcome s' = outcome s -> notes s' = notes s -> note_update s' pack lg id = note_update s pack lg id.
Proof. unfold note_update. by intros -> ->. Qed.

Lemma finish_turn_Ok ids s pack t r :
  ss_status (outcome s) = ACTIVE -> finish_turn ids s pack t = Ok r -> finished ids s pack t r.
Proof.
  intros Hst Hf. unfold finish_turn in Hf.
  destruct (apply_execution _ _ _ _) as [next|] eqn:Ha; [|done]. cbn [mbind res_bind] in Hf.
  apply apply_execution_Ok in Ha. destruct (if complete _ then _ else _) as [spoken|] eqn:Hs; [|done].
  cbn [mbind res_bind] in Hf. apply spoken_Ok in Hs. apply compose_Ok in Hf as (s' & Hb & Hr & _).
  assert (Hscreen : exists q,
    question_contract (tr_state r) pack (ar_ledger (ts_apply_result t)) = Ok (tr_state r, q)
    /\ tc_input (tr_turn r) = qc_input q).
  { apply build_turn_question in Hb as (q & Hq & Hin). exists q. split; [|done].
    rewrite Hr. by eapply question_stable. }
  apply build_turn_shows in Hb as ([i ->] & Hts & Hti & Htv & Hth & Htn & Htc).
  destruct Ha as [Hl Hn (pinned & Hp & Hp') Hv Hta Hnum [v Ho]].
  destruct (complete (ar_completion (ts_apply_result t))) eqn:Ec.
  - apply complete_state_Ok in Hs as (Hco & Hl' & Hn' & Hp2 & Hv2 & Hnum2 & Hta2).
    assert (Hshown : shown_ladder spoken.1 = ladder spoken.1).
    { unfold shown_ladder. by rewrite (co_status _ _ _ _ _ Hco), decide_True. }
    rewrite (co_status _ _ _ _ _ Hco) in Htc.
    split; rewrite ?Hr; simpl in *; rewrite ?Ec; try congruence.
    + exists pinned. by rewrite Hp2.
    + destruct Hscreen as (q & Hq & Hin). exists q. split; [|done]. by rewrite Hr in Hq.
    + intros _. rewrite Hn'. split; [rewrite Ho in Hco; by destruct Hco; split|].
      destruct (co_outcome _ _ _ _ _ Hco) as [Hout|Hout]; rewrite Hout in Htc |- *;
        destruct Htc as (facts & Hfacts & Htc); eexists _, facts;
        (split; [done|]); (split; [done|]); (split; [done|]); exists (fresh_note_id ids);
        rewrite Htn; by apply note_update_same.
  - destruct Hs as [j Hs]. rewrite Hs in *.
    assert (Hst' : ss_status (outcome next) = ACTIVE) by (by rewrite Ho).
    rewrite shown_twice in *.
    assert (Hshown : shown_ladder next = shown_ladder (with_ladder s (next_ladder s t))).
    { unfold shown_ladder. simpl. rewrite Hst', Hst, Hl. done. }
    destruct Hscreen as (q & Hq & Hin). rewrite Hr in Hq.
    split; rewrite ?Hr; simpl in *; rewrite ?Ec, ?Hshown; try congruence; eauto.
Qed.

(** * Sessions *)

(** The pinned part of a state, with the ledger it stores. *)
Record pinned_frame pack (s : SessionState) snap lg : Prop := {
  pf_pinned : pinned_dialogue_v2 s = Some {|
    pd_pack_id := pc_pack_id snap; pd_content_version := pc_content_version snap;
    pd_source_hash := pc_content_hash snap; pd_pack_snapshot := pack; pd_reasoning_ledger := lg |};
  pf_frame : engine_frame pack snap lg
}.

Lemma pin_fields pack snap : pin_content_pack_v2 pack = Ok snap ->
  snap = {| pc_pack_id := hp_pack_id pack; pc_content_version := hp_content_version pack;
            pc_curriculum_session_id := hp_curriculum_session_id pack;
            pc_content_hash := content_pack_hash_v2 pack; pc_pack_payload := pack |}.
Proof. unfold pin_content_pack_v2, pinned_content_snapshot. intros Hp. by res_inv. Qed.

Lemma reload_same l l' : reload_ledger l = Ok l' -> l' = l.
Proof. unfold reload_ledger. intros Hr. res_inv. by apply reasoning_ledger_Ok in Hr as [-> _]. Qed.

Lemma resolve_frame pack s snap lg pack' snap' lg' :
  pinned_frame pack s snap lg -> resolve_state s = Ok (pack', snap', lg') ->
  pack' = pack /\ snap' = snap /\ lg' = lg.
Proof.
  intros [Hp Hf] Hr. unfold resolve_state in Hr. rewrite Hp in Hr. res_inv. simpl in *.
  match goal with H : home_model_validate _ = Ok _ |- _ => apply home_validate_id in H as -> end.
  match goal with H : reload_ledger _ = Ok _ |- _ => apply reload_same in H as -> end.
  split; [done|]. split; [|done].
  pose proof (pin_fields _ _ (ef_pin _ _ _ Hf)) as ->.
  match goal with H : pinned_content_snapshot _ = Ok _ |- _ =>
    unfold pinned_content_snapshot in H; by res_inv end.
Qed.

(** The interpreted turn is sound over the resolved ledger. *)
Lemma interpret_sound gw s pack snap lg resp pq recent t :
  ledger_valid lg -> interpret_execution gw s pack snap lg resp pq recent = Ok t ->
  sound_result (HomeSnapshot snap) lg (ts_apply_result t).
Proof.
  intros Hl Hi. unfold interpret_execution in Hi. destruct (cr_type resp); try done.
  - res_inv. by eapply understand_text_sound.
  - by eapply choice_sound.
  - by eapply choice_sound.
  - by eapply joint_sound.
  - by eapply no_response_sound.
Qed.

Lemma sound_frame pack snap lg r :
  engine_frame pack snap lg -> sound_result (HomeSnapshot snap) lg r ->
  engine_frame pack snap (ar_ledger r) /\
  (complete (ar_completion r) = true <-> forall t, ~ open_target (HomePack pack) (ar_ledger r) t).
Proof.
  intros Hf [_ Hv Hc _]. pose proof (completion_Ok _ _ _ Hc) as (p & Hp & Hb & _).
  rewrite (frame_resolves pack snap lg Hf) in Hp. injection Hp as <-.
  assert (Hf' : engine_frame pack snap (ar_ledger r)) by (split; [apply Hf|done|done]).
  split; [done|]. destruct (frame_completion pack snap _ Hf') as (c & Hc' & Hcomp & _).
  rewrite Hc in Hc'. by injection Hc' as <-.
Qed.

(** A state the service may initialise, at any start level: nothing learnt, credited
    or completed. *)
Record fresh (s : SessionState) : Prop := {
  fr_max : task_max_hint (ladder s) = H0;
  fr_notes : notes s = {| child_note_evidence := ∅; supported_note_slots := [] |};
  fr_status : ss_status (outcome s) = ACTIVE;
  fr_outcome : completion_outcome (outcome s) = None;
  fr_reward : teach_reward_eligible (outcome s) = false;
  fr_task : is_Some (task_ids s !! task_index s)
}.

(** Reachable sessions from a start level: a state with the turn on screen, each
    response admitted by the gate for that turn. *)
Inductive session_from pack (start : ExpressionLevel) : SessionState -> TurnContract -> Prop :=
  | start_session ids s0 s turn :
      fresh s0 -> expression_level (ladder s0) = start -> turn_id_ok (fresh_turn_id ids) = true ->
      initialize_state ids pack s0 = Ok (s, turn) -> session_from pack start s turn
  | answer_session gw ids s turn resp pq recent r :
      session_from pack start s turn -> turn_id_ok (fresh_turn_id ids) = true ->
      gate (tc_input turn) (tc_turn_id turn) resp = Ok tt ->
      run_turn gw ids s resp pq recent = Ok r -> session_from pack start (tr_state r) (tr_turn r).

Definition session pack (s : SessionState) (turn : TurnContract) : Prop := exists start, session_from pack start s turn.

Lemma session_start pack ids s0 s turn :
  fresh s0 -> turn_id_ok (fresh_turn_id ids) = true -> initialize_state ids pack s0 = Ok (s, turn) -> session pack s turn.
Proof. intros Hf Hid Hi. eexists. by eapply start_session. Qed.

Lemma session_turn pack gw ids s turn resp pq recent r :
  session pack s turn -> turn_id_ok (fresh_turn_id ids) = true -> gate (tc_input turn) (tc_turn_id turn) resp = Ok tt ->
  run_turn gw ids s resp pq recent = Ok r -> session pack (tr_state r) (tr_turn r).
Proof. intros [start Hs] Hid Hg Hr. exists start. by eapply answer_session. Qed.

(** How the outcome fields relate to the ledger and the note record. *)
Definition outcome_ok pack lg (n : note_state) (o : outcome_state) : Prop :=
  match ss_status o with
  | ACTIVE => (exists t, open_target (HomePack pack) lg t) /\ completion_outcome o = None
              /\ teach_reward_eligible o = false
  | COMPLETED => (forall t, ~ open_target (HomePack pack) lg t)
      /\ (completion_outcome o = Some TAUGHT \/ completion_outcome o = Some SUPPORTED)
      /\ (completion_outcome o = Some TAUGHT <->
            (forall i, i ∈ po_note_relation_ids (hp_policies pack) -> credited n i)
            /\ joint_performance_used o = false)
      /\ teach_reward_eligible o = bool_decide (completion_outcome o = Some TAUGHT)
  end.

Record session_ok pack (s : SessionState) (turn : TurnContract) snap lg : Prop := {
  sk_frame : pinned_frame pack s snap lg;
  sk_version : runtime_contract_version s = VERDICT_V1;
  sk_ladder : home_ladder (ladder s);
  sk_notes : notes_ok (HomePack pack) lg (notes s);
  sk_outcome : outcome_ok pack lg (notes s) (outcome s);
  sk_screen : exists q, question_contract s pack lg = Ok (s, q) /\ tc_input turn = qc_input q;
  sk_turn : current_turn_id s = Some (tc_turn_id turn);
  sk_id : turn_id_ok (tc_turn_id turn) = true;
  sk_task : is_Some (task_ids s !! task_index s)
}.

Lemma empty_ledger_frame pack snap lg :
  pin_content_pack_v2 pack = Ok snap -> empty_reasoning_ledger_v2 (HomeSnapshot snap) = Ok lg ->
  engine_frame pack snap lg /\ verified_facts lg = ∅ /\ verified_relations lg = ∅.
Proof.
  intros Hp He. unfold empty_reasoning_ledger_v2 in He. pose proof He as He'.
  apply reasoning_ledger_Ok in He as (-> & _ & _). split; [|done]. split; [done| |].
  - apply binding_spec. simpl. rewrite !dom_empty_L. split; [done|].
    do 3 (split; [by intros k ?%not_elem_of_empty|]). by intros k e He.
  - split; [done|]. split; apply map_Forall_empty.
Qed.

Lemma empty_open (p : TaskPackV2) lg : pack_contract p ->
  verified_facts lg = ∅ -> verified_relations lg = ∅ -> exists t, open_target p lg t.
Proof.
  intros Hc Hf Hr. destruct (required_targets p) as [|t ts] eqn:E;
    [by destruct (pk_required_some _ Hc)|].
  exists t. split; [rewrite E; left|]. unfold unverified.
  destruct t.1; rewrite ?Hf, ?Hr, dom_empty_L; apply not_elem_of_empty.
Qed.

Lemma shown_state_ladder s i : ladder (shown_state s i) = shown_ladder s.
Proof. done. Qed.

Lemma opening_shows ids s0 pack s turn lg :
  ss_status (outcome s0) = ACTIVE ->
  (opening ← (if decide (expression_level (ladder s0) = L4)
              then Ok (s0, qp_reviewed_fallback (hp_initial_question pack))
              else out ← question_contract s0 pack lg; Ok (out.1, qc_fallback out.2));
   let state := with_outcome opening.1 (with_verified_slots (outcome opening.1) ∅) in
   out ← build_turn ids state pack lg opening.2 curious;
   Ok (with_turn out.1 (state_version out.1) (Some (tc_turn_id out.2)), out.2)) = Ok (s, turn) ->
  ladder s = shown_ladder s0 /\ notes s = notes s0 /\ pinned_dialogue_v2 s = pinned_dialogue_v2 s0
  /\ runtime_contract_version s = runtime_contract_version s0
  /\ outcome s = with_verified_slots (outcome s0) ∅ /\ current_turn_id s = Some (tc_turn_id turn)
  /\ tc_turn_id turn = fresh_turn_id ids /\ (task_ids s, task_index s) = (task_ids s0, task_index s0)
  /\ exists q, question_contract s pack lg = Ok (s, q) /\ tc_input turn = qc_input q.
Proof.
  intros Hst Ho. destruct (if decide _ then _ else _) as [opening|] eqn:E; [|done].
  cbn [mbind res_bind] in Ho.
  assert (Hop : exists i, opening.1 = shown_state s0 i).
  { destruct (decide (expression_level (ladder s0) = L4)) as [Hl4|Hl4].
    - injection E as <-. exists (subgoal_id s0). unfold shown_state, shown_ladder.
      by rewrite Hl4, decide_False, decide_False, with_ladder_id, with_subgoal_id by congruence.
    - destruct (question_contract s0 pack lg) as [[s1 q]|] eqn:Hq; [|done].
      apply question_shows in Hq as [i ->]. res_inv. by exists i. }
  destruct Hop as [i Hop]. rewrite Hop in Ho.
  destruct (build_turn _ _ _ _ _ _) as [[s1 turn1]|] eqn:Hb; [|done].
  cbn [mbind res_bind fst snd] in Ho. injection Ho as <- <-.
  pose proof (build_turn_question _ _ _ _ _ _ _ _ Hb) as (q & Hq & Hin).
  pose proof (question_stable _ _ _ _ _ (state_version s1) (Some (tc_turn_id turn1)) Hq).
  apply build_turn_shows in Hb as ([j ->] & _ & Hid & _).
  assert (Hl : shown_ladder (with_outcome (shown_state s0 i) (with_verified_slots (outcome (shown_state s0 i)) ∅)) = shown_ladder s0).
  { unfold shown_ladder. simpl. unfold shown_ladder. repeat case_decide; done. }
  split; [exact Hl|]. do 7 (split; [done|]). eauto.
Qed.

(** The ladders a session opens with. *)
Lemma opening_ladder_home s0 : ss_status (outcome s0) = ACTIVE -> task_max_hint (ladder s0) = H0 -> hint_level (ladder s0) = H0 ->
  expression_level (ladder s0) <> L1 ->
  home_ladder (shown_ladder s0) /\ (expression_level (ladder s0) <> L0 -> ladder_ok (shown_ladder s0)).
Proof.
  intros Hs Hm Hh H1. unfold shown_ladder. rewrite decide_False by congruence.
  unfold home_ladder, ladder_ok, ladder_shape. case_decide as H0'; simpl; rewrite ?Hm, ?Hh; intuition (congruence || auto).
Qed.

Lemma start_ok ids pack s0 s turn :
  fresh s0 -> turn_id_ok (fresh_turn_id ids) = true -> initialize_state ids pack s0 = Ok (s, turn) ->
  (exists snap lg, session_ok pack s turn snap lg) /\ (expression_level (ladder s0) <> L0 -> ladder_ok (ladder s)).
Proof.
  intros [Hm Hn Hs Ho Hr Ht] Hid Hi. unfold initialize_state in Hi.
  destruct (raise_if _ _) as [u|] eqn:Hv; [|done]. apply raise_if_Ok, bool_decide_eq_false in Hv.
  cbn [mbind res_bind] in Hi. destruct (pin_content_pack_v2 pack) as [snap|] eqn:Hp; [|done].
  cbn [mbind res_bind] in Hi. destruct (empty_reasoning_ledger_v2 _) as [lg|] eqn:He; [|done].
  cbn [mbind res_bind] in Hi. pose proof (empty_ledger_frame _ _ _ Hp He) as (Hf & Hvf & Hvr).
  set (st1 := with_subgoal _ _) in Hi.
  pose proof (opening_shows ids st1 pack s turn lg Hs Hi) as Hsh. clear Hi.
  destruct (opening_ladder_home st1 Hs Hm eq_refl) as [Hhome Hok]; [by simpl; destruct (expression_level (ladder s0))|].
  destruct Hsh as (Hl' & Hn' & Hp' & Hv' & Ho' & Ht' & Hid' & Hta' & q & Hq & Hin). simpl in Hn', Hp', Hv', Ho', Hta'.
  split; [|intros Hne; rewrite Hl'; apply Hok; simpl; by destruct (expression_level (ladder s0))].
  exists snap, lg. split; try done.
  - split; [|done]. rewrite Hp'. pose proof (pin_fields _ _ Hp) as ->. done.
  - rewrite Hv'. by apply dec_stable in Hv.
  - by rewrite Hl'.
  - rewrite Hn', Hn. split; simpl; [|by intros i ?%not_elem_of_nil|constructor].
    intros i [x Hx]. by rewrite lookup_empty in Hx.
  - rewrite Hn', Ho'. unfold outcome_ok. simpl. rewrite Hs. split; [|done].
    by eapply empty_open; [by eapply frame_contract|..].
  - eauto.
  - by rewrite Hid'.
  - by injection Hta' as -> ->.
Qed.

(** A session that starts at joint work shows the full card and records none. *)
Lemma joint_start_ladder ids pack s0 s turn :
  fresh s0 -> expression_level (ladder s0) = L0 -> initialize_state ids pack s0 = Ok (s, turn) ->
  expression_level (ladder s) = L0 /\ hint_level (ladder s) = H3 /\ task_max_hint (ladder s) = H0.
Proof.
  intros Hf Hl Hi. unfold initialize_state in Hi.
  destruct (raise_if _ _) as [u|]; [|done]. cbn [mbind res_bind] in Hi.
  destruct (pin_content_pack_v2 pack) as [snap|]; [|done]. cbn [mbind res_bind] in Hi.
  destruct (empty_reasoning_ledger_v2 _) as [lg|]; [|done]. cbn [mbind res_bind] in Hi.
  set (st1 := with_subgoal _ _) in Hi. apply (opening_shows ids st1 pack s turn lg (fr_status _ Hf)) in Hi as (-> & _).
  unfold shown_ladder. rewrite decide_False by (simpl; rewrite (fr_status _ Hf); discriminate). simpl. rewrite Hl. simpl.
  split; [done|]. split; [done|apply Hf].
Qed.

Lemma with_hint_id l : with_hint l (hint_level l) = l.
Proof. by destruct l. Qed.

Lemma shown_ladder_id s l : ladder_shape l -> shown_ladder (with_ladder s l) = l.
Proof.
  intros (_ & Hl). unfold shown_ladder. simpl. destruct (decide (_ = COMPLETED)); [done|].
  destruct (decide (_ = L0)) as [He|]; [|done]. rewrite <- (proj1 Hl He). apply with_hint_id.
Qed.

Lemma next_home s t : home_ladder (ladder s) -> home_ladder (next_ladder s t).
Proof. apply policy_home. Qed.

Lemma next_shape s t : home_ladder (ladder s) -> ladder_shape (next_ladder s t).
Proof. intros Hl. by destruct (next_home s t Hl). Qed.

Lemma frame_open pack snap lg c :
  engine_frame pack snap lg -> reasoning_completion_v2 (HomeSnapshot snap) lg = Ok c ->
  complete c = false -> exists t, open_target (HomePack pack) lg t.
Proof. intros Hf. apply incomplete_open. by eapply frame_resolves. Qed.

Lemma relations_kept lg lg' i :
  maps_grow (maps_of lg) (maps_of lg') -> is_Some (verified_relations lg !! i) ->
  is_Some (verified_relations lg' !! i).
Proof.
  intros Hg [e He]. destruct (mg_relations _ _ Hg i e He) as (e' & He' & _). eauto.
Qed.

Lemma next_notes_ok s pack lg t :
  maps_grow (maps_of lg) (maps_of (ar_ledger (ts_apply_result t))) ->
  (forall i, i ∈ new_relation_ids (ar_log (ts_apply_result t)) ->
     is_Some (verified_relations (ar_ledger (ts_apply_result t)) !! i)) ->
  notes_ok (HomePack pack) lg (notes s) ->
  notes_ok (HomePack pack) (ar_ledger (ts_apply_result t)) (next_notes s pack t).
Proof.
  intros Hg Hnew Hn. apply track_notes_ok; [done|].
  eapply notes_ok_grow; [|done]. intros i. by apply relations_kept.
Qed.

(** Only the turn on screen can be answered, and only while the session is open. *)
Lemma gate_active pack s turn snap lg id resp :
  session_ok pack s turn snap lg -> gate (tc_input turn) id resp = Ok tt ->
  ss_status (outcome s) = ACTIVE.
Proof.
  intros Hk Hg. destruct (sk_screen _ _ _ _ _ Hk) as (q & Hq & Hin).
  destruct (ss_status (outcome s)) eqn:Hs; [done|]. exfalso. revert Hg. rewrite Hin.
  unfold question_contract in Hq. rewrite Hs, decide_True in Hq by done. injection Hq as <-.
  unfold gate. simpl. destruct (raise_if (negb (bool_decide _)) _); [|done].
  unfold response_matches_input. by destruct (cr_type resp).
Qed.

Lemma finished_ok ids pack s turn snap lg t r :
  session_ok pack s turn snap lg -> turn_id_ok (fresh_turn_id ids) = true ->
  ss_status (outcome s) = ACTIVE -> sound_result (HomeSnapshot snap) lg (ts_apply_result t) -> finished ids s pack t r ->
  session_ok pack (tr_state r) (tr_turn r) snap (ar_ledger (ts_apply_result t)).
Proof.
  intros Hk Hid Hs Hsound Hf.
  destruct Hk as [[Hpin Hfr] Hv Hl Hn Ho _ _ _ Hta], Hsound as [Hg Hval Hc Hnew].
  assert (Hsr : sound_result (HomeSnapshot snap) lg (ts_apply_result t)) by (by split).
  pose proof (sound_frame pack snap lg _ Hfr Hsr) as [Hfr' Hcomp].
  assert (Hl' : home_ladder (next_ladder s t)) by (by apply next_home).
  assert (Hn' := next_notes_ok s pack lg t Hg Hnew Hn).
  destruct Hf as [Fl Fn (pinned & Fp & Fp') Fv _ Ft Fid Fta _ _ Fs Fopen Fdone].
  rewrite shown_ladder_id in Fl by apply Hl'. split.
  - split; [|done]. rewrite Fp'. rewrite Hpin in Fp. by injection Fp as <-.
  - by rewrite Fv.
  - rewrite Fl. by destruct (complete _).
  - by rewrite Fn.
  - unfold outcome_ok in *. rewrite Hs in Ho. destruct Ho as [_ Ho], (complete _) eqn:Ec.
    + destruct (Fdone eq_refl) as ([-> _ Hout Htaught Hrew] & _).
      split; [by apply Hcomp|]. done.
    + destruct (Fopen eq_refl) as [v ->]. simpl. rewrite Hs. split; [|done].
      by eapply frame_open.
  - done.
  - done.
  - by rewrite Fid.
  - by injection Fta as -> ->.
Qed.

Lemma run_turn_Ok gw ids s turn pack snap lg resp pq recent r :
  session_ok pack s turn snap lg -> gate (tc_input turn) (tc_turn_id turn) resp = Ok tt ->
  run_turn gw ids s resp pq recent = Ok r ->
  exists t, interpret_execution gw s pack snap lg resp pq recent = Ok t
    /\ sound_result (HomeSnapshot snap) lg (ts_apply_result t) /\ finished ids s pack t r.
Proof.
  intros Hk Hg Hr. pose proof (gate_active _ _ _ _ _ _ _ Hk Hg) as Hs. unfold run_turn in Hr.
  destruct (resolve_state s) as [[[pack' snap'] lg']|] eqn:Hres; [|done]. cbn [mbind res_bind] in Hr.
  apply (resolve_frame pack s snap lg) in Hres as (-> & -> & ->); [|apply Hk].
  destruct (interpret_execution _ _ _ _ _ _ _ _) as [t|] eqn:Ht; [|done]. cbn [mbind res_bind] in Hr.
  exists t. split; [done|]. split; [|by eapply finish_turn_Ok].
  eapply interpret_sound; [|done]. apply Hk.
Qed.

Lemma session_reached pack s turn : session pack s turn -> exists snap lg, session_ok pack s turn snap lg.
Proof.
  intros [start Hs]. induction Hs as [ids s0 s turn H0 _ Hid Hi|gw ids s turn resp pq recent r _ IH Hid Hg Hr].
  - by eapply start_ok.
  - destruct IH as (snap & lg & Hk).
    destruct (run_turn_Ok _ _ _ _ _ _ _ _ _ _ _ Hk Hg Hr) as (t & _ & Hsound & Hf).
    exists snap, (ar_ledger (ts_apply_result t)). eapply finished_ok; try done. by eapply gate_active.
Qed.

(** Only a session that starts at joint work can show a hint it does not record. *)
Lemma session_recorded pack start s turn : session_from pack start s turn -> start <> L0 -> ladder_ok (ladder s).
Proof.
  intros Hs Hne. induction Hs as [ids s0 s turn H0 Hl Hid Hi|gw ids s turn resp pq recent r Hs IH Hid Hg Hr].
  - eapply start_ok; [done..|]. by rewrite Hl.
  - destruct (session_reached pack s turn) as (snap & lg & Hk); [by exists start|].
    destruct (run_turn_Ok _ _ _ _ _ _ _ _ _ _ _ Hk Hg Hr) as (t & _ & _ & Hf).
    rewrite (fi_ladder _ _ _ _ _ Hf). pose proof (policy_ok (ladder s) t IH) as Hok.
    rewrite shown_ladder_id by (by apply ladder_ok_shape). by destruct (complete _).
Qed.
End turns.
