(* ===== verification/SpeakerTheory.v ===== *)
(** What Mormi says fits the turn contract: every deterministic line of a turn has
    text and at most two lines, given a pack whose reviewed copy does
    ([speakable_pack]), and so does the line of a speaker model before the reviewed
    question. *)

From Stdlib Require Import Ascii.
From S2P Require Import Prelude.
From S2P Require Import PyStr.
From S2P Require Import PyNum.
From S2P Require Import Json.
From S2P Require Import Schemas.
From S2P Require Import Requests.
From S2P Require Import Regex.
From S2P Require Import Evidence.
From S2P Require Import Packs.
From S2P Require Import PackDump.
From S2P Require Import Snapshot.
From S2P Require Import Ledger.
From S2P Require Import ContentCopy.
From S2P Require Import ContentChecks.
From S2P Require Import State.
From S2P Require Import Ladder.
From S2P Require Import Understand.
From S2P Require Import Question.
From S2P Require Import Respond.
From S2P Require Import SpeakerText.
From S2P Require Import SpeakerPlan.
From S2P Require Import Reply.
From S2P Require Import Speak.
From S2P Require Import Turn.

(** * Lines *)

(** One line of text, and one the contract accepts. *)
Definition sayable (s : string) : bool := single_line s && bool_decide (1 <= py_len s).
Definition contract_line (s : string) : bool :=
  bool_decide (1 <= py_len s) && bool_decide (length (splitlines s) <= 2).

Lemma sayable_single s : sayable s = true -> single_line s = true.
Proof. unfold sayable. by intros [H _]%andb_true_iff. Qed.

Lemma sayable_line s : sayable s = true -> contract_line s = true.
Proof.
  unfold sayable, contract_line. intros [Hs Hl]%andb_true_iff. rewrite Hl. simpl.
  apply bool_decide_eq_true. pose proof (splitlines_single s Hs). lia.
Qed.

Lemma mormi_contract_total text mood :
  contract_line text = true -> mormi_contract text mood = Ok {| mc_text := text; mc_mood := mood |}.
Proof.
  unfold contract_line, mormi_contract. intros [Hn Hl]%andb_true_iff.
  apply bool_decide_eq_true in Hn, Hl. by rewrite !bool_decide_eq_false_2 by lia.
Qed.

Lemma sayable_app a b : sayable a = true -> single_line b = true -> sayable (a ++ b) = true.
Proof.
  unfold sayable. intros [Ha Hl]%andb_true_iff Hb. rewrite single_line_app by done. simpl.
  apply bool_decide_eq_true in Hl. apply bool_decide_eq_true. rewrite py_len_app by done. lia.
Qed.

Create HintDb lines.
#[export] Hint Resolve sayable_single sayable_line sayable_app single_line_app : lines.
#[export] Hint Extern 1 (single_line (String _ _) = true) => (vm_compute; reflexivity) : lines.
#[export] Hint Extern 1 (sayable (String _ _) = true) => (vm_compute; reflexivity) : lines.

Lemma py_join_single sep l : single_line sep = true -> forallb single_line l = true ->
  single_line (py_join sep l) = true.
Proof.
  intros Hsep. induction l as [|x l IH]; [done|]. intros [Hx Hl]%andb_true_iff.
  destruct l as [|y l]; [done|]. change (py_join sep (x :: y :: l)) with (x ++ sep ++ py_join sep (y :: l))%string.
  auto with lines.
Qed.

(** * The reviewed copy of a pack *)

(** A label, also with its trailing spaces cut off. *)
Definition label_ready (s : string) : bool := single_line s && single_line (py_rstrip s).

Definition reviewed_lines (pack : RequiredHomeTeachingPackV2) : list string :=
  qp_reviewed_fallback (hp_initial_question pack)
  :: map qp_reviewed_fallback (hp_l3_plans pack) ++ map cs_reviewed_fallback (hp_copy_slots pack).

Definition speakable_pack (pack : RequiredHomeTeachingPackV2) : bool :=
  forallb sayable (reviewed_lines pack)
  && forallb (fun f => label_ready (cf_speaker_label f)) (rg_facts (hp_reasoning_graph pack)).

(** * Labels and reasks *)

Lemma with_and_particle_single s : label_ready s = true -> single_line (with_and_particle s) = true.
Proof.
  unfold label_ready, with_and_particle. intros [Hs Hr]%andb_true_iff.
  destruct (rev _) as [|c u]; [done|]. destruct (_ && _); [|auto with lines].
  destruct (_ =? _)%N; auto with lines.
Qed.

Lemma relation_label_ready o : label_ready (relation_ask_label o) = true.
Proof. destruct o; vm_compute; reflexivity. Qed.

Lemma removelast_elem {A} (x : A) l : x ∈ removelast l -> x ∈ l.
Proof.
  induction l as [|y l IH]; [done|]. simpl. destruct l as [|z l]; [by intros ?%not_elem_of_nil|].
  rewrite !elem_of_cons. intros [-> | H]; [by left|]. right. by apply elem_of_cons, IH.
Qed.

Lemma last_elem {A} (x d : A) l : List.last (x :: l) d ∈ x :: l.
Proof. revert x. induction l as [|y l IH]; intros x; [by left|]. right. apply IH. Qed.

Lemma join_reask_single labels :
  forallb label_ready labels = true -> single_line (join_reask_labels labels) = true.
Proof.
  intros Hall. rewrite forallb_forall in Hall.
  assert (Hone : forall x, x ∈ labels -> single_line x = true).
  { intros x Hx%list_elem_of_In%Hall. by apply andb_true_iff in Hx as [? _]. }
  destruct labels as [|a [|b [|c l]]]; [by vm_compute|by apply Hone; left| |].
  - assert (Ha : single_line (with_and_particle a) = true)
      by (apply with_and_particle_single, Hall; by left).
    assert (Hb : single_line b = true) by (apply Hone; by right; left).
    cbn [join_reask_labels]. auto with lines.
  - assert (Hl : single_line (List.last (a :: b :: c :: l) "") = true) by apply Hone, last_elem.
    assert (Hj : single_line (py_join ", " (removelast (a :: b :: c :: l))) = true).
    { apply py_join_single; [by vm_compute|]. apply forallb_forall.
      intros x Hx%list_elem_of_In%removelast_elem. by apply Hone. }
    cbn [join_reask_labels]. auto with lines.
Qed.

Lemma reask_single focus kind visible :
  single_line focus = true -> single_line (reask_for focus kind visible) = true.
Proof. intros Hf. unfold reask_for. case_decide; [|destruct visible]; auto with lines. Qed.

Lemma fromkeys_forallb (p : string -> bool) l : forallb p l = true -> forallb p (fromkeys l) = true.
Proof.
  rewrite !forallb_forall. intros H x Hx. apply H, list_elem_of_In, elem_of_fromkeys, list_elem_of_In, Hx.
Qed.

Lemma focus_label_ready pack t label : speakable_pack pack = true ->
  target_focus_label (HomePack pack) t = Ok label -> label_ready label = true.
Proof.
  unfold target_focus_label. intros [_ Hp]%andb_true_iff Hu. rewrite forallb_forall in Hp.
  destruct (target_kind t).
  - destruct (facts_by_id _ _) as [f|] eqn:Ef; [|done]. injection Hu as <-.
    apply facts_by_id_Some in Ef as [Hin _]. simpl in Hin. apply list_elem_of_fmap in Hin as (g & -> & Hg).
    apply Hp, list_elem_of_In, Hg.
  - destruct (relations_by_id _ _) as [r|]; [|done]. injection Hu as <-. apply relation_label_ready.
Qed.

(** Every reask is one nonempty line. *)
Lemma fallback_sayable pack t q visible strengthened n text :
  speakable_pack pack = true ->
  conversational_fallback (HomePack pack) t q visible strengthened n = Ok text ->
  sayable text = true.
Proof.
  intros Hp Hc. unfold conversational_fallback in Hc.
  destruct (mapR _ _) as [labels|] eqn:Hl; [|done]. cbn [mbind res_bind] in Hc.
  assert (Hlabels : forallb label_ready labels = true).
  { apply forallb_forall. intros x Hx%list_elem_of_In.
    eapply (mapR_Forall _ (fun x => label_ready x = true)) in Hl; [|intros; by eapply focus_label_ready].
    rewrite Forall_forall in Hl. by apply Hl. }
  apply fromkeys_forallb in Hlabels. apply join_reask_single in Hlabels.
  set (focus := join_reask_labels (fromkeys labels)) in *. clearbody focus.
  assert (Hr : single_line (reask_for focus (ic_kind (qc_input q)) visible) = true) by by apply reask_single.
  set (reask := reask_for _ _ _) in *. clearbody reask.
  injection Hc as <-.
  destruct (ui_reference (ts_response t)) as [u|].
  { destruct (ui_interaction u), strengthened; auto with lines. }
  destruct (conversation_move (ts_response t)); repeat case_decide; auto with lines.
  - destruct (_ || _); [|auto with lines]. destruct (_ <=? _); auto with lines.
  - destruct strengthened; auto with lines.
Qed.

(** * Questions *)

Lemma reviewed_sayable pack text : speakable_pack pack = true -> text ∈ reviewed_lines pack -> sayable text = true.
Proof. intros [Hp _]%andb_true_iff Ht. rewrite forallb_forall in Hp. apply Hp, list_elem_of_In, Ht. Qed.

Lemma slot_line pack f slot : first_slot pack f = Ok slot -> cs_reviewed_fallback slot ∈ reviewed_lines pack.
Proof.
  unfold first_slot. destruct (find_first _ _) eqn:E; [|done]. intros [= ->].
  apply find_first_Some in E as [Hin _]. right. apply elem_of_app. right. by apply list_elem_of_fmap_2.
Qed.

Lemma plan_line pack q : q ∈ hp_l3_plans pack -> qp_reviewed_fallback q ∈ reviewed_lines pack.
Proof. intros Hq. right. apply elem_of_app. left. by apply list_elem_of_fmap_2. Qed.

Lemma l3_exact_in t plans q : l3_plan_exact t plans = Ok q -> q ∈ plans.
Proof.
  induction plans as [|r plans IH]; simpl; [done|]. intros Hq. res_inv. case_decide; [res_inv; left|right; auto].
Qed.
Lemma l3_by_key_in keys plans q : l3_plan_by_key keys plans = Ok q -> q ∈ plans.
Proof.
  induction plans as [|r plans IH]; simpl; [done|]. intros Hq. res_inv.
  destruct (memb _ _); [res_inv; left|right; auto].
Qed.

Section port.
Context `{!Digest} `{!PackModel}.

Lemma question_line s pack lg s' q :
  speakable_pack pack = true -> ss_status (outcome s) = ACTIVE ->
  question_contract s pack lg = Ok (s', q) -> sayable (qc_fallback q) = true.
Proof.
  intros Hp Hs Hq. apply (reviewed_sayable pack); [done|]. unfold question_contract in Hq.
  rewrite decide_False in Hq by congruence.
  destruct (targets_from_active_state _ _ _) as [ts|]; [|done]. cbn [mbind res_bind] in Hq.
  destruct (expression_level (ladder s)); res_inv; simpl; try (by eapply slot_line).
  all: try (unfold free_text_question in *; case_bool_decide; res_inv; simpl; [by left|]).
  all: try (destruct (hp_l3_plans pack) eqn:El; [done|]; res_inv; simpl; apply plan_line;
            rewrite El; by eapply l3_exact_in).
  unfold l3_question in *. res_inv. simpl. by eapply plan_line, l3_by_key_in.
Qed.

Lemma help_line pack q q' :
  speakable_pack pack = true -> initial_help_question_contract pack q = Ok q' ->
  sayable (qc_fallback q') = true.
Proof.
  intros Hp Hq. apply (reviewed_sayable pack); [done|]. unfold initial_help_question_contract in Hq.
  res_inv. simpl. by eapply slot_line.
Qed.
End port.

Lemma completion_line t : contract_line (sp_text (completion_speech t)) = true.
Proof. vm_compute. reflexivity. Qed.

(** * Spoken lines

    The speaker's line and the promise the engine relies on: whatever the speaker
    models return, what is said is a line the turn contract accepts. *)

(** * Encoding *)

(** A Python string: code points of Unicode. *)
Definition valid_text (u : ustr) : bool := forallb (fun c => (c <? 1114112)%N) u.

Lemma bytes_of_string_of_bytes l : Forall (fun b => (b < 256)%N) l -> bytes_of (string_of_bytes l) = l.
Proof.
  induction 1 as [|b l Hb _ IH]; [done|]. simpl. f_equal; [|exact IH].
  apply N_ascii_embedding. exact Hb.
Qed.

Lemma encode_point_bytes c : (c < 1114112)%N -> Forall (fun b => (b < 256)%N) (utf8_encode_point c).
Proof.
  intros Hc. unfold utf8_encode_point.
  pose proof (N.mod_lt c 64 ltac:(lia)). pose proof (N.mod_lt (c / 64) 64 ltac:(lia)).
  pose proof (N.mod_lt (c / 4096) 64 ltac:(lia)).
  destruct (N.ltb_spec c 128); [repeat constructor; lia|].
  destruct (N.ltb_spec c 2048).
  { assert (c / 64 < 32)%N by (apply N.Div0.div_lt_upper_bound; lia). repeat constructor; lia. }
  destruct (N.ltb_spec c 65536).
  { assert (c / 4096 < 16)%N by (apply N.Div0.div_lt_upper_bound; lia). repeat constructor; lia. }
  assert (c / 262144 < 5)%N by (apply N.Div0.div_lt_upper_bound; lia). repeat constructor; lia.
Qed.

(** The digits of a number to base 64, least first. *)
Lemma digits64 c : exists a b d e, c = (a + 64 * (b + 64 * (d + 64 * e)))%N /\ (a < 64 /\ b < 64 /\ d < 64)%N
  /\ (c mod 64 = a /\ c / 64 = b + 64 * (d + 64 * e) /\ (c / 64) mod 64 = b
      /\ c / 4096 = d + 64 * e /\ (c / 4096) mod 64 = d /\ c / 262144 = e)%N.
Proof.
  exists (c mod 64)%N, ((c / 64) mod 64)%N, ((c / 64 / 64) mod 64)%N, (c / 64 / 64 / 64)%N.
  assert (Hd : (c / 4096 = c / 64 / 64)%N) by (rewrite N.Div0.div_div; done).
  assert (He : (c / 262144 = c / 64 / 64 / 64)%N) by (rewrite !N.Div0.div_div; done). rewrite Hd, He.
  pose proof (N.div_mod' c 64). pose proof (N.div_mod' (c / 64) 64). pose proof (N.div_mod' (c / 64 / 64) 64).
  pose proof (N.mod_lt c 64 ltac:(lia)). pose proof (N.mod_lt (c / 64) 64 ltac:(lia)).
  pose proof (N.mod_lt (c / 64 / 64) 64 ltac:(lia)).
  generalize dependent (c / 64 / 64 / 64)%N. generalize dependent ((c / 64 / 64) mod 64)%N.
  generalize dependent (c / 64 / 64)%N. generalize dependent ((c / 64) mod 64)%N. generalize dependent (c / 64)%N.
  generalize dependent (c mod 64)%N. intros. lia.
Qed.

Lemma decode_point c l : (c < 1114112)%N ->
  utf8_decode_bytes (utf8_encode_point c ++ l) = c :: utf8_decode_bytes l
  /\ whole_points (utf8_encode_point c ++ l) = whole_points l.
Proof.
  intros Hc. unfold utf8_encode_point. destruct (digits64 c) as (a & b & d & e & Hx & (Ha & Hb & Hd) & -> & -> & -> & -> & -> & ->).
  destruct (N.ltb_spec c 128) as [?|?]; [simpl; by rewrite (proj2 (N.ltb_lt c 128)) by lia|].
  destruct (N.ltb_spec c 2048).
  { assert (d = 0 /\ e = 0)%N as [-> ->] by lia. cbn [app utf8_decode_bytes whole_points].
    rewrite (proj2 (N.ltb_ge (192 + _) 128)), (proj2 (N.ltb_lt (192 + _) 224)) by lia. split; [f_equal; lia|done]. }
  destruct (N.ltb_spec c 65536).
  { assert (e = 0)%N as -> by lia. cbn [app utf8_decode_bytes whole_points].
    rewrite (proj2 (N.ltb_ge (224 + _) 128)), (proj2 (N.ltb_ge (224 + _) 224)), (proj2 (N.ltb_lt (224 + _) 240)) by lia.
    split; [f_equal; lia|done]. }
  cbn [app utf8_decode_bytes whole_points].
  rewrite (proj2 (N.ltb_ge (240 + _) 128)), (proj2 (N.ltb_ge (240 + _) 224)), (proj2 (N.ltb_ge (240 + _) 240)) by lia.
  split; [f_equal; lia|done].
Qed.

(** Decoding undoes encoding. *)
Lemma decode_encode t : valid_text t = true ->
  utf8_decode (utf8_encode t) = t /\ whole_points (bytes_of (utf8_encode t)) = true.
Proof.
  intros Ht. unfold utf8_decode, utf8_encode. rewrite bytes_of_string_of_bytes.
  - unfold valid_text in Ht. induction t as [|c t IH]; [done|]. apply andb_true_iff in Ht as [Hc%N.ltb_lt Ht].
    rewrite fmap_cons. cbn [concat]. destruct (decode_point c (concat (utf8_encode_point <$> t)) Hc) as [-> ->].
    destruct (IH Ht) as [-> ->]. done.
  - apply Forall_concat, Forall_fmap, Forall_forall. intros c Hc%list_elem_of_In.
    unfold valid_text in Ht. rewrite forallb_forall in Ht. apply Ht, N.ltb_lt in Hc. by apply encode_point_bytes.
Qed.

Lemma decode_app s1 s2 : whole_points (bytes_of s1) = true -> utf8_decode (s1 ++ s2) = utf8_decode s1 ++ utf8_decode s2.
Proof. intros Hw. unfold utf8_decode. rewrite bytes_of_app. by destruct (utf8_decode_bytes_app _ (bytes_of s2) Hw) as [-> _]. Qed.

(** * Lines *)

Definition one_line (t : ustr) : bool := forallb (fun c => negb (is_line_break c)) t.

Lemma break_is_space c : is_line_break c = true -> is_space c = true.
Proof. unfold is_line_break, is_space. rewrite !orb_true_iff, !andb_true_iff, !N.leb_le, !N.eqb_eq. lia. Qed.

Notation lines line t := (length (splitlines_from line t)).

Lemma lines_started x line y line' t : lines (x :: line) t = lines (y :: line') t.
Proof.
  revert x line y line'. induction t as [|c t IH]; intros x line y line'; simpl; [done|].
  destruct (is_line_break c); [done|]. apply IH.
Qed.

(** An open line counts only with a character. *)
Lemma lines_open x line t : lines [] t <= lines (x :: line) t <= S (lines [] t).
Proof.
  destruct t as [|c t]; simpl; [lia|]. destruct (is_line_break c); [simpl; lia|].
  rewrite (lines_started c (x :: line) c [] t). lia.
Qed.

Lemma lines_tail c t : lines [] t <= lines [] (c :: t).
Proof.
  simpl. destruct (is_line_break c); [|apply lines_open]. destruct t as [|d t]; [simpl; lia|].
  destruct (_ && _) eqn:E; [|simpl; lia]. apply andb_true_iff in E as [_ ->%N.eqb_eq]. simpl.
  pose proof (lines_open 0%N [] t). destruct t; simpl; lia.
Qed.

Lemma lines_some x line w : 1 <= lines (x :: line) w.
Proof. revert x line. induction w as [|c w IH]; intros x line; simpl; [lia|]. destruct (is_line_break c); simpl; [lia|apply IH]. Qed.

Lemma lines_prefix t w line : lines line t <= lines line (t ++ w).
Proof.
  remember (length t) as n eqn:En. revert t En line. induction (lt_wf n) as [n _ IH]. intros [|c t] -> line; simpl.
  - destruct line; simpl; [lia|]. apply lines_some.
  - destruct (is_line_break c); [|exact (IH (length t) ltac:(simpl; lia) t eq_refl (c :: line))].
    simpl. destruct t as [|d t]; simpl; [destruct w; simpl; lia|].
    destruct (_ && _).
    + pose proof (IH (length t) ltac:(simpl; lia) t eq_refl []). lia.
    + pose proof (IH (length (d :: t)) ltac:(simpl; lia) (d :: t) eq_refl []). simpl in *. lia.
Qed.

Lemma lines_one x line w : one_line w = true -> lines (x :: line) w = 1.
Proof.
  revert x line. induction w as [|c w IH]; intros x line; [done|]. intros [Hc Hw]%andb_true_iff.
  apply negb_true_iff in Hc. simpl. rewrite Hc. by apply IH.
Qed.

(** A text that does not end a line goes on with a single line. *)
Lemma lines_app t w line : (exists c, last t = Some c /\ is_line_break c = false) -> one_line w = true ->
  lines line (t ++ w) = lines line t.
Proof.
  intros Hl Hw. remember (length t) as n eqn:En. revert t En line Hl. induction (lt_wf n) as [n _ IH].
  intros [|c t] -> line (e & He & Hb); [done|]. destruct t as [|d t].
  - injection He as ->. simpl. rewrite Hb. by rewrite lines_one.
  - change (last (d :: t) = Some e) in He. cbn [app splitlines_from]. destruct (is_line_break c) eqn:Hc.
    + cbn [length]. f_equal. destruct ((c =? 13)%N && (d =? 10)%N) eqn:E.
      * destruct t as [|f t].
        { injection He as ->. apply andb_true_iff in E as [_ ->%N.eqb_eq]. discriminate Hb. }
        exact (IH (length (f :: t)) ltac:(simpl; lia) (f :: t) eq_refl [] (ex_intro _ e (conj He Hb))).
      * exact (IH (length (d :: t)) ltac:(simpl; lia) (d :: t) eq_refl [] (ex_intro _ e (conj He Hb))).
    + exact (IH (length (d :: t)) ltac:(simpl; lia) (d :: t) eq_refl (c :: line) (ex_intro _ e (conj He Hb))).
Qed.

(** ** Stripping *)

Lemma ulstrip_suffix t : exists w, t = w ++ ulstrip t.
Proof. induction t as [|c t [w Hw]]; simpl; [by exists []|]. destruct (is_space c); [exists (c :: w); simpl; by f_equal|by exists []]. Qed.
Lemma urstrip_prefix t : exists w, t = urstrip t ++ w.
Proof.
  destruct (ulstrip_suffix (rev t)) as [w Hw]. exists (rev w). unfold urstrip.
  rewrite <- rev_app_distr, <- Hw. by rewrite rev_involutive.
Qed.

Lemma lines_strip t : lines [] (ustrip t) <= lines [] t.
Proof.
  unfold ustrip. destruct (urstrip_prefix t) as [w Hw]. rewrite Hw at 2. etransitivity; [|apply lines_prefix].
  destruct (ulstrip_suffix (urstrip t)) as [v Hv]. rewrite Hv at 2. clear Hv Hw. induction v as [|c v IH]; [done|].
  etransitivity; [exact IH|]. apply lines_tail.
Qed.

Lemma last_ulstrip t c : last (ulstrip t) = Some c -> last t = Some c.
Proof.
  destruct (ulstrip_suffix t) as [w Hw]. intros Hl. rewrite Hw, last_app, Hl. done.
Qed.

Lemma head_ulstrip t c : head (ulstrip t) = Some c -> is_space c = false.
Proof. induction t as [|d t IH]; simpl; [done|]. destruct (is_space d) eqn:E; [done|]. by intros [= ->]. Qed.

Lemma last_rev {A} (l : list A) : last (rev l) = head l.
Proof. rewrite rev_alt. apply last_reverse. Qed.

Lemma strip_last t c : last (ustrip t) = Some c -> is_space c = false.
Proof. unfold ustrip. intros Hl%last_ulstrip. unfold urstrip in Hl. rewrite last_rev in Hl. by eapply head_ulstrip. Qed.

Lemma strip_forallb (p : N -> bool) t : forallb p t = true -> forallb p (ustrip t) = true.
Proof.
  intros Ht. unfold ustrip. destruct (ulstrip_suffix (urstrip t)) as [w Hw]. destruct (urstrip_prefix t) as [v Hv].
  rewrite Hv, forallb_app, andb_true_iff in Ht. destruct Ht as [Ht _]. rewrite Hw, forallb_app, andb_true_iff in Ht. apply Ht.
Qed.

Lemma strip_strip t : ustrip (ustrip t) = ustrip t.
Proof.
  assert (Hr : urstrip (ustrip t) = ustrip t).
  { unfold urstrip. destruct (last (ustrip t)) as [c|] eqn:E.
    - pose proof (strip_last t c E) as Hc. rewrite <- (rev_involutive (ustrip t)) in E. rewrite last_rev in E.
      destruct (rev (ustrip t)) as [|d r] eqn:Er; [done|]. injection E as ->. simpl. rewrite Hc, <- Er. apply rev_involutive.
    - apply last_None in E. by rewrite E. }
  unfold ustrip at 1. rewrite Hr. unfold ustrip. destruct (ulstrip (urstrip t)) as [|c r] eqn:E; [done|].
  simpl. rewrite (head_ulstrip (urstrip t) c); [done|]. by rewrite E.
Qed.

(** * Composition *)

(** A stripped reaction of at most two lines before a question of one line. *)
Lemma compose_line reaction reask : whole_points (bytes_of reaction) = true -> valid_text (utf8_decode reaction) = true ->
  line_count (utf8_decode reaction) <= 2 -> sayable reask = true ->
  contract_line (compose_reaction_and_reask reaction reask) = true.
Proof.
  intros Hw Hv Hn Hs. unfold compose_reaction_and_reask. case_decide as Hd; [by apply sayable_line|].
  destruct (decode_encode (ustrip (utf8_decode reaction))) as [He Hwp]; [by apply strip_forallb|].
  unfold py_strip in *. set (t := ustrip (utf8_decode reaction)) in *.
  assert (Ht : t <> []) by (intros Ht; apply Hd; by rewrite Ht).
  assert (Hs' : single_line (" " ++ reask) = true) by (auto with lines).
  unfold sayable in Hs. apply andb_true_iff in Hs as [_ Hl%bool_decide_eq_true].
  unfold contract_line, py_len, splitlines. rewrite decode_app, He by done.
  rewrite andb_true_iff, !bool_decide_eq_true. split; [rewrite length_app; destruct t; [done|simpl; lia]|].
  unfold single_line in Hs'. apply andb_true_iff in Hs' as [_ Hs']. rewrite lines_app; [|..|exact Hs'].
  - pose proof (lines_strip (utf8_decode reaction)). unfold line_count in Hn. fold t in H. lia.
  - destruct (last t) as [c|] eqn:El; [|by apply last_None in El]. exists c. split; [done|].
    pose proof (strip_last _ _ El) as Hc. destruct (is_line_break c) eqn:E; [|done]. by rewrite break_is_space in Hc.
Qed.

(** ** The question that follows *)

Lemma sayable_app_r a b : single_line a = true -> sayable b = true -> sayable (a ++ b) = true.
Proof.
  unfold sayable. intros Ha [Hb Hl]%andb_true_iff. rewrite single_line_app by done. simpl.
  apply bool_decide_eq_true in Hl. apply bool_decide_eq_true. rewrite py_len_app by done. lia.
Qed.
#[local] Hint Resolve sayable_app_r : lines.

Lemma safe_reask_sayable pack plan targets a :
  speakable_pack pack = true -> speaker_target_focus (HomePack pack) targets a = Ok (crp_reask_targets plan) ->
  sayable (safe_reask_text plan) = true.
Proof.
  intros Hp Hf. assert (Hlabels : forallb label_ready (map tf_speaker_label (crp_reask_targets plan)) = true).
  { apply forallb_forall. intros x (f & -> & Hin)%list_elem_of_In%list_elem_of_fmap.
    assert (HF : Forall (fun f => label_ready (tf_speaker_label f) = true) (crp_reask_targets plan)).
    { eapply mapR_Forall; [|exact Hf]. intros t f' _ Ht. simpl in Ht. unfold speaker_target_focus_entry in Ht.
      res_inv. simpl. by eapply focus_label_ready. }
    rewrite Forall_forall in HF. by apply HF. }
  apply fromkeys_forallb, join_reask_single in Hlabels. unfold safe_reask_text.
  set (focus := join_reask_labels _) in *. clearbody focus.
  destruct (crp_reask_mode plan); repeat case_decide; auto with lines.
Qed.

(** * What the packs must bring *)

Definition surface_ready (s : string) : bool := single_line s && valid_text (utf8_decode s).

(** A fact can be named to the speaker: its label says no number but its own, and its
    first surface is a line. *)
Definition fact_ready (f : ContentFactV2) : bool :=
  content_id 120 (cf_fact_id f) && text_field 1 160 (cf_speaker_label f)
  && dec_subset (numeric_literals (cf_speaker_label f)) (canonical_numbers [cf_value f])
  && surface_ready (acknowledged_surface (HomeFact f)).
Definition spoken_relation_ready (r : ContentRelationV2) : bool :=
  content_id 120 (cr_relation_id r) && text_field 1 160 (cr_speaker_label r).

(** The targets of a question: a few, without repetition. *)
Definition targets_ready (l : list TargetRefV2) : bool := list_field 1 8 l && uniqueb (map target_pair l).

Definition speaker_ready (pack : RequiredHomeTeachingPackV2) : bool :=
  forallb fact_ready (rg_facts (hp_reasoning_graph pack))
  && forallb spoken_relation_ready (rg_relations (hp_reasoning_graph pack))
  && list_field 0 30 (rg_facts (hp_reasoning_graph pack))
  && targets_ready (qp_targets (hp_initial_question pack))
  && forallb (fun q => targets_ready (qp_targets q)) (hp_l3_plans pack)
  && forallb (fun s => targets_ready (cs_targets s)) (hp_copy_slots pack)
  && forallb (fun i => reference_id 160 (fallback_ref i))
       (qp_plan_id (hp_initial_question pack) :: map qp_plan_id (hp_l3_plans pack) ++ map l2_plan_id (hp_l2_plans pack)).

(** * The promise of the speaker *)

(** A stable copy is a line of the contract, and the models answer with text. *)
Class SpeechPortLaws `{SpeechPort} := {
  stable_line next p q l h text mood act :
    stable_fallback next p q l h = Some (text, mood, act) -> contract_line text = true;
  speaker_text s n plan o : speaker_model s n plan = Spoken o -> valid_text (so_text o) = true;
  bridge_text s plan o : bridge_model s plan = Spoken o -> valid_text (so_text o) = true
}.

Lemma dynamic_lines `{TextTables} t numbers values surfaces :
  dynamic_output_violation t numbers values surfaces = None -> line_count t <= 2.
Proof.
  unfold dynamic_output_violation. destruct (negb _); [done|]. destruct (2 <? line_count t) eqn:E; [done|].
  by apply Nat.ltb_ge in E.
Qed.

(** A line of a model before the reviewed question. *)
Lemma model_line `{TextTables} t reask : valid_text t = true -> line_count t <= 2 -> sayable reask = true ->
  contract_line (compose_reaction_and_reask (utf8_encode (ustrip t)) reask) = true.
Proof.
  intros Ht Hn Hs. destruct (decode_encode (ustrip t)) as [He Hw]; [by apply strip_forallb|].
  apply compose_line; [done|by rewrite He; apply strip_forallb| |done].
  rewrite He. unfold line_count in *. pose proof (lines_strip t). lia.
Qed.

Lemma surface_ready_app a b : surface_ready a = true -> surface_ready b = true -> surface_ready (a ++ b) = true.
Proof.
  unfold surface_ready. intros [Ha Hva]%andb_true_iff [Hb Hvb]%andb_true_iff. rewrite single_line_app by done.
  unfold single_line in Ha. apply andb_true_iff in Ha as [Hw _]. rewrite decode_app by done. unfold valid_text in *.
  by rewrite forallb_app, Hva, Hvb.
Qed.

Lemma py_join_ready sep l : surface_ready sep = true -> forallb surface_ready l = true -> surface_ready (py_join sep l) = true.
Proof.
  intros Hsep. induction l as [|x l IH]; [done|]. intros [Hx Hl]%andb_true_iff. destruct l as [|y l]; [done|].
  change (py_join sep (x :: y :: l)) with (x ++ sep ++ py_join sep (y :: l))%string.
  apply surface_ready_app; [done|]. apply surface_ready_app; [done|]. by apply IH.
Qed.

Lemma acknowledgement_ready pack ids text : speaker_ready pack = true ->
  reviewed_fact_acknowledgement (HomePack pack) ids = Ok text -> surface_ready text = true.
Proof.
  intros Hp Ha. unfold speaker_ready in Hp. rewrite !andb_true_iff in Hp. destruct Hp as ((((((Hf & _) & _) & _) & _) & _) & _).
  unfold reviewed_fact_acknowledgement in Ha. destruct (mapR _ ids) as [surfaces|] eqn:Hm; [|done].
  assert (Hs : forallb surface_ready surfaces = true).
  { apply forallb_forall. intros x Hx%list_elem_of_In.
    assert (HF : Forall (fun s => surface_ready s = true) surfaces).
    { eapply mapR_Forall; [|exact Hm]. intros i s _ Hi. simpl in Hi. destruct (facts_by_id _ i) as [f|] eqn:Ef; [|done].
      cbn [or_raise mbind res_bind] in Hi. injection Hi as <-. apply facts_by_id_Some in Ef as [Hin _]. simpl in Hin.
      apply list_elem_of_fmap in Hin as (g & -> & Hg). rewrite forallb_forall in Hf.
      apply list_elem_of_In, Hf in Hg. unfold fact_ready in Hg. rewrite !andb_true_iff in Hg. apply Hg. }
    rewrite Forall_forall in HF. by apply HF. }
  cbn [mbind res_bind] in Ha. injection Ha as <-.
  destruct surfaces as [|a [|b l]].
  - by vm_compute.
  - simpl in Hs. rewrite andb_true_r in Hs. apply surface_ready_app; [by vm_compute|]. by apply surface_ready_app; [|vm_compute].
  - apply surface_ready_app; [by vm_compute|]. apply surface_ready_app; [|by vm_compute].
    by apply py_join_ready; [vm_compute|].
Qed.

Lemma acknowledged_line text reask : surface_ready text = true -> sayable reask = true ->
  contract_line (compose_reaction_and_reask text reask) = true.
Proof.
  intros [Hs Hv]%andb_true_iff Hr. apply compose_line; [|done| |done].
  - unfold single_line in Hs. by apply andb_true_iff in Hs as [? _].
  - pose proof (splitlines_single text Hs). unfold splitlines in *. unfold line_count. lia.
Qed.

(** ** The line that is said *)

Section said.
Context `{!SpeechPort} `{!SpeechPortLaws}.
Variable pack : RequiredHomeTeachingPackV2.
Hypothesis Hspeakable : speakable_pack pack = true.
Hypothesis Hready : speaker_ready pack = true.
Notation p := (HomePack pack).

Lemma conversation_plan_reask l t q h plan : conversation_plan l p t q h = Ok plan ->
  sayable (safe_reask_text plan) = true.
Proof.
  unfold conversation_plan. intros Hc. destruct (speaker_target_focus _ _ _) as [targets|] eqn:Hf; [|done].
  cbn [mbind res_bind] in Hc. unfold conversation_response_plan in Hc. res_inv.
  by eapply safe_reask_sayable.
Qed.

Lemma attempt_line model c n out : (forall k plan o, model k plan = Spoken o -> valid_text (so_text o) = true) ->
  sayable (safe_reask_text (sc_response_plan c)) = true ->
  speak_attempt model c n = out ->
  (sc_response_plan out.1, sc_fallback out.1) = (sc_response_plan c, sc_fallback c)
  /\ forall r, out.2 = Some r -> contract_line (spr_text r) = true.
Proof.
  intros Hm Hr <-. unfold speak_attempt. destruct (model n (sc_plan c)) as [o|e] eqn:Ho; [|done].
  destruct (speaker_output_violation _ _ _ _) as [v|] eqn:Hv; [done|]. split; [done|]. intros r [= <-].
  unfold speaker_output_violation in Hv. destruct (bridge_excerpt_violation _); [done|].
  apply model_line; [by eapply Hm|by eapply dynamic_lines|done].
Qed.

Lemma speak_line model l subgoal supported t q fallback h out :
  (forall k plan o, model k plan = Spoken o -> valid_text (so_text o) = true) ->
  contract_line fallback = true ->
  speak model l subgoal supported p t q fallback h = Ok out ->
  contract_line (spr_text out) = true.
Proof.
  intros Hm Hf Hs. unfold speak in Hs. destruct (conversation_plan l p t q h) as [rp|] eqn:Hc; [|done].
  cbn [mbind res_bind] in Hs. pose proof (conversation_plan_reask _ _ _ _ _ Hc) as Hr.
  destruct (_ && _).
  - destruct (reviewed_fact_acknowledgement _ _) as [text|] eqn:Ha; [|done]. cbn [mbind res_bind] in Hs.
    injection Hs as <-. apply acknowledged_line; [by eapply acknowledgement_ready|done].
  - destruct (reaction_plan _ _ _ _ _ _ _) as [plan|]; [|done]. cbn [mbind res_bind] in Hs. injection Hs as <-.
    unfold two_attempts. set (c := {| sc_plan := plan |}).
    destruct (speak_attempt model c 1) as [c1 o1] eqn:E1. destruct (attempt_line model c 1 _ Hm Hr E1) as [[= H1 H1'] L1].
    destruct o1 as [r1|]; [by apply L1|]. simpl in H1, H1'.
    destruct (speak_attempt model c1 2) as [c2 o2] eqn:E2.
    assert (Hr1 : sayable (safe_reask_text (sc_response_plan c1)) = true) by (by rewrite H1).
    destruct (attempt_line model c1 2 _ Hm Hr1 E2) as [[= H2 H2'] L2].
    destruct o2 as [r2|]; [by apply L2|]. simpl in *. by rewrite H2', H1'.
Qed.

Lemma bridge_line model l subgoal t q fallback h out :
  (forall plan o, model plan = Spoken o -> valid_text (so_text o) = true) ->
  contract_line fallback = true ->
  bridge model l subgoal p t q fallback h = Ok out ->
  contract_line (spr_text out) = true.
Proof.
  intros Hm Hf Hs. unfold bridge in Hs. destruct (conversation_plan l p t q h) as [rp|] eqn:Hc; [|done].
  cbn [mbind res_bind] in Hs. pose proof (conversation_plan_reask _ _ _ _ _ Hc) as Hr.
  destruct (social_plan _ _ _ _) as [plan|]; [|done]. cbn [mbind res_bind] in Hs.
  destruct (model plan) as [o|e] eqn:Ho; [|by injection Hs as <-]. unfold validate_bridge_output in Hs.
  destruct (bridge_output_violation _ _ _ _) as [v|] eqn:Hv; injection Hs as <-; [done|].
  unfold bridge_output_violation in Hv. destruct (bridge_excerpt_violation _); [done|].
  apply model_line; [by eapply Hm|by eapply dynamic_lines|done].
Qed.

Lemma unsafe_line text : sayable text = true -> contract_line (unsafe_fallback text) = true.
Proof. intros Ht. unfold unsafe_fallback. auto with lines. Qed.

(** Whatever the models return, the turn's line fits the contract. *)
Lemma render_line next h supported t q stable fallback sp :
  (forall text mood act, stable = Some (text, mood, act) -> contract_line text = true) ->
  sayable fallback = true -> sayable (qc_fallback q) = true ->
  render_speech next h supported p t q stable fallback = Ok sp -> contract_line (sp_text sp) = true.
Proof.
  intros Hst Hf Hq Hs. unfold render_speech in Hs. case_decide; [injection Hs as <-; auto with lines|].
  destruct (uses_reviewed_expression_support t); [injection Hs as <-; auto with lines|].
  assert (Hmain : forall r : res TurnSpeech, r = Ok sp ->
    r = (if decide (ts_route t = RO_safety) then
          Ok {| sp_text := unsafe_fallback (qc_fallback q); sp_mood := thinking; sp_dialogue_act := dialogue_act t |}
        else
          out ← (if decide (ts_route t = RO_bridge)
                 then bridge (bridge_model next) (ladder next) (subgoal_id next) p t q fallback h
                 else speak (speaker_model next) (ladder next) (subgoal_id next) supported p t q fallback h);
          Ok {| sp_text := spr_text out; sp_mood := spr_mood out; sp_dialogue_act := dialogue_act t |}) ->
    contract_line (sp_text sp) = true).
  { intros r -> Hr. symmetry in Hr. case_decide; [injection Hr as <-; by apply unsafe_line|].
    destruct (if decide (ts_route t = RO_bridge) then _ else _) as [out|] eqn:Ho; [|done].
    cbn [mbind res_bind] in Hr. injection Hr as <-. simpl. case_decide.
    - exact (bridge_line _ _ _ _ _ _ _ _ (bridge_text next) (sayable_line _ Hf) Ho).
    - exact (speak_line _ _ _ _ _ _ _ _ _ (speaker_text next) (sayable_line _ Hf) Ho). }
  destruct stable as [[[text mood] act]|], (bool_decide (ts_route t = RO_stable)); try (by eapply Hmain).
  injection Hs as <-. by eapply Hst.
Qed.
End said.
