(* ===== verification/SpeakerSafety.v ===== *)
(** What the speaker models can learn and say: their plans carry neither the child's
    words nor the values of the answers still asked for, and a line of theirs is
    said only when it names nothing that is still open. *)

From Stdlib Require Import Ascii.
From S2P Require Import Prelude.
From S2P Require Import PyStr.
From S2P Require Import PyNum.
From S2P Require Import Json.
From S2P Require Import Schemas.
From S2P Require Import Requests.
From S2P Require Import Regex.
From S2P Require Import Evidence.
From S2P Require Import Packs.
From S2P Require Import PackDump.
From S2P Require Import Snapshot.
From S2P Require Import Ledger.
From S2P Require Import ContentCopy.
From S2P Require Import ContentChecks.
From S2P Require Import State.
From S2P Require Import Ladder.
From S2P Require Import Understand.
From S2P Require Import Question.
From S2P Require Import Respond.
From S2P Require Import SpeakerText.
From S2P Require Import SpeakerPlan.
From S2P Require Import Reply.
From S2P Require Import Speak.

(** * What a plan does not depend on

    A turn without the child's words: of a claim only its identifiers and verdict
    are left, of a reference to the screen only its interaction. *)

Definition redact_fact (c : FactUnderstandingClaimV2) : FactUnderstandingClaimV2 := {|
  fc_claim_id := fc_claim_id c; fc_fact_id := fc_fact_id c; fc_claim_type := fc_claim_type c;
  fc_evidence_span := []; fc_interpreted_value := None; fc_verdict := fc_verdict c; fc_confidence := None |}.
Definition redact_relation (c : RelationUnderstandingClaimV2) : RelationUnderstandingClaimV2 := {|
  rc_claim_id := rc_claim_id c; rc_relation_id := rc_relation_id c; rc_claim_type := rc_claim_type c;
  rc_evidence_span := []; rc_verdict := rc_verdict c; rc_arithmetic_interpretation := None; rc_confidence := None |}.
Definition redact_auxiliary (c : AuxiliaryUnderstandingClaimV2) : AuxiliaryUnderstandingClaimV2 := {|
  ac_claim_id := ac_claim_id c; ac_evidence_span := []; ac_summary := ""; ac_verdict := ac_verdict c;
  ac_interpreted_value := None; ac_arithmetic_interpretation := None; ac_confidence := None |}.
Definition redact_claim (c : UnderstandingClaimV2) : UnderstandingClaimV2 :=
  match c with
  | FactClaim f => FactClaim (redact_fact f)
  | RelationClaim r => RelationClaim (redact_relation r)
  | AuxiliaryClaim a => AuxiliaryClaim (redact_auxiliary a)
  end.
Definition redact_ui (u : UnderstandingUiReferenceV2) : UnderstandingUiReferenceV2 := {|
  ui_element_id := ""; ui_interaction := ui_interaction u; ui_reference_basis := ui_reference_basis u;
  ui_evidence_span := []; ui_confidence := None |}.
Definition redact_response (r : UnderstandingResponseV2) : UnderstandingResponseV2 :=
  copy_response r (option_map redact_ui (ui_reference r)) (map redact_claim (claims r)) (contains_learning_evidence r).
Definition redact_turn (t : TurnSemantics) : TurnSemantics := {|
  ts_response := redact_response (ts_response t); ts_apply_result := ts_apply_result t;
  ts_guarded := option_map (fun g => {| gu_response := redact_response (gu_response g); gu_evidence_matches := [] |}) (ts_guarded t);
  ts_route := ts_route t; ts_understanding_source := ts_understanding_source t; ts_attempts := ts_attempts t;
  ts_guard_status := ts_guard_status t; ts_structured_correct := ts_structured_correct t;
  ts_initial_help := ts_initial_help t; ts_failure_reason := ts_failure_reason t; ts_visual_patch := None |}.

(** Two turns that differ in the child's words only. *)
Definition said_alike (t t' : TurnSemantics) : Prop := redact_turn t = redact_turn t'.

(** Two packs that differ in the values and wordings of the facts asked for only. *)
Definition alike_but (targets : list TargetRefV2) (f f' : GraphFact) : Prop :=
  fact_id f = fact_id f' /\ fact_speaker_label f = fact_speaker_label f'
  /\ (memb (KIND_fact, fact_id f) (map target_pair targets) = false -> fact_value f = fact_value f').
Definition packs_alike (targets : list TargetRefV2) (p p' : TaskPackV2) : Prop :=
  Forall2 (alike_but targets) (pack_facts p) (pack_facts p') /\ pack_relations p = pack_relations p'.

Lemma fact_claims_redact l : fact_claims (map redact_claim l) = map redact_fact (fact_claims l).
Proof. induction l as [|[f|r|a] l IH]; [done| |exact IH|exact IH]. exact (f_equal (cons (redact_fact f)) IH). Qed.
Lemma relation_claims_redact l : relation_claims (map redact_claim l) = map redact_relation (relation_claims l).
Proof. induction l as [|[f|r|a] l IH]; [done|exact IH| |exact IH]. exact (f_equal (cons (redact_relation r)) IH). Qed.
Lemma guarded_redact t : guarded_claims (redact_turn t) = map redact_claim (guarded_claims t).
Proof. unfold guarded_claims. simpl. by destruct (ts_guarded t). Qed.
Lemma incorrect_redact t : has_incorrect (redact_turn t) = has_incorrect t.
Proof.
  unfold has_incorrect, any_incorrect. simpl. f_equal. induction (claims (ts_response t)) as [|c l IH]; simpl; [done|].
  rewrite IH. by destruct c.
Qed.

Lemma attempts_redact t targets : attempts (redact_turn t) targets = attempts t targets.
Proof.
  unfold attempts. rewrite guarded_redact, fact_claims_redact, relation_claims_redact. simpl.
  assert (Hf : forall l, map fc_fact_id (map redact_fact l) = map fc_fact_id l) by (intros l; by rewrite map_map).
  assert (Hr : forall l, map rc_relation_id (map redact_relation l) = map rc_relation_id l) by (intros l; by rewrite map_map).
  assert (Hfi : forall l, List.filter (fun c => bool_decide (fc_verdict c = V_incorrect)) (map redact_fact l)
    = map redact_fact (List.filter (fun c => bool_decide (fc_verdict c = V_incorrect)) l)).
  { induction l as [|c l IH]; simpl; [done|]. rewrite IH. by case_bool_decide. }
  assert (Hri : forall l, List.filter (fun c => bool_decide (rc_verdict c = V_incorrect)) (map redact_relation l)
    = map redact_relation (List.filter (fun c => bool_decide (rc_verdict c = V_incorrect)) l)).
  { induction l as [|c l IH]; simpl; [done|]. rewrite IH. by case_bool_decide. }
  by rewrite Hfi, Hri, !Hf, !Hr.
Qed.

Lemma aliases_redact t : speaker_progress_aliases (redact_turn t) = speaker_progress_aliases t.
Proof.
  unfold speaker_progress_aliases. simpl. rewrite fact_claims_redact, relation_claims_redact. by rewrite !map_map.
Qed.

Lemma omap_redact {A B C} (f : B -> option C) (g : A -> B) (h : A -> option C) l :
  (forall x, f (g x) = h x) -> omap f (map g l) = omap h l.
Proof.
  intros Hfg. induction l as [|x l IH]; [done|]. cbn. rewrite Hfg. destruct (h x); [|exact IH]. f_equal. exact IH.
Qed.

Lemma evidence_redact t : speaker_evidence_list (redact_turn t) = speaker_evidence_list t.
Proof.
  unfold speaker_evidence_list, turn_evidence. f_equal. rewrite guarded_redact. apply omap_redact. by intros [f|r|a].
Qed.

Lemma signal_redact t targets n a e : speaker_response_signal (redact_turn t) targets n a e = speaker_response_signal t targets n a e.
Proof.
  unfold speaker_response_signal. rewrite attempts_redact. destruct (attempts t targets) as [at_ inc]. f_equal.
  unfold signal_kind. simpl. by destruct (ui_reference (ts_response t)).
Qed.

Lemma response_mode_redact l t : response_mode l (redact_turn t) = response_mode l t.
Proof. unfold response_mode. rewrite incorrect_redact. simpl. by destruct (ui_reference (ts_response t)). Qed.

Lemma act_redact t : reaction_dialogue_act (redact_turn t) = reaction_dialogue_act t.
Proof. unfold reaction_dialogue_act. by rewrite incorrect_redact. Qed.

(** ** Packs *)

Lemma mapR_Forall2 {A B} (R : A -> A -> Prop) (f g : A -> res B) l k :
  (forall x y, R x y -> f x = g y) -> Forall2 R l k -> mapR f l = mapR g k.
Proof. intros Hf. induction 1 as [|x y l k Hxy _ IH]; [done|]. simpl. by rewrite (Hf x y Hxy), IH. Qed.

Lemma filter_Forall2 {A} (R : A -> A -> Prop) (f g : A -> bool) l k :
  (forall x y, R x y -> f x = g y) -> Forall2 R l k ->
  Forall2 (fun x y => R x y /\ f x = true) (List.filter f l) (List.filter g k).
Proof.
  intros Hf. induction 1 as [|x y l k Hxy _ IH]; simpl; [constructor|]. rewrite <- (Hf x y Hxy).
  destruct (f x) eqn:E; [|done]. by constructor.
Qed.

Lemma unresolved_facts targets i :
  memb i (map target_id (List.filter (fun t => bool_decide (target_kind t = KIND_fact)) targets))
  = memb (KIND_fact, i) (map target_pair targets).
Proof.
  apply bool_decide_ext. rewrite !list_elem_of_fmap. split.
  - intros (t & -> & [Ht Hk%bool_decide_eq_true]%list_elem_of_In%filter_In). exists t.
    split; [unfold target_pair; by rewrite Hk|by apply list_elem_of_In].
  - intros (t & [= Hk ->] & Ht). exists t. split; [done|]. apply list_elem_of_In, filter_In.
    split; [by apply list_elem_of_In|]. by apply bool_decide_eq_true.
Qed.

Lemma allowed_facts_alike p p' lg targets : packs_alike targets p p' ->
  allowed_facts p lg targets false false = allowed_facts p' lg targets false false.
Proof.
  intros [Hf _]. unfold allowed_facts. eapply mapR_Forall2; [|eapply filter_Forall2; [|exact Hf]].
  - intros f f' [(Hi & Hl & Hv) Hk]. simpl in Hk. apply andb_true_iff in Hk as [_ Hk%negb_true_iff].
    rewrite unresolved_facts in Hk. unfold allowed_fact. simpl. by rewrite Hi, Hl, Hv.
  - intros f f' (Hi & _ & _). simpl. by rewrite Hi.
Qed.

Lemma relations_alike p p' targets i : packs_alike targets p p' -> relations_by_id p i = relations_by_id p' i.
Proof. intros [_ Hr]. unfold relations_by_id. by rewrite Hr. Qed.

Lemma find_facts_alike targets i l k : Forall2 (alike_but targets) l k ->
  match find_first (fun f => bool_decide (fact_id f = i)) l, find_first (fun f => bool_decide (fact_id f = i)) k with
  | Some f, Some f' => fact_speaker_label f = fact_speaker_label f' | None, None => True | _, _ => False end.
Proof.
  induction 1 as [|f f' l k (Hi & Hl & _) _ IH]; simpl; [done|]. rewrite Hi. by case_bool_decide.
Qed.

Lemma focus_label_alike p p' targets t : packs_alike targets p p' -> target_focus_label p t = target_focus_label p' t.
Proof.
  intros Hp. unfold target_focus_label. destruct (target_kind t); [|by rewrite (relations_alike p p' targets)].
  destruct Hp as [Hf _]. apply Forall2_reverse in Hf.
  unfold facts_by_id. rewrite !rev_alt. pose proof (find_facts_alike targets (target_id t) _ _ Hf) as Hfind.
  destruct (find_first _ _), (find_first _ _); simpl; try done. by rewrite Hfind.
Qed.

Lemma focus_alike p p' targets ts a : packs_alike targets p p' -> speaker_target_focus p ts a = speaker_target_focus p' ts a.
Proof.
  intros Hp. unfold speaker_target_focus. induction ts as [|t ts IH]; simpl; [done|].
  by rewrite (focus_label_alike p p' targets), IH.
Qed.

Lemma accepted_alike supported p p' targets t a : packs_alike targets p p' ->
  speaker_accepted_relations supported p t a = speaker_accepted_relations supported p' t a.
Proof.
  intros Hp. unfold speaker_accepted_relations. induction (new_relation_ids _) as [|i ids IH]; simpl; [done|].
  by rewrite (relations_alike p p' targets), IH.
Qed.

Lemma conversation_plan_redact l p t q h : conversation_plan l p (redact_turn t) q h = conversation_plan l p t q h.
Proof. unfold conversation_plan. by rewrite response_mode_redact. Qed.

Lemma reaction_plan_redact l sg supported p t q e :
  reaction_plan l sg supported p (redact_turn t) q e = reaction_plan l sg supported p t q e.
Proof.
  unfold reaction_plan. rewrite aliases_redact, signal_redact, evidence_redact, act_redact. reflexivity.
Qed.

Lemma social_plan_redact l sg t m : social_plan l sg (redact_turn t) m = social_plan l sg t m.
Proof. reflexivity. Qed.

(** (C5) The speaker models see neither the child's words nor the answer still asked
    for.  Take two turns that differ only in what the child literally said (the
    quotations, values and wordings of the claims, the quotation of a reference to
    the screen), and two packs that differ only in the values and accepted wordings
    of the facts the question is about: the conversational move, the plan of the
    main speaker and the plan of the bridge speaker are the same.  So nothing in a
    plan can tell a model which words were said or which answer is expected. *)
Theorem plans_hide_words_and_answers l subgoal supported p p' t t' q event h mode :
  packs_alike (qc_targets q) p p' -> said_alike t t' ->
  conversation_plan l p t q h = conversation_plan l p' t' q h
  /\ reaction_plan l subgoal supported p t q event = reaction_plan l subgoal supported p' t' q event
  /\ social_plan l subgoal t mode = social_plan l subgoal t' mode.
Proof.
  intros Hp Ht. split; [|split].
  - rewrite <- (conversation_plan_redact l p t), <- (conversation_plan_redact l p' t'), Ht.
    unfold conversation_plan. by rewrite (focus_alike p p' (qc_targets q)).
  - rewrite <- (reaction_plan_redact l subgoal supported p t), <- (reaction_plan_redact l subgoal supported p' t'), Ht.
    unfold reaction_plan. by rewrite (allowed_facts_alike p p' _ (qc_targets q)), (accepted_alike supported p p' (qc_targets q)).
  - by rewrite <- (social_plan_redact l subgoal t), <- (social_plan_redact l subgoal t'), Ht.
Qed.

(** * What is said *)

Section said.
Context `{TextTables}.

(** The text names the answer of a fact: its number in digits or words, one of its
    reviewed wordings, or its text or choice. *)
Definition names_answer (t : ustr) (f : GraphFact) : bool :=
  existsb (fun d => dec_in d (canonical_numbers [fact_value f])) (numeric_literals_of t)
  || existsb (contains_surface t) (map utf8_decode (fact_surface_forms f) ++ canonical_text_surfaces [fact_value f]).

(** A number the child has just earned: the value of a fact verified this turn, or a
    number in the name of a relation verified this turn. *)
Definition earned_number (p : TaskPackV2) (t : TurnSemantics) (d : decimal) : Prop :=
  (exists f, f ∈ pack_facts p /\ fact_id f ∈ new_fact_ids (ar_log (ts_apply_result t))
     /\ dec_in d (canonical_numbers [fact_value f]) = true)
  \/ exists i r, i ∈ new_relation_ids (ar_log (ts_apply_result t)) /\ relations_by_id p i = Some r
     /\ dec_in d (numeric_literals (relation_label r)) = true.

(** What every line of a model satisfies. *)
Record clean_line (p : TaskPackV2) (targets : list TargetRefV2) (o : SpeakerOutputV2) : Prop := {
  cl_short : line_count (so_text o) <= 2;
  cl_no_request : is_request (so_text o) = false;
  cl_no_private : bridge_excerpt_violation (so_text o) = None;
  cl_no_answer f : f ∈ pack_facts p -> (KIND_fact, fact_id f) ∈ map target_pair targets -> names_answer (so_text o) f = false;
  cl_no_choice s : s ∈ correct_labels p (map target_pair targets) -> contains_surface (so_text o) (utf8_decode s) = false
}.

Lemma existsb_false {A} (f : A -> bool) l : existsb f l = false <-> forall x, x ∈ l -> f x = false.
Proof.
  rewrite <- not_true_iff_false, existsb_exists. split.
  - intros Hn x Hx. destruct (f x) eqn:E; [|done]. exfalso. apply Hn. exists x. split; [by apply list_elem_of_In|done].
  - intros Hf (x & Hx%list_elem_of_In & E). by rewrite Hf in E.
Qed.

Lemma dec_in_app d a b : dec_in d (a ++ b) = dec_in d a || dec_in d b.
Proof. apply existsb_app. Qed.

Lemma canonical_numbers_one d vs : dec_in d (canonical_numbers vs) = true <->
  exists v, v ∈ vs /\ dec_in d (canonical_numbers [v]) = true.
Proof.
  assert (Hcons : forall v vs, canonical_numbers (v :: vs) = canonical_numbers [v] ++ canonical_numbers vs).
  { intros v ws. unfold canonical_numbers, numeric_values. cbn [flat_map]. by rewrite app_nil_r, map_app. }
  induction vs as [|v vs IH].
  - split; [done|]. intros (v & Hv & _). by apply not_elem_of_nil in Hv.
  - rewrite Hcons, dec_in_app, orb_true_iff, IH. setoid_rewrite elem_of_cons. split.
    + intros [Hv|(w & Hw & Hd)]; eauto.
    + intros (w & [->|Hw] & Hd); [by left|right; eauto].
Qed.

(** A text that passes the surface check names nothing still asked for. *)
Lemma surfaces_clean p targets t :
  unresolved_answer_surface_violation t (fw_values (unresolved_answer_firewall p targets))
    (fw_surfaces (unresolved_answer_firewall p targets)) = None ->
  (forall f, f ∈ pack_facts p -> (KIND_fact, fact_id f) ∈ map target_pair targets -> names_answer t f = false)
  /\ forall s, s ∈ correct_labels p (map target_pair targets) -> contains_surface t (utf8_decode s) = false.
Proof.
  intros Eu. unfold unresolved_answer_surface_violation in Eu. destruct (existsb _ (numeric_literals_of _)) eqn:En; [done|].
  destruct (existsb (contains_surface _) _) eqn:Ec; [done|]. rewrite existsb_false in En. rewrite existsb_false in Ec.
  assert (Htarget : forall f, f ∈ pack_facts p -> (KIND_fact, fact_id f) ∈ map target_pair targets ->
    f ∈ List.filter (fun f => memb (KIND_fact, fact_id f) (map target_pair targets)) (pack_facts p)).
  { intros f Hf Ht. apply list_elem_of_In, filter_In. split; [by apply list_elem_of_In|by apply memb_spec]. }
  assert (Hsurface : forall x, x ∈ flat_map fact_surface_forms
      (List.filter (fun f => memb (KIND_fact, fact_id f) (map target_pair targets)) (pack_facts p))
      ++ correct_labels p (map target_pair targets) -> contains_surface t (utf8_decode x) = false).
  { intros x Hx. apply Ec, elem_of_app. left. apply list_elem_of_fmap. exists x. split; [done|]. simpl. by apply elem_of_fromkeys. }
  split.
  - intros f Hf Ht. specialize (Htarget f Hf Ht). unfold names_answer. apply orb_false_iff. split.
    + apply existsb_false. intros d Hd. specialize (En d Hd). destruct (dec_in d (canonical_numbers [fact_value f])) eqn:E; [|done].
      rewrite <- En. symmetry. apply canonical_numbers_one. exists (fact_value f). split; [|done].
      apply list_elem_of_fmap. eauto.
    + apply existsb_false. intros x [(s & -> & Hs)%list_elem_of_fmap|Hx]%elem_of_app.
      * apply Hsurface, elem_of_app. left. apply list_elem_of_In, in_flat_map. exists f.
        split; by apply list_elem_of_In.
      * apply Ec, elem_of_app. right. unfold canonical_text_surfaces in *. simpl in Hx. rewrite app_nil_r in Hx.
        apply list_elem_of_In, in_flat_map. exists (fact_value f). split; [|by apply list_elem_of_In].
        apply in_map, list_elem_of_In, Htarget.
  - intros s Hs. apply Hsurface, elem_of_app. by right.
Qed.

Lemma dec_subset_in a b d : dec_subset a b = true -> d ∈ a -> dec_in d b = true.
Proof. unfold dec_subset. rewrite forallb_forall. intros Hs Hd. by apply Hs, list_elem_of_In. Qed.

Lemma firewall_clean p targets o numbers : bridge_excerpt_violation (so_text o) = None ->
  dynamic_output_violation (so_text o) numbers (fw_values (unresolved_answer_firewall p targets))
    (fw_surfaces (unresolved_answer_firewall p targets)) = None ->
  clean_line p targets o /\ forall d, d ∈ numeric_literals_of (so_text o) -> dec_in d numbers = true.
Proof.
  intros Hex Hdyn. unfold dynamic_output_violation in Hdyn. destruct (negb (truthy _)); [done|].
  destruct (2 <? line_count (so_text o))%nat eqn:El; [done|]. apply Nat.ltb_ge in El.
  destruct (unresolved_answer_surface_violation _ _ _) eqn:Eu; [done|].
  destruct (dec_subset _ numbers) eqn:Es; [|done]. simpl in Hdyn. destruct (is_request _) eqn:Er; [done|].
  destruct (surfaces_clean p targets (so_text o) Eu) as [Hf Hs]. split; [by split|].
  intros d. by apply dec_subset_in.
Qed.

(** ** The numbers of a plan *)

Lemma plan_numbers l subgoal supported p t q event plan d :
  reaction_plan l subgoal supported p t q event = Ok plan ->
  dec_in d (speaker_allowed_numbers plan) = true -> earned_number p t d.
Proof.
  intros Hp Hd. unfold reaction_plan in Hp.
  destruct (allowed_facts _ _ _ _ _) as [fs|] eqn:Hf; [|done]. cbn [mbind res_bind] in Hp.
  destruct (speaker_response_signal _ _ _ _ _) as [signal|]; [|done]. cbn [mbind res_bind] in Hp.
  destruct (speaker_evidence_list _) as [ev|]; [|done]. cbn [mbind res_bind] in Hp.
  destruct (speaker_accepted_relations _ _ _ _) as [rs|] eqn:Hr; [|done]. cbn [mbind res_bind] in Hp.
  unfold speaker_plan in Hp. res_inv. unfold speaker_allowed_numbers in Hd.
  cbn [pl_allowed_facts pl_current_question pl_previous_mormi_text pl_target_focus pl_accepted_relations opt_list map app] in Hd.
  rewrite dec_in_app, orb_true_iff in Hd. destruct Hd as [Hd|Hd].
  - left. apply canonical_numbers_one in Hd as (v & Hv & Hd). apply list_elem_of_fmap in Hv as (f & -> & Hin).
    unfold renamed_facts in Hin. apply list_elem_of_fmap in Hin as (g & -> & Hg). apply list_elem_of_In, filter_In in Hg as [Hg Hnew].
    apply memb_spec in Hnew. apply list_elem_of_In in Hg. cbn [with_fact_id af_value] in Hd.
    assert (HF : Forall (fun g => exists f, f ∈ pack_facts p /\ fact_id f = af_fact_id g /\ fact_value f = af_value g) fs).
    { unfold allowed_facts in Hf. eapply mapR_Forall; [|exact Hf]. intros f g' Hin Hg'. apply list_elem_of_In, filter_In in Hin as [Hin _].
      exists f. split; [by apply list_elem_of_In|]. unfold allowed_fact, speaker_allowed_fact in Hg'. by res_inv. }
    rewrite Forall_forall in HF. destruct (HF g Hg) as (f & Hfp & Hid & Hval). exists f. rewrite Hid, Hval. done.
  - right. unfold numbers_from_reviewed_surfaces in Hd. unfold dec_in in Hd. rewrite existsb_exists in Hd.
    destruct Hd as (e & (s & Hs & He)%in_flat_map & Hde). apply filter_In in Hs as [Hs _].
    apply list_elem_of_In, list_elem_of_fmap in Hs as (r & -> & Hin).
    assert (HF : Forall (fun r => exists i g, i ∈ new_relation_ids (ar_log (ts_apply_result t))
        /\ relations_by_id p i = Some g /\ sr_speaker_label r = relation_label g) rs).
    { unfold speaker_accepted_relations in Hr. eapply mapR_Forall; [|exact Hr]. intros i r' Hi Hr'. cbv beta in Hr'.
      destruct (relations_by_id p i) as [g|] eqn:Eg; [|done]. cbn [or_raise mbind res_bind] in Hr'.
      destruct (if memb i supported then _ else _) as [src|]; [|done]. cbn [mbind res_bind] in Hr'.
      unfold speaker_accepted_relation in Hr'. res_inv. exists i, g. done. }
    rewrite Forall_forall in HF. destruct (HF r Hin) as (i & g & Hi & Hg & Hl). exists i, g. rewrite <- Hl.
    split; [done|]. split; [done|]. unfold dec_in. rewrite existsb_exists. eauto.
Qed.

(** (C4) What a speaker model says is clean.  A line of the main model that is said is
    an output of one of its two attempts, placed before the reviewed question, and
    has at most two lines, makes no request, matches no privacy or safety pattern,
    names neither the value nor a wording of any fact the question asks for nor a
    correct choice for it, and every number it says, in digits or in Korean words,
    is the value of a fact verified this turn or stands in the name of a relation
    verified this turn.  A line of the bridge model is as clean and says no number
    at all. *)
Theorem model_lines_are_clean l subgoal supported p t q fallback h out :
  (forall model, speak model l subgoal supported p t q fallback h = Ok out -> spr_source out = "llm"%string ->
     exists n plan o reask, model n plan = Spoken o /\ conversation_plan l p t q h = Ok reask
       /\ spr_text out = compose_reaction_and_reask (utf8_encode (ustrip (so_text o))) (safe_reask_text reask)
       /\ clean_line p (qc_targets q) o
       /\ forall d, d ∈ numeric_literals_of (so_text o) -> earned_number p t d)
  /\ (forall model, bridge model l subgoal p t q fallback h = Ok out -> spr_source out = "bridge_llm"%string ->
     exists plan o reask, model plan = Spoken o /\ conversation_plan l p t q h = Ok reask
       /\ spr_text out = compose_reaction_and_reask (utf8_encode (ustrip (so_text o))) (safe_reask_text reask)
       /\ clean_line p (qc_targets q) o /\ numeric_literals_of (so_text o) = []).
Proof.
  split; intros model Hs Hsrc.
  - unfold speak in Hs. destruct (conversation_plan l p t q h) as [rp|] eqn:Hc; [|done]. cbn [mbind res_bind] in Hs.
    destruct (_ && _).
    { destruct (reviewed_fact_acknowledgement _ _); [|done]. cbn [mbind res_bind] in Hs. by injection Hs as <-. }
    destruct (reaction_plan _ _ _ _ _ _ _) as [plan|] eqn:Hp; [|done]. cbn [mbind res_bind] in Hs. injection Hs as <-.
    unfold two_attempts in *. set (c := {| sc_plan := plan |}) in *.
    assert (Hatt : forall c n, sc_plan c = plan -> sc_firewall c = unresolved_answer_firewall p (qc_targets q) -> sc_response_plan c = rp ->
      let out := speak_attempt model c n in
      sc_plan out.1 = plan /\ sc_firewall out.1 = unresolved_answer_firewall p (qc_targets q) /\ sc_response_plan out.1 = rp
      /\ forall r, out.2 = Some r -> exists n plan o reask, model n plan = Spoken o /\ Ok rp = Ok reask
       /\ spr_text r = compose_reaction_and_reask (utf8_encode (ustrip (so_text o))) (safe_reask_text reask)
       /\ clean_line p (qc_targets q) o
       /\ forall d, d ∈ numeric_literals_of (so_text o) -> earned_number p t d).
    { intros k n Hk1 Hk2 Hk3. unfold speak_attempt. destruct (model n (sc_plan k)) as [o|e] eqn:Ho; [|done].
      destruct (speaker_output_violation _ _ _ _) as [v|] eqn:Hv; [done|]. do 3 (split; [done|]). intros r [= <-].
      exists n, (sc_plan k), o, rp. rewrite Hk3. do 3 (split; [done|]). unfold speaker_output_violation in Hv. rewrite Hk1, Hk2 in Hv.
      destruct (bridge_excerpt_violation _) eqn:Ex; [done|]. apply firewall_clean in Hv as [Hcl Hn]; [|done].
      split; [done|]. intros d Hd. eapply plan_numbers; [exact Hp|by apply Hn]. }
    destruct (Hatt c 1 eq_refl eq_refl eq_refl) as (H1 & H2 & H3 & Hr1). destruct (speak_attempt model c 1) as [c1 [r1|]]; [by apply Hr1|].
    destruct (Hatt c1 2 H1 H2 H3) as (_ & _ & _ & Hr2). destruct (speak_attempt model c1 2) as [c2 [r2|]]; [by apply Hr2|]. done.
  - unfold bridge in Hs. destruct (conversation_plan l p t q h) as [rp|] eqn:Hc; [|done]. cbn [mbind res_bind] in Hs.
    destruct (social_plan _ _ _ _) as [plan|] eqn:Hp; [|done]. cbn [mbind res_bind] in Hs.
    destruct (model plan) as [o|e] eqn:Ho; [|by injection Hs as <-]. unfold validate_bridge_output in Hs.
    destruct (bridge_output_violation _ _ _ _) as [v|] eqn:Hv; injection Hs as <-; [done|].
    exists plan, o, rp. do 3 (split; [done|]). unfold bridge_output_violation in Hv.
    destruct (bridge_excerpt_violation _) eqn:Ex; [done|]. apply firewall_clean in Hv as [Hcl Hn]; [|done]. split; [done|].
    unfold social_plan, speaker_target, no_target in Hp. simpl (_ ← _; _) in Hp. unfold bridge_plan in Hp. res_inv.
    destruct (numeric_literals_of (so_text o)) as [|d ds]; [done|]. specialize (Hn d ltac:(left)). done.
Qed.
End said.
