(* ===== verification/SpeakerTotal.v ===== *)
(** When the speaker answers: the plans compiled for the two models are accepted by
    their validators exactly under the conditions on counters, counts and the help
    card that the code leaves unchecked before. *)

From Stdlib Require Import Ascii.
From S2P Require Import Prelude.
From S2P Require Import PyStr.
From S2P Require Import PyNum.
From S2P Require Import Json.
From S2P Require Import Schemas.
From S2P Require Import Requests.
From S2P Require Import Evidence.
From S2P Require Import Packs.
From S2P Require Import PackDump.
From S2P Require Import Snapshot.
From S2P Require Import Ledger.
From S2P Require Import LedgerTheory.
From S2P Require Import ContentCopy.
From S2P Require Import ContentChecks.
From S2P Require Import State.
From S2P Require Import Ladder.
From S2P Require Import LadderTheory.
From S2P Require Import Understand.
From S2P Require Import Question.
From S2P Require Import Respond.
From S2P Require Import SpeakerText.
From S2P Require Import SpeakerPlan.
From S2P Require Import Reply.
From S2P Require Import Speak.
From S2P Require Import Turn.
From S2P Require Import SpeakerTheory.

(** * Aliases *)

(** The number a string of digits stands for, after [n]. *)
Fixpoint digits_value (n : N) (s : string) : N :=
  match s with EmptyString => n | String c s => digits_value (n * 10 + (N_of_ascii c - 48))%N s end.

Lemma digits_value_of f n acc : (N.log2 n < N.of_nat f)%N -> digits_value 0 (digits_of f n acc) = digits_value n acc.
Proof.
  revert n acc. induction f as [|f IH]; intros n acc Hf; [lia|]. cbn [digits_of].
  pose proof (N.mod_lt n 10 ltac:(lia)) as Hm. pose proof (N.div_mod' n 10) as Hd.
  assert (Hc : N_of_ascii (ascii_of_N (48 + n mod 10)) = (48 + n mod 10)%N) by (apply N_ascii_embedding; lia).
  case_decide as H0; cbn [digits_value].
  - rewrite Hc. f_equal. lia.
  - rewrite IH; cbn [digits_value].
    + rewrite Hc. f_equal. clear -Hd. set (q := (n / 10)%N) in *. set (r := (n mod 10)%N) in *. clearbody q r. lia.
    + assert (2 <= n)%N by (destruct (decide (n < 2)%N); [|lia]; exfalso; apply H0, N.div_small; lia).
      assert (Hle : (N.log2 (n / 10) <= N.log2 (N.div2 n))%N).
      { apply N.log2_le_mono. rewrite N.div2_div. apply N.div_le_compat_l. lia. }
      assert (N.log2 n = N.succ (N.log2 (N.div2 n))); [|lia].
      pose proof (N.div2_odd n) as Ho. set (d := N.div2 n) in *. clearbody d.
      destruct (N.odd n); cbn [N.b2n] in Ho; subst n; [apply N.log2_succ_double; lia|].
      rewrite N.add_0_r. apply N.log2_double. lia.
Qed.

Lemma str_N_inj a b : str_N a = str_N b -> a = b.
Proof.
  intros Hs%(f_equal (digits_value 0)). unfold str_N in Hs. rewrite !digits_value_of in Hs by lia. exact Hs.
Qed.

Lemma append_inj s a b : (s ++ a)%string = (s ++ b)%string -> a = b.
Proof. induction s as [|c s IH]; simpl; [done|]. intros [= H]. by apply IH. Qed.

Lemma numbered_inj prefix n m : numbered prefix n = numbered prefix m -> n = m.
Proof. intros H%append_inj%str_N_inj. lia. Qed.

Notation alias_found a k i := (find_first (fun kv => bool_decide (kv.1 = (k, i))) a).

Lemma find_first_app {A} (p : A -> bool) l k :
  find_first p (l ++ k) = match find_first p l with Some x => Some x | None => find_first p k end.
Proof. induction l as [|x l IH]; simpl; [done|]. by destruct (p x). Qed.

(** ** Aliases of the targets *)

(** The names given in order. *)
Fixpoint private_names (facts relations : nat) (targets : list TargetRefV2) : list (TargetKind * string) :=
  match targets with
  | [] => []
  | t :: rest =>
      match target_kind t with
      | KIND_fact => (KIND_fact, numbered "fact_" (S facts)) :: private_names (S facts) relations rest
      | KIND_relation => (KIND_relation, numbered "relation_" (S relations)) :: private_names facts (S relations) rest
      end
  end.

Lemma private_found f r ts t : t ∈ ts -> is_Some (alias_found (private_target_aliases_from f r ts) (target_kind t) (target_id t)).
Proof.
  revert f r. induction ts as [|u ts IH]; intros f r; [by intros ?%not_elem_of_nil|].
  intros [->|Ht]%elem_of_cons; simpl.
  - destruct (target_kind u) eqn:Ek; rewrite find_first_app; case_match; eauto; simpl; by rewrite bool_decide_eq_true_2 by done.
  - destruct (target_kind u); rewrite find_first_app; [destruct (IH (S f) r Ht) as [x ->]|destruct (IH f (S r) Ht) as [x ->]]; eauto.
Qed.

Lemma private_not_found f r ts k i : (k, i) ∉ map target_pair ts -> alias_found (private_target_aliases_from f r ts) k i = None.
Proof.
  revert f r. induction ts as [|u ts IH]; intros f r; [done|]. simpl. intros [Hne Hin]%not_elem_of_cons.
  unfold target_pair in Hne. destruct (target_kind u) eqn:Ek; rewrite find_first_app, IH by done; simpl; by rewrite bool_decide_eq_false_2 by congruence.
Qed.

Lemma private_aliases f r ts : NoDup (map target_pair ts) ->
  map (fun t => (target_kind t, alias (private_target_aliases_from f r ts) (target_kind t) (target_id t))) ts
  = private_names f r ts.
Proof.
  revert f r. induction ts as [|u ts IH]; intros f r; [done|]. simpl. intros [Hu Hnd]%NoDup_cons.
  unfold target_pair in Hu at 1.
  assert (Hrest : forall f r x, map (fun t => (target_kind t, alias (private_target_aliases_from f r ts ++ [x]) (target_kind t) (target_id t))) ts
    = private_names f r ts).
  { intros f' r' x. rewrite <- IH by done. apply map_ext_in. intros t Ht%list_elem_of_In. f_equal. unfold alias.
    rewrite find_first_app. by destruct (private_found f' r' ts t Ht) as [y ->]. }
  destruct (target_kind u) eqn:Ek; rewrite Hrest; f_equal; f_equal; unfold alias;
    rewrite find_first_app, private_not_found by done; simpl; by rewrite bool_decide_eq_true_2 by done.
Qed.

Lemma private_names_bound f r ts k s : (k, s) ∈ private_names f r ts ->
  exists n, s = numbered (match k with KIND_fact => "fact_" | KIND_relation => "relation_" end) n
    /\ match k with KIND_fact => f | KIND_relation => r end < n <= match k with KIND_fact => f | KIND_relation => r end + length ts.
Proof.
  revert f r. induction ts as [|t ts IH]; intros f r; simpl; [by intros ?%not_elem_of_nil|].
  destruct (target_kind t); (intros [[= -> ->]|Hin]%elem_of_cons; [eexists; split; [done|lia]|]);
    apply IH in Hin as (n & -> & Hn); exists n; (split; [done|]); destruct k; lia.
Qed.

Lemma private_names_unique f r ts : NoDup (private_names f r ts).
Proof.
  revert f r. induction ts as [|t ts IH]; intros f r; simpl; [constructor|].
  destruct (target_kind t); (constructor; [|apply IH]); intros (n & Heq%numbered_inj & Hn)%private_names_bound; lia.
Qed.

(** ** Aliases of what the child said *)

Lemma enumerated_found k prefix ids n i rest : NoDup ids -> ids !! n = Some i ->
  alias_found (enumerated k prefix ids ++ rest) k i = Some ((k, i), numbered prefix (S n)).
Proof.
  intros Hnd. unfold enumerated. assert (Hall : forall d n, ids !! n = Some i ->
    alias_found (imap (fun m j => ((k, j), numbered prefix (S (d + m)))) ids ++ rest) k i = Some ((k, i), numbered prefix (S (d + n)))).
  { clear n. induction Hnd as [|j ids Hj Hnd IH]; intros d n Hn; [done|]. simpl. destruct n as [|n]; simpl in Hn.
    - injection Hn as ->. by rewrite bool_decide_eq_true_2 by done.
    - rewrite bool_decide_eq_false_2.
      2:{ intros [= ->]. apply Hj. by eapply list_elem_of_lookup_2. }
      specialize (IH (S d) n Hn). rewrite <- Nat.add_succ_comm. rewrite <- IH. f_equal. f_equal.
      apply imap_ext. intros m y _. simpl. by rewrite Nat.add_succ_r. }
  intros Hn. exact (Hall 0 n Hn).
Qed.

Lemma enumerated_other k k' prefix ids i : (k = k' -> i ∉ ids) -> alias_found (enumerated k' prefix ids) k i = None.
Proof.
  intros Hi. apply find_first_None. intros kv (n & j & -> & Hj)%elem_of_lookup_imap. simpl.
  apply bool_decide_eq_false. intros [= -> ->]. by eapply Hi, list_elem_of_lookup_2.
Qed.

(** The ids the main speaker's aliases number. *)
Definition progress_ids (t : TurnSemantics) (k : TargetKind) : list string :=
  let log := ar_log (ts_apply_result t) in
  match k with
  | KIND_fact => fromkeys (new_fact_ids log ++ map fc_fact_id (fact_claims (claims (ts_response t))))
  | KIND_relation => fromkeys (new_relation_ids log ++ map rc_relation_id (relation_claims (claims (ts_response t))))
  end.
Definition kind_prefix (k : TargetKind) : string := match k with KIND_fact => "fact_" | KIND_relation => "relation_" end.

Lemma progress_alias t k n i : progress_ids t k !! n = Some i ->
  alias (speaker_progress_aliases t) k i = numbered (kind_prefix k) (S n).
Proof.
  intros Hn. unfold alias, speaker_progress_aliases. destruct k; simpl in *.
  - erewrite enumerated_found; [done|apply NoDup_fromkeys|exact Hn].
  - rewrite find_first_app, enumerated_other by done.
    rewrite <- (app_nil_r (enumerated KIND_relation _ _)). erewrite enumerated_found; [done|apply NoDup_fromkeys|exact Hn].
Qed.

Lemma progress_alias_self t k i : i ∉ progress_ids t k -> alias (speaker_progress_aliases t) k i = i.
Proof.
  intros Hi. unfold alias, speaker_progress_aliases. rewrite find_first_app.
  destruct k; rewrite !enumerated_other; try done; by intros _.
Qed.

Lemma progress_alias_inj t k i j : i ∈ progress_ids t k -> j ∈ progress_ids t k ->
  alias (speaker_progress_aliases t) k i = alias (speaker_progress_aliases t) k j -> i = j.
Proof.
  intros [n Hn]%list_elem_of_lookup [m Hm]%list_elem_of_lookup.
  rewrite (progress_alias t k n i Hn), (progress_alias t k m j Hm). intros [= Heq]%numbered_inj. subst. congruence.
Qed.

Lemma NoDup_map_inj {A B} (f : A -> B) l : (forall x y, x ∈ l -> y ∈ l -> f x = f y -> x = y) -> NoDup l -> NoDup (map f l).
Proof.
  intros Hf. induction 1 as [|x l Hx Hl IH]; simpl; [constructor|]. constructor.
  - intros (y & Hy & Hin)%list_elem_of_fmap. apply Hx. rewrite (Hf x y); [done|left|by right|done].
  - apply IH. intros y z Hy Hz. apply Hf; by right.
Qed.

Lemma progress_aliases_unique t k l : (forall i, i ∈ l -> i ∈ progress_ids t k) -> NoDup l ->
  NoDup (map (alias (speaker_progress_aliases t) k) l).
Proof. intros Hl. apply NoDup_map_inj. intros x y Hx Hy. apply progress_alias_inj; auto. Qed.

(** * The move *)

(** A question asked back while the help card is named needs a card on screen. *)
Definition card_ready (l : ladder_state) (t : TurnSemantics) : bool :=
  bool_decide (expression_level l = L0) || negb (bool_decide (hint_level l = H0))
  || negb (memb (response_mode l t) help_guided_response_modes).

Lemma numbered_content prefix n : prefix = "fact_"%string \/ prefix = "relation_"%string -> n <= 16 ->
  content_id 120 (numbered prefix n) = true.
Proof. intros [-> | ->] Hn; do 17 (destruct n as [|n]; [vm_compute; reflexivity|]); lia. Qed.

Lemma relation_ask_label_field o : text_field 1 160 (relation_ask_label o) = true.
Proof. destruct o; vm_compute; reflexivity. Qed.

Section plans.
Variable pack : RequiredHomeTeachingPackV2.
Hypothesis Hready : speaker_ready pack = true.
Notation p := (HomePack pack).

Lemma ready_fact_in f : f ∈ pack_facts p -> content_id 120 (fact_id f) = true
  /\ text_field 1 160 (fact_speaker_label f) = true
  /\ dec_subset (numeric_literals (fact_speaker_label f)) (canonical_numbers [fact_value f]) = true.
Proof.
  simpl. intros (g & -> & Hg)%list_elem_of_fmap.
  unfold speaker_ready in Hready. rewrite !andb_true_iff in Hready. destruct Hready as ((((((Hf & _) & _) & _) & _) & _) & _).
  rewrite forallb_forall in Hf. apply list_elem_of_In, Hf in Hg. unfold fact_ready in Hg. rewrite !andb_true_iff in Hg.
  by destruct Hg as (((Hid & Hl) & Hn) & _).
Qed.
Lemma ready_fact i f : facts_by_id p i = Some f -> content_id 120 i = true
  /\ text_field 1 160 (fact_speaker_label f) = true
  /\ dec_subset (numeric_literals (fact_speaker_label f)) (canonical_numbers [fact_value f]) = true.
Proof. intros [Hin <-]%facts_by_id_Some. by apply ready_fact_in. Qed.

Lemma ready_relation i r : relations_by_id p i = Some r -> content_id 120 i = true
  /\ text_field 1 160 (relation_label r) = true.
Proof.
  intros [Hin Hi]%relations_by_id_Some. simpl in Hin. apply list_elem_of_fmap in Hin as (g & -> & Hg).
  unfold speaker_ready in Hready. rewrite !andb_true_iff in Hready. destruct Hready as ((((((_ & Hr) & _) & _) & _) & _) & _).
  rewrite forallb_forall in Hr. apply list_elem_of_In, Hr in Hg. unfold spoken_relation_ready in Hg. rewrite !andb_true_iff in Hg.
  destruct Hg as (Hid & Hl). subst i. done.
Qed.

Lemma target_label u : target_in_graph p (target_pair u) ->
  content_id 120 (target_id u) = true /\ exists label, target_focus_label p u = Ok label /\ text_field 1 160 label = true.
Proof.
  unfold target_in_graph, target_focus_label, target_pair. simpl. destruct (target_kind u).
  - intros [f Hf]%facts_by_id_is_Some. rewrite Hf. destruct (ready_fact _ _ Hf) as (? & ? & _). simpl. eauto.
  - intros [r Hr]%relations_by_id_is_Some. rewrite Hr. destruct (ready_relation _ _ Hr) as (? & _). simpl.
    split; [done|]. eexists. split; [done|]. apply relation_ask_label_field.
Qed.

(** The questions asked back compile, whatever the names. *)
Lemma focus_compiles ts a :
  (forall u, u ∈ ts -> target_in_graph p (target_pair u)) ->
  (forall u, u ∈ ts -> content_id 120 (alias a (target_kind u) (target_id u)) = true) ->
  exists fs, speaker_target_focus p ts a = Ok fs /\ length fs = length ts
    /\ map focus_key fs = map (fun u => (target_kind u, alias a (target_kind u) (target_id u))) ts.
Proof.
  intros Hg Ha. unfold speaker_target_focus.
  destruct (mapR_total (fun t => label ← target_focus_label p t;
    speaker_target_focus_entry {| tf_kind := target_kind t; tf_id := alias a (target_kind t) (target_id t);
                                  tf_speaker_label := label |}) ts) as [fs Hfs].
  { intros u Hu. destruct (target_label u (Hg u Hu)) as (_ & label & -> & Hl). cbn [mbind res_bind].
    unfold speaker_target_focus_entry. cbn [tf_id tf_speaker_label]. rewrite Ha, Hl by done. simpl. eauto. }
  exists fs. split; [done|].
  assert (Hk : map focus_key fs = map (fun u => (target_kind u, alias a (target_kind u) (target_id u))) ts).
  { refine (mapR_proj _ focus_key _ ts fs _ Hfs). intros u f Hf. simpl in Hf. unfold speaker_target_focus_entry in Hf. by res_inv. }
  split; [|done]. by rewrite <- (length_map focus_key fs), Hk, length_map.
Qed.

Lemma focus_ready ts a : targets_ready ts = true ->
  (forall u, u ∈ ts -> target_in_graph p (target_pair u)) -> a = [] \/ a = private_target_aliases ts ->
  exists fs, speaker_target_focus p ts a = Ok fs /\ list_field 1 16 fs = true /\ uniqueb (map focus_key fs) = true.
Proof.
  intros [Hlen Hnd]%andb_true_iff Hg Ha. apply uniqueb_spec in Hnd. unfold list_field in Hlen. apply bool_decide_eq_true in Hlen.
  assert (Hnames : private_target_aliases ts = a -> map (fun u => (target_kind u, alias a (target_kind u) (target_id u))) ts = private_names 0 0 ts).
  { intros <-. by apply private_aliases. }
  assert (Hkeys : NoDup (map (fun u => (target_kind u, alias a (target_kind u) (target_id u))) ts)
                  /\ forall u, u ∈ ts -> content_id 120 (alias a (target_kind u) (target_id u)) = true).
  { destruct Ha as [-> | ->].
    - split; [exact Hnd|]. intros u Hu. by destruct (target_label u (Hg u Hu)).
    - rewrite Hnames by done. split; [apply private_names_unique|]. intros u Hu.
      assert (Hin : (target_kind u, alias (private_target_aliases ts) (target_kind u) (target_id u)) ∈ private_names 0 0 ts).
      { rewrite <- Hnames by done. apply list_elem_of_fmap. eauto. }
      apply private_names_bound in Hin as (n & -> & Hn). apply numbered_content; destruct (target_kind u); auto; lia. }
  destruct Hkeys as [Hu Hc]. destruct (focus_compiles ts a Hg Hc) as (fs & -> & Hl & Hk). exists fs.
  split; [done|]. rewrite Hk. split; [|by apply uniqueb_spec]. unfold list_field. apply bool_decide_eq_true. lia.
Qed.

Lemma conversation_plan_iff l t q h : targets_ready (qc_targets q) = true ->
  (forall u, u ∈ qc_targets q -> target_in_graph p (target_pair u)) ->
  (expression_level l = L0 -> hint_level l = H3) ->
  match conversation_plan l p t q h with
  | Ok plan => card_ready l t = true /\ (crp_card_event plan = HC_opened_or_strengthened -> hint_level l <> H0)
  | Raise e => card_ready l t = false /\ e = ValidationError "help-guided reasking requires a visible help card"
  end.
Proof.
  intros Ht Hg Hl. unfold conversation_plan, card_ready, reask_mode.
  destruct (focus_ready (qc_targets q) (if decide (response_mode l t = RM_normal) then [] else private_target_aliases (qc_targets q)))
    as (fs & -> & Hlen & Hu); [done|done|case_decide; auto|]. cbn [mbind res_bind].
  unfold conversation_response_plan. cbn [crp_reask_targets crp_card_visible crp_hint_level crp_card_event crp_reask_mode crp_response_mode].
  rewrite Hlen, Hu. generalize (response_mode l t). intros mode.
  destruct (expression_level l) eqn:El; [| | | |rewrite (Hl eq_refl)]; destruct mode, (hint_level l) eqn:Eh, h; vm_compute; split; try done; congruence.
Qed.
End plans.

(** * The main speaker's plan *)

(** What the interpretation of a turn guarantees to the speaker; [l] are the ladders
    after the turn. *)
Record turn_coherent (p : TaskPackV2) (l : ladder_state) (t : TurnSemantics) (q : QuestionContract) : Prop := {
  tq_graph u : u ∈ qc_targets q -> target_in_graph p (target_pair u);
  tq_targets : targets_ready (qc_targets q) = true;
  tq_ladder : expression_level l = L0 -> hint_level l = H3;
  tq_card : ts_route t <> RO_safety -> is_Some (ui_reference (ts_response t)) -> hint_level l <> H0;
  tq_focus : question_focus (ts_response t) = None <-> conversation_move (ts_response t) <> TASK_QUESTION;
  tq_claims : ts_route t ∉ [RO_bridge; RO_safety] -> guarded_claims t = claims (ts_response t);
  tq_facts : NoDup (new_fact_ids (ar_log (ts_apply_result t)));
  tq_relations : NoDup (new_relation_ids (ar_log (ts_apply_result t)));
  tq_verified i : is_Some (verified_facts (ar_ledger (ts_apply_result t)) !! i) -> is_Some (facts_by_id p i);
  tq_new_facts i : i ∈ new_fact_ids (ar_log (ts_apply_result t)) ->
    is_Some (verified_facts (ar_ledger (ts_apply_result t)) !! i);
  tq_new_relations i : i ∈ new_relation_ids (ar_log (ts_apply_result t)) ->
    is_Some (verified_relations (ar_ledger (ts_apply_result t)) !! i) /\ is_Some (relations_by_id p i);
  tq_choice : ts_understanding_source t = US_structured_choice -> claims (ts_response t) = [] /\
    forall u, u ∈ qc_targets q -> match target_kind u with
      | KIND_fact => target_id u ∉ new_fact_ids (ar_log (ts_apply_result t))
      | KIND_relation => target_id u ∉ new_relation_ids (ar_log (ts_apply_result t)) end;
  tq_evidence c i : claim_evidence_ids (ar_log (ts_apply_result t)) !! c = Some i -> sha256_pattern i = true
}.

(** The ids a response signal carries. *)
Definition signal_ids (t : TurnSemantics) (targets : list TargetRefV2) : list (list string) :=
  let '(attempted, incorrect) := attempts t targets in
  [attempted.1; attempted.2; incorrect.1; incorrect.2;
   new_fact_ids (ar_log (ts_apply_result t)); new_relation_ids (ar_log (ts_apply_result t))].

(** The bounds of the plan that nothing enforces before it is built. *)
Definition reaction_fits (l : ladder_state) (t : TurnSemantics) (targets : list TargetRefV2) : bool :=
  bool_decide (concept_failures l <= 100)
  && forallb (list_field 0 8) (signal_ids t targets)
  && list_field 0 20 (turn_evidence t) && uniqueb (map se_evidence_id (turn_evidence t)).

Lemma hex_reference s : sha256_pattern s = true -> reference_id 100 s = true.
Proof.
  unfold sha256_pattern. intros [Hlen Hhex]%andb_true_iff. apply bool_decide_eq_true in Hlen.
  destruct s as [|c s]; [done|]. unfold reference_id. rewrite (bool_decide_eq_true_2 (String.length (String c s) <= 100)) by lia.
  simpl in Hhex. apply andb_true_iff in Hhex as [Hc Hs].
  assert (Hone : forall c, is_lower_hex c = true -> is_alnum_char c = true).
  { intros d. unfold is_lower_hex, is_alnum_char. rewrite !orb_true_iff, !andb_true_iff, !N.leb_le. lia. }
  rewrite Hone by done. simpl. rewrite andb_true_r. clear Hlen. induction s as [|d s IH]; [done|]. simpl in *.
  apply andb_true_iff in Hs as [Hd Hs]. unfold is_reference_char. rewrite Hone by done. simpl. by apply IH.
Qed.

Lemma mapR_same {A} (f : A -> res A) l : (forall x, x ∈ l -> f x = Ok x) -> mapR f l = Ok l.
Proof.
  induction l as [|x l IH]; intros Hf; simpl; [done|]. rewrite Hf by left. cbn [mbind res_bind].
  rewrite IH by (intros; apply Hf; by right). done.
Qed.

Lemma kind_ids_unique k ts : NoDup (map target_pair ts) -> NoDup (kind_ids k ts).
Proof.
  unfold kind_ids. induction ts as [|u ts IH]; simpl; [constructor|]. intros [Hu Hnd]%NoDup_cons.
  case_bool_decide as Hk; simpl; [|by apply IH]. constructor; [|by apply IH]. intros (v & Hv & Hin)%list_elem_of_fmap.
  apply list_elem_of_In, filter_In in Hin as [Hin Hvk]. apply bool_decide_eq_true in Hvk. apply Hu, list_elem_of_fmap.
  exists v. split; [unfold target_pair; congruence|by apply list_elem_of_In].
Qed.

Definition side (k : TargetKind) (p : list string * list string) : list string :=
  match k with KIND_fact => p.1 | KIND_relation => p.2 end.
Definition new_ids (t : TurnSemantics) (k : TargetKind) : list string :=
  match k with
  | KIND_fact => new_fact_ids (ar_log (ts_apply_result t))
  | KIND_relation => new_relation_ids (ar_log (ts_apply_result t)) end.

Lemma claimed_incorrect_facts (l : list FactUnderstandingClaimV2) (f : FactUnderstandingClaimV2 -> bool) i :
  i ∈ fromkeys (map fc_fact_id (List.filter f l)) -> i ∈ fromkeys (map fc_fact_id l).
Proof.
  rewrite !elem_of_fromkeys, !list_elem_of_fmap. intros (c & -> & [Hc _]%list_elem_of_In%filter_In).
  exists c. split; [done|by apply list_elem_of_In].
Qed.
Lemma claimed_incorrect_relations (l : list RelationUnderstandingClaimV2) (f : RelationUnderstandingClaimV2 -> bool) i :
  i ∈ fromkeys (map rc_relation_id (List.filter f l)) -> i ∈ fromkeys (map rc_relation_id l).
Proof.
  rewrite !elem_of_fromkeys, !list_elem_of_fmap. intros (c & -> & [Hc _]%list_elem_of_In%filter_In).
  exists c. split; [done|by apply list_elem_of_In].
Qed.

Section coherent.
Variable pack : RequiredHomeTeachingPackV2.
Hypothesis Hready : speaker_ready pack = true.
Notation p := (HomePack pack).
Variables (l : ladder_state) (t : TurnSemantics) (q : QuestionContract).
Hypothesis Hco : turn_coherent p l t q.
Hypothesis Hroute : ts_route t ∉ [RO_bridge; RO_safety].
Notation a := (speaker_progress_aliases t).
Notation log := (ar_log (ts_apply_result t)).

Lemma attempts_facts k :
  let '(attempted, incorrect) := attempts t (qc_targets q) in
  NoDup (side k attempted) /\ NoDup (side k incorrect)
  /\ (forall i, i ∈ side k incorrect -> i ∈ side k attempted)
  /\ ((forall i, i ∈ side k attempted -> i ∈ progress_ids t k) \/ (forall i, i ∈ side k attempted -> i ∉ progress_ids t k)).
Proof.
  pose proof (tq_claims _ _ _ _ Hco Hroute) as Hc. unfold attempts.
  destruct (decide (ts_understanding_source t = US_structured_choice)) as [Hs|Hs].
  - destruct (tq_choice _ _ _ _ Hco Hs) as [Hnone Hnew]. rewrite Hc, Hnone. simpl.
    assert (Hu : NoDup (side k (kind_ids KIND_fact (qc_targets q), kind_ids KIND_relation (qc_targets q)))).
    { pose proof (tq_targets _ _ _ _ Hco) as [_ Hnd]%andb_true_iff. apply uniqueb_spec in Hnd.
      destruct k; by apply kind_ids_unique. }
    assert (Hout : forall i, i ∈ side k (kind_ids KIND_fact (qc_targets q), kind_ids KIND_relation (qc_targets q)) -> i ∉ progress_ids t k).
    { intros i Hi Hp. destruct k; simpl in *; rewrite Hnone, app_nil_r, elem_of_fromkeys in Hp;
        unfold kind_ids in Hi; apply list_elem_of_fmap in Hi as (u & -> & Hu'); apply list_elem_of_In, filter_In in Hu' as [Hin Hk];
        apply bool_decide_eq_true in Hk; apply list_elem_of_In, Hnew in Hin; rewrite Hk in Hin; done. }
    split; [done|]. case_decide; (split; [|split; [|by right]]); try done; destruct k; simpl; (constructor || (intros i Hi; by apply not_elem_of_nil in Hi)).
  - rewrite Hc. split; [destruct k; apply NoDup_fromkeys|]. split; [destruct k; apply NoDup_fromkeys|].
    split; [destruct k; simpl; [apply claimed_incorrect_facts|apply claimed_incorrect_relations]|].
    left. intros i. destruct k; simpl; rewrite !elem_of_fromkeys, elem_of_app; auto.
Qed.

Lemma new_ids_unique k : NoDup (new_ids t k).
Proof. destruct k; apply Hco. Qed.
Lemma new_ids_progress k i : i ∈ new_ids t k -> i ∈ progress_ids t k.
Proof. destruct k; simpl; rewrite elem_of_fromkeys, elem_of_app; auto. Qed.

Lemma aliased_unique k ids : NoDup ids ->
  (forall i, i ∈ ids -> i ∈ progress_ids t k) \/ (forall i, i ∈ ids -> i ∉ progress_ids t k) ->
  uniqueb (map (alias a k) ids) = true.
Proof.
  intros Hnd [Hin|Hout]; apply uniqueb_spec; [by apply progress_aliases_unique|].
  rewrite (map_ext_in _ id); [by rewrite map_id|]. intros i Hi%list_elem_of_In. by apply progress_alias_self, Hout.
Qed.

Lemma subset_alias k ids ids' : (forall i, i ∈ ids -> i ∈ ids') -> subsetb (map (alias a k) ids) (map (alias a k) ids') = true.
Proof. intros Hi. apply subsetb_spec. intros x (i & -> & Hin)%list_elem_of_fmap. apply list_elem_of_fmap. eauto. Qed.

Lemma list_field_map {A B} (f : A -> B) lo hi ids : list_field lo hi (map f ids) = list_field lo hi ids.
Proof. unfold list_field. by rewrite length_map. Qed.

Lemma signal_iff n event :
  match speaker_response_signal t (qc_targets q) n a event with
  | Ok s => bool_decide (n <= 100) && forallb (list_field 0 8) (signal_ids t (qc_targets q)) = true
            /\ rs_ui_reference s = option_map (fun u => {| us_interaction := ui_interaction u; us_card_event := event |}) (ui_reference (ts_response t))
  | Raise _ => bool_decide (n <= 100) && forallb (list_field 0 8) (signal_ids t (qc_targets q)) = false
  end.
Proof.
  unfold speaker_response_signal, signal_ids. pose proof (attempts_facts KIND_fact) as Hf. pose proof (attempts_facts KIND_relation) as Hr.
  destruct (attempts t (qc_targets q)) as [attempted incorrect]. cbn [side] in Hf, Hr.
  destruct Hf as (Ha1 & Hi1 & Hs1 & Hp1), Hr as (Ha2 & Hi2 & Hs2 & Hp2).
  unfold speaker_response_signal_ok, signal_groups.
  cbn [rs_attempted_fact_ids rs_attempted_relation_ids rs_incorrect_fact_ids rs_incorrect_relation_ids rs_new_fact_ids
       rs_new_relation_ids rs_repeat_count rs_kind rs_question_focus forallb].
  rewrite !list_field_map, (andb_comm _ (bool_decide (n <= 100))).
  destruct (bool_decide (n <= 100) && _) eqn:Efit; [|done]. cbn [check raise_if negb mbind res_bind].
  rewrite (aliased_unique KIND_fact attempted.1), (aliased_unique KIND_relation attempted.2) by done.
  rewrite (aliased_unique KIND_fact incorrect.1) by (done || (destruct Hp1; [left|right]; auto)).
  rewrite (aliased_unique KIND_relation incorrect.2) by (done || (destruct Hp2; [left|right]; auto)).
  rewrite (aliased_unique KIND_fact (new_fact_ids log))
    by (apply (new_ids_unique KIND_fact) || (left; apply (new_ids_progress KIND_fact))).
  rewrite (aliased_unique KIND_relation (new_relation_ids log))
    by (apply (new_ids_unique KIND_relation) || (left; apply (new_ids_progress KIND_relation))).
  rewrite !subset_alias by done. cbn [check raise_if negb andb mbind res_bind].
  assert (Hk : signal_kind t attempted incorrect = RKD_task_question <-> conversation_move (ts_response t) = TASK_QUESTION).
  { unfold signal_kind. repeat case_decide || case_match; split; try done; intros; congruence. }
  pose proof (tq_focus _ _ _ _ Hco) as Hfo.
  destruct (decide (conversation_move (ts_response t) = TASK_QUESTION)) as [Hm|Hm].
  - rewrite (bool_decide_eq_true_2 (signal_kind _ _ _ = _)) by tauto. rewrite bool_decide_eq_false_2 by tauto. simpl. done.
  - rewrite (bool_decide_eq_false_2 (signal_kind _ _ _ = _)) by tauto. rewrite bool_decide_eq_true_2 by tauto. simpl. done.
Qed.

(** ** Facts and relations *)

Lemma allowed_facts_total targets : exists fs,
  allowed_facts p (ar_ledger (ts_apply_result t)) targets false false = Ok fs
  /\ length fs <= length (pack_facts p) /\ exists kept, map af_fact_id fs = map fact_id kept /\ kept `sublist_of` pack_facts p.
Proof.
  unfold allowed_facts. set (kept := List.filter _ _). cbn zeta.
  assert (Hsub : kept `sublist_of` pack_facts p).
  { subst kept. generalize (pack_facts p). induction l0 as [|f fs IH]; simpl; [done|]. case_match; by constructor. }
  destruct (mapR_total (allowed_fact (ar_ledger (ts_apply_result t)) false) kept) as [fs Hfs].
  { intros f Hf%list_elem_of_In%filter_In. destruct Hf as [Hin Hf]. simpl in Hf. apply andb_true_iff in Hf as [Hv _].
    apply bool_decide_eq_true in Hv as [e He]. unfold allowed_fact. cbn [andb]. rewrite He. cbn [or_raise mbind res_bind].
    apply list_elem_of_In in Hin. destruct (ready_fact_in pack Hready f Hin) as (H1 & H2 & H3).
    unfold speaker_allowed_fact. cbn [af_fact_id af_speaker_text af_value]. rewrite H1, H2, H3. simpl. eauto. }
  exists fs. split; [done|].
  assert (Hids : map af_fact_id fs = map fact_id kept).
  { refine (mapR_proj _ af_fact_id fact_id kept fs _ Hfs). intros f g Hg. unfold allowed_fact, speaker_allowed_fact in Hg. by res_inv. }
  split; [|by exists kept]. rewrite <- (length_map af_fact_id fs), Hids, length_map. by apply sublist_length.
Qed.

Lemma renamed_unique fs : NoDup (map af_fact_id fs) ->
  uniqueb (map af_fact_id (renamed_facts a (new_fact_ids log) fs)) = true.
Proof.
  intros Hnd. unfold renamed_facts. rewrite map_map. apply uniqueb_spec.
  assert (Hsame : forall f, f ∈ List.filter (fun f => memb (af_fact_id f) (new_fact_ids log)) fs ->
    af_fact_id (with_fact_id f (match find_first (fun kv => bool_decide (kv.1 = (KIND_fact, af_fact_id f))) a with
                                | Some kv => kv.2 | None => "fact_0"%string end)) = alias a KIND_fact (af_fact_id f)).
  { intros f [Hf Hn%memb_spec]%list_elem_of_In%filter_In. simpl. unfold alias.
    apply (new_ids_progress KIND_fact) in Hn as [n Hn]%list_elem_of_lookup. unfold speaker_progress_aliases.
    by erewrite enumerated_found; [|apply NoDup_fromkeys|exact Hn]. }
  rewrite (map_ext_in _ (fun f => alias a KIND_fact (af_fact_id f))) by (intros f Hf%list_elem_of_In; by apply Hsame).
  rewrite <- (map_map af_fact_id (alias a KIND_fact)). apply progress_aliases_unique.
  - intros i (f & -> & [_ Hn%memb_spec]%list_elem_of_In%filter_In)%list_elem_of_fmap. by apply (new_ids_progress KIND_fact).
  - by apply NoDup_map_filter.
Qed.

Lemma fromkeys_prefix (ids rest : list string) : NoDup ids -> exists more, fromkeys (ids ++ rest) = ids ++ more.
Proof.
  induction 1 as [|x ids Hx _ [more IH]]; [by exists (fromkeys rest)|]. simpl. rewrite IH, filter_app.
  exists (filter (fun y => y <> x) more). f_equal. f_equal. clear IH. induction ids as [|y ids IH]; [done|].
  apply not_elem_of_cons in Hx as [Hne Hx]. rewrite filter_cons_True by congruence. f_equal. by apply IH.
Qed.

Lemma accepted_relations_total supported : length (new_relation_ids log) <= 8 -> exists rs,
  speaker_accepted_relations supported p t a = Ok rs /\ length rs <= 8
  /\ uniqueb (map sr_relation_id rs) = true.
Proof.
  intros Hlen. unfold speaker_accepted_relations.
  destruct (mapR_total (fun i =>
    r ← or_raise (relations_by_id p i) (KeyError i);
    source ← (if memb i supported then Ok KS_jointly_derived
              else entry ← or_raise (verified_relations (ar_ledger (ts_apply_result t)) !! i) (KeyError i);
                   Ok (if all_structured_relations (vr_evidence entry) then KS_jointly_derived
                       else KS_child_verified));
    speaker_accepted_relation {|
      sr_relation_id := alias a KIND_relation i; sr_speaker_label := relation_label r; sr_source := source |})
    (new_relation_ids log)) as [rs Hrs].
  { intros i Hi. destruct (tq_new_relations _ _ _ _ Hco i Hi) as [[e He] [r Hr]]. rewrite Hr, He. cbn [or_raise mbind res_bind].
    destruct (ready_relation pack Hready _ _ Hr) as [_ Hl].
    assert (Hc : content_id 120 (alias a KIND_relation i) = true).
    { destruct (fromkeys_prefix (new_relation_ids log) (map rc_relation_id (relation_claims (claims (ts_response t)))) (tq_relations _ _ _ _ Hco)) as [more Hm].
      apply list_elem_of_lookup in Hi as [n Hn]. pose proof (lookup_lt_Some _ _ _ Hn).
      rewrite (progress_alias t KIND_relation n i) by (simpl; rewrite Hm; by apply lookup_app_l_Some).
      apply numbered_content; [by right|lia]. }
    unfold speaker_accepted_relation. destruct (memb i supported); cbn [mbind res_bind sr_relation_id sr_speaker_label];
      rewrite Hc, Hl; simpl; eauto. }
  exists rs. split; [done|].
  assert (Hids : map sr_relation_id rs = map (alias a KIND_relation) (new_relation_ids log)).
  { refine (mapR_proj _ sr_relation_id _ _ rs _ Hrs). intros i r Hr. unfold speaker_accepted_relation in Hr. by res_inv. }
  split; [by rewrite <- (length_map sr_relation_id rs), Hids, length_map|]. rewrite Hids.
  apply aliased_unique; [apply (new_ids_unique KIND_relation)|left; apply (new_ids_progress KIND_relation)].
Qed.

Lemma evidence_list : speaker_evidence_list t = Ok (turn_evidence t).
Proof.
  unfold speaker_evidence_list. apply mapR_same. intros e He. unfold speaker_evidence.
  assert (Hr : reference_id 100 (se_evidence_id e) = true); [|by rewrite Hr].
  unfold turn_evidence in He. apply list_elem_of_omap in He as (c & _ & He). destruct (memb _ _); [|done].
  destruct (claim_evidence_ids log !! claim_id c) as [i|] eqn:Ei; [|done]. injection He as <-. simpl.
  by eapply hex_reference, tq_evidence.
Qed.

(** ** The plan *)

Lemma reaction_plan_iff supported subgoal event :
  NoDup (pack_fact_ids p) -> reference_id 160 (fallback_ref subgoal) = true ->
  (event = HC_opened_or_strengthened -> hint_level l <> H0) ->
  match reaction_plan l subgoal supported p t q event with
  | Ok _ => reaction_fits l t (qc_targets q) = true
  | Raise _ => reaction_fits l t (qc_targets q) = false
  end.
Proof.
  intros Hfacts Href Hev. unfold reaction_plan, reaction_fits.
  destruct (allowed_facts_total (qc_targets q)) as (fs & -> & Hfl & kept & Hids & Hsub). cbn [mbind res_bind].
  pose proof (signal_iff (concept_failures l) event) as Hsig.
  destruct (speaker_response_signal t (qc_targets q) (concept_failures l) a event) as [signal|e]; [|by rewrite Hsig].
  destruct Hsig as [Hfit Hui]. rewrite Hfit. cbn [mbind res_bind andb]. rewrite evidence_list. cbn [mbind res_bind].
  destruct (accepted_relations_total supported) as (rs & -> & Hrl & Hru).
  { apply andb_true_iff in Hfit as [_ Hfit]. rewrite forallb_forall in Hfit. unfold signal_ids in Hfit.
    destruct (attempts t (qc_targets q)). specialize (Hfit (new_relation_ids log)). unfold list_field in Hfit.
    rewrite bool_decide_eq_true in Hfit. destruct Hfit; [|done]. simpl. tauto. }
  cbn [mbind res_bind]. unfold speaker_target, no_target. simpl (_ ← _; _). unfold speaker_plan.
  cbn [pl_act pl_accepted_evidence pl_accepted_relations pl_target_focus pl_allowed_facts pl_current_question
       pl_previous_mormi_text pl_fallback_copy_ref pl_target st_fact_ids st_relation_ids pl_response_signal pl_support
       pl_response_plan su_help_card_visible su_hint_level map].
  rewrite Href.
  assert (Hact : content_id 100 (reaction_dialogue_act t) = true) by (unfold reaction_dialogue_act; repeat case_match; vm_compute; reflexivity).
  rewrite Hact, Hru, renamed_unique.
  2:{ rewrite Hids. change (map fact_id kept) with (fact_id <$> kept). eapply sublist_NoDup; [exact Hfacts|]. by apply fmap_sublist. }
  assert (Hrl' : list_field 0 20 rs = true) by (apply bool_decide_eq_true; lia). rewrite Hrl'.
  assert (Hfl' : list_field 0 30 (renamed_facts a (new_fact_ids log) fs) = true).
  { apply bool_decide_eq_true. unfold renamed_facts. rewrite length_map. pose proof (List.filter_length_le (fun f => memb (af_fact_id f) (new_fact_ids log)) fs).
    unfold speaker_ready in Hready. rewrite !andb_true_iff in Hready. destruct Hready as (((((_ & Hc) & _) & _) & _) & _).
    apply bool_decide_eq_true in Hc. simpl in Hfl. rewrite length_map in Hfl. lia. }
  rewrite Hfl'. cbn [list_field length opt_text_field truthy forallb disjointb]. 
  destruct (list_field 0 20 (turn_evidence t)); [|done]. destruct (uniqueb (map se_evidence_id (turn_evidence t))); [|done].
  cbn [check raise_if negb andb mbind res_bind]. rewrite Hui.
  destruct (ui_reference (ts_response t)) as [u|] eqn:Eu; [|vm_compute; done].
  assert (Hcard : hint_level l <> H0).
  { apply (tq_card _ _ _ _ Hco); [|by rewrite Eu]. intros Hs. apply Hroute. rewrite Hs. right. left. }
  simpl. rewrite bool_decide_eq_false_2 by done. simpl. rewrite andb_false_r. simpl. done.
Qed.
End coherent.

(** * The answer *)

(** The reviewed acknowledgement of an answer needs no model. *)
Definition acknowledged (t : TurnSemantics) : bool :=
  bool_decide (td_progress_kind (delta (ts_apply_result t)) = ANSWER_ONLY)
  && bool_decide (conversation_move (ts_response t) = CM_NONE).

(** A turn that says a reviewed line: no plan is compiled. *)
Definition reviewed_line (t : TurnSemantics) (has_stable : bool) : bool :=
  bool_decide (ts_route t = RO_understanding_fallback) || uses_reviewed_expression_support t
  || has_stable && bool_decide (ts_route t = RO_stable) || bool_decide (ts_route t = RO_safety).

(** The condition under which the speech of a turn is rendered. *)
Definition speech_fits (l : ladder_state) (t : TurnSemantics) (targets : list TargetRefV2) (has_stable : bool) : bool :=
  reviewed_line t has_stable
  || card_ready l t
     && (if decide (ts_route t = RO_bridge) then bool_decide (unrelated_count l <= 100)
         else acknowledged t || reaction_fits l t targets).

Definition succeeds {A} (r : res A) : bool := match r with Ok _ => true | Raise _ => false end.

Lemma succeeds_bind {A B} (r : res A) (f : A -> B) : succeeds (a ← r; Ok (f a)) = succeeds r.
Proof. by destruct r. Qed.

Section render.
Context `{!SpeechPort}.
Variable pack : RequiredHomeTeachingPackV2.
Hypothesis Hready : speaker_ready pack = true.
Hypothesis Hfacts : NoDup (pack_fact_ids (HomePack pack)).
Notation p := (HomePack pack).

Lemma acknowledgement_total t : (forall i, i ∈ new_fact_ids (ar_log (ts_apply_result t)) -> is_Some (facts_by_id p i)) ->
  exists text, reviewed_fact_acknowledgement p (new_fact_ids (ar_log (ts_apply_result t))) = Ok text.
Proof.
  intros Hi. unfold reviewed_fact_acknowledgement.
  destruct (mapR_total (fun i => f ← or_raise (facts_by_id p i) (KeyError i); Ok (acknowledged_surface f))
    (new_fact_ids (ar_log (ts_apply_result t)))) as [ss ->]; [|simpl; eauto].
  intros i Hin. destruct (Hi i Hin) as [f ->]. simpl. eauto.
Qed.

Lemma speak_succeeds model l subgoal supported t q fallback h : turn_coherent p l t q ->
  ts_route t ∉ [RO_bridge; RO_safety] -> reference_id 160 (fallback_ref subgoal) = true ->
  succeeds (speak model l subgoal supported p t q fallback h)
  = card_ready l t && (acknowledged t || reaction_fits l t (qc_targets q)).
Proof.
  intros Hco Hroute Href. unfold speak.
  pose proof (conversation_plan_iff pack Hready l t q h (tq_targets _ _ _ _ Hco) (tq_graph _ _ _ _ Hco) (tq_ladder _ _ _ _ Hco)) as Hc.
  destruct (conversation_plan l p t q h) as [rp|e]; [|by destruct Hc as [-> _]]. destruct Hc as [-> Hev].
  cbn [mbind res_bind andb]. fold (acknowledged t). destruct (acknowledged t).
  - destruct (acknowledgement_total t) as [text ->]; [|done]. intros i Hi. by apply (tq_verified _ _ _ _ Hco), (tq_new_facts _ _ _ _ Hco).
  - pose proof (reaction_plan_iff pack Hready l t q Hco Hroute supported subgoal (crp_card_event rp) Hfacts Href Hev) as Hp.
    by destruct (reaction_plan _ _ _ _ _ _ _); rewrite Hp.
Qed.

Lemma bridge_succeeds model l subgoal t q fallback h : turn_coherent p l t q ->
  reference_id 160 (fallback_ref subgoal) = true ->
  succeeds (bridge model l subgoal p t q fallback h) = card_ready l t && bool_decide (unrelated_count l <= 100).
Proof.
  intros Hco Href. unfold bridge.
  pose proof (conversation_plan_iff pack Hready l t q h (tq_targets _ _ _ _ Hco) (tq_graph _ _ _ _ Hco) (tq_ladder _ _ _ _ Hco)) as Hc.
  destruct (conversation_plan l p t q h) as [rp|e]; [|by destruct Hc as [-> _]]. destruct Hc as [-> _].
  unfold social_plan, speaker_target, no_target. simpl (_ ← _; _). cbn [andb]. unfold bridge_plan.
  cbn [bp_current_question bp_target_focus bp_allowed_facts bp_repeat_count bp_previous_mormi_text bp_fallback_copy_ref
       bp_target bp_response_plan st_fact_ids st_relation_ids map].
  rewrite Href. destruct (bool_decide (unrelated_count l <= 100)); [|done]. simpl.
  destruct (model _) as [o|e]; [|done]. by destruct (validate_bridge_output _ _ _ _).
Qed.

(** Without the card a question asked back cannot be phrased. *)
Definition no_card : pyexn := ValidationError "help-guided reasking requires a visible help card".

Lemma render_without_card next h supported t q stable fallback : turn_coherent p (ladder next) t q ->
  card_ready (ladder next) t = false -> reviewed_line t (bool_decide (is_Some stable)) = false ->
  render_speech next h supported p t q stable fallback = Raise no_card.
Proof.
  intros Hco Hcard Hline. unfold reviewed_line in Hline. rewrite !orb_false_iff in Hline. destruct Hline as (((Hf & Hu) & Hst) & Hs).
  pose proof (conversation_plan_iff pack Hready (ladder next) t q h (tq_targets _ _ _ _ Hco) (tq_graph _ _ _ _ Hco) (tq_ladder _ _ _ _ Hco)) as Hc.
  destruct (conversation_plan _ p t q h) as [rp|e] eqn:Ec; [destruct Hc; congruence|]. destruct Hc as [_ ->].
  apply bool_decide_eq_false in Hf, Hs. unfold render_speech. destruct (decide (ts_route t = RO_understanding_fallback)); [done|].
  rewrite Hu. destruct (decide (ts_route t = RO_safety)); [done|].
  unfold bridge, speak. rewrite Ec. cbn [mbind res_bind].
  destruct (bool_decide (ts_route t = RO_stable)) eqn:Er, stable as [[[text mood] act]|]; cbn [is_Some] in *;
    try (by rewrite bool_decide_eq_true_2 in Hst by eauto); by destruct (decide (ts_route t = RO_bridge)).
Qed.

(** The speech of a turn is rendered exactly when it fits. *)
Lemma render_succeeds next h supported t q stable fallback : turn_coherent p (ladder next) t q ->
  reference_id 160 (fallback_ref (subgoal_id next)) = true ->
  succeeds (render_speech next h supported p t q stable fallback)
  = speech_fits (ladder next) t (qc_targets q) (bool_decide (is_Some stable)).
Proof.
  intros Hco Href. unfold render_speech, speech_fits, reviewed_line. case_decide as Hf; [by rewrite bool_decide_eq_true_2|].
  rewrite (bool_decide_eq_false_2 (ts_route t = RO_understanding_fallback)) by done.
  destruct (uses_reviewed_expression_support t); [done|]. cbn [orb].
  destruct (bool_decide (ts_route t = RO_stable)) eqn:Est.
  { destruct stable as [[[text mood] act]|]; [done|]. apply bool_decide_eq_true in Est. rewrite bool_decide_eq_false_2 by by intros [? ?].
    cbn [andb orb]. rewrite !decide_False by congruence. rewrite bool_decide_eq_false_2 by congruence. rewrite succeeds_bind.
    apply speak_succeeds; [done| |done]. rewrite Est. set_solver. }
  rewrite andb_false_r. cbn [orb]. assert (Hany : forall (r : res TurnSpeech),
    match stable with Some (text, mood, act) => r | None => r end = r) by (by destruct stable as [[[? ?] ?]|]).
  rewrite Hany. destruct (decide (ts_route t = RO_safety)) as [Hs|Hs]; [by rewrite bool_decide_eq_true_2|].
  rewrite (bool_decide_eq_false_2 (ts_route t = RO_safety)) by done.
  rewrite succeeds_bind. cbn [orb]. destruct (decide (ts_route t = RO_bridge)); [by apply bridge_succeeds|].
  apply speak_succeeds; [done| |done]. set_solver.
Qed.
End render.
