(* ===== verification/SpeakerCoherence.v ===== *)
(** What an interpreted turn brings to the speaker: the reported progress is exactly
    what the ledger gained, evidence ids are digests, a question has its focus, and
    the help card is referred to only while it is on screen. *)

From S2P Require Import Prelude.
From S2P Require Import PyStr.
From S2P Require Import PyNum.
From S2P Require Import Json.
From S2P Require Import Schemas.
From S2P Require Import Requests.
From S2P Require Import Evidence.
From S2P Require Import EvidenceTheory.
From S2P Require Import Packs.
From S2P Require Import PackDump.
From S2P Require Import Snapshot.
From S2P Require Import Ledger.
From S2P Require Import LedgerTheory.
From S2P Require Import LedgerProgress.
From S2P Require Import State.
From S2P Require Import Ladder.
From S2P Require Import Understand.
From S2P Require Import UnderstandTheory.
From S2P Require Import Question.
From S2P Require Import Respond.
From S2P Require Import SpeakerText.
From S2P Require Import SpeakerPlan.
From S2P Require Import Reply.
From S2P Require Import Speak.
From S2P Require Import Turn.

(** * New progress *)

Definition handles_ok (lg : apply_log) : Prop :=
  forall c i, claim_evidence_ids lg !! c = Some i -> sha256_pattern i = true.

(** What a turn reports to the speaker, against the ledger before it. *)
Record new_progress (l : ReasoningLedgerV2) (r : ReasoningLedgerApplyResultV2) : Prop := {
  np_facts : reports (new_fact_ids (ar_log r)) (verified_facts l) (verified_facts (ar_ledger r));
  np_relations : reports (new_relation_ids (ar_log r)) (verified_relations l) (verified_relations (ar_ledger r));
  np_handles : handles_ok (ar_log r)
}.

Lemma empty_handles : handles_ok empty_log.
Proof. intros c i. simpl. by rewrite lookup_empty. Qed.

Lemma nothing_new l c b : new_progress l {| ar_ledger := l; ar_log := empty_log; ar_completion := c; completion_became_true := b |}.
Proof. split; simpl; try apply reports_nil. apply empty_handles. Qed.

Section progress.
Context `{!Digest} `{!DigestFormat} `{!PackModel}.

Lemma claim_handles p matches turn ms c out : apply_claim p matches turn ms c = Ok out -> handles_ok out.2.
Proof.
  intros Hr j i Hi. unfold apply_claim in Hr. destruct (matches (claim_id c)) as [m|]; [|done].
  cbn [or_raise mbind res_bind] in Hr.
  destruct c as [f|r|a];
    unfold apply_fact_claim, apply_partial_claim, apply_relation_claim, apply_auxiliary_claim in Hr;
    repeat (case_match; res_inv); simplify_eq; simpl in Hi;
    first [by rewrite lookup_empty in Hi | apply lookup_singleton_Some in Hi as [_ <-]; apply hexdigest_format].
Qed.

Lemma guarded_new s l g turn r : apply_guarded_understanding_v2 s l g turn = Ok r -> new_progress l r.
Proof.
  intros Hr. pose proof Hr as Hr0. apply apply_guarded_applied in Hr0 as (p & Ha).
  pose proof (ap_reports _ _ _ _ _ _ Ha) as [Hf Hrel _ _ _]. split; [done|done|].
  unfold apply_guarded_understanding_v2 in Hr. res_inv. simpl.
  match goal with H : foldM _ _ _ = Ok _ |- _ => rename H into Hloop end.
  refine (foldM_inv _ (fun acc : ledger_maps * apply_log => handles_ok acc.2) _ (maps_of l, empty_log) _ _ empty_handles Hloop).
  intros [ms lg] c x _ Hacc Hs. unfold claim_step in Hs. res_inv. simpl.
  match goal with H : apply_claim _ _ _ _ _ = Ok _ |- _ => apply claim_handles in H; rename H into Hc end.
  intros j i [Hj|[_ Hj]]%lookup_union_Some_raw; [by eapply Hc|by eapply Hacc].
Qed.

(** ** Structured progress *)

Definition tracked (l : ReasoningLedgerV2) (acc : ledger_maps * apply_log) : Prop :=
  (dom (verified_facts l) ⊆ dom (lm_facts acc.1) /\ reports (new_fact_ids acc.2) (verified_facts l) (lm_facts acc.1))
  /\ (dom (verified_relations l) ⊆ dom (lm_relations acc.1)
      /\ reports (new_relation_ids acc.2) (verified_relations l) (lm_relations acc.1))
  /\ handles_ok acc.2.

Lemma reports_insert {A} ids (m0 m : gmap string A) k e ids' :
  dom m0 ⊆ dom m /\ reports ids m0 m -> ids' = (if decide (is_Some (m !! k)) then [] else [k]) ->
  dom m0 ⊆ dom (<[k:=e]> m) /\ reports (ids ++ ids') m0 (<[k:=e]> m).
Proof.
  intros [Hd Hr] ->. split; [rewrite dom_insert_L; set_solver|].
  eapply (reports_app m0 m (<[k:=e]> m)); [done|rewrite dom_insert_L; set_solver|done|].
  case_decide as Hk; [by apply reports_update|apply reports_new]. by apply eq_None_not_Some.
Qed.

Lemma handles_log a b : handles_ok a -> handles_ok b -> handles_ok (log_app a b).
Proof. intros Ha Hb j i [Hj|[_ Hj]]%lookup_union_Some_raw; [by eapply Hb|by eapply Ha]. Qed.

Lemma fact_step_tracked l p turn kind acc fv acc' :
  tracked l acc -> structured_fact_step p turn kind acc fv = Ok acc' -> tracked l acc'.
Proof.
  intros (Hf & Hr & Hh) Hs. destruct fv as [i v]. unfold structured_fact_step in Hs. res_inv.
  destruct (lm_facts acc.1 !! i) as [e|] eqn:He; [destruct (memb _ _)|res_inv]; simplify_eq; try done;
    (split; [eapply reports_insert; [done|]; rewrite He; by rewrite ?decide_True, ?decide_False by (eauto || by intros [? ?])
            |split; [|apply handles_log; [done|]; intros ? ? Hx; simpl in Hx; by rewrite lookup_empty in Hx]]);
    simpl; by rewrite app_nil_r.
Qed.

Lemma relation_step_tracked l turn kind acc i acc' :
  tracked l acc -> structured_relation_step turn kind acc i = Ok acc' -> tracked l acc'.
Proof.
  intros (Hf & Hr & Hh) Hs. unfold structured_relation_step in Hs. res_inv.
  destruct (lm_relations acc.1 !! i) as [e|] eqn:He; [destruct (memb _ _)|res_inv]; simplify_eq; try done;
    (split; [|split; [eapply reports_insert; [done|]; rewrite He; by rewrite ?decide_True, ?decide_False by (eauto || by intros [? ?])
            |apply handles_log; [done|]; intros ? ? Hx; simpl in Hx; by rewrite lookup_empty in Hx]]);
    simpl; by rewrite app_nil_r.
Qed.

Lemma structured_new s l fvs rids turn kind r : apply_structured_progress_v2 s l fvs rids turn kind = Ok r -> new_progress l r.
Proof.
  intros Hr. unfold apply_structured_progress_v2 in Hr. res_inv.
  assert (H0 : tracked l (maps_of l, empty_log)).
  { split; [split; [done|apply reports_nil]|split; [split; [done|apply reports_nil]|apply empty_handles]]. }
  repeat match goal with
  | H : foldM (structured_fact_step _ _ _) _ _ = Ok _ |- _ =>
      refine (_ (foldM_inv _ (tracked l) _ _ _ (fun x b x' _ => fact_step_tracked l _ _ _ x b x') H0 H)); clear H; intros H1
  | H : foldM (structured_relation_step _ _) _ _ = Ok _ |- _ =>
      refine (_ (foldM_inv _ (tracked l) _ _ _ (fun x b x' _ => relation_step_tracked l _ _ x b x') H1 H)); clear H; intros H2
  end.
  match goal with H : reasoning_ledger _ = Ok _ |- _ => apply reasoning_ledger_Ok in H as [-> _] end.
  destruct H2 as ([_ Hf] & [_ Hrel] & Hh). by split.
Qed.
End progress.

(** * The interpreted turn *)

Record spoken_turn (shown : Prop) (t : TurnSemantics) : Prop := {
  sn_focus : focus_ok (ts_response t);
  sn_card : ts_route t <> RO_safety -> is_Some (ui_reference (ts_response t)) -> shown;
  sn_claims : ts_route t ∉ [RO_bridge; RO_safety] -> guarded_claims t = claims (ts_response t);
  sn_choice : ts_understanding_source t = US_structured_choice -> claims (ts_response t) = [] /\ ts_initial_help t = false
}.

(** A response the server authors asks nothing, claims nothing and shows nothing. *)
Lemma server_spoken cls need learning answer reasoning r :
  server_understanding cls need learning answer reasoning = Ok r ->
  focus_ok r /\ ui_reference r = None /\ claims r = [].
Proof.
  unfold focus_ok. destruct cls, need; vm_compute; intros Hr; simplify_eq; (split; [|done]); by split.
Qed.

Section spoken.
Context `{!Digest} `{!DigestFormat} `{!PackModel} `{!Nfc}.
Variable shown : Prop.

Definition admitted_ok (g : GuardedUnderstandingV2) : Prop :=
  focus_ok (gu_response g) /\ (is_Some (ui_reference (gu_response g)) -> shown).
Definition context_ok (c : attempt_context) : Prop :=
  (forall g, cx_admitted c = Some g -> admitted_ok g)
  /\ (ur_visible_ui_elements (cx_request c) <> [] -> shown).
Definition progressed (c : attempt_context) (t : TurnSemantics) : Prop :=
  spoken_turn shown t /\ new_progress (cx_ledger c) (ts_apply_result t).

Lemma unchanged_new s l r : unchanged_result s l = Ok r -> new_progress l r.
Proof. unfold unchanged_result. intros Hr. res_inv. apply nothing_new. Qed.

Lemma failure_spoken s l n reason t : understanding_failure_semantics s l n reason = Ok t ->
  spoken_turn shown t /\ new_progress l (ts_apply_result t).
Proof.
  unfold understanding_failure_semantics. intros Ht. res_inv.
  match goal with H : server_understanding _ _ _ _ _ = Ok _ |- _ => apply server_spoken in H as (Hf & Hu & Hc) end.
  split; [|by eapply unchanged_new]. split; simpl; try done. rewrite Hu. by intros _ [? ?].
Qed.

Lemma admitted_spoken c n t : context_ok c -> admitted_understanding_semantics c n = Ok t -> progressed c t.
Proof.
  intros [Hg _] Ht. unfold admitted_understanding_semantics in Ht.
  destruct (cx_admitted c) as [g|] eqn:Eg; [|done]. destruct (Hg g eq_refl) as [Hf Hu].
  cbn [or_raise mbind res_bind] in Ht. destruct (apply_guarded_understanding_v2 _ _ _ _) as [r|] eqn:Hr; [|done].
  cbn [mbind res_bind] in Ht. injection Ht as <-. split; [|by eapply guarded_new]. split; simpl; done.
Qed.

Lemma gateway_failure_spoken c n reason t : context_ok c -> gateway_failure c n reason = Ok t -> progressed c t.
Proof.
  intros Hc. unfold gateway_failure. destruct (cx_admitted c) eqn:Eg; [by apply admitted_spoken|].
  apply failure_spoken.
Qed.

Lemma admission_spoken req r a : focus_ok r -> (ur_visible_ui_elements req <> [] -> shown) ->
  admit_understanding_response_v2 req r = Ok a -> admitted_ok (ad_guarded a).
Proof.
  intros Hf Hv Ha. unfold admit_understanding_response_v2 in Ha. res_inv. split; [exact Hf|]. simpl.
  unfold admitted_ui_reference. destruct (ui_reference r) as [u|]; [|by intros [? ?]].
  destruct (memb _ _) eqn:Em; [|by intros [? ?]]. simpl. intros _. apply Hv. intros Hn. rewrite Hn in Em. done.
Qed.

Lemma merge_spoken old cur g : (forall o, old = Some o -> admitted_ok o) -> admitted_ok cur ->
  merge_admitted_understanding old cur = Ok g -> admitted_ok g.
Proof.
  intros Ho [Hf Hu] Hm. unfold merge_admitted_understanding in Hm. destruct old as [o|]; [|by injection Hm as <-].
  destruct (Ho o eq_refl) as [Hfo Huo]. res_inv. split; [exact Hfo|]. simpl.
  destruct (ui_reference (gu_response o)) as [u|]; eauto.
Qed.

Lemma attempt_frame gw c n out c' : understand_attempt gw c n = Ok (out, c') -> cx_ledger c' = cx_ledger c.
Proof.
  unfold understand_attempt. intros Hr. destruct (gw (cx_request c)); try (by res_inv).
  destruct (_ && _) in Hr; [by res_inv|]. res_inv. repeat (case_match; res_inv); done.
Qed.

Lemma attempt_spoken gw c n out c' : context_ok c -> gateway_ok gw ->
  understand_attempt gw c n = Ok (out, c') ->
  context_ok c' /\ forall t, out = Some t -> progressed c t.
Proof.
  intros Hc Hgw Hr. unfold understand_attempt in Hr.
  destruct (gw (cx_request c)) as [cand| | |] eqn:Hcand;
    try (res_inv; split; [done|]; intros ? [= <-]; by eapply gateway_failure_spoken).
  pose proof (Hgw _ _ Hcand) as (_ & _ & _ & Hfocus). destruct (_ && _) eqn:Ebr in Hr.
  { res_inv. split; [done|]. intros ? [= <-]. split; [|by eapply unchanged_new].
    apply andb_true_iff in Ebr as [Hroute%memb_spec _]. split; simpl; try done.
    intros Hs [u Hu]. unfold route_for_understanding in *. destruct (memb (utterance_class cand) _); [done|].
    rewrite Hu in Hroute. set_solver. }
  destruct (admit_understanding_response_v2 _ _) as [a|] eqn:Ha; [|done]. cbn [mbind res_bind] in Hr.
  destruct (merge_admitted_understanding _ _) as [g|] eqn:Hm; [|done]. cbn [mbind res_bind] in Hr.
  assert (Hg : admitted_ok g).
  { eapply merge_spoken; [|by eapply admission_spoken, Ha; [|apply Hc]|exact Hm]. apply Hc. }
  destruct (needs_repair a && _).
  { injection Hr as <- <-. split; [|done]. split; [|apply Hc]. simpl. destruct (truthy _); [|done]. by intros ? [= <-]. }
  destruct (negb _ && _).
  { res_inv. split; [done|]. intros ? [= <-]. by eapply failure_spoken. }
  set (c1 := cx_with c (cx_request c) (Some g)) in *. assert (Hc1 : context_ok c1) by (split; [by intros ? [= <-]|apply Hc]).
  destruct (admitted_understanding_semantics c1 n) as [t|] eqn:Ht; [|done]. cbn [mbind res_bind] in Hr. injection Hr as <- <-.
  split; [done|]. intros ? [= <-]. exact (admitted_spoken c1 n t Hc1 Ht).
Qed.

Lemma run_spoken gw c t : context_ok c -> (forall k, gateway_ok (gw k)) ->
  run_attempt_graph gw c = Ok t -> progressed c t.
Proof.
  intros Hc Hgw Hr. unfold run_attempt_graph in Hr.
  destruct (understand_attempt (gw 1) c 1) as [[o1 c1]|] eqn:H1; [|done]. cbn [mbind res_bind fst snd] in Hr.
  pose proof (attempt_frame _ _ _ _ _ H1) as Hl1. apply attempt_spoken in H1 as [Hc1 Ho1]; [|done|done].
  destruct o1 as [t1|]; [injection Hr as <-; by apply Ho1|].
  destruct (understand_attempt (gw 2) c1 2) as [[o2 c2]|] eqn:H2; [|done]. cbn [mbind res_bind fst snd] in Hr.
  pose proof (attempt_frame _ _ _ _ _ H2) as Hl2. apply attempt_spoken in H2 as [Hc2 Ho2]; [|done|done].
  unfold progressed. rewrite <- Hl1. destruct o2 as [t2|]; [injection Hr as <-; by apply Ho2|].
  rewrite <- Hl2. exact (gateway_failure_spoken c2 2 understanding_evidence_guard_failed t Hc2 Hr).
Qed.
End spoken.

Section interpret.
Context `{!Digest} `{!DigestFormat} `{!PackModel} `{!Nfc}.

Lemma text_spoken gw l p s lg ts resp pq recent t : (forall k, gateway_ok (gw k)) ->
  understand_text gw l p s lg ts resp pq recent = Ok t ->
  spoken_turn (hint_level l <> H0) t /\ new_progress lg (ts_apply_result t).
Proof.
  intros Hgw Ht. unfold understand_text in Ht. destruct (cr_text resp) as [text|]; [|done]. cbn [or_raise mbind res_bind] in Ht.
  destruct (understanding_request _ _ _ _ _ _) as [req|] eqn:Hq; [|done]. cbn [mbind res_bind] in Ht.
  eapply run_spoken in Ht; [exact Ht| |exact Hgw]. split; [done|]. simpl.
  unfold understanding_request in Hq. res_inv. unfold request_validate, targets_must_reference_the_claimable_graph in *. res_inv.
  simpl. unfold visible_ui_elements. intros Hv Hh. apply Hv. rewrite Hh. by destruct p.
Qed.

Lemma choice_spoken shown level sub pack s lg resp t : choice_semantics level sub pack s lg resp = Ok t ->
  spoken_turn shown t /\ new_progress lg (ts_apply_result t).
Proof.
  intros Ht. unfold choice_semantics in Ht. res_inv.
  match goal with H : choice_understanding _ _ = Ok _ |- _ => apply server_spoken in H as (Hf & Hu & Hc) end.
  split; [split; simpl; try done; rewrite Hu; by intros _ [? ?]|]. simpl.
  case_match; [by eapply structured_new|by eapply unchanged_new].
Qed.

Lemma joint_spoken shown l p s lg resp t : joint_semantics l p s lg resp = Ok t ->
  spoken_turn shown t /\ new_progress lg (ts_apply_result t).
Proof.
  intros Ht. unfold joint_semantics in Ht. res_inv.
  match goal with H : server_understanding _ _ _ _ _ = Ok _ |- _ => apply server_spoken in H as (Hf & Hu & Hc) end.
  split; [split; simpl; try done; rewrite Hu; by intros _ [? ?]|]. by eapply structured_new.
Qed.

Lemma no_response_spoken shown l s lg resp t : no_response_semantics l s lg resp = Ok t ->
  spoken_turn shown t /\ new_progress lg (ts_apply_result t).
Proof.
  intros Ht. unfold no_response_semantics in Ht. res_inv.
  match goal with H : server_understanding _ _ _ _ _ = Ok _ |- _ => apply server_spoken in H as (Hf & Hu & Hc) end.
  split; [|apply nothing_new]. split; simpl; try done; [rewrite Hu; by intros _ [? ?]|].
  unfold no_response_source. by repeat case_match.
Qed.

Lemma interpret_spoken gw s pack snap lg resp pq recent t : (forall k, gateway_ok (gw k)) ->
  interpret_execution gw s pack snap lg resp pq recent = Ok t ->
  spoken_turn (hint_level (ladder s) <> H0) t /\ new_progress lg (ts_apply_result t).
Proof.
  intros Hgw Ht. unfold interpret_execution in Ht. destruct (cr_type resp); try done.
  - res_inv. by eapply text_spoken.
  - by eapply choice_spoken.
  - by eapply choice_spoken.
  - by eapply joint_spoken.
  - by eapply no_response_spoken.
Qed.
End interpret.
