(* ===== verification/TurnTotal.v ===== *)
(** Every admitted response gets an answer: from a reachable session, a turn
    returns whatever the child sent through the gate and whatever the model did,
    as long as the stored ledger is within its bounds. *)

From S2P Require Import Prelude.
From S2P Require Import PyStr.
From S2P Require Import PyNum.
From S2P Require Import Json.
From S2P Require Import Schemas.
From S2P Require Import Requests.
From S2P Require Import Regex.
From S2P Require Import Evidence.
From S2P Require Import EvidenceTheory.
From S2P Require Import Packs.
From S2P Require Import PackDump.
From S2P Require Import Snapshot.
From S2P Require Import Ledger.
From S2P Require Import LedgerTheory.
From S2P Require Import LedgerProgress.
From S2P Require Import ContentCopy.
From S2P Require Import ContentChecks.
From S2P Require Import ContentPack.
From S2P Require Import LifeChecks.
From S2P Require Import ContentTheory.
From S2P Require Import HomeContract.
From S2P Require Import RequestTheory.
From S2P Require Import State.
From S2P Require Import Ladder.
From S2P Require Import LadderTheory.
From S2P Require Import Understand.
From S2P Require Import UnderstandTheory.
From S2P Require Import Question.
From S2P Require Import QuestionTheory.
From S2P Require Import Respond.
From S2P Require Import Gate.
From S2P Require Import NoteTheory.
From S2P Require Import SpeakerText.
From S2P Require Import SpeakerPlan.
From S2P Require Import Reply.
From S2P Require Import Speak.
From S2P Require Import Turn.
From S2P Require Import TurnTheory.
From S2P Require Import SpeakerTheory.
From S2P Require Import SpeakerTotal.
From S2P Require Import SpeakerCoherence.

(** The stored ledger reloads, with room for the auxiliary markers of one turn. *)
Definition roomy (lg : ReasoningLedgerV2) : Prop :=
  reload_ledger lg = Ok lg /\ size (accepted_auxiliary_evidence lg) <= 140.

(** What the response model has enforced. *)
Definition child_response_ok (r : ChildResponse) : Prop :=
  validate_payload r = Ok r /\ forall t, cr_text r = Some t -> length t <= 300.

(** What the pack must add to its validation: the L3 plans ask as the initial
    question does, the reviewed copy is in single lines, the labels and ids can be
    handed to the speaker, and the fact vocabularies fit the request. *)
Definition question_ready (pack : RequiredHomeTeachingPackV2) : bool :=
  plans_agree pack && speakable_pack pack && speaker_ready pack.
Definition engine_ready (pack : RequiredHomeTeachingPackV2) : bool :=
  question_ready pack && aliases_fit pack.

Lemma text_nonempty r : cr_type r = RT_TEXT -> child_response_ok r ->
  exists t, cr_text r = Some t /\ 1 <= length t <= 300.
Proof.
  intros Ht [Hv Hl]. unfold validate_payload in Hv. rewrite Ht in Hv. simpl in Hv.
  destruct (cr_text r) as [[|c t]|] eqn:Et; [done| |done]. exists (c :: t).
  split; [done|]. pose proof (Hl _ eq_refl). simpl in *. lia.
Qed.

Section total.
Context `{!Digest} `{!DigestFormat} `{!PackModel} `{!PackModelChecks} `{!PackModelLaws}
        `{!HomePackLaws} `{!Nfc} `{!SpeechPort}.
Variables (pack : RequiredHomeTeachingPackV2) (snap : PinnedContentSnapshotV2)
          (lg : ReasoningLedgerV2).
Hypothesis Hframe : engine_frame pack snap lg.
Notation p := (HomePack pack).

(** * The targets of free text *)

Lemma remaining_askable c ts :
  ts = remaining_targets (qp_targets (hp_initial_question pack)) c -> ts <> [] -> askable pack ts.
Proof.
  intros -> Hne. destruct (hk_initial _ (frame_home _ _ _ Hframe)) as [Hnd Hl].
  pose proof (frame_contract _ _ _ Hframe) as Hpk.
  unfold remaining_targets in *. split; [|split].
  - unfold list_field in Hl. apply bool_decide_eq_true in Hl.
    pose proof (List.filter_length_le (fun t => memb (target_pair t)
      (map (pair KIND_fact) (remaining_fact_ids c) ++ map (pair KIND_relation) (remaining_relation_ids c)))
      (qp_targets (hp_initial_question pack))).
    destruct (List.filter _ _); [done|]. simpl in *. lia.
  - by apply NoDup_map_filter.
  - intros t [Ht _]%list_elem_of_In%filter_In.
    apply (proj1 (Forall_forall _ _) (pk_required_graph _ Hpk)), (pk_initial _ Hpk).
    apply list_elem_of_fmap. exists t. split; [done|by apply list_elem_of_In].
Qed.

Lemma singleton_askable t : t ∈ qp_targets (hp_initial_question pack) -> askable pack [t].
Proof.
  intros Ht. pose proof (frame_contract _ _ _ Hframe) as Hpk. split; [simpl; lia|].
  split; [apply NoDup_singleton|]. intros u ->%list_elem_of_singleton.
  apply (proj1 (Forall_forall _ _) (pk_required_graph _ Hpk)), (pk_initial _ Hpk).
  apply list_elem_of_fmap. eauto.
Qed.

Lemma active_askable level ts :
  targets_from_active_state level pack lg = Ok ts -> ts <> [] -> askable pack ts.
Proof.
  intros Hts Hne. destruct (active_targets pack snap lg Hframe level) as (ts' & Hts' & Hin & _).
  rewrite Hts in Hts'. injection Hts' as <-.
  assert ((exists t, ts = [t]) \/ exists c,
    ts = remaining_targets (qp_targets (hp_initial_question pack)) c) as [[t ->]|[c Hc]].
  { unfold targets_from_active_state in Hts. res_inv.
    match type of Hts with context [remaining_targets ?i ?c] =>
      destruct (remaining_targets i c) as [|x xs] eqn:Er; [by injection Hts as <-|] end.
    destruct (memb level [L4; L0]); [injection Hts as <-; right; eauto|].
    left. destruct (find_first _ _); [injection Hts as <-; eauto|]. res_inv.
    repeat case_match; injection Hts as <-; eauto. }
  - apply singleton_askable, Hin. left.
  - by eapply remaining_askable.
Qed.

(** * Interpretation *)

Lemma unchanged_total : exists r, unchanged_result (HomeSnapshot snap) lg = Ok r.
Proof.
  unfold unchanged_result. destruct (frame_completion _ _ _ Hframe) as (c & -> & _).
  cbn [mbind res_bind]. eauto.
Qed.

Lemma text_total gw l ts resp pq recent :
  roomy lg -> aliases_fit pack = true -> askable pack ts -> (forall k, gateway_ok (gw k)) ->
  turn_id_ok (cr_turn_id resp) = true -> 1 <= py_len pq ->
  cr_type resp = RT_TEXT -> child_response_ok resp ->
  exists t, understand_text gw l p (HomeSnapshot snap) lg ts resp pq recent = Ok t.
Proof.
  intros [_ Hroom] Hfit Hask Hgw Hid Hpq Htype Hresp.
  destruct (text_nonempty resp Htype Hresp) as (text & Htext & Hlen).
  unfold understand_text. rewrite Htext. cbn [or_raise mbind res_bind].
  destruct (request_total pack (frame_contract _ _ _ Hframe) (frame_home _ _ _ Hframe) Hfit l ts pq
    recent text) as (r & -> & Hg & Hu); [done..|]. cbn [mbind res_bind].
  edestruct (attempts_answer p gw) as (t & Ht & _); [| |exact Hgw|by exists t].
  - split; simpl; rewrite ?Hg, ?Hu; simpl; try done.
    + by eapply frame_resolves.
    + apply Hframe.
    + apply Hframe.
    + lia.
  - done.
  Unshelve. exact l.
Qed.

Lemma no_response_total l resp :
  exists t, no_response_semantics l (HomeSnapshot snap) lg resp = Ok t.
Proof.
  unfold no_response_semantics. destruct (frame_completion _ _ _ Hframe) as (c & Hc & _).
  destruct (cr_no_response_kind resp) as [[]|]; vm_compute server_understanding;
    cbn [mbind res_bind]; rewrite Hc; cbn [mbind res_bind]; eauto.
Qed.

(** The choice on screen is a choice of the plan the state names. *)
Lemma plan_by_subgoal plan : plan ∈ hp_l2_plans pack ->
  find_first (fun q => bool_decide (l2_plan_id q = l2_plan_id plan)) (hp_l2_plans pack) = Some plan.
Proof.
  intros Hin. apply find_first_key; [|done].
  pose proof (hk_plan_ids _ (frame_home _ _ _ Hframe)) as Hnd.
  apply NoDup_cons in Hnd as [_ Hnd]. by apply NoDup_app in Hnd as (_ & _ & Hnd).
Qed.

Lemma choice_by_id plan c : plan ∈ hp_l2_plans pack -> c ∈ l2_choices plan ->
  find_first (fun d => bool_decide (lc_choice_id d = lc_choice_id c)) (l2_choices plan) = Some c.
Proof.
  intros Hp Hc. apply find_first_key; [|done]. by apply (hk_choice_ids _ (frame_home _ _ _ Hframe)).
Qed.

Lemma l2_target_required plan : plan ∈ hp_l2_plans pack -> target_pair (l2_target plan) ∈ required_targets p.
Proof.
  intros Hp. apply (proj2 (pk_l2 _ (frame_contract _ _ _ Hframe))). simpl.
  apply list_elem_of_fmap. eauto.
Qed.

Lemma required_graph t : t ∈ required_targets p -> target_in_graph p t.
Proof. apply (proj1 (Forall_forall _ _) (pk_required_graph _ (frame_contract _ _ _ Hframe))). Qed.

(** What a correct choice submits is accepted by the ledger. *)
Lemma choice_progress plan c turn :
  plan ∈ hp_l2_plans pack -> c ∈ l2_choices plan -> ce_verdict (lc_effect c) = choice_correct ->
  turn_id_ok turn = true ->
  exists r, apply_structured_progress_v2 (HomeSnapshot snap) lg (choice_facts (lc_effect c))
              (choice_relations pack (lc_effect c)) turn SRC_choice = Ok r
    /\ structured_applied (HomeSnapshot snap) lg p (choice_facts (lc_effect c))
         (choice_relations pack (lc_effect c)) r.
Proof.
  intros Hp Hc Hv Hid. pose proof (frame_contract _ _ _ Hframe) as Hpk.
  pose proof (hk_choice _ (frame_home _ _ _ Hframe) plan c Hp Hc) as Heff.
  pose proof (hk_correct _ (frame_home _ _ _ Hframe) plan c Hp Hc Hv) as Ht.
  pose proof (required_graph _ (l2_target_required plan Hp)) as Hg.
  apply structured_progress_total; try done; try apply Hframe.
  - by eapply frame_resolves.
  - unfold choice_relations. destruct (ce_target_kind _); [constructor|apply NoDup_fromkeys].
  - unfold choice_facts, teaches_target in *. injection Heff as Hk Hi. rewrite Hk, Hi.
    intros i v Hiv. destruct (target_kind (l2_target plan)) eqn:Ek; [|by apply not_elem_of_nil in Hiv].
    destruct Ht as (w & f & Hw & Hf & Hm). rewrite Hw in Hiv.
    apply list_elem_of_singleton in Hiv as [= -> ->]. eauto.
  - unfold choice_relations. injection Heff as Hk Hi. rewrite Hk, Hi.
    destruct (target_kind (l2_target plan)) eqn:Ek; [by intros i ?%not_elem_of_nil|].
    intros i. rewrite elem_of_fromkeys, elem_of_cons. intros [-> | Hin].
    + unfold target_in_graph, target_pair in Hg. by rewrite Ek in Hg.
    + by apply (proj1 (Forall_forall _ _) (pk_notes _ Hpk)).
Qed.

Lemma choice_understanding_total correct is_fact : exists u, choice_understanding correct is_fact = Ok u.
Proof. destruct correct, is_fact; vm_compute; eauto. Qed.

Lemma choice_total plan c resp :
  plan ∈ hp_l2_plans pack -> c ∈ l2_choices plan -> cr_choice_ids resp = [lc_choice_id c] ->
  turn_id_ok (cr_turn_id resp) = true ->
  let correct := bool_decide (ce_verdict (lc_effect c) = choice_correct) in
  exists u r, choice_semantics L2 (l2_plan_id plan) pack (HomeSnapshot snap) lg resp
              = Ok (choice_result u r correct None)
    /\ choice_understanding correct (bool_decide (ce_target_kind (lc_effect c) = KIND_fact)) = Ok u
    /\ if correct
       then structured_applied (HomeSnapshot snap) lg p (choice_facts (lc_effect c))
              (choice_relations pack (lc_effect c)) r
       else unchanged_result (HomeSnapshot snap) lg = Ok r.
Proof.
  intros Hp Hc Hids Hid correct. unfold choice_semantics, active_l2_plan. rewrite plan_by_subgoal, Hids by done.
  cbn [bool_decide raise_if mbind res_bind decide_rel]. rewrite choice_by_id by done.
  cbn [or_raise mbind res_bind].
  destruct (choice_understanding_total correct (bool_decide (ce_target_kind (lc_effect c) = KIND_fact)))
    as [u Hu].
  fold correct. exists u. destruct correct eqn:Ev; subst correct.
  - apply bool_decide_eq_true in Ev.
    destruct (choice_progress plan c (cr_turn_id resp)) as (r & Hr & Ha); [done..|].
    rewrite Hr. cbn [mbind res_bind]. rewrite Hu. cbn [mbind res_bind]. eauto.
  - destruct unchanged_total as [r Hr]. rewrite Hr. cbn [mbind res_bind]. rewrite Hu.
    cbn [mbind res_bind]. eauto.
Qed.

(** * The joint action *)

Lemma joint_facts_elem l i :
  i ∈ map fst (flat_map (fun c => match c with JointFactCompletionV2 i v => [(i, v)]
                                  | JointRelationCompletionV2 _ => [] end) l)
  <-> (KIND_fact, i) ∈ map joint_pair l.
Proof.
  induction l as [|[j v|j] l IH]; simpl.
  - split; intros Hi; by apply not_elem_of_nil in Hi.
  - rewrite !elem_of_cons, IH. split; (intros [Heq|]; [left|by right]); [by rewrite Heq|by injection Heq].
  - rewrite elem_of_cons, IH. split; [by right|by intros [[=]|]].
Qed.

Lemma joint_relations_elem l i :
  i ∈ joint_relation_ids l <-> (KIND_relation, i) ∈ map joint_pair l.
Proof.
  unfold joint_relation_ids. induction l as [|[j v|j] l IH]; simpl.
  - split; intros Hi; by apply not_elem_of_nil in Hi.
  - rewrite elem_of_cons, IH. split; [by right|by intros [[=]|]].
  - rewrite !elem_of_cons, IH. split; (intros [Heq|]; [left|by right]); [by rewrite Heq|by injection Heq].
Qed.

Lemma joint_facts_dict l : NoDup (map joint_pair l) ->
  joint_fact_values l = flat_map (fun c => match c with JointFactCompletionV2 i v => [(i, v)]
                                           | JointRelationCompletionV2 _ => [] end) l.
Proof.
  intros Hnd. unfold joint_fact_values. apply dict_by_id. induction l as [|c l IH]; simpl in *; [constructor|].
  apply NoDup_cons in Hnd as [Hc Hnd]. destruct c as [i v|i]; simpl; [|by apply IH].
  constructor; [|by apply IH]. rewrite joint_facts_elem. done.
Qed.

Lemma joint_fact_value l i v : (i, v) ∈ flat_map (fun c => match c with JointFactCompletionV2 i v => [(i, v)]
                                  | JointRelationCompletionV2 _ => [] end) l -> JointFactCompletionV2 i v ∈ l.
Proof.
  intros (c & Hc & Hin)%list_elem_of_In%in_flat_map. destruct c as [j w|j]; simpl in Hin; [|done].
  destruct Hin as [[= -> ->]|[]]. by apply list_elem_of_In.
Qed.

(** What the joint action submits is everything that is required. *)
Lemma joint_covers s0 lg0 q r :
  pack_contract q ->
  structured_applied s0 lg0 q (joint_fact_values (pack_joint_completions q)) (joint_relations q) r ->
  forall g, ~ open_target q (ar_ledger r) g.
Proof.
  intros Hpk [Hf Hrel _ _ _ _ _ _ _ _] [k i] [Hreq Hun]. destruct (pk_joint _ Hpk) as [Hnd Hcov].
  unfold unverified in Hun. apply Hcov in Hreq. destruct k; simpl in Hun; apply Hun.
  - rewrite Hf, elem_of_union, elem_of_list_to_set, joint_facts_dict by done. right. by apply joint_facts_elem.
  - rewrite Hrel, elem_of_union, elem_of_list_to_set. right. unfold joint_relations.
    rewrite elem_of_fromkeys, elem_of_app, joint_relations_elem. by left.
Qed.

Lemma joint_total l resp :
  expression_level l = L0 -> hint_level l = H3 -> turn_id_ok (cr_turn_id resp) = true ->
  same_json_dict (cr_values resp) (joint_completion_values (pack_joint_completions p)) = true ->
  exists t, joint_semantics l p (HomeSnapshot snap) lg resp = Ok t
    /\ ts_understanding_source t = US_structured_joint
    /\ forall g, ~ open_target p (ar_ledger (ts_apply_result t)) g.
Proof.
  intros He Hh Hid Hv. unfold joint_semantics. rewrite He, Hh, Hv.
  cbn [negb orb bool_decide raise_if mbind res_bind decide_rel].
  pose proof (frame_contract _ _ _ Hframe) as Hpk. destruct (pk_joint _ Hpk) as [Hnd Hcov].
  assert (Hjr : forall i, i ∈ joint_relations p ->
    (KIND_relation, i) ∈ required_targets p \/ i ∈ pack_note_relation_ids p).
  { intros i. unfold joint_relations. rewrite elem_of_fromkeys, elem_of_app, joint_relations_elem, Hcov.
    intros [|Hi]; [by left|right]. rewrite sorted_set_elem in Hi.
    apply list_elem_of_In, filter_In in Hi as [Hi _]. by apply list_elem_of_In. }
  destruct (structured_progress_total (HomeSnapshot snap) lg p (joint_fact_values (pack_joint_completions p))
    (joint_relations p) (cr_turn_id resp) SRC_joint) as (r & Hr & Ha); try done; try apply Hframe.
  - by eapply frame_resolves.
  - apply NoDup_fromkeys.
  - rewrite joint_facts_dict by done. intros i v Hi%joint_fact_value. by apply (pk_joint_values _ Hpk).
  - intros i [Hi%required_graph|Hi]%Hjr; [done|]. by apply (proj1 (Forall_forall _ _) (pk_notes _ Hpk)).
  - rewrite Hr. cbn [mbind res_bind]. vm_compute server_understanding. cbn [mbind res_bind].
    eexists. split; [done|]. split; [done|]. by apply (joint_covers (HomeSnapshot snap) lg p).
Qed.

(** * The question on screen *)

Definition screen_of (s : SessionState) (q : QuestionContract) : Prop :=
  match expression_level (ladder s) with
  | L2 => exists plan, plan ∈ hp_l2_plans pack /\ subgoal_id s = l2_plan_id plan
            /\ ic_kind (qc_input q) = IK_CHOICES
            /\ ic_choices (qc_input q) = map (fun c => {| co_id := lc_choice_id c; co_label := lc_label c;
                                          co_image_url := None; co_disabled := None |}) (l2_choices plan)
  | L0 => ic_kind (qc_input q) = IK_JOINT /\ exists a b c, ic_config (qc_input q)
            = CFG_joint a b c (joint_completion_values (pack_joint_completions p))
  | _ => ic_kind (qc_input q) = IK_TEXT
  end.

Lemma screen_shape s q :
  ss_status (outcome s) = ACTIVE -> question_contract s pack lg = Ok (s, q) -> screen_of s q.
Proof.
  intros Hs Hq. unfold question_contract in Hq. rewrite Hs, decide_False in Hq by done.
  unfold screen_of. destruct (targets_from_active_state _ _ _) as [ts|]; [|done].
  cbn [mbind res_bind] in Hq. destruct (expression_level (ladder s)) eqn:El.
  - unfold free_text_question in Hq. case_bool_decide; cbn [mbind res_bind fst snd] in Hq.
    + by injection Hq as _ <-.
    + destruct (hp_l3_plans pack); [done|]. by res_inv.
  - unfold l3_question in Hq. by res_inv.
  - destruct (l2_plan_for_targets pack ts) as [plan|] eqn:Ep; [|done]. cbn [mbind res_bind] in Hq.
    destruct (first_slot _ _) as [slot|]; [|done]. cbn [mbind res_bind] in Hq. injection Hq as Hsub <-.
    exists plan. apply (f_equal subgoal_id) in Hsub. simpl in Hsub. split; [|done].
    unfold l2_plan_for_targets in Ep. destruct (find_first _ _) as [x|] eqn:Ef; [|done].
    injection Ep as ->. by apply find_first_Some in Ef as [? _].
  - unfold free_text_question in Hq. case_bool_decide; cbn [mbind res_bind fst snd] in Hq.
    + by injection Hq as _ <-.
    + destruct (hp_l3_plans pack); [done|]. by res_inv.
  - destruct (slot_for_purpose pack l0_intro) as [intro|]; [|done].
    cbn [mbind res_bind] in Hq. destruct (slot_for_purpose pack l0_action) as [action|]; [|done].
    cbn [mbind res_bind] in Hq. injection Hq as _ <-. simpl. split; [done|]. by do 3 eexists.
Qed.

(** A choice admitted by the gate is a choice of the plan on screen. *)
Lemma gate_choice plan input id resp :
  ic_kind input = IK_CHOICES ->
  ic_choices input = map (fun c => {| co_id := lc_choice_id c; co_label := lc_label c;
                                      co_image_url := None; co_disabled := None |}) (l2_choices plan) ->
  gate input id resp = Ok tt -> cr_type resp <> RT_NO_RESPONSE ->
  cr_type resp = RT_CHOICE /\ exists c, c ∈ l2_choices plan /\ cr_choice_ids resp = [lc_choice_id c].
Proof.
  intros Hk Hc Hg Hn. unfold gate in Hg. destruct (raise_if (negb (bool_decide _)) _); [|done].
  cbn [mbind res_bind] in Hg. rewrite Hk in Hg. unfold response_matches_input in Hg.
  destruct (cr_type resp) eqn:Et; try done. split; [done|]. unfold validate_response_payload in Hg.
  rewrite Et, Hk in Hg. cbn [negb bool_decide decide_rel raise_if mbind res_bind andb] in Hg. simpl in Hg.
  destruct (cr_choice_ids resp) as [|i [|]]; [done| |done]. apply raise_if_Ok, negb_false_iff, memb_spec in Hg.
  rewrite Hc in Hg. apply list_elem_of_fmap in Hg as (o & -> & Ho).
  apply list_elem_of_In, filter_In in Ho as [Ho _]. apply list_elem_of_In, list_elem_of_fmap in Ho as (c & -> & Hin).
  exists c. split; [done|]. done.
Qed.

Lemma gate_joint input id resp a b c e :
  ic_kind input = IK_JOINT -> ic_config input = CFG_joint a b c e ->
  gate input id resp = Ok tt -> cr_type resp <> RT_NO_RESPONSE ->
  cr_type resp = RT_ACTION /\ same_json_dict (cr_values resp) e = true.
Proof.
  intros Hk Hc Hg Hn. unfold gate in Hg. destruct (raise_if (negb (bool_decide _)) _); [|done].
  cbn [mbind res_bind] in Hg. rewrite Hk in Hg. unfold response_matches_input in Hg.
  destruct (cr_type resp) eqn:Et; try done. split; [done|]. unfold validate_response_payload in Hg.
  rewrite Et, Hk, Hc in Hg. simpl in Hg. by apply raise_if_Ok, negb_false_iff in Hg.
Qed.

Lemma gate_text input id resp :
  ic_kind input = IK_TEXT -> gate input id resp = Ok tt -> cr_type resp <> RT_NO_RESPONSE ->
  cr_type resp = RT_TEXT.
Proof.
  intros Hk Hg Hn. unfold gate in Hg. destruct (raise_if (negb (bool_decide _)) _); [|done].
  cbn [mbind res_bind] in Hg. rewrite Hk in Hg. unfold response_matches_input in Hg.
  by destruct (cr_type resp) eqn:Et.
Qed.

Lemma gate_turn input id resp : gate input id resp = Ok tt -> cr_turn_id resp = id.
Proof.
  unfold gate. destruct (raise_if (negb (bool_decide (id = _))) _) eqn:E; [|done]. intros _.
  by apply raise_if_Ok, negb_false_iff, bool_decide_eq_true in E.
Qed.

(** The pack and the environment of a turn: what [interpret_total] needs. *)
Record turn_inputs (gw : nat -> UnderstandingRequestV2 -> GatewayOutcome) (resp : ChildResponse)
    (pq : string) : Prop := {
  ti_ready : engine_ready pack = true;
  ti_room : roomy lg;
  ti_gateway k : gateway_ok (gw k);
  ti_response : child_response_ok resp;
  ti_question : 1 <= py_len pq
}.

Lemma interpret_total gw s turn resp pq recent :
  session_ok pack s turn snap lg -> ss_status (outcome s) = ACTIVE -> turn_inputs gw resp pq ->
  gate (tc_input turn) (tc_turn_id turn) resp = Ok tt ->
  exists t, interpret_execution gw s pack snap lg resp pq recent = Ok t.
Proof.
  intros Hk Hs [Hready Hroom Hgw Hresp Hpq] Hg. apply andb_true_iff in Hready as [_ Hfit].
  destruct (sk_screen _ _ _ _ _ Hk) as (q & Hq & Hin). rewrite Hin in Hg.
  pose proof (sk_id _ _ _ _ _ Hk) as Hid. rewrite <- (gate_turn _ _ _ Hg) in Hid.
  pose proof (screen_shape s q Hs Hq) as Hscreen. unfold interpret_execution.
  destruct (decide (cr_type resp = RT_NO_RESPONSE)) as [Hno|Hno].
  { rewrite Hno. apply no_response_total. }
  unfold screen_of in Hscreen. destruct (expression_level (ladder s)) eqn:El.
  1,2,4: pose proof (gate_text _ _ _ Hscreen Hg Hno) as Ht; rewrite Ht;
    match goal with |- context [targets_from_active_state ?lv _ _] =>
      destruct (active_targets pack snap lg Hframe lv) as (ts & Hts & _ & Hnil) end;
    rewrite Hts; cbn [mbind res_bind]; apply text_total; try done;
    eapply active_askable; [exact Hts|]; intros Hn; pose proof (sk_outcome _ _ _ _ _ Hk) as Ho;
    unfold outcome_ok in Ho; rewrite Hs in Ho; destruct Ho as [[t0 Ht0] _]; by apply (Hnil Hn t0).
  - destruct Hscreen as (plan & Hp & Hsub & Hkind & Hch).
    destruct (gate_choice plan _ _ _ Hkind Hch Hg Hno) as (Ht & c & Hc & Hids). rewrite Ht, Hsub.
    destruct (choice_total plan c resp Hp Hc Hids Hid) as (u & r & Ht' & _). eauto.
  - destruct Hscreen as (Hkind & a & b & c & Hcfg).
    destruct (gate_joint _ _ _ _ _ _ _ Hkind Hcfg Hg Hno) as [Ht Hv]. rewrite Ht.
    destruct (joint_total (ladder s) resp) as (t & Ht' & _); try done; [|eauto].
    pose proof (sk_ladder _ _ _ _ _ Hk) as ((_ & Hl) & _). by apply Hl.
Qed.

(** * Composing the answer *)

Lemma verified_fact_known i : is_Some (verified_facts lg !! i) -> exists f, facts_by_id p i = Some f.
Proof.
  intros Hi%elem_of_dom. pose proof (ef_bound _ _ _ Hframe) as Hb.
  apply binding_spec in Hb as (_ & Hf & _). apply facts_by_id_is_Some, Hf, Hi.
Qed.

Lemma verified_relation_known i :
  is_Some (verified_relations lg !! i) -> exists r, relations_by_id p i = Some r.
Proof.
  intros Hi%elem_of_dom. pose proof (ef_bound _ _ _ Hframe) as Hb.
  apply binding_spec in Hb as (_ & _ & Hr & _). apply relations_by_id_is_Some, Hr, Hi.
Qed.

Lemma final_total : exists f, final_answer_fact pack = Ok f.
Proof.
  destruct (hk_final _ (frame_home _ _ _ Hframe)) as [f Hf]. exists f. unfold final_answer_fact. by rewrite Hf.
Qed.

Lemma sync_total : exists v, sync_legacy_slots pack lg = Ok v.
Proof.
  unfold sync_legacy_slots. destruct final_total as [f ->]. cbn [mbind res_bind].
  assert (exists a : gmap string pyvalue,
    (if bool_decide (is_Some (verified_facts lg !! cf_fact_id f)) then
       fact ← or_raise (facts_by_id p (cf_fact_id f)) (KeyError (cf_fact_id f));
       Ok {["answer" := primitive (fact_value fact)]} else Ok ∅) = Ok a) as [a ->].
  { case_bool_decide as Hv; [|eauto]. destruct (verified_fact_known _ Hv) as [g ->]. simpl. eauto. }
  cbn [mbind res_bind]. destruct (verified_required_relations p lg) as [|i l] eqn:E; [eauto|].
  assert (i ∈ verified_required_relations p lg) as Hi by (rewrite E; left).
  apply list_elem_of_In, filter_In in Hi as [_ Hi%bool_decide_eq_true].
  destruct (verified_relation_known _ Hi) as [r ->]. simpl. eauto.
Qed.

Lemma completion_facts_total : exists d, completion_facts pack lg = Ok d.
Proof.
  unfold completion_facts. cbn zeta.
  destruct (foldM_total (completion_fact_step p lg) (fun _ => True) (required_fact_ids (pack_completion p)) ∅)
    as (d1 & -> & _); [|done|].
  { intros d i _ _. unfold completion_fact_step. destruct (verified_facts lg !! i) eqn:E; [|eauto].
    destruct (verified_fact_known i) as [g ->]; [eauto|]. simpl. eauto. }
  cbn [mbind res_bind].
  destruct (foldM_total (completion_relation_step p lg) (fun _ => True)
    (required_relation_ids (pack_completion p)) d1) as (d2 & -> & _); [|done|].
  { intros d i _ _. unfold completion_relation_step. destruct (verified_relations lg !! i) eqn:E; [|eauto].
    destruct (verified_relation_known i) as [g ->]; [eauto|]. simpl. eauto. }
  cbn [mbind res_bind]. destruct final_total as [f ->]. cbn [mbind res_bind].
  destruct (required_relation_ids (pack_completion p)) as [|i l]; [eauto|].
  destruct (verified_relations lg !! i) eqn:E; [|eauto].
  destruct (verified_relation_known i) as [g ->]; [eauto|]. simpl. eauto.
Qed.

Lemma focus_total t : target_in_graph p (target_pair t) -> exists l, target_focus_label p t = Ok l.
Proof.
  unfold target_in_graph, target_focus_label, target_pair. simpl. destruct (target_kind t); intros Hi.
  - apply facts_by_id_is_Some in Hi as [f ->]. simpl. eauto.
  - apply relations_by_id_is_Some in Hi as [r ->]. simpl. eauto.
Qed.

Lemma fallback_total t q a b n :
  (forall u, u ∈ qc_targets q -> target_in_graph p (target_pair u)) ->
  exists text, conversational_fallback p t q a b n = Ok text.
Proof.
  intros Hq. unfold conversational_fallback.
  destruct (mapR_total (target_focus_label p) (qc_targets q)) as [ls ->].
  { intros u Hu. by apply focus_total, Hq. }
  cbn [mbind res_bind]. eauto.
Qed.
End total.

Section answer.
Context `{!Digest} `{!DigestFormat} `{!PackModel} `{!PackModelChecks} `{!PackModelLaws}
        `{!HomePackLaws} `{!Nfc} `{!SpeechPort} `{!SpeechPortLaws}.
Variables (pack : RequiredHomeTeachingPackV2) (snap : PinnedContentSnapshotV2).
Notation p := (HomePack pack).
Implicit Types (s : SessionState) (lg : ReasoningLedgerV2).

Lemma question_again s lg s' q :
  question_contract s pack lg = Ok (s', q) -> question_contract s' pack lg = Ok (s', q).
Proof.
  intros Hq. pose proof (question_stable s pack lg s' q (state_version s') (current_turn_id s') Hq) as Hs.
  by destruct s'.
Qed.

Lemma question_exists lg s :
  engine_frame pack snap lg -> plans_agree pack = true -> ss_status (outcome s) = ACTIVE ->
  (exists t, open_target p lg t) ->
  exists s' q, question_contract s pack lg = Ok (s', q) /\ ic_target_slots (qc_input q) <> []
    /\ forall u, u ∈ qc_targets q -> target_in_graph p (target_pair u).
Proof.
  intros Hf Ha Hs Ho. destruct (question_total pack snap lg Hf s) as (s' & q & Hq & _ & Hg); [congruence|done|done|].
  exists s', q. split; [done|]. split.
  { rewrite (gq_slots _ _ _ _ Hg). pose proof (gq_some _ _ _ _ Hg). by destruct (qc_targets q). }
  intros u Hu. apply (required_graph pack snap lg Hf).
  by destruct (gq_open _ _ _ _ Hg u Hu).
Qed.

Lemma anchor_total lg input :
  engine_frame pack snap lg -> ic_target_slots input <> [] ->
  exists a, task_anchor pack input = Ok a.
Proof.
  intros Hf Hi. pose proof (hk_prompt _ (frame_home _ _ _ Hf)) as Hp. unfold text_field in Hp.
  apply bool_decide_eq_true in Hp. unfold task_anchor, task_anchor_contract. simpl.
  rewrite bool_decide_eq_false_2 by lia. destruct (ic_target_slots input); [done|]. simpl. eauto.
Qed.

Lemma build_total ids s lg text mood s' q :
  engine_frame pack snap lg -> question_contract s pack lg = Ok (s', q) ->
  contract_line text = true ->
  (ss_status (outcome s') = ACTIVE -> ic_target_slots (qc_input q) <> []) ->
  exists turn, build_turn ids s pack lg text mood = Ok (s', turn).
Proof.
  intros Hf Hq Htext Hslots. unfold build_turn. rewrite Hq. cbn [mbind res_bind fst snd].
  destruct (completion_facts_total pack snap lg Hf) as [d Hd].
  rewrite mormi_contract_total by done.
  destruct (completion_outcome (outcome s')) eqn:Eo, (ss_status (outcome s')) eqn:Es; simpl;
    rewrite ?Hd; cbn [mbind res_bind]; try (by eauto);
    destruct (anchor_total lg (qc_input q) Hf (Hslots eq_refl)) as [a ->]; cbn [mbind res_bind]; eauto.
Qed.

(** The question a turn asks back: the next question, or the reviewed offer of help. *)
Definition asked (next : SessionState) (t : TurnSemantics) : res (SessionState * QuestionContract) :=
  out ← question_contract next pack (ar_ledger (ts_apply_result t));
  q ← (if ts_initial_help t then initial_help_question_contract pack out.2 else Ok out.2);
  Ok (out.1, q).

(** The turn can be answered: it completes the session, or its speech fits. *)
Definition speech_ready (s next : SessionState) (t : TurnSemantics) : bool :=
  match asked next t with
  | Ok (s', q) => speech_fits (ladder s') t (qc_targets q)
      (bool_decide (is_Some (stable_fallback s' p q (expression_level (ladder s)) (hint_level (ladder s)))))
  | Raise _ => false
  end.
Definition turn_fits (s : SessionState) (t : TurnSemantics) : bool :=
  complete (ar_completion (ts_apply_result t))
  || match apply_execution s (with_turn s (state_version s + 1) None) pack t with
     | Ok next => speech_ready s next t | Raise _ => false end.

Lemma ready_ids i : speaker_ready pack = true ->
  i = "l0.joint"%string \/ i ∈ qp_plan_id (hp_initial_question pack) :: map qp_plan_id (hp_l3_plans pack) ++ map l2_plan_id (hp_l2_plans pack) ->
  reference_id 160 (fallback_ref i) = true.
Proof.
  intros Hr [-> | Hi]; [vm_compute; reflexivity|]. unfold speaker_ready in Hr. rewrite !andb_true_iff in Hr.
  destruct Hr as [_ Hr]. rewrite forallb_forall in Hr. by apply Hr, list_elem_of_In.
Qed.

Lemma askable_ready ts : askable pack ts -> targets_ready ts = true.
Proof.
  intros (Hl & Hnd & _). unfold targets_ready. apply andb_true_iff. split; [apply bool_decide_eq_true; lia|by apply uniqueb_spec].
Qed.

Lemma l2_plan_in ts q : l2_plan_for_targets pack ts = Ok q -> q ∈ hp_l2_plans pack.
Proof.
  unfold l2_plan_for_targets. destruct (find_first _ _) eqn:Ef; [|done]. intros [= <-]. by apply find_first_Some in Ef as [Hin _].
Qed.

Lemma question_targets lg s s' q :
  engine_frame pack snap lg -> speaker_ready pack = true -> ss_status (outcome s) = ACTIVE ->
  question_contract s pack lg = Ok (s', q) -> qc_targets q <> [] ->
  targets_ready (qc_targets q) = true /\ reference_id 160 (fallback_ref (subgoal_id s')) = true.
Proof.
  intros Hf Hr Hs Hq Hne. unfold question_contract in Hq. rewrite decide_False in Hq by congruence.
  destruct (targets_from_active_state _ _ _) as [ts|] eqn:Hts; [|done]. cbn [mbind res_bind] in Hq.
  assert (Hask : ts <> [] -> targets_ready ts = true) by (intros Hn; eapply askable_ready, active_askable; done).
  pose proof Hr as Hr0. unfold speaker_ready in Hr0. rewrite !andb_true_iff in Hr0.
  destruct Hr0 as ((((_ & Hinit) & Hl3) & _) & _).
  assert (Hfree : forall out, free_text_question (hp_initial_question pack) (hp_l3_plans pack) ts = Ok out ->
    qc_targets out.2 = ts /\ reference_id 160 (fallback_ref out.1) = true).
  { intros out Ho. unfold free_text_question in Ho. case_bool_decide; [injection Ho as <-; split; [done|]; apply ready_ids; [done|]; right; left|].
    destruct (hp_l3_plans pack) eqn:El; [done|]. res_inv. split; [done|]. apply ready_ids; [done|]. right. right.
    apply elem_of_app. left. apply list_elem_of_fmap. eexists. split; [done|]. rewrite El. by eapply l3_exact_in. }
  assert (Hfq : (out ← free_text_question (hp_initial_question pack) (hp_l3_plans pack) ts; Ok (with_subgoal s out.1, out.2)) = Ok (s', q) ->
    targets_ready (qc_targets q) = true /\ reference_id 160 (fallback_ref (subgoal_id s')) = true).
  { destruct (free_text_question _ _ _) as [out|] eqn:Ho; [|done]. intros [= <- <-]. destruct (Hfree _ eq_refl) as [Ht Hid].
    rewrite Ht in *. split; [by apply Hask|done]. }
  destruct (expression_level (ladder s)); try (by apply Hfq); clear Hfq Hfree; res_inv; simpl in *.
  - unfold l3_question in *. res_inv. simpl in *.
    match goal with H : l3_plan_by_key _ _ = Ok _ |- _ => apply l3_by_key_in in H; rename H into Hin end.
    split; [rewrite forallb_forall in Hl3; by apply Hl3, list_elem_of_In|]. apply ready_ids; [done|]. right. right.
    apply elem_of_app. left. apply list_elem_of_fmap. eauto.
  - split; [done|].
    match goal with H : l2_plan_for_targets _ _ = Ok _ |- _ => apply l2_plan_in in H; rename H into Hin end.
    apply ready_ids; [done|]. right. right. apply elem_of_app. right.
    apply list_elem_of_fmap. eauto.
  - split; [by apply Hask|done].
Qed.

(** What is asked back suits the speaker, and the state shown keeps the ladders. *)
Lemma asked_total lg next t :
  engine_frame pack snap lg -> ar_ledger (ts_apply_result t) = lg -> question_ready pack = true ->
  ss_status (outcome next) = ACTIVE -> ladder_shape (ladder next) -> (exists g, open_target p lg g) ->
  exists s' q q', question_contract next pack lg = Ok (s', q) /\ ic_target_slots (qc_input q) <> []
    /\ asked next t = Ok (s', q') /\ ladder s' = ladder next
    /\ sayable (qc_fallback q') = true
    /\ reference_id 160 (fallback_ref (subgoal_id s')) = true
    /\ targets_ready (qc_targets q') = true
    /\ (forall u, u ∈ qc_targets q' -> target_in_graph p (target_pair u))
    /\ (ts_initial_help t = false -> forall u, u ∈ qc_targets q' -> open_target p lg (target_pair u)).
Proof.
  intros Hf Hlg [[Ha Hsp]%andb_true_iff Hr]%andb_true_iff Hs Hl Ho.
  destruct (question_total pack snap lg Hf next) as (s' & q & Hq & Hstate & Hg); [congruence|done|done|].
  destruct (question_targets _ _ _ _ Hf Hr Hs Hq (gq_some _ _ _ _ Hg)) as [Htr Hid].
  pose proof (question_line _ _ _ _ _ Hsp Hs Hq) as Hline.
  assert (Hladder : ladder s' = ladder next).
  { unfold question_state in Hstate. rewrite Hstate. simpl. destruct Hl as (_ & Hl).
    case_decide as He; [|done]. rewrite <- (proj1 Hl He). apply with_hint_id. }
  assert (Hslots : ic_target_slots (qc_input q) <> []).
  { rewrite (gq_slots _ _ _ _ Hg). pose proof (gq_some _ _ _ _ Hg). by destruct (qc_targets q). }
  assert (Hgraph : forall u, u ∈ qc_targets q -> target_in_graph p (target_pair u)).
  { intros u Hu. apply (required_graph pack snap lg Hf). by destruct (gq_open _ _ _ _ Hg u Hu). }
  unfold asked. rewrite Hlg, Hq. cbn [mbind res_bind fst snd]. exists s', q.
  destruct (ts_initial_help t) eqn:Eh.
  - destruct (initial_help_total pack snap lg Hf q) as (q' & Hh & _ & Hg'). exists q'. rewrite Hh. cbn [mbind res_bind].
    pose proof (help_line _ _ _ Hsp Hh). do 6 (split; [done|]). split; [|done].
    unfold initial_help_question_contract, slot_for_purpose, first_slot in Hh.
    destruct (find_first _ _) as [slot|] eqn:Eslot; [|done]. apply find_first_Some in Eslot as [Hin _].
    cbn [or_raise mbind res_bind] in Hh. injection Hh as <-. simpl.
    unfold speaker_ready in Hr. rewrite !andb_true_iff in Hr. destruct Hr as ((_ & Hr) & _).
    rewrite forallb_forall in Hr. by apply Hr, list_elem_of_In.
  - exists q. do 8 (split; [done|]). intros _ u Hu. by apply (gq_open _ _ _ _ Hg).
Qed.

(** ** Speaking *)

Lemma interpreted_coherent lg0 t l q :
  engine_frame pack snap (ar_ledger (ts_apply_result t)) -> speaker_ready pack = true ->
  ladder_shape l -> spoken_turn (hint_level l <> H0) t -> new_progress lg0 (ts_apply_result t) ->
  targets_ready (qc_targets q) = true -> (forall u, u ∈ qc_targets q -> target_in_graph p (target_pair u)) ->
  (ts_initial_help t = false -> forall u, u ∈ qc_targets q -> open_target p (ar_ledger (ts_apply_result t)) (target_pair u)) ->
  turn_coherent p l t q.
Proof.
  intros Hf Hr (_ & Hl) [Hfo Hca Hcl Hch] [[Hnf Hf1] [Hnr Hr1] Hh] Ht Hg Ho. split; try done.
  - by apply Hl.
  - intros i Hi. destruct (verified_fact_known pack snap _ Hf i Hi) as [f ->]. eauto.
  - intros i [Hi _]%Hf1. by apply elem_of_dom.
  - intros i [Hi _]%Hr1. apply elem_of_dom in Hi. split; [done|]. destruct (verified_relation_known pack snap _ Hf i Hi) as [r ->]. eauto.
  - intros Hs. destruct (Hch Hs) as [Hc Hi]. split; [done|]. intros u Hu. destruct (Ho Hi u Hu) as [_ Hun].
    unfold unverified, target_pair in Hun. simpl in Hun. destruct (target_kind u); intros Hin; apply Hun.
    + by apply Hf1 in Hin as [? _].
    + by apply Hr1 in Hin as [? _].
Qed.

Lemma spoken_weaken (A B : Prop) t : (A -> B) -> spoken_turn A t -> spoken_turn B t.
Proof. intros Hab [? Hc ? ?]. split; try done. intros. by apply Hab, Hc. Qed.

(** Rendering is the last step of speaking, on a question and a fallback in order. *)
Lemma speech_shape lg0 s next t :
  engine_frame pack snap (ar_ledger (ts_apply_result t)) -> question_ready pack = true ->
  ss_status (outcome next) = ACTIVE -> ladder_shape (ladder next) ->
  (exists g, open_target p (ar_ledger (ts_apply_result t)) g) ->
  spoken_turn (hint_level (ladder next) <> H0) t -> new_progress lg0 (ts_apply_result t) ->
  exists s' q q' fallback, question_contract next pack (ar_ledger (ts_apply_result t)) = Ok (s', q)
    /\ ic_target_slots (qc_input q) <> [] /\ asked next t = Ok (s', q') /\ ladder s' = ladder next
    /\ turn_coherent p (ladder s') t q' /\ reference_id 160 (fallback_ref (subgoal_id s')) = true
    /\ sayable fallback = true /\ sayable (qc_fallback q') = true
    /\ speech_execution s next pack t
       = (speech ← render_speech s' (hint_level (ladder s)) (supported_note_slots (notes s')) p t q'
            (stable_fallback s' p q' (expression_level (ladder s)) (hint_level (ladder s))) fallback;
          Ok (s', speech)).
Proof.
  intros Hf Hready Hs Hl Ho Hsp Hnp.
  destruct (asked_total _ next t Hf eq_refl Hready Hs Hl Ho) as (s' & q & q' & Hq & Hsl & Hask & Hls & Hline & Hid & Htr & Hg & Hop).
  apply andb_true_iff in Hready as [[_ Hpack]%andb_true_iff Hr].
  assert (Hco : turn_coherent p (ladder s') t q') by (apply (interpreted_coherent lg0); rewrite ?Hls; done).
  unfold speech_execution. pose proof Hask as Hask'. unfold asked in Hask'. rewrite Hq in *. cbn [mbind res_bind fst snd] in *.
  destruct (if ts_initial_help t then _ else _) as [q1|]; [|done]. cbn [mbind res_bind] in *. injection Hask' as ->.
  match goal with |- context [conversational_fallback p t q' ?a ?b ?n] =>
    destruct (fallback_total pack t q' a b n Hg) as [text Htext];
    pose proof (fallback_sayable pack t q' a b n text Hpack Htext) as Hsay; rewrite Htext end.
  cbn [mbind res_bind]. exists s', q, q', text. done.
Qed.

(** The speech of an incomplete turn: rendered exactly when it fits, and then it is a
    line of the contract. *)
Lemma speech_total lg0 s next t :
  engine_frame pack snap (ar_ledger (ts_apply_result t)) -> question_ready pack = true ->
  ss_status (outcome next) = ACTIVE -> ladder_shape (ladder next) ->
  (exists g, open_target p (ar_ledger (ts_apply_result t)) g) ->
  spoken_turn (hint_level (ladder next) <> H0) t -> new_progress lg0 (ts_apply_result t) ->
  match speech_execution s next pack t with
  | Ok (s', speech) => speech_ready s next t = true /\ contract_line (sp_text speech) = true
      /\ exists q, question_contract next pack (ar_ledger (ts_apply_result t)) = Ok (s', q)
           /\ ic_target_slots (qc_input q) <> []
  | Raise _ => speech_ready s next t = false
  end.
Proof.
  intros Hf Hready Hs Hl Ho Hsp Hnp.
  destruct (speech_shape lg0 s next t Hf Hready Hs Hl Ho Hsp Hnp)
    as (s' & q & q' & fallback & Hq & Hsl & Hask & _ & Hco & Hid & Hsay & Hline & ->).
  apply andb_true_iff in Hready as [[_ Hpack]%andb_true_iff Hr].
  assert (Hfacts : NoDup (pack_fact_ids p)) by apply (pk_facts_unique _ (frame_contract _ _ _ Hf)).
  unfold speech_ready. rewrite Hask.
  match goal with |- context [render_speech ?n ?h ?su p t q' ?st ?fb] =>
    pose proof (render_succeeds pack Hr Hfacts n h su t q' st fb Hco Hid) as Hrender;
    destruct (render_speech n h su p t q' st fb) as [speech|e] eqn:Er end; cbn [mbind res_bind]; [|done].
  split; [done|]. split; [|eauto]. eapply (render_line pack Hpack Hr); [|exact Hsay|exact Hline|exact Er].
  intros tx m act. apply stable_line.
Qed.

Lemma apply_execution_total s turn lg t :
  session_ok pack s turn snap lg -> sound_result (HomeSnapshot snap) lg (ts_apply_result t) ->
  exists next, apply_execution s (with_turn s (state_version s + 1) None) pack t = Ok next
    /\ outcome next = with_verified_slots (outcome s) (verified_slots (outcome next))
    /\ (task_ids next, task_index next) = (task_ids s, task_index s)
    /\ ladder next = next_ladder s t.
Proof.
  intros Hk Hsound. pose proof (sk_frame _ _ _ _ _ Hk) as [Hpin Hfr].
  destruct (sound_frame pack snap lg _ Hfr Hsound) as [Hfr' _].
  unfold apply_execution, store_ledger. cbn [with_turn with_ladder pinned_dialogue_v2]. rewrite Hpin. cbn [or_raise mbind res_bind].
  destruct (sync_total pack snap _ Hfr') as [v ->]. cbn [mbind res_bind]. eexists. split; [reflexivity|]. done.
Qed.

(** The speech of an incomplete turn is judged on its ladders, its result and the
    targets asked back. *)
Lemma turn_fits_shape s turn lg t :
  session_ok pack s turn snap lg -> ss_status (outcome s) = ACTIVE ->
  sound_result (HomeSnapshot snap) lg (ts_apply_result t) ->
  complete (ar_completion (ts_apply_result t)) = false -> question_ready pack = true ->
  exists targets has_stable, targets_ready targets = true
    /\ turn_fits s t = speech_fits (next_ladder s t) t targets has_stable.
Proof.
  intros Hk Hs Hsound Hc Hready. pose proof (sk_frame _ _ _ _ _ Hk) as [_ Hfr].
  destruct (sound_frame pack snap lg _ Hfr Hsound) as [Hfr' _].
  destruct (apply_execution_total s turn lg t Hk Hsound) as (next & Hnext & Hout & _ & Hl).
  assert (Hl' : ladder_shape (ladder next)) by (rewrite Hl; apply next_shape, Hk).
  destruct (asked_total _ next t Hfr' eq_refl Hready) as (s' & q & q' & _ & _ & Hask & Hls & _ & _ & Htr & _);
    [by rewrite Hout|done|by eapply frame_open; [exact Hfr'|apply Hsound|]|].
  unfold turn_fits, speech_ready. rewrite Hc, Hnext, Hask, Hls, Hl. cbn [orb]. eauto.
Qed.

(** A turn is answered exactly when it fits. *)
Lemma finish_total ids s turn lg t :
  session_ok pack s turn snap lg -> ss_status (outcome s) = ACTIVE ->
  sound_result (HomeSnapshot snap) lg (ts_apply_result t) ->
  spoken_turn (hint_level (ladder s) <> H0) t -> new_progress lg (ts_apply_result t) ->
  (complete (ar_completion (ts_apply_result t)) = false -> question_ready pack = true) ->
  (exists r, finish_turn ids s pack t = Ok r) <-> turn_fits s t = true.
Proof.
  intros Hk Hs Hsound Hsp Hnp Ha.
  pose proof (sk_frame _ _ _ _ _ Hk) as [Hpin Hfr].
  destruct (sound_frame pack snap lg _ Hfr Hsound) as [Hfr' Hcomp].
  destruct (apply_execution_total s turn lg t Hk Hsound) as (next & Hnext & Hout & Htask & Hladder).
  unfold finish_turn, turn_fits. rewrite Hnext. cbn [mbind res_bind].
  destruct (complete (ar_completion (ts_apply_result t))) eqn:Ec; cbn [orb].
  - split; [done|]. intros _. unfold complete_state, current_task_id. injection Htask as -> ->.
    destruct (sk_task _ _ _ _ _ Hk) as [task ->]. cbn [or_raise mbind res_bind fst snd].
    unfold compose_execution.
    match goal with |- context [build_turn ids ?st _ _ ?tx ?m] =>
      destruct (build_total ids st (ar_ledger (ts_apply_result t)) tx m st
        {| qc_targets := []; qc_fallback := ""; qc_input := no_input; qc_copy_slot := None |} Hfr')
        as [turn' ->] end.
    { unfold question_contract. by rewrite decide_True. }
    { apply completion_line. }
    { done. }
    cbn [mbind res_bind]. eauto.
  - assert (Hst : ss_status (outcome next) = ACTIVE) by (rewrite Hout; exact Hs).
    pose proof (sk_ladder _ _ _ _ _ Hk) as Hl.
    assert (Hl' : ladder_shape (ladder next)) by (rewrite Hladder; by apply next_shape).
    assert (Hmore : hint_level (ladder s) <> H0 -> hint_level (ladder next) <> H0).
    { rewrite Hladder. destruct (policy_supports (ladder s) t (proj1 Hl)) as (_ & Hm & _). unfold next_ladder.
      intros Hh Hn. rewrite Hn in Hm. destruct (hint_level (ladder s)); vm_compute in Hm; (congruence || lia). }
    pose proof (speech_total lg s next t Hfr' (Ha eq_refl) Hst Hl') as Hspeech.
    destruct (speech_execution s next pack t) as [[s' speech]|e].
    + destruct Hspeech as (Hready & Hline & q & Hq & Hsl); [by eapply frame_open; [exact Hfr'|apply Hsound|]|by eapply spoken_weaken|done|].
      rewrite Hready. split; [done|]. intros _. cbn [mbind res_bind fst snd]. unfold compose_execution.
      destruct (build_total ids s' (ar_ledger (ts_apply_result t)) (sp_text speech) (sp_mood speech) s' q Hfr')
        as [turn' ->]; [by eapply question_again|done|done|]. cbn [mbind res_bind]. eauto.
    + rewrite Hspeech; [|by eapply frame_open; [exact Hfr'|apply Hsound|]|by eapply spoken_weaken|done]. cbn [mbind res_bind].
      split; [by intros [? ?]|done].
Qed.

Lemma resolve_total s lg :
  pinned_frame pack s snap lg -> runtime_contract_version s = VERDICT_V1 -> reload_ledger lg = Ok lg ->
  resolve_state s = Ok (pack, snap, lg).
Proof.
  intros [Hp Hf] Hv Hr. unfold resolve_state. rewrite Hv, Hp. cbn [bool_decide decide_rel raise_if mbind res_bind or_raise].
  simpl. rewrite (frame_validated pack snap lg Hf). cbn [mbind res_bind].
  pose proof (pin_fields _ _ (ef_pin _ _ _ Hf)) as Hs.
  pose proof (ef_pin _ _ _ Hf) as Hpin. unfold pin_content_pack_v2 in Hpin.
  rewrite Hs in Hpin |- *. simpl in *. rewrite Hpin. cbn [mbind res_bind]. rewrite Hr.
  cbn [mbind res_bind]. destruct (frame_completion pack snap lg Hf) as (c & Hc & _).
  rewrite Hs in Hc. rewrite Hc. done.
Qed.

Lemma turn_total gw ids s turn lg resp pq recent :
  session_ok pack s turn snap lg -> turn_inputs pack lg gw resp pq ->
  gate (tc_input turn) (tc_turn_id turn) resp = Ok tt ->
  exists t, interpret_execution gw s pack snap lg resp pq recent = Ok t
    /\ ((exists r, run_turn gw ids s resp pq recent = Ok r) <-> turn_fits s t = true).
Proof.
  intros Hk Hti Hg. pose proof (gate_active _ _ _ _ _ _ _ Hk Hg) as Hs. unfold run_turn.
  rewrite (resolve_total s lg); [|apply Hk|apply Hk|apply Hti]. cbn [mbind res_bind].
  pose proof (sk_frame _ _ _ _ _ Hk) as [_ Hfr].
  destruct (interpret_total pack snap lg Hfr gw s turn resp pq recent) as [t Ht]; [done..|].
  rewrite Ht. cbn [mbind res_bind]. exists t. split; [done|].
  pose proof (ti_ready _ _ _ _ _ Hti) as Hr. apply andb_true_iff in Hr as [Ha _].
  destruct (interpret_spoken gw s pack snap lg resp pq recent t (ti_gateway _ _ _ _ _ Hti) Ht) as [Hsp Hnp].
  eapply finish_total; try done. eapply interpret_sound; [|exact Ht]. apply Hfr.
Qed.
End answer.
