(* ===== verification/SessionTheory.v ===== *)
(** Properties of whole home sessions: the invariant of every reachable state, what
    one admitted response may change, when it is answered, how a session ends, the
    turns the speaker cannot answer, and the readiness of the reviewed catalog. *)

From S2P Require Import Prelude.
From S2P Require Import PyStr.
From S2P Require Import PyNum.
From S2P Require Import Json.
From S2P Require Import Schemas.
From S2P Require Import Requests.
From S2P Require Import Regex.
From S2P Require Import Evidence.
From S2P Require Import EvidenceTheory.
From S2P Require Import Packs.
From S2P Require Import PackDump.
From S2P Require Import Snapshot.
From S2P Require Import Ledger.
From S2P Require Import LedgerTheory.
From S2P Require Import LedgerProgress.
From S2P Require Import ContentCopy.
From S2P Require Import ContentChecks.
From S2P Require Import ContentPack.
From S2P Require Import LifeChecks.
From S2P Require Import ContentTheory.
From S2P Require Import Catalog.
From S2P Require Import State.
From S2P Require Import Ladder.
From S2P Require Import Understand.
From S2P Require Import Question.
From S2P Require Import Respond.
From S2P Require Import Gate.
From S2P Require Import SpeakerText.
From S2P Require Import SpeakerPlan.
From S2P Require Import Reply.
From S2P Require Import Speak.
From S2P Require Import Turn.
From S2P Require Import LadderTheory.
From S2P Require Import HomeContract.
From S2P Require Import RequestTheory.
From S2P Require Import UnderstandTheory.
From S2P Require Import QuestionTheory.
From S2P Require Import NoteTheory.
From S2P Require Import TurnTheory.
From S2P Require Import SpeakerTheory.
From S2P Require Import SpeakerTotal.
From S2P Require Import SpeakerCoherence.
From S2P Require Import TurnTotal.

Lemma same_json_value_refl v : same_json_value v v = true.
Proof.
  destruct v as [s|n|b|l]; simpl.
  - by apply bool_decide_eq_true.
  - destruct n; [apply Z.eqb_refl|apply pynum_eqb_refl].
  - by destruct b.
  - by apply bool_decide_eq_true.
Qed.

Lemma same_json_dict_refl d : same_json_dict d d = true.
Proof.
  unfold same_json_dict. rewrite bool_decide_eq_true_2 by done. simpl. apply forallb_forall.
  intros [k v] Hkv%list_elem_of_In%elem_of_map_to_list. simpl. rewrite Hkv. apply same_json_value_refl.
Qed.

Section sessions.
Context `{!Digest} `{!DigestFormat} `{!PackModel} `{!PackModelChecks} `{!PackModelLaws}
        `{!HomePackLaws} `{!Nfc} `{!SpeechPort} `{!SpeechPortLaws}.

(** The ledger a state stores. *)
Definition stored_ledger (s : SessionState) : option ReasoningLedgerV2 :=
  pd_reasoning_ledger <$> pinned_dialogue_v2 s.

Lemma stored_frame pack s turn snap lg lg' :
  session_ok pack s turn snap lg -> stored_ledger s = Some lg' -> lg' = lg.
Proof. intros Hk Hs. unfold stored_ledger in Hs. rewrite (pf_pinned _ _ _ _ (sk_frame _ _ _ _ _ Hk)) in Hs. by injection Hs. Qed.

(** * The completion record *)

Lemma fact_steps_keep pack lg ids d d' i v :
  foldM (completion_fact_step (HomePack pack) lg) d ids = Ok d' -> i ∉ ids ->
  d !! i = v -> d' !! i = v.
Proof.
  intros Hf Hi Hv. refine (foldM_inv _ (fun d => d !! i = v) _ _ _ _ Hv Hf).
  intros x b x' Hb Hx. unfold completion_fact_step.
  destruct (verified_facts lg !! b); [|by intros [= <-]]. intros Hs. res_inv.
  rewrite lookup_insert_ne; [done|]. by intros ->.
Qed.

Lemma relation_steps_keep pack lg ids d d' i v :
  foldM (completion_relation_step (HomePack pack) lg) d ids = Ok d' -> i ∉ ids ->
  d !! i = v -> d' !! i = v.
Proof.
  intros Hf Hi Hv. refine (foldM_inv _ (fun d => d !! i = v) _ _ _ _ Hv Hf).
  intros x b x' Hb Hx. unfold completion_relation_step.
  destruct (verified_relations lg !! b); [|by intros [= <-]]. intros Hs. res_inv.
  rewrite lookup_insert_ne; [done|]. by intros ->.
Qed.

(** A required fact is reported with its reviewed value, a relation with its label. *)
Definition fact_reported (p : TaskPackV2) (d : gmap string pyvalue) (i : string) : Prop :=
  exists f, facts_by_id p i = Some f /\ d !! i = Some (primitive (fact_value f)).
Definition relation_reported (p : TaskPackV2) (d : gmap string pyvalue) (i : string) : Prop :=
  exists r, relations_by_id p i = Some r /\ d !! i = Some (PV_str (relation_label r)).

Lemma fact_steps_report pack lg ids d d' :
  foldM (completion_fact_step (HomePack pack) lg) d ids = Ok d' ->
  forall i, i ∈ ids -> is_Some (verified_facts lg !! i) -> fact_reported (HomePack pack) d' i.
Proof.
  intros Hf i Hi Hv. revert i Hi Hv.
  refine (foldM_establish _ (fun i d => is_Some (verified_facts lg !! i) -> fact_reported (HomePack pack) d i)
    ids d d' _ _ Hf).
  - intros x i x' _ Hs [e He]. unfold completion_fact_step in Hs. rewrite He in Hs. res_inv.
    eexists. by rewrite lookup_insert_eq.
  - intros x b x' c _ _ Hc Hs Hv. unfold completion_fact_step in Hs.
    destruct (verified_facts lg !! b); res_inv; [|by apply Hc].
    destruct (decide (b = c)) as [->|Hne]; [eexists; by rewrite lookup_insert_eq|].
    destruct (Hc Hv) as (f & Hf' & Hd). exists f. by rewrite lookup_insert_ne.
Qed.

Lemma relation_steps_report pack lg ids d d' :
  foldM (completion_relation_step (HomePack pack) lg) d ids = Ok d' ->
  forall i, i ∈ ids -> is_Some (verified_relations lg !! i) -> relation_reported (HomePack pack) d' i.
Proof.
  intros Hf i Hi Hv. revert i Hi Hv.
  refine (foldM_establish _ (fun i d => is_Some (verified_relations lg !! i) -> relation_reported (HomePack pack) d i)
    ids d d' _ _ Hf).
  - intros x i x' _ Hs [e He]. unfold completion_relation_step in Hs. rewrite He in Hs. res_inv.
    eexists. by rewrite lookup_insert_eq.
  - intros x b x' c _ _ Hc Hs Hv. unfold completion_relation_step in Hs.
    destruct (verified_relations lg !! b); res_inv; [|by apply Hc].
    destruct (decide (b = c)) as [->|Hne]; [eexists; by rewrite lookup_insert_eq|].
    destruct (Hc Hv) as (f & Hf' & Hd). exists f. by rewrite lookup_insert_ne.
Qed.

(** The keys the record writes last. *)
Definition legacy_keys : list string := ["answer"; "rule"].

Lemma completion_facts_keep pack lg d :
  completion_facts pack lg = Ok d ->
  exists d1 d2,
    foldM (completion_fact_step (HomePack pack) lg) ∅ (required_fact_ids (pack_completion (HomePack pack))) = Ok d1
    /\ foldM (completion_relation_step (HomePack pack) lg) d1
         (required_relation_ids (pack_completion (HomePack pack))) = Ok d2
    /\ forall i, i ∉ legacy_keys -> d !! i = d2 !! i.
Proof.
  unfold completion_facts. cbn zeta. intros Hd.
  destruct (foldM (completion_fact_step _ _) _ _) as [d1|]; [|done]. cbn [mbind res_bind] in Hd.
  destruct (foldM (completion_relation_step _ _) _ _) as [d2|] eqn:E2; [|done]. cbn [mbind res_bind] in Hd.
  exists d1, d2. split; [done|]. split; [done|]. intros i Hi. unfold legacy_keys in Hi.
  rewrite !not_elem_of_cons in Hi. destruct Hi as (Ha & Hr & _).
  destruct (final_answer_fact pack) as [f|]; [|done]. cbn [mbind res_bind] in Hd.
  repeat (case_match; res_inv); rewrite ?lookup_insert_ne by done; done.
Qed.

Lemma completion_facts_report pack lg d :
  completion_facts pack lg = Ok d -> (forall t, ~ open_target (HomePack pack) lg t) ->
  let c := pack_completion (HomePack pack) in
  (forall i, i ∈ required_fact_ids c -> i ∉ required_relation_ids c -> i ∉ legacy_keys ->
     fact_reported (HomePack pack) d i) /\
  (forall i, i ∈ required_relation_ids c -> i ∉ legacy_keys -> relation_reported (HomePack pack) d i).
Proof.
  intros Hd Hno c. destruct (completion_facts_keep pack lg d Hd) as (d1 & d2 & H1 & H2 & Hk).
  assert (Hver : forall t, t ∈ required_targets (HomePack pack) -> unverified lg t -> False).
  { intros t Ht Hu. by apply (Hno t). }
  split.
  - intros i Hi Hnr Hl.
    destruct (fact_steps_report pack lg _ _ _ H1 i Hi) as (f & Hf & Hd1).
    { apply elem_of_dom. destruct (decide (i ∈ dom (verified_facts lg))) as [|Hn]; [done|].
      exfalso. apply (Hver (KIND_fact, i)); [|done]. unfold required_targets.
      apply elem_of_app. left. apply list_elem_of_fmap. eauto. }
    exists f. split; [done|]. rewrite Hk by done. by eapply relation_steps_keep.
  - intros i Hi Hl. unfold relation_reported. rewrite Hk by done.
    apply (relation_steps_report pack lg _ _ _ H2 i Hi), elem_of_dom. destruct (decide (i ∈ dom (verified_relations lg))) as [|Hn]; [done|].
    exfalso. apply (Hver (KIND_relation, i)); [|done]. unfold required_targets.
    apply elem_of_app. right. apply list_elem_of_fmap. eauto.
Qed.

(** * One turn *)

(** What an answered turn has done to session [s] with stored ledger [lg]. *)
Record turn_effect pack s lg (r : EngineTurnResult) lg' : Prop := {
  te_stored : stored_ledger (tr_state r) = Some lg';
  te_grow : maps_grow (maps_of lg) (maps_of lg');
  te_support : supports_more (ladder s) (ladder (tr_state r));
  te_credit i : credited (notes s) i -> credited (notes (tr_state r)) i;
  te_number : state_version (tr_state r) = (state_version s + 1)%Z;
  te_tasks : (task_ids (tr_state r), task_index (tr_state r)) = (task_ids s, task_index s);
  te_status : tc_status (tr_turn r) = ss_status (outcome (tr_state r));
  te_completed : ss_status (outcome (tr_state r)) = COMPLETED <->
                 forall t, ~ open_target (HomePack pack) lg' t;
  te_record : ss_status (outcome (tr_state r)) = COMPLETED ->
    exists d, completion_facts pack lg' = Ok d /\
      tc_completion (tr_turn r) = Some {|
        cc_outcome := if teach_reward_eligible (outcome (tr_state r)) then TAUGHT else SUPPORTED;
        cc_teach_reward_eligible := teach_reward_eligible (outcome (tr_state r));
        cc_stage_completion_eligible := true; cc_verified_facts := d |}
}.

Lemma finished_effect ids pack s turn snap lg t r :
  session_ok pack s turn snap lg -> ss_status (outcome s) = ACTIVE ->
  sound_result (HomeSnapshot snap) lg (ts_apply_result t) -> finished ids s pack t r ->
  turn_effect pack s lg r (ar_ledger (ts_apply_result t)).
Proof.
  intros Hk Hs Hsound Hf. pose proof (sk_frame _ _ _ _ _ Hk) as [Hpin Hfr].
  pose proof (sound_frame pack snap lg _ Hfr Hsound) as [Hfr' Hcomp].
  pose proof (sk_ladder _ _ _ _ _ Hk) as Hl.
  destruct Hf as [Fl Fn (pinned & Fp & Fp') Fv Fnum Ft Fid Fta Fst Fcard Fs Fopen Fdone].
  rewrite shown_ladder_id in Fl by (by apply next_shape).
  assert (Hstatus : ss_status (outcome (tr_state r)) = COMPLETED
                    <-> complete (ar_completion (ts_apply_result t)) = true).
  { destruct (complete _).
    - destruct (Fdone eq_refl) as ([-> _ _ _ _] & _). done.
    - destruct (Fopen eq_refl) as [v ->]. simpl. by rewrite Hs. }
  split; try done.
  - unfold stored_ledger. by rewrite Fp'.
  - apply Hsound.
  - rewrite Fl. destruct (complete _); apply policy_supports, Hl.
  - intros i Hi. rewrite Fn. by apply track_credits, note_fold_keeps.
  - by rewrite Hstatus.
  - intros Hc%Hstatus. destruct (Fdone Hc) as ([_ _ Ho _ Hr] & o & d & Hout & Hd & Hcc & _).
    exists d. split; [done|]. rewrite Hcc. do 2 f_equal.
    destruct Ho as [Ho|Ho]; rewrite Ho in Hout, Hr; injection Hout as <-; by rewrite Hr.
Qed.

(** * Structured answers on screen *)

Lemma screen_now pack s turn snap lg :
  session_ok pack s turn snap lg -> ss_status (outcome s) = ACTIVE ->
  exists q, tc_input turn = qc_input q /\ screen_of pack s q.
Proof.
  intros Hk Hs. destruct (sk_screen _ _ _ _ _ Hk) as (q & Hq & Hin). exists q. split; [done|].
  by eapply screen_shape.
Qed.

Lemma active_unless_done pack s turn snap lg :
  session_ok pack s turn snap lg -> ic_kind (tc_input turn) <> IK_NONE -> ss_status (outcome s) = ACTIVE.
Proof.
  intros Hk Hn. destruct (sk_screen _ _ _ _ _ Hk) as (q & Hq & Hin). rewrite Hin in Hn.
  unfold question_contract in Hq. destruct (ss_status (outcome s)) eqn:Hs; [done|].
  rewrite decide_True in Hq by done. by injection Hq as <-.
Qed.

Lemma screen_joint pack s q : screen_of pack s q -> ic_kind (qc_input q) = IK_JOINT ->
  expression_level (ladder s) = L0
  /\ exists a b c, ic_config (qc_input q)
       = CFG_joint a b c (joint_completion_values (pack_joint_completions (HomePack pack))).
Proof.
  unfold screen_of. destruct (expression_level _); intros H0 H1; rewrite ?H1 in H0; try done.
  - destruct H0 as (? & _ & _ & Hc & _). congruence.
  - by destruct H0.
Qed.

Lemma screen_choices pack s q : screen_of pack s q -> ic_kind (qc_input q) = IK_CHOICES ->
  expression_level (ladder s) = L2
  /\ exists plan, plan ∈ hp_l2_plans pack /\ subgoal_id s = l2_plan_id plan
       /\ ic_choices (qc_input q) = map (fun c => {| co_id := lc_choice_id c; co_label := lc_label c;
                                     co_image_url := None; co_disabled := None |}) (l2_choices plan).
Proof.
  unfold screen_of. destruct (expression_level _); intros H0 H1; rewrite ?H1 in H0; try done.
  - destruct H0 as (plan & ? & ? & _ & ?). eauto.
  - destruct H0. congruence.
Qed.

Lemma joint_gate input resp a b c e :
  ic_kind input = IK_JOINT -> ic_config input = CFG_joint a b c e -> cr_type resp = RT_ACTION ->
  cr_values resp = e -> gate input (cr_turn_id resp) resp = Ok tt.
Proof.
  intros Hk Hc Ht Hv. unfold gate, validate_response_payload. 
  rewrite Hk, Hc, Ht, Hv, same_json_dict_refl.
  by rewrite (bool_decide_eq_true_2 (cr_turn_id resp = cr_turn_id resp)).
Qed.

Lemma choice_gate input resp o :
  ic_kind input = IK_CHOICES -> o ∈ ic_choices input -> co_disabled o <> Some true ->
  cr_type resp = RT_CHOICE -> cr_choice_ids resp = [co_id o] ->
  gate input (cr_turn_id resp) resp = Ok tt.
Proof.
  intros Hk Ho Hd Ht Hids. unfold gate, validate_response_payload. 
  rewrite Hk, Ht, Hids, (bool_decide_eq_true_2 (cr_turn_id resp = cr_turn_id resp)) by done.
  simpl. rewrite (proj2 (memb_spec _ _)); [done|].
  apply list_elem_of_fmap. exists o. split; [done|]. apply list_elem_of_In, filter_In.
  split; [by apply list_elem_of_In|]. unfold choice_enabled. by destruct (co_disabled o) as [[]|].
Qed.

(** An incorrect choice is a concept error: it raises the hint ladder. *)
Lemma incorrect_choice_policy l u r is_fact :
  choice_understanding false is_fact = Ok u -> ar_log r = empty_log ->
  apply_ladder_policy l (choice_result u r false None)
  = raise_hint (with_counters l (expression_failures l) (S (concept_failures l))
                  (vague_clarifications l) (unrelated_count l)).
Proof.
  intros Hu Hlog. unfold apply_ladder_policy, has_new_canonical_progress, has_new_partial_progress.
  simpl. rewrite Hlog. destruct is_fact; vm_compute in Hu; injection Hu as <-; reflexivity.
Qed.

(** What the two verdicts leave behind. *)
Lemma correct_choice_verifies pack snap lg plan c ra :
  engine_frame pack snap lg -> plan ∈ hp_l2_plans pack -> c ∈ l2_choices plan ->
  ce_verdict (lc_effect c) = choice_correct ->
  structured_applied (HomeSnapshot snap) lg (HomePack pack) (choice_facts (lc_effect c))
    (choice_relations pack (lc_effect c)) ra ->
  ~ open_target (HomePack pack) (ar_ledger ra) (target_pair (l2_target plan)).
Proof.
  intros Hf Hp Hc Hv [Hfs Hrs _ _ _ _ _ _ _ _] [_ Hun].
  pose proof (frame_home _ _ _ Hf) as Hh. pose proof (hk_choice _ Hh plan c Hp Hc) as Heff.
  pose proof (hk_correct _ Hh plan c Hp Hc Hv) as Ht. injection Heff as Hk Hi.
  unfold unverified, target_pair, choice_facts, choice_relations, teaches_target in *. simpl in Hun.
  rewrite Hk, Hi in *. destruct (target_kind (l2_target plan)); apply Hun.
  - destruct Ht as (v & f & Hval & _). rewrite Hfs, Hval. simpl. set_solver.
  - rewrite Hrs, elem_of_union, elem_of_list_to_set, elem_of_fromkeys. right. left.
Qed.

Lemma incorrect_choice_effect ids pack s turn snap lg u ra r is_fact :
  session_ok pack s turn snap lg -> unchanged_result (HomeSnapshot snap) lg = Ok ra ->
  choice_understanding false is_fact = Ok u ->
  finished ids s pack (choice_result u ra false None) r -> ss_status (outcome s) = ACTIVE ->
  ar_ledger ra = lg /\ ladder (tr_state r) = raise_hint (with_counters (ladder s)
    (expression_failures (ladder s)) (S (concept_failures (ladder s)))
    (vague_clarifications (ladder s)) (unrelated_count (ladder s))).
Proof.
  intros Hk Hra Hu Hf Hs. pose proof (sk_frame _ _ _ _ _ Hk) as [_ Hfr].
  destruct (unchanged_sound _ _ _ (ef_valid _ _ _ Hfr) Hra) as (_ & Hlg & Hlog). split; [done|].
  pose proof (fi_ladder _ _ _ _ _ Hf) as Fl.
  rewrite shown_ladder_id in Fl by (apply next_shape, Hk).
  rewrite <- (incorrect_choice_policy (ladder s) u ra is_fact Hu Hlog). rewrite Fl.
  unfold next_ladder. by destruct (complete _).
Qed.

(** ** A choice is never too much to say *)

Lemma concept_failures_step l t : concept_failures (apply_ladder_policy l t) <= S (concept_failures l).
Proof.
  assert (Hr : forall l, concept_failures (raise_hint l) = concept_failures l).
  { intros k. unfold raise_hint. destruct (hint_level k); cbn; repeat (case_decide || case_match); reflexivity. }
  assert (Hlow : forall l, concept_failures (lower_expression l) = concept_failures l).
  { intros k. unfold lower_expression. cbn. repeat (case_decide || case_match); reflexivity. }
  unfold apply_ladder_policy. repeat (case_decide || case_match); rewrite ?Hr, ?Hlow; simpl; lia.
Qed.

Lemma card_ready_without_move l t : conversation_move (ts_response t) = CM_NONE -> ui_reference (ts_response t) = None ->
  card_ready l t = true.
Proof.
  intros Hm Hu. unfold card_ready, response_mode. rewrite Hm, Hu. rewrite (bool_decide_eq_false_2 (is_Some None)) by by intros [? ?].
  destruct (bool_decide (expression_level l = L0)), (bool_decide (hint_level l = H0)); simpl; try done. by case_decide.
Qed.

Lemma few_new {A} (m m' : gmap string A) ids (l : list string) n :
  reports ids m m' -> dom m' = dom m ∪ list_to_set l -> length l <= n -> list_field 0 n ids = true.
Proof.
  intros [Hnd Hi] Hd Hl. apply bool_decide_eq_true. split; [lia|].
  assert (Hsub : forall i, i ∈ ids -> i ∈ l).
  { intros i [H1 H2]%Hi. rewrite Hd in H1. set_solver. }
  etrans; [|exact Hl]. by apply submseteq_length, NoDup_submseteq.
Qed.

Lemma kind_ids_few k ts n : list_field 1 n ts = true -> list_field 0 n (kind_ids k ts) = true.
Proof.
  unfold list_field. rewrite !bool_decide_eq_true. intros [_ Hn]. split; [lia|]. unfold kind_ids. rewrite length_map.
  etrans; [apply List.filter_length_le|done].
Qed.

Lemma choice_spoken_response correct is_fact u : choice_understanding correct is_fact = Ok u ->
  conversation_move u = CM_NONE /\ ui_reference u = None /\ claims u = [].
Proof. destruct correct, is_fact; vm_compute; intros [= <-]; done. Qed.

Lemma fromkeys_shorter (l : list string) : length (fromkeys l) <= length l.
Proof.
  apply submseteq_length, NoDup_submseteq; [apply NoDup_fromkeys|]. intros i. by rewrite elem_of_fromkeys.
Qed.

Lemma choice_reaction_fits l u r correct targets : claims u = [] -> concept_failures l <= 100 ->
  targets_ready targets = true -> list_field 0 8 (new_fact_ids (ar_log r)) = true ->
  list_field 0 8 (new_relation_ids (ar_log r)) = true ->
  reaction_fits l (choice_result u r correct None) targets = true.
Proof.
  intros Hu Hc Ht Hf Hr. unfold reaction_fits. apply andb_true_iff in Ht as [Ht _].
  rewrite bool_decide_eq_true_2 by done. unfold signal_ids, attempts. rewrite decide_True by done. simpl.
  destruct correct; simpl; rewrite ?Hf, ?Hr, !(kind_ids_few _ targets) by done; done.
Qed.

(** * Properties *)


(** (C2) When an admitted response is answered.  Let a session be reachable, its pack
    ready for the engine ([engine_ready]: it asks consistently, speaks in short lines
    and brings labels the speaker can be given), its stored ledger within the
    persistence bounds ([roomy]), the response's fields valid, the previous question not
    empty, and let every response the understanding model returns be one its schema
    admits ([gateway_ok]).  Then a response admitted by the gate is interpreted,
    whether the model answers, fails or misquotes, and the turn returns a result exactly
    when it completes the session or its speech fits ([turn_fits]).  That condition is
    decided on the interpreted turn, so on what the understanding model said of it (its
    move, its claims and the ids they share), and on the ladders; the two speaker
    models, whether they fail, say too much or answer in other words, are no part of
    it. *)
Theorem admitted_response_is_answered pack s turn lg gw ids resp pq recent :
  session pack s turn -> stored_ledger s = Some lg -> turn_inputs pack lg gw resp pq ->
  gate (tc_input turn) (tc_turn_id turn) resp = Ok tt ->
  exists snap t, interpret_execution gw s pack snap lg resp pq recent = Ok t
    /\ ((exists r, run_turn gw ids s resp pq recent = Ok r) <-> turn_fits pack s t = true).
Proof.
  intros (snap & lg0 & Hk)%session_reached Hl Hti Hg.
  pose proof (stored_frame _ _ _ _ _ _ Hk Hl) as ->. exists snap. by eapply turn_total.
Qed.

(** (C3) What an answered turn may do: the verified ledger only grows, support is
    never withdrawn, credit is kept, the version advances by one, the session
    completes exactly when the new ledger leaves nothing open, and only then the
    turn carries a completion record, with the outcome and reward of the state. *)
Theorem turn_effects pack s turn lg gw ids resp pq recent r :
  session pack s turn -> stored_ledger s = Some lg ->
  gate (tc_input turn) (tc_turn_id turn) resp = Ok tt ->
  run_turn gw ids s resp pq recent = Ok r ->
  exists lg', turn_effect pack s lg r lg'.
Proof.
  intros (snap & lg0 & Hk)%session_reached Hl Hg Hr.
  pose proof (stored_frame _ _ _ _ _ _ Hk Hl) as ->.
  destruct (run_turn_Ok _ _ _ _ _ _ _ _ _ _ _ Hk Hg Hr) as (t & _ & Hsound & Hf).
  eexists. eapply finished_effect; try done. by eapply gate_active.
Qed.

(** The completion record is complete: for a ledger that leaves no target
    open it holds the reviewed value of every required fact and the label of
    every required relation (names shared with a relation, or with the legacy
    keys "answer" and "rule", are overwritten by those). *)
Theorem completion_record_complete pack lg d :
  completion_facts pack lg = Ok d -> (forall t, ~ open_target (HomePack pack) lg t) ->
  let c := pack_completion (HomePack pack) in
  (forall i, i ∈ required_fact_ids c -> i ∉ required_relation_ids c -> i ∉ legacy_keys ->
     fact_reported (HomePack pack) d i) /\
  (forall i, i ∈ required_relation_ids c -> i ∉ legacy_keys -> relation_reported (HomePack pack) d i).
Proof. exact (completion_facts_report pack lg d). Qed.

(** (C27) The joint action finishes every session: whenever the L0 question is on
    screen, submitting exactly the values it shows passes the gate and the turn
    returns a completed session.  It counts as supported, never as taught, so it
    cannot earn the teaching reward. *)
Theorem joint_action_completes pack s turn lg gw ids resp pq recent a b c e :
  session pack s turn -> stored_ledger s = Some lg -> reload_ledger lg = Ok lg ->
  ic_kind (tc_input turn) = IK_JOINT -> ic_config (tc_input turn) = CFG_joint a b c e ->
  cr_turn_id resp = tc_turn_id turn -> cr_type resp = RT_ACTION -> cr_values resp = e ->
  gate (tc_input turn) (tc_turn_id turn) resp = Ok tt /\
  exists r, run_turn gw ids s resp pq recent = Ok r
    /\ ss_status (outcome (tr_state r)) = COMPLETED /\ tc_status (tr_turn r) = COMPLETED
    /\ completion_outcome (outcome (tr_state r)) = Some SUPPORTED
    /\ teach_reward_eligible (outcome (tr_state r)) = false.
Proof.
  intros (snap & lg0 & Hk)%session_reached Hl Hrel Hkind Hcfg Hid Ht Hv.
  pose proof (stored_frame _ _ _ _ _ _ Hk Hl) as ->. rewrite <- Hid.
  pose proof (joint_gate _ resp a b c e Hkind Hcfg Ht Hv) as Hg. split; [done|].
  assert (Hs : ss_status (outcome s) = ACTIVE) by (eapply active_unless_done; [exact Hk|congruence]).
  destruct (screen_now _ _ _ _ _ Hk Hs) as (q & Hin & Hscreen). rewrite Hin in Hkind, Hcfg.
  destruct (screen_joint _ _ _ Hscreen Hkind) as (HL0 & a' & b' & c' & Hcfg').
  rewrite Hcfg' in Hcfg. injection Hcfg as <- <- <- <-.
  pose proof (sk_frame _ _ _ _ _ Hk) as [_ Hfr].
  destruct (joint_total pack snap lg0 Hfr (ladder s) resp) as (t & Hsem & Hsrc & Hnone).
  { done. } { by apply (proj1 (sk_ladder _ _ _ _ _ Hk)). } { rewrite Hid. apply Hk. }
  { rewrite Hv. apply same_json_dict_refl. }
  assert (Hi : interpret_execution gw s pack snap lg0 resp pq recent = Ok t).
  { unfold interpret_execution. by rewrite Ht. }
  pose proof (interpret_sound _ _ _ _ _ _ _ _ _ (ef_valid _ _ _ Hfr) Hi) as Hsound.
  pose proof (sound_frame pack snap lg0 _ Hfr Hsound) as [_ Hcomp].
  pose proof (proj2 Hcomp Hnone) as Hdone.
  destruct (joint_spoken (hint_level (ladder s) <> H0) _ _ _ _ _ _ Hsem) as [Hsp Hnp].
  destruct (proj2 (finish_total pack snap ids s turn lg0 t Hk Hs Hsound Hsp Hnp ltac:(congruence))) as [r Hr].
  { unfold turn_fits. by rewrite Hdone. }
  exists r. unfold run_turn. rewrite (resolve_total pack snap s lg0); [|apply Hk|apply Hk|done].
  cbn [mbind res_bind]. rewrite Hi. cbn [mbind res_bind]. split; [done|].
  apply finish_turn_Ok in Hr; [|done]. rewrite (fi_status _ _ _ _ _ Hr).
  destruct (fi_done _ _ _ _ _ Hr Hdone) as ([-> Hj Ho Htaught Hrew] & _).
  rewrite Hsrc in Hj. rewrite bool_decide_eq_true_2, orb_true_r in Hj by done.
  assert (completion_outcome (outcome (tr_state r)) = Some SUPPORTED) as Hsup.
  { destruct Ho as [Ho|]; [|done]. apply Htaught in Ho as [_ Ho]. congruence. }
  rewrite Hrew, Hsup. done.
Qed.

(** A choice teaches exactly its target: every enabled choice on screen
    belongs to one L2 plan of the pack, passes the gate and is answered.  The
    correct choice leaves the plan's target verified; an incorrect one leaves
    the ledger as it was and counts as a concept error, which raises the hint. *)
Theorem choice_turn_effect pack s turn lg gw ids resp pq recent o :
  session pack s turn -> stored_ledger s = Some lg -> reload_ledger lg = Ok lg ->
  question_ready pack = true -> concept_failures (ladder s) < 100 -> length (po_note_relation_ids (hp_policies pack)) <= 7 ->
  ic_kind (tc_input turn) = IK_CHOICES -> o ∈ ic_choices (tc_input turn) ->
  cr_turn_id resp = tc_turn_id turn -> cr_type resp = RT_CHOICE -> cr_choice_ids resp = [co_id o] ->
  gate (tc_input turn) (tc_turn_id turn) resp = Ok tt /\
  exists r lg' plan c, run_turn gw ids s resp pq recent = Ok r
    /\ stored_ledger (tr_state r) = Some lg'
    /\ plan ∈ hp_l2_plans pack /\ c ∈ l2_choices plan /\ lc_choice_id c = co_id o
    /\ if decide (ce_verdict (lc_effect c) = choice_correct)
       then ~ open_target (HomePack pack) lg' (target_pair (l2_target plan))
       else lg' = lg /\ ladder (tr_state r) = raise_hint (with_counters (ladder s)
              (expression_failures (ladder s)) (S (concept_failures (ladder s)))
              (vague_clarifications (ladder s)) (unrelated_count (ladder s))).
Proof.
  intros (snap & lg0 & Hk)%session_reached Hl Hrel Hagree Hcount Hnotes Hkind Ho Hid Ht Hids.
  pose proof (stored_frame _ _ _ _ _ _ Hk Hl) as ->. rewrite <- Hid.
  assert (Hs : ss_status (outcome s) = ACTIVE) by (eapply active_unless_done; [exact Hk|congruence]).
  destruct (screen_now _ _ _ _ _ Hk Hs) as (q & Hin & Hscreen). rewrite Hin in *.
  destruct (screen_choices _ _ _ Hscreen Hkind) as (HL2 & plan & Hplan & Hsub & Hch).
  pose proof Ho as Ho'. rewrite Hch in Ho'. apply list_elem_of_fmap in Ho' as (c & -> & Hc).
  split; [by eapply choice_gate|].
  pose proof (sk_frame _ _ _ _ _ Hk) as [_ Hfr].
  destruct (choice_total pack snap lg0 Hfr plan c resp Hplan Hc Hids) as (u & ra & Hsem & Hu & Happ).
  { rewrite Hid. apply Hk. }
  set (t := choice_result _ _ _ _) in Hsem.
  assert (Hi : interpret_execution gw s pack snap lg0 resp pq recent = Ok t).
  { unfold interpret_execution. by rewrite Ht, HL2, Hsub. }
  pose proof (interpret_sound _ _ _ _ _ _ _ _ _ (ef_valid _ _ _ Hfr) Hi) as Hsound.
  destruct (choice_spoken (hint_level (ladder s) <> H0) _ _ _ _ _ _ _ Hsem) as [Hsp Hnp].
  assert (Hfits : turn_fits pack s t = true).
  { destruct (complete (ar_completion (ts_apply_result t))) eqn:Ec; [unfold turn_fits; by rewrite Ec|].
    destruct (turn_fits_shape pack snap s turn lg0 t Hk Hs Hsound Ec Hagree) as (targets & b & Htr & ->).
    pose proof (choice_spoken_response _ _ _ Hu) as (Hm & Hui & Hcl).
    unfold speech_fits. rewrite card_ready_without_move by done. rewrite decide_False by done.
    assert (Hfit : reaction_fits (next_ladder s t) t targets = true); [|by rewrite Hfit, !orb_true_r].
    apply choice_reaction_fits; [done| |done| |].
    - pose proof (concept_failures_step (ladder s) t). unfold next_ladder. lia.
    - destruct Hnp as [Hnf _ _]. destruct (bool_decide _); [|by destruct (unchanged_sound _ _ _ (ef_valid _ _ _ Hfr) Happ) as (_ & _ & ->)].
      eapply few_new; [exact Hnf|exact (sa_facts _ _ _ _ _ _ Happ)|]. rewrite length_map. unfold choice_facts.
      repeat case_match; simpl; lia.
    - destruct Hnp as [_ Hnr _]. destruct (bool_decide _); [|by destruct (unchanged_sound _ _ _ (ef_valid _ _ _ Hfr) Happ) as (_ & _ & ->)].
      eapply few_new; [exact Hnr|exact (sa_relations _ _ _ _ _ _ Happ)|]. unfold choice_relations.
      destruct (ce_target_kind _); [simpl; lia|]. etrans; [apply fromkeys_shorter|]. simpl. lia. }
  destruct (proj2 (finish_total pack snap ids s turn lg0 t Hk Hs Hsound Hsp Hnp (fun _ => Hagree)) Hfits) as [r Hr].
  exists r, (ar_ledger ra), plan, c. unfold run_turn.
  rewrite (resolve_total pack snap s lg0); [|apply Hk|apply Hk|done].
  cbn [mbind res_bind]. rewrite Hi. cbn [mbind res_bind]. split; [done|].
  apply finish_turn_Ok in Hr; [|done].
  pose proof (finished_effect _ _ _ _ _ _ _ _ Hk Hs Hsound Hr) as He.
  split; [exact (te_stored _ _ _ _ _ He)|]. do 3 (split; [done|]).
  destruct (decide (ce_verdict (lc_effect c) = choice_correct)) as [Hv|Hv].
  - rewrite bool_decide_eq_true_2 in Happ by done. by eapply correct_choice_verifies.
  - subst t. rewrite bool_decide_eq_false_2 in * by done. by eapply incorrect_choice_effect.
Qed.
End sessions.

(** * Turns the speaker cannot answer

    The conversation plan asks for a help card the turn has just decided not to show. *)

(** Moves that ask Mormi for the answer or for help with the task. *)
Definition asks_for_help : list ConversationMoveV2 := [TASK_QUESTION; REQUEST_MORMI_ANSWER].

(** A turn on the main route that left no new verified knowledge, only part of a method. *)
Record partial_turn (t : TurnSemantics) : Prop := {
  pt_route : ts_route t = RO_main;
  pt_partial : has_new_partial_progress (ts_apply_result t) = true;
  pt_not_new : has_new_canonical_progress (ts_apply_result t) = false
}.

(** Partial progress keeps the help as it is. *)
Lemma partial_keeps_help l t : partial_turn t -> expression_level l <> L0 ->
  hint_level (apply_ladder_policy l t) = hint_level l /\ expression_level (apply_ladder_policy l t) <> L0.
Proof.
  intros [_ Hp Hn] He. unfold apply_ladder_policy. rewrite Hp, Hn. case_decide; [done|]. cbn [with_counters expression_level].
  case_decide as H4; split; try reflexivity; simpl; [discriminate|exact He].
Qed.

(** With no card shown the question a help request asks back has no plan. *)
Lemma help_without_card l t : conversation_move (ts_response t) ∈ asks_for_help ->
  expression_level l <> L0 -> hint_level l = H0 -> card_ready l t = false.
Proof.
  intros Hm He Hh. unfold card_ready, response_mode. rewrite (bool_decide_eq_false_2 _ He), Hh.
  unfold asks_for_help in Hm. rewrite !elem_of_cons in Hm. destruct Hm as [-> | [-> | Hm]]; [reflexivity..|].
  by apply not_elem_of_nil in Hm.
Qed.

Lemma help_not_reviewed t stable : partial_turn t -> conversation_move (ts_response t) ∈ asks_for_help ->
  reviewed_line t stable = false.
Proof.
  intros [Hr _ _] Hm. unfold reviewed_line, uses_reviewed_expression_support. rewrite Hr.
  rewrite (bool_decide_eq_false_2 (conversation_move (ts_response t) = CM_NONE)); [by destruct stable; rewrite ?andb_false_r|].
  intros Hn. rewrite Hn in Hm. unfold asks_for_help in Hm. set_solver.
Qed.

Section errors.
Context `{!Digest} `{!DigestFormat} `{!PackModel} `{!PackModelChecks} `{!PackModelLaws}
        `{!HomePackLaws} `{!Nfc} `{!SpeechPort} `{!SpeechPortLaws}.

(** Without new knowledge an open session stays open. *)
Lemma nothing_new_stays_open pack snap lg r t :
  new_progress lg r -> has_new_canonical_progress r = false -> sound_result (HomeSnapshot snap) lg r ->
  engine_frame pack snap lg -> open_target (HomePack pack) lg t -> complete (ar_completion r) = false.
Proof.
  intros [[_ Hf] [_ Hr] _] Hn Hsound Hfr [Ht Hu]. unfold has_new_canonical_progress in Hn.
  destruct (new_fact_ids (ar_log r)) eqn:E1, (new_relation_ids (ar_log r)) eqn:E2; try discriminate Hn.
  destruct (sound_frame pack snap lg r Hfr Hsound) as [_ Hc].
  destruct (complete (ar_completion r)); [|done]. exfalso. apply (proj1 Hc eq_refl t). split; [done|].
  unfold unverified in *. destruct (t.1); intros Hin; apply Hu.
  - destruct (decide (t.2 ∈ dom (verified_facts lg))) as [|Hno]; [done|]. exfalso. by eapply not_elem_of_nil, Hf.
  - destruct (decide (t.2 ∈ dom (verified_relations lg))) as [|Hno]; [done|]. exfalso. by eapply not_elem_of_nil, Hr.
Qed.

(** (C29) A child who says part of the method and asks for help gets no answer: from a
    reachable session with no help card shown (above joint work), when the model
    understands an admitted response as a task question, or a request for Mormi's
    answer, that adds a part of a relation and verifies nothing new, the turn fails
    with the validation error of the conversation plan, whatever the speaker models
    would say.  The ladder policy keeps the card closed on partial progress, and the
    plan then insists on a card. *)
Theorem help_with_partial_progress_fails pack s turn lg gw ids resp pq recent snap t :
  session pack s turn -> stored_ledger s = Some lg -> turn_inputs pack lg gw resp pq ->
  gate (tc_input turn) (tc_turn_id turn) resp = Ok tt ->
  pin_content_pack_v2 pack = Ok snap -> interpret_execution gw s pack snap lg resp pq recent = Ok t ->
  expression_level (ladder s) <> L0 -> hint_level (ladder s) = H0 ->
  conversation_move (ts_response t) ∈ asks_for_help -> partial_turn t ->
  run_turn gw ids s resp pq recent
  = Raise (ValidationError "help-guided reasking requires a visible help card").
Proof.
  intros (snap0 & lg0 & Hk)%session_reached Hl Hti Hg Hpin Hi He Hh Hm Hp.
  pose proof (stored_frame _ _ _ _ _ _ Hk Hl) as ->.
  pose proof (sk_frame _ _ _ _ _ Hk) as [_ Hfr]. pose proof (ef_pin _ _ _ Hfr) as Hpin'. rewrite Hpin in Hpin'.
  injection Hpin' as <-. pose proof (gate_active _ _ _ _ _ _ _ Hk Hg) as Hs.
  pose proof (interpret_sound _ _ _ _ _ _ _ _ _ (ef_valid _ _ _ Hfr) Hi) as Hsound.
  destruct (interpret_spoken gw s pack snap lg0 resp pq recent t (ti_gateway _ _ _ _ _ Hti) Hi) as [Hsp Hnp].
  pose proof (sk_outcome _ _ _ _ _ Hk) as Hout. unfold outcome_ok in Hout. rewrite Hs in Hout.
  destruct Hout as [[g Hopen] _].
  pose proof (nothing_new_stays_open _ _ _ _ _ Hnp (pt_not_new _ Hp) Hsound Hfr Hopen) as Hc.
  destruct (sound_frame pack snap lg0 _ Hfr Hsound) as [Hfr' _].
  destruct (apply_execution_total pack snap s turn lg0 t Hk Hsound) as (next & Hnext & Hst & _ & Hladder).
  pose proof (sk_ladder _ _ _ _ _ Hk) as Hlo.
  assert (Hsame : next_ladder s t = apply_ladder_policy (ladder s) t) by (unfold next_ladder; by rewrite ?Hc).
  destruct (partial_keeps_help (ladder s) t Hp He) as [Hh' He']. rewrite <- Hsame, <- Hladder in Hh', He'.
  pose proof (ti_ready _ _ _ _ _ Hti) as Hready. apply andb_true_iff in Hready as [Hq _].
  destruct (speech_shape pack snap lg0 s next t Hfr' Hq) as (s' & q & q' & fb & _ & _ & _ & Hls & Hco & _ & _ & _ & Hspeech).
  { by rewrite Hst. } { rewrite Hladder. by apply next_shape. } { eapply frame_open; [exact Hfr'|apply Hsound|exact Hc]. }
  { eapply spoken_weaken; [|exact Hsp]. intros Hne. by rewrite Hh in Hne. } { done. }
  unfold run_turn. rewrite (resolve_total pack snap s lg0); [|apply Hk|apply Hk|apply Hti]. cbn [mbind res_bind].
  rewrite Hi. cbn [mbind res_bind]. unfold finish_turn. rewrite Hnext. cbn [mbind res_bind]. rewrite Hc, Hspeech.
  apply andb_true_iff in Hq as [_ Hr].
  rewrite (render_without_card pack Hr); [done|exact Hco| |by apply help_not_reviewed].
  rewrite Hls. apply help_without_card; [done|exact He'|congruence].
Qed.
End errors.

(** * The reviewed catalog *)

Definition pack_readyb (pack : RequiredHomeTeachingPackV2) : bool :=
  is_ok (required_home_pack_validate pack) && engine_ready pack.

Lemma packs_ready : forallb pack_readyb (cat_packs required_home_catalog) = true.
Proof. vm_compute. reflexivity. Qed.

(** (C36) The catalog the service loads is accepted by its validators, and each of
    its nine packs is ready for the engine: the L3 plans ask each target the way
    the initial question does, every reviewed line is one speakable line and the
    fact vocabularies fit the understanding request.  So the hypotheses of
    [admitted_response_is_answered] on the pack hold for all reviewed content. *)
Theorem reviewed_catalog_ready :
  catalog_validate required_home_catalog = Ok required_home_catalog /\
  forall pack, pack ∈ cat_packs required_home_catalog ->
    home_model_validate pack = Ok pack /\ engine_ready pack = true.
Proof.
  pose proof packs_ready as Hall. rewrite forallb_forall in Hall.
  assert (Hpacks : forall pack, pack ∈ cat_packs required_home_catalog ->
    required_home_pack_validate pack = Ok pack /\ engine_ready pack = true).
  { intros pack [Hv Hr]%list_elem_of_In%Hall%andb_true_iff. split; [|exact Hr].
    destruct (required_home_pack_validate pack) as [p|] eqn:E; [|done].
    assert (Hp : home_model_validate pack = Ok p) by exact E. by rewrite (home_validate_id pack p Hp). }
  split; [|exact Hpacks]. unfold catalog_validate.
  destruct (mapR_total required_home_pack_validate (cat_packs required_home_catalog)) as [ps ->].
  { intros pack [Hv _]%Hpacks. eauto. }
  cbn [mbind res_bind]. vm_compute. reflexivity.
Qed.
