(* ===== verification/Witnesses.v ===== *)
(** The properties of the development at concrete inputs: a conversation over the
    reviewed money pack, its claims, ledgers and sessions. *)

From S2P Require Import Prelude.
From S2P Require Import PyStr.
From S2P Require Import PyNum.
From S2P Require Import Json.
From S2P Require Import Schemas.
From S2P Require Import Requests.
From S2P Require Import Regex.
From S2P Require Import Evidence.
From S2P Require Import EvidenceTheory.
From S2P Require Import Packs.
From S2P Require Import PackDump.
From S2P Require Import Snapshot.
From S2P Require Import Ledger.
From S2P Require Import LedgerTheory.
From S2P Require Import LedgerProgress.
From S2P Require Import ContentCopy.
From S2P Require Import ContentChecks.
From S2P Require Import ContentPack.
From S2P Require Import LifeChecks.
From S2P Require Import ContentTheory.
From S2P Require Import HomeContract.
From S2P Require Import RequestTheory.
From S2P Require Import Catalog.
From S2P Require Import State.
From S2P Require Import Ladder.
From S2P Require Import LadderTheory.
From S2P Require Import Understand.
From S2P Require Import UnderstandTheory.
From S2P Require Import Question.
From S2P Require Import QuestionTheory.
From S2P Require Import Respond.
From S2P Require Import Gate.
From S2P Require Import NoteTheory.
From S2P Require Import SpeakerText.
From S2P Require Import SpeakerPlan.
From S2P Require Import Reply.
From S2P Require Import Speak.
From S2P Require Import Turn.
From S2P Require Import TurnTheory.
From S2P Require Import TurnTotal.
From S2P Require Import SessionTheory.
From S2P Require Import Samples.

(** * Computed results *)

Definition from_ok {A} (r : res A) : is_ok r = true -> A :=
  match r with
  | Ok a => fun _ => a
  | Raise _ => fun H => match Bool.diff_false_true H with end
  end.

Lemma from_ok_eq {A} (r : res A) H : r = Ok (from_ok r H).
Proof. by destruct r. Qed.

(** * A child's answer and what the model may claim about it *)

Definition child_text : ustr := utf8_decode "주스랑 빵을 더하면 1200원이야".

Definition money_targets : list TargetRefV2 := qp_targets (hp_initial_question pack_price).

Lemma money_request_ok :
  is_ok (understanding_request (HomePack pack_price) opening_ladder money_targets
           "얼마인지 알려줄래?" [] child_text) = true.
Proof. vm_compute. reflexivity. Defined.

Definition money_request : UnderstandingRequestV2 := from_ok _ money_request_ok.

Definition total_claim : FactUnderstandingClaimV2 := {|
  fc_claim_id := "c1"; fc_fact_id := "purchase_total"; fc_claim_type := CT_final_answer;
  fc_evidence_span := utf8_decode "1200원"; fc_interpreted_value := Some (MoneyValueV2 (PyInt 1200) "KRW");
  fc_verdict := V_correct; fc_confidence := None |}.
Definition method_claim (span : string) : RelationUnderstandingClaimV2 := {|
  rc_claim_id := "c2"; rc_relation_id := "add_item_prices"; rc_claim_type := CT_procedure_step;
  rc_evidence_span := utf8_decode span; rc_verdict := V_correct;
  rc_arithmetic_interpretation := None; rc_confidence := None |}.

Definition money_response (span : string) : UnderstandingResponseV2 := {|
  utterance_class := LEARNING_RESPONSE; conversation_move := CM_NONE; move_subject := MS_OTHER;
  question_focus := None; support_need := SN_NONE; ui_reference := None; non_learning_kind := None;
  contains_learning_evidence := true; answer_status := AS_COMPLETE; reasoning_status := RS_SUFFICIENT;
  claims := [FactClaim total_claim; RelationClaim (method_claim span)]; confidence := CONF_HIGH |}.

(** Both claims quoted, and the second one not said by the child. *)
Abbreviation good := (money_response "더하면").
Abbreviation misquoted := (money_response "곱하면").

Lemma quotes_bounded r : r = good \/ r = misquoted -> Forall (bounded_quote money_request) (claims r).
Proof. intros [-> | ->]; repeat constructor; vm_compute; (lia || discriminate). Qed.

Lemma literal_evidence_match_sound_witness :
  exists m, literal_evidence_match child_text (utf8_decode "1200원") = Some m /\
    m.1.1 <= m.1.2 <= length child_text.
Proof.
  exists (11, 16, EXACT). split; [vm_compute; reflexivity|].
  assert (Hm : literal_evidence_match child_text (utf8_decode "1200원") = Some (11, 16, EXACT))
    by (vm_compute; reflexivity).
  exact (proj1 (literal_evidence_match_sound child_text (utf8_decode "1200원") 11 16 EXACT Hm)).
Defined.

Lemma admit_understanding_response_partition_witness :
  exists a, admit_understanding_response_v2 money_request misquoted = Ok a /\ needs_repair a = true
    /\ claims (gu_response (ad_guarded a)) = [FactClaim total_claim].
Proof.
  destruct (admit_understanding_response_partition money_request misquoted) as (a & Ha & Hc & _ & _ & _ & Hr).
  { apply quotes_bounded. by right. }
  exists a. split; [exact Ha|]. rewrite Hc. split; [|vm_compute; reflexivity].
  destruct (needs_repair a); [reflexivity|]. exfalso. pose proof (proj1 Hr eq_refl) as He.
  rewrite Hc in He. vm_compute in He. discriminate He.
Defined.

Lemma guard_agrees_with_admission_witness :
  exists a g, admit_understanding_response_v2 money_request good = Ok a
    /\ guard_understanding_response_v2 money_request good = Ok g /\ ad_quarantined_claims a = [].
Proof.
  destruct (guard_agrees_with_admission money_request good) as (a & Ha & Hg).
  { apply quotes_bounded. by left. }
  destruct (guard_understanding_response_v2 money_request good) as [g|e] eqn:Eg.
  - exists a, g. split; [exact Ha|]. split; [reflexivity|]. exact (proj1 Hg).
  - vm_compute in Eg. discriminate Eg.
Defined.

(** * Ledgers *)

Lemma money_admission_ok : is_ok (admit_understanding_response_v2 money_request good) = true.
Proof. vm_compute. reflexivity. Defined.
Definition money_guarded : GuardedUnderstandingV2 := ad_guarded (from_ok _ money_admission_ok).

Lemma money_applied_ok :
  is_ok (apply_guarded_understanding_v2 (HomeSnapshot money_snap) money_ledger money_guarded "turn-1") = true.
Proof. vm_compute. reflexivity. Defined.
Definition money_applied : ReasoningLedgerApplyResultV2 := from_ok _ money_applied_ok.

Lemma money_applied_eq :
  apply_guarded_understanding_v2 (HomeSnapshot money_snap) money_ledger money_guarded "turn-1" = Ok money_applied.
Proof. apply from_ok_eq. Qed.

Lemma money_resolves : resolve_pack (HomeSnapshot money_snap) = Ok (HomePack pack_price).
Proof. exact (frame_resolves _ _ _ money_frame). Qed.

Lemma money_contract : pack_contract (HomePack pack_price).
Proof. exact (frame_contract _ _ _ money_frame). Qed.

Lemma apply_guarded_refines_progress_witness :
  exists p, resolve_pack (HomeSnapshot money_snap) = Ok p
    /\ progress_of (ar_ledger money_applied)
       = fold_left learn (claims (gu_response money_guarded)) (progress_of money_ledger)
    /\ progress_complete p (progress_of (ar_ledger money_applied)).
Proof.
  destruct (apply_guarded_refines_progress _ _ _ _ _ money_applied_eq) as (p & Hp & Hl & Hc & _).
  exists p. split; [exact Hp|]. split; [exact Hl|]. apply (proj1 Hc). vm_compute. reflexivity.
Defined.

Lemma apply_guarded_monotone_witness :
  maps_grow (maps_of money_ledger) (maps_of (ar_ledger money_applied)) /\ ledger_valid (ar_ledger money_applied).
Proof.
  destruct (apply_guarded_monotone _ _ _ _ _ money_applied_eq (ef_valid _ _ _ money_frame)) as (Hg & Hv & _).
  exact (conj Hg Hv).
Defined.

Lemma apply_guarded_idempotent_witness :
  exists r', apply_guarded_understanding_v2 (HomeSnapshot money_snap) (ar_ledger money_applied)
    money_guarded "turn-1" = Ok r' /\ ar_ledger r' = ar_ledger money_applied.
Proof.
  destruct (apply_guarded_idempotent _ _ _ _ _ money_applied_eq) as (r' & Hr & Hl & _).
  exact (ex_intro _ r' (conj Hr Hl)).
Defined.

Lemma money_graph i : i ∈ cg_fact_ids (ur_claimable_graph money_request) -> i ∈ pack_fact_ids (HomePack pack_price).
Proof. by vm_compute. Qed.
Lemma money_relations i :
  i ∈ cg_relation_ids (ur_claimable_graph money_request) -> i ∈ pack_relation_ids (HomePack pack_price).
Proof. by vm_compute. Qed.

Lemma claims_unique r : r = good \/ r = misquoted -> NoDup (map claim_id (claims r)).
Proof. intros [-> | ->]; apply uniqueb_spec; reflexivity. Qed.

Lemma admitted_understanding_applies_witness :
  exists a r, admit_understanding_response_v2 money_request misquoted = Ok a /\
    apply_guarded_understanding_v2 (HomeSnapshot money_snap) money_ledger (ad_guarded a) "turn-1" = Ok r.
Proof.
  apply (admitted_understanding_applies (HomeSnapshot money_snap) money_ledger (HomePack pack_price)
           money_request misquoted "turn-1").
  - exact money_resolves.
  - exact money_contract.
  - exact (ef_bound _ _ _ money_frame).
  - exact (ef_valid _ _ _ money_frame).
  - vm_compute. reflexivity.
  - exact money_graph.
  - exact money_relations.
  - apply claims_unique. by right.
  - apply quotes_bounded. by right.
  - vm_compute. lia.
Defined.

Lemma money_structured_ok :
  is_ok (apply_structured_progress_v2 (HomeSnapshot money_snap) money_ledger
      [("purchase_total", MoneyValueV2 (PyInt 1200) "KRW")] ["add_item_prices"] "turn-1" SRC_joint) = true.
Proof. vm_compute. reflexivity. Qed.

Lemma structured_progress_decided_witness :
  exists r, apply_structured_progress_v2 (HomeSnapshot money_snap) money_ledger
      [("purchase_total", MoneyValueV2 (PyInt 1200) "KRW")] ["add_item_prices"] "turn-1" SRC_joint = Ok r
    /\ ledger_valid (ar_ledger r).
Proof.
  pose proof (structured_progress_decided (HomeSnapshot money_snap) money_ledger (HomePack pack_price)
    [("purchase_total", MoneyValueV2 (PyInt 1200) "KRW")] ["add_item_prices"] "turn-1" SRC_joint
    money_resolves money_contract (ef_bound _ _ _ money_frame) (ef_valid _ _ _ money_frame)) as Hd.
  pose proof money_structured_ok as Hok.
  destruct (apply_structured_progress_v2 _ _ _ _ _ _) as [r|e]; [|discriminate Hok].
  exists r. split; [reflexivity|].
  assert (H1 : turn_id_ok "turn-1" = true) by (vm_compute; reflexivity).
  assert (H2 : NoDup ["add_item_prices"]) by (apply uniqueb_spec; reflexivity).
  destruct (Hd H1 H2) as (_ & _ & _ & _ & _ & _ & Hv & _); [| |exact Hv].
  - intros i ->%list_elem_of_singleton. by right; right; left.
  - intros i ->%list_elem_of_singleton. left.
Defined.

Lemma ledger_reload_iff_witness : reload_ledger money_ledger = Ok money_ledger.
Proof.
  apply (proj1 (ledger_reload_iff money_ledger (ef_valid _ _ _ money_frame))).
  split; [|split]; apply map_Forall_empty.
Defined.

(** The hundredth quotation of a fact already in the ledger. *)
Definition old_evidence_id (n : nat) : string :=
  (String.concat "" (repeat "0" 61) ++ String.concat "" (repeat "0" (3 - String.length (str_N (N.of_nat n))))
   ++ str_N (N.of_nat n))%string.

Definition crowded_entry : VerifiedFactLedgerEntryV2 := {|
  vf_fact_id := "purchase_total"; vf_canonical_value := MoneyValueV2 (PyInt 1200) "KRW";
  vf_evidence := map (fun n => FE_understanding {|
    ep_evidence_id := old_evidence_id n; ep_source_turn_id := "turn-0"; ep_source_start := 0;
    ep_source_end := 5; ep_match_kind := EXACT |}) (seq 0 100) |}.

Definition crowded_ledger : ReasoningLedgerV2 := {|
  rl_pack_id := pc_pack_id money_snap; rl_content_version := pc_content_version money_snap;
  rl_content_hash := money_hash; verified_facts := {[ "purchase_total" := crowded_entry ]};
  verified_relations := ∅; partial_relations := ∅; accepted_auxiliary_evidence := ∅ |}.

Lemma guards_pass {A} a b e1 e2 (q : A) :
  is_ok (_ ← raise_if a e1; _ ← raise_if b e2; Ok q) = true -> (_ ← raise_if a e1; _ ← raise_if b e2; Ok q) = Ok q.
Proof. by destruct a, b. Qed.

Lemma crowded_valid : ledger_valid crowded_ledger.
Proof.
  split; [vm_compute; reflexivity|]. split; try apply map_Forall_empty.
  simpl. apply map_Forall_singleton. split; [reflexivity|]. split; [reflexivity|]. split; [intros Hn%(f_equal length); vm_compute in Hn; discriminate Hn|]. split.
  - apply uniqueb_spec. vm_compute. reflexivity.
  - assert (Hf : forallb (fun x => match x with FE_understanding q => is_ok (evidence_pointer q)
                                  | FE_structured _ => false end) (vf_evidence crowded_entry) = true)
      by (vm_compute; reflexivity).
    rewrite forallb_forall in Hf. apply Forall_forall. intros x Hx%list_elem_of_In%Hf.
    destruct x as [q|q]; [|discriminate Hx]. unfold evidence_pointer in *.
    by apply guards_pass.
Qed.

(** The response of a later turn repeats the fact. *)
Definition repeat_response : UnderstandingResponseV2 := copy_response good None [FactClaim total_claim] true.

Lemma repeat_admission_ok : is_ok (admit_understanding_response_v2 money_request repeat_response) = true.
Proof. vm_compute. reflexivity. Defined.
Definition repeat_guarded : GuardedUnderstandingV2 := ad_guarded (from_ok _ repeat_admission_ok).

Lemma crowded_applied_ok :
  is_ok (apply_guarded_understanding_v2 (HomeSnapshot money_snap) crowded_ledger repeat_guarded "turn-9") = true.
Proof. vm_compute. reflexivity. Defined.

Lemma evidence_append_exceeds_bound_witness :
  exists r err, apply_guarded_understanding_v2 (HomeSnapshot money_snap) crowded_ledger repeat_guarded "turn-9" = Ok r
    /\ reload_ledger (ar_ledger r) = Raise err.
Proof.
  exists (from_ok _ crowded_applied_ok).
  destruct (evidence_append_exceeds_bound (HomeSnapshot money_snap) crowded_ledger repeat_guarded "turn-9"
    (from_ok _ crowded_applied_ok) total_claim crowded_entry) as [err Herr].
  - apply from_ok_eq.
  - exact crowded_valid.
  - vm_compute. reflexivity.
  - reflexivity.
  - vm_compute. reflexivity.
  - vm_compute. reflexivity.
  - intros m Hm. apply memb_false.
    assert (Hf : forallb (fun m => negb (memb (fact_evidence_id "turn-9" m total_claim)
      (map fe_id (vf_evidence crowded_entry)))) (gu_evidence_matches repeat_guarded) = true)
      by (vm_compute; reflexivity).
    rewrite forallb_forall in Hf. apply negb_true_iff, Hf, list_elem_of_In, Hm.
  - exists err. split; [apply from_ok_eq|exact Herr].
Defined.

(** * The reasoning graph *)

Lemma check_acyclic_decides_witness :
  check_acyclic ["juice_price"; "bread_price"; "purchase_total"]
    (dependencies (rg_relations (hp_reasoning_graph pack_price))) = Ok tt
  /\ Acc (depends (dependencies (rg_relations (hp_reasoning_graph pack_price)))) "purchase_total".
Proof.
  set (ids := ["juice_price"; "bread_price"; "purchase_total"]).
  set (deps := dependencies (rg_relations (hp_reasoning_graph pack_price))).
  assert (Hin : forall x d, x ∈ ids -> d ∈ deps x -> d ∈ ids).
  { intros x d Hx. subst ids. set_unfold in Hx. destruct Hx as [-> | [-> | [-> | []]]]; vm_compute; intros Hd;
      set_unfold in Hd; set_solver. }
  pose proof (check_acyclic_decides ids deps Hin) as Hc.
  assert (He : check_acyclic ids deps = Ok tt) by (vm_compute; reflexivity).
  split; [exact He|]. rewrite He in Hc. apply Hc. right; right; left.
Defined.

Lemma relation_math_sound_witness : 1200%Z = foldr Z.add 0%Z [700%Z; 500%Z].
Proof.
  apply (relation_math_sound R_addition [MoneyValueV2 (PyInt 700) "KRW"; MoneyValueV2 (PyInt 500) "KRW"]
    [700%Z; 500%Z] (MoneyValueV2 (PyInt 1200) "KRW") 1200%Z).
  - constructor; [|constructor; [|constructor]]; left; eexists; reflexivity.
  - repeat constructor; lia.
  - simpl. lia.
  - lia.
  - vm_compute. reflexivity.
  - left. eexists. reflexivity.
Defined.

