(* ===== verification/SessionWitnesses.v ===== *)
(** The properties of turns, sessions and the speaker at concrete inputs: attempts
    over a misquoting model, two sessions over the reviewed money pack with silent
    and joint answers and a choice, and one in which the child asks for help in the
    middle of an explanation. *)

From S2P Require Import Prelude.
From S2P Require Import PyStr.
From S2P Require Import PyNum.
From S2P Require Import Json.
From S2P Require Import Schemas.
From S2P Require Import Requests.
From S2P Require Import Regex.
From S2P Require Import Evidence.
From S2P Require Import EvidenceTheory.
From S2P Require Import Packs.
From S2P Require Import PackDump.
From S2P Require Import Snapshot.
From S2P Require Import Ledger.
From S2P Require Import LedgerTheory.
From S2P Require Import LedgerProgress.
From S2P Require Import ContentCopy.
From S2P Require Import ContentChecks.
From S2P Require Import ContentPack.
From S2P Require Import LifeChecks.
From S2P Require Import ContentTheory.
From S2P Require Import Catalog.
From S2P Require Import State.
From S2P Require Import Ladder.
From S2P Require Import Understand.
From S2P Require Import Question.
From S2P Require Import Respond.
From S2P Require Import Gate.
From S2P Require Import SpeakerText.
From S2P Require Import SpeakerNumerals.
From S2P Require Import SpeakerPlan.
From S2P Require Import Reply.
From S2P Require Import Speak.
From S2P Require Import Turn.
From S2P Require Import LadderTheory.
From S2P Require Import HomeContract.
From S2P Require Import RequestTheory.
From S2P Require Import UnderstandTheory.
From S2P Require Import QuestionTheory.
From S2P Require Import Samples.
From S2P Require Import NoteTheory.
From S2P Require Import TurnTheory.
From S2P Require Import SpeakerTheory.
From S2P Require Import SpeakerSafety.
From S2P Require Import SpeakerTotal.
From S2P Require Import TurnTotal.
From S2P Require Import SessionTheory.
From S2P Require Import Witnesses.

(** * Understanding attempts *)

(** A model that misquotes first and then times out. *)
Definition misquoting_gateway (k : nat) (_ : UnderstandingRequestV2) : GatewayOutcome :=
  if decide (k = 1) then GW_response misquoted else GW_TimeoutError.

Lemma misquoting_gateway_ok k : gateway_ok (misquoting_gateway k).
Proof.
  intros req r. unfold misquoting_gateway. case_decide; [|discriminate]. intros [= <-].
  split; [apply uniqueb_spec; reflexivity|]. split; [|split; [vm_compute; lia|by split]].
  repeat constructor; intros Hn%(f_equal length); vm_compute in Hn; discriminate Hn.
Qed.

Definition money_cx : attempt_context := {|
  cx_ladder := opening_ladder; cx_snapshot := HomeSnapshot money_snap; cx_ledger := money_ledger;
  cx_turn_id := "turn-1"; cx_request := money_request; cx_admitted := None |}.

Lemma money_cx_ok : frame_ok (HomePack pack_price) 30 money_cx.
Proof.
  split; cbn [money_cx cx_snapshot cx_ledger cx_turn_id cx_request cx_admitted].
  - exact money_resolves.
  - exact (ef_bound _ _ _ money_frame).
  - exact (ef_valid _ _ _ money_frame).
  - reflexivity.
  - exact money_graph.
  - exact money_relations.
  - vm_compute. lia.
  - vm_compute. lia.
  - discriminate.
Qed.

Lemma understanding_always_answers_witness :
  exists t, run_attempt_graph misquoting_gateway money_cx = Ok t /\ 1 <= ts_attempts t <= 2.
Proof.
  destruct (understanding_always_answers (HomePack pack_price) misquoting_gateway money_cx
    opening_ladder money_cx_ok eq_refl misquoting_gateway_ok) as (t & Ht & Ha & _).
  exact (ex_intro _ t (conj Ht Ha)).
Defined.

Lemma first_attempt_ok : is_ok (understand_attempt (misquoting_gateway 1) money_cx 1) = true.
Proof. vm_compute. reflexivity. Qed.
Definition first_attempt : option TurnSemantics * attempt_context := from_ok _ first_attempt_ok.

Lemma first_attempt_keeps :
  match first_attempt with
  | (None, c) => match cx_admitted c with Some _ => true | None => false end
  | _ => false
  end = true.
Proof. vm_compute. reflexivity. Qed.

Lemma repair_keeps_first_admission_witness :
  exists g1 t g, cx_admitted first_attempt.2 = Some g1 /\ run_attempt_graph misquoting_gateway money_cx = Ok t
    /\ ts_guarded t = Some g /\ keeps_claims g1 g.
Proof.
  pose proof first_attempt_keeps as Hk. pose proof (from_ok_eq _ first_attempt_ok) as He.
  fold first_attempt in He. destruct first_attempt as [[t|] c1]; [discriminate Hk|]. simpl in *.
  destruct (cx_admitted c1) as [g1|] eqn:Eg; [|discriminate Hk].
  destruct (repair_keeps_first_admission (HomePack pack_price) misquoting_gateway money_cx c1 g1
    money_cx_ok eq_refl misquoting_gateway_ok He Eg) as (t & g & Ht & Hg & Hkeep & _).
  exact (ex_intro _ g1 (ex_intro _ t (ex_intro _ g (conj eq_refl (conj Ht (conj Hg Hkeep)))))).
Defined.

(** * Questions *)

Lemma question_always_available_witness :
  exists st' q, question_contract (money_state L4 H0) pack_price money_ledger = Ok (st', q).
Proof.
  destruct (question_always_available pack_price money_snap money_ledger (money_state L4 H0))
    as (st' & q & Hq & _).
  - exact money_frame.
  - discriminate.
  - exists (KIND_fact, "purchase_total"). exact money_open.
  - intros _. vm_compute. reflexivity.
  - exact (ex_intro _ st' (ex_intro _ q Hq)).
Defined.

(** * Sessions *)

(** The tables on ASCII and Hangul. *)
Definition ascii_lower (c : N) : N := if ((65 <=? c) && (c <=? 90))%N then (c + 32)%N else c.
Definition ascii_digit (c : N) : bool := ((48 <=? c) && (c <=? 57))%N.
Definition korean_word (c : N) : bool :=
  (ascii_digit c || (65 <=? c) && (c <=? 90) || (97 <=? c) && (c <=? 122) || (c =? 95)
   || (4352 <=? c) && (c <=? 4607) || (12593 <=? c) && (c <=? 12686) || (44032 <=? c) && (c <=? 55203))%N.
Definition korean_tables : TextTables := {|
  nfkc := hangul_compose; casefold := map ascii_lower; is_word := korean_word; is_digit_char := ascii_digit |}.

(** Speakers that answer only when asked again and never to a bridge; no stable copies. *)
Definition nodding : SpeakerOutputV2 := {| so_text := utf8_decode "아하 그렇구나~"; so_mood := listening |}.
#[export] Instance plain_speaker : SpeechPort := {|
  speech_tables := korean_tables;
  stable_fallback _ _ _ _ _ := None;
  speaker_model _ n _ := if decide (n = 1) then SpeakerError "TimeoutError" else Spoken nodding;
  bridge_model _ _ := SpeakerError "TimeoutError" |}.

#[export] Instance plain_speaker_laws : SpeechPortLaws.
Proof.
  split; [done| |done]. intros s n plan o. simpl. case_decide; [done|]. intros [= <-]. vm_compute. reflexivity.
Qed.

Definition ids_n (turn note : string) : FreshIds := {| fresh_turn_id := turn; fresh_note_id := note |}.
Definition quiet (turn : string) : ChildResponse := {|
  cr_turn_id := turn; cr_type := RT_NO_RESPONSE; cr_text := None; cr_choice_ids := [];
  cr_values := ∅; cr_no_response_kind := Some SILENCE_TIMEOUT |}.

Lemma money_fresh level : fresh (money_state level H0).
Proof. split; try reflexivity. exists "home_teaching". reflexivity. Qed.

(** Starting at two-way choices. *)
Lemma opened_ok : is_ok (initialize_state (ids_n "turn-1" "note-1") pack_price (money_state L2 H0)) = true.
Proof. vm_compute. reflexivity. Qed.
Definition opened : SessionState * TurnContract := from_ok _ opened_ok.

Lemma opens level (Hok : is_ok (initialize_state (ids_n "turn-1" "note-1") pack_price (money_state level H0)) = true) :
  session_from pack_price level (from_ok _ Hok).1 (from_ok _ Hok).2.
Proof.
  apply (start_session _ _ (ids_n "turn-1" "note-1") (money_state level H0)); [apply money_fresh|reflexivity..|].
  rewrite <- surjective_pairing. apply from_ok_eq.
Qed.

Lemma opened_session : session pack_price opened.1 opened.2.
Proof. exact (ex_intro _ L2 (opens L2 opened_ok)). Qed.


(** The child stays silent: the session moves to joint work. *)
Lemma silent_ok :
  is_ok (run_turn misquoting_gateway (ids_n "turn-2" "note-2") opened.1 (quiet "turn-1") "뭘까?" []) = true.
Proof. vm_compute. reflexivity. Qed.
Definition silent : EngineTurnResult := from_ok _ silent_ok.

Lemma silent_gate : gate (tc_input opened.2) (tc_turn_id opened.2) (quiet "turn-1") = Ok tt.
Proof. vm_compute. reflexivity. Qed.

Lemma silent_session : session pack_price (tr_state silent) (tr_turn silent).
Proof.
  apply (session_turn _ misquoting_gateway (ids_n "turn-2" "note-2") opened.1 opened.2 (quiet "turn-1") "뭘까?" []).
  - exact opened_session.
  - reflexivity.
  - exact silent_gate.
  - apply from_ok_eq.
Qed.

(** The ledger stored by a state, where one is. *)
Definition ledger_in (s : SessionState) : ReasoningLedgerV2 := default money_ledger (stored_ledger s).
Definition opened_ledger : ReasoningLedgerV2 := ledger_in opened.1.
Definition silent_ledger : ReasoningLedgerV2 := ledger_in (tr_state silent).

Lemma stored_is s : bool_decide (is_Some (stored_ledger s)) = true -> stored_ledger s = Some (ledger_in s).
Proof. unfold ledger_in. by destruct (stored_ledger s). Qed.

Lemma opened_stored : stored_ledger opened.1 = Some opened_ledger.
Proof. apply stored_is. vm_compute. reflexivity. Qed.
Lemma silent_stored : stored_ledger (tr_state silent) = Some silent_ledger.
Proof. apply stored_is. vm_compute. reflexivity. Qed.
Lemma opened_reloads : reload_ledger opened_ledger = Ok opened_ledger.
Proof. vm_compute. reflexivity. Qed.
Lemma silent_reloads : reload_ledger silent_ledger = Ok silent_ledger.
Proof. vm_compute. reflexivity. Qed.


Lemma quiet_inputs : turn_inputs pack_price opened_ledger misquoting_gateway (quiet "turn-1") "뭘까?".
Proof.
  split.
  - vm_compute. reflexivity.
  - split; [exact opened_reloads|]. vm_compute. lia.
  - exact misquoting_gateway_ok.
  - split; [reflexivity|discriminate].
  - vm_compute. lia.
Qed.

Lemma admitted_response_is_answered_witness :
  exists snap t, interpret_execution misquoting_gateway opened.1 pack_price snap opened_ledger (quiet "turn-1") "뭘까?" [] = Ok t
    /\ turn_fits pack_price opened.1 t = true.
Proof.
  destruct (admitted_response_is_answered pack_price opened.1 opened.2 opened_ledger misquoting_gateway
    (ids_n "turn-2" "note-2") (quiet "turn-1") "뭘까?" [] opened_session opened_stored quiet_inputs silent_gate)
    as (snap & t & Ht & Hiff).
  exact (ex_intro _ snap (ex_intro _ t (conj Ht (proj1 Hiff (ex_intro _ silent (from_ok_eq _ silent_ok)))))).
Defined.

Lemma turn_effects_witness : exists lg', turn_effect pack_price opened.1 opened_ledger silent lg'.
Proof.
  exact (turn_effects pack_price opened.1 opened.2 opened_ledger misquoting_gateway
    (ids_n "turn-2" "note-2") (quiet "turn-1") "뭘까?" [] silent opened_session opened_stored silent_gate
    (from_ok_eq _ silent_ok)).
Defined.

(** The child takes part in the joint action. *)
Definition joint_values (i : InputContract) : gmap string pyvalue :=
  match ic_config i with CFG_joint _ _ _ e => e | _ => ∅ end.
Definition joined (turn : string) (i : InputContract) : ChildResponse := {|
  cr_turn_id := turn; cr_type := RT_ACTION; cr_text := None; cr_choice_ids := [];
  cr_values := joint_values i; cr_no_response_kind := None |}.
Definition joint_response : ChildResponse := joined (tc_turn_id (tr_turn silent)) (tc_input (tr_turn silent)).

Definition shows_joint (i : InputContract) : bool :=
  bool_decide (ic_kind i = IK_JOINT) && match ic_config i with CFG_joint _ _ _ _ => true | _ => false end.
Lemma shows_joint_spec i : shows_joint i = true ->
  ic_kind i = IK_JOINT /\ exists a b c e, ic_config i = CFG_joint a b c e /\ joint_values i = e.
Proof.
  unfold shows_joint, joint_values. intros [Hk%bool_decide_eq_true Hc]%andb_true_iff. split; [exact Hk|].
  destruct (ic_config i) as [|x y|a b c e]; try discriminate Hc. by exists a, b, c, e.
Qed.
Lemma silent_shows_joint : shows_joint (tc_input (tr_turn silent)) = true.
Proof. vm_compute. reflexivity. Qed.

Lemma joint_response_turn : cr_turn_id joint_response = tc_turn_id (tr_turn silent).
Proof. reflexivity. Qed.
Lemma joint_response_type : cr_type joint_response = RT_ACTION.
Proof. reflexivity. Qed.
Lemma joint_response_values : cr_values joint_response = joint_values (tc_input (tr_turn silent)).
Proof. reflexivity. Qed.

Lemma joint_action_completes_witness :
  exists r, run_turn misquoting_gateway (ids_n "turn-3" "note-3") (tr_state silent) joint_response "뭘까?" [] = Ok r
    /\ ss_status (outcome (tr_state r)) = COMPLETED
    /\ completion_outcome (outcome (tr_state r)) = Some SUPPORTED.
Proof.
  destruct (shows_joint_spec _ silent_shows_joint) as (Hk & a & b & c & e & Ec & Ej).
  destruct (joint_action_completes pack_price (tr_state silent) (tr_turn silent) silent_ledger
    misquoting_gateway (ids_n "turn-3" "note-3") joint_response "뭘까?" [] a b c e
    silent_session silent_stored silent_reloads Hk Ec joint_response_turn joint_response_type)
    as (_ & r & Hr & Hs & _ & Ho & _).
  { rewrite joint_response_values. exact Ej. }
  exact (ex_intro _ r (conj Hr (conj Hs Ho))).
Defined.

(** The child picks the first choice. *)
Definition first_choice : ChoiceOption := {|
  co_id := "answer_0"; co_label := "1,200원"; co_image_url := None; co_disabled := None |}.
Definition picked : ChildResponse := {|
  cr_turn_id := tc_turn_id opened.2; cr_type := RT_CHOICE; cr_text := None;
  cr_choice_ids := [co_id first_choice]; cr_values := ∅; cr_no_response_kind := None |}.

Lemma opened_shows_choice :
  ic_kind (tc_input opened.2) = IK_CHOICES /\ head (ic_choices (tc_input opened.2)) = Some first_choice.
Proof. vm_compute. split; reflexivity. Qed.

Lemma choice_turn_effect_witness :
  exists r, run_turn misquoting_gateway (ids_n "turn-2" "note-2") opened.1 picked "뭘까?" [] = Ok r.
Proof.
  destruct opened_shows_choice as [Hk Hc].
  destruct (choice_turn_effect pack_price opened.1 opened.2 opened_ledger misquoting_gateway
    (ids_n "turn-2" "note-2") picked "뭘까?" [] first_choice opened_session opened_stored opened_reloads)
    as (_ & r & lg' & plan & c & Hr & _).
  - vm_compute. reflexivity.
  - vm_compute. lia.
  - vm_compute. lia.
  - exact Hk.
  - apply head_Some_elem_of. exact Hc.
  - reflexivity.
  - reflexivity.
  - reflexivity.
  - exact (ex_intro _ r Hr).
Defined.

(** * The completion record and the note record *)

Lemma joint_done_ok : is_ok (run_turn misquoting_gateway (ids_n "turn-3" "note-3")
  (tr_state silent) joint_response "뭘까?" []) = true.
Proof. vm_compute. reflexivity. Qed.
Definition joint_done : EngineTurnResult := from_ok _ joint_done_ok.
Definition joint_ledger : ReasoningLedgerV2 := ledger_in (tr_state joint_done).

Lemma joint_record_ok : is_ok (completion_facts pack_price joint_ledger) = true.
Proof. vm_compute. reflexivity. Qed.

Definition verifiedb (lg : ReasoningLedgerV2) (t : TargetKind * string) : bool :=
  match t.1 with
  | KIND_fact => bool_decide (is_Some (verified_facts lg !! t.2))
  | KIND_relation => bool_decide (is_Some (verified_relations lg !! t.2))
  end.

Lemma nothing_open t : ~ open_target (HomePack pack_price) joint_ledger t.
Proof.
  assert (Hall : forallb (verifiedb joint_ledger) (required_targets (HomePack pack_price)) = true)
    by (vm_compute; reflexivity).
  intros [Ht Hu]. rewrite forallb_forall in Hall. apply list_elem_of_In, Hall in Ht.
  unfold verifiedb, unverified in *. destruct (t.1); apply bool_decide_eq_true, elem_of_dom in Ht; exact (Hu Ht).
Qed.

Lemma completion_record_complete_witness :
  exists d, completion_facts pack_price joint_ledger = Ok d
    /\ fact_reported (HomePack pack_price) d "purchase_total"
    /\ relation_reported (HomePack pack_price) d "add_item_prices".
Proof.
  pose proof joint_record_ok as Hok. destruct (completion_facts _ _) as [d|] eqn:Ed; [|discriminate Hok].
  destruct (completion_record_complete pack_price joint_ledger d Ed nothing_open) as [Hf Hr].
  exists d. split; [reflexivity|]. split; [apply Hf|apply Hr].
  - apply memb_spec. vm_compute. reflexivity.
  - apply memb_false. vm_compute. reflexivity.
  - apply memb_false. reflexivity.
  - apply memb_spec. vm_compute. reflexivity.
  - apply memb_false. reflexivity.
Defined.

(** The child explains total and method with no card shown. *)
Definition money_semantics : TurnSemantics := {|
  ts_response := gu_response money_guarded; ts_apply_result := money_applied;
  ts_guarded := Some money_guarded; ts_route := RO_main; ts_understanding_source := US_sonnet_low;
  ts_attempts := 1; ts_guard_status := GS_passed; ts_structured_correct := None;
  ts_initial_help := false; ts_failure_reason := None; ts_visual_patch := None |}.
Definition no_notes : note_state := {| child_note_evidence := ∅; supported_note_slots := [] |}.

Lemma verified_relations_all lg ids : forallb (fun i => verifiedb lg (KIND_relation, i)) ids = true ->
  forall i, i ∈ ids -> is_Some (verified_relations lg !! i).
Proof.
  rewrite forallb_forall. intros Hall i Hi%list_elem_of_In%Hall. by apply bool_decide_eq_true in Hi.
Qed.

Lemma new_relations_verified_ok :
  forallb (fun i => verifiedb (ar_ledger (ts_apply_result money_semantics)) (KIND_relation, i))
    (new_relation_ids (ar_log (ts_apply_result money_semantics))) = true.
Proof. vm_compute. reflexivity. Qed.

Lemma no_notes_ok p lg : notes_ok p lg no_notes.
Proof.
  split; simpl; [|by intros i ?%not_elem_of_nil|constructor].
  intros i [x Hx]. by rewrite lookup_empty in Hx.
Qed.

Lemma note_credit_is_earned_witness :
  let n := track_note_provenance no_notes (HomePack pack_price) money_semantics H0 H0 in
  notes_ok (HomePack pack_price) (ar_ledger (ts_apply_result money_semantics)) n
  /\ child_note_evidence n !! "add_item_prices" <> None.
Proof.
  intros n. split; [|vm_compute; discriminate].
  exact (proj1 (note_credit_is_earned (HomePack pack_price) no_notes money_semantics H0 H0
    (verified_relations_all _ _ new_relations_verified_ok) (no_notes_ok _ _))).
Defined.

(** * The speaker

    A session over the reviewed money pack in which the child asks for help in the
    middle of an explanation. *)

(** * A request for help on top of partial progress *)

(** A session that starts with the open question. *)
Lemma asked_open_ok : is_ok (initialize_state (ids_n "turn-1" "note-1") pack_price (money_state L4 H0)) = true.
Proof. vm_compute. reflexivity. Qed.
Definition asked_open : SessionState * TurnContract := from_ok _ asked_open_ok.

Lemma asked_open_session : session pack_price asked_open.1 asked_open.2.
Proof. exact (ex_intro _ L4 (opens L4 asked_open_ok)). Qed.

Definition asked_open_ledger : ReasoningLedgerV2 := ledger_in asked_open.1.
Lemma asked_open_stored : stored_ledger asked_open.1 = Some asked_open_ledger.
Proof. apply stored_is. vm_compute. reflexivity. Qed.

(** The child says to add, and asks whether that is right. *)
Definition half_said : ChildResponse := {|
  cr_turn_id := "turn-1"; cr_type := RT_TEXT; cr_text := Some (utf8_decode "더하면 되는 거 맞아?");
  cr_choice_ids := []; cr_values := ∅; cr_no_response_kind := None |}.

Definition half_claim (id : string) : UnderstandingClaimV2 := RelationClaim {|
  rc_claim_id := id; rc_relation_id := "add_item_prices"; rc_claim_type := CT_procedure_step;
  rc_evidence_span := utf8_decode "더하면"; rc_verdict := V_partial;
  rc_arithmetic_interpretation := None; rc_confidence := None |}.
Definition half_understood (move : ConversationMoveV2) (focus : option QuestionFocusV2)
    (cs : list UnderstandingClaimV2) : UnderstandingResponseV2 := {|
  utterance_class := LEARNING_RESPONSE; conversation_move := move; move_subject := MS_TASK;
  question_focus := focus; support_need := SN_NONE; ui_reference := None; non_learning_kind := None;
  contains_learning_evidence := true; answer_status := AS_MISSING; reasoning_status := RS_PARTIAL;
  claims := cs; confidence := CONF_HIGH |}.

Definition asking_gateway (_ : nat) (_ : UnderstandingRequestV2) : GatewayOutcome :=
  GW_response (half_understood TASK_QUESTION (Some CONFIRMATION_OR_CHALLENGE) [half_claim "c1"]).

Lemma asking_gateway_ok k : gateway_ok (asking_gateway k).
Proof.
  intros req r [= <-]. split; [apply uniqueb_spec; reflexivity|].
  split; [|split; [vm_compute; lia|by split]].
  repeat constructor; intros Hn%(f_equal length); vm_compute in Hn; discriminate Hn.
Qed.

Lemma half_gate : gate (tc_input asked_open.2) (tc_turn_id asked_open.2) half_said = Ok tt.
Proof. vm_compute. reflexivity. Qed.

Lemma said_bounded (w : ustr) n : length w <= n -> forall t, Some w = Some t -> length t <= n.
Proof. intros Hw t. by intros [= <-]. Qed.

Lemma half_inputs : turn_inputs pack_price asked_open_ledger asking_gateway half_said "뭘까?".
Proof.
  split.
  - vm_compute. reflexivity.
  - split; vm_compute; [reflexivity|lia].
  - exact asking_gateway_ok.
  - split; [reflexivity|]. apply said_bounded. vm_compute. lia.
  - vm_compute. lia.
Qed.

Lemma half_ok : is_ok (interpret_execution asking_gateway asked_open.1 pack_price money_snap asked_open_ledger
  half_said "뭘까?" []) = true.
Proof. vm_compute. reflexivity. Qed.
Definition half_turn : TurnSemantics := from_ok _ half_ok.

Lemma half_partial : partial_turn half_turn /\ conversation_move (ts_response half_turn) = TASK_QUESTION.
Proof. vm_compute. repeat split; reflexivity. Qed.

Lemma help_with_partial_progress_fails_witness :
  run_turn asking_gateway (ids_n "turn-2" "note-2") asked_open.1 half_said "뭘까?" []
  = Raise (ValidationError "help-guided reasking requires a visible help card").
Proof.
  apply (help_with_partial_progress_fails pack_price asked_open.1 asked_open.2 asked_open_ledger asking_gateway
    (ids_n "turn-2" "note-2") half_said "뭘까?" [] money_snap half_turn asked_open_session asked_open_stored
    half_inputs half_gate money_pin (from_ok_eq _ half_ok)).
  - vm_compute. discriminate.
  - vm_compute. reflexivity.
  - rewrite (proj2 half_partial). left.
  - exact (proj1 half_partial).
Defined.

(** * A reaction to the same words without a question *)

Definition telling_gateway (_ : nat) (_ : UnderstandingRequestV2) : GatewayOutcome :=
  GW_response (half_understood CM_NONE None [half_claim "c1"]).
Lemma told_ok : is_ok (interpret_execution telling_gateway asked_open.1 pack_price money_snap asked_open_ledger
  half_said "뭘까?" []) = true.
Proof. vm_compute. reflexivity. Qed.
Definition told : TurnSemantics := from_ok _ told_ok.

Lemma open_question_ok : is_ok (question_contract asked_open.1 pack_price asked_open_ledger) = true.
Proof. vm_compute. reflexivity. Qed.
Definition open_question : QuestionContract := (from_ok _ open_question_ok).2.

(** The model says "아하 그렇구나~" on its second attempt. *)
Definition spoken_told : res SpeechResultV2 :=
  speak (speaker_model asked_open.1) (ladder asked_open.1) (subgoal_id asked_open.1) [] (HomePack pack_price) told
    open_question "다시 말해줄래?" H0.
Lemma spoken_ok : is_ok spoken_told = true.
Proof. vm_compute. reflexivity. Qed.
Definition spoken : SpeechResultV2 := from_ok _ spoken_ok.

Lemma model_lines_are_clean_witness :
  exists o, spr_text spoken <> "다시 말해줄래?"%string /\ clean_line (HomePack pack_price) (qc_targets open_question) o.
Proof.
  assert (Hs : spr_source spoken = "llm"%string) by (vm_compute; reflexivity).
  assert (Hr : spoken_told = Ok spoken) by apply from_ok_eq. unfold spoken_told in Hr.
  destruct (proj1 (model_lines_are_clean (ladder asked_open.1) (subgoal_id asked_open.1) [] (HomePack pack_price) told
    open_question "다시 말해줄래?" H0 spoken) (speaker_model asked_open.1) Hr Hs) as (n & plan & o & reask & _ & _ & _ & Hc & _).
  exists o. split; [apply (bool_decide_unpack _); vm_compute; exact I|exact Hc].
Defined.

(** ** What the plan does not tell

    The same turn without its words, over a pack with another total. *)
Definition other_total (f : ContentFactV2) : ContentFactV2 :=
  if memb (KIND_fact, cf_fact_id f) (map target_pair (qc_targets open_question)) then {|
    cf_fact_id := cf_fact_id f; cf_role := cf_role f; cf_value := MoneyValueV2 (PyInt 9900) "KRW";
    cf_speaker_label := cf_speaker_label f; cf_initially_visible := cf_initially_visible f;
    cf_required_for_completion := cf_required_for_completion f; cf_accepted_surface_forms := ["구천구백 원"] |}
  else f.
Definition other_pack : RequiredHomeTeachingPackV2 :=
  let p := pack_price in let g := hp_reasoning_graph p in {|
  hp_pack_id := hp_pack_id p; hp_content_version := hp_content_version p;
  hp_migration_source_content_version := hp_migration_source_content_version p;
  hp_curriculum_session_id := hp_curriculum_session_id p; hp_title := hp_title p;
  hp_journey := hp_journey p; hp_source_problem := hp_source_problem p;
  hp_reasoning_graph := {| rg_facts := map other_total (rg_facts g); rg_relations := rg_relations g;
    rg_completion := rg_completion g; rg_open_auxiliary_claims := rg_open_auxiliary_claims g |};
  hp_initial_question := hp_initial_question p; hp_l3_plans := hp_l3_plans p; hp_copy_slots := hp_copy_slots p;
  hp_l2_plans := hp_l2_plans p; hp_l0_joint_plan := hp_l0_joint_plan p; hp_help_plan := hp_help_plan p;
  hp_policies := hp_policies p |}.

Lemma other_alike : packs_alike (qc_targets open_question) (HomePack pack_price) (HomePack other_pack).
Proof.
  split; [|reflexivity]. cbn [pack_facts other_pack hp_reasoning_graph rg_facts]. rewrite map_map.
  induction (rg_facts (hp_reasoning_graph pack_price)) as [|f l IH]; [constructor|]. constructor; [|exact IH].
  unfold alike_but, other_total. cbn [fact_id fact_speaker_label fact_value].
  destruct (memb (KIND_fact, cf_fact_id f) _); split; [reflexivity| |reflexivity|]; split; try reflexivity; discriminate.
Qed.

Lemma told_alike : said_alike told (redact_turn told).
Proof. vm_compute. reflexivity. Qed.

Definition plan_of (p : RequiredHomeTeachingPackV2) (t : TurnSemantics) : res SpeakerPlanV2 :=
  reaction_plan (ladder asked_open.1) (subgoal_id asked_open.1) [] (HomePack p) t open_question HC_none.

Lemma plans_hide_words_and_answers_witness :
  (exists plan, plan_of pack_price told = Ok plan /\ plan_of other_pack (redact_turn told) = Ok plan)
  /\ pack_facts (HomePack pack_price) <> pack_facts (HomePack other_pack).
Proof.
  assert (Hok : is_ok (plan_of pack_price told) = true) by (vm_compute; reflexivity).
  destruct (plans_hide_words_and_answers (ladder asked_open.1) (subgoal_id asked_open.1) [] (HomePack pack_price)
    (HomePack other_pack) told (redact_turn told) open_question HC_none H0 RM_normal other_alike told_alike) as (_ & Hp & _).
  split; [|vm_compute; discriminate]. exists (from_ok _ Hok).
  split; [exact (from_ok_eq _ Hok)|]. exact (eq_trans (eq_sym Hp) (from_ok_eq _ Hok)).
Defined.

(** * An amount in words *)

Lemma spelled_answer_is_refused_witness :
  is_Some (dynamic_output_violation (utf8_decode "그럼 " ++ spell_sino 1200 ++ won ++ utf8_decode "이구나") []
    [MoneyValueV2 (PyInt 1200) "KRW"] [])
  /\ spell_sino 1200 = utf8_decode "천이백".
Proof.
  split; [|vm_compute; reflexivity].
  exact (proj1 (spelled_answer_is_refused (utf8_decode "그럼 ") 1200 (utf8_decode "이구나") "KRW" []
    [MoneyValueV2 (PyInt 1200) "KRW"] [] eq_refl ltac:(lia) ltac:(left))).
Defined.

(** With a space after [만] the amount is read as its last part: where 4,000 won is known
    and 14,000 won asked for, a line that says the answer passes both checks, while the
    unspaced spelling is refused. *)
Example spaced_spelling_passes :
  dynamic_output_violation (utf8_decode "만 사천 원이구나") [int_number 4000] [MoneyValueV2 (PyInt 14000) "KRW"] [] = None
  /\ unresolved_answer_surface_violation (utf8_decode "만 사천 원이구나") [MoneyValueV2 (PyInt 14000) "KRW"] [] = None
  /\ dynamic_output_violation (utf8_decode "만사천원이구나") [int_number 4000] [MoneyValueV2 (PyInt 14000) "KRW"] []
     = Some "unresolved_number_surface"%string.
Proof. vm_compute. split_and!; reflexivity. Qed.

(** * Two claims over one quotation

    Evidence ids leave the claim id out, so a relation quoted twice in one response
    has one evidence id, which the speaker plan refuses to list twice. *)

Definition twice_gateway (_ : nat) (_ : UnderstandingRequestV2) : GatewayOutcome :=
  GW_response (half_understood CM_NONE None [half_claim "c1"; half_claim "c2"]).
Example repeated_quotation_fails :
  run_turn twice_gateway (ids_n "turn-2" "note-2") asked_open.1 half_said "뭘까?" []
  = Raise (ValidationError "speaker evidence ids must be unique").
Proof. vm_compute. reflexivity. Qed.
