(* ===== verification/CopyTheory.v ===== *)
(** What generated copy can do: a ready artifact is never changed and a lease is
    exclusive, every copy resolves, what a child hears from a copy names nothing still
    asked for, and a compiled plan set can be pinned. *)

From S2P Require Import Prelude.
From S2P Require Import PyStr.
From S2P Require Import PyNum.
From S2P Require Import Json.
From S2P Require Import Schemas.
From S2P Require Import Evidence.
From S2P Require Import Packs.
From S2P Require Import PackDump.
From S2P Require Import Snapshot.
From S2P Require Import ContentCopy.
From S2P Require Import ContentChecks.
From S2P Require Import ContentPack.
From S2P Require Import ContentTheory.
From S2P Require Import State.
From S2P Require Import Question.
From S2P Require Import SpeakerText.
From S2P Require Import SpeakerPlan.
From S2P Require Import Speak.
From S2P Require Import Turn.
From S2P Require Import RequestTheory.
From S2P Require Import SpeakerTheory.
From S2P Require Import HomeContract.
From S2P Require Import SpeakerSafety.
From S2P Require Import SpeakerTotal.
From S2P Require Import StableCopy.
From S2P Require Import CopyCache.
From S2P Require Import CopyResolver.

(** * The cache *)

Section cache.
Context `{TextTables} `{Nfc} `{Digest} (settings : CopyCacheSettings).
Implicit Types (db : copy_db) (key : string) (r : CopyCacheRow) (o : CopyOp).

Definition is_ready r : bool := bool_decide (gc_status r = "ready"%string).

(** How one row may change: a ready row stays, attempts never decrease. *)
Definition row_grows r r' : Prop := (is_ready r = true -> r' = r) /\ gc_attempts r <= gc_attempts r'.
Definition db_grows db db' : Prop := forall key r, db !! key = Some r -> exists r', db' !! key = Some r' /\ row_grows r r'.

Lemma db_grows_refl db : db_grows db db.
Proof. intros key r Hr. exists r. split; [done|]. by split. Qed.

Lemma db_grows_trans db1 db2 db3 : db_grows db1 db2 -> db_grows db2 db3 -> db_grows db1 db3.
Proof.
  intros H12 H23 key r Hr. destruct (H12 key r Hr) as (r2 & Hr2 & Hk & Ha). destruct (H23 key r2 Hr2) as (r3 & Hr3 & Hk' & Ha').
  exists r3. split; [done|]. split; [|lia]. intros Hready. rewrite (Hk Hready) in *. by apply Hk'.
Qed.

Lemma db_grows_insert db key r r' : db !! key = Some r -> row_grows r r' -> db_grows db (<[key := r']> db).
Proof.
  intros Hr Hg k x Hx. destruct (decide (k = key)) as [->|Hne].
  - rewrite lookup_insert_eq. exists r'. rewrite Hr in Hx. by injection Hx as <-.
  - rewrite lookup_insert_ne by done. exists x. split; [done|]. by split.
Qed.

Lemma db_grows_new db key r : db !! key = None -> db_grows db (<[key := r]> db).
Proof.
  intros Hn k x Hx. rewrite lookup_insert_ne by congruence. exists x. split; [done|]. by split.
Qed.

Lemma holds_lease_spec l r : holds_lease l r = true ->
  is_ready r = false /\ gc_attempts r = gl_attempt l /\ gc_lease_token r = Some (gl_lease_token l).
Proof.
  unfold holds_lease, is_ready. intros [[Hs Ha]%andb_true_iff Ht]%andb_true_iff. apply bool_decide_eq_true in Hs, Ht.
  apply Nat.eqb_eq in Ha. rewrite Hs. done.
Qed.

(** An acquisition that grants a lease writes a row of a new attempt. *)
Lemma acquire_existing_Ok key now token db res db' : acquire_existing settings key now token db = Ok (res, db') ->
  db' = db /\ (forall l, res <> AcquireLeased l)
  \/ exists r l, db !! key = Some r /\ is_ready r = false /\ res = AcquireLeased l
     /\ db' = <[key := leased_row settings r token now]> db /\ gl_cache_key l = key /\ gl_attempt l = S (gc_attempts r).
Proof.
  unfold acquire_existing. destruct (db !! key) as [r|] eqn:Er; [|intros [= <- <-]; by left].
  unfold lease_of, assert_key_version in *. cbn [leased_row gc_key_version gc_lease_token gc_attempts gc_available_at or_raise].
  destruct (negb (bool_decide (gc_key_version r = _))) eqn:Ev; [done|]. cbn [raise_if mbind res_bind].
  destruct (bool_decide (gc_status r = "ready"%string)) eqn:Es.
  { destruct (ready_artifact key r); [|done]. intros [= <- <-]. by left. }
  destruct (negb (memb (gc_status r) _)); [done|]. cbn [raise_if mbind res_bind]. destruct (now <? gc_available_at r)%Z.
  { intros [= <- <-]. left. split; [done|]. intros l. by destruct (bool_decide (gc_status r = "generating"%string)). }
  intros [= <- <-]. right. do 2 eexists. split; [done|]. unfold is_ready. rewrite Es. done.
Qed.

Lemma acquire_Ok key now token db res db' : acquire settings key now token db = Ok (res, db') ->
  db' = db /\ (forall l, res <> AcquireLeased l)
  \/ (exists l, db !! key = None /\ res = AcquireLeased l /\ db' = <[key := new_row settings token now]> db
       /\ gl_cache_key l = key /\ gl_attempt l = 1)
  \/ exists r l, db !! key = Some r /\ is_ready r = false /\ res = AcquireLeased l
     /\ db' = <[key := leased_row settings r token now]> db /\ gl_cache_key l = key /\ gl_attempt l = S (gc_attempts r).
Proof.
  unfold acquire. destruct (validate_sha256_hex _ _); [|done]. cbn [mbind res_bind]. destruct (db !! key) as [r|] eqn:Er.
  - intros Ha. destruct (acquire_existing_Ok _ _ _ _ _ _ Ha) as [Hl|(r' & l & Hr & Hl)]; [by left|]. right. right.
    exists r', l. by rewrite Er in Hr.
  - intros [= <- <-]. right. left. eexists. done.
Qed.

Lemma complete_Ok l artifact now db res db' : complete_copy l artifact now db = Ok (res, db') ->
  (db' = db /\ res = None)
  \/ exists r canonical a, db !! gl_cache_key l = Some r /\ holds_lease l r = true /\ artifact_value artifact = Ok canonical
     /\ res = Some a /\ db' = <[gl_cache_key l := ready_row r canonical now]> db.
Proof.
  unfold complete_copy. destruct (validate_sha256_hex _ _); [|done]. cbn [mbind res_bind].
  destruct (artifact_value artifact) as [c|] eqn:Ec; [|done]. cbn [mbind res_bind].
  destruct (db !! gl_cache_key l) as [r|] eqn:Er; [|intros [= <- <-]; by left].
  destruct (holds_lease l r) eqn:Eh; [|intros [= <- <-]; by left].
  destruct (assert_key_version r); [|done]. cbn [mbind res_bind].
  destruct (ready_artifact _ _) as [art|]; [|done]. intros [= <- <-]. right. exists r, c, art. done.
Qed.

Lemma fail_Ok l code now db res db' : fail_copy settings l code now db = Ok (res, db') ->
  (db' = db /\ res = None)
  \/ exists r at_, db !! gl_cache_key l = Some r /\ holds_lease l r = true /\ res = Some at_
     /\ db' = <[gl_cache_key l := retry_row r code at_ now]> db.
Proof.
  unfold fail_copy. destruct (validate_sha256_hex _ _); [|done]. destruct (validate_error_code code); [|done]. cbn [mbind res_bind].
  destruct (db !! gl_cache_key l) as [r|] eqn:Er; [|intros [= <- <-]; by left].
  destruct (holds_lease l r) eqn:Eh; [|intros [= <- <-]; by left].
  destruct (assert_key_version r); [|done]. cbn [mbind res_bind]. intros [= <- <-]. right. exists r. eexists. done.
Qed.

Lemma leased_grows r token now : is_ready r = false -> row_grows r (leased_row settings r token now).
Proof. intros Hn. split; [congruence|]. simpl. lia. Qed.

Lemma copy_step_grows db o : db_grows db (copy_step settings db o).
Proof.
  destruct o as [key now token|key now token|l artifact now|l code now]; simpl.
  - destruct (acquire settings key now token db) as [[res db']|] eqn:E; [|apply db_grows_refl]. simpl.
    destruct (acquire_Ok _ _ _ _ _ _ E) as [[-> _]|[(l & Hn & _ & -> & _)|(r & l & Hr & Hn & _ & -> & _)]].
    + apply db_grows_refl.
    + by apply db_grows_new.
    + eapply db_grows_insert; [done|]. by apply leased_grows.
  - destruct (acquire_existing settings key now token db) as [[res db']|] eqn:E; [|apply db_grows_refl]. simpl.
    destruct (acquire_existing_Ok _ _ _ _ _ _ E) as [[-> _]|(r & l & Hr & Hn & _ & -> & _)]; [apply db_grows_refl|].
    eapply db_grows_insert; [done|]. by apply leased_grows.
  - destruct (complete_copy l artifact now db) as [[res db']|] eqn:E; [|apply db_grows_refl]. simpl.
    destruct (complete_Ok _ _ _ _ _ _ E) as [[-> _]|(r & c & a & Hr & Hh & _ & _ & ->)]; [apply db_grows_refl|].
    apply holds_lease_spec in Hh as (Hn & _). eapply db_grows_insert; [done|]. split; [congruence|simpl; lia].
  - destruct (fail_copy settings l code now db) as [[res db']|] eqn:E; [|apply db_grows_refl]. simpl.
    destruct (fail_Ok _ _ _ _ _ _ E) as [[-> _]|(r & t & Hr & Hh & _ & ->)]; [apply db_grows_refl|].
    apply holds_lease_spec in Hh as (Hn & _). eapply db_grows_insert; [done|]. split; [congruence|simpl; lia].
Qed.

Lemma copy_history_grows db ops : db_grows db (copy_history settings db ops).
Proof.
  revert db. induction ops as [|o ops IH]; intros db; [apply db_grows_refl|].
  eapply db_grows_trans; [apply copy_step_grows|apply IH].
Qed.

(** A lease whose attempt is over no longer reports. *)
Lemma stale_complete db l artifact now r : db !! gl_cache_key l = Some r -> gl_attempt l < gc_attempts r ->
  forall res db', complete_copy l artifact now db = Ok (res, db') -> res = None /\ db' = db.
Proof.
  intros Hr Ha res db' [[-> ->]|(r' & c & a & Hr' & (_ & Hh & _)%holds_lease_spec & _)]%complete_Ok; [done|].
  rewrite Hr in Hr'. injection Hr' as <-. lia.
Qed.
Lemma stale_fail db l code now r : db !! gl_cache_key l = Some r -> gl_attempt l < gc_attempts r ->
  forall res db', fail_copy settings l code now db = Ok (res, db') -> res = None /\ db' = db.
Proof.
  intros Hr Ha res db' [[-> ->]|(r' & t & Hr' & (_ & Hh & _)%holds_lease_spec & _)]%fail_Ok; [done|].
  rewrite Hr in Hr'. injection Hr' as <-. lia.
Qed.

Lemma granted_row key now token db l db' : acquire settings key now token db = Ok (AcquireLeased l, db') ->
  gl_cache_key l = key /\ exists r, db' !! key = Some r /\ gc_attempts r = gl_attempt l /\ is_ready r = false.
Proof.
  intros [[_ Hn]|[(l' & _ & [= ->] & -> & Hk & Ha)|(r & l' & _ & _ & [= ->] & -> & Hk & Ha)]]%acquire_Ok;
    [by destruct (Hn l)| |]; (split; [done|]); rewrite lookup_insert_eq; eexists; (split; [reflexivity|]); rewrite Ha; done.
Qed.

Lemma granted_newer key now token db l db' r : acquire settings key now token db = Ok (AcquireLeased l, db') ->
  db !! key = Some r -> gl_attempt l = S (gc_attempts r) /\ is_ready r = false.
Proof.
  intros [[_ Hn]|[(l' & Hnone & _)|(r' & l' & Hr & Hn & [= ->] & _ & _ & Ha)]]%acquire_Ok Hr'; [by destruct (Hn l)|congruence|].
  rewrite Hr in Hr'. injection Hr' as <-. done.
Qed.

(** Generated copy is immutable and its leases are exclusive.  Whatever
    transactions any processes run, in any order and at any times: a ready row stays
    as it is, artifact and all; and once a second lease of a key is granted, the
    first one is refused for good, so it can neither store its artifact nor record its
    failure. *)
Theorem copy_cache_is_fenced db :
  (forall ops key r, db !! key = Some r -> gc_status r = "ready"%string ->
     copy_history settings db ops !! key = Some r)
  /\ forall key now token l db1 ops now' token' l' db2 ops',
       acquire settings key now token db = Ok (AcquireLeased l, db1) ->
       acquire settings key now' token' (copy_history settings db1 ops) = Ok (AcquireLeased l', db2) ->
       let later := copy_history settings db2 ops' in
       (forall artifact n res db', complete_copy l artifact n later = Ok (res, db') -> res = None /\ db' = later)
       /\ (forall code n res db', fail_copy settings l code n later = Ok (res, db') -> res = None /\ db' = later).
Proof.
  split.
  - intros ops key r Hr Hs. destruct (copy_history_grows db ops key r Hr) as (r' & Hr' & Hk & _).
    rewrite Hr', Hk; [done|]. by apply bool_decide_eq_true.
  - intros key now token l db1 ops now' token' l' db2 ops' H1 H2 later.
    destruct (granted_row _ _ _ _ _ _ H1) as (Hkey & r1 & Hr1 & Ha1 & _).
    destruct (copy_history_grows db1 ops key r1 Hr1) as (r2 & Hr2 & _ & Hge).
    destruct (granted_newer _ _ _ _ _ _ _ H2 Hr2) as [Ha2 _].
    destruct (granted_row _ _ _ _ _ _ H2) as (_ & r3 & Hr3 & Ha3 & _).
    destruct (copy_history_grows db2 ops' key r3 Hr3) as (r4 & Hr4 & _ & Hge').
    assert (Hold : later !! gl_cache_key l = Some r4 /\ gl_attempt l < gc_attempts r4) by (rewrite Hkey; split; [done|lia]).
    destruct Hold as [Hrow Hlt]. split; intros x n res db' Hc.
    + by eapply (stale_complete later l x n r4 Hrow Hlt).
    + by eapply (stale_fail later l x n r4 Hrow Hlt).
Qed.

(** The delay doubles up to the maximum. *)
Lemma retry_loop_min n delay : (0 < delay)%Z -> (delay <= retry_max_seconds settings)%Z ->
  retry_loop settings n delay = Z.min (delay * 2 ^ Z.of_nat n) (retry_max_seconds settings).
Proof.
  revert delay. induction n as [|n IH]; intros delay Hd Hm; [simpl; lia|]. cbn [retry_loop].
  rewrite Nat2Z.inj_succ, Z.pow_succ_r by lia.
  assert (Hp : (1 <= 2 ^ Z.of_nat n)%Z) by (pose proof (Z.pow_pos_nonneg 2 (Z.of_nat n)); lia).
  destruct (Z.leb_spec (retry_max_seconds settings) delay); [rewrite Z.min_r; [done|nia]|].
  rewrite IH by lia. destruct (Z.min_spec (delay * 2) (retry_max_seconds settings)) as [[_ ->]|[Hle ->]].
  - f_equal. lia.
  - rewrite !Z.min_r; [done|nia|nia].
Qed.
Lemma retry_delay_doubles s attempt : copy_cache_settings settings = Ok s ->
  copy_retry_delay settings attempt
  = Z.min (retry_base_seconds settings * 2 ^ Z.of_nat (attempt - 1)) (retry_max_seconds settings).
Proof.
  unfold copy_cache_settings. intros Hs. destruct (lease_seconds settings <=? 0)%Z; [done|]. cbn [raise_if mbind res_bind] in Hs.
  destruct (Z.leb_spec (retry_base_seconds settings) 0); [done|]. cbn [raise_if mbind res_bind] in Hs.
  destruct (Z.ltb_spec (retry_max_seconds settings) (retry_base_seconds settings)); [done|]. by apply retry_loop_min.
Qed.
End cache.

(** * The output firewall *)

(** A copy a child may hear: short, and naming neither the value nor a wording of a
    fact its slot asks for nor a correct choice for it, with numbers of the plan's
    visible facts only. *)
Record clean_copy `{TextTables} (pack : RequiredHomeTeachingPackV2) (slot : CopySlotV2) (plan : StableCopyPlanV2)
    (t : ustr) : Prop := {
  cc_said : truthy (ustrip t) = true;
  cc_short : line_count t <= 2;
  cc_no_answer f : f ∈ pack_facts (HomePack pack) -> (KIND_fact, fact_id f) ∈ map target_pair (cs_targets slot) ->
    names_answer t f = false;
  cc_no_choice s : s ∈ correct_labels (HomePack pack) (map target_pair (cs_targets slot)) ->
    contains_surface t (utf8_decode s) = false;
  cc_no_label s : scp_purpose plan = l2_question -> s ∈ scp_choice_labels plan -> contains_surface t (utf8_decode s) = false;
  cc_numbers d : d ∈ numeric_literals_of t ->
    exists f, f ∈ scp_visible_facts plan /\ dec_in d (canonical_numbers [af_value f]) = true
}.

Lemma filter_map {A B} (g : A -> B) (q : B -> bool) l :
  List.filter q (map g l) = map g (List.filter (fun x => q (g x)) l).
Proof. induction l as [|x l IH]; [done|]. simpl. rewrite IH. by destruct (q (g x)). Qed.

(** The firewall of a copy is the one of the speakers, on the slot's targets. *)
Lemma same_firewall pack slot :
  build_stable_copy_output_firewall pack slot
  = {| of_forbidden_values := fw_values (unresolved_answer_firewall (HomePack pack) (cs_targets slot));
       of_forbidden_surfaces := fw_surfaces (unresolved_answer_firewall (HomePack pack) (cs_targets slot)) |}.
Proof.
  unfold build_stable_copy_output_firewall, unresolved_answer_firewall. cbn [fw_values fw_surfaces pack_facts correct_labels].
  rewrite filter_map, map_map, !flat_map_concat_map, !map_map. done.
Qed.

(** ** Every copy resolves *)

Record sound_output `{TextTables} (o : StableCopyOutputV2) (p : StableCopyPlanV2) (fw : StableCopyOutputFirewallV2) : Prop := {
  sn_text : truthy (ustrip (sco_text o)) = true;
  sn_lines : line_count (sco_text o) <= 2;
  sn_act : sco_act o = scp_act p;
  sn_unique : NoDup (sco_asked_fact_ids o) /\ NoDup (sco_asked_relation_ids o);
  sn_asked : set_eqb (sco_asked_fact_ids o) (st_fact_ids (scp_target p)) = true
    /\ set_eqb (sco_asked_relation_ids o) (st_relation_ids (scp_target p)) = true;
  sn_surface : unresolved_answer_surface_violation (sco_text o) (of_forbidden_values fw) (of_forbidden_surfaces fw) = None;
  sn_numbers : dec_subset (numeric_literals_of (sco_text o)) (canonical_numbers (map af_value (scp_visible_facts p))) = true;
  sn_labels s : scp_purpose p = l2_question -> s ∈ scp_choice_labels p -> contains_surface (sco_text o) (utf8_decode s) = false
}.

Section resolution.
Context `{TextTables}.

Lemma no_violation o p fw : stable_copy_output_violation o p fw = None -> sound_output o p fw.
Proof.
  unfold stable_copy_output_violation, copy_output_violation. destruct (_ && existsb _ _) eqn:El; [done|].
  destruct (truthy (ustrip _)) eqn:Et; [|done]. destruct (2 <? _) eqn:E2; [done|]. apply Nat.ltb_ge in E2.
  destruct (bool_decide (sco_act o = _)) eqn:Ea; [|done]. destruct (uniqueb (sco_asked_fact_ids o)) eqn:Uf; [|done].
  destruct (uniqueb (sco_asked_relation_ids o)) eqn:Ur; [|done]. destruct (set_eqb (sco_asked_fact_ids o) _) eqn:Sf; [|done].
  destruct (set_eqb (sco_asked_relation_ids o) _) eqn:Sr; [|done]. cbn [negb].
  destruct (unresolved_answer_surface_violation _ _ _) eqn:Eu; [done|]. destruct (dec_subset _ _) eqn:Ed; [|done]. intros _.
  apply uniqueb_spec in Uf, Ur. apply bool_decide_eq_true in Ea. split; try done.
  intros s Hp Hs. apply andb_false_iff in El as [El|El]; [by apply bool_decide_eq_false in El|].
  rewrite existsb_false in El. by apply (El s).
Qed.

Lemma violation_none o p fw : sound_output o p fw -> stable_copy_output_violation o p fw = None.
Proof.
  intros [Ht Hl Ha [Uf Ur] [Sf Sr] Hs Hn Hlab]. unfold stable_copy_output_violation, copy_output_violation.
  apply uniqueb_spec in Uf, Ur. rewrite Ht, Ha, Uf, Ur, Sf, Sr, Hs, Hn, (bool_decide_eq_true_2 (scp_act p = scp_act p)) by done.
  apply Nat.ltb_ge in Hl. rewrite Hl. cbn [negb].
  destruct (_ && existsb _ _) eqn:El; [|done]. apply andb_true_iff in El as [Hp El]. apply bool_decide_eq_true in Hp.
  apply existsb_exists in El as (s & Hin%list_elem_of_In & Hc).
  by rewrite (Hlab s Hp Hin) in Hc.
Qed.

Lemma sound_clean pack slot o p : sound_output o p (build_stable_copy_output_firewall pack slot) ->
  clean_copy pack slot p (sco_text o).
Proof.
  intros [Ht Hl _ _ _ Hs Hn Hlab]. rewrite same_firewall in Hs. cbn [of_forbidden_values of_forbidden_surfaces] in Hs.
  destruct (surfaces_clean _ _ _ Hs) as [Hf Hc]. split; try done.
  intros d Hd. pose proof (dec_subset_in _ _ _ Hn Hd) as Hdd. apply canonical_numbers_one in Hdd as (v & Hv & Hdv).
  apply list_elem_of_fmap in Hv as (f & -> & Hin). eauto.
Qed.

Context `{Digest} `{Nfc} `{CopyCodec} (settings : CopySettings).

Lemma fallback_Ok p text fw o : fallback_output p text fw = Ok o -> sound_output o p fw.
Proof.
  unfold fallback_output. destruct (stable_copy_output_violation _ _ _) eqn:E; [done|]. intros [= <-]. by apply no_violation.
Qed.

(** A stable copy a turn says is clean.  Whatever the cache holds, the generator
    writes or the conversation pinned, a copy is either the reviewed wording of its
    slot or, for a slot that is not joint work, a text that is not blank, has at most
    two lines, names neither the value nor a wording of a fact the slot asks for, nor a
    correct choice for it, nor a choice shown with it, and says no number but those of
    the facts on the screen. *)
Theorem stable_copies_are_clean calls pack pack_hash plans pinned before after q copy :
  stable_copy_of_turn settings calls pack pack_hash plans pinned before after q = Ok (Some copy) ->
  exists slot plan, qc_copy_slot q = Some slot /\ (cs_copy_slot slot, plan) ∈ plans
    /\ transition_matches (scp_transition plan) before after = true
    /\ (sr_text copy = utf8_decode (cs_reviewed_fallback slot)
        \/ is_l0 (cs_purpose slot) = false /\ clean_copy pack slot plan (sr_text copy)).
Proof.
  unfold stable_copy_of_turn. destruct (qc_copy_slot q) as [slot|]; [|done].
  destruct (find_first _ plans) as [[name plan]|] eqn:Ef; [|done]. apply find_first_Some in Ef as [Hin Hn].
  apply bool_decide_eq_true in Hn. cbn [fst snd] in Hn. subst name. cbn [fmap option_fmap option_map or_raise mbind res_bind snd].
  destruct (transition_matches _ _ _) eqn:Et; [|done]. cbn [negb]. intros Hc. exists slot, plan. do 3 (split; [done|]).
  destruct calls as [calls|]; [|injection Hc as <-; by left].
  destruct (is_l0 (cs_purpose slot)) eqn:El; [injection Hc as <-; by left|].
  destruct (resolve _ _ _ _ _ _ _) as [raw|]; [|done]. cbn [mbind res_bind] in Hc.
  destruct (stable_copy_output_violation _ _ _) eqn:Ev; injection Hc as <-; [by left|]. right. split; [done|].
  by apply sound_clean, no_violation.
Qed.
End resolution.

(** Pydantic on stored artifacts: reading back what was written, or a validation error. *)
Class CopyCodecLaws `{CopyCodec} := {
  artifact_roundtrip e : output_fields (ce_output e) = true -> artifact_validate (artifact_dump e) = Ok e;
  artifact_errors j e : artifact_validate j = Raise e -> copy_or_value_error e = true
}.

Lemma unique_subset_length (l k : list string) : NoDup l -> set_eqb l k = true -> length l <= length k.
Proof.
  intros Hnd Hs. apply submseteq_length, NoDup_submseteq; [done|]. intros x Hx. by apply (proj1 (set_eqb_spec l k) Hs).
Qed.

Lemma content_id_len n s : content_id n s = true -> 1 <= py_len s <= n.
Proof.
  intros Hc. apply (content_id_field n n) in Hc; [|done]. apply id_field_bounded in Hc. by apply bool_decide_eq_true in Hc.
Qed.

Section liveness.
Context `{TextTables} `{Digest} `{!DigestFormat} `{Nfc} `{!CopyCodec} `{!CopyCodecLaws} (settings : CopySettings).
Context (p : StableCopyPlanV2) (fw : StableCopyOutputFirewallV2) (pack_hash key text : string).

(** What a repository returns for a stored artifact. *)
Definition completes_faithfully (calls : CopyCalls) : Prop :=
  forall j a, cc_complete calls j = Ok (Some a) -> ca_artifact a = j /\ sha256_pattern (ca_cache_key a) = true.

Lemma key_hex : copy_cache_key settings p pack_hash = Ok key -> sha256_pattern key = true.
Proof. unfold copy_cache_key, build_stable_copy_cache_key. intros Hk. res_inv. apply hexdigest_format. Qed.

Lemma plan_sizes : is_ok (stable_plan_validate p) = true -> content_id 100 (scp_act p) = true
  /\ length (st_fact_ids (scp_target p)) <= 8 /\ length (st_relation_ids (scp_target p)) <= 8.
Proof.
  destruct (stable_plan_validate p) as [p'|] eqn:E; [|done]. intros _. unfold stable_plan_validate in E.
  destruct (speaker_target _) as [t|] eqn:Et; [|done]. cbn [mbind res_bind] in E.
  destruct (each _ _) as [[]|]; [|done]. cbn [mbind res_bind] in E. unfold stable_copy_plan in E. unfold speaker_target in Et.
  apply bind_check_Ok in E as [E _]. apply bind_check_Ok in Et as [Et _]. rewrite !andb_true_iff, !list_field_spec in *. naive_solver lia.
Qed.

Definition stripped (o : StableCopyOutputV2) : StableCopyOutputV2 := {|
  sco_text := ustrip (sco_text o); sco_mood := sco_mood o; sco_act := sco_act o;
  sco_asked_fact_ids := sco_asked_fact_ids o; sco_asked_relation_ids := sco_asked_relation_ids o |}.

(** A resolution that says a sound output. *)
Definition says_sound (r : res StableCopyResolutionV2) : Prop :=
  exists v o, r = Ok v /\ sound_output o p fw /\ cr_output v = stripped o.

Hypothesis Hplan : is_ok (stable_plan_validate p) = true.

Lemma sound_fields o : sound_output o p fw -> output_fields o = true.
Proof.
  intros [_ _ Ha [Uf Ur] [Sf Sr] _ _ _]. destruct (plan_sizes Hplan) as (Hact & Hf & Hr). unfold output_fields. rewrite Ha, Hact.
  apply unique_subset_length in Sf, Sr; try done. rewrite !andb_true_iff, !list_field_spec. repeat split; lia.
Qed.

Lemma result_sound o status k m sha reason : sound_output o p fw -> sha256_pattern k = true ->
  says_sound (copy_result o status k m sha reason).
Proof.
  intros Ho Hk. pose proof (sound_fields o Ho) as Hf. unfold output_fields in Hf. rewrite !andb_true_iff in Hf.
  destruct Hf as [[Ha%content_id_len Hf] Hr]. unfold copy_result, stable_copy_resolution.
  cbn [cr_output sco_text sco_act sco_asked_fact_ids sco_asked_relation_ids cr_full_cache_key].
  rewrite Hf, Hr, Hk, (sn_text _ _ _ Ho), (bool_decide_true _ Ha). cbn [andb check]. by eexists _, o.
Qed.

Lemma fallback_sound o k status reason : fallback_output p text fw = Ok o -> sha256_pattern k = true ->
  says_sound (fallback_result settings p text pack_hash k fw status reason).
Proof.
  intros Ho Hk. unfold fallback_result. rewrite Ho. cbn [mbind res_bind]. apply result_sound; [|done]. by apply (fallback_Ok p text).
Qed.

(** A stored artifact resolves soundly or is refused. *)
Lemma cached_sound a status : let r := from_cached_artifact settings a p pack_hash status fw in
  says_sound r \/ exists e, r = Raise e /\ copy_or_value_error e = true.
Proof.
  unfold from_cached_artifact. destruct (artifact_validate (ca_artifact a)) as [e|e] eqn:Ev.
  2:{ right. exists e. split; [done|]. by eapply artifact_errors. }
  cbn [mbind res_bind]. destruct (bool_decide _); [|right; by eexists]. cbn [negb raise_if mbind res_bind]. unfold validated_output.
  destruct (stable_copy_output_violation _ _ _) eqn:Eo; [right; by eexists|]. cbn [mbind res_bind]. apply no_violation in Eo.
  destruct (sha256_pattern (ca_cache_key a)) eqn:Ek; [left; by apply result_sound|]. right.
  unfold copy_result, stable_copy_resolution. cbn [cr_full_cache_key]. rewrite Ek, andb_false_r. by eexists.
Qed.

Lemma or_else_sound a status r : says_sound r ->
  says_sound (or_else (from_cached_artifact settings a p pack_hash status fw) copy_or_value_error r).
Proof.
  intros Hr. destruct (cached_sound a status) as [(v & o & -> & Ho)|(e & -> & He)]; simpl; [by exists v, o|by rewrite He].
Qed.

Lemma completed_sound calls o at_ a : completes_faithfully calls -> sound_output o p fw ->
  cc_complete calls (artifact_dump {| ce_output := o;
    ce_metadata := copy_metadata settings p pack_hash origin_generated (Some at_) |}) = Ok (Some a) ->
  says_sound (from_cached_artifact settings a p pack_hash CS_generated fw).
Proof.
  intros Hfaith Ho Hc. destruct (Hfaith _ _ Hc) as [Ha Hk]. unfold from_cached_artifact.
  rewrite Ha, artifact_roundtrip by (by apply sound_fields). cbn [mbind res_bind ce_metadata copy_metadata am_origin am_generated_at].
  rewrite bool_decide_true by done. cbn [negb raise_if mbind res_bind ce_output]. unfold validated_output.
  by rewrite (violation_none _ _ _ Ho); cbn [mbind res_bind]; apply result_sound.
Qed.

Lemma store_sound calls o reviewed : completes_faithfully calls -> sound_output o p fw ->
  fallback_output p text fw = Ok reviewed -> sha256_pattern key = true ->
  says_sound (store_candidate settings calls o p text pack_hash key fw).
Proof.
  intros Hfaith Ho Hr Hk. unfold store_candidate. destruct (cc_complete calls _) as [[a|]|] eqn:Ec; cbn [or_none].
  1:{ by eapply completed_sound. }
  all: destruct (or_none _); [apply or_else_sound|]; by eapply fallback_sound.
Qed.

(** A copy always resolves.  For a plan that validates and is not joint work, with
    a reviewed wording that passes its own firewall and a cache whose completion
    returns what it stored, the resolution returns a copy that passes the firewall,
    whatever else happens: reads or acquisitions that fail, corrupt or outdated
    artifacts, a generator that times out, fails or writes forbidden text, a lease that
    is busy, backing off or lost. *)
Theorem copy_always_resolves calls reviewed : is_l0 (scp_purpose p) = false ->
  copy_cache_key settings p pack_hash = Ok key -> fallback_output p text fw = Ok reviewed -> completes_faithfully calls ->
  exists v o, resolve settings calls p text pack_hash fw None = Ok v /\ sound_output o p fw /\ cr_output v = stripped o.
Proof.
  intros Hl Hkey Hr Hfaith. unfold resolve. rewrite Hl. cbn [andb]. unfold resolve_cached. rewrite Hkey, Hr. cbn [mbind res_bind].
  pose proof (key_hex Hkey) as Hk.
  assert (Hgive : forall status reason, says_sound (fallback_result settings p text pack_hash key fw status reason))
    by (intros; by eapply fallback_sound).
  match goal with |- exists v o, ?r = _ /\ _ => change (says_sound r) end. cbv zeta.
  destruct (cc_get_ready calls) as [[a|]|]; [by apply or_else_sound| |apply Hgive].
  destruct (cc_acquire calls) as [[a|l|at_|at_]|]; [by apply or_else_sound| |apply Hgive..].
  destruct (cc_generate calls p) as [o| |]; [|apply Hgive..]. destruct (output_fields o); [|apply Hgive]. cbn [negb].
  destruct (stable_copy_output_violation o p fw) eqn:Ev; [unfold reject_candidate; by rewrite Hl|].
  apply no_violation in Ev. by eapply store_sound.
Qed.
End liveness.

(** * The plans of a conversation *)

Lemma validated_slot pack pack' slot : required_home_pack_validate pack = Ok pack' -> slot ∈ hp_copy_slots pack ->
  NoDup (map target_pair (cs_targets slot)) /\ 1 <= length (cs_targets slot) <= 4.
Proof.
  intros Hv Hs. unfold required_home_pack_validate, validate_pack_contract, copy_slots_ok in Hv. ok_split.
  rewrite !andb_true_iff in *. ok_split.
  match goal with H : forallb copy_slot_fields _ = true |- _ =>
    rewrite forallb_forall in H; specialize (H slot (proj1 (list_elem_of_In _ _) Hs)) as Hfields end.
  unfold copy_slot_fields in Hfields. rewrite !andb_true_iff, list_field_spec in Hfields.
  match goal with H : each (copy_slot_ok _) _ = _ |- _ => pose proof (each_Ok _ _ _ H slot Hs) as Hok end.
  split; [|tauto]. unfold copy_slot_ok in Hok. apply bind_Ok in Hok as (keys & Hk & Hok). apply bind_check_Ok in Hok as [Hu _].
  apply uniqueb_spec in Hu. replace (map target_pair (cs_targets slot)) with keys; [done|]. clear -Hk.
  revert keys Hk. induction (cs_targets slot) as [|t ts IH]; intros keys Hk; [by injection Hk as <-|]. cbn [mapR] in Hk.
  apply bind_Ok in Hk as (k & Ht & Hk). apply bind_Ok in Hk as (ks & Hts & [= <-]). apply target_key_Ok in Ht as [-> _].
  simpl. f_equal. by apply IH.
Qed.

Lemma kind_ids_cover ts : ts <> [] -> kind_ids KIND_fact ts = [] -> kind_ids KIND_relation ts = [] -> False.
Proof.
  unfold kind_ids. destruct ts as [|t ts]; [done|]. intros _. simpl. by destruct (target_kind t).
Qed.

Lemma kind_ids_shorter k ts : length (kind_ids k ts) <= length ts.
Proof. unfold kind_ids. rewrite length_map. apply List.filter_length_le. Qed.

Lemma plain_target slot : NoDup (map target_pair (cs_targets slot)) -> 1 <= length (cs_targets slot) <= 4 ->
  is_ok (target_for_slot slot false) = true.
Proof.
  intros Hnd Hl. unfold target_for_slot. cbn [st_fact_ids].
  pose proof (kind_ids_unique KIND_fact _ Hnd) as Hf%uniqueb_spec. pose proof (kind_ids_unique KIND_relation _ Hnd) as Hr%uniqueb_spec.
  pose proof (kind_ids_shorter KIND_fact (cs_targets slot)). pose proof (kind_ids_shorter KIND_relation (cs_targets slot)).
  assert (Hc : kind_ids KIND_fact (cs_targets slot) = [] -> kind_ids KIND_relation (cs_targets slot) = [] -> False)
    by (apply kind_ids_cover; intros E; rewrite E in Hl; simpl in Hl; lia).
  unfold speaker_target. cbn [st_fact_ids st_relation_ids st_ask_mode st_success_criteria_ids]. rewrite Hf, Hr.
  assert (Hlf : list_field 0 8 (kind_ids KIND_fact (cs_targets slot)) = true) by (apply list_field_spec; lia).
  assert (Hlr : list_field 0 8 (kind_ids KIND_relation (cs_targets slot)) = true) by (apply list_field_spec; lia).
  rewrite Hlf, Hlr.
  destruct (kind_ids KIND_fact _), (kind_ids KIND_relation _); try reflexivity. by destruct Hc.
Qed.

Lemma NoDup_map_eq {A B} (f : A -> B) l x y : NoDup (map f l) -> x ∈ l -> y ∈ l -> f x = f y -> x = y.
Proof.
  induction l as [|z l IH]; simpl; [by intros _ ?%not_elem_of_nil|].
  intros [Hz Hnd]%NoDup_cons [->|Hx]%elem_of_cons [->|Hy]%elem_of_cons He; [done| | |by apply IH];
    exfalso; apply Hz; apply list_elem_of_fmap; eauto.
Qed.

Lemma set_eqb_same (l : list string) : set_eqb l l = true.
Proof. by apply set_eqb_spec. Qed.

Lemma mapR_results {A B} (f : A -> res B) l ys : mapR f l = Ok ys -> Forall2 (fun x y => f x = Ok y) l ys.
Proof.
  revert ys. induction l as [|x l IH]; intros ys Hm; [by injection Hm as <-|].
  cbn [mapR] in Hm. apply bind_Ok in Hm as (y & Hy & Hm). apply bind_Ok in Hm as (k & Hk & [= <-]). constructor; auto.
Qed.

Section pinning.
Context `{TextTables} `{Digest} `{!DigestFormat}.
Implicit Types (pack : RequiredHomeTeachingPackV2) (plan : StableCopyPlanV2).

Lemma slot_plan_fields pack slot plan : slot_plan pack slot = Ok plan ->
  scp_pack_id plan = hp_pack_id pack /\ scp_content_version plan = hp_content_version pack
  /\ scp_purpose plan = cs_purpose slot /\ scp_copy_slot plan = cs_copy_slot slot
  /\ target_for_slot slot (is_l0 (cs_purpose slot)) = Ok (scp_target plan).
Proof.
  unfold slot_plan. intros Hp. apply bind_Ok in Hp as (labels & _ & Hp). apply bind_Ok in Hp as (target & Ht & Hp).
  apply bind_Ok in Hp as (facts & _ & Hp). unfold stable_copy_plan in Hp. ok_split. by rewrite Ht.
Qed.

Lemma same_target_refl t : same_target t t = true.
Proof. unfold same_target. by rewrite !bool_decide_true. Qed.

(** The plan of a slot is accepted back for that slot. *)
Lemma slot_plan_matches pack pack' slot plan : required_home_pack_validate pack = Ok pack' ->
  NoDup (map cs_copy_slot (hp_copy_slots pack)) -> slot ∈ hp_copy_slots pack -> slot_plan pack slot = Ok plan ->
  pinned_plan_matches pack (cs_copy_slot slot, plan) = Ok tt.
Proof.
  intros Hv Hnd Hs (Hid & Hver & Hpur & _ & Ht)%slot_plan_fields. unfold pinned_plan_matches, expected_slot. cbn [fst snd].
  assert (Hrev : forall x, x ∈ rev (hp_copy_slots pack) <-> x ∈ hp_copy_slots pack)
    by (intros x; rewrite !list_elem_of_In; symmetry; apply in_rev).
  destruct (find_first_is_Some (fun s => bool_decide (cs_copy_slot s = cs_copy_slot slot)) (rev (hp_copy_slots pack)) slot) as [s' Es];
    [by apply Hrev|by apply bool_decide_eq_true|].
  rewrite Es. cbn [or_raise mbind res_bind]. apply find_first_Some in Es as [Hin%Hrev Hn%bool_decide_eq_true].
  assert (s' = slot) as -> by (eapply NoDup_map_eq; eauto).
  rewrite Hid, Hver, Hpur, !bool_decide_true, Z.eqb_refl by done. cbn [andb negb raise_if mbind res_bind].
  destruct (validated_slot _ _ _ Hv Hs) as [Hu Hl]. pose proof (plain_target slot Hu Hl) as Hp.
  destruct (target_for_slot slot false) as [plain|] eqn:Ep; [|done]. cbn [mbind res_bind].
  destruct (is_l0 (cs_purpose slot)); [rewrite Ht|]; cbn [mbind res_bind existsb].
  - by rewrite same_target_refl, orb_true_r.
  - rewrite Ep in Ht. injection Ht as ->. by rewrite same_target_refl.
Qed.

(** A compiled plan set can be pinned.  For a pack that validates, the plan set
    compiled for a new conversation is accepted when the conversation is read back
    against the same pack, and gives the plans that were compiled: its hash, its five
    slots and every plan's purpose and targets match. *)
Theorem pinned_plan_set_roundtrip pack pack' s : required_home_pack_validate pack = Ok pack' ->
  compile_stable_copy_plan_set pack = Ok s ->
  validate_pinned_plan_set pack (content_pack_hash_v2 pack) s = Ok (cps_plans s).
Proof.
  intros Hv Hc. unfold compile_stable_copy_plan_set in Hc. apply bind_Ok in Hc as (items & Hi & Hc).
  destruct (length items =? 5) eqn:Hlen; [|done]. cbn [negb raise_if mbind res_bind] in Hc.
  destruct (uniqueb _) eqn:Hu; [|done]. cbn [negb raise_if mbind res_bind] in Hc. apply bind_Ok in Hc as (h & Hh & [= <-]).
  set (plans := map _ items) in *. unfold validate_pinned_plan_set.
  cbn [cps_schema_version cps_compiler_version cps_plan_set_hash cps_plans]. rewrite Hh, !bool_decide_true by done.
  unfold stable_copy_plan_set_hash in Hh. destruct (sha256_pattern _); [|done]. cbn [negb raise_if mbind res_bind] in Hh |- *.
  apply bind_Ok in Hh as (plans' & Hp & _). assert (plans' = plans) as -> by (unfold validated_plan_payloads in Hp; res_inv; done).
  rewrite Hp. cbn [mbind res_bind].
  assert (Hslots : Forall2 (fun slot i => slot_plan pack slot = Ok (wi_plan i)) (hp_copy_slots pack) items).
  { apply mapR_results in Hi. eapply Forall2_impl; [exact Hi|]. unfold slot_work_item. intros slot i Hw.
    by apply bind_Ok in Hw as (plan & Hw & [= <-]). }
  assert (Hkeys : map fst plans = map cs_copy_slot (hp_copy_slots pack)).
  { unfold plans. rewrite map_map. clear -Hslots. induction Hslots as [|slot i l k Hs Hr IH]; [done|]. simpl.
    apply slot_plan_fields in Hs as (_ & _ & _ & Hs & _). by f_equal. }
  apply uniqueb_spec in Hu. rewrite Hkeys in *. rewrite fromkeys_id by done. rewrite length_map.
  apply Nat.eqb_eq in Hlen. rewrite (Forall2_length _ _ _ Hslots), Hlen. cbn [Nat.eqb negb raise_if mbind res_bind].
  rewrite set_eqb_same. cbn [negb raise_if mbind res_bind].
  rewrite each_total; [by rewrite bool_decide_true|]. intros kp [i [-> Hin]]%list_elem_of_fmap.
  apply list_elem_of_lookup in Hin as [n Hin]. destruct (Forall2_lookup_r _ _ _ _ _ Hslots Hin) as (slot & Hs & Hpl).
  apply list_elem_of_lookup_2 in Hs. pose proof (slot_plan_fields _ _ _ Hpl) as (_ & _ & _ & -> & _).
  by eapply slot_plan_matches.
Qed.
End pinning.

(** * A codec

    Stored artifacts written as tuples: one reading of stored JSON with the laws that
    [copy_always_resolves] asks for. *)

Definition tuple_strings (l : list string) : json := JArr (map JStr l).
Definition strings_of (j : json) : option (list string) :=
  match j with JArr l => mapM (fun x => match x with JStr s => Some s | _ => None end) l | _ => None end.
Definition chars_of (j : json) : option ustr :=
  match j with JArr l => mapM (fun x => match x with JNum (PyInt z) => Some (Z.to_N z) | _ => None end) l | _ => None end.
Definition moods : list Mood := [curious; listening; thinking; relieved; celebrating].
Definition mood_index (m : Mood) : nat :=
  match m with curious => 0 | listening => 1 | thinking => 2 | relieved => 3 | celebrating => 4 end.

Definition dump_tuple (e : StableCopyCacheArtifactV2) : json :=
  let o := ce_output e in
  let m := ce_metadata e in
  JArr [JArr (map (fun c => JNum (PyInt (Z.of_N c))) (sco_text o)); JNum (PyInt (Z.of_nat (mood_index (sco_mood o))));
        tuple_strings [sco_act o]; tuple_strings (sco_asked_fact_ids o); tuple_strings (sco_asked_relation_ids o);
        JBool (bool_decide (am_origin m = origin_generated)); JNum (PyInt (am_content_version m));
        tuple_strings [am_pack_id m; am_pack_hash m; am_copy_slot m; am_plan_sha256 m; am_prompt_version m;
                       am_output_schema_version m; am_validator_version m; am_model_id m; am_effort m];
        tuple_strings (map fst (am_generation_config m)); tuple_strings (map snd (am_generation_config m));
        match am_generated_at m with Some z => JNum (PyInt z) | None => JNull end].

Definition read_tuple (j : json) : option StableCopyCacheArtifactV2 :=
  match j with
  | JArr [text; JNum (PyInt mood); act; facts; relations; JBool generated; JNum (PyInt version); ids; keys; values; at_] =>
      text ← chars_of text; mood ← moods !! Z.to_nat mood; act ← strings_of act; facts ← strings_of facts;
      relations ← strings_of relations; ids ← strings_of ids; keys ← strings_of keys; values ← strings_of values;
      match act, ids with
      | [act], [pack; hash; slot; plan; prompt; schema; validator; model; effort] =>
          Some {| ce_output := {| sco_text := text; sco_mood := mood; sco_act := act; sco_asked_fact_ids := facts;
                                  sco_asked_relation_ids := relations |};
                  ce_metadata := {|
                    am_origin := if generated then origin_generated else origin_reviewed_fallback; am_pack_id := pack;
                    am_content_version := version; am_pack_hash := hash; am_copy_slot := slot; am_plan_sha256 := plan;
                    am_prompt_version := prompt; am_output_schema_version := schema; am_validator_version := validator;
                    am_model_id := model; am_effort := effort; am_generation_config := zip keys values;
                    am_generated_at := match at_ with JNum (PyInt z) => Some z | _ => None end |} |}
      | _, _ => None
      end
  | _ => None
  end.

#[local] Instance tuple_codec : CopyCodec := {|
  artifact_validate j := or_raise (read_tuple j) (ValidationError "artifact");
  artifact_dump := dump_tuple;
  resolution_validate _ := Raise (ValidationError "snapshot") |}.

Lemma strings_of_tuple l : strings_of (tuple_strings l) = Some l.
Proof. unfold strings_of, tuple_strings. induction l as [|s l IH]; [done|]. simpl in *. by rewrite IH. Qed.
Lemma chars_of_tuple (t : ustr) : chars_of (JArr (map (fun c => JNum (PyInt (Z.of_N c))) t)) = Some t.
Proof. unfold chars_of. induction t as [|c t IH]; [done|]. simpl in *. by rewrite N2Z.id, IH. Qed.

Lemma zip_pairs {A B} (l : list (A * B)) : zip (map fst l) (map snd l) = l.
Proof. induction l as [|[x y] l IH]; [done|]. simpl. by f_equal. Qed.

#[local] Instance tuple_codec_laws : CopyCodecLaws.
Proof.
  split.
  - intros [[text mood act facts relations] m] _. destruct m as [origin pack version hash slot plan prompt schema validator model effort config at_].
    unfold artifact_validate, artifact_dump, tuple_codec, dump_tuple, read_tuple. cbn [ce_output ce_metadata sco_text sco_mood sco_act
      sco_asked_fact_ids sco_asked_relation_ids am_origin am_pack_id am_content_version am_pack_hash am_copy_slot am_plan_sha256
      am_prompt_version am_output_schema_version am_validator_version am_model_id am_effort am_generation_config am_generated_at].
    rewrite chars_of_tuple, !strings_of_tuple, Nat2Z.id. cbn [mbind option_bind].
    replace (moods !! mood_index mood) with (Some mood) by (by destruct mood). cbn [mbind option_bind or_raise].
    rewrite zip_pairs. destruct origin, at_; reflexivity.
  - intros j e. cbn [artifact_validate tuple_codec]. by destruct (read_tuple j); intros [= <-].
Qed.
