(* ===== verification/Lease.v ===== *)
(** Work queues in a database table, claimed under a time lease and fenced by an
    attempt counter: what [OutboxStore] of [src/mormi_api/outbox.py] and
    [LadderAnalysisRepository] of [src/mormi_api/ladder_analysis_repository.py]
    share.  A row type is an instance of [LeasedRow]; the facts about claims and
    about histories of concurrent transactions are proved from its laws.

    A table is its list of rows; the order of the list stands for the order the
    database leaves unspecified between rows that compare equal. *)

From stdpp Require Import sorting.
From S2P Require Import Prelude.

(** A row, its claim state and the fields the claim writes.  [row_claim now until]
    is the update of a claim made at [now] with a lease up to [until]. *)
Class LeasedRow (R : Type) := {
  row_id : R -> string;
  row_open : R -> bool;
  row_running : R -> bool;
  row_attempts : R -> nat;
  row_available : R -> Z;
  row_before : R -> R -> bool;
  row_claim : Z -> Z -> R -> R
}.

Class LeasedRowLaws (R : Type) `{LeasedRow R} := {
  claim_id now until r : row_id (row_claim now until r) = row_id r;
  claim_running now until r : row_running (row_claim now until r) = true;
  claim_attempts now until r : row_attempts (row_claim now until r) = S (row_attempts r);
  claim_available now until r : row_available (row_claim now until r) = until;
  before_total r s : row_before r s = true \/ row_before s r = true;
  before_trans r s t : row_before r s = true -> row_before s t = true -> row_before r t = true;
  before_earlier r s : row_before r s = true -> (row_available r <= row_available s)%Z
}.

Section lease.
Context {R : Type} `{LeasedRow R}.
Implicit Types (t : list R) (r : R).

Definition row_order (r s : R) : Prop := row_before r s = true.
#[local] Instance row_order_dec r s : Decision (row_order r s).
Proof. unfold row_order. apply _. Defined.

(** The rows a claim may take: claimable, due, wanted and not locked by another
    transaction ([SKIP LOCKED]). *)
Definition claimable (eligible : R -> bool) (locked : list string) (now : Z) (r : R) : bool :=
  row_open r && (row_available r <=? now)%Z && eligible r && negb (memb (row_id r) locked).

(** The rows of one claim: ordered, at most [limit]. *)
Definition chosen (limit : nat) (eligible : R -> bool) (locked : list string) (now : Z) t : list R :=
  take limit (merge_sort row_order (List.filter (claimable eligible locked now) t)).

(** The transaction of a claim: the claimed rows as handed out, and the table. *)
Definition claim (limit : nat) (now lease : Z) (eligible : R -> bool) (locked : list string) t
    : list R * list R :=
  let taken := chosen limit eligible locked now t in
  let update := row_claim now (now + lease) in
  (map update taken,
   map (fun r => if memb (row_id r) (map row_id taken) then update r else r) t).

Definition get_row (i : string) t : option R := find_first (fun r => bool_decide (row_id r = i)) t.
Definition set_row (i : string) (f : R -> R) t : list R :=
  map (fun r => if decide (row_id r = i) then f r else r) t.

(** The transaction of a worker that reports on attempt [token] of row [i]. *)
Definition settle (i : string) (token : nat) (f : R -> R) t : bool * list R :=
  match get_row i t with
  | Some r =>
      if row_running r && bool_decide (row_attempts r = token) then (true, set_row i f t)
      else (false, t)
  | None => (false, t)
  end.

(** * Histories of transactions

    The committed transactions of all processes, in commit order.  [QTouch] is an
    administrative update of rows that are not being worked on. *)
Inductive transaction :=
  | QClaim (limit : nat) (now lease : Z) (eligible : R -> bool) (locked : list string)
  | QSettle (i : string) (token : nat) (f : R -> R)
  | QInsert (r : R)
  | QTouch (f : R -> R).

(** What a transaction reports: the rows handed out, or whether it took effect. *)
Inductive receipt :=
  | Claimed (now until : Z) (rows : list R)
  | Settled (i : string) (token : nat) (ok : bool)
  | Done.

Definition apply_transaction (q : transaction) t : receipt * list R :=
  match q with
  | QClaim limit now lease eligible locked =>
      let out := claim limit now lease eligible locked t in (Claimed now (now + lease) out.1, out.2)
  | QSettle i token f => let out := settle i token f t in (Settled i token out.1, out.2)
  | QInsert r => (Done, match get_row (row_id r) t with Some _ => t | None => t ++ [r] end)
  | QTouch f => (Done, map f t)
  end.

Fixpoint run_history (qs : list transaction) t : list receipt * list R :=
  match qs with
  | [] => ([], t)
  | q :: qs' =>
      let out := apply_transaction q t in
      let rest := run_history qs' out.2 in (out.1 :: rest.1, rest.2)
  end.

(** The transactions the stores issue: a report ends the run and keeps identity and
    attempts, a new row is not running, a touch leaves running rows alone. *)
Definition well_formed (q : transaction) : Prop :=
  match q with
  | QClaim _ _ _ _ _ => True
  | QSettle _ _ f => forall r, row_id (f r) = row_id r /\ row_attempts (f r) = row_attempts r
                               /\ row_running (f r) = false
  | QInsert r => row_running r = false
  | QTouch f => forall r, row_id (f r) = row_id r /\ row_attempts (f r) = row_attempts r
                          /\ (row_running r = true -> f r = r)
                          /\ (row_running r = false -> row_running (f r) = false)
  end.
End lease.
#[global] Arguments claim : simpl never.
#[global] Arguments chosen : simpl never.
#[global] Arguments settle : simpl never.
#[global] Arguments set_row : simpl never.
Arguments transaction R : clear implicits.
Arguments receipt R : clear implicits.
