(* ===== verification/LeaseTheory.v ===== *)
(** Leased queues: what a claim hands out, and what the attempt counter and the
    lease guarantee over histories of concurrent transactions. *)

From stdpp Require Import sorting.
From S2P Require Import Prelude.
From S2P Require Import Lease.

Section rows.
Context {R : Type} `{LeasedRowLaws R}.
Implicit Types (t : list R) (r : R) (i : string).

Definition unique_ids t : Prop := NoDup (map row_id t).

Lemma get_row_Some i t r : get_row i t = Some r -> r ∈ t /\ row_id r = i.
Proof. intros [Hin Hi]%find_first_Some. by apply bool_decide_eq_true in Hi. Qed.

Lemma get_row_unique t r : unique_ids t -> r ∈ t -> get_row (row_id r) t = Some r.
Proof.
  unfold get_row. intros Hu Hr. induction t as [|s t IH]; [by apply not_elem_of_nil in Hr|].
  apply NoDup_cons in Hu as [Hs Hu]. simpl. apply elem_of_cons in Hr as [-> | Hr].
  - by rewrite bool_decide_eq_true_2.
  - rewrite bool_decide_eq_false_2; [by apply IH|]. intros Heq. apply Hs. rewrite Heq.
    by apply list_elem_of_fmap_2.
Qed.

(** A row-wise update that keeps ids. *)
Lemma get_row_map (f : R -> R) i t : (forall r, row_id (f r) = row_id r) ->
  get_row i (map f t) = f <$> get_row i t.
Proof.
  intros Hf. unfold get_row. induction t as [|s t IH]; [done|]. simpl. rewrite Hf.
  by case_bool_decide.
Qed.

Lemma ids_map (f : R -> R) t : (forall r, row_id (f r) = row_id r) ->
  map row_id (map f t) = map row_id t.
Proof. intros Hf. rewrite map_map. by apply map_ext. Qed.

Lemma get_row_app i t r : row_id r <> i -> get_row i (t ++ [r]) = get_row i t.
Proof.
  intros Hr. unfold get_row. induction t as [|s t IH]; simpl; [by rewrite bool_decide_eq_false_2|].
  by case_bool_decide.
Qed.

(** ** Claims *)

#[local] Existing Instance row_order_dec.
#[local] Instance row_order_total : Total (@row_order R _).
Proof. intros r s. apply before_total. Qed.
#[local] Instance row_order_trans : Transitive (@row_order R _).
Proof. intros r s t. apply before_trans. Qed.

Lemma chosen_in limit eligible locked now t r :
  r ∈ chosen limit eligible locked now t -> r ∈ t /\ claimable eligible locked now r = true.
Proof.
  unfold chosen. intros Hr%elem_of_take. destruct Hr as (j & Hr & _).
  apply list_elem_of_lookup_2 in Hr. rewrite merge_sort_Permutation in Hr.
  by rewrite list_elem_of_In, filter_In, <- list_elem_of_In in Hr.
Qed.

Lemma NoDup_map_take {B} (f : R -> B) n (l : list R) : NoDup (map f l) -> NoDup (map f (take n l)).
Proof. rewrite <- (take_drop n l) at 1. rewrite map_app. by intros [? _]%NoDup_app. Qed.

Lemma chosen_unique limit eligible locked now t :
  unique_ids t -> NoDup (map row_id (chosen limit eligible locked now t)).
Proof.
  intros Hu. unfold chosen. apply NoDup_map_take.
  rewrite (Permutation_map row_id (merge_sort_Permutation row_order _)). by apply NoDup_map_filter.
Qed.

(** What a claim hands out: claimable rows, oldest first, all of them if they fit
    the limit; a claimable row left behind is not ahead of a row taken. *)
Lemma chosen_serves limit eligible locked now t :
  let taken := chosen limit eligible locked now t in
  StronglySorted row_order taken /\ length taken <= limit /\
  (forall r, r ∈ taken -> r ∈ t /\ claimable eligible locked now r = true) /\
  (forall r, r ∈ t -> claimable eligible locked now r = true ->
     r ∈ taken \/ length taken = limit /\ forall s, s ∈ taken -> row_before s r = true).
Proof.
  intros taken. pose proof (chosen_in limit eligible locked now t) as Hin. unfold taken, chosen in *.
  set (due := List.filter (claimable eligible locked now) t) in *.
  pose proof (StronglySorted_merge_sort row_order due) as Hs.
  rewrite <- (take_drop limit (merge_sort row_order due)) in Hs.
  split; [by eapply StronglySorted_app_1_l|]. split; [rewrite length_take; lia|]. split; [exact Hin|].
  intros r Hr Hc. assert (Hm : r ∈ merge_sort row_order due).
  { rewrite merge_sort_Permutation. by apply list_elem_of_In, filter_In; rewrite <- list_elem_of_In. }
  rewrite <- (take_drop limit (merge_sort row_order due)), elem_of_app in Hm.
  destruct Hm as [Hm|Hm]; [by left|right]. split.
  - apply list_elem_of_lookup_1 in Hm as [j Hj]. rewrite lookup_drop in Hj.
    apply lookup_lt_Some in Hj. rewrite length_take. lia.
  - intros s Hs'. by eapply (StronglySorted_app_1_elem_of row_order).
Qed.

Lemma claim_ids limit now lease eligible locked t :
  map row_id (claim limit now lease eligible locked t).2 = map row_id t.
Proof. apply ids_map. intros r. destruct (memb _ _); [apply claim_id|done]. Qed.

Lemma get_row_claim limit now lease eligible locked t i :
  let taken := chosen limit eligible locked now t in
  get_row i (claim limit now lease eligible locked t).2
    = (fun r => if memb (row_id r) (map row_id taken) then row_claim now (now + lease) r else r)
        <$> get_row i t.
Proof. apply get_row_map. intros r. destruct (memb _ _); [apply claim_id|done]. Qed.

(** A row handed out is the claimed row of the new table. *)
Lemma claim_handed limit now lease eligible locked t r :
  unique_ids t -> r ∈ (claim limit now lease eligible locked t).1 ->
  exists r0, get_row (row_id r) t = Some r0 /\ r = row_claim now (now + lease) r0
    /\ claimable eligible locked now r0 = true
    /\ get_row (row_id r) (claim limit now lease eligible locked t).2 = Some r.
Proof.
  intros Hu (r0 & -> & Hr)%list_elem_of_fmap. pose proof (chosen_in _ _ _ _ _ _ Hr) as [Hin Hc].
  exists r0. rewrite claim_id. pose proof (get_row_unique t r0 Hu Hin) as Hg.
  split; [done|]. split; [done|]. split; [done|]. rewrite get_row_claim, Hg. simpl. f_equal.
  assert (memb (row_id r0) (map row_id (chosen limit eligible locked now t)) = true) as ->; [|done].
  apply memb_spec. by apply list_elem_of_fmap_2.
Qed.

(** A row that is not due is left as it is. *)
Lemma get_row_not_due limit now lease eligible locked t i r :
  unique_ids t -> get_row i t = Some r -> claimable eligible locked now r = false ->
  get_row i (claim limit now lease eligible locked t).2 = Some r.
Proof.
  intros Hu Hg Hc. rewrite get_row_claim, Hg. simpl. f_equal.
  destruct (memb _ _) eqn:E; [|done]. apply memb_spec, list_elem_of_fmap in E as (s & Hs & Hin).
  apply chosen_in in Hin as [Hin Hs']. pose proof (get_row_Some _ _ _ Hg) as [Hr Hi].
  pose proof (get_row_unique t s Hu Hin) as Hgs. rewrite <- Hs, Hi, Hg in Hgs. congruence.
Qed.

(** ** Reports *)

Lemma set_row_ids i f t : (forall r, row_id (f r) = row_id r) -> map row_id (set_row i f t) = map row_id t.
Proof. intros Hf. apply ids_map. intros r. by case_decide. Qed.

Lemma get_set_row i j f t : (forall r, row_id (f r) = row_id r) ->
  get_row j (set_row i f t) = (fun r => if decide (row_id r = i) then f r else r) <$> get_row j t.
Proof. intros Hf. apply get_row_map. intros r. by case_decide. Qed.

(** A report takes effect on the running attempt it names, and on nothing else. *)
Lemma settle_spec i token f t :
  settle i token f t =
    match get_row i t with
    | Some r => if row_running r && bool_decide (row_attempts r = token)
                then (true, set_row i f t) else (false, t)
    | None => (false, t)
    end.
Proof. done. Qed.

Lemma settle_true i token f t :
  (settle i token f t).1 = true <->
  exists r, get_row i t = Some r /\ row_running r = true /\ row_attempts r = token.
Proof.
  rewrite settle_spec. destruct (get_row i t) as [r|]; [|naive_solver].
  destruct (row_running r) eqn:E; simpl; [|naive_solver]. case_bool_decide; naive_solver.
Qed.

Lemma settle_false i token f t : (settle i token f t).1 = false -> (settle i token f t).2 = t.
Proof.
  rewrite settle_spec. destruct (get_row i t) as [r|]; [|done]. by destruct (_ && _).
Qed.

Lemma settle_table i token f t : (settle i token f t).1 = true ->
  (settle i token f t).2 = set_row i f t.
Proof.
  rewrite settle_spec. destruct (get_row i t) as [r|]; [|done]. by destruct (_ && _).
Qed.
End rows.

(** * Histories *)

(** The attempts a history hands out, and the attempts whose report took effect. *)
Definition handed `{LeasedRow R} (rs : list (receipt R)) : list (string * nat) :=
  flat_map (fun x => match x with
                     | Claimed _ _ rows => map (fun r => (row_id r, row_attempts r)) rows
                     | _ => [] end) rs.
Definition settled {R} (rs : list (receipt R)) : list (string * nat) :=
  flat_map (fun x => match x with Settled i n true => [(i, n)] | _ => [] end) rs.

Section histories.
Context {R : Type} `{LeasedRowLaws R}.
Implicit Types (t : list R) (r : R) (i : string) (q : transaction R).

(** What every transaction keeps. *)
Lemma transaction_ids q t : well_formed q -> unique_ids t -> unique_ids (apply_transaction q t).2.
Proof.
  unfold unique_ids. destruct q as [limit now lease el locked|i n f|r|f]; cbn [apply_transaction fst snd well_formed]; intros Hw Hu.
  - by rewrite claim_ids.
  - destruct (settle i n f t).1 eqn:E; [|by rewrite settle_false].
    rewrite settle_table by done. rewrite set_row_ids; [done|]. intros s. apply Hw.
  - destruct (get_row (row_id r) t) eqn:E; [done|]. rewrite map_app. apply NoDup_app.
    split; [done|]. split; [|apply NoDup_singleton]. simpl. intros x Hx ->%list_elem_of_singleton.
    apply list_elem_of_fmap in Hx as (s & Heq & Hs).
    pose proof (get_row_unique t s Hu Hs) as Hg. congruence.
  - rewrite ids_map; [done|]. intros s. apply Hw.
Qed.

(** A row is never removed, its attempt counter never falls, and an attempt that
    has ended stays ended. *)
Record row_grows (r s : R) : Prop := {
  rg_attempts : row_attempts r <= row_attempts s;
  rg_ended : row_running r = false -> row_attempts s = row_attempts r -> row_running s = false
}.

#[local] Instance row_grows_refl : Reflexive row_grows.
Proof. intros r. by split. Qed.
#[local] Instance row_grows_trans : Transitive row_grows.
Proof.
  intros r s u [H1 H2] [H3 H4]. split; [lia|]. intros Hr Hn. apply H4; [apply H2; [done|lia]|lia].
Qed.

Lemma grows_self i t r : get_row i t = Some r -> exists s, get_row i t = Some s /\ row_grows r s.
Proof. intros Hr. by exists r. Qed.
#[local] Hint Resolve grows_self : core.

Lemma transaction_grows q t i r : well_formed q -> get_row i t = Some r ->
  exists s, get_row i (apply_transaction q t).2 = Some s /\ row_grows r s.
Proof.
  destruct q as [limit now lease el locked|j n f|u|f]; cbn [apply_transaction fst snd well_formed]; intros Hw Hr.
  - rewrite get_row_claim, Hr. eexists. split; [done|]. destruct (memb _ _); [|done].
    split; rewrite claim_attempts; lia.
  - destruct (settle j n f t).1 eqn:E; [|rewrite settle_false by done; eauto].
    rewrite settle_table, get_set_row, Hr by (done || apply Hw). eexists. split; [done|].
    case_decide; [|done]. destruct (Hw r) as (_ & Ha & Hf). split; [lia|done].
  - destruct (get_row (row_id u) t) eqn:E; [eauto|]. rewrite get_row_app; [eauto|]. congruence.
  - rewrite get_row_map, Hr by apply Hw. eexists. split; [done|].
    destruct (Hw r) as (_ & Ha & _ & Hf). split; [lia|auto].
Qed.

Lemma history_grows qs t i r : Forall well_formed qs -> get_row i t = Some r ->
  exists s, get_row i (run_history qs t).2 = Some s /\ row_grows r s.
Proof.
  revert t r. induction qs as [|q qs IH]; intros t r Hw Hr; [eauto|].
  apply Forall_cons in Hw as [Hq Hw]. destruct (transaction_grows q t i r Hq Hr) as (s & Hs & Hg).
  cbn [run_history fst snd]. destruct (IH _ s Hw Hs) as (u & Hu & Hg'). exists u. split; [done|]. by etrans.
Qed.

Lemma history_ids qs t : Forall well_formed qs -> unique_ids t -> unique_ids (run_history qs t).2.
Proof.
  revert t. induction qs as [|q qs IH]; intros t Hw Hu; [done|]. apply Forall_cons in Hw as [Hq Hw].
  cbn [run_history fst snd]. apply IH; [done|]. by apply transaction_ids.
Qed.

(** What one transaction hands out or settles, in terms of the table around it. *)
Lemma handed_step q t i n : unique_ids t -> (i, n) ∈ handed [(apply_transaction q t).1] ->
  (exists r, get_row i t = Some r /\ n = S (row_attempts r)) /\
  (exists s, get_row i (apply_transaction q t).2 = Some s /\ row_attempts s = n).
Proof.
  unfold handed. cbn [flat_map]. rewrite app_nil_r.
  destruct q as [limit now lease el locked|j m f|u|f]; cbn [apply_transaction fst snd]; intros Hu Hin;
    try by apply not_elem_of_nil in Hin.
  apply list_elem_of_fmap in Hin as (r & Heq & Hr). injection Heq as -> ->.
  destruct (claim_handed _ _ _ _ _ _ _ Hu Hr) as (r0 & Hg & Hr0 & _ & Hg').
  split; [exists r0|exists r]; (split; [done|]); [by rewrite Hr0, claim_attempts|done].
Qed.

Lemma settled_step q t i n : well_formed q -> (i, n) ∈ settled [(apply_transaction q t).1] ->
  (exists r, get_row i t = Some r /\ row_running r = true /\ row_attempts r = n) /\
  (exists s, get_row i (apply_transaction q t).2 = Some s /\ row_attempts s = n /\ row_running s = false).
Proof.
  unfold settled. cbn [flat_map]. rewrite app_nil_r.
  destruct q as [limit now lease el locked|j m f|u|f]; cbn [apply_transaction fst snd well_formed];
    intros Hw Hin; try by apply not_elem_of_nil in Hin.
  destruct (settle j m f t).1 eqn:E; [|by apply not_elem_of_nil in Hin].
  apply list_elem_of_singleton in Hin. injection Hin as -> ->.
  rewrite settle_table by done. apply settle_true in E as (r & Hg & Hr & Ha).
  split; [by exists r|]. rewrite get_set_row, Hg by apply Hw. apply get_row_Some in Hg as [_ Hi].
  simpl. rewrite decide_True by done. destruct (Hw r) as (_ & Ha' & Hf). eexists. split; [done|].
  split; [congruence|done].
Qed.

Lemma handed_app rs1 rs2 : handed (rs1 ++ rs2) = handed rs1 ++ handed rs2.
Proof. apply flat_map_app. Qed.

(** Attempts already used do not occur again. *)
Lemma handed_later qs t i n r : Forall well_formed qs -> unique_ids t ->
  get_row i t = Some r -> n <= row_attempts r -> (i, n) ∉ handed (run_history qs t).1.
Proof.
  revert t r. induction qs as [|q qs IH]; intros t r Hw Hu Hr Hn; [by apply not_elem_of_nil|].
  apply Forall_cons in Hw as [Hq Hw]. cbn [run_history fst snd].
  change (?x :: ?l) with ([x] ++ l). rewrite handed_app, not_elem_of_app. split.
  - intros Hin. destruct (handed_step q t i n Hu Hin) as [(r' & Hr' & Hn') _].
    rewrite Hr in Hr'. injection Hr' as <-. lia.
  - destruct (transaction_grows q t i r Hq Hr) as (s & Hs & [Hg _]).
    eapply (IH _ s); [done|by apply transaction_ids|done|lia].
Qed.

Lemma settled_later qs t i n r : Forall well_formed qs -> unique_ids t ->
  get_row i t = Some r -> n <= row_attempts r -> (row_attempts r = n -> row_running r = false) ->
  (i, n) ∉ settled (run_history qs t).1.
Proof.
  revert t r. induction qs as [|q qs IH]; intros t r Hw Hu Hr Hn He; [by apply not_elem_of_nil|].
  apply Forall_cons in Hw as [Hq Hw]. cbn [run_history fst snd].
  change (?x :: ?l) with ([x] ++ l). unfold settled. rewrite flat_map_app, not_elem_of_app. split.
  - intros Hin. destruct (settled_step q t i n Hq Hin) as [(r' & Hr' & Hrun & Ha) _].
    rewrite Hr in Hr'. injection Hr' as <-. rewrite He in Hrun; done.
  - destruct (transaction_grows q t i r Hq Hr) as (s & Hs & [Hg Hend]).
    eapply (IH _ s); [done|by apply transaction_ids|done|lia|]. intros Heq. apply Hend; [apply He|]; lia.
Qed.

Lemma NoDup_pairs {B C} (f : R -> B) (g : R -> C) (l : list R) :
  NoDup (map f l) -> NoDup (map (fun r => (f r, g r)) l).
Proof.
  induction l as [|r l IH]; [constructor|]. intros [Hr Hl]%NoDup_cons. constructor; [|by apply IH].
  intros (s & Heq & Hs)%list_elem_of_fmap. apply Hr. injection Heq as -> _. by apply list_elem_of_fmap_2.
Qed.

Lemma handed_step_unique q t : unique_ids t -> NoDup (handed [(apply_transaction q t).1]).
Proof.
  intros Hu. unfold handed. cbn [flat_map]. rewrite app_nil_r.
  destruct q as [limit now lease el locked|j m f|u|f]; cbn [apply_transaction fst snd]; try constructor.
  apply NoDup_pairs. unfold claim. cbn [fst]. rewrite ids_map by (intros; apply claim_id).
  by apply chosen_unique.
Qed.

(** Every attempt is handed out once. *)
Lemma handed_once qs t : Forall well_formed qs -> unique_ids t ->
  NoDup (handed (run_history qs t).1).
Proof.
  revert t. induction qs as [|q qs IH]; intros t Hw Hu; [constructor|].
  apply Forall_cons in Hw as [Hq Hw]. cbn [run_history fst snd].
  change (?x :: ?l) with ([x] ++ l). rewrite handed_app. apply NoDup_app.
  split; [by apply handed_step_unique|]. split; [|apply IH; [done|by apply transaction_ids]].
  intros [i n] Hin. destruct (handed_step q t i n Hu Hin) as [_ (s & Hs & Hn)].
  eapply handed_later; [done|by apply transaction_ids|done|lia].
Qed.

Lemma settled_step_unique q t : NoDup (settled [(apply_transaction q t).1]).
Proof.
  unfold settled. cbn [flat_map]. rewrite app_nil_r.
  destruct q as [limit now lease el locked|j m f|u|f]; cbn [apply_transaction fst snd]; try constructor.
  destruct (settle j m f t).1; [apply NoDup_singleton|constructor].
Qed.

(** At most one report of an attempt takes effect. *)
Lemma settled_once qs t : Forall well_formed qs -> unique_ids t ->
  NoDup (settled (run_history qs t).1).
Proof.
  revert t. induction qs as [|q qs IH]; intros t Hw Hu; [constructor|].
  apply Forall_cons in Hw as [Hq Hw]. cbn [run_history fst snd].
  change (?x :: ?l) with ([x] ++ l). unfold settled in *. rewrite flat_map_app. apply NoDup_app.
  split; [by apply settled_step_unique|]. split; [|apply IH; [done|by apply transaction_ids]].
  intros [i n] Hin. destruct (settled_step q t i n Hq Hin) as [_ (s & Hs & Hn & He)].
  eapply settled_later; [done|by apply transaction_ids|done|lia|done].
Qed.

(** A report that takes effect is for the attempt handed out last: any attempt
    handed out before it for the same row has a smaller number. *)
Lemma report_is_latest qs q t i n m : Forall well_formed qs -> unique_ids t -> well_formed q ->
  (i, m) ∈ handed (run_history qs t).1 ->
  (i, n) ∈ settled [(apply_transaction q (run_history qs t).2).1] -> m <= n.
Proof.
  revert t. induction qs as [|q0 qs IH]; intros t Hw Hu Hq Hm Hn; [by apply not_elem_of_nil in Hm|].
  apply Forall_cons in Hw as [Hq0 Hw]. cbn [run_history fst snd] in *.
  change (?x :: ?l) with ([x] ++ l) in Hm. rewrite handed_app, elem_of_app in Hm.
  destruct Hm as [Hm|Hm]; [|exact (IH _ Hw (transaction_ids q0 t Hq0 Hu) Hq Hm Hn)].
  destruct (handed_step _ _ _ _ Hu Hm) as [_ (s & Hs & Ha)].
  destruct (history_grows qs _ i s Hw Hs) as (u & Hgu & [Hle _]).
  destruct (settled_step _ _ _ _ Hq Hn) as [(r & Hr & _ & Hrn) _]. rewrite Hgu in Hr.
  injection Hr as <-. lia.
Qed.

(** ** The lease *)

(** No claim of [q] is made at [until] or later. *)
Definition claims_before (until : Z) (q : transaction R) : Prop :=
  match q with QClaim _ now _ _ _ => (now < until)%Z | _ => True end.

Lemma lease_step q t i r : well_formed q -> unique_ids t ->
  get_row i t = Some r -> row_running r = true -> claims_before (row_available r) q ->
  (forall n, (i, n) ∉ settled [(apply_transaction q t).1]) ->
  get_row i (apply_transaction q t).2 = Some r.
Proof.
  intros Hw Hu Hr Hrun Hb Hs. unfold settled in Hs. cbn [flat_map] in Hs. setoid_rewrite app_nil_r in Hs.
  destruct q as [limit now lease el locked|j n f|u|f]; cbn [apply_transaction fst snd] in *;
    cbn [well_formed claims_before] in *.
  - apply get_row_not_due; [done..|]. unfold claimable.
    rewrite (proj2 (Z.leb_gt _ _)) by done. by rewrite andb_false_r.
  - destruct (settle j n f t).1 eqn:E; [|by rewrite settle_false].
    rewrite settle_table, get_set_row, Hr by (done || apply Hw). simpl. case_decide as Hj; [|done].
    exfalso. apply (Hs n). apply get_row_Some in Hr as [_ Hi]. rewrite <- Hi, Hj. by left.
  - destruct (get_row (row_id u) t) eqn:E; [done|]. rewrite get_row_app; [done|]. congruence.
  - rewrite get_row_map, Hr by apply Hw. simpl. f_equal. by apply Hw.
Qed.

(** A row that is neither claimable nor running is left alone, except by a touch. *)
Lemma idle_step q t i r : well_formed q -> unique_ids t -> get_row i t = Some r ->
  row_open r = false -> row_running r = false -> (forall f, q <> QTouch f) ->
  get_row i (apply_transaction q t).2 = Some r.
Proof.
  intros Hw Hu Hr Ho Hrun Ht.
  destruct q as [limit now lease el locked|j n f|u|f]; cbn [apply_transaction fst snd] in *;
    cbn [well_formed] in *; [| | |by destruct (Ht f)].
  - apply get_row_not_due; [done..|]. unfold claimable. by rewrite Ho.
  - destruct (settle j n f t).1 eqn:E; [|by rewrite settle_false].
    rewrite settle_table, get_set_row, Hr by (done || apply Hw). simpl. case_decide as Hj; [|done].
    exfalso. apply get_row_Some in Hr as Hi. destruct Hi as [_ Hi]. apply settle_true in E as (v & Hv & Hrv & _).
    rewrite <- Hj, Hi, Hr in Hv. congruence.
  - destruct (get_row (row_id u) t) eqn:E; [done|]. rewrite get_row_app; [done|]. congruence.
Qed.

(** While a lease lives nobody but its holder changes the row: it is not handed
    out again and no other transaction touches it. *)
Lemma lease_exclusive qs t i r : Forall well_formed qs -> unique_ids t ->
  get_row i t = Some r -> row_running r = true -> Forall (claims_before (row_available r)) qs ->
  (forall n, (i, n) ∉ settled (run_history qs t).1) ->
  get_row i (run_history qs t).2 = Some r.
Proof.
  revert t. induction qs as [|q qs IH]; intros t Hw Hu Hr Hrun Hb Hs; [done|].
  apply Forall_cons in Hw as [Hq Hw]. apply Forall_cons in Hb as [Hbq Hb].
  cbn [run_history fst snd] in *. change (?x :: ?l) with ([x] ++ l) in Hs.
  unfold settled in Hs. setoid_rewrite flat_map_app in Hs. setoid_rewrite not_elem_of_app in Hs.
  apply IH; [done|by apply transaction_ids| |done|done|intros n; apply Hs].
  apply lease_step; try done. intros n. apply Hs.
Qed.
End histories.
