(* ===== verification/Outbox.v ===== *)
(** Delivery of integration events: the store's transactions, the classification
    of one HTTP delivery, and the dispatcher's cycle ([src/mormi_api/outbox.py],
    [OutboxEventRecord] of [src/mormi_api/db.py]).

    Times and delays are whole microseconds.  The HTTP client is a parameter, and
    so is what other processes commit between two transactions of a cycle. *)

From S2P Require Import Prelude.
From S2P Require Import PyStr.
From S2P Require Import PyNum.
From S2P Require Import Json.
From S2P Require Import Lease.

(** * The table *)

Record OutboxEventRecord := {
  oe_event_id : string;
  oe_event_type : string;
  oe_schema_version : Z;
  oe_payload_json : list (string * json);
  oe_status : string;
  oe_attempts : nat;
  oe_available_at : Z;
  oe_delivered_at : option Z;
  oe_last_error : option string;
  oe_created_at : Z
}.

(** The order the database gives to text ([event_id.asc()]), left open. *)
Class Collation := collate : string -> string -> bool.
Class CollationLaws `{Collation} := {
  collate_total a b : collate a b = true \/ collate b a = true;
  collate_trans a b c : collate a b = true -> collate b c = true -> collate a c = true
}.

Definition with_transition (r : OutboxEventRecord) (status : string) (available_at : Z)
    (delivered_at : option Z) (error : option string) : OutboxEventRecord := {|
  oe_event_id := oe_event_id r; oe_event_type := oe_event_type r;
  oe_schema_version := oe_schema_version r; oe_payload_json := oe_payload_json r;
  oe_status := status; oe_attempts := oe_attempts r; oe_available_at := available_at;
  oe_delivered_at := delivered_at; oe_last_error := error; oe_created_at := oe_created_at r |}.

(** The update of a claimed record. *)
Definition claim_record (lease_until : Z) (r : OutboxEventRecord) : OutboxEventRecord := {|
  oe_event_id := oe_event_id r; oe_event_type := oe_event_type r;
  oe_schema_version := oe_schema_version r; oe_payload_json := oe_payload_json r;
  oe_status := "processing"; oe_attempts := S (oe_attempts r); oe_available_at := lease_until;
  oe_delivered_at := oe_delivered_at r; oe_last_error := None; oe_created_at := oe_created_at r |}.

(** [ORDER BY available_at, created_at, event_id] *)
Definition event_before `{Collation} (r s : OutboxEventRecord) : bool :=
  if (oe_available_at r =? oe_available_at s)%Z then
    if (oe_created_at r =? oe_created_at s)%Z then collate (oe_event_id r) (oe_event_id s)
    else (oe_created_at r <? oe_created_at s)%Z
  else (oe_available_at r <? oe_available_at s)%Z.

#[export] Instance event_row `{Collation} : LeasedRow OutboxEventRecord := {|
  row_id := oe_event_id;
  row_open r := memb (oe_status r) ["pending"; "retry"; "processing"];
  row_running r := bool_decide (oe_status r = "processing");
  row_attempts := oe_attempts;
  row_available := oe_available_at;
  row_before := event_before;
  row_claim _ until := claim_record until
|}.

(** * Store transactions *)

Record OutboxDelivery := {
  od_event_id : string;
  od_event_type : string;
  od_schema_version : Z;
  od_payload : list (string * json);
  od_attempt : nat
}.

Definition delivery_of (r : OutboxEventRecord) : OutboxDelivery := {|
  od_event_id := oe_event_id r; od_event_type := oe_event_type r;
  od_schema_version := oe_schema_version r; od_payload := oe_payload_json r;
  od_attempt := oe_attempts r |}.

Section store.
Context `{Collation}.
Variable lease : Z.

Definition claim_due (limit : nat) (now : Z) (blocked : list string) (locked : list string)
    (t : list OutboxEventRecord) : list OutboxDelivery * list OutboxEventRecord :=
  let out := claim limit now lease (fun r => negb (memb (oe_event_type r) blocked)) locked t in
  (map delivery_of out.1, out.2).

(** [error[:300] if error else None] *)
Definition stored_error (error : option string) : option string :=
  match error with
  | None => None
  | Some e => if bool_decide (e = "") then None else Some (utf8_encode (take 300 (utf8_decode e)))
  end.

(** [_transition] *)
Definition transition (d : OutboxDelivery) (status : string) (available_at : Z)
    (delivered_at : option Z) (error : option string) (t : list OutboxEventRecord)
    : bool * list OutboxEventRecord :=
  settle (od_event_id d) (od_attempt d)
    (fun r => with_transition r status available_at delivered_at (stored_error error)) t.

Definition mark_sent (d : OutboxDelivery) (now : Z) := transition d "sent" now (Some now) None.
Definition mark_retry (d : OutboxDelivery) (delay : Z) (error : string) (now : Z) :=
  transition d "retry" (now + delay) None (Some error).
Definition mark_failed (d : OutboxDelivery) (error : string) (now : Z) :=
  transition d "failed" now None (Some error).
End store.

(** * One delivery *)

Inductive OutboxAction := OA_sent | OA_retry | OA_failed | OA_auth_failed.
#[export] Instance OutboxAction_eq_dec : EqDecision OutboxAction.
Proof. solve_decision. Defined.

Record DeliveryDecision := { dd_action : OutboxAction; dd_reason : string }.

(** What [httpx] answers: a timeout or network error, another error of the
    library, or a response with the JSON its body decodes to, if any. *)
Inductive HttpOutcome :=
  | HttpNetworkError (name : string)
  | HttpError (name : string)
  | HttpResponse (status_code : Z) (body : option json).

Definition DIALOGUE_OBSERVATION_EVENT_TYPE : string := "mormi.dialogue.observation.recorded".
Definition STAR_NOTE_CREATED_EVENT_TYPE : string := "mormi.star_note.created".

(** [_EVENT_ENVELOPES] *)
Definition event_envelope (event_type : string) : option (string * string) :=
  if bool_decide (event_type = DIALOGUE_OBSERVATION_EVENT_TYPE)
  then Some ("dialogue_observation", "observation")
  else if bool_decide (event_type = STAR_NOTE_CREATED_EVENT_TYPE)
  then Some ("star_note_created", "star_note")
  else None.

Definition retriable_conflict_codes : list string :=
  ["unknown_conversation"; "unknown_learner"; "unknown_observation"; "missing_evidence_observation"].

(** [_error_code] *)
Definition error_code (body : option json) : option string :=
  match body with
  | Some (JObj kvs) => match jget "code" kvs with Some (JStr c) => Some c | _ => None end
  | _ => None
  end.

(** [f"http_{status_code}"] and the [error_code or ...] of a rejection. *)
Definition http_reason (status : Z) : string := "http_" ++ str_Z status.
Definition rejection_reason (code : option string) (status : Z) : string :=
  match code with
  | Some c => if bool_decide (c = "") then http_reason status else c
  | None => http_reason status
  end.

Definition response_decision (status : Z) (code : option string) : DeliveryDecision :=
  if ((200 <=? status) && (status <? 300))%Z then
    {| dd_action := OA_sent; dd_reason := "accepted" |}
  else if memb status [401; 403]%Z then
    {| dd_action := OA_auth_failed; dd_reason := http_reason status |}
  else
    match code with
    | Some c =>
        if ((status =? 409)%Z && memb c retriable_conflict_codes) then
          {| dd_action := OA_retry; dd_reason := c |}
        else if ((status =? 429) || (500 <=? status))%Z then
          {| dd_action := OA_retry; dd_reason := http_reason status |}
        else {| dd_action := OA_failed; dd_reason := rejection_reason code status |}
    | None =>
        if ((status =? 429) || (500 <=? status))%Z then
          {| dd_action := OA_retry; dd_reason := http_reason status |}
        else {| dd_action := OA_failed; dd_reason := rejection_reason code status |}
    end.

Definition request_body (d : OutboxDelivery) (public_type payload_key : string) : json :=
  JObj [("event_id", JStr (od_event_id d)); ("schema_version", JNum (PyInt (od_schema_version d)));
        ("event_type", JStr public_type); (payload_key, JObj (od_payload d))].

(** [_deliver] *)
Definition deliver (post : json -> HttpOutcome) (d : OutboxDelivery) : DeliveryDecision :=
  match event_envelope (od_event_type d) with
  | None => {| dd_action := OA_failed;
               dd_reason := "unsupported_outbox_event_type:" ++ od_event_type d |}
  | Some (public_type, payload_key) =>
      match post (request_body d public_type payload_key) with
      | HttpNetworkError name => {| dd_action := OA_retry; dd_reason := "network_" ++ name |}
      | HttpError name => {| dd_action := OA_retry; dd_reason := "http_" ++ name |}
      | HttpResponse status body => response_decision status (error_code body)
      end
  end.

(** * The dispatcher *)

Record OutboxSettings := {
  os_batch_size : nat;
  os_lease : Z;
  os_retry_base : Z;
  os_retry_max : Z;
  os_star_notes : bool
}.

Definition blocked_event_types (s : OutboxSettings) : list string :=
  if os_star_notes s then [] else [STAR_NOTE_CREATED_EVENT_TYPE].

(** [float(min(base * (2 ** max(attempt - 1, 0)), max))].  [base] is a float, so
    the product converts the power to one: an integer of [2 ** 1024] or more has
    no float and raises. *)
Definition retry_delay (s : OutboxSettings) (attempt : nat) : res Z :=
  let e := (attempt - 1)%nat in
  if (1024 <=? e)%nat then Raise OverflowError
  else Ok (Z.min (os_retry_base s * 2 ^ Z.of_nat e) (os_retry_max s)).

Record DeliveryCycleResult := {
  dr_claimed : nat;
  dr_sent : nat;
  dr_retried : nat;
  dr_failed : nat;
  dr_authentication_failed : bool
}.

Definition no_deliveries : DeliveryCycleResult := {|
  dr_claimed := 0; dr_sent := 0; dr_retried := 0; dr_failed := 0;
  dr_authentication_failed := false |}.

Definition count_delivery (a : OutboxAction) (r : DeliveryCycleResult) : DeliveryCycleResult := {|
  dr_claimed := S (dr_claimed r);
  dr_sent := dr_sent r + match a with OA_sent => 1 | _ => 0 end;
  dr_retried := dr_retried r + match a with OA_retry | OA_auth_failed => 1 | _ => 0 end;
  dr_failed := dr_failed r + match a with OA_failed => 1 | _ => 0 end;
  dr_authentication_failed := bool_decide (a = OA_auth_failed) |}.

(** The surroundings of round [k] of a cycle: the clock at the claim and at the
    mark, the rows other transactions hold locked, the HTTP client, and what other
    processes commit while the request is under way. *)
Record round_env := {
  re_claimed_at : Z;
  re_marked_at : Z;
  re_locked : list string;
  re_post : json -> HttpOutcome;
  re_others : list (transaction OutboxEventRecord)
}.

Section dispatcher.
Context `{Collation}.
Variable s : OutboxSettings.

(** What a round does with a decision: the table after the mark, or the exception
    of the delay before anything is marked. *)
Definition mark_decision (d : OutboxDelivery) (decision : DeliveryDecision) (now : Z)
    (t : list OutboxEventRecord) : list OutboxEventRecord * res unit :=
  match dd_action decision with
  | OA_sent => ((mark_sent d now t).2, Ok tt)
  | OA_failed => ((mark_failed d (dd_reason decision) now t).2, Ok tt)
  | OA_retry | OA_auth_failed =>
      match retry_delay s (od_attempt d) with
      | Ok delay => ((mark_retry d delay (dd_reason decision) now t).2, Ok tt)
      | Raise e => (t, Raise e)
      end
  end.

(** [run_once], from round [k] with [fuel] rounds of the batch left.  The table is
    kept when the cycle raises: its transactions are committed one by one. *)
Fixpoint run_rounds (env : nat -> round_env) (fuel k : nat) (acc : DeliveryCycleResult)
    (t : list OutboxEventRecord) : list OutboxEventRecord * res DeliveryCycleResult :=
  match fuel with
  | O => (t, Ok acc)
  | S fuel' =>
      let e := env k in
      let out := claim_due (os_lease s) 1 (re_claimed_at e) (blocked_event_types s) (re_locked e) t in
      match out.1 with
      | [] => (out.2, Ok acc)
      | d :: _ =>
          let decision := deliver (re_post e) d in
          let t' := (run_history (re_others e) out.2).2 in
          let marked := mark_decision d decision (re_marked_at e) t' in
          let acc' := count_delivery (dd_action decision) acc in
          match marked.2 with
          | Raise ex => (marked.1, Raise ex)
          | Ok _ =>
              if decide (dd_action decision = OA_auth_failed) then (marked.1, Ok acc')
              else run_rounds env fuel' (S k) acc' marked.1
          end
      end
  end.

Definition run_once (env : nat -> round_env) (t : list OutboxEventRecord)
    : list OutboxEventRecord * res DeliveryCycleResult :=
  run_rounds env (os_batch_size s) 0 no_deliveries t.
End dispatcher.
