(* ===== verification/OutboxTheory.v ===== *)
(** The outbox delivers without losing or double-marking an event: histories of
    store operations, the classification of answers, the dispatcher's cycle and
    the retry delay. *)

From S2P Require Import Prelude.
From S2P Require Import PyStr.
From S2P Require Import PyNum.
From S2P Require Import Json.
From S2P Require Import Lease.
From S2P Require Import LeaseTheory.
From S2P Require Import Outbox.

#[export] Instance event_row_laws `{CollationLaws} : LeasedRowLaws OutboxEventRecord.
Proof.
  split; try done.
  - intros r s. simpl. unfold event_before.
    rewrite (Z.eqb_sym (oe_available_at s)), (Z.eqb_sym (oe_created_at s)).
    destruct (Z.eqb_spec (oe_available_at r) (oe_available_at s)); [|rewrite !Z.ltb_lt; lia].
    destruct (Z.eqb_spec (oe_created_at r) (oe_created_at s)); [|rewrite !Z.ltb_lt; lia].
    apply collate_total.
  - intros r s t. simpl. unfold event_before.
    repeat match goal with |- context [(?a =? ?b)%Z] => destruct (Z.eqb_spec a b) end;
      rewrite ?Z.ltb_lt; try lia; apply collate_trans.
  - intros r s. simpl. unfold event_before. destruct (Z.eqb_spec (oe_available_at r) (oe_available_at s));
      rewrite ?Z.ltb_lt; lia.
Qed.

(** * Histories of the store *)

(** The operations processes commit on the table; [OpAppend] is the insertion of a
    new event together with a conversation turn. *)
Inductive outbox_op :=
  | OpClaim (limit : nat) (now : Z) (blocked locked : list string)
  | OpSent (d : OutboxDelivery) (now : Z)
  | OpRetry (d : OutboxDelivery) (delay : Z) (error : string) (now : Z)
  | OpFailed (d : OutboxDelivery) (error : string) (now : Z)
  | OpAppend (r : OutboxEventRecord).

Section ops.
Context `{CollationLaws}.
Variable lease : Z.
Implicit Types t : list OutboxEventRecord.

Definition op_transaction (o : outbox_op) : transaction OutboxEventRecord :=
  let mark d status available delivered error :=
    QSettle (od_event_id d) (od_attempt d)
      (fun r => with_transition r status available delivered (stored_error error)) in
  match o with
  | OpClaim limit now blocked locked =>
      QClaim limit now lease (fun r => negb (memb (oe_event_type r) blocked)) locked
  | OpSent d now => mark d "sent" now (Some now) None
  | OpRetry d delay error now => mark d "retry" (now + delay)%Z None (Some error)
  | OpFailed d error now => mark d "failed" now None (Some error)
  | OpAppend r => QInsert r
  end.

(** New events are pending. *)
Definition op_ok (o : outbox_op) : Prop :=
  match o with OpAppend r => oe_status r = "pending" | _ => True end.

Definition outbox_history (os : list outbox_op) t :=
  run_history (map op_transaction os) t.

Lemma op_well_formed o : op_ok o -> well_formed (op_transaction o).
Proof. destruct o; simpl; try done. by intros ->. Qed.

Lemma ops_well_formed os : Forall op_ok os -> Forall well_formed (map op_transaction os).
Proof. intros Ho. apply Forall_map. eapply Forall_impl; [exact Ho|exact op_well_formed]. Qed.

(** ** Attempts *)

(** (C40) Deliveries are fenced by their attempt number.  Over any interleaving of
    store operations every (event, attempt) pair is handed out at most once and at
    most one mark of it takes effect; a mark that takes effect is for the attempt
    of that event handed out last, so a stale worker changes nothing. *)
Theorem outbox_attempt_marked_once os t : Forall op_ok os -> unique_ids t ->
  let out := outbox_history os t in
  NoDup (handed out.1) /\ NoDup (settled out.1) /\ unique_ids out.2 /\
  forall o i m n, op_ok o -> (i, m) ∈ handed out.1 ->
    (i, n) ∈ settled (outbox_history [o] out.2).1 -> m <= n.
Proof.
  intros Ho%ops_well_formed Hu out. unfold out, outbox_history.
  split; [by apply handed_once|]. split; [by apply settled_once|]. split; [by apply history_ids|].
  intros o i m n Hw%op_well_formed Hm Hn. eapply report_is_latest; [exact Ho|exact Hu|exact Hw|exact Hm|exact Hn].
Qed.

(** ** Leases *)

(** No claim of the history is made once the lease has run out. *)
Definition before_lease_end (until : Z) (o : outbox_op) : Prop :=
  match o with OpClaim _ now _ _ => (now < until)%Z | _ => True end.

Lemma before_lease_claims until os : Forall (before_lease_end until) os ->
  Forall (claims_before until) (map op_transaction os).
Proof. intros Hb. apply Forall_map. eapply Forall_impl; [exact Hb|]. by intros []. Qed.

(** A due event that is wanted and unlocked is handed out by a claim with room. *)
Lemma claim_due_hands_out limit now blocked locked t i r : unique_ids t ->
  get_row i t = Some r -> row_open r = true -> (oe_available_at r <= now)%Z ->
  oe_event_type r ∉ blocked -> i ∉ locked -> length t < limit ->
  delivery_of (claim_record (now + lease) r) ∈ (claim_due lease limit now blocked locked t).1.
Proof.
  intros Hu Hr Hopen Hd Hb Hl Hroom. pose proof (get_row_Some _ _ _ Hr) as [Hin Hi].
  unfold claim_due, claim. cbn [fst]. rewrite map_map. apply list_elem_of_fmap.
  exists r. split; [done|].
  destruct (chosen_serves limit (fun r => negb (memb (oe_event_type r) blocked)) locked now t)
    as (_ & _ & Hsub & Hall).
  destruct (Hall r Hin) as [Hc|[Hlen _]]; [|done|exfalso].
  - unfold claimable. rewrite Hopen. simpl. rewrite (proj2 (Z.leb_le _ _)) by done.
    rewrite (proj2 (memb_false _ _) Hb). simpl. apply negb_true_iff, memb_false. simpl in Hi. by rewrite Hi.
  - apply Nat.lt_irrefl with limit. rewrite <- Hlen at 1.
    eapply Nat.le_lt_trans; [|exact Hroom]. rewrite <- (length_map row_id), <- (length_map row_id t).
    apply submseteq_length, NoDup_submseteq; [by apply chosen_unique|].
    intros x (y & -> & Hy)%list_elem_of_fmap. apply Hsub in Hy as [Hy _]. by apply list_elem_of_fmap_2.
Qed.

(** A crashed worker loses nothing.  While the lease of a delivery runs, no
    operation of another process changes the event (unless the delivery is marked);
    and once it has run out, the next claim with room hands the event out again,
    under the next attempt number. *)
Theorem crashed_delivery_is_reclaimed os t i r limit now blocked locked :
  Forall op_ok os -> unique_ids t -> get_row i t = Some r -> oe_status r = "processing" ->
  Forall (before_lease_end (oe_available_at r)) os ->
  (forall n, (i, n) ∉ settled (outbox_history os t).1) ->
  (oe_available_at r <= now)%Z -> oe_event_type r ∉ blocked -> i ∉ locked ->
  length (outbox_history os t).2 < limit ->
  get_row i (outbox_history os t).2 = Some r /\
  exists d, d ∈ (claim_due lease limit now blocked locked (outbox_history os t).2).1 /\
    od_event_id d = i /\ od_attempt d = S (oe_attempts r).
Proof.
  intros Ho%ops_well_formed Hu Hr Hs Hb%before_lease_claims Hn Hd Hbl Hl Hroom.
  assert (Hrun : row_running r = true) by (by apply bool_decide_eq_true).
  pose proof (lease_exclusive _ t i r Ho Hu Hr Hrun Hb Hn) as Hr'. split; [exact Hr'|].
  eexists. split; [eapply claim_due_hands_out; try done|].
  - by apply history_ids.
  - simpl. by rewrite Hs.
  - split; [|done]. by apply get_row_Some in Hr as [_ Hi].
Qed.

(** Terminal states are final: no operation changes an event that was sent or
    has failed. *)
Theorem finished_event_is_final os t i r : Forall op_ok os -> unique_ids t ->
  get_row i t = Some r -> oe_status r ∈ ["sent"; "failed"] ->
  get_row i (outbox_history os t).2 = Some r.
Proof.
  intros Ho Hu Hr Hs. revert t Hu Hr. induction os as [|o os IH]; intros t Hu Hr; [done|].
  apply Forall_cons in Ho as [Hw%op_well_formed Ho].
  apply (IH Ho (apply_transaction (op_transaction o) t).2); [by apply transaction_ids|].
  apply elem_of_cons in Hs as [Hs|Hs%list_elem_of_singleton];
    (apply idle_step; try done; [..|by destruct o]; simpl; by rewrite Hs).
Qed.
End ops.

(** * Deliveries *)

(** The service's answer is permanent: neither success, nor authentication, nor
    something to try again. *)
Definition rejected (status : Z) (code : option string) : Prop :=
  ~ (200 <= status < 300)%Z /\ status ∉ [401; 403]%Z /\ status <> 429%Z /\ (status < 500)%Z
  /\ ~ (status = 409%Z /\ exists c, code = Some c /\ c ∈ retriable_conflict_codes).

Lemma status_decision status code :
  match dd_action (response_decision status code) with
  | OA_sent => (200 <= status < 300)%Z
  | OA_auth_failed => status ∈ [401; 403]%Z
  | OA_retry => status = 429%Z \/ (500 <= status)%Z
                \/ status = 409%Z /\ exists c, code = Some c /\ c ∈ retriable_conflict_codes
  | OA_failed => rejected status code
  end.
Proof.
  unfold response_decision, rejected.
  destruct ((200 <=? status)%Z && (status <? 300)%Z) eqn:E1; simpl; [lia|].
  assert (H1 : ~ (200 <= status < 300)%Z) by lia. clear E1.
  destruct (memb status [401; 403]%Z) eqn:E2; simpl; [by apply memb_spec|]. apply memb_false in E2.
  destruct ((status =? 429)%Z || (500 <=? status)%Z) eqn:E4.
  - destruct code as [c|]; [destruct (_ && memb _ _) eqn:E3|]; simpl; [|lia..].
    apply andb_true_iff in E3 as [E3 Ec]. right; right. split; [lia|]. exists c. split; [done|].
    by apply memb_spec.
  - destruct code as [c|]; [destruct (_ && memb _ _) eqn:E3|]; simpl.
    + apply andb_true_iff in E3 as [E3 Ec]. right; right. split; [lia|]. exists c. split; [done|].
      by apply memb_spec.
    + repeat split; try done; [lia..|]. intros (Hs & c' & [= <-] & Hc%memb_spec).
      rewrite Hc in E3. lia.
    + repeat split; try done; [lia..|]. by intros (_ & c' & [=] & _).
Qed.

(** Every delivery is classified, and by the answer alone: an unknown event type
    fails without a request, a transport error is retried, and a response decides by
    its status and error code: 2xx is sent, 401 and 403 stop the dispatcher, 429, 5xx
    and the four conflicts of a missing parent record are retried, the rest fails. *)
Theorem deliver_decides post d :
  match event_envelope (od_event_type d) with
  | None => dd_action (deliver post d) = OA_failed
  | Some (public_type, payload_key) =>
      match post (request_body d public_type payload_key) with
      | HttpNetworkError _ | HttpError _ => dd_action (deliver post d) = OA_retry
      | HttpResponse status body =>
          match dd_action (deliver post d) with
          | OA_sent => (200 <= status < 300)%Z
          | OA_auth_failed => status ∈ [401; 403]%Z
          | OA_retry => status = 429%Z \/ (500 <= status)%Z \/ status = 409%Z /\
              exists c, error_code body = Some c /\ c ∈ retriable_conflict_codes
          | OA_failed => rejected status (error_code body)
          end
      end
  end.
Proof.
  unfold deliver. destruct (event_envelope (od_event_type d)) as [[public_type payload_key]|]; [|done].
  destruct (post _) as [name|name|status body]; [done..|]. apply status_decision.
Qed.

(** * The dispatcher *)

Lemma retry_delay_raises s n : 1024 < n -> retry_delay s n = Raise OverflowError.
Proof. intros Hn. unfold retry_delay. by rewrite (proj2 (Nat.leb_le _ _)) by lia. Qed.

(** The retry delay doubles with the attempts between its two bounds, and from
    attempt 1025 on it raises: the power of two has no float. *)
Theorem retry_delay_bounds s n : (0 <= os_retry_base s <= os_retry_max s)%Z ->
  if decide (n <= 1024) then
    exists delay, retry_delay s n = Ok delay /\ (os_retry_base s <= delay <= os_retry_max s)%Z
      /\ (n <= 1 -> delay = os_retry_base s)
      /\ forall m delay', m <= n -> retry_delay s m = Ok delay' -> (delay' <= delay)%Z
  else retry_delay s n = Raise OverflowError.
Proof.
  intros [Hb Hm]. case_decide as Hn.
  - unfold retry_delay. rewrite (proj2 (Nat.leb_gt _ _)) by lia.
    assert (Hp : forall k, (1 <= 2 ^ Z.of_nat k)%Z) by (intros k; pose proof (Z.pow_pos_nonneg 2 (Z.of_nat k)); lia).
    eexists. split; [done|]. split; [specialize (Hp (n - 1)); nia|]. split.
    + intros Hn1. replace (n - 1) with 0 by lia. simpl. lia.
    + intros m delay' Hle. destruct (1024 <=? m - 1) eqn:E; [done|]. intros [= <-].
      apply Z.min_le_compat_r, Z.mul_le_mono_nonneg_l; [done|]. apply Z.pow_le_mono_r; lia.
  - apply retry_delay_raises. lia.
Qed.

Section cycles.
Context `{CollationLaws}.
Variable s : OutboxSettings.
Implicit Types t : list OutboxEventRecord.

(** The status an action leaves. *)
Definition action_status (a : OutboxAction) : string :=
  match a with OA_sent => "sent" | OA_failed => "failed" | OA_retry | OA_auth_failed => "retry" end.

(** A round settles its delivery: when the worker still holds the attempt, the
    mark changes exactly that event, to the status of the decision, and leaves its
    attempt number; a retry is due after the delay.  When the delay raises nothing
    is marked. *)
Theorem mark_decision_settles d decision now t r :
  get_row (od_event_id d) t = Some r -> oe_status r = "processing" -> oe_attempts r = od_attempt d ->
  match mark_decision s d decision now t with
  | (t', Ok _) =>
      exists r', get_row (od_event_id d) t' = Some r' /\ oe_status r' = action_status (dd_action decision)
        /\ oe_attempts r' = oe_attempts r
        /\ (dd_action decision = OA_sent -> oe_delivered_at r' = Some now)
        /\ (action_status (dd_action decision) = "retry" -> exists delay,
              retry_delay s (od_attempt d) = Ok delay /\ oe_available_at r' = (now + delay)%Z)
        /\ forall i, i <> od_event_id d -> get_row i t' = get_row i t
  | (t', Raise e) => t' = t /\ retry_delay s (od_attempt d) = Raise e
  end.
Proof.
  intros Hr Hs Ha.
  assert (Hset : forall st av de er,
    (transition d st av de er t).2 = set_row (od_event_id d) (fun r => with_transition r st av de (stored_error er)) t).
  { intros. unfold transition. apply settle_table, settle_true. exists r. split; [done|].
    split; [by apply bool_decide_eq_true|done]. }
  assert (Hget : forall st av de er i, get_row i (transition d st av de er t).2
    = (fun r => if decide (oe_event_id r = od_event_id d)
                then with_transition r st av de (stored_error er) else r) <$> get_row i t).
  { intros. rewrite Hset, get_set_row by done. done. }
  pose proof (get_row_Some _ _ _ Hr) as [_ Hi]. simpl in Hi.
  assert (Hother : forall st av de er i, i <> od_event_id d ->
    get_row i (transition d st av de er t).2 = get_row i t).
  { intros st av de er i Hne. rewrite Hget. destruct (get_row i t) as [u|] eqn:Eu; [|done]. simpl.
    apply get_row_Some in Eu as [_ Hu]. simpl in Hu. by rewrite decide_False by congruence. }
  unfold mark_decision, mark_sent, mark_retry, mark_failed.
  destruct (dd_action decision) eqn:Ed; try destruct (retry_delay s (od_attempt d)) as [delay|e] eqn:Er;
    try (split; done).
  all: rewrite Hget, Hr; simpl; rewrite decide_True by done; eexists; split; [done|]; simpl.
  all: split; [done|]; split; [done|]; split; [by intros|]; split; [|by apply Hother].
  all: first [by intros [=] | intros _; by exists delay].
Qed.

(** The counters of a cycle. *)
Definition balanced (r : DeliveryCycleResult) : Prop :=
  dr_claimed r = dr_sent r + dr_retried r + dr_failed r.

Lemma run_rounds_counts env fuel k acc t r : balanced acc ->
  (run_rounds s env fuel k acc t).2 = Ok r ->
  balanced r /\ dr_claimed acc <= dr_claimed r <= dr_claimed acc + fuel /\
  (dr_authentication_failed r = true -> dr_authentication_failed acc = true \/ 1 <= dr_retried r).
Proof.
  revert k acc t. induction fuel as [|fuel IH]; intros k acc t Hb; cbn [run_rounds].
  { intros [= <-]. split; [done|]. split; [lia|]. by left. }
  destruct (claim_due _ _ _ _ _ _).1 as [|d ds]; [intros [= <-]; split; [done|]; split; [lia|by left]|].
  destruct (mark_decision _ _ _ _ _).2 as [u|e]; [|done].
  generalize (dd_action (deliver (re_post (env k)) d)) as a. intros a.
  assert (Hb' : balanced (count_delivery a acc)) by (unfold balanced in *; destruct a; simpl; lia).
  case_decide as Hauth.
  - intros [= <-]. split; [done|]. split; [simpl; lia|]. intros _. right. rewrite Hauth. simpl. lia.
  - intros Hr. destruct (IH _ _ _ Hb' Hr) as (H1 & H2 & H3). split; [done|]. simpl in H2. split; [lia|].
    intros [Ht|Ht]%H3; [|by right]. simpl in Ht. by apply bool_decide_eq_true in Ht.
Qed.

(** A cycle accounts for its deliveries: at most a batch is claimed, every
    claimed delivery is counted once as sent, retried or failed, and the flag that
    stops the dispatcher is up only after an event was put back for a retry. *)
Theorem run_once_accounts env t r : (run_once s env t).2 = Ok r ->
  dr_claimed r = dr_sent r + dr_retried r + dr_failed r /\ dr_claimed r <= os_batch_size s /\
  (dr_authentication_failed r = true -> 1 <= dr_retried r).
Proof.
  intros Hr. destruct (run_rounds_counts env _ _ no_deliveries _ _ eq_refl Hr) as (Hb & Hc & Ha).
  split; [exact Hb|]. simpl in Hc. split; [lia|]. intros [Hf|Hf]%Ha; [discriminate Hf|exact Hf].
Qed.

(** An event that has been tried 1024 times stops its cycle: if the oldest due
    event has 1024 attempts behind it and its delivery asks for another retry, the
    cycle ends with [OverflowError], nothing after it is delivered, and the event is
    left in processing until its lease runs out, when the same happens again. *)
Theorem exhausted_event_aborts_cycle env t r :
  unique_ids t -> 1 <= os_batch_size s -> re_others (env 0) = [] ->
  chosen 1 (fun r => negb (memb (oe_event_type r) (blocked_event_types s))) (re_locked (env 0))
    (re_claimed_at (env 0)) t = [r] ->
  1024 <= oe_attempts r ->
  (let d := delivery_of (claim_record (re_claimed_at (env 0) + os_lease s) r) in
   dd_action (deliver (re_post (env 0)) d) = OA_retry) ->
  let out := run_once s env t in
  out.2 = Raise OverflowError /\
  get_row (oe_event_id r) out.1 = Some (claim_record (re_claimed_at (env 0) + os_lease s) r).
Proof.
  intros Hu Hbatch Hothers Hc Ha Hd out. unfold out, run_once.
  destruct (os_batch_size s) as [|b]; [lia|]. cbn [run_rounds].
  set (claimed := claim_due (os_lease s) 1 (re_claimed_at (env 0)) (blocked_event_types s)
                    (re_locked (env 0)) t).
  assert (H1 : claimed.1 = [delivery_of (claim_record (re_claimed_at (env 0) + os_lease s) r)]).
  { unfold claimed, claim_due, claim. by rewrite Hc. }
  rewrite H1, Hothers. cbn [run_history snd fst].
  set (d := delivery_of (claim_record (re_claimed_at (env 0) + os_lease s) r)) in *.
  assert (Hmark : forall now t', mark_decision s d (deliver (re_post (env 0)) d) now t' = (t', Raise OverflowError)).
  { intros. unfold mark_decision. rewrite Hd, retry_delay_raises; [done|].
    cbn [d od_attempt delivery_of claim_record oe_attempts]. lia. }
  rewrite Hmark. cbn [fst snd]. split; [done|].
  assert (Hin : r ∈ chosen 1 (fun r => negb (memb (oe_event_type r) (blocked_event_types s)))
    (re_locked (env 0)) (re_claimed_at (env 0)) t) by (rewrite Hc; left).
  unfold claimed, claim_due. cbn [snd]. rewrite get_row_claim, Hc.
  apply chosen_in in Hin as [Hin _]. change (oe_event_id r) with (row_id r).
  rewrite (get_row_unique t r Hu Hin). simpl. by rewrite (proj2 (memb_spec _ _)) by left.
Qed.
End cycles.
