(* ===== verification/Profile.v ===== *)
(** Learner profiles: the skill metrics, the level a session starts at and the
    update after a completed task ([SkillProfile], [LearnerProfile] of
    [src/mormi_api/schemas.py], [select_start_level], [update_skill_profile] of
    [src/mormi_api/engine.py], the profile table of [src/mormi_api/repository.py]).

    Floats are IEEE binary64 values of the Standard Library's specification; a
    capped metric is the integer 1 in the process, [1.0] once stored. *)

From Stdlib Require Import SpecFloat.
From S2P Require Import Prelude.
From S2P Require Import Schemas.

(** * Binary64 *)

Definition float_add : spec_float -> spec_float -> spec_float := SFadd 53 1024.
Definition float_half : spec_float := S754_finite false 4503599627370496 (-53).
Definition float_one : spec_float := S754_finite false 4503599627370496 (-52).
Definition float_0_08 : spec_float := S754_finite false 5764607523034235 (-56).
Definition float_0_02 : spec_float := S754_finite false 5764607523034235 (-58).
Definition float_0_06 : spec_float := S754_finite false 8646911284551352 (-57).

(** [min(1, x)]: [x] where [x < 1], else 1. *)
Definition capped (x : spec_float) : spec_float := if SFltb x float_one then x else float_one.

(** * Profiles *)

Record SkillProfile := {
  sk_skill_id : string;
  highest_stable_expression_level : ExpressionLevel;
  h0_success_streak : Z;
  recent_max_hint : HintLevel;
  frequent_hint_types : list string;
  concept_mastery : spec_float;
  expression_independence : spec_float;
  last_bottleneck : string
}.

Definition new_skill_profile (skill_id : string) : SkillProfile := {|
  sk_skill_id := skill_id; highest_stable_expression_level := L2; h0_success_streak := 0;
  recent_max_hint := H0; frequent_hint_types := []; concept_mastery := float_half;
  expression_independence := float_half; last_bottleneck := "unknown" |}.

Definition with_stable_level (s : SkillProfile) (l : ExpressionLevel) : SkillProfile := {|
  sk_skill_id := sk_skill_id s; highest_stable_expression_level := l;
  h0_success_streak := h0_success_streak s; recent_max_hint := recent_max_hint s;
  frequent_hint_types := frequent_hint_types s; concept_mastery := concept_mastery s;
  expression_independence := expression_independence s; last_bottleneck := last_bottleneck s |}.

Record LearnerProfile := {
  lp_learner_id : Z;
  lp_skills : gmap string SkillProfile;
  lp_updated_at : Z
}.

Definition new_profile (learner_id now : Z) : LearnerProfile :=
  {| lp_learner_id := learner_id; lp_skills := ∅; lp_updated_at := now |}.

(** [profile.skills.get(skill_id) or SkillProfile(...)] *)
Definition skill_of (p : LearnerProfile) (skill_id : string) : SkillProfile :=
  default (new_skill_profile skill_id) (lp_skills p !! skill_id).

Definition with_skill (p : LearnerProfile) (skill_id : string) (s : SkillProfile) : LearnerProfile := {|
  lp_learner_id := lp_learner_id p; lp_skills := <[skill_id := s]> (lp_skills p);
  lp_updated_at := lp_updated_at p |}.

Definition with_updated_at (p : LearnerProfile) (now : Z) : LearnerProfile := {|
  lp_learner_id := lp_learner_id p; lp_skills := lp_skills p; lp_updated_at := now |}.

(** [select_start_level] *)
Definition select_start_level (p : LearnerProfile) (skill_id : string) : ExpressionLevel :=
  match lp_skills p !! skill_id with
  | Some skill => canonical (highest_stable_expression_level skill)
  | None => L4
  end.

(** [update_skill_profile], on the fields of the session it reads. *)
Definition update_skill_profile (p : LearnerProfile) (skill_id : string) (level : ExpressionLevel)
    (task_max_hint : HintLevel) : LearnerProfile :=
  let current := skill_of p skill_id in
  let stable := canonical (highest_stable_expression_level current) in
  let independent := bool_decide (task_max_hint = H0) in
  with_skill p skill_id {|
    sk_skill_id := sk_skill_id current;
    highest_stable_expression_level := stable;
    h0_success_streak := if independent then h0_success_streak current + 1 else 0;
    recent_max_hint := task_max_hint;
    frequent_hint_types := frequent_hint_types current;
    concept_mastery :=
      capped (float_add (concept_mastery current) (if independent then float_0_08 else float_0_02));
    expression_independence :=
      if independent && (expression_rank stable <=? expression_rank level)
      then capped (float_add (expression_independence current) float_0_06)
      else expression_independence current;
    last_bottleneck := "unknown" |}.

(** * The profile table *)

(** [get_profile] and [save_profile], each a transaction of its own. *)
Definition get_profile (t : gmap Z LearnerProfile) (learner_id now : Z) : LearnerProfile :=
  default (new_profile learner_id now) (t !! learner_id).

Definition save_profile (t : gmap Z LearnerProfile) (p : LearnerProfile) (now : Z) : gmap Z LearnerProfile :=
  <[lp_learner_id p := with_updated_at p now]> t.
