(* ===== verification/LadderAnalysis.v ===== *)
(** The recommendation of a learner's expression level from the evidence of two
    sessions ([src/mormi_api/ladder_analysis.py], [ladder_model/policy.py],
    [ladder_model/dataset.py] and the predictions of [ladder_model/runtime.py]).

    [correct / attempts] is kept as the exact fraction.  Python divides to the
    nearest double and compares with the doubles of 0.70 and 0.90; two fractions of
    which one is 7/10 or 9/10 differ by at least [1 / (10 * attempts)], so the
    comparisons agree below 10^14 attempts. *)

From Stdlib Require Import QArith.
From S2P Require Import Prelude.
From S2P Require Import PyNum.
From S2P Require Import Schemas.

(** * Levels *)

Inductive LadderLevel := LL_L0 | LL_L2 | LL_L3 | LL_L4.
#[export] Instance LadderLevel_eq_dec : EqDecision LadderLevel.
Proof. solve_decision. Defined.

Definition one_step_lower (l : LadderLevel) : LadderLevel :=
  match l with LL_L4 => LL_L3 | LL_L3 => LL_L2 | LL_L2 => LL_L0 | LL_L0 => LL_L0 end.
Definition one_step_higher (l : LadderLevel) : LadderLevel :=
  match l with LL_L0 => LL_L2 | LL_L2 => LL_L3 | LL_L3 => LL_L4 | LL_L4 => LL_L4 end.
Definition ladder_rank (l : LadderLevel) : nat :=
  match l with LL_L0 => 0 | LL_L2 => 1 | LL_L3 => 2 | LL_L4 => 3 end.

(** [ExpressionLevel(level.value)] *)
Definition expression_of (l : LadderLevel) : ExpressionLevel :=
  match l with LL_L0 => L0 | LL_L2 => L2 | LL_L3 => L3 | LL_L4 => L4 end.

(** [canonical_level] on text; [upper] changes only the letter. *)
Definition canonical_level (value : string) : res LadderLevel :=
  if memb value ["L0"; "l0"] then Ok LL_L0
  else if memb value ["L1"; "l1"; "L2"; "l2"] then Ok LL_L2
  else if memb value ["L3"; "l3"] then Ok LL_L3
  else if memb value ["L4"; "l4"] then Ok LL_L4
  else Raise (ValueError (value ++ " is not a valid LadderLevel")).

Inductive ResponseMode := FREE_TEXT | SHORT_ANSWER | MODE_CHOICE | MODE_NO_RESPONSE | SOLVE_TOGETHER.

Definition rule_recommendation (current : LadderLevel) (mode : ResponseMode) : option LadderLevel :=
  match mode with
  | MODE_NO_RESPONSE => Some (one_step_lower current)
  | MODE_CHOICE => Some LL_L2
  | SOLVE_TOGETHER => Some LL_L0
  | FREE_TEXT | SHORT_ANSWER => None
  end.

(** * Evidence *)

Inductive LadderAction := UPGRADE | MAINTAIN | ADJUST_DOWN | INSUFFICIENT_EVIDENCE.
#[export] Instance LadderAction_eq_dec : EqDecision LadderAction.
Proof. solve_decision. Defined.

Record LevelPerformance := { pf_correct : Z; pf_attempts : Z }.

(** The constructor with [__post_init__]. *)
Definition level_performance (correct attempts : Z) : res LevelPerformance :=
  _ ← raise_if ((attempts <? 0)%Z || (correct <? 0)%Z || (attempts <? correct)%Z)
        (ValueError "invalid level performance");
  Ok {| pf_correct := correct; pf_attempts := attempts |}.

(** [correct / attempts if attempts else None] *)
Definition accuracy (p : LevelPerformance) : option Q :=
  match pf_attempts p with
  | Zpos n => Some (pf_correct p # n)
  | _ => None
  end.

Record LadderEvidence := {
  le_current_level : LadderLevel;
  le_performance_by_level : list (LadderLevel * LevelPerformance);
  le_recent_predictions : list LadderLevel;
  le_valid_speech_count : Z;
  le_lower_rule_evidence_count : Z;
  le_completed_session_count : Z
}.

Definition ladder_evidence (e : LadderEvidence) : res LadderEvidence :=
  _ ← raise_if ((le_valid_speech_count e <? 0)%Z || (le_lower_rule_evidence_count e <? 0)%Z)
        (ValueError "evidence counts must not be negative");
  _ ← raise_if (le_completed_session_count e <? 0)%Z
        (ValueError "completed_session_count must not be negative");
  Ok e.

Record LadderDecision := {
  ld_action : LadderAction;
  ld_current_level : LadderLevel;
  ld_recommended_level : LadderLevel;
  ld_current_accuracy : option Q;
  ld_evidence_count : Z;
  ld_reason_code : string
}.

(** * The decision *)

(** [performance_by_level.get(current, LevelPerformance(0, 0))] *)
Definition performance_at (e : LadderEvidence) : LevelPerformance :=
  match find_first (fun kv => bool_decide (kv.1 = le_current_level e)) (le_performance_by_level e) with
  | Some kv => kv.2
  | None => {| pf_correct := 0; pf_attempts := 0 |}
  end.

(** [predictions[-2:]] *)
Definition last_two {A} (l : list A) : list A := drop (length l - 2) l.

Definition is_lower (current l : LadderLevel) : bool := bool_decide (ladder_rank l < ladder_rank current).

(** Two predictions at least, the last two below the current level. *)
Definition two_recent_lower (e : LadderEvidence) : bool :=
  bool_decide (2 <= length (le_recent_predictions e))
  && forallb (is_lower (le_current_level e)) (last_two (le_recent_predictions e)).

Definition has_lower_evidence (e : LadderEvidence) : bool :=
  existsb (is_lower (le_current_level e)) (le_recent_predictions e)
  || (0 <? le_lower_rule_evidence_count e)%Z.

Definition can_descend_to_l0 (e : LadderEvidence) : bool :=
  negb (bool_decide (le_current_level e = LL_L2)) || (0 <? le_lower_rule_evidence_count e)%Z.

Definition low_accuracy_with_lower (e : LadderEvidence) : bool :=
  match accuracy (performance_at e) with
  | Some a => negb (Qle_bool (7 # 10) a) && has_lower_evidence e && can_descend_to_l0 e
  | None => false
  end.

Definition consecutive_lower (e : LadderEvidence) : bool := two_recent_lower e && can_descend_to_l0 e.

Definition rule_descent (e : LadderEvidence) : bool :=
  bool_decide (le_current_level e = LL_L2) && (2 <=? le_lower_rule_evidence_count e)%Z.

Definition enough_for_upgrade (e : LadderEvidence) : bool :=
  let next := one_step_higher (le_current_level e) in
  negb (memb (le_current_level e) [LL_L4; LL_L0])
  && (2 <=? le_completed_session_count e)%Z
  && (4 <=? pf_attempts (performance_at e))%Z
  && match accuracy (performance_at e) with Some a => Qle_bool (9 # 10) a | None => false end
  && (2 <=? le_valid_speech_count e)%Z
  && bool_decide (2 <= length (le_recent_predictions e))
  && forallb (fun l => negb (is_lower next l)) (last_two (le_recent_predictions e)).

Definition descent_reason (e : LadderEvidence) : string :=
  if consecutive_lower e then "TWO_LOWER_PREDICTIONS"
  else if low_accuracy_with_lower e then "LOW_ACCURACY_WITH_LOWER_EVIDENCE"
  else "REPEATED_RULE_DESCENT".

Definition decision (e : LadderEvidence) (a : LadderAction) (recommended : LadderLevel)
    (reason : string) : LadderDecision := {|
  ld_action := a; ld_current_level := le_current_level e; ld_recommended_level := recommended;
  ld_current_accuracy := accuracy (performance_at e);
  ld_evidence_count := pf_attempts (performance_at e); ld_reason_code := reason |}.

Definition decide_ladder_adjustment (e : LadderEvidence) : LadderDecision :=
  let current := le_current_level e in
  if negb (bool_decide (current = LL_L0))
     && (consecutive_lower e || low_accuracy_with_lower e || rule_descent e) then
    decision e ADJUST_DOWN (one_step_lower current) (descent_reason e)
  else if enough_for_upgrade e then
    decision e UPGRADE (one_step_higher current) "MASTERY_AND_HIGHER_PREDICTIONS"
  else if ((le_completed_session_count e <? 2) || (pf_attempts (performance_at e) <? 4))%Z then
    decision e INSUFFICIENT_EVIDENCE current "INSUFFICIENT_EVIDENCE"
  else decision e MAINTAIN current "MAINTAIN_CURRENT_LEVEL".

(** * The speech model's answers *)

Record RuntimePrediction := { rp_level : LadderLevel; rp_confidence : pynum }.

Record RuntimeBatchResult := {
  rb_available : bool;
  rb_predictions : list RuntimePrediction;
  rb_error_code : option string
}.
