(* ===== verification/LadderJobs.v ===== *)
(** The durable queue of ladder analyses, the worker that fills in their
    recommendations, and their approval into a learner's profile
    ([src/mormi_api/ladder_analysis_repository.py],
    [src/mormi_api/ladder_analysis_worker.py], the errors of an approval
    included).

    Times are whole microseconds.  The speech loader and the speech model are
    parameters.  A stored decision is kept as the record whose JSON the worker
    writes. *)

From Stdlib Require Import QArith.
From S2P Require Import Prelude.
From S2P Require Import PyStr.
From S2P Require Import PyNum.
From S2P Require Import Json.
From S2P Require Import Schemas.
From S2P Require Import Profile.
From S2P Require Import Lease.
From S2P Require Import LadderAnalysis.

(** * The table *)

(** The payload [run_once] stores: the decision and the last two predictions. *)
Record DecisionPayload := {
  dp_decision : LadderDecision;
  dp_recent_predictions : list RuntimePrediction
}.

Record LadderAnalysisRecord := {
  la_analysis_id : string;
  la_idempotency_key : string;
  la_learner_id : Z;
  la_skill_id : string;
  la_trigger_session_id : string;
  la_session_ids_json : list string;
  la_current_level : LadderLevel;
  la_performance_json : list (LadderLevel * (Z * Z));
  la_lower_rule_evidence_count : Z;
  la_status : string;
  la_attempts : nat;
  la_available_at : Z;
  la_decision_json : option DecisionPayload;
  la_model_version : option string;
  la_recommendation_version : Z;
  la_error_code : option string;
  la_approved_at : option Z;
  la_completed_at : option Z;
  la_created_at : Z;
  la_updated_at : Z
}.

(** The columns the operations write. *)
Definition with_run (r : LadderAnalysisRecord) (status : string) (attempts : nat)
    (available_at : Z) (error_code : option string) (updated_at : Z) : LadderAnalysisRecord := {|
  la_analysis_id := la_analysis_id r; la_idempotency_key := la_idempotency_key r;
  la_learner_id := la_learner_id r; la_skill_id := la_skill_id r;
  la_trigger_session_id := la_trigger_session_id r; la_session_ids_json := la_session_ids_json r;
  la_current_level := la_current_level r; la_performance_json := la_performance_json r;
  la_lower_rule_evidence_count := la_lower_rule_evidence_count r;
  la_status := status; la_attempts := attempts; la_available_at := available_at;
  la_decision_json := la_decision_json r; la_model_version := la_model_version r;
  la_recommendation_version := la_recommendation_version r; la_error_code := error_code;
  la_approved_at := la_approved_at r; la_completed_at := la_completed_at r;
  la_created_at := la_created_at r; la_updated_at := updated_at |}.

Definition with_result (r : LadderAnalysisRecord) (d : DecisionPayload) (model_version : string)
    (completed_at : Z) : LadderAnalysisRecord := {|
  la_analysis_id := la_analysis_id r; la_idempotency_key := la_idempotency_key r;
  la_learner_id := la_learner_id r; la_skill_id := la_skill_id r;
  la_trigger_session_id := la_trigger_session_id r; la_session_ids_json := la_session_ids_json r;
  la_current_level := la_current_level r; la_performance_json := la_performance_json r;
  la_lower_rule_evidence_count := la_lower_rule_evidence_count r;
  la_status := "completed"; la_attempts := la_attempts r; la_available_at := completed_at;
  la_decision_json := Some d; la_model_version := Some model_version;
  la_recommendation_version := la_recommendation_version r; la_error_code := la_error_code r;
  la_approved_at := la_approved_at r; la_completed_at := Some completed_at;
  la_created_at := la_created_at r; la_updated_at := completed_at |}.

Definition with_approval (r : LadderAnalysisRecord) (approved_at : Z) : LadderAnalysisRecord := {|
  la_analysis_id := la_analysis_id r; la_idempotency_key := la_idempotency_key r;
  la_learner_id := la_learner_id r; la_skill_id := la_skill_id r;
  la_trigger_session_id := la_trigger_session_id r; la_session_ids_json := la_session_ids_json r;
  la_current_level := la_current_level r; la_performance_json := la_performance_json r;
  la_lower_rule_evidence_count := la_lower_rule_evidence_count r;
  la_status := la_status r; la_attempts := la_attempts r; la_available_at := la_available_at r;
  la_decision_json := la_decision_json r; la_model_version := la_model_version r;
  la_recommendation_version := la_recommendation_version r; la_error_code := la_error_code r;
  la_approved_at := Some approved_at; la_completed_at := la_completed_at r;
  la_created_at := la_created_at r; la_updated_at := approved_at |}.

(** [ORDER BY available_at, created_at] *)
Definition analysis_before (r s : LadderAnalysisRecord) : bool :=
  if (la_available_at r =? la_available_at s)%Z then (la_created_at r <=? la_created_at s)%Z
  else (la_available_at r <? la_available_at s)%Z.

#[export] Instance analysis_row : LeasedRow LadderAnalysisRecord := {|
  row_id := la_analysis_id;
  row_open r := memb (la_status r) ["pending"; "running"];
  row_running r := bool_decide (la_status r = "running");
  row_attempts := la_attempts;
  row_available := la_available_at;
  row_before := analysis_before;
  row_claim now until r := with_run r "running" (S (la_attempts r)) until None now
|}.

(** * Jobs *)

Record LadderAnalysisJob := {
  lj_analysis_id : string;
  lj_learner_id : Z;
  lj_skill_id : string;
  lj_trigger_session_id : string;
  lj_session_ids : list string;
  lj_current_level : LadderLevel;
  lj_performance_by_level : list (LadderLevel * (Z * Z));
  lj_lower_rule_evidence_count : Z;
  lj_status : string;
  lj_attempt : nat;
  lj_available_at : Z;
  lj_decision : option DecisionPayload;
  lj_model_version : option string;
  lj_recommendation_version : Z;
  lj_error_code : option string;
  lj_approved_at : option Z;
  lj_created_at : Z
}.

(** [_job] *)
Definition job_of (r : LadderAnalysisRecord) : LadderAnalysisJob := {|
  lj_analysis_id := la_analysis_id r; lj_learner_id := la_learner_id r; lj_skill_id := la_skill_id r;
  lj_trigger_session_id := la_trigger_session_id r; lj_session_ids := la_session_ids_json r;
  lj_current_level := la_current_level r; lj_performance_by_level := la_performance_json r;
  lj_lower_rule_evidence_count := la_lower_rule_evidence_count r; lj_status := la_status r;
  lj_attempt := la_attempts r; lj_available_at := la_available_at r; lj_decision := la_decision_json r;
  lj_model_version := la_model_version r; lj_recommendation_version := la_recommendation_version r;
  lj_error_code := la_error_code r; lj_approved_at := la_approved_at r; lj_created_at := la_created_at r |}.

Record LadderAnalysisRequest := {
  lq_idempotency_key : string;
  lq_learner_id : Z;
  lq_skill_id : string;
  lq_trigger_session_id : string;
  lq_session_ids : string * string;
  lq_current_level : LadderLevel;
  lq_performance_by_level : list (LadderLevel * (Z * Z));
  lq_lower_rule_evidence_count : Z
}.

(** [_analysis_id]: 24 hex digits of the key's digest. *)
Definition analysis_id `{Digest} (key : string) : string :=
  "ladder_" ++ utf8_encode (take 24 (utf8_decode (hexdigest key))).

Definition pending_record `{Digest} (q : LadderAnalysisRequest) (now : Z) : LadderAnalysisRecord := {|
  la_analysis_id := analysis_id (lq_idempotency_key q); la_idempotency_key := lq_idempotency_key q;
  la_learner_id := lq_learner_id q; la_skill_id := lq_skill_id q;
  la_trigger_session_id := lq_trigger_session_id q;
  la_session_ids_json := [(lq_session_ids q).1; (lq_session_ids q).2];
  la_current_level := lq_current_level q; la_performance_json := lq_performance_by_level q;
  la_lower_rule_evidence_count := lq_lower_rule_evidence_count q;
  la_status := "pending"; la_attempts := 0; la_available_at := now; la_decision_json := None;
  la_model_version := None; la_recommendation_version := 1; la_error_code := None;
  la_approved_at := None; la_completed_at := None; la_created_at := now; la_updated_at := now |}.

(** [enqueue] *)
Definition enqueue `{Digest} (q : LadderAnalysisRequest) (now : Z) (t : list LadderAnalysisRecord)
    : LadderAnalysisJob * list LadderAnalysisRecord :=
  match get_row (analysis_id (lq_idempotency_key q)) t with
  | Some r => (job_of r, t)
  | None => let r := pending_record q now in (job_of r, t ++ [r])
  end.

(** [create_ladder_analysis] of [main.py] behind its request model. *)
Record LadderAnalysisCreateRequest := {
  cr_idempotency_key : string;
  cr_learner_id : Z;
  cr_skill_id : string;
  cr_trigger_session_id : string;
  cr_session_ids : string * string;
  cr_current_level : ExpressionLevel;
  cr_performance_by_level : list (ExpressionLevel * (Z * Z));
  cr_lower_rule_evidence_count : Z
}.

Definition performance_ok (v : Z * Z) : bool := ((0 <=? v.1) && (0 <=? v.2) && (v.1 <=? v.2))%Z.

Definition create_request_ok (b : LadderAnalysisCreateRequest) : bool :=
  bool_decide (1 <= py_len (cr_idempotency_key b) <= 200) && (1 <=? cr_learner_id b)%Z
  && bool_decide (1 <= py_len (cr_skill_id b) <= 100) && bool_decide (1 <= py_len (cr_trigger_session_id b) <= 100)
  && forallb (fun kv => performance_ok kv.2) (cr_performance_by_level b)
  && (0 <=? cr_lower_rule_evidence_count b)%Z.

(** [canonical_level(level.value)] *)
Definition ladder_level_of (l : ExpressionLevel) : LadderLevel :=
  match l with L0 => LL_L0 | L1 | L2 => LL_L2 | L3 => LL_L3 | L4 => LL_L4 end.

Definition canonical_performance (p : list (ExpressionLevel * (Z * Z))) : list (LadderLevel * (Z * Z)) :=
  fold_left (fun d kv => dict_set (ladder_level_of kv.1) kv.2 d) p [].

Definition request_of (b : LadderAnalysisCreateRequest) : LadderAnalysisRequest := {|
  lq_idempotency_key := cr_idempotency_key b; lq_learner_id := cr_learner_id b;
  lq_skill_id := cr_skill_id b; lq_trigger_session_id := cr_trigger_session_id b;
  lq_session_ids := cr_session_ids b; lq_current_level := ladder_level_of (cr_current_level b);
  lq_performance_by_level := canonical_performance (cr_performance_by_level b);
  lq_lower_rule_evidence_count := cr_lower_rule_evidence_count b |}.

Definition create_ladder_analysis `{Digest} (b : LadderAnalysisCreateRequest) (now : Z)
    (t : list LadderAnalysisRecord) : LadderAnalysisJob * list LadderAnalysisRecord :=
  enqueue (request_of b) now t.

Section store.
Variable lease : Z.

(** [claim_pending] *)
Definition claim_pending (limit : nat) (now : Z) (locked : list string)
    (t : list LadderAnalysisRecord) : list LadderAnalysisJob * list LadderAnalysisRecord :=
  let out := claim limit now lease (fun _ => true) locked t in (map job_of out.1, out.2).

Definition complete_job (j : LadderAnalysisJob) (d : DecisionPayload) (model_version : string)
    (now : Z) (t : list LadderAnalysisRecord) : bool * list LadderAnalysisRecord :=
  settle (lj_analysis_id j) (lj_attempt j) (fun r => with_result r d model_version now) t.

Definition failure_codes : list string :=
  ["MODEL_NOT_FOUND"; "MODEL_DEPENDENCY_MISSING"; "MODEL_LOAD_FAILED"; "MODEL_INFERENCE_FAILED";
   "SPEECH_LOAD_FAILED"; "UNEXPECTED_ANALYSIS_ERROR"].
Definition bounded_code (code : string) : string :=
  if memb code failure_codes then code else "UNEXPECTED_ANALYSIS_ERROR".

(** [fail] *)
Definition fail_job (j : LadderAnalysisJob) (code : string) (now : Z) (t : list LadderAnalysisRecord)
    : bool * list LadderAnalysisRecord :=
  settle (lj_analysis_id j) (lj_attempt j)
    (fun r => with_run r "failed" (la_attempts r) now (Some (bounded_code code)) now) t.

Definition requeueable_model_errors : list string :=
  ["MODEL_NOT_FOUND"; "MODEL_DEPENDENCY_MISSING"; "MODEL_LOAD_FAILED"].

(** [requeue_model_failures], on the rows no other transaction holds locked. *)
Definition requeueable (locked : list string) (r : LadderAnalysisRecord) : bool :=
  bool_decide (la_status r = "failed")
  && match la_error_code r with Some c => memb c requeueable_model_errors | None => false end
  && negb (memb (la_analysis_id r) locked).
Definition requeue_record (now : Z) (locked : list string) (r : LadderAnalysisRecord)
    : LadderAnalysisRecord :=
  if requeueable locked r then with_run r "pending" (la_attempts r) now None now else r.
Definition requeue_model_failures (now : Z) (locked : list string) (t : list LadderAnalysisRecord)
    : nat * list LadderAnalysisRecord :=
  (length (List.filter (requeueable locked) t), map (requeue_record now locked) t).
End store.

(** * Approval *)

Definition ladder_ranks (l : ExpressionLevel) : nat :=
  match canonical l with L0 => 0 | L1 | L2 => 1 | L3 => 2 | L4 => 3 end.

(** One step apart. *)
Definition adjacent_levels (a b : ExpressionLevel) : bool :=
  bool_decide (ladder_ranks a = S (ladder_ranks b) \/ ladder_ranks b = S (ladder_ranks a)).

Definition changes_level (a : LadderAction) : bool := memb a [UPGRADE; ADJUST_DOWN].

(** The analyses and the profiles of one database. *)
Record LadderDb := {
  db_analyses : list LadderAnalysisRecord;
  db_profiles : gmap Z LearnerProfile
}.

Definition store_approval (db : LadderDb) (i : string) (now : Z) (profiles : gmap Z LearnerProfile)
    : LadderDb := {|
  db_analyses := set_row i (fun r => with_approval r now) (db_analyses db);
  db_profiles := profiles |}.

(** The checks of [approve] on the stored analysis, up to the two levels. *)
Definition approvable (r : LadderAnalysisRecord) (d : DecisionPayload) : res (ExpressionLevel * ExpressionLevel) :=
  _ ← raise_if (negb (changes_level (ld_action (dp_decision d))))
        (LadderAnalysisNotApplicableError "recommendation does not change level");
  let current := expression_of (ld_current_level (dp_decision d)) in
  let recommended := expression_of (ld_recommended_level (dp_decision d)) in
  _ ← raise_if (negb (adjacent_levels recommended current))
        (LadderAnalysisNotApplicableError "recommendation must move one step");
  Ok (current, recommended).

(** [approve] *)
Definition approve (i : string) (learner_id recommendation_version now : Z) (db : LadderDb)
    : res (LadderAnalysisJob * LadderDb) :=
  r ← or_raise (get_row i (db_analyses db)) (LadderAnalysisNotFoundError i);
  _ ← raise_if (negb (la_learner_id r =? learner_id)%Z) (LadderAnalysisNotFoundError i);
  _ ← raise_if (negb (bool_decide (la_status r = "completed")))
        (LadderAnalysisNotApplicableError "analysis is not completed");
  d ← or_raise (la_decision_json r) (LadderAnalysisNotApplicableError "analysis is not completed");
  _ ← raise_if (negb (la_recommendation_version r =? recommendation_version)%Z)
        (LadderAnalysisStaleError "recommendation version is stale");
  match la_approved_at r with
  | Some _ => Ok (job_of r, db)
  | None =>
      levels ← approvable r d;
      let '(current, recommended) := levels in
      let profile := get_profile (db_profiles db) learner_id now in
      let skill := skill_of profile (la_skill_id r) in
      let stable := canonical (highest_stable_expression_level skill) in
      if decide (stable = canonical recommended) then
        Ok (job_of (with_approval r now), store_approval db i now (db_profiles db))
      else
        _ ← raise_if (negb (bool_decide (stable = canonical current)))
              (LadderAnalysisStaleError "learner stable level has changed");
        let profile' := with_updated_at
          (with_skill profile (la_skill_id r) (with_stable_level skill (canonical recommended))) now in
        Ok (job_of (with_approval r now),
            store_approval db i now (<[learner_id := profile']> (db_profiles db)))
  end.

(** * The worker *)

Record LadderWorkerCycleResult := { wc_claimed : nat; wc_completed : nat; wc_failed : nat }.

(** The surroundings of job [k] of a cycle: the loader, the model with its version,
    the clock at the report and what other processes commit in the meantime. *)
Record job_env := {
  je_load_speech : LadderAnalysisJob -> res (list string);
  je_predict : list string -> RuntimeBatchResult;
  je_model_version : string;
  je_reported_at : Z;
  je_others : list (transaction LadderAnalysisRecord)
}.

(** The evidence of a job and the model's predictions, with the constructors. *)
Definition job_evidence (j : LadderAnalysisJob) (predictions : list RuntimePrediction)
    : res LadderEvidence :=
  performances ← mapR (fun kv => p ← level_performance kv.2.1 kv.2.2; Ok (kv.1, p))
                   (lj_performance_by_level j);
  ladder_evidence {|
    le_current_level := lj_current_level j; le_performance_by_level := performances;
    le_recent_predictions := map rp_level (last_two predictions);
    le_valid_speech_count := Z.of_nat (length predictions);
    le_lower_rule_evidence_count := lj_lower_rule_evidence_count j;
    le_completed_session_count := Z.of_nat (length (lj_session_ids j)) |}.

(** [error_code or "MODEL_INFERENCE_FAILED"] *)
Definition model_failure_code (code : option string) : string :=
  match code with
  | Some c => if bool_decide (c = "") then "MODEL_INFERENCE_FAILED" else c
  | None => "MODEL_INFERENCE_FAILED"
  end.

(** One job of the loop: the table after its report and what is counted. *)
Inductive job_outcome := JobCompleted | JobFailed | JobIgnored.

Definition process_job (e : job_env) (j : LadderAnalysisJob) (t : list LadderAnalysisRecord)
    : list LadderAnalysisRecord * res job_outcome :=
  match je_load_speech e j with
  | Raise _ => ((fail_job j "SPEECH_LOAD_FAILED" (je_reported_at e) t).2, Ok JobFailed)
  | Ok texts =>
      let result := je_predict e texts in
      if negb (rb_available result) then
        ((fail_job j (model_failure_code (rb_error_code result)) (je_reported_at e) t).2, Ok JobFailed)
      else
        match job_evidence j (rb_predictions result) with
        | Raise ex => (t, Raise ex)
        | Ok evidence =>
            let payload := {| dp_decision := decide_ladder_adjustment evidence;
                              dp_recent_predictions := last_two (rb_predictions result) |} in
            let out := complete_job j payload (je_model_version e) (je_reported_at e) t in
            (out.2, Ok (if out.1 then JobCompleted else JobIgnored))
        end
  end.

Definition count_job (o : job_outcome) (r : LadderWorkerCycleResult) : LadderWorkerCycleResult := {|
  wc_claimed := wc_claimed r;
  wc_completed := wc_completed r + match o with JobCompleted => 1 | _ => 0 end;
  wc_failed := wc_failed r + match o with JobFailed => 1 | _ => 0 end |}.

Fixpoint process_jobs (env : nat -> job_env) (k : nat) (jobs : list LadderAnalysisJob)
    (acc : LadderWorkerCycleResult) (t : list LadderAnalysisRecord)
    : list LadderAnalysisRecord * res LadderWorkerCycleResult :=
  match jobs with
  | [] => (t, Ok acc)
  | j :: jobs' =>
      let out := process_job (env k) j (run_history (je_others (env k)) t).2 in
      match out.2 with
      | Raise ex => (out.1, Raise ex)
      | Ok o => process_jobs env (S k) jobs' (count_job o acc) out.1
      end
  end.

(** [run_once] of the worker *)
Definition worker_run_once (lease : Z) (batch_size : nat) (env : nat -> job_env) (now : Z)
    (locked : list string) (t : list LadderAnalysisRecord)
    : list LadderAnalysisRecord * res LadderWorkerCycleResult :=
  let out := claim_pending lease batch_size now locked t in
  process_jobs env 0 out.1
    {| wc_claimed := length out.1; wc_completed := 0; wc_failed := 0 |} out.2.
