(* ===== verification/LadderJobsTheory.v ===== *)
(** The adaptive ladder: when a level change is recommended, that a recommended
    change can be approved, what an approval does to the learner's profile, and
    the histories of the analysis queue. *)

From Stdlib Require Import QArith.
From S2P Require Import Prelude.
From S2P Require Import PyStr.
From S2P Require Import Schemas.
From S2P Require Import Profile.
From S2P Require Import Lease.
From S2P Require Import LeaseTheory.
From S2P Require Import LadderAnalysis.
From S2P Require Import LadderJobs.

#[export] Instance analysis_row_laws : LeasedRowLaws LadderAnalysisRecord.
Proof.
  split; try done.
  - intros r s. simpl. unfold analysis_before. rewrite (Z.eqb_sym (la_available_at s)).
    destruct (Z.eqb_spec (la_available_at r) (la_available_at s)); [rewrite !Z.leb_le|rewrite !Z.ltb_lt]; lia.
  - intros r s t. simpl. unfold analysis_before.
    repeat match goal with |- context [(?a =? ?b)%Z] => destruct (Z.eqb_spec a b) end;
      rewrite ?Z.leb_le, ?Z.ltb_lt; lia.
  - intros r s. simpl. unfold analysis_before. destruct (Z.eqb_spec (la_available_at r) (la_available_at s));
      rewrite ?Z.leb_le, ?Z.ltb_lt; lia.
Qed.

(** * Recommendations *)

(** The correct share of the attempts at the current level, as integers. *)
Lemma accuracy_at_least p a : accuracy p = Some a -> Qle_bool (9 # 10)%Q a = true ->
  (9 * pf_attempts p <= 10 * pf_correct p)%Z.
Proof.
  unfold accuracy. destruct (pf_attempts p) as [|n|n] eqn:E; try done. intros [= <-] Ha%Qle_bool_iff.
  unfold Qle in Ha. simpl in Ha. lia.
Qed.

Lemma accuracy_below p a : accuracy p = Some a -> Qle_bool (7 # 10)%Q a = false ->
  (10 * pf_correct p < 7 * pf_attempts p)%Z.
Proof.
  unfold accuracy. destruct (pf_attempts p) as [|n|n] eqn:E; try done. intros [= <-] Ha.
  assert (~ (7 # 10 <= pf_correct p # n)%Q) as Hn by (intros H%Qle_bool_iff; congruence).
  unfold Qle in Hn. simpl in Hn. lia.
Qed.

(** Why a descent is recommended. *)
Definition descent_grounds (e : LadderEvidence) : Prop :=
  let lower l := ladder_rank l < ladder_rank (le_current_level e) in
  (2 <= length (le_recent_predictions e) /\ Forall lower (last_two (le_recent_predictions e))) \/
  ((10 * pf_correct (performance_at e) < 7 * pf_attempts (performance_at e))%Z /\
     (Exists lower (le_recent_predictions e) \/ (0 < le_lower_rule_evidence_count e)%Z)) \/
  (le_current_level e = LL_L2 /\ (2 <= le_lower_rule_evidence_count e)%Z).

(** Why a rise is recommended. *)
Definition upgrade_grounds (e : LadderEvidence) : Prop :=
  (2 <= le_completed_session_count e)%Z /\ (4 <= pf_attempts (performance_at e))%Z /\
  (9 * pf_attempts (performance_at e) <= 10 * pf_correct (performance_at e))%Z /\
  2 <= length (le_recent_predictions e) /\
  Forall (fun l => ladder_rank (one_step_higher (le_current_level e)) <= ladder_rank l)
    (last_two (le_recent_predictions e)).

Lemma is_lower_iff c l : is_lower c l = true <-> ladder_rank l < ladder_rank c.
Proof. apply bool_decide_eq_true. Qed.

Lemma forallb_lower c ls : forallb (is_lower c) ls = true -> Forall (fun l => ladder_rank l < ladder_rank c) ls.
Proof. intros H%Is_true_true%forallb_True. eapply Forall_impl; [exact H|]. intros l Hl%Is_true_true. by apply is_lower_iff. Qed.

Lemma not_lower_iff c l : negb (is_lower c l) = true <-> ladder_rank c <= ladder_rank l.
Proof. unfold is_lower. rewrite negb_true_iff, bool_decide_eq_false. lia. Qed.

Lemma forallb_not_lower c ls : forallb (fun l => negb (is_lower c l)) ls = true ->
  Forall (fun l => ladder_rank c <= ladder_rank l) ls.
Proof.
  intros H%Is_true_true%forallb_True. eapply Forall_impl; [exact H|]. intros l Hl%Is_true_true.
  by apply not_lower_iff.
Qed.

Lemma existsb_lower c ls : existsb (is_lower c) ls = true -> Exists (fun l => ladder_rank l < ladder_rank c) ls.
Proof. intros (l & Hin & Hl)%existsb_exists. apply Exists_exists. exists l. by rewrite list_elem_of_In, <- is_lower_iff. Qed.

Lemma descends_to_l0 e : can_descend_to_l0 e = true -> le_current_level e = LL_L2 ->
  (0 < le_lower_rule_evidence_count e)%Z.
Proof. unfold can_descend_to_l0. intros H Hl. rewrite Hl in H. simpl in H. by apply Z.ltb_lt. Qed.

Lemma descent_sound e :
  consecutive_lower e || low_accuracy_with_lower e || rule_descent e = true ->
  descent_grounds e /\ (le_current_level e = LL_L2 -> 0 < le_lower_rule_evidence_count e)%Z.
Proof.
  intros [[Hc|Hl]%orb_true_iff|Hr]%orb_true_iff.
  - apply andb_true_iff in Hc as [[Hn Hf]%andb_true_iff Hd]. apply bool_decide_eq_true in Hn.
    apply forallb_lower in Hf. split; [by left|by apply descends_to_l0].
  - unfold low_accuracy_with_lower in Hl. destruct (accuracy _) as [a|] eqn:Ha; [|done].
    apply andb_true_iff in Hl as [[Hq Hev]%andb_true_iff Hd]. apply negb_true_iff in Hq.
    split; [|by apply descends_to_l0]. right. left. split; [by eapply accuracy_below|].
    apply orb_true_iff in Hev as [He|Hz%Z.ltb_lt]; [left; by apply existsb_lower|by right].
  - apply andb_true_iff in Hr as [Hl%bool_decide_eq_true Hz%Z.leb_le].
    split; [by right; right|]. intros _. lia.
Qed.

Lemma upgrade_sound e : enough_for_upgrade e = true ->
  upgrade_grounds e /\ (le_current_level e = LL_L2 \/ le_current_level e = LL_L3).
Proof.
  unfold enough_for_upgrade. rewrite !andb_true_iff.
  intros ((((((Hl & Hs%Z.leb_le) & Ha%Z.leb_le) & Hq) & _) & Hn%bool_decide_eq_true) & Hf%forallb_not_lower).
  split; [|destruct (le_current_level e); simpl in Hl; naive_solver].
  destruct (accuracy _) as [q|] eqn:E; [|done].
  split; [done|]. split; [done|]. split; [by eapply accuracy_at_least|done].
Qed.

(** A decision moves at most one step and has its grounds. *)
Definition justified (e : LadderEvidence) (d : LadderDecision) : Prop :=
  ld_current_level d = le_current_level e /\
  match ld_action d with
  | UPGRADE => upgrade_grounds e /\ ladder_rank (ld_recommended_level d) = S (ladder_rank (le_current_level e))
  | ADJUST_DOWN =>
      descent_grounds e /\ S (ladder_rank (ld_recommended_level d)) = ladder_rank (le_current_level e) /\
      (ld_recommended_level d = LL_L0 -> 0 < le_lower_rule_evidence_count e)%Z
  | MAINTAIN => ld_recommended_level d = le_current_level e /\
      (2 <= le_completed_session_count e)%Z /\ (4 <= pf_attempts (performance_at e))%Z
  | INSUFFICIENT_EVIDENCE => ld_recommended_level d = le_current_level e /\
      (le_completed_session_count e < 2 \/ pf_attempts (performance_at e) < 4)%Z
  end.

Lemma decision_justified e : justified e (decide_ladder_adjustment e).
Proof.
  unfold justified, decide_ladder_adjustment. destruct (negb _ && _) eqn:Ed.
  - apply andb_true_iff in Ed as [Hn Hd%descent_sound]. destruct Hd as [Hg H0].
    cbn. split; [done|]. split; [done|]. apply negb_true_iff, bool_decide_eq_false in Hn.
    destruct (le_current_level e); naive_solver.
  - destruct (enough_for_upgrade e) eqn:Eu.
    + apply upgrade_sound in Eu as [Hg Hl]. cbn. split; [done|]. split; [done|].
      destruct (le_current_level e); naive_solver.
    + clear Ed. destruct (_ || _)%Z eqn:Ei; cbn; (split; [done|]); (split; [done|]); lia.
Qed.

(** The numbers a [LevelPerformance] can hold. *)
Definition valid_performance (e : LadderEvidence) : Prop :=
  (0 <= pf_correct (performance_at e) <= pf_attempts (performance_at e))%Z.

Lemma below_accuracy p : (0 <= pf_correct p)%Z -> (10 * pf_correct p < 7 * pf_attempts p)%Z ->
  exists a, accuracy p = Some a /\ Qle_bool (7 # 10)%Q a = false.
Proof.
  unfold accuracy. intros Hc Hl. destruct (pf_attempts p) as [|n|n] eqn:E; try lia.
  exists (pf_correct p # n). split; [done|]. apply not_true_is_false. intros H%Qle_bool_iff.
  unfold Qle in H. simpl in H. lia.
Qed.

Lemma least_accuracy p : (1 <= pf_attempts p)%Z -> (9 * pf_attempts p <= 10 * pf_correct p)%Z ->
  exists a, accuracy p = Some a /\ Qle_bool (9 # 10)%Q a = true.
Proof.
  unfold accuracy. intros Hc Hl. destruct (pf_attempts p) as [|n|n] eqn:E; try lia.
  exists (pf_correct p # n). split; [done|]. apply Qle_bool_iff. unfold Qle. simpl. lia.
Qed.

Lemma can_descend e : (le_current_level e = LL_L2 -> 0 < le_lower_rule_evidence_count e)%Z ->
  can_descend_to_l0 e = true.
Proof. unfold can_descend_to_l0. intros H. case_bool_decide; [|done]. by apply Z.ltb_lt, H. Qed.

Lemma Forall_forallb {A} (f : A -> bool) (P : A -> Prop) l : (forall x, P x -> f x = true) ->
  Forall P l -> forallb f l = true.
Proof. intros Hf Hl. apply forallb_forall. intros x Hx%list_elem_of_In. rewrite Forall_forall in Hl. auto. Qed.

Lemma descent_complete e : valid_performance e -> descent_grounds e ->
  (le_current_level e = LL_L2 -> 0 < le_lower_rule_evidence_count e)%Z ->
  consecutive_lower e || low_accuracy_with_lower e || rule_descent e = true.
Proof.
  intros [Hv _] Hg Hc%can_descend. rewrite !orb_true_iff.
  destruct Hg as [[Hn Hf]|[[Hl Hs]|[Hl Hr]]]; [left; left|left; right|right].
  - unfold consecutive_lower, two_recent_lower. rewrite Hc, bool_decide_eq_true_2 by done.
    rewrite (Forall_forallb (is_lower (le_current_level e)) _ _ (fun l => proj2 (is_lower_iff _ l)) Hf). done.
  - destruct (below_accuracy _ Hv Hl) as (a & Ha & Hq). unfold low_accuracy_with_lower, has_lower_evidence.
    rewrite Ha, Hq, Hc. simpl. rewrite andb_true_r, orb_true_iff, Z.ltb_lt. destruct Hs as [Hs|Hs]; [left|by right].
    apply existsb_exists. apply Exists_exists in Hs as (l & Hin & Hl'). exists l.
    by rewrite <- list_elem_of_In, is_lower_iff.
  - unfold rule_descent. rewrite Hl, bool_decide_eq_true_2 by done. by apply Z.leb_le.
Qed.

Lemma upgrade_complete e : upgrade_grounds e -> (2 <= le_valid_speech_count e)%Z ->
  le_current_level e ∈ [LL_L2; LL_L3] -> enough_for_upgrade e = true.
Proof.
  intros (Hs & Ha & Hq & Hn & Hf) Hv Hl. unfold enough_for_upgrade.
  destruct (least_accuracy (performance_at e)) as (a & -> & ->); [lia|done|].
  rewrite !(proj2 (Z.leb_le _ _)), bool_decide_eq_true_2 by done.
  rewrite (Forall_forallb _ _ _ (fun l => proj2 (not_lower_iff _ l)) Hf).
  rewrite !andb_true_r. by apply elem_of_cons in Hl as [Hl|Hl%list_elem_of_singleton]; rewrite Hl.
Qed.

(** (C38) The recommendation policy, exactly.  A descent is recommended iff the level
    is above L0 and there are grounds: two predictions below, or under 70% together
    with a sign of a lower level, or repeated rule evidence at L2 -- and onto L0
    only with an observed descent.  Otherwise a rise is recommended iff the level is
    L2 or L3, two sessions and four attempts at 90% are behind it and the last two
    predictions are at the next level or above.  Either moves one step; anything
    else keeps the level. *)
Theorem recommendation_is_justified e : valid_performance e ->
  let d := decide_ladder_adjustment e in
  let descends := le_current_level e <> LL_L0 /\ descent_grounds e /\
    (le_current_level e = LL_L2 -> 0 < le_lower_rule_evidence_count e)%Z in
  (ld_action d = ADJUST_DOWN <-> descends) /\
  (ld_action d = UPGRADE <-> ~ descends /\ le_current_level e ∈ [LL_L2; LL_L3] /\
     (2 <= le_valid_speech_count e)%Z /\ upgrade_grounds e) /\
  justified e d.
Proof.
  intros Hv d descends.
  assert (Hd : descends <-> negb (bool_decide (le_current_level e = LL_L0))
                 && (consecutive_lower e || low_accuracy_with_lower e || rule_descent e) = true).
  { unfold descends. rewrite andb_true_iff, negb_true_iff, bool_decide_eq_false. split.
    - intros (H0 & Hg & Hc). split; [done|]. by apply descent_complete.
    - intros [H0 Hg]. split; [done|]. by apply descent_sound. }
  split_and!; [| |apply decision_justified]; rewrite Hd; unfold d, decide_ladder_adjustment;
    (destruct (negb _ && _); [naive_solver|]).
  - split; [|done]. destruct (enough_for_upgrade e); [done|]. by destruct (_ || _)%Z.
  - split.
    + destruct (enough_for_upgrade e) eqn:Eu; [|by destruct (_ || _)%Z]. intros _.
      pose proof (upgrade_sound e Eu) as [Hg Hl]. split; [done|]. split; [set_solver|]. split; [|done].
      unfold enough_for_upgrade in Eu. rewrite !andb_true_iff in Eu. destruct Eu as [[[_ Hs] _] _]. lia.
    + intros (_ & Hl & Hs & Hg). by rewrite upgrade_complete.
Qed.

(** * Approval *)

(** A decided change passes the checks of the approval. *)
Lemma decided_change_approvable e r predictions :
  let d := decide_ladder_adjustment e in
  changes_level (ld_action d) = true ->
  approvable r {| dp_decision := d; dp_recent_predictions := predictions |}
    = Ok (expression_of (ld_current_level d), expression_of (ld_recommended_level d)).
Proof.
  intros d Hc. unfold approvable. cbn [dp_decision]. rewrite Hc. cbn [negb raise_if].
  destruct (decision_justified e) as [Hl Ha]. fold d in Hl, Ha. rewrite Hl.
  assert (adjacent_levels (expression_of (ld_recommended_level d)) (expression_of (le_current_level e)) = true) as ->;
    [|done].
  unfold adjacent_levels. apply bool_decide_eq_true.
  destruct (ld_action d); [|done| |done].
  - destruct Ha as [_ Ha]. destruct (ld_recommended_level d), (le_current_level e); cbv in Ha |- *; lia.
  - destruct Ha as (_ & Ha & _). destruct (ld_recommended_level d), (le_current_level e); cbv in Ha |- *; lia.
Qed.

(** A learner's stable level of a skill. *)
Definition stable_level (profiles : gmap Z LearnerProfile) (learner_id : Z) (skill_id : string)
    : ExpressionLevel :=
  canonical (highest_stable_expression_level (skill_of (get_profile profiles learner_id 0) skill_id)).

Lemma skill_of_get_profile profiles l now s :
  skill_of (get_profile profiles l now) s = skill_of (get_profile profiles l 0) s.
Proof. unfold get_profile, skill_of. by destruct (profiles !! l). Qed.

Lemma with_approval_id now r : la_analysis_id (with_approval r now) = la_analysis_id r.
Proof. done. Qed.

Lemma get_row_approval i j now t :
  get_row j (set_row i (fun r => with_approval r now) t)
    = (fun r => if decide (la_analysis_id r = i) then with_approval r now else r) <$> get_row j t.
Proof. exact (get_set_row i j (fun r => with_approval r now) t (with_approval_id now)). Qed.

(** What a successful approval did. *)
Record approved (i : string) (learner_id version now : Z) (db : LadderDb)
    (r : LadderAnalysisRecord) (d : DecisionPayload) (job : LadderAnalysisJob) (db' : LadderDb) : Prop := {
  ap_row : get_row i (db_analyses db) = Some r;
  ap_learner : la_learner_id r = learner_id;
  ap_completed : la_status r = "completed" /\ la_decision_json r = Some d
                 /\ la_recommendation_version r = version;
  ap_effect :
    match la_approved_at r with
    | Some _ => db' = db /\ job = job_of r
    | None =>
        let current := canonical (expression_of (ld_current_level (dp_decision d))) in
        let recommended := canonical (expression_of (ld_recommended_level (dp_decision d))) in
        job = job_of (with_approval r now) /\
        db_analyses db' = set_row i (fun r => with_approval r now) (db_analyses db) /\
        changes_level (ld_action (dp_decision d)) = true /\
        adjacent_levels recommended current = true /\
        stable_level (db_profiles db) learner_id (la_skill_id r) ∈ [current; recommended] /\
        stable_level (db_profiles db') learner_id (la_skill_id r) = recommended /\
        (forall l s, (l, s) <> (learner_id, la_skill_id r) ->
           skill_of (get_profile (db_profiles db') l 0) s = skill_of (get_profile (db_profiles db) l 0) s) /\
        (forall l, l <> learner_id -> db_profiles db' !! l = db_profiles db !! l)
    end
}.

Lemma canonical_idem l : canonical (canonical l) = canonical l.
Proof. by destruct l. Qed.

Lemma adjacent_canonical a b : adjacent_levels (canonical a) (canonical b) = adjacent_levels a b.
Proof. unfold adjacent_levels, ladder_ranks. by rewrite !canonical_idem. Qed.

Lemma approvable_Ok r d current recommended : approvable r d = Ok (current, recommended) ->
  changes_level (ld_action (dp_decision d)) = true /\
  current = expression_of (ld_current_level (dp_decision d)) /\
  recommended = expression_of (ld_recommended_level (dp_decision d)) /\
  adjacent_levels recommended current = true.
Proof. unfold approvable. intros H. res_inv. by breflect. Qed.

(** The profiles after a level change. *)
Definition raised (profiles : gmap Z LearnerProfile) (learner_id : Z) (skill_id : string)
    (level : ExpressionLevel) (now : Z) : gmap Z LearnerProfile :=
  let p := get_profile profiles learner_id now in
  <[learner_id := with_updated_at (with_skill p skill_id (with_stable_level (skill_of p skill_id) level)) now]>
    profiles.

Lemma raised_skill profiles learner_id skill_id level now l s :
  skill_of (get_profile (raised profiles learner_id skill_id level now) l 0) s =
  let old := skill_of (get_profile profiles l 0) s in
  if decide ((l, s) = (learner_id, skill_id)) then with_stable_level old level else old.
Proof.
  unfold raised, get_profile at 1. destruct (decide (l = learner_id)) as [->|Hl].
  - rewrite lookup_insert_eq. unfold skill_of at 1. simpl.
    destruct (decide (s = skill_id)) as [->|Hs].
    + rewrite lookup_insert_eq, decide_True by done. simpl. by rewrite (skill_of_get_profile _ _ now).
    + rewrite lookup_insert_ne, decide_False by congruence.
      change (default (new_skill_profile s) (lp_skills ?p !! s)) with (skill_of p s).
      apply skill_of_get_profile.
  - rewrite lookup_insert_ne, decide_False by congruence. done.
Qed.

Lemma approve_approved i learner_id version now db job db' :
  approve i learner_id version now db = Ok (job, db') ->
  exists r d, approved i learner_id version now db r d job db'.
Proof.
  unfold approve. intros H. res_inv. rename l into r. breflect. apply Z.eqb_eq in E0, E3.
  exists r, d. split; [done..|].
  destruct (la_approved_at r) eqn:Ea; [by injection H as <- <-|].
  destruct (approvable r d) as [[current recommended]|] eqn:E4; [|done]. cbn [mbind res_bind] in H.
  apply approvable_Ok in E4 as (Hc & -> & -> & Hadj).
  rewrite <- adjacent_canonical in Hadj. cbn zeta.
  pose proof (skill_of_get_profile (db_profiles db) learner_id now (la_skill_id r)) as Hsk.
  case_decide as Hst; res_inv.
  - split; [done|]. split; [done|]. split; [done|]. split; [done|].
    unfold stable_level. cbn [db_profiles store_approval]. rewrite <- Hsk, Hst. split; [by right; left|]. by split.
  - breflect. split; [done|]. split; [done|]. split; [done|]. split; [done|].
    unfold stable_level at 1. rewrite <- Hsk, E4. split; [by left|].
    fold (raised (db_profiles db) (la_learner_id r) (la_skill_id r)
            (canonical (expression_of (ld_recommended_level (dp_decision d)))) now).
    cbn [db_profiles store_approval]. split; [|split].
    + unfold stable_level. rewrite raised_skill, decide_True by done. simpl. apply canonical_idem.
    + intros l s Hls. rewrite raised_skill, decide_False by done. done.
    + intros l Hl. by apply lookup_insert_ne.
Qed.

Lemma approve_again i learner_id version now' db r :
  get_row i (db_analyses db) = Some r -> la_learner_id r = learner_id -> la_status r = "completed" ->
  is_Some (la_decision_json r) -> la_recommendation_version r = version -> is_Some (la_approved_at r) ->
  approve i learner_id version now' db = Ok (job_of r, db).
Proof.
  intros Hr <- Hs [d Hd] <- [a Ha]. unfold approve. rewrite Hr. cbn [or_raise mbind res_bind].
  rewrite Z.eqb_refl, Hs, Hd, Ha. cbn. by rewrite Z.eqb_refl.
Qed.

Lemma approved_row i learner_id version now db r d job db' :
  approved i learner_id version now db r d job db' ->
  exists r', get_row i (db_analyses db') = Some r' /\ job = job_of r' /\ la_learner_id r' = learner_id
    /\ la_status r' = "completed" /\ la_decision_json r' = Some d
    /\ la_recommendation_version r' = version /\ is_Some (la_approved_at r').
Proof.
  intros [Hr Hl (Hs & Hd & Hv) He]. pose proof (get_row_Some _ _ _ Hr) as [_ Hi]. simpl in Hi.
  destruct (la_approved_at r) eqn:Ea.
  - destruct He as [-> ->]. exists r. by rewrite Ea.
  - destruct He as (-> & Ht & _). exists (with_approval r now).
    rewrite Ht, get_row_approval, Hr. simpl. by rewrite decide_True.
Qed.

(** (C37) An approval moves one learner's one skill by one step.  It is accepted only
    for that learner's completed analysis at the current version, when the stable
    level is where the recommendation starts (or already where it leads); then the
    stable level is the recommended one, every other skill and learner is as
    before, and approving again returns the same job and changes nothing. *)
Theorem approval_moves_one_step i learner_id version now db job db' :
  approve i learner_id version now db = Ok (job, db') ->
  (exists r d, approved i learner_id version now db r d job db') /\
  forall now', approve i learner_id version now' db' = Ok (job, db').
Proof.
  intros (r & d & Ha)%approve_approved. split; [by exists r, d|]. intros now'.
  destruct (approved_row _ _ _ _ _ _ _ _ _ Ha) as (r' & Hr & -> & Hl & Hs & Hd & Hv & Hap).
  by eapply approve_again.
Qed.

(** * The worker *)

Lemma complete_job_stored j d v now t : (complete_job j d v now t).1 = true ->
  exists r, get_row (lj_analysis_id j) t = Some r /\
    get_row (lj_analysis_id j) (complete_job j d v now t).2 = Some (with_result r d v now).
Proof.
  unfold complete_job. intros H. rewrite settle_table by done. apply settle_true in H as (r & Hr & _).
  exists r. split; [done|]. rewrite get_set_row, Hr by done. apply get_row_Some in Hr as [_ Hi].
  simpl. by rewrite decide_True.
Qed.

(** The checks decide on a completed analysis that was not approved yet. *)
Lemma approve_checks i db r d now : get_row i (db_analyses db) = Some r ->
  la_status r = "completed" -> la_decision_json r = Some d -> la_approved_at r = None ->
  let outcome := approve i (la_learner_id r) (la_recommendation_version r) now db in
  match approvable r d with
  | Raise x => outcome = Raise x
  | Ok (current, _) =>
      stable_level (db_profiles db) (la_learner_id r) (la_skill_id r) = canonical current ->
      exists job db', outcome = Ok (job, db')
  end.
Proof.
  intros Hr Hs Hd Ha. unfold approve. rewrite Hr. cbn [or_raise mbind res_bind].
  rewrite !Z.eqb_refl, Hs, Hd, Ha. rewrite bool_decide_eq_true_2 by done. cbn [negb raise_if mbind res_bind or_raise].
  destruct (approvable r d) as [[current recommended]|x]; [|done]. cbn [mbind res_bind].
  unfold stable_level. rewrite <- (skill_of_get_profile _ _ now). intros Hst. case_decide; [by eauto|].
  rewrite bool_decide_eq_true_2 by done. cbn. eauto.
Qed.

(** What the worker recommends can be approved.  A job it completes is stored
    with the decision on the job's evidence, and the approval accepts it from the
    learner whose stable level is still where the analysis found it, exactly when it
    changes the level. *)
Theorem worker_recommendation_is_approvable e j t :
  (process_job e j t).2 = Ok JobCompleted ->
  exists evidence r d predictions,
    job_evidence j predictions = Ok evidence /\
    get_row (lj_analysis_id j) (process_job e j t).1 = Some r /\ la_decision_json r = Some d /\
    dp_decision d = decide_ladder_adjustment evidence /\
    forall profiles now, la_approved_at r = None ->
      stable_level profiles (la_learner_id r) (la_skill_id r)
        = canonical (expression_of (ld_current_level (dp_decision d))) ->
      let outcome := approve (lj_analysis_id j) (la_learner_id r) (la_recommendation_version r) now
                       {| db_analyses := (process_job e j t).1; db_profiles := profiles |} in
      if changes_level (ld_action (dp_decision d)) then exists job db', outcome = Ok (job, db')
      else outcome = Raise (LadderAnalysisNotApplicableError "recommendation does not change level").
Proof.
  unfold process_job. destruct (je_load_speech e j) as [texts|]; [|done].
  set (result := je_predict e texts). destruct (rb_available result); [|done]. cbn [negb].
  destruct (job_evidence j (rb_predictions result)) as [evidence|] eqn:Eev; [|done]. cbn [fst snd].
  set (payload := {| dp_decision := _ |}). set (out := complete_job _ _ _ _ _).
  destruct out.1 eqn:Eo; [|done]. intros _.
  destruct (complete_job_stored _ _ _ _ _ Eo) as (r & _ & Hr). fold out in Hr.
  set (r' := with_result r payload (je_model_version e) (je_reported_at e)) in *.
  exists evidence, r', payload, (rb_predictions result). split; [done|]. split; [done|]. split; [done|].
  split; [done|]. intros profiles now Hna Hst. cbn zeta.
  pose proof (approve_checks (lj_analysis_id j) {| db_analyses := out.2; db_profiles := profiles |} r' payload now
                Hr eq_refl eq_refl Hna) as Hc.
  destruct (changes_level _) eqn:Ec.
  - pose proof (decided_change_approvable evidence r' (last_two (rb_predictions result)) Ec) as Ha.
    fold payload in Ha. rewrite Ha in Hc. by apply Hc.
  - unfold approvable in Hc. by rewrite Ec in Hc.
Qed.
