(* ===== verification/LadderHistory.v ===== *)
(** The analysis queue over time: attempts, leases and completed recommendations
    under interleaved store operations, the counts of a worker's cycle, and the
    learner's profile between approvals and completed tasks. *)

From Stdlib Require Import SpecFloat.
From S2P Require Import Prelude.
From S2P Require Import PyStr.
From S2P Require Import Json.
From S2P Require Import Schemas.
From S2P Require Import Profile.
From S2P Require Import Lease.
From S2P Require Import LeaseTheory.
From S2P Require Import LadderAnalysis.
From S2P Require Import LadderJobs.
From S2P Require Import LadderJobsTheory.

(** * Histories of the store *)

(** The operations processes commit on the table; [LApprove] is the stamp of a
    successful approval of a completed analysis. *)
Inductive ladder_op :=
  | LClaim (limit : nat) (now : Z) (locked : list string)
  | LComplete (j : LadderAnalysisJob) (d : DecisionPayload) (model_version : string) (now : Z)
  | LFail (j : LadderAnalysisJob) (code : string) (now : Z)
  | LEnqueue (q : LadderAnalysisRequest) (now : Z)
  | LRequeue (now : Z) (locked : list string)
  | LApprove (i : string) (now : Z).

Section ops.
Context `{Digest}.
Variable lease : Z.
Implicit Types t : list LadderAnalysisRecord.

Definition stamp (i : string) (now : Z) (r : LadderAnalysisRecord) : LadderAnalysisRecord :=
  if decide (la_analysis_id r = i /\ la_status r = "completed") then with_approval r now else r.

Definition op_transaction (o : ladder_op) : transaction LadderAnalysisRecord :=
  match o with
  | LClaim limit now locked => QClaim limit now lease (fun _ => true) locked
  | LComplete j d v now => QSettle (lj_analysis_id j) (lj_attempt j) (fun r => with_result r d v now)
  | LFail j code now => QSettle (lj_analysis_id j) (lj_attempt j)
      (fun r => with_run r "failed" (la_attempts r) now (Some (bounded_code code)) now)
  | LEnqueue q now => QInsert (pending_record q now)
  | LRequeue now locked => QTouch (requeue_record now locked)
  | LApprove i now => QTouch (stamp i now)
  end.

Definition ladder_history (os : list ladder_op) t := run_history (map op_transaction os) t.

Lemma ladder_op_well_formed o : well_formed (op_transaction o).
Proof.
  destruct o; simpl; try done; intros r.
  - unfold requeue_record. destruct (requeueable locked r) eqn:E; [|done].
    unfold requeueable in E. breflect. destruct E as [[E _] _]. split; [done|]. split; [done|].
    split; [|done]. intros Hb. congruence.
  - unfold stamp. case_decide as Hd; [|done]. destruct Hd as [_ Hs]. split; [done|]. split; [done|].
    split; [|done]. intros Hb%bool_decide_eq_true. simpl in *. congruence.
Qed.
Lemma ladder_ops_well_formed os : Forall well_formed (map op_transaction os).
Proof. apply Forall_map, Forall_true, ladder_op_well_formed. Qed.

(** The operations of the store are these transactions. *)
Lemma approve_is_stamp i learner_id version now db job db' : unique_ids (db_analyses db) ->
  approve i learner_id version now db = Ok (job, db') ->
  db_analyses db' = db_analyses db \/
  db_analyses db' = (apply_transaction (op_transaction (LApprove i now)) (db_analyses db)).2.
Proof.
  intros Hu (r & d & Ha)%approve_approved. destruct Ha as [Hr _ (Hs & _) He].
  destruct (la_approved_at r); [left; by destruct He as [-> _]|right].
  destruct He as (_ & -> & _). cbn [op_transaction apply_transaction snd]. unfold set_row, stamp.
  apply map_ext_in. intros s Hin. simpl. destruct (decide (la_analysis_id s = i)) as [Hi|Hi].
  - rewrite decide_True; [done|]. split; [done|]. apply list_elem_of_In in Hin.
    pose proof (get_row_unique _ s Hu Hin) as Hg. simpl in Hg. congruence.
  - rewrite decide_False; [done|]. by intros [? _].
Qed.

Lemma enqueue_is_insert q now t :
  (enqueue q now t).2 = (apply_transaction (op_transaction (LEnqueue q now)) t).2.
Proof. unfold enqueue. simpl. by destruct (get_row _ t). Qed.

(** An analysis is attempted under one lease at a time.  Over any interleaving
    of enqueueing, claims, reports, requeueing and approvals every (analysis,
    attempt) pair is handed out at most once and at most one report of it takes
    effect, the report of the attempt handed out last; and a claimed analysis stays
    as it was claimed until it is reported or its lease runs out. *)
Theorem analysis_attempt_reported_once os t : unique_ids t ->
  let out := ladder_history os t in
  NoDup (handed out.1) /\ NoDup (settled out.1) /\ unique_ids out.2 /\
  (forall o i m n, (i, m) ∈ handed out.1 -> (i, n) ∈ settled (ladder_history [o] out.2).1 -> m <= n) /\
  (forall i r, get_row i t = Some r -> la_status r = "running" ->
     (forall n, (i, n) ∉ settled out.1) ->
     Forall (fun o => match o with LClaim _ now _ => (now < la_available_at r)%Z | _ => True end) os ->
     get_row i out.2 = Some r).
Proof.
  intros Hu out. pose proof (ladder_ops_well_formed os) as Ho. unfold out, ladder_history.
  split; [by apply handed_once|]. split; [by apply settled_once|]. split; [by apply history_ids|]. split.
  - intros o i m n Hm Hn. eapply report_is_latest; [exact Ho|exact Hu|apply ladder_op_well_formed|exact Hm|exact Hn].
  - intros i r Hr Hs Hn Hb. apply lease_exclusive; try done; [simpl; by rewrite Hs|].
    apply Forall_map. eapply Forall_impl; [exact Hb|]. by intros [].
Qed.

(** What a completed analysis keeps. *)
Definition same_result (r s : LadderAnalysisRecord) : Prop :=
  la_status s = "completed" /\ la_learner_id s = la_learner_id r /\ la_skill_id s = la_skill_id r /\
  la_decision_json s = la_decision_json r /\ la_model_version s = la_model_version r /\
  la_recommendation_version s = la_recommendation_version r /\
  (is_Some (la_approved_at r) -> is_Some (la_approved_at s)).

Lemma same_result_step o t i r : unique_ids t -> get_row i t = Some r -> la_status r = "completed" ->
  exists s, get_row i (apply_transaction (op_transaction o) t).2 = Some s /\ same_result r s.
Proof.
  intros Hu Hr Hs. assert (Hrefl : same_result r r) by done.
  assert (Hidle : (forall f, op_transaction o <> QTouch f) ->
            exists s, get_row i (apply_transaction (op_transaction o) t).2 = Some s /\ same_result r s).
  { intros Ht. exists r. split; [|done]. eapply (idle_step _ t i r (ladder_op_well_formed o) Hu Hr); [| |exact Ht];
      simpl; by rewrite Hs. }
  destruct o; try by apply Hidle.
  - cbn [op_transaction apply_transaction snd]. rewrite get_row_map, Hr.
    2: { intros s. apply (ladder_op_well_formed (LRequeue now locked)). }
    exists r. split; [|done]. simpl. f_equal. unfold requeue_record, requeueable. rewrite Hs. done.
  - cbn [op_transaction apply_transaction snd]. rewrite get_row_map, Hr.
    2: { intros s. apply (ladder_op_well_formed (LApprove i0 now)). }
    eexists. split; [done|]. unfold stamp. case_decide; [|done]. by repeat split.
Qed.

(** A completed recommendation is settled: no later operation of any process
    changes its decision, its model version or its version number, takes it back
    into the queue or withdraws its approval. *)
Theorem completed_recommendation_is_kept os t i r : unique_ids t ->
  get_row i t = Some r -> la_status r = "completed" ->
  exists s, get_row i (ladder_history os t).2 = Some s /\ same_result r s.
Proof.
  revert t r. induction os as [|o os IH]; intros t r Hu Hr Hs; [by exists r|].
  destruct (same_result_step o t i r Hu Hr Hs) as (s & Hg & Hss).
  destruct (IH (apply_transaction (op_transaction o) t).2 s) as (u & Hgu & Hsu); [|done|apply Hss|].
  { apply transaction_ids; [apply ladder_op_well_formed|done]. }
  exists u. split; [exact Hgu|]. unfold same_result in *. naive_solver congruence.
Qed.

(** Enqueueing twice under one key queues one analysis. *)
Lemma enqueue_twice q q' now now' t :
  lq_idempotency_key q' = lq_idempotency_key q ->
  let first := enqueue q now t in enqueue q' now' first.2 = (first.1, first.2).
Proof.
  intros Hk. cbn zeta. unfold enqueue at 1. rewrite Hk. unfold enqueue.
  destruct (get_row _ t) as [r|] eqn:E; cbn [fst snd]; [by rewrite E|].
  assert (get_row (analysis_id (lq_idempotency_key q)) (t ++ [pending_record q now])
          = Some (pending_record q now)) as ->; [|done].
  unfold get_row in *. induction t as [|s t IH]; simpl in *.
  - by rewrite bool_decide_eq_true_2.
  - case_bool_decide; [done|by apply IH].
Qed.
End ops.

(** * The worker's cycle *)

Definition stored_performance_ok (p : list (LadderLevel * (Z * Z))) : Prop :=
  Forall (fun kv => performance_ok kv.2 = true) p.

(** What the request model admits. *)
Record valid_analysis (r : LadderAnalysisRecord) : Prop := {
  va_performance : stored_performance_ok (la_performance_json r);
  va_rule : (0 <= la_lower_rule_evidence_count r)%Z
}.

Lemma dict_set_ok (k : LadderLevel) v d : performance_ok v = true -> stored_performance_ok d ->
  stored_performance_ok (dict_set k v d).
Proof.
  intros Hv Hd. induction Hd as [|kv d Hkv Hd IH]; simpl; [by repeat constructor|].
  case_decide; by constructor.
Qed.

Lemma canonical_performance_ok p : Forall (fun kv => performance_ok kv.2 = true) p ->
  stored_performance_ok (canonical_performance p).
Proof.
  unfold canonical_performance. assert (Hn : stored_performance_ok []) by constructor. revert Hn.
  generalize (@nil (LadderLevel * (Z * Z))) as d. induction p as [|kv p IH]; intros d Hd Hp; [done|].
  apply Forall_cons in Hp as [Hkv Hp]. simpl. apply IH; [|done]. by apply dict_set_ok.
Qed.

Lemma created_valid `{Digest} b now : create_request_ok b = true ->
  valid_analysis (pending_record (request_of b) now).
Proof.
  unfold create_request_ok. rewrite !andb_true_iff. intros [[_ Hp] Hr]. split; simpl; [|lia].
  apply canonical_performance_ok. by apply Forall_forall; intros kv Hkv%list_elem_of_In; apply forallb_forall with (x := kv) in Hp.
Qed.

Lemma job_evidence_total r predictions : valid_analysis r ->
  exists e, job_evidence (job_of r) predictions = Ok e.
Proof.
  intros [Hp Hr]. unfold job_evidence. cbn [lj_performance_by_level job_of].
  assert (exists ps, mapR (fun kv => p ← level_performance kv.2.1 kv.2.2; Ok (kv.1, p)) (la_performance_json r)
            = Ok ps) as [ps ->].
  { apply mapR_total. intros [l [c a]] Hin. apply (proj1 (Forall_forall _ _) Hp) in Hin as Hk.
    unfold performance_ok in Hk. simpl in Hk. unfold level_performance. cbn [fst snd].
    assert (((a <? 0) || (c <? 0) || (a <? c))%Z = false) as -> by lia. by eexists. }
  cbn [mbind res_bind]. unfold ladder_evidence. cbn.
  rewrite !(proj2 (Z.ltb_ge _ _)) by lia. cbn. by eexists.
Qed.

Lemma job_of_claimed r : row_id r = lj_analysis_id (job_of r) /\ row_attempts r = lj_attempt (job_of r).
Proof. done. Qed.

Definition reported (r : LadderAnalysisRecord) : Prop := la_status r ∈ ["completed"; "failed"].

(** A report on a running attempt ends it and leaves the other rows. *)
Lemma report_running j f t r : get_row (lj_analysis_id j) t = Some r -> la_status r = "running" ->
  la_attempts r = lj_attempt j -> (forall s, row_id (f s) = row_id s) -> reported (f r) ->
  let out := settle (lj_analysis_id j) (lj_attempt j) f t in
  out.1 = true /\ (exists s, get_row (lj_analysis_id j) out.2 = Some s /\ reported s) /\
  forall i, i <> lj_analysis_id j -> get_row i out.2 = get_row i t.
Proof.
  intros Hr Hs Ha Hf Hrep out.
  assert (Ht : out.1 = true) by (apply settle_true; exists r; simpl; by rewrite Hs).
  unfold out in *. split; [done|]. rewrite settle_table by done. split.
  - rewrite get_set_row, Hr by done. apply get_row_Some in Hr as [_ Hi]. simpl. rewrite decide_True by done.
    by eexists.
  - intros i Hi. rewrite get_set_row by done. destruct (get_row i t) as [s|] eqn:E; [|done].
    apply get_row_Some in E as [_ E]. simpl in *. by rewrite decide_False by congruence.
Qed.

Lemma process_job_reports e j t r : get_row (lj_analysis_id j) t = Some r -> la_status r = "running" ->
  la_attempts r = lj_attempt j -> valid_analysis r -> j = job_of r ->
  exists o, (process_job e j t).2 = Ok o /\ o <> JobIgnored /\
    (exists s, get_row (lj_analysis_id j) (process_job e j t).1 = Some s /\ reported s) /\
    forall i, i <> lj_analysis_id j -> get_row i (process_job e j t).1 = get_row i t.
Proof.
  intros Hr Hs Ha Hv Hj.
  pose proof (fun f => report_running j f t r Hr Hs Ha) as Hreport. unfold process_job.
  assert (Hfail : forall code, exists o, Ok JobFailed = Ok o /\ o <> JobIgnored /\
    (exists s, get_row (lj_analysis_id j) (fail_job j code (je_reported_at e) t).2 = Some s /\ reported s) /\
    forall i, i <> lj_analysis_id j -> get_row i (fail_job j code (je_reported_at e) t).2 = get_row i t).
  { intros code. exists JobFailed. split; [done|]. split; [done|].
    apply Hreport; [done|]. unfold reported. simpl. set_solver. }
  destruct (je_load_speech e j) as [texts|]; [|by apply Hfail].
  destruct (negb _); [by apply Hfail|].
  destruct (job_evidence_total r (rb_predictions (je_predict e texts)) Hv) as [ev Hev].
  rewrite <- Hj in Hev. rewrite Hev. cbn [fst snd]. set (payload := {| dp_decision := _ |}).
  destruct (Hreport (fun r => with_result r payload (je_model_version e) (je_reported_at e)))
    as (Ht & Hrow & Hother); [done|unfold reported; simpl; set_solver|].
  unfold complete_job. rewrite Ht. exists JobCompleted. done.
Qed.

(** The jobs in hand: distinct, running and as they were claimed. *)
Definition in_hand (t : list LadderAnalysisRecord) (j : LadderAnalysisJob) : Prop :=
  exists r, get_row (lj_analysis_id j) t = Some r /\ la_status r = "running" /\ j = job_of r /\ valid_analysis r.

Lemma process_jobs_settle env k js acc t :
  (forall k, je_others (env k) = []) -> NoDup (map lj_analysis_id js) -> Forall (in_hand t) js ->
  let out := process_jobs env k js acc t in
  exists res, out.2 = Ok res /\ wc_claimed res = wc_claimed acc /\
    wc_completed res + wc_failed res = wc_completed acc + wc_failed acc + length js /\
    (forall j, j ∈ js -> exists s, get_row (lj_analysis_id j) out.1 = Some s /\ reported s) /\
    (forall i, i ∉ map lj_analysis_id js -> get_row i out.1 = get_row i t).
Proof.
  intros Hq. revert k acc t. induction js as [|j js IH]; intros k acc t Hn Hh; cbn [process_jobs].
  { exists acc. split; [done|]. split; [done|]. split; [simpl; lia|]. split; [|done]. by intros j ?%elem_of_nil. }
  apply NoDup_cons in Hn as [Hj Hn]. apply Forall_cons in Hh as [(r & Hr & Hs & Hjr & Hv) Hh].
  rewrite Hq. cbn [run_history snd].
  destruct (process_job_reports (env k) j t r Hr Hs ltac:(by rewrite Hjr) Hv Hjr) as (o & Ho & Hni & Hrow & Hother).
  set (out := process_job (env k) j t) in *. rewrite Ho.
  destruct (IH (S k) (count_job o acc) out.1 Hn) as (res & Hres & Hc & Hsum & Hall & Hrest).
  { apply Forall_forall. intros j' Hj'. rewrite Forall_forall in Hh.
    destruct (Hh j' Hj') as (r' & Hr' & Hrest'). exists r'. split; [|done]. rewrite Hother; [done|].
    intros Heq. apply Hj. rewrite <- Heq. by apply list_elem_of_fmap_2. }
  exists res. split; [done|]. split; [done|]. split; [destruct o; simpl in *; (lia || done)|]. split.
  - intros j' [-> | Hj']%elem_of_cons; [|by apply Hall]. rewrite Hrest by done. done.
  - intros i Hi. apply not_elem_of_cons in Hi as [Hi1 Hi2]. rewrite Hrest by done. by apply Hother.
Qed.

Lemma claimed_in_hand lease limit now locked t : unique_ids t -> Forall valid_analysis t ->
  NoDup (map lj_analysis_id (claim_pending lease limit now locked t).1) /\
  Forall (in_hand (claim_pending lease limit now locked t).2) (claim_pending lease limit now locked t).1.
Proof.
  intros Hu Hv. unfold claim_pending. cbn [fst snd]. split.
  - rewrite map_map. unfold claim. cbn [fst]. rewrite map_map. cbn.
    exact (chosen_unique limit (fun _ => true) locked now t Hu).
  - apply Forall_forall. intros j (r & -> & Hr)%list_elem_of_fmap.
    destruct (claim_handed limit now lease _ locked t r Hu Hr) as (r0 & Hg & -> & _ & Hg').
    eexists. split; [exact Hg'|]. split; [done|]. split; [done|].
    apply get_row_Some in Hg as [Hin _]. rewrite Forall_forall in Hv. by destruct (Hv r0 Hin).
Qed.

(** A cycle of the worker leaves no job behind.  On analyses the request model
    admits, and with nobody else at the claimed rows, the cycle never raises: it
    claims at most a batch and every job it claimed ends completed or failed, each
    counted once -- whatever the speech loader and the model do. *)
Theorem worker_cycle_settles lease batch_size env now locked t :
  unique_ids t -> Forall valid_analysis t -> (forall k, je_others (env k) = []) ->
  let jobs := (claim_pending lease batch_size now locked t).1 in
  let out := worker_run_once lease batch_size env now locked t in
  exists res, out.2 = Ok res /\ wc_claimed res = length jobs /\ length jobs <= batch_size /\
    wc_completed res + wc_failed res = wc_claimed res /\
    (forall j, j ∈ jobs -> exists s, get_row (lj_analysis_id j) out.1 = Some s /\ reported s).
Proof.
  intros Hu Hv Hq jobs out. destruct (claimed_in_hand lease batch_size now locked t Hu Hv) as [Hn Hh].
  destruct (process_jobs_settle env 0 jobs {| wc_claimed := length jobs; wc_completed := 0; wc_failed := 0 |}
              (claim_pending lease batch_size now locked t).2 Hq Hn Hh) as (res & Hres & Hc & Hsum & Hall & _).
  exists res. split; [exact Hres|]. split; [done|]. split.
  - unfold jobs, claim_pending, claim. cbn [fst]. rewrite !length_map.
    by apply (chosen_serves batch_size (fun _ => true) locked now t).
  - split; [simpl in *; lia|exact Hall].
Qed.

(** * The learner's profile *)

Lemma capped_le x : SFleb (capped x) float_one = true.
Proof.
  assert (H1 : SFleb float_one float_one = true) by (vm_compute; done).
  unfold capped. destruct (SFltb x float_one) eqn:E; [|done].
  unfold SFltb in E. unfold SFleb. by destruct (SFcompare x float_one) as [[]|].
Qed.

Lemma skill_of_with_skill p i s : skill_of (with_skill p i s) i = s.
Proof. unfold skill_of. simpl. by rewrite lookup_insert_eq. Qed.

Lemma start_level_of_skill p i : is_Some (lp_skills p !! i) ->
  select_start_level p i = canonical (highest_stable_expression_level (skill_of p i)).
Proof. unfold select_start_level, skill_of. by intros [s ->]. Qed.

(** A completed task counts for one skill and never changes its stable level; a
    learner without a profile gets one, at L2.  Hints reset the streak, the two
    metrics never exceed 1, and the expression metric moves only without hints at
    the stable level or above. *)
Theorem completed_task_keeps_level p skill_id level hint :
  let p' := update_skill_profile p skill_id level hint in
  let s := skill_of p skill_id in let s' := skill_of p' skill_id in
  select_start_level p' skill_id = canonical (highest_stable_expression_level s) /\
  (is_Some (lp_skills p !! skill_id) -> select_start_level p' skill_id = select_start_level p skill_id) /\
  (lp_skills p !! skill_id = None -> select_start_level p skill_id = L4 /\ select_start_level p' skill_id = L2) /\
  (forall i, i <> skill_id -> lp_skills p' !! i = lp_skills p !! i) /\
  h0_success_streak s' = (if bool_decide (hint = H0) then h0_success_streak s + 1 else 0)%Z /\
  SFleb (concept_mastery s') float_one = true /\
  (expression_independence s' = expression_independence s \/
   hint = H0 /\ expression_rank (canonical (highest_stable_expression_level s)) <= expression_rank level /\
   SFleb (expression_independence s') float_one = true).
Proof.
  intros p' s s'.
  assert (Hlevel : select_start_level p' skill_id = canonical (highest_stable_expression_level s)).
  { unfold p', update_skill_profile. rewrite start_level_of_skill, skill_of_with_skill; [apply canonical_idem|].
    simpl. by rewrite lookup_insert_eq. }
  assert (Hs' : s' = _) by apply skill_of_with_skill. rewrite Hs'. simpl.
  split; [done|]. split; [by intros Hp; rewrite (start_level_of_skill p)|]. split.
  { intros Hp. rewrite Hlevel. unfold s, skill_of, select_start_level. by rewrite Hp. }
  split; [intros i Hi; by apply lookup_insert_ne|]. split; [done|]. split; [apply capped_le|].
  destruct (bool_decide _ && _) eqn:E; [right|by left].
  breflect. destruct E as [-> E%Nat.leb_le]. split; [done|]. split; [done|]. apply capped_le.
Qed.

Lemma get_saved t p now0 now :
  get_profile (save_profile t p now) (lp_learner_id p) now0 = with_updated_at p now.
Proof. unfold get_profile, save_profile. by rewrite lookup_insert_eq. Qed.
Lemma skill_of_updated_at p now i : skill_of (with_updated_at p now) i = skill_of p i.
Proof. done. Qed.
Lemma update_stable p skill_id level hint i :
  canonical (highest_stable_expression_level (skill_of (update_skill_profile p skill_id level hint) i))
    = canonical (highest_stable_expression_level (skill_of p i)).
Proof.
  unfold update_skill_profile. destruct (decide (i = skill_id)) as [->|Hi].
  - rewrite skill_of_with_skill. apply canonical_idem.
  - unfold skill_of at 1. simpl. by rewrite lookup_insert_ne.
Qed.

(** (C39) A turn can undo an approval.  [get_profile] and [save_profile] are two
    transactions: a turn that read the profile before an approval and saves it
    after puts the stable level back where it was, and as the analysis stays
    approved, approving again does not repair it. *)
Theorem profile_save_undoes_approval i learner_id version now db job db' t0 t1 now' skill_id level hint r :
  approve i learner_id version now db = Ok (job, db') ->
  get_row i (db_analyses db) = Some r ->
  lp_learner_id (get_profile (db_profiles db) learner_id t0) = learner_id ->
  let read := get_profile (db_profiles db) learner_id t0 in
  let saved := {| db_analyses := db_analyses db';
                  db_profiles := save_profile (db_profiles db')
                                   (update_skill_profile read skill_id level hint) t1 |} in
  stable_level (db_profiles saved) learner_id (la_skill_id r)
    = stable_level (db_profiles db) learner_id (la_skill_id r) /\
  approve i learner_id version now' saved = Ok (job, saved).
Proof.
  intros (r' & d & Ha)%approve_approved Hr Hid read saved.
  destruct (approved_row _ _ _ _ _ _ _ _ _ Ha) as (r1 & Hr1 & -> & Hl & Hs & Hd & Hv & Hap). split.
  - unfold stable_level, saved. cbn [db_profiles]. rewrite <- Hid at 1.
    change (lp_learner_id (get_profile (db_profiles db) learner_id t0))
      with (lp_learner_id (update_skill_profile read skill_id level hint)).
    rewrite get_saved, skill_of_updated_at, update_stable. unfold read. by rewrite skill_of_get_profile.
  - eapply approve_again; try done.
Qed.
