(* ===== verification/QueueWitnesses.v ===== *)
(** The properties of the outbox and of the ladder analyses at concrete tables:
    one observation event under delivery, one event tried too often, and one
    analysis from its creation to its approval. *)

From Stdlib Require Import QArith.
From S2P Require Import Prelude.
From S2P Require Import PyStr.
From S2P Require Import PyNum.
From S2P Require Import Json.
From S2P Require Import Schemas.
From S2P Require Import Profile.
From S2P Require Import Lease.
From S2P Require Import LeaseTheory.
From S2P Require Import Outbox.
From S2P Require Import OutboxTheory.
From S2P Require Import LadderAnalysis.
From S2P Require Import LadderJobs.
From S2P Require Import LadderJobsTheory.
From S2P Require Import LadderHistory.
Local Open Scope nat_scope.

(** * The outbox *)

#[local] Instance any_collation : Collation := fun _ _ => true.
#[local] Instance any_collation_laws : CollationLaws.
Proof. split; [by left|done]. Defined.

Definition event (id status : string) (attempts : nat) (available : Z) : OutboxEventRecord := {|
  oe_event_id := id; oe_event_type := DIALOGUE_OBSERVATION_EVENT_TYPE; oe_schema_version := 1;
  oe_payload_json := []; oe_status := status; oe_attempts := attempts; oe_available_at := available;
  oe_delivered_at := None; oe_last_error := None; oe_created_at := 0 |}.

Definition two_events : list OutboxEventRecord := [event "e1" "pending" 0 0; event "e2" "processing" 3 9].
Lemma two_events_unique : unique_ids two_events.
Proof. apply uniqueb_spec. reflexivity. Defined.

Definition some_ops : list outbox_op :=
  [OpClaim 1 5 [] []; OpRetry (delivery_of (event "e1" "processing" 1 0)) 4 "http_500" 6; OpClaim 5 20 [] []].

Lemma outbox_attempt_marked_once_witness :
  let out := outbox_history 10 some_ops two_events in
  NoDup (handed out.1) /\ settled out.1 = [("e1", 1)] /\ handed out.1 = [("e1", 1); ("e2", 4); ("e1", 2)].
Proof.
  cbn zeta.
  assert (Ho : Forall op_ok some_ops) by (repeat constructor).
  pose proof (outbox_attempt_marked_once 10 some_ops two_events Ho two_events_unique) as (H1 & _).
  split; [exact H1|]. by vm_compute.
Defined.

Lemma crashed_delivery_is_reclaimed_witness :
  get_row "e2" (outbox_history 10 [OpClaim 1 5 [] []] two_events).2 = Some (event "e2" "processing" 3 9) /\
  exists d, d ∈ (claim_due 10 5 20 [] [] (outbox_history 10 [OpClaim 1 5 [] []] two_events).2).1 /\
    od_event_id d = "e2" /\ od_attempt d = 4.
Proof.
  apply (crashed_delivery_is_reclaimed 10 [OpClaim 1 5 [] []] two_events "e2" (event "e2" "processing" 3 9)).
  - by repeat constructor.
  - apply two_events_unique.
  - reflexivity.
  - reflexivity.
  - repeat constructor; by vm_compute.
  - intros n Hn. vm_compute in Hn. by apply elem_of_nil in Hn.
  - by vm_compute.
  - apply not_elem_of_nil.
  - apply not_elem_of_nil.
  - vm_compute. lia.
Defined.

Lemma finished_event_is_final_witness :
  get_row "e1" (outbox_history 10 some_ops [event "e1" "sent" 2 0]).2 = Some (event "e1" "sent" 2 0).
Proof.
  apply (finished_event_is_final 10 some_ops [event "e1" "sent" 2 0] "e1").
  - by repeat constructor.
  - apply uniqueb_spec. reflexivity.
  - reflexivity.
  - by left.
Defined.

Definition settings : OutboxSettings :=
  {| os_batch_size := 5; os_lease := 10; os_retry_base := 2; os_retry_max := 300; os_star_notes := false |}.

Lemma retry_delay_bounds_witness : retry_delay settings 4 = Ok 16%Z /\ exists d, retry_delay settings 4 = Ok d /\ (d <= 300)%Z.
Proof.
  split; [reflexivity|].
  assert (Hs : (0 <= os_retry_base settings <= os_retry_max settings)%Z) by (vm_compute; split; congruence).
  pose proof (retry_delay_bounds settings 4 Hs) as H. rewrite decide_True in H by lia.
  destruct H as (d & Hd & [_ Hm] & _). by exists d.
Defined.

Definition sent_delivery : OutboxDelivery := delivery_of (event "e2" "processing" 3 9).

Lemma mark_decision_settles_witness :
  exists r', get_row "e2" (mark_decision settings sent_delivery
                 {| dd_action := OA_sent; dd_reason := "accepted" |} 7 two_events).1 = Some r' /\ oe_status r' = "sent".
Proof.
  pose proof (mark_decision_settles settings sent_delivery {| dd_action := OA_sent; dd_reason := "accepted" |}
                7 two_events (event "e2" "processing" 3 9) eq_refl eq_refl eq_refl) as H.
  destruct (mark_decision _ _ _ _ _) as [t' [u|e]]; [|by destruct H as [_ H]].
  destruct H as (r' & Hr & Hs & _). by exists r'.
Defined.

(** The only due event has been tried 1024 times and its server still fails. *)
Definition failing_round (_ : nat) : round_env := {|
  re_claimed_at := 5; re_marked_at := 6; re_locked := [];
  re_post := fun _ => HttpResponse 503 None; re_others := [] |}.
Definition exhausted : OutboxEventRecord := event "e1" "retry" 1024 0.

Lemma exhausted_event_aborts_cycle_witness :
  (run_once settings failing_round [exhausted; event "e2" "pending" 0 4]).2 = Raise OverflowError.
Proof.
  apply (exhausted_event_aborts_cycle settings failing_round [exhausted; event "e2" "pending" 0 4] exhausted).
  - apply uniqueb_spec. reflexivity.
  - vm_compute. lia.
  - reflexivity.
  - reflexivity.
  - apply Nat.leb_le. reflexivity.
  - reflexivity.
Defined.

(** * Ladder analyses *)

Definition sure_evidence : LadderEvidence := {|
  le_current_level := LL_L2; le_performance_by_level := [(LL_L2, {| pf_correct := 9; pf_attempts := 10 |})];
  le_recent_predictions := [LL_L3; LL_L4]; le_valid_speech_count := 4;
  le_lower_rule_evidence_count := 0; le_completed_session_count := 2 |}.

Lemma recommendation_is_justified_witness :
  ld_action (decide_ladder_adjustment sure_evidence) = UPGRADE /\ upgrade_grounds sure_evidence.
Proof.
  assert (Hv : valid_performance sure_evidence) by (vm_compute; split; congruence).
  destruct (recommendation_is_justified sure_evidence Hv) as (_ & Hu & _).
  assert (Ha : ld_action (decide_ladder_adjustment sure_evidence) = UPGRADE) by reflexivity.
  split; [exact Ha|]. by apply Hu in Ha as (_ & _ & _ & Hg).
Defined.

Definition analysis (status : string) (attempts : nat) (d : option DecisionPayload) : LadderAnalysisRecord := {|
  la_analysis_id := "a1"; la_idempotency_key := "k1"; la_learner_id := 7; la_skill_id := "count";
  la_trigger_session_id := "s2"; la_session_ids_json := ["s1"; "s2"]; la_current_level := LL_L2;
  la_performance_json := [(LL_L2, (9, 10)%Z)]; la_lower_rule_evidence_count := 0; la_status := status;
  la_attempts := attempts; la_available_at := 0; la_decision_json := d; la_model_version := None;
  la_recommendation_version := 1; la_error_code := None; la_approved_at := None; la_completed_at := None;
  la_created_at := 0; la_updated_at := 0 |}.

Definition raise_payload : DecisionPayload :=
  {| dp_decision := decide_ladder_adjustment sure_evidence; dp_recent_predictions := [] |}.

(** A new learner: the stable level is the default L2. *)
Definition completed_db : LadderDb :=
  {| db_analyses := [analysis "completed" 1 (Some raise_payload)]; db_profiles := ∅ |}.
Definition approved_db : LadderDb :=
  match approve "a1" 7 1 50 completed_db with Ok out => out.2 | Raise _ => completed_db end.
Definition approved_job : LadderAnalysisJob :=
  match approve "a1" 7 1 50 completed_db with
  | Ok out => out.1
  | Raise _ => job_of (analysis "completed" 1 None)
  end.
Lemma approval_runs : approve "a1" 7 1 50 completed_db = Ok (approved_job, approved_db).
Proof. vm_compute. reflexivity. Qed.

Lemma approval_moves_one_step_witness :
  stable_level (db_profiles completed_db) 7 "count" = L2 /\
  stable_level (db_profiles approved_db) 7 "count" = L3 /\
  approve "a1" 7 1 60 approved_db = Ok (approved_job, approved_db).
Proof.
  split; [by vm_compute|]. split; [by vm_compute|].
  apply (approval_moves_one_step "a1" 7 1 50 completed_db _ _ approval_runs).
Defined.

Definition speech_env : job_env := {|
  je_load_speech := fun _ => Ok ["하나"; "둘"];
  je_predict := fun _ => {| rb_available := true;
    rb_predictions := [{| rp_level := LL_L3; rp_confidence := PyFloat 9 (-1) |};
                       {| rp_level := LL_L4; rp_confidence := PyFloat 9 (-1) |}];
    rb_error_code := None |};
  je_model_version := "v1"; je_reported_at := 30; je_others := [] |}.

Definition running_table : list LadderAnalysisRecord := [analysis "running" 1 None].

Lemma worker_recommendation_is_approvable_witness :
  exists r, get_row "a1" (process_job speech_env (job_of (analysis "running" 1 None)) running_table).1 = Some r /\
    exists job db', approve "a1" 7 1 50
      {| db_analyses := (process_job speech_env (job_of (analysis "running" 1 None)) running_table).1;
         db_profiles := ∅ |} = Ok (job, db').
Proof.
  destruct (worker_recommendation_is_approvable speech_env (job_of (analysis "running" 1 None)) running_table
              ltac:(vm_compute; reflexivity)) as (ev & r & d & ps & _ & Hr & Hd & _ & Ha).
  exists r. split; [exact Hr|]. vm_compute in Hr. injection Hr as <-. injection Hd as <-.
  apply (Ha ∅ 50%Z); vm_compute; reflexivity.
Defined.

#[local] Instance key_digest : Digest := fun s => s.

Definition analysis_ops : list ladder_op :=
  [LClaim 5 10 []; LFail (job_of (analysis "running" 1 None)) "MODEL_NOT_FOUND" 20; LRequeue 30 []; LClaim 5 40 []].

Lemma analysis_attempt_reported_once_witness :
  let out := ladder_history 100 analysis_ops [analysis "pending" 0 None] in
  NoDup (handed out.1) /\ handed out.1 = [("a1", 1); ("a1", 2)] /\ settled out.1 = [("a1", 1)].
Proof.
  cbn zeta.
  assert (Hu : unique_ids [analysis "pending" 0 None]) by (apply uniqueb_spec; reflexivity).
  pose proof (analysis_attempt_reported_once 100 analysis_ops [analysis "pending" 0 None] Hu) as (H & _).
  split; [exact H|]. by vm_compute.
Defined.

Lemma completed_recommendation_is_kept_witness :
  exists s, get_row "a1" (ladder_history 100 [LClaim 5 10 []; LApprove "a1" 20; LRequeue 30 []]
              (db_analyses completed_db)).2 = Some s /\ la_decision_json s = Some raise_payload.
Proof.
  assert (Hu : unique_ids (db_analyses completed_db)) by (apply uniqueb_spec; reflexivity).
  destruct (completed_recommendation_is_kept 100 [LClaim 5 10 []; LApprove "a1" 20; LRequeue 30 []]
    (db_analyses completed_db) "a1" (analysis "completed" 1 (Some raise_payload)) Hu eq_refl eq_refl) as (s & Hs & Hk).
  exists s. split; [exact Hs|]. destruct Hk as (_ & _ & _ & Hd & _). exact Hd.
Defined.

Lemma worker_cycle_settles_witness :
  exists res, (worker_run_once 100 5 (fun _ => speech_env) 10 [] [analysis "pending" 0 None]).2 = Ok res /\
    wc_completed res + wc_failed res = 1.
Proof.
  assert (Hu : unique_ids [analysis "pending" 0 None]) by (apply uniqueb_spec; reflexivity).
  assert (Hv : Forall valid_analysis [analysis "pending" 0 None]).
  { constructor; [|constructor]. split; [by repeat constructor|]. vm_compute. congruence. }
  destruct (worker_cycle_settles 100 5 (fun _ => speech_env) 10 [] [analysis "pending" 0 None] Hu Hv (fun _ => eq_refl))
    as (res & Hres & Hc & _ & Hsum & _).
  exists res. split; [exact Hres|]. rewrite Hsum, Hc. by vm_compute.
Defined.

(** The learner finishes a task in a turn that read the profile before the approval. *)
Lemma profile_save_undoes_approval_witness :
  let saved := save_profile (db_profiles approved_db)
    (update_skill_profile (get_profile (db_profiles completed_db) 7 40) "count" L4 H0) 55 in
  stable_level (db_profiles approved_db) 7 "count" = L3 /\ stable_level saved 7 "count" = L2.
Proof.
  cbn zeta. split; [by vm_compute|].
  destruct (profile_save_undoes_approval "a1" 7 1 50 completed_db approved_job approved_db 40 55 60 "count" L4 H0
    (analysis "completed" 1 (Some raise_payload)) approval_runs eq_refl eq_refl) as [Hst _].
  cbn zeta in Hst. cbn [db_profiles] in Hst. exact Hst.
Defined.
