(* ===== verification/Conversation.v ===== *)
(** The conversation store and the path of one response through the service
    ([ConversationRecord], [TurnRecord], [DialogueTurnObservationRecord] of
    [src/mormi_api/db.py], the conversation operations of
    [src/mormi_api/repository.py], [_respond_stream_turn_only] of
    [src/mormi_api/service.py], the text codec of [src/mormi_api/security.py]).

    Requests run concurrently: each is a program whose steps are the transactions
    of the source, and the system interleaves the steps of all requests with the
    creation of conversations and with the retention purge.  The engine that
    computes a turn is the interface [TurnEngine]; a request carries what its
    engine and its model answer.  The rows of a commit that hang off the
    observation (claims, note evidence, task outcome) are represented by whether
    the database accepts them. *)

From S2P Require Import Prelude.
From S2P Require Import PyStr.
From S2P Require Import PyNum.
From S2P Require Import Json.
From S2P Require Import Schemas.
From S2P Require Import Question.
From S2P Require Import SpeakerText.
From S2P Require Import SpeakerPlan.
From S2P Require Import Reply.
From S2P Require Import Speak.
From S2P Require Import Gate.
From S2P Require Import Lease.
From S2P Require Import Outbox.

(** * The text codec *)

(** The legacy cipher, when a key is configured. *)
Class Fernet := fernet_decrypt : option (string -> res string).

Definition store_text (text : string) : string := "plain:" ++ text.

Definition removeprefix (p s : string) : string :=
  if String.prefix p s then String.substring (String.length p) (String.length s) s else s.

Definition load_text `{Fernet} (payload : string) : res string :=
  if String.prefix "plain:" payload then Ok (removeprefix "plain:" payload)
  else if negb (String.prefix "fernet:" payload) then Ok payload
  else match fernet_decrypt with
       | None => Raise (ValueError "Legacy encrypted dialogue cannot be migrated without MORMI_RAW_DATA_ENCRYPTION_KEY")
       | Some decrypt => decrypt (removeprefix "fernet:" payload)
       end.

(** * Conversations and turns *)

Record ConversationKey := {
  ck_learner_id : Z;
  ck_learning_session_id : option string;
  ck_scene : string;
  ck_scenario_id : string;
  ck_round : Z
}.
#[export] Instance ConversationKey_eq_dec : EqDecision ConversationKey.
Proof. solve_decision. Defined.

(** The engine behind a conversation: what the store reads of its state, what the
    retention deadline clears, which turns it admits, and the turns it can answer
    with. *)
Class TurnEngine (S : Type) := {
  st_version : S -> Z;
  st_turn : S -> option string;
  st_status : S -> SessionStatus;
  st_clear_evidence : S -> S;
  st_anchor : S -> TurnContract -> res TurnContract;
  st_gate : S -> TurnContract -> ChildResponse -> res unit;
  st_starts : S -> TurnContract -> Prop;
  st_answers : S -> TurnContract -> ChildResponse -> S -> TurnContract -> Prop
}.

(** [SessionState]: the fields of the service and the state of the engine. *)
Record Session (S : Type) := {
  se_conversation_id : string;
  se_key : ConversationKey;
  se_raw_storage_enabled : bool;
  se_raw_retention_until : option Z;
  se_permanent : bool;
  se_engine : S
}.
Arguments se_conversation_id {S}.
Arguments se_key {S}.
Arguments se_raw_storage_enabled {S}.
Arguments se_raw_retention_until {S}.
Arguments se_permanent {S}.
Arguments se_engine {S}.

Record ConversationRecord (S : Type) := {
  cn_state_json : Session S;
  cn_state_version : Z;
  cn_status : SessionStatus;
  cn_raw_retention_until : option Z
}.
Arguments cn_state_json {S}.
Arguments cn_state_version {S}.
Arguments cn_status {S}.
Arguments cn_raw_retention_until {S}.

Record TurnRecord := {
  tn_turn_id : string;
  tn_conversation_id : string;
  tn_state_version : Z;
  tn_question : option string;
  tn_contract : TurnContract;
  tn_response_id : option string;
  tn_response_expires_at : option Z;
  tn_result_turn_id : option string;
  tn_response_raw : option string;
  tn_response_structured : option ChildResponse
}.

Record ObservationRecord := {
  ob_source_turn_id : string;
  ob_conversation_id : string;
  ob_response_id : string
}.

Record ConversationDb (S : Type) := {
  db_conversations : list (ConversationRecord S);
  db_turns : list TurnRecord;
  db_observations : list ObservationRecord;
  db_notes : list string;
  db_events : list OutboxEventRecord
}.
Arguments db_conversations {S}.
Arguments db_turns {S}.
Arguments db_observations {S}.
Arguments db_notes {S}.
Arguments db_events {S}.

Definition with_mormi_text (t : TurnContract) (text : string) : TurnContract := {|
  tc_turn_id := tc_turn_id t; tc_task_id := tc_task_id t; tc_stage_id := tc_stage_id t;
  tc_task_index := tc_task_index t;
  tc_mormi := {| mc_text := text; mc_mood := mc_mood (tc_mormi t) |};
  tc_input := tc_input t; tc_visual := tc_visual t; tc_help_card := tc_help_card t;
  tc_note_update := tc_note_update t; tc_status := tc_status t;
  tc_state_version := tc_state_version t; tc_completion := tc_completion t;
  tc_task_anchor := tc_task_anchor t |}.

Section store.
Context {S : Type} `{TurnEngine S} `{!Fernet}.
Implicit Types (s : Session S) (db : ConversationDb S) (t : TurnContract) (tn : TurnRecord).

Definition with_engine s (e : S) : Session S := {|
  se_conversation_id := se_conversation_id s; se_key := se_key s;
  se_raw_storage_enabled := se_raw_storage_enabled s;
  se_raw_retention_until := se_raw_retention_until s; se_permanent := se_permanent s;
  se_engine := e |}.

(** What passing the deadline makes of a state. *)
Definition retire s : Session S := {|
  se_conversation_id := se_conversation_id s; se_key := se_key s;
  se_raw_storage_enabled := false; se_raw_retention_until := None; se_permanent := se_permanent s;
  se_engine := st_clear_evidence (se_engine s) |}.

Definition expired (until : option Z) (now : Z) : bool :=
  match until with Some d => (d <=? now)%Z | None => false end.

(** [_load_state]; the decoding of note evidence from legacy envelopes is left out. *)
Definition load_state (now : Z) s : Session S :=
  if expired (se_raw_retention_until s) now then retire s else s.

(** [_turn_record] and [_load_turn] *)
Definition turn_record s t : TurnRecord := {|
  tn_turn_id := tc_turn_id t; tn_conversation_id := se_conversation_id s;
  tn_state_version := st_version (se_engine s);
  tn_question := Some (store_text (mc_text (tc_mormi t)));
  tn_contract := with_mormi_text t "";
  tn_response_id := None; tn_response_expires_at := None; tn_result_turn_id := None;
  tn_response_raw := None; tn_response_structured := None |}.

Definition load_turn tn : res TurnContract :=
  text ← match tn_question tn with
         | Some q => if bool_decide (q = "") then Ok "대화 보존 기간이 끝났어요." else load_text q
         | None => Ok "대화 보존 기간이 끝났어요."
         end;
  Ok (with_mormi_text (tn_contract tn) text).

Definition find_conversation db (i : string) : option (ConversationRecord S) :=
  find_first (fun c => bool_decide (se_conversation_id (cn_state_json c) = i)) (db_conversations db).
Definition find_turn db (i : string) : option TurnRecord :=
  find_first (fun tn => bool_decide (tn_turn_id tn = i)) (db_turns db).

(** * Reading *)

(** [conversation_id_for_learning_session]; the key is unique. *)
Definition conversation_id_for db (k : ConversationKey) : option string :=
  (fun c => se_conversation_id (cn_state_json c)) <$>
    find_first (fun c => bool_decide (se_key (cn_state_json c) = k)) (db_conversations db).

(** [get_state] *)
Definition get_state (now : Z) (i : string) db : res (Session S) :=
  c ← or_raise (find_conversation db i) (ConversationNotFoundError i);
  Ok (load_state now (cn_state_json c)).

(** [active_turn] *)
Definition active_turn s db : res TurnContract :=
  i ← or_raise (st_turn (se_engine s)) (StaleConversationError "Conversation has no active turn");
  tn ← or_raise (find_turn db i) (StaleConversationError "Active turn was not found");
  _ ← raise_if (negb (bool_decide (tn_conversation_id tn = se_conversation_id s)))
        (StaleConversationError "Active turn was not found");
  load_turn tn.

(** [response_exists] *)
Definition response_exists (now : Z) (conversation_id response_id : string) db : res (option TurnContract) :=
  match find_first (fun tn => bool_decide (tn_conversation_id tn = conversation_id)
           && bool_decide (tn_response_id tn = Some response_id)
           && negb (expired (tn_response_expires_at tn) now)) (db_turns db) with
  | Some tn =>
      match tn_result_turn_id tn with
      | Some i => match find_turn db i with
                  | Some result => t ← load_turn result; Ok (Some t)
                  | None => Ok None
                  end
      | None => Ok None
      end
  | None => Ok None
  end.

(** * Creation *)

(** The insertion of a conversation with its first turn.  An identical key inserted
    before makes the insert fail; the caller is given the winner. *)
Definition create_conversation s t db : res (string * ConversationDb S) :=
  if bool_decide (is_Some (ck_learning_session_id (se_key s))) && bool_decide (is_Some (conversation_id_for db (se_key s)))
  then match conversation_id_for db (se_key s) with
       | Some winner => Ok (winner, db)
       | None => Raise IntegrityError
       end
  else if bool_decide (is_Some (find_conversation db (se_conversation_id s)))
          || bool_decide (is_Some (find_turn db (tc_turn_id t)))
  then Raise IntegrityError
  else Ok (se_conversation_id s, {|
    db_conversations := db_conversations db ++ [{|
      cn_state_json := s; cn_state_version := st_version (se_engine s);
      cn_status := st_status (se_engine s); cn_raw_retention_until := se_raw_retention_until s |}];
    db_turns := db_turns db ++ [turn_record s t];
    db_observations := db_observations db; db_notes := db_notes db; db_events := db_events db |}).

(** * Committing a turn *)

(** A request: the child's response under its id, what the engine answers, and what
    the commit inserts beside the turn. *)
Record Request := {
  rq_conversation_id : string;
  rq_response_id : string;
  rq_response : ChildResponse;
  rq_run : S -> TurnContract -> res (S * TurnContract);
  rq_idempotency : Z;
  rq_rows_ok : bool;
  rq_values_text : gmap string pyvalue -> string;
  rq_event_id : string;
  rq_star_event_id : string;
  rq_payload : list (string * json);
  rq_star_payload : list (string * json)
}.

(** [response.text or self._structured_response_text(response)] *)
Definition raw_response (q : Request) : string :=
  let structured := match cr_choice_ids (rq_response q) with
                    | [] => rq_values_text q (cr_values (rq_response q))
                    | ids => py_join ", " ids
                    end in
  match cr_text (rq_response q) with
  | Some ((_ :: _) as text) => utf8_encode text
  | _ => structured
  end.

Definition without_text (r : ChildResponse) : ChildResponse := {|
  cr_turn_id := cr_turn_id r; cr_type := cr_type r; cr_text := None;
  cr_choice_ids := cr_choice_ids r; cr_values := cr_values r;
  cr_no_response_kind := cr_no_response_kind r |}.

(** The answered turn: raw text only while the deadline has not passed. *)
Definition answer_turn (q : Request) (prev : Session S) (result : string) (now : Z) (raw : bool) tn
    : TurnRecord := {|
  tn_turn_id := tn_turn_id tn; tn_conversation_id := tn_conversation_id tn;
  tn_state_version := tn_state_version tn; tn_question := tn_question tn;
  tn_contract := tn_contract tn;
  tn_response_id := Some (rq_response_id q);
  tn_response_expires_at := if se_permanent prev then None else Some (now + rq_idempotency q)%Z;
  tn_result_turn_id := Some result;
  tn_response_raw := if raw then Some (store_text (raw_response q)) else None;
  tn_response_structured := if raw then Some (without_text (rq_response q)) else None |}.

Definition outbox_event (id type : string) (payload : list (string * json)) (now : Z) : OutboxEventRecord := {|
  oe_event_id := id; oe_event_type := type; oe_schema_version := 1; oe_payload_json := payload;
  oe_status := "pending"; oe_attempts := 0; oe_available_at := now; oe_delivered_at := None;
  oe_last_error := None; oe_created_at := now |}.

(** The events of a commit: the observation, and the star note if there is one. *)
Definition turn_events (q : Request) t (now : Z) : list OutboxEventRecord :=
  outbox_event (rq_event_id q) DIALOGUE_OBSERVATION_EVENT_TYPE (rq_payload q) now ::
  match tc_note_update t with
  | Some _ => [outbox_event (rq_star_event_id q) STAR_NOTE_CREATED_EVENT_TYPE (rq_star_payload q) now]
  | None => []
  end.

Definition turn_notes t : list string :=
  match tc_note_update t with Some n => [nu_note_id n] | None => [] end.

Definition update_conversation (i : string) (next : Session S) (c : ConversationRecord S)
    : ConversationRecord S :=
  if decide (se_conversation_id (cn_state_json c) = i) then {|
    cn_state_json := next; cn_state_version := st_version (se_engine next);
    cn_status := st_status (se_engine next); cn_raw_retention_until := se_raw_retention_until next |}
  else c.

(** The unique keys of the inserted rows, in the order the rows are flushed. *)
Definition constraints (q : Request) (i : string) t db : res unit :=
  _ ← raise_if (existsb (fun o => bool_decide (ob_source_turn_id o = cr_turn_id (rq_response q))
                 || bool_decide ((ob_conversation_id o, ob_response_id o) = (i, rq_response_id q)))
                 (db_observations db))
        (DuplicateResponseError (rq_response_id q));
  _ ← raise_if (negb (rq_rows_ok q)) (PersistenceError "turn_persistence_failed");
  _ ← raise_if (existsb (fun n => memb n (db_notes db)) (turn_notes t))
        (PersistenceError "turn_persistence_failed");
  _ ← raise_if (existsb (fun tn => bool_decide (tn_conversation_id tn = i)
                 && bool_decide (tn_response_id tn = Some (rq_response_id q))) (db_turns db))
        (DuplicateResponseError (rq_response_id q));
  _ ← raise_if (bool_decide (is_Some (find_turn db (tc_turn_id t))))
        (PersistenceError "turn_persistence_failed");
  raise_if (negb (uniqueb (map oe_event_id (turn_events q t 0 ++ db_events db))))
    (PersistenceError "turn_persistence_failed").

(** [commit_turn] *)
Definition commit_turn (q : Request) (prev next : Session S) t (now : Z) db : res (ConversationDb S) :=
  let i := se_conversation_id prev in
  conv ← or_raise (find_conversation db i) (ConversationNotFoundError i);
  _ ← raise_if (negb (cn_state_version conv =? st_version (se_engine prev))%Z) (StaleConversationError i);
  current ← or_raise (find_turn db (cr_turn_id (rq_response q)))
              (StaleConversationError "Response does not match the active turn");
  _ ← raise_if (negb (bool_decide (tn_conversation_id current = i)))
        (StaleConversationError "Response does not match the active turn");
  _ ← match tn_response_id current with
      | Some r => Raise (if decide (r = rq_response_id q) then DuplicateResponseError r
                         else StaleConversationError "Turn was already answered")
      | None => Ok tt
      end;
  let past := expired (se_raw_retention_until prev) now in
  let raw := se_raw_storage_enabled prev && negb past in
  let next := if past then retire next else next in
  _ ← constraints q i t db;
  Ok {|
    db_conversations := map (update_conversation i next) (db_conversations db);
    db_turns := map (fun tn => if decide (tn_turn_id tn = cr_turn_id (rq_response q))
                               then answer_turn q prev (tc_turn_id t) now raw tn else tn) (db_turns db)
                ++ [turn_record next t];
    db_observations := db_observations db ++
      [{| ob_source_turn_id := cr_turn_id (rq_response q); ob_conversation_id := i;
          ob_response_id := rq_response_id q |}];
    db_notes := db_notes db ++ turn_notes t;
    db_events := db_events db ++ turn_events q t now |}.

(** * The retention purge *)

Definition forget_response (now : Z) (ids : list string) tn : TurnRecord :=
  let gone := expired (tn_response_expires_at tn) now in
  let raw := memb (tn_conversation_id tn) ids in {|
    tn_turn_id := tn_turn_id tn; tn_conversation_id := tn_conversation_id tn;
    tn_state_version := tn_state_version tn; tn_question := tn_question tn;
    tn_contract := tn_contract tn;
    tn_response_id := if gone then None else tn_response_id tn;
    tn_response_expires_at := if gone then None else tn_response_expires_at tn;
    tn_result_turn_id := if gone then None else tn_result_turn_id tn;
    tn_response_raw := if raw then None else tn_response_raw tn;
    tn_response_structured := if raw then None else tn_response_structured tn |}.

(** The rows [expired] selects. *)
Definition purge_due (now : Z) db : list (ConversationRecord S) :=
  List.filter (fun c => expired (cn_raw_retention_until c) now) (db_conversations db).

(** The update of one selected row: the whole state as it was read, retired; the
    version and status columns are not written. *)
Definition retire_record (read c : ConversationRecord S) : ConversationRecord S := {|
  cn_state_json := retire (cn_state_json read); cn_state_version := cn_state_version c;
  cn_status := cn_status c; cn_raw_retention_until := None |}.
Definition overwrite (due : list (ConversationRecord S)) (c : ConversationRecord S) : ConversationRecord S :=
  match find_first (fun d => bool_decide (se_conversation_id (cn_state_json d) = se_conversation_id (cn_state_json c))) due with
  | Some d => retire_record d c
  | None => c
  end.

(** What the purge of time [now] writes when it has read the rows [due]. *)
Definition purge_write (now : Z) (due : list (ConversationRecord S)) db : ConversationDb S := {|
  db_conversations := map (overwrite due) (db_conversations db);
  db_turns := map (forget_response now (map (fun c => se_conversation_id (cn_state_json c)) due)) (db_turns db);
  db_observations := db_observations db; db_notes := db_notes db; db_events := db_events db |}.

(** [purge_expired_raw_data] with no other transaction between its read and its
    commit; it takes no lock, so others can run there: [purging] below. *)
Definition purge_expired_raw_data (now : Z) db : ConversationDb S := purge_write now (purge_due now db) db.

(** * One response through the service *)

Inductive reply :=
  | Answered (t : TurnContract) (replayed : bool)
  | Failed (e : pyexn).

(** Where a request is between two transactions. *)
Inductive pc :=
  | AtPrior
  | AtState
  | AtActive (s : Session S)
  | AtEngine (s : Session S) (t : TurnContract)
  | AtCommit (s s' : Session S) (t t' : TurnContract)
  | AtReplay
  | Done (r : reply).

Definition fail_or {A} (r : res A) (k : A -> pc) : pc :=
  match r with Ok a => k a | Raise e => Done (Failed e) end.

(** [_respond_stream_turn_only], one step.  The task looked up for the profile is one of
    the table; the profile saved after the commit is another table and three further
    transactions ([LadderHistory]). *)
Definition service_step (q : Request) (now : Z) db (p : pc) : ConversationDb S * pc :=
  match p with
  | AtPrior =>
      (db, fail_or (response_exists now (rq_conversation_id q) (rq_response_id q) db)
             (fun prior => match prior with Some t => Done (Answered t true) | None => AtState end))
  | AtState => (db, fail_or (get_state now (rq_conversation_id q) db) AtActive)
  | AtActive s =>
      (db, fail_or (t ← active_turn s db; t ← st_anchor (se_engine s) t;
                    _ ← st_gate (se_engine s) t (rq_response q); Ok t)
             (AtEngine s))
  | AtEngine s t =>
      (db, fail_or (rq_run q (se_engine s) t) (fun out => AtCommit s (with_engine s out.1) t out.2))
  | AtCommit s s' t t' =>
      match commit_turn q s s' t' now db with
      | Ok db' => (db', Done (Answered t' false))
      | Raise (DuplicateResponseError _) => (db, AtReplay)
      | Raise e => (db, Done (Failed e))
      end
  | AtReplay =>
      (db, fail_or (response_exists now (rq_conversation_id q) (rq_response_id q) db)
             (fun prior => match prior with
                           | Some t => Done (Answered t true)
                           | None => Done (Failed (PersistenceError "duplicate_response_result_missing"))
                           end))
  | Done r => (db, Done r)
  end.

(** * The system *)

Record System := { sy_now : Z; sy_db : ConversationDb S; sy_requests : list (Request * pc) }.

(** What a request can be given: its engine answers as the engine does, for its own
    response and conversation. *)
Definition request_ok (q : Request) : Prop := forall e t e' t',
  st_gate e t (rq_response q) = Ok tt -> rq_run q e t = Ok (e', t') ->
  st_answers e t (rq_response q) e' t'.

Inductive system_step : System -> System -> Prop :=
  | sys_arrive now db rs q :
      request_ok q ->
      system_step {| sy_now := now; sy_db := db; sy_requests := rs |}
                  {| sy_now := now; sy_db := db; sy_requests := rs ++ [(q, AtPrior)] |}
  | sys_run now now' db rs i q p :
      (now <= now')%Z -> rs !! i = Some (q, p) ->
      let out := service_step q now' db p in
      system_step {| sy_now := now; sy_db := db; sy_requests := rs |}
                  {| sy_now := now'; sy_db := out.1; sy_requests := <[i := (q, out.2)]> rs |}
  | sys_create now db rs s t i db' :
      st_starts (se_engine s) t -> create_conversation s t db = Ok (i, db') ->
      system_step {| sy_now := now; sy_db := db; sy_requests := rs |}
                  {| sy_now := now; sy_db := db'; sy_requests := rs |}
  | sys_purge now now' cut due db rs :
      (now <= now')%Z -> (cut <= now')%Z -> (forall d, d ∈ due -> d ∈ purge_due cut db) ->
      system_step {| sy_now := now; sy_db := db; sy_requests := rs |}
                  {| sy_now := now'; sy_db := purge_write cut due db; sy_requests := rs |}.

Definition empty_db : ConversationDb S :=
  {| db_conversations := []; db_turns := []; db_observations := []; db_notes := []; db_events := [] |}.

(** Reachable systems, from an empty database.  A purge is one step: it writes over rows
    that are as it read them, at a time [cut] that may have passed. *)
Inductive reachable : System -> Prop :=
  | reach_start now : reachable {| sy_now := now; sy_db := empty_db; sy_requests := [] |}
  | reach_step y y' : reachable y -> system_step y y' -> reachable y'.

(** ** The purge in two steps

    A purge that has read and not yet written. *)
Record PurgeRead := { pg_now : Z; pg_due : list (ConversationRecord S) }.
Definition start_purge (now : Z) db : PurgeRead := {| pg_now := now; pg_due := purge_due now db |}.

(** No transaction has changed a row the purge has read. *)
Definition undisturbed (r : PurgeRead) db : Prop := forall d, d ∈ pg_due r -> d ∈ db_conversations db.

(** Systems with purges in flight, each of which writes undisturbed and after it has
    read. *)
Inductive purging : System -> list PurgeRead -> Prop :=
  | purging_start now : purging {| sy_now := now; sy_db := empty_db; sy_requests := [] |} []
  | purging_step y y' ps : purging y ps -> system_step y y' -> purging y' ps
  | purging_read now now' db rs ps :
      purging {| sy_now := now; sy_db := db; sy_requests := rs |} ps -> (now <= now')%Z ->
      purging {| sy_now := now; sy_db := db; sy_requests := rs |} (ps ++ [start_purge now' db])
  | purging_write now now' db rs ps i r :
      purging {| sy_now := now; sy_db := db; sy_requests := rs |} ps -> ps !! i = Some r -> (now <= now')%Z ->
      (pg_now r <= now')%Z -> undisturbed r db ->
      purging {| sy_now := now'; sy_db := purge_write (pg_now r) (pg_due r) db; sy_requests := rs |} (delete i ps).

(** What a conversation is without concurrency: turns answered one after another,
    and deadlines passing. *)
Inductive sequential : S -> TurnContract -> Prop :=
  | seq_start e t : st_starts e t -> sequential e t
  | seq_answer e t r e' t' : sequential e t -> st_answers e t r e' t' -> sequential e' t'
  | seq_clear e t : sequential e t -> sequential (st_clear_evidence e) t.
End store.
Arguments Request S : clear implicits.
Arguments pc S : clear implicits.
Arguments System S : clear implicits.
