(* ===== verification/ConversationTheory.v ===== *)
(** The text codec, rows found by key, the laws of an engine behind the store, and
    the invariant of the conversation store. *)

From S2P Require Import Prelude.
From S2P Require Import PyStr.
From S2P Require Import PyNum.
From S2P Require Import Json.
From S2P Require Import Schemas.
From S2P Require Import Question.
From S2P Require Import SpeakerText.
From S2P Require Import SpeakerPlan.
From S2P Require Import Reply.
From S2P Require Import Speak.
From S2P Require Import Gate.
From S2P Require Import Lease.
From S2P Require Import Outbox.
From S2P Require Import Conversation.

(** * The text codec *)

Lemma prefix_app p s : String.prefix p (p ++ s) = true.
Proof. induction p as [|c p IH]; simpl; [by destruct s|]. by destruct (Ascii.ascii_dec c c). Qed.

Lemma substring_full s : String.substring 0 (String.length s) s = s.
Proof. induction s as [|c s IH]; simpl; [done|]. by rewrite IH. Qed.

Lemma substring_cut n m s : String.length s <= m -> String.substring n m s = String.substring n (String.length s) s.
Proof.
  revert n m. induction s as [|c s IH]; intros n m Hm; simpl in *; [by destruct n, m|].
  destruct n as [|n], m as [|m]; try lia.
  - f_equal. apply IH. lia.
  - rewrite (IH n (S m)), (IH n (S (String.length s))) by lia. done.
Qed.

Lemma length_append p s : String.length (p ++ s) = String.length p + String.length s.
Proof. induction p as [|c p IH]; [done|]. change (S (String.length (p ++ s)) = S (String.length p) + String.length s). lia. Qed.

Lemma removeprefix_app p s : removeprefix p (p ++ s) = s.
Proof.
  unfold removeprefix. rewrite prefix_app.
  assert (H : forall m, String.length s <= m -> String.substring (String.length p) m (p ++ s) = s).
  { induction p as [|c p IH]; intros m Hm; simpl.
    - rewrite substring_cut by done. apply substring_full.
    - apply IH. lia. }
  apply H. rewrite length_append. lia.
Qed.

Lemma load_store `{Fernet} text : load_text (store_text text) = Ok text.
Proof.
  unfold load_text, store_text. rewrite prefix_app. by rewrite removeprefix_app.
Qed.

(** * Rows by key *)

Section keyed.
Context {A K : Type} `{EqDecision K} (f : A -> K).
Implicit Types (l : list A) (i : K).

Definition by_key i l : option A := find_first (fun x => bool_decide (f x = i)) l.

Lemma by_key_Some i l x : by_key i l = Some x -> x ∈ l /\ f x = i.
Proof. by intros [Hx Hi%bool_decide_eq_true]%find_first_Some. Qed.

Lemma by_key_unique l x : NoDup (map f l) -> x ∈ l -> by_key (f x) l = Some x.
Proof.
  intros Hn Hx. unfold by_key. induction l as [|y l IH]; [by apply not_elem_of_nil in Hx|].
  apply NoDup_cons in Hn as [Hy Hn]. simpl. apply elem_of_cons in Hx as [-> | Hx].
  - by rewrite bool_decide_eq_true_2.
  - rewrite bool_decide_eq_false_2; [by apply IH|]. intros Heq. apply Hy. rewrite Heq. by apply list_elem_of_fmap_2.
Qed.

Lemma by_key_None i l : by_key i l = None <-> i ∉ map f l.
Proof.
  unfold by_key. rewrite find_first_None. split.
  - intros H (x & -> & Hx)%list_elem_of_fmap. specialize (H x Hx). by apply bool_decide_eq_false in H.
  - intros H x Hx. apply bool_decide_eq_false. intros <-. apply H. by apply list_elem_of_fmap_2.
Qed.

Lemma by_key_map (g : A -> A) i l : (forall x, f (g x) = f x) -> by_key i (map g l) = g <$> by_key i l.
Proof.
  intros Hg. unfold by_key. induction l as [|y l IH]; [done|]. simpl. rewrite Hg. by case_bool_decide.
Qed.

Lemma by_key_app i l l' :
  by_key i (l ++ l') = match by_key i l with Some x => Some x | None => by_key i l' end.
Proof. unfold by_key. induction l as [|y l IH]; simpl; [done|]. by case_bool_decide. Qed.

Lemma keys_map (g : A -> A) l : (forall x, f (g x) = f x) -> map f (map g l) = map f l.
Proof. intros Hg. rewrite map_map. by apply map_ext. Qed.

Lemma same_key l x y : NoDup (map f l) -> x ∈ l -> y ∈ l -> f x = f y -> x = y.
Proof.
  intros Hn Hx Hy Heq. pose proof (by_key_unique l x Hn Hx). pose proof (by_key_unique l y Hn Hy). congruence.
Qed.

Lemma NoDup_keys_snoc l x : NoDup (map f l) -> f x ∉ map f l -> NoDup (map f (l ++ [x])).
Proof.
  intros Hn Hx. rewrite map_app. apply NoDup_app. split; [done|]. split; [|apply NoDup_singleton].
  by intros k Hk ->%list_elem_of_singleton.
Qed.
End keyed.

(** * The interface *)

Class TurnEngineLaws (E : Type) `{TurnEngine E} := {
  clear_version e : st_version (st_clear_evidence e) = st_version e;
  clear_turn e : st_turn (st_clear_evidence e) = st_turn e;
  clear_status e : st_status (st_clear_evidence e) = st_status e;
  clear_idem e : st_clear_evidence (st_clear_evidence e) = st_clear_evidence e;
  starts_turn e t : st_starts e t -> st_turn e = Some (tc_turn_id t);
  answers_turn e t r e' t' : st_answers e t r e' t' ->
    st_turn e' = Some (tc_turn_id t') /\ st_version e' = (st_version e + 1)%Z;
  gate_turn_id e t r : st_gate e t r = Ok tt -> cr_turn_id r = tc_turn_id t;
  anchor_turn e t t' : st_anchor e t = Ok t' -> tc_turn_id t' = tc_turn_id t;
  anchor_answers e t t1 r e' t' : st_anchor e t = Ok t1 -> st_gate e t1 r = Ok tt ->
    st_answers e t1 r e' t' -> st_answers e t r e' t'
}.

Section conversations.
Context {E : Type} `{TurnEngineLaws E} `{!Fernet}.
Implicit Types (s : Session E) (db : ConversationDb E) (t : TurnContract) (tn : TurnRecord)
  (c : ConversationRecord E) (q : Request E) (now : Z).

Notation conversation_of := (fun c => se_conversation_id (cn_state_json c)).

Lemma find_turn_by_key db i : find_turn db i = by_key tn_turn_id i (db_turns db).
Proof. done. Qed.
Lemma find_conversation_by_key db i :
  find_conversation db i = by_key conversation_of i (db_conversations db).
Proof. done. Qed.

Lemma load_turn_record s t : load_turn (turn_record s t) = Ok t.
Proof.
  unfold load_turn, turn_record. cbn [tn_question tn_contract].
  rewrite bool_decide_eq_false_2 by done. rewrite load_store. cbn. unfold with_mormi_text. destruct t as [????[]]. done.
Qed.

(** ** Retirement of raw data *)

Lemma retire_idem s : retire (retire s) = retire s.
Proof. unfold retire. simpl. by rewrite clear_idem. Qed.

Lemma retire_load now s : retire (load_state now s) = retire s.
Proof. unfold load_state. destruct (expired _ _); [apply retire_idem|done]. Qed.

Lemma retire_same s1 s2 : retire s1 = retire s2 ->
  se_conversation_id s1 = se_conversation_id s2 /\ se_key s1 = se_key s2 /\ se_permanent s1 = se_permanent s2 /\
  st_version (se_engine s1) = st_version (se_engine s2) /\ st_turn (se_engine s1) = st_turn (se_engine s2) /\
  st_status (se_engine s1) = st_status (se_engine s2).
Proof.
  intros Hs. injection Hs as Hi Hk Hp He. split_and!; try done.
  - by rewrite <- clear_version, He, clear_version.
  - by rewrite <- clear_turn, He, clear_turn.
  - by rewrite <- clear_status, He, clear_status.
Qed.

Lemma expired_later until now now' : (now <= now')%Z -> expired until now = true -> expired until now' = true.
Proof. destruct until as [d|]; simpl; [|done]. rewrite !Z.leb_le. lia. Qed.

(** ** Turns keep what they are *)

(** The columns of a turn that no operation changes. *)
Definition core tn := (tn_turn_id tn, tn_conversation_id tn, tn_state_version tn, tn_question tn, tn_contract tn).

Lemma core_load tn tn' : core tn = core tn' -> load_turn tn = load_turn tn'.
Proof. unfold core, load_turn. by intros [= _ _ _ -> ->]. Qed.

Lemma answer_core q prev i now raw tn : core (answer_turn q prev i now raw tn) = core tn.
Proof. done. Qed.
Lemma forget_core now ids tn : core (forget_response now ids tn) = core tn.
Proof. done. Qed.

Lemma core_id tn tn' : core tn = core tn' -> tn_turn_id tn = tn_turn_id tn'.
Proof. by intros [=]. Qed.
Lemma core_conversation tn tn' : core tn = core tn' -> tn_conversation_id tn = tn_conversation_id tn'.
Proof. by intros [=]. Qed.
Lemma core_version tn tn' : core tn = core tn' -> tn_state_version tn = tn_state_version tn'.
Proof. by intros [=]. Qed.

(** ** The invariant of the store *)

(** [c]'s turn on screen: stored, unanswered, of the version of the state. *)
Record on_screen db c tn t : Prop := {
  os_turn : st_turn (se_engine (cn_state_json c)) = Some (tc_turn_id t);
  os_row : find_turn db (tc_turn_id t) = Some tn;
  os_conversation : tn_conversation_id tn = se_conversation_id (cn_state_json c);
  os_version : tn_state_version tn = cn_state_version c;
  os_loads : load_turn tn = Ok t;
  os_open : tn_response_id tn = None;
  os_unobserved : tc_turn_id t ∉ map ob_source_turn_id (db_observations db);
  os_sequential : sequential (se_engine (cn_state_json c)) t
}.

Record conversation_ok db c : Prop := {
  co_version : cn_state_version c = st_version (se_engine (cn_state_json c));
  co_status : cn_status c = st_status (se_engine (cn_state_json c));
  co_until : cn_raw_retention_until c = se_raw_retention_until (cn_state_json c);
  co_screen : exists tn t, on_screen db c tn t
}.

(** An observation: the turn it answers and the turn that followed. *)
Definition follows db (o : ObservationRecord) tn tn' : Prop :=
  find_turn db (ob_source_turn_id o) = Some tn /\ tn_conversation_id tn = ob_conversation_id o /\
  tn' ∈ db_turns db /\ tn_conversation_id tn' = ob_conversation_id o /\
  tn_state_version tn' = (tn_state_version tn + 1)%Z.

Definition observation_pair (o : ObservationRecord) := (ob_conversation_id o, ob_response_id o).

Record db_ok db : Prop := {
  dk_ids : NoDup (map conversation_of (db_conversations db));
  dk_keys c1 c2 : c1 ∈ db_conversations db -> c2 ∈ db_conversations db ->
    is_Some (ck_learning_session_id (se_key (cn_state_json c1))) ->
    se_key (cn_state_json c1) = se_key (cn_state_json c2) -> conversation_of c1 = conversation_of c2;
  dk_turns : NoDup (map tn_turn_id (db_turns db));
  dk_versions : NoDup (map (fun tn => (tn_conversation_id tn, tn_state_version tn)) (db_turns db));
  dk_sources : NoDup (map ob_source_turn_id (db_observations db));
  dk_pairs : NoDup (map observation_pair (db_observations db));
  dk_owned tn : tn ∈ db_turns db -> exists c, find_conversation db (tn_conversation_id tn) = Some c /\
    (tn_state_version tn <= cn_state_version c)%Z /\
    ((tn_state_version tn < cn_state_version c)%Z -> tn_turn_id tn ∈ map ob_source_turn_id (db_observations db));
  dk_answered tn r : tn ∈ db_turns db -> tn_response_id tn = Some r ->
    exists o i tn', o ∈ db_observations db /\ ob_source_turn_id o = tn_turn_id tn /\
      observation_pair o = (tn_conversation_id tn, r) /\
      tn_result_turn_id tn = Some i /\ find_turn db i = Some tn' /\ follows db o tn tn';
  dk_observed o : o ∈ db_observations db -> exists tn tn', follows db o tn tn';
  dk_loads tn : tn ∈ db_turns db -> exists t, load_turn tn = Ok t;
  dk_conversations c : c ∈ db_conversations db -> conversation_ok db c;
  dk_events : length (List.filter (fun e => bool_decide (oe_event_type e = DIALOGUE_OBSERVATION_EVENT_TYPE)) (db_events db))
                = length (db_observations db)
}.

Lemma empty_db_ok : db_ok empty_db.
Proof.
  split; simpl; try apply NoDup_nil_2; try done; intros; by match goal with Hx : _ ∈ [] |- _ => apply not_elem_of_nil in Hx end.
Qed.
End conversations.
