(* ===== verification/ConversationCommit.v ===== *)
(** How the conversation store evolves, what a request in flight remembers of it,
    and its transactions: the commit of a turn, a creation and the retention purge
    keep the store's invariant. *)

From S2P Require Import Prelude.
From S2P Require Import PyStr.
From S2P Require Import PyNum.
From S2P Require Import Json.
From S2P Require Import Schemas.
From S2P Require Import Question.
From S2P Require Import SpeakerText.
From S2P Require Import SpeakerPlan.
From S2P Require Import Reply.
From S2P Require Import Speak.
From S2P Require Import Lease.
From S2P Require Import Outbox.
From S2P Require Import Conversation.
From S2P Require Import ConversationTheory.

Section transactions.
Context {E : Type} `{TurnEngineLaws E} `{!Fernet}.
Implicit Types (s : Session E) (db : ConversationDb E) (t : TurnContract) (tn : TurnRecord)
  (c : ConversationRecord E) (q : Request E) (now : Z).

Notation conversation_of := (fun c => se_conversation_id (cn_state_json c)).

(** * How a store evolves *)

(** A due record, purged. *)
Definition purge_conversation now c : ConversationRecord E :=
  if expired (cn_raw_retention_until c) now then retire_record c c else c.

(** A record is kept, purged, or advanced by an answer. *)
Definition conversation_evolves now c c' : Prop :=
  c' = c \/ c' = purge_conversation now c \/ (cn_state_version c < cn_state_version c')%Z.

Record db_evolves now db db' : Prop := {
  ev_conversation i c : find_conversation db i = Some c ->
    exists c', find_conversation db' i = Some c' /\ conversation_evolves now c c';
  ev_turn i tn : find_turn db i = Some tn -> exists tn', find_turn db' i = Some tn' /\ core tn' = core tn;
  ev_observed o : o ∈ db_observations db -> o ∈ db_observations db'
}.

Lemma evolves_refl now db : db_evolves now db db.
Proof. split; [|by eauto|done]. intros i c Hc. exists c. split; [done|by left]. Qed.

(** ** What a request remembers *)

(** [s] is what the request reads of the conversation stored as [c]: the same up to
    retirement, with the stored retention of raw text, or none, or one that is over. *)
Definition agrees now s c : Prop :=
  retire s = retire (cn_state_json c) /\
  ((se_raw_storage_enabled s = se_raw_storage_enabled (cn_state_json c) /\
      se_raw_retention_until s = se_raw_retention_until (cn_state_json c))
   \/ (se_raw_storage_enabled s = false /\ se_raw_retention_until s = None)
   \/ expired (se_raw_retention_until s) now = true).

(** [s] was read from the store, with [t] on screen; while no turn was answered in
    between it agrees with the stored record. *)
Record held now db q s t : Prop := {
  hd_id : se_conversation_id s = rq_conversation_id q;
  hd_turn : st_turn (se_engine s) = Some (tc_turn_id t);
  hd_sequential : sequential (se_engine s) t;
  hd_row : exists tn, find_turn db (tc_turn_id t) = Some tn /\ load_turn tn = Ok t /\
    tn_conversation_id tn = se_conversation_id s /\ tn_state_version tn = st_version (se_engine s);
  hd_record : exists c, find_conversation db (se_conversation_id s) = Some c /\
    (st_version (se_engine s) <= cn_state_version c)%Z /\
    (st_version (se_engine s) = cn_state_version c -> agrees now s c)
}.

Lemma agrees_later now now' s c : (now <= now')%Z -> agrees now s c -> agrees now' s c.
Proof.
  intros Hn [Hr [Ha|[Ha|Ha]]]; split; auto. right. right. by eapply expired_later.
Qed.

Lemma agrees_purge now s c : cn_raw_retention_until c = se_raw_retention_until (cn_state_json c) ->
  agrees now s c -> agrees now s (purge_conversation now c).
Proof.
  intros Hu [Hr Ha]. unfold purge_conversation. destruct (expired (cn_raw_retention_until c) now) eqn:Ex; [|done].
  split; cbn [retire_record cn_state_json]; [by rewrite retire_idem|]. right.
  destruct Ha as [[_ He]|Ha]; [|done]. right. by rewrite He, <- Hu.
Qed.

Lemma purge_conversation_version now c : cn_state_version (purge_conversation now c) = cn_state_version c.
Proof. unfold purge_conversation. by destruct (expired _ _). Qed.

Lemma held_evolves now now' db db' q s t :
  db_ok db -> (now <= now')%Z -> db_evolves now' db db' -> held now db q s t -> held now' db' q s t.
Proof.
  intros Hok Hn [Hc Ht _] [Hid Hturn Hseq (tn & Hrow & Hload & Hconv & Hver) (c & Hfind & Hle & Hag)].
  split; [done..| |].
  - destruct (Ht _ _ Hrow) as (tn' & Hrow' & Hcore). exists tn'. split; [done|].
    rewrite (core_load _ _ Hcore), (core_conversation _ _ Hcore), (core_version _ _ Hcore). done.
  - destruct (Hc _ _ Hfind) as (c' & Hfind' & Hev). exists c'. split; [done|].
    apply by_key_Some in Hfind as [Hin _]. pose proof (dk_conversations _ Hok c Hin) as Hcok.
    destruct Hev as [-> | [-> | Hlt]].
    + split; [done|]. intros Hv. by apply (agrees_later now), Hag.
    + rewrite purge_conversation_version. split; [done|]. intros Hv.
      apply agrees_purge; [by apply (co_until _ _ Hcok)|]. by apply (agrees_later now), Hag.
    + split; [lia|]. intros Hv. lia.
Qed.

(** A state just read from the store. *)
Lemma held_load now db q c tn t : conversation_of c = rq_conversation_id q ->
  find_conversation db (rq_conversation_id q) = Some c -> conversation_ok db c -> on_screen db c tn t ->
  held now db q (load_state now (cn_state_json c)) t.
Proof.
  intros Hid Hfind [Hver Hst Hun _] [Hturn Hrow Hconv Hv Hload _ _ Hseq].
  pose proof (retire_load now (cn_state_json c)) as Hr.
  destruct (retire_same _ _ Hr) as (Hi & _ & _ & Hve & Htu & _).
  split.
  - by rewrite Hi.
  - by rewrite Htu.
  - unfold load_state. destruct (expired _ _); [|done]. by apply seq_clear.
  - exists tn. rewrite Hi, Hve. split_and!; try done. by rewrite Hv.
  - exists c. rewrite Hi, Hid, Hve, <- Hver. split; [done|]. split; [lia|]. intros _. split; [done|].
    unfold load_state. destruct (expired _ _); [right|]; by left.
Qed.

Lemma screen_exists db c : db_ok db -> c ∈ db_conversations db -> exists tn t, on_screen db c tn t.
Proof. intros Hok Hc. apply (co_screen _ _ (dk_conversations _ Hok c Hc)). Qed.

(** * Answering a turn *)

Section commit.
Variables (db db' : ConversationDb E) (q : Request E) (s : Session E) (now : Z).
Variables (t t1 t' : TurnContract) (e' : E).
Hypothesis Hok : db_ok db.
Hypothesis Hheld : held now db q s t.
Hypothesis Hanchor : st_anchor (se_engine s) t = Ok t1.
Hypothesis Hgate : st_gate (se_engine s) t1 (rq_response q) = Ok tt.
Hypothesis Hanswers : st_answers (se_engine s) t1 (rq_response q) e' t'.
Hypothesis Hcommit : commit_turn q s (with_engine s e') t' now db = Ok db'.

(** The state that is stored, and whether raw text is. *)
Let past := expired (se_raw_retention_until s) now.
Let next := if past then retire (with_engine s e') else with_engine s e'.
Let raw := se_raw_storage_enabled s && negb past.
Let i := se_conversation_id s.

(** The answered row and the record it belongs to. *)
Record commit_facts c tn : Prop := {
  cf_record : find_conversation db i = Some c;
  cf_agrees : agrees now s c;
  cf_version : cn_state_version c = st_version (se_engine s);
  cf_screen : on_screen db c tn t;
  cf_row : tn_turn_id tn = tc_turn_id t;
  cf_response : cr_turn_id (rq_response q) = tc_turn_id t;
  cf_pair o : o ∈ db_observations db -> observation_pair o <> (i, rq_response_id q);
  cf_fresh : find_turn db (tc_turn_id t') = None;
  cf_db : db' = {|
    db_conversations := map (update_conversation i next) (db_conversations db);
    db_turns := map (fun tn => if decide (tn_turn_id tn = tc_turn_id t)
                               then answer_turn q s (tc_turn_id t') now raw tn else tn) (db_turns db)
                ++ [turn_record next t'];
    db_observations := db_observations db ++
      [{| ob_source_turn_id := tc_turn_id t; ob_conversation_id := i; ob_response_id := rq_response_id q |}];
    db_notes := db_notes db ++ turn_notes t';
    db_events := db_events db ++ turn_events q t' now |}
}.

Lemma response_turn : cr_turn_id (rq_response q) = tc_turn_id t.
Proof. rewrite (gate_turn_id _ _ _ Hgate). by apply (anchor_turn _ _ _ Hanchor). Qed.

Lemma constraints_Ok : constraints q i t' db = Ok tt ->
  (forall o, o ∈ db_observations db -> observation_pair o <> (i, rq_response_id q)) /\
  find_turn db (tc_turn_id t') = None.
Proof.
  unfold constraints. intros Hc. res_inv. split.
  - intros o Ho Hp. apply not_true_iff_false in E0. apply E0, existsb_exists. exists o.
    split; [by apply list_elem_of_In|]. apply orb_true_iff. right. by apply bool_decide_eq_true.
  - apply bool_decide_eq_false in E4. destruct (find_turn db _); [|done]. exfalso. by apply E4.
Qed.

Lemma commit_facts_hold : exists c tn, commit_facts c tn.
Proof.
  pose proof response_turn as Hresp. destruct Hheld as [Hid Hturn Hseq Hrow0 (c & Hfind & Hle & Hag)].
  pose proof Hcommit as Hc. unfold commit_turn in Hc. fold i in Hc, Hfind. rewrite Hfind in Hc.
  cbn [or_raise mbind res_bind] in Hc.
  destruct (negb (cn_state_version c =? _)%Z) eqn:Ev; [done|]. cbn [raise_if mbind res_bind] in Hc.
  rewrite Hresp in Hc. destruct (find_turn db (tc_turn_id t)) as [tn|] eqn:Erow; [|done].
  cbn [or_raise mbind res_bind] in Hc.
  destruct (negb (bool_decide (tn_conversation_id tn = i))) eqn:Econv; [done|]. cbn [raise_if mbind res_bind] in Hc.
  destruct (tn_response_id tn) eqn:Eresp; [done|]. cbn [mbind res_bind] in Hc.
  destruct (constraints q i t' db) as [[]|] eqn:Econ; [|done]. cbn [mbind res_bind] in Hc. injection Hc as Hdb.
  apply constraints_Ok in Econ as [Hpair Hfresh].
  apply negb_false_iff, Z.eqb_eq in Ev. specialize (Hag (eq_sym Ev)).
  assert (Hin : c ∈ db_conversations db) by (by apply by_key_Some in Hfind as [? _]).
  destruct (screen_exists db c Hok Hin) as (tn0 & t0 & Hscreen).
  pose proof (proj1 Hag) as Hret. apply retire_same in Hret as (_ & _ & _ & _ & Htu & _).
  assert (tc_turn_id t0 = tc_turn_id t) as Htid.
  { pose proof (os_turn _ _ _ _ Hscreen) as Ht0. rewrite <- Htu, Hturn in Ht0. by injection Ht0. }
  pose proof (os_row _ _ _ _ Hscreen) as Hrow1. rewrite Htid, Erow in Hrow1. injection Hrow1 as <-.
  destruct Hrow0 as (tn1 & [= <-] & Hload & _).
  assert (t0 = t) as ->. { pose proof (os_loads _ _ _ _ Hscreen). congruence. }
  exists c, tn. split; try done. by apply by_key_Some in Erow as [_ ?].
Qed.

(** ** The stored state *)

Lemma next_answers : st_turn e' = Some (tc_turn_id t') /\ st_version e' = (st_version (se_engine s) + 1)%Z
  /\ sequential e' t'.
Proof.
  destruct (answers_turn _ _ _ _ _ Hanswers) as [Ht Hv]. split; [done|]. split; [done|].
  eapply seq_answer; [apply Hheld|]. by eapply anchor_answers.
Qed.

Lemma next_engine : se_engine next = e' \/ se_engine next = st_clear_evidence e'.
Proof. unfold next. destruct past; [by right|by left]. Qed.

Lemma next_state : se_conversation_id next = i /\ se_key next = se_key s /\
  st_turn (se_engine next) = Some (tc_turn_id t') /\
  st_version (se_engine next) = (st_version (se_engine s) + 1)%Z /\ sequential (se_engine next) t'.
Proof.
  destruct next_answers as (Ht & Hv & Hseq). unfold next. destruct past; simpl; [|done].
  rewrite clear_turn, clear_version. split_and!; try done. by apply seq_clear.
Qed.

Section facts.
Variables (c : ConversationRecord E) (tn : TurnRecord).
Hypothesis Hf : commit_facts c tn.

Definition answer tn : TurnRecord :=
  if decide (tn_turn_id tn = tc_turn_id t) then answer_turn q s (tc_turn_id t') now raw tn else tn.

Lemma answer_core_same x : core (answer x) = core x.
Proof. unfold answer. by case_decide. Qed.

Definition answered_observation : ObservationRecord :=
  {| ob_source_turn_id := tc_turn_id t; ob_conversation_id := i; ob_response_id := rq_response_id q |}.

Lemma after_turns : db_turns db' = map answer (db_turns db) ++ [turn_record next t'].
Proof. by rewrite (cf_db _ _ Hf). Qed.
Lemma after_observations : db_observations db' = db_observations db ++ [answered_observation].
Proof. by rewrite (cf_db _ _ Hf). Qed.

Lemma after_turn j x : find_turn db j = Some x -> find_turn db' j = Some (answer x).
Proof.
  intros Hj. rewrite find_turn_by_key, after_turns, by_key_app, by_key_map by (intros y; apply core_id, answer_core_same).
  by rewrite <- find_turn_by_key, Hj.
Qed.

Lemma after_new_turn : find_turn db' (tc_turn_id t') = Some (turn_record next t').
Proof.
  rewrite find_turn_by_key, after_turns, by_key_app, by_key_map by (intros y; apply core_id, answer_core_same).
  rewrite <- find_turn_by_key, (cf_fresh _ _ Hf). simpl. unfold by_key. simpl. by rewrite bool_decide_eq_true_2.
Qed.

Lemma after_conversation j : find_conversation db' j = update_conversation i next <$> find_conversation db j.
Proof.
  rewrite !find_conversation_by_key, (cf_db _ _ Hf). apply by_key_map. intros y. unfold update_conversation.
  case_decide as Hy; [|done]. simpl. rewrite Hy. apply next_state.
Qed.

Lemma after_elem x : x ∈ db_turns db' -> x = turn_record next t' \/ exists y, y ∈ db_turns db /\ x = answer y.
Proof.
  rewrite after_turns, elem_of_app, list_elem_of_singleton. intros [Hx|Hx]; [right|by left].
  apply list_elem_of_fmap in Hx as (y & -> & Hy). eauto.
Qed.

Lemma after_elem_old y : y ∈ db_turns db -> answer y ∈ db_turns db'.
Proof. intros Hy. rewrite after_turns. apply elem_of_app. left. by apply list_elem_of_fmap_2. Qed.
Lemma after_elem_new : turn_record next t' ∈ db_turns db'.
Proof. rewrite after_turns. apply elem_of_app. right. by apply list_elem_of_singleton. Qed.

(** The answered row among the rows. *)
Lemma row_in : tn ∈ db_turns db.
Proof. pose proof (os_row _ _ _ _ (cf_screen _ _ Hf)) as Hr. by apply by_key_Some in Hr as [? _]. Qed.

Lemma row_only y : y ∈ db_turns db -> tn_turn_id y = tc_turn_id t -> y = tn.
Proof.
  intros Hy Hid. eapply (same_key tn_turn_id); [apply Hok|done|apply row_in|]. by rewrite (cf_row _ _ Hf).
Qed.

Lemma record_in : c ∈ db_conversations db /\ se_conversation_id (cn_state_json c) = i.
Proof. pose proof (cf_record _ _ Hf) as Hr. by apply by_key_Some in Hr. Qed.

Lemma commit_evolves : db_evolves now db db'.
Proof.
  split.
  - intros j c0 Hj. rewrite after_conversation, Hj. eexists. split; [done|]. unfold update_conversation.
    case_decide as Hd; [|by left]. right. right. simpl. apply by_key_Some in Hj as [Hin _].
    assert (c0 = c) as ->.
    { eapply (same_key conversation_of); [apply Hok|done|apply record_in|]. simpl. rewrite Hd. symmetry. apply record_in. }
    rewrite (cf_version _ _ Hf). destruct next_state as (_ & _ & _ & -> & _). lia.
  - intros j x Hx. exists (answer x). split; [by apply after_turn|apply answer_core_same].
  - intros o Ho. rewrite after_observations. apply elem_of_app. by left.
Qed.

Lemma follows_after o x y : follows db o x y -> follows db' o (answer x) (answer y).
Proof.
  intros (Hs & Hc & Hy & Hcy & Hv). pose proof (answer_core_same x) as Hx. pose proof (answer_core_same y) as Hyc.
  split_and!; [by apply after_turn|by rewrite (core_conversation _ _ Hx)|by apply after_elem_old| |].
  - by rewrite (core_conversation _ _ Hyc).
  - by rewrite (core_version _ _ Hx), (core_version _ _ Hyc).
Qed.

Lemma follows_new : follows db' answered_observation (answer tn) (turn_record next t').
Proof.
  pose proof (cf_screen _ _ Hf) as Hs. destruct next_state as (Hi & _ & _ & Hv & _).
  split_and!; [by apply after_turn, (os_row _ _ _ _ Hs)| |apply after_elem_new|done|].
  - rewrite (core_conversation _ _ (answer_core_same tn)), (os_conversation _ _ _ _ Hs). apply record_in.
  - rewrite (core_version _ _ (answer_core_same tn)), (os_version _ _ _ _ Hs), (cf_version _ _ Hf). simpl. by rewrite Hv.
Qed.

(** ** The invariant *)

Lemma after_turn_ids : NoDup (map tn_turn_id (db_turns db')).
Proof.
  rewrite after_turns. apply NoDup_keys_snoc.
  - rewrite keys_map; [apply Hok|]. intros y. apply core_id, answer_core_same.
  - rewrite keys_map by (intros y; apply core_id, answer_core_same). simpl.
    apply by_key_None. rewrite <- find_turn_by_key. apply (cf_fresh _ _ Hf).
Qed.

Lemma after_versions :
  NoDup (map (fun x => (tn_conversation_id x, tn_state_version x)) (db_turns db')).
Proof.
  set (f := fun x => (tn_conversation_id x, tn_state_version x)).
  assert (Hg : forall y, f (answer y) = f y).
  { intros y. unfold f. by rewrite (core_conversation _ _ (answer_core_same y)), (core_version _ _ (answer_core_same y)). }
  rewrite after_turns. apply NoDup_keys_snoc; rewrite keys_map by done; [apply Hok|].
  intros (y & Hy & Hin)%list_elem_of_fmap. destruct next_state as (Hi & _ & _ & Hv & _).
  unfold f, turn_record in Hy. simpl in Hy. rewrite Hi, Hv in Hy. injection Hy as Hyc Hyv.
  destruct (dk_owned _ Hok y Hin) as (c0 & Hc0 & Hle & _). rewrite <- Hyc in Hc0.
  rewrite (cf_record _ _ Hf) in Hc0. injection Hc0 as <-. pose proof (cf_version _ _ Hf). lia.
Qed.

Lemma after_owned x : x ∈ db_turns db' -> exists c0, find_conversation db' (tn_conversation_id x) = Some c0 /\
  (tn_state_version x <= cn_state_version c0)%Z /\
  ((tn_state_version x < cn_state_version c0)%Z -> tn_turn_id x ∈ map ob_source_turn_id (db_observations db')).
Proof.
  destruct next_state as (Hi & _ & _ & Hv & _). intros [-> | (y & Hy & ->)]%after_elem.
  - rewrite after_conversation. simpl. rewrite Hi, (cf_record _ _ Hf). eexists. split; [done|].
    unfold update_conversation. rewrite decide_True by apply record_in. simpl. lia.
  - pose proof (answer_core_same y) as Hc. rewrite (core_conversation _ _ Hc), (core_version _ _ Hc), (core_id _ _ Hc).
    destruct (dk_owned _ Hok y Hy) as (c0 & Hc0 & Hle & Hobs). rewrite after_conversation, Hc0. eexists. split; [done|].
    rewrite after_observations, map_app, elem_of_app. unfold update_conversation. case_decide as Hd; [|by auto].
    apply by_key_Some in Hc0 as [Hin Hcid]. simpl. rewrite Hv.
    assert (c0 = c) as ->.
    { eapply (same_key conversation_of); [apply Hok|done|apply record_in|]. simpl. rewrite Hd. symmetry. apply record_in. }
    pose proof (cf_version _ _ Hf). split; [lia|]. intros Hlt.
    destruct (decide (tn_state_version y = cn_state_version c)) as [Heq|Hne]; [right|left; apply Hobs; lia].
    apply list_elem_of_singleton. simpl. rewrite <- (cf_row _ _ Hf). f_equal.
    eapply (same_key (fun x => (tn_conversation_id x, tn_state_version x))); [apply Hok|done|apply row_in|].
    pose proof (cf_screen _ _ Hf) as Hs. rewrite (os_conversation _ _ _ _ Hs), (os_version _ _ _ _ Hs). simpl in Hcid. congruence.
Qed.

Lemma after_answered x r : x ∈ db_turns db' -> tn_response_id x = Some r ->
  exists o j y, o ∈ db_observations db' /\ ob_source_turn_id o = tn_turn_id x /\
    observation_pair o = (tn_conversation_id x, r) /\
    tn_result_turn_id x = Some j /\ find_turn db' j = Some y /\ follows db' o x y.
Proof.
  intros [-> | (y & Hy & ->)]%after_elem Hr; [done|]. unfold answer in Hr. case_decide as Hd.
  - assert (y = tn) as -> by (by apply row_only). simpl in Hr. injection Hr as <-.
    exists answered_observation, (tc_turn_id t'), (turn_record next t'). rewrite after_observations.
    split; [by apply elem_of_app; right; left|]. pose proof follows_new as Hfo. unfold answer in *.
    rewrite decide_True in * by done. split; [by simpl; rewrite Hd|]. split; [|split; [done|split; [apply after_new_turn|done]]].
    unfold observation_pair. simpl. f_equal. pose proof (cf_screen _ _ Hf) as Hs.
    rewrite (os_conversation _ _ _ _ Hs). symmetry. apply record_in.
  - destruct (dk_answered _ Hok y r Hy Hr) as (o & j & z & Ho & Hsrc & Hpair & Hres & Hj & Hfo).
    exists o, j, (answer z). rewrite after_observations.
    assert (answer y = y) as Hay by (unfold answer; by rewrite decide_False).
    rewrite Hay. split; [by apply elem_of_app; left|]. split; [done|]. split; [done|]. split; [done|].
    split; [by apply after_turn|]. rewrite <- Hay. by apply follows_after.
Qed.

Lemma after_conversations c0 : c0 ∈ db_conversations db' -> conversation_ok db' c0.
Proof.
  destruct next_state as (Hi & _ & Ht & Hv & Hseq).
  assert (Hin0 : db_conversations db' = map (update_conversation i next) (db_conversations db))
    by (by rewrite (cf_db _ _ Hf)).
  rewrite Hin0. intros (c1 & -> & Hin)%list_elem_of_fmap. unfold update_conversation. case_decide as Hd.
  - split; [done..|]. exists (turn_record next t'), t'. split; try done.
    + apply after_new_turn.
    + apply load_turn_record.
    + rewrite after_observations, map_app, elem_of_app. simpl. rewrite list_elem_of_singleton.
      pose proof (cf_fresh _ _ Hf) as Hfresh. intros [(o & Hoid & Ho)%list_elem_of_fmap | Heq].
      * destruct (dk_observed _ Hok o Ho) as (x & y & Hx & _). congruence.
      * pose proof (os_row _ _ _ _ (cf_screen _ _ Hf)). congruence.
  - destruct (dk_conversations _ Hok c1 Hin) as [H1 H2 H3 (x & u & [Hturn Hrow Hconv Hver Hload Hopen Hun Hsq])].
    split; [done..|]. exists x, u.
    assert (Hne : tc_turn_id u <> tc_turn_id t).
    { intros Heq. rewrite Heq, (os_row _ _ _ _ (cf_screen _ _ Hf)) in Hrow. injection Hrow as <-.
      apply Hd. rewrite <- Hconv, (os_conversation _ _ _ _ (cf_screen _ _ Hf)). apply record_in. }
    split; try done.
    + rewrite (after_turn _ _ Hrow). unfold answer. rewrite decide_False; [done|].
      apply by_key_Some in Hrow as [_ Hid]. by rewrite Hid.
    + rewrite after_observations, map_app, elem_of_app. simpl. rewrite list_elem_of_singleton. by intros [].
Qed.

Lemma after_keys c1 c2 : c1 ∈ db_conversations db' -> c2 ∈ db_conversations db' ->
  is_Some (ck_learning_session_id (se_key (cn_state_json c1))) ->
  se_key (cn_state_json c1) = se_key (cn_state_json c2) -> conversation_of c1 = conversation_of c2.
Proof.
  assert (Hold : forall c', c' ∈ db_conversations db' -> exists c0, c0 ∈ db_conversations db /\
    se_key (cn_state_json c') = se_key (cn_state_json c0) /\ conversation_of c' = conversation_of c0).
  { intros c'. rewrite (cf_db _ _ Hf). intros (c0 & -> & Hin)%list_elem_of_fmap. unfold update_conversation.
    case_decide as Hd; [|by eauto]. exists c. destruct next_state as (Hi & Hk & _). destruct record_in as [Hc Hci].
    destruct (cf_agrees _ _ Hf) as [Hret _]. apply retire_same in Hret as (_ & Hkey & _). simpl. rewrite Hk, Hi, Hci. by split. }
  intros (d1 & Hd1 & Hk1 & Hi1)%Hold (d2 & Hd2 & Hk2 & Hi2)%Hold Hls Heq. rewrite Hi1, Hi2.
  apply (dk_keys _ Hok); [done..| |]; congruence.
Qed.

Lemma commit_ok : db_ok db'.
Proof.
  pose proof commit_evolves as Hev. split; try first [apply after_turn_ids|apply after_versions|apply after_owned
    |apply after_answered|apply after_conversations|apply after_keys].
  - rewrite (cf_db _ _ Hf). cbn [db_conversations]. rewrite keys_map; [apply Hok|]. intros y. unfold update_conversation.
    case_decide as Hy; [|done]. simpl. rewrite Hy. apply next_state.
  - rewrite after_observations. apply NoDup_keys_snoc; [apply Hok|]. apply (os_unobserved _ _ _ _ (cf_screen _ _ Hf)).
  - rewrite after_observations. apply NoDup_keys_snoc; [apply Hok|].
    intros (o & Ho & Hin)%list_elem_of_fmap. by apply (cf_pair _ _ Hf o).
  - intros o. rewrite after_observations, elem_of_app, list_elem_of_singleton. intros [Ho| ->].
    + destruct (dk_observed _ Hok o Ho) as (x & y & Hxy). exists (answer x), (answer y). by apply follows_after.
    + exists (answer tn), (turn_record next t'). apply follows_new.
  - intros x [-> | (y & Hy & ->)]%after_elem; [eexists; apply load_turn_record|].
    rewrite (core_load _ _ (answer_core_same y)). by apply (dk_loads _ Hok).
  - rewrite (cf_db _ _ Hf). cbn [db_events db_observations]. rewrite List.filter_app, !length_app, (dk_events _ Hok).
    f_equal. unfold turn_events. simpl. by destruct (tc_note_update t').
Qed.
End facts.
End commit.
End transactions.

(** * Creation and purge

    The other two transactions of the conversation store: the creation of a
    conversation and the retention purge keep the store's invariant, and both let
    the store evolve. *)

Section upkeep.
Context {E : Type} `{TurnEngineLaws E} `{!Fernet}.
Implicit Types (s : Session E) (db : ConversationDb E) (t : TurnContract) (tn : TurnRecord)
  (c : ConversationRecord E) (now : Z).

Notation conversation_of := (fun c => se_conversation_id (cn_state_json c)).

(** * Creation *)

Definition created s : ConversationRecord E := {|
  cn_state_json := s; cn_state_version := st_version (se_engine s);
  cn_status := st_status (se_engine s); cn_raw_retention_until := se_raw_retention_until s |}.

(** A creation returns the conversation stored under the key, or inserts one. *)
Variant creation s t db : string -> ConversationDb E -> Prop :=
  | creation_winner i : is_Some (ck_learning_session_id (se_key s)) -> conversation_id_for db (se_key s) = Some i ->
      creation s t db i db
  | creation_insert :
      (is_Some (ck_learning_session_id (se_key s)) -> conversation_id_for db (se_key s) = None) ->
      find_conversation db (se_conversation_id s) = None -> find_turn db (tc_turn_id t) = None ->
      creation s t db (se_conversation_id s) {|
        db_conversations := db_conversations db ++ [created s];
        db_turns := db_turns db ++ [turn_record s t];
        db_observations := db_observations db; db_notes := db_notes db; db_events := db_events db |}.

Lemma create_creation s t db i db' : create_conversation s t db = Ok (i, db') -> creation s t db i db'.
Proof.
  unfold create_conversation. intros Hc. destruct (bool_decide (is_Some (ck_learning_session_id _)) && _) eqn:Ek.
  - apply andb_prop in Ek as [Hl%bool_decide_eq_true _].
    destruct (conversation_id_for db (se_key s)) eqn:Ew; [|done]. injection Hc as <- <-. by constructor.
  - destruct (bool_decide (is_Some (find_conversation _ _)) || _) eqn:Ei; [done|]. injection Hc as <- <-.
    apply orb_false_iff in Ei as [Hi%bool_decide_eq_false Ht%bool_decide_eq_false].
    constructor; [|by apply eq_None_not_Some|by apply eq_None_not_Some].
    intros Hl. apply andb_false_iff in Ek as [Hk%bool_decide_eq_false | Hk%bool_decide_eq_false]; [done|].
    by apply eq_None_not_Some.
Qed.

Lemma key_unused db k c : conversation_id_for db k = None -> c ∈ db_conversations db -> se_key (cn_state_json c) <> k.
Proof.
  unfold conversation_id_for. rewrite fmap_None, find_first_None. intros Hn Hc.
  specialize (Hn c Hc). by apply bool_decide_eq_false in Hn.
Qed.

Section insert.
Variables (db : ConversationDb E) (s : Session E) (t : TurnContract).
Hypothesis Hok : db_ok db.
Hypothesis Hstart : st_starts (se_engine s) t.
Hypothesis Hkey : is_Some (ck_learning_session_id (se_key s)) -> conversation_id_for db (se_key s) = None.
Hypothesis Hid : find_conversation db (se_conversation_id s) = None.
Hypothesis Hturn : find_turn db (tc_turn_id t) = None.

Definition inserted : ConversationDb E := {|
  db_conversations := db_conversations db ++ [created s];
  db_turns := db_turns db ++ [turn_record s t];
  db_observations := db_observations db; db_notes := db_notes db; db_events := db_events db |}.

Lemma inserted_conversation i c : find_conversation db i = Some c -> find_conversation inserted i = Some c.
Proof. rewrite !find_conversation_by_key. simpl. intros Hc. by rewrite by_key_app, Hc. Qed.
Lemma inserted_turn i tn : find_turn db i = Some tn -> find_turn inserted i = Some tn.
Proof. rewrite !find_turn_by_key. simpl. intros Hc. by rewrite by_key_app, Hc. Qed.
Lemma inserted_new_conversation : find_conversation inserted (se_conversation_id s) = Some (created s).
Proof.
  pose proof Hid as Hn. rewrite find_conversation_by_key in *. simpl. rewrite by_key_app, Hn.
  unfold by_key. simpl. by rewrite bool_decide_eq_true_2.
Qed.
Lemma inserted_new_turn : find_turn inserted (tc_turn_id t) = Some (turn_record s t).
Proof.
  pose proof Hturn as Hn. rewrite find_turn_by_key in *. simpl. rewrite by_key_app, Hn.
  unfold by_key. simpl. by rewrite bool_decide_eq_true_2.
Qed.

Lemma old_turn tn : tn ∈ db_turns db ->
  tn_conversation_id tn <> se_conversation_id s /\ tn_turn_id tn <> tc_turn_id t.
Proof.
  intros Hin. split; intros Heq.
  - destruct (dk_owned _ Hok tn Hin) as (c & Hc & _). congruence.
  - pose proof (by_key_unique tn_turn_id _ _ (dk_turns _ Hok) Hin) as Hk. rewrite Heq, <- find_turn_by_key in Hk. congruence.
Qed.

Lemma inserted_follows o tn tn' : follows db o tn tn' -> follows inserted o tn tn'.
Proof.
  intros (Hs & Hc & Hin & Hr). split; [by apply inserted_turn|]. split; [done|]. split; [|done].
  simpl. apply elem_of_app. by left.
Qed.

Lemma inserted_conversation_ok c : c ∈ db_conversations inserted -> conversation_ok inserted c.
Proof.
  simpl. rewrite elem_of_app, list_elem_of_singleton. intros [Hc| ->].
  - destruct (dk_conversations _ Hok c Hc) as [? ? ? (tn & u & [Ht Hrow Hr])]. split; [done..|].
    exists tn, u. split; try done. by apply inserted_turn.
  - split; [done..|]. exists (turn_record s t), t. split; try done.
    + by apply starts_turn.
    + apply inserted_new_turn.
    + apply load_turn_record.
    + simpl. intros (o & Heq & Ho)%list_elem_of_fmap. destruct (dk_observed _ Hok o Ho) as (x & y & Hx & _).
      rewrite <- Heq in Hx. congruence.
    + by constructor.
Qed.

Lemma inserted_keys c1 c2 : c1 ∈ db_conversations inserted -> c2 ∈ db_conversations inserted ->
  is_Some (ck_learning_session_id (se_key (cn_state_json c1))) ->
  se_key (cn_state_json c1) = se_key (cn_state_json c2) -> conversation_of c1 = conversation_of c2.
Proof.
  simpl. rewrite !elem_of_app, !list_elem_of_singleton. intros [H1| ->] [H2| ->] Hl Heq; simpl in *; [..|done].
  - by apply (dk_keys _ Hok).
  - rewrite Heq in Hl. by apply (key_unused _ _ _ (Hkey Hl)) in H1.
  - by apply (key_unused _ _ _ (Hkey Hl)) in H2.
Qed.

Lemma inserted_owned tn : tn ∈ db_turns inserted -> exists c, find_conversation inserted (tn_conversation_id tn) = Some c /\
  (tn_state_version tn <= cn_state_version c)%Z /\
  ((tn_state_version tn < cn_state_version c)%Z -> tn_turn_id tn ∈ map ob_source_turn_id (db_observations inserted)).
Proof.
  simpl. rewrite elem_of_app, list_elem_of_singleton. intros [Hin| ->].
  - destruct (dk_owned _ Hok tn Hin) as (c & Hc & Hr). exists c. split; [by apply inserted_conversation|done].
  - exists (created s). split; [apply inserted_new_conversation|]. simpl. lia.
Qed.

Lemma inserted_answered tn r : tn ∈ db_turns inserted -> tn_response_id tn = Some r ->
  exists o i tn', o ∈ db_observations inserted /\ ob_source_turn_id o = tn_turn_id tn /\
    observation_pair o = (tn_conversation_id tn, r) /\
    tn_result_turn_id tn = Some i /\ find_turn inserted i = Some tn' /\ follows inserted o tn tn'.
Proof.
  simpl. rewrite elem_of_app, list_elem_of_singleton. intros [Hin| ->] Hr; [|done].
  destruct (dk_answered _ Hok tn r Hin Hr) as (o & i & tn' & Ho & Hsrc & Hp & Hres & Hi & Hfo).
  exists o, i, tn'. split_and!; try done; [by apply inserted_turn|by apply inserted_follows].
Qed.

Lemma inserted_ok : db_ok inserted.
Proof.
  split; try first [apply inserted_keys|apply inserted_owned|apply inserted_answered|apply inserted_conversation_ok|apply Hok].
  - simpl. apply NoDup_keys_snoc; [apply Hok|]. simpl. by apply by_key_None.
  - simpl. apply NoDup_keys_snoc; [apply Hok|]. simpl. by apply by_key_None.
  - simpl. apply NoDup_keys_snoc; [apply Hok|]. simpl. intros (y & Hy & Hin)%list_elem_of_fmap.
    destruct (old_turn _ Hin) as [Hne _]. injection Hy as Hy _. by apply Hne.
  - intros o Ho. destruct (dk_observed _ Hok o Ho) as (x & y & Hxy). exists x, y. by apply inserted_follows.
  - simpl. intros x. rewrite elem_of_app, list_elem_of_singleton. intros [Hx| ->]; [by apply (dk_loads _ Hok)|].
    eexists. apply load_turn_record.
Qed.
End insert.

Lemma create_ok s t db i db' : db_ok db -> st_starts (se_engine s) t -> create_conversation s t db = Ok (i, db') -> db_ok db'.
Proof. intros Hok Hs [j _ _|Hk Hi Ht]%create_creation; [done|]. by apply inserted_ok. Qed.

Lemma create_evolves s t db i db' now : create_conversation s t db = Ok (i, db') -> db_evolves now db db'.
Proof.
  intros [j _ _|Hk Hi Ht]%create_creation; [apply evolves_refl|]. split; [| |done].
  - intros j c Hc. exists c. split; [by apply inserted_conversation|by left].
  - intros j tn Hc. exists tn. split; [by apply inserted_turn|done].
Qed.

(** * The purge *)

Section purge.
Variables (db : ConversationDb E) (now : Z).

(** The row of a due conversation is the one the purge has read. *)
Variable due : list (ConversationRecord E).
Hypothesis Hdue : forall d, d ∈ due -> d ∈ purge_due now db.

Lemma due_in d : d ∈ due -> d ∈ db_conversations db /\ expired (cn_raw_retention_until d) now = true.
Proof. intros [Hd%list_elem_of_In He]%Hdue%list_elem_of_In%filter_In. done. Qed.

Lemma overwrite_id c : conversation_of (overwrite due c) = conversation_of c.
Proof.
  unfold overwrite. destruct (find_first _ due) as [d|] eqn:Ef; [|done]. apply find_first_Some in Ef as [_ Hd%bool_decide_eq_true].
  done.
Qed.

#[local] Notation purged := (purge_write now due db).
Definition forget tn : TurnRecord := forget_response now (map conversation_of due) tn.

Lemma purged_conversation i : find_conversation purged i = overwrite due <$> find_conversation db i.
Proof. rewrite !find_conversation_by_key. apply by_key_map. apply overwrite_id. Qed.

Lemma purged_turns : db_turns purged = map forget (db_turns db).
Proof. done. Qed.

Lemma purged_turn i : find_turn purged i = forget <$> find_turn db i.
Proof. rewrite !find_turn_by_key, purged_turns. by apply by_key_map. Qed.

Lemma purged_follows o tn tn' : follows db o tn tn' -> follows purged o (forget tn) (forget tn').
Proof.
  intros (Hs & Hc & Hin & Hcn & Hv). split_and!; try done; [by rewrite purged_turn, Hs|].
  rewrite purged_turns. by apply list_elem_of_fmap_2.
Qed.

Hypothesis Hok : db_ok db.

(** So a record is overwritten with itself, retired, or kept. *)
Lemma overwrite_stored c : c ∈ db_conversations db ->
  overwrite due c = c \/ (c ∈ due /\ expired (cn_raw_retention_until c) now = true /\ overwrite due c = retire_record c c).
Proof.
  intros Hc. unfold overwrite. destruct (find_first _ due) as [d|] eqn:Ef; [|by left]. right.
  apply find_first_Some in Ef as [Hd Hid%bool_decide_eq_true]. destruct (due_in d Hd) as [Hin He].
  assert (d = c) as -> by (eapply (same_key conversation_of); [apply Hok|done..]). done.
Qed.

Lemma overwrite_later now' c : (now <= now')%Z -> c ∈ db_conversations db ->
  overwrite due c = c \/ overwrite due c = purge_conversation now' c.
Proof.
  intros Hn Hc. destruct (overwrite_stored c Hc) as [->|(_ & He & ->)]; [by left|]. right. unfold purge_conversation.
  by rewrite (expired_later _ now now').
Qed.

Lemma purge_same c : c ∈ db_conversations db -> retire (cn_state_json (overwrite due c)) = retire (cn_state_json c).
Proof. intros Hc. destruct (overwrite_stored c Hc) as [->|(_ & _ & ->)]; [done|]. apply retire_idem. Qed.

Lemma purge_version c : cn_state_version (overwrite due c) = cn_state_version c.
Proof. unfold overwrite. by destruct (find_first _ due). Qed.

Lemma purge_evolves now' : (now <= now')%Z -> db_evolves now' db purged.
Proof.
  intros Hn. split; [| |done].
  - intros i c Hc. rewrite purged_conversation, Hc. eexists. split; [done|].
    apply by_key_Some in Hc as [Hin _]. destruct (overwrite_later now' c Hn Hin) as [-> | ->]; [by left|]. right. by left.
  - intros i tn Ht. rewrite purged_turn, Ht. by eexists.
Qed.

Lemma purged_answered tn r : tn ∈ db_turns purged -> tn_response_id tn = Some r ->
  exists o i tn', o ∈ db_observations purged /\ ob_source_turn_id o = tn_turn_id tn /\
    observation_pair o = (tn_conversation_id tn, r) /\ tn_result_turn_id tn = Some i /\
    find_turn purged i = Some tn' /\ follows purged o tn tn'.
Proof.
  rewrite purged_turns. intros (x & -> & Hx)%list_elem_of_fmap. simpl. destruct (expired _ _) eqn:Ex; [done|]. intros Hr.
  destruct (dk_answered _ Hok x r Hx Hr) as (o & i & tn' & Ho & Hsrc & Hp & Hres & Hi & Hfo).
  exists o, i, (forget tn'). split_and!; try done; [by rewrite purged_turn, Hi|]. by apply purged_follows.
Qed.

Lemma purged_conversation_ok c : c ∈ db_conversations purged -> conversation_ok purged c.
Proof.
  intros (c0 & -> & Hc)%list_elem_of_fmap.
  destruct (dk_conversations _ Hok c0 Hc) as [Hv Hs Hu (tn & t & [Ht Hrow Hcn Hver Hl Ho Hun Hsq])].
  destruct (retire_same _ _ (purge_same c0 Hc)) as (Ei & _ & _ & Ev & Et & Es).
  pose proof (overwrite_stored c0 Hc) as Hcase.
  split.
  - by rewrite purge_version, Ev.
  - rewrite Es. by destruct Hcase as [->|(_ & _ & ->)].
  - by destruct Hcase as [->|(_ & _ & ->)].
  - exists (forget tn), t. split; try done.
    + by rewrite Et.
    + by rewrite purged_turn, Hrow.
    + by rewrite Ei.
    + by rewrite purge_version.
    + unfold forget, forget_response. simpl. by destruct (expired (tn_response_expires_at tn) now).
    + destruct Hcase as [->|(_ & _ & ->)]; [done|by apply seq_clear].
Qed.

Lemma purge_ok : db_ok purged.
Proof.
  split; try first [apply purged_answered|apply purged_conversation_ok|apply Hok].
  - simpl. rewrite (keys_map conversation_of); [apply Hok|]. apply overwrite_id.
  - simpl. intros c1 c2 (d1 & -> & H1)%list_elem_of_fmap (d2 & -> & H2)%list_elem_of_fmap Hl Heq.
    destruct (retire_same _ _ (purge_same d1 H1)) as (-> & Ek1 & _), (retire_same _ _ (purge_same d2 H2)) as (-> & Ek2 & _).
    rewrite Ek1 in *. rewrite Ek2 in *. by apply (dk_keys _ Hok).
  - rewrite purged_turns, keys_map; [apply Hok|done].
  - rewrite purged_turns, keys_map; [apply Hok|done].
  - intros x. rewrite purged_turns. intros (y & -> & Hy)%list_elem_of_fmap. simpl.
    destruct (dk_owned _ Hok y Hy) as (c & Hc & Hr). rewrite purged_conversation, Hc. eexists. split; [done|].
    by rewrite purge_version.
  - intros o Ho. destruct (dk_observed _ Hok o Ho) as (x & y & Hxy). exists (forget x), (forget y). by apply purged_follows.
  - intros x. rewrite purged_turns. intros (y & -> & Hy)%list_elem_of_fmap. apply (dk_loads _ Hok y Hy).
Qed.
End purge.

(** A purge run on its own. *)
Lemma overwrite_due db now c : db_ok db -> c ∈ db_conversations db -> overwrite (purge_due now db) c = purge_conversation now c.
Proof.
  intros Hok Hc. destruct (overwrite_stored db now (purge_due now db) (fun d Hd => Hd) Hok c Hc) as [Hk|(_ & He & ->)].
  - unfold purge_conversation. destruct (expired _ _) eqn:Ex; [|done]. exfalso. revert Hk. unfold overwrite.
    destruct (find_first_is_Some (fun d => bool_decide (conversation_of d = conversation_of c)) (purge_due now db) c) as [d Ef].
    + by apply list_elem_of_In, filter_In; split; [apply list_elem_of_In|].
    + by apply bool_decide_eq_true.
    + rewrite Ef. intros Hk. assert (Hu : cn_raw_retention_until (retire_record d c) = cn_raw_retention_until c) by (by rewrite Hk).
      simpl in Hu. by rewrite <- Hu in Ex.
  - unfold purge_conversation. by rewrite He.
Qed.
End upkeep.
