(* ===== verification/ConversationSafety.v ===== *)
(** Concurrent conversations: the invariant of every reachable system of requests,
    creations and purges, and what the store promises under it. *)

From S2P Require Import Prelude.
From S2P Require Import PyStr.
From S2P Require Import PyNum.
From S2P Require Import Json.
From S2P Require Import Schemas.
From S2P Require Import Question.
From S2P Require Import Gate.
From S2P Require Import SpeakerText.
From S2P Require Import SpeakerPlan.
From S2P Require Import Reply.
From S2P Require Import Speak.
From S2P Require Import Lease.
From S2P Require Import Outbox.
From S2P Require Import Conversation.
From S2P Require Import ConversationTheory.
From S2P Require Import ConversationCommit.

Section system.
Context {E : Type} `{TurnEngineLaws E} `{!Fernet}.
Implicit Types (s : Session E) (db : ConversationDb E) (t : TurnContract) (tn : TurnRecord)
  (c : ConversationRecord E) (q : Request E) (now : Z) (p : pc E) (y : System E).

Notation conversation_of := (fun c => se_conversation_id (cn_state_json c)).

(** * What a request knows *)

(** [t] is the stored answer to the request's response. *)
Definition answered_by db q t : Prop := exists o tn tn',
  o ∈ db_observations db /\ observation_pair o = (rq_conversation_id q, rq_response_id q) /\
  follows db o tn tn' /\ load_turn tn' = Ok t.

Definition pc_ok now db q p : Prop :=
  match p with
  | AtPrior | AtState | AtReplay => True
  | AtActive s => exists t, held now db q s t
  | AtEngine s t1 => exists t, held now db q s t /\
      st_anchor (se_engine s) t = Ok t1 /\ st_gate (se_engine s) t1 (rq_response q) = Ok tt
  | AtCommit s s' t1 t' => exists t e', held now db q s t /\
      st_anchor (se_engine s) t = Ok t1 /\ st_gate (se_engine s) t1 (rq_response q) = Ok tt /\
      s' = with_engine s e' /\ st_answers (se_engine s) t1 (rq_response q) e' t'
  | Done (Answered t _) => answered_by db q t
  | Done (Failed _) => True
  end.

Lemma turn_of_row db tn : db_ok db -> tn ∈ db_turns db -> find_turn db (tn_turn_id tn) = Some tn.
Proof. intros Hok. apply by_key_unique, Hok. Qed.

Lemma follows_evolves now db db' o tn tn' : db_ok db -> db_evolves now db db' -> follows db o tn tn' ->
  exists x x', core x = core tn /\ core x' = core tn' /\ follows db' o x x'.
Proof.
  intros Hok [_ Ht _] (Hs & Hc & Hin & Hcn & Hv). destruct (Ht _ _ Hs) as (x & Hx & Ecx).
  destruct (Ht _ _ (turn_of_row _ _ Hok Hin)) as (x' & Hx' & Ecx'). exists x, x'. split; [done|]. split; [done|].
  unfold follows. rewrite (core_conversation _ _ Ecx), (core_conversation _ _ Ecx'), (core_version _ _ Ecx), (core_version _ _ Ecx').
  split_and!; try done. by apply by_key_Some in Hx' as [? _].
Qed.

Lemma answered_evolves now db db' q t : db_ok db -> db_evolves now db db' -> answered_by db q t -> answered_by db' q t.
Proof.
  intros Hok Hev (o & tn & tn' & Ho & Hp & Hf & Hl).
  destruct (follows_evolves _ _ _ _ _ _ Hok Hev Hf) as (x & x' & _ & Ecx' & Hf').
  exists o, x, x'. split; [by apply (ev_observed _ _ _ Hev)|]. by rewrite (core_load _ _ Ecx').
Qed.

Lemma pc_evolves now now' db db' q p : db_ok db -> (now <= now')%Z -> db_evolves now' db db' ->
  pc_ok now db q p -> pc_ok now' db' q p.
Proof.
  intros Hok Hn Hev. pose proof (held_evolves now now' db db' q) as Hh.
  destruct p as [| |s|s t|s s' t t'| |[t b|e]]; simpl; try done; [naive_solver..|].
  by eapply answered_evolves.
Qed.

(** * The steps of a request *)

Lemma active_held now db q s t : held now db q s t -> active_turn s db = Ok t.
Proof.
  intros [_ Ht _ (tn & Hrow & Hl & Hc & _) _]. unfold active_turn. rewrite Ht. cbn. rewrite Hrow. cbn.
  by rewrite bool_decide_eq_true_2.
Qed.

Lemma get_state_held now db q s : db_ok db -> get_state now (rq_conversation_id q) db = Ok s ->
  exists t, held now db q s t.
Proof.
  intros Hok. unfold get_state. destruct (find_conversation db _) as [c|] eqn:Hf; [|done]. intros [= <-].
  pose proof Hf as [Hin Hid]%by_key_Some. destruct (screen_exists db c Hok Hin) as (tn & t & Hs).
  exists t. by apply (held_load now db q c tn t Hid Hf (dk_conversations _ Hok c Hin)).
Qed.

(** A turn found under a response is the one the observation recorded. *)
Lemma response_exists_answered now db q t : db_ok db ->
  response_exists now (rq_conversation_id q) (rq_response_id q) db = Ok (Some t) -> answered_by db q t.
Proof.
  intros Hok. unfold response_exists. destruct (find_first _ _) as [tn|] eqn:Hf; [|done].
  apply find_first_Some in Hf as [Hin Hb]. apply andb_prop in Hb as [Hb _].
  apply andb_prop in Hb as [Hc%bool_decide_eq_true Hr%bool_decide_eq_true].
  destruct (dk_answered _ Hok tn _ Hin Hr) as (o & i & tn' & Ho & Hsrc & Hp & Hres & Hi & Hfo).
  rewrite Hres, Hi. destruct (load_turn tn') as [u|] eqn:Hl; [|done]. intros [= <-].
  exists o, tn, tn'. by rewrite Hp, Hc.
Qed.

Lemma replay_ok now now' db q : db_ok db -> (now <= now')%Z -> forall k, (k = AtState \/ exists e, k = Done (Failed e)) ->
  pc_ok now' db q (fail_or (response_exists now' (rq_conversation_id q) (rq_response_id q) db)
    (fun prior => match prior with Some t => Done (Answered t true) | None => k end)).
Proof.
  intros Hok _ k Hk. destruct (response_exists _ _ _ db) as [[t|]|] eqn:Hr; simpl; [|by destruct Hk as [-> |[e ->]]|done].
  by eapply response_exists_answered.
Qed.

(** ** The commit *)

Lemma committed_answer now db db' q s t t1 e' t' : db_ok db -> held now db q s t ->
  st_anchor (se_engine s) t = Ok t1 -> st_gate (se_engine s) t1 (rq_response q) = Ok tt ->
  st_answers (se_engine s) t1 (rq_response q) e' t' ->
  commit_turn q s (with_engine s e') t' now db = Ok db' ->
  db_ok db' /\ db_evolves now db db' /\ answered_by db' q t'.
Proof.
  intros Hok Hh Ha Hg Hans Hc.
  destruct (commit_facts_hold db db' q s now t t1 t' e' Hok Hh Ha Hg Hc) as (c & tn & Hf).
  split; [by eapply commit_ok|]. split; [by eapply commit_evolves|].
  eexists (answered_observation q s t), _, _. split.
  - erewrite after_observations by done. apply elem_of_app. right. by apply list_elem_of_singleton.
  - split; [|split; [by eapply follows_new|apply load_turn_record]].
    unfold observation_pair. simpl. by rewrite (hd_id _ _ _ _ _ Hh).
Qed.

(** One step of one request. *)
Lemma service_step_ok now db q p : db_ok db -> request_ok q -> pc_ok now db q p ->
  let out := service_step q now db p in
  db_ok out.1 /\ db_evolves now db out.1 /\ pc_ok now out.1 q out.2.
Proof.
  intros Hok Hq Hp. pose proof (evolves_refl now db) as Hrefl.
  destruct p as [| |s|s t1|s s' t1 t'| |r]; cbn [service_step fst snd].
  - split; [done|]. split; [done|]. apply (replay_ok now now); auto; lia.
  - split; [done|]. split; [done|]. destruct (get_state _ _ db) as [s|] eqn:Hs; [|done]. by eapply get_state_held.
  - split; [done|]. split; [done|]. destruct Hp as (t & Hh). rewrite (active_held _ _ _ _ _ Hh). cbn.
    destruct (st_anchor _ t) as [t1|] eqn:Ha; [|done]. cbn.
    destruct (st_gate _ t1 _) as [[]|] eqn:Hg; [|done]. by exists t.
  - split; [done|]. split; [done|]. destruct Hp as (t & Hh & Ha & Hg).
    destruct (rq_run q _ t1) as [[e' t']|] eqn:Hr; [|done]. exists t, e'. split_and!; try done. by apply Hq.
  - destruct Hp as (t & e' & Hh & Ha & Hg & -> & Hans).
    destruct (commit_turn q s _ t' now db) as [db'|e] eqn:Hc; [|by destruct e].
    by apply (committed_answer _ _ _ _ _ _ _ _ _ Hok Hh Ha Hg Hans Hc).
  - split; [done|]. split; [done|]. apply (replay_ok now now); eauto; lia.
  - done.
Qed.

(** * The system *)

Record system_ok y : Prop := {
  so_db : db_ok (sy_db y);
  so_requests q p : (q, p) ∈ sy_requests y -> request_ok q /\ pc_ok (sy_now y) (sy_db y) q p
}.

Lemma system_step_ok y y' : system_ok y -> system_step y y' -> system_ok y' /\
  (sy_now y <= sy_now y')%Z /\ db_evolves (sy_now y') (sy_db y) (sy_db y').
Proof.
  intros [Hok Hrs] Hstep.
  assert (Hothers : forall now' db', (sy_now y <= now')%Z -> db_evolves now' (sy_db y) db' ->
    forall q p, (q, p) ∈ sy_requests y -> request_ok q /\ pc_ok now' db' q p).
  { intros now' db' Hn Hev q p Hin. destruct (Hrs q p Hin) as [Hq Hp]. split; [done|]. by eapply pc_evolves. }
  destruct Hstep as [now db rs q Hq|now now' db rs i q p Hn Hi|now db rs s t i db' Hs Hc
    |now now' cut due db rs Hn Hcut Hdue]; simpl in *.
  - split; [|split; [lia|apply evolves_refl]]. split; [done|]. simpl. intros q0 p0.
    rewrite elem_of_app, list_elem_of_singleton. intros [Hin|[= -> ->]]; [by apply Hrs|done].
  - pose proof (list_elem_of_lookup_2 _ _ _ Hi) as Hin. destruct (Hothers now' db Hn (evolves_refl _ _) q p Hin) as [Hq Hp].
    pose proof (service_step_ok now' db q p Hok Hq Hp) as (Hok' & Hev & Hp').
    split; [|done]. split; [done|]. simpl. intros q0 p0 [j Hj]%list_elem_of_lookup_1.
    destruct (decide (j = i)) as [-> |Hne].
    + rewrite list_lookup_insert_eq in Hj by (by eapply lookup_lt_Some). by injection Hj as <- <-.
    + rewrite list_lookup_insert_ne in Hj by done. apply Hothers; [done|done|]. by eapply list_elem_of_lookup_2.
  - split; [|split; [lia|by eapply create_evolves]]. split; [by eapply create_ok|]. simpl.
    apply Hothers; [lia|by eapply create_evolves].
  - pose proof (purge_evolves db cut due Hdue Hok now' Hcut) as Hev.
    split; [|by split]. split; [by apply purge_ok|]. simpl. by apply Hothers.
Qed.

Lemma reachable_ok y : reachable y -> system_ok y.
Proof.
  induction 1 as [now|y y' _ IH Hs]; [|by eapply system_step_ok].
  split; [apply empty_db_ok|]. simpl. intros q p Hin. by apply not_elem_of_nil in Hin.
Qed.

Lemma reachable_db_ok y : reachable y -> db_ok (sy_db y).
Proof. intros Hy. by apply so_db, reachable_ok. Qed.

(** * What a child is answered *)

(** Two turns that answer one response are one turn. *)
Lemma answered_by_unique db q1 q2 t1 t2 : db_ok db ->
  rq_conversation_id q1 = rq_conversation_id q2 -> rq_response_id q1 = rq_response_id q2 ->
  answered_by db q1 t1 -> answered_by db q2 t2 -> t1 = t2.
Proof.
  intros Hok Hc Hr (o1 & x1 & z1 & Ho1 & Hp1 & (Hs1 & _ & Hz1 & Hcz1 & Hv1) & Hl1)
    (o2 & x2 & z2 & Ho2 & Hp2 & (Hs2 & _ & Hz2 & Hcz2 & Hv2) & Hl2).
  assert (o1 = o2) as -> by (eapply (same_key observation_pair); [apply Hok|done|done|congruence]).
  assert (z1 = z2) as ->; [|congruence].
  eapply (same_key (fun x => (tn_conversation_id x, tn_state_version x))); [apply Hok|done|done|]. simpl. congruence.
Qed.

(** Every conversation in a reachable store, with the turn the service shows for it,
    is one that some sequence of answered turns and passed deadlines leads to,
    whatever the interleaving of requests, creations and purges. *)
Lemma stored_conversation_sequential y c : reachable y -> c ∈ db_conversations (sy_db y) ->
  exists t, active_turn (cn_state_json c) (sy_db y) = Ok t /\ sequential (se_engine (cn_state_json c)) t.
Proof.
  intros Hy%reachable_db_ok Hc. destruct (screen_exists _ c Hy Hc) as (tn & t & [Ht Hrow Hcn _ Hl _ _ Hsq]).
  exists t. split; [|done]. unfold active_turn. rewrite Ht. cbn. rewrite Hrow. cbn. by rewrite bool_decide_eq_true_2.
Qed.
End system.

(** * Promises of the store

    What the conversation store promises under concurrency: conversations stay
    sequential, answers are recorded once and replayed, raw text respects its
    deadline, a key has one conversation. *)

Section safety.
Context {E : Type} `{TurnEngineLaws E} `{!Fernet}.
Implicit Types (s : Session E) (db : ConversationDb E) (t : TurnContract) (tn : TurnRecord)
  (c : ConversationRecord E) (q : Request E) (now : Z) (p : pc E) (y : System E).

Notation conversation_of := (fun c => se_conversation_id (cn_state_json c)).

(** * Helper facts *)

Lemma request_pc y i q p : reachable y -> sy_requests y !! i = Some (q, p) ->
  request_ok q /\ pc_ok (sy_now y) (sy_db y) q p.
Proof. intros Hy%reachable_ok Hi. apply (so_requests _ Hy). by eapply list_elem_of_lookup_2. Qed.

(** A commit of a request in a reachable system, with what it finds. *)
Lemma request_commit_facts now now' db db' q s s' t1 t' : db_ok db -> (now <= now')%Z ->
  pc_ok now db q (AtCommit s s' t1 t') -> commit_turn q s s' t' now' db = Ok db' ->
  exists t e' c tn, commit_facts db db' q s now' t t' e' c tn /\ held now' db q s t.
Proof.
  intros Hok Hn (t & e' & Hh & Ha & Hg & -> & _) Hc. exists t, e'.
  pose proof (held_evolves _ _ _ _ _ _ _ Hok Hn (evolves_refl now' db) Hh) as Hh'.
  destruct (commit_facts_hold db db' q s now' t t1 t' e' Hok Hh' Ha Hg Hc) as (c & tn & Hf). by exists c, tn.
Qed.

(** The record after a commit. *)
Lemma committed_version now now' db db' q s s' t1 t' c : db_ok db -> (now <= now')%Z ->
  pc_ok now db q (AtCommit s s' t1 t') -> commit_turn q s s' t' now' db = Ok db' ->
  find_conversation db (rq_conversation_id q) = Some c ->
  exists v, find_conversation db' (rq_conversation_id q) = Some v /\ (cn_state_version c < cn_state_version v)%Z.
Proof.
  intros Hok Hn Hp Hc Hf. pose proof Hp as (u & e'' & Hu & Hanc & Hgt & -> & Hans).
  pose proof (held_evolves _ _ _ _ _ _ _ Hok Hn (evolves_refl now' db) Hu) as Hh.
  destruct (commit_facts_hold db db' q s now' u t1 t' e'' Hok Hh Hanc Hgt Hc) as (d & x & Hfacts).
  pose proof (hd_id _ _ _ _ _ Hh) as Hqid.
  assert (d = c) as -> by (pose proof (cf_record _ _ _ _ _ _ _ _ _ _ Hfacts); congruence).
  eexists. split; [by erewrite after_conversation, Hf by done|]. unfold update_conversation. rewrite decide_True.
  2:{ rewrite Hqid. by apply by_key_Some in Hf as [_ ?]. }
  cbn [cn_state_version]. rewrite (cf_version _ _ _ _ _ _ _ _ _ _ Hfacts).
  destruct (next_state db q s now' u t1 t' e'' Hh Hanc Hgt Hans) as (_ & _ & _ & -> & _). lia.
Qed.

(** The row answered by an observation. *)
Lemma observed_version db o : db_ok db -> o ∈ db_observations db ->
  exists tn c, find_turn db (ob_source_turn_id o) = Some tn /\ find_conversation db (ob_conversation_id o) = Some c /\
    tn_conversation_id tn = ob_conversation_id o /\ (tn_state_version tn < cn_state_version c)%Z.
Proof.
  intros Hok Ho. destruct (dk_observed _ Hok o Ho) as (tn & tn' & Hs & Hc & Hin & Hcn & Hv).
  destruct (dk_owned _ Hok tn' Hin) as (c & Hfc & Hle & _). exists tn, c. rewrite <- Hcn. split_and!; try done; [congruence|lia].
Qed.

Lemma raw_written_in_commit now now' db db' q s s' t1 t' tn raw : db_ok db -> (now <= now')%Z ->
  pc_ok now db q (AtCommit s s' t1 t') -> commit_turn q s s' t' now' db = Ok db' ->
  tn ∈ db_turns db' -> tn_response_raw tn = Some raw ->
  (exists tn0, tn0 ∈ db_turns db /\ core tn0 = core tn /\ tn_response_raw tn0 = Some raw)
  \/ exists c, find_conversation db (tn_conversation_id tn) = Some c /\
       se_raw_storage_enabled (cn_state_json c) = true /\ expired (cn_raw_retention_until c) now' = false.
Proof.
  intros Hok Hn Hp Hc Hin Hraw. destruct (request_commit_facts _ _ _ _ _ _ _ _ _ Hok Hn Hp Hc) as (t & e' & c & x & Hf & _).
  apply (after_elem _ _ _ _ _ _ _ _ _ _ Hf) in Hin as [-> | (z & Hz & ->)]; [done|]. unfold answer in *.
  case_decide as Hd; [|by left; exists z]. right. exists c.
  assert (z = x) as -> by (by eapply row_only). cbn [tn_conversation_id answer_turn tn_response_raw] in *.
  pose proof (cf_screen _ _ _ _ _ _ _ _ _ _ Hf) as Hs. destruct (record_in _ _ _ _ _ _ _ _ _ _ Hf) as [Hcin Hcid].
  rewrite (os_conversation _ _ _ _ Hs), Hcid. split; [apply Hf|].
  destruct (se_raw_storage_enabled s && _) eqn:Er; [|done]. apply andb_prop in Er as [Hen Hpast%negb_true_iff].
  rewrite (co_until _ _ (dk_conversations _ Hok c Hcin)).
  destruct (proj2 (cf_agrees _ _ _ _ _ _ _ _ _ _ Hf)) as [[Hce Hcu]|[[Hoff _]|Hex]]; [|congruence..].
  by rewrite <- Hce, <- Hcu.
Qed.

(** A commit past the deadline column leaves the conversation out of every purge. *)
Lemma late_commit_not_due db db' q s now t t' e' c tn now' : db_ok db ->
  commit_facts db db' q s now t t' e' c tn -> expired (cn_raw_retention_until c) now = true ->
  memb (se_conversation_id s) (map conversation_of (purge_due now' db')) = false.
Proof.
  intros Hok Hf He. apply memb_false. intros (d & Hd & Hin)%list_elem_of_fmap.
  apply list_elem_of_In, filter_In in Hin as [Hin%list_elem_of_In Hdue]. rewrite (cf_db _ _ _ _ _ _ _ _ _ _ Hf) in Hin.
  apply list_elem_of_fmap in Hin as (d0 & -> & Hin). destruct (record_in _ _ _ _ _ _ _ _ _ _ Hf) as [Hc Hcid].
  unfold update_conversation in *. case_decide as Hdi; [|by apply Hdi]. simpl in Hdue.
  destruct (expired (se_raw_retention_until s) now) eqn:Ex; [done|]. cbn in Hdue.
  rewrite (co_until _ _ (dk_conversations _ Hok c Hc)) in He.
  destruct (proj2 (cf_agrees _ _ _ _ _ _ _ _ _ _ Hf)) as [[_ Hu]|[[_ Hu]|Hu]]; [congruence|by rewrite Hu in Hdue|congruence].
Qed.

(** ** Answering and replaying *)

(** A recorded, unexpired answer is found again under its response. *)
Lemma recorded_found now db q tn : db_ok db -> tn ∈ db_turns db -> tn_conversation_id tn = rq_conversation_id q ->
  tn_response_id tn = Some (rq_response_id q) -> expired (tn_response_expires_at tn) now = false ->
  exists t, response_exists now (rq_conversation_id q) (rq_response_id q) db = Ok (Some t) /\
    exists i tn', tn_result_turn_id tn = Some i /\ find_turn db i = Some tn' /\ load_turn tn' = Ok t.
Proof.
  intros Hok Hin Hc Hr He. unfold response_exists. destruct (find_first _ _) as [x|] eqn:Hf; [|exfalso].
  2: { rewrite find_first_None in Hf. specialize (Hf tn Hin). by rewrite !bool_decide_eq_true_2, He in Hf. }
  apply find_first_Some in Hf as [Hx Hb]. apply andb_prop in Hb as [Hb _].
  apply andb_prop in Hb as [Hcx%bool_decide_eq_true Hrx%bool_decide_eq_true].
  assert (x = tn) as ->.
  { destruct (dk_answered _ Hok x _ Hx Hrx) as (o & _ & _ & Ho & Hs & Hp & _).
    destruct (dk_answered _ Hok tn _ Hin Hr) as (o' & _ & _ & Ho' & Hs' & Hp' & _).
    assert (o = o') as -> by (eapply (same_key observation_pair); [apply Hok|done|done|congruence]).
    eapply (same_key tn_turn_id); [apply Hok|done|done|congruence]. }
  destruct (dk_answered _ Hok tn _ Hin Hr) as (_ & i & tn' & _ & _ & _ & Hres & Hi & _).
  pose proof Hi as [Hin' _]%by_key_Some. destruct (dk_loads _ Hok tn' Hin') as (t & Hl).
  rewrite Hres, Hi, Hl. exists t. split; [done|]. by exists i, tn'.
Qed.

Lemma unrecorded_not_found now db q : db_ok db ->
  (forall o, o ∈ db_observations db -> observation_pair o <> (rq_conversation_id q, rq_response_id q)) ->
  response_exists now (rq_conversation_id q) (rq_response_id q) db = Ok None.
Proof.
  intros Hok Hno. destruct (response_exists _ _ _ db) as [[t|]|e] eqn:Hr; [|done|]; exfalso.
  - destruct (response_exists_answered _ _ _ _ Hok Hr) as (o & _ & _ & Ho & Hp & _). by apply (Hno o).
  - unfold response_exists in Hr. destruct (find_first _ _) as [tn|] eqn:Hf; [|done].
    apply find_first_Some in Hf as [Hin Hb]. apply andb_prop in Hb as [Hb _].
    apply andb_prop in Hb as [Hcx%bool_decide_eq_true Hrx%bool_decide_eq_true].
    destruct (dk_answered _ Hok tn _ Hin Hrx) as (o & _ & _ & Ho & _ & Hp & _). apply (Hno o Ho). by rewrite Hp, Hcx.
Qed.

(** A request served alone. *)
Fixpoint serve (n : nat) q now db p : ConversationDb E * pc E :=
  match n with
  | O => (db, p)
  | S n => let out := service_step q now db p in serve n q now out.1 out.2
  end.

(** The commit of a state just read succeeds when the database accepts the rows. *)
Lemma commit_accepted now db q s t t1 e' t' : db_ok db -> held now db q s t ->
  (forall c, find_conversation db (rq_conversation_id q) = Some c -> cn_state_version c = st_version (se_engine s)) ->
  st_anchor (se_engine s) t = Ok t1 -> st_gate (se_engine s) t1 (rq_response q) = Ok tt ->
  constraints q (rq_conversation_id q) t' db = Ok tt ->
  exists db', commit_turn q s (with_engine s e') t' now db = Ok db'.
Proof.
  intros Hok Hh Hv Ha Hg Hc. pose proof (hd_id _ _ _ _ _ Hh) as Hid.
  destruct (hd_record _ _ _ _ _ Hh) as (c & Hf & _ & _). rewrite Hid in Hf. specialize (Hv c Hf).
  pose proof Hf as [Hin Hcid]%by_key_Some. destruct (screen_exists _ c Hok Hin) as (tn & t0 & Hs).
  destruct (hd_row _ _ _ _ _ Hh) as (tn1 & Hrow & Hload & Hcn & Hver).
  assert (tn1 = tn) as ->.
  { pose proof (os_row _ _ _ _ Hs) as [Hin0 _]%by_key_Some. pose proof Hrow as [Hin1 _]%by_key_Some.
    eapply (same_key (fun x => (tn_conversation_id x, tn_state_version x))); [apply Hok|done|done|]. simpl.
    rewrite Hcn, Hver, (os_conversation _ _ _ _ Hs), (os_version _ _ _ _ Hs). cbn in Hcid. congruence. }
  unfold commit_turn. rewrite Hid, Hf. cbn. rewrite Hv, Z.eqb_refl. cbn.
  rewrite (gate_turn_id _ _ _ Hg), (anchor_turn _ _ _ Ha), Hrow. cbn.
  rewrite Hcn, Hid, bool_decide_eq_true_2 by done. cbn. rewrite (os_open _ _ _ _ Hs). cbn. rewrite Hc. by eexists.
Qed.

(** * The properties *)

(** Purges that write undisturbed are steps of the system. *)
Lemma purging_reachable y ps : purging y ps -> reachable y /\
  forall r d, r ∈ ps -> d ∈ pg_due r -> expired (cn_raw_retention_until d) (pg_now r) = true.
Proof.
  induction 1 as [now|y y' ps _ [IHy IHps] Hs|now now' db rs ps _ [IHy IHps] Hn|now now' db rs ps i r _ [IHy IHps] Hi Hn Hcut Hu].
  - split; [constructor|]. by intros r d ?%not_elem_of_nil.
  - split; [by eapply reach_step|done].
  - split; [done|]. intros r d [Hr| ->%list_elem_of_singleton]%elem_of_app; [by apply IHps|].
    intros Hd. by apply list_elem_of_In, filter_In in Hd as [_ ?].
  - split.
    + apply (reach_step _ _ IHy), (sys_purge now now' (pg_now r)); [done..|]. intros d Hin.
      apply list_elem_of_In, filter_In. split; [apply list_elem_of_In; by apply Hu|].
      eapply IHps; [|exact Hin]. by eapply list_elem_of_lookup_2.
    + intros r' d Hr'. apply IHps. eapply elem_of_sublist; [exact Hr'|]. apply sublist_delete.
Qed.

(** A purge that reads and writes with nothing in between. *)
Lemma purging_idle y : reachable y -> purging y [].
Proof. induction 1 as [now|y y' _ IH Hs]; [constructor|by eapply purging_step]. Qed.

Lemma purging_alone y now : reachable y -> (sy_now y <= now)%Z ->
  purging {| sy_now := now; sy_db := purge_expired_raw_data now (sy_db y); sy_requests := sy_requests y |} [].
Proof.
  destruct y as [now0 db rs]. intros Hy%purging_idle Hn. simpl in *.
  apply (purging_write now0 now db rs ([] ++ [start_purge now db]) 0 (start_purge now db)); [by apply purging_read|done..|].
  intros d Hd. simpl in Hd. apply list_elem_of_In, filter_In in Hd as [Hd _]. by apply list_elem_of_In.
Qed.

(** (C12) Concurrency does not mix a conversation up while no purge is disturbed.  Take any
    interleaving of requests, creations and purges, the purges in two transactions' worth
    of steps, a read and a later write, in which every purge writes over conversation rows
    that are as it read them: whoever reads a stored conversation, at any time, gets a
    state and a turn on screen that answering turns one after another from its start leads
    to; the record's version and status columns are those of the state.  (The code takes
    no lock to keep a purge undisturbed: [disturbed_purge_loses_turn].) *)
Theorem conversations_stay_sequential y ps c now : purging y ps -> c ∈ db_conversations (sy_db y) ->
  let s := load_state now (cn_state_json c) in
  exists t, active_turn s (sy_db y) = Ok t /\ sequential (se_engine s) t /\
    cn_state_version c = st_version (se_engine s) /\ cn_status c = st_status (se_engine s).
Proof.
  intros [Hy%reachable_db_ok _]%purging_reachable Hc s.
  destruct (screen_exists _ c Hy Hc) as (tn & t & [Ht Hrow Hcn _ Hl _ _ Hsq]).
  destruct (dk_conversations _ Hy c Hc) as [Hv Hst _ _].
  destruct (retire_same _ _ (retire_load now (cn_state_json c))) as (Ei & _ & _ & Ev & Et & Es).
  exists t. subst s. rewrite Ev, Es. split; [|split; [|done]].
  - unfold active_turn. rewrite Et, Ht. cbn. rewrite Hrow. cbn. by rewrite Ei, bool_decide_eq_true_2.
  - unfold load_state. destruct (expired _ _); [by apply seq_clear|done].
Qed.

(** Under a version column ahead of its state, no response is computed. *)
Lemma stuck_conversation db c : find_conversation db (conversation_of c) = Some c ->
  (st_version (se_engine (cn_state_json c)) < cn_state_version c)%Z ->
  forall q now, rq_conversation_id q = conversation_of c -> exists e, serve 4 q now db AtState = (db, Done (Failed e)).
Proof.
  intros Hf Hlt q now Hq. set (s := load_state now (cn_state_json c)).
  destruct (retire_same _ _ (retire_load now (cn_state_json c))) as (Ei & _ & _ & Ev & _).
  assert (Hget : get_state now (rq_conversation_id q) db = Ok s) by (unfold get_state; by rewrite Hq, Hf).
  cbn [serve service_step fst snd]. rewrite Hget. cbn.
  destruct (active_turn s db) as [t|e]; cbn; [|by eexists]. destruct (st_anchor _ t) as [t1|e]; cbn; [|by eexists].
  destruct (st_gate _ t1 _) as [[]|e]; cbn; [|by eexists]. destruct (rq_run q _ t1) as [[e' t']|e]; cbn; [|by eexists].
  unfold commit_turn. subst s. rewrite Ei, Hf. cbn. rewrite Ev, (proj2 (Z.eqb_neq _ _)) by lia. cbn. by eexists.
Qed.

(** A turn committed between the read and the write of a purge of its conversation is
    lost: the write puts the older state back under the newer version column, and from
    then on no response to the conversation is ever computed, whatever is sent: a
    request past the replay check ends in an error and changes nothing. *)
Theorem disturbed_purge_loses_turn y i q s s' t1 t' c read now db' : reachable y ->
  sy_requests y !! i = Some (q, AtCommit s s' t1 t') -> (sy_now y <= now)%Z ->
  find_conversation (sy_db y) (rq_conversation_id q) = Some c -> expired (cn_raw_retention_until c) read = true ->
  commit_turn q s s' t' now (sy_db y) = Ok db' ->
  let db2 := purge_write read (purge_due read (sy_db y)) db' in
  exists c2, find_conversation db2 (rq_conversation_id q) = Some c2 /\
    cn_state_json c2 = retire (cn_state_json c) /\ (st_version (se_engine (cn_state_json c2)) < cn_state_version c2)%Z /\
    forall q2 now2, rq_conversation_id q2 = rq_conversation_id q ->
      exists e, serve 4 q2 now2 db2 AtState = (db2, Done (Failed e)).
Proof.
  intros Hy Hi Hn Hf He Hc db2. pose proof (reachable_db_ok _ Hy) as Hok.
  destruct (request_pc _ _ _ _ Hy Hi) as [_ Hp]. pose proof Hf as [Hin Hid]%by_key_Some. cbn in Hid.
  destruct (committed_version _ _ _ _ _ _ _ _ _ _ Hok Hn Hp Hc Hf) as (v & Hv & Hlt).
  pose proof Hv as [_ Hvid]%by_key_Some. cbn in Hvid.
  assert (Hover : overwrite (purge_due read (sy_db y)) v = retire_record c v).
  { unfold overwrite. destruct (find_first_is_Some (fun d => bool_decide (conversation_of d = conversation_of v)) (purge_due read (sy_db y)) c) as [d Ed].
    - by apply list_elem_of_In, filter_In; split; [apply list_elem_of_In|].
    - apply bool_decide_eq_true. congruence.
    - rewrite Ed. apply find_first_Some in Ed as [Hd Hdid%bool_decide_eq_true].
      apply list_elem_of_In, filter_In in Hd as [Hd%list_elem_of_In _].
      assert (d = c) as -> by (eapply (same_key conversation_of); [apply Hok|done|done|]; simpl; congruence). done. }
  destruct (retire_same (retire (cn_state_json c)) (cn_state_json c)) as (Ei & _ & _ & Ev & _); [apply retire_idem|].
  assert (Hc2 : find_conversation db2 (rq_conversation_id q) = Some (retire_record c v)).
  { subst db2. rewrite (purged_conversation db' read), Hv. cbn. by rewrite Hover. }
  exists (retire_record c v). split; [done|]. split; [done|]. cbn [cn_state_json cn_state_version retire_record].
  assert (Hl : (st_version (se_engine (retire (cn_state_json c))) < cn_state_version v)%Z).
  { rewrite Ev, <- (co_version _ _ (dk_conversations _ Hok c Hin)). done. }
  split; [done|]. intros q2 now2 Hq2. apply (stuck_conversation db2 (retire_record c v)); cbn; [by rewrite ?Ei, ?Hid|done|by rewrite ?Ei, ?Hid].
Qed.

(** (C13) Every answer is recorded exactly once: no two observations of a reachable store
    are of one turn or of one response, a stored turn is observed exactly when it is
    no longer the turn of its conversation's version, and as many observation events
    wait for delivery or were delivered as there are observations. *)
Theorem answers_are_recorded_once y : reachable y ->
  NoDup (map ob_source_turn_id (db_observations (sy_db y))) /\
  NoDup (map observation_pair (db_observations (sy_db y))) /\
  (forall tn, tn ∈ db_turns (sy_db y) -> exists c, find_conversation (sy_db y) (tn_conversation_id tn) = Some c /\
     (tn_turn_id tn ∈ map ob_source_turn_id (db_observations (sy_db y)) <-> tn_state_version tn <> cn_state_version c)) /\
  length (List.filter (fun e => bool_decide (oe_event_type e = DIALOGUE_OBSERVATION_EVENT_TYPE)) (db_events (sy_db y)))
    = length (db_observations (sy_db y)).
Proof.
  intros Hy%reachable_db_ok. split_and!; try apply Hy. intros tn Hin.
  destruct (dk_owned _ Hy tn Hin) as (c & Hc & Hle & Hobs). exists c. split; [done|]. split; [|intros Hne; apply Hobs; lia].
  intros (o & Heq & Ho)%list_elem_of_fmap. destruct (observed_version _ _ Hy Ho) as (x & c' & Hx & Hc' & Hcn & Hlt).
  rewrite <- Heq, (turn_of_row _ _ Hy Hin) in Hx. injection Hx as <-. rewrite Hcn, Hc' in Hc. injection Hc as ->. lia.
Qed.

(** (C14) One response has one answer: two requests that carry the same response of the same
    conversation and are both answered, computed or replayed, concurrently or not,
    show the child the same turn. *)
Theorem same_response_same_turn y i j q1 q2 t1 t2 b1 b2 : reachable y ->
  sy_requests y !! i = Some (q1, Done (Answered t1 b1)) -> sy_requests y !! j = Some (q2, Done (Answered t2 b2)) ->
  rq_conversation_id q1 = rq_conversation_id q2 -> rq_response_id q1 = rq_response_id q2 -> t1 = t2.
Proof.
  intros Hy Hi Hj Hc Hr. destruct (request_pc _ _ _ _ Hy Hi) as [_ H1], (request_pc _ _ _ _ Hy Hj) as [_ H2].
  apply (answered_by_unique (sy_db y) q1 q2); try done. by apply reachable_db_ok.
Qed.

(** (C18) Raw text is written only while it may be kept: whatever step a reachable system
    takes, a turn that holds the child's words held them before, or its conversation
    stores raw text and its deadline has not passed at the time of the step. *)
Theorem raw_text_written_before_deadline y y' tn raw : reachable y -> system_step y y' ->
  tn ∈ db_turns (sy_db y') -> tn_response_raw tn = Some raw ->
  (exists tn0, tn0 ∈ db_turns (sy_db y) /\ core tn0 = core tn /\ tn_response_raw tn0 = Some raw)
  \/ exists c, find_conversation (sy_db y) (tn_conversation_id tn) = Some c /\
       se_raw_storage_enabled (cn_state_json c) = true /\
       expired (cn_raw_retention_until c) (sy_now y') = false.
Proof.
  intros Hy Hstep. pose proof (reachable_db_ok _ Hy) as Hok.
  destruct Hstep as [now db rs q Hq|now now' db rs i q p Hn Hi|now db rs s t i db' Hs Hc
    |now now' cut due db rs Hn Hcut Hdue]; simpl in *.
  - intros Hin Hraw. left. by exists tn.
  - destruct (request_pc _ _ _ _ Hy Hi) as [_ Hp]. simpl in Hp. subst out.
    destruct p as [| |s|s t1|s s' t1 t'| |r]; cbn [service_step fst]; try (intros Hin Hraw; left; by exists tn).
    destruct (commit_turn q s s' t' now' db) as [db'|e] eqn:Hc.
    + by apply (raw_written_in_commit now now' db db' q s s' t1 t').
    + intros Hin Hraw. left. exists tn. by destruct e.
  - apply create_creation in Hc as [j _ _|_ _ _]; intros Hin Hraw; left; exists tn; [done|]. simpl in Hin.
    apply elem_of_app in Hin as [? | ->%list_elem_of_singleton]; done.
  - intros (x & -> & Hx)%list_elem_of_fmap. simpl. destruct (memb _ _); [done|]. intros Hraw. left. by exists x.
Qed.

(** (C19) The purge forgets: after it no turn of a conversation that was past its deadline
    holds the child's words, and the conversation no longer stores them. *)
Theorem purge_forgets_raw_text y c tn now : reachable y ->
  c ∈ db_conversations (sy_db y) -> expired (cn_raw_retention_until c) now = true ->
  (tn ∈ db_turns (purge_expired_raw_data now (sy_db y)) -> tn_conversation_id tn = se_conversation_id (cn_state_json c) ->
     tn_response_raw tn = None /\ tn_response_structured tn = None) /\
  exists c', find_conversation (purge_expired_raw_data now (sy_db y)) (se_conversation_id (cn_state_json c)) = Some c' /\
    se_raw_storage_enabled (cn_state_json c') = false /\ cn_raw_retention_until c' = None.
Proof.
  intros Hy%reachable_db_ok Hc He. split.
  - intros (x & -> & Hx)%list_elem_of_fmap. simpl. intros Hid.
    assert (memb (tn_conversation_id x) (map conversation_of
      (purge_due now (sy_db y))) = true) as ->; [|done].
    rewrite memb_spec, Hid. apply (list_elem_of_fmap_2 conversation_of). by apply list_elem_of_In, filter_In; split; [apply list_elem_of_In|].
  - unfold purge_expired_raw_data. rewrite (purged_conversation (sy_db y) now), find_conversation_by_key,
      (by_key_unique conversation_of _ _ (dk_ids _ Hy) Hc). eexists. split; [done|].
    rewrite overwrite_due by done. unfold purge_conversation. by rewrite He.
Qed.
(** (C17) A response is answered, and answered the same way again: when the conversation
    is stored, the response passes the gate, the engine produces a turn and the
    database accepts its rows, a request served alone ends with that turn; the same
    response sent again, while its answer is kept, is answered with it from the store
    and changes nothing. *)
Theorem response_is_answered_then_replayed y q c t t1 e' t' now : reachable y -> request_ok q ->
  let s := load_state now (cn_state_json c) in
  find_conversation (sy_db y) (rq_conversation_id q) = Some c -> active_turn s (sy_db y) = Ok t ->
  st_anchor (se_engine s) t = Ok t1 -> st_gate (se_engine s) t1 (rq_response q) = Ok tt ->
  rq_run q (se_engine s) t1 = Ok (e', t') -> constraints q (rq_conversation_id q) t' (sy_db y) = Ok tt ->
  exists db', serve 5 q now (sy_db y) AtPrior = (db', Done (Answered t' false)) /\
    forall now' q', rq_conversation_id q' = rq_conversation_id q -> rq_response_id q' = rq_response_id q ->
      se_permanent s = true \/ (now' < now + rq_idempotency q)%Z ->
      service_step q' now' db' AtPrior = (db', Done (Answered t' true)).
Proof.
  intros Hy%reachable_db_ok Hq s Hf Hact Ha Hg Hrun Hcon.
  assert (Hget : get_state now (rq_conversation_id q) (sy_db y) = Ok s) by (unfold get_state; by rewrite Hf).
  destruct (get_state_held _ _ _ _ Hy Hget) as (t0 & Hh).
  assert (t0 = t) as -> by (rewrite (active_held _ _ _ _ _ Hh) in Hact; by injection Hact).
  assert (Hv : forall c', find_conversation (sy_db y) (rq_conversation_id q) = Some c' -> cn_state_version c' = st_version (se_engine s)).
  { intros c'. rewrite Hf. intros [= <-]. subst s. pose proof Hf as [Hin _]%by_key_Some.
    destruct (retire_same _ _ (retire_load now (cn_state_json c))) as (_ & _ & _ & -> & _).
    apply (co_version _ _ (dk_conversations _ Hy c Hin)). }
  destruct (commit_accepted now (sy_db y) q s t t1 e' t' Hy Hh Hv Ha Hg Hcon) as (db' & Hc).
  pose proof (constraints_Ok (sy_db y) q s t') as Hfresh. rewrite (hd_id _ _ _ _ _ Hh) in Hfresh. destruct (Hfresh Hcon) as [Hno _].
  exists db'. split.
  - cbn [serve service_step fst snd]. rewrite (unrecorded_not_found now _ _ Hy Hno). cbn. rewrite Hget. cbn.
    rewrite Hact. cbn. rewrite Ha. cbn. rewrite Hg. cbn. rewrite Hrun. cbn. by rewrite Hc.
  - intros now' q' Hcq Hrq Hexp. assert (Hans : st_answers (se_engine s) t1 (rq_response q) e' t') by (by apply Hq).
    destruct (committed_answer _ _ _ _ _ _ _ _ _ Hy Hh Ha Hg Hans Hc) as (Hok' & _ & Hby).
    destruct (commit_facts_hold _ db' q s now t t1 t' e' Hy Hh Ha Hg Hc) as (c0 & tn & Hfacts).
    pose proof (after_turn _ _ _ _ _ _ _ _ _ _ Hfacts _ _ (os_row _ _ _ _ (cf_screen _ _ _ _ _ _ _ _ _ _ Hfacts))) as Hat.
    pose proof Hat as [Hin _]%by_key_Some. unfold answer in Hin. rewrite decide_True in Hin by apply Hfacts.
    destruct (recorded_found now' db' q' _ Hok' Hin) as (u & Hu & _).
    + simpl. rewrite (os_conversation _ _ _ _ (cf_screen _ _ _ _ _ _ _ _ _ _ Hfacts)), Hcq.
      rewrite <- (hd_id _ _ _ _ _ Hh). apply (record_in _ _ _ _ _ _ _ _ _ _ Hfacts).
    + simpl. by rewrite Hrq.
    + simpl. destruct Hexp as [-> |Hlt]; [done|]. destruct (se_permanent s); [done|]. simpl. by apply Z.leb_gt.
    + cbn. rewrite Hu. cbn. do 3 f_equal. apply (answered_by_unique db' q' q); try done. by eapply response_exists_answered.
Qed.

(** A concurrent duplicate is turned away, not replayed: once a turn is answered, a
    request that still carries that turn to its commit, with the same response or
    another, fails as stale and changes nothing; the duplicate branch behind the
    version check never runs for it. *)
Theorem answered_turn_commit_is_stale y i q s s' t1 t' now : reachable y ->
  sy_requests y !! i = Some (q, AtCommit s s' t1 t') ->
  tc_turn_id t1 ∈ map ob_source_turn_id (db_observations (sy_db y)) ->
  service_step q now (sy_db y) (AtCommit s s' t1 t')
    = (sy_db y, Done (Failed (StaleConversationError (rq_conversation_id q)))).
Proof.
  intros Hy Hi (o & Heq & Ho)%list_elem_of_fmap. destruct (request_pc _ _ _ _ Hy Hi) as [_ (t & e' & Hh & Ha & _)].
  pose proof (reachable_db_ok _ Hy) as Hok. destruct Hh as [Hid _ _ (tn & Hrow & _ & Hcn & Hver) (c & Hf & _)].
  destruct (observed_version _ _ Hok Ho) as (x & c' & Hx & Hc' & Hxc & Hlt).
  rewrite <- Heq, (anchor_turn _ _ _ Ha), Hrow in Hx. injection Hx as <-. rewrite <- Hxc, Hcn, Hf in Hc'. injection Hc' as <-.
  cbn. unfold commit_turn. rewrite Hf. cbn. destruct (Z.eqb_spec (cn_state_version c) (st_version (se_engine s))); [lia|].
  cbn. by rewrite Hid.
Qed.

(** One conversation per key: when a conversation with a learning session is stored,
    creating another one under its key, by a retry or by the loser of a race, returns
    the stored one and changes nothing. *)
Theorem one_conversation_per_key y c s t : reachable y -> c ∈ db_conversations (sy_db y) ->
  is_Some (ck_learning_session_id (se_key s)) -> se_key s = se_key (cn_state_json c) ->
  create_conversation s t (sy_db y) = Ok (se_conversation_id (cn_state_json c), sy_db y).
Proof.
  intros Hy%reachable_db_ok Hc Hl Hk.
  assert (Hw : conversation_id_for (sy_db y) (se_key s) = Some (se_conversation_id (cn_state_json c))).
  { unfold conversation_id_for. destruct (find_first _ _) as [d|] eqn:Hf.
    - apply find_first_Some in Hf as [Hd Hkd%bool_decide_eq_true]. simpl. f_equal.
      apply (dk_keys _ Hy); [done..| |]; congruence.
    - rewrite find_first_None in Hf. specialize (Hf c Hc). by apply bool_decide_eq_false in Hf. }
  unfold create_conversation. rewrite Hw, !bool_decide_eq_true_2 by done. done.
Qed.

(** A turn answered between its conversation's deadline and the purge cancels the
    purge: the commit clears the deadline column, and whatever the child said in the
    turns before stays stored through every later purge. *)
Theorem late_turn_cancels_purge y i q s s' t1 t' c now db' now' tn raw : reachable y ->
  sy_requests y !! i = Some (q, AtCommit s s' t1 t') -> (sy_now y <= now)%Z ->
  find_conversation (sy_db y) (rq_conversation_id q) = Some c -> expired (cn_raw_retention_until c) now = true ->
  commit_turn q s s' t' now (sy_db y) = Ok db' ->
  tn ∈ db_turns (sy_db y) -> tn_conversation_id tn = rq_conversation_id q -> tn_turn_id tn <> tc_turn_id t1 ->
  tn_response_raw tn = Some raw ->
  exists tn', tn' ∈ db_turns (purge_expired_raw_data now' db') /\ core tn' = core tn /\ tn_response_raw tn' = Some raw.
Proof.
  intros Hy Hi Hn Hf He Hc Hin Hid Hne Hraw. pose proof (reachable_db_ok _ Hy) as Hok.
  destruct (request_pc _ _ _ _ Hy Hi) as [_ Hp]. pose proof Hp as (_ & _ & _ & _ & Hg & _).
  destruct (request_commit_facts _ _ _ _ _ _ _ _ _ Hok Hn Hp Hc) as (t & e' & d & x & Hfacts & Hh).
  pose proof (hd_id _ _ _ _ _ Hh) as Hqid.
  assert (d = c) as -> by (pose proof (cf_record _ _ _ _ _ _ _ _ _ _ Hfacts); congruence).
  exists (forget now' (purge_due now' db') (answer q s now t t' tn)). unfold purge_expired_raw_data. rewrite purged_turns.
  split; [by apply list_elem_of_fmap_2, (after_elem_old _ _ _ _ _ _ _ _ _ _ Hfacts)|].
  assert (answer q s now t t' tn = tn) as ->.
  { unfold answer. rewrite decide_False; [done|]. by rewrite <- (cf_response _ _ _ _ _ _ _ _ _ _ Hfacts), (gate_turn_id _ _ _ Hg). }
  split; [done|]. simpl. rewrite Hid, <- Hqid, (late_commit_not_due _ _ _ _ _ _ _ _ _ _ now' Hok Hfacts He). done.
Qed.
End safety.
