(* ===== verification/SessionParent.v ===== *)
(** The session parent ([src/mormi_api/session_parent_store.py],
    [session_parent_checkpoint.py], [session_parent_graph.py] and the path to it in
    [service.py]): a replaceable workflow cursor around the turn service.  The graph
    library and its checkpoint saver are an interface of arbitrary operations; what
    the coordinator does with their results, and with their failures, is the
    source's. *)

From S2P Require Import Prelude.
From S2P Require Import PyStr.
From S2P Require Import PyNum.
From S2P Require Import Json.
From S2P Require Import Schemas.
From S2P Require Import Question.
From S2P Require Import SpeakerText.
From S2P Require Import SpeakerPlan.
From S2P Require Import Reply.
From S2P Require Import Speak.
From S2P Require Import Gate.
From S2P Require Import Lease.
From S2P Require Import Outbox.
From S2P Require Import Conversation.

(** * The cursor table *)

Definition PARENT_GRAPH_VERSION : string := "session-parent-v1".

Record SessionParentRecord := {
  pa_conversation_id : string;
  pa_graph_version : string;
  pa_state_version : Z;
  pa_turn_id : string;
  pa_phase : string;
  pa_generation : Z;
  pa_checkpoint : option json
}.

(** [ParentCursor] *)
Definition ParentCursor := SessionParentRecord.

(** [phase] of a session: only a completed session ends its parent. *)
Definition phase_of (status : SessionStatus) : string :=
  if decide (status = COMPLETED) then "completed" else "waiting".

Definition find_parent (ps : list SessionParentRecord) (i : string) : option SessionParentRecord :=
  find_first (fun p => bool_decide (pa_conversation_id p = i)) ps.

(** [load] *)
Definition load_parent (ps : list SessionParentRecord) (i : string) : res (option ParentCursor) :=
  match find_parent ps i with
  | None => Ok None
  | Some row => if memb (pa_phase row) ["waiting"; "completed"] then Ok (Some row)
                else Raise (ValueError "invalid parent cursor phase")
  end.

(** * Boundary packets *)

(** [ParentState], the channels of the graph. *)
Record ParentState := {
  ps_conversation_id : string;
  ps_graph_version : string;
  ps_state_version : Z;
  ps_turn_id : string;
  ps_phase : string;
  ps_response_id : string
}.

Definition parent_channels (p : ParentState) : list (string * json) :=
  [("conversation_id", JStr (ps_conversation_id p)); ("graph_version", JStr (ps_graph_version p));
   ("state_version", JNum (PyInt (ps_state_version p))); ("turn_id", JStr (ps_turn_id p));
   ("phase", JStr (ps_phase p)); ("response_id", JStr (ps_response_id p))].

(** [d[k]] of a decoded packet: a [KeyError] without the key, a [TypeError] on
    anything that is not an object. *)
Definition jfield (k : string) (j : json) : res json :=
  match j with
  | JObj kvs => or_raise (jget k kvs) (KeyError k)
  | _ => Raise TypeError
  end.
Definition jobject (j : json) : res (list (string * json)) :=
  match j with JObj kvs => Ok kvs | _ => Raise AttributeError end.
(** What a loop over a decoded value runs through. *)
Definition jlist (j : json) : res (list json) :=
  match j with
  | JArr l => Ok l
  | JObj kvs => Ok (map (fun kv => JStr kv.1) kvs)
  | JStr s => Ok (map (fun c => JStr (utf8_encode [c])) (utf8_decode s))
  | _ => Raise TypeError
  end.
Definition jstr (j : json) : res string := match j with JStr s => Ok s | _ => Raise TypeError end.

Definition allowed_channels : list string :=
  ["conversation_id"; "graph_version"; "state_version"; "turn_id"; "phase"; "response_id";
   "branch:to:wait_for_input"; "branch:to:execute_turn"].

#[export] Instance json_null_dec (j : json) : Decision (j = JNull).
Proof. destruct j; (by left) || (by right). Defined.

Definition json_is_str (j : json) (s : string) : bool :=
  match j with JStr t => bool_decide (t = s) | _ => false end.

(** The loop body of [_check_values]. *)
Definition check_value (kv : string * json) : res unit :=
  if String.prefix "branch:" kv.1 then
    raise_if (negb (bool_decide (kv.2 = JNull))) (ValueError "unexpected parent branch value")
  else if bool_decide (kv.1 = "state_version") then
    match kv.2 with
    | JNum (PyInt v) => raise_if (v <? 1)%Z (ValueError "invalid parent state version")
    | _ => Raise (ValueError "invalid parent state version")
    end
  else match kv.2 with
       | JStr s => raise_if (100 <? py_len s)%nat (ValueError "invalid parent pointer value")
       | _ => Raise (ValueError "invalid parent pointer value")
       end.

Definition check_values (values : list (string * json)) : res unit :=
  _ ← raise_if (negb (subsetb (map fst values) allowed_channels))
        (ValueError "unexpected parent checkpoint channel");
  _ ← each check_value values;
  _ ← raise_if (negb (match jget "response_id" values with Some j => json_is_str j "" | None => false end))
        (ValueError "cannot persist a processing parent");
  raise_if (negb (match jget "phase" values with
                  | Some j => json_is_str j "waiting" || json_is_str j "completed" | None => false end))
    (ValueError "invalid parent boundary").

Record Interrupt := { it_id : json; it_value : json }.

(** A pending write: task, channel, and its value, a sequence of interrupts ([None]:
    anything else). *)
Record PendingWrite := { pw_task_id : json; pw_channel : string; pw_interrupts : option (list Interrupt) }.

(** [CheckpointTuple] *)
Record CheckpointTuple := {
  ct_checkpoint : json;
  ct_metadata : list (string * json);
  ct_pending_writes : list PendingWrite
}.

(** [item.value == {"turn_id": values["turn_id"]}] *)
Definition is_turn_interrupt (turn : json) (v : json) : bool :=
  match v, turn with
  | JObj [(k, JStr t)], JStr t' => bool_decide (k = "turn_id") && bool_decide (t = t')
  | _, _ => false
  end.

Definition export_interrupt (turn : json) (i : Interrupt) : res json :=
  _ ← raise_if (negb (is_turn_interrupt turn (it_value i))) (ValueError "unexpected parent interrupt");
  Ok (JObj [("id", it_id i); ("value", it_value i)]).

Definition export_write (values : list (string * json)) (w : PendingWrite) : res json :=
  _ ← raise_if (negb (bool_decide (pw_channel w = "__interrupt__"))) (ValueError "cannot persist non-boundary writes");
  items ← or_raise (pw_interrupts w) (ValueError "cannot persist non-boundary writes");
  interrupts ← mapR (fun i => turn ← or_raise (jget "turn_id" values) (KeyError "turn_id");
                              export_interrupt turn i) items;
  Ok (JObj [("task_id", pw_task_id w); ("interrupts", JArr interrupts)]).

(** The body of [export_boundary] on the saved tuple. *)
Definition boundary_packet (saved : CheckpointTuple) : res json :=
  values ← jfield "channel_values" (ct_checkpoint saved);
  values ← jobject values;
  _ ← check_values values;
  pending ← mapR (export_write values) (ct_pending_writes saved);
  phase ← or_raise (jget "phase" values) (KeyError "phase");
  _ ← raise_if (json_is_str phase "waiting" && negb (bool_decide (length pending = 1))
                || json_is_str phase "completed" && truthy pending)
        (ValueError "checkpoint is not at WAIT or END");
  let metadata := List.filter (fun kv => memb kv.1 ["source"; "step"; "parents"]) (ct_metadata saved) in
  let packet := JObj [("format", JNum (PyInt 1)); ("checkpoint", ct_checkpoint saved); ("metadata", JObj metadata);
                      ("pending", JArr pending)] in
  _ ← raise_if (32768 <? String.length (dumps_default packet))%nat
        (ValueError "parent checkpoint exceeds boundary budget");
  Ok packet.

(** * The graph library *)

(** LangGraph and its in-memory saver, as the coordinator calls them: each operation
    an arbitrary function that may raise.  [graph_start] is [ainvoke(pointer)],
    [graph_resume] the resumption up to the node [wait_for_input] with the value it is
    given, [graph_finish] the rest of that invocation once [execute_turn] has
    returned, with the node the edges choose. *)
Class GraphLibrary := {
  Saver : Type;
  InMemorySaver : Saver;
  saver_put : Saver -> string -> json -> json -> json -> res Saver;
  saver_put_writes : Saver -> string -> json -> list Interrupt -> res Saver;
  saver_get : Saver -> string -> option CheckpointTuple;
  graph_next : Saver -> string -> res (list string);
  graph_start : Saver -> string -> ParentState -> res Saver;
  graph_resume : Saver -> string -> string -> res (Saver * string);
  graph_finish : Saver -> string -> ParentState -> option string -> res Saver
}.

(** [except (AttributeError, KeyError, TypeError, ValueError)]; the other classes of
    the list are subclasses of [ValueError]. *)
Definition is_decode_error (e : pyexn) : bool :=
  match e with
  | AttributeError | KeyError _ | TypeError | ValueError _ | ValidationError _ | DialogueV2LedgerError _
  | DialogueV3ScenarioSnapshotError _ => true
  | _ => false
  end.

(** Decoding a stored packet only raises errors of decoding. *)
Class GraphLibraryLaws `{GraphLibrary} := {
  put_raises s i c m v e : saver_put s i c m v = Raise e -> is_decode_error e = true;
  put_writes_raises s i t l e : saver_put_writes s i t l = Raise e -> is_decode_error e = true
}.

Section packets.
Context `{GraphLibrary}.

Definition export_boundary (s : Saver) (conversation_id : string) : res json :=
  saved ← or_raise (saver_get s conversation_id) (ValueError "missing parent checkpoint");
  boundary_packet saved.

Definition decode_interrupt (i : json) : res Interrupt :=
  value ← jfield "value" i; id ← jfield "id" i; Ok {| it_id := id; it_value := value |}.

Definition import_pending (conversation_id : string) (s : Saver) (p : json) : res Saver :=
  interrupts ← jfield "interrupts" p;
  interrupts ← jlist interrupts;
  values ← mapR decode_interrupt interrupts;
  task ← jfield "task_id" p;
  saver_put_writes s conversation_id task values.

Definition import_boundary (packet : json) (conversation_id : string) : res Saver :=
  _ ← raise_if (negb (match packet with
                      | JObj kvs => match jget "format" kvs with Some (JNum v) => pynum_eqb v (PyInt 1)
                                     | Some (JBool b) => b | _ => false end
                      | _ => false end)) (ValueError "unsupported parent checkpoint format");
  checkpoint ← jfield "checkpoint" packet;
  values ← jfield "channel_values" checkpoint;
  kvs ← jobject values;
  _ ← check_values kvs;
  owner ← jfield "conversation_id" values;
  _ ← raise_if (negb (json_is_str owner conversation_id)) (ValueError "checkpoint belongs to another conversation");
  metadata ← jfield "metadata" packet;
  versions ← jfield "channel_versions" checkpoint;
  saver ← saver_put InMemorySaver conversation_id checkpoint metadata versions;
  pending ← jfield "pending" packet;
  pending ← jlist pending;
  saver ← foldM (import_pending conversation_id) saver pending;
  _ ← export_boundary saver conversation_id;
  Ok saver.
End packets.

(** * The nodes of the graph *)

Definition wait_for_input (context_response_id delivered : string) : res string :=
  _ ← raise_if (negb (bool_decide (delivered = context_response_id)))
        (ValueError "parent resume token does not match request");
  Ok context_response_id.

(** What [execute_turn] returns for the turn the service answered with. *)
Definition execute_turn_state (p : ParentState) (t : TurnContract) : ParentState := {|
  ps_conversation_id := ps_conversation_id p; ps_graph_version := ps_graph_version p;
  ps_state_version := tc_state_version t; ps_turn_id := tc_turn_id t;
  ps_phase := phase_of (tc_status t); ps_response_id := "" |}.

(** [route]; [None] is [END]. *)
Definition route (p : ParentState) : option string :=
  if decide (ps_phase p = "completed") then None else Some "wait_for_input".

(** * The coordinator *)

(** What may go wrong outside the source: reading the cursor, and publishing it
    (before or after the database has committed). *)
Inductive PublishFault := publish_fine | publish_lost | publish_unacknowledged.
Record Faults := { f_load : bool; f_publish : PublishFault }.

Section parent.
Context {S : Type} `{TurnEngine S} `{!Fernet} `{GraphLibrary}.
Implicit Types (s : Session S) (db : ConversationDb S) (t : TurnContract) (ps : list SessionParentRecord)
  (cu : ParentCursor) (q : Request S) (now : Z).

(** ** The store *)

(** [enroll]: an existing cursor is never reset. *)
Definition enroll s ps : list SessionParentRecord :=
  match st_turn (se_engine s), find_parent ps (se_conversation_id s) with
  | Some turn, None => ps ++ [{|
      pa_conversation_id := se_conversation_id s; pa_graph_version := PARENT_GRAPH_VERSION;
      pa_state_version := st_version (se_engine s); pa_turn_id := turn;
      pa_phase := phase_of (st_status (se_engine s)); pa_generation := 1; pa_checkpoint := None |}]
  | _, _ => ps
  end.

(** The row [publish] writes. *)
Definition published cu (version : Z) (turn phase : string) (checkpoint : json) : SessionParentRecord := {|
  pa_conversation_id := pa_conversation_id cu; pa_graph_version := PARENT_GRAPH_VERSION;
  pa_state_version := version; pa_turn_id := turn; pa_phase := phase;
  pa_generation := (pa_generation cu + 1)%Z; pa_checkpoint := Some checkpoint |}.

(** The [where] clause of the update. *)
Definition same_generation cu (row : SessionParentRecord) : bool :=
  bool_decide (pa_conversation_id row = pa_conversation_id cu)
  && (pa_generation row =? pa_generation cu)%Z && bool_decide (pa_graph_version row = PARENT_GRAPH_VERSION).

(** [publish]: the pointer must be the canonical boundary, and the cursor's generation
    still the stored one. *)
Definition publish cu (version : Z) (turn phase : string) (checkpoint : json) db ps
    : list SessionParentRecord * bool :=
  match find_conversation db (pa_conversation_id cu) with
  | None => (ps, false)
  | Some c =>
      if negb (cn_state_version c =? version)%Z
         || negb (bool_decide (st_turn (se_engine (cn_state_json c)) = Some turn))
         || negb (Bool.eqb (bool_decide (cn_status c = COMPLETED)) (bool_decide (phase = "completed")))
      then (ps, false)
      else (map (fun row => if same_generation cu row then published cu version turn phase checkpoint else row) ps,
            existsb (same_generation cu) ps)
  end.

(** ** One response *)

Definition pointer_of s (turn : string) : ParentState := {|
  ps_conversation_id := se_conversation_id s; ps_graph_version := PARENT_GRAPH_VERSION;
  ps_state_version := st_version (se_engine s); ps_turn_id := turn;
  ps_phase := phase_of (st_status (se_engine s)); ps_response_id := "" |}.

Definition json_value_eqb (a b : json) : bool :=
  match a, b with
  | JStr x, JStr y => bool_decide (x = y)
  | JNum x, JNum y => pynum_eqb x y
  | _, _ => false
  end.

(** [all(values.get(k) == v for k, v in pointer.items())] *)
Definition points_to (values : list (string * json)) (pointer : ParentState) : bool :=
  forallb (fun kv => match jget kv.1 values with Some v => json_value_eqb v kv.2 | None => false end)
    (parent_channels pointer).

(** The saver a request starts from, and whether it holds a restored boundary. *)
Definition restore cu (pointer : ParentState) : res (Saver * bool) :=
  match pa_checkpoint cu with
  | None => Ok (InMemorySaver, false)
  | Some packet =>
      let i := ps_conversation_id pointer in
      match (candidate ← import_boundary packet i;
             saved ← or_raise (saver_get candidate i) AssertionError;
             values ← jfield "channel_values" (ct_checkpoint saved);
             kvs ← jobject values;
             Ok (if points_to kvs pointer then (candidate, true) else (InMemorySaver, false))) with
      | Ok out => Ok out
      | Raise e => if is_decode_error e then Ok (InMemorySaver, false) else Raise e
      end
  end.

(** From the restored saver to the start of [execute_turn]. *)
Definition checked_start (pointer : ParentState) (start : Saver * bool) : res (Saver * bool) :=
  if start.2 then
    next ← graph_next start.1 (ps_conversation_id pointer);
    let expected := match route pointer with None => [] | Some n => [n] end in
    Ok (if bool_decide (next = expected) then start else (InMemorySaver, false))
  else Ok start.

Definition bootstrap (pointer : ParentState) (response_id : string) (start : Saver * bool) : res Saver :=
  let i := ps_conversation_id pointer in
  ready ← checked_start pointer start;
  let '(saver, restored) := ready in
  saver ← (if restored : bool then Ok saver else graph_start saver i pointer);
  resumed ← graph_resume saver i response_id;
  _ ← wait_for_input response_id resumed.2;
  Ok resumed.1.

(** After the turn: the packet and the pointer to publish. *)
Definition project_boundary (pointer : ParentState) (s : Saver) t : res (json * (Z * string * string)) :=
  let i := ps_conversation_id pointer in
  let next := execute_turn_state pointer t in
  saver ← graph_finish s i next (route next);
  packet ← export_boundary saver i;
  checkpoint ← jfield "checkpoint" packet;
  values ← jfield "channel_values" checkpoint;
  version ← jfield "state_version" values;
  version ← match version with JNum (PyInt v) => Ok v | _ => Raise TypeError end;
  turn ← jfield "turn_id" values;
  turn ← jstr turn;
  phase ← jfield "phase" values;
  phase ← jstr phase;
  Ok (packet, (version, turn, phase)).

Inductive parent_pc :=
  | P_prior
  | P_state
  | P_cursor s
  | P_turn_only (p : pc S)
  | P_boot s cu
  | P_turn s cu (saver : Saver) (p : pc S)
  | P_boundary s cu (saver : Saver) t (replayed : bool)
  | P_done (r : reply).

Variable is_verdict : S -> bool.

(** The rows after publishing, under a fault of the database. *)
Definition publish_under (f : PublishFault) cu (version : Z) (turn phase : string) (packet : json) db ps
    : list SessionParentRecord :=
  match f with
  | publish_lost => ps
  | publish_fine | publish_unacknowledged => (publish cu version turn phase packet db ps).1
  end.

(** [_respond_stream_scoped] with [SessionParentCoordinator.stream], one step. *)
Definition parent_step q (f : Faults) now db ps (p : parent_pc) : ConversationDb S * list SessionParentRecord * parent_pc :=
  match p with
  | P_prior =>
      (db, ps, match response_exists now (rq_conversation_id q) (rq_response_id q) db with
               | Ok (Some t) => P_done (Answered t true)
               | Ok None => P_state
               | Raise e => P_done (Failed e)
               end)
  | P_state =>
      (db, ps, match get_state now (rq_conversation_id q) db with
               | Ok s => if is_verdict (se_engine s) && bool_decide (st_status (se_engine s) = ACTIVE)
                         then P_cursor s else P_turn_only AtPrior
               | Raise e => P_done (Failed e)
               end)
  | P_cursor s =>
      (db, ps, if f_load f then P_turn_only AtPrior
               else match load_parent ps (rq_conversation_id q) with
                    | Ok (Some cu) => if bool_decide (pa_graph_version cu = PARENT_GRAPH_VERSION)
                                      then P_boot s cu else P_turn_only AtPrior
                    | Ok None | Raise (ValueError _) => P_turn_only AtPrior
                    | Raise e => P_done (Failed e)
                    end)
  | P_turn_only p =>
      match p with
      | Done r => (db, ps, P_done r)
      | _ => let out := service_step q now db p in (out.1, ps, P_turn_only out.2)
      end
  | P_boot s cu =>
      (db, ps, match st_turn (se_engine s) with
               | None => P_done (Failed AssertionError)
               | Some turn =>
                   let pointer := pointer_of s turn in
                   match restore cu pointer with
                   | Raise e => P_done (Failed e)
                   | Ok start =>
                       match bootstrap pointer (rq_response_id q) start with
                       | Ok saver => P_turn s cu saver AtPrior
                       | Raise _ => P_turn_only AtPrior
                       end
                   end
               end)
  | P_turn s cu saver p =>
      match p with
      | Done (Answered t replayed) => (db, ps, P_boundary s cu saver t replayed)
      | Done (Failed e) => (db, ps, P_done (Failed e))
      | _ => let out := service_step q now db p in (out.1, ps, P_turn s cu saver out.2)
      end
  | P_boundary s cu saver t replayed =>
      (db, match (turn ← or_raise (st_turn (se_engine s)) AssertionError;
                  project_boundary (pointer_of s turn) saver t) with
           | Ok (packet, (version, turn, phase)) => publish_under (f_publish f) cu version turn phase packet db ps
           | Raise _ => ps
           end, P_done (Answered t replayed))
  | P_done r => (db, ps, P_done r)
  end.

(** ** The system *)

Record ParentSystem := {
  py_now : Z;
  py_db : ConversationDb S;
  py_parents : list SessionParentRecord;
  py_created : list (Session S);
  py_requests : list (Request S * parent_pc)
}.

(** Requests arrive and run with any faults, conversations are created under a new id
    and later enrolled or not, raw text is purged. *)
Inductive parent_system_step : ParentSystem -> ParentSystem -> Prop :=
  | psys_arrive now db ps cs rs q :
      request_ok q ->
      parent_system_step {| py_now := now; py_db := db; py_parents := ps; py_created := cs; py_requests := rs |}
        {| py_now := now; py_db := db; py_parents := ps; py_created := cs; py_requests := rs ++ [(q, P_prior)] |}
  | psys_run now now' db ps cs rs i q p f :
      (now <= now')%Z -> rs !! i = Some (q, p) ->
      let out := parent_step q f now' db ps p in
      parent_system_step {| py_now := now; py_db := db; py_parents := ps; py_created := cs; py_requests := rs |}
        {| py_now := now'; py_db := out.1.1; py_parents := out.1.2; py_created := cs;
           py_requests := <[i := (q, out.2)]> rs |}
  | psys_create now db ps cs rs s t i db' :
      st_starts (se_engine s) t -> find_conversation db (se_conversation_id s) = None ->
      create_conversation s t db = Ok (i, db') ->
      parent_system_step {| py_now := now; py_db := db; py_parents := ps; py_created := cs; py_requests := rs |}
        {| py_now := now; py_db := db'; py_parents := ps;
           py_created := if decide (i = se_conversation_id s) then s :: cs else cs; py_requests := rs |}
  | psys_enroll now db ps cs rs s :
      s ∈ cs ->
      parent_system_step {| py_now := now; py_db := db; py_parents := ps; py_created := cs; py_requests := rs |}
        {| py_now := now; py_db := db; py_parents := enroll s ps; py_created := cs; py_requests := rs |}
  | psys_purge now now' db ps cs rs cut due :
      (now <= now')%Z -> (cut <= now')%Z -> (forall d, d ∈ due -> d ∈ purge_due cut db) ->
      parent_system_step {| py_now := now; py_db := db; py_parents := ps; py_created := cs; py_requests := rs |}
        {| py_now := now'; py_db := purge_write cut due db; py_parents := ps; py_created := cs;
           py_requests := rs |}.

Inductive parent_reachable : ParentSystem -> Prop :=
  | preach_start now :
      parent_reachable {| py_now := now; py_db := empty_db; py_parents := []; py_created := []; py_requests := [] |}
  | preach_step y y' : parent_reachable y -> parent_system_step y y' -> parent_reachable y'.

(** A request served alone, under faults that may differ from step to step. *)
Fixpoint parent_serve (n : nat) q (fs : nat -> Faults) now db ps (p : parent_pc)
    : ConversationDb S * list SessionParentRecord * parent_pc :=
  match n with
  | O => (db, ps, p)
  | Datatypes.S n => let out := parent_step q (fs O) now db ps p in
      parent_serve n q (fun k => fs (Datatypes.S k)) now out.1.1 out.1.2 out.2
  end.
End parent.
Arguments parent_pc S {_}.
Arguments ParentSystem S {_}.
