(* ===== verification/SessionParentTheory.v ===== *)
(** The session parent is transparent: every system of requests under the parent is
    simulated by the turn service alone, whatever the graph library, the packets and
    the cursor store do; and its cursors only ever name committed boundaries. *)

From S2P Require Import Prelude.
From S2P Require Import PyStr.
From S2P Require Import PyNum.
From S2P Require Import Json.
From S2P Require Import Schemas.
From S2P Require Import Question.
From S2P Require Import SpeakerText.
From S2P Require Import SpeakerPlan.
From S2P Require Import Reply.
From S2P Require Import Speak.
From S2P Require Import Gate.
From S2P Require Import Lease.
From S2P Require Import Outbox.
From S2P Require Import Conversation.
From S2P Require Import ConversationTheory.
From S2P Require Import ConversationCommit.
From S2P Require Import ConversationSafety.
From S2P Require Import SessionParent.

(** * Decoding *)

(** A computation that only raises errors of decoding. *)
Definition decodes {A} (r : res A) : Prop := forall e, r = Raise e -> is_decode_error e = true.

Create HintDb decode.

Lemma decodes_Ok {A} (a : A) : decodes (Ok a).
Proof. by intros e. Qed.
Lemma decodes_bind {A B} (r : res A) (k : A -> res B) :
  decodes r -> (forall a, decodes (k a)) -> decodes (mbind k r).
Proof. intros Hr Hk. destruct r as [a|e]; [apply Hk|]. intros e' [= <-]. by apply Hr. Qed.
Lemma decodes_raise_if b e : is_decode_error e = true -> decodes (raise_if b e).
Proof. intros He e'. unfold raise_if. destruct b; [|done]. by intros [= <-]. Qed.
Lemma decodes_or_raise {A} (o : option A) e : is_decode_error e = true -> decodes (or_raise o e).
Proof. intros He e'. unfold or_raise. destruct o; [done|]. by intros [= <-]. Qed.
Lemma decodes_mapR {A B} (f : A -> res B) l : (forall a, decodes (f a)) -> decodes (mapR f l).
Proof.
  intros Hf. induction l as [|a l IH]; simpl; [apply decodes_Ok|].
  apply decodes_bind; [done|]. intros b. apply decodes_bind; [done|]. intros bs. apply decodes_Ok.
Qed.
Lemma decodes_foldM {A B} (f : A -> B -> res A) a l : (forall a b, decodes (f a b)) -> decodes (foldM f a l).
Proof.
  intros Hf. revert a. induction l as [|b l IH]; intros a; simpl; [apply decodes_Ok|].
  by apply decodes_bind.
Qed.
#[export] Hint Resolve decodes_Ok decodes_bind decodes_raise_if decodes_or_raise decodes_mapR decodes_foldM : decode.

Lemma decodes_jfield k j : decodes (jfield k j).
Proof. unfold jfield. destruct j; try (intros e [= <-]; done). by apply decodes_or_raise. Qed.
Lemma decodes_jobject j : decodes (jobject j).
Proof. destruct j; intros e [= <-]; done. Qed.
Lemma decodes_jlist j : decodes (jlist j).
Proof. destruct j; intros e [= <-]; done. Qed.
Lemma decodes_jstr j : decodes (jstr j).
Proof. destruct j; intros e [= <-]; done. Qed.
#[export] Hint Resolve decodes_jfield decodes_jobject decodes_jlist decodes_jstr : decode.

Lemma decodes_check_value kv : decodes (check_value kv).
Proof.
  unfold check_value. repeat case_match; eauto with decode; by intros err [= <-].
Qed.
#[export] Hint Resolve decodes_check_value : decode.
Lemma decodes_check_values values : decodes (check_values values).
Proof. unfold check_values, each. eauto 10 with decode. Qed.
#[export] Hint Resolve decodes_check_values : decode.
Lemma decodes_boundary_packet saved : decodes (boundary_packet saved).
Proof.
  unfold boundary_packet. eapply decodes_bind; [eauto with decode|]. intros v.
  eapply decodes_bind; [eauto with decode|]. intros values. eapply decodes_bind; [eauto with decode|]. intros _.
  eapply decodes_bind; [|intros; eauto 10 with decode]. apply decodes_mapR. intros w. unfold export_write, export_interrupt.
  eauto 12 with decode.
Qed.
#[export] Hint Resolve decodes_boundary_packet : decode.

Section packets.
Context `{GraphLibraryLaws}.

Lemma decodes_put s i c m v : decodes (saver_put s i c m v).
Proof. intros e. apply put_raises. Qed.
Lemma decodes_put_writes s i t l : decodes (saver_put_writes s i t l).
Proof. intros e. apply put_writes_raises. Qed.
Hint Resolve decodes_put decodes_put_writes : decode.

Lemma decodes_export s i : decodes (export_boundary s i).
Proof. unfold export_boundary. eauto with decode. Qed.
Hint Resolve decodes_export : decode.

Lemma decodes_import packet i : decodes (import_boundary packet i).
Proof.
  unfold import_boundary. apply decodes_bind; [eauto with decode|]. intros _.
  repeat (apply decodes_bind; [solve [eauto with decode]|]; intros ?).
  apply decodes_bind; [|eauto with decode]. apply decodes_foldM. intros sv p. unfold import_pending, decode_interrupt.
  eauto 12 with decode.
Qed.

(** A packet that imports holds a tuple. *)
Lemma import_saved packet i s : import_boundary packet i = Ok s -> is_Some (saver_get s i).
Proof.
  unfold import_boundary. intros Hi.
  repeat match goal with Hx : mbind ?k ?r = Ok _ |- _ => destruct r eqn:?; [cbn [mbind res_bind] in Hx|done] end.
  injection Hi as ->. unfold export_boundary in *. destruct (saver_get s i); [by eexists|done].
Qed.
End packets.

Section parent.
Context {E : Type} `{TurnEngineLaws E} `{!Fernet} `{GraphLibraryLaws} (is_verdict : E -> bool).
Implicit Types (s : Session E) (db : ConversationDb E) (t : TurnContract) (ps : list SessionParentRecord)
  (cu : ParentCursor) (q : Request E) (now : Z) (p : parent_pc E) (y : ParentSystem E) (ys : System E).

Lemma restore_total cu pointer : exists start, restore cu pointer = Ok start.
Proof.
  unfold restore. destruct (pa_checkpoint cu) as [packet|]; [|by eexists].
  destruct (_ ← _; _) as [out|e] eqn:Hr; [by eexists|].
  assert (Hd : is_decode_error e = true); [|rewrite Hd; by eexists].
  destruct (import_boundary packet _) as [sv|e'] eqn:Hi; [|apply decodes_import in Hi; by injection Hr as <-].
  cbn [mbind res_bind] in Hr. destruct (import_saved _ _ _ Hi) as [saved Hs]. rewrite Hs in Hr. cbn in Hr.
  revert Hr. apply decodes_bind; [eauto with decode|]. intros values. eauto with decode.
Qed.

(** A restored boundary is the one the conversation is at. *)
Lemma restored_points cu pointer sv : restore cu pointer = Ok (sv, true) ->
  exists saved values, saver_get sv (ps_conversation_id pointer) = Some saved
    /\ jfield "channel_values" (ct_checkpoint saved) = Ok (JObj values) /\ points_to values pointer = true.
Proof.
  unfold restore. destruct (pa_checkpoint cu) as [packet|]; [|done].
  destruct (import_boundary packet _) as [sv'|e']; cbn [mbind res_bind]; [|by destruct (is_decode_error _)].
  destruct (saver_get sv' _) as [saved|] eqn:Hs; [|done]. cbn [or_raise mbind res_bind].
  destruct (jfield _ _) as [j|e] eqn:Hj; cbn [mbind res_bind]; [|by destruct (is_decode_error _)].
  destruct j as [| | | | |kvs]; try done. cbn [jobject mbind res_bind].
  destruct (points_to kvs pointer) eqn:Hp; [|done]. intros [= <-]. by exists saved, kvs.
Qed.

(** * Simulation by the turn service *)

(** Where the turn service would be. *)
Definition erase p : pc E :=
  match p with
  | P_prior => AtPrior
  | P_state => AtState
  | P_cursor s | P_boot s _ => AtActive s
  | P_turn_only p | P_turn _ _ _ p => p
  | P_boundary _ _ _ t replayed => Done (Answered t replayed)
  | P_done r => Done r
  end.

Definition erased (rs : list (Request E * parent_pc E)) : list (Request E * pc E) :=
  map (fun qp => (qp.1, erase qp.2)) rs.

(** The turn service has the same store and, besides requests given up, the same
    requests in the same places. *)
Record simulates y ys : Prop := {
  si_reachable : reachable ys;
  si_db : sy_db ys = py_db y;
  si_now : (sy_now ys <= py_now y)%Z;
  si_requests : exists given_up, sy_requests ys ≡ₚ erased (py_requests y) ++ given_up
}.

Lemma list_delete_insert {A} (l : list A) i x : delete i (<[i := x]> l) = delete i l.
Proof. revert i. induction l as [|a l IH]; intros [|i]; [done..|]. simpl. f_equal. apply IH. Qed.

Lemma erased_at rs i q p : rs !! i = Some (q, p) -> exists rest, erased rs ≡ₚ (q, erase p) :: rest
  /\ forall p', erased (<[i := (q, p')]> rs) ≡ₚ (q, erase p') :: rest.
Proof.
  intros Hi. exists (erased (delete i rs)). unfold erased. split.
  - by rewrite (delete_Permutation rs i _ Hi) at 1.
  - intros p'. assert (Hl : <[i := (q, p')]> rs !! i = Some (q, p')).
    { apply list_lookup_insert_eq. by eapply lookup_lt_Some. }
    rewrite (delete_Permutation _ i _ Hl). by rewrite list_delete_insert.
Qed.

(** The service runs one of its requests. *)
Lemma run_request ys q (p : pc E) rest now : reachable ys -> (sy_now ys <= now)%Z -> sy_requests ys ≡ₚ (q, p) :: rest ->
  exists ys', reachable ys' /\ sy_db ys' = (service_step q now (sy_db ys) p).1 /\ sy_now ys' = now
    /\ sy_requests ys' ≡ₚ (q, (service_step q now (sy_db ys) p).2) :: rest /\ db_evolves now (sy_db ys) (sy_db ys').
Proof.
  intros Hr Hn Hp. destruct ys as [now0 db rs]. simpl in *.
  assert (Hin : (q, p) ∈ rs) by (rewrite Hp; left). apply list_elem_of_lookup in Hin as [i Hi].
  pose proof (sys_run now0 now db rs i q p Hn Hi) as Hstep. simpl in Hstep.
  pose proof (system_step_ok _ _ (reachable_ok _ Hr) Hstep) as (_ & _ & Hev). simpl in Hev.
  eexists. split; [eapply reach_step; [exact Hr|exact Hstep]|]. simpl.
  split; [done|]. split; [done|]. split; [|exact Hev].
  set (out := service_step q now db p).
  assert (Hl : <[i := (q, out.2)]> rs !! i = Some (q, out.2)) by (apply list_lookup_insert_eq; by eapply lookup_lt_Some).
  rewrite (delete_Permutation _ i _ Hl), list_delete_insert. f_equiv.
  rewrite (delete_Permutation rs i _ Hi) in Hp. by apply Permutation_cons_inv in Hp.
Qed.

(** A request is given up and sent anew. *)
Lemma restart_request ys q : reachable ys -> request_ok q ->
  exists ys', reachable ys' /\ sy_db ys' = sy_db ys /\ sy_now ys' = sy_now ys
    /\ sy_requests ys' ≡ₚ (q, AtPrior) :: sy_requests ys.
Proof.
  intros Hr Hq. destruct ys as [now db rs]. eexists. split; [eapply reach_step; [exact Hr|]; by apply sys_arrive|].
  simpl. split; [done|]. split; [done|]. by rewrite Permutation_app_comm.
Qed.

(** What the service does for one step of a request: the same reply, further on. *)
Definition follows_step ys q now rest (out : ConversationDb E * list SessionParentRecord * parent_pc E) : Prop :=
  exists ys' given_up, reachable ys' /\ sy_db ys' = out.1.1 /\ db_evolves now (sy_db ys) out.1.1 /\ (sy_now ys' <= now)%Z
    /\ sy_requests ys' ≡ₚ (q, erase out.2) :: rest ++ given_up.

Lemma follow_stay ys q now rest (k : pc E) db' ps' p' : reachable ys -> (sy_now ys <= now)%Z ->
  sy_requests ys ≡ₚ (q, k) :: rest -> db' = sy_db ys -> erase p' = k -> follows_step ys q now rest (db', ps', p').
Proof. intros Hr Hn Hp -> <-. exists ys, []. rewrite app_nil_r. split; [done|]. split; [done|]. split; [apply evolves_refl|done]. Qed.

Lemma follow_run ys q now rest (k : pc E) db' ps' p' : reachable ys -> (sy_now ys <= now)%Z ->
  sy_requests ys ≡ₚ (q, k) :: rest -> service_step q now (sy_db ys) k = (db', erase p') ->
  follows_step ys q now rest (db', ps', p').
Proof.
  intros Hr Hn Hp Hs. destruct (run_request ys q k rest now Hr Hn Hp) as (ys' & Hr' & Hdb & Hnow & Hp' & Hev).
  rewrite Hdb in Hev. rewrite Hs in Hdb, Hp', Hev. exists ys', []. rewrite app_nil_r. split; [done|]. split; [done|].
  split; [done|]. split; [simpl in *; lia|done].
Qed.

Lemma follow_restart ys q now rest (k : pc E) db' ps' p' : reachable ys -> request_ok q -> (sy_now ys <= now)%Z ->
  sy_requests ys ≡ₚ (q, k) :: rest -> db' = sy_db ys -> erase p' = AtPrior -> follows_step ys q now rest (db', ps', p').
Proof.
  intros Hr Hq Hn Hp -> He. destruct (restart_request ys q Hr Hq) as (ys' & Hr' & Hdb & Hnow & Hp').
  exists ys', [(q, k)]. simpl. rewrite He, Hdb, Hnow. split; [done|]. split; [done|]. split; [apply evolves_refl|]. split; [done|].
  rewrite Hp', Hp. f_equiv. by rewrite Permutation_cons_append.
Qed.

Lemma load_parent_error ps i e : load_parent ps i = Raise e -> exists m, e = ValueError m.
Proof. unfold load_parent. intros Hl. repeat case_match; simplify_eq. by eexists. Qed.

Lemma step_simulated ys q f now ps p rest : reachable ys -> request_ok q -> (sy_now ys <= now)%Z ->
  sy_requests ys ≡ₚ (q, erase p) :: rest ->
  follows_step ys q now rest (parent_step is_verdict q f now (sy_db ys) ps p).
Proof.
  intros Hr Hq Hn Hp. assert (Hin : (q, erase p) ∈ sy_requests ys) by (rewrite Hp; left).
  pose proof (so_requests _ (reachable_ok _ Hr) _ _ Hin) as [_ Hpc].
  destruct p as [| |s|p|s cu|s cu sv p|s cu sv t b|r]; cbn [parent_step erase] in *.
  - destruct (response_exists _ _ _ _) as [[t|]|e] eqn:He; eapply follow_run; try done;
      cbn [service_step erase]; by rewrite He.
  - destruct (get_state _ _ _) as [s|e] eqn:He; [|eapply follow_run; try done; cbn [service_step erase]; by rewrite He].
    destruct (_ && _); [eapply follow_run; try done; cbn [service_step erase]; by rewrite He|].
    destruct (run_request ys q AtState rest now Hr Hn Hp) as (ys' & Hr' & Hdb & Hnow & Hp' & _).
    cbn [service_step] in Hdb, Hp'. rewrite He in Hp'. cbn [fst snd fail_or] in *.
    destruct (follow_restart ys' q now rest (AtActive s) (sy_db ys) ps (P_turn_only AtPrior)) as (ys2 & g & Hf);
      try done; [lia|]. exists ys2, g. by rewrite Hdb in Hf.
  - repeat case_match; first [by eapply follow_restart|by eapply follow_stay|
      match goal with H : load_parent _ _ = Raise _ |- _ => apply load_parent_error in H as [? ?]; discriminate end].
  - destruct p; try (eapply follow_run; [done..|]; cbn [erase]; by destruct (service_step _ _ _ _)).
    by eapply follow_stay.
  - destruct Hpc as (t & Hh). rewrite (hd_turn _ _ _ _ _ Hh).
    destruct (restore_total cu (pointer_of s (tc_turn_id t))) as [start ->].
    destruct (bootstrap _ _ _); by eapply follow_restart.
  - destruct p as [| | | | | |[t b|e]]; try (eapply follow_run; [done..|]; cbn [erase]; by destruct (service_step _ _ _ _));
      by eapply follow_stay.
  - by eapply follow_stay.
  - by eapply follow_stay.
Qed.

(** Everything the parent's system does, the turn service does. *)
Lemma parent_simulated y : parent_reachable is_verdict y -> exists ys, simulates y ys.
Proof.
  induction 1 as [now|y y' _ (ys & [Hr Hdb Hn (g & Hg)]) Hstep].
  { eexists. split; [apply (reach_start now)|done|done|by exists []]. }
  destruct Hstep as [now db ps cs rs q Hq|now now' db ps cs rs i q p f Hnow Hi|now db ps cs rs s t i db' Hs Hid Hc
    |now db ps cs rs s Hs|now now' db ps cs rs cut due Hnow Hcut Hdue]; simpl in *; subst db.
  - destruct (restart_request ys q Hr Hq) as (ys' & Hr' & Hdb' & Hn' & Hg'). exists ys'.
    split; [done|done|by rewrite Hn'|]. exists g. rewrite Hg', Hg. unfold erased. simpl. rewrite map_app. simpl.
    rewrite <- app_assoc. simpl. by rewrite Permutation_middle.
  - destruct (erased_at rs i q p Hi) as (rest & He & He'). rewrite He in Hg.
    assert (Hq : request_ok q).
    { assert (Hin : (q, erase p) ∈ sy_requests ys) by (rewrite Hg; left).
      apply (so_requests _ (reachable_ok _ Hr) _ _ Hin). }
    destruct (step_simulated ys q f now' ps p (rest ++ g) Hr Hq) as (ys' & g' & Hr' & Hdb' & _ & Hn' & Hg'); [lia|done|].
    exists ys'. split; [done|done|done|]. exists (g ++ g'). simpl. rewrite Hg', He'. by rewrite <- app_assoc.
  - destruct ys as [now0 db rs0]. simpl in *. eexists. split; [eapply reach_step; [exact Hr|by eapply sys_create]|done|done|].
    by exists g.
  - exists ys. by split; [| | |exists g].
  - destruct ys as [now0 db rs0]. simpl in *.
    eexists. split; [eapply reach_step; [exact Hr|apply (sys_purge now0 now'); [lia|exact Hcut|exact Hdue]]|done|done|]. by exists g.
Qed.

(** (C20) The session parent is transparent: for every system of requests that run under
    the parent, with whatever behaviour of the graph library, its packets and the
    cursor store, the turn service alone reaches the same conversations, turns and
    events, with every reply that has been given; so what is proved of the turn
    service holds under the parent. *)
Theorem parent_refines_turn_service y : parent_reachable is_verdict y ->
  exists ys, reachable ys /\ sy_db ys = py_db y
    /\ forall q r, (q, P_done r) ∈ py_requests y -> (q, Done r) ∈ sy_requests ys.
Proof.
  intros (ys & [Hr Hdb _ (g & Hg)])%parent_simulated. exists ys. split; [done|]. split; [done|].
  intros q r Hin. rewrite Hg. apply elem_of_app. left. by apply (list_elem_of_fmap_2 (fun qp => (qp.1, erase qp.2))) in Hin.
Qed.

(** * Availability *)

Lemma parent_done n q fs now db ps r : parent_serve is_verdict n q fs now db ps (P_done r) = (db, ps, P_done r).
Proof. revert fs. induction n as [|n IH]; intros fs; [done|]. apply IH. Qed.

Lemma service_done n q now db r : serve n q now db (Done r) = (db, Done r).
Proof. induction n; [done|]. done. Qed.

Lemma serve_more n k q now db (p : pc E) db' r : serve n q now db p = (db', Done r) -> serve (n + k) q now db p = (db', Done r).
Proof.
  revert db p. induction n as [|n IH]; intros db p Hs; [injection Hs as -> ->; apply service_done|]. by apply IH.
Qed.

Lemma parent_serve_S n q fs now db ps p : parent_serve is_verdict (S n) q fs now db ps p =
  let out := parent_step is_verdict q (fs O) now db ps p in
  parent_serve is_verdict n q (fun k => fs (S k)) now out.1.1 out.1.2 out.2.
Proof. done. Qed.

Lemma serve_S n q now db (p : pc E) : serve (S n) q now db p =
  serve n q now (service_step q now db p).1 (service_step q now db p).2.
Proof. done. Qed.

(** The turn service ends within six steps. *)
Lemma service_ends q now db : exists db' r, serve 6 q now db AtPrior = (db', Done r).
Proof.
  assert (Hd : forall n db r, exists db' r', serve n q now db (Done r) = (db', Done r')).
  { intros n db0 r. do 2 eexists. apply service_done. }
  rewrite serve_S. cbn [service_step fst snd]. destruct (response_exists _ _ _ _) as [[t|]|e]; cbn [fail_or]; try apply Hd.
  rewrite serve_S. cbn [service_step fst snd]. destruct (get_state _ _ _) as [s|e]; cbn [fail_or]; [|apply Hd].
  rewrite serve_S. cbn [service_step fst snd]. destruct (_ ← active_turn s db; _) as [t|e]; cbn [fail_or]; [|apply Hd].
  rewrite serve_S. cbn [service_step fst snd]. destruct (rq_run _ _ _) as [out|e]; cbn [fail_or]; [|apply Hd].
  rewrite serve_S. cbn [service_step fst snd]. destruct (commit_turn _ _ _ _ _ _) as [db'|e]; cbn [fst snd]; [apply Hd|].
  destruct e; cbn [fst snd]; try apply Hd.
  rewrite serve_S. cbn [service_step fst snd]. destruct (response_exists _ _ _ _) as [[t2|]|e2]; cbn [fail_or]; apply Hd.
Qed.

(** Under a shell the service ends as it does alone. *)
Lemma turn_only_serves n q fs now db ps (p : pc E) db' r : serve n q now db p = (db', Done r) ->
  parent_serve is_verdict (S n) q fs now db ps (P_turn_only p) = (db', ps, P_done r).
Proof.
  revert fs db p. induction n as [|n IH]; intros fs db p Hs; [by injection Hs as -> ->|].
  destruct p as [| | | | | |r']; try (apply IH; exact Hs).
  rewrite service_done in Hs. injection Hs as -> ->. apply (parent_done (S n)).
Qed.

Lemma turn_serves n q fs now db ps s cu sv (p : pc E) db' r : serve n q now db p = (db', Done r) ->
  exists ps', parent_serve is_verdict (S (S n)) q fs now db ps (P_turn s cu sv p) = (db', ps', P_done r).
Proof.
  revert fs db p. induction n as [|n IH]; intros fs db p Hs.
  - injection Hs as -> ->. destruct r as [t b|e]; by eexists.
  - destruct p as [| | | | | |r']; try (apply IH; exact Hs).
    rewrite service_done in Hs. injection Hs as -> ->.
    destruct r as [t b|e]; [|by eexists; apply (parent_done (S (S n)))].
    eexists. cbn [parent_serve]. apply (parent_done n).
Qed.

(** (C21) The parent never costs an answer: on the database of a reachable system a
    request served alone under the parent ends within twelve steps, with the database
    and the reply of the turn service, whatever the cursor says, whether it can be
    read or published, and however the graph library fails or lies. *)
Theorem parent_answers_like_service ys q fs ps now : reachable ys ->
  exists db' r ps', serve 6 q now (sy_db ys) AtPrior = (db', Done r)
    /\ parent_serve is_verdict 12 q fs now (sy_db ys) ps P_prior = (db', ps', P_done r).
Proof.
  intros Hok%reachable_db_ok. set (db := sy_db ys) in *. destruct (service_ends q now db) as (db' & r & Hs). exists db', r.
  assert (Hbypass : forall k fs, exists ps', parent_serve is_verdict (S (6 + k)) q fs now db ps (P_turn_only AtPrior) = (db', ps', P_done r)).
  { intros k fs'. exists ps. by apply turn_only_serves, serve_more. }
  cut (exists ps', parent_serve is_verdict 12 q fs now db ps P_prior = (db', ps', P_done r)).
  { intros [ps' Hp]. by exists ps'. }
  rewrite parent_serve_S. cbn [parent_step fst snd]. pose proof Hs as Hs1. rewrite serve_S in Hs1.
  cbn [service_step fst snd] in Hs1. destruct (response_exists _ _ _ db) as [[t|]|e]; cbn [fail_or] in Hs1;
    [rewrite service_done in Hs1; injection Hs1 as <- <-; eexists; apply parent_done|
    |rewrite service_done in Hs1; injection Hs1 as <- <-; eexists; apply parent_done].
  rewrite parent_serve_S. cbn [parent_step fst snd]. rewrite serve_S in Hs1. cbn [service_step fst snd] in Hs1.
  destruct (get_state _ _ db) as [s|e] eqn:Hget; cbn [fail_or] in Hs1;
    [|rewrite service_done in Hs1; injection Hs1 as <- <-; eexists; apply parent_done].
  destruct (_ && _); [|apply (Hbypass 3)]. clear Hs1.
  rewrite parent_serve_S. cbn [parent_step fst snd]. destruct (f_load _); [apply (Hbypass 2)|].
  destruct (load_parent _ _) as [[cu|]|e] eqn:Hload; [|apply (Hbypass 2)|apply load_parent_error in Hload as [m ->]; apply (Hbypass 2)].
  destruct (bool_decide _); [|apply (Hbypass 2)].
  rewrite parent_serve_S. cbn [parent_step fst snd]. destruct (get_state_held _ _ _ _ Hok Hget) as (t & Hh).
  rewrite (hd_turn _ _ _ _ _ Hh). destruct (restore_total cu (pointer_of s (tc_turn_id t))) as [start ->].
  destruct (bootstrap _ _ _) as [sv|e]; [by apply turn_serves|apply (Hbypass 1)].
Qed.

(** * Cursors *)

(** A committed boundary: a stored turn of the conversation, shown by a state that a
    sequence of answered turns leads to. *)
Definition boundary db (i : string) (version : Z) (turn phase : string) : Prop :=
  (exists tn, find_turn db turn = Some tn /\ tn_conversation_id tn = i /\ tn_state_version tn = version)
  /\ exists e t, sequential e t /\ st_turn e = Some turn /\ st_version e = version /\ phase = phase_of (st_status e).

Lemma boundary_evolves now db db' i version turn phase :
  db_evolves now db db' -> boundary db i version turn phase -> boundary db' i version turn phase.
Proof.
  intros Hev [(tn & Ht & Hi & Hv) Hs]. split; [|done].
  destruct (ev_turn _ _ _ Hev _ _ Ht) as (tn' & Ht' & Hc). exists tn'.
  by rewrite (core_conversation _ _ Hc), (core_version _ _ Hc).
Qed.

(** A stored checkpoint carries the pointer of its cursor and no text beyond it. *)
Definition packet_ok (row : SessionParentRecord) (packet : json) : Prop :=
  exists checkpoint values, jfield "checkpoint" packet = Ok checkpoint
    /\ jfield "channel_values" checkpoint = Ok (JObj values) /\ check_values values = Ok tt
    /\ jget "state_version" values = Some (JNum (PyInt (pa_state_version row)))
    /\ jget "turn_id" values = Some (JStr (pa_turn_id row)) /\ jget "phase" values = Some (JStr (pa_phase row))
    /\ String.length (dumps_default packet) <= 32768.

Record cursor_ok db (row : SessionParentRecord) : Prop := {
  cu_boundary : boundary db (pa_conversation_id row) (pa_state_version row) (pa_turn_id row) (pa_phase row);
  cu_generation : (1 <= pa_generation row)%Z;
  cu_checkpoint packet : pa_checkpoint row = Some packet -> packet_ok row packet
}.

Lemma cursor_evolves now db db' row : db_evolves now db db' -> cursor_ok db row -> cursor_ok db' row.
Proof. intros Hev [Hb Hg Hc]. split; [by eapply boundary_evolves|done|done]. Qed.

(** A cursor moves on by one generation and never to an older version. *)
Definition moves_on (row row' : SessionParentRecord) : Prop :=
  pa_conversation_id row' = pa_conversation_id row /\
  (row' = row \/ pa_generation row' = (pa_generation row + 1)%Z /\ (pa_state_version row <= pa_state_version row')%Z).

(** ** Publishing *)

Lemma check_phase values j : check_values values = Ok tt -> jget "phase" values = Some j ->
  j = JStr "waiting" \/ j = JStr "completed".
Proof.
  unfold check_values. rewrite bind_raise_if_Ok. intros [_ Hc] Hp.
  destruct (each check_value values); [|done]. cbn [mbind res_bind] in Hc. rewrite bind_raise_if_Ok in Hc.
  destruct Hc as [_ Hc]. rewrite Hp in Hc. unfold raise_if in Hc. destruct j; try done. simpl in Hc.
  destruct (bool_decide (s = "waiting")) eqn:Hw; [apply bool_decide_eq_true in Hw; left; by subst|].
  destruct (bool_decide (s = "completed")) eqn:Hd; [apply bool_decide_eq_true in Hd; right; by subst|done].
Qed.

Lemma projected_packet pointer sv t packet version turn phase row :
  project_boundary pointer sv t = Ok (packet, (version, turn, phase)) ->
  (pa_state_version row, pa_turn_id row, pa_phase row) = (version, turn, phase) ->
  packet_ok row packet /\ (phase = "waiting" \/ phase = "completed").
Proof.
  intros Hp [= Hv Ht Hph]. unfold project_boundary in Hp.
  destruct (graph_finish _ _ _ _) as [sv'|]; [|done]. cbn [mbind res_bind] in Hp.
  destruct (export_boundary sv' _) as [pk|] eqn:Hx; [|done]. cbn [mbind res_bind] in Hp.
  unfold export_boundary, boundary_packet in Hx. destruct (saver_get sv' _) as [saved|]; [|done].
  cbn [or_raise mbind res_bind] in Hx. destruct (jfield _ (ct_checkpoint saved)) as [j|] eqn:Hj; [|done].
  cbn [mbind res_bind] in Hx. destruct (jobject j) as [values|] eqn:Ho; [|done]. destruct j; try done.
  injection Ho as ->. cbn [mbind res_bind] in Hx. destruct (check_values values) as [[]|] eqn:Hc; [|done].
  cbn [mbind res_bind] in Hx. destruct (mapR _ _) as [pending|]; [|done]. cbn [mbind res_bind] in Hx.
  destruct (jget "phase" values) as [jp|] eqn:Hjp; [|done]. cbn [or_raise mbind res_bind] in Hx.
  rewrite !bind_raise_if_Ok in Hx. destruct Hx as (_ & Hlen & Hx). injection Hx as <-.
  match type of Hp with context [jfield "checkpoint" ?pk] =>
    assert (Hcp : jfield "checkpoint" pk = Ok (ct_checkpoint saved)) by done end.
  rewrite Hcp in Hp. cbn [mbind res_bind] in Hp. rewrite Hj in Hp. cbn [mbind res_bind jfield] in Hp.
  rewrite Hjp in Hp. destruct (jget "state_version" values) as [jv|] eqn:Hjv; [|done].
  cbn [or_raise mbind res_bind] in Hp. destruct jv as [| |[v|]| | |]; try done. cbn [mbind res_bind] in Hp.
  destruct (jget "turn_id" values) as [jt|] eqn:Hjt; [|done]. cbn [or_raise mbind res_bind] in Hp.
  destruct jt as [| | |tid| |]; try done. cbn [jstr mbind res_bind] in Hp.
  destruct (check_phase _ _ Hc Hjp) as [-> | ->]; cbn [jstr mbind res_bind] in Hp; injection Hp as <- <- <- <-.
  all: split; [|auto]; exists (ct_checkpoint saved), values; rewrite Hv, Ht, Hph.
  all: repeat (split; [done|]); by apply Nat.ltb_ge in Hlen.
Qed.

Lemma phase_agrees (status : SessionStatus) phase : phase = "waiting" \/ phase = "completed" ->
  Bool.eqb (bool_decide (status = COMPLETED)) (bool_decide (phase = "completed")) = true -> phase = phase_of status.
Proof.
  intros Hp He%Bool.eqb_prop. unfold phase_of. destruct (decide (status = COMPLETED)) as [Hs|Hs].
  - rewrite bool_decide_eq_true_2 in He by done. symmetry in He. by apply bool_decide_eq_true in He.
  - rewrite bool_decide_eq_false_2 in He by done. symmetry in He. apply bool_decide_eq_false in He. by destruct Hp.
Qed.

(** What publishing does to the cursors. *)
Lemma publish_moves db ps cu version turn phase packet : db_ok db ->
  (phase = "waiting" \/ phase = "completed") ->
  (forall row, (pa_state_version row, pa_turn_id row, pa_phase row) = (version, turn, phase) -> packet_ok row packet) ->
  (forall row, row ∈ ps -> cursor_ok db row) ->
  let ps' := (publish cu version turn phase packet db ps).1 in
  (forall row, row ∈ ps' -> cursor_ok db row) /\ Forall2 moves_on ps ps'.
Proof.
  intros Hok Hphase Hpacket Hps. unfold publish.
  assert (Hsame : Forall2 moves_on ps ps) by (apply Forall_Forall2_diag, Forall_forall; by split; [|left]).
  destruct (find_conversation db _) as [c|] eqn:Hf; [|done]. destruct (_ || _) eqn:Hg; [done|]. simpl.
  rewrite !orb_false_iff, !negb_false_iff in Hg. destruct Hg as [[Hv%Z.eqb_eq Ht%bool_decide_eq_true] Hst].
  apply phase_agrees in Hst; [|done]. pose proof Hf as [Hin Hid]%by_key_Some.
  destruct (dk_conversations _ Hok c Hin) as [Hcv Hcs _ (tn & t & Hscreen)].
  assert (Hb : boundary db (pa_conversation_id cu) version turn phase).
  { split.
    - exists tn. pose proof (os_turn _ _ _ _ Hscreen) as Hturn. rewrite Ht in Hturn. injection Hturn as ->.
      split; [apply Hscreen|]. split; [|by rewrite <- Hv; apply Hscreen]. rewrite <- Hid. apply Hscreen.
    - exists (se_engine (cn_state_json c)), t. split; [apply Hscreen|]. split; [done|]. split; [by rewrite <- Hcv|].
      by rewrite <- Hcs. }
  split.
  - intros row (row0 & -> & Hrow)%list_elem_of_fmap. specialize (Hps _ Hrow).
    destruct (same_generation cu row0) eqn:Hgen; [|done]. unfold same_generation in Hgen.
    rewrite !andb_true_iff in Hgen. destruct Hgen as [[Hi%bool_decide_eq_true Hge%Z.eqb_eq] _].
    split; [done| |].
    + simpl. pose proof (cu_generation _ _ Hps). lia.
    + intros pk. simpl. intros [= <-]. by apply Hpacket.
  - rewrite Forall2_fmap_r. apply Forall_Forall2_diag, Forall_forall. intros row Hrow. unfold compose.
    destruct (same_generation cu row) eqn:Hgen; [|by split; [|left]]. unfold same_generation in Hgen.
    rewrite !andb_true_iff in Hgen. destruct Hgen as [[Hi%bool_decide_eq_true Hge%Z.eqb_eq] _].
    split; [done|]. right. simpl. split; [lia|].
    destruct (cu_boundary _ _ (Hps _ Hrow)) as [(tn' & Htn & Hci & Hcver) _].
    pose proof Htn as [Hintn _]%by_key_Some. destruct (dk_owned _ Hok _ Hintn) as (c' & Hc' & Hle & _).
    rewrite Hci, Hi, Hf in Hc'. injection Hc' as <-. lia.
Qed.

(** Only the last step of a request writes a cursor, over the database it reads. *)
Lemma parent_step_cursors q f now db ps p : db_ok db -> (forall row, row ∈ ps -> cursor_ok db row) ->
  let out := parent_step is_verdict q f now db ps p in
  out.1.2 = ps \/ out.1.1 = db /\ (forall row, row ∈ out.1.2 -> cursor_ok db row) /\ Forall2 moves_on ps out.1.2.
Proof.
  intros Hok Hps. destruct p as [| |s|p|s cu|s cu sv p|s cu sv t b|r]; cbn [parent_step]; try by left.
  - destruct p; by left.
  - destruct p as [| | | | | |[]]; by left.
  - cbn [fst snd]. destruct (_ ← _; project_boundary _ _ _) as [[packet [[version turn] phase]]|] eqn:Hp; [|by left].
    destruct (st_turn (se_engine s)) as [tid|]; [|done]. cbn [or_raise mbind res_bind] in Hp.
    pose proof (projected_packet _ _ _ _ _ _ _ (published cu version turn phase packet) Hp eq_refl) as [_ Hphase].
    destruct (f_publish f); [|by left|]; right; (split; [done|]); apply publish_moves; try done;
      intros row Hrow; by apply (projected_packet _ _ _ _ _ _ _ row Hp).
Qed.

Record parents_ok y : Prop := {
  pb_ids : NoDup (map pa_conversation_id (py_parents y));
  pb_rows row : row ∈ py_parents y -> cursor_ok (py_db y) row;
  pb_created s : s ∈ py_created y -> exists turn, st_turn (se_engine s) = Some turn /\
    boundary (py_db y) (se_conversation_id s) (st_version (se_engine s)) turn (phase_of (st_status (se_engine s)))
}.

Lemma moves_ids ps ps' : Forall2 moves_on ps ps' -> map pa_conversation_id ps' = map pa_conversation_id ps.
Proof. induction 1 as [|row row' ps ps' [Hi _] _ IH]; [done|]. simpl. by rewrite Hi, IH. Qed.

(** Enrollment adds a cursor where there is none. *)
Lemma enroll_cursors s ps : exists new, enroll s ps = ps ++ new /\
  (new = [] \/ exists row turn, new = [row] /\ find_parent ps (se_conversation_id s) = None /\
     st_turn (se_engine s) = Some turn /\ pa_conversation_id row = se_conversation_id s /\
     pa_state_version row = st_version (se_engine s) /\ pa_turn_id row = turn /\
     pa_phase row = phase_of (st_status (se_engine s)) /\ pa_generation row = 1%Z /\ pa_checkpoint row = None).
Proof.
  unfold enroll. destruct (st_turn _) as [turn|]; [|exists []; rewrite app_nil_r; auto].
  destruct (find_parent _ _) eqn:Hf; [exists []; rewrite app_nil_r; auto|]. eexists. split; [done|]. right.
  by do 2 eexists.
Qed.

(** One step: the invariant is kept, and no cursor goes back. *)
Lemma parent_system_step_ok y y' : (exists ys, simulates y ys) -> parents_ok y -> parent_system_step is_verdict y y' ->
  parents_ok y' /\ exists new, exists moved, py_parents y' = moved ++ new /\ Forall2 moves_on (py_parents y) moved.
Proof.
  intros (ys & [Hr Hdb Hn (g & Hg)]) [Hids Hrows Hcs] Hstep.
  pose proof (reachable_db_ok _ Hr) as Hok. rewrite Hdb in Hok.
  assert (Hdiag : forall ps, Forall2 moves_on ps ps) by (intros ps; apply Forall_Forall2_diag, Forall_forall; by split; [|left]).
  assert (Hkeep : forall now' db', db_evolves now' (py_db y) db' ->
    (forall row, row ∈ py_parents y -> cursor_ok db' row) /\
    (forall s, s ∈ py_created y -> exists turn, st_turn (se_engine s) = Some turn /\
      boundary db' (se_conversation_id s) (st_version (se_engine s)) turn (phase_of (st_status (se_engine s))))).
  { intros now' db' Hev. split; [intros row Hrow; by eapply cursor_evolves, Hrows|].
    intros s Hs. destruct (Hcs s Hs) as (turn & Ht & Hb). exists turn. split; [done|]. by eapply boundary_evolves. }
  destruct Hstep as [now db ps cs rs q Hq|now now' db ps cs rs i q p f Hnow Hi|now db ps cs rs s t i db' Hs Hid Hc
    |now db ps cs rs s Hs|now now' db ps cs rs cut due Hnow Hcut Hdue]; simpl in *.
  - split; [by split|]. exists [], ps. by rewrite app_nil_r.
  - destruct (erased_at rs i q p Hi) as (rest & He & _). rewrite He in Hg.
    assert (Hin : (q, erase p) ∈ sy_requests ys) by (rewrite Hg; left).
    destruct (step_simulated ys q f now' ps p (rest ++ g) Hr) as (_ & _ & _ & _ & Hev & _);
      [apply (so_requests _ (reachable_ok _ Hr) _ _ Hin)|lia|done|]. rewrite Hdb in Hev.
    destruct (Hkeep _ _ Hev) as [Hrows' Hcs'].
    subst out. destruct (parent_step_cursors q f now' db ps p Hok Hrows) as [Hps|(Hdb' & Hnew & Hmoves)].
    + split; [by split; simpl; rewrite ?Hps|]. exists [], ps. by rewrite Hps, app_nil_r.
    + split; [|eexists [], _; by rewrite app_nil_r]. split; simpl; [by rewrite (moves_ids _ _ Hmoves)| |done].
      by rewrite Hdb'.
  - pose proof (create_evolves s t db i db' now Hc) as Hev. destruct (Hkeep _ _ Hev) as [Hrows' Hcs'].
    split; [|exists [], ps; by rewrite app_nil_r]. split; simpl; [done|done|]. intros s' Hs'.
    destruct (decide (i = se_conversation_id s)) as [Heq|_]; [|by apply Hcs'].
    apply elem_of_cons in Hs' as [-> |Hs']; [|by apply Hcs'].
    exists (tc_turn_id t). pose proof (starts_turn _ _ Hs) as Ht. split; [done|].
    clear Hrows' Hcs' Hev. revert Heq. apply create_creation in Hc as [j Hl Hw|Hk Hi Htn]; intros Heq.
    + exfalso. subst j. unfold conversation_id_for in Hw. destruct (find_first _ _) as [c|] eqn:Hf; [|done].
      injection Hw as Hci. apply find_first_Some in Hf as [Hin _].
      pose proof (by_key_unique (fun c => se_conversation_id (cn_state_json c)) _ _ (dk_ids _ Hok) Hin) as Hby. simpl in Hby.
      rewrite Hci, <- find_conversation_by_key in Hby. congruence.
    + split; [|exists (se_engine s), t; split; [by constructor|done]].
      exists (turn_record s t). split; [by apply inserted_new_turn|done].
  - destruct (enroll_cursors s ps) as (new & Hnew & Hcase). split; [|exists new, ps; done].
    destruct (Hcs s Hs) as (turn & Ht & Hb). split; simpl; [| |done]; rewrite Hnew;
      (destruct Hcase as [-> |(row & turn' & -> & Hf & Ht' & Hci & Hv & Htu & Hp & Hge & Hcp)]; [by rewrite app_nil_r|]).
    + rewrite map_app. apply NoDup_app. split; [done|]. split; [|apply NoDup_singleton].
      intros k Hk ->%list_elem_of_singleton. rewrite Hci in Hk. apply list_elem_of_fmap in Hk as (row' & Hrow' & Hin).
      eapply find_first_None in Hf; [|exact Hin]. by apply bool_decide_eq_false in Hf.
    + intros row' [Hin|<-%list_elem_of_singleton]%elem_of_app; [by apply Hrows|]. rewrite Ht in Ht'. injection Ht' as <-.
      split; [by rewrite Hci, Hv, Htu, Hp|by rewrite Hge|by rewrite Hcp].
  - destruct (Hkeep _ _ (purge_evolves db cut due Hdue Hok now' Hcut)) as [Hrows' Hcs']. split; [by split|].
    exists [], ps. by rewrite app_nil_r.
Qed.

Lemma parents_reached y : parent_reachable is_verdict y -> parents_ok y.
Proof.
  induction 1 as [now|y y' Hr IH Hstep].
  - split; simpl; [apply NoDup_nil_2|by intros row ?%not_elem_of_nil|by intros s ?%not_elem_of_nil].
  - eapply parent_system_step_ok; [by apply parent_simulated|done|done].
Qed.

(** (C22) Cursors are never a second truth: in every reachable system a conversation has
    at most one cursor; it names a turn that was committed for it, with the version
    and the phase of the state that showed it; and its checkpoint holds that pointer,
    within the size bound, on the allowed channels only. *)
Theorem parent_cursor_is_committed y row : parent_reachable is_verdict y -> row ∈ py_parents y ->
  cursor_ok (py_db y) row /\ (exists c, find_conversation (py_db y) (pa_conversation_id row) = Some c /\
     (pa_state_version row <= cn_state_version c)%Z)
  /\ forall row', row' ∈ py_parents y -> pa_conversation_id row' = pa_conversation_id row -> row' = row.
Proof.
  intros Hy Hrow. destruct (parents_reached y Hy) as [Hids Hrows _]. pose proof (Hrows _ Hrow) as Hc.
  split; [done|]. split.
  - destruct (parent_simulated y Hy) as (ys & [Hr Hdb _ _]). pose proof (reachable_db_ok _ Hr) as Hok. rewrite Hdb in Hok.
    destruct (cu_boundary _ _ Hc) as [(tn & Ht & Hi & Hv) _]. pose proof Ht as [Hin _]%by_key_Some.
    destruct (dk_owned _ Hok tn Hin) as (c & Hfc & Hle & _). exists c. rewrite Hi in Hfc. split; [done|]. lia.
  - intros row' Hrow' He. by eapply (same_key pa_conversation_id).
Qed.

(** Cursors are fenced: a step of the system changes a cursor at most by moving it
    one generation on, to a version that is not older, whatever publications race,
    fail or are lost. *)
Theorem parent_cursor_never_goes_back y y' row : parent_reachable is_verdict y -> parent_system_step is_verdict y y' ->
  row ∈ py_parents y -> exists row', row' ∈ py_parents y' /\ moves_on row row'.
Proof.
  intros Hy Hstep Hrow.
  destruct (parent_system_step_ok y y' (parent_simulated y Hy) (parents_reached y Hy) Hstep) as (_ & new & moved & -> & Hm).
  apply list_elem_of_lookup in Hrow as [i Hi]. destruct (Forall2_lookup_l _ _ _ _ _ Hm Hi) as (row' & Hi' & Hmv).
  exists row'. split; [|done]. apply elem_of_app. left. by eapply list_elem_of_lookup_2.
Qed.
End parent.
