(* ===== verification/HomeConversation.v ===== *)
(** Home conversations in the store: the home engine behind the store's interface
    ([_engine_for_state] and [_respond_stream_turn_only] of
    [src/mormi_api/service.py], [ensure_task_anchor] of
    [src/mormi_api/dialogue_v2_runtime.py]), and what the home sessions' invariant
    becomes for concurrent conversations. *)

From S2P Require Import Prelude.
From S2P Require Import PyStr.
From S2P Require Import PyNum.
From S2P Require Import Json.
From S2P Require Import Schemas.
From S2P Require Import Requests.
From S2P Require Import Evidence.
From S2P Require Import Packs.
From S2P Require Import Snapshot.
From S2P Require Import Ledger.
From S2P Require Import ContentPack.
From S2P Require Import LifeChecks.
From S2P Require Import PackDump.
From S2P Require Import HomeContract.
From S2P Require Import State.
From S2P Require Import Understand.
From S2P Require Import Question.
From S2P Require Import Respond.
From S2P Require Import Gate.
From S2P Require Import SpeakerText.
From S2P Require Import SpeakerPlan.
From S2P Require Import Reply.
From S2P Require Import Speak.
From S2P Require Import Turn.
From S2P Require Import TurnTheory.
From S2P Require Import Lease.
From S2P Require Import Outbox.
From S2P Require Import Conversation.
From S2P Require Import ConversationTheory.
From S2P Require Import ConversationSafety.
From S2P Require Import Profile.

Section home.
Context `{!Digest} `{!DigestFormat} `{!PackModel} `{!PackModelChecks} `{!PackModelLaws}
        `{!HomePackLaws} `{!Nfc} `{!SpeechPort} `{!Fernet}.

Definition with_anchor (t : TurnContract) (a : TaskAnchorContract) : TurnContract := {|
  tc_turn_id := tc_turn_id t; tc_task_id := tc_task_id t; tc_stage_id := tc_stage_id t;
  tc_task_index := tc_task_index t; tc_mormi := tc_mormi t; tc_input := tc_input t;
  tc_visual := tc_visual t; tc_help_card := tc_help_card t; tc_note_update := tc_note_update t;
  tc_status := tc_status t; tc_state_version := tc_state_version t;
  tc_completion := tc_completion t; tc_task_anchor := Some a |}.

(** [ensure_task_anchor] *)
Definition ensure_task_anchor (state : SessionState) (turn : TurnContract) : res TurnContract :=
  if bool_decide (is_Some (tc_task_anchor turn)) || bool_decide (tc_status turn = COMPLETED) then Ok turn
  else resolved ← resolve_state state;
       let '(pack, _, lg) := resolved in
       question ← question_contract state pack lg;
       a ← task_anchor pack (qc_input question.2);
       Ok (with_anchor turn a).

(** The home engine behind the store: the clearing of child wording past the
    deadline leaves verdict-v1 states alone, a turn is computed for the text on
    screen, whatever the model answers and whatever the recent dialogue. *)
#[export] Instance HomeEngine : TurnEngine SessionState := {
  st_version := state_version;
  st_turn := current_turn_id;
  st_status s := ss_status (outcome s);
  st_clear_evidence s := s;
  st_anchor := ensure_task_anchor;
  st_gate _ t r := gate (tc_input t) (tc_turn_id t) r;
  st_starts s t := exists pack ids s0, fresh s0 /\ turn_id_ok (fresh_turn_id ids) = true /\
    initialize_state ids pack s0 = Ok (s, t);
  st_answers s t r s' t' := gate (tc_input t) (tc_turn_id t) r = Ok tt /\
    exists gw ids recent result, turn_id_ok (fresh_turn_id ids) = true /\
      run_turn gw ids s r (mc_text (tc_mormi t)) recent = Ok result /\
      s' = tr_state result /\ t' = tr_turn result
}.

Lemma anchor_same s t t' : ensure_task_anchor s t = Ok t' -> t' = t \/ exists a, t' = with_anchor t a.
Proof.
  unfold ensure_task_anchor. destruct (_ || _); [intros [= <-]; by left|].
  destruct (resolve_state s) as [[[pack snap] lg]|]; [|done]. cbn [mbind res_bind].
  destruct (question_contract _ _ _) as [q|]; [|done]. cbn [mbind res_bind].
  destruct (task_anchor _ _) as [a|]; [|done]. intros [= <-]. right. by exists a.
Qed.

Lemma run_turn_turn gw ids s resp pq recent r : run_turn gw ids s resp pq recent = Ok r ->
  current_turn_id (tr_state r) = Some (tc_turn_id (tr_turn r)) /\ state_version (tr_state r) = (state_version s + 1)%Z.
Proof.
  unfold run_turn. destruct (resolve_state s) as [[[pack snap] lg]|]; [|done]. cbn [mbind res_bind].
  destruct (interpret_execution _ _ _ _ _ _ _ _) as [t|]; [|done]. cbn [mbind res_bind]. unfold finish_turn.
  destruct (apply_execution _ _ _ _) as [next|] eqn:Ha; [|done]. cbn [mbind res_bind].
  apply apply_execution_Ok in Ha. destruct (if complete _ then _ else _) as [spoken|] eqn:Hs; [|done].
  cbn [mbind res_bind]. intros (s' & Hb & Hr & _)%compose_Ok. rewrite Hr. split; [done|]. simpl.
  apply build_turn_shows in Hb as ([i ->] & _). pose proof (as_number _ _ _ _ Ha) as Hn. apply spoken_Ok in Hs.
  destruct (complete _); simpl.
  - by apply complete_state_Ok in Hs as (_ & _ & _ & _ & _ & -> & _).
  - by destruct Hs as [j ->].
Qed.

#[export] Instance HomeEngineLaws : TurnEngineLaws SessionState.
Proof.
  split; try done.
  - intros s t (pack & ids & s0 & _ & _ & Hi). unfold initialize_state in Hi. by res_inv.
  - intros s t r s' t' (_ & gw & ids & recent & res & _ & Hrun & -> & ->). by eapply run_turn_turn.
  - intros s t r. unfold st_gate, HomeEngine, gate. intros Hg. destruct (bool_decide (tc_turn_id t = _)) eqn:Ht; [|done].
    by apply bool_decide_eq_true in Ht.
  - intros s t t' [-> |[a ->]]%anchor_same; done.
  - intros s t t1 r s' t' [-> |[a ->]]%anchor_same; done.
Qed.

(** A conversation the store holds is a home session. *)
Lemma sequential_session s t : sequential s t -> exists pack, session pack s t.
Proof.
  induction 1 as [s t Hs|s t r s' t' _ [pack IH] Ha|s t _ IH].
  - destruct Hs as (pack & ids & s0 & Hf & Hid & Hi). exists pack. by eapply session_start.
  - destruct Ha as (Hg & gw & ids & recent & res & Hid & Hrun & -> & ->). exists pack. by eapply session_turn.
  - done.
Qed.

(** A session the service starts at joint work, after an adjustment down to [L0], opens
    with the full help card on screen and still records no help.  So when its first
    answer completes the task, the profile written after the turn
    ([_respond_stream_turn_only] reads the state before it) counts an independent
    success for the skill. *)
Theorem joint_start_counts_as_independent ids pack s0 s turn p skill :
  fresh s0 -> expression_level (ladder s0) = L0 -> initialize_state ids pack s0 = Ok (s, turn) ->
  hint_level (ladder s) = H3 /\
  h0_success_streak (skill_of (update_skill_profile p skill (expression_level (ladder s)) (task_max_hint (ladder s))) skill)
    = (h0_success_streak (skill_of p skill) + 1)%Z.
Proof.
  intros Hf Hl (_ & Hh & Hm)%joint_start_ladder; try done. split; [done|]. rewrite Hm.
  unfold skill_of at 1, update_skill_profile, with_skill. simpl. by rewrite lookup_insert_eq.
Qed.

(** (C15) Concurrent home conversations are consistent: in every system reachable by any
    interleaving of responses, retries, creations and purges that write over rows as
    they read them, whatever level the conversations start at, joint work included, each
    stored home conversation and the turn it shows satisfy the session invariant. *)
Theorem home_conversations_consistent (y : System SessionState) c :
  reachable y -> c ∈ db_conversations (sy_db y) ->
  exists pack turn snap lg, active_turn (cn_state_json c) (sy_db y) = Ok turn /\
    session_ok pack (se_engine (cn_state_json c)) turn snap lg.
Proof.
  intros Hy Hc. destruct (stored_conversation_sequential y c Hy Hc) as (turn & Hact & Hsq).
  apply sequential_session in Hsq as [pack Hses].
  destruct (session_reached pack _ _ Hses) as (snap & lg & Hok). by exists pack, turn, snap, lg.
Qed.
End home.
