(* ===== verification/ConversationWitnesses.v ===== *)
(** The conversation store at concrete schedules: two retries of one response that
    race, a turn answered after its conversation's deadline, a home session kept
    through the store, and a lesson answered under the session parent. *)

From S2P Require Import Prelude.
From S2P Require Import PyStr.
From S2P Require Import PyNum.
From S2P Require Import Json.
From S2P Require Import Schemas.
From S2P Require Import Requests.
From S2P Require Import Regex.
From S2P Require Import Evidence.
From S2P Require Import EvidenceTheory.
From S2P Require Import Packs.
From S2P Require Import PackDump.
From S2P Require Import Snapshot.
From S2P Require Import Ledger.
From S2P Require Import LedgerTheory.
From S2P Require Import LedgerProgress.
From S2P Require Import ContentCopy.
From S2P Require Import ContentChecks.
From S2P Require Import ContentPack.
From S2P Require Import LifeChecks.
From S2P Require Import ContentTheory.
From S2P Require Import Catalog.
From S2P Require Import State.
From S2P Require Import Ladder.
From S2P Require Import Understand.
From S2P Require Import Question.
From S2P Require Import Respond.
From S2P Require Import Gate.
From S2P Require Import SpeakerText.
From S2P Require Import SpeakerPlan.
From S2P Require Import Reply.
From S2P Require Import Speak.
From S2P Require Import Turn.
From S2P Require Import LadderTheory.
From S2P Require Import HomeContract.
From S2P Require Import RequestTheory.
From S2P Require Import UnderstandTheory.
From S2P Require Import QuestionTheory.
From S2P Require Import Samples.
From S2P Require Import NoteTheory.
From S2P Require Import TurnTheory.
From S2P Require Import SpeakerTheory.
From S2P Require Import TurnTotal.
From S2P Require Import SessionTheory.
From S2P Require Import Witnesses.
From S2P Require Import SessionWitnesses.
From S2P Require Import Lease.
From S2P Require Import Outbox.
From S2P Require Import Conversation.
From S2P Require Import ConversationTheory.
From S2P Require Import ConversationCommit.
From S2P Require Import ConversationSafety.
From S2P Require Import SessionParent.
From S2P Require Import SessionParentTheory.
From S2P Require Import HomeConversation.

#[local] Instance no_cipher : Fernet := None.

(** * Schedules *)

Section schedules.
Context {E : Type} `{TurnEngine E}.

Inductive move :=
  | MArrive (q : Request E)
  | MRun (i : nat) (now : Z)
  | MCreate (s : Session E) (t : TurnContract)
  | MPurge (now : Z).

Definition move_ok (m : move) : Prop :=
  match m with
  | MArrive q => request_ok q
  | MCreate s t => st_starts (se_engine s) t
  | _ => True
  end.

Definition play1 (y : System E) (m : move) : option (System E) :=
  match m with
  | MArrive q => Some {| sy_now := sy_now y; sy_db := sy_db y; sy_requests := sy_requests y ++ [(q, AtPrior)] |}
  | MRun i now =>
      match sy_requests y !! i with
      | Some (q, p) =>
          if (sy_now y <=? now)%Z then
            let out := service_step q now (sy_db y) p in
            Some {| sy_now := now; sy_db := out.1; sy_requests := <[i := (q, out.2)]> (sy_requests y) |}
          else None
      | None => None
      end
  | MCreate s t =>
      match create_conversation s t (sy_db y) with
      | Ok (_, db') => Some {| sy_now := sy_now y; sy_db := db'; sy_requests := sy_requests y |}
      | Raise _ => None
      end
  | MPurge now =>
      if (sy_now y <=? now)%Z
      then Some {| sy_now := now; sy_db := purge_expired_raw_data now (sy_db y); sy_requests := sy_requests y |}
      else None
  end.

Definition start_system : System E := {| sy_now := 0; sy_db := empty_db; sy_requests := [] |}.

Fixpoint play (ms : list move) (y : System E) : option (System E) :=
  match ms with
  | [] => Some y
  | m :: ms => y ← play1 y m; play ms y
  end.

Lemma play1_step y m y' : move_ok m -> play1 y m = Some y' -> system_step y y'.
Proof.
  destruct y as [now db rs], m as [q|i now'|s t|now']; simpl; intros Hm.
  - intros [= <-]. by constructor.
  - destruct (rs !! i) as [[q p]|] eqn:Hi; [|done]. destruct (Z.leb_spec now now'); [|done].
    intros [= <-]. by apply (sys_run now now' db rs i q p).
  - destruct (create_conversation s t db) as [[j db']|] eqn:Hc; [|done]. intros [= <-]. by eapply sys_create.
  - destruct (Z.leb_spec now now'); [|done]. intros [= <-]. by apply (sys_purge now now' now').
Qed.

Lemma play_reachable ms y y' : Forall move_ok ms -> reachable y -> play ms y = Some y' -> reachable y'.
Proof.
  revert y. induction ms as [|m ms IH]; intros y Hms Hy; simpl; [by intros [= <-]|].
  apply Forall_cons in Hms as [Hm Hms]. destruct (play1 y m) as [z|] eqn:Hz; [|done]. simpl.
  apply IH; [done|]. eapply reach_step; [done|]. by eapply play1_step.
Qed.

(** The system a schedule leads to. *)
Definition played (ms : list move) : System E := default start_system (play ms start_system).

Lemma played_reachable ms : Forall move_ok ms -> bool_decide (is_Some (play ms start_system)) = true -> reachable (played ms).
Proof.
  intros Hms Hp%bool_decide_eq_true. unfold played. destruct Hp as [y Hy]. rewrite Hy.
  apply (play_reachable ms start_system); [done|constructor|done].
Qed.
End schedules.
Arguments move E : clear implicits.

(** * A small engine *)

Record counter := { ct_version : Z; ct_turn : string }.

#[local] Instance CounterEngine : TurnEngine counter := {
  st_version := ct_version;
  st_turn e := Some (ct_turn e);
  st_status _ := ACTIVE;
  st_clear_evidence e := e;
  st_anchor _ t := Ok t;
  st_gate _ t r := raise_if (bool_decide (cr_turn_id r <> tc_turn_id t)) (ValueError "stale");
  st_starts e t := ct_turn e = tc_turn_id t;
  st_answers e t r e' t' := e' = {| ct_version := ct_version e + 1; ct_turn := tc_turn_id t' |}
}.

#[local] Instance counter_laws : TurnEngineLaws counter.
Proof.
  split; try done; simpl.
  - by intros e t ->.
  - by intros e t r e' t' ->.
  - intros e t r. unfold st_gate, CounterEngine. case_bool_decide as Hn; [done|]. intros _.
    destruct (decide (cr_turn_id r = tc_turn_id t)); [done|by destruct Hn].
  - by intros e t t' [= ->].
Qed.

Definition plain_turn (i text : string) : TurnContract := {|
  tc_turn_id := i; tc_task_id := "task"; tc_stage_id := "stage"; tc_task_index := 0;
  tc_mormi := {| mc_text := text; mc_mood := curious |}; tc_input := no_input;
  tc_visual := {| vc_type := "none"; vc_data := [] |}; tc_help_card := None; tc_note_update := None;
  tc_status := ACTIVE; tc_state_version := 1; tc_completion := None; tc_task_anchor := None |}.

Definition said (turn : string) (words : ustr) : ChildResponse := {|
  cr_turn_id := turn; cr_type := RT_TEXT; cr_text := Some words; cr_choice_ids := []; cr_values := ∅;
  cr_no_response_kind := None |}.

(** A request answered by the turn [next]. *)
Definition asks (response turn next : string) : Request counter := {|
  rq_conversation_id := "c"; rq_response_id := response; rq_response := said turn [97%N];
  rq_run e t := Ok ({| ct_version := ct_version e + 1; ct_turn := next |}, plain_turn next "and then?");
  rq_idempotency := 100; rq_rows_ok := true; rq_values_text _ := ""; rq_event_id := "ev-" ++ next;
  rq_star_event_id := "star-" ++ next; rq_payload := []; rq_star_payload := [] |}.

Lemma asks_ok r t n : request_ok (asks r t n).
Proof. intros e u e' u' _ [= <- <-]. done. Qed.

Definition lesson_key : ConversationKey := {| ck_learner_id := 7; ck_learning_session_id := Some "ls";
  ck_scene := "home"; ck_scenario_id := "scenario"; ck_round := 1 |}.

Definition lesson (i : string) (until : option Z) : Session counter := {|
  se_conversation_id := i; se_key := lesson_key; se_raw_storage_enabled := true; se_raw_retention_until := until;
  se_permanent := false; se_engine := {| ct_version := 1; ct_turn := "t0" |} |}.

Definition opening : list (move counter) := [MCreate (lesson "c" (Some 10%Z)) (plain_turn "t0" "what is it?")].

(** Two retries of a response: both read the state before either commits, then the
    first is sent once more. *)
Definition race : list (move counter) := opening ++ [
  MArrive (asks "r" "t0" "t1"); MArrive (asks "r" "t0" "t1b");
  MRun 0 1; MRun 1 1; MRun 0 2; MRun 1 2; MRun 0 2; MRun 1 2; MRun 0 3; MRun 1 3; MRun 0 4].

Definition retried : list (move counter) := race ++ [MRun 1 5; MArrive (asks "r" "t0" "t9"); MRun 2 6].

Lemma opening_ok : Forall move_ok opening.
Proof. repeat constructor. Qed.
Lemma race_ok : Forall move_ok race.
Proof. apply Forall_app. split; [apply opening_ok|]. repeat constructor; apply asks_ok. Qed.
Lemma retried_ok : Forall move_ok retried.
Proof. apply Forall_app. split; [apply race_ok|]. repeat constructor; apply asks_ok. Qed.

Definition raced : System counter := played race.
Lemma raced_reachable : reachable raced.
Proof. apply played_reachable; [apply race_ok|]. by vm_compute. Qed.
Lemma retried_reachable : reachable (played retried).
Proof. apply played_reachable; [apply retried_ok|]. by vm_compute. Qed.
Lemma opening_reachable : reachable (played opening).
Proof. apply played_reachable; [apply opening_ok|]. by vm_compute. Qed.

(** The first conversation of a store. *)
Definition first_conversation (y : System counter) : ConversationRecord counter :=
  default {| cn_state_json := lesson "" None; cn_state_version := 0; cn_status := ACTIVE; cn_raw_retention_until := None |}
    (head (db_conversations (sy_db y))).

Lemma head_elem {A} (d : A) l : bool_decide (is_Some (head l)) = true -> default d (head l) ∈ l.
Proof. destruct l; [done|]. intros _. by left. Qed.

Lemma answers_are_recorded_once_witness :
  length (db_observations (sy_db (played retried))) = 1 /\
  length (List.filter (fun e => bool_decide (oe_event_type e = DIALOGUE_OBSERVATION_EVENT_TYPE))
    (db_events (sy_db (played retried)))) = length (db_observations (sy_db (played retried))).
Proof. split; [by vm_compute|]. by apply (answers_are_recorded_once (played retried) retried_reachable). Defined.

Lemma same_response_same_turn_witness :
  exists t, sy_requests (played retried) !! 0 = Some (asks "r" "t0" "t1", Done (Answered (plain_turn "t1" "and then?") false)) /\
    sy_requests (played retried) !! 2 = Some (asks "r" "t0" "t9", Done (Answered t true)) /\ plain_turn "t1" "and then?" = t.
Proof.
  exists (plain_turn "t1" "and then?"). split; [by vm_compute|]. split; [by vm_compute|].
  by apply (same_response_same_turn (played retried) 0 2 (asks "r" "t0" "t1") (asks "r" "t0" "t9") _ _ false true retried_reachable).
Defined.

Lemma answered_turn_commit_is_stale_witness :
  service_step (asks "r" "t0" "t1b") 9 (sy_db raced)
    (AtCommit (lesson "c" (Some 10%Z)) (with_engine (lesson "c" (Some 10%Z)) {| ct_version := 2; ct_turn := "t1b" |})
       (plain_turn "t0" "what is it?") (plain_turn "t1b" "and then?"))
    = (sy_db raced, Done (Failed (StaleConversationError "c"))).
Proof.
  apply (answered_turn_commit_is_stale raced 1 (asks "r" "t0" "t1b")); [apply raced_reachable|by vm_compute|].
  by apply memb_spec; vm_compute.
Defined.

(** A first answer within the deadline, then a second one just before the purge. *)
Definition first_answer : list (move counter) := opening ++ MArrive (asks "r" "t0" "t1") :: map (MRun 0) [1; 2; 3; 4; 5]%Z.
Definition second_ready : list (move counter) :=
  first_answer ++ MArrive (asks "r2" "t1" "t2") :: map (MRun 1) [11; 11; 11; 11]%Z.

Lemma first_answer_ok : Forall move_ok first_answer.
Proof. repeat constructor; apply asks_ok. Qed.
Lemma second_ready_ok : Forall move_ok second_ready.
Proof. apply Forall_app. split; [apply first_answer_ok|]. repeat constructor; apply asks_ok. Qed.
Lemma first_reachable : reachable (played first_answer).
Proof. apply played_reachable; [apply first_answer_ok|]. by vm_compute. Qed.
Lemma second_reachable : reachable (played second_ready).
Proof. apply played_reachable; [apply second_ready_ok|]. by vm_compute. Qed.

(** The first turn of a store. *)
Definition first_turn (db : ConversationDb counter) : TurnRecord :=
  default (turn_record (lesson "" None) (plain_turn "" "")) (head (db_turns db)).

Definition before_answer : System counter := played (take 6 first_answer).
Lemma before_reachable : reachable before_answer.
Proof. apply played_reachable; [apply Forall_take, first_answer_ok|]. by vm_compute. Qed.

Lemma answer_step : system_step before_answer (played first_answer).
Proof.
  apply (play1_step before_answer (MRun 0 5)); [done|]. by vm_compute.
Qed.

Lemma raw_text_written_before_deadline_witness :
  tn_response_raw (first_turn (sy_db (played first_answer))) = Some "plain:a" /\
  ((exists tn0, tn0 ∈ db_turns (sy_db before_answer) /\ core tn0 = core (first_turn (sy_db (played first_answer))) /\
      tn_response_raw tn0 = Some "plain:a")
   \/ exists c, find_conversation (sy_db before_answer) "c" = Some c /\
       se_raw_storage_enabled (cn_state_json c) = true /\
       expired (cn_raw_retention_until c) (sy_now (played first_answer)) = false).
Proof.
  split; [by vm_compute|].
  apply (raw_text_written_before_deadline before_answer (played first_answer)); [apply before_reachable|apply answer_step| |].
  - apply head_elem. by vm_compute.
  - by vm_compute.
Defined.

Lemma purge_forgets_raw_text_witness :
  tn_response_raw (first_turn (sy_db (played first_answer))) = Some "plain:a" /\
  exists c', find_conversation (purge_expired_raw_data 10 (sy_db (played first_answer))) "c" = Some c' /\
    se_raw_storage_enabled (cn_state_json c') = false /\ cn_raw_retention_until c' = None.
Proof.
  split; [by vm_compute|].
  refine (proj2 (purge_forgets_raw_text (played first_answer) (first_conversation (played first_answer))
    (first_turn (sy_db (played first_answer))) 10 first_reachable _ _)).
  - apply head_elem. by vm_compute.
  - by vm_compute.
Defined.

Lemma one_conversation_per_key_witness :
  create_conversation (lesson "other" None) (plain_turn "t0" "again?") (sy_db (played opening))
    = Ok ("c", sy_db (played opening)).
Proof.
  apply (one_conversation_per_key (played opening) (first_conversation (played opening))); [apply opening_reachable| | |].
  - apply head_elem. by vm_compute.
  - by eexists.
  - by vm_compute.
Defined.

Lemma response_is_answered_then_replayed_witness :
  exists db', serve 5 (asks "r" "t0" "t1") 3 (sy_db (played opening)) AtPrior
                = (db', Done (Answered (plain_turn "t1" "and then?") false)) /\
    service_step (asks "r" "t0" "t2") 102 db' AtPrior = (db', Done (Answered (plain_turn "t1" "and then?") true)).
Proof.
  destruct (response_is_answered_then_replayed (played opening) (asks "r" "t0" "t1") (first_conversation (played opening))
    (plain_turn "t0" "what is it?") (plain_turn "t0" "what is it?") {| ct_version := 2; ct_turn := "t1" |}
    (plain_turn "t1" "and then?") 3 opening_reachable (asks_ok _ _ _)) as (db' & Hs & Hr); try by vm_compute.
  exists db'. split; [exact Hs|]. apply (Hr 102%Z (asks "r" "t0" "t2")); [done|done|]. right. by vm_compute.
Defined.

Definition second_commit : ConversationDb counter :=
  sy_db (default start_system (play1 (played second_ready) (MRun 1 12))).

(** The purge runs on its own between two answers. *)
Definition purged_system : System counter := {|
  sy_now := 12; sy_db := purge_expired_raw_data 12 (sy_db (played second_ready)); sy_requests := sy_requests (played second_ready) |}.

Lemma conversations_stay_sequential_witness :
  let s := load_state 20 (cn_state_json (first_conversation purged_system)) in
  cn_raw_retention_until (first_conversation purged_system) = None /\
  exists t, active_turn s (sy_db purged_system) = Ok t /\ sequential (se_engine s) t.
Proof.
  split; [by vm_compute|].
  destruct (conversations_stay_sequential purged_system [] (first_conversation purged_system) 20) as (t & Ht & Hs & _).
  - apply purging_alone; [exact second_reachable|]. by vm_compute.
  - apply head_elem. by vm_compute.
  - exact (ex_intro _ t (conj Ht Hs)).
Defined.

(** The second answer is committed between the read and the write of the purge. *)
Example second_answer_is_lost :
  exists c2, find_conversation (purge_write 12 (purge_due 12 (sy_db (played second_ready))) second_commit) "c" = Some c2 /\
    (st_version (se_engine (cn_state_json c2)) < cn_state_version c2)%Z.
Proof.
  destruct (disturbed_purge_loses_turn (played second_ready) 1 (asks "r2" "t1" "t2")
    (load_state 11 (cn_state_json (first_conversation (played second_ready))))
    (with_engine (load_state 11 (cn_state_json (first_conversation (played second_ready)))) {| ct_version := 3; ct_turn := "t2" |})
    (plain_turn "t1" "and then?") (plain_turn "t2" "and then?") (first_conversation (played second_ready)) 12 12 second_commit
    second_reachable) as (c2 & Hc & _ & Hv & _); [by vm_compute..|].
  exact (ex_intro _ c2 (conj Hc Hv)).
Qed.

Lemma late_turn_cancels_purge_witness :
  exists tn, tn ∈ db_turns (purge_expired_raw_data 1000 second_commit) /\ tn_response_raw tn = Some "plain:a".
Proof.
  destruct (late_turn_cancels_purge (played second_ready) 1 (asks "r2" "t1" "t2")
    (load_state 11 (cn_state_json (first_conversation (played second_ready))))
    (with_engine (load_state 11 (cn_state_json (first_conversation (played second_ready)))) {| ct_version := 3; ct_turn := "t2" |})
    (plain_turn "t1" "and then?") (plain_turn "t2" "and then?") (first_conversation (played second_ready)) 12 second_commit 1000
    (first_turn (sy_db (played second_ready))) "plain:a" second_reachable) as (tn & Hin & _ & Hraw); try by vm_compute.
  - apply head_elem. by vm_compute.
  - by exists tn.
Defined.

(** * A home session kept through the store *)

Definition home_lesson : Session SessionState := {|
  se_conversation_id := "home"; se_key := lesson_key; se_raw_storage_enabled := true;
  se_raw_retention_until := None; se_permanent := true; se_engine := opened.1 |}.

(** The child stays silent, and the turn goes through the store. *)
Definition home_silence : Request SessionState := {|
  rq_conversation_id := "home"; rq_response_id := "r"; rq_response := quiet "turn-1";
  rq_run e t := r ← run_turn misquoting_gateway (ids_n "turn-2" "note-2") e (quiet "turn-1") (mc_text (tc_mormi t)) [];
                Ok (tr_state r, tr_turn r);
  rq_idempotency := 100; rq_rows_ok := true; rq_values_text _ := ""; rq_event_id := "ev";
  rq_star_event_id := "star"; rq_payload := []; rq_star_payload := [] |}.

Lemma home_silence_ok : request_ok home_silence.
Proof.
  intros e t e' t' Hg Hr. split; [done|]. cbn [rq_run home_silence] in Hr.
  destruct (run_turn _ _ _ _ _ _) as [r|] eqn:Hrun; [|done]. injection Hr as <- <-.
  by exists misquoting_gateway, (ids_n "turn-2" "note-2"), [], r.
Qed.

Definition home_schedule : list (move SessionState) :=
  MCreate home_lesson opened.2 :: MArrive home_silence :: map (MRun 0) [1; 2; 3; 4; 5]%Z.

Lemma home_schedule_ok : Forall move_ok home_schedule.
Proof.
  apply Forall_cons. split; [|apply Forall_cons; split; [apply home_silence_ok|by repeat constructor]].
  exists pack_price, (ids_n "turn-1" "note-1"), (money_state L2 H0). split; [by apply money_fresh|].
  split; [done|]. cbn [se_engine home_lesson]. destruct opened eqn:Eo. simpl. rewrite <- Eo. apply from_ok_eq.
Qed.

Lemma home_reachable : reachable (played home_schedule).
Proof. apply played_reachable; [apply home_schedule_ok|]. by vm_compute. Qed.

Lemma home_conversations_consistent_witness :
  length (db_observations (sy_db (played home_schedule))) = 1 /\
  exists c, c ∈ db_conversations (sy_db (played home_schedule)) /\ cn_state_version c = 2%Z /\
    exists pack turn snap lg, active_turn (cn_state_json c) (sy_db (played home_schedule)) = Ok turn /\
      session_ok pack (se_engine (cn_state_json c)) turn snap lg.
Proof.
  split; [by vm_compute|].
  assert (Hc : exists c, head (db_conversations (sy_db (played home_schedule))) = Some c /\ cn_state_version c = 2%Z).
  { destruct (head _) as [c|] eqn:Hh; [|by vm_compute in Hh]. exists c. split; [done|].
    assert (Hv : cn_state_version <$> head (db_conversations (sy_db (played home_schedule))) = Some 2%Z) by (by vm_compute).
    rewrite Hh in Hv. by injection Hv. }
  destruct Hc as (c & Hh & Hv).
  assert (Hin : c ∈ db_conversations (sy_db (played home_schedule))).
  { destruct (db_conversations _); [done|]. injection Hh as ->. by left. }
  exists c. split; [exact Hin|]. split; [exact Hv|].
  exact (home_conversations_consistent (played home_schedule) c home_reachable Hin).
Defined.

(** * Under the session parent

    The session parent at a concrete schedule: a graph library that keeps one boundary
    per conversation, a lesson enrolled under the parent, and two answers, the second
    from the restored boundary. *)


(** * A small graph library *)

Definition boundary_tuple (p : ParentState) (next : option string) : CheckpointTuple := {|
  ct_checkpoint := JObj [("channel_values", JObj (parent_channels p)); ("channel_versions", JObj [])];
  ct_metadata := [("source", JStr "loop"); ("step", JNum (PyInt 2)); ("writes", JNull)];
  ct_pending_writes := match next with
    | None => []
    | Some _ => [{| pw_task_id := JStr "task"; pw_channel := "__interrupt__";
                    pw_interrupts := Some [{| it_id := JStr "i"; it_value := JObj [("turn_id", JStr (ps_turn_id p))] |}] |}]
    end |}.

Definition saved_at (s : list (string * CheckpointTuple)) (i : string) : option CheckpointTuple :=
  option_map snd (find_first (fun kv => bool_decide (kv.1 = i)) s).

#[local] Instance memory_library : GraphLibrary := {
  Saver := list (string * CheckpointTuple);
  InMemorySaver := [];
  saver_put s i c m v := match m with
    | JObj kvs => Ok ((i, {| ct_checkpoint := c; ct_metadata := kvs; ct_pending_writes := [] |}) :: s)
    | _ => Raise TypeError
    end;
  saver_put_writes s i task items := match saved_at s i with
    | Some t => Ok ((i, {| ct_checkpoint := ct_checkpoint t; ct_metadata := ct_metadata t;
        ct_pending_writes := ct_pending_writes t ++
          [{| pw_task_id := task; pw_channel := "__interrupt__"; pw_interrupts := Some items |}] |}) :: s)
    | None => Raise (KeyError i)
    end;
  saver_get := saved_at;
  graph_next s i := match saved_at s i with
    | Some t => Ok (match ct_pending_writes t with [] => [] | _ => ["wait_for_input"] end)
    | None => Ok []
    end;
  graph_start s i p := Ok ((i, boundary_tuple p (route p)) :: s);
  graph_resume s i response_id := Ok (s, response_id);
  graph_finish s i p next := Ok ((i, boundary_tuple p next) :: s)
}.

#[local] Instance memory_laws : GraphLibraryLaws.
Proof.
  split.
  - intros s i c m v e. by destruct m; intros [= <-].
  - intros s i t l e. unfold saver_put_writes, memory_library. destruct (saved_at s i); [done|]. by intros [= <-].
Qed.

(** * Schedules *)

Definition verdict (e : counter) : bool := true.
(** [plain_turn] with the version of its state. *)
Definition turn_at (i : string) (version : Z) : TurnContract :=
  let t := plain_turn i "and then?" in {|
  tc_turn_id := i; tc_task_id := tc_task_id t; tc_stage_id := tc_stage_id t; tc_task_index := tc_task_index t;
  tc_mormi := tc_mormi t; tc_input := tc_input t; tc_visual := tc_visual t; tc_help_card := None;
  tc_note_update := None; tc_status := ACTIVE; tc_state_version := version; tc_completion := None;
  tc_task_anchor := None |}.

Definition replies (response turn next : string) : Request counter := {|
  rq_conversation_id := "c"; rq_response_id := response; rq_response := said turn [97%N];
  rq_run e t := Ok ({| ct_version := ct_version e + 1; ct_turn := next |}, turn_at next (ct_version e + 1));
  rq_idempotency := 100; rq_rows_ok := true; rq_values_text _ := ""; rq_event_id := "ev-" ++ next;
  rq_star_event_id := "star-" ++ next; rq_payload := []; rq_star_payload := [] |}.

Lemma replies_ok r t n : request_ok (replies r t n).
Proof. intros e u e' u' _ [= <- <-]. done. Qed.

Definition fine : Faults := {| f_load := false; f_publish := publish_fine |}.
Definition down : Faults := {| f_load := true; f_publish := publish_lost |}.

Inductive parent_move :=
  | PArrive (q : Request counter)
  | PRun (i : nat) (now : Z) (f : Faults)
  | PCreate (s : Session counter) (t : TurnContract)
  | PEnroll (k : nat).

Definition parent_move_ok (m : parent_move) : Prop :=
  match m with
  | PArrive q => request_ok q
  | PCreate s t => st_starts (se_engine s) t
  | _ => True
  end.

Definition advance (y : ParentSystem counter) (m : parent_move) : option (ParentSystem counter) :=
  match m with
  | PArrive q => Some {| py_now := py_now y; py_db := py_db y; py_parents := py_parents y; py_created := py_created y;
                         py_requests := py_requests y ++ [(q, P_prior)] |}
  | PRun i now f =>
      '(q, p) ← py_requests y !! i;
      if (py_now y <=? now)%Z then
        let out := parent_step verdict q f now (py_db y) (py_parents y) p in
        Some {| py_now := now; py_db := out.1.1; py_parents := out.1.2; py_created := py_created y;
                py_requests := <[i := (q, out.2)]> (py_requests y) |}
      else None
  | PCreate s t =>
      match find_conversation (py_db y) (se_conversation_id s), create_conversation s t (py_db y) with
      | None, Ok (i, db') =>
          Some {| py_now := py_now y; py_db := db'; py_parents := py_parents y;
                  py_created := if decide (i = se_conversation_id s) then s :: py_created y else py_created y;
                  py_requests := py_requests y |}
      | _, _ => None
      end
  | PEnroll k =>
      s ← py_created y !! k;
      Some {| py_now := py_now y; py_db := py_db y; py_parents := enroll s (py_parents y); py_created := py_created y;
              py_requests := py_requests y |}
  end.

Lemma advance_step y m y' : parent_move_ok m -> advance y m = Some y' -> parent_system_step verdict y y'.
Proof.
  destruct y as [now db ps cs rs], m as [q|i now' f|s t|k]; simpl; intros Hm.
  - intros [= <-]. by constructor.
  - destruct (rs !! i) as [[q p]|] eqn:Hi; [|done]. simpl. destruct (Z.leb_spec now now'); [|done].
    intros [= <-]. by apply (psys_run _ now now' db ps cs rs i q p f).
  - destruct (find_conversation db _) eqn:Hf; [done|].
    destruct (create_conversation s t db) as [[j db']|] eqn:Hc; [|done]. intros [= <-]. exact (psys_create verdict now db ps cs rs s t j db' Hm Hf Hc).
  - destruct (cs !! k) as [s|] eqn:Hk; [|done]. simpl. intros [= <-]. apply psys_enroll. by eapply list_elem_of_lookup_2.
Qed.

Definition parent_start : ParentSystem counter :=
  {| py_now := 0; py_db := empty_db; py_parents := []; py_created := []; py_requests := [] |}.

Definition advanced (ms : list parent_move) : option (ParentSystem counter) :=
  fold_left (fun y m => y ← y; advance y m) ms (Some parent_start).

Lemma advanced_reachable ms y : Forall parent_move_ok ms -> advanced ms = Some y -> parent_reachable verdict y.
Proof.
  unfold advanced. revert y. induction ms as [|m ms IH] using rev_ind; intros y Hms; simpl.
  - intros [= <-]. constructor.
  - apply Forall_app in Hms as [Hms Hm]. apply Forall_cons in Hm as [Hm _]. rewrite fold_left_app. simpl.
    destruct (fold_left _ ms _) as [z|]; [|done]. simpl. intros Hz.
    exact (preach_step verdict z y (IH z Hms eq_refl) (advance_step z m y Hm Hz)).
Qed.

(** Two answers under the parent. *)
Definition turns (i : nat) (now : Z) : list parent_move := replicate 12 (PRun i now fine).
Definition under_parent : list parent_move :=
  [PCreate (lesson "c" None) (plain_turn "t0" "what is it?"); PEnroll 0; PArrive (replies "r" "t0" "t1")] ++ turns 0 1
  ++ PArrive (replies "r2" "t1" "t2") :: turns 1 2.
Lemma under_parent_ok : Forall parent_move_ok under_parent.
Proof. repeat constructor; apply replies_ok. Qed.

Definition parent_at (ms : list parent_move) : ParentSystem counter := default parent_start (advanced ms).

Lemma parent_at_reachable n : bool_decide (is_Some (advanced (take n under_parent))) = true ->
  parent_reachable verdict (parent_at (take n under_parent)).
Proof.
  intros [y Hy]%bool_decide_eq_true. apply (advanced_reachable (take n under_parent)).
  - apply Forall_take, under_parent_ok.
  - unfold parent_at. by rewrite Hy.
Qed.

Definition ended : ParentSystem counter := parent_at (take 27 under_parent).
(** Just before the cursor of the second answer is published. *)
Definition publishing : ParentSystem counter := parent_at (take 26 under_parent).

Lemma ended_reachable : parent_reachable verdict ended.
Proof. apply parent_at_reachable. by vm_compute. Qed.
Lemma publishing_reachable : parent_reachable verdict publishing.
Proof. apply parent_at_reachable. by vm_compute. Qed.

Lemma publishing_step : parent_system_step verdict publishing ended.
Proof. apply (advance_step publishing (PRun 1 2 fine)); [done|]. by vm_compute. Qed.

Definition no_cursor : SessionParentRecord := {| pa_conversation_id := ""; pa_graph_version := ""; pa_state_version := 0;
  pa_turn_id := ""; pa_phase := ""; pa_generation := 0; pa_checkpoint := None |}.
Definition cursor_of (y : ParentSystem counter) : SessionParentRecord := default no_cursor (head (py_parents y)).

Lemma parent_refines_turn_service_witness :
  exists ys, reachable ys /\ sy_db ys = py_db ended /\ length (db_observations (sy_db ys)) = 2
    /\ (replies "r2" "t1" "t2", Done (Answered (turn_at "t2" 3) false)) ∈ sy_requests ys.
Proof.
  destruct (parent_refines_turn_service verdict ended ended_reachable) as (ys & Hr & Hdb & Hreply).
  exists ys. split; [exact Hr|]. split; [exact Hdb|]. split; [rewrite Hdb; by vm_compute|].
  apply Hreply. apply (list_elem_of_lookup_2 _ 1). by vm_compute.
Defined.

Lemma parent_answers_like_service_witness :
  exists db' ps', serve 6 (asks "r" "t0" "t1") 3 (sy_db (played opening)) AtPrior
                    = (db', Done (Answered (plain_turn "t1" "and then?") false))
    /\ parent_serve verdict 12 (asks "r" "t0" "t1") (fun _ => down) 3 (sy_db (played opening)) [] P_prior
        = (db', ps', P_done (Answered (plain_turn "t1" "and then?") false)).
Proof.
  destruct (parent_answers_like_service verdict (played opening) (asks "r" "t0" "t1") (fun _ => down) [] 3
    opening_reachable) as (db' & r & ps' & Hs & Hp).
  assert (Hr : (serve 6 (asks "r" "t0" "t1") 3 (sy_db (played opening)) AtPrior).2
               = Done (Answered (plain_turn "t1" "and then?") false)) by (by vm_compute).
  rewrite Hs in Hr. cbn [snd] in Hr. injection Hr as ->. by exists db', ps'.
Defined.

Lemma parent_cursor_is_committed_witness :
  pa_generation (cursor_of ended) = 3%Z /\ cursor_ok (py_db ended) (cursor_of ended).
Proof.
  split; [by vm_compute|].
  apply (parent_cursor_is_committed verdict ended (cursor_of ended) ended_reachable). apply head_elem. by vm_compute.
Defined.

Lemma parent_cursor_never_goes_back_witness :
  exists row', row' ∈ py_parents ended /\ moves_on (cursor_of publishing) row'.
Proof.
  apply (parent_cursor_never_goes_back verdict publishing ended); [apply publishing_reachable|apply publishing_step|].
  apply head_elem. by vm_compute.
Defined.
