(* ===== verification/LifeScenario.v ===== *)
(** Pinned life scenarios ([src/mormi_api/dialogue_v2_scenario_snapshot.py],
    [PinnedDialogueTaskNoteStateV3] and [PinnedDialogueScenarioRuntimeV3] of
    [src/mormi_api/schemas.py]): a conversation carries its whole scenario with, per
    task, the active variant, the reasoning ledger and the note provenance; every
    resolution revalidates the scenario and the binding of each task. *)

From S2P Require Import Prelude.
From S2P Require Import PyStr.
From S2P Require Import PyNum.
From S2P Require Import Json.
From S2P Require Import Schemas.
From S2P Require Import Packs.
From S2P Require Import PackDump.
From S2P Require Import Snapshot.
From S2P Require Import Ledger.
From S2P Require Import ContentChecks.
From S2P Require Import LifeChecks.

(** * The stored records *)

Record PinnedDialogueTaskNoteStateV3 := {
  nt_independent : gmap string (list string);
  nt_supported : list string;
  nt_joint_performance_used : bool;
  nt_note_emitted : bool;
  nt_emitted_note_id : option string
}.

Definition empty_note_state : PinnedDialogueTaskNoteStateV3 := {|
  nt_independent := ∅; nt_supported := []; nt_joint_performance_used := false;
  nt_note_emitted := false; nt_emitted_note_id := None |}.

(** The constructor: the fields, then [validate_note_provenance]. *)
Definition task_note_state (n : PinnedDialogueTaskNoteStateV3) : res PinnedDialogueTaskNoteStateV3 :=
  let evidence := map snd (map_to_list (nt_independent n)) in
  _ ← check (bool_decide (size (nt_independent n) <= 20)
             && forallb (content_id 120) (map fst (map_to_list (nt_independent n)))
             && forallb (forallb sha256_pattern) evidence
             && list_field 0 20 (nt_supported n) && forallb (content_id 120) (nt_supported n)
             && match nt_emitted_note_id n with Some i => id_field 100 i | None => true end)
        "task note fields";
  _ ← check (uniqueb (nt_supported n)) "task note supported relation IDs must be unique";
  _ ← check (forallb (fun i => negb (bool_decide (is_Some (nt_independent n !! i)))) (nt_supported n))
        "task note relation cannot be both independent and supported";
  _ ← check (forallb (fun ids => truthy ids && uniqueb ids) evidence)
        "independent task note evidence IDs must be non-empty and unique";
  _ ← check (Bool.eqb (nt_note_emitted n) (bool_decide (is_Some (nt_emitted_note_id n))))
        "emitted task note state must include exactly one note ID";
  Ok n.

Record PinnedDialogueScenarioRuntimeV3 := {
  pr_scenario_pack_id : string;
  pr_content_version : Z;
  pr_source_hash : string;
  pr_pack_snapshot : LifeScenarioPackV2;
  pr_active_variant_ids : gmap string string;
  pr_reasoning_ledgers : gmap string ReasoningLedgerV2;
  pr_task_note_states : gmap string PinnedDialogueTaskNoteStateV3;
  pr_selector_reason : string;
  pr_canary_bucket : option Z
}.

(** The constructor: the fields, then [task_scopes_must_match]. *)
Definition scenario_runtime (r : PinnedDialogueScenarioRuntimeV3) : res PinnedDialogueScenarioRuntimeV3 :=
  _ ← each (fun kv => _ ← task_note_state kv.2; Ok tt) (map_to_list (pr_task_note_states r));
  _ ← check (content_id 160 (pr_scenario_pack_id r) && (1 <=? pr_content_version r)%Z
             && sha256_pattern (pr_source_hash r)
             && bool_decide (1 <= size (pr_active_variant_ids r) <= 4)
             && forallb (fun kv => content_id 120 kv.1 && opaque_id 100 kv.2)
                  (map_to_list (pr_active_variant_ids r))
             && bool_decide (1 <= size (pr_reasoning_ledgers r) <= 4)
             && bool_decide (1 <= size (pr_task_note_states r) <= 4)
             && text_field 1 100 (pr_selector_reason r)
             && match pr_canary_bucket r with Some b => (0 <=? b)%Z && (b <=? 99)%Z | None => true end)
        "pinned scenario fields";
  _ ← check (bool_decide (dom (pr_reasoning_ledgers r) = dom (pr_active_variant_ids r))
             && bool_decide (dom (pr_task_note_states r) = dom (pr_active_variant_ids r)))
        "scenario variant, ledger, and note state task scopes must match";
  Ok r.

(** * Identity of a scenario *)

Definition pyvalue_dump (v : pyvalue) : json :=
  match v with
  | PV_str s => JStr s | PV_num n => JNum n | PV_bool b => JBool b
  | PV_list l => j_strs l
  end.

Definition life_stage_dump (s : LifeTaskStageV2) : json :=
  JObj [("task_id", JStr (ts_task_id s)); ("default_variant_id", JStr (ts_default_variant_id s));
        ("variants", JObj (map (fun kv => (kv.1, life_task_dump kv.2)) (ts_variants s)));
        ("selector", match ts_selector s with
           | Some sel => JObj [("source_task_id", JStr (sel_source_task_id sel));
                               ("fact_id", JStr (sel_fact_id sel));
                               ("value_to_variant_id",
                                JObj (map (fun kv => (kv.1, JStr kv.2)) (sel_value_to_variant_id sel)))]
           | None => JNull end)].

Definition projection_dump (c : LifeCompletionProjectionV2) : json :=
  JObj [("output_key", JStr (lc_output_key c)); ("source_task_id", JStr (lc_source_task_id c));
        ("source_kind", JStr (match lc_source_kind c with
                              | PS_fact => "fact" | PS_relation_constant => "relation_constant" end));
        ("source_id", JStr (lc_source_id c));
        ("relation_value", match lc_relation_value c with Some v => pyvalue_dump v | None => JNull end)].

Definition life_scenario_dump (s : LifeScenarioPackV2) : json :=
  JObj [("schema_version", JStr "life-scenario-pack-v2");
        ("materializer_version", JStr "life-materializer-v2");
        ("pack_id", JStr (sc_pack_id s)); ("content_version", j_int (sc_content_version s));
        ("scene", JStr (scene_value (sc_scene s))); ("scenario_id", JStr (sc_scenario_id s));
        ("task_stages", JArr (map life_stage_dump (sc_task_stages s)));
        ("completion_projection", JArr (map projection_dump (sc_completion_projection s)))].

(** [stage.variants[variant_id]] *)
Definition variant (s : LifeTaskStageV2) (v : string) : option LifeTaskPackV2 :=
  snd <$> find_first (fun kv => bool_decide (kv.1 = v)) (ts_variants s).

Section scenario.
Context `{Digest}.

Definition life_scenario_hash_v2 (s : LifeScenarioPackV2) : string := hexdigest (dumps (life_scenario_dump s)).

Definition empty_life_task_ledger_v3 (pack : LifeTaskPackV2) : res ReasoningLedgerV2 :=
  snapshot ← pin_life_task_pack_v2 pack;
  empty_reasoning_ledger_v2 (LifeSnapshot snapshot).

Definition scenario_error (msg : string) : pyexn := DialogueV3ScenarioSnapshotError msg.

(** * Revalidation *)

(** The ledger names the active variant. *)
Definition ledger_bound (task_pack : LifeTaskPackV2) (l : ReasoningLedgerV2) : bool :=
  bool_decide (rl_pack_id l = lt_pack_id task_pack)
  && (rl_content_version l =? lt_content_version task_pack)%Z
  && bool_decide (rl_content_hash l = life_task_pack_hash_v2 task_pack).

(** The body of [_validate_task_state]'s loop. *)
Definition validate_task_scope (snapshot : PinnedDialogueScenarioRuntimeV3) (pack : LifeScenarioPackV2)
    (task_id variant_id : string) : res unit :=
  stage ← stage_by_task_id pack task_id;
  task_pack ← or_raise (variant stage variant_id)
                (scenario_error "active life task variant is unavailable");
  ledger ← or_raise (pr_reasoning_ledgers snapshot !! task_id) (KeyError task_id);
  _ ← raise_if (negb (ledger_bound task_pack ledger))
        (scenario_error "life reasoning ledger is not bound to active task variant");
  notes ← or_raise (pr_task_note_states snapshot !! task_id) (KeyError task_id);
  let policies := lt_policies task_pack in
  let relation_ids := map lr_relation_id (lg_relations (lt_reasoning_graph task_pack)) in
  _ ← raise_if (negb (subsetb (map fst (map_to_list (nt_independent notes)) ++ nt_supported notes)
                        (lp_note_relation_ids policies)))
        (scenario_error "task note state contains an unreviewed relation");
  _ ← raise_if (negb (subsetb (lp_note_relation_ids policies) relation_ids))
        (scenario_error "task note policy contains an unknown relation");
  raise_if (nt_note_emitted notes && bool_decide (lp_note_policy policies = note_none))
    (scenario_error "note-disabled life task cannot have an emitted note").

Definition validate_task_state (snapshot : PinnedDialogueScenarioRuntimeV3) (pack : LifeScenarioPackV2)
    : res unit :=
  _ ← raise_if (negb (bool_decide (dom (pr_active_variant_ids snapshot)
                                   =@{gset string} list_to_set (map ts_task_id (sc_task_stages pack)))))
        (scenario_error "scenario snapshot task scope does not match its content pack");
  each (fun kv => validate_task_scope snapshot pack kv.1 kv.2) (map_to_list (pr_active_variant_ids snapshot)).

Definition resolve_life_scenario_runtime_v3 (snapshot : PinnedDialogueScenarioRuntimeV3)
    : res LifeScenarioPackV2 :=
  pack ← match life_scenario_validate (pr_pack_snapshot snapshot) with
         | Ok pack => Ok pack
         | Raise _ => Raise (scenario_error "pinned life scenario payload is invalid")
         end;
  _ ← raise_if (negb (bool_decide (sc_pack_id pack = pr_scenario_pack_id snapshot))
                || negb (sc_content_version pack =? pr_content_version snapshot)%Z
                || negb (bool_decide (life_scenario_hash_v2 pack = pr_source_hash snapshot)))
        (scenario_error "pinned life scenario identity or hash does not match its payload");
  _ ← validate_task_state snapshot pack;
  Ok pack.

(** * Pinning *)

Definition default_variants (pack : LifeScenarioPackV2) : gmap string string :=
  list_to_map (rev (map (fun s => (ts_task_id s, ts_default_variant_id s)) (sc_task_stages pack))).

Definition empty_ledgers (pack : LifeScenarioPackV2) (variants : gmap string string)
    : res (gmap string ReasoningLedgerV2) :=
  l ← mapR (fun kv => stage ← stage_by_task_id pack kv.1;
                      task_pack ← or_raise (variant stage kv.2) (KeyError kv.2);
                      ledger ← empty_life_task_ledger_v3 task_pack;
                      Ok (kv.1, ledger)) (map_to_list variants);
  Ok (list_to_map l).

Definition pin_life_scenario_runtime_v3 (pack : LifeScenarioPackV2)
    (active_variant_ids : option (gmap string string))
    (reasoning_ledgers : option (gmap string ReasoningLedgerV2))
    (task_note_states : option (gmap string PinnedDialogueTaskNoteStateV3))
    (selector_reason : string) (canary_bucket : option Z) : res PinnedDialogueScenarioRuntimeV3 :=
  let selected := match active_variant_ids with
                  | Some v => if bool_decide (v = ∅) then default_variants pack else v
                  | None => default_variants pack
                  end in
  _ ← raise_if (negb (bool_decide (dom selected
                                   =@{gset string} list_to_set (map ts_task_id (sc_task_stages pack)))))
        (scenario_error "active life variants must cover every scenario task");
  ledgers ← match reasoning_ledgers with Some l => Ok l | None => empty_ledgers pack selected end;
  let notes := match task_note_states with Some n => n | None => (fun _ => empty_note_state) <$> selected end in
  snapshot ← scenario_runtime {|
    pr_scenario_pack_id := sc_pack_id pack; pr_content_version := sc_content_version pack;
    pr_source_hash := life_scenario_hash_v2 pack; pr_pack_snapshot := pack;
    pr_active_variant_ids := selected; pr_reasoning_ledgers := ledgers; pr_task_note_states := notes;
    pr_selector_reason := selector_reason; pr_canary_bucket := canary_bucket |};
  _ ← resolve_life_scenario_runtime_v3 snapshot;
  Ok snapshot.
End scenario.
