(* ===== verification/LifeEngine.v ===== *)
(** The life engine ([DialogueV2LifeEngine] of
    [src/mormi_api/dialogue_v2_life_runtime.py]): the home engine's understanding,
    evidence guard, ladder policy and speech over a scenario of several tasks, with
    its own snapshot, choices, note record, task transition and completion. *)

From S2P Require Import Prelude.
From S2P Require Import PyStr.
From S2P Require Import PyNum.
From S2P Require Import Json.
From S2P Require Import Schemas.
From S2P Require Import Requests.
From S2P Require Import Evidence.
From S2P Require Import Packs.
From S2P Require Import PackDump.
From S2P Require Import Snapshot.
From S2P Require Import Ledger.
From S2P Require Import ContentChecks.
From S2P Require Import LifeChecks.
From S2P Require Import State.
From S2P Require Import Ladder.
From S2P Require Import Understand.
From S2P Require Import Question.
From S2P Require Import Respond.
From S2P Require Import Reply.
From S2P Require Import SpeakerPlan.
From S2P Require Import Turn.
From S2P Require Import LifeScenario.

(** * State *)

(** [SessionState] as the life engine uses it: the fields it shares with the home
    engine, the scene, the pinned scenario, and its two keys of [scenario_data]. *)
Record LifeState := {
  ls_base : SessionState;
  ls_scene : SceneType;
  ls_scenario_id : string;
  ls_pinned : option PinnedDialogueScenarioRuntimeV3;
  ls_visual_patches : gmap string (list (string * json));
  ls_transition_from : option string
}.

Definition with_base (s : LifeState) (b : SessionState) : LifeState := {|
  ls_base := b; ls_scene := ls_scene s; ls_scenario_id := ls_scenario_id s; ls_pinned := ls_pinned s;
  ls_visual_patches := ls_visual_patches s; ls_transition_from := ls_transition_from s |}.
Definition with_scenario (s : LifeState) (p : PinnedDialogueScenarioRuntimeV3) : LifeState := {|
  ls_base := ls_base s; ls_scene := ls_scene s; ls_scenario_id := ls_scenario_id s; ls_pinned := Some p;
  ls_visual_patches := ls_visual_patches s; ls_transition_from := ls_transition_from s |}.
Definition with_patches (s : LifeState) (v : gmap string (list (string * json))) : LifeState := {|
  ls_base := ls_base s; ls_scene := ls_scene s; ls_scenario_id := ls_scenario_id s; ls_pinned := ls_pinned s;
  ls_visual_patches := v; ls_transition_from := ls_transition_from s |}.
Definition with_transition (s : LifeState) (t : option string) : LifeState := {|
  ls_base := ls_base s; ls_scene := ls_scene s; ls_scenario_id := ls_scenario_id s; ls_pinned := ls_pinned s;
  ls_visual_patches := ls_visual_patches s; ls_transition_from := t |}.

Definition with_task_index (s : SessionState) (i : nat) : SessionState := {|
  runtime_contract_version := runtime_contract_version s; pinned_dialogue_v2 := pinned_dialogue_v2 s;
  task_ids := task_ids s; task_index := i; subgoal_id := subgoal_id s;
  state_version := state_version s; current_turn_id := current_turn_id s;
  ladder := ladder s; notes := notes s; outcome := outcome s |}.

Definition with_ledgers (p : PinnedDialogueScenarioRuntimeV3) (variants : gmap string string)
    (ledgers : gmap string ReasoningLedgerV2) : PinnedDialogueScenarioRuntimeV3 := {|
  pr_scenario_pack_id := pr_scenario_pack_id p; pr_content_version := pr_content_version p;
  pr_source_hash := pr_source_hash p; pr_pack_snapshot := pr_pack_snapshot p;
  pr_active_variant_ids := variants; pr_reasoning_ledgers := ledgers;
  pr_task_note_states := pr_task_note_states p; pr_selector_reason := pr_selector_reason p;
  pr_canary_bucket := pr_canary_bucket p |}.
Definition with_note_states (p : PinnedDialogueScenarioRuntimeV3)
    (n : gmap string PinnedDialogueTaskNoteStateV3) : PinnedDialogueScenarioRuntimeV3 := {|
  pr_scenario_pack_id := pr_scenario_pack_id p; pr_content_version := pr_content_version p;
  pr_source_hash := pr_source_hash p; pr_pack_snapshot := pr_pack_snapshot p;
  pr_active_variant_ids := pr_active_variant_ids p; pr_reasoning_ledgers := pr_reasoning_ledgers p;
  pr_task_note_states := n; pr_selector_reason := pr_selector_reason p;
  pr_canary_bucket := pr_canary_bucket p |}.

(** [_value_lookup_key] *)
Definition value_lookup_key (v : CanonicalValueV2) : string :=
  match primitive v with
  | PV_bool b => if b then "true" else "false"
  | PV_str s => s
  | PV_num n => py_num_str n
  | PV_list _ => ""
  end.

(** [_merge_visual_data] *)
Definition merge_visual_data (v : VisualContract) (patch : option (list (string * json))) : VisualContract :=
  {| vc_type := vc_type v;
     vc_data := fold_left (fun d kv => dict_set kv.1 kv.2 d) (default [] patch) (vc_data v) |}.

Section life.
Context `{Digest} `{!Nfc} `{!SpeechPort}.
Implicit Types (s : LifeState) (p : LifeTaskPackV2) (lg : ReasoningLedgerV2) (t : TurnSemantics).

(** * The pinned state *)

Definition resolve_scenario s : res (LifeScenarioPackV2 * PinnedDialogueScenarioRuntimeV3) :=
  pinned ← or_raise (ls_pinned s) (ValueError "verdict-v1 life conversation has no scenario snapshot");
  scenario ← resolve_life_scenario_runtime_v3 pinned;
  _ ← raise_if (negb (bool_decide (sc_scene scenario = ls_scene s)
                      && bool_decide (sc_scenario_id scenario = ls_scenario_id s)))
        (ValueError "pinned life scenario failed identity validation");
  _ ← raise_if (negb (bool_decide (map ts_task_id (sc_task_stages scenario) = task_ids (ls_base s))))
        (ValueError "pinned life scenario task order changed");
  Ok (scenario, pinned).

Definition life_incomplete : pyexn := ValueError "pinned life task runtime is incomplete".

Definition resolve_life_state s : res (LifeTaskPackV2 * PinnedLifeTaskSnapshotV2 * ReasoningLedgerV2) :=
  _ ← raise_if (bool_decide (runtime_contract_version (ls_base s) <> VERDICT_V1))
        (ValueError "legacy conversation cannot enter life V2 engine");
  resolved ← resolve_scenario s;
  let '(scenario, pinned) := resolved in
  task_id ← current_task_id (ls_base s);
  stage ← stage_by_task_id scenario task_id;
  variant_id ← or_raise (pr_active_variant_ids pinned !! task_id) life_incomplete;
  pack ← or_raise (variant stage variant_id) life_incomplete;
  stored ← or_raise (pr_reasoning_ledgers pinned !! task_id) life_incomplete;
  ledger ← reload_ledger stored;
  snapshot ← pin_life_task_pack_v2 pack;
  _ ← reasoning_completion_v2 (LifeSnapshot snapshot) ledger;
  Ok (pack, snapshot, ledger).

Definition store_life_ledger s lg : res LifeState :=
  pinned ← or_raise (ls_pinned s) (ValueError "missing life scenario runtime");
  task_id ← current_task_id (ls_base s);
  Ok (with_scenario s (with_ledgers pinned (pr_active_variant_ids pinned)
        (<[task_id := lg]> (pr_reasoning_ledgers pinned)))).

(** * Questions *)

(** [for l3_plan in plans: if l3_plan.targets[0] in ordered: return ...] *)
Fixpoint first_open_plan (ordered : list TargetRefV2) (plans : list QuestionPlanV2) : res (option TargetRefV2) :=
  match plans with
  | [] => Ok None
  | plan :: rest => t ← plan_target plan;
                    if memb t ordered then Ok (Some t) else first_open_plan ordered rest
  end.

Definition life_targets (level : ExpressionLevel) p lg : res (list TargetRefV2) :=
  snapshot ← pin_life_task_pack_v2 p;
  completion ← reasoning_completion_v2 (LifeSnapshot snapshot) lg;
  let ordered := remaining_targets (qp_targets (lt_initial_question p)) completion in
  if memb level [L4; L0] then Ok ordered
  else
    match find_first (is_partial_target lg) ordered with
    | Some t => Ok [t]
    | None =>
        l3 ← first_open_plan ordered (if decide (level = L3) then lt_l3_plans p else []);
        match l3 with
        | Some t => Ok [t]
        | None =>
            match first_open ordered (map ll2_target (lt_l2_plans p)) with
            | Some t => Ok [t]
            | None => Ok (take 1 ordered)
            end
        end
    end.

Definition life_l2_plan_for_targets p (targets : list TargetRefV2) : res LifeL2ChoicePlanV2 :=
  or_raise (find_first (fun q => memb (target_pair (ll2_target q)) (map target_pair targets)) (lt_l2_plans p))
    (ValueError "life pack has no L2 plan for the remaining target").

Definition life_active_l2_plan s p lg : res LifeL2ChoicePlanV2 :=
  match find_first (fun q => bool_decide (ll2_plan_id q = subgoal_id (ls_base s))) (lt_l2_plans p) with
  | Some plan => Ok plan
  | None => targets ← life_targets (expression_level (ladder (ls_base s))) p lg;
            life_l2_plan_for_targets p targets
  end.

Definition life_slot_for_purpose p (u : CopyPurpose) : res CopySlotV2 :=
  or_raise (find_first (fun c => bool_decide (cs_purpose c = u)) (lt_copy_slots p)) StopIteration.

Definition life_joint_question p (targets : list TargetRefV2) (intro action : CopySlotV2) : QuestionContract :=
  let plan := lt_l0_joint_plan p in {|
  qc_targets := targets; qc_fallback := cs_reviewed_fallback intro;
  qc_input := {|
    ic_kind := IK_JOINT; ic_placeholder := None; ic_choices := [];
    ic_target_slots := map target_key targets; ic_submit_label := Some (ljp_button_label plan);
    ic_config := CFG_joint (ljp_input_config plan) (cs_reviewed_fallback action) (ljp_action_id plan)
                   (joint_completion_values (ljp_completion_values plan)) |};
  qc_copy_slot := Some intro |}.

Definition life_l2_question (plan : LifeL2ChoicePlanV2) (slot : CopySlotV2) : QuestionContract := {|
  qc_targets := [ll2_target plan]; qc_fallback := cs_reviewed_fallback slot;
  qc_input := {|
    ic_kind := IK_CHOICES; ic_placeholder := None;
    ic_choices := map (fun c => {| co_id := lch_choice_id c; co_label := lch_label c;
                                   co_image_url := lch_image_url c; co_disabled := Some (lch_disabled c) |})
                    (ll2_choices plan);
    ic_target_slots := [target_key (ll2_target plan)]; ic_submit_label := Some (ll2_submit_label plan);
    ic_config := CFG_plan (ll2_plan_id plan) (ll2_input_config plan) |};
  qc_copy_slot := Some slot |}.

Definition life_question_contract s p lg : res (LifeState * QuestionContract) :=
  let b := ls_base s in
  if decide (ss_status (outcome b) = COMPLETED) then
    Ok (s, {| qc_targets := []; qc_fallback := ""; qc_input := no_input; qc_copy_slot := None |})
  else
    let level := expression_level (ladder b) in
    targets ← life_targets level p lg;
    match level with
    | L0 =>
        intro ← life_slot_for_purpose p l0_intro;
        action ← life_slot_for_purpose p l0_action;
        Ok (with_base s (with_subgoal (with_ladder b (with_hint (ladder b) H3)) "l0.joint"),
            life_joint_question p targets intro action)
    | L2 =>
        plan ← life_l2_plan_for_targets p targets;
        slot ← or_raise (find_first (fun c => bool_decide (cs_copy_slot c = ll2_copy_slot plan))
                           (lt_copy_slots p)) StopIteration;
        Ok (with_base s (with_subgoal b (ll2_plan_id plan)), life_l2_question plan slot)
    | L3 =>
        plan ← l3_plan_by_key (map target_key targets) (lt_l3_plans p);
        question ← l3_question plan;
        Ok (with_base s (with_subgoal b (qp_plan_id plan)), question)
    | L4 | L1 =>
        out ← free_text_question (lt_initial_question p) (lt_l3_plans p) targets;
        Ok (with_base s (with_subgoal b out.1), out.2)
    end.

Definition life_initial_help_question p (question : QuestionContract) : res QuestionContract :=
  slot ← life_slot_for_purpose p initial_help;
  Ok {| qc_targets := cs_targets slot; qc_fallback := cs_reviewed_fallback slot;
        qc_input := {|
          ic_kind := ic_kind (qc_input question); ic_placeholder := ic_placeholder (qc_input question);
          ic_choices := ic_choices (qc_input question);
          ic_target_slots := map target_key (cs_targets slot);
          ic_submit_label := ic_submit_label (qc_input question);
          ic_config := ic_config (qc_input question) |};
        qc_copy_slot := Some slot |}.

(** * Responses *)

Definition update_values (l : list LifeFactUpdateV2) : list (string * CanonicalValueV2) :=
  fold_left (fun d u => dict_set (lu_fact_id u) (lu_value u) d) l [].

Definition life_choice_semantics s p (snapshot : PinnedLifeTaskSnapshotV2) lg (response : ChildResponse)
    : res TurnSemantics :=
  _ ← raise_if (bool_decide (expression_level (ladder (ls_base s)) <> L2))
        (ValueError "life choice response is not valid outside L2");
  plan ← life_active_l2_plan s p lg;
  chosen ← match cr_choice_ids response with
           | [c] => Ok c
           | _ => Raise (ValueError "life L2 response requires exactly one choice")
           end;
  choice ← match find_first (fun c => bool_decide (lch_choice_id c = chosen)) (ll2_choices plan) with
           | Some c => if lch_disabled c
                       then Raise (ValueError "choice_id is unavailable in the pinned life plan") else Ok c
           | None => Raise (ValueError "choice_id is unavailable in the pinned life plan")
           end;
  let effect := lch_effect choice in
  let correct := bool_decide (le_verdict effect = choice_correct) in
  result ← (if correct then
              apply_structured_progress_v2 (LifeSnapshot snapshot) lg (update_values (le_fact_updates effect))
                (le_relation_ids effect) (cr_turn_id response) SRC_choice
            else unchanged_result (LifeSnapshot snapshot) lg);
  semantic ← choice_understanding correct (bool_decide (target_kind (ll2_target plan) = KIND_fact));
  Ok (choice_result semantic result correct
        (match le_visual_patch effect with [] => None | v => Some v end)).

(** [_interpret_execution] of the base engine, with the life engine's readings. *)
Definition interpret_life (gateway : nat -> UnderstandingRequestV2 -> GatewayOutcome) s p
    (snapshot : PinnedLifeTaskSnapshotV2) lg (response : ChildResponse) (previous_question : string)
    (recent : list DialogueHistoryTurn) : res TurnSemantics :=
  let l := ladder (ls_base s) in
  match cr_type response with
  | RT_TEXT =>
      targets ← life_targets (expression_level l) p lg;
      understand_text gateway l (LifePack p) (LifeSnapshot snapshot) lg targets response previous_question recent
  | RT_NO_RESPONSE => no_response_semantics l (LifeSnapshot snapshot) lg response
  | RT_CHOICE | RT_FILL => life_choice_semantics s p snapshot lg response
  | RT_ACTION => joint_semantics l (LifePack p) (LifeSnapshot snapshot) lg response
  | RT_COUNT | RT_EQUATION =>
      Raise (ValueError "V2 home teaching received an unsupported response type")
  end.

(** * Applying a turn *)

(** [_apply_ladder_policy]: the ladders, and the visual patch of a choice. *)
Definition life_ladder_policy s t : res LifeState :=
  let s := with_base s (with_ladder (ls_base s) (apply_ladder_policy (ladder (ls_base s)) t)) in
  match ts_visual_patch t with
  | Some patch => task_id ← current_task_id (ls_base s);
                  Ok (with_patches s (<[task_id := patch]> (ls_visual_patches s)))
  | None => Ok s
  end.

(** [_sync_legacy_slots] *)
Definition life_slots p lg : res (gmap string pyvalue) :=
  let facts := (fun e => primitive (vf_canonical_value e)) <$> verified_facts lg in
  labels ← mapR (fun i => r ← or_raise (relations_by_id (LifePack p) i) (KeyError i);
                          Ok (i, PV_str (relation_label r)))
             (map fst (map_to_list (verified_relations lg)));
  Ok (list_to_map labels ∪ facts).

Definition relation_evidence (l : ReasoningLedgerV2) (i : string) : list string :=
  match verified_relations l !! i with Some e => map re_id (vr_evidence e) | None => [] end.

(** The loop body of [_track_note_provenance] for one note relation. *)
Definition life_note_step (direct_turn : bool) (l : ReasoningLedgerV2) (new_evidence : list string)
    (acc : gmap string (list string) * list string) (i : string) : gmap string (list string) * list string :=
  match List.filter (fun e => memb e new_evidence) (relation_evidence l i) with
  | [] => acc
  | turn_evidence =>
      if direct_turn && negb (memb i acc.2) then (<[i := fromkeys turn_evidence]> acc.1, acc.2)
      else if negb (bool_decide (is_Some (acc.1 !! i))) then (acc.1, fromkeys (acc.2 ++ [i]))
      else acc
  end.

(** The provenance of one task after a turn. *)
Definition next_note_state (n : PinnedDialogueTaskNoteStateV3) p t (before_hint after_hint : HintLevel)
    : PinnedDialogueTaskNoteStateV3 :=
  let note_relations := lp_note_relation_ids (lt_policies p) in
  let direct_turn := bool_decide (ts_understanding_source t = US_sonnet_low) && memb before_hint [H0; H1] in
  let lg := ar_ledger (ts_apply_result t) in
  let acc := fold_left (life_note_step direct_turn lg (new_relation_evidence_ids (ar_log (ts_apply_result t))))
               note_relations (nt_independent n, nt_supported n) in
  let supported :=
    if memb before_hint [H2; H3] || memb after_hint [H2; H3]
    then acc.2 ++ List.filter (fun i => negb (bool_decide (is_Some (verified_relations lg !! i)))) note_relations
    else acc.2 in {|
    nt_independent := acc.1; nt_supported := sorted_set supported;
    nt_joint_performance_used := nt_joint_performance_used n
                                 || bool_decide (ts_understanding_source t = US_structured_joint);
    nt_note_emitted := nt_note_emitted n; nt_emitted_note_id := nt_emitted_note_id n |}.

Definition track_life_notes s p t (before_hint : HintLevel) : res LifeState :=
  if bool_decide (lp_note_policy (lt_policies p) = note_none) then Ok s
  else
    pinned ← or_raise (ls_pinned s) (ValueError "missing life scenario note state");
    n ← or_raise (pr_task_note_states pinned !! lt_task_id p) (KeyError (lt_task_id p));
    Ok (with_scenario s (with_note_states pinned
          (<[lt_task_id p := next_note_state n p t before_hint (hint_level (ladder (ls_base s)))]>
             (pr_task_note_states pinned)))).

(** [_apply_execution]: [s] is the stored state, [next] the copy. *)
Definition apply_life s next p t : res LifeState :=
  next ← life_ladder_policy next t;
  next ← store_life_ledger next (ar_ledger (ts_apply_result t));
  slots ← life_slots p (ar_ledger (ts_apply_result t));
  let next := with_base next (with_outcome (ls_base next) (with_verified_slots (outcome (ls_base next)) slots)) in
  track_life_notes next p t (hint_level (ladder (ls_base s))).

(** * Completion of a task *)

(** The variant of the next stage: its default, or the one its selector maps the
    verified fact of an earlier task to. *)
Definition no_mapping : pyexn := ValueError "life task variant selector has no verified mapping".

Definition next_variant (pinned : PinnedDialogueScenarioRuntimeV3) (stage : LifeTaskStageV2) : res string :=
  match ts_selector stage with
  | None => Ok (ts_default_variant_id stage)
  | Some sel =>
      stored ← or_raise (pr_reasoning_ledgers pinned !! sel_source_task_id sel) (KeyError (sel_source_task_id sel));
      source ← reload_ledger stored;
      entry ← or_raise (verified_facts source !! sel_fact_id sel) no_mapping;
      or_raise (snd <$> find_first (fun kv => bool_decide (kv.1 = value_lookup_key (vf_canonical_value entry)))
                          (sel_value_to_variant_id sel)) no_mapping
  end.

(** Whether the task was taught without support. *)
Definition task_direct (n : PinnedDialogueTaskNoteStateV3) p t : bool :=
  let note_relations := lp_note_relation_ids (lt_policies p) in
  if bool_decide (lp_note_policy (lt_policies p) = note_none)
  then bool_decide (ts_understanding_source t = US_sonnet_low)
  else truthy note_relations
       && forallb (fun i => bool_decide (is_Some (nt_independent n !! i))) note_relations.

Definition entry_ladder p : ladder_state := {|
  expression_level := lp_entry_expression_level (lt_policies p); hint_level := H0; task_max_hint := H0;
  expression_failures := 0; concept_failures := 0; vague_clarifications := 0; unrelated_count := 0 |}.

(** The state at the entry of the next task. *)
Definition enter_task s (next_pack : LifeTaskPackV2) : LifeState :=
  let b := ls_base s in
  let o := outcome b in
  with_base s (with_outcome (with_subgoal (with_ladder (with_task_index b (S (task_index b))) (entry_ladder next_pack))
                               (qp_plan_id (lt_initial_question next_pack))) {|
    ss_status := ACTIVE; completion_outcome := completion_outcome o;
    teach_reward_eligible := teach_reward_eligible o; all_tasks_direct := all_tasks_direct o;
    joint_performance_used := joint_performance_used o; verified_slots := ∅;
    completed_task_slots := completed_task_slots o |}).

(** What completing a task records, before the next one or the end. *)
Definition record_task s p t (n : PinnedDialogueTaskNoteStateV3) : LifeState :=
  let o := outcome (ls_base s) in
  let joint := bool_decide (ts_understanding_source t = US_structured_joint) in
  with_base s (with_outcome (ls_base s) {|
    ss_status := ss_status o; completion_outcome := completion_outcome o;
    teach_reward_eligible := teach_reward_eligible o;
    all_tasks_direct := all_tasks_direct o && task_direct n p t && negb joint;
    joint_performance_used := joint_performance_used o || joint; verified_slots := verified_slots o;
    completed_task_slots := <[lt_task_id p := verified_slots o]> (completed_task_slots o) |}).

Definition end_scenario s : LifeState :=
  let o := outcome (ls_base s) in
  let result := if all_tasks_direct o && negb (joint_performance_used o) then TAUGHT else SUPPORTED in
  with_base s (with_outcome (ls_base s) {|
    ss_status := COMPLETED; completion_outcome := Some result;
    teach_reward_eligible := bool_decide (result = TAUGHT); all_tasks_direct := all_tasks_direct o;
    joint_performance_used := joint_performance_used o; verified_slots := verified_slots o;
    completed_task_slots := completed_task_slots o |}).

(** [_complete_state] *)
Definition complete_life s p t : res LifeState :=
  resolved ← resolve_scenario s;
  let '(scenario, pinned) := resolved in
  n ← or_raise (pr_task_note_states pinned !! lt_task_id p) (KeyError (lt_task_id p));
  let s := record_task s p t n in
  match drop (S (task_index (ls_base s))) (task_ids (ls_base s)) with
  | [] => Ok (end_scenario s)
  | next_task_id :: _ =>
      stage ← stage_by_task_id scenario next_task_id;
      variant_id ← next_variant pinned stage;
      next_pack ← or_raise (variant stage variant_id) (KeyError variant_id);
      ledger ← empty_life_task_ledger_v3 next_pack;
      let s := with_scenario s (with_ledgers pinned (<[next_task_id := variant_id]> (pr_active_variant_ids pinned))
                 (<[next_task_id := ledger]> (pr_reasoning_ledgers pinned))) in
      Ok (with_transition (with_patches (enter_task s next_pack) (delete (lt_task_id p) (ls_visual_patches s)))
            (Some (lt_task_id p)))
  end.

(** * What the child is shown *)

(** [_stable_fallback]: life copy is always the reviewed line of its slot. *)
Definition life_stable_fallback (q : QuestionContract) : option (string * Mood * string) :=
  match qc_copy_slot q with
  | None => None
  | Some slot =>
      Some (cs_reviewed_fallback slot, thinking,
            match cs_purpose slot with
            | initial_help => "offer_initial_help"
            | l2_question => "ask_structured_choice"
            | l0_intro | l0_action => "enter_joint_work"
            end)
  end.

Definition life_note_update s p lg (note_id : string) : res (LifeState * option NoteUpdate) :=
  let policies := lt_policies p in
  if bool_decide (lp_note_policy policies = note_none) then Ok (s, None)
  else if negb (notes_verified (LifePack p) lg) then Ok (s, None)
  else
    pinned ← or_raise (ls_pinned s) (ValueError "missing life scenario note state");
    n ← or_raise (pr_task_note_states pinned !! lt_task_id p) (KeyError (lt_task_id p));
    if nt_note_emitted n then Ok (s, None)
    else
      let independent :=
        forallb (fun i => bool_decide (is_Some (nt_independent n !! i))) (lp_note_relation_ids policies)
        && negb (nt_joint_performance_used n) in
      skill ← or_raise (lp_note_skill_id policies) (ValidationError "note skill");
      text ← or_raise (if independent then lp_reviewed_direct_fallback policies
                       else lp_reviewed_coauthored_note policies) (ValidationError "note text");
      let emitted := {|
        nt_independent := nt_independent n; nt_supported := nt_supported n;
        nt_joint_performance_used := nt_joint_performance_used n;
        nt_note_emitted := true; nt_emitted_note_id := Some note_id |} in
      Ok (with_scenario s (with_note_states pinned (<[lt_task_id p := emitted]> (pr_task_note_states pinned))),
          Some {| nu_note_id := note_id; nu_skill_id := skill; nu_text := text;
                  nu_attribution := if independent then NA_CHILD else NA_COAUTHORED;
                  nu_evidence := if independent then DIRECT_EXPLANATION else SUPPORTED_COMPLETION |}).

Definition life_help_card p (level : HintLevel) : option HelpCardContract :=
  let card c l := Some {| hcc_level := l; hcc_body := lhc_body c; hcc_visual_type := lhc_visual_type c;
                          hcc_visual_data := lhc_visual_data c |} in
  match level with
  | H0 => None
  | H1 => card (lhp_H1 (lt_help_plan p)) H1
  | H2 => card (lhp_H2 (lt_help_plan p)) H2
  | H3 => card (lhp_H3 (lt_help_plan p)) H3
  end.

Definition life_task_anchor p (input : InputContract) : res TaskAnchorContract :=
  task_anchor_contract {|
    ta_anchor_id := ("v2." ++ lt_pack_id p)%string; ta_prompt := lt_source_prompt p;
    ta_target_slots := ic_target_slots input |}.

(** One projection of the scenario's completion. *)
Definition projected (scenario : LifeScenarioPackV2) (pinned : PinnedDialogueScenarioRuntimeV3)
    (c : LifeCompletionProjectionV2) : res pyvalue :=
  stage ← stage_by_task_id scenario (lc_source_task_id c);
  variant_id ← or_raise (pr_active_variant_ids pinned !! ts_task_id stage) (KeyError (ts_task_id stage));
  pack ← or_raise (variant stage variant_id) (KeyError variant_id);
  stored ← or_raise (pr_reasoning_ledgers pinned !! ts_task_id stage) (KeyError (ts_task_id stage));
  ledger ← reload_ledger stored;
  match lc_source_kind c with
  | PS_fact =>
      match verified_facts ledger !! lc_source_id c with
      | Some entry => Ok (primitive (vf_canonical_value entry))
      | None =>
          fact ← or_raise (find_first (fun f => bool_decide (lf_fact_id f = lc_source_id c))
                             (lg_facts (lt_reasoning_graph pack))) StopIteration;
          _ ← raise_if (negb (lf_initially_visible fact)) (ValueError "life completion fact was not verified");
          Ok (primitive (lf_value fact))
      end
  | PS_relation_constant =>
      _ ← raise_if (negb (bool_decide (is_Some (verified_relations ledger !! lc_source_id c))))
            (ValueError "life completion relation was not verified");
      or_raise (lc_relation_value c) (ValidationError "completion facts")
  end.

Definition life_completion_facts s : res (gmap string pyvalue) :=
  resolved ← resolve_scenario s;
  let '(scenario, pinned) := resolved in
  foldM (fun d c => v ← projected scenario pinned c; Ok (<[lc_output_key c := v]> d)) ∅
    (sc_completion_projection scenario).

Definition life_visual s p : VisualContract :=
  if decide (ss_status (outcome (ls_base s)) = COMPLETED)
  then {| vc_type := "success"; vc_data := [("task", JStr (lt_task_id p))] |}
  else merge_visual_data (lt_base_visual p) (ls_visual_patches s !! lt_task_id p).

(** [_build_turn] for the task just worked on; after a transition the turn opens
    the next task. *)
Definition build_life_turn (ids : FreshIds) s (completed_pack : LifeTaskPackV2)
    (completed_ledger : ReasoningLedgerV2) (text : string) (mood : Mood) : res (LifeState * TurnContract) :=
  task_id ← current_task_id (ls_base s);
  let transitioned := negb (bool_decide (task_id = lt_task_id completed_pack)) in
  noted ← (if transitioned || bool_decide (ss_status (outcome (ls_base s)) = COMPLETED)
           then life_note_update s completed_pack completed_ledger (fresh_note_id ids) else Ok (s, None));
  shown ← (if transitioned then
             resolved ← resolve_life_state noted.1;
             Ok (with_transition noted.1 None, resolved.1.1, resolved.2)
           else Ok (noted.1, completed_pack, completed_ledger));
  let '(s, pack, lg) := shown in
  out ← life_question_contract s pack lg;
  let s := out.1 in
  let question := out.2 in
  let opening := match lp_transition_text (lt_policies completed_pack) with
                 | Some t => if bool_decide (t = "") then "다음 것도 궁금해..." else t
                 | None => "다음 것도 궁금해..." end in
  let text := if transitioned then (opening ++ " " ++ qc_fallback question)%string else text in
  let mood := if transitioned then curious else mood in
  let o := outcome (ls_base s) in
  completion ← match ss_status o, completion_outcome o with
               | COMPLETED, Some result =>
                   facts ← life_completion_facts s;
                   Ok (Some {| cc_outcome := result; cc_teach_reward_eligible := teach_reward_eligible o;
                               cc_stage_completion_eligible := true; cc_verified_facts := facts |})
               | _, _ => Ok None
               end;
  mormi ← mormi_contract text mood;
  anchor ← (if bool_decide (ss_status o = ACTIVE)
            then a ← life_task_anchor pack (qc_input question); Ok (Some a) else Ok None);
  Ok (s, {|
    tc_turn_id := fresh_turn_id ids; tc_task_id := lt_task_id pack; tc_stage_id := lt_stage_id pack;
    tc_task_index := task_index (ls_base s); tc_mormi := mormi; tc_input := qc_input question;
    tc_visual := life_visual s pack; tc_help_card := life_help_card pack (hint_level (ladder (ls_base s)));
    tc_note_update := noted.2; tc_status := ss_status o; tc_state_version := state_version (ls_base s);
    tc_completion := completion; tc_task_anchor := anchor |}).

(** * Whole turns *)

(** [initialize_scenario_state] *)
Definition initialize_scenario_state (ids : FreshIds) (pack : LifeScenarioPackV2) (selector_reason : string)
    (canary_bucket : option Z) s : res (LifeState * TurnContract) :=
  let b := ls_base s in
  _ ← raise_if (bool_decide (runtime_contract_version b <> VERDICT_V1))
        (ValueError "life V2 state must be pinned to verdict-v1");
  _ ← raise_if (negb (bool_decide (ls_scene s = sc_scene pack) && bool_decide (ls_scenario_id s = sc_scenario_id pack)))
        (ValueError "materialized life scenario does not match session identity");
  _ ← raise_if (negb (bool_decide (task_ids b = map ts_task_id (sc_task_stages pack))))
        (ValueError "materialized life scenario task order does not match session");
  let variants := default_variants pack in
  ledgers ← empty_ledgers pack variants;
  pinned ← pin_life_scenario_runtime_v3 pack (Some variants) (Some ledgers)
             (Some ((fun _ => empty_note_state) <$> variants)) selector_reason canary_bucket;
  let o := outcome b in
  let b := with_task_index {|
    runtime_contract_version := runtime_contract_version b; pinned_dialogue_v2 := None; task_ids := task_ids b;
    task_index := task_index b; subgoal_id := subgoal_id b; state_version := state_version b;
    current_turn_id := current_turn_id b; ladder := ladder b; notes := notes b; outcome := o |} 0 in
  let s := with_scenario (with_base s b) pinned in
  resolved ← resolve_life_state s;
  let '(task, _, lg) := resolved in
  let l := with_max_hint (with_hint (with_expression (ladder b) (lp_entry_expression_level (lt_policies task))) H0) H0 in
  let s := with_base s (with_outcome (with_subgoal (with_ladder b l) (qp_plan_id (lt_initial_question task))) {|
    ss_status := ACTIVE; completion_outcome := completion_outcome o;
    teach_reward_eligible := teach_reward_eligible o; all_tasks_direct := all_tasks_direct o;
    joint_performance_used := joint_performance_used o; verified_slots := ∅; completed_task_slots := ∅ |}) in
  question ← life_question_contract s task lg;
  out ← build_life_turn ids question.1 task lg (qc_fallback question.2) curious;
  Ok (with_base out.1 (with_turn (ls_base out.1) (state_version (ls_base out.1)) (Some (tc_turn_id out.2))), out.2).

(** The supported relations of the task's note state. *)
Definition life_supported s p : list string :=
  match ls_pinned s with
  | Some pinned => match pr_task_note_states pinned !! lt_task_id p with Some n => nt_supported n | None => [] end
  | None => []
  end.

(** [_prepare_execution_speech] and [_render_execution_speech] *)
Definition life_speech s next p t : res (LifeState * TurnSpeech) :=
  out ← life_question_contract next p (ar_ledger (ts_apply_result t));
  let next := out.1 in
  question ← (if ts_initial_help t then life_initial_help_question p out.2 else Ok out.2);
  let hint := hint_level (ladder (ls_base next)) in
  fallback ← conversational_fallback (LifePack p) t question (negb (bool_decide (hint = H0)))
               (negb (bool_decide (hint = hint_level (ladder (ls_base s)))))
               (concept_failures (ladder (ls_base next)));
  speech ← render_speech (ls_base next) (hint_level (ladder (ls_base s)))
             (supported_note_slots (notes (ls_base next)) ++ life_supported next p) (LifePack p) t question
             (life_stable_fallback question) fallback;
  Ok (next, speech).

Record LifeTurnResult := {
  lr_state : LifeState;
  lr_analysis : UtteranceAnalysis;
  lr_turn : TurnContract;
  lr_runtime : RuntimeAudit;
  lr_accepted_claims : gmap string pyvalue
}.

Definition compose_life (ids : FreshIds) next p t (speech : TurnSpeech) : res LifeTurnResult :=
  out ← build_life_turn ids next p (ar_ledger (ts_apply_result t)) (sp_text speech) (sp_mood speech);
  let next := with_base out.1 (with_turn (ls_base out.1) (state_version (ls_base out.1)) (Some (tc_turn_id out.2))) in
  Ok {| lr_state := next; lr_analysis := compatibility_analysis t; lr_turn := out.2;
        lr_runtime := runtime_audit t speech; lr_accepted_claims := verified_slots (outcome (ls_base next)) |}.

(** The turn graph on an interpreted turn. *)
Definition finish_life_turn (ids : FreshIds) s p t : res LifeTurnResult :=
  let next := with_base s (with_turn (ls_base s) (state_version (ls_base s) + 1) None) in
  next ← apply_life s next p t;
  spoken ← (if complete (ar_completion (ts_apply_result t)) then
              done ← complete_life next p t; Ok (done, completion_speech t)
            else life_speech s next p t);
  compose_life ids spoken.1 p t spoken.2.

(** [run_turn_stream] of a life conversation, its result; the note's contextual
    wording is not modelled. *)
Definition run_life_turn (gateway : nat -> UnderstandingRequestV2 -> GatewayOutcome) (ids : FreshIds) s
    (response : ChildResponse) (previous_question : string) (recent : list DialogueHistoryTurn) : res LifeTurnResult :=
  resolved ← resolve_life_state s;
  let '(p, snapshot, lg) := resolved in
  t ← interpret_life gateway s p snapshot lg response previous_question recent;
  finish_life_turn ids s p t.
End life.
