(* ===== verification/LifeTheory.v ===== *)
(** Properties of pinned life scenarios: what a validated scenario promises to the
    engine, that a conversation's own writes pass its revalidation, and that a
    pinned scenario resolves to the reviewed content. *)

From S2P Require Import Prelude.
From S2P Require Import PyStr.
From S2P Require Import PyNum.
From S2P Require Import Json.
From S2P Require Import Schemas.
From S2P Require Import Requests.
From S2P Require Import Regex.
From S2P Require Import Evidence.
From S2P Require Import EvidenceTheory.
From S2P Require Import Packs.
From S2P Require Import PackDump.
From S2P Require Import Snapshot.
From S2P Require Import Ledger.
From S2P Require Import LedgerTheory.
From S2P Require Import LedgerProgress.
From S2P Require Import ContentCopy.
From S2P Require Import ContentChecks.
From S2P Require Import ContentPack.
From S2P Require Import LifeChecks.
From S2P Require Import ContentTheory.
From S2P Require Import State.
From S2P Require Import Ladder.
From S2P Require Import Understand.
From S2P Require Import UnderstandTheory.
From S2P Require Import Question.
From S2P Require Import QuestionTheory.
From S2P Require Import Respond.
From S2P Require Import NoteTheory.
From S2P Require Import SpeakerText.
From S2P Require Import SpeakerPlan.
From S2P Require Import Reply.
From S2P Require Import Speak.
From S2P Require Import Turn.
From S2P Require Import LifeScenario.
From S2P Require Import LifeEngine.

(** * What a validated scenario promises *)

Lemma scenario_validate_id sc sc' : life_scenario_validate sc = Ok sc' -> sc' = sc.
Proof. unfold life_scenario_validate. intros H. by ok_split. Qed.

Lemma find_variant (l : list (string * LifeTaskPackV2)) v : v ∈ map fst l ->
  exists p, snd <$> find_first (fun kv => bool_decide (kv.1 = v)) l = Some p.
Proof.
  intros ([k p] & -> & Hin)%list_elem_of_fmap. simpl.
  destruct (find_first_is_Some (fun kv : string * LifeTaskPackV2 => bool_decide (kv.1 = k)) l (k, p) Hin)
    as [kv ->]; [by apply bool_decide_eq_true|]. simpl. eauto.
Qed.

Lemma variant_in st v p : variant st v = Some p -> (v, p) ∈ ts_variants st.
Proof.
  unfold variant. destruct (find_first _ _) as [[k q]|] eqn:E; [|done]. intros [= ->].
  apply find_first_Some in E as [Hin Hk%bool_decide_eq_true]. simpl in Hk. by subst.
Qed.

Record scenario_contract (sc : LifeScenarioPackV2) : Prop := {
  sf_unique : NoDup (map ts_task_id (sc_task_stages sc));
  sf_count : 1 <= length (sc_task_stages sc) <= 4;
  sf_ids st : st ∈ sc_task_stages sc -> content_id 120 (ts_task_id st) = true;
  sf_default st : st ∈ sc_task_stages sc ->
    is_Some (variant st (ts_default_variant_id st)) /\ opaque_id 100 (ts_default_variant_id st) = true;
  sf_variant st v p : st ∈ sc_task_stages sc -> variant st v = Some p ->
    life_task_validate p = Ok p /\ lt_task_id p = ts_task_id st;
  sf_selector i st sel : sc_task_stages sc !! i = Some st -> ts_selector st = Some sel ->
    exists j src, j < i /\ sc_task_stages sc !! j = Some src /\ ts_task_id src = sel_source_task_id sel
      /\ (forall v p, variant src v = Some p -> sel_fact_id sel ∈ pack_fact_ids (LifePack p));
  sf_selected st sel k v : st ∈ sc_task_stages sc -> ts_selector st = Some sel ->
    (k, v) ∈ sel_value_to_variant_id sel -> is_Some (variant st v);
  sf_identity : content_id 160 (sc_pack_id sc) = true /\ (1 <=? sc_content_version sc)%Z = true;
  sf_projection c : c ∈ sc_completion_projection sc ->
    exists st, st ∈ sc_task_stages sc /\ ts_task_id st = lc_source_task_id c
}.

Lemma find_stage_Some stages t st : find_stage stages t = Some st -> st ∈ stages /\ ts_task_id st = t.
Proof.
  unfold find_stage. intros [Hin Ht%bool_decide_eq_true]%find_first_Some.
  split; [|done]. by apply list_elem_of_In, in_rev, list_elem_of_In.
Qed.

Lemma elem_of_zip_seq {A} (l : list A) i x : l !! i = Some x -> (i, x) ∈ zip (seq 0 (length l)) l.
Proof.
  intros Hi. apply list_elem_of_lookup. exists i. apply lookup_zip_with_Some. exists i, x.
  split; [done|]. split; [|done]. rewrite lookup_seq_lt; [done|]. by eapply lookup_lt_Some.
Qed.

Lemma take_index {A} (l : list A) n x : x ∈ take n l -> exists j, j < n /\ l !! j = Some x.
Proof.
  intros [j Hj]%list_elem_of_lookup. exists j. rewrite lookup_take_Some in Hj. naive_solver.
Qed.

Lemma scenario_validated sc : life_scenario_validate sc = Ok sc -> scenario_contract sc.
Proof.
  unfold life_scenario_validate. intros H. ok_split. breflect. ok_split.
  assert (Hst : forall st, st ∈ sc_task_stages sc -> life_stage_validate st = Ok tt)
    by (intros st Hin; by eapply each_Ok).
  match goal with H : NoDup (map ts_task_id _) |- _ => rename H into Hnd end.
  split; try done.
  - by apply list_field_spec.
  - intros st Hin. specialize (Hst st Hin). unfold life_stage_validate in Hst. ok_split. by breflect; ok_split.
  - intros st Hin. specialize (Hst st Hin). unfold life_stage_validate in Hst. ok_split. breflect. ok_split.
    split; [|done]. unfold variant.
    match goal with H : ts_default_variant_id st ∈ _ |- _ =>
      apply find_variant in H as [p ->] end. eauto.
  - intros st v p Hin Hv%variant_in. specialize (Hst st Hin). unfold life_stage_validate in Hst. ok_split.
    match goal with H : each _ (ts_variants st) = _ |- _ => pose proof (each_Ok _ _ _ H _ Hv) as Hp end.
    simpl in Hp. split.
    + destruct (life_task_validate p) as [q|] eqn:Eq; [|done].
      by pose proof (life_validate_id p q Eq) as ->.
    + match goal with H : forallb _ (ts_variants st) = true |- _ => rewrite forallb_forall in H;
        specialize (H _ (proj1 (list_elem_of_In _ _) Hv)); by apply bool_decide_eq_true in H end.
  - intros i st sel Hi Hs.
    match goal with H : each (fun ist => stage_selector_ok _ _ _) _ = _ |- _ =>
      pose proof (each_Ok _ _ _ H _ (elem_of_zip_seq _ _ _ Hi)) as Hsel end.
    simpl in Hsel. unfold stage_selector_ok in Hsel. rewrite Hs in Hsel. ok_split.
    match goal with H : memb _ (take i _) = true |- _ => apply memb_spec, take_index in H as (j & Hj & Ht) end.
    apply list_lookup_fmap_Some in Ht as (src & Ht & Hsrc).
    destruct (find_stage _ _) as [src'|] eqn:Ef; [|done]. simpl in *. match goal with H : Ok _ = Ok _ |- _ => injection H as <- end.
    apply find_stage_Some in Ef as [Hin Hid]. apply list_elem_of_lookup in Hin as [j' Hj'].
    assert (j' = j) as ->.
    { eapply (NoDup_lookup _ _ _ (ts_task_id src')); [exact Hnd|..]; rewrite list_lookup_fmap; simpl.
      - by rewrite Hj'.
      - rewrite Hsrc. simpl. congruence. }
    exists j, src'. split; [done|]. split; [done|]. split; [done|].
    intros v p Hv%variant_in. rewrite life_fact_ids.
    match goal with H : forallb _ (ts_variants src') = true |- _ => rewrite forallb_forall in H;
      specialize (H _ (proj1 (list_elem_of_In _ _) Hv)); by apply memb_spec in H end.
  - intros st sel k v Hin Hs Hkv. specialize (Hst st Hin). unfold life_stage_validate in Hst. ok_split.
    rewrite Hs in *. unfold variant.
    match goal with H : subsetb _ (map fst _) = true |- _ => rewrite subsetb_spec in H;
      destruct (find_variant (ts_variants st) v) as [p ->] end; [|eauto].
    match goal with H : forall x, _ -> x ∈ map fst _ |- _ => apply H end.
    apply list_elem_of_fmap. by exists (k, v).
  - intros c Hc.
    match goal with H : each (projection_ok _) _ = _ |- _ => pose proof (each_Ok _ _ _ H _ Hc) as Hp end.
    unfold projection_ok in Hp. ok_split. destruct (find_stage _ _) as [st|] eqn:Ef; [|done].
    apply find_stage_Some in Ef as [Hin Hid]. eauto.
Qed.

Lemma stage_same sc st st' : scenario_contract sc -> st ∈ sc_task_stages sc -> st' ∈ sc_task_stages sc ->
  ts_task_id st = ts_task_id st' -> st = st'.
Proof.
  intros Hc [i Hi]%list_elem_of_lookup [j Hj]%list_elem_of_lookup Ht. assert (i = j) as ->; [|congruence].
  eapply (NoDup_lookup (map ts_task_id (sc_task_stages sc))); [by apply Hc|by rewrite list_lookup_fmap, Hi|].
  rewrite list_lookup_fmap, Hj. simpl. by rewrite Ht.
Qed.

Lemma stage_by_index sc i st : scenario_contract sc -> sc_task_stages sc !! i = Some st ->
  stage_by_task_id sc (ts_task_id st) = Ok st.
Proof.
  intros Hc Hi. unfold stage_by_task_id.
  rewrite (find_first_key ts_task_id); [done|by apply Hc|by eapply list_elem_of_lookup_2].
Qed.

(** * The ledger of one task *)

Section frames.
Context `{!Digest} `{!DigestFormat}.
Implicit Types (p : LifeTaskPackV2) (lg : ReasoningLedgerV2) (st : LifeTaskStageV2)
  (pr : PinnedDialogueScenarioRuntimeV3) (n : PinnedDialogueTaskNoteStateV3).

Definition life_snapshot p : PinnedLifeTaskSnapshotV2 := {|
  pl_pack_id := lt_pack_id p; pl_content_version := lt_content_version p; pl_task_id := lt_task_id p;
  pl_content_hash := life_task_pack_hash_v2 p; pl_pack_payload := p |}.

Lemma pin_life_total p : life_task_validate p = Ok p -> pin_life_task_pack_v2 p = Ok (life_snapshot p).
Proof.
  intros Hp. unfold pin_life_task_pack_v2, pinned_life_snapshot. simpl. rewrite Hp.
  unfold life_task_validate in Hp. ok_split. breflect. ok_split.
  rewrite !(content_id_field _ _ _ (le_n _)) by done.
  match goal with H : (1 <=? _)%Z = true |- _ => rewrite H end.
  unfold life_task_pack_hash_v2. rewrite hexdigest_format. simpl.
  by rewrite !bool_decide_eq_true_2, Z.eqb_refl.
Qed.

Lemma life_resolves p : life_task_validate p = Ok p ->
  resolve_pack (LifeSnapshot (life_snapshot p)) = Ok (LifePack p).
Proof. intros Hp%pin_life_total. exact (pinned_life_resolves _ _ Hp). Qed.

(** A ledger of task [p], as every resolved life state has it. *)
Record life_frame p lg : Prop := {
  lf_task : life_task_validate p = Ok p;
  lf_bound : validate_ledger_binding (LifeSnapshot (life_snapshot p)) lg (LifePack p) = Ok tt;
  lf_valid : ledger_valid lg
}.

Lemma life_frame_contract p lg : life_frame p lg -> pack_contract (LifePack p).
Proof. intros Hf. exact (life_task_contract _ _ (lf_task _ _ Hf)). Qed.

Lemma life_frame_bound p lg : life_frame p lg -> ledger_bound p lg = true.
Proof.
  intros [_ Hb _]. unfold ledger_bound. apply binding_spec in Hb as ([= -> -> ->] & _). simpl.
  by rewrite !bool_decide_eq_true_2, Z.eqb_refl.
Qed.

Lemma empty_life_frame p : life_task_validate p = Ok p ->
  exists lg, empty_life_task_ledger_v3 p = Ok lg /\ life_frame p lg
    /\ maps_of lg = {| lm_facts := ∅; lm_relations := ∅; lm_partials := ∅; lm_auxiliary := ∅ |}.
Proof.
  intros Hp. unfold empty_life_task_ledger_v3, empty_reasoning_ledger_v2.
  pose proof (pin_life_total p Hp) as Hpin. rewrite Hpin. cbn [mbind res_bind].
  match goal with |- context [reasoning_ledger ?l] => assert (reasoning_ledger l = Ok l) as Hl end.
  { apply reasoning_ledger_total; simpl; rewrite ?map_size_empty; try lia.
    - unfold pin_life_task_pack_v2, pinned_life_snapshot in Hpin.
      destruct (raise_if (negb _) _) as [u|] eqn:E; [|done]. simpl in E.
      apply raise_if_Ok, negb_false_iff in E. unfold ledger_identity_ok. simpl in *.
      rewrite !andb_true_iff in *. naive_solver.
    - split; apply map_Forall_empty. }
  rewrite Hl. eexists. split; [done|]. split; [|done]. split; [done| |].
  - apply binding_spec. simpl. rewrite !dom_empty_L. split; [done|].
    do 3 (split; [by intros k ?%not_elem_of_empty|]). by intros k e He.
  - split; [done|]. split; apply map_Forall_empty.
Qed.

Lemma life_completion p lg : life_frame p lg ->
  exists c, reasoning_completion_v2 (LifeSnapshot (life_snapshot p)) lg = Ok c
    /\ (complete c = true <-> forall t, ~ open_target (LifePack p) lg t).
Proof.
  intros [Hp Hb _]. pose proof (life_resolves p Hp) as Hres.
  destruct (completion_total _ lg _ Hres Hb) as [c Hc]. exists c. split; [done|].
  by destruct (completion_open _ _ _ _ Hres Hc).
Qed.

Lemma life_sound_frame p lg r :
  life_frame p lg -> sound_result (LifeSnapshot (life_snapshot p)) lg r ->
  life_frame p (ar_ledger r) /\
  (complete (ar_completion r) = true <-> forall t, ~ open_target (LifePack p) (ar_ledger r) t).
Proof.
  intros [Hp Hb _] [_ Hv Hc _]. pose proof (life_resolves p Hp) as Hres.
  split; [|by destruct (completion_open _ _ _ _ Hres Hc)]. split; [done| |done].
  apply completion_Ok in Hc as (p' & Hp' & Hb' & _). rewrite Hres in Hp'. by injection Hp' as <-.
Qed.

(** * Note provenance of one task *)

Record life_notes_ok p lg n : Prop := {
  ln_independent i l : nt_independent n !! i = Some l ->
    i ∈ lp_note_relation_ids (lt_policies p) /\ is_Some (verified_relations lg !! i)
    /\ i ∉ nt_supported n /\ l <> [] /\ NoDup l /\ (forall e, e ∈ l -> e ∈ relation_evidence lg i);
  ln_supported i : i ∈ nt_supported n -> i ∈ lp_note_relation_ids (lt_policies p);
  ln_unique : NoDup (nt_supported n);
  ln_emitted : nt_note_emitted n = bool_decide (is_Some (nt_emitted_note_id n));
  ln_note_id i : nt_emitted_note_id n = Some i -> id_field 100 i = true;
  ln_policy : nt_note_emitted n = true -> lp_note_policy (lt_policies p) <> note_none
}.

Lemma note_policy_facts p : life_task_validate p = Ok p ->
  length (lp_note_relation_ids (lt_policies p)) <= 10 /\
  (forall i, i ∈ lp_note_relation_ids (lt_policies p) ->
     content_id 120 i = true /\ i ∈ map lr_relation_id (lg_relations (lt_reasoning_graph p))).
Proof.
  unfold life_task_validate, life_policies_validate, life_graph_validate, validate_task, life_help_refs_ok.
  intros Hv. ok_split. breflect. ok_split.
  match goal with H : list_field 0 10 _ = true |- _ => apply list_field_spec in H end.
  split; [lia|]. intros i Hi.
  assert (Hr : i ∈ map lr_relation_id (lg_relations (lt_reasoning_graph p))) by auto.
  split; [|done]. apply list_elem_of_fmap in Hr as (r & -> & Hr%list_elem_of_In).
  apply life_relation_id_ok. match goal with H : forallb life_relation_fields _ = true |- _ =>
    rewrite forallb_forall in H; by apply H end.
Qed.

Lemma fromkeys_le {A} `{EqDecision A} (l : list A) : length (fromkeys l) <= length l.
Proof.
  induction l as [|x l IH]; simpl; [done|].
  pose proof (filter_le (fun y => y <> x) (fromkeys l)). lia.
Qed.

Lemma incl_size {B} (m : gmap string B) (l : list string) :
  (forall i, is_Some (m !! i) -> i ∈ l) -> size m <= length l.
Proof.
  intros Hi. etrans; [|apply fromkeys_le]. apply size_le_ids; [apply NoDup_fromkeys|].
  intros k Hk%elem_of_dom. by apply elem_of_fromkeys, Hi.
Qed.

Lemma relation_evidence_ids lg i e : ledger_valid lg -> e ∈ relation_evidence lg i -> sha256_pattern e = true.
Proof.
  intros [_ [_ Hw _ _]]. unfold relation_evidence. destruct (verified_relations lg !! i) as [en|] eqn:E;
    [|by intros ?%not_elem_of_nil]. intros (x & -> & Hx)%list_elem_of_fmap.
  destruct (Hw i en E) as (_ & _ & _ & _ & Hall). rewrite Forall_forall in Hall. specialize (Hall x Hx).
  destruct x as [q v|q]; simpl.
  - destruct Hall as [Hq _]. unfold evidence_pointer in Hq. res_inv. by breflect; ok_split.
  - destruct Hall as [Hq _]. unfold structured_evidence in Hq. res_inv. by breflect; ok_split.
Qed.

(** The notes the engine keeps pass the constructor of the stored record. *)
Lemma notes_storable p lg n : life_frame p lg -> life_notes_ok p lg n -> task_note_state n = Ok n.
Proof.
  intros [Hp _ Hl] [Hi Hs Hu He Hid _]. destruct (note_policy_facts p Hp) as [Hlen Hrel].
  assert (Hkeys : forall kv, kv ∈ map_to_list (nt_independent n) -> nt_independent n !! kv.1 = Some kv.2).
  { intros [k v] Hkv%elem_of_map_to_list. done. }
  unfold task_note_state. rewrite !bind_check_Ok. split; [|split; [|split; [|split; [|split; [|done]]]]].
  - rewrite !andb_true_iff, !forallb_forall. split; [split; [split; [split; [split|]|]|]|].
    + apply bool_decide_eq_true. transitivity 10; [|lia]. etrans; [|exact Hlen].
      apply incl_size. intros i [l Hil]. by destruct (Hi i l Hil).
    + intros i (kv & -> & Hkv)%list_elem_of_In%list_elem_of_fmap. apply Hrel.
      by destruct (Hi _ _ (Hkeys kv Hkv)).
    + intros l (kv & -> & Hkv)%list_elem_of_In%list_elem_of_fmap. rewrite forallb_forall.
      intros e He'%list_elem_of_In. destruct (Hi _ _ (Hkeys kv Hkv)) as (_ & _ & _ & _ & _ & Hev).
      by eapply relation_evidence_ids, Hev.
    + apply list_field_spec. split; [lia|]. transitivity 10; [|lia]. etrans; [|exact Hlen].
      rewrite <- (fromkeys_id (nt_supported n)) by done.
      etrans; [|apply (fromkeys_le (lp_note_relation_ids (lt_policies p)))].
      apply submseteq_length, NoDup_submseteq; [apply NoDup_fromkeys|].
      intros x Hx%elem_of_fromkeys%Hs. by apply elem_of_fromkeys.
    + intros i Hx%list_elem_of_In%Hs. by apply Hrel.
    + destruct (nt_emitted_note_id n); [by apply Hid|done].
  - by apply uniqueb_spec.
  - rewrite forallb_forall. intros i Hin%list_elem_of_In. apply negb_true_iff, bool_decide_eq_false.
    intros [l Hl']. by destruct (Hi i l Hl') as (_ & _ & ? & _).
  - rewrite forallb_forall. intros l (kv & -> & Hkv)%list_elem_of_In%list_elem_of_fmap.
    destruct (Hi _ _ (Hkeys kv Hkv)) as (_ & _ & _ & Hne & Hnd & _).
    rewrite (proj2 (uniqueb_spec _) Hnd). by destruct kv.2.
  - rewrite He. by destruct (bool_decide _).
Qed.

Lemma empty_notes_ok p lg : life_notes_ok p lg empty_note_state.
Proof. split; simpl; try done. - intros i Hi. by apply not_elem_of_nil in Hi. - constructor. Qed.

Lemma relation_evidence_grows lg lg' i e :
  maps_grow (maps_of lg) (maps_of lg') -> e ∈ relation_evidence lg i -> e ∈ relation_evidence lg' i.
Proof.
  intros Hg. unfold relation_evidence. destruct (verified_relations lg !! i) as [en|] eqn:E;
    [|by intros ?%not_elem_of_nil]. destruct (mg_relations _ _ Hg i en E) as (en' & Hen & _ & Hpre).
  simpl in Hen. rewrite Hen. intros (x & -> & Hx)%list_elem_of_fmap. apply list_elem_of_fmap. exists x. split; [done|].
  destruct Hpre as [k ->]. apply elem_of_app. by left.
Qed.

Lemma life_notes_grow p lg lg' n :
  maps_grow (maps_of lg) (maps_of lg') -> life_notes_ok p lg n -> life_notes_ok p lg' n.
Proof.
  intros Hg [Hi Hs Hu He Hid Hp]. split; try done. intros i l Hl.
  destruct (Hi i l Hl) as (? & [x Hx] & ? & ? & ? & ?).
  destruct (mg_relations _ _ Hg i x Hx) as (x' & Hx' & _).
  do 1 (split; [done|]). split; [eauto|]. do 3 (split; [done|]). intros e Hin. by eapply relation_evidence_grows; [|auto].
Qed.

(** What one pass over the note relations keeps true. *)
Definition provenance_ok p lg (acc : gmap string (list string) * list string) : Prop :=
  (forall i l, acc.1 !! i = Some l ->
     i ∈ lp_note_relation_ids (lt_policies p) /\ is_Some (verified_relations lg !! i)
     /\ i ∉ acc.2 /\ l <> [] /\ NoDup l /\ (forall e, e ∈ l -> e ∈ relation_evidence lg i)) /\
  (forall i, i ∈ acc.2 -> i ∈ lp_note_relation_ids (lt_policies p)).

Lemma life_note_step_ok p lg direct new_ids acc i :
  i ∈ lp_note_relation_ids (lt_policies p) -> provenance_ok p lg acc ->
  provenance_ok p lg (life_note_step direct lg new_ids acc i).
Proof.
  intros Hi [Hind Hsup]. unfold life_note_step.
  destruct (List.filter _ _) as [|e0 es] eqn:Ef; [done|].
  assert (Hin : forall e, e ∈ e0 :: es -> e ∈ relation_evidence lg i).
  { intros e He. rewrite <- Ef in He. apply list_elem_of_In, filter_In in He as [He _]. by apply list_elem_of_In. }
  assert (Hver : is_Some (verified_relations lg !! i)).
  { unfold relation_evidence in Hin. destruct (verified_relations lg !! i); [eauto|].
    destruct (not_elem_of_nil e0). apply Hin. left. }
  destruct (direct && negb (memb i acc.2)) eqn:Ed.
  - apply andb_true_iff in Ed as [_ Hn%negb_true_iff%memb_false]. split; simpl; [|done].
    intros j l. destruct (decide (i = j)) as [<-|Hne].
    + rewrite lookup_insert_eq. intros [= <-]. do 3 (split; [done|]). split; [done|].
      split; [apply (NoDup_fromkeys (e0 :: es))|]. intros e He. apply Hin. by apply (elem_of_fromkeys (e0 :: es)).
    + rewrite lookup_insert_ne by done. apply Hind.
  - destruct (bool_decide (is_Some (acc.1 !! i))) eqn:Eb; [done|]. apply bool_decide_eq_false in Eb.
    split; simpl.
    + intros j l Hj. destruct (Hind j l Hj) as (? & ? & Hn & ?). do 2 (split; [done|]). split; [|done].
      rewrite elem_of_fromkeys, elem_of_app, list_elem_of_singleton. intros [?| ->]; [done|]. by apply Eb; exists l.
    + intros j. rewrite elem_of_fromkeys, elem_of_app, list_elem_of_singleton. intros [?| ->]; auto.
Qed.

Lemma life_note_steps_ok p lg direct new_ids l acc :
  (forall i, i ∈ l -> i ∈ lp_note_relation_ids (lt_policies p)) -> provenance_ok p lg acc ->
  provenance_ok p lg (fold_left (life_note_step direct lg new_ids) l acc).
Proof.
  revert acc. induction l as [|i l IH]; intros acc Hl Hacc; simpl; [done|].
  apply IH; [intros; apply Hl; by right|]. apply life_note_step_ok; [apply Hl; left|done].
Qed.

Lemma life_next_notes_ok p n t before after :
  life_notes_ok p (ar_ledger (ts_apply_result t)) n ->
  life_notes_ok p (ar_ledger (ts_apply_result t)) (next_note_state n p t before after).
Proof.
  intros [Hi Hs Hu He Hid Hp]. unfold next_note_state.
  set (direct := _ && memb before _). set (new_ids := new_relation_evidence_ids _).
  destruct (life_note_steps_ok p (ar_ledger (ts_apply_result t)) direct new_ids
    (lp_note_relation_ids (lt_policies p)) (nt_independent n, nt_supported n)) as [Hind Hsup];
    [done|by split|].
  set (acc := fold_left _ _ _) in *. clearbody acc.
  split; simpl; try done; [| |apply sorted_set_NoDup].
  - intros i l Hl. destruct (Hind i l Hl) as (? & Hv & Hn & ?). do 2 (split; [done|]). split; [|done].
    rewrite sorted_set_elem. destruct (_ || _); [|done]. rewrite elem_of_app. intros [?|Hin]; [done|].
    apply list_elem_of_In, filter_In in Hin as [_ Hf%negb_true_iff%bool_decide_eq_false]. done.
  - intros i. rewrite sorted_set_elem. destruct (_ || _); [|apply Hsup]. rewrite elem_of_app.
    intros [?|Hin]; [by apply Hsup|]. apply list_elem_of_In, filter_In in Hin as [Hin _]. by apply list_elem_of_In.
Qed.

Lemma mapR_in {A B} (f : A -> res B) l ys x : mapR f l = Ok ys -> x ∈ l -> exists y, y ∈ ys /\ f x = Ok y.
Proof.
  revert ys. induction l as [|z l IH]; intros ys Hm Hx; simpl in Hm; [by apply not_elem_of_nil in Hx|].
  destruct (f z) as [y|] eqn:Ez; [|done]. simpl in Hm. destruct (mapR f l) as [zs|]; [|done]. injection Hm as <-.
  apply elem_of_cons in Hx as [->|Hx]; [exists y; split; [left|done]|].
  destruct (IH zs eq_refl Hx) as (w & Hw & Hf). exists w. split; [by right|done].
Qed.

(** * The tasks of a pinned scenario *)

(** Task [st] of [pr]: its active pack, its ledger and its notes. *)
Record task_at pr st p lg n : Prop := {
  ta_variant : exists v, pr_active_variant_ids pr !! ts_task_id st = Some v /\ variant st v = Some p;
  ta_ledger : pr_reasoning_ledgers pr !! ts_task_id st = Some lg;
  ta_notes : pr_task_note_states pr !! ts_task_id st = Some n;
  ta_frame : life_frame p lg;
  ta_notes_ok : life_notes_ok p lg n
}.

Lemma task_at_unique pr st p lg n p' lg' n' :
  task_at pr st p lg n -> task_at pr st p' lg' n' -> p' = p /\ lg' = lg /\ n' = n.
Proof. intros [(v & Hv & Hp) Hl Hn _ _] [(v' & Hv' & Hp') Hl' Hn' _ _]. naive_solver. Qed.

Definition task_scope (sc : LifeScenarioPackV2) {A} (m : gmap string A) : Prop :=
  forall i, is_Some (m !! i) <-> i ∈ map ts_task_id (sc_task_stages sc).

(** A pinned runtime of scenario [sc] whose every task is sound. *)
Record pinned_ok sc pr : Prop := {
  po_valid : life_scenario_validate sc = Ok sc;
  po_payload : pr_pack_snapshot pr = sc;
  po_identity : (pr_scenario_pack_id pr, pr_content_version pr, pr_source_hash pr)
    = (sc_pack_id sc, sc_content_version sc, life_scenario_hash_v2 sc);
  po_selection : text_field 1 100 (pr_selector_reason pr)
    && match pr_canary_bucket pr with Some b => (0 <=? b)%Z && (b <=? 99)%Z | None => true end = true;
  po_variants : task_scope sc (pr_active_variant_ids pr);
  po_ledgers : task_scope sc (pr_reasoning_ledgers pr);
  po_notes : task_scope sc (pr_task_note_states pr);
  po_tasks st : st ∈ sc_task_stages sc -> exists p lg n, task_at pr st p lg n
}.

Lemma stage_of_task sc t : scenario_contract sc -> t ∈ map ts_task_id (sc_task_stages sc) ->
  exists st, st ∈ sc_task_stages sc /\ ts_task_id st = t /\ stage_by_task_id sc t = Ok st.
Proof.
  intros Hc (st & -> & [i Hi]%list_elem_of_lookup)%list_elem_of_fmap. exists st.
  split; [by eapply list_elem_of_lookup_2|]. split; [done|]. by eapply stage_by_index.
Qed.

Lemma scope_dom sc {A} (m : gmap string A) : task_scope sc m ->
  dom m =@{gset string} list_to_set (map ts_task_id (sc_task_stages sc)).
Proof. intros Hs. apply set_eq. intros i. by rewrite elem_of_dom, elem_of_list_to_set. Qed.

Lemma task_scope_valid sc pr st : pinned_ok sc pr -> st ∈ sc_task_stages sc ->
  forall v, pr_active_variant_ids pr !! ts_task_id st = Some v ->
  validate_task_scope pr sc (ts_task_id st) v = Ok tt.
Proof.
  intros Hok Hst v Hv. pose proof (scenario_validated _ (po_valid _ _ Hok)) as Hc.
  destruct (po_tasks _ _ Hok st Hst) as (p & lg & n & [(v' & Hv' & Hp) Hl Hn Hf Hno]).
  rewrite Hv in Hv'. injection Hv' as <-. unfold validate_task_scope.
  destruct (stage_of_task sc (ts_task_id st) Hc) as (st' & _ & _ & Hs); [by apply list_elem_of_fmap_2|].
  apply list_elem_of_lookup in Hst as [i Hi]. rewrite (stage_by_index _ _ _ Hc Hi) in Hs |- *. injection Hs as <-.
  cbn [mbind res_bind]. rewrite Hp, Hl, Hn. cbn [or_raise mbind res_bind].
  rewrite (life_frame_bound _ _ Hf). cbn [negb raise_if mbind res_bind].
  destruct Hno as [Hind Hsup _ _ _ Hpol]. destruct (note_policy_facts p (lf_task _ _ Hf)) as [_ Hrel].
  rewrite (proj2 (subsetb_spec (map fst (map_to_list (nt_independent n)) ++ nt_supported n) _)).
  2:{ intros x [(kv & -> & Hkv)%list_elem_of_fmap|Hx]%elem_of_app; [|by apply Hsup].
      destruct kv as [k l]. apply elem_of_map_to_list in Hkv. by destruct (Hind k l Hkv). }
  cbn [negb raise_if mbind res_bind].
  rewrite (proj2 (subsetb_spec (lp_note_relation_ids (lt_policies p)) _)) by (intros x Hx; by apply Hrel).
  cbn [negb raise_if mbind res_bind]. destruct (nt_note_emitted n); [|done].
  rewrite bool_decide_eq_false_2; [done|by apply Hpol].
Qed.

(** A sound pinned runtime always resolves, to the scenario it was pinned with. *)
Lemma pinned_resolves sc pr : pinned_ok sc pr -> resolve_life_scenario_runtime_v3 pr = Ok sc.
Proof.
  intros Hok. pose proof Hok as [Hv Hpay Hid _ Hvs _ _ _]. unfold resolve_life_scenario_runtime_v3.
  rewrite Hpay, Hv. cbn [mbind res_bind]. injection Hid as -> -> ->.
  rewrite !bool_decide_eq_true_2, Z.eqb_refl by done. cbn [negb orb raise_if mbind res_bind].
  unfold validate_task_state. rewrite bool_decide_eq_true_2 by (by apply scope_dom).
  cbn [negb raise_if mbind res_bind]. rewrite each_total; [done|].
  intros [t v] Hkv%elem_of_map_to_list. simpl.
  assert (t ∈ map ts_task_id (sc_task_stages sc)) as (st & -> & Hst)%list_elem_of_fmap by (apply Hvs; eauto).
  by apply task_scope_valid.
Qed.

(** The stored record accepts it, where the active variants have the form the
    record asks of variant ids; the scenario's validator does not ask it of every
    variant key. *)
Definition variants_storable sc : Prop :=
  forall st v p, st ∈ sc_task_stages sc -> variant st v = Some p -> opaque_id 100 v = true.

Definition active_storable sc pr : Prop :=
  forall st v, st ∈ sc_task_stages sc -> pr_active_variant_ids pr !! ts_task_id st = Some v ->
  opaque_id 100 v = true.

Lemma storable_active sc pr : pinned_ok sc pr -> variants_storable sc -> active_storable sc pr.
Proof.
  intros Hok Hs st v Hin Hv. destruct (po_tasks _ _ Hok st Hin) as (p & _ & _ & [(v' & Hv' & Hp) _ _ _ _]).
  rewrite Hv in Hv'. injection Hv' as <-. by eapply Hs.
Qed.

Lemma pinned_storable sc pr : pinned_ok sc pr -> active_storable sc pr -> scenario_runtime pr = Ok pr.
Proof.
  intros Hok Hst. pose proof Hok as [Hv _ Hid Hsel Hvs Hls Hns Ht].
  pose proof (scenario_validated _ Hv) as Hc. apply andb_true_iff in Hsel as [Hreason Hbucket].
  assert (Hsize : forall A (m : gmap string A), task_scope sc m -> 1 <= size m <= 4).
  { intros A m Hm. pose proof (sf_count _ Hc) as Hn.
    rewrite <- (size_dom (D := gset string)), (scope_dom sc m Hm), size_list_to_set by apply Hc.
    by rewrite length_map. }
  unfold scenario_runtime. injection Hid as -> -> ->. rewrite each_total.
  2:{ intros [t n] Hkv%elem_of_map_to_list. simpl.
      assert (t ∈ map ts_task_id (sc_task_stages sc)) as (st & -> & Hin)%list_elem_of_fmap by (apply Hns; eauto).
      destruct (Ht st Hin) as (p & lg & n' & [_ _ Hn Hf Hno]). rewrite Hkv in Hn. injection Hn as <-.
      by rewrite (notes_storable p lg n). }
  cbn [mbind res_bind]. destruct (sf_identity _ Hc) as [-> ->].
  rewrite Hreason, Hbucket. unfold life_scenario_hash_v2. rewrite hexdigest_format.
  rewrite !bool_decide_eq_true_2 by (auto || by rewrite !scope_dom with (sc := sc)).
  rewrite (proj2 (forallb_forall _ _)); [done|]. intros [t v] Hkv%list_elem_of_In%elem_of_map_to_list. simpl.
  assert (t ∈ map ts_task_id (sc_task_stages sc)) as (st & -> & Hin)%list_elem_of_fmap by (apply Hvs; eauto).
  destruct (Ht st Hin) as (p & lg & n' & [(v' & Hv' & Hp) _ _ _ _]). rewrite Hkv in Hv'. injection Hv' as <-.
  by rewrite (sf_ids _ Hc st Hin), (Hst st v).
Qed.

(** [pr'] is [pr] but for task [t]. *)
Record same_elsewhere (t : string) pr pr' : Prop := {
  se_fields : (pr_pack_snapshot pr', pr_scenario_pack_id pr', pr_content_version pr', pr_source_hash pr',
               pr_selector_reason pr', pr_canary_bucket pr')
    = (pr_pack_snapshot pr, pr_scenario_pack_id pr, pr_content_version pr, pr_source_hash pr,
       pr_selector_reason pr, pr_canary_bucket pr);
  se_variants i : i <> t -> pr_active_variant_ids pr' !! i = pr_active_variant_ids pr !! i;
  se_ledgers i : i <> t -> pr_reasoning_ledgers pr' !! i = pr_reasoning_ledgers pr !! i;
  se_notes i : i <> t -> pr_task_note_states pr' !! i = pr_task_note_states pr !! i
}.

Lemma task_at_elsewhere t pr pr' st p lg n :
  same_elsewhere t pr pr' -> ts_task_id st <> t -> task_at pr' st p lg n <-> task_at pr st p lg n.
Proof.
  intros [_ Hv Hl Hn] Ht. specialize (Hv _ Ht). specialize (Hl _ Ht). specialize (Hn _ Ht).
  split; intros [? ? ? ? ?]; split; congruence || done || (by rewrite <- Hv) || (by rewrite Hv).
Qed.

Lemma pinned_update sc pr pr' st p lg n :
  pinned_ok sc pr -> st ∈ sc_task_stages sc -> same_elsewhere (ts_task_id st) pr pr' ->
  task_at pr' st p lg n -> pinned_ok sc pr'.
Proof.
  intros [Hv Hpay Hid Hsel Hvs Hls Hns Ht] Hst Hse Hat. pose proof Hse as [Hf Hv' Hl' Hn'].
  assert (Hscope : forall A (m m' : gmap string A), task_scope sc m -> is_Some (m' !! ts_task_id st) ->
    (forall i, i <> ts_task_id st -> m' !! i = m !! i) -> task_scope sc m').
  { intros A m m' Hm Hs Heq i. destruct (decide (i = ts_task_id st)) as [->|Hne]; [|rewrite Heq by done; apply Hm].
    split; [intros _|done]. by apply list_elem_of_fmap_2. }
  injection Hf as Hf1 Hf2 Hf3 Hf4 Hf5 Hf6. split; [done|congruence|congruence|by rewrite Hf5, Hf6|..].
  - eapply Hscope; [exact Hvs| |done]. destruct (ta_variant _ _ _ _ _ Hat) as (v & -> & _). eauto.
  - eapply Hscope; [exact Hls| |done]. rewrite (ta_ledger _ _ _ _ _ Hat). eauto.
  - eapply Hscope; [exact Hns| |done]. rewrite (ta_notes _ _ _ _ _ Hat). eauto.
  - intros st' Hst'. destruct (decide (ts_task_id st' = ts_task_id st)) as [He|Hne].
    + apply (stage_same sc) in He as ->; try done; [eauto|by apply scenario_validated].
    + destruct (Ht st' Hst') as (p' & lg' & n' & Ha). exists p', lg', n'. by eapply task_at_elsewhere.
Qed.

(** * Pinning *)

Lemma default_keys sc : map fst (rev (map (fun st => (ts_task_id st, ts_default_variant_id st)) (sc_task_stages sc)))
  = rev (map ts_task_id (sc_task_stages sc)).
Proof. by rewrite map_rev, map_map. Qed.

Lemma default_lookup sc st : scenario_contract sc -> st ∈ sc_task_stages sc ->
  default_variants sc !! ts_task_id st = Some (ts_default_variant_id st).
Proof.
  intros Hc Hin. unfold default_variants. apply elem_of_list_to_map.
  - rewrite default_keys. apply NoDup_ListNoDup, List.NoDup_rev, NoDup_ListNoDup, Hc.
  - apply list_elem_of_In. rewrite <- in_rev. apply list_elem_of_In, list_elem_of_fmap. eauto.
Qed.

Lemma default_scope sc : scenario_contract sc -> task_scope sc (default_variants sc).
Proof.
  intros Hc i. split.
  - intros [v Hv]. unfold default_variants in Hv. apply elem_of_list_to_map_2 in Hv.
    apply list_elem_of_In in Hv. rewrite <- in_rev in Hv. apply list_elem_of_In, list_elem_of_fmap in Hv as (st & [= -> ->] & Hst).
    by apply list_elem_of_fmap_2.
  - intros (st & -> & Hst)%list_elem_of_fmap. rewrite default_lookup by done. eauto.
Qed.

Lemma empty_ledgers_total sc : scenario_contract sc ->
  exists ls, empty_ledgers sc (default_variants sc) = Ok ls /\ task_scope sc ls /\
    forall st, st ∈ sc_task_stages sc -> exists p lg, variant st (ts_default_variant_id st) = Some p
      /\ empty_life_task_ledger_v3 p = Ok lg /\ ls !! ts_task_id st = Some lg.
Proof.
  intros Hc. unfold empty_ledgers. set (f := fun kv : string * string => _).
  set (made := fun st y => exists p lg, variant st (ts_default_variant_id st) = Some p
    /\ empty_life_task_ledger_v3 p = Ok lg /\ y = (ts_task_id st, lg)).
  assert (Hkv : forall kv, kv ∈ map_to_list (default_variants sc) ->
    exists st y, st ∈ sc_task_stages sc /\ kv.1 = ts_task_id st /\ f kv = Ok y /\ made st y).
  { intros [t v] Ht%elem_of_map_to_list. pose proof (mk_is_Some _ _ Ht) as Hs.
    apply (default_scope sc Hc) in Hs. apply list_elem_of_fmap in Hs as (st & -> & Hst).
    rewrite default_lookup in Ht by done. injection Ht as <-.
    destruct (sf_default _ Hc st Hst) as [[p Hp] _]. destruct (sf_variant _ Hc st _ p Hst Hp) as [Hv _].
    destruct (empty_life_frame p Hv) as (lg & Hlg & _). exists st, (ts_task_id st, lg).
    do 2 (split; [done|]). split; [|by exists p, lg].
    destruct (proj1 (list_elem_of_lookup _ _) Hst) as [i Hi]. unfold f. simpl.
    rewrite (stage_by_index _ _ _ Hc Hi). cbn [mbind res_bind]. rewrite Hp. cbn [or_raise mbind res_bind].
    by rewrite Hlg. }
  destruct (mapR_total f (map_to_list (default_variants sc))) as [l Hl].
  { intros kv (st & y & _ & _ & -> & _)%Hkv. eauto. }
  rewrite Hl. cbn [mbind res_bind]. eexists. split; [done|].
  assert (Hkeys : map fst l = map fst (map_to_list (default_variants sc))).
  { eapply mapR_proj; [|exact Hl]. intros kv y Hy. unfold f in Hy. by res_inv. }
  assert (Hnd : NoDup (map fst l)) by (rewrite Hkeys; apply NoDup_fst_map_to_list).
  assert (Hlook : forall st, st ∈ sc_task_stages sc -> exists p lg, variant st (ts_default_variant_id st) = Some p
    /\ empty_life_task_ledger_v3 p = Ok lg /\ (list_to_map l : gmap string ReasoningLedgerV2) !! ts_task_id st = Some lg).
  { intros st Hst.
    assert (Hin : (ts_task_id st, ts_default_variant_id st) ∈ map_to_list (default_variants sc))
      by (by apply elem_of_map_to_list, default_lookup).
    apply (mapR_in _ _ _ _ Hl) in Hin as (y & Hy & Hf).
    destruct (Hkv (ts_task_id st, ts_default_variant_id st)) as (st' & y' & Hst' & Ht & Hf' & p & lg & Hp & Hlg & ->);
      [by apply elem_of_map_to_list, default_lookup|].
    simpl in Ht. apply (stage_same sc) in Ht as <-; try done. rewrite Hf in Hf'. injection Hf' as ->.
    exists p, lg. do 2 (split; [done|]). by apply elem_of_list_to_map. }
  split; [|done]. intros i. split.
  - intros [lg Hi%elem_of_list_to_map_2]. apply (default_scope sc Hc).
    apply (list_elem_of_fmap_2 fst) in Hi. simpl in Hi. change (fmap fst l) with (map fst l) in Hi. rewrite Hkeys in Hi.
    apply list_elem_of_fmap in Hi as ([t v] & -> & Hi%elem_of_map_to_list). eauto.
  - intros (st & -> & Hst)%list_elem_of_fmap. destruct (Hlook st Hst) as (_ & lg & _ & _ & ->). eauto.
Qed.

(** The runtime a scenario starts with. *)
Definition start_runtime sc (ls : gmap string ReasoningLedgerV2) (reason : string) (bucket : option Z)
    : PinnedDialogueScenarioRuntimeV3 := {|
  pr_scenario_pack_id := sc_pack_id sc; pr_content_version := sc_content_version sc;
  pr_source_hash := life_scenario_hash_v2 sc; pr_pack_snapshot := sc;
  pr_active_variant_ids := default_variants sc; pr_reasoning_ledgers := ls;
  pr_task_note_states := (fun _ => empty_note_state) <$> default_variants sc;
  pr_selector_reason := reason; pr_canary_bucket := bucket |}.

Definition selection_ok (reason : string) (bucket : option Z) : bool :=
  text_field 1 100 reason && match bucket with Some b => (0 <=? b)%Z && (b <=? 99)%Z | None => true end.

(** Task [st] as it starts: its default variant, an empty ledger, no notes. *)
Definition task_starts pr st : Prop :=
  exists p lg, task_at pr st p lg empty_note_state
    /\ pr_active_variant_ids pr !! ts_task_id st = Some (ts_default_variant_id st)
    /\ empty_life_task_ledger_v3 p = Ok lg.

Lemma start_runtime_ok sc reason bucket :
  life_scenario_validate sc = Ok sc -> selection_ok reason bucket = true ->
  exists ls, empty_ledgers sc (default_variants sc) = Ok ls
    /\ pinned_ok sc (start_runtime sc ls reason bucket)
    /\ active_storable sc (start_runtime sc ls reason bucket)
    /\ forall st, st ∈ sc_task_stages sc -> task_starts (start_runtime sc ls reason bucket) st.
Proof.
  intros Hv Hsel. pose proof (scenario_validated _ Hv) as Hc.
  destruct (empty_ledgers_total sc Hc) as (ls & Hls & Hscope & Hst). exists ls. split; [done|].
  assert (Hstart : forall st, st ∈ sc_task_stages sc -> task_starts (start_runtime sc ls reason bucket) st).
  { intros st Hin. destruct (Hst st Hin) as (p & lg & Hp & Hlg & Hl). exists p, lg.
    destruct (sf_variant _ Hc st _ p Hin Hp) as [Hpv _].
    destruct (empty_life_frame p Hpv) as (lg' & Hlg' & Hf & _). rewrite Hlg in Hlg'. injection Hlg' as <-.
    split; [|split; [by apply default_lookup|done]]. split; simpl; try done.
    - exists (ts_default_variant_id st). by rewrite default_lookup.
    - by rewrite lookup_fmap, default_lookup.
    - apply empty_notes_ok. }
  split; [|split; [|done]].
  - split; try done; [by apply default_scope| |].
    + intros i. simpl. rewrite lookup_fmap, fmap_is_Some. by apply default_scope.
    + intros st Hin. destruct (Hstart st Hin) as (p & lg & Ht & _). eauto.
  - intros st v Hin. simpl. rewrite default_lookup by done. intros [= <-]. by apply (sf_default _ Hc).
Qed.

Lemma pin_Ok sc vs ls ns reason bucket pr :
  pin_life_scenario_runtime_v3 sc vs ls ns reason bucket = Ok pr ->
  life_scenario_validate sc = Ok sc /\ selection_ok reason bucket = true.
Proof.
  unfold pin_life_scenario_runtime_v3. intros Hp. res_inv.
  match goal with H : scenario_runtime _ = Ok _ |- _ => unfold scenario_runtime in H; ok_split end.
  match goal with H : resolve_life_scenario_runtime_v3 _ = Ok _ |- _ =>
    unfold resolve_life_scenario_runtime_v3 in H end.
  cbn [pr_pack_snapshot pr_selector_reason pr_canary_bucket] in *.
  destruct (life_scenario_validate sc) as [sc'|] eqn:Esc; [|done].
  split; [by pose proof (scenario_validate_id _ _ Esc) as ->|]. unfold selection_ok.
  breflect. ok_split. by split.
Qed.

Lemma pin_start sc reason bucket ls vs l ns :
  life_scenario_validate sc = Ok sc -> selection_ok reason bucket = true ->
  empty_ledgers sc (default_variants sc) = Ok ls ->
  default (default_variants sc) vs = default_variants sc -> default ls l = ls ->
  default ((fun _ => empty_note_state) <$> default_variants sc) ns
    = (fun _ => empty_note_state) <$> default_variants sc ->
  pin_life_scenario_runtime_v3 sc vs l ns reason bucket = Ok (start_runtime sc ls reason bucket).
Proof.
  intros Hv Hsel Hls Hvs Hl Hns. pose proof (scenario_validated _ Hv) as Hc.
  destruct (start_runtime_ok sc reason bucket Hv Hsel) as (ls' & Hls' & Hok & Hst & _).
  rewrite Hls in Hls'. injection Hls' as <-. unfold pin_life_scenario_runtime_v3.
  set (selected := match vs with Some _ => _ | None => _ end).
  assert (selected = default_variants sc) as ->.
  { subst selected. destruct vs as [v|]; [|done]. simpl in Hvs. subst v. by case_bool_decide. }
  rewrite bool_decide_eq_true_2 by (by apply scope_dom, default_scope). cbn [negb raise_if mbind res_bind].
  assert ((match l with Some l => Ok l | None => empty_ledgers sc (default_variants sc) end) = Ok ls) as ->.
  { destruct l as [l|]; [|done]. by rewrite <- Hl. }
  cbn [mbind res_bind].
  assert ((match ns with Some n => n | None => (fun _ => empty_note_state) <$> default_variants sc end)
    = (fun _ => empty_note_state) <$> default_variants sc) as -> by (by destruct ns).
  fold (start_runtime sc ls reason bucket). rewrite (pinned_storable sc _ Hok Hst). cbn [mbind res_bind].
  by rewrite (pinned_resolves sc _ Hok).
Qed.

(** (C11) A reviewed life scenario survives pinning: every scenario the validators
    accept can be pinned into a conversation; the stored record accepts the pinned
    runtime, resolving it gives back exactly the scenario, and each task starts
    from its default variant with an empty ledger bound to that variant and no
    note. *)
Theorem pinned_scenario_roundtrip sc reason bucket :
  life_scenario_validate sc = Ok sc -> selection_ok reason bucket = true ->
  exists pr, pin_life_scenario_runtime_v3 sc None None None reason bucket = Ok pr
    /\ scenario_runtime pr = Ok pr /\ resolve_life_scenario_runtime_v3 pr = Ok sc
    /\ forall st, st ∈ sc_task_stages sc -> task_starts pr st.
Proof.
  intros Hv Hsel. destruct (start_runtime_ok sc reason bucket Hv Hsel) as (ls & Hls & Hok & Hst & Hstart).
  exists (start_runtime sc ls reason bucket). split; [by apply pin_start|].
  split; [by apply (pinned_storable sc)|]. split; [by apply pinned_resolves|done].
Qed.
End frames.
