(* ===== verification/LifeSteps.v ===== *)
(** What each step of the life engine does to a conversation whose pinned scenario
    is sound: applying a turn, completing a task, emitting its note, asking. *)

From S2P Require Import Prelude.
From S2P Require Import PyStr.
From S2P Require Import PyNum.
From S2P Require Import Json.
From S2P Require Import Schemas.
From S2P Require Import Requests.
From S2P Require Import Evidence.
From S2P Require Import EvidenceTheory.
From S2P Require Import Packs.
From S2P Require Import PackDump.
From S2P Require Import Snapshot.
From S2P Require Import Ledger.
From S2P Require Import LedgerTheory.
From S2P Require Import LedgerProgress.
From S2P Require Import ContentChecks.
From S2P Require Import LifeChecks.
From S2P Require Import ContentTheory.
From S2P Require Import HomeContract.
From S2P Require Import State.
From S2P Require Import Ladder.
From S2P Require Import LadderTheory.
From S2P Require Import Understand.
From S2P Require Import UnderstandTheory.
From S2P Require Import Question.
From S2P Require Import QuestionTheory.
From S2P Require Import Respond.
From S2P Require Import Gate.
From S2P Require Import NoteTheory.
From S2P Require Import SpeakerText.
From S2P Require Import SpeakerPlan.
From S2P Require Import Reply.
From S2P Require Import Speak.
From S2P Require Import Turn.
From S2P Require Import TurnTheory.
From S2P Require Import TurnTotal.
From S2P Require Import LifeScenario.
From S2P Require Import LifeEngine.
From S2P Require Import LifeTheory.

Section steps.
Context `{!Digest} `{!DigestFormat} `{!Nfc} `{!SpeechPort}.
Implicit Types (s : LifeState) (p : LifeTaskPackV2) (lg : ReasoningLedgerV2) (t : TurnSemantics)
  (st : LifeTaskStageV2) (pr : PinnedDialogueScenarioRuntimeV3) (n : PinnedDialogueTaskNoteStateV3).

(** What no step changes. *)
Definition life_identity s :=
  (ls_scene s, ls_scenario_id s, runtime_contract_version (ls_base s), task_ids (ls_base s),
   state_version (ls_base s)).

Lemma resolve_scenario_spec sc s pr x : ls_pinned s = Some pr -> pinned_ok sc pr ->
  resolve_scenario s = Ok x <->
  x = (sc, pr) /\ ls_scene s = sc_scene sc /\ ls_scenario_id s = sc_scenario_id sc
  /\ task_ids (ls_base s) = map ts_task_id (sc_task_stages sc).
Proof.
  intros Hpr Hok. unfold resolve_scenario. rewrite Hpr. cbn [or_raise mbind res_bind].
  rewrite (pinned_resolves _ _ Hok). cbn [mbind res_bind].
  rewrite !bind_raise_if_Ok, !negb_false_iff, andb_true_iff, !bool_decide_eq_true. naive_solver.
Qed.

(** * Applying a turn *)

Definition set_task pr (i : string) lg n : PinnedDialogueScenarioRuntimeV3 :=
  with_note_states (with_ledgers pr (pr_active_variant_ids pr) (<[i := lg]> (pr_reasoning_ledgers pr)))
    (<[i := n]> (pr_task_note_states pr)).

Definition tracked n p t (before after : HintLevel) : PinnedDialogueTaskNoteStateV3 :=
  if bool_decide (lp_note_policy (lt_policies p) = note_none) then n else next_note_state n p t before after.

Lemma tracked_ok p n t before after lg :
  maps_grow (maps_of lg) (maps_of (ar_ledger (ts_apply_result t))) -> life_notes_ok p lg n ->
  life_notes_ok p (ar_ledger (ts_apply_result t)) (tracked n p t before after).
Proof.
  intros Hg Hn. assert (Hn' := life_notes_grow _ _ _ _ Hg Hn). unfold tracked.
  destruct (bool_decide _); [done|]. by apply life_next_notes_ok.
Qed.

Lemma tracked_emitted n p t before after :
  nt_note_emitted (tracked n p t before after) = nt_note_emitted n.
Proof. unfold tracked. by destruct (bool_decide _). Qed.

(** The state after applying [t] to [s], before speech. *)
Record life_applied s p t (i : string) pr n (next : LifeState) : Prop := {
  la_pinned : ls_pinned next = Some (set_task pr i (ar_ledger (ts_apply_result t))
    (tracked n p t (hint_level (ladder (ls_base s))) (hint_level (next_ladder (ls_base s) t))));
  la_identity : (life_identity next, task_index (ls_base next))
    = (ls_scene s, ls_scenario_id s, runtime_contract_version (ls_base s), task_ids (ls_base s),
       (state_version (ls_base s) + 1)%Z, task_index (ls_base s));
  la_ladder : ladder (ls_base next) = next_ladder (ls_base s) t;
  la_outcome : exists v, outcome (ls_base next) = with_verified_slots (outcome (ls_base s)) v
}.

Lemma apply_life_Ok s p t i pr n next :
  ls_pinned s = Some pr -> current_task_id (ls_base s) = Ok i -> lt_task_id p = i ->
  pr_task_note_states pr !! i = Some n ->
  apply_life s (with_base s (with_turn (ls_base s) (state_version (ls_base s) + 1) None)) p t = Ok next ->
  life_applied s p t i pr n next.
Proof.
  intros Hpr Hcur Hid Hn. unfold apply_life.
  destruct (life_ladder_policy _ t) as [s1|] eqn:E1; [|done]. cbn [mbind res_bind].
  assert (Hs1 : ls_pinned s1 = Some pr /\ ls_base s1 = with_ladder (with_turn (ls_base s)
    (state_version (ls_base s) + 1) None) (next_ladder (ls_base s) t)
    /\ (ls_scene s1, ls_scenario_id s1) = (ls_scene s, ls_scenario_id s)).
  { unfold life_ladder_policy in E1. destruct (ts_visual_patch t); [|by injection E1 as <-].
    simpl in E1. unfold current_task_id in *. simpl in E1. rewrite Hcur in E1. by injection E1 as <-. }
  destruct Hs1 as (Hp1 & Hb1 & Hsc1). unfold store_life_ledger. rewrite Hp1. cbn [or_raise mbind res_bind].
  assert (Hc1 : current_task_id (ls_base s1) = Ok i) by (by rewrite Hb1). rewrite Hc1. cbn [mbind res_bind].
  destruct (life_slots p _) as [v|]; [|done]. cbn [mbind res_bind]. unfold track_life_notes. simpl.
  rewrite Hid, Hb1. simpl. intros Ht. injection Hsc1 as Hsc Hsi.
  destruct (bool_decide (lp_note_policy (lt_policies p) = note_none)) eqn:Ep.
  - injection Ht as <-. split; unfold life_identity; simpl; rewrite ?Hb1, ?Hsc, ?Hsi; simpl; [|done|done|by eexists].
    unfold set_task, tracked. rewrite Ep. f_equal. unfold with_note_states, with_ledgers. simpl.
    by rewrite (insert_id (pr_task_note_states pr)).
  - rewrite Hn in Ht. cbn [or_raise mbind res_bind] in Ht. injection Ht as <-.
    split; unfold life_identity; simpl; rewrite ?Hb1, ?Hsc, ?Hsi; simpl; [|done|done|by eexists].
    unfold set_task, tracked. by rewrite Ep.
Qed.

(** * The note of a task *)

Definition emitted n (id : string) : PinnedDialogueTaskNoteStateV3 := {|
  nt_independent := nt_independent n; nt_supported := nt_supported n;
  nt_joint_performance_used := nt_joint_performance_used n;
  nt_note_emitted := true; nt_emitted_note_id := Some id |}.

Definition emit pr (i : string) n (id : string) : PinnedDialogueScenarioRuntimeV3 :=
  with_note_states pr (<[i := emitted n id]> (pr_task_note_states pr)).

(** A note is owed once the task's note relations are verified. *)
Definition note_due p lg n : bool :=
  negb (bool_decide (lp_note_policy (lt_policies p) = note_none)) && notes_verified (LifePack p) lg
  && negb (nt_note_emitted n).

(** The child is credited alone. *)
Definition credited_alone p n : bool :=
  forallb (fun i => bool_decide (is_Some (nt_independent n !! i))) (lp_note_relation_ids (lt_policies p))
  && negb (nt_joint_performance_used n).

Definition life_attribution p n : NoteAttribution := if credited_alone p n then NA_CHILD else NA_COAUTHORED.

(** The pinned runtime and the note once task [p] is over. *)
Definition after_note (over : bool) p lg n pr (id : string) : PinnedDialogueScenarioRuntimeV3 :=
  if over && note_due p lg n then emit pr (lt_task_id p) n id else pr.
Definition note_shown (over : bool) p lg n (id : string) (u : option NoteUpdate) : Prop :=
  if over && note_due p lg n
  then exists nu, u = Some nu /\ nu_note_id nu = id /\ nu_attribution nu = life_attribution p n
  else u = None.

Lemma with_scenario_same s pr : ls_pinned s = Some pr -> with_scenario s pr = s.
Proof. destruct s; simpl. by intros ->. Qed.

Lemma life_note_Ok (over : bool) s p lg n pr id out :
  ls_pinned s = Some pr -> pr_task_note_states pr !! lt_task_id p = Some n ->
  (if over then life_note_update s p lg id else Ok (s, None)) = Ok out ->
  out.1 = with_scenario s (after_note over p lg n pr id) /\ note_shown over p lg n id out.2.
Proof.
  intros Hpr Hn. unfold after_note, note_shown.
  destruct over; cbn [andb]; [|intros [= <-]; split; [by rewrite with_scenario_same|done]].
  unfold life_note_update, note_due. rewrite Hpr.
  destruct (bool_decide (_ = note_none)); cbn [negb andb]; [intros [= <-]; split; [by rewrite with_scenario_same|done]|].
  destruct (notes_verified _ _); cbn [negb andb]; [|intros [= <-]; split; [by rewrite with_scenario_same|done]].
  cbn [or_raise mbind res_bind]. rewrite Hn. cbn [or_raise mbind res_bind].
  destruct (nt_note_emitted n); cbn [negb]; [intros [= <-]; split; [by rewrite with_scenario_same|done]|].
  intros Hu. res_inv. split; [done|]. eexists. split; [done|]. by split.
Qed.

(** * The question and the turn *)

Lemma life_question_shows s p lg s' q :
  life_question_contract s p lg = Ok (s', q) ->
  (exists j, s' = with_base s (shown_state (ls_base s) j))
  /\ (ss_status (outcome (ls_base s)) = COMPLETED -> qc_input q = no_input).
Proof.
  unfold life_question_contract, shown_state, shown_ladder. destruct (decide (_ = COMPLETED)) as [Hc|Hc].
  { intros [= <- <-]. split; [|done]. exists (subgoal_id (ls_base s)).
    rewrite with_ladder_id, with_subgoal_id. by destruct s. }
  intros Hq. split; [|done]. res_inv. destruct (expression_level (ladder (ls_base s))) eqn:El; res_inv;
    rewrite ?decide_False by congruence; rewrite ?decide_True by congruence;
    eexists; by rewrite ?with_ladder_id.
Qed.

(** What the turn shows once the task [p] was worked on. *)
Record life_built (ids : FreshIds) s p lg n pr (over : bool) s' (turn : TurnContract) : Prop := {
  lb_pinned : ls_pinned s' = Some (after_note over p lg n pr (fresh_note_id ids));
  lb_identity : life_identity s' = life_identity s;
  lb_base : exists j, ls_base s' = shown_state (ls_base s) j;
  lb_id : tc_turn_id turn = fresh_turn_id ids;
  lb_status : tc_status turn = ss_status (outcome (ls_base s));
  lb_index : tc_task_index turn = task_index (ls_base s);
  lb_note : note_shown over p lg n (fresh_note_id ids) (tc_note_update turn);
  lb_input : ss_status (outcome (ls_base s)) = COMPLETED -> tc_input turn = no_input;
  lb_completion : match ss_status (outcome (ls_base s)), completion_outcome (outcome (ls_base s)) with
    | COMPLETED, Some o => exists d, life_completion_facts s' = Ok d /\
        tc_completion turn = Some {| cc_outcome := o;
          cc_teach_reward_eligible := teach_reward_eligible (outcome (ls_base s));
          cc_stage_completion_eligible := true; cc_verified_facts := d |}
    | _, _ => tc_completion turn = None
    end
}.

Definition task_over s p : bool :=
  match current_task_id (ls_base s) with
  | Ok i => negb (bool_decide (i = lt_task_id p)) | Raise _ => false end
  || bool_decide (ss_status (outcome (ls_base s)) = COMPLETED).

Lemma build_life_Ok ids s p lg text mood pr n s' turn :
  ls_pinned s = Some pr -> pr_task_note_states pr !! lt_task_id p = Some n ->
  build_life_turn ids s p lg text mood = Ok (s', turn) ->
  life_built ids s p lg n pr (task_over s p) s' turn.
Proof.
  intros Hpr Hn. unfold build_life_turn, task_over.
  destruct (current_task_id (ls_base s)) as [i|]; [|done]. cbn [mbind res_bind].
  set (over := negb _ || _). destruct (if over then _ else _) as [noted|] eqn:En; [|done]. cbn [mbind res_bind].
  apply (life_note_Ok _ _ _ _ n pr) in En as [Hs1 Hu]; [|done|done].
  set (s1 := with_scenario s _) in Hs1.
  match goal with |- (shown ← ?e; _) = Ok _ -> _ => destruct e as [[[s2 p2] lg2]|] eqn:Es; [|done] end.
  cbn [mbind res_bind].
  assert (Hs2 : s2 = s1 \/ s2 = with_transition s1 None).
  { rewrite Hs1 in Es. destruct (negb (bool_decide (i = lt_task_id p))); [|injection Es as <- _ _; by left].
    destruct (resolve_life_state s1); [|done]. cbn [mbind res_bind] in Es. injection Es as <- _ _. by right. }
  assert (Hb2 : ls_base s2 = ls_base s /\ ls_pinned s2 = ls_pinned s1 /\ life_identity s2 = life_identity s)
    by (destruct Hs2 as [->| ->]; done).
  destruct Hb2 as (Hb2 & Hp2 & Hi2). clear Hs2 Es.
  destruct (life_question_contract s2 p2 lg2) as [[s3 q]|] eqn:Eq; [|done]. cbn [mbind res_bind fst snd].
  apply life_question_shows in Eq as [[j ->] Hin]. intros Ht. rewrite Hb2 in *. simpl in Ht.
  destruct (ss_status (outcome (ls_base s))) eqn:Est; [|destruct (completion_outcome (outcome (ls_base s))) eqn:Eo].
  all: assert (Hid : True -> life_identity (with_base s2 (shown_state (ls_base s) j)) = life_identity s)
    by (intros _; unfold life_identity in *; simpl; congruence); clear Hi2.
  all: res_inv; split; simpl; rewrite ?Est, ?Eo, ?Hp2; try done; try (by eexists); try (by intros; apply Hin);
    try (by apply Hid).
Qed.

(** * Completing a task *)

Definition activate pr (i v : string) lg : PinnedDialogueScenarioRuntimeV3 :=
  with_ledgers pr (<[i := v]> (pr_active_variant_ids pr)) (<[i := lg]> (pr_reasoning_ledgers pr)).

(** How a scenario ends. *)
Definition scenario_ended (o : outcome_state) : Prop :=
  let result := if all_tasks_direct o && negb (joint_performance_used o) then TAUGHT else SUPPORTED in
  ss_status o = COMPLETED /\ completion_outcome o = Some result
  /\ teach_reward_eligible o = bool_decide (result = TAUGHT).

(** The state at the entry of the next task [st], over the pinned runtime [pr]. *)
Record task_entered s pr st (done_ : LifeState) : Prop := {
  te_selected : exists v p lg, next_variant pr st = Ok v /\ variant st v = Some p
    /\ empty_life_task_ledger_v3 p = Ok lg /\ ls_pinned done_ = Some (activate pr (ts_task_id st) v lg)
    /\ ladder (ls_base done_) = entry_ladder p;
  te_index : task_index (ls_base done_) = S (task_index (ls_base s));
  te_open : ss_status (outcome (ls_base done_)) = ACTIVE
    /\ completion_outcome (outcome (ls_base done_)) = completion_outcome (outcome (ls_base s))
    /\ teach_reward_eligible (outcome (ls_base done_)) = teach_reward_eligible (outcome (ls_base s))
}.

Record task_completed sc s p t n pr (done_ : LifeState) : Prop := {
  tc_identity : life_identity done_ = life_identity s;
  tc_direct : all_tasks_direct (outcome (ls_base done_))
    = all_tasks_direct (outcome (ls_base s)) && task_direct n p t
      && negb (bool_decide (ts_understanding_source t = US_structured_joint));
  tc_joint : joint_performance_used (outcome (ls_base done_))
    = joint_performance_used (outcome (ls_base s))
      || bool_decide (ts_understanding_source t = US_structured_joint);
  tc_next : match sc_task_stages sc !! S (task_index (ls_base s)) with
    | Some st => task_entered s pr st done_
    | None => ls_pinned done_ = Some pr /\ ladder (ls_base done_) = ladder (ls_base s)
        /\ task_index (ls_base done_) = task_index (ls_base s) /\ scenario_ended (outcome (ls_base done_))
    end
}.

Lemma drop_lookup {A} (l : list A) k : drop k l = match l !! k with Some x => x :: drop (S k) l | None => [] end.
Proof.
  destruct (l !! k) as [x|] eqn:E; [by apply drop_S|]. by apply drop_ge, lookup_ge_None.
Qed.

Lemma complete_life_Ok sc s p t n pr done_ :
  ls_pinned s = Some pr -> pinned_ok sc pr -> task_ids (ls_base s) = map ts_task_id (sc_task_stages sc) ->
  pr_task_note_states pr !! lt_task_id p = Some n ->
  complete_life s p t = Ok done_ -> task_completed sc s p t n pr done_.
Proof.
  intros Hpr Hok Hids Hn. unfold complete_life.
  destruct (resolve_scenario s) as [x|] eqn:Ex; [|done]. cbn [mbind res_bind].
  apply (resolve_scenario_spec sc s pr) in Ex as (-> & _); [|done|done].
  rewrite Hn. cbn [or_raise mbind res_bind]. rewrite drop_lookup. simpl. rewrite Hids.
  change (map ts_task_id (sc_task_stages sc)) with (ts_task_id <$> sc_task_stages sc). rewrite list_lookup_fmap.
  destruct (sc_task_stages sc !! S (task_index (ls_base s))) as [st|] eqn:Est; cbn [fmap option_fmap option_map].
  - pose proof (scenario_validated _ (po_valid _ _ Hok)) as Hc.
    rewrite (stage_by_index _ _ _ Hc Est). cbn [mbind res_bind].
    destruct (next_variant pr st) as [v|] eqn:Ev; [|done]. cbn [mbind res_bind].
    destruct (variant st v) as [p2|] eqn:Ep; [|done]. cbn [or_raise mbind res_bind].
    destruct (empty_life_task_ledger_v3 p2) as [lg2|] eqn:El; [|done]. cbn [mbind res_bind].
    intros [= <-]. split; try done. rewrite Est. split; try done. by exists v, p2, lg2.
  - intros [= <-]. split; try done. rewrite Est. unfold scenario_ended. by repeat split.
Qed.

(** * Interpreting a response *)

Lemma life_choice_sound s p snap lg resp t :
  ledger_valid lg -> life_choice_semantics s p snap lg resp = Ok t ->
  sound_result (LifeSnapshot snap) lg (ts_apply_result t)
  /\ ts_understanding_source t = US_structured_choice.
Proof.
  intros Hl Ht. unfold life_choice_semantics in Ht. res_inv. split; [|done]. simpl.
  case_match; [by eapply structured_sound|by eapply unchanged_sound].
Qed.

Lemma interpret_life_sound gw s p snap lg resp pq recent t :
  ledger_valid lg -> interpret_life gw s p snap lg resp pq recent = Ok t ->
  sound_result (LifeSnapshot snap) lg (ts_apply_result t).
Proof.
  intros Hl Hi. unfold interpret_life in Hi. destruct (cr_type resp); try done.
  - res_inv. by eapply understand_text_sound.
  - by eapply life_choice_sound.
  - by eapply life_choice_sound.
  - by eapply joint_sound.
  - by eapply no_response_sound.
Qed.

(** Free text is never recorded as a joint action. *)
Definition from_text t : Prop := ts_understanding_source t ∈ [US_sonnet_low; US_deterministic_fallback].

Lemma from_text_failure l snap k reason t : understanding_failure_semantics snap l k reason = Ok t -> from_text t.
Proof. unfold understanding_failure_semantics. intros Ht. res_inv. right. left. Qed.
Lemma from_text_admitted c k t : admitted_understanding_semantics c k = Ok t -> from_text t.
Proof. unfold admitted_understanding_semantics. intros Ht. res_inv. left. Qed.
Lemma from_text_gateway c k reason t : gateway_failure c k reason = Ok t -> from_text t.
Proof. unfold gateway_failure. case_match; [apply from_text_admitted|apply from_text_failure]. Qed.

Lemma from_text_attempt gw c k t c' : understand_attempt gw c k = Ok (Some t, c') -> from_text t.
Proof.
  unfold understand_attempt. destruct (gw (cx_request c)); intros Ht;
    try (res_inv; by eapply from_text_gateway).
  destruct (_ && _); [res_inv; left|]. res_inv. repeat case_match; res_inv.
  - by eapply from_text_failure.
  - by eapply from_text_admitted.
Qed.

Lemma text_source gw l (p : TaskPackV2) snap lg ts resp pq recent t :
  understand_text gw l p snap lg ts resp pq recent = Ok t -> from_text t.
Proof.
  unfold understand_text, run_attempt_graph. intros Ht. res_inv.
  match goal with H : understand_attempt _ _ 1 = Ok ?o |- _ => destruct o as [[t1|] c1]; simpl in * end.
  { res_inv. by eapply from_text_attempt. }
  res_inv. match goal with H : understand_attempt _ _ 2 = Ok ?o |- _ => destruct o as [[t2|] c2]; simpl in * end.
  { res_inv. by eapply from_text_attempt. }
  unfold understanding_exhausted in Ht. case_match; [by eapply from_text_admitted|by eapply from_text_failure].
Qed.

(** A joint turn completes its task. *)
Lemma joint_completes gw s p lg resp pq recent t :
  life_frame p lg -> interpret_life gw s p (life_snapshot p) lg resp pq recent = Ok t ->
  ts_understanding_source t = US_structured_joint -> complete (ar_completion (ts_apply_result t)) = true.
Proof.
  intros Hf Hi Hj. pose proof (interpret_life_sound _ _ _ _ _ _ _ _ _ (lf_valid _ _ Hf) Hi) as Hs.
  destruct (life_sound_frame _ _ _ Hf Hs) as [_ Hc]. apply Hc. clear Hc Hs.
  unfold interpret_life in Hi. destruct (cr_type resp); try done.
  - res_inv. apply text_source in Hi. unfold from_text in Hi. rewrite Hj in Hi.
    by apply elem_of_cons in Hi as [|Hi%list_elem_of_singleton].
  - apply life_choice_sound in Hi as [_ He]; [congruence|apply Hf].
  - apply life_choice_sound in Hi as [_ He]; [congruence|apply Hf].
  - unfold joint_semantics in Hi. res_inv. simpl.
    apply (joint_covers (LifeSnapshot (life_snapshot p)) lg); [by eapply life_frame_contract|].
    eapply structured_progress_Ok; [done|by apply life_resolves, Hf|by eapply life_frame_contract|apply Hf].
  - unfold no_response_semantics in Hi. res_inv. simpl in Hj. unfold no_response_source in Hj. by repeat case_match.
Qed.

(** * Speaking *)

Lemma life_speech_Ok s next p t out :
  life_speech s next p t = Ok out -> exists j, out.1 = with_base next (shown_state (ls_base next) j).
Proof.
  unfold life_speech. destruct (life_question_contract next p _) as [[s1 q]|] eqn:Eq; [|done].
  apply life_question_shows in Eq as [Hs _]. cbn [mbind res_bind fst snd]. intros Ho. by res_inv.
Qed.
End steps.
