(* ===== verification/LifeSessions.v ===== *)
(** Properties of whole life sessions: the invariant of every reachable state, that
    a stored session always passes its own revalidation, what a turn may touch,
    and how tasks and the scenario end. *)

From S2P Require Import Prelude.
From S2P Require Import PyStr.
From S2P Require Import PyNum.
From S2P Require Import Json.
From S2P Require Import Schemas.
From S2P Require Import Requests.
From S2P Require Import Evidence.
From S2P Require Import EvidenceTheory.
From S2P Require Import Packs.
From S2P Require Import PackDump.
From S2P Require Import Snapshot.
From S2P Require Import Ledger.
From S2P Require Import LedgerTheory.
From S2P Require Import LedgerProgress.
From S2P Require Import ContentChecks.
From S2P Require Import LifeChecks.
From S2P Require Import ContentTheory.
From S2P Require Import HomeContract.
From S2P Require Import State.
From S2P Require Import Ladder.
From S2P Require Import LadderTheory.
From S2P Require Import Understand.
From S2P Require Import UnderstandTheory.
From S2P Require Import Question.
From S2P Require Import QuestionTheory.
From S2P Require Import Respond.
From S2P Require Import Gate.
From S2P Require Import NoteTheory.
From S2P Require Import SpeakerText.
From S2P Require Import SpeakerPlan.
From S2P Require Import Reply.
From S2P Require Import Speak.
From S2P Require Import Turn.
From S2P Require Import TurnTheory.
From S2P Require Import TurnTotal.
From S2P Require Import LifeScenario.
From S2P Require Import LifeEngine.
From S2P Require Import LifeTheory.
From S2P Require Import LifeSteps.

Section sessions.
Context `{!Digest} `{!DigestFormat} `{!Nfc} `{!SpeechPort}.
Implicit Types (s : LifeState) (p : LifeTaskPackV2) (lg : ReasoningLedgerV2) (t : TurnSemantics)
  (st : LifeTaskStageV2) (pr : PinnedDialogueScenarioRuntimeV3) (n : PinnedDialogueTaskNoteStateV3)
  (sc : LifeScenarioPackV2).

(** * Updates of one task *)

Lemma task_id_of sc pr st p lg n :
  pinned_ok sc pr -> st ∈ sc_task_stages sc -> task_at pr st p lg n -> lt_task_id p = ts_task_id st.
Proof.
  intros Hok Hst [(v & _ & Hp) _ _ _ _]. by apply (sf_variant _ (scenario_validated _ (po_valid _ _ Hok)) st v).
Qed.

Lemma set_task_elsewhere pr i lg n : same_elsewhere i pr (set_task pr i lg n).
Proof. split; simpl; [done|done|..]; intros j Hj; by rewrite lookup_insert_ne. Qed.

Lemma set_task_at pr st p lg n lg' n' :
  task_at pr st p lg n -> life_frame p lg' -> life_notes_ok p lg' n' ->
  task_at (set_task pr (ts_task_id st) lg' n') st p lg' n'.
Proof. intros [Hv Hl Hn Hf Hno] Hf' Hn'. split; simpl; try done; by rewrite lookup_insert_eq. Qed.

Lemma task_at_before i pr pr' st p lg n :
  same_elsewhere i pr pr' -> ts_task_id st <> i -> task_at pr' st p lg n -> task_at pr st p lg n.
Proof. intros Hs Hne. by apply (task_at_elsewhere _ _ _ _ _ _ _ Hs Hne). Qed.
Lemma task_at_after i pr pr' st p lg n :
  same_elsewhere i pr pr' -> ts_task_id st <> i -> task_at pr st p lg n -> task_at pr' st p lg n.
Proof. intros Hs Hne. by apply (task_at_elsewhere _ _ _ _ _ _ _ Hs Hne). Qed.

Definition noted (over : bool) p lg n (id : string) : PinnedDialogueTaskNoteStateV3 :=
  if over && note_due p lg n then emitted n id else n.

Lemma noted_same over p lg n id :
  (nt_independent (noted over p lg n id), nt_joint_performance_used (noted over p lg n id))
  = (nt_independent n, nt_joint_performance_used n).
Proof. unfold noted. by destruct (_ && _). Qed.

Lemma noted_emitted p lg n id : nt_note_emitted n = false ->
  nt_note_emitted (noted true p lg n id)
  = negb (bool_decide (lp_note_policy (lt_policies p) = note_none)) && notes_verified (LifePack p) lg.
Proof.
  intros He. unfold noted, note_due. rewrite He. cbn [negb andb]. rewrite andb_true_r. by destruct (_ && _).
Qed.

Lemma after_note_elsewhere over p lg n pr id : same_elsewhere (lt_task_id p) pr (after_note over p lg n pr id).
Proof.
  unfold after_note. destruct (over && _); [|by split]. split; simpl; try done.
  intros j Hj. by rewrite lookup_insert_ne.
Qed.

Lemma after_note_at over pr st p lg n id :
  task_at pr st p lg n -> lt_task_id p = ts_task_id st -> id_field 100 id = true ->
  task_at (after_note over p lg n pr id) st p lg (noted over p lg n id).
Proof.
  intros [Hv Hl Hn Hf Hno] Hid Hi. unfold after_note, noted. destruct (over && note_due p lg n) eqn:Ed; [|done].
  split; simpl; try done; [by rewrite Hid, lookup_insert_eq|].
  destruct Hno. split; simpl; try done.
  - by intros i [= <-].
  - intros _. apply andb_true_iff in Ed as [_ Ed]. unfold note_due in Ed.
    destruct (bool_decide (lp_note_policy (lt_policies p) = note_none)) eqn:Eb; [done|].
    by apply bool_decide_eq_false in Eb.
Qed.

Lemma activate_elsewhere pr i v lg : same_elsewhere i pr (activate pr i v lg).
Proof. split; simpl; [done|..]; intros j Hj; by rewrite ?lookup_insert_ne. Qed.

Lemma activate_at pr st p0 lg0 v p lg :
  task_at pr st p0 lg0 empty_note_state -> variant st v = Some p -> life_task_validate p = Ok p ->
  empty_life_task_ledger_v3 p = Ok lg -> task_at (activate pr (ts_task_id st) v lg) st p lg empty_note_state.
Proof.
  intros [_ _ Hn _ _] Hv Hp Hl. destruct (empty_life_frame p Hp) as (lg' & Hl' & Hf & _).
  rewrite Hl in Hl'. injection Hl' as <-. split; simpl; try done; [|by rewrite lookup_insert_eq|].
  - exists v. by rewrite lookup_insert_eq.
  - apply empty_notes_ok.
Qed.

(** * The invariant *)

(** A task's note is wanted once its note relations are verified. *)
Definition note_wanted p lg : bool :=
  negb (bool_decide (lp_note_policy (lt_policies p) = note_none)) && notes_verified (LifePack p) lg.

(** A task that is over: nothing is open, its note was emitted iff wanted, and the
    scenario's outcome fields account for how it was reached. *)
Record task_done (o : outcome_state) p lg n : Prop := {
  td_complete g : ~ open_target (LifePack p) lg g;
  td_note : nt_note_emitted n = note_wanted p lg;
  td_direct : all_tasks_direct o = true -> lp_note_policy (lt_policies p) <> note_none ->
    lp_note_relation_ids (lt_policies p) <> []
    /\ forall i, i ∈ lp_note_relation_ids (lt_policies p) -> is_Some (nt_independent n !! i);
  td_joint : nt_joint_performance_used n = true -> joint_performance_used o = true
}.

Record life_ok sc s (turn : TurnContract) pr st p lg n : Prop := {
  lk_pinned : ls_pinned s = Some pr;
  lk_sound : pinned_ok sc pr;
  lk_identity : (ls_scene s, ls_scenario_id s, runtime_contract_version (ls_base s), task_ids (ls_base s))
    = (sc_scene sc, sc_scenario_id sc, VERDICT_V1, map ts_task_id (sc_task_stages sc));
  lk_stage : sc_task_stages sc !! task_index (ls_base s) = Some st;
  lk_task : task_at pr st p lg n;
  lk_past i st' p' lg' n' : i < task_index (ls_base s) -> sc_task_stages sc !! i = Some st' ->
    task_at pr st' p' lg' n' -> task_done (outcome (ls_base s)) p' lg' n';
  lk_future i st' : task_index (ls_base s) < i -> sc_task_stages sc !! i = Some st' -> task_starts pr st';
  lk_open : ss_status (outcome (ls_base s)) = ACTIVE ->
    (exists g, open_target (LifePack p) lg g)
    /\ (nt_note_emitted n, nt_joint_performance_used n) = (false, false)
    /\ (completion_outcome (outcome (ls_base s)), teach_reward_eligible (outcome (ls_base s))) = (None, false);
  lk_ended : ss_status (outcome (ls_base s)) = COMPLETED ->
    task_done (outcome (ls_base s)) p lg n /\ scenario_ended (outcome (ls_base s))
    /\ sc_task_stages sc !! S (task_index (ls_base s)) = None;
  lk_ladder : ladder_ok (ladder (ls_base s));
  lk_input : ss_status (outcome (ls_base s)) = COMPLETED -> tc_input turn = no_input;
  lk_turn : current_turn_id (ls_base s) = Some (tc_turn_id turn)
}.

(** Resolving a state whose pinned runtime is sound comes down to reloading the
    ledger of the active task. *)
Lemma resolve_active sc s pr st p lg n :
  ls_pinned s = Some pr -> pinned_ok sc pr ->
  (ls_scene s, ls_scenario_id s, runtime_contract_version (ls_base s), task_ids (ls_base s))
    = (sc_scene sc, sc_scenario_id sc, VERDICT_V1, map ts_task_id (sc_task_stages sc)) ->
  sc_task_stages sc !! task_index (ls_base s) = Some st -> task_at pr st p lg n ->
  resolve_life_state s = (_ ← reload_ledger lg; Ok (p, life_snapshot p, lg)).
Proof.
  intros Hpin Hok [= Hsc Hsi Hv Hids] Hst [(v & Hav & Hvp) Hlg _ Hf _].
  pose proof (scenario_validated _ (po_valid _ _ Hok)) as Hc.
  unfold resolve_life_state. rewrite Hv. cbn [bool_decide decide_rel raise_if mbind res_bind].
  rewrite (proj2 (resolve_scenario_spec sc s pr (sc, pr) Hpin Hok)) by done. cbn [mbind res_bind].
  unfold current_task_id. rewrite Hids.
  change (map ts_task_id (sc_task_stages sc)) with (ts_task_id <$> sc_task_stages sc).
  rewrite list_lookup_fmap, Hst. cbn [fmap option_fmap option_map or_raise mbind res_bind].
  rewrite (stage_by_index _ _ _ Hc Hst). cbn [mbind res_bind]. rewrite Hav. cbn [or_raise mbind res_bind].
  rewrite Hvp. cbn [or_raise mbind res_bind]. rewrite Hlg. cbn [or_raise mbind res_bind].
  destruct (reload_ledger lg) as [lg'|] eqn:El; [|done]. apply reload_same in El as ->. cbn [mbind res_bind].
  rewrite (pin_life_total p) by apply Hf. cbn [mbind res_bind].
  by destruct (life_completion p lg Hf) as (c & -> & _).
Qed.

Lemma life_resolves_state sc s turn pr st p lg n :
  life_ok sc s turn pr st p lg n ->
  resolve_life_state s = (_ ← reload_ledger lg; Ok (p, life_snapshot p, lg)).
Proof. intros Hk. by eapply resolve_active; apply Hk. Qed.

Lemma other_index sc s turn pr st p lg n i st' :
  life_ok sc s turn pr st p lg n -> sc_task_stages sc !! i = Some st' -> i <> task_index (ls_base s) ->
  ts_task_id st' <> ts_task_id st.
Proof.
  intros Hk Hi Hne Ht. apply Hne. pose proof (lk_stage _ _ _ _ _ _ _ _ Hk) as Hst.
  eapply (NoDup_lookup (map ts_task_id (sc_task_stages sc)));
    [apply (scenario_validated _ (po_valid _ _ (lk_sound _ _ _ _ _ _ _ _ Hk)))|..];
    rewrite list_lookup_fmap; [rewrite Hi|rewrite Hst]; simpl; [done|by rewrite Ht].
Qed.

Lemma starts_elsewhere i pr pr' st :
  same_elsewhere i pr pr' -> ts_task_id st <> i -> task_starts pr st -> task_starts pr' st.
Proof.
  intros Hse Hne (p & lg & Hat & Hv & Hl). exists p, lg. split; [by eapply task_at_after|].
  by rewrite (se_variants _ _ _ Hse).
Qed.

(** Task [i] is the same in both runtimes. *)
Definition untouched pr pr' (i : string) : Prop :=
  (pr_active_variant_ids pr' !! i, pr_reasoning_ledgers pr' !! i, pr_task_note_states pr' !! i)
  = (pr_active_variant_ids pr !! i, pr_reasoning_ledgers pr !! i, pr_task_note_states pr !! i).

Lemma untouched_elsewhere i pr pr' j : same_elsewhere i pr pr' -> j <> i -> untouched pr pr' j.
Proof. intros [_ Hv Hl Hn] Hj. unfold untouched. by rewrite Hv, Hl, Hn. Qed.
Lemma untouched_trans pr pr1 pr2 i : untouched pr pr1 i -> untouched pr1 pr2 i -> untouched pr pr2 i.
Proof. unfold untouched. congruence. Qed.

(** * One turn *)

Section turn.
Variables (ids : FreshIds) (sc : LifeScenarioPackV2) (s : LifeState) (turn : TurnContract)
  (pr : PinnedDialogueScenarioRuntimeV3) (st : LifeTaskStageV2) (p : LifeTaskPackV2)
  (lg : ReasoningLedgerV2) (n : PinnedDialogueTaskNoteStateV3) (t : TurnSemantics) (r : LifeTurnResult).
Hypothesis Hk : life_ok sc s turn pr st p lg n.
Hypothesis Hopen : ss_status (outcome (ls_base s)) = ACTIVE.
Hypothesis Hsound : sound_result (LifeSnapshot (life_snapshot p)) lg (ts_apply_result t).
Hypothesis Hfin : finish_life_turn ids s p t = Ok r.

Let lg' := ar_ledger (ts_apply_result t).
Let n' := tracked n p t (hint_level (ladder (ls_base s))) (hint_level (next_ladder (ls_base s) t)).
Let pr1 := set_task pr (ts_task_id st) lg' n'.
Let finished := complete (ar_completion (ts_apply_result t)).

Lemma current_is : current_task_id (ls_base s) = Ok (ts_task_id st).
Proof.
  pose proof (lk_identity _ _ _ _ _ _ _ _ Hk) as [= _ _ _ Hids]. unfold current_task_id. rewrite Hids.
  change (map ts_task_id (sc_task_stages sc)) with (ts_task_id <$> sc_task_stages sc).
  by rewrite list_lookup_fmap, (lk_stage _ _ _ _ _ _ _ _ Hk).
Qed.

Lemma stage_in : st ∈ sc_task_stages sc.
Proof. eapply list_elem_of_lookup_2, Hk. Qed.
Lemma pack_id_is : lt_task_id p = ts_task_id st.
Proof. eapply task_id_of; [apply Hk|apply stage_in|apply Hk]. Qed.

Lemma frame' : life_frame p lg' /\ (finished = true <-> forall g, ~ open_target (LifePack p) lg' g).
Proof. apply (life_sound_frame p lg); [apply Hk|done]. Qed.
Lemma notes' : life_notes_ok p lg' n'.
Proof. apply (tracked_ok p n t _ _ lg); [apply Hsound|apply Hk]. Qed.

Lemma task1 : task_at pr1 st p lg' n'.
Proof. eapply set_task_at; [apply Hk|apply frame'|apply notes']. Qed.
Lemma sound1 : pinned_ok sc pr1.
Proof. eapply pinned_update; [apply Hk|apply stage_in|apply set_task_elsewhere|apply task1]. Qed.

(** The turn's steps: apply, complete or speak, build. *)
Lemma finish_steps : exists mid spoken s',
  life_applied s p t (ts_task_id st) pr n mid
  /\ (if finished then task_completed sc mid p t n' pr1 spoken
      else exists j, spoken = with_base mid (shown_state (ls_base mid) j))
  /\ (forall pr2, ls_pinned spoken = Some pr2 -> pr_task_note_states pr2 !! lt_task_id p = Some n' ->
      life_built ids spoken p lg' n' pr2 (task_over spoken p) s' (lr_turn r))
  /\ lr_state r = with_base s' (with_turn (ls_base s') (state_version (ls_base s')) (Some (tc_turn_id (lr_turn r)))).
Proof.
  unfold finish_life_turn in Hfin.
  destruct (apply_life s _ p t) as [mid|] eqn:Ea; [|done]. cbn [mbind res_bind] in Hfin.
  apply (apply_life_Ok s p t (ts_task_id st) pr n) in Ea;
    [|apply Hk|apply current_is|apply pack_id_is|apply (lk_task _ _ _ _ _ _ _ _ Hk)].
  destruct (if complete _ then _ else _) as [spoken|] eqn:Es; [|done]. cbn [mbind res_bind] in Hfin.
  unfold compose_life in Hfin. destruct (build_life_turn _ _ _ _ _ _) as [[s' tn]|] eqn:Eb; [|done].
  cbn [mbind res_bind fst snd] in Hfin. exists mid, spoken.1, s'. split; [done|]. split; [|split].
  - destruct finished eqn:Ef; unfold finished in Ef; rewrite Ef in Es.
    + destruct (complete_life mid p t) as [d|] eqn:Ec; [|done]. cbn [mbind res_bind] in Es. injection Es as <-.
      eapply complete_life_Ok; [apply Ea|apply sound1| | |exact Ec].
      * pose proof (la_identity _ _ _ _ _ _ _ Ea) as [= _ _ _ -> _ _].
        by pose proof (lk_identity _ _ _ _ _ _ _ _ Hk) as [= _ _ _ ->].
      * rewrite pack_id_is. apply task1.
    + by apply life_speech_Ok in Es.
  - intros pr2 Hp2 Hn2. injection Hfin as <-. simpl. by eapply build_life_Ok.
  - by injection Hfin as <-.
Qed.

(** What the turn leaves behind, in its three cases. *)
Record life_finished : Prop := {
  lf_identity : life_identity (lr_state r)
    = (ls_scene s, ls_scenario_id s, runtime_contract_version (ls_base s), task_ids (ls_base s),
       (state_version (ls_base s) + 1)%Z);
  lf_turn : current_turn_id (ls_base (lr_state r)) = Some (tc_turn_id (lr_turn r));
  lf_id : tc_turn_id (lr_turn r) = fresh_turn_id ids;
  lf_input : ss_status (outcome (ls_base (lr_state r))) = COMPLETED -> tc_input (lr_turn r) = no_input;
  lf_direct : finished = true ->
    all_tasks_direct (outcome (ls_base (lr_state r))) = all_tasks_direct (outcome (ls_base s)) && task_direct n' p t
      && negb (bool_decide (ts_understanding_source t = US_structured_joint))
    /\ joint_performance_used (outcome (ls_base (lr_state r))) = joint_performance_used (outcome (ls_base s))
      || bool_decide (ts_understanding_source t = US_structured_joint);
  lf_note : note_shown finished p lg' n' (fresh_note_id ids) (tc_note_update (lr_turn r));
  lf_case : if finished then
      match sc_task_stages sc !! S (task_index (ls_base s)) with
      | Some st2 => exists v p2 lg2, next_variant pr1 st2 = Ok v /\ variant st2 v = Some p2
          /\ empty_life_task_ledger_v3 p2 = Ok lg2
          /\ ls_pinned (lr_state r)
             = Some (after_note true p lg' n' (activate pr1 (ts_task_id st2) v lg2) (fresh_note_id ids))
          /\ task_index (ls_base (lr_state r)) = S (task_index (ls_base s))
          /\ ladder (ls_base (lr_state r)) = entry_ladder p2
          /\ ss_status (outcome (ls_base (lr_state r))) = ACTIVE
          /\ (completion_outcome (outcome (ls_base (lr_state r))), teach_reward_eligible (outcome (ls_base (lr_state r))))
             = (None, false)
      | None => ls_pinned (lr_state r) = Some (after_note true p lg' n' pr1 (fresh_note_id ids))
          /\ task_index (ls_base (lr_state r)) = task_index (ls_base s)
          /\ ladder (ls_base (lr_state r)) = next_ladder (ls_base s) t
          /\ scenario_ended (outcome (ls_base (lr_state r)))
          /\ exists d, life_completion_facts (lr_state r) = Ok d
             /\ (cc_verified_facts <$> tc_completion (lr_turn r)) = Some d
      end
    else ls_pinned (lr_state r) = Some pr1 /\ task_index (ls_base (lr_state r)) = task_index (ls_base s)
      /\ ladder (ls_base (lr_state r)) = next_ladder (ls_base s) t
      /\ (exists v, outcome (ls_base (lr_state r)) = with_verified_slots (outcome (ls_base s)) v)
      /\ tc_completion (lr_turn r) = None
}.

Lemma shown_ok b : ladder_ok (ladder b) -> shown_ladder b = ladder b.
Proof.
  intros (_ & Hl & _). unfold shown_ladder. destruct (decide (_ = COMPLETED)); [done|].
  destruct (decide (_ = L0)) as [He|]; [|done]. rewrite <- (proj1 Hl He). by destruct (ladder b).
Qed.

Lemma entry_ladder_ok p2 : life_task_validate p2 = Ok p2 -> ladder_ok (entry_ladder p2).
Proof.
  unfold life_task_validate, life_policies_validate. intros Hv. ok_split. breflect. ok_split.
  match goal with H : lp_entry_expression_level _ ∈ _ |- _ => rename H into He end.
  unfold ladder_ok, entry_ladder. simpl. set_unfold in He.
  destruct He as [He|[He|[]]]; rewrite He; (split; [done|]); (split; [done|vm_compute; lia]).
Qed.

Lemma task_over_current spoken i : current_task_id (ls_base spoken) = Ok i ->
  task_over spoken p = negb (bool_decide (i = lt_task_id p))
    || bool_decide (ss_status (outcome (ls_base spoken)) = COMPLETED).
Proof. unfold task_over. by intros ->. Qed.

Lemma completion_facts_same s' b : life_identity (with_base s' b) = life_identity s' ->
  life_completion_facts (with_base s' b) = life_completion_facts s'.
Proof.
  unfold life_identity. simpl. intros [= _ Ht _]. unfold life_completion_facts, resolve_scenario. simpl.
  by rewrite Ht.
Qed.

(** The stored state, from the state the turn was built on. *)
Lemma built_state over pr2 spoken s' :
  life_built ids spoken p lg' n' pr2 over s' (lr_turn r) ->
  lr_state r = with_base s' (with_turn (ls_base s') (state_version (ls_base s')) (Some (tc_turn_id (lr_turn r)))) ->
  life_identity (lr_state r) = life_identity spoken
  /\ outcome (ls_base (lr_state r)) = outcome (ls_base spoken)
  /\ task_index (ls_base (lr_state r)) = task_index (ls_base spoken)
  /\ ladder (ls_base (lr_state r)) = shown_ladder (ls_base spoken)
  /\ ls_pinned (lr_state r) = Some (after_note over p lg' n' pr2 (fresh_note_id ids))
  /\ current_turn_id (ls_base (lr_state r)) = Some (tc_turn_id (lr_turn r))
  /\ life_completion_facts (lr_state r) = life_completion_facts s'.
Proof.
  intros [Hp Hi [j Hj] _ _ _ _ _ _] ->.
  split; [by rewrite <- Hi|]. cbn [ls_base with_base ls_pinned]. do 3 (split; [by rewrite Hj|]).
  do 2 (split; [done|]). by apply completion_facts_same.
Qed.

Lemma mid_facts mid : life_applied s p t (ts_task_id st) pr n mid ->
  ls_pinned mid = Some pr1 /\ current_task_id (ls_base mid) = Ok (ts_task_id st)
  /\ task_index (ls_base mid) = task_index (ls_base s)
  /\ ladder (ls_base mid) = next_ladder (ls_base s) t
  /\ ladder_ok (ladder (ls_base mid))
  /\ ss_status (outcome (ls_base mid)) = ACTIVE
  /\ exists v, outcome (ls_base mid) = with_verified_slots (outcome (ls_base s)) v.
Proof.
  intros [Hp [= _ _ _ Hids _ Hix] Hl [v Ho]]. split; [done|]. split.
  { unfold current_task_id. rewrite Hids, Hix. apply current_is. }
  do 2 (split; [done|]). split; [rewrite Hl; by apply policy_ok, (lk_ladder _ _ _ _ _ _ _ _ Hk)|].
  split; [by rewrite Ho|eauto].
Qed.

Lemma finish_open : finished = false -> life_finished.
Proof.
  intros Hf. destruct finish_steps as (mid & spoken & s' & Ha & Hs & Hb & Hr). rewrite Hf in Hs.
  destruct Hs as [j ->]. destruct (mid_facts mid Ha) as (Hp & Hc & Hix & Hl & Hlo & Hst & v & Ho).
  assert (Hover : task_over (with_base mid (shown_state (ls_base mid) j)) p = false).
  { rewrite (task_over_current _ (ts_task_id st)) by done. simpl.
    by rewrite pack_id_is, bool_decide_eq_true_2, Hst. }
  specialize (Hb pr1 Hp). rewrite Hover in Hb. rewrite pack_id_is in Hb.
  specialize (Hb (ta_notes _ _ _ _ _ task1)).
  destruct (built_state _ _ _ _ Hb Hr) as (Hid & Hout & Hixr & Hlr & Hpr & Htn & _).
  simpl in Hout, Hixr, Hlr. rewrite shown_ok in Hlr.
  2:{ simpl. by rewrite shown_ok. }
  simpl in Hlr. rewrite shown_ok in Hlr by done.
  destruct Hb as [_ _ _ Htid _ _ Hnote Hin Hcomp]. simpl in *. rewrite Hst in Hcomp.
  split; try done; rewrite ?Hf; try done.
  - rewrite Hid. unfold life_identity. simpl. by destruct Ha as [_ [= -> -> -> -> -> _] _ _].
  - intros Hs. by rewrite Hout, Hst in Hs.
  - unfold after_note in Hpr. simpl in Hpr. rewrite Hout, Hlr, Hixr, Hl. do 3 (split; [done|]). eauto.
Qed.

Lemma mid_direct mid spoken : life_applied s p t (ts_task_id st) pr n mid ->
  task_completed sc mid p t n' pr1 spoken ->
  all_tasks_direct (outcome (ls_base spoken)) = all_tasks_direct (outcome (ls_base s)) && task_direct n' p t
    && negb (bool_decide (ts_understanding_source t = US_structured_joint))
  /\ joint_performance_used (outcome (ls_base spoken)) = joint_performance_used (outcome (ls_base s))
    || bool_decide (ts_understanding_source t = US_structured_joint)
  /\ life_identity spoken = (ls_scene s, ls_scenario_id s, runtime_contract_version (ls_base s),
       task_ids (ls_base s), (state_version (ls_base s) + 1)%Z).
Proof.
  intros [_ Hi%(f_equal fst) _ [v Ho]] [Hid Hd Hj _]. simpl in Hi. by rewrite Hd, Hj, Hid, Ho.
Qed.

Lemma finish_last : finished = true -> sc_task_stages sc !! S (task_index (ls_base s)) = None -> life_finished.
Proof.
  intros Hf Hnone. destruct finish_steps as (mid & spoken & s' & Ha & Hs & Hb & Hr). rewrite Hf in Hs.
  destruct (mid_facts mid Ha) as (Hp & Hc & Hix & Hl & Hlo & Hst & v & Ho).
  destruct (mid_direct mid spoken Ha Hs) as (Hd & Hj & Hid').
  pose proof (tc_next _ _ _ _ _ _ _ Hs) as Hnext. rewrite Hix, Hnone in Hnext.
  destruct Hnext as (Hp2 & Hl2 & Hix2 & Hend). pose proof Hend as (Hdone & Hout & Hrew).
  assert (Hover : task_over spoken p = true).
  { unfold task_over. rewrite Hdone. by rewrite orb_true_r. }
  specialize (Hb pr1 Hp2). rewrite Hover, pack_id_is in Hb. specialize (Hb (ta_notes _ _ _ _ _ task1)).
  destruct (built_state _ _ _ _ Hb Hr) as (Hid & Houtr & Hixr & Hlr & Hpr & Htn & Hfacts).
  rewrite shown_ok in Hlr by (by rewrite Hl2).
  destruct Hb as [_ _ _ Htid _ _ Hnote Hin Hcomp]. rewrite Hdone, Hout in Hcomp.
  split; try done; rewrite ?Hf, ?Hnone, ?Houtr; try done.
  - by rewrite Hid.
  - split; [done|]. rewrite Hixr, Hlr, Hl2, Hl, Hix2. do 3 (split; [done|]).
    destruct Hcomp as (d & Hcd & ->). exists d. by rewrite Hfacts.
Qed.

Lemma finish_next st2 : finished = true -> sc_task_stages sc !! S (task_index (ls_base s)) = Some st2 ->
  life_finished.
Proof.
  intros Hf Hsome. destruct finish_steps as (mid & spoken & s' & Ha & Hs & Hb & Hr). rewrite Hf in Hs.
  destruct (mid_facts mid Ha) as (Hp & Hc & Hix & Hl & Hlo & Hst & v & Ho).
  destruct (mid_direct mid spoken Ha Hs) as (Hd & Hj & Hid').
  pose proof (tc_next _ _ _ _ _ _ _ Hs) as Hnext. rewrite Hix, Hsome in Hnext.
  destruct Hnext as [(w & p2 & lg2 & Hw & Hp2 & Hlg2 & Hpin & Hl2) Hix2 (Hact & Hout & Hrew)].
  destruct (lk_open _ _ _ _ _ _ _ _ Hk Hopen) as (_ & _ & [= Hnone Hnr]).
  assert (Hids : task_ids (ls_base spoken) = map ts_task_id (sc_task_stages sc)).
  { injection Hid' as _ _ _ -> _. by pose proof (lk_identity _ _ _ _ _ _ _ _ Hk) as [= _ _ _ ->]. }
  pose proof (scenario_validated _ (po_valid _ _ (lk_sound _ _ _ _ _ _ _ _ Hk))) as Hsc.
  assert (Hne : ts_task_id st2 <> ts_task_id st) by (by eapply other_index; [exact Hk|exact Hsome|lia]).
  assert (Hover : task_over spoken p = true).
  { rewrite (task_over_current _ (ts_task_id st2)).
    - by rewrite pack_id_is, bool_decide_eq_false_2.
    - unfold current_task_id. rewrite Hids, Hix2, Hix.
      change (map ts_task_id (sc_task_stages sc)) with (ts_task_id <$> sc_task_stages sc).
      by rewrite list_lookup_fmap, Hsome. }
  specialize (Hb _ Hpin). rewrite Hover, pack_id_is in Hb. specialize (Hb (ta_notes _ _ _ _ _ task1)).
  destruct (built_state _ _ _ _ Hb Hr) as (Hid & Houtr & Hixr & Hlr & Hpr & Htn & _).
  destruct (sf_variant _ Hsc st2 w p2 (list_elem_of_lookup_2 _ _ _ Hsome) Hp2) as [Hv2 _].
  rewrite shown_ok in Hlr by (rewrite Hl2; by apply entry_ladder_ok).
  destruct Hb as [_ _ _ Htid _ _ Hnote Hin _].
  split; try done; rewrite ?Hf, ?Hsome, ?Houtr, ?Hact; try done.
  - by rewrite Hid.
  - exists w, p2, lg2. do 3 (split; [done|]). rewrite Hixr, Hlr, Hl2, Hix2, Hix, Hout, Hrew, Ho. simpl.
    do 4 (split; [done|]). congruence.
Qed.

Lemma finish_life : life_finished.
Proof.
  destruct finished eqn:Hf; [|by apply finish_open].
  destruct (sc_task_stages sc !! S (task_index (ls_base s))) as [st2|] eqn:E; [by eapply finish_next|by apply finish_last].
Qed.

(** ** The invariant is kept *)

Hypothesis Hnote : id_field 100 (fresh_note_id ids) = true.
Hypothesis Hjoint : ts_understanding_source t = US_structured_joint -> finished = true.

Lemma still_open : finished = false -> exists g, open_target (LifePack p) lg' g.
Proof.
  intros Hf. eapply incomplete_open; [|apply Hsound|exact Hf].
  apply life_resolves, (ta_frame _ _ _ _ _ (lk_task _ _ _ _ _ _ _ _ Hk)).
Qed.

Lemma fresh_notes : (nt_note_emitted n', nt_joint_performance_used n' && negb finished) = (false, false).
Proof.
  destruct (lk_open _ _ _ _ _ _ _ _ Hk Hopen) as (_ & [= He Hj] & _).
  unfold n'. rewrite tracked_emitted, He. f_equal. unfold tracked.
  destruct (bool_decide _); [by rewrite Hj|]. simpl. rewrite Hj. simpl.
  destruct (bool_decide (ts_understanding_source t = US_structured_joint)) eqn:E; [|done].
  apply bool_decide_eq_true in E. by rewrite Hjoint.
Qed.

(** The outcome flags only move away from a solo performance. *)
Definition flags_kept (o o' : outcome_state) : Prop :=
  (all_tasks_direct o' = true -> all_tasks_direct o = true)
  /\ (joint_performance_used o = true -> joint_performance_used o' = true).

Lemma flags_finished : life_finished -> flags_kept (outcome (ls_base s)) (outcome (ls_base (lr_state r))).
Proof.
  intros Hl. pose proof (lf_direct Hl) as Hd. pose proof (lf_case Hl) as Hc. unfold flags_kept.
  destruct finished.
  - destruct (Hd eq_refl) as [-> ->]. split; [by intros [[? _]%andb_true_iff _]%andb_true_iff|by intros ->].
  - by destruct Hc as (_ & _ & _ & (v & ->) & _).
Qed.

Lemma done_kept o o' p' lg0 n0 : flags_kept o o' -> task_done o p' lg0 n0 -> task_done o' p' lg0 n0.
Proof. intros [Hd Hj] [H1 H2 H3' H4']. split; auto. Qed.

Lemma done_now : life_finished -> finished = true ->
  task_done (outcome (ls_base (lr_state r))) p lg' (noted true p lg' n' (fresh_note_id ids)).
Proof.
  intros Hl Hf. destruct frame' as [_ Hcomp]. destruct (lf_direct Hl Hf) as [Hd Hj].
  injection fresh_notes as He _. pose proof (noted_same true p lg' n' (fresh_note_id ids)) as [= Hind Hjn].
  split.
  - by apply Hcomp.
  - by apply noted_emitted.
  - rewrite Hd, Hind. intros [[_ Ht]%andb_true_iff _]%andb_true_iff Hpol. unfold task_direct in Ht.
    rewrite bool_decide_eq_false_2 in Ht by done. apply andb_true_iff in Ht as [Hne Hall].
    split; [by destruct (lp_note_relation_ids _)|]. intros i Hi%list_elem_of_In.
    rewrite forallb_forall in Hall. specialize (Hall i Hi). by apply bool_decide_eq_true in Hall.
  - rewrite Hjn, Hj. unfold n', tracked.
    destruct (lk_open _ _ _ _ _ _ _ _ Hk Hopen) as (_ & [= _ Hjs] & _).
    destruct (bool_decide (_ = note_none)); [by rewrite Hjs|]. simpl. rewrite Hjs. simpl. intros ->. apply orb_true_r.
Qed.

(** The pinned runtime after the turn, and its current task. *)
Lemma open_ok : finished = false -> life_finished -> life_ok sc (lr_state r) (lr_turn r) pr1 st p lg' n'.
Proof.
  intros Hf [Hid Htn _ Hin _ _ Hc]. rewrite Hf in Hc. destruct Hc as (Hp & Hix & Hl & [v Ho] & _).
  pose proof (lk_identity _ _ _ _ _ _ _ _ Hk) as Hi. pose proof fresh_notes as Hfn. rewrite Hf in Hfn.
  destruct (lk_open _ _ _ _ _ _ _ _ Hk Hopen) as (_ & _ & Hnone).
  split; try done; rewrite ?Hix, ?Ho.
  - apply sound1.
  - unfold life_identity in Hid. by injection Hid as -> -> -> -> _.
  - apply Hk.
  - apply task1.
  - intros i st' p' lg0 n0 Hlt Hst' Hat. apply (done_kept (outcome (ls_base s))); [by split|].
    apply (lk_past _ _ _ _ _ _ _ _ Hk i st'); [done..|]. eapply task_at_before; [apply set_task_elsewhere| |exact Hat]. by eapply other_index; [exact Hk|exact Hst'|lia].
  - intros i st' Hlt Hst'. eapply starts_elsewhere; [apply set_task_elsewhere| |by eapply (lk_future _ _ _ _ _ _ _ _ Hk)].
    by eapply other_index; [exact Hk|exact Hst'|lia].
  - intros _. split; [by apply still_open|]. split; [|done]. by rewrite andb_true_r in Hfn.
  - simpl. by rewrite Hopen.
  - rewrite Hl. by apply policy_ok, (lk_ladder _ _ _ _ _ _ _ _ Hk).
Qed.

Lemma last_ok : finished = true -> sc_task_stages sc !! S (task_index (ls_base s)) = None -> life_finished ->
  life_ok sc (lr_state r) (lr_turn r) (after_note true p lg' n' pr1 (fresh_note_id ids)) st p lg'
    (noted true p lg' n' (fresh_note_id ids)).
Proof.
  intros Hf Hnone Hfl. pose proof (done_now Hfl Hf) as Hdone. pose proof (flags_finished Hfl) as Hfk.
  destruct Hfl as [Hid Htn _ Hin _ _ Hc]. rewrite Hf, Hnone in Hc. destruct Hc as (Hp & Hix & Hl & Hend & _).
  pose proof (lk_identity _ _ _ _ _ _ _ _ Hk) as Hi.
  pose proof (after_note_elsewhere true p lg' n' pr1 (fresh_note_id ids)) as Hse. rewrite pack_id_is in Hse.
  pose proof (after_note_at true pr1 st p lg' n' _ task1 pack_id_is Hnote) as Hat.
  split; try done; rewrite ?Hix.
  - eapply pinned_update; [apply sound1|apply stage_in|exact Hse|exact Hat].
  - unfold life_identity in Hid. by injection Hid as -> -> -> -> _.
  - apply Hk.
  - intros i st' p' lg0 n0 Hlt Hst' Ha. eapply done_kept; [exact Hfk|].
    apply (lk_past _ _ _ _ _ _ _ _ Hk i st'); [done..|].
    assert (Hne : ts_task_id st' <> ts_task_id st) by (by eapply other_index; [exact Hk|exact Hst'|lia]).
    eapply task_at_before; [apply set_task_elsewhere|exact Hne|]. by eapply task_at_before.
  - intros i st' Hlt Hst'. assert (sc_task_stages sc !! i = None) as Hn; [|congruence].
    apply lookup_ge_None. apply lookup_ge_None in Hnone. lia.
  - destruct Hend as [Hend _]. congruence.
  - by intros _.
  - rewrite Hl. by apply policy_ok, (lk_ladder _ _ _ _ _ _ _ _ Hk).
Qed.

(** The runtime once the next task is entered. *)
Lemma entered_runtime st2 v p2 lg2 :
  sc_task_stages sc !! S (task_index (ls_base s)) = Some st2 -> variant st2 v = Some p2 ->
  empty_life_task_ledger_v3 p2 = Ok lg2 ->
  let pr2 := activate pr1 (ts_task_id st2) v lg2 in
  let pr3 := after_note true p lg' n' pr2 (fresh_note_id ids) in
  pinned_ok sc pr3 /\ task_at pr3 st p lg' (noted true p lg' n' (fresh_note_id ids))
  /\ task_at pr3 st2 p2 lg2 empty_note_state
  /\ forall st', ts_task_id st' <> ts_task_id st -> ts_task_id st' <> ts_task_id st2 ->
      (forall p' lg0 n0, task_at pr3 st' p' lg0 n0 -> task_at pr st' p' lg0 n0)
      /\ (task_starts pr st' -> task_starts pr3 st').
Proof.
  intros Hsome Hv Hlg pr2 pr3. pose proof (list_elem_of_lookup_2 _ _ _ Hsome) as Hin2.
  assert (Hne : ts_task_id st2 <> ts_task_id st) by (eapply other_index; [exact Hk|exact Hsome|lia]).
  destruct (sf_variant _ (scenario_validated _ (po_valid _ _ sound1)) st2 v p2 Hin2 Hv) as [Hv2 _].
  assert (task_starts pr1 st2) as (p0 & lg0 & Hat0 & _).
  { eapply starts_elsewhere; [apply set_task_elsewhere|exact Hne|]. eapply (lk_future _ _ _ _ _ _ _ _ Hk); [|exact Hsome]. lia. }
  pose proof (activate_at pr1 st2 p0 lg0 v p2 lg2 Hat0 Hv Hv2 Hlg) as Hat2.
  pose proof (activate_elsewhere pr1 (ts_task_id st2) v lg2) as Hse2. fold pr2 in Hat2, Hse2.
  pose proof (task_at_after _ _ _ _ _ _ _ Hse2 (not_eq_sym Hne) task1) as Hat1.
  pose proof (after_note_elsewhere true p lg' n' pr2 (fresh_note_id ids)) as Hse3. rewrite pack_id_is in Hse3.
  pose proof (after_note_at true pr2 st p lg' n' _ Hat1 pack_id_is Hnote) as Hat3. fold pr3 in Hse3, Hat3.
  split; [|split; [exact Hat3|split]].
  - eapply pinned_update; [|apply stage_in|exact Hse3|exact Hat3].
    eapply pinned_update; [apply sound1|exact Hin2|exact Hse2|exact Hat2].
  - by eapply task_at_after.
  - intros st' H1 H2. split.
    + intros p' lg1 n1 Ha. eapply task_at_before; [apply set_task_elsewhere|exact H1|].
      eapply task_at_before; [exact Hse2|exact H2|]. by eapply task_at_before.
    + intros Hs. eapply starts_elsewhere; [exact Hse3|exact H1|]. eapply starts_elsewhere; [exact Hse2|exact H2|].
      by eapply starts_elsewhere; [apply set_task_elsewhere|..].
Qed.

Lemma next_ok st2 v p2 lg2 :
  finished = true -> life_finished -> sc_task_stages sc !! S (task_index (ls_base s)) = Some st2 ->
  variant st2 v = Some p2 -> empty_life_task_ledger_v3 p2 = Ok lg2 ->
  let pr3 := after_note true p lg' n' (activate pr1 (ts_task_id st2) v lg2) (fresh_note_id ids) in
  ls_pinned (lr_state r) = Some pr3 -> task_index (ls_base (lr_state r)) = S (task_index (ls_base s)) ->
  ladder (ls_base (lr_state r)) = entry_ladder p2 -> ss_status (outcome (ls_base (lr_state r))) = ACTIVE ->
  (completion_outcome (outcome (ls_base (lr_state r))), teach_reward_eligible (outcome (ls_base (lr_state r))))
    = (None, false) ->
  life_ok sc (lr_state r) (lr_turn r) pr3 st2 p2 lg2 empty_note_state.
Proof.
  intros Hf Hfl Hsome Hv Hlg pr3 Hp Hix Hl Hact Hout. pose proof (done_now Hfl Hf) as Hdone.
  pose proof (flags_finished Hfl) as Hfk. destruct Hfl as [Hid Htn _ Hin _ _ _].
  pose proof (lk_identity _ _ _ _ _ _ _ _ Hk) as Hi.
  destruct (entered_runtime st2 v p2 lg2 Hsome Hv Hlg) as (Hok & Hat3 & Hat2 & Hother). fold pr3 in Hok, Hat3, Hat2, Hother.
  pose proof (ta_frame _ _ _ _ _ Hat2) as Hf2.
  assert (Hindex : forall i st', sc_task_stages sc !! i = Some st' ->
    (i <> task_index (ls_base s) -> ts_task_id st' <> ts_task_id st)
    /\ (i <> S (task_index (ls_base s)) -> ts_task_id st' <> ts_task_id st2)).
  { intros i st' Hst'. split; intros Hne; [by eapply other_index|]. intros He. apply Hne.
    eapply (NoDup_lookup (map ts_task_id (sc_task_stages sc))); [apply (scenario_validated _ (po_valid _ _ Hok))|..];
      rewrite list_lookup_fmap; [rewrite Hst'|rewrite Hsome]; simpl; [done|by rewrite He]. }
  split; try done; rewrite ?Hix; try done.
  - unfold life_identity in Hid. by injection Hid as -> -> -> -> _.
  - intros i st' p' lg0 n0 Hlt Hst' Ha. destruct (Hindex i st' Hst') as [Hn1 Hn2].
    destruct (decide (i = task_index (ls_base s))) as [->|Hne].
    + rewrite (lk_stage _ _ _ _ _ _ _ _ Hk) in Hst'. injection Hst' as <-.
      by destruct (task_at_unique _ _ _ _ _ _ _ _ Hat3 Ha) as (-> & -> & ->).
    + eapply done_kept; [exact Hfk|]. apply (lk_past _ _ _ _ _ _ _ _ Hk i st'); [lia|done|].
      apply Hother; [by apply Hn1|apply Hn2; lia|done].
  - intros i st' Hlt Hst'. destruct (Hindex i st' Hst') as [Hn1 Hn2].
    apply Hother; [apply Hn1; lia|apply Hn2; lia|]. eapply (lk_future _ _ _ _ _ _ _ _ Hk); [|exact Hst']. lia.
  - intros _. split; [|done]. destruct (empty_life_frame p2 (lf_task _ _ Hf2)) as (lg0 & Hlg0 & _ & Hm).
    rewrite Hlg in Hlg0. injection Hlg0 as <-. injection Hm as Hvf Hvr _ _.
    apply empty_open; [by eapply life_frame_contract|done|done].
  - by rewrite Hact.
  - rewrite Hl. by apply entry_ladder_ok, (lf_task _ _ Hf2).
Qed.

Lemma finish_ok : exists pr' st' p' lg0 n0, life_ok sc (lr_state r) (lr_turn r) pr' st' p' lg0 n0.
Proof.
  pose proof finish_life as Hfl.
  destruct (decide (finished = true)) as [Hf|Hf%not_true_is_false]; [|do 5 eexists; by apply open_ok].
  destruct (sc_task_stages sc !! S (task_index (ls_base s))) as [st2|] eqn:Hn; [|do 5 eexists; by apply last_ok].
  pose proof (lf_case Hfl) as Hc. rewrite Hf, Hn in Hc.
  destruct Hc as (v & p2 & lg2 & _ & Hv & Hlg & Hp & Hix & Hl & Hact & Hout). do 5 eexists. by eapply next_ok.
Qed.

(** ** What the turn may touch *)

Record life_effect pr' : Prop := {
  le_runtime : ls_pinned (lr_state r) = Some pr';
  le_task : task_at pr' st p lg' (noted finished p lg' n' (fresh_note_id ids));
  le_others i st' : sc_task_stages sc !! i = Some st' -> i <> task_index (ls_base s) ->
    (finished = true -> i <> S (task_index (ls_base s))) -> untouched pr pr' (ts_task_id st');
  le_moves : match (if finished then sc_task_stages sc !! S (task_index (ls_base s)) else None) with
    | Some st2 => task_index (ls_base (lr_state r)) = S (task_index (ls_base s))
        /\ ss_status (outcome (ls_base (lr_state r))) = ACTIVE
        /\ exists v p2 lg2, next_variant pr1 st2 = Ok v /\ pr_active_variant_ids pr' !! ts_task_id st2 = Some v
           /\ task_at pr' st2 p2 lg2 empty_note_state /\ empty_life_task_ledger_v3 p2 = Ok lg2
           /\ ladder (ls_base (lr_state r)) = entry_ladder p2
    | None => task_index (ls_base (lr_state r)) = task_index (ls_base s)
        /\ ss_status (outcome (ls_base (lr_state r))) = (if finished then COMPLETED else ACTIVE)
        /\ ladder (ls_base (lr_state r)) = next_ladder (ls_base s) t
    end
}.

Lemma effect_open : finished = false -> life_finished -> life_effect pr1.
Proof.
  intros Hf Hfl. pose proof (lf_case Hfl) as Hc. rewrite Hf in Hc. destruct Hc as (Hp & Hix & Hl & [v Ho] & _).
  split; rewrite ?Hf; [done|apply task1| |].
  - intros i st' Hi Hne _. eapply untouched_elsewhere; [apply set_task_elsewhere|]. by eapply other_index.
  - by rewrite Hix, Ho, Hl.
Qed.

Lemma effect_last : finished = true -> sc_task_stages sc !! S (task_index (ls_base s)) = None -> life_finished ->
  life_effect (after_note true p lg' n' pr1 (fresh_note_id ids)).
Proof.
  intros Hf Hn Hfl. pose proof (lf_case Hfl) as Hc. rewrite Hf, Hn in Hc. destruct Hc as (Hp & Hix & Hl & Hend & _).
  pose proof (after_note_elsewhere true p lg' n' pr1 (fresh_note_id ids)) as Hse. rewrite pack_id_is in Hse.
  split; rewrite ?Hf, ?Hn; [done|by apply (after_note_at true); [apply task1|apply pack_id_is|]| |].
  - intros i st' Hi Hne _. assert (Ht : ts_task_id st' <> ts_task_id st) by (by eapply other_index).
    eapply untouched_trans; eapply untouched_elsewhere; [apply set_task_elsewhere|exact Ht|exact Hse|exact Ht].
  - by destruct Hend as [-> _].
Qed.

Lemma effect_next st2 v p2 lg2 : finished = true -> sc_task_stages sc !! S (task_index (ls_base s)) = Some st2 ->
  next_variant pr1 st2 = Ok v -> variant st2 v = Some p2 -> empty_life_task_ledger_v3 p2 = Ok lg2 ->
  let pr3 := after_note true p lg' n' (activate pr1 (ts_task_id st2) v lg2) (fresh_note_id ids) in
  ls_pinned (lr_state r) = Some pr3 -> task_index (ls_base (lr_state r)) = S (task_index (ls_base s)) ->
  ladder (ls_base (lr_state r)) = entry_ladder p2 -> ss_status (outcome (ls_base (lr_state r))) = ACTIVE ->
  life_effect pr3.
Proof.
  intros Hf Hn Hv Hp2 Hlg pr3 Hp Hix Hl Hact.
  destruct (entered_runtime st2 v p2 lg2 Hn Hp2 Hlg) as (_ & Hat3 & Hat2 & _). fold pr3 in Hat3, Hat2.
  pose proof (activate_elsewhere pr1 (ts_task_id st2) v lg2) as Hse2.
  pose proof (after_note_elsewhere true p lg' n' (activate pr1 (ts_task_id st2) v lg2) (fresh_note_id ids)) as Hse3.
  rewrite pack_id_is in Hse3.
  assert (Hne2 : ts_task_id st2 <> ts_task_id st) by (eapply other_index; [exact Hk|exact Hn|lia]).
  split; rewrite ?Hf, ?Hn; [done|done| |].
  - intros i st' Hi Hne Hne'. assert (Ht : ts_task_id st' <> ts_task_id st) by (by eapply other_index).
    assert (Ht2 : ts_task_id st' <> ts_task_id st2).
    { intros He. apply (Hne' eq_refl). eapply (NoDup_lookup (map ts_task_id (sc_task_stages sc)));
        [apply (scenario_validated _ (po_valid _ _ sound1))|..];
        rewrite list_lookup_fmap; [rewrite Hi|rewrite Hn]; simpl; [done|by rewrite He]. }
    eapply untouched_trans; [eapply untouched_elsewhere; [apply set_task_elsewhere|exact Ht]|].
    eapply untouched_trans; eapply untouched_elsewhere; [exact Hse2|exact Ht2|exact Hse3|exact Ht].
  - split; [done|]. split; [done|]. exists v, p2, lg2. split; [done|].
    split; [|done]. subst pr3. rewrite (se_variants _ _ _ Hse3) by done.
    simpl. by rewrite lookup_insert_eq.
Qed.

Lemma effect : exists pr', life_effect pr'.
Proof.
  pose proof finish_life as Hfl.
  destruct (decide (finished = true)) as [Hf|Hf%not_true_is_false]; [|eexists; by apply effect_open].
  destruct (sc_task_stages sc !! S (task_index (ls_base s))) as [st2|] eqn:Hn; [|eexists; by apply effect_last].
  pose proof (lf_case Hfl) as Hc. rewrite Hf, Hn in Hc.
  destruct Hc as (v & p2 & lg2 & Hv & Hp2 & Hlg & Hp & Hix & Hl & Hact & _). eexists. by eapply effect_next.
Qed.
End turn.

(** * Sessions *)

(** A state the service may open a life session with. *)
Definition life_fresh s : Prop :=
  completion_outcome (outcome (ls_base s)) = None /\ teach_reward_eligible (outcome (ls_base s)) = false.

(** Reachable sessions: a state with the turn on screen, each response admitted by
    the gate for that turn. *)
Inductive life_session sc : LifeState -> TurnContract -> Prop :=
  | life_start ids reason bucket s0 s turn :
      life_fresh s0 -> initialize_scenario_state ids sc reason bucket s0 = Ok (s, turn) ->
      life_session sc s turn
  | life_turn gw ids s turn resp pq recent r :
      life_session sc s turn -> id_field 100 (fresh_note_id ids) = true ->
      gate (tc_input turn) (tc_turn_id turn) resp = Ok tt ->
      run_life_turn gw ids s resp pq recent = Ok r -> life_session sc (lr_state r) (lr_turn r).

(** The first question of the first task. *)
Lemma life_opened_ok ids sc pr st p lg s1 question text mood s' turn :
  ls_pinned s1 = Some pr -> pinned_ok sc pr ->
  (ls_scene s1, ls_scenario_id s1, runtime_contract_version (ls_base s1), task_ids (ls_base s1))
    = (sc_scene sc, sc_scenario_id sc, VERDICT_V1, map ts_task_id (sc_task_stages sc)) ->
  task_index (ls_base s1) = 0 -> sc_task_stages sc !! 0 = Some st ->
  (forall st', st' ∈ sc_task_stages sc -> task_starts pr st') -> task_at pr st p lg empty_note_state ->
  empty_life_task_ledger_v3 p = Ok lg -> ladder_ok (ladder (ls_base s1)) ->
  ss_status (outcome (ls_base s1)) = ACTIVE ->
  (completion_outcome (outcome (ls_base s1)), teach_reward_eligible (outcome (ls_base s1))) = (None, false) ->
  life_question_contract s1 p lg = Ok question ->
  build_life_turn ids question.1 p lg text mood = Ok (s', turn) ->
  life_ok sc (with_base s' (with_turn (ls_base s') (state_version (ls_base s')) (Some (tc_turn_id turn)))) turn
    pr st p lg empty_note_state.
Proof.
  intros Hp Hok Hid Hix Hst Hstart Hat Hlg Hlo Hact Hout Hq Hb.
  destruct question as [s2 q]. apply life_question_shows in Hq as [[j Hs2] _]. simpl in Hs2. subst s2. cbn [fst] in Hb.
  pose proof (task_id_of sc pr st p lg _ Hok (list_elem_of_lookup_2 _ _ _ Hst) Hat) as Hpid.
  assert (Hover : task_over (with_base s1 (shown_state (ls_base s1) j)) p = false).
  { unfold task_over, current_task_id. simpl. injection Hid as _ _ _ ->. rewrite Hix.
    change (map ts_task_id (sc_task_stages sc)) with (ts_task_id <$> sc_task_stages sc).
    rewrite list_lookup_fmap, Hst. simpl. by rewrite Hpid, bool_decide_eq_true_2, Hact. }
  apply (build_life_Ok ids _ p lg text mood pr empty_note_state) in Hb as [Hp' Hi' [j' Hj'] _ _ _ _ _ _];
    [|done|rewrite Hpid; apply Hat].
  rewrite Hover in Hp'. simpl in Hp', Hj'. unfold life_identity in Hi'. simpl in Hi'.
  assert (Hl : ladder (ls_base s') = ladder (ls_base s1)).
  { rewrite Hj'. simpl. rewrite shown_ok; simpl; by rewrite shown_ok. }
  assert (Ho : outcome (ls_base s') = outcome (ls_base s1)) by (by rewrite Hj').
  assert (Hix' : task_index (ls_base s') = 0) by (by rewrite Hj').
  split; simpl; try done; rewrite ?Hix', ?Ho, ?Hl, ?Hact; try done.
  - injection Hi' as -> -> -> -> _. done.
  - intros i st' p' lg' n' Hlt. lia.
  - intros i st' _ Hst'. eapply Hstart, list_elem_of_lookup_2, Hst'.
  - intros _. split; [|done]. pose proof (ta_frame _ _ _ _ _ Hat) as Hf.
    destruct (empty_life_frame p (lf_task _ _ Hf)) as (lg0 & Hlg0 & _ & Hm).
    rewrite Hlg in Hlg0. injection Hlg0 as <-. injection Hm as Hvf Hvr _ _.
    apply empty_open; [by eapply life_frame_contract|done|done].
Qed.

Lemma start_life_ok ids sc reason bucket s0 s turn :
  life_fresh s0 -> initialize_scenario_state ids sc reason bucket s0 = Ok (s, turn) ->
  exists pr st p lg n, life_ok sc s turn pr st p lg n.
Proof.
  intros [Hout Hrew] Hi. unfold initialize_scenario_state in Hi. cbn zeta in Hi.
  rewrite !bind_raise_if_Ok in Hi. destruct Hi as (Hver & Hsc & Htasks & Hi). breflect.
  destruct (empty_ledgers _ _) as [ls|] eqn:Els; [|done]. cbn [mbind res_bind] in Hi.
  destruct (pin_life_scenario_runtime_v3 _ _ _ _ _ _) as [pr|] eqn:Ep; [|done]. cbn [mbind res_bind] in Hi.
  destruct (pin_Ok _ _ _ _ _ _ _ Ep) as [Hval Hsel].
  rewrite (pin_start sc reason bucket ls) in Ep by done. injection Ep as <-.
  destruct (start_runtime_ok sc reason bucket Hval Hsel) as (ls' & Els' & Hok & _ & Hstart).
  rewrite Els in Els'. injection Els' as <-. set (pr := start_runtime sc ls reason bucket) in *.
  pose proof (scenario_validated _ Hval) as Hc.
  destruct (sc_task_stages sc !! 0) as [st|] eqn:Est.
  2:{ apply lookup_ge_None in Est. pose proof (sf_count _ Hc). lia. }
  destruct (Hstart st (list_elem_of_lookup_2 _ _ _ Est)) as (p & lg & Hat & _ & Hlg).
  apply dec_stable in Hver. destruct Hsc as [Hsc Hsid].
  match type of Hi with resolve_life_state ?x ≫= _ = _ => set (s1 := x) in Hi end.
  rewrite (resolve_active sc s1 pr st p lg empty_note_state) in Hi; [|done|done| |done|done].
  2:{ simpl. by rewrite Hsc, Hsid, Hver, Htasks. }
  destruct (reload_ledger lg) as [?|]; [|done]. cbn [mbind res_bind] in Hi.
  match type of Hi with life_question_contract ?x _ _ ≫= _ = _ => set (s2 := x) in Hi end.
  destruct (life_question_contract s2 p lg) as [q|] eqn:Eq; [|done]. cbn [mbind res_bind] in Hi.
  destruct (build_life_turn ids q.1 p lg _ _) as [[s' tn]|] eqn:Eb; [|done]. cbn [mbind res_bind] in Hi.
  injection Hi as <- <-. exists pr, st, p, lg, empty_note_state.
  eapply (life_opened_ok ids sc pr st p lg s2); try done; simpl.
  - by rewrite Hsc, Hsid, Hver, Htasks.
  - pose proof (entry_ladder_ok p (lf_task _ _ (ta_frame _ _ _ _ _ Hat))) as (H1 & H2 & _).
    split; [done|]. split; [done|]. simpl. lia.
  - by rewrite Hout, Hrew.
Qed.

Lemma life_gate_active sc s turn pr st p lg n id resp :
  life_ok sc s turn pr st p lg n -> gate (tc_input turn) id resp = Ok tt -> ss_status (outcome (ls_base s)) = ACTIVE.
Proof.
  intros Hk Hg. destruct (ss_status (outcome (ls_base s))) eqn:Hs; [done|]. exfalso. revert Hg.
  rewrite (lk_input _ _ _ _ _ _ _ _ Hk Hs). unfold gate. simpl.
  destruct (raise_if (negb (bool_decide _)) _); [|done]. unfold response_matches_input. by destruct (cr_type resp).
Qed.

(** An answered turn interpreted the response over the active task. *)
Lemma run_life_Ok gw ids sc s turn pr st p lg n resp pq recent r :
  life_ok sc s turn pr st p lg n -> run_life_turn gw ids s resp pq recent = Ok r ->
  exists t, interpret_life gw s p (life_snapshot p) lg resp pq recent = Ok t
    /\ sound_result (LifeSnapshot (life_snapshot p)) lg (ts_apply_result t)
    /\ finish_life_turn ids s p t = Ok r
    /\ (ts_understanding_source t = US_structured_joint -> complete (ar_completion (ts_apply_result t)) = true).
Proof.
  intros Hk Hr. pose proof (ta_frame _ _ _ _ _ (lk_task _ _ _ _ _ _ _ _ Hk)) as Hf. unfold run_life_turn in Hr.
  rewrite (life_resolves_state _ _ _ _ _ _ _ _ Hk) in Hr. destruct (reload_ledger lg); [|done].
  cbn [mbind res_bind] in Hr. destruct (interpret_life _ _ _ _ _ _ _ _) as [t|] eqn:Ei; [|done].
  cbn [mbind res_bind] in Hr. exists t. split; [done|]. split; [by eapply interpret_life_sound; [apply Hf|]|].
  split; [done|]. by eapply joint_completes.
Qed.

Lemma life_reached sc s turn : life_session sc s turn -> exists pr st p lg n, life_ok sc s turn pr st p lg n.
Proof.
  induction 1 as [ids reason bucket s0 s turn Hf Hi|gw ids s turn resp pq recent r _ IH Hid Hg Hr].
  - by eapply start_life_ok.
  - destruct IH as (pr & st & p & lg & n & Hk).
    destruct (run_life_Ok _ _ _ _ _ _ _ _ _ _ _ _ _ _ Hk Hr) as (t & _ & Hs & Hfin & Hj).
    pose proof (life_gate_active _ _ _ _ _ _ _ _ _ _ Hk Hg) as Hopen.
    by apply (finish_ok ids sc s turn pr st p lg n t r Hk Hopen Hs Hfin Hid Hj).
Qed.
End sessions.
