(* ===== verification/LifeProperties.v ===== *)
(** The properties of life sessions, read off their invariant and the effect of a
    turn: resuming, isolation of the tasks, variants chosen from evidence, notes
    emitted once, and an honest reward. *)

From S2P Require Import Prelude.
From S2P Require Import PyStr.
From S2P Require Import PyNum.
From S2P Require Import Json.
From S2P Require Import Schemas.
From S2P Require Import Requests.
From S2P Require Import Evidence.
From S2P Require Import EvidenceTheory.
From S2P Require Import Packs.
From S2P Require Import PackDump.
From S2P Require Import Snapshot.
From S2P Require Import Ledger.
From S2P Require Import LedgerTheory.
From S2P Require Import LedgerProgress.
From S2P Require Import ContentChecks.
From S2P Require Import LifeChecks.
From S2P Require Import ContentTheory.
From S2P Require Import HomeContract.
From S2P Require Import State.
From S2P Require Import Ladder.
From S2P Require Import LadderTheory.
From S2P Require Import Understand.
From S2P Require Import UnderstandTheory.
From S2P Require Import Question.
From S2P Require Import QuestionTheory.
From S2P Require Import Respond.
From S2P Require Import Gate.
From S2P Require Import NoteTheory.
From S2P Require Import SpeakerText.
From S2P Require Import SpeakerPlan.
From S2P Require Import Reply.
From S2P Require Import Speak.
From S2P Require Import Turn.
From S2P Require Import TurnTheory.
From S2P Require Import TurnTotal.
From S2P Require Import LifeScenario.
From S2P Require Import LifeEngine.
From S2P Require Import LifeTheory.
From S2P Require Import LifeSteps.
From S2P Require Import LifeSessions.

Section sessions.
Context `{!Digest} `{!DigestFormat} `{!Nfc} `{!SpeechPort}.
Implicit Types (s : LifeState) (p : LifeTaskPackV2) (lg : ReasoningLedgerV2) (t : TurnSemantics)
  (st : LifeTaskStageV2) (pr : PinnedDialogueScenarioRuntimeV3) (n : PinnedDialogueTaskNoteStateV3)
  (sc : LifeScenarioPackV2).

(** * Properties *)

(** (C6) When a life session resumes.  In every reachable session the pinned scenario is
    exactly the reviewed one and passes the revalidation every turn performs; tasks
    before the active one are complete, tasks after it untouched.  The active task
    resolves, to its own pack and ledger, exactly when no evidence list of its ledger is
    longer than the field bound of 100, and raises otherwise.  The stored record accepts
    the runtime too, provided the scenario's variant keys have the form of stored variant
    ids ([variants_storable]). *)
Theorem life_session_resumes sc s turn :
  life_session sc s turn -> exists pr st p lg n, life_ok sc s turn pr st p lg n
    /\ resolve_life_scenario_runtime_v3 pr = Ok sc
    /\ (variants_storable sc -> scenario_runtime pr = Ok pr)
    /\ (resolve_life_state s = Ok (p, life_snapshot p, lg) <-> evidence_bounded lg)
    /\ (~ evidence_bounded lg -> exists e, resolve_life_state s = Raise e).
Proof.
  intros (pr & st & p & lg & n & Hk)%life_reached. pose proof (lk_sound _ _ _ _ _ _ _ _ Hk) as Hok.
  exists pr, st, p, lg, n. split; [done|]. split; [by apply pinned_resolves|]. split.
  { intros Hst. by eapply pinned_storable, storable_active. }
  destruct (reload_decides lg) as [Hiff Hno]; [apply (ta_frame _ _ _ _ _ (lk_task _ _ _ _ _ _ _ _ Hk))|].
  rewrite (life_resolves_state _ _ _ _ _ _ _ _ Hk). split.
  - destruct (reload_ledger lg) as [lg'|] eqn:Er; cbn [mbind res_bind]; [|by rewrite <- Hiff].
    apply reload_same in Er as ->. by rewrite <- Hiff.
  - intros [e ->]%Hno. by exists e.
Qed.

(** One answered turn of a reachable session, taken apart. *)
Lemma life_answered gw ids sc s turn resp pq recent r :
  life_session sc s turn -> id_field 100 (fresh_note_id ids) = true ->
  gate (tc_input turn) (tc_turn_id turn) resp = Ok tt -> run_life_turn gw ids s resp pq recent = Ok r ->
  exists pr st p lg n t pr', life_ok sc s turn pr st p lg n
    /\ sound_result (LifeSnapshot (life_snapshot p)) lg (ts_apply_result t)
    /\ (complete (ar_completion (ts_apply_result t)) = true
        <-> forall g, ~ open_target (LifePack p) (ar_ledger (ts_apply_result t)) g)
    /\ life_finished ids sc s pr st p n t r /\ life_effect ids sc s pr st p n t r pr'.
Proof.
  intros (pr & st & p & lg & n & Hk)%life_reached Hid Hg Hr.
  pose proof (life_gate_active _ _ _ _ _ _ _ _ _ _ Hk Hg) as Hopen.
  destruct (run_life_Ok _ _ _ _ _ _ _ _ _ _ _ _ _ _ Hk Hr) as (t & _ & Hs & Hfin & _).
  destruct (effect ids sc s turn pr st p lg n t r Hk Hopen Hs Hfin Hid) as [pr' He].
  exists pr, st, p, lg, n, t, pr'. split; [done|]. split; [done|].
  destruct (life_sound_frame p lg (ts_apply_result t)) as [_ Hc];
    [apply (ta_frame _ _ _ _ _ (lk_task _ _ _ _ _ _ _ _ Hk))|done|].
  split; [done|]. split; [|done]. by eapply finish_life.
Qed.

(** (C8) A turn stays in its task: it only grows the ledger of the active task and
    leaves every other task's variant, ledger and notes as they were, except that
    it opens the next task exactly when nothing is left open in this one; the
    scenario is completed exactly when nothing is left open in the last task; the
    turn number goes up by one and within a task support is never withdrawn. *)
Theorem life_turn_isolated gw ids sc s turn resp pq recent r :
  life_session sc s turn -> id_field 100 (fresh_note_id ids) = true ->
  gate (tc_input turn) (tc_turn_id turn) resp = Ok tt -> run_life_turn gw ids s resp pq recent = Ok r ->
  let i := task_index (ls_base s) in let i' := task_index (ls_base (lr_state r)) in
  exists pr st p lg n pr' lg' n', life_ok sc s turn pr st p lg n
    /\ ls_pinned (lr_state r) = Some pr' /\ task_at pr' st p lg' n' /\ maps_grow (maps_of lg) (maps_of lg')
    /\ (forall j st', sc_task_stages sc !! j = Some st' -> j <> i -> (j = S i -> i' = i) ->
         untouched pr pr' (ts_task_id st'))
    /\ (i' = i \/ i' = S i)
    /\ (i' = S i <-> (forall g, ~ open_target (LifePack p) lg' g) /\ is_Some (sc_task_stages sc !! S i))
    /\ (ss_status (outcome (ls_base (lr_state r))) = COMPLETED
        <-> (forall g, ~ open_target (LifePack p) lg' g) /\ sc_task_stages sc !! S i = None)
    /\ state_version (ls_base (lr_state r)) = (state_version (ls_base s) + 1)%Z
    /\ (i' = i -> supports_more (ladder (ls_base s)) (ladder (ls_base (lr_state r)))).
Proof.
  intros Hses Hid Hg Hr i i'.
  destruct (life_answered _ _ _ _ _ _ _ _ _ Hses Hid Hg Hr)
    as (pr & st & p & lg & n & t & pr' & Hk & Hs & Hc & Hfl & [Hp Hat Hoth Hmove]).
  pose proof (lf_identity _ _ _ _ _ _ _ _ _ Hfl) as [= _ _ _ _ Hver].
  exists pr, st, p, lg, n, pr'. do 2 eexists. split; [done|]. split; [done|]. split; [exact Hat|].
  split; [apply Hs|]. rewrite <- Hc. fold i i' in Hoth, Hmove.
  destruct (complete _) eqn:Ef; [destruct (sc_task_stages sc !! S i) as [st2|] eqn:En|].
  - destruct Hmove as (Hi & Hact & _). rewrite Hi, Hact.
    split; [intros j st' Hj Hne Hj'; apply (Hoth j); [done|done|]; intros _ ->; specialize (Hj' eq_refl); lia|].
    split; [by right|]. split; [by split; [|eauto]|]. split; [by split; [|intros [_ ?]]|].
    split; [done|]. intros He. lia.
  - destruct Hmove as (Hi & Hact & Hl). rewrite Hi, Hact.
    split; [intros j st' Hj Hne _; apply (Hoth j); [done|done|]; intros _ ->; congruence|].
    split; [by left|]. split; [split; [intros; lia|by intros [_ [? ?]]]|]. split; [done|]. split; [done|].
    intros _. rewrite Hl. apply policy_more, Hk.
  - destruct Hmove as (Hi & Hact & Hl). rewrite Hi, Hact.
    split; [intros j st' Hj Hne _; by apply (Hoth j)|].
    split; [by left|]. split; [split; [intros; lia|by intros [? _]]|]. split; [by split; [|intros [? _]]|]. split; [done|].
    intros _. rewrite Hl. apply policy_more, Hk.
Qed.

Lemma untouched_task_at pr pr' st p lg n : untouched pr pr' (ts_task_id st) -> task_at pr st p lg n -> task_at pr' st p lg n.
Proof.
  intros [= Hv Hl Hn] [(v & Hav & Hp) Hlg Hno Hf Hnk]. split; try done; [|by rewrite Hl|by rewrite Hn].
  exists v. by rewrite Hv.
Qed.

(** A task up to the one just finished is complete, with the ledger the turn read. *)
Lemma source_task ids sc s turn pr st p lg n t r pr' j src :
  life_ok sc s turn pr st p lg n -> life_effect ids sc s pr st p n t r pr' ->
  (forall g, ~ open_target (LifePack p) (ar_ledger (ts_apply_result t)) g) ->
  sc_task_stages sc !! j = Some src -> j <= task_index (ls_base s) ->
  exists p0 lg0 n0, task_at pr' src p0 lg0 n0 /\ (forall g, ~ open_target (LifePack p0) lg0 g)
    /\ forall n', pr_reasoning_ledgers (set_task pr (ts_task_id st) (ar_ledger (ts_apply_result t)) n')
         !! ts_task_id src = Some lg0.
Proof.
  intros Hk [_ Hat Hoth _] Hc Hsrc Hj. destruct (decide (j = task_index (ls_base s))) as [->|Hne].
  - rewrite (lk_stage _ _ _ _ _ _ _ _ Hk) in Hsrc. injection Hsrc as <-. do 3 eexists.
    split; [exact Hat|]. split; [done|]. intros n'. simpl. by rewrite lookup_insert_eq.
  - destruct (po_tasks _ _ (lk_sound _ _ _ _ _ _ _ _ Hk) src (list_elem_of_lookup_2 _ _ _ Hsrc)) as (p0 & lg0 & n0 & Ha).
    exists p0, lg0, n0. split; [|split].
    + eapply untouched_task_at; [|exact Ha]. apply (Hoth j); [done|done|]. intros _. lia.
    + eapply (td_complete (outcome (ls_base s))), (lk_past _ _ _ _ _ _ _ _ Hk j src); [lia|done|exact Ha].
    + intros n'. simpl. rewrite lookup_insert_ne; [by apply Ha|]. apply not_eq_sym. by eapply other_index.
Qed.

(** (C7) What comes next follows from what the child showed: when a turn opens the next
    task, that task runs its default variant if it has no selector; otherwise an
    earlier, completed task has the selector's fact verified in its ledger, and the
    active variant is the one the reviewed table gives for the verified value. *)
Theorem life_variant_follows_evidence gw ids sc s turn resp pq recent r :
  life_session sc s turn -> id_field 100 (fresh_note_id ids) = true ->
  gate (tc_input turn) (tc_turn_id turn) resp = Ok tt -> run_life_turn gw ids s resp pq recent = Ok r ->
  task_index (ls_base (lr_state r)) <> task_index (ls_base s) ->
  exists pr' st v, ls_pinned (lr_state r) = Some pr'
    /\ sc_task_stages sc !! task_index (ls_base (lr_state r)) = Some st
    /\ pr_active_variant_ids pr' !! ts_task_id st = Some v
    /\ match ts_selector st with
       | None => v = ts_default_variant_id st
       | Some sel => exists j src p lg n e, j < task_index (ls_base (lr_state r))
           /\ sc_task_stages sc !! j = Some src /\ ts_task_id src = sel_source_task_id sel
           /\ task_at pr' src p lg n /\ (forall g, ~ open_target (LifePack p) lg g)
           /\ verified_facts lg !! sel_fact_id sel = Some e
           /\ (value_lookup_key (vf_canonical_value e), v) ∈ sel_value_to_variant_id sel
       end.
Proof.
  intros Hses Hid Hg Hr Hne.
  destruct (life_answered _ _ _ _ _ _ _ _ _ Hses Hid Hg Hr)
    as (pr & st & p & lg & n & t & pr' & Hk & Hs & Hc & Hfl & He).
  pose proof He as [Hp _ _ Hmove].
  destruct (if complete _ then _ else None) as [st2|] eqn:En; [|by destruct Hmove as [? _]].
  destruct Hmove as (Hi & _ & v & p2 & lg2 & Hv & Hact & _).
  destruct (complete _) eqn:Ef in En; [|done]. exists pr', st2, v. rewrite Hi.
  do 3 (split; [done|]). unfold next_variant in Hv. destruct (ts_selector st2) as [sel|] eqn:Esel; [|by injection Hv].
  destruct (sf_selector _ (scenario_validated _ (po_valid _ _ (lk_sound _ _ _ _ _ _ _ _ Hk))) _ _ _ En Esel)
    as (j & src & Hj & Hsrc & Hsid & _).
  destruct (source_task ids sc s turn pr st p lg n t r pr' j src Hk) as (p0 & lg0 & n0 & Hat0 & Hdone & Hlg0);
    [exact He|exact (proj1 Hc Ef)|done|lia|].
  rewrite <- Hsid, Hlg0 in Hv. cbn [or_raise mbind res_bind] in Hv.
  destruct (reload_ledger lg0) as [lg0'|] eqn:El; [|done]. apply reload_same in El as ->. cbn [mbind res_bind] in Hv.
  destruct (verified_facts lg0 !! sel_fact_id sel) as [e|] eqn:Ee; [|done]. cbn [or_raise mbind res_bind] in Hv.
  destruct (find_first _ (sel_value_to_variant_id sel)) as [[k w]|] eqn:Ew; [|done]. injection Hv as <-.
  apply find_first_Some in Ew as [Hin Hkey%bool_decide_eq_true]. simpl in Hkey. subst k.
  exists j, src, p0, lg0, n0, e. by repeat (split; [done|]).
Qed.

(** (C10) Notes are emitted once, when earned: a turn that shows a note finished its task,
    whose note had not been emitted before and whose note relations are all
    verified; the note is recorded under the id shown, and it is attributed to the
    child exactly when the child alone explained every note relation and no joint
    action was used. *)
Theorem life_note_once gw ids sc s turn resp pq recent r nu :
  life_session sc s turn -> id_field 100 (fresh_note_id ids) = true ->
  gate (tc_input turn) (tc_turn_id turn) resp = Ok tt -> run_life_turn gw ids s resp pq recent = Ok r ->
  tc_note_update (lr_turn r) = Some nu ->
  exists pr st p lg n pr' lg' n', life_ok sc s turn pr st p lg n /\ nt_note_emitted n = false
    /\ ls_pinned (lr_state r) = Some pr' /\ task_at pr' st p lg' n'
    /\ nt_emitted_note_id n' = Some (nu_note_id nu)
    /\ (forall g, ~ open_target (LifePack p) lg' g) /\ notes_verified (LifePack p) lg' = true
    /\ (nu_attribution nu = NA_CHILD <-> credited_alone p n' = true).
Proof.
  intros Hses Hid Hg Hr Hnu.
  destruct (life_answered _ _ _ _ _ _ _ _ _ Hses Hid Hg Hr)
    as (pr & st & p & lg & n & t & pr' & Hk & Hs & Hc & Hfl & [Hp Hat _ _]).
  pose proof (life_gate_active _ _ _ _ _ _ _ _ _ _ Hk Hg) as Hopen.
  destruct (lk_open _ _ _ _ _ _ _ _ Hk Hopen) as (_ & [= He _] & _).
  pose proof (lf_note _ _ _ _ _ _ _ _ _ Hfl) as Hn. unfold note_shown in Hn. rewrite Hnu in Hn.
  unfold noted in Hat. destruct (complete _) eqn:Ef; cbn [andb] in Hn, Hat; [|done].
  destruct (note_due _ _ _) eqn:Ed in Hn, Hat; [|done]. destruct Hn as (nu' & [= <-] & Hni & Hna).
  do 8 eexists. split; [exact Hk|]. split; [done|]. split; [exact Hp|]. split; [exact Hat|].
  split; [by rewrite Hni|]. split; [by apply Hc|]. unfold note_due in Ed.
  apply andb_true_iff in Ed as [[_ Hv]%andb_true_iff _]. split; [done|].
  rewrite Hna. unfold life_attribution, credited_alone. simpl. by destruct (_ && _).
Qed.

(** (C9) The reward is honest over several tasks: a completed scenario is reported as
    taught only if every task that keeps a note had all of its note relations
    explained by the child alone, with no joint action, and its note was emitted;
    the reward is granted exactly to taught scenarios. *)
Theorem life_taught_is_solo sc s turn :
  life_session sc s turn -> ss_status (outcome (ls_base s)) = COMPLETED ->
  exists pr, ls_pinned s = Some pr
    /\ teach_reward_eligible (outcome (ls_base s)) = bool_decide (completion_outcome (outcome (ls_base s)) = Some TAUGHT)
    /\ (completion_outcome (outcome (ls_base s)) = Some TAUGHT ->
        forall st, st ∈ sc_task_stages sc -> exists p lg n, task_at pr st p lg n
          /\ (forall g, ~ open_target (LifePack p) lg g)
          /\ (lp_note_policy (lt_policies p) <> note_none -> credited_alone p n = true /\ nt_note_emitted n = true)).
Proof.
  intros (pr & st & p & lg & n & Hk)%life_reached Hc. exists pr. split; [apply Hk|].
  destruct (lk_ended _ _ _ _ _ _ _ _ Hk Hc) as (Hdone & (_ & Hout & Hrew) & Hlast).
  rewrite Hout, Hrew. split; [by destruct (_ && _)|].
  destruct (_ && _) eqn:Ef; [|done]. intros _ st' Hin. apply andb_true_iff in Ef as [Hd Hj%negb_true_iff].
  destruct (po_tasks _ _ (lk_sound _ _ _ _ _ _ _ _ Hk) st' Hin) as (p' & lg' & n' & Hat).
  exists p', lg', n'. split; [done|]. apply list_elem_of_lookup in Hin as [i Hi].
  assert (Hdone' : task_done (outcome (ls_base s)) p' lg' n').
  { destruct (decide (i = task_index (ls_base s))) as [->|Hne].
    - rewrite (lk_stage _ _ _ _ _ _ _ _ Hk) in Hi. injection Hi as <-.
      by destruct (task_at_unique _ _ _ _ _ _ _ _ (lk_task _ _ _ _ _ _ _ _ Hk) Hat) as (-> & -> & ->).
    - eapply (lk_past _ _ _ _ _ _ _ _ Hk i st'); [|done|done].
      apply lookup_ge_None in Hlast. apply lookup_lt_Some in Hi. lia. }
  destruct Hdone' as [Hcomp Hnote Hdirect Hjoint]. split; [done|]. intros Hpol.
  destruct (Hdirect Hd Hpol) as [Hne Hall].
  assert (Hver : notes_verified (LifePack p') lg' = true).
  { apply forallb_forall. intros x Hx%list_elem_of_In. apply bool_decide_eq_true.
    destruct (Hall x Hx) as [l Hl]. by destruct (ln_independent _ _ _ (ta_notes_ok _ _ _ _ _ Hat) x l Hl) as (_ & ? & _). }
  split.
  - unfold credited_alone. apply andb_true_iff. split.
    + apply forallb_forall. intros x Hx%list_elem_of_In. by apply bool_decide_eq_true, Hall.
    + apply negb_true_iff. destruct (nt_joint_performance_used n'); [|done]. by rewrite Hjoint in Hj.
  - rewrite Hnote. unfold note_wanted. by rewrite bool_decide_eq_false_2, Hver.
Qed.
End sessions.
