(* ===== verification/LifeConversation.v ===== *)
(** Life conversations in the store: the life engine behind the store's interface
    ([_engine_for_state] and [_respond_stream_turn_only] of
    [src/mormi_api/service.py], [ensure_task_anchor] of
    [src/mormi_api/dialogue_v2_runtime.py]), and what the life sessions' invariant
    becomes for concurrent conversations. *)

From S2P Require Import Prelude.
From S2P Require Import PyStr.
From S2P Require Import PyNum.
From S2P Require Import Json.
From S2P Require Import Schemas.
From S2P Require Import Requests.
From S2P Require Import Evidence.
From S2P Require Import EvidenceTheory.
From S2P Require Import Packs.
From S2P Require Import PackDump.
From S2P Require Import Snapshot.
From S2P Require Import Ledger.
From S2P Require Import LedgerTheory.
From S2P Require Import LedgerProgress.
From S2P Require Import ContentChecks.
From S2P Require Import LifeChecks.
From S2P Require Import ContentTheory.
From S2P Require Import HomeContract.
From S2P Require Import State.
From S2P Require Import Ladder.
From S2P Require Import LadderTheory.
From S2P Require Import Understand.
From S2P Require Import UnderstandTheory.
From S2P Require Import Question.
From S2P Require Import QuestionTheory.
From S2P Require Import Respond.
From S2P Require Import Gate.
From S2P Require Import NoteTheory.
From S2P Require Import SpeakerText.
From S2P Require Import SpeakerPlan.
From S2P Require Import Reply.
From S2P Require Import Speak.
From S2P Require Import Turn.
From S2P Require Import TurnTheory.
From S2P Require Import TurnTotal.
From S2P Require Import LifeScenario.
From S2P Require Import LifeEngine.
From S2P Require Import LifeTheory.
From S2P Require Import LifeSteps.
From S2P Require Import LifeSessions.
From S2P Require Import Lease.
From S2P Require Import Outbox.
From S2P Require Import Conversation.
From S2P Require Import ConversationTheory.
From S2P Require Import ConversationSafety.
From S2P Require Import HomeConversation.

Section life.
Context `{!Digest} `{!DigestFormat} `{!Nfc} `{!SpeechPort} `{!Fernet}.
Implicit Types (s : LifeState) (p : LifeTaskPackV2).

(** [ensure_task_anchor], with the life engine's resolution, question and anchor. *)
Definition ensure_life_anchor s (turn : TurnContract) : res TurnContract :=
  if bool_decide (is_Some (tc_task_anchor turn)) || bool_decide (tc_status turn = COMPLETED) then Ok turn
  else resolved ← resolve_life_state s;
       let '(pack, _, lg) := resolved in
       question ← life_question_contract s pack lg;
       a ← life_task_anchor pack (qc_input question.2);
       Ok (with_anchor turn a).

(** The life engine behind the store: a conversation starts from a materialized
    scenario, and a turn is computed for the text on screen. *)
#[export] Instance LifeEngine : TurnEngine LifeState := {
  st_version s := state_version (ls_base s);
  st_turn s := current_turn_id (ls_base s);
  st_status s := ss_status (outcome (ls_base s));
  st_clear_evidence s := s;
  st_anchor := ensure_life_anchor;
  st_gate _ t r := gate (tc_input t) (tc_turn_id t) r;
  st_starts s t := exists sc ids reason bucket s0, life_fresh s0 /\
    initialize_scenario_state ids sc reason bucket s0 = Ok (s, t);
  st_answers s t r s' t' := gate (tc_input t) (tc_turn_id t) r = Ok tt /\
    exists gw ids recent result, id_field 100 (fresh_note_id ids) = true /\
      run_life_turn gw ids s r (mc_text (tc_mormi t)) recent = Ok result /\
      s' = lr_state result /\ t' = lr_turn result
}.

Lemma life_anchor_same s t t' : ensure_life_anchor s t = Ok t' -> t' = t \/ exists a, t' = with_anchor t a.
Proof.
  unfold ensure_life_anchor. destruct (_ || _); [intros [= <-]; by left|].
  destruct (resolve_life_state s) as [[[pack snap] lg]|]; [|done]. cbn [mbind res_bind].
  destruct (life_question_contract _ _ _) as [q|]; [|done]. cbn [mbind res_bind].
  destruct (life_task_anchor _ _) as [a|]; [|done]. intros [= <-]. right. by exists a.
Qed.

(** ** The version and the turn of a state *)

Notation version s := (state_version (ls_base s)).

Lemma question_version s p lg out : life_question_contract s p lg = Ok out -> version out.1 = version s.
Proof. destruct out as [s' q]. intros [[j ->] _]%life_question_shows. done. Qed.

Lemma apply_version s next p t out : apply_life s next p t = Ok out -> version out = version next.
Proof.
  unfold apply_life, life_ladder_policy, store_life_ledger, track_life_notes. intros Ha. res_inv.
  all: by repeat (case_match; simplify_eq; res_inv; simpl).
Qed.

Lemma complete_version s p t out : complete_life s p t = Ok out -> version out = version s.
Proof.
  unfold complete_life. intros Hc. res_inv. destruct (resolve_scenario s) as [[sc pr]|]; [|done].
  by repeat (case_match; simplify_eq; res_inv; simpl).
Qed.

Lemma note_version s p lg i out : life_note_update s p lg i = Ok out -> version out.1 = version s.
Proof.
  unfold life_note_update. intros Hn. by repeat (case_match; simplify_eq; res_inv; simpl).
Qed.

Lemma build_version ids s p lg text mood s' turn :
  build_life_turn ids s p lg text mood = Ok (s', turn) -> version s' = version s.
Proof.
  unfold build_life_turn. destruct (current_task_id _); [|done]. cbn [mbind res_bind].
  set (transitioned := negb _). destruct (if transitioned || _ then _ else _) as [noted|] eqn:En; [|done].
  cbn [mbind res_bind]. assert (Hv : version noted.1 = version s).
  { destruct (transitioned || _); [by eapply note_version|]. by injection En as <-. }
  match goal with |- (shown ← ?e; _) = Ok _ -> _ => destruct e as [[[s1 p1] lg1]|] eqn:Es; [|done] end.
  cbn [mbind res_bind].
  assert (Hv1 : version s1 = version s) by (destruct transitioned; res_inv; done).
  destruct (life_question_contract s1 p1 lg1) as [out|] eqn:Eq; [|done]. apply question_version in Eq.
  cbn [mbind res_bind]. intros Hb. res_inv. congruence.
Qed.

Lemma finish_version ids s p t r : finish_life_turn ids s p t = Ok r ->
  current_turn_id (ls_base (lr_state r)) = Some (tc_turn_id (lr_turn r)) /\ version (lr_state r) = (version s + 1)%Z.
Proof.
  unfold finish_life_turn. destruct (apply_life _ _ _ _) as [next|] eqn:Ea; [|done]. apply apply_version in Ea.
  cbn [mbind res_bind]. destruct (if complete _ then _ else _) as [spoken|] eqn:Es; [|done]. cbn [mbind res_bind].
  assert (Hs : version spoken.1 = version next).
  { destruct (complete _).
    - destruct (complete_life next p t) as [d|] eqn:Ec; [|done]. apply complete_version in Ec. by injection Es as <-.
    - apply life_speech_Ok in Es as [j ->]. done. }
  unfold compose_life. destruct (build_life_turn _ _ _ _ _ _) as [[s' turn]|] eqn:Eb; [|done].
  apply build_version in Eb. intros [= <-]. split; [done|]. simpl in *. lia.
Qed.

Lemma run_version gw ids s resp pq recent r : run_life_turn gw ids s resp pq recent = Ok r ->
  current_turn_id (ls_base (lr_state r)) = Some (tc_turn_id (lr_turn r)) /\ version (lr_state r) = (version s + 1)%Z.
Proof.
  unfold run_life_turn. destruct (resolve_life_state s) as [[[p snap] lg]|]; [|done]. cbn [mbind res_bind].
  destruct (interpret_life _ _ _ _ _ _ _ _) as [t|]; [|done]. apply finish_version.
Qed.

#[export] Instance LifeEngineLaws : TurnEngineLaws LifeState.
Proof.
  split; try done.
  - intros s t (sc & ids & reason & bucket & s0 & Hf & Hi). by destruct (life_reached sc s t) as
      (pr & st & p & lg & n & Hk); [by eapply life_start|apply Hk].
  - intros s t r s' t' (_ & gw & ids & recent & res & _ & Hrun & -> & ->). by eapply run_version.
  - intros s t r. unfold st_gate, LifeEngine, gate. intros Hg. destruct (bool_decide (tc_turn_id t = _)) eqn:Ht; [|done].
    by apply bool_decide_eq_true in Ht.
  - intros s t t' [-> |[a ->]]%life_anchor_same; done.
  - intros s t t1 r s' t' [-> |[a ->]]%life_anchor_same; done.
Qed.

(** A conversation the store holds is a life session. *)
Lemma sequential_life s t : sequential s t -> exists sc, life_session sc s t.
Proof.
  induction 1 as [s t Hs|s t r s' t' _ [sc IH] Ha|s t _ IH].
  - destruct Hs as (sc & ids & reason & bucket & s0 & Hf & Hi). exists sc. by eapply life_start.
  - destruct Ha as (Hg & gw & ids & recent & res & Hid & Hrun & -> & ->). exists sc. by eapply life_turn.
  - done.
Qed.

(** (C16) Concurrent life conversations are consistent: in every system reachable by any
    interleaving of responses, retries, creations and purges, each stored life
    conversation and the turn it shows satisfy the invariant of life sessions, and
    its pinned scenario resolves to the reviewed one. *)
Theorem life_conversations_consistent (y : System LifeState) c :
  reachable y -> c ∈ db_conversations (sy_db y) ->
  exists sc turn pr st p lg n, active_turn (cn_state_json c) (sy_db y) = Ok turn
    /\ life_ok sc (se_engine (cn_state_json c)) turn pr st p lg n
    /\ resolve_life_scenario_runtime_v3 pr = Ok sc.
Proof.
  intros Hy Hc. destruct (stored_conversation_sequential y c Hy Hc) as (turn & Hact & Hsq).
  apply sequential_life in Hsq as [sc Hses]. destruct (life_reached _ _ _ Hses) as (pr & st & p & lg & n & Hk).
  exists sc, turn, pr, st, p, lg, n. split; [done|]. split; [done|]. apply pinned_resolves, Hk.
Qed.
End life.
