(* ===== verification/LifeWitnesses.v ===== *)
(** A small life scenario of two tasks (the child picks a drink, and the drink
    decides which change the second task asks for), and the properties of life
    sessions on it: played through with choices and in the child's own words, and
    with a validated selector that cannot follow an accepted answer. *)

From S2P Require Import Prelude.
From S2P Require Import PyStr.
From S2P Require Import PyNum.
From S2P Require Import Json.
From S2P Require Import Schemas.
From S2P Require Import Requests.
From S2P Require Import Evidence.
From S2P Require Import Packs.
From S2P Require Import PackDump.
From S2P Require Import Snapshot.
From S2P Require Import Ledger.
From S2P Require Import LedgerProgress.
From S2P Require Import ContentChecks.
From S2P Require Import LifeChecks.
From S2P Require Import State.
From S2P Require Import Ladder.
From S2P Require Import Understand.
From S2P Require Import Question.
From S2P Require Import Respond.
From S2P Require Import Gate.
From S2P Require Import SpeakerText.
From S2P Require Import SpeakerPlan.
From S2P Require Import Reply.
From S2P Require Import Speak.
From S2P Require Import Turn.
From S2P Require Import Samples.
From S2P Require Import Witnesses.
From S2P Require Import SessionWitnesses.
From S2P Require Import Lease.
From S2P Require Import Outbox.
From S2P Require Import Conversation.
From S2P Require Import ConversationSafety.
From S2P Require Import ConversationWitnesses.
From S2P Require Import LifeScenario.
From S2P Require Import LifeEngine.
From S2P Require Import LifeTheory.
From S2P Require Import LifeSteps.
From S2P Require Import LifeSessions.
From S2P Require Import LifeProperties.
From S2P Require Import LifeConversation.

(** * Tasks *)

Definition ask_fact (i : string) : TargetRefV2 :=
  {| target_kind := KIND_fact; target_id := i; ask_kind := ASK_answer |}.
Definition ask_relation (i : string) : TargetRefV2 :=
  {| target_kind := KIND_relation; target_id := i; ask_kind := ASK_reason_or_method |}.

Definition one_question (plan text : string) (targets : list TargetRefV2) : QuestionPlanV2 :=
  {| qp_plan_id := plan; qp_targets := targets; qp_reviewed_fallback := text |}.

Definition one_slot (name : string) (u : CopyPurpose) (targets : list TargetRefV2) : CopySlotV2 := {|
  cs_copy_slot := name; cs_purpose := u; cs_targets := targets; cs_generation_brief := "-";
  cs_reviewed_fallback := "알려줄 수 있어?" |}.

Definition one_choice (i label : string) (e : LifeChoiceEffectV2) : LifeChoiceV2 :=
  {| lch_choice_id := i; lch_label := label; lch_image_url := None; lch_disabled := false; lch_effect := e |}.
Definition right_effect (facts : list LifeFactUpdateV2) (relations : list string) : LifeChoiceEffectV2 := {|
  le_verdict := choice_correct; le_fact_updates := facts; le_relation_ids := relations;
  le_misconception_code := None; le_visual_patch := [] |}.
Definition wrong_effect : LifeChoiceEffectV2 := {|
  le_verdict := choice_incorrect; le_fact_updates := []; le_relation_ids := [];
  le_misconception_code := Some "guess"; le_visual_patch := [] |}.

Definition one_plan (plan slot : string) (t : TargetRefV2) (choices : list LifeChoiceV2) : LifeL2ChoicePlanV2 := {|
  ll2_plan_id := plan; ll2_target := t; ll2_copy_slot := slot; ll2_choices := choices;
  ll2_input_config := []; ll2_submit_label := "알려주기" |}.

Definition one_card (l : HintLevel) (u : SupportType) (a : AnswerPolicy) (facts relations : list string) : LifeHelpCardV2 := {|
  lhc_level := l; lhc_support_type := u; lhc_answer_policy := a; lhc_body := "-"; lhc_action := None;
  lhc_visual_type := None; lhc_visual_data := []; lhc_revealed_fact_ids := facts;
  lhc_revealed_relation_ids := relations |}.

Definition no_note_policy (level : ExpressionLevel) : LifeTaskPoliciesV2 := {|
  lp_entry_expression_level := level; lp_note_policy := note_none; lp_note_relation_ids := [];
  lp_note_skill_id := None; lp_note_context := None; lp_reviewed_direct_fallback := None;
  lp_reviewed_coauthored_note := None; lp_transition_text := Some "고마워." |}.
Definition note_policy (level : ExpressionLevel) : LifeTaskPoliciesV2 := {|
  lp_entry_expression_level := level; lp_note_policy := verified_child_or_coauthored;
  lp_note_relation_ids := ["take_price"]; lp_note_skill_id := Some "money"; lp_note_context := Some "카페";
  lp_reviewed_direct_fallback := Some "낸 돈에서 빼면 거스름돈이야."; lp_reviewed_coauthored_note := Some "같이 뺐어.";
  lp_transition_text := None |}.

(** A task built from its graph, its required targets with their choices, the
    values its joint action fills in, and its policies. *)
Definition make_task (pack task : string) (phase : LifePhase) (facts : list LifeFactV2)
    (relations : list LifeRelationV2) (fact_ids relation_ids : list string)
    (choices : list (TargetRefV2 * list LifeChoiceV2)) (joint : list JointCompletionV2)
    (policies : LifeTaskPoliciesV2) : LifeTaskPackV2 :=
  let targets := map ask_fact fact_ids ++ map ask_relation relation_ids in {|
    lt_pack_id := pack; lt_content_version := 1; lt_scene := CAFE; lt_scenario_id := "drink"; lt_task_id := task;
    lt_stage_id := "stage"; lt_phase := phase; lt_skill_id := "money"; lt_title := "카페";
    lt_dictionary_card_id := "card"; lt_source_prompt := "무엇을 살까?";
    lt_base_visual := {| vc_type := "cafe"; vc_data := [] |};
    lt_reasoning_graph := {|
      lg_facts := facts; lg_relations := relations;
      lg_completion := {| required_fact_ids := fact_ids; required_relation_ids := relation_ids |};
      lg_open_auxiliary_claims := true |};
    lt_initial_question := one_question "initial" "알려줄 수 있어?" targets;
    lt_l3_plans := map (fun t => one_question (("l3." ++ target_id t)%string) "무엇일까?" [t]) targets;
    lt_copy_slots := one_slot "help" initial_help (take 1 targets) :: one_slot "intro" l0_intro targets
      :: one_slot "action" l0_action targets
      :: map (fun t => one_slot ("slot." ++ target_id t)%string l2_question [t]) targets;
    lt_l2_plans := map (fun tc => one_plan ("l2." ++ target_id tc.1)%string ("slot." ++ target_id tc.1)%string tc.1 tc.2)
                     choices;
    lt_l0_joint_plan := {|
      ljp_action_id := "together"; ljp_intro_copy_slot := "intro"; ljp_action_copy_slot := "action";
      ljp_completion_values := joint; ljp_button_label := "같이 하기"; ljp_input_config := [] |};
    lt_help_plan := {|
      lhp_H1 := one_card H1 attention hidden [] []; lhp_H2 := one_card H2 guided_action partial [] [];
      lhp_H3 := one_card H3 joint_model revealed fact_ids relation_ids |};
    lt_policies := policies |}.

(** Picking a drink: either answer is accepted. *)
Definition drink : LifeFactV2 := {|
  lf_fact_id := "chosen_menu"; lf_role := selection; lf_value := ChoiceValueV2 "juice";
  lf_accepted_values := [ChoiceValueV2 "milk"]; lf_speaker_label := "고른 음료"; lf_initially_visible := false;
  lf_required_for_completion := true; lf_accepted_surface_forms := ["주스"; "우유"] |}.

Definition pick (v : string) : LifeChoiceEffectV2 :=
  right_effect [{| lu_fact_id := "chosen_menu"; lu_value := ChoiceValueV2 v |}] [].

Definition order_task (level : ExpressionLevel) : LifeTaskPackV2 :=
  make_task "cafe.order" "order" ph_selection [drink] [] ["chosen_menu"] []
    [(ask_fact "chosen_menu", [one_choice "juice" "주스" (pick "juice"); one_choice "milk" "우유" (pick "milk");
                               one_choice "tea" "차" wrong_effect])]
    [JointFactCompletionV2 "chosen_menu" (ChoiceValueV2 "juice")] (no_note_policy level).

(** The change from 1000 won. *)
Definition won (n : Z) : CanonicalValueV2 := MoneyValueV2 (PyInt n) "KRW".
Definition money_fact (i : string) (role : FactRole) (v : Z) (forms : list string) : LifeFactV2 := {|
  lf_fact_id := i; lf_role := role; lf_value := won v; lf_accepted_values := []; lf_speaker_label := i;
  lf_initially_visible := bool_decide (role = visible_value);
  lf_required_for_completion := bool_decide (role = final_answer); lf_accepted_surface_forms := forms |}.
Definition take_price : LifeRelationV2 := {|
  lr_relation_id := "take_price"; lr_role := explanation; lr_operation := R_subtraction; lr_comparison_goal := None;
  lr_input_fact_ids := ["paid"; "price"]; lr_output_fact_id := "change"; lr_evaluation_mode := open_semantic_support;
  lr_speaker_label := "낸 돈에서 값을 빼기";
  lr_rubric := {| rr_sufficient := ["뺀다"]; rr_partial := ["센다"]; rr_incorrect := ["더한다"] |};
  lr_required_for_completion := true |}.

Definition pay_task (level : ExpressionLevel) (menu : string) (price : Z) (form : string) : LifeTaskPackV2 :=
  make_task ("cafe.pay." ++ menu)%string "pay" ph_calculation
    [money_fact "paid" visible_value 1000 []; money_fact "price" visible_value price [];
     money_fact "change" final_answer (1000 - price) [form]] [take_price] ["change"] ["take_price"]
    [(ask_fact "change", [one_choice "right" form (right_effect [{| lu_fact_id := "change"; lu_value := won (1000 - price) |}] []);
                          one_choice "wrong" "900원" wrong_effect]);
     (ask_relation "take_price", [one_choice "minus" "빼기" (right_effect [] ["take_price"]);
                                  one_choice "plus" "더하기" wrong_effect])]
    [JointFactCompletionV2 "change" (won (1000 - price)); JointRelationCompletionV2 "take_price"] (note_policy level).

(** * The scenario *)

Definition cafe (level : ExpressionLevel) (table : list (string * string)) : LifeScenarioPackV2 := {|
  sc_pack_id := "cafe.drink"; sc_content_version := 1; sc_scene := CAFE; sc_scenario_id := "drink";
  sc_task_stages := [
    {| ts_task_id := "order"; ts_default_variant_id := "default"; ts_variants := [("default", order_task level)];
       ts_selector := None |};
    {| ts_task_id := "pay"; ts_default_variant_id := "juice";
       ts_variants := [("juice", pay_task level "juice" 700 "300원"); ("milk", pay_task level "milk" 500 "500원")];
       ts_selector := Some {| sel_source_task_id := "order"; sel_fact_id := "chosen_menu";
                              sel_value_to_variant_id := table |} |}];
  sc_completion_projection := [
    {| lc_output_key := "menu"; lc_source_task_id := "order"; lc_source_kind := PS_fact;
       lc_source_id := "chosen_menu"; lc_relation_value := None |};
    {| lc_output_key := "change"; lc_source_task_id := "pay"; lc_source_kind := PS_fact; lc_source_id := "change";
       lc_relation_value := None |};
    {| lc_output_key := "method"; lc_source_task_id := "pay"; lc_source_kind := PS_relation_constant;
       lc_source_id := "take_price"; lc_relation_value := Some (PV_str "subtract") |}] |}.

Definition every_drink : list (string * string) := [("juice", "juice"); ("milk", "milk")].

(** The state the service opens the conversation with. *)
Definition cafe_state : LifeState := {|
  ls_base := {|
    runtime_contract_version := VERDICT_V1; pinned_dialogue_v2 := None; task_ids := ["order"; "pay"]; task_index := 0;
    subgoal_id := "initial"; state_version := 1; current_turn_id := None;
    ladder := {| expression_level := L4; hint_level := H0; task_max_hint := H0; expression_failures := 0;
                 concept_failures := 0; vague_clarifications := 0; unrelated_count := 0 |};
    notes := {| child_note_evidence := ∅; supported_note_slots := [] |};
    outcome := {| ss_status := ACTIVE; completion_outcome := None; teach_reward_eligible := false;
                  all_tasks_direct := true; joint_performance_used := false; verified_slots := ∅;
                  completed_task_slots := ∅ |} |};
  ls_scene := CAFE; ls_scenario_id := "drink"; ls_pinned := None; ls_visual_patches := ∅;
  ls_transition_from := None |}.

Lemma cafe_validated level : memb level [L4; L2] = true ->
  life_scenario_validate (cafe level every_drink) = Ok (cafe level every_drink).
Proof. destruct level; intros Hl; try discriminate Hl; vm_compute; reflexivity. Qed.

(** * The sample played through

    The properties of life sessions at concrete inputs: the sample scenario played
    through once with choices and once in the child's own words, and a validated
    scenario whose selector cannot follow an accepted answer. *)

Lemma pinned_scenario_roundtrip_witness :
  exists pr, pin_life_scenario_runtime_v3 (cafe L2 every_drink) None None None "stable" (Some 7%Z) = Ok pr
    /\ resolve_life_scenario_runtime_v3 pr = Ok (cafe L2 every_drink).
Proof.
  destruct (pinned_scenario_roundtrip (cafe L2 every_drink) "stable" (Some 7%Z)) as (pr & Hp & _ & Hr & _).
  - apply cafe_validated. reflexivity.
  - reflexivity.
  - exact (ex_intro _ pr (conj Hp Hr)).
Defined.

(** * Choices *)

Definition cafe_scenario : LifeScenarioPackV2 := cafe L2 every_drink.

Definition start_of (sc : LifeScenarioPackV2) : res (LifeState * TurnContract) :=
  initialize_scenario_state (ids_n "turn-1" "note-1") sc "stable" (Some 7%Z) cafe_state.

Lemma cafe_start_ok : is_ok (start_of cafe_scenario) = true.
Proof. vm_compute. reflexivity. Qed.
Definition cafe_start : LifeState * TurnContract := from_ok _ cafe_start_ok.

Lemma cafe_start_session : life_session cafe_scenario cafe_start.1 cafe_start.2.
Proof.
  apply (life_start _ (ids_n "turn-1" "note-1") "stable" (Some 7%Z) cafe_state); [by split|].
  change (start_of cafe_scenario = Ok (cafe_start.1, cafe_start.2)).
  destruct cafe_start eqn:E. simpl. rewrite <- E. apply from_ok_eq.
Qed.

(** Choosing [c] in answer to [turn]; the model is never asked. *)
Definition choose (turn c : string) : ChildResponse := {|
  cr_turn_id := turn; cr_type := RT_CHOICE; cr_text := None; cr_choice_ids := [c]; cr_values := ∅;
  cr_no_response_kind := None |}.
Definition no_gateway (_ : nat) (_ : UnderstandingRequestV2) : GatewayOutcome := GW_ModelUnavailableError.

Definition choice_turn (s : LifeState) (turn c new note : string) : res LifeTurnResult :=
  run_life_turn no_gateway (ids_n new note) s (choose turn c) "뭘까?" [].

Lemma milk_ok : is_ok (choice_turn cafe_start.1 "turn-1" "milk" "turn-2" "note-2") = true.
Proof. vm_compute. reflexivity. Qed.
Definition milk : LifeTurnResult := from_ok _ milk_ok.
Lemma milk_gate : gate (tc_input cafe_start.2) (tc_turn_id cafe_start.2) (choose "turn-1" "milk") = Ok tt.
Proof. vm_compute. reflexivity. Qed.

Lemma milk_session : life_session cafe_scenario (lr_state milk) (lr_turn milk).
Proof.
  apply (life_turn _ no_gateway (ids_n "turn-2" "note-2") cafe_start.1 cafe_start.2 (choose "turn-1" "milk") "뭘까?" []).
  - exact cafe_start_session.
  - reflexivity.
  - exact milk_gate.
  - apply from_ok_eq.
Qed.

Lemma change_ok : is_ok (choice_turn (lr_state milk) "turn-2" "right" "turn-3" "note-3") = true.
Proof. vm_compute. reflexivity. Qed.
Definition change : LifeTurnResult := from_ok _ change_ok.

Lemma change_session : life_session cafe_scenario (lr_state change) (lr_turn change).
Proof.
  apply (life_turn _ no_gateway (ids_n "turn-3" "note-3") (lr_state milk) (lr_turn milk) (choose "turn-2" "right") "뭘까?" []).
  - exact milk_session.
  - reflexivity.
  - vm_compute. reflexivity.
  - apply from_ok_eq.
Qed.

Lemma minus_ok : is_ok (choice_turn (lr_state change) "turn-3" "minus" "turn-4" "note-4") = true.
Proof. vm_compute. reflexivity. Qed.
Definition minus : LifeTurnResult := from_ok _ minus_ok.
Lemma minus_gate : gate (tc_input (lr_turn change)) (tc_turn_id (lr_turn change)) (choose "turn-3" "minus") = Ok tt.
Proof. vm_compute. reflexivity. Qed.

(** The milk chosen in the first task opens the second task's milk variant. *)
Lemma milk_moves : task_index (ls_base (lr_state milk)) <> task_index (ls_base cafe_start.1).
Proof. vm_compute. discriminate. Qed.

Lemma life_variant_follows_evidence_witness :
  exists pr' st v, ls_pinned (lr_state milk) = Some pr' /\ sc_task_stages cafe_scenario !! 1 = Some st
    /\ pr_active_variant_ids pr' !! ts_task_id st = Some v.
Proof.
  destruct (life_variant_follows_evidence no_gateway (ids_n "turn-2" "note-2") cafe_scenario cafe_start.1 cafe_start.2
    (choose "turn-1" "milk") "뭘까?" [] milk cafe_start_session eq_refl milk_gate (from_ok_eq _ milk_ok) milk_moves)
    as (pr' & st & v & Hp & Hst & Hv & _).
  assert (Hi : task_index (ls_base (lr_state milk)) = 1) by (vm_compute; reflexivity).
  rewrite Hi in Hst. exact (ex_intro _ pr' (ex_intro _ st (ex_intro _ v (conj Hp (conj Hst Hv))))).
Defined.

Lemma milk_variant : (pr ← ls_pinned (lr_state milk); pr_active_variant_ids pr !! "pay") = Some "milk".
Proof. vm_compute. reflexivity. Qed.

Lemma milk_resolves_ok : is_ok (resolve_life_state (lr_state milk)) = true.
Proof. vm_compute. reflexivity. Qed.

Lemma life_session_resumes_witness :
  exists pr p lg, resolve_life_scenario_runtime_v3 pr = Ok cafe_scenario /\ evidence_bounded lg
    /\ resolve_life_state (lr_state milk) = Ok (p, life_snapshot p, lg).
Proof.
  destruct (life_session_resumes cafe_scenario (lr_state milk) (lr_turn milk) milk_session)
    as (pr & st & p & lg & n & _ & Hs & _ & Hr & Hno). exists pr, p, lg. split; [exact Hs|].
  assert (Hb : evidence_bounded lg).
  { apply dec_stable. intros Hn. destruct (Hno Hn) as [e He]. pose proof milk_resolves_ok as Hok. rewrite He in Hok. discriminate Hok. }
  exact (conj Hb (proj2 Hr Hb)).
Defined.

Lemma life_turn_isolated_witness :
  state_version (ls_base (lr_state milk)) = (state_version (ls_base cafe_start.1) + 1)%Z
  /\ task_index (ls_base (lr_state milk)) = S (task_index (ls_base cafe_start.1)).
Proof.
  destruct (life_turn_isolated no_gateway (ids_n "turn-2" "note-2") cafe_scenario cafe_start.1 cafe_start.2
    (choose "turn-1" "milk") "뭘까?" [] milk cafe_start_session eq_refl milk_gate (from_ok_eq _ milk_ok))
    as (pr & st & p & lg & n & pr' & lg' & n' & _ & _ & _ & _ & _ & Hi & _ & _ & Hv & _).
  split; [exact Hv|]. destruct Hi as [Hi|Hi]; [|exact Hi]. destruct (milk_moves Hi).
Defined.

(** The last choice completes the scenario and shows its note. *)
Definition shown_note : NoteUpdate := {|
  nu_note_id := "note-4"; nu_skill_id := "money"; nu_text := "같이 뺐어."; nu_attribution := NA_COAUTHORED;
  nu_evidence := SUPPORTED_COMPLETION |}.
Lemma minus_note : tc_note_update (lr_turn minus) = Some shown_note.
Proof. vm_compute. reflexivity. Qed.

Lemma life_note_once_witness :
  exists n p lg', nt_note_emitted n = false /\ notes_verified (LifePack p) lg' = true.
Proof.
  destruct (life_note_once no_gateway (ids_n "turn-4" "note-4") cafe_scenario (lr_state change) (lr_turn change)
    (choose "turn-3" "minus") "뭘까?" [] minus shown_note change_session eq_refl minus_gate (from_ok_eq _ minus_ok) minus_note)
    as (pr & st & p & lg & n & pr' & lg' & n' & _ & He & _ & _ & _ & _ & Hv & _).
  exact (ex_intro _ n (ex_intro _ p (ex_intro _ lg' (conj He Hv)))).
Defined.

(** * The child's own words *)

Definition spoken_scenario : LifeScenarioPackV2 := cafe L4 every_drink.

Definition say (turn text : string) : ChildResponse := {|
  cr_turn_id := turn; cr_type := RT_TEXT; cr_text := Some (utf8_decode text); cr_choice_ids := [];
  cr_values := ∅; cr_no_response_kind := None |}.

Definition understood (cs : list UnderstandingClaimV2) : UnderstandingResponseV2 := {|
  utterance_class := LEARNING_RESPONSE; conversation_move := CM_NONE; move_subject := MS_OTHER;
  question_focus := None; support_need := SN_NONE; ui_reference := None; non_learning_kind := None;
  contains_learning_evidence := true; answer_status := AS_COMPLETE; reasoning_status := RS_SUFFICIENT;
  claims := cs; confidence := CONF_HIGH |}.
Definition answers_fact (i span : string) (v : CanonicalValueV2) : UnderstandingClaimV2 := FactClaim {|
  fc_claim_id := "c1"; fc_fact_id := i; fc_claim_type := CT_final_answer; fc_evidence_span := utf8_decode span;
  fc_interpreted_value := Some v; fc_verdict := V_correct; fc_confidence := None |}.
Definition explains (i span : string) : UnderstandingClaimV2 := RelationClaim {|
  rc_claim_id := "c2"; rc_relation_id := i; rc_claim_type := CT_procedure_step; rc_evidence_span := utf8_decode span;
  rc_verdict := V_correct; rc_arithmetic_interpretation := None; rc_confidence := None |}.
Definition hears (cs : list UnderstandingClaimV2) (_ : nat) (_ : UnderstandingRequestV2) : GatewayOutcome :=
  GW_response (understood cs).

Definition milk_words : list UnderstandingClaimV2 := [answers_fact "chosen_menu" "우유" (ChoiceValueV2 "milk")].
Definition change_words : list UnderstandingClaimV2 :=
  [answers_fact "change" "500원" (won 500); explains "take_price" "빼면"].

Lemma spoken_start_ok : is_ok (start_of spoken_scenario) = true.
Proof. vm_compute. reflexivity. Qed.
Definition spoken_start : LifeState * TurnContract := from_ok _ spoken_start_ok.

Lemma said_milk_ok : is_ok (run_life_turn (hears milk_words) (ids_n "turn-2" "note-2") spoken_start.1
  (say "turn-1" "우유 먹을래") "뭘까?" []) = true.
Proof. vm_compute. reflexivity. Qed.
Definition said_milk : LifeTurnResult := from_ok _ said_milk_ok.

Lemma said_change_ok : is_ok (run_life_turn (hears change_words) (ids_n "turn-3" "note-3") (lr_state said_milk)
  (say "turn-2" "천 원에서 빼면 500원이야") "뭘까?" []) = true.
Proof. vm_compute. reflexivity. Qed.
Definition said_change : LifeTurnResult := from_ok _ said_change_ok.

Lemma said_change_session : life_session spoken_scenario (lr_state said_change) (lr_turn said_change).
Proof.
  apply (life_turn _ (hears change_words) (ids_n "turn-3" "note-3") (lr_state said_milk) (lr_turn said_milk)
    (say "turn-2" "천 원에서 빼면 500원이야") "뭘까?" []); [|reflexivity|vm_compute; reflexivity|apply from_ok_eq].
  apply (life_turn _ (hears milk_words) (ids_n "turn-2" "note-2") spoken_start.1 spoken_start.2
    (say "turn-1" "우유 먹을래") "뭘까?" []); [|reflexivity|vm_compute; reflexivity|apply from_ok_eq].
  apply (life_start _ (ids_n "turn-1" "note-1") "stable" (Some 7%Z) cafe_state); [by split|].
  change (start_of spoken_scenario = Ok (spoken_start.1, spoken_start.2)).
  destruct spoken_start eqn:E. simpl. rewrite <- E. apply from_ok_eq.
Qed.

Lemma taught_out_loud : ss_status (outcome (ls_base (lr_state said_change))) = COMPLETED
  /\ completion_outcome (outcome (ls_base (lr_state said_change))) = Some TAUGHT.
Proof. vm_compute. split; reflexivity. Qed.

Lemma life_taught_is_solo_witness :
  exists pr, ls_pinned (lr_state said_change) = Some pr
    /\ forall st, st ∈ sc_task_stages spoken_scenario -> exists p lg n, task_at pr st p lg n
       /\ (lp_note_policy (lt_policies p) <> note_none -> credited_alone p n = true).
Proof.
  destruct taught_out_loud as [Hc Ho].
  destruct (life_taught_is_solo spoken_scenario (lr_state said_change) (lr_turn said_change) said_change_session Hc)
    as (pr & Hp & _ & Ht).
  refine (ex_intro _ pr (conj Hp _)). intros st Hst.
  destruct (Ht Ho st Hst) as (p & lg & n & Hat & _ & Hn).
  exact (ex_intro _ p (ex_intro _ lg (ex_intro _ n (conj Hat (fun H => proj1 (Hn H)))))).
Defined.

(** * A life session kept through the store *)

#[local] Existing Instance no_cipher.

Definition cafe_lesson : Session LifeState := {|
  se_conversation_id := "cafe"; se_key := lesson_key; se_raw_storage_enabled := true;
  se_raw_retention_until := None; se_permanent := true; se_engine := cafe_start.1 |}.

(** The child chooses the milk, and the turn goes through the store. *)
Definition cafe_milk : Request LifeState := {|
  rq_conversation_id := "cafe"; rq_response_id := "r"; rq_response := choose "turn-1" "milk";
  rq_run e t := r ← run_life_turn no_gateway (ids_n "turn-2" "note-2") e (choose "turn-1" "milk") (mc_text (tc_mormi t)) [];
                Ok (lr_state r, lr_turn r);
  rq_idempotency := 100; rq_rows_ok := true; rq_values_text _ := ""; rq_event_id := "ev";
  rq_star_event_id := "star"; rq_payload := []; rq_star_payload := [] |}.

Lemma cafe_milk_ok : request_ok cafe_milk.
Proof.
  intros e t e' t' Hg Hr. split; [done|]. cbn [rq_run cafe_milk] in Hr.
  destruct (run_life_turn _ _ _ _ _ _) as [r|] eqn:Hrun; [|done]. injection Hr as <- <-.
  by exists no_gateway, (ids_n "turn-2" "note-2"), [], r.
Qed.

Definition cafe_schedule : list (move LifeState) :=
  MCreate cafe_lesson cafe_start.2 :: MArrive cafe_milk :: map (MRun 0) [1; 2; 3; 4; 5]%Z.

Lemma cafe_schedule_ok : Forall move_ok cafe_schedule.
Proof.
  apply Forall_cons. split; [|apply Forall_cons; split; [apply cafe_milk_ok|by repeat constructor]].
  exists cafe_scenario, (ids_n "turn-1" "note-1"), "stable", (Some 7%Z), cafe_state. split; [by split|].
  change (start_of cafe_scenario = Ok (cafe_start.1, cafe_start.2)).
  destruct cafe_start eqn:E. simpl. rewrite <- E. apply from_ok_eq.
Qed.

Lemma cafe_reachable : reachable (played cafe_schedule).
Proof. apply played_reachable; [apply cafe_schedule_ok|]. by vm_compute. Qed.

Lemma life_conversations_consistent_witness :
  exists c, c ∈ db_conversations (sy_db (played cafe_schedule)) /\ cn_state_version c = 2%Z /\
    exists sc turn pr st p lg n, active_turn (cn_state_json c) (sy_db (played cafe_schedule)) = Ok turn
      /\ life_ok sc (se_engine (cn_state_json c)) turn pr st p lg n
      /\ resolve_life_scenario_runtime_v3 pr = Ok sc.
Proof.
  assert (Hc : exists c, head (db_conversations (sy_db (played cafe_schedule))) = Some c /\ cn_state_version c = 2%Z).
  { destruct (head _) as [c|] eqn:Hh; [|by vm_compute in Hh]. exists c. split; [done|].
    assert (Hv : cn_state_version <$> head (db_conversations (sy_db (played cafe_schedule))) = Some 2%Z) by (by vm_compute).
    rewrite Hh in Hv. by injection Hv. }
  destruct Hc as (c & Hh & Hv).
  assert (Hin : c ∈ db_conversations (sy_db (played cafe_schedule))).
  { destruct (db_conversations _); [done|]. injection Hh as ->. by left. }
  exists c. split; [exact Hin|]. split; [exact Hv|].
  exact (life_conversations_consistent (played cafe_schedule) c cafe_reachable Hin).
Defined.

(** * A selector that cannot follow *)

(** The selector's table leaves out a drink the task accepts: the validators let it
    pass, the child may choose it, and the turn that should open the next task
    raises.  No scenario of the content code declares a selector so far. *)
Definition half_table : LifeScenarioPackV2 := cafe L2 [("juice", "juice")].

Lemma half_start_ok : is_ok (start_of half_table) = true.
Proof. vm_compute. reflexivity. Qed.
Definition half_start : LifeState * TurnContract := from_ok _ half_start_ok.

Theorem accepted_answer_can_strand :
  life_scenario_validate half_table = Ok half_table
  /\ start_of half_table = Ok half_start
  /\ gate (tc_input half_start.2) (tc_turn_id half_start.2) (choose "turn-1" "milk") = Ok tt
  /\ choice_turn half_start.1 "turn-1" "milk" "turn-2" "note-2" = Raise no_mapping.
Proof.
  split; [vm_compute; reflexivity|]. split; [apply from_ok_eq|].
  split; vm_compute; reflexivity.
Qed.
